(* ===== verification/_CoqProject ===== *)
-Q . S2P
Prelude.v
Model.v
External.v
Validate.v
Scheme.v
Defaults.v
CellState.v
Sha256.v
Naming.v
Template.v
Blueprint.v
Config.v
Layout.v
Reclaim.v
Parser.v
Fs.v
Objects.v
Observe.v
Refresh.v
Diff.v
SpecHash.v
Apply.v
Facade.v
Documents.v
OutOfSync.v
CellOps.v
OciSpec.v
Containerd.v
Namespaces.v
Subnet.v
NetPolicy.v
Lock.v
Store.v
Sha512.v
Cni.v
Teardown.v
Attachable.v
BringUp.v
BringUpTheorems.v
Cgroups.v
Scopes.v
ScopeTeardown.v
DiskPressure.v
CellChange.v
ScopeOps.v
Lookup.v
Teams.v
TeamRender.v
