(* ===== verification/Prelude.v ===== *)
(** * A verification library for kukeon

    kukeon is a single-host container runtime.  A daemon keeps a hierarchy of
    realms, spaces, stacks and cells as metadata documents on disk, drives
    containerd, cgroups, CNI and iptables to make the host match them, and runs a
    periodic reconcile pass over every cell.  This library models the parts that
    decide what is done to a cell and to the host around it, and proves what they
    promise.

    ** The program's parts and the files that model them

    - [Prelude] (this file): Go errors, results, strings, integers, maps, a state
      monad and its footprint reasoning ([respects], hint database [frame]).
    - [Model]: the structs and enums of internal/modelhub, field by field.  A nil
      pointer is [None]; a pointer whose identity is compared is a [Ptr].
    - [External]: the API documents of pkg/api/model/v1beta1 (Module [ext]) and the
      text and integer forms of their states (state_marshal.go).
    - [Validate], [Scheme], [Defaults]: internal/apischeme (validation, conversion to
      and from the internal model, normalisation) and modelhub/merge.go.
    - [Template], [Blueprint], [Config]: internal/cellblueprint and internal/cellconfig
      with their carriers in apischeme: parameters, substitution over the YAML tree,
      slot filling, per-cell volumes, env overlays.
    - [Layout], [Reclaim]: the paths of internal/util/fs/metadata.go over filepath.Join
      and Clean; scope_children.go and reclaim_scope.go on a directory tree.
    - [Parser]: internal/apply/parser: splitting, decoding, validation of documents.
    - [Fs]: the system calls the object store makes, on a tree of inodes, each of which
      may fail; [Objects]: runner secret.go, blueprint.go, config.go, volume.go,
      volume_meta.go and ctr/volume_ref.go on top of it.
    - [Facade]: controller secret.go, volume.go, blueprint.go and config.go;
      [Documents]: controller documents.go, apply.go and delete_documents.go.
    - [OutOfSync]: controller reconcile.go and reconcile_outofsync.go, the tick over the
      hierarchy and the drift of a cell from its configuration; [CellOps]: the controller's
      operations on cells (create_cell.go, start_cell.go, stop_cell.go, kill_cell.go,
      delete_cell.go, purge_cell.go, get_cell.go, percell_volume.go).  The runner's other
      operations are the class [CellRunner].
    - [OciSpec]: internal/ctr/spec.go, container_utils.go, attachable.go and devices.go, the
      OCI spec of a container as a list of options and what the options do to it;
      [Containerd]: internal/ctr/container.go, cache.go, task.go and image.go, the client
      and its caches of handles; [Namespaces]: internal/ctr/namespaces.go.
    - [Sha512]: crypto/sha512, executable; [Cni]: internal/cni and util/fs/space.go (networks,
      conflists, bridges, attaching and detaching) and the network clean-up of
      runner/helpers.go; [Teardown]: runner stop.go, kill.go, delete_cell.go,
      delete_container.go, purge_cell.go, purge_container.go, lifecycle.go and the orphan
      helpers of helpers.go, over [Containerd], [Cni] and the metadata class [RunnerStore].
    - [Attachable]: what a container needs on the host before it runs (runner attachable.go,
      kukepause.go, cell_etc_files.go, cell_cgroup_path.go, the ownership of volumes,
      ctr/secrets.go, CreateContainerFromSpec); [BringUp]: creating, ensuring and starting a
      cell's containers (runner start.go and the second half of provision.go);
      [BringUpTheorems]: what a start guarantees.
    - [Cgroups]: the cgroup side of the containerd client (ctr/cgroups.go, cgroup_mount.go,
      cgroup_resources.go, cgroups_utils.go) and internal/cgroupcheck; [Scopes]: creating,
      ensuring and updating realms, spaces and stacks (the first half of runner/provision.go,
      create_realm.go, create_space.go, create_stack.go and their updates, exists.go);
      [ScopeTeardown]: deleting and purging them (runner delete_realm.go, purge_realm.go and
      their like); [ScopeOps]: the controller's operations on top (controller create_realm.go,
      get_realm.go, delete_realm.go, purge_realm.go and their like, refresh.go); [Lookup]:
      reading and listing the recorded hierarchy (runner get.go).
    - [DiskPressure]: internal/util/diskpressure with its guard and its warnings; [CellChange]:
      creating, recreating and updating cells (runner create_cell.go, recreate_cell.go,
      update_cell.go, create_container.go, update_container.go).
    - [Teams]: the operator's team documents (pkg/api/model/kuketeams), their parser
      (internal/kuketeams), the clone of the agents source (internal/teamsource) and the
      operator's files (internal/teamhost/teamhost.go); [TeamRender]: the blueprints, configs
      and secrets rendered from them (internal/teamrender/teamrender.go, internal/teamsecrets).
    - [CellState]: the pure functions of internal/controller/runner/refresh.go:
      state derivation, stickiness, auto-delete, wind-down and restart-policy
      gates, failure breadcrumb.
    - [Sha256]: crypto/sha256, encoding/hex and hash/fnv, executable.
    - [Naming]: internal/util/naming, the lock key of runner/cell_lock.go, the
      bridge name of internal/cni/config.go, socket paths of internal/util/fs.
    - [Observe]: runner/container_state.go, stage_status.go, the populate pass of
      helpers.go, setup_status_client.go and the task-status conversion of
      internal/ctr/task.go.  The containerd client, the clock and the kuketty
      socket are the operations of the class [ContainerHost].
    - [Refresh]: ReconcileCell with the restart machine, wind-down and
      auto-delete, and the on-demand refresh of realms, spaces, stacks and cells
      (runner/refresh.go).  The state is the daemon's in-memory restart
      bookkeeping beside the host's; probes, metadata writes, start, kill and
      delete are the operations of [RunnerHost].
    - [Diff]: internal/controller/apply/diff.go.  Go's map iteration order is an
      explicit argument of [DiffCell].
    - [SpecHash]: runner/spec_hash.go, the tamper guard on reused containers.
      json.Marshal and the container handles of containerd are parameters.
    - [Apply]: internal/controller/apply/reconcile.go, on top of [Diff], against
      the Runner interface as the class [ApplyRunner].
    - [Subnet]: internal/cni/subnet.go over a modelled metadata tree, addresses
      as 32-bit words.
    - [NetPolicy]: internal/netpolicy, internal/firewall and runner/egress.go:
      validation, resolution, rule generation and the two iptables enforcers,
      against any command runner that drives a rule table as iptables documents.
    - [Lock]: runner/cell_lock.go as a transition system over goroutines.
    - [Store]: internal/metadata and runner/metadata.go: atomic writes,
      compare-and-swap, the generation protocol, and the sidecar flock as a
      transition system over processes and inodes.

    How they meet: [Parser] yields the documents [Documents] sorts, converts through
    [Scheme], [Blueprint] and [Config] and hands to the reconcilers of [Apply]; [Facade]
    composes [Apply] and [Objects]; the paths of [Objects] and [Reclaim] are those of
    [Layout]; [OutOfSync] ticks over [Refresh] and compares with [Config] through [Diff];
    [CellOps] goes through [Apply] for volumes and through [OutOfSync] for a drifted cell;
    [Apply] calls [Diff]; [Refresh] calls [Observe], [CellState]
    and [Naming]; a reconcile pass runs under the lock of [Lock], whose key is
    [Naming.cellLockKey]; [CellChange] composes [Scopes], [BringUp], [Teardown] and
    [DiskPressure]; [Scopes] makes cgroups through an interface [Cgroups] implements and networks
    through [Cni]; [ScopeTeardown] drains with [Namespaces]; [ScopeOps] works on what [Lookup]
    lists; [TeamRender] renders documents [Documents] applies; status writes of [Refresh] and of [Apply]'s runner end
    in the writers of [Store]; [NetPolicy] takes its bridge name from [Naming] and
    its address arithmetic from [Subnet].

    ** What the theorems show

    - Reconcile ([Refresh], [CellState]): a pass reaps a cell only when its work is
      done and its policies permit it, and else at most relaunches it; sticky cells
      are left to the operator; outcomes are exact; an owed restart holds the cell in
      Degraded; on-failure relaunches are capped over any sequence of passes; the one-pass
      derivation agrees with a declarative verdict over the workloads; the
      breadcrumb names a failing workload.
    - Observation ([Observe]): rebuilding statuses keeps recorded history and a
      consistent exit record; finished create stages are remembered across
      stop/start and gated exactly.
    - Apply ([Diff], [Apply]): diffs are exact (no change reported if and only if
      the tracked fields, listed one by one, agree), breaking
      exactly for the baked fields, independent of map order where it matters;
      an unchanged cell is not touched; scoped kinds write only themselves; a
      success never hides a dead cell.
    - Documents ([Parser], [Documents]): splitting undoes joining, a parsed document
      carries the payload of its kind, a validated secret or volume stays in its realm;
      an apply answers for every document; a team apply prunes exactly the listed
      objects of the team whose documents did not go in.
    - Tick and cell operations ([OutOfSync], [CellOps]): every listed cell is reconciled
      once per tick whatever fails, a drift verdict settles after one tick, a cell that is
      gone is not written again; a start never duplicates a live workload, materialising
      never starts, normalised cells own their containers.
    - Containers ([OciSpec], [Containerd], [Namespaces]): a container gets exactly the host
      access its spec asks for, the operator's environment wins, an attachable container
      runs the wrapper; deletion through stale handles is exact; draining a snapshotter
      ends with nothing left.
    - Networks and teardown ([Cni], [Teardown]): the conflist of a space is read back as it
      was written; the sweep of the NAT table removes exactly the container's jumps although
      lines renumber; stopping keeps every container; deleting takes the cell's containers
      only, all of them on success, and keeps the record while one is left; no plugin runs
      in the daemon's own network namespace.
    - Bring-up ([BringUp], [BringUpTheorems], [Attachable]): a start reports a cell as ready
      only after everything was started and every task was then seen running, its probe ends,
      it makes the cell's containers only, a host-network cell is attached to nothing, a
      failure in bringing it up is recorded before and after the tasks are killed; creating makes
      all containers and records them; secrets are mounted read-only, one entry each.
    - Scopes ([Cgroups], [Scopes], [ScopeTeardown], [ScopeOps], [Lookup]): cgroups of different
      scopes differ and delegate what is asked; a realm that fails half-way is marked, an ensured
      network is not renumbered; a scope's record is removed last and a purge reports the
      namespaces as they are; a deletion works from the bottom up, stops at the first failure
      and leaves every scope above it alone; listings show exactly the readable documents that
      belong.
    - Changing cells ([CellChange], [DiskPressure]): a failed creation or recreation is recorded,
      an update removes only what the new spec drops or changes, its comparison and the spec hash
      differ in known fields; creating a cell on a full volume is refused before anything is
      written, whatever the rounding; warnings are rate-limited.
    - Teams ([Teams], [TeamRender]): accepted sources and names stay in their directories, a
      source is in the cache after a clone exactly when it succeeded; every role and harness gets
      one blueprint and one config that belong together, on an image with all capabilities asked
      for; what a config binds is composed or reported as empty, and resolves when its key is
      spelled as the name of a secret; files of secrets are never overwritten.
    - Conversion ([Scheme], [Defaults]): the conversion accepts exactly the well-formed cells,
      converting to a document and back loses exactly what is not persisted, space defaults have the
      documented precedence.
    - Materialisation ([Template], [Blueprint], [Config]): substitution is exact,
      parameters resolve in the documented order, required slots are never dropped,
      per-cell volumes are private.
    - Object store ([Layout], [Objects], [Facade], [Reclaim]): paths of plain names determine
      resources, the files refine a map under any failures, secrets are never readable by
      others, create-only never overwrites, deletion gates hold, retained volumes survive the
      reclaim of a scope's metadata.
    - Spec hash ([SpecHash]): on a container this daemon stamped the guard refuses exactly on
      a change of the watched fields, given an encoding and a digest without collisions on
      the two specs, and heals a change of its hash domain in one start.
    - Addresses and names ([Subnet], [Naming]): subnets allocated for plain names never overlap,
      allocation is idempotent and takes the lowest free chunk; containerd IDs
      determine their container.
    - Firewall ([NetPolicy]): an applied policy decides packets exactly as the
      policy says, loading it never opens the space meanwhile, application is
      idempotent and local, host admission never shadows a space's egress.
    - Concurrency ([Lock], [Store]): per-cell mutual exclusion, no leak, no
      deadlock, no blocking between cells; compare-and-swap is atomic as long as
      nothing is deleted, and no spec update is lost.
    - Some theorems state what the code does where a comment or a doc says
      otherwise ([refresh_unsticks_failed_cell], [volume_ref_compared_by_pointer],
      [delete_lets_two_writers_in], [host_network_switch_unseen_by_guard] and others).

    Where a theorem is about the order of calls, the host carries a log: each operation of a
    class runs beside it ([beside]) and those the theorem speaks of add an entry ([logging]),
    so that nothing is assumed of the operations themselves ([on_failure_attempts_capped],
    [tick_visits_every_cell], [deletion_bottom_up]).

    ** Conventions, bounds and fuel

    A string is a list of bytes; [TrimSpace] and the splitting into words know the six ASCII white-space
    bytes, where Go's also know the other Unicode spaces, and letters change case in ASCII
    only.
    An integer of fixed width is a [Z]; where it can wrap, the wrap is written out
    ([wrap64], [w32], [saturate64]).  A time is a [Z] of nanoseconds whose zero is
    Go's zero time.  An error keeps its tree of wrapped sentinels and the literal
    format text, not the rendered arguments.  Loops are structural except
    [Naming.allocLoop], which runs the source's 64 attempts, [Subnet.firstFreeFrom],
    which visits each chunk of the parent once, [Sha256.chunks], whose fuel is the
    number of blocks, and [NetPolicy.evalRules], whose depth bounds nested jumps:
    kukeon's chains are nested two deep below FORWARD; [OciSpec.walkHostDevices] descends
    as deep as a path can be long, [Namespaces.snapshotPasses] runs the source's 32
    passes, and [BringUp.pollLive] polls seven times, which covers the 300 ms window at 50 ms
    a poll ([liveness_probe_ends]).  Every modelled function is
    total, so a hypothesis about its result never hides a divergence.

    Code outside the source (containerd, iptables, encoding/json, DNS) is an
    operation of a class; the laws assumed of it are the fields of
    [DrivesTable], [JsonLaws], [ContainerdLaws], [NatLaws], [ConflistLaws], [DetachLaws],
    [ClockLaws], [AttachLaws], [CgroupLaws], [NetworkLaws], [NamespaceLaws], [SnapshotLaws], [DirLaws] and [FileLaws] and
    the frames named in the theorems ([ScopeFrame], [ScopeRespects] and others), and each
    theorem with hypotheses has a concrete witness.

    ** Not modelled

    The daemon's RPC layer and the command line (they forward to the operations modelled here),
    the setup and removal of the host (bootstrap.go, uninstall.go, unmount.go, daemon_stop.go:
    systemd units, users, mounts and signals), the terminal supervisor inside containers
    (cmd/kuketty; the daemon's side of its protocol is in [Observe]), the listing of images and
    the metrics of the containerd client, and of the team tooling the checks of a source
    (teamrender/validate.go), the state directories (teamhost/provision.go) and the image builds
    (teambuild). *)

From stdpp Require Import base gmap strings list pretty.

(** ** Notation scope *)

Declare Scope kuke_scope.
Delimit Scope kuke_scope with kuke.
Open Scope kuke_scope.

(** ** Errors

    Go errors are trees: a sentinel of internal/errdefs, an opaque error
    (errors.New, or one that came from outside), or a fmt.Errorf value that
    wraps other errors through its %w verbs.  The model keeps the tree and the
    literal text of the format, and leaves the rendered arguments out.  [EPanic]
    is a run-time panic, which unwinds to the caller like an error it passes on. *)

Inductive errdef :=
| ErrRealmNotFound | ErrSpaceNotFound | ErrStackNotFound | ErrCellNotFound
| ErrBlueprintNotFound | ErrContainerNotFound | ErrTaskNotFound
| ErrStaleResource | ErrMissingMetadataFile | ErrWriteMetadata | ErrConversionFailed
| ErrInvalidName | ErrInvalidRealmName
| ErrRealmNameRequired | ErrSpaceNameRequired | ErrStackNameRequired | ErrCellIDRequired
| ErrConnectContainerd | ErrCellReconcileFailed | ErrCellSpecHashDrift
| ErrSecretScopeNotFound | ErrBlueprintScopeNotFound | ErrVolumeScopeNotFound
| ErrConfigScopeNotFound | ErrConfigBlueprintNotFound | ErrConfigExists
| ErrConfig | ErrInvalidSubnetCIDR | ErrSubnetStateCorrupt | ErrSubnetExhausted
| ErrEgressInvalidDefault | ErrEgressRuleTargetRequired | ErrEgressRuleTargetConflict
| ErrEgressInvalidCIDR | ErrEgressInvalidHost | ErrEgressInvalidPort
| ErrEgressHostResolution | ErrEgressApply | ErrEgressRemove
| ErrForwardAdmissionApply | ErrForwardAdmissionRemove
| ErrMultipleRootContainers | ErrRootContainerMismatch
| ErrVolumeTmpfsSourceForbidden | ErrVolumeKindUnknown | ErrVolumeRefSourceExclusive
| ErrVolumeRefSourceMissing | ErrVolumeSourceNotName | ErrVolumeCoordUnsafe
| ErrVolumeTargetRequired | ErrVolumeTargetNotAbsolute | ErrVolumeRefNameRequired
| ErrVolumeRefRealmRequired | ErrVolumeRefScopeIncomplete
| ErrBlueprintInvalid | ErrBlueprintStructuralSlots | ErrConfigUnknownRepoSlot
| ErrConfigUnknownSecretSlot | ErrConfigRequiredSlotUnfilled | ErrConfigNotFound
| ErrUnsupportedAPIVersion | ErrUnknownKind | ErrSecretDataRequired | ErrSecretCoordUnsafe
| ErrBlueprintNameRequired | ErrBlueprintCellRequired | ErrBlueprintRealmRequired
| ErrBlueprintScopeIncomplete | ErrVolumeNameRequired | ErrVolumeRealmRequired
| ErrVolumeScopeIncomplete | ErrVolumeReclaimPolicyInvalid | ErrRepoNameRequired
| ErrRepoTargetRequired | ErrRepoTargetNotAbsolute | ErrRepoBranchRefMutex | ErrRepoURLRequired
| ErrBlueprintSecretSlotNameRequired | ErrBlueprintSecretSlotEnvName
| ErrBlueprintSecretSlotMountPath | ErrBlueprintSecretSlotMode | ErrConfigNameRequired
| ErrConfigRealmRequired | ErrConfigScopeIncomplete | ErrConfigBlueprintRefRequired
| ErrConfigBlueprintRefScopeIncomplete | ErrConfigRepoFillURLRequired
| ErrConfigSecretFillRefRequired | ErrSecretRealmRequired | ErrSecretScopeIncomplete
| ErrSecretNameRequired | ErrSecretSourceRequired | ErrSecretMultipleSources
| ErrSecretMountPathNotAbsolute | ErrSecretRefNameRequired | ErrSecretRefRealmRequired
| ErrSecretRefScopeIncomplete
| ErrAttachAmbiguous | ErrAttachNoCandidate | ErrAttachNotSupported
| ErrAttachPermissionDenied | ErrAttachPingTimeout | ErrAttachStaleSocket
| ErrAttachTaskNotRunning | ErrBridgeNameTooLong | ErrBridgePluginMissing
| ErrCNIPluginNotFound | ErrCNIVethExists | ErrCellNameRequired | ErrCellWindDownImmediate
| ErrCheckNamespaceExists | ErrCheckNetworkExists | ErrContainerExists
| ErrContainerNameRequired | ErrControllerNoChange | ErrCreateCell | ErrCreateCellCgroup
| ErrCreateConfig | ErrCreateNamespace | ErrCreateNetwork | ErrCreateRealm
| ErrCreateRealmCgroup | ErrCreateRealmNamespace | ErrCreateRootContainer | ErrCreateSpace
| ErrCreateSpaceCgroup | ErrCreateStack | ErrCreateStackCgroup | ErrDefaultingFailed
| ErrDeleteBlueprint | ErrDeleteCell | ErrDeleteConfig | ErrDeleteContainer | ErrDeleteImage
| ErrDeleteRealm | ErrDeleteSecret | ErrDeleteSpace | ErrDeleteStack | ErrDeleteVolume
| ErrDiskPressure | ErrEmptyCellID | ErrEmptyContainerID | ErrEmptyGroupPath | ErrEmptyRealmID
| ErrEmptySpaceID | ErrEmptyStackID | ErrExplicitRootHostNetworkMismatch | ErrGetBlueprint
| ErrGetCell | ErrGetConfig | ErrGetImage | ErrGetRealm | ErrGetSecret | ErrGetSpace
| ErrGetStack | ErrGetVolume | ErrHostNotInitialized | ErrImageNotFound | ErrImageRequired
| ErrImageTagRequired | ErrInitCniManager | ErrInstanceMismatch | ErrInternalImageNotBuilt
| ErrInvalidCPUWeight | ErrInvalidIOWeight | ErrInvalidImage | ErrInvalidLeafName
| ErrInvalidPID | ErrInvalidThrottle | ErrListBlueprints | ErrListConfigs | ErrListImages
| ErrListSecrets | ErrListVolumes | ErrLoadImage | ErrNamespaceAlreadyExists
| ErrNetworkAlreadyExists | ErrNetworkConfigNotLoaded | ErrNetworkNotFound | ErrPruneImages
| ErrResourceHasDependencies | ErrSecretFromEnvNotSet | ErrSecretFromFileNotFound
| ErrSecretInUse | ErrSecretNotFound | ErrSecretRefNotFound | ErrSecretStagingFailed
| ErrSelectorWithName | ErrSocketPathTooLong | ErrSpaceDocRequired | ErrTarballRequired
| ErrTaskNotRunning | ErrUpdateCellMetadata | ErrUpdateRealmMetadata | ErrUpdateSpaceMetadata
| ErrUpdateStackMetadata | ErrVolumeInUse | ErrVolumeNotFound | ErrVolumeSourceNotAbsolute
| ErrVolumeSourceNotFound | ErrVolumeSourceRequired | ErrWriteBlueprint | ErrWriteConfig
| ErrWriteSecret | ErrWriteVolume
| ErrLoggerNotFound | ErrKukebuildNotFound | ErrServerConfigurationInvalid
| ErrClientConfigurationInvalid | ErrMustRunAsRoot | ErrTeamMetadataNameRequired
| ErrTeamSourceInvalid | ErrTeamSourceStringForm | ErrTeamRoleRefRequired
| ErrTeamImageCapabilityInvalid | ErrTeamHarnessUnknown | ErrTeamGitIdentityIncomplete
| ErrTeamGitSignInvalid | ErrTeamGitSignNeedsKey | ErrTeamSecretSourceInvalid
| ErrTeamSourceKeyInvalid | ErrTeamEntryNameRequired | ErrTeamMetadataNameUnsafe
| ErrTeamProjectDirInvalid | ErrTeamProjectFileNotFound | ErrTeamProjectFileKind
| ErrTeamHarnessFieldRequired | ErrTeamImageRefRequired | ErrTeamImageImageRequired
| ErrTeamImageBuildRequired | ErrTeamImageCapabilitiesRequired | ErrTeamRoleFileKind
| ErrTeamHarnessFileKind | ErrTeamImageCatalogFileKind | ErrTeamImageNoMatch
| ErrTeamRoleNotLoaded | ErrTeamHarnessNotLoaded | ErrTeamBlueprintTemplateMissing
| ErrTeamBuildContextMissing | ErrTeamBuildBaseMissing | ErrTeamBuildCycle
| ErrTeamHarnessSeedPathRequired | ErrTeamHarnessSeedModeInvalid
| ErrTeamHarnessSeedPathEscapes | ErrTeamValidateGaps | ErrTeamApplyFailed.

(** The sentinels in order, and the position of each: equality of sentinels is
    equality of positions. *)
Definition errdefs : list errdef := [
  ErrRealmNotFound; ErrSpaceNotFound; ErrStackNotFound; ErrCellNotFound; ErrBlueprintNotFound;
  ErrContainerNotFound; ErrTaskNotFound; ErrStaleResource; ErrMissingMetadataFile;
  ErrWriteMetadata; ErrConversionFailed; ErrInvalidName; ErrInvalidRealmName;
  ErrRealmNameRequired; ErrSpaceNameRequired; ErrStackNameRequired; ErrCellIDRequired;
  ErrConnectContainerd; ErrCellReconcileFailed; ErrCellSpecHashDrift; ErrSecretScopeNotFound;
  ErrBlueprintScopeNotFound; ErrVolumeScopeNotFound; ErrConfigScopeNotFound;
  ErrConfigBlueprintNotFound; ErrConfigExists; ErrConfig; ErrInvalidSubnetCIDR;
  ErrSubnetStateCorrupt; ErrSubnetExhausted; ErrEgressInvalidDefault;
  ErrEgressRuleTargetRequired; ErrEgressRuleTargetConflict; ErrEgressInvalidCIDR;
  ErrEgressInvalidHost; ErrEgressInvalidPort; ErrEgressHostResolution; ErrEgressApply;
  ErrEgressRemove; ErrForwardAdmissionApply; ErrForwardAdmissionRemove;
  ErrMultipleRootContainers; ErrRootContainerMismatch; ErrVolumeTmpfsSourceForbidden;
  ErrVolumeKindUnknown; ErrVolumeRefSourceExclusive; ErrVolumeRefSourceMissing;
  ErrVolumeSourceNotName; ErrVolumeCoordUnsafe; ErrVolumeTargetRequired;
  ErrVolumeTargetNotAbsolute; ErrVolumeRefNameRequired; ErrVolumeRefRealmRequired;
  ErrVolumeRefScopeIncomplete; ErrBlueprintInvalid; ErrBlueprintStructuralSlots;
  ErrConfigUnknownRepoSlot; ErrConfigUnknownSecretSlot; ErrConfigRequiredSlotUnfilled;
  ErrConfigNotFound; ErrUnsupportedAPIVersion; ErrUnknownKind; ErrSecretDataRequired;
  ErrSecretCoordUnsafe; ErrBlueprintNameRequired; ErrBlueprintCellRequired;
  ErrBlueprintRealmRequired; ErrBlueprintScopeIncomplete; ErrVolumeNameRequired;
  ErrVolumeRealmRequired; ErrVolumeScopeIncomplete; ErrVolumeReclaimPolicyInvalid;
  ErrRepoNameRequired; ErrRepoTargetRequired; ErrRepoTargetNotAbsolute; ErrRepoBranchRefMutex;
  ErrRepoURLRequired; ErrBlueprintSecretSlotNameRequired; ErrBlueprintSecretSlotEnvName;
  ErrBlueprintSecretSlotMountPath; ErrBlueprintSecretSlotMode; ErrConfigNameRequired;
  ErrConfigRealmRequired; ErrConfigScopeIncomplete; ErrConfigBlueprintRefRequired;
  ErrConfigBlueprintRefScopeIncomplete; ErrConfigRepoFillURLRequired;
  ErrConfigSecretFillRefRequired; ErrSecretRealmRequired; ErrSecretScopeIncomplete;
  ErrSecretNameRequired; ErrSecretSourceRequired; ErrSecretMultipleSources;
  ErrSecretMountPathNotAbsolute; ErrSecretRefNameRequired; ErrSecretRefRealmRequired;
  ErrSecretRefScopeIncomplete; ErrAttachAmbiguous; ErrAttachNoCandidate; ErrAttachNotSupported;
  ErrAttachPermissionDenied; ErrAttachPingTimeout; ErrAttachStaleSocket; ErrAttachTaskNotRunning;
  ErrBridgeNameTooLong; ErrBridgePluginMissing; ErrCNIPluginNotFound; ErrCNIVethExists;
  ErrCellNameRequired; ErrCellWindDownImmediate; ErrCheckNamespaceExists; ErrCheckNetworkExists;
  ErrContainerExists; ErrContainerNameRequired; ErrControllerNoChange; ErrCreateCell;
  ErrCreateCellCgroup; ErrCreateConfig; ErrCreateNamespace; ErrCreateNetwork; ErrCreateRealm;
  ErrCreateRealmCgroup; ErrCreateRealmNamespace; ErrCreateRootContainer; ErrCreateSpace;
  ErrCreateSpaceCgroup; ErrCreateStack; ErrCreateStackCgroup; ErrDefaultingFailed;
  ErrDeleteBlueprint; ErrDeleteCell; ErrDeleteConfig; ErrDeleteContainer; ErrDeleteImage;
  ErrDeleteRealm; ErrDeleteSecret; ErrDeleteSpace; ErrDeleteStack; ErrDeleteVolume;
  ErrDiskPressure; ErrEmptyCellID; ErrEmptyContainerID; ErrEmptyGroupPath; ErrEmptyRealmID;
  ErrEmptySpaceID; ErrEmptyStackID; ErrExplicitRootHostNetworkMismatch; ErrGetBlueprint;
  ErrGetCell; ErrGetConfig; ErrGetImage; ErrGetRealm; ErrGetSecret; ErrGetSpace; ErrGetStack;
  ErrGetVolume; ErrHostNotInitialized; ErrImageNotFound; ErrImageRequired; ErrImageTagRequired;
  ErrInitCniManager; ErrInstanceMismatch; ErrInternalImageNotBuilt; ErrInvalidCPUWeight;
  ErrInvalidIOWeight; ErrInvalidImage; ErrInvalidLeafName; ErrInvalidPID; ErrInvalidThrottle;
  ErrListBlueprints; ErrListConfigs; ErrListImages; ErrListSecrets; ErrListVolumes; ErrLoadImage;
  ErrNamespaceAlreadyExists; ErrNetworkAlreadyExists; ErrNetworkConfigNotLoaded;
  ErrNetworkNotFound; ErrPruneImages; ErrResourceHasDependencies; ErrSecretFromEnvNotSet;
  ErrSecretFromFileNotFound; ErrSecretInUse; ErrSecretNotFound; ErrSecretRefNotFound;
  ErrSecretStagingFailed; ErrSelectorWithName; ErrSocketPathTooLong; ErrSpaceDocRequired;
  ErrTarballRequired; ErrTaskNotRunning; ErrUpdateCellMetadata; ErrUpdateRealmMetadata;
  ErrUpdateSpaceMetadata; ErrUpdateStackMetadata; ErrVolumeInUse; ErrVolumeNotFound;
  ErrVolumeSourceNotAbsolute; ErrVolumeSourceNotFound; ErrVolumeSourceRequired;
  ErrWriteBlueprint; ErrWriteConfig; ErrWriteSecret; ErrWriteVolume;
  ErrLoggerNotFound; ErrKukebuildNotFound; ErrServerConfigurationInvalid;
  ErrClientConfigurationInvalid; ErrMustRunAsRoot; ErrTeamMetadataNameRequired;
  ErrTeamSourceInvalid; ErrTeamSourceStringForm; ErrTeamRoleRefRequired;
  ErrTeamImageCapabilityInvalid; ErrTeamHarnessUnknown; ErrTeamGitIdentityIncomplete;
  ErrTeamGitSignInvalid; ErrTeamGitSignNeedsKey; ErrTeamSecretSourceInvalid;
  ErrTeamSourceKeyInvalid; ErrTeamEntryNameRequired; ErrTeamMetadataNameUnsafe;
  ErrTeamProjectDirInvalid; ErrTeamProjectFileNotFound; ErrTeamProjectFileKind;
  ErrTeamHarnessFieldRequired; ErrTeamImageRefRequired; ErrTeamImageImageRequired;
  ErrTeamImageBuildRequired; ErrTeamImageCapabilitiesRequired; ErrTeamRoleFileKind;
  ErrTeamHarnessFileKind; ErrTeamImageCatalogFileKind; ErrTeamImageNoMatch;
  ErrTeamRoleNotLoaded; ErrTeamHarnessNotLoaded; ErrTeamBlueprintTemplateMissing;
  ErrTeamBuildContextMissing; ErrTeamBuildBaseMissing; ErrTeamBuildCycle;
  ErrTeamHarnessSeedPathRequired; ErrTeamHarnessSeedModeInvalid; ErrTeamHarnessSeedPathEscapes;
  ErrTeamValidateGaps; ErrTeamApplyFailed ].

Definition errdef_index (e : errdef) : nat :=
  match e with
  | ErrRealmNotFound => 0 | ErrSpaceNotFound => 1 | ErrStackNotFound => 2 | ErrCellNotFound => 3
  | ErrBlueprintNotFound => 4 | ErrContainerNotFound => 5 | ErrTaskNotFound => 6
  | ErrStaleResource => 7 | ErrMissingMetadataFile => 8 | ErrWriteMetadata => 9
  | ErrConversionFailed => 10 | ErrInvalidName => 11 | ErrInvalidRealmName => 12
  | ErrRealmNameRequired => 13 | ErrSpaceNameRequired => 14 | ErrStackNameRequired => 15
  | ErrCellIDRequired => 16 | ErrConnectContainerd => 17 | ErrCellReconcileFailed => 18
  | ErrCellSpecHashDrift => 19 | ErrSecretScopeNotFound => 20 | ErrBlueprintScopeNotFound => 21
  | ErrVolumeScopeNotFound => 22 | ErrConfigScopeNotFound => 23
  | ErrConfigBlueprintNotFound => 24 | ErrConfigExists => 25 | ErrConfig => 26
  | ErrInvalidSubnetCIDR => 27 | ErrSubnetStateCorrupt => 28 | ErrSubnetExhausted => 29
  | ErrEgressInvalidDefault => 30 | ErrEgressRuleTargetRequired => 31
  | ErrEgressRuleTargetConflict => 32 | ErrEgressInvalidCIDR => 33 | ErrEgressInvalidHost => 34
  | ErrEgressInvalidPort => 35 | ErrEgressHostResolution => 36 | ErrEgressApply => 37
  | ErrEgressRemove => 38 | ErrForwardAdmissionApply => 39 | ErrForwardAdmissionRemove => 40
  | ErrMultipleRootContainers => 41 | ErrRootContainerMismatch => 42
  | ErrVolumeTmpfsSourceForbidden => 43 | ErrVolumeKindUnknown => 44
  | ErrVolumeRefSourceExclusive => 45 | ErrVolumeRefSourceMissing => 46
  | ErrVolumeSourceNotName => 47 | ErrVolumeCoordUnsafe => 48 | ErrVolumeTargetRequired => 49
  | ErrVolumeTargetNotAbsolute => 50 | ErrVolumeRefNameRequired => 51
  | ErrVolumeRefRealmRequired => 52 | ErrVolumeRefScopeIncomplete => 53
  | ErrBlueprintInvalid => 54 | ErrBlueprintStructuralSlots => 55
  | ErrConfigUnknownRepoSlot => 56 | ErrConfigUnknownSecretSlot => 57
  | ErrConfigRequiredSlotUnfilled => 58 | ErrConfigNotFound => 59
  | ErrUnsupportedAPIVersion => 60 | ErrUnknownKind => 61 | ErrSecretDataRequired => 62
  | ErrSecretCoordUnsafe => 63 | ErrBlueprintNameRequired => 64 | ErrBlueprintCellRequired => 65
  | ErrBlueprintRealmRequired => 66 | ErrBlueprintScopeIncomplete => 67
  | ErrVolumeNameRequired => 68 | ErrVolumeRealmRequired => 69 | ErrVolumeScopeIncomplete => 70
  | ErrVolumeReclaimPolicyInvalid => 71 | ErrRepoNameRequired => 72 | ErrRepoTargetRequired => 73
  | ErrRepoTargetNotAbsolute => 74 | ErrRepoBranchRefMutex => 75 | ErrRepoURLRequired => 76
  | ErrBlueprintSecretSlotNameRequired => 77 | ErrBlueprintSecretSlotEnvName => 78
  | ErrBlueprintSecretSlotMountPath => 79 | ErrBlueprintSecretSlotMode => 80
  | ErrConfigNameRequired => 81 | ErrConfigRealmRequired => 82 | ErrConfigScopeIncomplete => 83
  | ErrConfigBlueprintRefRequired => 84 | ErrConfigBlueprintRefScopeIncomplete => 85
  | ErrConfigRepoFillURLRequired => 86 | ErrConfigSecretFillRefRequired => 87
  | ErrSecretRealmRequired => 88 | ErrSecretScopeIncomplete => 89 | ErrSecretNameRequired => 90
  | ErrSecretSourceRequired => 91 | ErrSecretMultipleSources => 92
  | ErrSecretMountPathNotAbsolute => 93 | ErrSecretRefNameRequired => 94
  | ErrSecretRefRealmRequired => 95 | ErrSecretRefScopeIncomplete => 96
  | ErrAttachAmbiguous => 97 | ErrAttachNoCandidate => 98 | ErrAttachNotSupported => 99
  | ErrAttachPermissionDenied => 100 | ErrAttachPingTimeout => 101 | ErrAttachStaleSocket => 102
  | ErrAttachTaskNotRunning => 103 | ErrBridgeNameTooLong => 104 | ErrBridgePluginMissing => 105
  | ErrCNIPluginNotFound => 106 | ErrCNIVethExists => 107 | ErrCellNameRequired => 108
  | ErrCellWindDownImmediate => 109 | ErrCheckNamespaceExists => 110
  | ErrCheckNetworkExists => 111 | ErrContainerExists => 112 | ErrContainerNameRequired => 113
  | ErrControllerNoChange => 114 | ErrCreateCell => 115 | ErrCreateCellCgroup => 116
  | ErrCreateConfig => 117 | ErrCreateNamespace => 118 | ErrCreateNetwork => 119
  | ErrCreateRealm => 120 | ErrCreateRealmCgroup => 121 | ErrCreateRealmNamespace => 122
  | ErrCreateRootContainer => 123 | ErrCreateSpace => 124 | ErrCreateSpaceCgroup => 125
  | ErrCreateStack => 126 | ErrCreateStackCgroup => 127 | ErrDefaultingFailed => 128
  | ErrDeleteBlueprint => 129 | ErrDeleteCell => 130 | ErrDeleteConfig => 131
  | ErrDeleteContainer => 132 | ErrDeleteImage => 133 | ErrDeleteRealm => 134
  | ErrDeleteSecret => 135 | ErrDeleteSpace => 136 | ErrDeleteStack => 137
  | ErrDeleteVolume => 138 | ErrDiskPressure => 139 | ErrEmptyCellID => 140
  | ErrEmptyContainerID => 141 | ErrEmptyGroupPath => 142 | ErrEmptyRealmID => 143
  | ErrEmptySpaceID => 144 | ErrEmptyStackID => 145 | ErrExplicitRootHostNetworkMismatch => 146
  | ErrGetBlueprint => 147 | ErrGetCell => 148 | ErrGetConfig => 149 | ErrGetImage => 150
  | ErrGetRealm => 151 | ErrGetSecret => 152 | ErrGetSpace => 153 | ErrGetStack => 154
  | ErrGetVolume => 155 | ErrHostNotInitialized => 156 | ErrImageNotFound => 157
  | ErrImageRequired => 158 | ErrImageTagRequired => 159 | ErrInitCniManager => 160
  | ErrInstanceMismatch => 161 | ErrInternalImageNotBuilt => 162 | ErrInvalidCPUWeight => 163
  | ErrInvalidIOWeight => 164 | ErrInvalidImage => 165 | ErrInvalidLeafName => 166
  | ErrInvalidPID => 167 | ErrInvalidThrottle => 168 | ErrListBlueprints => 169
  | ErrListConfigs => 170 | ErrListImages => 171 | ErrListSecrets => 172 | ErrListVolumes => 173
  | ErrLoadImage => 174 | ErrNamespaceAlreadyExists => 175 | ErrNetworkAlreadyExists => 176
  | ErrNetworkConfigNotLoaded => 177 | ErrNetworkNotFound => 178 | ErrPruneImages => 179
  | ErrResourceHasDependencies => 180 | ErrSecretFromEnvNotSet => 181
  | ErrSecretFromFileNotFound => 182 | ErrSecretInUse => 183 | ErrSecretNotFound => 184
  | ErrSecretRefNotFound => 185 | ErrSecretStagingFailed => 186 | ErrSelectorWithName => 187
  | ErrSocketPathTooLong => 188 | ErrSpaceDocRequired => 189 | ErrTarballRequired => 190
  | ErrTaskNotRunning => 191 | ErrUpdateCellMetadata => 192 | ErrUpdateRealmMetadata => 193
  | ErrUpdateSpaceMetadata => 194 | ErrUpdateStackMetadata => 195 | ErrVolumeInUse => 196
  | ErrVolumeNotFound => 197 | ErrVolumeSourceNotAbsolute => 198 | ErrVolumeSourceNotFound => 199
  | ErrVolumeSourceRequired => 200 | ErrWriteBlueprint => 201 | ErrWriteConfig => 202
  | ErrWriteSecret => 203 | ErrWriteVolume => 204
  | ErrLoggerNotFound => 205 | ErrKukebuildNotFound => 206
  | ErrServerConfigurationInvalid => 207 | ErrClientConfigurationInvalid => 208
  | ErrMustRunAsRoot => 209 | ErrTeamMetadataNameRequired => 210 | ErrTeamSourceInvalid => 211
  | ErrTeamSourceStringForm => 212 | ErrTeamRoleRefRequired => 213
  | ErrTeamImageCapabilityInvalid => 214 | ErrTeamHarnessUnknown => 215
  | ErrTeamGitIdentityIncomplete => 216 | ErrTeamGitSignInvalid => 217
  | ErrTeamGitSignNeedsKey => 218 | ErrTeamSecretSourceInvalid => 219
  | ErrTeamSourceKeyInvalid => 220 | ErrTeamEntryNameRequired => 221
  | ErrTeamMetadataNameUnsafe => 222 | ErrTeamProjectDirInvalid => 223
  | ErrTeamProjectFileNotFound => 224 | ErrTeamProjectFileKind => 225
  | ErrTeamHarnessFieldRequired => 226 | ErrTeamImageRefRequired => 227
  | ErrTeamImageImageRequired => 228 | ErrTeamImageBuildRequired => 229
  | ErrTeamImageCapabilitiesRequired => 230 | ErrTeamRoleFileKind => 231
  | ErrTeamHarnessFileKind => 232 | ErrTeamImageCatalogFileKind => 233
  | ErrTeamImageNoMatch => 234 | ErrTeamRoleNotLoaded => 235 | ErrTeamHarnessNotLoaded => 236
  | ErrTeamBlueprintTemplateMissing => 237 | ErrTeamBuildContextMissing => 238
  | ErrTeamBuildBaseMissing => 239 | ErrTeamBuildCycle => 240
  | ErrTeamHarnessSeedPathRequired => 241 | ErrTeamHarnessSeedModeInvalid => 242
  | ErrTeamHarnessSeedPathEscapes => 243 | ErrTeamValidateGaps => 244
  | ErrTeamApplyFailed => 245
  end.

Lemma errdefs_index e : errdefs !! errdef_index e = Some e.
Proof. by destruct e. Qed.

#[global] Instance errdef_index_inj : Inj (=) (=) errdef_index.
Proof. intros x y E. pose proof (errdefs_index x) as Hx. rewrite E, errdefs_index in Hx. congruence. Qed.

#[global] Instance errdef_eq_dec : EqDecision errdef.
Proof.
  refine (fun x y => cast_if (decide (errdef_index x = errdef_index y))); [by apply (inj errdef_index)|congruence].
Defined.

Inductive error :=
| ESentinel (e : errdef)
| EOpaque (msg : string)
| EWrap (fmt : string) (causes : list error)
| EPanic (msg : string).

(** errors.Is(err, target) for a sentinel target. *)
Fixpoint error_is (target : errdef) (e : error) : bool :=
  match e with
  | ESentinel e' => bool_decide (e' = target)
  | EOpaque _ | EPanic _ => false
  | EWrap _ cs => existsb (error_is target) cs
  end.

(** A Go (T, error) return whose value is only read when the error is nil. *)
Inductive result (A : Type) :=
| Ok (a : A)
| Err (e : error).
Arguments Ok {A} a.
Arguments Err {A} e.

Definition is_Ok {A} (r : result A) : bool :=
  match r with Ok _ => true | Err _ => false end.

(** if err != nil { return err } *)
Definition res_bind {A B} (m : result A) (k : A → result B) : result B :=
  match m with Ok a => k a | Err e => Err e end.

Notation "'let?' x ':=' m 'in' k" :=
  (res_bind m (fun x => k))
  (at level 10, x pattern, m at level 100, k at level 200,
   format "'[v' 'let?'  x  ':='  m  'in' '/' k ']'") : kuke_scope.

(** A Go [error] return: nil is [None].  [first_error] runs checks in order and
    stops at the first that fails. *)
Fixpoint first_error (l : list (option error)) : option error :=
  match l with
  | [] => None
  | Some e :: _ => Some e
  | None :: l' => first_error l'
  end.

Definition guard_ok {A} (err : option error) (k : result A) : result A :=
  match err with Some e => Err e | None => k end.

(** ** Stateful code: a state monad *)

Definition st (S A : Type) : Type := S → S * A.

Definition st_ret {S A} (a : A) : st S A := fun s => (s, a).
Definition st_bind {S A B} (m : st S A) (k : A → st S B) : st S B :=
  fun s => let '(s', a) := m s in k a s'.

Notation "'let!' x ':=' m 'in' k" :=
  (st_bind m (fun x => k))
  (at level 10, x pattern, m at level 100, k at level 200,
   format "'[v' 'let!'  x  ':='  m  'in' '/' k ']'") : kuke_scope.

(** A loop that runs [f] on each element and collects the results. *)
Fixpoint st_map {S A B} (f : A → st S B) (l : list A) : st S (list B) :=
  match l with
  | [] => st_ret []
  | x :: l' => let! y := f x in let! ys := st_map f l' in st_ret (y :: ys)
  end.

(** ** Go strings

    Strings are byte strings; the source only applies the ASCII behaviour of
    the strings package to them. *)

Definition is_space (c : Ascii.ascii) : bool :=
  match Ascii.nat_of_ascii c with
  | 9 | 10 | 11 | 12 | 13 | 32 => true
  | _ => false
  end%nat.

Fixpoint ltrim (s : string) : string :=
  match s with
  | EmptyString => EmptyString
  | String c s' => if is_space c then ltrim s' else s
  end.

Fixpoint rtrim (s : string) : string :=
  match s with
  | EmptyString => EmptyString
  | String c s' =>
      match rtrim s' with
      | EmptyString => if is_space c then EmptyString else String c EmptyString
      | t => String c t
      end
  end.

(** strings.TrimSpace *)
Definition TrimSpace (s : string) : string := rtrim (ltrim s).

(** strings.HasPrefix *)
Definition HasPrefix (s p : string) : bool := String.prefix p s.

Lemma HasPrefix_self p s : HasPrefix (p +:+ s) p = true.
Proof.
  unfold HasPrefix. induction p as [|c p IH]; [by destruct s|]. change (String c p +:+ s) with (String c (p +:+ s)).
  cbn [String.prefix]. by destruct (Ascii.ascii_dec c c).
Qed.

(** strings.HasSuffix *)
Fixpoint HasSuffix (s suf : string) : bool :=
  String.eqb s suf ||
  match s with
  | EmptyString => false
  | String _ s' => HasSuffix s' suf
  end.

(** strings.Contains *)
Fixpoint Contains (s sub : string) : bool :=
  String.prefix sub s ||
  match s with
  | EmptyString => false
  | String _ s' => Contains s' sub
  end.

(** strings.Join *)
Fixpoint Join (sep : string) (l : list string) : string :=
  match l with
  | [] => ""
  | [x] => x
  | x :: l' => x +:+ sep +:+ Join sep l'
  end.

(** strings.ToLower and strings.ToUpper on ASCII *)
Definition toLowerChar (c : Ascii.ascii) : Ascii.ascii :=
  let n := Ascii.nat_of_ascii c in
  if (Nat.leb 65 n && Nat.leb n 90)%nat then Ascii.ascii_of_nat (n + 32) else c.
Fixpoint ToLower (s : string) : string :=
  match s with EmptyString => EmptyString | String c s' => String (toLowerChar c) (ToLower s') end.
Definition toUpperChar (c : Ascii.ascii) : Ascii.ascii :=
  let n := Ascii.nat_of_ascii c in
  if (Nat.leb 97 n && Nat.leb n 122)%nat then Ascii.ascii_of_nat (n - 32) else c.
Fixpoint ToUpper (s : string) : string :=
  match s with EmptyString => EmptyString | String c s' => String (toUpperChar c) (ToUpper s') end.

(** strconv.Itoa, and fmt's %d on an int *)
Definition Itoa (z : Z) : string := pretty z.

(** fmt's %q on a string without characters that need escaping, and %v on a bool *)
Definition quote_char : string := String (Ascii.ascii_of_nat 34) EmptyString.
Definition Quote (s : string) : string := quote_char +:+ s +:+ quote_char.
Definition FmtBool (b : bool) : string := if b then "true" else "false".

(** ** Machine integers *)

(** int64 arithmetic wraps; time.Time.Sub saturates. *)
Definition wrap64 (z : Z) : Z := ((z + 9223372036854775808) mod 18446744073709551616 - 9223372036854775808)%Z.
Definition saturate64 (z : Z) : Z := Z.max (-9223372036854775808) (Z.min 9223372036854775807 z).

(** ** Go maps and slices *)

(** m[k] on a map[string]string: the zero value when the key is absent. *)
Definition map_index (m : gmap string string) (k : string) : string :=
  default "" (m !! k).

(** A map built by assigning m[key(x)] = val(x) for each x of a slice, in order:
    a later element overwrites an earlier one. *)
Definition index_by {K} `{Countable K} {A B} (key : A → K) (val : A → B) (l : list A)
    : gmap K B :=
  foldl (fun m x => <[key x := val x]> m) ∅ l.

(** The first element of a slice that satisfies a test. *)
Definition find_first {A} (p : A → bool) (l : list A) : option A := List.find p l.

(** *** Lemmas on [index_by] *)

Lemma index_by_app {K} `{Countable K} {A B} (key : A → K) (val : A → B) l1 l2 :
  index_by key val (l1 ++ l2) =
  foldl (fun m x => <[key x := val x]> m) (index_by key val l1) l2.
Proof. apply foldl_app. Qed.

Lemma index_by_lookup_None {K} `{Countable K} {A B} (key : A → K) (val : A → B) l k :
  index_by key val l !! k = None ↔ ∀ x, x ∈ l → key x ≠ k.
Proof.
  induction l as [|x l IH] using rev_ind.
  - split; [|done]. intros _ y Hy. by apply elem_of_nil in Hy.
  - rewrite index_by_app. simpl. rewrite lookup_insert_None, IH. set_solver.
Qed.

Lemma index_by_lookup_Some {K} `{Countable K} {A B} (key : A → K) (val : A → B) l k b :
  index_by key val l !! k = Some b → ∃ x, x ∈ l ∧ key x = k ∧ val x = b.
Proof.
  induction l as [|x l IH] using rev_ind; [done|].
  rewrite index_by_app. simpl. rewrite lookup_insert_Some.
  intros [[<- <-]|[_ Hl]]; [exists x|destruct (IH Hl) as (y & ? & ? & ?); exists y]; set_solver.
Qed.

Lemma index_by_NoDup {K} `{Countable K} {A B} (key : A → K) (val : A → B) l x :
  NoDup (key <$> l) → x ∈ l → index_by key val l !! key x = Some (val x).
Proof.
  induction l as [|y l IH] using rev_ind; [by intros _ ?%elem_of_nil|].
  rewrite fmap_app, NoDup_app. simpl. intros (Hn & Hd & _).
  rewrite index_by_app. simpl.
  intros [Hx|Hx]%elem_of_app.
  - rewrite lookup_insert_ne; [by apply IH|].
    intros E. apply (Hd (key x)); [by apply list_elem_of_fmap_2|]. set_solver.
  - apply list_elem_of_singleton in Hx as ->. apply lookup_insert_eq.
Qed.

Lemma index_by_size {K} `{Countable K} {A B} (key : A → K) (val : A → B) l :
  NoDup (key <$> l) → size (index_by key val l) = length l.
Proof.
  induction l as [|x l IH] using rev_ind; [done|].
  rewrite fmap_app, NoDup_app. intros (Hn & Hd & _).
  rewrite index_by_app, length_app. simpl.
  rewrite map_size_insert_None; [rewrite IH by done; lia|].
  apply index_by_lookup_None. intros y Hy E. apply (Hd (key y)).
  - by apply list_elem_of_fmap_2.
  - rewrite E. simpl. set_solver.
Qed.

(** *** Lemmas on boolean list searches *)

Lemma existsb_ext_elem {A} (f g : A → bool) l :
  (∀ x, x ∈ l → f x = g x) → existsb f l = existsb g l.
Proof.
  induction l as [|x l IH]; [done|]. intros H. simpl.
  rewrite (H x) by set_solver. rewrite IH; [done|]. set_solver.
Qed.

Lemma existsb_elem {A} (f : A → bool) l :
  existsb f l = true ↔ ∃ x, x ∈ l ∧ f x = true.
Proof. rewrite existsb_exists. by setoid_rewrite list_elem_of_In. Qed.

Lemma existsb_false_elem {A} (f : A → bool) l :
  existsb f l = false ↔ ∀ x, x ∈ l → f x = false.
Proof.
  rewrite <-not_true_iff_false, existsb_elem. split.
  - intros H x Hx. destruct (f x) eqn:E; [|done]. exfalso. eauto.
  - intros H (x & Hx & E). rewrite H in E; done.
Qed.

Lemma forallb_elem {A} (f : A → bool) l :
  forallb f l = true ↔ ∀ x, x ∈ l → f x = true.
Proof. rewrite forallb_forall. by setoid_rewrite list_elem_of_In. Qed.

Lemma existsb_zip_r {A B} (f : B → bool) (l1 : list A) (l2 : list B) :
  length l1 = length l2 → existsb f l2 = existsb (fun p => f p.2) (zip l1 l2).
Proof.
  revert l2. induction l1 as [|x l1 IH]; intros [|y l2]; simpl; try done.
  intros [= H]. by rewrite (IH l2 H).
Qed.

Lemma filter_length_ext {A} (f g : A → bool) l :
  (∀ x, x ∈ l → f x = g x) → length (List.filter f l) = length (List.filter g l).
Proof.
  induction l as [|x l IH]; [done|]. intros H. simpl.
  rewrite (H x) by set_solver. destruct (g x); simpl; rewrite IH; set_solver.
Qed.

Lemma filter_length_zip_r {A B} (f : B → bool) (l1 : list A) (l2 : list B) :
  length l1 = length l2 →
  length (List.filter f l2) = length (List.filter (fun p => f p.2) (zip l1 l2)).
Proof.
  revert l2. induction l1 as [|x l1 IH]; intros [|y l2]; simpl; try done.
  intros [= H]. destruct (f y); simpl; by rewrite (IH l2 H).
Qed.

Lemma filter_length_zip_l {A B} (f : A → bool) (l1 : list A) (l2 : list B) :
  length l1 = length l2 →
  length (List.filter f l1) = length (List.filter (fun p => f p.1) (zip l1 l2)).
Proof.
  revert l2. induction l1 as [|x l1 IH]; intros [|y l2]; simpl; try done.
  intros [= H]. destruct (f x); simpl; by rewrite (IH l2 H).
Qed.

Lemma filter_elem {A} (f : A → bool) l x :
  x ∈ List.filter f l ↔ x ∈ l ∧ f x = true.
Proof. rewrite !list_elem_of_In. apply filter_In. Qed.

Lemma NoDup_fmap_filter {A B} (k : A → B) (f : A → bool) l :
  NoDup (k <$> l) → NoDup (k <$> List.filter f l).
Proof.
  induction l as [|x l IH]; [done|]. rewrite fmap_cons, NoDup_cons. intros [Hx Hl].
  simpl. destruct (f x); [|auto]. rewrite fmap_cons, NoDup_cons. split; [|auto].
  rewrite list_elem_of_fmap in Hx |- *. intros (y & ? & Hy%filter_elem). naive_solver.
Qed.

Lemma elem_of_zip_keys {A B K} (f : A → K) (g : B → K) l1 l2 a b :
  g <$> l2 = f <$> l1 → (a, b) ∈ zip l1 l2 → g b = f a ∧ a ∈ l1 ∧ b ∈ l2.
Proof.
  revert l2. induction l1 as [|x l1 IH]; intros [|y l2]; simpl; try done; [set_solver..|].
  intros [= E H] [[= -> ->]|Hin]%elem_of_cons; [set_solver|].
  destruct (IH _ H Hin) as (? & ? & ?). set_solver.
Qed.

Lemma NoDup_key_inj {A K} (f : A → K) l x y :
  NoDup (f <$> l) → x ∈ l → y ∈ l → f x = f y → x = y.
Proof.
  induction l as [|z l IH]; [set_solver|].
  rewrite fmap_cons, NoDup_cons, list_elem_of_fmap. intros [Hz Hl].
  rewrite !elem_of_cons. intros [->|Hx] [->|Hy] E; eauto; exfalso; eauto.
Qed.

Lemma existsb_filter {A} (f p : A → bool) l :
  existsb f (List.filter p l) = existsb (fun x => p x && f x) l.
Proof. induction l as [|x l IH]; [done|]. simpl. destruct (p x); simpl; by rewrite IH. Qed.

(** ** Strings that avoid a separator *)

Definition slash : Ascii.ascii := Ascii.ascii_of_nat 47.

Fixpoint avoids (c : Ascii.ascii) (s : string) : bool :=
  match s with
  | EmptyString => true
  | String d s' => negb (Ascii.eqb d c) && avoids c s'
  end.

Lemma avoids_split c a1 b1 a2 b2 :
  avoids c a1 = true → avoids c a2 = true →
  a1 +:+ String c b1 = a2 +:+ String c b2 → a1 = a2 ∧ b1 = b2.
Proof.
  revert a2. induction a1 as [|d a1 IH]; intros [|d' a2]; simpl.
  - intros _ _ [= ->]. done.
  - intros _ [Hd _]%andb_true_iff [= -> _]. by rewrite Ascii.eqb_refl in Hd.
  - intros [Hd _]%andb_true_iff _ [= -> _]. by rewrite Ascii.eqb_refl in Hd.
  - intros [_ H1]%andb_true_iff [_ H2]%andb_true_iff [= -> E].
    destruct (IH _ H1 H2 E) as [-> ->]. done.
Qed.

Lemma HasPrefix_cons c s d p :
  HasPrefix (String c s) (String d p) = Ascii.eqb d c && HasPrefix s p.
Proof.
  unfold HasPrefix. cbn [String.prefix]. destruct (Ascii.eqb_spec d c) as [->|Hne].
  - by destruct (Ascii.ascii_dec c c).
  - by destruct (Ascii.ascii_dec d c).
Qed.

Lemma string_app_assoc (a b c : string) : (a +:+ b) +:+ c = a +:+ (b +:+ c).
Proof. induction a as [|x a IH]; [done|]. exact (f_equal (String x) IH). Qed.

Lemma string_app_inv_l (a b c : string) : a +:+ b = a +:+ c → b = c.
Proof. induction a as [|x a IH]; [done|]. intros [= E]. auto. Qed.

(** ** Error results *)

Lemma res_bind_Ok {A B} (m : result A) (k : A → result B) b :
  res_bind m k = Ok b ↔ ∃ a, m = Ok a ∧ k a = Ok b.
Proof. destruct m; naive_solver. Qed.

Lemma guard_ok_Ok {A} err (k : result A) a :
  guard_ok err k = Ok a ↔ err = None ∧ k = Ok a.
Proof. destruct err; naive_solver. Qed.

Lemma first_error_None l : first_error l = None ↔ ∀ x, x ∈ l → x = None.
Proof.
  induction l as [|[e|] l IH]; simpl.
  - split; [|done]. intros _ x Hx. by apply elem_of_nil in Hx.
  - split; [done|]. intros H. apply (H (Some e)). left.
  - rewrite IH. set_solver.
Qed.

Lemma first_error_app_None l1 l2 :
  first_error (l1 ++ l2) = None ↔ first_error l1 = None ∧ first_error l2 = None.
Proof. rewrite !first_error_None. set_solver. Qed.

Lemma first_error_fmap_None {A} (f : A → option error) l :
  first_error (f <$> l) = None ↔ ∀ x, x ∈ l → f x = None.
Proof. rewrite first_error_None. set_solver. Qed.

Lemma first_error_cons_None x l :
  first_error (x :: l) = None ↔ x = None ∧ first_error l = None.
Proof. destruct x; simpl; naive_solver. Qed.

Lemma st_map_Forall2 {S A B} (f : A → st S B) (R : A → B → Prop) l s :
  (∀ x s, x ∈ l → R x (f x s).2) → Forall2 R l (st_map f l s).2.
Proof.
  revert s. induction l as [|x l IH]; intros s H; [constructor|].
  simpl. unfold st_bind, st_ret.
  pose proof (H x s ltac:(left)) as Hx. destruct (f x s) as [s1 y]. simpl in Hx.
  specialize (IH s1 ltac:(set_solver)). destruct (st_map f l s1) as [s2 ys]. simpl in *.
  by constructor.
Qed.

Lemma st_map_fmap {S A B C} (f : A → st S B) (g : B → C) (h : A → C) l s :
  (∀ x s, x ∈ l → g (f x s).2 = h x) → g <$> (st_map f l s).2 = h <$> l.
Proof.
  intros H. pose proof (st_map_Forall2 f (fun x y => g y = h x) l s H) as HF.
  clear H. induction HF as [|x y l ys Hxy _ IH]; [done|]. simpl. rewrite Hxy. f_equal. exact IH.
Qed.

(** ** Stateful code that can fail

    An operation returns a result beside the new state; [let!?] goes on with the value and
    returns early with the error.  [st_check] and [st_wrap] put the caller's text around
    the error of an operation. *)

Definition st_try {S A B} (m : st S (result A)) (k : A → st S (result B)) : st S (result B) :=
  st_bind m (fun r => match r with Ok a => k a | Err e => st_ret (Err e) end).
Definition st_wrap {S A} (wrap : error → error) (m : st S (result A)) : st S (result A) :=
  st_bind m (fun r => st_ret (match r with Ok a => Ok a | Err e => Err (wrap e) end)).
Definition st_check {S} (wrap : error → error) (m : st S (option error)) : st S (result unit) :=
  st_bind m (fun r => st_ret (match r with Some e => Err (wrap e) | None => Ok () end)).
Definition st_guard {S} (b : bool) (e : error) : st S (result unit) := st_ret (if b then Ok () else Err e).

Notation "'let!?' x ':=' m 'in' k" := (st_try m (fun x => k))
  (at level 10, x pattern, m at level 100, k at level 200,
   format "'[v' 'let!?'  x  ':='  m  'in' '/' k ']'") : kuke_scope.

Definition wrapf (text : string) (e : error) : error := EWrap text [e].
Definition wrapd (d : errdef) (e : error) : error := EWrap "%w: %w" [ESentinel d; e].

Lemma st_try_ok {S A B} (m : st S (result A)) (k : A → st S (result B)) s s' b :
  st_try m k s = (s', Ok b) → ∃ s1 a, m s = (s1, Ok a) ∧ k a s1 = (s', Ok b).
Proof. unfold st_try, st_bind. destruct (m s) as [s1 [a|e]]; [eauto|done]. Qed.
Lemma st_wrap_ok {S A} wrap (m : st S (result A)) s s' a : st_wrap wrap m s = (s', Ok a) → m s = (s', Ok a).
Proof. unfold st_wrap, st_bind. destruct (m s) as [s1 [b|e]]; [|done]. by intros [= -> ->]. Qed.
Lemma st_check_ok {S} wrap (m : st S (option error)) s s' u : st_check wrap m s = (s', Ok u) → m s = (s', None).
Proof. unfold st_check, st_bind. destruct (m s) as [s1 [e|]]; [done|]. by intros [= ->]. Qed.
Lemma st_guard_ok {S} b e (s : S) s' u : st_guard b e s = (s', Ok u) → s' = s ∧ b = true.
Proof. unfold st_guard, st_ret. destruct b; [|done]. by intros [= ->]. Qed.
Lemma st_bind_inv {S A B} (m : st S A) (k : A → st S B) s r : st_bind m k s = r → ∃ s1 a, m s = (s1, a) ∧ k a s1 = r.
Proof. unfold st_bind. destruct (m s) as [s1 a]. eauto. Qed.

(** ** Footprints of stateful code

    [respects R m]: whatever state it starts in, [m] ends in an [R]-related one.
    For a preorder [R] the property is closed under sequencing, so a piece of
    code respects [R] as soon as each operation it calls does: instantiating [R]
    says which operations a piece of code never calls. *)

Definition respects {S A} (R : S → S → Prop) (m : st S A) : Prop := ∀ s, R s (m s).1.

Section Respects.
Context {S : Type} (R : S → S → Prop) `{!Reflexive R} `{!Transitive R}.

Lemma respects_ret {A} (a : A) : respects R (st_ret a).
Proof. intros s. reflexivity. Qed.

Lemma respects_bind {A B} (m : st S A) (k : A → st S B) :
  respects R m → (∀ a, respects R (k a)) → respects R (st_bind m k).
Proof.
  intros Hm Hk s. unfold st_bind. specialize (Hm s). destruct (m s) as [s1 a].
  etrans; [exact Hm|apply Hk].
Qed.

Lemma respects_try {A B} (m : st S (result A)) (k : A → st S (result B)) :
  respects R m → (∀ a, respects R (k a)) → respects R (st_try m k).
Proof. intros Hm Hk. apply respects_bind; [done|]. intros [a|e]; [apply Hk|apply respects_ret]. Qed.
Lemma respects_wrap {A} wrap (m : st S (result A)) : respects R m → respects R (st_wrap wrap m).
Proof. intros Hm. apply respects_bind; [done|]. intros r. apply respects_ret. Qed.
Lemma respects_check wrap (m : st S (option error)) : respects R m → respects R (st_check wrap m).
Proof. intros Hm. apply respects_bind; [done|]. intros r. apply respects_ret. Qed.
Lemma respects_guard b e : respects R (st_guard b e).
Proof. apply respects_ret. Qed.
End Respects.

Create HintDb frame.
#[export] Hint Resolve respects_ret : frame.
#[export] Hint Resolve respects_bind : frame.

(** Split code along its sequencing and its case distinctions. *)
Ltac frame_step :=
  match goal with
  | |- respects _ (st_ret _) => apply respects_ret; try apply _
  | |- respects _ (st_guard _ _) => apply respects_guard; try apply _
  | |- respects _ (st_bind _ _) => apply respects_bind; [try apply _| |intros ?]
  | |- respects _ (st_try _ _) => apply respects_try; [try apply _|try apply _| |intros ?]
  | |- respects _ (st_wrap _ _) => apply respects_wrap; [try apply _|try apply _|]
  | |- respects _ (st_check _ _) => apply respects_check; [try apply _|try apply _|]
  | |- respects _ (match ?x with _ => _ end) => destruct x
  | |- respects _ (let '(_, _) := ?x in _) => destruct x
  | |- ∀ _, respects _ _ => intros ?
  end.
Ltac solve_frame := repeat (frame_step || (progress eauto with frame)); eauto with frame.

(** *** Observing a run

    [beside m] runs [m] on a host that carries a log next to its state, and leaves the
    log alone; [logging entry m] adds an entry made from the result. *)

Definition beside {S L A} (m : st S A) : st (S * L) A :=
  fun p => let '(s, a) := m p.1 in ((s, p.2), a).
Definition logging {S L A} (entry : A → L) (m : st S A) : st (S * list L) A :=
  fun p => let '(s, a) := m p.1 in ((s, p.2 ++ [entry a]), a).

Definition same_log {S L} (p p' : S * L) : Prop := p'.2 = p.2.
Definition log_grows {S L} (p p' : S * list L) : Prop := p.2 `prefix_of` p'.2.
#[export] Instance same_log_refl {S L} : Reflexive (@same_log S L).
Proof. intros p. reflexivity. Qed.
#[export] Instance same_log_trans {S L} : Transitive (@same_log S L).
Proof. intros p q r. unfold same_log. congruence. Qed.
#[export] Instance log_grows_refl {S L} : Reflexive (@log_grows S L).
Proof. intros p. unfold log_grows. reflexivity. Qed.
#[export] Instance log_grows_trans {S L} : Transitive (@log_grows S L).
Proof. intros p q r. unfold log_grows. apply transitivity. Qed.

Lemma beside_same {S L A} (m : st S A) : respects (@same_log S L) (beside m).
Proof. intros p. unfold beside, same_log. by destruct (m p.1). Qed.
Lemma beside_grows {S L A} (m : st S A) : respects (@log_grows S L) (beside m).
Proof. intros p. unfold beside, log_grows. by destruct (m p.1). Qed.
Lemma logging_grows {S L A} (entry : A → L) (m : st S A) : respects log_grows (logging entry m).
Proof. intros p. unfold logging, log_grows. destruct (m p.1). simpl. by eexists. Qed.
#[export] Hint Resolve beside_same beside_grows logging_grows : frame.

Lemma avoids_app c a b : avoids c (a +:+ b) = avoids c a && avoids c b.
Proof.
  induction a as [|d a IH]; [done|]. change (String d a +:+ b) with (String d (a +:+ b)).
  cbn [avoids]. rewrite IH. by rewrite andb_assoc.
Qed.

Lemma elem_of_concat {A} (ls : list (list A)) x : x ∈ concat ls ↔ ∃ l, x ∈ l ∧ l ∈ ls.
Proof.
  induction ls as [|l ls IH]; cbn.
  - split; [by intros ?%elem_of_nil|]. intros (l & _ & H). by apply elem_of_nil in H.
  - rewrite elem_of_app, IH. setoid_rewrite elem_of_cons. naive_solver.
Qed.

Lemma rtrim_idem s : rtrim (rtrim s) = rtrim s.
Proof.
  induction s as [|c s IH]; [done|]. cbn. destruct (rtrim s) as [|d t] eqn:E.
  - destruct (is_space c) eqn:Ec; [done|]. cbn. by rewrite Ec.
  - cbn in IH |- *. by rewrite IH.
Qed.
Lemma ltrim_rtrim s : ltrim s = s → ltrim (rtrim s) = rtrim s.
Proof.
  destruct s as [|c s]; [done|]. cbn. destruct (is_space c) eqn:Ec.
  - intros E. exfalso. assert (L : ∀ s, (String.length (ltrim s) ≤ String.length s)%nat).
    { induction s0 as [|d s0 IH]; [done|]. cbn. destruct (is_space d); cbn; lia. }
    specialize (L s). rewrite E in L. cbn in L. lia.
  - intros _. destruct (rtrim s); cbn; by rewrite Ec.
Qed.
Lemma ltrim_idem s : ltrim (ltrim s) = ltrim s.
Proof. induction s as [|c s IH]; [done|]. cbn. destruct (is_space c) eqn:Ec; [done|]. cbn. by rewrite Ec. Qed.
Lemma TrimSpace_idem s : TrimSpace (TrimSpace s) = TrimSpace s.
Proof. unfold TrimSpace. rewrite ltrim_rtrim by apply ltrim_idem. apply rtrim_idem. Qed.

Lemma TrimSpace_head c s : is_space c = false → TrimSpace (String c s) ≠ "".
Proof.
  intros Hc. unfold TrimSpace. simpl. rewrite Hc. simpl. by destruct (rtrim s); rewrite ?Hc.
Qed.
