(* ===== verification/Model.v ===== *)
(** * Model: the version-agnostic internal types (internal/modelhub)

    One record per Go struct, with the fields of the struct in its order, and
    one inductive type per enumeration, with the constants in their order.
    Slices are lists, maps are [gmap]s, an optional pointer is an [option];
    [time.Time] is an instant in nanoseconds with 0 for the zero time, int and
    int64 are [Z].  The zero values that composite literals leave implicit are
    the [zero_*] definitions. *)

From stdpp Require Import base gmap strings list.
From S2P Require Import Prelude.

(** ** Time *)

Definition Time := Z.
Definition time_IsZero (t : Time) : bool := Z.eqb t 0.
Definition Second : Z := 1000000000.

(** ** Pointers compared by identity

    Where the source compares pointers with [==] the model keeps the address
    beside the pointee. *)

Record Ptr (A : Type) := MkPtr { ptr_addr : positive; ptr_val : A }.
Arguments MkPtr {A} _ _.
Arguments ptr_addr {A} _.
Arguments ptr_val {A} _.

(** p == q on two possibly-nil pointers: both nil, or the same address. *)
Definition ptr_eq {A} (p q : option (Ptr A)) : bool :=
  match p, q with
  | None, None => true
  | Some p, Some q => Pos.eqb (ptr_addr p) (ptr_addr q)
  | _, _ => false
  end.

(** ** Containers (internal/modelhub/container.go) *)

Record TtyStage := { ts_Script : string; ts_RunOn : string }.

Record ContainerTty := {
  ct_Prompt : string;
  ct_OnInit : list TtyStage;
  ct_LogFile : string;
  ct_LogLevel : string
}.

(** The IsEmpty method of ContainerTty, defined on a nil receiver too. *)
Definition ContainerTty_IsEmpty (t : option ContainerTty) : bool :=
  match t with
  | None => true
  | Some t =>
      String.eqb (ct_Prompt t) "" && String.eqb (ct_LogFile t) "" && String.eqb (ct_LogLevel t) ""
      && forallb (fun s => String.eqb (ts_Script s) "" && String.eqb (ts_RunOn s) "") (ct_OnInit t)
  end.

Record ContainerSecretRef := {
  csr_Name : string; csr_Realm : string; csr_Space : string;
  csr_Stack : string; csr_Cell : string
}.

Record ContainerSecret := {
  sec_Name : string;
  sec_FromFile : string;
  sec_FromEnv : string;
  sec_SecretRef : option ContainerSecretRef;
  sec_MountPath : string
}.

Record VolumeRef := {
  vr_Name : string; vr_Realm : string; vr_Space : string; vr_Stack : string
}.

Record VolumeMount := {
  vm_Kind : string;
  vm_Source : string;
  vm_Target : string;
  vm_VolumeRef : option (Ptr VolumeRef);
  vm_ReadOnly : bool;
  vm_SizeBytes : Z;
  vm_Mode : Z;
  vm_Ensure : bool
}.

Record ContainerRepo := {
  repo_Name : string; repo_Target : string; repo_Branch : string;
  repo_Ref : string; repo_URL : string; repo_Required : bool
}.

Record GitIdentity := { gi_Name : string; gi_Email : string }.

Record ContainerGit := {
  git_Author : option GitIdentity;
  git_Committer : option GitIdentity;
  git_SigningKey : string;
  git_Sign : list string;
  git_AllowedSigners : string
}.

Record ContainerCapabilities := { cap_Drop : list string; cap_Add : list string }.

Record ContainerTmpfsMount := {
  tm_Path : string; tm_SizeBytes : Z; tm_Options : list string
}.

Record ContainerResources := {
  res_MemoryLimitBytes : option Z;
  res_CPUShares : option Z;
  res_PidsLimit : option Z
}.

Record ContainerSpec := {
  c_ID : string;
  c_ContainerdID : string;
  c_RealmName : string;
  c_SpaceName : string;
  c_StackName : string;
  c_CellName : string;
  c_Root : bool;
  c_Image : string;
  c_Command : string;
  c_Args : list string;
  c_WorkingDir : string;
  c_Env : list string;
  c_Ports : list string;
  c_Volumes : list VolumeMount;
  c_Networks : list string;
  c_NetworksAliases : list string;
  c_Privileged : bool;
  c_HostNetwork : bool;
  c_HostPID : bool;
  c_HostCgroup : bool;
  c_NestedCgroupRuntime : bool;
  c_User : string;
  c_ReadOnlyRootFilesystem : bool;
  c_Capabilities : option ContainerCapabilities;
  c_SecurityOpts : list string;
  c_Devices : list string;
  c_Tmpfs : list ContainerTmpfsMount;
  c_Resources : option ContainerResources;
  c_Secrets : list ContainerSecret;
  c_Repos : list ContainerRepo;
  c_Git : option ContainerGit;
  c_CNIConfigPath : string;
  c_RestartPolicy : string;
  c_RestartBackoffSeconds : option Z;
  c_RestartMaxRetries : option Z;
  c_Attachable : bool;
  c_Tty : option ContainerTty;
  c_CellCgroupPath : string;
  c_EtcHostsPath : string;
  c_EtcHostnamePath : string
}.

Definition zero_ContainerSpec : ContainerSpec := {|
  c_ID := ""; c_ContainerdID := ""; c_RealmName := ""; c_SpaceName := "";
  c_StackName := ""; c_CellName := ""; c_Root := false; c_Image := "";
  c_Command := ""; c_Args := []; c_WorkingDir := ""; c_Env := []; c_Ports := [];
  c_Volumes := []; c_Networks := []; c_NetworksAliases := []; c_Privileged := false;
  c_HostNetwork := false; c_HostPID := false; c_HostCgroup := false;
  c_NestedCgroupRuntime := false; c_User := ""; c_ReadOnlyRootFilesystem := false;
  c_Capabilities := None; c_SecurityOpts := []; c_Devices := []; c_Tmpfs := [];
  c_Resources := None; c_Secrets := []; c_Repos := []; c_Git := None;
  c_CNIConfigPath := ""; c_RestartPolicy := ""; c_RestartBackoffSeconds := None;
  c_RestartMaxRetries := None; c_Attachable := false; c_Tty := None;
  c_CellCgroupPath := ""; c_EtcHostsPath := ""; c_EtcHostnamePath := ""
|}.

Inductive ContainerState :=
| ContainerStatePending | ContainerStateReady | ContainerStateStopped
| ContainerStatePaused | ContainerStatePausing | ContainerStateFailed
| ContainerStateUnknown | ContainerStateNotCreated | ContainerStateExited
| ContainerStateError.

#[global] Instance ContainerState_eq_dec : EqDecision ContainerState.
Proof. solve_decision. Defined.

Record RepoStatus := {
  rs_Name : string; rs_Target : string; rs_State : string;
  rs_Commit : string; rs_Error : string
}.

Record StageStatus := {
  ss_Index : Z; ss_State : string; ss_Error : string; ss_Hash : string
}.

Record ContainerStatus := {
  cs_Name : string;
  cs_ID : string;
  cs_CreatedAt : Time;
  cs_State : ContainerState;
  cs_RestartCount : Z;
  cs_RestartTime : Time;
  cs_StartTime : Time;
  cs_FinishTime : Time;
  cs_ExitCode : Z;
  cs_ExitSignal : string;
  cs_Repos : list RepoStatus;
  cs_Stages : list StageStatus
}.

Record ContainerMetadata := {
  ctm_Name : string;
  ctm_Labels : gmap string string
}.

Record Container := {
  cont_Metadata : ContainerMetadata;
  cont_Spec : ContainerSpec;
  cont_Status : ContainerStatus
}.

Definition zero_ContainerStatus : ContainerStatus := {|
  cs_Name := ""; cs_ID := ""; cs_CreatedAt := 0%Z; cs_State := ContainerStatePending;
  cs_RestartCount := 0; cs_RestartTime := 0%Z; cs_StartTime := 0%Z;
  cs_FinishTime := 0%Z; cs_ExitCode := 0; cs_ExitSignal := ""; cs_Repos := [];
  cs_Stages := [] |}.

Definition RestartPolicyAlways : string := "always".
Definition RestartPolicyOnFailure : string := "on-failure".
Definition RestartPolicyNever : string := "never".
Definition RunOnCreate : string := "create".

(** ** Cells (internal/modelhub/cell.go) *)

Inductive CellState :=
| CellStatePending | CellStateReady | CellStateStopped | CellStateFailed
| CellStateUnknown | CellStateExited | CellStateError | CellStateDegraded.

#[global] Instance CellState_eq_dec : EqDecision CellState.
Proof. solve_decision. Defined.

Record CellTty := { ctty_Default : string }.

Record CellBindingRef := {
  cbr_Name : string; cbr_Realm : string; cbr_Space : string; cbr_Stack : string
}.

Record CellProvenance := {
  cp_BindingKind : string;
  cp_BindingRef : CellBindingRef;
  cp_Params : gmap string string;
  cp_EnvOverrides : list string
}.

Record CellMetadata := {
  cm_Name : string;
  cm_Labels : gmap string string;
  cm_Annotations : gmap string string;
  cm_Generation : Z
}.

Record CellSpec := {
  csp_ID : string;
  csp_RealmName : string;
  csp_SpaceName : string;
  csp_StackName : string;
  csp_RootContainerID : string;
  csp_Tty : option CellTty;
  csp_Containers : list ContainerSpec;
  csp_AutoDelete : bool;
  csp_NestedCgroupRuntime : bool;
  csp_RuntimeEnv : list string;
  csp_Provenance : option CellProvenance;
  csp_IgnoreDiskPressure : bool
}.

Record CellStatus := {
  cst_State : CellState;
  cst_CgroupPath : string;
  cst_SubtreeControllers : list string;
  cst_BridgeName : string;
  cst_Containers : list ContainerStatus;
  cst_ReadyObserved : bool;
  cst_CreatedAt : Time;
  cst_UpdatedAt : Time;
  cst_ReadyAt : Time;
  cst_Reason : string;
  cst_Message : string;
  cst_CgroupReady : bool;
  cst_ObservedGeneration : Z;
  cst_OutOfSync : bool;
  cst_OutOfSyncReason : string;
  cst_OutOfSyncError : string
}.

Record Cell := {
  cell_Metadata : CellMetadata;
  cell_Spec : CellSpec;
  cell_Status : CellStatus
}.

Definition zero_CellMetadata : CellMetadata :=
  {| cm_Name := ""; cm_Labels := ∅; cm_Annotations := ∅; cm_Generation := 0 |}.

Definition zero_CellSpec : CellSpec := {|
  csp_ID := ""; csp_RealmName := ""; csp_SpaceName := ""; csp_StackName := "";
  csp_RootContainerID := ""; csp_Tty := None; csp_Containers := [];
  csp_AutoDelete := false; csp_NestedCgroupRuntime := false; csp_RuntimeEnv := [];
  csp_Provenance := None; csp_IgnoreDiskPressure := false |}.

Definition zero_CellStatus : CellStatus := {|
  cst_State := CellStatePending; cst_CgroupPath := ""; cst_SubtreeControllers := [];
  cst_BridgeName := ""; cst_Containers := []; cst_ReadyObserved := false;
  cst_CreatedAt := 0%Z; cst_UpdatedAt := 0%Z; cst_ReadyAt := 0%Z; cst_Reason := "";
  cst_Message := ""; cst_CgroupReady := false; cst_ObservedGeneration := 0;
  cst_OutOfSync := false; cst_OutOfSyncReason := ""; cst_OutOfSyncError := "" |}.

(** Field assignments of the source on a cell's status. *)

Definition with_status (c : Cell) (s : CellStatus) : Cell :=
  {| cell_Metadata := cell_Metadata c; cell_Spec := cell_Spec c; cell_Status := s |}.

Definition set_State (v : CellState) (s : CellStatus) : CellStatus :=
  let 'Build_CellStatus _ a b c d e f g h i j k l m n o := s in
  Build_CellStatus v a b c d e f g h i j k l m n o.
Definition set_Containers (v : list ContainerStatus) (s : CellStatus) : CellStatus :=
  let 'Build_CellStatus z a b c _ e f g h i j k l m n o := s in
  Build_CellStatus z a b c v e f g h i j k l m n o.
Definition set_ReadyObserved (v : bool) (s : CellStatus) : CellStatus :=
  let 'Build_CellStatus z a b c d _ f g h i j k l m n o := s in
  Build_CellStatus z a b c d v f g h i j k l m n o.
Definition set_Lifecycle (ca ua ra : Time) (s : CellStatus) : CellStatus :=
  let 'Build_CellStatus z a b c d e _ _ _ i j k l m n o := s in
  Build_CellStatus z a b c d e ca ua ra i j k l m n o.
Definition set_ReasonMessage (r msg : string) (s : CellStatus) : CellStatus :=
  let 'Build_CellStatus z a b c d e f g h _ _ k l m n o := s in
  Build_CellStatus z a b c d e f g h r msg k l m n o.
Definition set_CgroupReady (v : bool) (s : CellStatus) : CellStatus :=
  let 'Build_CellStatus z a b c d e f g h i j _ l m n o := s in
  Build_CellStatus z a b c d e f g h i j v l m n o.
Definition set_ObservedGeneration (v : Z) (s : CellStatus) : CellStatus :=
  let 'Build_CellStatus z a b c d e f g h i j k _ m n o := s in
  Build_CellStatus z a b c d e f g h i j k v m n o.

Definition upd_status (f : CellStatus → CellStatus) (c : Cell) : Cell :=
  with_status c (f (cell_Status c)).

(** ** Realms, spaces and stacks *)

Inductive RealmState :=
| RealmStatePending | RealmStateCreating | RealmStateReady
| RealmStateDeleting | RealmStateFailed | RealmStateUnknown.

Inductive SpaceState :=
| SpaceStatePending | SpaceStateCreating | SpaceStateReady
| SpaceStateDeleting | SpaceStateFailed | SpaceStateUnknown.

Inductive StackState :=
| StackStatePending | StackStateReady | StackStateFailed | StackStateUnknown.

#[global] Instance RealmState_eq_dec : EqDecision RealmState.
Proof. solve_decision. Defined.
#[global] Instance SpaceState_eq_dec : EqDecision SpaceState.
Proof. solve_decision. Defined.
#[global] Instance StackState_eq_dec : EqDecision StackState.
Proof. solve_decision. Defined.

(** RealmMetadata, SpaceMetadata and StackMetadata have the same three fields. *)
Record ScopeMetadata := {
  sm_Name : string;
  sm_Labels : gmap string string;
  sm_Generation : Z
}.

Record RegistryCredentials := {
  rc_Username : string; rc_Password : string; rc_ServerAddress : string
}.

Record RealmSpec := {
  rsp_Namespace : string;
  rsp_RegistryCredentials : list RegistryCredentials
}.

Record RealmStatus := {
  rst_State : RealmState;
  rst_CgroupPath : string;
  rst_SubtreeControllers : list string;
  rst_CreatedAt : Time;
  rst_UpdatedAt : Time;
  rst_ReadyAt : Time;
  rst_Reason : string;
  rst_Message : string;
  rst_CgroupReady : bool;
  rst_ContainerdNamespaceReady : bool;
  rst_ObservedGeneration : Z
}.

Record Realm := {
  realm_Metadata : ScopeMetadata;
  realm_Spec : RealmSpec;
  realm_Status : RealmStatus
}.

Record EgressAllowRule := { ear_Host : string; ear_CIDR : string; ear_Ports : list Z }.
Record EgressPolicy := { ep_Default : string; ep_Allow : list EgressAllowRule }.
Record SpaceNetwork := { sn_Egress : option EgressPolicy }.

Definition EgressDefaultAllow : string := "allow".
Definition EgressDefaultDeny : string := "deny".

Record SpaceContainerDefaults := {
  scd_User : string;
  scd_ReadOnlyRootFilesystem : option bool;
  scd_Capabilities : option ContainerCapabilities;
  scd_SecurityOpts : list string;
  scd_Tmpfs : list ContainerTmpfsMount;
  scd_Resources : option ContainerResources
}.
Record SpaceDefaults := { sd_Container : option SpaceContainerDefaults }.

Record SpaceSpec := {
  spsp_RealmName : string;
  spsp_CNIConfigPath : string;
  spsp_Network : option SpaceNetwork;
  spsp_Defaults : option SpaceDefaults
}.

(** SpaceStatus and StackStatus share their fields but for the state's type. *)
Record ScopeStatus (S : Type) := {
  sst_State : S;
  sst_CgroupPath : string;
  sst_SubtreeControllers : list string;
  sst_CreatedAt : Time;
  sst_UpdatedAt : Time;
  sst_ReadyAt : Time;
  sst_Reason : string;
  sst_Message : string;
  sst_CgroupReady : bool;
  sst_ObservedGeneration : Z
}.
Arguments sst_State {S} _.
Arguments sst_CgroupPath {S} _.
Arguments sst_SubtreeControllers {S} _.
Arguments sst_CreatedAt {S} _.
Arguments sst_UpdatedAt {S} _.
Arguments sst_ReadyAt {S} _.
Arguments sst_Reason {S} _.
Arguments sst_Message {S} _.
Arguments sst_CgroupReady {S} _.
Arguments sst_ObservedGeneration {S} _.
Arguments Build_ScopeStatus {S} _ _ _ _ _ _ _ _ _ _.

Record Space := {
  space_Metadata : ScopeMetadata;
  space_Spec : SpaceSpec;
  space_Status : ScopeStatus SpaceState
}.

Record StackSpec := {
  stsp_ID : string; stsp_RealmName : string; stsp_SpaceName : string
}.

Record Stack := {
  stack_Metadata : ScopeMetadata;
  stack_Spec : StackSpec;
  stack_Status : ScopeStatus StackState
}.

Definition zero_ScopeMetadata : ScopeMetadata :=
  {| sm_Name := ""; sm_Labels := ∅; sm_Generation := 0 |}.
Definition zero_RealmStatus : RealmStatus := {|
  rst_State := RealmStatePending; rst_CgroupPath := ""; rst_SubtreeControllers := [];
  rst_CreatedAt := 0%Z; rst_UpdatedAt := 0%Z; rst_ReadyAt := 0%Z; rst_Reason := "";
  rst_Message := ""; rst_CgroupReady := false; rst_ContainerdNamespaceReady := false;
  rst_ObservedGeneration := 0 |}.
Definition zero_ScopeStatus {S} (pending : S) : ScopeStatus S :=
  Build_ScopeStatus pending "" [] 0%Z 0%Z 0%Z "" "" false 0%Z.

(** The lookup keys the source builds with composite literals. *)
Definition realm_named (name : string) : Realm := {|
  realm_Metadata := {| sm_Name := name; sm_Labels := ∅; sm_Generation := 0 |};
  realm_Spec := {| rsp_Namespace := ""; rsp_RegistryCredentials := [] |};
  realm_Status := zero_RealmStatus |}.
Definition space_named (realm name : string) : Space := {|
  space_Metadata := {| sm_Name := name; sm_Labels := ∅; sm_Generation := 0 |};
  space_Spec := {| spsp_RealmName := realm; spsp_CNIConfigPath := "";
                   spsp_Network := None; spsp_Defaults := None |};
  space_Status := zero_ScopeStatus SpaceStatePending |}.
Definition stack_named (realm space name : string) : Stack := {|
  stack_Metadata := {| sm_Name := name; sm_Labels := ∅; sm_Generation := 0 |};
  stack_Spec := {| stsp_ID := ""; stsp_RealmName := realm; stsp_SpaceName := space |};
  stack_Status := zero_ScopeStatus StackStatePending |}.
Definition cell_named (realm space stack name : string) : Cell := {|
  cell_Metadata := {| cm_Name := name; cm_Labels := ∅; cm_Annotations := ∅;
                      cm_Generation := 0 |};
  cell_Spec := {| csp_ID := ""; csp_RealmName := realm; csp_SpaceName := space;
                  csp_StackName := stack; csp_RootContainerID := ""; csp_Tty := None;
                  csp_Containers := []; csp_AutoDelete := false;
                  csp_NestedCgroupRuntime := false; csp_RuntimeEnv := [];
                  csp_Provenance := None; csp_IgnoreDiskPressure := false |};
  cell_Status := zero_CellStatus |}.

(** ** Secrets, volumes, blueprints and configs *)

Record SecretMetadata := {
  secm_Name : string; secm_Realm : string; secm_Space : string;
  secm_Stack : string; secm_Cell : string
}.
Record Secret := { secret_Metadata : SecretMetadata; secret_Data : string }.

Record VolumeMetadata := {
  volm_Name : string; volm_Realm : string; volm_Space : string; volm_Stack : string
}.
Record Volume := { vol_Metadata : VolumeMetadata; vol_ReclaimPolicy : string }.

(** CellBlueprintMetadata and CellConfigMetadata have the same fields. *)
Record ScopedName := {
  scn_Name : string; scn_Realm : string; scn_Space : string; scn_Stack : string;
  scn_Labels : gmap string string
}.
Record CellBlueprint := { bp_Metadata : ScopedName; bp_Document : string }.
Record CellConfig := { cfg_Metadata : ScopedName; cfg_Document : string }.

(** ** Sample values

    Small concrete objects on which the theorems are exercised. *)

Definition sample_container (id : string) (root : bool) (policy : string) : ContainerSpec := {|
  c_ID := id; c_ContainerdID := ""; c_RealmName := "r"; c_SpaceName := "s";
  c_StackName := "t"; c_CellName := "web"; c_Root := root; c_Image := "img";
  c_Command := ""; c_Args := []; c_WorkingDir := ""; c_Env := []; c_Ports := [];
  c_Volumes := []; c_Networks := []; c_NetworksAliases := []; c_Privileged := false;
  c_HostNetwork := false; c_HostPID := false; c_HostCgroup := false;
  c_NestedCgroupRuntime := false; c_User := ""; c_ReadOnlyRootFilesystem := false;
  c_Capabilities := None; c_SecurityOpts := []; c_Devices := []; c_Tmpfs := [];
  c_Resources := None; c_Secrets := []; c_Repos := []; c_Git := None;
  c_CNIConfigPath := ""; c_RestartPolicy := policy; c_RestartBackoffSeconds := None;
  c_RestartMaxRetries := None; c_Attachable := false; c_Tty := None;
  c_CellCgroupPath := ""; c_EtcHostsPath := ""; c_EtcHostnamePath := ""
|}.

Definition sample_status (id : string) (state : ContainerState) (code : Z) : ContainerStatus := {|
  cs_Name := id; cs_ID := id; cs_CreatedAt := 5%Z; cs_State := state;
  cs_RestartCount := 0; cs_RestartTime := 0%Z; cs_StartTime := 6%Z;
  cs_FinishTime := (if Z.eqb code 0 then 0 else 7)%Z; cs_ExitCode := code;
  cs_ExitSignal := ""; cs_Repos := []; cs_Stages := [] |}.

Definition sample_cell (autoDelete : bool) (state : CellState) (containers : list ContainerSpec)
    (statuses : list ContainerStatus) : Cell := {|
  cell_Metadata := {| cm_Name := "web"; cm_Labels := ∅; cm_Annotations := ∅;
                      cm_Generation := 1 |};
  cell_Spec := {| csp_ID := "web"; csp_RealmName := "r"; csp_SpaceName := "s";
                  csp_StackName := "t"; csp_RootContainerID := ""; csp_Tty := None;
                  csp_Containers := containers; csp_AutoDelete := autoDelete;
                  csp_NestedCgroupRuntime := false; csp_RuntimeEnv := [];
                  csp_Provenance := None; csp_IgnoreDiskPressure := false |};
  cell_Status := {| cst_State := state; cst_CgroupPath := "/kukeon/r/s/t/web";
                    cst_SubtreeControllers := []; cst_BridgeName := "";
                    cst_Containers := statuses; cst_ReadyObserved := true;
                    cst_CreatedAt := 1%Z; cst_UpdatedAt := 2%Z; cst_ReadyAt := 3%Z;
                    cst_Reason := ""; cst_Message := ""; cst_CgroupReady := true;
                    cst_ObservedGeneration := 1; cst_OutOfSync := false;
                    cst_OutOfSyncReason := ""; cst_OutOfSyncError := "" |} |}.
