(* ===== verification/External.v ===== *)
(** * External: the v1beta1 API documents (pkg/api/model/v1beta1)

    The structs operators write and the daemon stores, in the module [ext] that
    stands for the Go package's import name.  Conventions are those of [Model];
    pointers to structs are never compared here, so they are plain [option]s.
    The state enums come with their labels and their JSON and YAML decoders
    (state_marshal.go). *)

From Stdlib Require Import ZArith String.
From stdpp Require Import base gmap strings list.
From S2P Require Import Prelude Model.

Module ext.

Definition APIVersionV1Beta1 : string := "v1beta1".
Definition KindCell : string := "Cell".
Definition KindContainer : string := "Container".
Definition KindRealm : string := "Realm".
Definition KindSpace : string := "Space".
Definition KindStack : string := "Stack".
Definition KindSecret : string := "Secret".
Definition KindCellBlueprint : string := "CellBlueprint".
Definition KindCellConfig : string := "CellConfig".
Definition KindVolume : string := "Volume".
Definition LabelTeam : string := "kukeon.io/team".

Definition StatePendingStr : string := "Pending".
Definition StateReadyStr : string := "Ready".
Definition StateStoppedStr : string := "Stopped".
Definition StatePausedStr : string := "Paused".
Definition StatePausingStr : string := "Pausing".
Definition StateFailedStr : string := "Failed".
Definition StateUnknownStr : string := "Unknown".
Definition StateCreatingStr : string := "Creating".
Definition StateDeletingStr : string := "Deleting".
Definition StateNotCreatedStr : string := "NotCreated".
Definition StateExitedStr : string := "Exited".
Definition StateErrorStr : string := "Error".
Definition StateDegradedStr : string := "Degraded".

(** ** State enums *)

Inductive RealmState :=
| RealmStatePending | RealmStateCreating | RealmStateReady
| RealmStateDeleting | RealmStateFailed | RealmStateUnknown.

Inductive SpaceState :=
| SpaceStatePending | SpaceStateReady | SpaceStateFailed | SpaceStateUnknown.

Inductive StackState :=
| StackStatePending | StackStateReady | StackStateFailed | StackStateUnknown.

Inductive CellState :=
| CellStatePending | CellStateReady | CellStateStopped | CellStateFailed
| CellStateUnknown | CellStateExited | CellStateError | CellStateDegraded.

Inductive ContainerState :=
| ContainerStatePending | ContainerStateReady | ContainerStateStopped
| ContainerStatePaused | ContainerStatePausing | ContainerStateFailed
| ContainerStateUnknown | ContainerStateNotCreated | ContainerStateExited
| ContainerStateError.

(** The constants in iota order. *)
Definition realmStates : list RealmState :=
  [RealmStatePending; RealmStateCreating; RealmStateReady; RealmStateDeleting;
   RealmStateFailed; RealmStateUnknown].
Definition spaceStates : list SpaceState :=
  [SpaceStatePending; SpaceStateReady; SpaceStateFailed; SpaceStateUnknown].
Definition stackStates : list StackState :=
  [StackStatePending; StackStateReady; StackStateFailed; StackStateUnknown].
Definition cellStates : list CellState :=
  [CellStatePending; CellStateReady; CellStateStopped; CellStateFailed; CellStateUnknown;
   CellStateExited; CellStateError; CellStateDegraded].
Definition containerStates : list ContainerState :=
  [ContainerStatePending; ContainerStateReady; ContainerStateStopped; ContainerStatePaused;
   ContainerStatePausing; ContainerStateFailed; ContainerStateUnknown; ContainerStateNotCreated;
   ContainerStateExited; ContainerStateError].

Definition RealmState_String (s : RealmState) : string :=
  match s with
  | RealmStatePending => StatePendingStr | RealmStateCreating => StateCreatingStr
  | RealmStateReady => StateReadyStr | RealmStateDeleting => StateDeletingStr
  | RealmStateFailed => StateFailedStr | RealmStateUnknown => StateUnknownStr
  end.
Definition SpaceState_String (s : SpaceState) : string :=
  match s with
  | SpaceStatePending => StatePendingStr | SpaceStateReady => StateReadyStr
  | SpaceStateFailed => StateFailedStr | SpaceStateUnknown => StateUnknownStr
  end.
Definition StackState_String (s : StackState) : string :=
  match s with
  | StackStatePending => StatePendingStr | StackStateReady => StateReadyStr
  | StackStateFailed => StateFailedStr | StackStateUnknown => StateUnknownStr
  end.
Definition CellState_String (s : CellState) : string :=
  match s with
  | CellStatePending => StatePendingStr | CellStateReady => StateReadyStr
  | CellStateStopped => StateStoppedStr | CellStateFailed => StateFailedStr
  | CellStateUnknown => StateUnknownStr | CellStateExited => StateExitedStr
  | CellStateError => StateErrorStr | CellStateDegraded => StateDegradedStr
  end.
Definition ContainerState_String (s : ContainerState) : string :=
  match s with
  | ContainerStatePending => StatePendingStr | ContainerStateReady => StateReadyStr
  | ContainerStateStopped => StateStoppedStr | ContainerStatePaused => StatePausedStr
  | ContainerStatePausing => StatePausingStr | ContainerStateFailed => StateFailedStr
  | ContainerStateUnknown => StateUnknownStr | ContainerStateNotCreated => StateNotCreatedStr
  | ContainerStateExited => StateExitedStr | ContainerStateError => StateErrorStr
  end.

(** A switch on the label: the cases in their order. *)
Fixpoint switch_label {A} (cases : list (string * A)) (fallthrough : error) (s : string) : result A :=
  match cases with
  | [] => Err fallthrough
  | (l, a) :: cases' => if String.eqb s l then Ok a else switch_label cases' fallthrough s
  end.

Definition parseRealmState : string → result RealmState :=
  switch_label [(StatePendingStr, RealmStatePending); (StateCreatingStr, RealmStateCreating);
    (StateReadyStr, RealmStateReady); (StateDeletingStr, RealmStateDeleting);
    (StateFailedStr, RealmStateFailed); (StateUnknownStr, RealmStateUnknown)]
    (EOpaque "realm state: unknown label %q").
Definition parseSpaceState : string → result SpaceState :=
  switch_label [(StatePendingStr, SpaceStatePending); (StateReadyStr, SpaceStateReady);
    (StateFailedStr, SpaceStateFailed); (StateUnknownStr, SpaceStateUnknown)]
    (EOpaque "space state: unknown label %q").
Definition parseStackState : string → result StackState :=
  switch_label [(StatePendingStr, StackStatePending); (StateReadyStr, StackStateReady);
    (StateFailedStr, StackStateFailed); (StateUnknownStr, StackStateUnknown)]
    (EOpaque "stack state: unknown label %q").
Definition parseCellState : string → result CellState :=
  switch_label [(StatePendingStr, CellStatePending); (StateReadyStr, CellStateReady);
    (StateStoppedStr, CellStateStopped); (StateFailedStr, CellStateFailed);
    (StateUnknownStr, CellStateUnknown); (StateExitedStr, CellStateExited);
    (StateErrorStr, CellStateError); (StateDegradedStr, CellStateDegraded)]
    (EOpaque "cell state: unknown label %q").
Definition parseContainerState : string → result ContainerState :=
  switch_label [(StatePendingStr, ContainerStatePending); (StateReadyStr, ContainerStateReady);
    (StateStoppedStr, ContainerStateStopped); (StatePausedStr, ContainerStatePaused);
    (StatePausingStr, ContainerStatePausing); (StateFailedStr, ContainerStateFailed);
    (StateUnknownStr, ContainerStateUnknown); (StateNotCreatedStr, ContainerStateNotCreated);
    (StateExitedStr, ContainerStateExited); (StateErrorStr, ContainerStateError)]
    (EOpaque "container state: unknown label %q").

(** The integer form: v := State(i), refused outside the declared constants. *)
Definition assignStateInt {A} (states : list A) (out_of_range : error) (i : Z) : result A :=
  if (i <? 0)%Z then Err out_of_range
  else match states !! Z.to_nat i with Some v => Ok v | None => Err out_of_range end.
Definition assignRealmStateInt : Z → result RealmState :=
  assignStateInt realmStates (EOpaque "realm state: int %d out of range").
Definition assignSpaceStateInt : Z → result SpaceState :=
  assignStateInt spaceStates (EOpaque "space state: int %d out of range").
Definition assignStackStateInt : Z → result StackState :=
  assignStateInt stackStates (EOpaque "stack state: int %d out of range").
Definition assignCellStateInt : Z → result CellState :=
  assignStateInt cellStates (EOpaque "cell state: int %d out of range").
Definition assignContainerStateInt : Z → result ContainerState :=
  assignStateInt containerStates (EOpaque "container state: int %d out of range").

(** A JSON value as the decoders of a state see it.  null decodes into a string
    variable without an error and leaves it empty. *)
Inductive json_value := JString (s : string) | JInt (i : Z) | JNull | JOther.

Definition unmarshalStateJSON {A} (parse : string → result A) (assign : Z → result A)
    (mismatch : error) (data : json_value) : result A :=
  match data with
  | JString str => parse str
  | JNull => parse ""
  | JInt i => assign i
  | JOther => Err mismatch
  end.

(** The node a YAML decoder hands over: a scalar with its text and whether its tag is
    !!int, or another kind of node. *)
Inductive yaml_scalar := YScalar (isInt : bool) (value : string) | YNotScalar.

(** [atoi] is strconv.Atoi, [None] for its error. *)
Definition unmarshalStateYAML {A} (atoi : string → option Z) (parse : string → result A)
    (assign : Z → result A) (notScalar badInt : error) (node : yaml_scalar) : result A :=
  match node with
  | YNotScalar => Err notScalar
  | YScalar true v => match atoi v with Some i => assign i | None => Err badInt end
  | YScalar false v => parse v
  end.

Definition RealmState_UnmarshalJSON : json_value → result RealmState :=
  unmarshalStateJSON parseRealmState assignRealmStateInt
    (EOpaque "realm state: expected string or int, got %s").
Definition SpaceState_UnmarshalJSON : json_value → result SpaceState :=
  unmarshalStateJSON parseSpaceState assignSpaceStateInt
    (EOpaque "space state: expected string or int, got %s").
Definition StackState_UnmarshalJSON : json_value → result StackState :=
  unmarshalStateJSON parseStackState assignStackStateInt
    (EOpaque "stack state: expected string or int, got %s").
Definition CellState_UnmarshalJSON : json_value → result CellState :=
  unmarshalStateJSON parseCellState assignCellStateInt
    (EOpaque "cell state: expected string or int, got %s").
Definition ContainerState_UnmarshalJSON : json_value → result ContainerState :=
  unmarshalStateJSON parseContainerState assignContainerStateInt
    (EOpaque "container state: expected string or int, got %s").

Definition RealmState_UnmarshalYAML (atoi : string → option Z) : yaml_scalar → result RealmState :=
  unmarshalStateYAML atoi parseRealmState assignRealmStateInt
    (EOpaque "realm state: expected scalar, got %v") (EOpaque "realm state: %w").
Definition SpaceState_UnmarshalYAML (atoi : string → option Z) : yaml_scalar → result SpaceState :=
  unmarshalStateYAML atoi parseSpaceState assignSpaceStateInt
    (EOpaque "space state: expected scalar, got %v") (EOpaque "space state: %w").
Definition StackState_UnmarshalYAML (atoi : string → option Z) : yaml_scalar → result StackState :=
  unmarshalStateYAML atoi parseStackState assignStackStateInt
    (EOpaque "stack state: expected scalar, got %v") (EOpaque "stack state: %w").
Definition CellState_UnmarshalYAML (atoi : string → option Z) : yaml_scalar → result CellState :=
  unmarshalStateYAML atoi parseCellState assignCellStateInt
    (EOpaque "cell state: expected scalar, got %v") (EOpaque "cell state: %w").
Definition ContainerState_UnmarshalYAML (atoi : string → option Z) : yaml_scalar → result ContainerState :=
  unmarshalStateYAML atoi parseContainerState assignContainerStateInt
    (EOpaque "container state: expected scalar, got %v") (EOpaque "container state: %w").

(** MarshalJSON: the label as a JSON string. *)
Definition RealmState_MarshalJSON (s : RealmState) : json_value := JString (RealmState_String s).
Definition SpaceState_MarshalJSON (s : SpaceState) : json_value := JString (SpaceState_String s).
Definition StackState_MarshalJSON (s : StackState) : json_value := JString (StackState_String s).
Definition CellState_MarshalJSON (s : CellState) : json_value := JString (CellState_String s).
Definition ContainerState_MarshalJSON (s : ContainerState) : json_value :=
  JString (ContainerState_String s).

(** ** Containers (container.go) *)

Record TtyStage := { ts_Script : string; ts_RunOn : string }.

Record ContainerTty := {
  ct_Prompt : string;
  ct_OnInit : list TtyStage;
  ct_LogFile : string;
  ct_LogLevel : string
}.

Definition RunOnStart : string := "start".
Definition RunOnCreate : string := "create".

(** IsEmpty on a possibly-nil receiver. *)
Definition ContainerTty_IsEmpty (t : option ContainerTty) : bool :=
  match t with
  | None => true
  | Some t =>
      String.eqb (ct_Prompt t) "" && String.eqb (ct_LogFile t) "" && String.eqb (ct_LogLevel t) ""
      && forallb (fun s => String.eqb (ts_Script s) "" && String.eqb (ts_RunOn s) "") (ct_OnInit t)
  end.

Record ContainerSecretRef := {
  csr_Name : string; csr_Realm : string; csr_Space : string; csr_Stack : string; csr_Cell : string
}.

Record ContainerSecret := {
  sec_Name : string;
  sec_FromFile : string;
  sec_FromEnv : string;
  sec_SecretRef : option ContainerSecretRef;
  sec_MountPath : string
}.

Definition VolumeKindBind : string := "bind".
Definition VolumeKindTmpfs : string := "tmpfs".
Definition VolumeKindVolume : string := "volume".

Record VolumeRef := { vr_Name : string; vr_Realm : string; vr_Space : string; vr_Stack : string }.

Record VolumeMount := {
  vm_Kind : string;
  vm_Source : string;
  vm_Target : string;
  vm_VolumeRef : option VolumeRef;
  vm_ReadOnly : bool;
  vm_SizeBytes : Z;
  vm_Mode : Z;
  vm_Ensure : bool
}.

Record ContainerRepo := {
  repo_Name : string; repo_Target : string; repo_Branch : string;
  repo_Ref : string; repo_URL : string; repo_Required : bool
}.

Definition GitSignCommits : string := "commits".
Definition GitSignTags : string := "tags".

Record GitIdentity := { gi_Name : string; gi_Email : string }.

Record ContainerGit := {
  git_Author : option GitIdentity;
  git_Committer : option GitIdentity;
  git_SigningKey : string;
  git_Sign : list string;
  git_AllowedSigners : string
}.

Record ContainerCapabilities := { cap_Drop : list string; cap_Add : list string }.
Record ContainerTmpfsMount := { tm_Path : string; tm_SizeBytes : Z; tm_Options : list string }.
Record ContainerResources := {
  res_MemoryLimitBytes : option Z; res_CPUShares : option Z; res_PidsLimit : option Z
}.

Record ContainerSpec := {
  c_ID : string;
  c_ContainerdID : string;
  c_RealmID : string;
  c_SpaceID : string;
  c_StackID : string;
  c_CellID : string;
  c_Root : bool;
  c_Image : string;
  c_Command : string;
  c_Args : list string;
  c_WorkingDir : string;
  c_Env : list string;
  c_Ports : list string;
  c_Volumes : list VolumeMount;
  c_Networks : list string;
  c_NetworksAliases : list string;
  c_Privileged : bool;
  c_HostNetwork : bool;
  c_HostPID : bool;
  c_HostCgroup : bool;
  c_User : string;
  c_ReadOnlyRootFilesystem : bool;
  c_Capabilities : option ContainerCapabilities;
  c_SecurityOpts : list string;
  c_Devices : list string;
  c_Tmpfs : list ContainerTmpfsMount;
  c_Resources : option ContainerResources;
  c_Secrets : list ContainerSecret;
  c_Repos : list ContainerRepo;
  c_Git : option ContainerGit;
  c_CNIConfigPath : string;
  c_RestartPolicy : string;
  c_RestartBackoffSeconds : option Z;
  c_RestartMaxRetries : option Z;
  c_Attachable : bool;
  c_Tty : option ContainerTty;
  c_KukeonGroupGID : Z
}.

Record RepoStatus := {
  rs_Name : string; rs_Target : string; rs_State : string; rs_Commit : string; rs_Error : string
}.
Record StageStatus := { ss_Index : Z; ss_State : string; ss_Error : string; ss_Hash : string }.

Record ContainerStatus := {
  cs_Name : string;
  cs_ID : string;
  cs_State : ContainerState;
  cs_CreatedAt : Time;
  cs_RestartCount : Z;
  cs_RestartTime : Time;
  cs_StartTime : Time;
  cs_FinishTime : Time;
  cs_ExitCode : Z;
  cs_ExitSignal : string;
  cs_Repos : list RepoStatus;
  cs_Stages : list StageStatus
}.

Record ContainerMetadata := { ctm_Name : string; ctm_Labels : gmap string string }.

Record ContainerDoc := {
  cont_APIVersion : string;
  cont_Kind : string;
  cont_Metadata : ContainerMetadata;
  cont_Spec : ContainerSpec;
  cont_Status : ContainerStatus
}.

(** ** Cells (cell.go) *)

Record CellTty := { ctty_Default : string }.
Record CellBindingRef := {
  cbr_Name : string; cbr_Realm : string; cbr_Space : string; cbr_Stack : string
}.
Record CellProvenance := {
  cp_BindingKind : string;
  cp_BindingRef : CellBindingRef;
  cp_Params : gmap string string;
  cp_EnvOverrides : list string
}.
Definition BindingKindConfig : string := "config".
Definition BindingKindBlueprint : string := "blueprint".

Record CellMetadata := {
  cm_Name : string;
  cm_Labels : gmap string string;
  cm_Annotations : gmap string string;
  cm_Generation : Z
}.

Record CellSpec := {
  csp_ID : string;
  csp_RealmID : string;
  csp_SpaceID : string;
  csp_StackID : string;
  csp_RootContainerID : string;
  csp_Tty : option CellTty;
  csp_Containers : list ContainerSpec;
  csp_AutoDelete : bool;
  csp_NestedCgroupRuntime : bool;
  csp_RuntimeEnv : list string;
  csp_Provenance : option CellProvenance;
  csp_IgnoreDiskPressure : bool
}.

(** The Network field holds the bridge name only. *)
Record CellStatus := {
  cst_State : CellState;
  cst_CgroupPath : string;
  cst_SubtreeControllers : list string;
  cst_BridgeName : string;
  cst_Containers : list ContainerStatus;
  cst_ReadyObserved : bool;
  cst_CreatedAt : Time;
  cst_UpdatedAt : Time;
  cst_ReadyAt : Time;
  cst_Reason : string;
  cst_Message : string;
  cst_CgroupReady : bool;
  cst_ObservedGeneration : Z;
  cst_OutOfSync : bool;
  cst_OutOfSyncReason : string;
  cst_OutOfSyncError : string
}.

Record CellDoc := {
  cell_APIVersion : string;
  cell_Kind : string;
  cell_Metadata : CellMetadata;
  cell_Spec : CellSpec;
  cell_Status : CellStatus
}.

(** ** Realms, spaces and stacks (realm.go, space.go, stack.go) *)

(** RealmMetadata, SpaceMetadata and StackMetadata have the same three fields. *)
Record ScopeMetadata := {
  sm_Name : string; sm_Labels : gmap string string; sm_Generation : Z
}.
Record RegistryCredentials := {
  rc_Username : string; rc_Password : string; rc_ServerAddress : string
}.
Record RealmSpec := {
  rsp_Namespace : string; rsp_RegistryCredentials : list RegistryCredentials
}.
Record RealmStatus := {
  rst_State : RealmState;
  rst_CgroupPath : string;
  rst_SubtreeControllers : list string;
  rst_CreatedAt : Time;
  rst_UpdatedAt : Time;
  rst_ReadyAt : Time;
  rst_Reason : string;
  rst_Message : string;
  rst_CgroupReady : bool;
  rst_ContainerdNamespaceReady : bool;
  rst_ObservedGeneration : Z
}.
Record RealmDoc := {
  realm_APIVersion : string;
  realm_Kind : string;
  realm_Metadata : ScopeMetadata;
  realm_Spec : RealmSpec;
  realm_Status : RealmStatus
}.

Record EgressAllowRule := { ear_Host : string; ear_CIDR : string; ear_Ports : list Z }.
Record EgressPolicy := { ep_Default : string; ep_Allow : list EgressAllowRule }.
Record SpaceNetwork := { sn_Egress : option EgressPolicy }.
Record SpaceContainerDefaults := {
  scd_User : string;
  scd_ReadOnlyRootFilesystem : option bool;
  scd_Capabilities : option ContainerCapabilities;
  scd_SecurityOpts : list string;
  scd_Tmpfs : list ContainerTmpfsMount;
  scd_Resources : option ContainerResources
}.
Record SpaceDefaults := { sd_Container : option SpaceContainerDefaults }.
Record SpaceSpec := {
  spsp_RealmID : string;
  spsp_CNIConfigPath : string;
  spsp_Network : option SpaceNetwork;
  spsp_Defaults : option SpaceDefaults
}.

(** SpaceStatus and StackStatus share their fields but for the state's type. *)
Record ScopeStatus {S : Type} := {
  sst_State : S;
  sst_CgroupPath : string;
  sst_SubtreeControllers : list string;
  sst_CreatedAt : Time;
  sst_UpdatedAt : Time;
  sst_ReadyAt : Time;
  sst_Reason : string;
  sst_Message : string;
  sst_CgroupReady : bool;
  sst_ObservedGeneration : Z
}.
Arguments ScopeStatus : clear implicits.

Record SpaceDoc := {
  space_APIVersion : string;
  space_Kind : string;
  space_Metadata : ScopeMetadata;
  space_Spec : SpaceSpec;
  space_Status : ScopeStatus SpaceState
}.
Record StackSpec := { stsp_ID : string; stsp_RealmID : string; stsp_SpaceID : string }.
Record StackDoc := {
  stack_APIVersion : string;
  stack_Kind : string;
  stack_Metadata : ScopeMetadata;
  stack_Spec : StackSpec;
  stack_Status : ScopeStatus StackState
}.

(** ** Secrets and volumes (secret.go, volume.go) *)

Record SecretMetadata := {
  secm_Name : string; secm_Realm : string; secm_Space : string; secm_Stack : string; secm_Cell : string
}.
Record SecretDoc := {
  secret_APIVersion : string; secret_Kind : string;
  secret_Metadata : SecretMetadata; secret_Data : string
}.
Record VolumeMetadata := {
  volm_Name : string; volm_Realm : string; volm_Space : string; volm_Stack : string
}.
Definition ReclaimDelete : string := "Delete".
Definition ReclaimRetain : string := "Retain".
Record VolumeDoc := {
  vol_APIVersion : string; vol_Kind : string;
  vol_Metadata : VolumeMetadata; vol_ReclaimPolicy : string
}.

(** ** Blueprints and configs (cellblueprint.go, cellconfig.go) *)

Record CellBlueprintMetadata := {
  bpm_Name : string; bpm_Realm : string; bpm_Space : string; bpm_Stack : string;
  bpm_Labels : gmap string string
}.
Record CellBlueprintParameter := {
  bpp_Name : string; bpp_Description : string; bpp_Default : option string; bpp_Required : bool
}.
Definition BlueprintSecretModeEnv : string := "env".
Definition BlueprintSecretModeFile : string := "file".
Record BlueprintSecretSlot := {
  bss_Name : string; bss_Mode : string; bss_EnvName : string; bss_MountPath : string;
  bss_Required : bool
}.
Record BlueprintContainer := {
  bc_ID : string;
  bc_Root : bool;
  bc_Image : string;
  bc_Command : string;
  bc_Args : list string;
  bc_WorkingDir : string;
  bc_Env : list string;
  bc_Ports : list string;
  bc_Volumes : list VolumeMount;
  bc_Networks : list string;
  bc_NetworksAliases : list string;
  bc_Privileged : bool;
  bc_HostNetwork : bool;
  bc_HostPID : bool;
  bc_HostCgroup : bool;
  bc_User : string;
  bc_ReadOnlyRootFilesystem : bool;
  bc_Capabilities : option ContainerCapabilities;
  bc_SecurityOpts : list string;
  bc_Devices : list string;
  bc_Tmpfs : list ContainerTmpfsMount;
  bc_Resources : option ContainerResources;
  bc_Repos : list ContainerRepo;
  bc_Git : option ContainerGit;
  bc_RestartPolicy : string;
  bc_Attachable : bool;
  bc_Tty : option ContainerTty;
  bc_Secrets : list BlueprintSecretSlot
}.
Record BlueprintCellSpec := {
  bcs_Tty : option CellTty;
  bcs_Containers : list BlueprintContainer;
  bcs_AutoDelete : bool;
  bcs_NestedCgroupRuntime : bool
}.
Record CellBlueprintSpec := {
  bps_Prefix : string;
  bps_Parameters : list CellBlueprintParameter;
  bps_Cell : BlueprintCellSpec
}.
Record CellBlueprintDoc := {
  bp_APIVersion : string; bp_Kind : string;
  bp_Metadata : CellBlueprintMetadata; bp_Spec : CellBlueprintSpec
}.

Record CellConfigMetadata := {
  cfm_Name : string; cfm_Realm : string; cfm_Space : string; cfm_Stack : string;
  cfm_Labels : gmap string string; cfm_Annotations : gmap string string
}.
Record CellConfigBlueprintRef := {
  bref_Name : string; bref_Realm : string; bref_Space : string; bref_Stack : string
}.
Record CellConfigRepoFill := { rf_URL : string; rf_Branch : string; rf_Ref : string }.
Record CellConfigSecretFill := { sf_SecretRef : option ContainerSecretRef }.
Record CellConfigSpec := {
  cfs_Prefix : string;
  cfs_Blueprint : CellConfigBlueprintRef;
  cfs_Values : gmap string string;
  cfs_Repos : gmap string CellConfigRepoFill;
  cfs_Secrets : gmap string CellConfigSecretFill
}.
Record CellConfigDoc := {
  cfg_APIVersion : string; cfg_Kind : string;
  cfg_Metadata : CellConfigMetadata; cfg_Spec : CellConfigSpec
}.

End ext.

(** ** Theorems *)

Lemma assignStateInt_nth {A} (states : list A) e i :
  (0 ≤ i < Z.of_nat (length states))%Z → ∃ a, ext.assignStateInt states e i = Ok a ∧ states !! Z.to_nat i = Some a.
Proof.
  intros Hi. unfold ext.assignStateInt. rewrite (proj2 (Z.ltb_ge i 0)) by lia.
  destruct (lookup_lt_is_Some_2 states (Z.to_nat i)) as [a Ha]; [lia|]. rewrite Ha. eauto.
Qed.

(** Every state written by this daemon is read back, and the integer form written
    by older daemons is read back exactly for the declared constants: one more or
    a negative value is refused instead of wrapping into another state. *)
Theorem state_marshal_roundtrip :
  (∀ s, ext.RealmState_UnmarshalJSON (ext.RealmState_MarshalJSON s) = Ok s) ∧
  (∀ s, ext.SpaceState_UnmarshalJSON (ext.SpaceState_MarshalJSON s) = Ok s) ∧
  (∀ s, ext.StackState_UnmarshalJSON (ext.StackState_MarshalJSON s) = Ok s) ∧
  (∀ s, ext.CellState_UnmarshalJSON (ext.CellState_MarshalJSON s) = Ok s) ∧
  (∀ s, ext.ContainerState_UnmarshalJSON (ext.ContainerState_MarshalJSON s) = Ok s) ∧
  (∀ i, is_Ok (ext.CellState_UnmarshalJSON (ext.JInt i)) = true ↔ (0 ≤ i < 8)%Z) ∧
  (∀ i, is_Ok (ext.ContainerState_UnmarshalJSON (ext.JInt i)) = true ↔ (0 ≤ i < 10)%Z).
Proof.
  assert (Hint : ∀ {A} (states : list A) e i,
    is_Ok (ext.assignStateInt states e i) = true ↔ (0 ≤ i < Z.of_nat (length states))%Z).
  { intros A states e i. split.
    - unfold ext.assignStateInt. destruct (Z.ltb_spec i 0); [done|].
      destruct (states !! Z.to_nat i) eqn:E; [|done]. apply lookup_lt_Some in E. lia.
    - intros Hi. by destruct (assignStateInt_nth states e i Hi) as (a & -> & _). }
  do 5 (split; [intros []; reflexivity|]). split; intros i; apply Hint.
Qed.
