(* ===== verification/Validate.v ===== *)
(** * Validate: what a cell or container document must satisfy
    (the validators of internal/apischeme/scheme.go)

    Each validator returns the first violated rule.  A Go [error] is an
    [option error]; the theorems characterise acceptance rule by rule. *)

From Stdlib Require Import ZArith String Ascii.
From stdpp Require Import base gmap strings list.
From S2P Require Import Prelude Model External.

(** filepath.IsAbs *)
Definition IsAbs (p : string) : bool := HasPrefix p "/".

(** strings.ContainsRune / ContainsAny on single bytes *)
Definition contains_byte (c : Ascii.ascii) (s : string) : bool := negb (avoids c s).
Definition nul : Ascii.ascii := Ascii.ascii_of_nat 0.

(** ** Tty *)

Definition validateTtyLogLevel (level : string) : option error :=
  if existsb (String.eqb level) [""; "debug"; "info"; "warn"; "error"] then None
  else Some (EOpaque "tty.logLevel %q: must be one of debug, info, warn, error").

Definition validateTtyStageRunOn (runOn : string) : option error :=
  if existsb (String.eqb runOn) [""; ext.RunOnStart; ext.RunOnCreate] then None
  else Some (EOpaque "tty stage runOn %q: must be one of %q, %q (or empty)").

Definition hasCreateStage (t : ext.ContainerTty) : bool :=
  existsb (fun s => String.eqb (ext.ts_RunOn s) ext.RunOnCreate) (ext.ct_OnInit t).

(** A mount that is neither tmpfs nor read-only. *)
Definition persistentWritable (v : ext.VolumeMount) : bool :=
  negb (String.eqb (ext.vm_Kind v) ext.VolumeKindTmpfs) && negb (ext.vm_ReadOnly v).

Definition validateContainerCreateStagePersistence (spec : ext.ContainerSpec) : option error :=
  match ext.c_Tty spec with
  | None => None
  | Some t =>
      if negb (hasCreateStage t) then None
      else if existsb persistentWritable (ext.c_Volumes spec) then None
      else Some (EOpaque
        "container %q: tty.onInit has runOn: %q stages but the container has no persistent writable mount")
  end.

Definition wrapErr (fmt : string) (e : option error) : option error :=
  match e with Some e => Some (EWrap fmt [e]) | None => None end.

Definition validateContainerTty (spec : ext.ContainerSpec) : option error :=
  if negb (ext.c_Attachable spec) then
    if negb (ext.ContainerTty_IsEmpty (ext.c_Tty spec))
    then Some (EOpaque "container %q: tty fields require attachable: true") else None
  else
    match ext.c_Tty spec with
    | None => None
    | Some t =>
        first_error
          ([wrapErr "container %q: %w" (validateTtyLogLevel (ext.ct_LogLevel t))]
           ++ ((fun s => wrapErr "container %q: onInit[%d]: %w" (validateTtyStageRunOn (ext.ts_RunOn s)))
                 <$> ext.ct_OnInit t)
           ++ [validateContainerCreateStagePersistence spec])
    end.

(** ** Restart tuning *)

Definition validateContainerRestart (spec : ext.ContainerSpec) : option error :=
  let policy := ext.c_RestartPolicy spec in
  let restarts := String.eqb policy RestartPolicyAlways || String.eqb policy RestartPolicyOnFailure in
  first_error [
    match ext.c_RestartBackoffSeconds spec with
    | None => None
    | Some b =>
        if (b <? 0)%Z then Some (EOpaque "container %q: restartBackoffSeconds must be >= 0, got %d")
        else if negb restarts
        then Some (EOpaque "container %q: restartBackoffSeconds requires restartPolicy %q or %q, got %q")
        else None
    end;
    match ext.c_RestartMaxRetries spec with
    | None => None
    | Some r =>
        if (r <? 1)%Z then Some (EOpaque "container %q: restartMaxRetries must be >= 1, got %d")
        else if negb (String.eqb policy RestartPolicyOnFailure)
        then Some (EOpaque "container %q: restartMaxRetries requires restartPolicy %q, got %q")
        else None
    end ].

(** ** Volumes *)

Definition volumeSegmentSafe (seg : string) : bool :=
  if String.eqb seg "." || String.eqb seg ".." then false
  else negb (contains_byte slash seg || contains_byte nul seg) && negb (Contains seg "..").

Definition validateVolumeRefScope (ref : ext.VolumeRef) : option error :=
  let name := TrimSpace (ext.vr_Name ref) in
  let realm := TrimSpace (ext.vr_Realm ref) in
  let space := TrimSpace (ext.vr_Space ref) in
  let stack := TrimSpace (ext.vr_Stack ref) in
  if String.eqb name "" then Some (ESentinel ErrVolumeRefNameRequired)
  else if String.eqb realm "" then Some (ESentinel ErrVolumeRefRealmRequired)
  else if negb (String.eqb stack "") && String.eqb space ""
  then Some (ESentinel ErrVolumeRefScopeIncomplete)
  else first_error
    ((fun seg => if negb (String.eqb seg "") && negb (volumeSegmentSafe seg)
                 then Some (ESentinel ErrVolumeCoordUnsafe) else None)
       <$> [name; realm; space; stack]).

Definition validateVolumeKindMount (v : ext.VolumeMount) : option error :=
  let hasSource := negb (String.eqb (TrimSpace (ext.vm_Source v)) "") in
  let hasRef := match ext.vm_VolumeRef v with Some _ => true | None => false end in
  if hasSource && hasRef then Some (ESentinel ErrVolumeRefSourceExclusive)
  else if negb hasSource && negb hasRef then Some (ESentinel ErrVolumeRefSourceMissing)
  else first_error [
    (if hasSource then
       if IsAbs (ext.vm_Source v) then Some (ESentinel ErrVolumeSourceNotName)
       else if negb (volumeSegmentSafe (ext.vm_Source v)) then Some (ESentinel ErrVolumeCoordUnsafe)
       else None
     else None);
    match ext.vm_VolumeRef v with Some ref => validateVolumeRefScope ref | None => None end;
    (if String.eqb (TrimSpace (ext.vm_Target v)) "" then Some (ESentinel ErrVolumeTargetRequired) else None);
    (if negb (IsAbs (ext.vm_Target v)) then Some (ESentinel ErrVolumeTargetNotAbsolute) else None) ].

Definition validateContainerVolume (v : ext.VolumeMount) : option error :=
  let kind := ext.vm_Kind v in
  if match ext.vm_VolumeRef v with Some _ => negb (String.eqb kind ext.VolumeKindVolume) | None => false end
  then Some (EOpaque "container %q volume %d: volumeRef is only valid on a kind: volume mount")
  else if String.eqb kind ext.VolumeKindVolume
  then wrapErr "container %q volume %d: %w" (validateVolumeKindMount v)
  else if String.eqb kind ext.VolumeKindTmpfs then
    if negb (String.eqb (ext.vm_Source v) "")
    then Some (EWrap "container %q volume %d: %w" [ESentinel ErrVolumeTmpfsSourceForbidden])
    else None
  else if String.eqb kind "" || String.eqb kind ext.VolumeKindBind then None
  else Some (EWrap "container %q volume %d: %w (got %q)" [ESentinel ErrVolumeKindUnknown]).

Definition validateContainerVolumes (spec : ext.ContainerSpec) : option error :=
  first_error (validateContainerVolume <$> ext.c_Volumes spec).

(** ** Git *)

Definition validateGitIdentity (role : string) (id : option ext.GitIdentity) : option error :=
  match id with
  | None => None
  | Some id =>
      if String.eqb (ext.gi_Name id) "" || String.eqb (ext.gi_Email id) ""
      then Some (EOpaque "git.%s requires both name and email") else None
  end.

Definition validateContainerGit (spec : ext.ContainerSpec) : option error :=
  match ext.c_Git spec with
  | None => None
  | Some git =>
      first_error
        ([wrapErr "container %q: %w" (validateGitIdentity "author" (ext.git_Author git));
          wrapErr "container %q: %w" (validateGitIdentity "committer" (ext.git_Committer git))]
         ++ ((fun s => if negb (String.eqb s ext.GitSignCommits) && negb (String.eqb s ext.GitSignTags)
                       then Some (EOpaque "container %q: git.sign %q: must be one of %q, %q") else None)
               <$> ext.git_Sign git)
         ++ [if (0 <? length (ext.git_Sign git))%nat && String.eqb (ext.git_SigningKey git) ""
             then Some (EOpaque "container %q: git.sign requires git.signingKey to be set") else None])
  end.

(** The four container validators in the order both conversions run them. *)
Definition validateContainer (spec : ext.ContainerSpec) : option error :=
  first_error [validateContainerTty spec; validateContainerGit spec;
               validateContainerVolumes spec; validateContainerRestart spec].

(** ** Cell-level rules *)

Definition validateCellTty (spec : ext.CellSpec) : option error :=
  match ext.csp_Tty spec with
  | None => None
  | Some t =>
      if String.eqb (ext.ctty_Default t) "" then None
      else match find_first (fun c => String.eqb (ext.c_ID c) (ext.ctty_Default t))
                   (ext.csp_Containers spec) with
           | Some c => if ext.c_Attachable c then None
                       else Some (EOpaque "cell tty.default %q references container that is not attachable")
           | None => Some (EOpaque "cell tty.default %q does not match any container in this cell")
           end
  end.

Definition resolveCellRootContainer (spec : CellSpec) : result string :=
  let rootMarked := c_ID <$> List.filter c_Root (csp_Containers spec) in
  if (1 <? length rootMarked)%nat then Err (EWrap "%w: %v" [ESentinel ErrMultipleRootContainers])
  else if negb (String.eqb (csp_RootContainerID spec) "") then
    if negb (existsb (fun c => String.eqb (c_ID c) (csp_RootContainerID spec)) (csp_Containers spec))
    then Err (EOpaque "rootContainerId %q not found in containers array")
    else match rootMarked with
         | [r] => if negb (String.eqb r (csp_RootContainerID spec))
                  then Err (EWrap "%w: rootContainerId is %q but container %q has root: true"
                              [ESentinel ErrRootContainerMismatch])
                  else Ok (csp_RootContainerID spec)
         | _ => Ok (csp_RootContainerID spec)
         end
  else match rootMarked with [r] => Ok r | _ => Ok "" end.

(** ** Theorems *)

Lemma wrapErr_None fmt e : wrapErr fmt e = None ↔ e = None.
Proof. destruct e; naive_solver. Qed.

Lemma existsb_eqb_In s l : existsb (String.eqb s) l = true ↔ s ∈ l.
Proof. rewrite existsb_elem. setoid_rewrite String.eqb_eq. naive_solver. Qed.

(** What an accepted container spec satisfies, stated over the document's fields. *)
Record restart_wf (spec : ext.ContainerSpec) : Prop := {
  rw_backoff : ∀ b, ext.c_RestartBackoffSeconds spec = Some b →
    (0 ≤ b)%Z ∧ (ext.c_RestartPolicy spec = RestartPolicyAlways
                 ∨ ext.c_RestartPolicy spec = RestartPolicyOnFailure);
  rw_retries : ∀ r, ext.c_RestartMaxRetries spec = Some r →
    (1 ≤ r)%Z ∧ ext.c_RestartPolicy spec = RestartPolicyOnFailure
}.

Lemma validateContainerRestart_spec spec :
  validateContainerRestart spec = None ↔ restart_wf spec.
Proof.
  unfold validateContainerRestart. rewrite !first_error_cons_None. split.
  - intros (Hb & Hr & _). split.
    + intros b E. rewrite E in Hb. destruct (Z.ltb_spec b 0); [done|].
      destruct (_ || _) eqn:Ep; [|done]. rewrite orb_true_iff, !String.eqb_eq in Ep. naive_solver.
    + intros r E. rewrite E in Hr. destruct (Z.ltb_spec r 1); [done|].
      destruct (String.eqb_spec (ext.c_RestartPolicy spec) RestartPolicyOnFailure); [naive_solver|done].
  - intros [Hb Hr]. split; [|split; [|done]].
    + destruct (ext.c_RestartBackoffSeconds spec) as [b|]; [|done].
      destruct (Hb b eq_refl) as [Hb0 Hp]. rewrite (proj2 (Z.ltb_ge b 0)) by lia.
      by destruct Hp as [-> | ->].
    + destruct (ext.c_RestartMaxRetries spec) as [r|]; [|done].
      destruct (Hr r eq_refl) as [Hr1 ->]. by rewrite (proj2 (Z.ltb_ge r 1)) by lia.
Qed.

(** A path element that stays where it is joined. *)
Record segment_safe (seg : string) : Prop := {
  ss_slash : avoids slash seg = true;
  ss_nul : avoids nul seg = true;
  ss_dots : Contains seg ".." = false;
  ss_dot : seg ≠ "."
}.

Lemma volumeSegmentSafe_spec seg : volumeSegmentSafe seg = true ↔ segment_safe seg.
Proof.
  unfold volumeSegmentSafe, contains_byte. split.
  - destruct (String.eqb_spec seg "."); [done|]. destruct (String.eqb_spec seg ".."); [done|]. cbn [orb].
    rewrite andb_true_iff, negb_orb, !negb_true_iff, andb_true_iff, !negb_involutive.
    intros [[H1 H2] H3]. by split.
  - intros [H1 H2 H3 H4]. destruct (String.eqb_spec seg "."); [done|].
    destruct (String.eqb_spec seg "..") as [->|]; [done|]. by rewrite H1, H2, H3.
Qed.

(** What an accepted volume mount satisfies. *)
Record volume_wf (v : ext.VolumeMount) : Prop := {
  vw_kind : ext.vm_Kind v ∈ [""; ext.VolumeKindBind; ext.VolumeKindTmpfs; ext.VolumeKindVolume];
  vw_tmpfs : ext.vm_Kind v = ext.VolumeKindTmpfs → ext.vm_Source v = "";
  vw_ref_kind : is_Some (ext.vm_VolumeRef v) → ext.vm_Kind v = ext.VolumeKindVolume;
  vw_source : ext.vm_Kind v = ext.VolumeKindVolume → ext.vm_VolumeRef v = None →
    TrimSpace (ext.vm_Source v) ≠ "" ∧ segment_safe (ext.vm_Source v);
  vw_ref : ∀ ref, ext.vm_VolumeRef v = Some ref →
    TrimSpace (ext.vm_Source v) = "" ∧
    TrimSpace (ext.vr_Name ref) ≠ "" ∧ TrimSpace (ext.vr_Realm ref) ≠ "" ∧
    (TrimSpace (ext.vr_Stack ref) ≠ "" → TrimSpace (ext.vr_Space ref) ≠ "") ∧
    Forall segment_safe (TrimSpace <$> [ext.vr_Name ref; ext.vr_Realm ref; ext.vr_Space ref; ext.vr_Stack ref]);
  vw_target : ext.vm_Kind v = ext.VolumeKindVolume → IsAbs (ext.vm_Target v) = true
}.

Lemma validateVolumeRefScope_spec ref :
  validateVolumeRefScope ref = None ↔
  TrimSpace (ext.vr_Name ref) ≠ "" ∧ TrimSpace (ext.vr_Realm ref) ≠ "" ∧
  (TrimSpace (ext.vr_Stack ref) ≠ "" → TrimSpace (ext.vr_Space ref) ≠ "") ∧
  Forall segment_safe (TrimSpace <$> [ext.vr_Name ref; ext.vr_Realm ref; ext.vr_Space ref; ext.vr_Stack ref]).
Proof.
  unfold validateVolumeRefScope.
  destruct (String.eqb_spec (TrimSpace (ext.vr_Name ref)) ""); [naive_solver|].
  destruct (String.eqb_spec (TrimSpace (ext.vr_Realm ref)) ""); [naive_solver|].
  assert (Hseg : ∀ seg,
    (if negb (String.eqb seg "") && negb (volumeSegmentSafe seg)
     then Some (ESentinel ErrVolumeCoordUnsafe) else None) = None ↔ segment_safe seg).
  { intros seg. rewrite <-volumeSegmentSafe_spec.
    destruct (String.eqb_spec seg "") as [->|]; [done|]. by destruct (volumeSegmentSafe seg). }
  assert (Hall : ∀ l, first_error ((fun seg => if negb (String.eqb seg "") && negb (volumeSegmentSafe seg)
                 then Some (ESentinel ErrVolumeCoordUnsafe) else None) <$> l) = None
                 ↔ Forall segment_safe l).
  { intros l. rewrite first_error_fmap_None, Forall_forall. by setoid_rewrite Hseg. }
  destruct (String.eqb_spec (TrimSpace (ext.vr_Stack ref)) "") as [Es|Hs]; cbn [negb andb].
  - rewrite Hall. naive_solver.
  - destruct (String.eqb_spec (TrimSpace (ext.vr_Space ref)) ""); [naive_solver|].
    rewrite Hall. naive_solver.
Qed.

Lemma IsAbs_slash p : IsAbs p = true → ∃ q, p = String slash q.
Proof.
  unfold IsAbs. destruct p as [|c p]; [done|]. change "/" with (String slash "").
  rewrite HasPrefix_cons. intros [->%Ascii.eqb_eq _]%andb_true_iff. eauto.
Qed.

Lemma IsAbs_nonblank p : IsAbs p = true → TrimSpace p ≠ "".
Proof.
  intros [q ->]%IsAbs_slash. change (TrimSpace (String slash q)) with (rtrim (String slash q)).
  cbn. by destruct (rtrim q).
Qed.

Lemma validateVolumeKindMount_spec v :
  validateVolumeKindMount v = None ↔
  (ext.vm_VolumeRef v = None → TrimSpace (ext.vm_Source v) ≠ "" ∧ segment_safe (ext.vm_Source v)) ∧
  (∀ ref, ext.vm_VolumeRef v = Some ref →
     TrimSpace (ext.vm_Source v) = "" ∧ validateVolumeRefScope ref = None) ∧
  IsAbs (ext.vm_Target v) = true.
Proof.
  assert (Habs : IsAbs (ext.vm_Source v) = true → segment_safe (ext.vm_Source v) → False).
  { intros [q E]%IsAbs_slash [Hs _ _ _]. by rewrite E in Hs. }
  assert (Htgt : first_error
      [(if String.eqb (TrimSpace (ext.vm_Target v)) "" then Some (ESentinel ErrVolumeTargetRequired) else None);
       (if negb (IsAbs (ext.vm_Target v)) then Some (ESentinel ErrVolumeTargetNotAbsolute) else None)]
      = None ↔ IsAbs (ext.vm_Target v) = true).
  { pose proof (IsAbs_nonblank (ext.vm_Target v)) as Hn.
    destruct (String.eqb_spec (TrimSpace (ext.vm_Target v)) ""), (IsAbs (ext.vm_Target v)); naive_solver. }
  unfold validateVolumeKindMount.
  destruct (String.eqb_spec (TrimSpace (ext.vm_Source v)) "") as [Es|Hs];
    destruct (ext.vm_VolumeRef v) as [ref|]; cbn [negb andb];
    rewrite ?(first_error_cons_None _ [_; _; _]), ?(first_error_cons_None _ [_; _]), ?Htgt; clear Htgt.
  - clear Habs. naive_solver.
  - split; [done|]. intros (H & _). by destruct (H eq_refl).
  - split; [done|]. intros (_ & H & _). by destruct (H ref eq_refl).
  - rewrite <-volumeSegmentSafe_spec in *. destruct (IsAbs (ext.vm_Source v)) eqn:Ea.
    + split; [by intros [? _]|]. intros (H & _). destruct (Habs eq_refl). by apply H.
    + clear Habs Ea. destruct (volumeSegmentSafe (ext.vm_Source v)); cbn [negb]; [|split; [by intros [? _]|]].
      * naive_solver.
      * intros (H & _). by destruct (H eq_refl).
Qed.

Lemma validateContainerVolume_spec v : validateContainerVolume v = None ↔ volume_wf v.
Proof.
  unfold validateContainerVolume. split.
  - destruct (ext.vm_VolumeRef v) as [ref|] eqn:Er.
    + destruct (String.eqb_spec (ext.vm_Kind v) ext.VolumeKindVolume) as [Ek|]; [|done]. cbn [negb].
      rewrite wrapErr_None, validateVolumeKindMount_spec. intros (H1 & H2 & H3).
      setoid_rewrite validateVolumeRefScope_spec in H2.
      split; rewrite ?Ek; [set_solver|done|done| |by intros; apply H2; congruence|done].
      intros _ E. congruence.
    + destruct (String.eqb_spec (ext.vm_Kind v) ext.VolumeKindVolume) as [Ek|Nk].
      { rewrite wrapErr_None, validateVolumeKindMount_spec. intros (H1 & H2 & H3).
        split; rewrite ?Ek; try naive_solver. set_solver. }
      destruct (String.eqb_spec (ext.vm_Kind v) ext.VolumeKindTmpfs) as [Ek|Nt].
      { destruct (String.eqb_spec (ext.vm_Source v) "") as [Es|]; [|done]. intros _.
        split; rewrite ?Ek, ?Er; try naive_solver; set_solver. }
      destruct (_ || _) eqn:Eo; [|done]. intros _.
      rewrite orb_true_iff, !String.eqb_eq in Eo.
      split; rewrite ?Er; try naive_solver; set_solver.
  - intros [Hk Ht Hrk Hs Hr Hg]. destruct (ext.vm_VolumeRef v) as [ref|] eqn:Er.
    + rewrite Hrk by eauto. cbn. rewrite wrapErr_None, validateVolumeKindMount_spec.
      rewrite Er. setoid_rewrite validateVolumeRefScope_spec. naive_solver.
    + destruct (String.eqb_spec (ext.vm_Kind v) ext.VolumeKindVolume) as [Ek|Nk].
      { rewrite wrapErr_None, validateVolumeKindMount_spec, Er. naive_solver. }
      destruct (String.eqb_spec (ext.vm_Kind v) ext.VolumeKindTmpfs) as [Ek|Nt].
      { by rewrite (Ht Ek). }
      rewrite !elem_of_cons in Hk. destruct Hk as [-> | [-> | [? | [? | []%elem_of_nil]]]]; done.
Qed.

(** ** The root container *)

(** What resolution promises of the cell it accepts: at most one flagged container,
    and the resolved name is "" (no root declared) or names a container of the cell
    that no other flag contradicts. *)
Record root_wf (containers : list ContainerSpec) (root : string) : Prop := {
  root_unique : (length (List.filter c_Root containers) ≤ 1)%nat;
  root_exists : root ≠ "" → ∃ c, c ∈ containers ∧ c_ID c = root;
  root_flagged : ∀ c, c ∈ containers → c_Root c = true → c_ID c = root
}.

Lemma filter_singleton_elem {A} (p : A → bool) l x y :
  List.filter p l = [x] → y ∈ l → p y = true → y = x.
Proof. intros E Hy Hp. assert (y ∈ List.filter p l) by by apply filter_elem. rewrite E in *. set_solver. Qed.

Lemma resolveCellRootContainer_sound spec root :
  resolveCellRootContainer spec = Ok root → root_wf (csp_Containers spec) root.
Proof.
  unfold resolveCellRootContainer. rewrite length_fmap.
  destruct (Nat.ltb_spec 1 (length (List.filter c_Root (csp_Containers spec)))) as [|Hlen]; [done|].
  assert (Hflag : ∀ x c, c_ID <$> List.filter c_Root (csp_Containers spec) = [x] →
    c ∈ csp_Containers spec → c_Root c = true → c_ID c = x).
  { intros x c E Hc Hr. assert (Hin : c_ID c ∈ c_ID <$> List.filter c_Root (csp_Containers spec)).
    { apply list_elem_of_fmap_2. by apply filter_elem. } rewrite E in Hin. set_solver. }
  assert (Hnil : ∀ c, c_ID <$> List.filter c_Root (csp_Containers spec) = [] →
    c ∈ csp_Containers spec → c_Root c = true → False).
  { intros c E%fmap_nil_inv Hc Hr. assert (c ∈ List.filter c_Root (csp_Containers spec)) as Hin
      by by apply filter_elem. rewrite E in Hin. by apply elem_of_nil in Hin. }
  destruct (String.eqb_spec (csp_RootContainerID spec) "") as [Ee|Hne]; cbn [negb].
  - destruct (c_ID <$> _) as [|r [|r2 l]] eqn:Er; intros [= <-].
    + split; [done|done|]. intros c Hc Hr. destruct (Hnil c eq_refl Hc Hr).
    + split; [done| |by eauto]. intros _.
      assert (Hin : r ∈ c_ID <$> List.filter c_Root (csp_Containers spec)) by (rewrite Er; left).
      apply list_elem_of_fmap in Hin as (c & -> & Hc%filter_elem). naive_solver.
    + apply (f_equal length) in Er. rewrite length_fmap in Er. cbn in Er. lia.
  - destruct (existsb _ _) eqn:Ex; [|done]. cbn [negb].
    apply existsb_elem in Ex as (c0 & Hc0 & Eid%String.eqb_eq).
    destruct (c_ID <$> _) as [|r [|r2 l]] eqn:Er.
    + intros [= <-]. split; [done|eauto|]. intros c Hc Hr. destruct (Hnil c eq_refl Hc Hr).
    + destruct (String.eqb_spec r (csp_RootContainerID spec)) as [E|]; [|done]. intros [= <-].
      split; [done|eauto|]. rewrite <-E. eauto.
    + apply (f_equal length) in Er. rewrite length_fmap in Er. cbn in Er. lia.
Qed.

(** A cell whose recorded root agrees with its flags resolves to that root: what
    resolution writes into a cell it accepts again. *)
Lemma resolveCellRootContainer_complete spec :
  root_wf (csp_Containers spec) (csp_RootContainerID spec) →
  resolveCellRootContainer spec = Ok (csp_RootContainerID spec).
Proof.
  intros [Hu He Hf]. unfold resolveCellRootContainer. rewrite length_fmap.
  rewrite (proj2 (Nat.ltb_ge _ _) Hu).
  destruct (String.eqb_spec (csp_RootContainerID spec) "") as [Ee|Hne]; cbn [negb].
  - destruct (List.filter c_Root (csp_Containers spec)) as [|c l] eqn:Efl; [by rewrite Ee|].
    assert (Hc : c ∈ List.filter c_Root (csp_Containers spec)) by (rewrite Efl; left).
    apply filter_elem in Hc as [Hc Hr]. destruct l as [|c2 l]; [|cbn in Hu; lia].
    cbn. by rewrite (Hf c Hc Hr).
  - destruct (He Hne) as (c0 & Hc0 & E0).
    rewrite (proj2 (existsb_elem _ _)) by (exists c0; by rewrite E0, String.eqb_refl). cbn [negb].
    destruct (List.filter c_Root (csp_Containers spec)) as [|c l] eqn:Efl; [done|].
    assert (Hc : c ∈ List.filter c_Root (csp_Containers spec)) by (rewrite Efl; left).
    apply filter_elem in Hc as [Hc Hr]. destruct l as [|c2 l]; [|cbn in Hu; lia].
    cbn. by rewrite (Hf c Hc Hr), String.eqb_refl.
Qed.

(** ** Containers as a whole *)

Record tty_wf (spec : ext.ContainerSpec) : Prop := {
  tw_gate : ext.c_Attachable spec = false → ext.ContainerTty_IsEmpty (ext.c_Tty spec) = true;
  tw_level : ∀ t, ext.c_Attachable spec = true → ext.c_Tty spec = Some t →
    ext.ct_LogLevel t ∈ [""; "debug"; "info"; "warn"; "error"];
  tw_runon : ∀ t s, ext.c_Attachable spec = true → ext.c_Tty spec = Some t → s ∈ ext.ct_OnInit t →
    ext.ts_RunOn s ∈ [""; ext.RunOnStart; ext.RunOnCreate];
  tw_persist : ∀ t s, ext.c_Attachable spec = true → ext.c_Tty spec = Some t → s ∈ ext.ct_OnInit t →
    ext.ts_RunOn s = ext.RunOnCreate →
    ∃ v, v ∈ ext.c_Volumes spec ∧ ext.vm_Kind v ≠ ext.VolumeKindTmpfs ∧ ext.vm_ReadOnly v = false
}.

Definition identity_wf (id : option ext.GitIdentity) : Prop :=
  ∀ i, id = Some i → ext.gi_Name i ≠ "" ∧ ext.gi_Email i ≠ "".

Record git_wf (spec : ext.ContainerSpec) : Prop := {
  gw_ids : ∀ g, ext.c_Git spec = Some g →
    identity_wf (ext.git_Author g) ∧ identity_wf (ext.git_Committer g);
  gw_sign : ∀ g s, ext.c_Git spec = Some g → s ∈ ext.git_Sign g →
    (s = ext.GitSignCommits ∨ s = ext.GitSignTags) ∧ ext.git_SigningKey g ≠ ""
}.

Record container_wf (spec : ext.ContainerSpec) : Prop := {
  cw_tty : tty_wf spec;
  cw_git : git_wf spec;
  cw_volumes : ∀ v, v ∈ ext.c_Volumes spec → volume_wf v;
  cw_restart : restart_wf spec
}.

Lemma persistence_spec spec :
  validateContainerCreateStagePersistence spec = None ↔
  ∀ t s, ext.c_Tty spec = Some t → s ∈ ext.ct_OnInit t → ext.ts_RunOn s = ext.RunOnCreate →
    ∃ v, v ∈ ext.c_Volumes spec ∧ ext.vm_Kind v ≠ ext.VolumeKindTmpfs ∧ ext.vm_ReadOnly v = false.
Proof.
  unfold validateContainerCreateStagePersistence. destruct (ext.c_Tty spec) as [t|]; [|naive_solver].
  destruct (hasCreateStage t) eqn:Ec; cbn [negb].
  - apply existsb_elem in Ec as (s & Hs & Er%String.eqb_eq).
    destruct (existsb persistentWritable (ext.c_Volumes spec)) eqn:Ev.
    + apply existsb_elem in Ev as (v & Hv & Hp). apply andb_true_iff in Hp as [Hk Hr].
      apply negb_true_iff in Hk, Hr. apply String.eqb_neq in Hk. naive_solver.
    + split; [done|]. intros H. destruct (H t s eq_refl Hs Er) as (v & Hv & Hk & Hr).
      rewrite existsb_false_elem in Ev. specialize (Ev v Hv). unfold persistentWritable in Ev.
      apply String.eqb_neq in Hk. by rewrite Hk, Hr in Ev.
  - split; [|done]. intros _ t' s [= <-] Hs Er. unfold hasCreateStage in Ec.
    rewrite existsb_false_elem in Ec. specialize (Ec s Hs). by rewrite Er in Ec.
Qed.

Lemma validateContainerTty_spec spec : validateContainerTty spec = None ↔ tty_wf spec.
Proof.
  unfold validateContainerTty. destruct (ext.c_Attachable spec) eqn:Ea; cbn [negb].
  - assert (Hp := persistence_spec spec). destruct (ext.c_Tty spec) as [t|] eqn:Et.
    + rewrite !first_error_app_None, !first_error_cons_None, first_error_fmap_None, wrapErr_None.
      setoid_rewrite wrapErr_None. rewrite Hp.
      unfold validateTtyLogLevel, validateTtyStageRunOn.
      assert (Hb : ∀ b (e : error), (if b : bool then None else Some e) = None ↔ b = true)
        by (intros []; naive_solver).
      rewrite Hb, existsb_eqb_In. setoid_rewrite Hb. setoid_rewrite existsb_eqb_In.
      split.
      * intros ((Hl & _) & Hr & Hc & _). split; rewrite ?Ea, ?Et; [done|..]; intros; simplify_eq; eauto.
      * intros [_ Hl Hr Hc]. rewrite Ea, Et in Hl, Hr, Hc. eauto 10.
    + split; [|done]. intros _. split; rewrite ?Ea, ?Et; intros; simplify_eq.
  - destruct (ext.ContainerTty_IsEmpty (ext.c_Tty spec)) eqn:Ee; cbn [negb].
    + split; [|done]. intros _. split; rewrite ?Ea; intros; simplify_eq; done.
    + split; [done|]. intros [H _ _ _]. rewrite H in Ee; done.
Qed.

Lemma validateGitIdentity_spec role id : validateGitIdentity role id = None ↔ identity_wf id.
Proof.
  unfold identity_wf. destruct id as [i|]; cbn; [|naive_solver].
  destruct (String.eqb_spec (ext.gi_Name i) ""), (String.eqb_spec (ext.gi_Email i) ""); naive_solver.
Qed.

Lemma validateContainerGit_spec spec : validateContainerGit spec = None ↔ git_wf spec.
Proof.
  unfold validateContainerGit. destruct (ext.c_Git spec) as [g|] eqn:Eg.
  2:{ split; [|done]. intros _. split; rewrite Eg; intros; simplify_eq. }
  rewrite !first_error_app_None, !first_error_cons_None, first_error_fmap_None, !wrapErr_None,
    !validateGitIdentity_spec.
  assert (Hs : ∀ s, (if negb (String.eqb s ext.GitSignCommits) && negb (String.eqb s ext.GitSignTags)
      then Some (EOpaque "container %q: git.sign %q: must be one of %q, %q") else None) = None
      ↔ s = ext.GitSignCommits ∨ s = ext.GitSignTags).
  { intros s. destruct (String.eqb_spec s ext.GitSignCommits), (String.eqb_spec s ext.GitSignTags); naive_solver. }
  setoid_rewrite Hs.
  assert (Hk : (if (0 <? length (ext.git_Sign g))%nat && String.eqb (ext.git_SigningKey g) ""
      then Some (EOpaque "container %q: git.sign requires git.signingKey to be set") else None) = None
      ↔ ∀ s, s ∈ ext.git_Sign g → ext.git_SigningKey g ≠ "").
  { destruct (String.eqb_spec (ext.git_SigningKey g) "") as [E|E].
    - destruct (ext.git_Sign g) as [|s l]; cbn; [split; [|done]; intros _ s Hs'; by apply elem_of_nil in Hs'|].
      split; [done|]. intros H. by destruct (H s ltac:(left)).
    - rewrite andb_false_r. naive_solver. }
  rewrite Hk. split.
  - intros ((Ha & Hc & _) & Hsg & Hky & _). split; rewrite Eg; naive_solver.
  - intros [Hi Hsg]. rewrite Eg in *. naive_solver.
Qed.

Lemma validateContainer_spec spec : validateContainer spec = None ↔ container_wf spec.
Proof.
  unfold validateContainer. rewrite !first_error_cons_None, validateContainerTty_spec,
    validateContainerGit_spec, validateContainerRestart_spec.
  unfold validateContainerVolumes. rewrite first_error_fmap_None.
  setoid_rewrite validateContainerVolume_spec.
  split; [intros (? & ? & ? & ? & _); by split|]. intros [? ? ? ?]. done.
Qed.
