(* ===== verification/Scheme.v ===== *)
(** * Scheme: external documents to the internal model and back
    (internal/apischeme/scheme.go and volume.go)

    A conversion that allocates the pointers the diff later compares by identity
    (the volume references) threads the next free address; every other pointer is
    a plain [option].  A version other than v1beta1 or "" is refused. *)

From Stdlib Require Import ZArith String.
From stdpp Require Import base gmap strings list.
From S2P Require Import Prelude Model External Validate.

Definition VersionV1Beta1 : string := ext.APIVersionV1Beta1.

Definition DefaultVersion (version : string) : string :=
  if String.eqb version "" then VersionV1Beta1 else version.

Definition supportedVersion (v : string) : bool := String.eqb v VersionV1Beta1 || String.eqb v "".

(** ** Enum conversions

    T(x) on two int-based enums keeps the ordinal: the constant of the target type
    at the position of [a] among the constants of its own type. *)
Definition int_cast {A B} `{EqDecision A} (froms : list A) (tos : list B) (dflt : B) (a : A) : B :=
  default dflt (list_find (a =.) froms ≫= fun p => tos !! p.1).

#[global] Instance ext_RealmState_eq_dec : EqDecision ext.RealmState.
Proof. solve_decision. Defined.
#[global] Instance ext_StackState_eq_dec : EqDecision ext.StackState.
Proof. solve_decision. Defined.
#[global] Instance ext_CellState_eq_dec : EqDecision ext.CellState.
Proof. solve_decision. Defined.
#[global] Instance ext_ContainerState_eq_dec : EqDecision ext.ContainerState.
Proof. solve_decision. Defined.

Definition realmStates : list RealmState :=
  [RealmStatePending; RealmStateCreating; RealmStateReady; RealmStateDeleting;
   RealmStateFailed; RealmStateUnknown].
Definition stackStates : list StackState :=
  [StackStatePending; StackStateReady; StackStateFailed; StackStateUnknown].
Definition cellStates : list CellState :=
  [CellStatePending; CellStateReady; CellStateStopped; CellStateFailed; CellStateUnknown;
   CellStateExited; CellStateError; CellStateDegraded].
Definition containerStates : list ContainerState :=
  [ContainerStatePending; ContainerStateReady; ContainerStateStopped; ContainerStatePaused;
   ContainerStatePausing; ContainerStateFailed; ContainerStateUnknown; ContainerStateNotCreated;
   ContainerStateExited; ContainerStateError].

Definition realmStateToInternal : ext.RealmState → RealmState :=
  int_cast ext.realmStates realmStates RealmStateUnknown.
Definition realmStateToExternal : RealmState → ext.RealmState :=
  int_cast realmStates ext.realmStates ext.RealmStateUnknown.
Definition stackStateToInternal : ext.StackState → StackState :=
  int_cast ext.stackStates stackStates StackStateUnknown.
Definition stackStateToExternal : StackState → ext.StackState :=
  int_cast stackStates ext.stackStates ext.StackStateUnknown.
Definition cellStateToInternal : ext.CellState → CellState :=
  int_cast ext.cellStates cellStates CellStateUnknown.
Definition cellStateToExternal : CellState → ext.CellState :=
  int_cast cellStates ext.cellStates ext.CellStateUnknown.
Definition containerStateToInternal : ext.ContainerState → ContainerState :=
  int_cast ext.containerStates containerStates ContainerStateUnknown.
Definition containerStateToExternal : ContainerState → ext.ContainerState :=
  int_cast containerStates ext.containerStates ext.ContainerStateUnknown.

(** The space conversions switch on the constants: the two enums differ. *)
Definition spaceStateToInternal (s : ext.SpaceState) : SpaceState :=
  match s with
  | ext.SpaceStatePending => SpaceStatePending
  | ext.SpaceStateReady => SpaceStateReady
  | ext.SpaceStateFailed => SpaceStateFailed
  | ext.SpaceStateUnknown => SpaceStateUnknown
  end.
Definition spaceStateToExternal (s : SpaceState) : ext.SpaceState :=
  match s with
  | SpaceStatePending => ext.SpaceStatePending
  | SpaceStateCreating | SpaceStateReady => ext.SpaceStateReady
  | SpaceStateDeleting | SpaceStateFailed => ext.SpaceStateFailed
  | SpaceStateUnknown => ext.SpaceStateUnknown
  end.

(** ** Container parts *)

Definition convertContainerTtyToInternal (t : option ext.ContainerTty) : option ContainerTty :=
  if ext.ContainerTty_IsEmpty t then None
  else match t with
       | None => None
       | Some t => Some {|
           ct_Prompt := ext.ct_Prompt t;
           ct_OnInit := (fun s => {| ts_Script := ext.ts_Script s; ts_RunOn := ext.ts_RunOn s |})
                          <$> ext.ct_OnInit t;
           ct_LogFile := ext.ct_LogFile t;
           ct_LogLevel := ext.ct_LogLevel t |}
       end.

Definition buildContainerTtyExternalFromInternal (t : option ContainerTty) : option ext.ContainerTty :=
  if ContainerTty_IsEmpty t then None
  else match t with
       | None => None
       | Some t => Some {|
           ext.ct_Prompt := ct_Prompt t;
           ext.ct_OnInit := (fun s => {| ext.ts_Script := ts_Script s; ext.ts_RunOn := ts_RunOn s |})
                              <$> ct_OnInit t;
           ext.ct_LogFile := ct_LogFile t;
           ext.ct_LogLevel := ct_LogLevel t |}
       end.

Definition convertCellTtyToInternal (t : option ext.CellTty) : option CellTty :=
  match t with
  | None => None
  | Some t => if String.eqb (ext.ctty_Default t) "" then None
              else Some {| ctty_Default := ext.ctty_Default t |}
  end.
Definition buildCellTtyExternalFromInternal (t : option CellTty) : option ext.CellTty :=
  match t with
  | None => None
  | Some t => if String.eqb (ctty_Default t) "" then None
              else Some {| ext.ctty_Default := ctty_Default t |}
  end.

Definition convertCapabilitiesToInternal (c : option ext.ContainerCapabilities)
    : option ContainerCapabilities :=
  match c with
  | None => None
  | Some c => Some {| cap_Drop := ext.cap_Drop c; cap_Add := ext.cap_Add c |}
  end.
Definition buildCapabilitiesExternalFromInternal (c : option ContainerCapabilities)
    : option ext.ContainerCapabilities :=
  match c with
  | None => None
  | Some c => Some {| ext.cap_Drop := cap_Drop c; ext.cap_Add := cap_Add c |}
  end.

Definition convertTmpfsMountsToInternal (l : list ext.ContainerTmpfsMount) : list ContainerTmpfsMount :=
  (fun m => {| tm_Path := ext.tm_Path m; tm_SizeBytes := ext.tm_SizeBytes m;
               tm_Options := ext.tm_Options m |}) <$> l.
Definition buildTmpfsMountsExternalFromInternal (l : list ContainerTmpfsMount)
    : list ext.ContainerTmpfsMount :=
  (fun m => {| ext.tm_Path := tm_Path m; ext.tm_SizeBytes := tm_SizeBytes m;
               ext.tm_Options := tm_Options m |}) <$> l.

Definition convertResourcesToInternal (r : option ext.ContainerResources) : option ContainerResources :=
  match r with
  | None => None
  | Some r => Some {| res_MemoryLimitBytes := ext.res_MemoryLimitBytes r;
                      res_CPUShares := ext.res_CPUShares r; res_PidsLimit := ext.res_PidsLimit r |}
  end.
Definition buildResourcesExternalFromInternal (r : option ContainerResources)
    : option ext.ContainerResources :=
  match r with
  | None => None
  | Some r => Some {| ext.res_MemoryLimitBytes := res_MemoryLimitBytes r;
                      ext.res_CPUShares := res_CPUShares r; ext.res_PidsLimit := res_PidsLimit r |}
  end.

Definition secretRefToInternal (r : option ext.ContainerSecretRef) : option ContainerSecretRef :=
  match r with
  | None => None
  | Some r => Some {| csr_Name := ext.csr_Name r; csr_Realm := ext.csr_Realm r;
                      csr_Space := ext.csr_Space r; csr_Stack := ext.csr_Stack r;
                      csr_Cell := ext.csr_Cell r |}
  end.
Definition secretRefToExternal (r : option ContainerSecretRef) : option ext.ContainerSecretRef :=
  match r with
  | None => None
  | Some r => Some {| ext.csr_Name := csr_Name r; ext.csr_Realm := csr_Realm r;
                      ext.csr_Space := csr_Space r; ext.csr_Stack := csr_Stack r;
                      ext.csr_Cell := csr_Cell r |}
  end.

Definition convertSecretsToInternal (l : list ext.ContainerSecret) : list ContainerSecret :=
  (fun s => {| sec_Name := ext.sec_Name s; sec_FromFile := ext.sec_FromFile s;
               sec_FromEnv := ext.sec_FromEnv s;
               sec_SecretRef := secretRefToInternal (ext.sec_SecretRef s);
               sec_MountPath := ext.sec_MountPath s |}) <$> l.
Definition buildSecretsExternalFromInternal (l : list ContainerSecret) : list ext.ContainerSecret :=
  (fun s => {| ext.sec_Name := sec_Name s; ext.sec_FromFile := sec_FromFile s;
               ext.sec_FromEnv := sec_FromEnv s;
               ext.sec_SecretRef := secretRefToExternal (sec_SecretRef s);
               ext.sec_MountPath := sec_MountPath s |}) <$> l.

Definition reposToInternal (l : list ext.ContainerRepo) : list ContainerRepo :=
  (fun r => {| repo_Name := ext.repo_Name r; repo_Target := ext.repo_Target r;
               repo_Branch := ext.repo_Branch r; repo_Ref := ext.repo_Ref r;
               repo_URL := ext.repo_URL r; repo_Required := ext.repo_Required r |}) <$> l.
Definition reposToExternal (l : list ContainerRepo) : list ext.ContainerRepo :=
  (fun r => {| ext.repo_Name := repo_Name r; ext.repo_Target := repo_Target r;
               ext.repo_Branch := repo_Branch r; ext.repo_Ref := repo_Ref r;
               ext.repo_URL := repo_URL r; ext.repo_Required := repo_Required r |}) <$> l.

Definition repoStatusesToInternal (l : list ext.RepoStatus) : list RepoStatus :=
  (fun s => {| rs_Name := ext.rs_Name s; rs_Target := ext.rs_Target s; rs_State := ext.rs_State s;
               rs_Commit := ext.rs_Commit s; rs_Error := ext.rs_Error s |}) <$> l.
Definition repoStatusesToExternal (l : list RepoStatus) : list ext.RepoStatus :=
  (fun s => {| ext.rs_Name := rs_Name s; ext.rs_Target := rs_Target s; ext.rs_State := rs_State s;
               ext.rs_Commit := rs_Commit s; ext.rs_Error := rs_Error s |}) <$> l.
Definition stageStatusesToInternal (l : list ext.StageStatus) : list StageStatus :=
  (fun s => {| ss_Index := ext.ss_Index s; ss_State := ext.ss_State s; ss_Error := ext.ss_Error s;
               ss_Hash := ext.ss_Hash s |}) <$> l.
Definition stageStatusesToExternal (l : list StageStatus) : list ext.StageStatus :=
  (fun s => {| ext.ss_Index := ss_Index s; ext.ss_State := ss_State s; ext.ss_Error := ss_Error s;
               ext.ss_Hash := ss_Hash s |}) <$> l.

Definition gitIdentityToInternal (i : ext.GitIdentity) : GitIdentity :=
  {| gi_Name := ext.gi_Name i; gi_Email := ext.gi_Email i |}.
Definition gitIdentityToExternal (i : GitIdentity) : ext.GitIdentity :=
  {| ext.gi_Name := gi_Name i; ext.gi_Email := gi_Email i |}.
Definition gitToInternal (g : option ext.ContainerGit) : option ContainerGit :=
  match g with
  | None => None
  | Some g => Some {| git_Author := gitIdentityToInternal <$> ext.git_Author g;
                      git_Committer := gitIdentityToInternal <$> ext.git_Committer g;
                      git_SigningKey := ext.git_SigningKey g; git_Sign := ext.git_Sign g;
                      git_AllowedSigners := ext.git_AllowedSigners g |}
  end.
Definition gitToExternal (g : option ContainerGit) : option ext.ContainerGit :=
  match g with
  | None => None
  | Some g => Some {| ext.git_Author := gitIdentityToExternal <$> git_Author g;
                      ext.git_Committer := gitIdentityToExternal <$> git_Committer g;
                      ext.git_SigningKey := git_SigningKey g; ext.git_Sign := git_Sign g;
                      ext.git_AllowedSigners := git_AllowedSigners g |}
  end.

(** &T{...}: the next free address. *)
Definition alloc {A} (v : A) : st positive (Ptr A) := fun next => (Pos.succ next, MkPtr next v).

Definition volumeRefToInternal (r : option ext.VolumeRef) : st positive (option (Ptr VolumeRef)) :=
  match r with
  | None => st_ret None
  | Some r =>
      let! p := alloc {| vr_Name := ext.vr_Name r; vr_Realm := ext.vr_Realm r;
                         vr_Space := ext.vr_Space r; vr_Stack := ext.vr_Stack r |} in
      st_ret (Some p)
  end.
Definition volumeRefToExternal (r : option (Ptr VolumeRef)) : option ext.VolumeRef :=
  match r with
  | None => None
  | Some p => let r := ptr_val p in
              Some {| ext.vr_Name := vr_Name r; ext.vr_Realm := vr_Realm r;
                      ext.vr_Space := vr_Space r; ext.vr_Stack := vr_Stack r |}
  end.

Definition volumeMountToInternal (v : ext.VolumeMount) : st positive VolumeMount :=
  let! ref := volumeRefToInternal (ext.vm_VolumeRef v) in
  st_ret {| vm_Kind := ext.vm_Kind v; vm_Source := ext.vm_Source v; vm_Target := ext.vm_Target v;
            vm_VolumeRef := ref; vm_ReadOnly := ext.vm_ReadOnly v; vm_SizeBytes := ext.vm_SizeBytes v;
            vm_Mode := ext.vm_Mode v; vm_Ensure := ext.vm_Ensure v |}.
Definition volumeMountsToInternal : list ext.VolumeMount → st positive (list VolumeMount) :=
  st_map volumeMountToInternal.
Definition volumeMountsToExternal (l : list VolumeMount) : list ext.VolumeMount :=
  (fun v => {| ext.vm_Kind := vm_Kind v; ext.vm_Source := vm_Source v; ext.vm_Target := vm_Target v;
               ext.vm_VolumeRef := volumeRefToExternal (vm_VolumeRef v); ext.vm_ReadOnly := vm_ReadOnly v;
               ext.vm_SizeBytes := vm_SizeBytes v; ext.vm_Mode := vm_Mode v;
               ext.vm_Ensure := vm_Ensure v |}) <$> l.

(** ** Container specs *)

(** The fields no document carries keep their zero values. *)
Definition convertContainerSpecToInternal (c : ext.ContainerSpec) : st positive ContainerSpec :=
  let! volumes := volumeMountsToInternal (ext.c_Volumes c) in
  st_ret {|
    c_ID := ext.c_ID c; c_ContainerdID := ext.c_ContainerdID c; c_RealmName := ext.c_RealmID c;
    c_SpaceName := ext.c_SpaceID c; c_StackName := ext.c_StackID c; c_CellName := ext.c_CellID c;
    c_Root := ext.c_Root c; c_Image := ext.c_Image c; c_Command := ext.c_Command c;
    c_Args := ext.c_Args c; c_WorkingDir := ext.c_WorkingDir c; c_Env := ext.c_Env c;
    c_Ports := ext.c_Ports c; c_Volumes := volumes; c_Networks := ext.c_Networks c;
    c_NetworksAliases := ext.c_NetworksAliases c; c_Privileged := ext.c_Privileged c;
    c_HostNetwork := ext.c_HostNetwork c; c_HostPID := ext.c_HostPID c;
    c_HostCgroup := ext.c_HostCgroup c; c_NestedCgroupRuntime := false; c_User := ext.c_User c;
    c_ReadOnlyRootFilesystem := ext.c_ReadOnlyRootFilesystem c;
    c_Capabilities := convertCapabilitiesToInternal (ext.c_Capabilities c);
    c_SecurityOpts := ext.c_SecurityOpts c; c_Devices := ext.c_Devices c;
    c_Tmpfs := convertTmpfsMountsToInternal (ext.c_Tmpfs c);
    c_Resources := convertResourcesToInternal (ext.c_Resources c);
    c_Secrets := convertSecretsToInternal (ext.c_Secrets c);
    c_Repos := reposToInternal (ext.c_Repos c); c_Git := gitToInternal (ext.c_Git c);
    c_CNIConfigPath := ext.c_CNIConfigPath c; c_RestartPolicy := ext.c_RestartPolicy c;
    c_RestartBackoffSeconds := ext.c_RestartBackoffSeconds c;
    c_RestartMaxRetries := ext.c_RestartMaxRetries c; c_Attachable := ext.c_Attachable c;
    c_Tty := convertContainerTtyToInternal (ext.c_Tty c);
    c_CellCgroupPath := ""; c_EtcHostsPath := ""; c_EtcHostnamePath := "" |}.

Definition BuildContainerSpecExternalFromInternal (c : ContainerSpec) : ext.ContainerSpec := {|
  ext.c_ID := c_ID c; ext.c_ContainerdID := c_ContainerdID c; ext.c_RealmID := c_RealmName c;
  ext.c_SpaceID := c_SpaceName c; ext.c_StackID := c_StackName c; ext.c_CellID := c_CellName c;
  ext.c_Root := c_Root c; ext.c_Image := c_Image c; ext.c_Command := c_Command c;
  ext.c_Args := c_Args c; ext.c_WorkingDir := c_WorkingDir c; ext.c_Env := c_Env c;
  ext.c_Ports := c_Ports c; ext.c_Volumes := volumeMountsToExternal (c_Volumes c);
  ext.c_Networks := c_Networks c; ext.c_NetworksAliases := c_NetworksAliases c;
  ext.c_Privileged := c_Privileged c; ext.c_HostNetwork := c_HostNetwork c;
  ext.c_HostPID := c_HostPID c; ext.c_HostCgroup := c_HostCgroup c; ext.c_User := c_User c;
  ext.c_ReadOnlyRootFilesystem := c_ReadOnlyRootFilesystem c;
  ext.c_Capabilities := buildCapabilitiesExternalFromInternal (c_Capabilities c);
  ext.c_SecurityOpts := c_SecurityOpts c; ext.c_Devices := c_Devices c;
  ext.c_Tmpfs := buildTmpfsMountsExternalFromInternal (c_Tmpfs c);
  ext.c_Resources := buildResourcesExternalFromInternal (c_Resources c);
  ext.c_Secrets := buildSecretsExternalFromInternal (c_Secrets c);
  ext.c_Repos := reposToExternal (c_Repos c); ext.c_Git := gitToExternal (c_Git c);
  ext.c_CNIConfigPath := c_CNIConfigPath c; ext.c_RestartPolicy := c_RestartPolicy c;
  ext.c_RestartBackoffSeconds := c_RestartBackoffSeconds c;
  ext.c_RestartMaxRetries := c_RestartMaxRetries c; ext.c_Attachable := c_Attachable c;
  ext.c_Tty := buildContainerTtyExternalFromInternal (c_Tty c); ext.c_KukeonGroupGID := 0 |}.

(** The spec of a container document is converted field by field like a nested one,
    except that the containerd ID is left empty in both directions. *)
Definition clear_ContainerdID (c : ContainerSpec) : ContainerSpec :=
  let 'Build_ContainerSpec id _ r s t ce root im cm ar wd env po vo ne na pr hn hp hc nc us ro ca so
    de tm re se rp gi cp pol bo mr at_ ty cg eh en := c in
  Build_ContainerSpec id "" r s t ce root im cm ar wd env po vo ne na pr hn hp hc nc us ro ca so
    de tm re se rp gi cp pol bo mr at_ ty cg eh en.
Definition clear_ext_ContainerdID (c : ext.ContainerSpec) : ext.ContainerSpec :=
  let 'ext.Build_ContainerSpec id _ r s t ce root im cm ar wd env po vo ne na pr hn hp hc us ro ca so
    de tm re se rp gi cp pol bo mr at_ ty kg := c in
  ext.Build_ContainerSpec id "" r s t ce root im cm ar wd env po vo ne na pr hn hp hc us ro ca so
    de tm re se rp gi cp pol bo mr at_ ty kg.

Definition containerStatusToInternal (s : ext.ContainerStatus) : ContainerStatus := {|
  cs_Name := ext.cs_Name s; cs_ID := ext.cs_ID s; cs_CreatedAt := ext.cs_CreatedAt s;
  cs_State := containerStateToInternal (ext.cs_State s); cs_RestartCount := ext.cs_RestartCount s;
  cs_RestartTime := ext.cs_RestartTime s; cs_StartTime := ext.cs_StartTime s;
  cs_FinishTime := ext.cs_FinishTime s; cs_ExitCode := ext.cs_ExitCode s;
  cs_ExitSignal := ext.cs_ExitSignal s; cs_Repos := repoStatusesToInternal (ext.cs_Repos s);
  cs_Stages := stageStatusesToInternal (ext.cs_Stages s) |}.
Definition containerStatusToExternal (s : ContainerStatus) : ext.ContainerStatus := {|
  ext.cs_Name := cs_Name s; ext.cs_ID := cs_ID s; ext.cs_State := containerStateToExternal (cs_State s);
  ext.cs_CreatedAt := cs_CreatedAt s; ext.cs_RestartCount := cs_RestartCount s;
  ext.cs_RestartTime := cs_RestartTime s; ext.cs_StartTime := cs_StartTime s;
  ext.cs_FinishTime := cs_FinishTime s; ext.cs_ExitCode := cs_ExitCode s;
  ext.cs_ExitSignal := cs_ExitSignal s; ext.cs_Repos := repoStatusesToExternal (cs_Repos s);
  ext.cs_Stages := stageStatusesToExternal (cs_Stages s) |}.

Definition ConvertContainerDocToInternal (d : ext.ContainerDoc) : st positive (result Container) :=
  if supportedVersion (ext.cont_APIVersion d) then
    match validateContainer (ext.cont_Spec d) with
    | Some e => st_ret (Err e)
    | None =>
        let! spec := convertContainerSpecToInternal (ext.cont_Spec d) in
        st_ret (Ok {|
          cont_Metadata := {| ctm_Name := ext.ctm_Name (ext.cont_Metadata d);
                              ctm_Labels := ext.ctm_Labels (ext.cont_Metadata d) |};
          cont_Spec := clear_ContainerdID spec;
          cont_Status := containerStatusToInternal (ext.cont_Status d) |})
    end
  else st_ret (Err (EOpaque "unsupported apiVersion for Container: %s")).

Definition BuildContainerExternalFromInternal (c : Container) (apiVersion : string)
    : result ext.ContainerDoc :=
  if supportedVersion apiVersion then
    Ok {| ext.cont_APIVersion := VersionV1Beta1; ext.cont_Kind := ext.KindContainer;
          ext.cont_Metadata := {| ext.ctm_Name := ctm_Name (cont_Metadata c);
                                  ext.ctm_Labels := ctm_Labels (cont_Metadata c) |};
          ext.cont_Spec := clear_ext_ContainerdID (BuildContainerSpecExternalFromInternal (cont_Spec c));
          ext.cont_Status := containerStatusToExternal (cont_Status c) |}
  else Err (EOpaque "unsupported output apiVersion for Container: %s").

(** ** Cells *)

(** The statuses nested in a cell are copied without their repos and stages. *)
Definition convertContainerStatusesToInternal (l : list ext.ContainerStatus) : list ContainerStatus :=
  (fun s => {|
    cs_Name := ext.cs_Name s; cs_ID := ext.cs_ID s; cs_CreatedAt := ext.cs_CreatedAt s;
    cs_State := containerStateToInternal (ext.cs_State s); cs_RestartCount := ext.cs_RestartCount s;
    cs_RestartTime := ext.cs_RestartTime s; cs_StartTime := ext.cs_StartTime s;
    cs_FinishTime := ext.cs_FinishTime s; cs_ExitCode := ext.cs_ExitCode s;
    cs_ExitSignal := ext.cs_ExitSignal s; cs_Repos := []; cs_Stages := [] |}) <$> l.
Definition buildContainerStatusesExternalFromInternal (l : list ContainerStatus)
    : list ext.ContainerStatus :=
  (fun s => {|
    ext.cs_Name := cs_Name s; ext.cs_ID := cs_ID s;
    ext.cs_State := containerStateToExternal (cs_State s); ext.cs_CreatedAt := cs_CreatedAt s;
    ext.cs_RestartCount := cs_RestartCount s; ext.cs_RestartTime := cs_RestartTime s;
    ext.cs_StartTime := cs_StartTime s; ext.cs_FinishTime := cs_FinishTime s;
    ext.cs_ExitCode := cs_ExitCode s; ext.cs_ExitSignal := cs_ExitSignal s;
    ext.cs_Repos := []; ext.cs_Stages := [] |}) <$> l.

Definition convertCellProvenanceToInternal (p : option ext.CellProvenance) : option CellProvenance :=
  match p with
  | None => None
  | Some p => let r := ext.cp_BindingRef p in
      Some {| cp_BindingKind := ext.cp_BindingKind p;
              cp_BindingRef := {| cbr_Name := ext.cbr_Name r; cbr_Realm := ext.cbr_Realm r;
                                  cbr_Space := ext.cbr_Space r; cbr_Stack := ext.cbr_Stack r |};
              cp_Params := ext.cp_Params p; cp_EnvOverrides := ext.cp_EnvOverrides p |}
  end.
Definition buildCellProvenanceExternalFromInternal (p : option CellProvenance)
    : option ext.CellProvenance :=
  match p with
  | None => None
  | Some p => let r := cp_BindingRef p in
      Some {| ext.cp_BindingKind := cp_BindingKind p;
              ext.cp_BindingRef := {| ext.cbr_Name := cbr_Name r; ext.cbr_Realm := cbr_Realm r;
                                      ext.cbr_Space := cbr_Space r; ext.cbr_Stack := cbr_Stack r |};
              ext.cp_Params := cp_Params p; ext.cp_EnvOverrides := cp_EnvOverrides p |}
  end.

Definition validateCellDoc (spec : ext.CellSpec) : option error :=
  first_error ((validateContainer <$> ext.csp_Containers spec) ++ [validateCellTty spec]).

Definition cellStatusToInternal (s : ext.CellStatus) : CellStatus := {|
  cst_State := cellStateToInternal (ext.cst_State s); cst_CgroupPath := ext.cst_CgroupPath s;
  cst_SubtreeControllers := ext.cst_SubtreeControllers s; cst_BridgeName := ext.cst_BridgeName s;
  cst_Containers := convertContainerStatusesToInternal (ext.cst_Containers s);
  cst_ReadyObserved := ext.cst_ReadyObserved s; cst_CreatedAt := ext.cst_CreatedAt s;
  cst_UpdatedAt := ext.cst_UpdatedAt s; cst_ReadyAt := ext.cst_ReadyAt s;
  cst_Reason := ext.cst_Reason s; cst_Message := ext.cst_Message s;
  cst_CgroupReady := ext.cst_CgroupReady s; cst_ObservedGeneration := ext.cst_ObservedGeneration s;
  cst_OutOfSync := ext.cst_OutOfSync s; cst_OutOfSyncReason := ext.cst_OutOfSyncReason s;
  cst_OutOfSyncError := ext.cst_OutOfSyncError s |}.

(** The spec as assembled, before its root is resolved. *)
Definition cellSpecToInternal (s : ext.CellSpec) (root : string) (containers : list ContainerSpec)
    : CellSpec := {|
  csp_ID := ext.csp_ID s; csp_RealmName := ext.csp_RealmID s; csp_SpaceName := ext.csp_SpaceID s;
  csp_StackName := ext.csp_StackID s; csp_RootContainerID := root;
  csp_Tty := convertCellTtyToInternal (ext.csp_Tty s); csp_Containers := containers;
  csp_AutoDelete := ext.csp_AutoDelete s; csp_NestedCgroupRuntime := ext.csp_NestedCgroupRuntime s;
  csp_RuntimeEnv := ext.csp_RuntimeEnv s;
  csp_Provenance := convertCellProvenanceToInternal (ext.csp_Provenance s);
  csp_IgnoreDiskPressure := ext.csp_IgnoreDiskPressure s |}.

Definition ConvertCellDocToInternal (d : ext.CellDoc) : st positive (result Cell) :=
  if supportedVersion (ext.cell_APIVersion d) then
    match validateCellDoc (ext.cell_Spec d) with
    | Some e => st_ret (Err e)
    | None =>
        let! containers := st_map convertContainerSpecToInternal (ext.csp_Containers (ext.cell_Spec d)) in
        let spec := cellSpecToInternal (ext.cell_Spec d) (ext.csp_RootContainerID (ext.cell_Spec d)) containers in
        st_ret (
          let? resolvedRoot := resolveCellRootContainer spec in
          Ok {| cell_Metadata := {|
                  cm_Name := ext.cm_Name (ext.cell_Metadata d);
                  cm_Labels := ext.cm_Labels (ext.cell_Metadata d);
                  cm_Annotations := ext.cm_Annotations (ext.cell_Metadata d);
                  cm_Generation := ext.cm_Generation (ext.cell_Metadata d) |};
                cell_Spec := cellSpecToInternal (ext.cell_Spec d) resolvedRoot containers;
                cell_Status := cellStatusToInternal (ext.cell_Status d) |})
    end
  else st_ret (Err (EOpaque "unsupported apiVersion for Cell: %s")).

Definition cellStatusToExternal (s : CellStatus) : ext.CellStatus := {|
  ext.cst_State := cellStateToExternal (cst_State s); ext.cst_CgroupPath := cst_CgroupPath s;
  ext.cst_SubtreeControllers := cst_SubtreeControllers s; ext.cst_BridgeName := cst_BridgeName s;
  ext.cst_Containers := buildContainerStatusesExternalFromInternal (cst_Containers s);
  ext.cst_ReadyObserved := cst_ReadyObserved s; ext.cst_CreatedAt := cst_CreatedAt s;
  ext.cst_UpdatedAt := cst_UpdatedAt s; ext.cst_ReadyAt := cst_ReadyAt s;
  ext.cst_Reason := cst_Reason s; ext.cst_Message := cst_Message s;
  ext.cst_CgroupReady := cst_CgroupReady s; ext.cst_ObservedGeneration := cst_ObservedGeneration s;
  ext.cst_OutOfSync := cst_OutOfSync s; ext.cst_OutOfSyncReason := cst_OutOfSyncReason s;
  ext.cst_OutOfSyncError := cst_OutOfSyncError s |}.

(** RuntimeEnv and IgnoreDiskPressure are not copied out. *)
Definition BuildCellExternalFromInternal (c : Cell) (apiVersion : string) : result ext.CellDoc :=
  if supportedVersion apiVersion then
    let s := cell_Spec c in
    let? _ := resolveCellRootContainer s in
    Ok {| ext.cell_APIVersion := VersionV1Beta1; ext.cell_Kind := ext.KindCell;
          ext.cell_Metadata := {|
            ext.cm_Name := cm_Name (cell_Metadata c); ext.cm_Labels := cm_Labels (cell_Metadata c);
            ext.cm_Annotations := cm_Annotations (cell_Metadata c);
            ext.cm_Generation := cm_Generation (cell_Metadata c) |};
          ext.cell_Spec := {|
            ext.csp_ID := csp_ID s; ext.csp_RealmID := csp_RealmName s; ext.csp_SpaceID := csp_SpaceName s;
            ext.csp_StackID := csp_StackName s; ext.csp_RootContainerID := csp_RootContainerID s;
            ext.csp_Tty := buildCellTtyExternalFromInternal (csp_Tty s);
            ext.csp_Containers := BuildContainerSpecExternalFromInternal <$> csp_Containers s;
            ext.csp_AutoDelete := csp_AutoDelete s;
            ext.csp_NestedCgroupRuntime := csp_NestedCgroupRuntime s;
            ext.csp_RuntimeEnv := [];
            ext.csp_Provenance := buildCellProvenanceExternalFromInternal (csp_Provenance s);
            ext.csp_IgnoreDiskPressure := false |};
          ext.cell_Status := cellStatusToExternal (cell_Status c) |}
  else Err (EOpaque "unsupported output apiVersion for Cell: %s").

(** The Normalize functions return the conversion beside the version it was made
    under; they differ in nothing else. *)
Definition normalize {A} (apiVersion : string) (r : result A) : result (A * string) :=
  let? a := r in Ok (a, DefaultVersion apiVersion).
Definition NormalizeCell (d : ext.CellDoc) : st positive (result (Cell * string)) :=
  let! r := ConvertCellDocToInternal d in st_ret (normalize (ext.cell_APIVersion d) r).
Definition NormalizeContainer (d : ext.ContainerDoc) : st positive (result (Container * string)) :=
  let! r := ConvertContainerDocToInternal d in st_ret (normalize (ext.cont_APIVersion d) r).

(** ** Realms, spaces and stacks *)

Definition scopeMetadataToInternal (m : ext.ScopeMetadata) : ScopeMetadata :=
  {| sm_Name := ext.sm_Name m; sm_Labels := ext.sm_Labels m; sm_Generation := ext.sm_Generation m |}.
Definition scopeMetadataToExternal (m : ScopeMetadata) : ext.ScopeMetadata :=
  {| ext.sm_Name := sm_Name m; ext.sm_Labels := sm_Labels m; ext.sm_Generation := sm_Generation m |}.

Definition ConvertRealmDocToInternal (d : ext.RealmDoc) : result Realm :=
  if supportedVersion (ext.realm_APIVersion d) then
    let s := ext.realm_Status d in
    Ok {| realm_Metadata := scopeMetadataToInternal (ext.realm_Metadata d);
          realm_Spec := {|
            rsp_Namespace := ext.rsp_Namespace (ext.realm_Spec d);
            rsp_RegistryCredentials :=
              (fun c => {| rc_Username := ext.rc_Username c; rc_Password := ext.rc_Password c;
                           rc_ServerAddress := ext.rc_ServerAddress c |})
                <$> ext.rsp_RegistryCredentials (ext.realm_Spec d) |};
          realm_Status := {|
            rst_State := realmStateToInternal (ext.rst_State s); rst_CgroupPath := ext.rst_CgroupPath s;
            rst_SubtreeControllers := ext.rst_SubtreeControllers s; rst_CreatedAt := ext.rst_CreatedAt s;
            rst_UpdatedAt := ext.rst_UpdatedAt s; rst_ReadyAt := ext.rst_ReadyAt s;
            rst_Reason := ext.rst_Reason s; rst_Message := ext.rst_Message s;
            rst_CgroupReady := ext.rst_CgroupReady s;
            rst_ContainerdNamespaceReady := ext.rst_ContainerdNamespaceReady s;
            rst_ObservedGeneration := ext.rst_ObservedGeneration s |} |}
  else Err (EOpaque "unsupported apiVersion for Realm: %s").

Definition BuildRealmExternalFromInternal (r : Realm) (apiVersion : string) : result ext.RealmDoc :=
  if supportedVersion apiVersion then
    let s := realm_Status r in
    Ok {| ext.realm_APIVersion := VersionV1Beta1; ext.realm_Kind := ext.KindRealm;
          ext.realm_Metadata := scopeMetadataToExternal (realm_Metadata r);
          ext.realm_Spec := {|
            ext.rsp_Namespace := rsp_Namespace (realm_Spec r);
            ext.rsp_RegistryCredentials :=
              (fun c => {| ext.rc_Username := rc_Username c; ext.rc_Password := rc_Password c;
                           ext.rc_ServerAddress := rc_ServerAddress c |})
                <$> rsp_RegistryCredentials (realm_Spec r) |};
          ext.realm_Status := {|
            ext.rst_State := realmStateToExternal (rst_State s); ext.rst_CgroupPath := rst_CgroupPath s;
            ext.rst_SubtreeControllers := rst_SubtreeControllers s; ext.rst_CreatedAt := rst_CreatedAt s;
            ext.rst_UpdatedAt := rst_UpdatedAt s; ext.rst_ReadyAt := rst_ReadyAt s;
            ext.rst_Reason := rst_Reason s; ext.rst_Message := rst_Message s;
            ext.rst_CgroupReady := rst_CgroupReady s;
            ext.rst_ContainerdNamespaceReady := rst_ContainerdNamespaceReady s;
            ext.rst_ObservedGeneration := rst_ObservedGeneration s |} |}
  else Err (EOpaque "unsupported output apiVersion for Realm: %s").

Definition NormalizeRealm (d : ext.RealmDoc) : result (Realm * string) :=
  normalize (ext.realm_APIVersion d) (ConvertRealmDocToInternal d).

Definition convertSpaceNetworkToInternal (n : option ext.SpaceNetwork) : option SpaceNetwork :=
  match n with
  | None => None
  | Some n => Some {| sn_Egress :=
      match ext.sn_Egress n with
      | None => None
      | Some e => Some {| ep_Default := ext.ep_Default e;
          ep_Allow := (fun r => {| ear_Host := ext.ear_Host r; ear_CIDR := ext.ear_CIDR r;
                                   ear_Ports := ext.ear_Ports r |}) <$> ext.ep_Allow e |}
      end |}
  end.
Definition buildSpaceNetworkExternalFromInternal (n : option SpaceNetwork) : option ext.SpaceNetwork :=
  match n with
  | None => None
  | Some n => Some {| ext.sn_Egress :=
      match sn_Egress n with
      | None => None
      | Some e => Some {| ext.ep_Default := ep_Default e;
          ext.ep_Allow := (fun r => {| ext.ear_Host := ear_Host r; ext.ear_CIDR := ear_CIDR r;
                                       ext.ear_Ports := ear_Ports r |}) <$> ep_Allow e |}
      end |}
  end.

Definition convertSpaceContainerDefaultsToInternal (d : option ext.SpaceContainerDefaults)
    : option SpaceContainerDefaults :=
  match d with
  | None => None
  | Some d => Some {|
      scd_User := ext.scd_User d; scd_ReadOnlyRootFilesystem := ext.scd_ReadOnlyRootFilesystem d;
      scd_Capabilities := convertCapabilitiesToInternal (ext.scd_Capabilities d);
      scd_SecurityOpts := ext.scd_SecurityOpts d;
      scd_Tmpfs := convertTmpfsMountsToInternal (ext.scd_Tmpfs d);
      scd_Resources := convertResourcesToInternal (ext.scd_Resources d) |}
  end.
Definition buildSpaceContainerDefaultsExternalFromInternal (d : option SpaceContainerDefaults)
    : option ext.SpaceContainerDefaults :=
  match d with
  | None => None
  | Some d => Some {|
      ext.scd_User := scd_User d; ext.scd_ReadOnlyRootFilesystem := scd_ReadOnlyRootFilesystem d;
      ext.scd_Capabilities := buildCapabilitiesExternalFromInternal (scd_Capabilities d);
      ext.scd_SecurityOpts := scd_SecurityOpts d;
      ext.scd_Tmpfs := buildTmpfsMountsExternalFromInternal (scd_Tmpfs d);
      ext.scd_Resources := buildResourcesExternalFromInternal (scd_Resources d) |}
  end.
Definition convertSpaceDefaultsToInternal (d : option ext.SpaceDefaults) : option SpaceDefaults :=
  match d with
  | None => None
  | Some d => Some {| sd_Container := convertSpaceContainerDefaultsToInternal (ext.sd_Container d) |}
  end.
Definition buildSpaceDefaultsExternalFromInternal (d : option SpaceDefaults) : option ext.SpaceDefaults :=
  match d with
  | None => None
  | Some d => Some {| ext.sd_Container := buildSpaceContainerDefaultsExternalFromInternal (sd_Container d) |}
  end.

Definition scopeStatusToInternal {A B} (f : A → B) (s : ext.ScopeStatus A) : ScopeStatus B :=
  Build_ScopeStatus (f (ext.sst_State s)) (ext.sst_CgroupPath s) (ext.sst_SubtreeControllers s)
    (ext.sst_CreatedAt s) (ext.sst_UpdatedAt s) (ext.sst_ReadyAt s) (ext.sst_Reason s)
    (ext.sst_Message s) (ext.sst_CgroupReady s) (ext.sst_ObservedGeneration s).
Definition scopeStatusToExternal {A B} (f : A → B) (s : ScopeStatus A) : ext.ScopeStatus B := {|
  ext.sst_State := f (sst_State s); ext.sst_CgroupPath := sst_CgroupPath s;
  ext.sst_SubtreeControllers := sst_SubtreeControllers s; ext.sst_CreatedAt := sst_CreatedAt s;
  ext.sst_UpdatedAt := sst_UpdatedAt s; ext.sst_ReadyAt := sst_ReadyAt s;
  ext.sst_Reason := sst_Reason s; ext.sst_Message := sst_Message s;
  ext.sst_CgroupReady := sst_CgroupReady s; ext.sst_ObservedGeneration := sst_ObservedGeneration s |}.

Definition ConvertSpaceDocToInternal (d : ext.SpaceDoc) : result Space :=
  if supportedVersion (ext.space_APIVersion d) then
    let s := ext.space_Spec d in
    Ok {| space_Metadata := scopeMetadataToInternal (ext.space_Metadata d);
          space_Spec := {| spsp_RealmName := ext.spsp_RealmID s; spsp_CNIConfigPath := ext.spsp_CNIConfigPath s;
                           spsp_Network := convertSpaceNetworkToInternal (ext.spsp_Network s);
                           spsp_Defaults := convertSpaceDefaultsToInternal (ext.spsp_Defaults s) |};
          space_Status := scopeStatusToInternal spaceStateToInternal (ext.space_Status d) |}
  else Err (EOpaque "unsupported apiVersion for Space: %s").
Definition BuildSpaceExternalFromInternal (s : Space) (apiVersion : string) : result ext.SpaceDoc :=
  if supportedVersion apiVersion then
    let p := space_Spec s in
    Ok {| ext.space_APIVersion := VersionV1Beta1; ext.space_Kind := ext.KindSpace;
          ext.space_Metadata := scopeMetadataToExternal (space_Metadata s);
          ext.space_Spec := {| ext.spsp_RealmID := spsp_RealmName p; ext.spsp_CNIConfigPath := spsp_CNIConfigPath p;
                               ext.spsp_Network := buildSpaceNetworkExternalFromInternal (spsp_Network p);
                               ext.spsp_Defaults := buildSpaceDefaultsExternalFromInternal (spsp_Defaults p) |};
          ext.space_Status := scopeStatusToExternal spaceStateToExternal (space_Status s) |}
  else Err (EOpaque "unsupported output apiVersion for Space: %s").
Definition NormalizeSpace (d : ext.SpaceDoc) : result (Space * string) :=
  normalize (ext.space_APIVersion d) (ConvertSpaceDocToInternal d).

Definition ConvertStackDocToInternal (d : ext.StackDoc) : result Stack :=
  if supportedVersion (ext.stack_APIVersion d) then
    let s := ext.stack_Spec d in
    Ok {| stack_Metadata := scopeMetadataToInternal (ext.stack_Metadata d);
          stack_Spec := {| stsp_ID := ext.stsp_ID s; stsp_RealmName := ext.stsp_RealmID s;
                           stsp_SpaceName := ext.stsp_SpaceID s |};
          stack_Status := scopeStatusToInternal stackStateToInternal (ext.stack_Status d) |}
  else Err (EOpaque "unsupported apiVersion for Stack: %s").
Definition BuildStackExternalFromInternal (s : Stack) (apiVersion : string) : result ext.StackDoc :=
  if supportedVersion apiVersion then
    let p := stack_Spec s in
    Ok {| ext.stack_APIVersion := VersionV1Beta1; ext.stack_Kind := ext.KindStack;
          ext.stack_Metadata := scopeMetadataToExternal (stack_Metadata s);
          ext.stack_Spec := {| ext.stsp_ID := stsp_ID p; ext.stsp_RealmID := stsp_RealmName p;
                               ext.stsp_SpaceID := stsp_SpaceName p |};
          ext.stack_Status := scopeStatusToExternal stackStateToExternal (stack_Status s) |}
  else Err (EOpaque "unsupported output apiVersion for Stack: %s").
Definition NormalizeStack (d : ext.StackDoc) : result (Stack * string) :=
  normalize (ext.stack_APIVersion d) (ConvertStackDocToInternal d).

(** ** Secrets and volumes *)

Definition ConvertSecretDocToInternal (d : ext.SecretDoc) : result Secret :=
  if supportedVersion (ext.secret_APIVersion d) then
    let m := ext.secret_Metadata d in
    Ok {| secret_Metadata := {| secm_Name := ext.secm_Name m; secm_Realm := ext.secm_Realm m;
                                secm_Space := ext.secm_Space m; secm_Stack := ext.secm_Stack m;
                                secm_Cell := ext.secm_Cell m |};
          secret_Data := ext.secret_Data d |}
  else Err (EOpaque "unsupported apiVersion for Secret: %s").
Definition NormalizeSecret (d : ext.SecretDoc) : result (Secret * string) :=
  normalize (ext.secret_APIVersion d) (ConvertSecretDocToInternal d).
Definition ConvertSecretToExternal (s : Secret) : ext.SecretDoc :=
  let m := secret_Metadata s in
  {| ext.secret_APIVersion := ext.APIVersionV1Beta1; ext.secret_Kind := ext.KindSecret;
     ext.secret_Metadata := {| ext.secm_Name := secm_Name m; ext.secm_Realm := secm_Realm m;
                               ext.secm_Space := secm_Space m; ext.secm_Stack := secm_Stack m;
                               ext.secm_Cell := secm_Cell m |};
     ext.secret_Data := "" |}.
Definition ConvertSecretListToExternal (l : list Secret) : list ext.SecretDoc :=
  ConvertSecretToExternal <$> l.

Definition ConvertVolumeDocToInternal (d : ext.VolumeDoc) : result Volume :=
  if supportedVersion (ext.vol_APIVersion d) then
    let m := ext.vol_Metadata d in
    Ok {| vol_Metadata := {| volm_Name := ext.volm_Name m; volm_Realm := ext.volm_Realm m;
                             volm_Space := ext.volm_Space m; volm_Stack := ext.volm_Stack m |};
          vol_ReclaimPolicy := ext.vol_ReclaimPolicy d |}
  else Err (EOpaque "unsupported apiVersion for Volume: %s").
Definition NormalizeVolume (d : ext.VolumeDoc) : result (Volume * string) :=
  normalize (ext.vol_APIVersion d) (ConvertVolumeDocToInternal d).
Definition ConvertVolumeToExternal (v : Volume) : ext.VolumeDoc :=
  let m := vol_Metadata v in
  {| ext.vol_APIVersion := ext.APIVersionV1Beta1; ext.vol_Kind := ext.KindVolume;
     ext.vol_Metadata := {| ext.volm_Name := volm_Name m; ext.volm_Realm := volm_Realm m;
                            ext.volm_Space := volm_Space m; ext.volm_Stack := volm_Stack m |};
     ext.vol_ReclaimPolicy := vol_ReclaimPolicy v |}.
Definition ConvertVolumeListToExternal (l : list Volume) : list ext.VolumeDoc :=
  ConvertVolumeToExternal <$> l.

(** ** Theorems: enums *)

Lemma realm_state_cast s : realmStateToInternal (realmStateToExternal s) = s.
Proof. by destruct s. Qed.
Lemma stack_state_cast s : stackStateToInternal (stackStateToExternal s) = s.
Proof. by destruct s. Qed.
Lemma cell_state_cast s : cellStateToInternal (cellStateToExternal s) = s.
Proof. by destruct s. Qed.
Lemma container_state_cast s : containerStateToInternal (containerStateToExternal s) = s.
Proof. by destruct s. Qed.
Lemma container_state_cast_ext s : containerStateToExternal (containerStateToInternal s) = s.
Proof. by destruct s. Qed.

(** ** Theorems: one direction after the other on the parts *)

Lemma fmap_id_ext {A B} (f : A → B) (g : B → A) (l : list A) : (∀ x, g (f x) = x) → g <$> (f <$> l) = l.
Proof. intros H. induction l as [|x l IH]; [done|]. cbn. by rewrite H, IH. Qed.

Lemma option_fmap_id_ext {A B} (f : A → B) (g : B → A) (o : option A) :
  (∀ x, g (f x) = x) → g <$> (f <$> o) = o.
Proof. intros H. destruct o; [|done]. cbn. by rewrite H. Qed.

Lemma capabilities_back c : convertCapabilitiesToInternal (buildCapabilitiesExternalFromInternal c) = c.
Proof. by destruct c as [[]|]. Qed.
Lemma capabilities_back_ext c : buildCapabilitiesExternalFromInternal (convertCapabilitiesToInternal c) = c.
Proof. by destruct c as [[]|]. Qed.
Lemma tmpfs_back l : convertTmpfsMountsToInternal (buildTmpfsMountsExternalFromInternal l) = l.
Proof. apply fmap_id_ext. by intros []. Qed.
Lemma tmpfs_back_ext l : buildTmpfsMountsExternalFromInternal (convertTmpfsMountsToInternal l) = l.
Proof. apply fmap_id_ext. by intros []. Qed.
Lemma resources_back r : convertResourcesToInternal (buildResourcesExternalFromInternal r) = r.
Proof. by destruct r as [[]|]. Qed.
Lemma resources_back_ext r : buildResourcesExternalFromInternal (convertResourcesToInternal r) = r.
Proof. by destruct r as [[]|]. Qed.
Lemma secrets_back l : convertSecretsToInternal (buildSecretsExternalFromInternal l) = l.
Proof. apply fmap_id_ext. by intros [? ? ? [[]|] ?]. Qed.
Lemma secrets_back_ext l : buildSecretsExternalFromInternal (convertSecretsToInternal l) = l.
Proof. apply fmap_id_ext. by intros [? ? ? [[]|] ?]. Qed.
Lemma repos_back l : reposToInternal (reposToExternal l) = l.
Proof. apply fmap_id_ext. by intros []. Qed.
Lemma repos_back_ext l : reposToExternal (reposToInternal l) = l.
Proof. apply fmap_id_ext. by intros []. Qed.
Lemma git_back g : gitToInternal (gitToExternal g) = g.
Proof. by destruct g as [[[[]|] [[]|] ? ? ?]|]. Qed.
Lemma git_back_ext g : gitToExternal (gitToInternal g) = g.
Proof. by destruct g as [[[[]|] [[]|] ? ? ?]|]. Qed.
Lemma provenance_back p : convertCellProvenanceToInternal (buildCellProvenanceExternalFromInternal p) = p.
Proof. by destruct p as [[? [] ? ?]|]. Qed.

Create HintDb scheme.
#[export] Hint Rewrite realm_state_cast stack_state_cast cell_state_cast container_state_cast
  capabilities_back capabilities_back_ext tmpfs_back tmpfs_back_ext resources_back resources_back_ext
  secrets_back secrets_back_ext repos_back repos_back_ext git_back git_back_ext provenance_back : scheme.

(** A tty block survives unless it is blank. *)
Definition normal_tty (t : option ContainerTty) : option ContainerTty :=
  if ContainerTty_IsEmpty t then None else t.
Definition normal_ext_tty (t : option ext.ContainerTty) : option ext.ContainerTty :=
  if ext.ContainerTty_IsEmpty t then None else t.

Lemma tty_empty_to_internal t :
  ContainerTty_IsEmpty (convertContainerTtyToInternal t) = ext.ContainerTty_IsEmpty t.
Proof.
  unfold convertContainerTtyToInternal. destruct (ext.ContainerTty_IsEmpty t) eqn:E; [done|].
  destruct t as [t|]; [|done]. rewrite <-E. cbn. do 3 f_equal.
  induction (ext.ct_OnInit t) as [|s l IH]; [done|]. cbn. by rewrite IH.
Qed.

Lemma tty_empty_to_external t :
  ext.ContainerTty_IsEmpty (buildContainerTtyExternalFromInternal t) = ContainerTty_IsEmpty t.
Proof.
  unfold buildContainerTtyExternalFromInternal. destruct (ContainerTty_IsEmpty t) eqn:E; [done|].
  destruct t as [t|]; [|done]. rewrite <-E. cbn. do 3 f_equal.
  induction (ct_OnInit t) as [|s l IH]; [done|]. cbn. by rewrite IH.
Qed.

Lemma tty_back t : convertContainerTtyToInternal (buildContainerTtyExternalFromInternal t) = normal_tty t.
Proof.
  unfold convertContainerTtyToInternal. rewrite tty_empty_to_external. unfold normal_tty.
  destruct (ContainerTty_IsEmpty t) eqn:E; [done|].
  unfold buildContainerTtyExternalFromInternal. rewrite E. destruct t as [[]|]; [|done].
  cbn. do 2 f_equal. apply fmap_id_ext. by intros [].
Qed.

Lemma tty_back_ext t : buildContainerTtyExternalFromInternal (convertContainerTtyToInternal t) = normal_ext_tty t.
Proof.
  unfold buildContainerTtyExternalFromInternal. rewrite tty_empty_to_internal. unfold normal_ext_tty.
  destruct (ext.ContainerTty_IsEmpty t) eqn:E; [done|].
  unfold convertContainerTtyToInternal. rewrite E. destruct t as [[]|]; [|done].
  cbn. do 2 f_equal. apply fmap_id_ext. by intros [].
Qed.

Definition normal_cell_tty (t : option CellTty) : option CellTty :=
  match t with Some t => if String.eqb (ctty_Default t) "" then None else Some t | None => None end.

Lemma cell_tty_back t : convertCellTtyToInternal (buildCellTtyExternalFromInternal t) = normal_cell_tty t.
Proof.
  destruct t as [[d]|]; [|done]. cbn. destruct (String.eqb d "") eqn:E; [done|]. cbn. by rewrite E.
Qed.

Lemma cell_tty_back_ext t :
  buildCellTtyExternalFromInternal (convertCellTtyToInternal t)
  = match t with Some t => if String.eqb (ext.ctty_Default t) "" then None else Some t | None => None end.
Proof.
  destruct t as [[d]|]; [|done]. cbn. destruct (String.eqb d "") eqn:E; [done|]. cbn. by rewrite E.
Qed.

(** ** Pointer identities

    Two cells are the same up to the identities of their volume references when
    erasing the addresses makes them equal. *)

Definition erase_mount (v : VolumeMount) : VolumeMount :=
  let 'Build_VolumeMount k s t r ro sz m e := v in
  Build_VolumeMount k s t ((fun p => MkPtr 1 (ptr_val p)) <$> r) ro sz m e.
Definition erase_container (c : ContainerSpec) : ContainerSpec :=
  let 'Build_ContainerSpec id cid r s t ce root im cm ar wd env po vo ne na pr hn hp hc nc us ro ca so
    de tm re se rp gi cp pol bo mr at_ ty cg eh en := c in
  Build_ContainerSpec id cid r s t ce root im cm ar wd env po (erase_mount <$> vo) ne na pr hn hp hc nc us
    ro ca so de tm re se rp gi cp pol bo mr at_ ty cg eh en.
Definition erase_cell (c : Cell) : Cell := {|
  cell_Metadata := cell_Metadata c;
  cell_Spec :=
    let 'Build_CellSpec id r s t root ty cs ad nc re pr dp := cell_Spec c in
    Build_CellSpec id r s t root ty (erase_container <$> cs) ad nc re pr dp;
  cell_Status := cell_Status c |}.

Lemma mount_back v p :
  erase_mount (volumeMountToInternal
    {| ext.vm_Kind := vm_Kind v; ext.vm_Source := vm_Source v; ext.vm_Target := vm_Target v;
       ext.vm_VolumeRef := volumeRefToExternal (vm_VolumeRef v); ext.vm_ReadOnly := vm_ReadOnly v;
       ext.vm_SizeBytes := vm_SizeBytes v; ext.vm_Mode := vm_Mode v; ext.vm_Ensure := vm_Ensure v |} p).2
  = erase_mount v.
Proof. by destruct v as [? ? ? [[? []]|] ? ? ? ?]. Qed.

Lemma mounts_back l p :
  erase_mount <$> (volumeMountsToInternal (volumeMountsToExternal l) p).2 = erase_mount <$> l.
Proof.
  unfold volumeMountsToInternal, volumeMountsToExternal.
  revert p. induction l as [|v l IH]; intros p; [done|]. cbn [fmap list_fmap st_map].
  unfold st_bind at 1. pose proof (mount_back v p) as Hv.
  destruct (volumeMountToInternal _ p) as [p1 v1]. cbn in Hv. unfold st_bind.
  specialize (IH p1). destruct (st_map volumeMountToInternal _ p1) as [p2 vs]. cbn in *.
  by rewrite Hv, IH.
Qed.

Lemma mounts_back_ext l p : volumeMountsToExternal (volumeMountsToInternal l p).2 = l.
Proof.
  unfold volumeMountsToExternal, volumeMountsToInternal.
  rewrite (st_map_fmap _ _ id), list_fmap_id; [done|].
  intros [? ? ? [[]|] ? ? ? ?] q _; done.
Qed.

(** ** What a stored cell keeps *)

(** The container spec read back from disk: a blank tty block and the fields that
    only live in the daemon's memory are gone. *)
Definition stored_container (c : ContainerSpec) : ContainerSpec :=
  let 'Build_ContainerSpec id cid r s t ce root im cm ar wd env po vo ne na pr hn hp hc _ us ro ca so
    de tm re se rp gi cp pol bo mr at_ ty _ _ _ := c in
  Build_ContainerSpec id cid r s t ce root im cm ar wd env po vo ne na pr hn hp hc false us ro ca so
    de tm re se rp gi cp pol bo mr at_ (normal_tty ty) "" "" "".

Definition stored_status (s : ContainerStatus) : ContainerStatus :=
  let 'Build_ContainerStatus n id ca st rc rt stt ft ec es _ _ := s in
  Build_ContainerStatus n id ca st rc rt stt ft ec es [] [].

Definition stored_cell (c : Cell) : Cell := {|
  cell_Metadata := cell_Metadata c;
  cell_Spec :=
    let 'Build_CellSpec id r s t root ty cs ad nc _ pr _ := cell_Spec c in
    Build_CellSpec id r s t
      (match resolveCellRootContainer (cell_Spec c) with Ok r => r | Err _ => root end)
      (normal_cell_tty ty) (stored_container <$> cs) ad nc [] pr false;
  cell_Status := set_Containers (stored_status <$> cst_Containers (cell_Status c)) (cell_Status c) |}.

Lemma container_back c p :
  erase_container (convertContainerSpecToInternal (BuildContainerSpecExternalFromInternal c) p).2
  = erase_container (stored_container c).
Proof.
  unfold convertContainerSpecToInternal, st_bind.
  pose proof (mounts_back (c_Volumes c) p) as Hm.
  replace (ext.c_Volumes (BuildContainerSpecExternalFromInternal c))
    with (volumeMountsToExternal (c_Volumes c)) by done.
  destruct (volumeMountsToInternal _ p) as [p1 vs]. destruct c. cbn in *.
  rewrite Hm. autorewrite with scheme. by rewrite tty_back.
Qed.

(** An external spec comes back exactly, up to a blank tty and the transport-only GID. *)
Definition normal_ext_container (e : ext.ContainerSpec) : ext.ContainerSpec :=
  let 'ext.Build_ContainerSpec id cid r s t ce root im cm ar wd env po vo ne na pr hn hp hc us ro ca so
    de tm re se rp gi cp pol bo mr at_ ty _ := e in
  ext.Build_ContainerSpec id cid r s t ce root im cm ar wd env po vo ne na pr hn hp hc us ro ca so
    de tm re se rp gi cp pol bo mr at_ (normal_ext_tty ty) 0.

Lemma container_back_ext e p :
  BuildContainerSpecExternalFromInternal (convertContainerSpecToInternal e p).2 = normal_ext_container e.
Proof.
  unfold convertContainerSpecToInternal, st_bind. pose proof (mounts_back_ext (ext.c_Volumes e) p) as Hm.
  destruct (volumeMountsToInternal _ p) as [p1 vs]. destruct e.
  cbn in Hm. unfold BuildContainerSpecExternalFromInternal. cbn.
  rewrite Hm. autorewrite with scheme. by rewrite tty_back_ext.
Qed.

Lemma convert_stored e p :
  stored_container (convertContainerSpecToInternal e p).2 = (convertContainerSpecToInternal e p).2.
Proof.
  unfold convertContainerSpecToInternal, st_bind. destruct (volumeMountsToInternal _ p) as [p1 vs].
  cbn. f_equal. unfold normal_tty. rewrite tty_empty_to_internal.
  unfold convertContainerTtyToInternal. by destruct (ext.ContainerTty_IsEmpty _).
Qed.

(** Root flags and IDs survive every conversion, so resolution does too. *)
Lemma resolve_root_ext s s' :
  csp_RootContainerID s = csp_RootContainerID s' →
  c_ID <$> csp_Containers s = c_ID <$> csp_Containers s' →
  c_Root <$> csp_Containers s = c_Root <$> csp_Containers s' →
  resolveCellRootContainer s = resolveCellRootContainer s'.
Proof.
  intros Hr Hid Hroot. unfold resolveCellRootContainer. rewrite Hr. revert Hid Hroot.
  generalize (csp_Containers s) (csp_Containers s') (csp_RootContainerID s'). intros cs cs' root Hid Hroot.
  assert (Hf : c_ID <$> List.filter c_Root cs = c_ID <$> List.filter c_Root cs').
  { revert cs' Hid Hroot. induction cs as [|x cs IH]; intros [|y cs']; try done.
    cbn. intros [= E1 H1] [= E2 H2]. specialize (IH cs' H1 H2).
    rewrite E2. destruct (c_Root y); cbn; [|exact IH]. rewrite E1. f_equal. exact IH. }
  assert (Hx : existsb (fun c => String.eqb (c_ID c) root) cs
             = existsb (fun c => String.eqb (c_ID c) root) cs').
  { clear -Hid. revert cs' Hid. induction cs as [|x cs IH]; intros [|y cs']; try done.
    cbn. intros [= E H]. by rewrite E, (IH cs' H). }
  by rewrite Hf, Hx.
Qed.

Lemma convert_ids l p :
  c_ID <$> (st_map convertContainerSpecToInternal l p).2 = ext.c_ID <$> l ∧
  c_Root <$> (st_map convertContainerSpecToInternal l p).2 = ext.c_Root <$> l.
Proof.
  split; apply st_map_fmap; intros e q _; unfold convertContainerSpecToInternal, st_bind;
    by destruct (volumeMountsToInternal _ q).
Qed.

Lemma erase_fields c : c_ID (erase_container c) = c_ID c ∧ c_Root (erase_container c) = c_Root c.
Proof. by destruct c. Qed.

Lemma containers_back l p :
  erase_container <$> (st_map convertContainerSpecToInternal (BuildContainerSpecExternalFromInternal <$> l) p).2
  = erase_container <$> (stored_container <$> l).
Proof.
  revert p. induction l as [|c l IH]; intros p; [done|]. cbn [fmap list_fmap st_map].
  unfold st_bind at 1. pose proof (container_back c p) as Hc.
  destruct (convertContainerSpecToInternal _ p) as [p1 c1]. cbn [snd] in Hc. unfold st_bind, st_ret.
  specialize (IH p1). change (list_fmap _ _ BuildContainerSpecExternalFromInternal l)
    with (BuildContainerSpecExternalFromInternal <$> l) in *.
  destruct (st_map convertContainerSpecToInternal _ p1) as [p2 cs]. cbn [snd] in *.
  change (erase_container c1 :: (erase_container <$> cs)
          = erase_container (stored_container c) :: (erase_container <$> (stored_container <$> l))).
  by rewrite Hc, IH.
Qed.

Lemma status_back s : cellStatusToInternal (cellStatusToExternal s)
  = set_Containers (stored_status <$> cst_Containers s) s.
Proof.
  destruct s as [state]. unfold cellStatusToInternal, cellStatusToExternal. cbn -[cellStateToInternal].
  f_equal; [apply cell_state_cast|].
  unfold convertContainerStatusesToInternal, buildContainerStatusesExternalFromInternal.
  rewrite <-list_fmap_compose. apply list_fmap_ext. intros _ [] _. cbn -[containerStateToInternal]. f_equal. apply container_state_cast.
Qed.

Lemma cell_store_roundtrip_aux c v d p :
  BuildCellExternalFromInternal c v = Ok d →
  validateCellDoc (ext.cell_Spec d) = None →
  ∃ c', (ConvertCellDocToInternal d p).2 = Ok c' ∧ erase_cell c' = erase_cell (stored_cell c).
Proof.
  unfold BuildCellExternalFromInternal. destruct (supportedVersion v); [|done].
  rewrite res_bind_Ok. intros (root & Hroot & [= <-]) Hval. cbn in Hval.
  unfold ConvertCellDocToInternal. cbn -[st_map]. unfold validateCellDoc in *. cbn in Hval.
  rewrite Hval. unfold st_bind, st_ret.
  pose proof (containers_back (csp_Containers (cell_Spec c)) p) as Hcs.
  destruct (convert_ids (BuildContainerSpecExternalFromInternal <$> csp_Containers (cell_Spec c)) p)
    as [Hids Hroots].
  destruct (st_map convertContainerSpecToInternal _ p) as [p1 cs]. cbn [snd] in *.
  rewrite <-list_fmap_compose in Hids, Hroots.
  erewrite (resolve_root_ext _ (cell_Spec c)), Hroot; [|done..]. cbn [res_bind].
  eexists. split; [reflexivity|].
  destruct c as [[] [id r s t rt ty l ad nc re pr dp] st]. cbn in *.
  unfold erase_cell, stored_cell. cbn. rewrite Hroot, Hcs, status_back, provenance_back, cell_tty_back.
  reflexivity.
Qed.

(** C13: Converting a cell to the document that is stored and that document back to a cell
    returns the cell, up to the identities of its volume references, whenever the document
    passes the checks the conversion back makes: spec, labels, annotations, provenance,
    generation and status survive, the root is the resolved one, a blank tty block
    is dropped, and what is gone is exactly what [stored_cell] removes (the
    transport-only runtime environment and disk-pressure override, the in-memory
    container paths, and the repo and stage records of the container statuses). *)
Theorem cell_store_roundtrip c v d p :
  BuildCellExternalFromInternal c v = Ok d →
  validateCellDoc (ext.cell_Spec d) = None →
  ∃ c', (ConvertCellDocToInternal d p).2 = Ok c' ∧ erase_cell c' = erase_cell (stored_cell c).
Proof. apply cell_store_roundtrip_aux. Qed.

Lemma container_wf_normal e : container_wf e → container_wf (normal_ext_container e).
Proof.
  intros [Ht Hg Hv Hr]. destruct e. cbn in *. split.
  - destruct Ht as [T1 T2 T3 T4]. cbn in *. unfold normal_ext_tty.
    destruct (ext.ContainerTty_IsEmpty c_Tty) eqn:E; split; cbn; try done; intros; simplify_eq; eauto.
  - destruct Hg as [G1 G2]. split; cbn in *; eauto.
  - exact Hv.
  - destruct Hr as [R1 R2]. split; cbn in *; eauto.
Qed.

Lemma cell_tty_attachable spec :
  validateCellTty spec = None ↔
  ∀ t, ext.csp_Tty spec = Some t → ext.ctty_Default t ≠ "" →
    ∃ c, find_first (fun c => String.eqb (ext.c_ID c) (ext.ctty_Default t)) (ext.csp_Containers spec) = Some c
         ∧ ext.c_Attachable c = true.
Proof.
  unfold validateCellTty. destruct (ext.csp_Tty spec) as [t|]; [|naive_solver].
  destruct (String.eqb_spec (ext.ctty_Default t) "") as [E|N]; [naive_solver|].
  destruct (find_first _ _) as [c|] eqn:Ef.
  - destruct (ext.c_Attachable c) eqn:Ea; [naive_solver|]. split; [done|].
    intros H. destruct (H t eq_refl N) as (c' & E & Ha). rewrite Ef in E. simplify_eq. congruence.
  - split; [done|]. intros H. destruct (H t eq_refl N) as (c' & E & Ha). by rewrite Ef in E.
Qed.

Lemma find_first_fmap {A B} (f : A → B) (p : B → bool) l :
  find_first p (f <$> l) = f <$> find_first (fun x => p (f x)) l.
Proof. induction l as [|x l IH]; [done|]. cbn. destruct (p (f x)); [done|]. exact IH. Qed.

Lemma find_first_ext {A} (p q : A → bool) l :
  (∀ x, p x = q x) → find_first p l = find_first q l.
Proof. intros H. induction l as [|x l IH]; [done|]. cbn. rewrite <-H. destruct (p x); [done|]. exact IH. Qed.

Lemma cell_tty_back_validates spec spec' :
  ext.csp_Containers spec' = normal_ext_container <$> ext.csp_Containers spec →
  ext.csp_Tty spec' = buildCellTtyExternalFromInternal (convertCellTtyToInternal (ext.csp_Tty spec)) →
  validateCellTty spec = None → validateCellTty spec' = None.
Proof.
  rewrite !cell_tty_attachable. intros Hc Ht H t Et Hne. rewrite Et, cell_tty_back_ext in Ht.
  destruct (ext.csp_Tty spec) as [t0|] eqn:E0; [|done].
  destruct (String.eqb (ext.ctty_Default t0) ""); [done|]. simplify_eq.
  destruct (H t0 eq_refl Hne) as (c & Ef & Ha). rewrite Hc, find_first_fmap.
  assert (Hid : ∀ e, ext.c_ID (normal_ext_container e) = ext.c_ID e) by by intros [].
  exists (normal_ext_container c). split; [|by destruct c].
  rewrite (find_first_ext _ (fun c => String.eqb (ext.c_ID c) (ext.ctty_Default t0)));
    [by rewrite Ef|intros e; by rewrite Hid].
Qed.

(** The cell without the fields that only travel from client to daemon. *)
Definition drop_transport (c : Cell) : Cell := {|
  cell_Metadata := cell_Metadata c;
  cell_Spec :=
    let 'Build_CellSpec id r s t root ty cs ad nc _ pr _ := cell_Spec c in
    Build_CellSpec id r s t root ty cs ad nc [] pr false;
  cell_Status := cell_Status c |}.

(** The shape of an accepted cell. *)
Lemma convert_cell_inv d p c :
  (ConvertCellDocToInternal d p).2 = Ok c →
  let s := ext.cell_Spec d in
  let cs := (st_map convertContainerSpecToInternal (ext.csp_Containers s) p).2 in
  (∀ e, e ∈ ext.csp_Containers s → container_wf e) ∧ validateCellTty s = None ∧
  root_wf cs (csp_RootContainerID (cell_Spec c)) ∧
  cell_Spec c = cellSpecToInternal s (csp_RootContainerID (cell_Spec c)) cs ∧
  cell_Status c = cellStatusToInternal (ext.cell_Status d).
Proof.
  unfold ConvertCellDocToInternal. destruct (supportedVersion _); [|done].
  destruct (validateCellDoc _) eqn:Hv; [done|]. unfold st_bind, st_ret.
  destruct (st_map convertContainerSpecToInternal _ p) as [p1 cs]. cbn [snd].
  rewrite res_bind_Ok. intros (root & Hroot & [= <-]). cbn [cell_Spec cell_Status].
  apply first_error_app_None in Hv as [Hc Ht]. rewrite first_error_fmap_None in Hc.
  setoid_rewrite validateContainer_spec in Hc. apply first_error_cons_None in Ht as [Ht _].
  apply resolveCellRootContainer_sound in Hroot. done.
Qed.

Lemma converted_stored l p :
  stored_container <$> (st_map convertContainerSpecToInternal l p).2
  = (st_map convertContainerSpecToInternal l p).2.
Proof.
  pose proof (st_map_Forall2 convertContainerSpecToInternal (fun _ c => stored_container c = c) l p) as HF.
  specialize (HF (fun e q _ => convert_stored e q)).
  induction HF as [|e c l' cs E _ IH]; [done|]. cbn. rewrite E. f_equal. exact IH.
Qed.

Lemma converted_back_ext l p :
  BuildContainerSpecExternalFromInternal <$> (st_map convertContainerSpecToInternal l p).2
  = normal_ext_container <$> l.
Proof. apply st_map_fmap. intros e q _. apply container_back_ext. Qed.

(** Every cell document the daemon accepts can be stored and is accepted again
    when it is read back: the stored form is well-formed, and reading it yields the
    accepted cell without its transport-only fields (up to the identities of the
    volume references). *)
Theorem accepted_cell_survives_restart d p c :
  (ConvertCellDocToInternal d p).2 = Ok c →
  ∃ d', BuildCellExternalFromInternal c VersionV1Beta1 = Ok d' ∧
    ∀ q, ∃ c', (ConvertCellDocToInternal d' q).2 = Ok c' ∧ erase_cell c' = erase_cell (drop_transport c).
Proof.
  intros Hc. destruct (convert_cell_inv d p c Hc) as (Hwf & Htty & Hroot & Hspec & Hstatus).
  assert (Hres : resolveCellRootContainer (cell_Spec c) = Ok (csp_RootContainerID (cell_Spec c))).
  { apply resolveCellRootContainer_complete. by rewrite Hspec at 1. }
  assert (Hb : ∃ d', BuildCellExternalFromInternal c VersionV1Beta1 = Ok d')
    by (unfold BuildCellExternalFromInternal; rewrite Hres; eexists; reflexivity).
  destruct Hb as [d' Hd']. exists d'. split; [exact Hd'|]. intros q.
  assert (Hval : validateCellDoc (ext.cell_Spec d') = None).
  { unfold BuildCellExternalFromInternal in Hd'. rewrite Hres in Hd'. cbn in Hd'. injection Hd' as <-.
    unfold validateCellDoc. cbn. rewrite Hspec. cbn. rewrite converted_back_ext.
    apply first_error_app_None. split.
    - apply first_error_fmap_None. intros e [e0 [-> He0]]%list_elem_of_fmap.
      by apply validateContainer_spec, container_wf_normal, Hwf.
    - apply first_error_cons_None. split; [|done].
      by apply (cell_tty_back_validates (ext.cell_Spec d)). }
  destruct (cell_store_roundtrip_aux c VersionV1Beta1 d' q Hd' Hval) as (c' & Hc' & Heq).
  exists c'. split; [exact Hc'|]. rewrite Heq. f_equal.
  unfold stored_cell, drop_transport. rewrite Hres.
  destruct c as [m s st]. cbn in *. destruct s as [id r sp t rt ty l ad nc re pr dp]. cbn in *.
  injection Hspec as -> -> -> -> -> -> -> -> -> -> ->. rewrite converted_stored.
  f_equal; [f_equal|].
  - destruct (ext.csp_Tty (ext.cell_Spec d)) as [[td]|]; [|done]. cbn.
    destruct (String.eqb td "") eqn:E; [done|]. cbn. by rewrite E.
  - rewrite Hstatus. unfold cellStatusToInternal. cbn. f_equal.
    unfold convertContainerStatusesToInternal. rewrite <-list_fmap_compose. done.
Qed.

(** ** What is accepted *)

Lemma resolve_explicit spec r :
  resolveCellRootContainer spec = Ok r → csp_RootContainerID spec ≠ "" → r = csp_RootContainerID spec.
Proof.
  unfold resolveCellRootContainer. intros H Hne. apply String.eqb_neq in Hne. rewrite Hne in H.
  cbn [negb] in H. destruct (_ <? _)%nat; [done|]. destruct (negb (existsb _ _)); [done|].
  destruct (c_ID <$> _) as [|x [|]]; [by simplify_eq| |by simplify_eq].
  destruct (negb (String.eqb x _)); by simplify_eq.
Qed.

(** The document's own description of a consistent choice of root. *)
Record root_declared (s : ext.CellSpec) : Prop := {
  rd_unique : (length (List.filter ext.c_Root (ext.csp_Containers s)) ≤ 1)%nat;
  rd_exists : ext.csp_RootContainerID s ≠ "" →
    ∃ e, e ∈ ext.csp_Containers s ∧ ext.c_ID e = ext.csp_RootContainerID s;
  rd_agrees : ext.csp_RootContainerID s ≠ "" → ∀ e, e ∈ ext.csp_Containers s →
    ext.c_Root e = true → ext.c_ID e = ext.csp_RootContainerID s }.

Lemma resolve_total spec :
  (∃ r, resolveCellRootContainer spec = Ok r) ↔
  (length (List.filter c_Root (csp_Containers spec)) ≤ 1)%nat ∧
  (csp_RootContainerID spec ≠ "" → root_wf (csp_Containers spec) (csp_RootContainerID spec)).
Proof.
  split.
  - intros [r Hr]. pose proof (resolveCellRootContainer_sound _ _ Hr) as Hw. split; [apply Hw|].
    intros Hne. by rewrite <-(resolve_explicit _ _ Hr Hne).
  - intros [Hu Hw]. destruct (decide (csp_RootContainerID spec = "")) as [E|Hne].
    + unfold resolveCellRootContainer. rewrite length_fmap, (proj2 (Nat.ltb_ge _ _) Hu), E. cbn.
      destruct (c_ID <$> _) as [|x [|]]; eauto.
    + eexists. by apply resolveCellRootContainer_complete, Hw.
Qed.

Lemma converted_fields l p :
  Forall2 (fun e c => c_ID c = ext.c_ID e ∧ c_Root c = ext.c_Root e) l
    (st_map convertContainerSpecToInternal l p).2.
Proof.
  apply st_map_Forall2. intros e q _. unfold convertContainerSpecToInternal, st_bind.
  by destruct (volumeMountsToInternal _ q).
Qed.

Lemma converted_root_wf s cs :
  Forall2 (fun e c => c_ID c = ext.c_ID e ∧ c_Root c = ext.c_Root e) (ext.csp_Containers s) cs →
  ((length (List.filter c_Root cs) ≤ 1)%nat ∧
   (ext.csp_RootContainerID s ≠ "" → root_wf cs (ext.csp_RootContainerID s))) ↔ root_declared s.
Proof.
  intros HF.
  assert (Hlen : length (List.filter c_Root cs) = length (List.filter ext.c_Root (ext.csp_Containers s))).
  { induction HF as [|e c l l' [_ E] _ IH]; [done|]. cbn. rewrite E.
    by destruct (ext.c_Root e); cbn; rewrite IH. }
  split.
  - intros [Hu Hw]. split; [by rewrite <-Hlen|..]; intros Hne; destruct (Hw Hne) as [_ He Hf].
    + destruct (He Hne) as (c & Hc & Ec). apply list_elem_of_lookup in Hc as [i Hi].
      destruct (Forall2_lookup_r _ _ _ _ _ HF Hi) as (e & Hi' & E & _).
      exists e. split; [by apply list_elem_of_lookup_2 in Hi'|congruence].
    + intros e He' Hr. apply list_elem_of_lookup in He' as [i Hi].
      destruct (Forall2_lookup_l _ _ _ _ _ HF Hi) as (c & Hi' & E & E').
      rewrite <-E. apply Hf; [by apply list_elem_of_lookup_2 in Hi'|congruence].
  - intros [Hu He Ha]. split; [by rewrite Hlen|]. intros Hne. split; [by rewrite Hlen|..].
    + intros _. destruct (He Hne) as (e & Hi & E). apply list_elem_of_lookup in Hi as [i Hi].
      destruct (Forall2_lookup_l _ _ _ _ _ HF Hi) as (c & Hi' & E' & _).
      exists c. split; [by apply list_elem_of_lookup_2 in Hi'|congruence].
    + intros c Hc Hr. apply list_elem_of_lookup in Hc as [i Hi].
      destruct (Forall2_lookup_r _ _ _ _ _ HF Hi) as (e & Hi' & E & E').
      rewrite E. apply Ha; [done|by apply list_elem_of_lookup_2 in Hi'|congruence].
Qed.

(** C14: The conversion of a cell document to the internal cell succeeds exactly when the
    document is well-formed (the parser has its own checks before it): its version
    is known, every container's tty, git, volume and restart blocks are consistent,
    the cell's tty default names an attachable container, and the flagged and the
    named root container agree.  Whether it succeeds does not depend on the
    state of the heap. *)
Theorem cell_accepted_iff d p :
  (∃ c, (ConvertCellDocToInternal d p).2 = Ok c) ↔
  supportedVersion (ext.cell_APIVersion d) = true ∧
  (∀ e, e ∈ ext.csp_Containers (ext.cell_Spec d) → container_wf e) ∧
  (∀ t, ext.csp_Tty (ext.cell_Spec d) = Some t → ext.ctty_Default t ≠ "" →
     ∃ c, find_first (fun c => String.eqb (ext.c_ID c) (ext.ctty_Default t))
            (ext.csp_Containers (ext.cell_Spec d)) = Some c ∧ ext.c_Attachable c = true) ∧
  root_declared (ext.cell_Spec d).
Proof.
  rewrite <-cell_tty_attachable. unfold ConvertCellDocToInternal.
  destruct (supportedVersion _); [|split; [by intros [? [=]]|by intros [[=] _]]].
  pose proof (converted_fields (ext.csp_Containers (ext.cell_Spec d)) p) as HF.
  rewrite <-(converted_root_wf _ _ HF). clear HF.
  assert (Hv : validateCellDoc (ext.cell_Spec d) = None ↔
    (∀ e, e ∈ ext.csp_Containers (ext.cell_Spec d) → container_wf e) ∧ validateCellTty (ext.cell_Spec d) = None).
  { unfold validateCellDoc. rewrite first_error_app_None, first_error_fmap_None, first_error_cons_None.
    setoid_rewrite validateContainer_spec. naive_solver. }
  destruct (validateCellDoc _) as [e|] eqn:E.
  { split; [by intros [? [=]]|]. intros (_ & H1 & H2 & _).
    assert (Some e = None) as [=]. by apply Hv. }
  destruct (proj1 Hv eq_refl) as [H1 H2]. unfold st_bind, st_ret.
  destruct (st_map convertContainerSpecToInternal _ p) as [p1 cs]. cbn [snd].
  pose proof (resolve_total (cellSpecToInternal (ext.cell_Spec d)
    (ext.csp_RootContainerID (ext.cell_Spec d)) cs)) as HR. cbn [csp_Containers csp_RootContainerID cellSpecToInternal] in HR.
  rewrite <-HR. split.
  - intros [c Hc]. rewrite res_bind_Ok in Hc. naive_solver.
  - intros (_ & _ & _ & r & Hr). eexists. rewrite Hr. reflexivity.
Qed.

(** ** Scopes *)

Definition stored_space_state (s : SpaceState) : SpaceState :=
  match s with
  | SpaceStateCreating => SpaceStateReady
  | SpaceStateDeleting => SpaceStateFailed
  | s => s
  end.
Definition stored_space (s : Space) : Space := {|
  space_Metadata := space_Metadata s; space_Spec := space_Spec s;
  space_Status :=
    let 'Build_ScopeStatus state cg sub cr up rd rs msg cgr og := space_Status s in
    Build_ScopeStatus (stored_space_state state) cg sub cr up rd rs msg cgr og |}.

Lemma space_network_back n :
  convertSpaceNetworkToInternal (buildSpaceNetworkExternalFromInternal n) = n.
Proof.
  destruct n as [[[[df al]|]]|]; [|done..]. cbn. do 4 f_equal.
  apply (fmap_id_ext _ _ al). by intros [].
Qed.

Lemma space_defaults_back d :
  convertSpaceDefaultsToInternal (buildSpaceDefaultsExternalFromInternal d) = d.
Proof.
  destruct d as [[[[u ro ca so tm re]|]]|]; [|done..]. cbn.
  by rewrite capabilities_back, tmpfs_back, resources_back.
Qed.

(** Realms and stacks written to disk and read back are unchanged, and so are
    spaces except for two transient states: a space being created is read back as
    ready and one being deleted as failed. *)
Theorem scope_store_roundtrip v :
  supportedVersion v = true →
  (∀ r, res_bind (BuildRealmExternalFromInternal r v) ConvertRealmDocToInternal = Ok r) ∧
  (∀ s, res_bind (BuildStackExternalFromInternal s v) ConvertStackDocToInternal = Ok s) ∧
  (∀ s, res_bind (BuildSpaceExternalFromInternal s v) ConvertSpaceDocToInternal = Ok (stored_space s)).
Proof.
  intros Hv. unfold BuildRealmExternalFromInternal, BuildStackExternalFromInternal,
    BuildSpaceExternalFromInternal. rewrite Hv. cbn [res_bind]. split_and!.
  - intros [[] [ns rc] []]. unfold ConvertRealmDocToInternal. cbn -[realmStateToInternal realmStateToExternal].
    rewrite realm_state_cast. do 3 f_equal. apply (fmap_id_ext _ _ rc). by intros [].
  - intros [[] [] []]. unfold ConvertStackDocToInternal, scopeStatusToInternal.
    cbn -[stackStateToInternal stackStateToExternal]. by rewrite stack_state_cast.
  - intros [[] [r c n d] [state]]. unfold ConvertSpaceDocToInternal, stored_space. cbn.
    rewrite space_network_back, space_defaults_back. by destruct state.
Qed.

Lemma scope_store_roundtrip_witness :
  supportedVersion "v1beta1" = true ∧
  ∀ s, res_bind (BuildSpaceExternalFromInternal s "v1beta1") ConvertSpaceDocToInternal = Ok (stored_space s).
Proof. split; [reflexivity|]. exact (proj2 (proj2 (scope_store_roundtrip "v1beta1" eq_refl))). Defined.

(** ** A sample document *)

Definition sample_ext_container (id : string) (root attachable : bool) (vols : list ext.VolumeMount)
    (tty : option ext.ContainerTty) : ext.ContainerSpec :=
  ext.Build_ContainerSpec id "" "r" "s" "t" "c" root "img" "" [] "" [] [] vols [] [] false false false false
    "" false None [] [] [] None [] [] None "" "" None None attachable tty 0.

Definition sample_ref_mount : ext.VolumeMount := {|
  ext.vm_Kind := "volume"; ext.vm_Source := ""; ext.vm_Target := "/data";
  ext.vm_VolumeRef := Some {| ext.vr_Name := "v"; ext.vr_Realm := "r"; ext.vr_Space := ""; ext.vr_Stack := "" |};
  ext.vm_ReadOnly := false; ext.vm_SizeBytes := 0; ext.vm_Mode := 0; ext.vm_Ensure := false |}.

Definition sample_ext_cell : ext.CellDoc := {|
  ext.cell_APIVersion := "v1beta1"; ext.cell_Kind := ext.KindCell;
  ext.cell_Metadata := {| ext.cm_Name := "c"; ext.cm_Labels := ∅; ext.cm_Annotations := ∅; ext.cm_Generation := 1 |};
  ext.cell_Spec := ext.Build_CellSpec "c" "r" "s" "t" "" (Some {| ext.ctty_Default := "web" |})
    [sample_ext_container "root" true false [sample_ref_mount] None;
     sample_ext_container "web" false true [sample_ref_mount]
       (Some (ext.Build_ContainerTty "" [{| ext.ts_Script := "make"; ext.ts_RunOn := "create" |}] "" ""))]
    false false ["A=1"] None true;
  ext.cell_Status := ext.Build_CellStatus ext.CellStateReady "" [] "" [] false 0%Z 0%Z 0%Z "" "" false 0%Z false "" "" |}.

Lemma accepted_cell_survives_restart_witness :
  match (ConvertCellDocToInternal sample_ext_cell 1%positive).2 with
  | Ok c => csp_RootContainerID (cell_Spec c) = "root" ∧
      ∃ d', BuildCellExternalFromInternal c VersionV1Beta1 = Ok d' ∧
        ∀ q, ∃ c', (ConvertCellDocToInternal d' q).2 = Ok c' ∧ erase_cell c' = erase_cell (drop_transport c)
  | Err _ => False
  end.
Proof.
  destruct (ConvertCellDocToInternal sample_ext_cell 1%positive).2 as [c|e] eqn:E.
  - split; [by vm_compute in E; injection E as <-|].
    exact (accepted_cell_survives_restart sample_ext_cell 1%positive c E).
  - by vm_compute in E.
Defined.

Lemma cell_store_roundtrip_witness :
  match (ConvertCellDocToInternal sample_ext_cell 1%positive).2 with
  | Ok c => match BuildCellExternalFromInternal c "v1beta1" with
      | Ok d => ∃ c', (ConvertCellDocToInternal d 9%positive).2 = Ok c' ∧ erase_cell c' = erase_cell (stored_cell c)
      | Err _ => False end
  | Err _ => False
  end.
Proof.
  destruct (ConvertCellDocToInternal sample_ext_cell 1%positive).2 as [c|e] eqn:E; [|by vm_compute in E].
  vm_compute in E. injection E as <-.
  destruct (BuildCellExternalFromInternal _ _) as [d|] eqn:Ed; [|by vm_compute in Ed].
  apply (cell_store_roundtrip _ "v1beta1" d 9%positive Ed).
  vm_compute in Ed. injection Ed as <-. vm_compute. reflexivity.
Defined.
