(* ===== verification/Defaults.v ===== *)
(** * Space defaults (internal/modelhub/merge.go)

    A space may declare defaults for the isolation fields of the containers in its
    cells.  [ApplySpaceDefaultsToContainer] fills the fields a container leaves
    unset; the source updates the container through a pointer, the model returns
    the updated one. *)

From stdpp Require Import base gmap strings list.
From S2P Require Import Prelude Model.

(** ** Operations *)

Definition cloneCapabilities (c : option ContainerCapabilities) : option ContainerCapabilities :=
  match c with
  | None => None
  | Some c => Some {| cap_Drop := cap_Drop c; cap_Add := cap_Add c |}
  end.

Definition cloneTmpfsMounts (l : list ContainerTmpfsMount) : list ContainerTmpfsMount :=
  (fun m => {| tm_Path := tm_Path m; tm_SizeBytes := tm_SizeBytes m; tm_Options := tm_Options m |}) <$> l.

Definition cloneResources (r : option ContainerResources) : option ContainerResources :=
  match r with
  | None => None
  | Some r => Some {| res_MemoryLimitBytes := res_MemoryLimitBytes r; res_CPUShares := res_CPUShares r;
                      res_PidsLimit := res_PidsLimit r |}
  end.

(** The isolation fields of a container: the ones a space may default. *)
Definition set_isolation (u : string) (ro : bool) (ca : option ContainerCapabilities) (so : list string)
    (tm : list ContainerTmpfsMount) (re : option ContainerResources) (c : ContainerSpec) : ContainerSpec :=
  let 'Build_ContainerSpec id cid r s t ce root im cm ar wd env po vo ne na pr hn hp hc nc _ _ _ _
    de _ _ se rp gi cp pol bo mr at_ ty cg eh en := c in
  Build_ContainerSpec id cid r s t ce root im cm ar wd env po vo ne na pr hn hp hc nc u ro ca so
    de tm re se rp gi cp pol bo mr at_ ty cg eh en.

Definition mergeIsolation (d : SpaceContainerDefaults) (c : ContainerSpec) : ContainerSpec :=
  set_isolation
    (if String.eqb (c_User c) "" then scd_User d else c_User c)
    (match scd_ReadOnlyRootFilesystem d with
     | Some ro => if negb (c_ReadOnlyRootFilesystem c) then ro else c_ReadOnlyRootFilesystem c
     | None => c_ReadOnlyRootFilesystem c
     end)
    (match c_Capabilities c, scd_Capabilities d with
     | None, Some ca => cloneCapabilities (Some ca)
     | ca, _ => ca
     end)
    (if (length (c_SecurityOpts c) =? 0)%nat && (0 <? length (scd_SecurityOpts d))%nat
     then scd_SecurityOpts d else c_SecurityOpts c)
    (if (length (c_Tmpfs c) =? 0)%nat && (0 <? length (scd_Tmpfs d))%nat
     then cloneTmpfsMounts (scd_Tmpfs d) else c_Tmpfs c)
    (match c_Resources c, scd_Resources d with
     | None, Some re => cloneResources (Some re)
     | re, _ => re
     end) c.

(** The nil-container guard has no counterpart: every caller passes the address of
    an element of a cell's container slice. *)
Definition ApplySpaceDefaultsToContainer (space : Space) (c : ContainerSpec) : ContainerSpec :=
  match spsp_Defaults (space_Spec space) with
  | None => c
  | Some ds => match sd_Container ds with None => c | Some d => mergeIsolation d c end
  end.

(** ** Theorems *)

Lemma cloneCapabilities_id c : cloneCapabilities c = c.
Proof. by destruct c as [[]|]. Qed.
Lemma cloneTmpfsMounts_id l : cloneTmpfsMounts l = l.
Proof. unfold cloneTmpfsMounts. rewrite <-(list_fmap_id l) at 2. apply list_fmap_ext. by intros _ [] _. Qed.
Lemma cloneResources_id r : cloneResources r = r.
Proof. by destruct r as [[]|]. Qed.

(** The container's value when it set one, the space's otherwise. *)
Definition prefer_option {A} (own dflt : option A) : option A := match own with Some _ => own | None => dflt end.
Definition prefer_list {A} (own dflt : list A) : list A := match own with [] => dflt | _ => own end.
Definition prefer_string (own dflt : string) : string := if String.eqb own "" then dflt else own.

Lemma prefer_list_spec {A} (own dflt : list A) :
  (if (length own =? 0)%nat && (0 <? length dflt)%nat then dflt else own) = prefer_list own dflt.
Proof. by destruct own, dflt. Qed.

Lemma mergeIsolation_spec d c : mergeIsolation d c =
  set_isolation (prefer_string (c_User c) (scd_User d))
    (c_ReadOnlyRootFilesystem c || default false (scd_ReadOnlyRootFilesystem d))
    (prefer_option (c_Capabilities c) (scd_Capabilities d))
    (prefer_list (c_SecurityOpts c) (scd_SecurityOpts d))
    (prefer_list (c_Tmpfs c) (scd_Tmpfs d))
    (prefer_option (c_Resources c) (scd_Resources d)) c.
Proof.
  unfold mergeIsolation. rewrite cloneTmpfsMounts_id, !prefer_list_spec.
  f_equal; try done.
  - by destruct (scd_ReadOnlyRootFilesystem d) as [[]|], (c_ReadOnlyRootFilesystem c).
  - destruct (c_Capabilities c), (scd_Capabilities d) as [[]|]; done.
  - destruct (c_Resources c), (scd_Resources d) as [[]|]; done.
Qed.

Lemma mergeIsolation_idem d c : mergeIsolation d (mergeIsolation d c) = mergeIsolation d c.
Proof.
  rewrite !mergeIsolation_spec. destruct c, d. cbn. f_equal; unfold prefer_string, prefer_list, prefer_option.
  - destruct (String.eqb c_User "") eqn:E; [by case_match|by rewrite E].
  - rewrite <-orb_assoc. by rewrite orb_diag.
  - by destruct c_Capabilities, scd_Capabilities.
  - by destruct c_SecurityOpts, scd_SecurityOpts.
  - by destruct c_Tmpfs, scd_Tmpfs.
  - by destruct c_Resources, scd_Resources.
Qed.

(** Applying a space's defaults touches only the isolation fields (user,
    read-only root, capabilities, security options, tmpfs, resources): a value the
    container set wins whole over the space's, a field it left unset takes the
    space's, no lists are merged, and applying the defaults again changes nothing.
    A read-only root demanded by the space cannot be lifted by the container. *)
Theorem space_defaults_precedence space d ds c :
  spsp_Defaults (space_Spec space) = Some ds → sd_Container ds = Some d →
  let c' := ApplySpaceDefaultsToContainer space c in
  c' = set_isolation (prefer_string (c_User c) (scd_User d))
         (c_ReadOnlyRootFilesystem c || default false (scd_ReadOnlyRootFilesystem d))
         (prefer_option (c_Capabilities c) (scd_Capabilities d))
         (prefer_list (c_SecurityOpts c) (scd_SecurityOpts d))
         (prefer_list (c_Tmpfs c) (scd_Tmpfs d))
         (prefer_option (c_Resources c) (scd_Resources d)) c ∧
  ApplySpaceDefaultsToContainer space c' = c'.
Proof.
  intros E1 E2 c'. subst c'. unfold ApplySpaceDefaultsToContainer. rewrite E1, E2.
  split; [apply mergeIsolation_spec|apply mergeIsolation_idem].
Qed.

Lemma ApplySpaceDefaults_idem space c :
  ApplySpaceDefaultsToContainer space (ApplySpaceDefaultsToContainer space c)
  = ApplySpaceDefaultsToContainer space c.
Proof.
  unfold ApplySpaceDefaultsToContainer. destruct (spsp_Defaults _) as [[[d|]]|]; [|done..].
  apply mergeIsolation_idem.
Qed.

Definition hardened_space : Space := {|
  space_Metadata := {| sm_Name := "s"; sm_Labels := ∅; sm_Generation := 1 |};
  space_Spec := {| spsp_RealmName := "r"; spsp_CNIConfigPath := ""; spsp_Network := None;
    spsp_Defaults := Some {| sd_Container := Some {| scd_User := "1000"; scd_ReadOnlyRootFilesystem := Some true;
      scd_Capabilities := Some {| cap_Drop := ["ALL"]; cap_Add := [] |}; scd_SecurityOpts := [];
      scd_Tmpfs := []; scd_Resources := None |} |} |};
  space_Status := Build_ScopeStatus SpaceStateReady "" [] 0%Z 0%Z 0%Z "" "" false 0%Z |}.

Lemma space_defaults_precedence_witness :
  c_User (ApplySpaceDefaultsToContainer hardened_space zero_ContainerSpec) = "1000" ∧
  c_ReadOnlyRootFilesystem (ApplySpaceDefaultsToContainer hardened_space zero_ContainerSpec) = true.
Proof.
  destruct (space_defaults_precedence hardened_space _ _ zero_ContainerSpec eq_refl eq_refl) as [-> _].
  split; reflexivity.
Defined.
