(* ===== verification/CellState.v ===== *)
(** * CellState: the pure lifecycle predicates of the cell reconciler

    Models the functions of internal/controller/runner/refresh.go that read no
    host state: the derivation of a cell's state from its containers' states,
    the sticky / auto-delete / wind-down / restart predicates, the ReadyObserved
    latch, the failure breadcrumb, and the status comparisons. *)

From stdpp Require Import base gmap strings list.
From S2P Require Import Prelude Model.

(** ** Predicates on states and policies *)

Definition cellStateIsSticky (s : CellState) : bool :=
  bool_decide (s = CellStateFailed) || bool_decide (s = CellStateError).

Definition cellStateAutoDeleteTriggers (s : CellState) : bool :=
  bool_decide (s = CellStateExited).

Definition latchReadyObserved (prior : bool) (originalState newState : CellState) : bool :=
  prior
  || bool_decide (newState = CellStateReady)
  || bool_decide (originalState = CellStateReady)
  || bool_decide (newState = CellStateDegraded)
  || bool_decide (originalState = CellStateDegraded).

Definition shouldAutoDeleteCell (autoDelete : bool) (newState : CellState)
    (readyObserved : bool) : bool :=
  autoDelete && cellStateAutoDeleteTriggers newState && readyObserved.

Definition containerStateIsTerminal (s : ContainerState) : bool :=
  match s with
  | ContainerStateStopped | ContainerStateExited | ContainerStateError
  | ContainerStateFailed | ContainerStateNotCreated => true
  | _ => false
  end.

Definition restartPolicyPermitsContainerReap (policy : string) (exitCode : Z) : bool :=
  if String.eqb policy RestartPolicyAlways then true
  else if String.eqb policy RestartPolicyOnFailure then negb (Z.eqb exitCode 0)
  else if String.eqb policy "" || String.eqb policy RestartPolicyNever then false
  else true.

Definition restartPolicyRequiresRestart (policy : string) (exitCode : Z) : bool :=
  if String.eqb policy RestartPolicyAlways then true
  else if String.eqb policy RestartPolicyOnFailure then negb (Z.eqb exitCode 0)
  else if String.eqb policy "" || String.eqb policy RestartPolicyNever then false
  else true.

Definition containerExitedNonZero (status : ContainerStatus) : bool :=
  bool_decide (cs_State status = ContainerStateFailed)
  || bool_decide (cs_State status = ContainerStateError)
  || negb (Z.eqb (cs_ExitCode status) 0).

Definition nonRootWorkloadDegraded (spec : ContainerSpec) (status : ContainerStatus) : bool :=
  containerExitedNonZero status
  || restartPolicyRequiresRestart (c_RestartPolicy spec) (cs_ExitCode status).

(** ** Lookups *)

Definition hasNonRootContainerSpec (specs : list ContainerSpec) : bool :=
  existsb (fun c => negb (c_Root c)) specs.

Definition findRootContainerSpec (cell : Cell) : option ContainerSpec :=
  match find_first c_Root (csp_Containers (cell_Spec cell)) with
  | Some c => Some c
  | None =>
      if String.eqb (csp_RootContainerID (cell_Spec cell)) "" then None
      else find_first (fun c => String.eqb (c_ID c) (csp_RootContainerID (cell_Spec cell)))
             (csp_Containers (cell_Spec cell))
  end.

(** The loop returns at the first status that carries the root's ID: both arms
    of the switch on its state return, and the switch covers every state. *)
Fixpoint rootContainerStillRunning (rootID : string) (statuses : list ContainerStatus) : bool :=
  match statuses with
  | [] => false
  | s :: rest =>
      if negb (String.eqb (cs_ID s) rootID) then rootContainerStillRunning rootID rest
      else match cs_State s with
           | ContainerStateReady | ContainerStatePending
           | ContainerStatePaused | ContainerStatePausing => true
           | ContainerStateStopped | ContainerStateExited | ContainerStateError
           | ContainerStateFailed | ContainerStateNotCreated
           | ContainerStateUnknown => false
           end
  end.

Fixpoint rootContainerExitedNonZero (rootID : string) (statuses : list ContainerStatus) : bool :=
  match statuses with
  | [] => false
  | s :: rest =>
      if String.eqb (cs_ID s) rootID then containerExitedNonZero s
      else rootContainerExitedNonZero rootID rest
  end.

Definition statusByID (statuses : list ContainerStatus) : gmap string ContainerStatus :=
  index_by cs_ID id statuses.

(** ** Reap gates *)

Definition restartPolicyPermitsCellReap (cell : Cell) : bool :=
  let byID := statusByID (cst_Containers (cell_Status cell)) in
  forallb
    (fun spec =>
       if c_Root spec then true
       else match byID !! c_ID spec with
            | None => true
            | Some status =>
                if negb (containerStateIsTerminal (cs_State status)) then true
                else restartPolicyPermitsContainerReap (c_RestartPolicy spec) (cs_ExitCode status)
            end)
    (csp_Containers (cell_Spec cell)).

Definition shouldWindDownCell (cell : Cell) (newState : CellState) : bool :=
  if negb (cellStateAutoDeleteTriggers newState) || negb (cst_ReadyObserved (cell_Status cell))
  then false
  else if negb (hasNonRootContainerSpec (csp_Containers (cell_Spec cell))) then false
  else match findRootContainerSpec cell with
       | None => false
       | Some rootSpec =>
           rootContainerStillRunning (c_ID rootSpec) (cst_Containers (cell_Status cell))
       end.

(** ** State derivation *)

(** The locals of the derivation loop. *)
Record deriveAcc := {
  da_seen : nat;
  da_anyActive : bool;
  da_anyUnknown : bool;
  da_anyFailed : bool;
  da_anyDegraded : bool
}.

Definition nonRootSpecs (specs : list ContainerSpec) : gmap string ContainerSpec :=
  index_by c_ID id (List.filter (fun c => negb (c_Root c)) specs).

Definition deriveStep (specs : gmap string ContainerSpec) (acc : deriveAcc)
    (status : ContainerStatus) : deriveAcc :=
  match specs !! cs_ID status with
  | None => acc
  | Some spec =>
      let seen := S (da_seen acc) in
      match cs_State status with
      | ContainerStateReady | ContainerStatePending
      | ContainerStatePaused | ContainerStatePausing =>
          Build_deriveAcc seen true (da_anyUnknown acc) (da_anyFailed acc) (da_anyDegraded acc)
      | ContainerStateUnknown =>
          Build_deriveAcc seen (da_anyActive acc) true (da_anyFailed acc) (da_anyDegraded acc)
      | ContainerStateStopped | ContainerStateExited | ContainerStateError
      | ContainerStateFailed | ContainerStateNotCreated =>
          Build_deriveAcc seen (da_anyActive acc) (da_anyUnknown acc)
            (da_anyFailed acc || containerExitedNonZero status)
            (da_anyDegraded acc || nonRootWorkloadDegraded spec status)
      end
  end.

Definition deriveCellStateFromNonRootContainerStatuses
    (specs : list ContainerSpec) (statuses : list ContainerStatus) : CellState :=
  let nrs := nonRootSpecs specs in
  let acc := foldl (deriveStep nrs) (Build_deriveAcc 0 false false false false) statuses in
  if bool_decide (da_seen acc < size nrs)%nat then CellStateUnknown
  else if da_anyActive acc then
    (if da_anyDegraded acc then CellStateDegraded else CellStateReady)
  else if da_anyUnknown acc then CellStateUnknown
  else if da_anyFailed acc then CellStateError
  else CellStateExited.

(** The switch of deriveCellStateFromRootContainer, after GetContainerState. *)
Definition cellStateOfRootState (rootID : string) (statuses : list ContainerStatus)
    (state : ContainerState) : CellState :=
  match state with
  | ContainerStateReady | ContainerStatePending
  | ContainerStatePaused | ContainerStatePausing => CellStateReady
  | ContainerStateStopped | ContainerStateExited | ContainerStateError
  | ContainerStateFailed | ContainerStateNotCreated =>
      if rootContainerExitedNonZero rootID statuses then CellStateError
      else CellStateExited
  | ContainerStateUnknown => CellStateUnknown
  end.

(** ** Failure breadcrumb *)

Definition reasonWorkloadFailed : string := "WorkloadFailed".

Definition formatContainerFailure (s : ContainerStatus) : string :=
  if negb (String.eqb (cs_ExitSignal s) "") then
    "container " +:+ Quote (cs_ID s) +:+ " terminated by " +:+ cs_ExitSignal s
    +:+ " (exit code " +:+ Itoa (cs_ExitCode s) +:+ ")"
  else
    "container " +:+ Quote (cs_ID s) +:+ " exited with code " +:+ Itoa (cs_ExitCode s).

(** The non-root loop of describeCellFailure. *)
Fixpoint describeNonRoot (byID : gmap string ContainerStatus) (specs : list ContainerSpec)
    : string :=
  match specs with
  | [] => ""
  | spec :: rest =>
      if c_Root spec then describeNonRoot byID rest
      else match byID !! c_ID spec with
           | Some s =>
               if containerStateIsTerminal (cs_State s) && containerExitedNonZero s
               then formatContainerFailure s
               else describeNonRoot byID rest
           | None => describeNonRoot byID rest
           end
  end.

Definition describeCellFailure (cell : Cell) : string :=
  let byID := statusByID (cst_Containers (cell_Status cell)) in
  if hasNonRootContainerSpec (csp_Containers (cell_Spec cell)) then
    describeNonRoot byID (csp_Containers (cell_Spec cell))
  else match findRootContainerSpec cell with
       | Some rootSpec =>
           match byID !! c_ID rootSpec with
           | Some s => if containerExitedNonZero s then formatContainerFailure s else ""
           | None => ""
           end
       | None => ""
       end.

Definition cellFailureBreadcrumb (cell : Cell) : string * string :=
  let msg := describeCellFailure cell in
  (reasonWorkloadFailed,
   if String.eqb msg "" then "workload exited with a non-zero status" else msg).

Definition stampCellFailure (cell : Cell) : Cell :=
  let '(reason, msg) := cellFailureBreadcrumb cell in
  upd_status (set_ReasonMessage reason msg) cell.

Definition markCellReady (cell : Cell) : Cell :=
  upd_status (fun s => set_ReasonMessage "" "" (set_ReadyObserved true (set_State CellStateReady s)))
    cell.

(** ** Status comparisons *)

Fixpoint containerStatusesEqual (a b : list ContainerStatus) : bool :=
  match a, b with
  | [], [] => true
  | x :: a', y :: b' =>
      String.eqb (cs_ID x) (cs_ID y) && bool_decide (cs_State x = cs_State y)
      && containerStatusesEqual a' b'
  | _, _ => false
  end.

Definition countContainerStatusChanges (orig next : list ContainerStatus) : nat :=
  let prevByID := index_by cs_ID cs_State orig in
  length (List.filter
    (fun n => match prevByID !! cs_ID n with
              | None => true
              | Some prev => negb (bool_decide (prev = cs_State n))
              end) next).

Definition observedGenerationBehind (status : CellStatus) (generation : Z) : bool :=
  negb (Z.eqb (cst_ObservedGeneration status) generation).

Definition carryCellLifecycle (orig next : CellStatus) : CellStatus :=
  set_ReasonMessage (cst_Reason orig) (cst_Message orig)
    (set_Lifecycle (cst_CreatedAt orig) (cst_UpdatedAt next) (cst_ReadyAt orig) next).

(** ** Theorems

    A snapshot is well formed when it lists one status per container of the
    spec, in the order of the spec, and the container IDs are distinct. *)

Definition Snapshot (specs : list ContainerSpec) (statuses : list ContainerStatus) : Prop :=
  NoDup (c_ID <$> specs) ∧ cs_ID <$> statuses = c_ID <$> specs.

Definition containerStateIsActive (s : ContainerState) : bool :=
  match s with
  | ContainerStateReady | ContainerStatePending
  | ContainerStatePaused | ContainerStatePausing => true
  | _ => false
  end.

(** The workloads of a cell: its non-root containers with their statuses. *)
Definition workloads (specs : list ContainerSpec) (statuses : list ContainerStatus)
    : list (ContainerSpec * ContainerStatus) :=
  List.filter (fun p => negb (c_Root p.1)) (zip specs statuses).

(** What a cell's state should say of its workloads. *)
Definition workloadVerdict (ws : list (ContainerSpec * ContainerStatus)) : CellState :=
  let terminal p := containerStateIsTerminal (cs_State p.2) in
  if existsb (fun p => containerStateIsActive (cs_State p.2)) ws then
    if existsb (fun p => terminal p && nonRootWorkloadDegraded p.1 p.2) ws
    then CellStateDegraded else CellStateReady
  else if forallb terminal ws then
    if existsb (fun p => containerExitedNonZero p.2) ws
    then CellStateError else CellStateExited
  else CellStateUnknown.

Section Derivation.
Context (nrs : gmap string ContainerSpec).

Definition matches (test : ContainerSpec → ContainerStatus → bool) (s : ContainerStatus) : bool :=
  match nrs !! cs_ID s with Some spec => test spec s | None => false end.

Definition test_active (_ : ContainerSpec) (s : ContainerStatus) : bool :=
  containerStateIsActive (cs_State s).
Definition test_unknown (_ : ContainerSpec) (s : ContainerStatus) : bool :=
  bool_decide (cs_State s = ContainerStateUnknown).
Definition test_failed (_ : ContainerSpec) (s : ContainerStatus) : bool :=
  containerStateIsTerminal (cs_State s) && containerExitedNonZero s.
Definition test_degraded (spec : ContainerSpec) (s : ContainerStatus) : bool :=
  containerStateIsTerminal (cs_State s) && nonRootWorkloadDegraded spec s.

(** The loop computes a count and four disjunctions over the matched statuses. *)
Lemma derive_fold acc statuses :
  foldl (deriveStep nrs) acc statuses =
  Build_deriveAcc
    (da_seen acc + length (List.filter (matches (fun _ _ => true)) statuses))
    (da_anyActive acc || existsb (matches test_active) statuses)
    (da_anyUnknown acc || existsb (matches test_unknown) statuses)
    (da_anyFailed acc || existsb (matches test_failed) statuses)
    (da_anyDegraded acc || existsb (matches test_degraded) statuses).
Proof.
  revert acc. induction statuses as [|s l IH]; intros [n a u f d].
  - simpl. by rewrite !orb_false_r, Nat.add_0_r.
  - cbn [foldl List.filter existsb]. rewrite IH.
    assert (M : ∀ t, matches t s = match nrs !! cs_ID s with Some sp => t sp s | None => false end)
      by done.
    rewrite !M. unfold deriveStep. destruct (nrs !! cs_ID s) as [spec|]; [|done].
    unfold test_active at 2, test_unknown at 2, test_failed at 2, test_degraded at 2.
    destruct (cs_State s); simpl; f_equal; try lia;
      rewrite ?orb_true_r, ?orb_false_r, <-?orb_assoc; done.
Qed.

End Derivation.

Lemma snapshot_length specs statuses :
  Snapshot specs statuses → length specs = length statuses.
Proof. intros [_ H]. apply (f_equal length) in H. by rewrite !length_fmap in H. Qed.

Lemma snapshot_lookup specs statuses spec s :
  Snapshot specs statuses → (spec, s) ∈ zip specs statuses →
  nonRootSpecs specs !! cs_ID s = if c_Root spec then None else Some spec.
Proof.
  intros [Hnd Hids] Hin.
  destruct (elem_of_zip_keys _ _ _ _ _ _ Hids Hin) as (E & Hs & _). rewrite E.
  destruct (c_Root spec) eqn:R.
  - apply index_by_lookup_None. intros x [Hx Hr]%filter_elem Ex.
    rewrite (NoDup_key_inj _ _ _ _ Hnd Hx Hs Ex), R in Hr. done.
  - apply (index_by_NoDup c_ID id); [by apply NoDup_fmap_filter|].
    apply filter_elem. by rewrite R.
Qed.

Lemma matches_existsb specs statuses test :
  Snapshot specs statuses →
  existsb (matches (nonRootSpecs specs) test) statuses =
  existsb (fun p => test p.1 p.2) (workloads specs statuses).
Proof.
  intros HS. unfold workloads.
  rewrite existsb_filter, (existsb_zip_r _ specs) by (by apply snapshot_length).
  apply existsb_ext_elem. intros [spec s] Hin. unfold matches. simpl.
  rewrite (snapshot_lookup _ _ _ _ HS Hin). by destruct (c_Root spec).
Qed.

Lemma matches_count specs statuses :
  Snapshot specs statuses →
  length (List.filter (matches (nonRootSpecs specs) (fun _ _ => true)) statuses)
  = size (nonRootSpecs specs).
Proof.
  intros HS. pose proof (snapshot_length _ _ HS) as HL. unfold nonRootSpecs at 2.
  rewrite index_by_size by (apply NoDup_fmap_filter, HS).
  rewrite (filter_length_zip_r _ specs), (filter_length_zip_l _ specs statuses) by done.
  apply filter_length_ext. intros [spec s] Hin. unfold matches. simpl.
  rewrite (snapshot_lookup _ _ _ _ HS Hin). by destruct (c_Root spec).
Qed.

Lemma state_trichotomy s :
  containerStateIsActive s = false → bool_decide (s = ContainerStateUnknown) = false →
  containerStateIsTerminal s = true.
Proof. by destruct s. Qed.

Lemma terminal_not_unknown s :
  containerStateIsTerminal s = true → bool_decide (s = ContainerStateUnknown) = false.
Proof. by destruct s. Qed.

(** The derivation loop against the declarative verdict. *)
Lemma derive_verdict specs statuses :
  Snapshot specs statuses →
  deriveCellStateFromNonRootContainerStatuses specs statuses
  = workloadVerdict (workloads specs statuses).
Proof.
  intros HS. unfold deriveCellStateFromNonRootContainerStatuses, workloadVerdict.
  rewrite derive_fold. simpl. rewrite matches_count, !matches_existsb by done.
  rewrite bool_decide_eq_false_2 by lia.
  destruct (existsb _ _) eqn:A; [done|].
  setoid_rewrite existsb_false_elem in A. unfold test_active in A.
  destruct (existsb (fun p => test_unknown p.1 p.2) _) eqn:U.
  - apply existsb_elem in U as (p & Hp & U). unfold test_unknown in U.
    destruct (forallb _ _) eqn:F; [|done]. rewrite forallb_elem in F.
    by rewrite (terminal_not_unknown _ (F _ Hp)) in U.
  - rewrite existsb_false_elem in U.
    assert (T : ∀ p, p ∈ workloads specs statuses → containerStateIsTerminal (cs_State p.2) = true).
    { intros p Hp. exact (state_trichotomy _ (A p Hp) (U p Hp)). }
    rewrite (proj2 (forallb_elem _ _) T).
    rewrite (existsb_ext_elem _ (fun p => containerExitedNonZero p.2)); [done|].
    intros p Hp. unfold test_failed. by rewrite (T p Hp).
Qed.

(** C39: For every well-formed snapshot the single-pass derivation of the cell's
    state agrees with the declarative verdict on the workloads: Degraded or Ready
    when some non-root container is active (Degraded exactly when another one is
    down in a non-clean way), Error or Exited when every one is terminal (Error
    exactly when one failed), Unknown otherwise. *)
Theorem derive_matches_verdict specs statuses :
  Snapshot specs statuses →
  deriveCellStateFromNonRootContainerStatuses specs statuses
  = workloadVerdict (workloads specs statuses).
Proof. apply derive_verdict. Qed.

Lemma derive_matches_verdict_witness :
  let specs := [sample_container "root" true ""; sample_container "web" false "always";
                sample_container "job" false "never"] in
  let statuses := [sample_status "root" ContainerStateReady 0;
                   sample_status "web" ContainerStateReady 0;
                   sample_status "job" ContainerStateError 3] in
  Snapshot specs statuses ∧
  deriveCellStateFromNonRootContainerStatuses specs statuses
    = workloadVerdict (workloads specs statuses) ∧
  deriveCellStateFromNonRootContainerStatuses specs statuses = CellStateDegraded.
Proof.
  intros specs statuses.
  assert (H : Snapshot specs statuses).
  { split; [|reflexivity]. repeat constructor; set_solver. }
  split; [exact H|]. split; [exact (derive_matches_verdict specs statuses H)|reflexivity].
Defined.

(** Whatever the specs and the snapshot are, well formed or not, derivation
    never yields Stopped, Pending or Failed: those labels belong to the operator
    verbs, to creation and to bring-up faults. *)
Theorem derive_never_operator_labels specs statuses rootID rootState :
  deriveCellStateFromNonRootContainerStatuses specs statuses
    ∉ [CellStateStopped; CellStatePending; CellStateFailed] ∧
  cellStateOfRootState rootID statuses rootState
    ∉ [CellStateStopped; CellStatePending; CellStateFailed].
Proof.
  split.
  - unfold deriveCellStateFromNonRootContainerStatuses. rewrite derive_fold. simpl.
    repeat case_match; set_solver.
  - destruct rootState; simpl; try set_solver;
      destruct (rootContainerExitedNonZero _ _); set_solver.
Qed.

Lemma snapshot_status specs statuses spec s :
  Snapshot specs statuses → (spec, s) ∈ zip specs statuses →
  statusByID statuses !! c_ID spec = Some s.
Proof.
  intros [Hnd Hids] Hin.
  destruct (elem_of_zip_keys _ _ _ _ _ _ Hids Hin) as (<- & _ & Hs).
  apply (index_by_NoDup cs_ID id); [by rewrite Hids|done].
Qed.

(** The first failing workload of the spec order, when one fails. *)
Lemma describeNonRoot_finds byID specs spec s :
  spec ∈ specs → c_Root spec = false → byID !! c_ID spec = Some s →
  containerStateIsTerminal (cs_State s) = true → containerExitedNonZero s = true →
  ∃ spec' s', spec' ∈ specs ∧ c_Root spec' = false ∧ byID !! c_ID spec' = Some s' ∧
    containerExitedNonZero s' = true ∧ describeNonRoot byID specs = formatContainerFailure s'.
Proof.
  intros Hin Hr Hs Ht Hz. induction specs as [|x specs IH]; [set_solver|].
  assert (Hrest : spec ∈ specs → ∃ spec' s', spec' ∈ x :: specs ∧ c_Root spec' = false ∧
    byID !! c_ID spec' = Some s' ∧ containerExitedNonZero s' = true ∧
    describeNonRoot byID specs = formatContainerFailure s').
  { intros H. destruct (IH H) as (sp & s' & ? & ?). exists sp, s'. set_solver. }
  apply elem_of_cons in Hin as [<-|Hin].
  - exists spec, s. simpl. rewrite Hr, Hs, Ht, Hz. set_solver.
  - simpl. destruct (c_Root x) eqn:Rx; [auto|].
    destruct (byID !! c_ID x) as [sx|] eqn:Ex; [|auto].
    destruct (containerStateIsTerminal _ && _) eqn:Hb; [|auto].
    apply andb_true_iff in Hb as [_ Hb]. exists x, sx. set_solver.
Qed.

Lemma formatContainerFailure_nonempty s : formatContainerFailure s ≠ "".
Proof. unfold formatContainerFailure. by case_match. Qed.

(** When derivation reports Error for a cell with workloads, the breadcrumb
    that is stamped carries the WorkloadFailed reason and names a non-root
    container of the spec whose recorded exit is a failure, never the generic
    fallback text. *)
Theorem error_breadcrumb_names_failing_workload cell :
  Snapshot (csp_Containers (cell_Spec cell)) (cst_Containers (cell_Status cell)) →
  hasNonRootContainerSpec (csp_Containers (cell_Spec cell)) = true →
  deriveCellStateFromNonRootContainerStatuses
    (csp_Containers (cell_Spec cell)) (cst_Containers (cell_Status cell)) = CellStateError →
  ∃ spec s, spec ∈ csp_Containers (cell_Spec cell) ∧ c_Root spec = false ∧
    statusByID (cst_Containers (cell_Status cell)) !! c_ID spec = Some s ∧
    containerExitedNonZero s = true ∧
    cst_Reason (cell_Status (stampCellFailure cell)) = reasonWorkloadFailed ∧
    cst_Message (cell_Status (stampCellFailure cell)) = formatContainerFailure s.
Proof.
  intros HS Hnr. unfold deriveCellStateFromNonRootContainerStatuses.
  rewrite derive_fold. simpl. rewrite !matches_existsb by done. intros D.
  assert (F : existsb (fun p => test_failed p.1 p.2)
    (workloads (csp_Containers (cell_Spec cell)) (cst_Containers (cell_Status cell))) = true)
    by (repeat case_match; done).
  apply existsb_elem in F as ([spec s] & [Hin Hr]%filter_elem & Hf).
  apply andb_true_iff in Hf as [Ht Hz]. apply negb_true_iff in Hr.
  destruct (elem_of_zip_keys _ _ _ _ _ _ (proj2 HS) Hin) as (_ & Hspec & _).
  destruct (describeNonRoot_finds (statusByID (cst_Containers (cell_Status cell)))
    _ spec s Hspec Hr (snapshot_status _ _ _ _ HS Hin) Ht Hz)
    as (sp & st & ? & ? & ? & ? & Hd).
  exists sp, st. unfold stampCellFailure, cellFailureBreadcrumb, describeCellFailure.
  rewrite Hnr, Hd. rewrite (proj2 (String.eqb_neq _ _) (formatContainerFailure_nonempty st)).
  by destruct cell as [? ? []].
Qed.

Lemma error_breadcrumb_names_failing_workload_witness :
  let cell := sample_cell true CellStateReady
    [sample_container "root" true ""; sample_container "job" false ""]
    [sample_status "root" ContainerStateReady 0; sample_status "job" ContainerStateError 137] in
  ∃ s, containerExitedNonZero s = true ∧
    cst_Message (cell_Status (stampCellFailure cell)) = formatContainerFailure s.
Proof.
  intros cell.
  assert (HS : Snapshot (csp_Containers (cell_Spec cell)) (cst_Containers (cell_Status cell))).
  { split; [|reflexivity]. repeat constructor; set_solver. }
  destruct (error_breadcrumb_names_failing_workload cell HS eq_refl eq_refl)
    as (_ & s & _ & _ & _ & H & _ & E). exists s. split; assumption.
Defined.
