(* ===== verification/Sha256.v ===== *)
(** * Sha256: the digest functions of the Go standard library the source uses

    crypto/sha256, encoding/hex and hash/fnv as executable functions on byte
    strings.  A 32-bit word is a [Z] in [0, 2^32). *)

From Stdlib Require Import ZArith String.
From stdpp Require Import base strings list.
From S2P Require Import Prelude.

Local Open Scope Z_scope.

Definition bytes_of_string (s : string) : list Z :=
  (fun c => Z.of_nat (Ascii.nat_of_ascii c)) <$> list_ascii_of_string s.

Definition w32 (x : Z) : Z := Z.land x 4294967295.
Definition rotr (n x : Z) : Z := Z.lor (Z.shiftr x n) (w32 (Z.shiftl x (32 - n))).
Definition not32 (x : Z) : Z := Z.lxor x 4294967295.

(** The constants of FIPS 180-4: the first 32 bits of the fractional parts of the
    cube roots (round constants) and of the square roots (initial hash) of the
    first primes, by integer roots. *)
Fixpoint cube_root (bits : nat) (acc n : Z) : Z :=
  match bits with
  | O => acc
  | S b => let t := acc + Z.shiftl 1 (Z.of_nat b) in
           cube_root b (if t * t * t <=? n then t else acc) n
  end.

Definition is_prime (n : Z) : bool :=
  forallb (fun d => negb (Z.eqb (n mod d) 0)) (seqZ 2 (n - 2)).
Definition primes_to (n : Z) : list Z := List.filter is_prime (seqZ 2 (n - 1)).

Definition round_constants : list Z :=
  Eval vm_compute in (fun p => w32 (cube_root 40 0 (Z.shiftl p 96))) <$> primes_to 311.
Definition initial_hash : list Z :=
  Eval vm_compute in (fun p => w32 (Z.sqrt (Z.shiftl p 64))) <$> primes_to 19.

(** n big-endian bytes of x *)
Fixpoint be_bytes (n : nat) (x : Z) : list Z :=
  match n with
  | O => []
  | S n' => Z.land (Z.shiftr x (8 * Z.of_nat n')) 255 :: be_bytes n' x
  end.

Definition be_word (l : list Z) : Z := foldl (fun acc b => Z.lor (Z.shiftl acc 8) b) 0 l.

Definition pad (msg : list Z) : list Z :=
  let n := Z.of_nat (length msg) in
  msg ++ [128] ++ replicate (Z.to_nat ((55 - n) mod 64)) 0 ++ be_bytes 8 (8 * n).

Fixpoint chunks {A} (fuel n : nat) (l : list A) : list (list A) :=
  match fuel, l with
  | O, _ | _, [] => []
  | S f, _ => take n l :: chunks f n (drop n l)
  end.

(** The message schedule, most recent word first. *)
Fixpoint schedule (n : nat) (ws : list Z) : list Z :=
  match n with
  | O => ws
  | S n' =>
      let w i := default 0 (ws !! i) in
      let w15 := w 14%nat in
      let w2 := w 1%nat in
      let s0 := Z.lxor (rotr 7 w15) (Z.lxor (rotr 18 w15) (Z.shiftr w15 3)) in
      let s1 := Z.lxor (rotr 17 w2) (Z.lxor (rotr 19 w2) (Z.shiftr w2 10)) in
      schedule n' (w32 (w 15%nat + s0 + w 6%nat + s1) :: ws)
  end.

Definition round (hs : list Z) (kw : Z * Z) : list Z :=
  match hs with
  | [a; b; c; d; e; f; g; h] =>
      let s1 := Z.lxor (rotr 6 e) (Z.lxor (rotr 11 e) (rotr 25 e)) in
      let ch := Z.lxor (Z.land e f) (Z.land (not32 e) g) in
      let t1 := w32 (h + s1 + ch + kw.1 + kw.2) in
      let s0 := Z.lxor (rotr 2 a) (Z.lxor (rotr 13 a) (rotr 22 a)) in
      let maj := Z.lxor (Z.land a b) (Z.lxor (Z.land a c) (Z.land b c)) in
      [w32 (t1 + w32 (s0 + maj)); a; b; c; w32 (d + t1); e; f; g]
  | _ => hs
  end.

Definition compress (hs : list Z) (block : list Z) : list Z :=
  let ws := rev (schedule 48 (rev (be_word <$> chunks 16 4 block))) in
  zip_with (fun x y => w32 (x + y)) hs (foldl round hs (zip round_constants ws)).

(** sha256.Sum256 *)
Definition sha256 (msg : list Z) : list Z :=
  let m := pad msg in
  foldl compress initial_hash (chunks (length m) 64 m) ≫= be_bytes 4.

Definition hex_digit (d : Z) : Ascii.ascii :=
  Ascii.ascii_of_nat (Z.to_nat (if d <? 10 then 48 + d else 87 + d)).

(** hex.EncodeToString *)
Fixpoint hex_encode (l : list Z) : string :=
  match l with
  | [] => ""
  | b :: l' => String (hex_digit (Z.shiftr b 4)) (String (hex_digit (Z.land b 15)) (hex_encode l'))
  end.

Definition sha256_hex (s : string) : string := hex_encode (sha256 (bytes_of_string s)).

Example sha256_abc :
  sha256_hex "abc" = "ba7816bf8f01cfea414140de5dae2223b00361a396177a9cb410ff61f20015ad".
Proof. vm_compute. reflexivity. Qed.

Example sha256_empty :
  sha256_hex "" = "e3b0c44298fc1c149afbf4c8996fb92427ae41e4649b934ca495991b7852b855".
Proof. vm_compute. reflexivity. Qed.

(** Two blocks: the padding spills into a second block. *)
Example sha256_two_blocks :
  sha256_hex "abcdbcdecdefdefgefghfghighijhijkijkljklmklmnlmnomnopnopq"
  = "248d6a61d20638b8e5c026930c3e6039a33ce45964ff2167f6ecedd419db06c1".
Proof. vm_compute. reflexivity. Qed.

(** hash/fnv New32a: 32-bit FNV-1a *)
Definition fnv1a32 (msg : list Z) : Z :=
  foldl (fun h b => w32 (Z.lxor h b * 16777619)) 2166136261 msg.

Example fnv1a32_a : fnv1a32 (bytes_of_string "a") = 0xe40c292c.
Proof. reflexivity. Qed.

(** *** Length of a hexadecimal digest *)

Lemma hex_encode_length l : String.length (hex_encode l) = (2 * length l)%nat.
Proof. induction l as [|b l IH]; [done|]. simpl. rewrite IH. lia. Qed.

(** *** A digest has 32 bytes *)

Lemma round_length hs kw : length hs = 8%nat → length (round hs kw) = 8%nat.
Proof. intros H. do 8 (destruct hs as [|? hs]; [done|]). by destruct hs. Qed.

Lemma foldl_length_inv {A B} (f : list A → B → list A) n l bs :
  (∀ l b, length l = n → length (f l b) = n) → length l = n → length (foldl f l bs) = n.
Proof. intros Hf. revert l. induction bs as [|b bs IH]; simpl; auto. Qed.

(** The schedule only needs to have as many words as there are rounds. *)
Lemma compress_length hs m : length hs = 8%nat → length (compress hs m) = 8%nat.
Proof.
  intros H. unfold compress. rewrite length_zip_with, H, foldl_length_inv with (n := 8%nat);
    auto using round_length.
Qed.

Lemma be_bytes_length n x : length (be_bytes n x) = n.
Proof. induction n as [|n IH]; [done|]. simpl. by rewrite IH. Qed.

Lemma sha256_length m : length (sha256 m) = 32%nat.
Proof.
  assert (Hb : ∀ l : list Z, length (l ≫= be_bytes 4) = (4 * length l)%nat).
  { induction l as [|x l IH]; [done|]. rewrite bind_cons, length_app, be_bytes_length, IH.
    simpl. lia. }
  unfold sha256. rewrite Hb, foldl_length_inv with (n := 8%nat); auto using compress_length.
Qed.
