(* ===== verification/Naming.v ===== *)
(** * Naming: identifiers derived from the resource hierarchy

    internal/util/naming (validation, containerd IDs, network names, generated
    cell names), the per-cell lock key of internal/controller/runner/cell_lock.go,
    the socket symlink name of internal/util/fs/metadata.go and the bridge name
    of internal/cni/config.go. *)

From Stdlib Require Import ZArith String.
From stdpp Require Import base gmap strings list.
From S2P Require Import Prelude Model Sha256.

Definition underscore : Ascii.ascii := Ascii.ascii_of_nat 95.
Definition NUL : Ascii.ascii := Ascii.ascii_of_nat 0.

(** ** Validation *)

(** strings.ContainsAny(s, "_/") *)
Definition containsDisallowed (s : string) : bool :=
  negb (avoids underscore s) || negb (avoids slash s).

Definition ValidateHierarchyName (kind name : string) : option error :=
  if String.eqb (TrimSpace kind) "" then Some (EOpaque "hierarchy kind is required")
  else
    let trimmed := TrimSpace name in
    if String.eqb trimmed "" then
      Some (EWrap "%w: %s name is required" [ESentinel ErrInvalidName])
    else if containsDisallowed trimmed then
      Some (EWrap "%w: %s name %q contains disallowed character (must not contain '_' or '/')"
              [ESentinel ErrInvalidName])
    else None.

Definition ValidateRealmName (name : string) : option error :=
  let trimmed := TrimSpace name in
  if String.eqb trimmed "" then Some (ESentinel ErrRealmNameRequired)
  else if containsDisallowed trimmed then
    Some (EWrap "%w: %q contains disallowed character (must not contain '_' or '/')"
            [ESentinel ErrInvalidRealmName])
  else None.

(** ** Derived identifiers *)

Definition BuildSpaceNetworkName (realmName spaceName : string) : result string :=
  let spaceName := TrimSpace spaceName in
  if String.eqb spaceName "" then Err (ESentinel ErrSpaceNameRequired)
  else
    let realmName := TrimSpace realmName in
    if String.eqb realmName "" then Err (ESentinel ErrRealmNameRequired)
    else Ok (realmName +:+ "-" +:+ spaceName).

Definition BuildRootContainerdID (spaceName stackName cellName : string) : result string :=
  let spaceName := TrimSpace spaceName in
  let stackName := TrimSpace stackName in
  let cellName := TrimSpace cellName in
  if String.eqb spaceName "" then Err (EOpaque "space name cannot be empty")
  else if String.eqb stackName "" then Err (EOpaque "stack name cannot be empty")
  else if String.eqb cellName "" then Err (EOpaque "cell name cannot be empty")
  else Ok (spaceName +:+ "_" +:+ stackName +:+ "_" +:+ cellName +:+ "_root").

Definition BuildContainerdID (spaceName stackName cellName containerName : string)
    : result string :=
  let spaceName := TrimSpace spaceName in
  let stackName := TrimSpace stackName in
  let cellName := TrimSpace cellName in
  let containerName := TrimSpace containerName in
  if String.eqb spaceName "" then Err (EOpaque "space name cannot be empty")
  else if String.eqb stackName "" then Err (EOpaque "stack name cannot be empty")
  else if String.eqb cellName "" then Err (EOpaque "cell name cannot be empty")
  else if String.eqb containerName "" then Err (EOpaque "container name cannot be empty")
  else Ok (spaceName +:+ "_" +:+ stackName +:+ "_" +:+ cellName +:+ "_" +:+ containerName).

Definition cellLockKey (cell : Cell) : string :=
  Join (String NUL EmptyString)
    [TrimSpace (csp_RealmName (cell_Spec cell)); TrimSpace (csp_SpaceName (cell_Spec cell));
     TrimSpace (csp_StackName (cell_Spec cell)); TrimSpace (cm_Name (cell_Metadata cell))].

(** (digest[:8] hex-encoded) *)
Definition containerSocketShortID
    (realmName spaceName stackName cellName containerName : string) : string :=
  hex_encode (take 8 (sha256 (bytes_of_string
    (realmName +:+ "_" +:+ spaceName +:+ "_" +:+ stackName +:+ "_" +:+ cellName
     +:+ "_" +:+ containerName)))).

Definition KukeonSocketSymlinkSubdir : string := "s".

(** filepath.Join on a base that is already a clean path. *)
Definition ContainerSocketSymlinkPath
    (baseRunPath realmName spaceName stackName cellName containerName : string) : string :=
  baseRunPath +:+ "/" +:+ KukeonSocketSymlinkSubdir +:+ "/"
  +:+ containerSocketShortID realmName spaceName stackName cellName containerName.

Definition hashBridgeName (sum : Z) : string := "k-" +:+ hex_encode (be_bytes 4 sum).

Definition SafeBridgeName (name : string) : string :=
  if String.eqb name "" then "" else hashBridgeName (fnv1a32 (bytes_of_string name)).

(** ** Generated cell names *)

Definition MaxCellNameAllocAttempts : nat := 64.
Definition DefaultCellNameSuffixBytes : nat := 3.

Section AllocCellName.
(** The state behind crypto/rand and behind the caller's probe. *)
Context {W : Type}.
Context (rand_Read : nat → st W (result (list Z))).

Definition RandomHexSuffix (n : nat) : st W (result string) :=
  let! b := rand_Read n in
  st_ret (match b with Ok bytes => Ok (hex_encode bytes) | Err e => Err e end).

Definition GenerateCellName (prefix : string) : st W (result string) :=
  let! suffix := RandomHexSuffix DefaultCellNameSuffixBytes in
  st_ret (match suffix with
          | Ok s => Ok (TrimSpace prefix +:+ "-" +:+ s)
          | Err e => Err (EWrap "generate cell-name suffix for prefix %q: %w" [e])
          end).

Fixpoint allocLoop (attempts : nat) (prefix : string)
    (exists_ : option (string → st W (result bool))) : st W (result string) :=
  match attempts with
  | O => st_ret (Err (EOpaque "could not allocate a free cell name: persistent suffix collision"))
  | S n =>
      let! candidate := GenerateCellName prefix in
      match candidate with
      | Err e => st_ret (Err e)
      | Ok c =>
          match exists_ with
          | None => st_ret (Ok c)
          | Some probe =>
              let! taken := probe c in
              match taken with
              | Err e => st_ret (Err e)
              | Ok false => st_ret (Ok c)
              | Ok true => allocLoop n prefix exists_
              end
          end
      end
  end.

Definition AllocCellName (explicit prefix : string)
    (exists_ : option (string → st W (result bool))) : st W (result string) :=
  let e := TrimSpace explicit in
  if negb (String.eqb e "") then st_ret (Ok e)
  else allocLoop MaxCellNameAllocAttempts prefix exists_.

End AllocCellName.

(** ** Theorems *)

Definition ValidName (name : string) : Prop :=
  TrimSpace name ≠ "" ∧ avoids underscore (TrimSpace name) = true ∧
  avoids slash (TrimSpace name) = true.

Lemma ValidateHierarchyName_ok kind name :
  ValidateHierarchyName kind name = None → ValidName name.
Proof.
  unfold ValidateHierarchyName, containsDisallowed, ValidName.
  destruct (String.eqb (TrimSpace kind) ""); [done|].
  destruct (String.eqb_spec (TrimSpace name) ""); [done|].
  destruct (avoids underscore _), (avoids slash _); done.
Qed.

(** The "_"-separated join is injective on names without "_". *)
Lemma underscore_join4 a1 b1 c1 d1 a2 b2 c2 d2 :
  avoids underscore a1 = true → avoids underscore a2 = true →
  avoids underscore b1 = true → avoids underscore b2 = true →
  avoids underscore c1 = true → avoids underscore c2 = true →
  a1 +:+ "_" +:+ b1 +:+ "_" +:+ c1 +:+ "_" +:+ d1 =
  a2 +:+ "_" +:+ b2 +:+ "_" +:+ c2 +:+ "_" +:+ d2 →
  a1 = a2 ∧ b1 = b2 ∧ c1 = c2 ∧ d1 = d2.
Proof.
  intros Ha1 Ha2 Hb1 Hb2 Hc1 Hc2 E.
  apply avoids_split in E as [-> E]; [|done..].
  apply avoids_split in E as [-> E]; [|done..].
  apply avoids_split in E as [-> E]; [|done..]. done.
Qed.

Lemma BuildContainerdID_valid s t c n :
  ValidName s → ValidName t → ValidName c → ValidName n →
  BuildContainerdID s t c n =
  Ok (TrimSpace s +:+ "_" +:+ TrimSpace t +:+ "_" +:+ TrimSpace c +:+ "_" +:+ TrimSpace n).
Proof.
  intros [Hs _] [Ht _] [Hc _] [Hn _]. unfold BuildContainerdID.
  by rewrite !(proj2 (String.eqb_neq _ _)).
Qed.

Lemma BuildRootContainerdID_valid s t c :
  ValidName s → ValidName t → ValidName c →
  BuildRootContainerdID s t c =
  Ok (TrimSpace s +:+ "_" +:+ TrimSpace t +:+ "_" +:+ TrimSpace c +:+ "_" +:+ "root").
Proof.
  intros [Hs _] [Ht _] [Hc _]. unfold BuildRootContainerdID.
  by rewrite !(proj2 (String.eqb_neq _ _)).
Qed.

(** The containerd ID of a container determines its place in the hierarchy:
    for validated names two containers have the same ID only when their space,
    stack, cell and container names agree (up to surrounding blanks), and a
    non-root container shares the ID of its cell's root container exactly when it
    is itself called root. *)
Theorem containerd_id_injective s1 t1 c1 n1 s2 t2 c2 n2 :
  ValidateHierarchyName "space" s1 = None → ValidateHierarchyName "space" s2 = None →
  ValidateHierarchyName "stack" t1 = None → ValidateHierarchyName "stack" t2 = None →
  ValidateHierarchyName "cell" c1 = None → ValidateHierarchyName "cell" c2 = None →
  ValidateHierarchyName "container" n1 = None → ValidateHierarchyName "container" n2 = None →
  (BuildContainerdID s1 t1 c1 n1 = BuildContainerdID s2 t2 c2 n2 ↔
   TrimSpace s1 = TrimSpace s2 ∧ TrimSpace t1 = TrimSpace t2 ∧
   TrimSpace c1 = TrimSpace c2 ∧ TrimSpace n1 = TrimSpace n2) ∧
  (BuildContainerdID s1 t1 c1 n1 = BuildRootContainerdID s2 t2 c2 ↔
   TrimSpace s1 = TrimSpace s2 ∧ TrimSpace t1 = TrimSpace t2 ∧
   TrimSpace c1 = TrimSpace c2 ∧ TrimSpace n1 = "root").
Proof.
  intros Hs1%ValidateHierarchyName_ok Hs2%ValidateHierarchyName_ok
    Ht1%ValidateHierarchyName_ok Ht2%ValidateHierarchyName_ok
    Hc1%ValidateHierarchyName_ok Hc2%ValidateHierarchyName_ok
    Hn1%ValidateHierarchyName_ok Hn2%ValidateHierarchyName_ok.
  rewrite !BuildContainerdID_valid, BuildRootContainerdID_valid by done.
  destruct Hs1 as (_ & ? & _), Hs2 as (_ & ? & _), Ht1 as (_ & ? & _), Ht2 as (_ & ? & _),
    Hc1 as (_ & ? & _), Hc2 as (_ & ? & _).
  split; (split; [intros [= E]; by apply underscore_join4 in E|by intros (-> & -> & -> & ->)]).
Qed.

Lemma containerd_id_injective_witness :
  BuildContainerdID "default" "app" "web" "nginx" ≠ BuildContainerdID "default" "app" "web" "db".
Proof.
  intros E.
  assert (H := proj1 (proj1 (containerd_id_injective "default" "app" "web" "nginx"
    "default" "app" "web" "db" eq_refl eq_refl eq_refl eq_refl eq_refl eq_refl eq_refl eq_refl)) E).
  destruct H as (_ & _ & _ & H). discriminate H.
Defined.

(** Two different spaces with valid names in different realms get the same
    CNI network name, and so the same bridge name: "-" separates realm from space
    and may occur in both. *)
Theorem space_network_name_collision :
  ValidateRealmName "a-b" = None ∧ ValidateHierarchyName "space" "c" = None ∧
  ValidateRealmName "a" = None ∧ ValidateHierarchyName "space" "b-c" = None ∧
  BuildSpaceNetworkName "a-b" "c" = BuildSpaceNetworkName "a" "b-c".
Proof. by repeat split. Qed.

(** Joining four fields with NUL is injective on fields without NUL. *)
Lemma cellLockKey_unfold cell :
  cellLockKey cell =
  TrimSpace (csp_RealmName (cell_Spec cell)) +:+ String NUL
    (TrimSpace (csp_SpaceName (cell_Spec cell)) +:+ String NUL
      (TrimSpace (csp_StackName (cell_Spec cell)) +:+ String NUL
        (TrimSpace (cm_Name (cell_Metadata cell))))).
Proof. done. Qed.

(** The identity the lock key is derived from. *)
Definition cellIdentity (cell : Cell) : string * string * string * string :=
  (TrimSpace (csp_RealmName (cell_Spec cell)), TrimSpace (csp_SpaceName (cell_Spec cell)),
   TrimSpace (csp_StackName (cell_Spec cell)), TrimSpace (cm_Name (cell_Metadata cell))).

Definition NulFree (cell : Cell) : Prop :=
  avoids NUL (TrimSpace (csp_RealmName (cell_Spec cell))) = true ∧
  avoids NUL (TrimSpace (csp_SpaceName (cell_Spec cell))) = true ∧
  avoids NUL (TrimSpace (csp_StackName (cell_Spec cell))) = true.

Lemma cellLockKey_inj c1 c2 :
  NulFree c1 → NulFree c2 → cellLockKey c1 = cellLockKey c2 → cellIdentity c1 = cellIdentity c2.
Proof.
  intros (? & ? & ?) (? & ? & ?). rewrite !cellLockKey_unfold. intros E.
  apply avoids_split in E as [E1 E]; [|done..].
  apply avoids_split in E as [E2 E]; [|done..].
  apply avoids_split in E as [E3 E]; [|done..].
  unfold cellIdentity. congruence.
Qed.

(** A NUL byte passes name validation, so two different validated cells can
    share one lifecycle lock key, contrary to what the comment on cellLockKey
    says of the separator; without a NUL the key determines the identity. *)
Theorem cell_lock_key_separator :
  (∀ c1 c2, NulFree c1 → NulFree c2 →
     cellLockKey c1 = cellLockKey c2 → cellIdentity c1 = cellIdentity c2) ∧
  let aNULb := "a" +:+ String NUL "b" in
  let bNULc := "b" +:+ String NUL "c" in
  ValidateHierarchyName "space" aNULb = None ∧ ValidateHierarchyName "stack" bNULc = None ∧
  cellLockKey (cell_named "r" aNULb "c" "web") = cellLockKey (cell_named "r" "a" bNULc "web") ∧
  cellIdentity (cell_named "r" aNULb "c" "web") ≠ cellIdentity (cell_named "r" "a" bNULc "web").
Proof. split; [exact cellLockKey_inj|]. by repeat split. Qed.

(** Bridge names fit the kernel's interface-name limit: ten characters for
    every non-empty network name. *)
Theorem bridge_name_length name :
  String.length (SafeBridgeName name) = if String.eqb name "" then 0%nat else 10%nat.
Proof.
  unfold SafeBridgeName, hashBridgeName. destruct (String.eqb name ""); [done|].
  pose proof (hex_encode_length (be_bytes 4 (fnv1a32 (bytes_of_string name)))) as H.
  exact (f_equal (fun n => S (S n)) H).
Qed.

Lemma allocLoop_probed {W} (rand : nat → st W (result (list Z)))
    (probe : string → st W (result bool)) n prefix w w' name :
  allocLoop rand n prefix (Some probe) w = (w', Ok name) →
  ∃ w0 suffix, name = TrimSpace prefix +:+ "-" +:+ suffix ∧ probe name w0 = (w', Ok false).
Proof.
  revert w. induction n as [|n IH]; intros w; simpl;
    unfold GenerateCellName, RandomHexSuffix, st_bind, st_ret; [intros; simplify_eq|].
  destruct (rand _ w) as [w1 [bytes|e]]; [|intros; simplify_eq].
  destruct (probe _ w1) as [w2 [[]|e]] eqn:P; intros E.
  - by apply (IH w2).
  - injection E as -> <-. eauto.
  - simplify_eq.
Qed.

(** A generated cell name passed the caller's collision probe: whatever the
    random source and the probe do, a name returned without an explicit request
    carries the trimmed prefix and was reported free by the last probe call. *)
Theorem generated_name_was_probed_free {W} (rand : nat → st W (result (list Z)))
    (probe : string → st W (result bool)) explicit prefix w w' name :
  TrimSpace explicit = "" →
  AllocCellName rand explicit prefix (Some probe) w = (w', Ok name) →
  ∃ w0 suffix, name = TrimSpace prefix +:+ "-" +:+ suffix ∧ probe name w0 = (w', Ok false).
Proof. intros He. unfold AllocCellName. rewrite He. apply allocLoop_probed. Qed.

Definition sample_rand : nat → st (list Z) (result (list Z)) :=
  fun n s => (drop n s, Ok (take n s)).
Definition sample_probe : string → st (list Z) (result bool) :=
  fun name s => (s, Ok (String.eqb name "web-000000")).

Lemma generated_name_was_probed_free_witness :
  ∃ w0 suffix, "web-0a0b0c" = TrimSpace " web" +:+ "-" +:+ suffix ∧
    sample_probe "web-0a0b0c" w0 = ([], Ok false).
Proof.
  apply (generated_name_was_probed_free sample_rand sample_probe " " " web"
           [0; 0; 0; 10; 11; 12]%Z [] "web-0a0b0c"); vm_compute; reflexivity.
Defined.
