(* ===== verification/Template.v ===== *)
(** * Parameter templates (internal/cellblueprint/params.go and percell.go)

    A blueprint's scalars may hold [${KEY}] references.  This file models the
    reference syntax, the substitution over the YAML node tree, the parsers of
    --param and --param-file, and the later expansion of [${CELL_NAME}] in volume
    mounts. *)

From Stdlib Require Import Ascii.
From stdpp Require Import base gmap strings list.
From S2P Require Import Prelude External.

Local Open Scope nat_scope.

(** ** The reference syntax *)

Definition char_in (lo hi : nat) (c : Ascii.ascii) : bool :=
  (lo <=? Ascii.nat_of_ascii c) && (Ascii.nat_of_ascii c <=? hi).
Definition key_head (c : Ascii.ascii) : bool :=
  char_in 65 90 c || char_in 97 122 c || (Ascii.nat_of_ascii c =? 95).
Definition key_tail (c : Ascii.ascii) : bool := key_head c || char_in 48 57 c.

Fixpoint string_forallb (p : Ascii.ascii → bool) (s : string) : bool :=
  match s with EmptyString => true | String c s' => p c && string_forallb p s' end.

(** paramNameRE *)
Definition paramName (k : string) : bool :=
  match k with EmptyString => false | String c k' => key_head c && string_forallb key_tail k' end.

(** The longest run of characters in a class, and what follows it. *)
Fixpoint span (p : Ascii.ascii → bool) (s : string) : string * string :=
  match s with
  | EmptyString => (EmptyString, EmptyString)
  | String c s' => if p c then let '(a, b) := span p s' in (String c a, b) else (EmptyString, s)
  end.

Definition ref (k : string) : string := "${" +:+ k +:+ "}".

(** A match of paramRefRE at the start of [s]: the key and the text after it.  The
    closing brace is not a key character, so the longest run is the only match. *)
Definition matchRef (s : string) : option string :=
  match s with
  | String "$"%char (String "{"%char (String c s')) =>
      if key_head c then
        match span key_tail s' with
        | (k, String "}"%char _) => Some (String c k)
        | _ => None
        end
      else None
  | _ => None
  end.

(** The text as a sequence of literal characters and references, scanned left to
    right; [skip] counts the characters of the last match still to be passed. *)
Inductive piece := Lit (c : Ascii.ascii) | Ref (k : string).

Fixpoint pieces_from (skip : nat) (s : string) : list piece :=
  match s with
  | EmptyString => []
  | String c s' =>
      match skip with
      | S n => pieces_from n s'
      | O => match matchRef s with
             | Some k => Ref k :: pieces_from (String.length k + 2) s'
             | None => Lit c :: pieces_from 0 s'
             end
      end
  end.
Definition pieces : string → list piece := pieces_from 0.

Definition render (values : gmap string string) (p : piece) : string :=
  match p with
  | Lit c => String c EmptyString
  | Ref k => default (ref k) (values !! k)
  end.
Definition concat_pieces (f : piece → string) (l : list piece) : string :=
  foldr (fun p acc => f p +:+ acc) "" l.

(** paramRefRE.ReplaceAllStringFunc with the lookup in [values] *)
Definition replaceRefs (values : gmap string string) (s : string) : string :=
  concat_pieces (render values) (pieces s).

(** ** The node tree of gopkg.in/yaml.v3

    Of a node's fields the code reads Kind and Content and writes Value and Tag; of
    the others only the style is kept here. *)
Inductive node :=
| DocumentNode (content : list node)
| MappingNode (content : list node)
| SequenceNode (content : list node)
| ScalarNode (style : Z) (tag value : string)
| AliasNode (anchor : string).

Fixpoint walkScalars (f : Z → string → string → node) (n : node) : node :=
  match n with
  | DocumentNode l => DocumentNode (walkScalars f <$> l)
  | MappingNode l =>
      MappingNode ((fix values l :=
        match l with
        | k :: v :: rest => k :: walkScalars f v :: values rest
        | l => l
        end) l)
  | SequenceNode l => SequenceNode (walkScalars f <$> l)
  | ScalarNode style tag value => f style tag value
  | AliasNode a => AliasNode a
  end.

Definition substituteScalar (values : gmap string string) (style : Z) (tag value : string) : node :=
  if negb (Contains value "${") then ScalarNode style tag value
  else ScalarNode style "" (replaceRefs values value).

Definition substituteScalars (values : gmap string string) (n : node) : node :=
  walkScalars (substituteScalar values) n.

(** ** --param and --param-file *)

(** strings.IndexByte and the slices around the index *)
Fixpoint cut_at (sep : Ascii.ascii) (s : string) : option (string * string) :=
  match s with
  | EmptyString => None
  | String c s' =>
      if Ascii.eqb c sep then Some (EmptyString, s')
      else match cut_at sep s' with Some (a, b) => Some (String c a, b) | None => None end
  end.

Definition splitKV (s : string) : option (string * string) :=
  match cut_at "="%char s with
  | Some (k, v) => Some (TrimSpace k, v)
  | None => None
  end.

Definition errBlueprint (fmt : string) : error := EWrap fmt [ESentinel ErrBlueprintInvalid].

Fixpoint parseArgs (args : list string) (out : gmap string string) : result (gmap string string) :=
  match args with
  | [] => Ok out
  | arg :: rest =>
      match splitKV arg with
      | None => Err (errBlueprint "invalid --param %q: want KEY=VALUE: %w")
      | Some (k, v) =>
          if negb (paramName k)
          then Err (errBlueprint "invalid --param %q: KEY must match [A-Za-z_][A-Za-z0-9_]*: %w")
          else parseArgs rest (<[k := v]> out)
      end
  end.
Definition ParseParamArgs (args : list string) : result (gmap string string) := parseArgs args ∅.

(** strings.Split on a newline *)
Fixpoint split_lines (s : string) : list string :=
  match s with
  | EmptyString => [""]
  | String c s' =>
      if Ascii.eqb c "010"%char then "" :: split_lines s'
      else match split_lines s' with
           | l :: ls => String c l :: ls
           | [] => [String c EmptyString]
           end
  end.

(** strings.TrimRight with the cutset of a carriage return *)
Fixpoint trim_cr (s : string) : string :=
  match s with
  | EmptyString => EmptyString
  | String c s' =>
      match trim_cr s' with
      | EmptyString => if Ascii.eqb c "013"%char then EmptyString else String c EmptyString
      | t => String c t
      end
  end.

Fixpoint parseLines (lines : list string) (out : gmap string string) : result (gmap string string) :=
  match lines with
  | [] => Ok out
  | line0 :: rest =>
      let line := trim_cr line0 in
      let trim := TrimSpace line in
      if String.eqb trim "" || HasPrefix trim "#" then parseLines rest out
      else match splitKV line with
           | None => Err (errBlueprint "%s:%d: invalid line %q: want KEY=VALUE: %w")
           | Some (k, v) =>
               if negb (paramName k)
               then Err (errBlueprint "%s:%d: invalid KEY %q: must match [A-Za-z_][A-Za-z0-9_]*: %w")
               else parseLines rest (<[k := v]> out)
           end
  end.

(** [file] is the outcome of os.ReadFile. *)
Definition ParseParamFile (file : result string) : result (gmap string string) :=
  match file with
  | Err e => Err (EWrap "read --param-file %q: %w" [e])
  | Ok raw => parseLines (split_lines raw) ∅
  end.

Definition MergeParams (base overrides : gmap string string) : gmap string string := overrides ∪ base.

(** ** Per-cell volumes *)

Definition CellNameVar : string := "${CELL_NAME}".

(** strings.ReplaceAll for a non-empty [old] *)
Fixpoint replace_from (old new : string) (skip : nat) (s : string) : string :=
  match s with
  | EmptyString => EmptyString
  | String c s' =>
      match skip with
      | S n => replace_from old new n s'
      | O => if HasPrefix s old then new +:+ replace_from old new (String.length old - 1) s'
             else String c (replace_from old new 0 s')
      end
  end.
Definition ReplaceAll (s old new : string) : string := replace_from old new 0 s.

Definition expandVolume (cellName : string) (v : ext.VolumeMount) : ext.VolumeMount :=
  if negb (String.eqb (ext.vm_Kind v) ext.VolumeKindVolume) then v
  else
    let inSource := Contains (ext.vm_Source v) CellNameVar in
    let inRef := match ext.vm_VolumeRef v with
                 | Some r => Contains (ext.vr_Name r) CellNameVar
                 | None => false
                 end in
    {| ext.vm_Kind := ext.vm_Kind v;
       ext.vm_Source := if inSource then ReplaceAll (ext.vm_Source v) CellNameVar cellName
                        else ext.vm_Source v;
       ext.vm_Target := ext.vm_Target v;
       ext.vm_VolumeRef :=
         match ext.vm_VolumeRef v with
         | Some r => if inRef then
             Some {| ext.vr_Name := ReplaceAll (ext.vr_Name r) CellNameVar cellName;
                     ext.vr_Realm := ext.vr_Realm r; ext.vr_Space := ext.vr_Space r;
                     ext.vr_Stack := ext.vr_Stack r |} else Some r
         | None => None
         end;
       ext.vm_ReadOnly := ext.vm_ReadOnly v; ext.vm_SizeBytes := ext.vm_SizeBytes v;
       ext.vm_Mode := ext.vm_Mode v;
       ext.vm_Ensure := if inSource || inRef then true else ext.vm_Ensure v |}.

Definition set_ext_Volumes (vols : list ext.VolumeMount) (c : ext.ContainerSpec) : ext.ContainerSpec :=
  let 'ext.Build_ContainerSpec id cid r s t ce root im cm ar wd env po _ ne na pr hn hp hc us ro ca so
    de tm re se rp gi cp pol bo mr at_ ty gid := c in
  ext.Build_ContainerSpec id cid r s t ce root im cm ar wd env po vols ne na pr hn hp hc us ro ca so
    de tm re se rp gi cp pol bo mr at_ ty gid.

Definition ExpandPerCellVolumes (cellName : string) (containers : list ext.ContainerSpec)
    : list ext.ContainerSpec :=
  (fun c => set_ext_Volumes (expandVolume cellName <$> ext.c_Volumes c) c) <$> containers.

(** ** Theorems: scanning *)

#[local] Arguments String.append !_ _ / : simpl nomatch.

Lemma span_spec p s :
  s = (span p s).1 +:+ (span p s).2 ∧ string_forallb p (span p s).1 = true.
Proof.
  induction s as [|c s [IH1 IH2]]; [done|]. cbn. destruct (p c) eqn:E; [|done].
  destruct (span p s) as [a b]. cbn in *.
  split; [by rewrite IH1 at 1|by rewrite E].
Qed.

Lemma span_app p a c b : string_forallb p a = true → p c = false → span p (a +:+ String c b) = (a, String c b).
Proof.
  induction a as [|x a IH]; cbn; [by intros _ ->|]. intros [-> H]%andb_true_iff Hc. by rewrite IH.
Qed.

Lemma matchRef_sound s k : matchRef s = Some k → paramName k = true ∧ ∃ rest, s = ref k +:+ rest.
Proof.
  unfold matchRef. intros H. repeat case_match; simplify_eq. cbn. split.
  - match goal with H : key_head _ = true, E : span _ ?s = _ |- _ => rewrite H; cbn;
      pose proof (proj2 (span_spec key_tail s)) as Hs; by rewrite E in Hs end.
  - match goal with E : span _ ?s = _ |- _ => pose proof (proj1 (span_spec key_tail s)) as Hs;
      rewrite E in Hs; cbn in Hs; rewrite Hs end.
    eexists. do 3 f_equal. by rewrite string_app_assoc.
Qed.

Lemma matchRef_complete k rest : paramName k = true → matchRef (ref k +:+ rest) = Some k.
Proof.
  destruct k as [|c k]; [done|]. cbn [paramName]. intros [Hc Hk]%andb_true_iff.
  unfold ref. cbn. rewrite Hc, string_app_assoc. cbn. by rewrite span_app.
Qed.

Lemma pieces_skip a b : pieces_from (String.length a) (a +:+ b) = pieces_from 0 b.
Proof. induction a as [|c a IH]; [by destruct b|]. exact IH. Qed.

Lemma pieces_ref k rest : paramName k = true → pieces (ref k +:+ rest) = Ref k :: pieces rest.
Proof.
  intros Hk. pose proof (matchRef_complete k rest Hk) as Hm.
  assert (E : ref k +:+ rest = String "$"%char (("{" +:+ k +:+ "}") +:+ rest)) by done.
  unfold pieces. rewrite E in *. cbn [pieces_from]. rewrite Hm. f_equal.
  rewrite <-(pieces_skip ("{" +:+ k +:+ "}") rest). f_equal.
  assert (L : ∀ s, String.length (s +:+ "}") = S (String.length s)) by (induction s; cbn; auto).
  cbn. rewrite L. lia.
Qed.

Lemma pieces_lit c s : matchRef (String c s) = None → pieces (String c s) = Lit c :: pieces s.
Proof. intros Hm. unfold pieces. cbn [pieces_from]. by rewrite Hm. Qed.

Lemma string_length_app (a b : string) : String.length (a +:+ b) = String.length a + String.length b.
Proof. induction a as [|x a IH]; [done|]. cbn. by rewrite IH. Qed.

(** Induction along a scan. *)
Lemma template_ind (P : string → Prop) :
  P "" →
  (∀ k rest, paramName k = true → P rest → P (ref k +:+ rest)) →
  (∀ c s, matchRef (String c s) = None → P s → P (String c s)) →
  ∀ s, P s.
Proof.
  intros H0 Href Hlit s. remember (String.length s) as n eqn:Hn.
  revert s Hn. induction (lt_wf n) as [n _ IH]. intros [|c s] ->; [done|].
  destruct (matchRef (String c s)) as [k|] eqn:E.
  - apply matchRef_sound in E as [Hk [rest Er]]. rewrite Er. apply Href; [done|].
    eapply IH; [|done]. rewrite Er. unfold ref. cbn. rewrite !string_length_app. cbn. lia.
  - apply Hlit; [done|]. eapply IH; [|done]. cbn. lia.
Qed.

(** What a template means: a string read left to right as literal characters and
    references, a reference wherever one starts. *)
Inductive parses : string → list piece → Prop :=
| parses_nil : parses "" []
| parses_ref k rest ps : paramName k = true → parses rest ps → parses (ref k +:+ rest) (Ref k :: ps)
| parses_lit c s ps :
    (∀ k rest, paramName k = true → String c s ≠ ref k +:+ rest) →
    parses s ps → parses (String c s) (Lit c :: ps).

Lemma matchRef_None s : matchRef s = None ↔ ∀ k rest, paramName k = true → s ≠ ref k +:+ rest.
Proof.
  split.
  - intros Hm k rest Hk ->. by rewrite matchRef_complete in Hm.
  - intros H. destruct (matchRef s) as [k|] eqn:E; [|done].
    apply matchRef_sound in E as [Hk [rest ->]]. by destruct (H k rest Hk).
Qed.

Lemma parses_iff s ps : parses s ps ↔ ps = pieces s.
Proof.
  split.
  - induction 1 as [|k rest ps Hk _ ->|c s ps Hc _ ->]; [done|by rewrite pieces_ref|].
    rewrite pieces_lit; [done|by apply matchRef_None].
  - intros ->. induction s as [|k rest Hk IH|c s Hm IH] using template_ind; [constructor|..].
    + rewrite pieces_ref by done. by constructor.
    + rewrite pieces_lit by done. constructor; [by apply matchRef_None|done].
Qed.

Lemma replaceRefs_empty s : replaceRefs ∅ s = s.
Proof.
  unfold replaceRefs. induction s as [|k rest Hk IH|c s Hm IH] using template_ind; [done|..].
  - rewrite pieces_ref by done. cbn [concat_pieces foldr render]. rewrite lookup_empty. cbn [default].
    unfold concat_pieces in IH. by rewrite IH.
  - rewrite pieces_lit by done. cbn. unfold concat_pieces in IH. by rewrite IH.
Qed.

Lemma Contains_ref k rest : Contains (ref k +:+ rest) "${" = true.
Proof.
  change (ref k +:+ rest) with (String "$"%char (String "{"%char ((k +:+ "}") +:+ rest))).
  apply orb_true_iff. left. change (HasPrefix (String "$"%char (String "{"%char ((k +:+ "}") +:+ rest))) "${" = true).
  rewrite !HasPrefix_cons. unfold HasPrefix. by destruct ((k +:+ "}") +:+ rest).
Qed.

Lemma replaceRefs_plain values s : Contains s "${" = false → replaceRefs values s = s.
Proof.
  unfold replaceRefs. induction s as [|k rest Hk IH|c s Hm IH] using template_ind; [done|by rewrite Contains_ref|].
  intros Hc. rewrite pieces_lit by done. change (String c (concat_pieces (render values) (pieces s)) = String c s).
  f_equal. apply IH. cbn [Contains] in Hc. by apply orb_false_iff in Hc as [_ ?].
Qed.

(** *** The tree *)

Lemma node_ind' (P : node → Prop) :
  (∀ l, Forall P l → P (DocumentNode l)) → (∀ l, Forall P l → P (MappingNode l)) →
  (∀ l, Forall P l → P (SequenceNode l)) → (∀ s t v, P (ScalarNode s t v)) →
  (∀ a, P (AliasNode a)) → ∀ n, P n.
Proof.
  intros HD HM HS HV HA. fix IH 1. intros [l|l|l|s t v|a]; [apply HD|apply HM|apply HS|apply HV|apply HA];
    induction l as [|n l IHl]; constructor; auto.
Qed.

(** The value scalars of a tree, in order, and the tree without them. *)
Fixpoint scalars (n : node) : list string :=
  match n with
  | DocumentNode l | SequenceNode l => concat (scalars <$> l)
  | MappingNode l => (fix values l := match l with k :: v :: r => scalars v ++ values r | _ => [] end) l
  | ScalarNode _ _ v => [v]
  | AliasNode _ => []
  end.

Fixpoint skeleton (n : node) : node :=
  match n with
  | DocumentNode l => DocumentNode (skeleton <$> l)
  | SequenceNode l => SequenceNode (skeleton <$> l)
  | MappingNode l =>
      MappingNode ((fix go l := match l with k :: v :: r => k :: skeleton v :: go r | l => l end) l)
  | ScalarNode st _ _ => ScalarNode st "" ""
  | AliasNode a => AliasNode a
  end.

Lemma pairs_ind {A} (P : list A → Prop) :
  P [] → (∀ k, P [k]) → (∀ k v l, P l → P (k :: v :: l)) → ∀ l, P l.
Proof. intros H0 H1 H2. fix IH 1. intros [|k [|v l]]; [done|apply H1|apply H2, IH]. Qed.

Lemma substituteScalar_value values st t v :
  scalars (substituteScalar values st t v) = [replaceRefs values v] ∧
  skeleton (substituteScalar values st t v) = ScalarNode st "" "".
Proof.
  unfold substituteScalar. destruct (Contains v "${") eqn:E; [done|]. cbn.
  by rewrite replaceRefs_plain.
Qed.

Lemma substituteScalars_tree values n :
  scalars (substituteScalars values n) = replaceRefs values <$> scalars n ∧
  skeleton (substituteScalars values n) = skeleton n.
Proof.
  unfold substituteScalars. induction n as [l IH|l IH|l IH|st t v|a] using node_ind'.
  - cbn. split.
    + induction IH as [|n l [E _] _ IHl]; [done|]. cbn in *. by rewrite E, IHl, fmap_app.
    + f_equal. induction IH as [|n l [_ E] _ IHl]; [done|]. cbn in *. by rewrite E, IHl.
  - cbn. induction l as [|k|k v l IHl] using pairs_ind; [done|done|].
    apply Forall_cons in IH as [_ [[E1 E2] IH]%Forall_cons]. destruct (IHl IH) as [I1 I2]. cbn. split.
    + rewrite E1, fmap_app. f_equal. exact I1.
    + injection I2 as I2. rewrite E2. do 3 f_equal. exact I2.
  - cbn. split.
    + induction IH as [|n l [E _] _ IHl]; [done|]. cbn in *. by rewrite E, IHl, fmap_app.
    + f_equal. induction IH as [|n l [_ E] _ IHl]; [done|]. cbn in *. by rewrite E, IHl.
  - apply substituteScalar_value.
  - done.
Qed.

(** Substitution rewrites exactly the references of the template grammar: every
    value scalar of the tree becomes its unique left-to-right reading with each bound
    reference replaced by its value (which is not scanned again) and all other text
    kept; the tree, its mapping keys and its styles stay as they are. *)
Theorem substitution_exact values n :
  skeleton (substituteScalars values n) = skeleton n ∧
  length (scalars (substituteScalars values n)) = length (scalars n) ∧
  ∀ i s, scalars n !! i = Some s →
    ∃ ps, (∀ ps', parses s ps' ↔ ps' = ps) ∧ concat_pieces (render ∅) ps = s ∧
      scalars (substituteScalars values n) !! i = Some (concat_pieces (render values) ps).
Proof.
  destruct (substituteScalars_tree values n) as [E1 E2]. split; [done|]. rewrite E1.
  split; [apply length_fmap|]. intros i s Hi. exists (pieces s). split_and!.
  - apply parses_iff.
  - apply replaceRefs_empty.
  - rewrite list_lookup_fmap, Hi. done.
Qed.

Lemma substitution_exact_witness :
  let n := MappingNode [ScalarNode 0 "" "${K}"; ScalarNode 0 "" "a${K}$b{${X}"] in
  scalars (substituteScalars {[ "K" := "v" ]} n) !! 0
  = Some "av$b{${X}".
Proof.
  intros n. destruct (substitution_exact {[ "K" := "v" ]} n) as (_ & _ & H).
  destruct (H 0 _ eq_refl) as (ps & Hu & _ & ->).
  rewrite <-(proj1 (Hu _) (proj2 (parses_iff _ _) eq_refl)). vm_compute. reflexivity.
Defined.

(** ** Theorems: parameters *)

Definition entry (kv : string * string) : string := kv.1 +:+ "=" +:+ kv.2.

Lemma key_tail_not_eq k : string_forallb key_tail k = true →
  ∀ v, cut_at "="%char (k +:+ String "="%char v) = Some (k, v).
Proof.
  induction k as [|c k IH]; intros H v; [done|]. cbn in H. apply andb_true_iff in H as [Hc H].
  cbn. destruct (Ascii.eqb_spec c "="%char) as [->|_]; [done|]. by rewrite (IH H v).
Qed.

Lemma paramName_tail k : paramName k = true → string_forallb key_tail k = true.
Proof.
  destruct k as [|c k]; [done|]. cbn. intros [Hc Hk]%andb_true_iff. unfold key_tail at 1.
  by rewrite Hc, Hk.
Qed.

Lemma key_tail_not_space c : key_tail c = true → is_space c = false.
Proof. by destruct c as [[] [] [] [] [] [] [] []]. Qed.

Lemma rtrim_key k : string_forallb key_tail k = true → rtrim k = k.
Proof.
  induction k as [|c k IH]; [done|]. cbn. intros [Hc Hk]%andb_true_iff. rewrite (IH Hk).
  destruct k; [by rewrite key_tail_not_space|done].
Qed.

Lemma TrimSpace_key k : paramName k = true → TrimSpace k = k.
Proof.
  intros Hk%paramName_tail. unfold TrimSpace. destruct k as [|c k]; [done|].
  cbn [ltrim]. pose proof Hk as Hk'. cbn in Hk'. apply andb_true_iff in Hk' as [Hc _].
  rewrite key_tail_not_space by done. by apply rtrim_key.
Qed.

Lemma splitKV_entry k v : paramName k = true → splitKV (entry (k, v)) = Some (k, v).
Proof.
  intros Hk. unfold splitKV, entry. cbn [fst snd]. change ("=" +:+ v) with (String "="%char v).
  rewrite key_tail_not_eq by by apply paramName_tail. by rewrite TrimSpace_key.
Qed.

Lemma parseArgs_entries l out :
  Forall (fun kv => paramName kv.1 = true) l →
  parseArgs (entry <$> l) out = Ok (foldl (fun m kv => <[kv.1 := kv.2]> m) out l).
Proof.
  intros H. revert out. induction H as [|[k v] l Hk _ IH]; intros out; [done|].
  cbn [fmap list_fmap parseArgs foldl]. rewrite splitKV_entry by exact Hk. cbn in Hk. rewrite Hk. apply IH.
Qed.

(** The keys of every accepted argument list can be referenced. *)
Lemma parseArgs_keys args out m :
  (∀ k v, out !! k = Some v → paramName k = true) → parseArgs args out = Ok m →
  ∀ k v, m !! k = Some v → paramName k = true.
Proof.
  revert out. induction args as [|arg args IH]; intros out Ho; cbn; [by intros [= <-]|].
  destruct (splitKV arg) as [[k v]|]; [|done]. destruct (paramName k) eqn:Hk; [|done]. cbn.
  apply IH. intros k' v'. rewrite lookup_insert_Some. naive_solver.
Qed.

(** A line that carries a parameter: no newline, no trailing carriage return,
    neither blank nor a comment. *)
Definition plain_line (s : string) : bool :=
  string_forallb (fun c => negb (Ascii.eqb c "010"%char)) s && String.eqb (trim_cr s) s &&
  negb (String.eqb (TrimSpace s) "") && negb (HasPrefix (TrimSpace s) "#").

Definition newline : string := String "010"%char EmptyString.

Lemma split_line_app s rest : string_forallb (fun c => negb (Ascii.eqb c "010"%char)) s = true →
  split_lines (s +:+ String "010"%char rest) = s :: split_lines rest.
Proof.
  induction s as [|c s IH]; [done|]. cbn. intros [Hc Hs]%andb_true_iff.
  apply negb_true_iff in Hc. rewrite Hc. by rewrite (IH Hs).
Qed.

Lemma split_line_last s : string_forallb (fun c => negb (Ascii.eqb c "010"%char)) s = true →
  split_lines s = [s].
Proof.
  induction s as [|c s IH]; [done|]. cbn. intros [Hc Hs]%andb_true_iff.
  apply negb_true_iff in Hc. rewrite Hc. by rewrite (IH Hs).
Qed.

Lemma split_lines_join l x : Forall (fun s => plain_line s = true) (x :: l) →
  split_lines (Join newline (x :: l)) = x :: l.
Proof.
  assert (Hn : ∀ s, plain_line s = true → string_forallb (fun c => negb (Ascii.eqb c "010"%char)) s = true).
  { unfold plain_line. intros s H. by apply andb_true_iff in H as [[[H _]%andb_true_iff _]%andb_true_iff _]. }
  revert x. induction l as [|y l IH]; intros x [Hx Hl]%Forall_cons; [by apply split_line_last, Hn|].
  cbn [Join]. change (newline +:+ ?t) with (String "010"%char t).
  rewrite split_line_app by by apply Hn. f_equal. by apply IH.
Qed.

Lemma parseLines_args l out : Forall (fun s => plain_line s = true) l →
  is_Ok (parseLines l out) = is_Ok (parseArgs l out) ∧
  ∀ m, parseLines l out = Ok m ↔ parseArgs l out = Ok m.
Proof.
  intros H. revert out. induction H as [|s l Hs _ IH]; intros out; [done|].
  unfold plain_line in Hs. apply andb_true_iff in Hs as [[[_ Hcr%String.eqb_eq]%andb_true_iff Hb]%andb_true_iff Hc].
  apply negb_true_iff in Hb, Hc. cbn [parseLines parseArgs]. rewrite Hcr, Hb, Hc. cbn [orb].
  destruct (splitKV s) as [[k v]|]; [|done]. destruct (paramName k); [apply IH|done].
Qed.

(** Parameters on the command line and in a file are read alike, and printing a
    parameter list and parsing it again yields the last value given for each key: a
    list of KEY=VALUE arguments with well-formed keys is accepted, the same lines in
    a file give the same result, and every key of an accepted list is one a
    [${KEY}] reference can name. *)
Theorem param_parsing_roundtrip (l : list (string * string)) x :
  Forall (fun kv => paramName kv.1 = true ∧ plain_line (entry kv) = true) (x :: l) →
  let m := foldl (fun m kv => <[kv.1 := kv.2]> m) ∅ (x :: l) in
  ParseParamArgs (entry <$> x :: l) = Ok m ∧
  ParseParamFile (Ok (Join newline (entry <$> x :: l))) = Ok m ∧
  ∀ k v rest, m !! k = Some v → pieces (ref k +:+ rest) = Ref k :: pieces rest.
Proof.
  intros H m.
  assert (Hargs : ParseParamArgs (entry <$> x :: l) = Ok m).
  { apply parseArgs_entries. eapply Forall_impl; [exact H|]. naive_solver. }
  split_and!; [done|..].
  - assert (Hl : Forall (fun s => plain_line s = true) (entry <$> x :: l)).
    { apply Forall_fmap. eapply Forall_impl; [exact H|]. naive_solver. }
    unfold ParseParamFile. cbn [fmap list_fmap] in *. rewrite split_lines_join by done.
    by apply parseLines_args.
  - intros k v rest Hm. apply pieces_ref. eapply (parseArgs_keys _ ∅); [done|exact Hargs|exact Hm].
Qed.

Lemma param_parsing_roundtrip_witness :
  ParseParamArgs ["A=1"; "B=x=y"; "A=2"] = Ok (<["A" := "2"]> {[ "B" := "x=y" ]}).
Proof.
  etrans; [exact (proj1 (param_parsing_roundtrip [("B", "x=y"); ("A", "2")] ("A", "1")
    ltac:(repeat constructor; vm_compute; reflexivity)))|].
  vm_compute. reflexivity.
Defined.

Lemma MergeParams_lookup base over k :
  MergeParams base over !! k = match over !! k with Some v => Some v | None => base !! k end.
Proof. unfold MergeParams. rewrite lookup_union. by destruct (over !! k), (base !! k). Qed.

(** ** Theorems: per-cell volumes *)

Lemma replace_skip old new a b :
  replace_from old new (String.length a) (a +:+ b) = replace_from old new 0 b.
Proof. induction a as [|c a IH]; [by destruct b|]. exact IH. Qed.

Lemma HasPrefix_app s p : HasPrefix s p = true → ∃ rest, s = p +:+ rest.
Proof.
  revert s. induction p as [|d p IH]; intros s H; [by exists s|].
  destruct s as [|c s]; [done|]. rewrite HasPrefix_cons in H.
  apply andb_true_iff in H as [->%Ascii.eqb_eq H]. destruct (IH s H) as [rest ->]. by exists rest.
Qed.

(** The length of the text outside the replaced occurrences, and their number. *)
Lemma replace_length old s skip :
  ∃ base occ, (∀ new, String.length (replace_from old new skip s) = base + occ * String.length new) ∧
    (skip = 0 → Contains s old = true → old ≠ "" → 1 ≤ occ).
Proof.
  revert skip. induction s as [|c s IH]; intros skip.
  - exists 0, 0. split; [done|]. intros _ H Hne. by destruct old.
  - destruct skip as [|n].
    + destruct (HasPrefix (String c s) old) eqn:Ep.
      * destruct (IH (String.length old - 1)) as (b & o & Hl & _). exists b, (S o). split; [|lia].
        intros new. cbn [replace_from]. rewrite Ep, string_length_app, Hl. lia.
      * destruct (IH 0) as (b & o & Hl & Ho). exists (S b), o. split.
        -- intros new. cbn [replace_from]. rewrite Ep. cbn. rewrite Hl. lia.
        -- intros _ Hc. apply Ho; [done|]. cbn [Contains] in Hc. unfold HasPrefix in Ep. by rewrite Ep in Hc.
    + destruct (IH n) as (b & o & Hl & _). exists b, o. split; [|done]. intros new. apply Hl.
Qed.

Lemma string_app_inj_length (a b x y : string) :
  String.length a = String.length b → a +:+ x = b +:+ y → a = b.
Proof.
  revert b. induction a as [|c a IH]; intros [|d b] Hl H; try done.
  cbn in H. injection H as -> H. f_equal. apply (IH b); [by injection Hl|done].
Qed.

Lemma ReplaceAll_injective s old n1 n2 :
  old ≠ "" → Contains s old = true → ReplaceAll s old n1 = ReplaceAll s old n2 → n1 = n2.
Proof.
  intros Hne Hc E. unfold ReplaceAll in E.
  destruct (replace_length old s 0) as (b & o & Hl & Ho). specialize (Ho eq_refl Hc Hne).
  assert (HL : String.length n1 = String.length n2).
  { pose proof (f_equal String.length E) as HE. rewrite !Hl in HE. nia. }
  clear b o Hl Ho. induction s as [|c s IH]; [by destruct old|].
  cbn [replace_from] in E. destruct (HasPrefix (String c s) old) eqn:Ep.
  - by apply string_app_inj_length in E.
  - injection E as E. apply IH; [|done]. cbn [Contains] in Hc. unfold HasPrefix in Ep. by rewrite Ep in Hc.
Qed.

(** A mount that names its volume per cell. *)
Definition per_cell (v : ext.VolumeMount) : Prop :=
  ext.vm_Kind v = ext.VolumeKindVolume ∧
  (Contains (ext.vm_Source v) CellNameVar = true ∨
   ∃ r, ext.vm_VolumeRef v = Some r ∧ Contains (ext.vr_Name r) CellNameVar = true).

Lemma expandVolume_shared n v : ¬ per_cell v → expandVolume n v = v.
Proof.
  unfold per_cell, expandVolume. intros H.
  destruct (String.eqb_spec (ext.vm_Kind v) ext.VolumeKindVolume) as [E|]; [|done]. cbn [negb].
  destruct (Contains (ext.vm_Source v) CellNameVar) eqn:Es; [naive_solver|].
  destruct v as [k so t [r|] ro sz m e]; cbn in *; [|done].
  destruct (Contains (ext.vr_Name r) CellNameVar) eqn:Er; [naive_solver|done].
Qed.

(** One template stamps private volumes: for every container and mount of a
    blueprint, a mount that names its volume with the cell-name variable is provisioned
    on demand and never names the same volume for two different cells, and every other
    mount is left exactly as written, shared between the cells. *)
Theorem per_cell_volumes_private n1 n2 containers i c j v :
  n1 ≠ n2 → containers !! i = Some c → ext.c_Volumes c !! j = Some v →
  ∃ c1 c2 v1 v2,
    ExpandPerCellVolumes n1 containers !! i = Some c1 ∧ ext.c_Volumes c1 !! j = Some v1 ∧
    ExpandPerCellVolumes n2 containers !! i = Some c2 ∧ ext.c_Volumes c2 !! j = Some v2 ∧
    (per_cell v → ext.vm_Ensure v1 = true ∧ ext.vm_Ensure v2 = true ∧
       (ext.vm_Source v1, ext.vr_Name <$> ext.vm_VolumeRef v1)
       ≠ (ext.vm_Source v2, ext.vr_Name <$> ext.vm_VolumeRef v2)) ∧
    (¬ per_cell v → v1 = v ∧ v2 = v).
Proof.
  intros Hn Hi Hj.
  assert (Hvol : ∀ vols c, ext.c_Volumes (set_ext_Volumes vols c) = vols) by by intros ? [].
  do 4 eexists. unfold ExpandPerCellVolumes. rewrite !list_lookup_fmap, Hi. cbn [fmap option_fmap option_map].
  split_and!; [done| |done| |..]; [rewrite Hvol, list_lookup_fmap, Hj; done..| |].
  - intros [Hk Hp]. unfold expandVolume. rewrite Hk. cbn [negb String.eqb Ascii.eqb Bool.eqb].
    rewrite String.eqb_refl. cbn [negb].
    split_and!; [cbn; destruct Hp as [->|(r & -> & ->)]; by rewrite ?orb_true_r..|].
    cbn [ext.vm_Source ext.vm_VolumeRef]. intros [= E1 E2]. destruct Hp as [Hs|(r & Hr & Hs)].
    + rewrite Hs in E1. by apply Hn, (ReplaceAll_injective (ext.vm_Source v) CellNameVar).
    + rewrite Hr, Hs in E2. cbn in E2. injection E2 as E2.
      by apply Hn, (ReplaceAll_injective (ext.vr_Name r) CellNameVar).
  - intros Hp. by rewrite !expandVolume_shared.
Qed.

Definition sample_memory_mount : ext.VolumeMount := {|
  ext.vm_Kind := "volume"; ext.vm_Source := "mem-${CELL_NAME}"; ext.vm_Target := "/mem";
  ext.vm_VolumeRef := None; ext.vm_ReadOnly := false; ext.vm_SizeBytes := 0; ext.vm_Mode := 0;
  ext.vm_Ensure := false |}.
Definition sample_memory_container : ext.ContainerSpec :=
  ext.Build_ContainerSpec "web" "" "" "" "" "" false "img" "" [] "" [] [] [sample_memory_mount] [] [] false
    false false false "" false None [] [] [] None [] [] None "" "" None None false None 0%Z.

Lemma per_cell_volumes_private_witness :
  ∃ v1 v2,
    (ext.c_Volumes <$> ExpandPerCellVolumes "a" [sample_memory_container]) = [[v1]] ∧
    (ext.c_Volumes <$> ExpandPerCellVolumes "b" [sample_memory_container]) = [[v2]] ∧
    ext.vm_Source v1 = "mem-a" ∧ ext.vm_Source v2 = "mem-b" ∧ ext.vm_Ensure v1 = true.
Proof.
  destruct (per_cell_volumes_private "a" "b" [sample_memory_container] 0 _ 0 _
    ltac:(discriminate) eq_refl eq_refl) as (c1 & c2 & v1 & v2 & E1 & V1 & E2 & V2 & H & _).
  vm_compute in E1, E2. injection E1 as <-. injection E2 as <-. vm_compute in V1, V2.
  injection V1 as <-. injection V2 as <-.
  eexists _, _. split_and!; [vm_compute; reflexivity..|].
  refine (proj1 (H _)). split; [reflexivity|left; vm_compute; reflexivity].
Defined.
