(* ===== verification/Blueprint.v ===== *)
(** * Cell blueprints (internal/cellblueprint/cellblueprint.go and
    internal/apischeme/cellblueprint.go)

    A blueprint is a cell template with scalar parameters and structural slots.
    Resolution substitutes the parameters through the YAML tree of the document;
    materialisation turns the resolved blueprint into a cell document under a
    generated or given name. *)

From stdpp Require Import base gmap strings list.
From S2P Require Import Prelude Model External Scheme Naming Template.

(** ** The YAML codec of gopkg.in/yaml.v3 *)

Class YamlCodec (D : Type) := {
  yaml_Marshal : D → result string;
  yaml_Unmarshal : string → result D;
  yaml_UnmarshalNode : string → result node;
  yaml_Decode : node → result D
}.

(** What the library documents of a document it can represent: marshalling and
    unmarshalling, directly or through the node tree, returns the document. *)
Definition yaml_faithful {D} `{YamlCodec D} (doc : D) (n : node) : Prop :=
  ∃ raw, yaml_Marshal doc = Ok raw ∧ yaml_Unmarshal raw = Ok doc ∧
    yaml_UnmarshalNode raw = Ok n ∧ yaml_Decode n = Ok doc.

(** ** Parameter values *)

(** The loop over the declared parameters; [values] accumulates the result. *)
Fixpoint resolveDeclared (params : list ext.CellBlueprintParameter) (cliParams : gmap string string)
    (lookupEnv : option (string → option string)) (values : gmap string string)
    : result (gmap string string) :=
  match params with
  | [] => Ok values
  | p :: rest =>
      let set v := resolveDeclared rest cliParams lookupEnv (<[ext.bpp_Name p := v]> values) in
      match cliParams !! ext.bpp_Name p with
      | Some v => set v
      | None =>
          match ext.bpp_Default p with
          | Some v => set v
          | None =>
              match lookupEnv ≫= (fun env => env (ext.bpp_Name p)) with
              | Some v => set v
              | None =>
                  if ext.bpp_Required p then Err (errBlueprint
                    "blueprint %q: required parameter %q is not set (provide --param %s=... or declare a spec.parameters[].default): %w")
                  else set ""
              end
          end
      end
  end.

(** The loop over [cliParams] runs in map order; it keeps the undeclared keys, or
    fails at the first one it meets. *)
Definition resolveValues (doc : ext.CellBlueprintDoc) (cliParams : gmap string string)
    (lookupEnv : option (string → option string)) (lenient : bool) : result (gmap string string) :=
  let params := ext.bps_Parameters (ext.bp_Spec doc) in
  let declared := index_by ext.bpp_Name id params in
  let undeclared := filter (fun kv => declared !! kv.1 = None) cliParams in
  if negb lenient && negb (bool_decide (undeclared = ∅)) then
    Err (errBlueprint "blueprint %q: --param %q is not declared in spec.parameters[]: %w")
  else resolveDeclared params cliParams lookupEnv undeclared.

Section Resolve.
Context `{YamlCodec ext.CellBlueprintDoc}.

Definition resolve (doc : ext.CellBlueprintDoc) (cliParams : gmap string string)
    (lookupEnv : option (string → option string)) (lenient : bool) : result ext.CellBlueprintDoc :=
  let? values := resolveValues doc cliParams lookupEnv lenient in
  match yaml_Marshal doc with
  | Err e => Err (EWrap "blueprint %q: marshal for substitution: %w" [e])
  | Ok raw =>
      match yaml_UnmarshalNode raw with
      | Err e => Err (EWrap "blueprint %q: parse for substitution: %w" [e])
      | Ok n =>
          match yaml_Decode (substituteScalars values n) with
          | Err e => Err (EWrap "blueprint %q: re-decode after parameter substitution: %w: %w"
                            [ESentinel ErrBlueprintInvalid; e])
          | Ok out => Ok out
          end
      end
  end.

Definition Resolve doc cliParams lookupEnv := resolve doc cliParams lookupEnv false.
Definition ResolveConfig doc values lookupEnv := resolve doc values lookupEnv true.

(** *** The stored carrier (internal/apischeme/cellblueprint.go) *)

Definition canonicalBlueprint (d : ext.CellBlueprintDoc) : ext.CellBlueprintDoc := {|
  ext.bp_APIVersion := ext.APIVersionV1Beta1; ext.bp_Kind := ext.KindCellBlueprint;
  ext.bp_Metadata := ext.bp_Metadata d; ext.bp_Spec := ext.bp_Spec d |}.

Definition ConvertCellBlueprintDocToInternal (d : ext.CellBlueprintDoc) : result CellBlueprint :=
  if supportedVersion (ext.bp_APIVersion d) then
    match yaml_Marshal (canonicalBlueprint d) with
    | Err e => Err (EWrap "marshal CellBlueprint document: %w" [e])
    | Ok document =>
        let m := ext.bp_Metadata d in
        Ok {| bp_Metadata := {| scn_Name := ext.bpm_Name m; scn_Realm := ext.bpm_Realm m;
                                scn_Space := ext.bpm_Space m; scn_Stack := ext.bpm_Stack m;
                                scn_Labels := ext.bpm_Labels m |};
              bp_Document := document |}
    end
  else Err (EOpaque "unsupported apiVersion for CellBlueprint: %s").
Definition NormalizeCellBlueprint (d : ext.CellBlueprintDoc) : result (CellBlueprint * string) :=
  normalize (ext.bp_APIVersion d) (ConvertCellBlueprintDocToInternal d).
Definition ConvertCellBlueprintToExternal (b : CellBlueprint) : result ext.CellBlueprintDoc :=
  match yaml_Unmarshal (bp_Document b) with
  | Err e => Err (EWrap "unmarshal CellBlueprint document: %w" [e])
  | Ok doc => Ok doc
  end.

End Resolve.

Definition zero_BlueprintSpec : ext.CellBlueprintSpec := {|
  ext.bps_Prefix := ""; ext.bps_Parameters := [];
  ext.bps_Cell := {| ext.bcs_Tty := None; ext.bcs_Containers := []; ext.bcs_AutoDelete := false;
                     ext.bcs_NestedCgroupRuntime := false |} |}.
Definition ConvertCellBlueprintMetadataToExternal (b : CellBlueprint) : ext.CellBlueprintDoc :=
  let m := bp_Metadata b in
  {| ext.bp_APIVersion := ext.APIVersionV1Beta1; ext.bp_Kind := ext.KindCellBlueprint;
     ext.bp_Metadata := {| ext.bpm_Name := scn_Name m; ext.bpm_Realm := scn_Realm m;
                           ext.bpm_Space := scn_Space m; ext.bpm_Stack := scn_Stack m;
                           ext.bpm_Labels := scn_Labels m |};
     ext.bp_Spec := zero_BlueprintSpec |}.
Definition ConvertCellBlueprintListToExternal (l : list CellBlueprint) : list ext.CellBlueprintDoc :=
  ConvertCellBlueprintMetadataToExternal <$> l.

(** ** Materialisation *)

Definition LabelBlueprint : string := "kukeon.io/blueprint".

Definition mergeLabels (labels : gmap string string) (k v : string) : gmap string string := <[k := v]> labels.

Definition cloneCellTty (t : option ext.CellTty) : option ext.CellTty :=
  match t with None => None | Some t => Some {| ext.ctty_Default := ext.ctty_Default t |} end.

(** The runtime container of a blueprint container, with its repos and secrets. *)
Definition containerOf (bc : ext.BlueprintContainer) (repos : list ext.ContainerRepo)
    (secrets : list ext.ContainerSecret) : ext.ContainerSpec := {|
  ext.c_ID := ext.bc_ID bc; ext.c_ContainerdID := ""; ext.c_RealmID := ""; ext.c_SpaceID := "";
  ext.c_StackID := ""; ext.c_CellID := ""; ext.c_Root := ext.bc_Root bc; ext.c_Image := ext.bc_Image bc;
  ext.c_Command := ext.bc_Command bc; ext.c_Args := ext.bc_Args bc; ext.c_WorkingDir := ext.bc_WorkingDir bc;
  ext.c_Env := ext.bc_Env bc; ext.c_Ports := ext.bc_Ports bc; ext.c_Volumes := ext.bc_Volumes bc;
  ext.c_Networks := ext.bc_Networks bc; ext.c_NetworksAliases := ext.bc_NetworksAliases bc;
  ext.c_Privileged := ext.bc_Privileged bc; ext.c_HostNetwork := ext.bc_HostNetwork bc;
  ext.c_HostPID := ext.bc_HostPID bc; ext.c_HostCgroup := ext.bc_HostCgroup bc; ext.c_User := ext.bc_User bc;
  ext.c_ReadOnlyRootFilesystem := ext.bc_ReadOnlyRootFilesystem bc;
  ext.c_Capabilities := ext.bc_Capabilities bc; ext.c_SecurityOpts := ext.bc_SecurityOpts bc;
  ext.c_Devices := ext.bc_Devices bc; ext.c_Tmpfs := ext.bc_Tmpfs bc; ext.c_Resources := ext.bc_Resources bc;
  ext.c_Secrets := secrets; ext.c_Repos := repos; ext.c_Git := ext.bc_Git bc; ext.c_CNIConfigPath := "";
  ext.c_RestartPolicy := ext.bc_RestartPolicy bc; ext.c_RestartBackoffSeconds := None;
  ext.c_RestartMaxRetries := None; ext.c_Attachable := ext.bc_Attachable bc; ext.c_Tty := ext.bc_Tty bc;
  ext.c_KukeonGroupGID := 0 |}.

Definition repoUnfilled (r : ext.ContainerRepo) : bool := String.eqb (TrimSpace (ext.repo_URL r)) "".

(** The container and the unfilled required slots that block it. *)
Definition materializeContainer (bc : ext.BlueprintContainer) : ext.ContainerSpec * list string :=
  let repos := List.filter (fun r => negb (repoUnfilled r)) (ext.bc_Repos bc) in
  let repoBlockers :=
    (fun r => "container " +:+ Quote (ext.bc_ID bc) +:+ " repo slot " +:+ Quote (ext.repo_Name r) +:+ " (url)")
      <$> List.filter (fun r => repoUnfilled r && ext.repo_Required r) (ext.bc_Repos bc) in
  let secretBlockers :=
    (fun s => "container " +:+ Quote (ext.bc_ID bc) +:+ " secret slot " +:+ Quote (ext.bss_Name s))
      <$> List.filter ext.bss_Required (ext.bc_Secrets bc) in
  (containerOf bc repos [], repoBlockers ++ secretBlockers).

Definition Prefix (doc : ext.CellBlueprintDoc) : string :=
  let p := TrimSpace (ext.bps_Prefix (ext.bp_Spec doc)) in
  if negb (String.eqb p "") then p else TrimSpace (ext.bpm_Name (ext.bp_Metadata doc)).

Definition blueprintProvenance (doc : ext.CellBlueprintDoc) (params : gmap string string)
    : option ext.CellProvenance :=
  let m := ext.bp_Metadata doc in
  Some {| ext.cp_BindingKind := ext.BindingKindBlueprint;
          ext.cp_BindingRef := {| ext.cbr_Name := TrimSpace (ext.bpm_Name m); ext.cbr_Realm := TrimSpace (ext.bpm_Realm m);
                                  ext.cbr_Space := TrimSpace (ext.bpm_Space m); ext.cbr_Stack := TrimSpace (ext.bpm_Stack m) |};
          ext.cp_Params := params; ext.cp_EnvOverrides := [] |}.

Definition zero_CellStatus : ext.CellStatus :=
  ext.Build_CellStatus ext.CellStatePending "" [] "" [] false 0%Z 0%Z 0%Z "" "" false 0%Z false "" "".

Definition cellDocOf (name : string) (labels : gmap string string) (realm space stack : string)
    (cell : ext.BlueprintCellSpec) (containers : list ext.ContainerSpec)
    (prov : option ext.CellProvenance) : ext.CellDoc := {|
  ext.cell_APIVersion := ext.APIVersionV1Beta1; ext.cell_Kind := ext.KindCell;
  ext.cell_Metadata := {| ext.cm_Name := name; ext.cm_Labels := labels; ext.cm_Annotations := ∅;
                          ext.cm_Generation := 0 |};
  ext.cell_Spec := {|
    ext.csp_ID := name; ext.csp_RealmID := realm; ext.csp_SpaceID := space; ext.csp_StackID := stack;
    ext.csp_RootContainerID := ""; ext.csp_Tty := cloneCellTty (ext.bcs_Tty cell);
    ext.csp_Containers := containers; ext.csp_AutoDelete := ext.bcs_AutoDelete cell;
    ext.csp_NestedCgroupRuntime := ext.bcs_NestedCgroupRuntime cell; ext.csp_RuntimeEnv := [];
    ext.csp_Provenance := prov; ext.csp_IgnoreDiskPressure := false |};
  ext.cell_Status := zero_CellStatus |}.

Section Materialize.
Context {W : Type} (rand_Read : nat → st W (result (list Z))).

Definition resolveCellName (doc : ext.CellBlueprintDoc) (nameOverride : string) : st W (result string) :=
  let override := TrimSpace nameOverride in
  if negb (String.eqb override "") then st_ret (Ok override)
  else
    let! name := GenerateCellName rand_Read (Prefix doc) in
    st_ret (match name with
            | Ok n => Ok n
            | Err e => Err (EWrap "blueprint %q: %w" [e])
            end).

Definition materializeNamed (doc : ext.CellBlueprintDoc) (cellName : string) (params : gmap string string)
    : result ext.CellDoc :=
  let made := materializeContainer <$> ext.bcs_Containers (ext.bps_Cell (ext.bp_Spec doc)) in
  if (0 <? length (concat (snd <$> made)))%nat then
    Err (EWrap "%w (blueprint %q: %s); use `kuke run --from-config` with a CellConfig that fills the slots"
           [ESentinel ErrBlueprintStructuralSlots])
  else
    let m := ext.bp_Metadata doc in
    Ok (cellDocOf cellName (mergeLabels (ext.bpm_Labels m) LabelBlueprint (ext.bpm_Name m))
          (TrimSpace (ext.bpm_Realm m)) (TrimSpace (ext.bpm_Space m)) (TrimSpace (ext.bpm_Stack m))
          (ext.bps_Cell (ext.bp_Spec doc)) (ExpandPerCellVolumes cellName (fst <$> made))
          (blueprintProvenance doc params)).

Definition MaterializeWithName (doc : ext.CellBlueprintDoc) (nameOverride : string)
    (params : gmap string string) : st W (result ext.CellDoc) :=
  let! cellName := resolveCellName doc nameOverride in
  st_ret (let? cellName := cellName in materializeNamed doc cellName params).

Definition Materialize (doc : ext.CellBlueprintDoc) : st W (result ext.CellDoc) :=
  MaterializeWithName doc "" ∅.

End Materialize.

(** ** Theorems: parameter values *)

(** Where a declared parameter takes its value from, in order. *)
Definition paramValue (cliParams : gmap string string) (lookupEnv : option (string → option string))
    (p : ext.CellBlueprintParameter) : option string :=
  match cliParams !! ext.bpp_Name p with
  | Some v => Some v
  | None => match ext.bpp_Default p with
            | Some v => Some v
            | None => lookupEnv ≫= (fun env => env (ext.bpp_Name p))
            end
  end.

Definition paramSatisfied cliParams lookupEnv (p : ext.CellBlueprintParameter) : bool :=
  negb (ext.bpp_Required p) || bool_decide (is_Some (paramValue cliParams lookupEnv p)).

Lemma resolveDeclared_spec params cli env acc :
  resolveDeclared params cli env acc
  = if forallb (paramSatisfied cli env) params
    then Ok (foldl (fun m p => <[ext.bpp_Name p := default "" (paramValue cli env p)]> m) acc params)
    else Err (errBlueprint "blueprint %q: required parameter %q is not set (provide --param %s=... or declare a spec.parameters[].default): %w").
Proof.
  revert acc. induction params as [|p params IH]; intros acc; [done|].
  cbn [resolveDeclared forallb foldl]. unfold paramSatisfied at 1.
  destruct (paramValue cli env p) as [v|] eqn:Ev; unfold paramValue in Ev.
  - rewrite bool_decide_true by eauto. rewrite orb_true_r. cbn [default andb].
    repeat case_match; simplify_eq; apply IH.
  - rewrite bool_decide_false by (intros []; done). cbn [default].
    repeat case_match; simplify_eq/=; try done; apply IH.
Qed.

Lemma foldl_declared {A B} (key : A → string) (val : A → B) l (acc : gmap string B) k :
  foldl (fun m x => <[key x := val x]> m) acc l !! k
  = match index_by key id l !! k with Some x => Some (val x) | None => acc !! k end.
Proof.
  induction l as [|x l IH] using rev_ind; [done|]. rewrite foldl_app, index_by_app. cbn.
  destruct (decide (key x = k)) as [<-|Hne]; [by rewrite !lookup_insert_eq|].
  rewrite !lookup_insert_ne by done. exact IH.
Qed.

(** Resolving a blueprint's parameters succeeds exactly when no key is given that
    the blueprint does not declare (a rendered configuration may give such keys) and
    every required parameter has a value; then each declared parameter takes its
    command-line value, else its default, else the environment's, else the empty
    string, and an undeclared key keeps the value given.  Every failure is reported
    as an invalid blueprint. *)
Theorem resolve_values_spec doc cli env lenient :
  let params := ext.bps_Parameters (ext.bp_Spec doc) in
  match resolveValues doc cli env lenient with
  | Ok values =>
      (lenient = true ∨ ∀ k v, cli !! k = Some v → ∃ p, p ∈ params ∧ ext.bpp_Name p = k) ∧
      (∀ p, p ∈ params → ext.bpp_Required p = true → is_Some (paramValue cli env p)) ∧
      ∀ k, values !! k = match index_by ext.bpp_Name id params !! k with
                         | Some p => Some (default "" (paramValue cli env p))
                         | None => cli !! k
                         end
  | Err e =>
      error_is ErrBlueprintInvalid e = true ∧
      ((lenient = false ∧ ∃ k v, cli !! k = Some v ∧ ∀ p, p ∈ params → ext.bpp_Name p ≠ k) ∨
       ∃ p, p ∈ params ∧ ext.bpp_Required p = true ∧ paramValue cli env p = None)
  end.
Proof.
  intros params. unfold resolveValues. fold params.
  set (undeclared := filter _ cli).
  assert (Hu : ∀ k v, undeclared !! k = Some v ↔ cli !! k = Some v ∧ index_by ext.bpp_Name id params !! k = None)
    by (intros k v; apply map_lookup_filter_Some).
  destruct (negb lenient && _) eqn:Es.
  - split; [done|]. left. apply andb_true_iff in Es as [Hl%negb_true_iff Hne%negb_true_iff].
    apply bool_decide_eq_false in Hne. apply map_choose in Hne as (k & v & Hkv). split; [done|].
    apply Hu in Hkv as [Hc Hi]. exists k, v. split; [done|]. by apply (index_by_lookup_None ext.bpp_Name id params k).
  - rewrite resolveDeclared_spec. destruct (forallb _ _) eqn:Ef.
    + split_and!.
      * apply andb_false_iff in Es as [El%negb_false_iff|Eu%negb_false_iff]; [by left|right].
        apply bool_decide_eq_true in Eu. intros k v Hk.
        destruct (index_by ext.bpp_Name id params !! k) as [p|] eqn:Ei.
        -- apply index_by_lookup_Some in Ei as (p' & ? & ? & _). eauto.
        -- assert (undeclared !! k = Some v) as E by by apply Hu. by rewrite Eu in E.
      * intros p Hp Hr. rewrite forallb_forall in Ef. apply list_elem_of_In in Hp. specialize (Ef p Hp).
        unfold paramSatisfied in Ef. rewrite Hr in Ef. by apply bool_decide_eq_true in Ef.
      * intros k. rewrite foldl_declared. destruct (index_by _ _ _ !! k) eqn:Ei; [done|].
        destruct (undeclared !! k) eqn:Ek; [by apply Hu in Ek as [-> _]|].
        destruct (cli !! k) eqn:Ec; [|done]. assert (undeclared !! k = Some s) as E by by apply Hu. congruence.
    + split; [done|]. right. apply not_true_iff_false in Ef. rewrite forallb_forall in Ef.
      assert (Hx : existsb (fun p => negb (paramSatisfied cli env p)) params = true).
      { destruct (existsb _ _) eqn:Ex; [done|]. rewrite existsb_false_elem in Ex. destruct Ef.
        intros p Hp%list_elem_of_In. specialize (Ex p Hp). by apply negb_false_iff in Ex. }
      apply existsb_elem in Hx as (p & Hp & Hn). exists p. split; [done|].
      unfold paramSatisfied in Hn. apply negb_true_iff, orb_false_iff in Hn as [Hr Hv].
      apply negb_false_iff in Hr. apply bool_decide_eq_false in Hv. split; [done|].
      destruct (paramValue cli env p); [by destruct Hv|done].
Qed.

(** ** Theorems: resolution *)

Lemma substituteScalars_plain values n :
  (∀ s, s ∈ scalars n → Contains s "${" = false) → substituteScalars values n = n.
Proof.
  unfold substituteScalars. induction n as [l IH|l IH|l IH|st t v|a] using node_ind'; intros Hs; cbn.
  - f_equal. induction IH as [|n l Hn _ IHl]; [done|]. cbn in *. f_equal; [apply Hn|apply IHl]; set_solver.
  - f_equal. cbn in Hs. induction l as [|k|k v l IHl] using pairs_ind; [done|done|].
    apply Forall_cons in IH as [_ [Hv IH]%Forall_cons]. rewrite (Hv ltac:(set_solver)).
    do 2 f_equal. apply IHl; [done|]. set_solver.
  - f_equal. induction IH as [|n l Hn _ IHl]; [done|]. cbn in *. f_equal; [apply Hn|apply IHl]; set_solver.
  - unfold substituteScalar. rewrite Hs; [done|]. cbn. set_solver.
  - done.
Qed.

Section ResolveTheorems.
Context `{YamlCodec ext.CellBlueprintDoc}.

(** A blueprint without references resolves to itself under every accepted
    parameter set, and storing a blueprint and fetching it returns it with its version
    and kind made canonical. *)
Theorem plain_blueprint_unchanged doc n cli env lenient :
  supportedVersion (ext.bp_APIVersion doc) = true →
  canonicalBlueprint doc = doc →
  yaml_faithful doc n → (∀ s, s ∈ scalars n → Contains s "${" = false) →
  (is_Ok (resolveValues doc cli env lenient) = true → resolve doc cli env lenient = Ok doc) ∧
  res_bind (ConvertCellBlueprintDocToInternal doc) ConvertCellBlueprintToExternal = Ok doc.
Proof.
  intros Hver Hcan (raw & Em & Eu & En & Ed) Hp. split.
  - unfold resolve. destruct (resolveValues _ _ _ _) as [v|]; [|done]. intros _. cbn [res_bind].
    by rewrite Em, En, substituteScalars_plain, Ed.
  - unfold ConvertCellBlueprintDocToInternal. rewrite Hver, Hcan, Em. cbn.
    unfold ConvertCellBlueprintToExternal. cbn. by rewrite Eu.
Qed.

(** Every failure of resolution that is not the codec's own is an invalid blueprint. *)
Lemma resolve_errors doc n cli env lenient e :
  yaml_faithful doc n → resolve doc cli env lenient = Err e → error_is ErrBlueprintInvalid e = true.
Proof.
  intros (raw & Em & _ & En & _). unfold resolve.
  pose proof (resolve_values_spec doc cli env lenient) as Hv. cbn zeta in Hv.
  destruct (resolveValues _ _ _ _) as [v|e']; cbn [res_bind]; [|intros [= <-]; apply Hv].
  rewrite Em, En. destruct (yaml_Decode _); [done|]. by intros [= <-].
Qed.

End ResolveTheorems.

Definition sample_blueprint : ext.CellBlueprintDoc := {|
  ext.bp_APIVersion := "v1beta1"; ext.bp_Kind := ext.KindCellBlueprint;
  ext.bp_Metadata := {| ext.bpm_Name := "dev"; ext.bpm_Realm := "r"; ext.bpm_Space := ""; ext.bpm_Stack := "";
                        ext.bpm_Labels := ∅ |};
  ext.bp_Spec := {| ext.bps_Prefix := "";
    ext.bps_Parameters := [ext.Build_CellBlueprintParameter "PORT" "" (Some "80") false];
    ext.bps_Cell := {| ext.bcs_Tty := None; ext.bcs_Containers := []; ext.bcs_AutoDelete := false;
                       ext.bcs_NestedCgroupRuntime := false |} |} |}.

(** A codec that represents the sample document. *)
Definition sampleCodec : YamlCodec ext.CellBlueprintDoc := {|
  yaml_Marshal := fun _ => Ok "doc"; yaml_Unmarshal := fun _ => Ok sample_blueprint;
  yaml_UnmarshalNode := fun _ => Ok (DocumentNode [ScalarNode 0 "!!str" "dev"]);
  yaml_Decode := fun _ => Ok sample_blueprint |}.

Lemma plain_blueprint_unchanged_witness :
  resolve (H := sampleCodec) sample_blueprint {[ "PORT" := "90" ]} None false = Ok sample_blueprint.
Proof.
  refine (proj1 (plain_blueprint_unchanged (H := sampleCodec) sample_blueprint
    (DocumentNode [ScalarNode 0 "!!str" "dev"]) {[ "PORT" := "90" ]} None false _ _ _ _) _).
  - reflexivity.
  - reflexivity.
  - by exists "doc".
  - cbn. set_solver.
  - vm_compute. reflexivity.
Defined.

(** ** Theorems: materialisation *)

(** The slots a blueprint cannot run without when nothing fills them. *)
Definition inline_runnable (doc : ext.CellBlueprintDoc) : Prop :=
  ∀ bc, bc ∈ ext.bcs_Containers (ext.bps_Cell (ext.bp_Spec doc)) →
    (∀ r, r ∈ ext.bc_Repos bc → ext.repo_Required r = true → TrimSpace (ext.repo_URL r) ≠ "") ∧
    (∀ s, s ∈ ext.bc_Secrets bc → ext.bss_Required s = false).

Lemma no_blockers bc :
  (materializeContainer bc).2 = [] ↔
  (∀ r, r ∈ ext.bc_Repos bc → ext.repo_Required r = true → TrimSpace (ext.repo_URL r) ≠ "") ∧
  (∀ s, s ∈ ext.bc_Secrets bc → ext.bss_Required s = false).
Proof.
  unfold materializeContainer. cbn [snd].
  assert (Hnil : ∀ {A B} (f : A → B) (p : A → bool) l, f <$> List.filter p l = [] ↔ ∀ x, x ∈ l → p x = false).
  { intros A B f p l. split.
    - intros E%fmap_nil_inv x Hx. destruct (p x) eqn:Ep; [|done].
      assert (x ∈ List.filter p l) as Hin by by apply filter_elem. rewrite E in Hin. by apply elem_of_nil in Hin.
    - intros Hx. induction l as [|x l IH]; [done|]. cbn. rewrite Hx by left. apply IH. intros y Hy. apply Hx. by right. }
  split.
  - intros [Hr Hs]%app_eq_nil. rewrite Hnil in Hr, Hs. split; [|done].
    intros r Hin Hreq. specialize (Hr r Hin). rewrite Hreq, andb_true_r in Hr.
    unfold repoUnfilled in Hr. by apply String.eqb_neq in Hr.
  - intros [Hr Hs]. rewrite (proj2 (Hnil _ _ _ _ _)), (proj2 (Hnil _ _ _ _ _)); [done|done|].
    intros r Hin. specialize (Hr r Hin). unfold repoUnfilled.
    destruct (ext.repo_Required r); [|by rewrite andb_false_r].
    rewrite andb_true_r. apply String.eqb_neq. by apply Hr.
Qed.

Lemma expand_other_fields n bc repos secrets :
  let c := set_ext_Volumes (expandVolume n <$> ext.bc_Volumes bc) (containerOf bc repos secrets) in
  ext.c_ID c = ext.bc_ID bc ∧ ext.c_Repos c = repos ∧ ext.c_Secrets c = secrets ∧
  ext.c_Root c = ext.bc_Root bc ∧ ext.c_Env c = ext.bc_Env bc.
Proof. done. Qed.

Lemma blockers_spec doc :
  inline_runnable doc ↔
  concat (snd <$> (materializeContainer <$> ext.bcs_Containers (ext.bps_Cell (ext.bp_Spec doc)))) = [].
Proof.
  unfold inline_runnable. setoid_rewrite <-no_blockers. generalize (ext.bcs_Containers (ext.bps_Cell (ext.bp_Spec doc))).
  intros l. symmetry. induction l as [|bc l IH]; [split; [|done]; by intros _ ? ?%elem_of_nil|]. cbn. split.
  - intros [E1 E2]%app_eq_nil bc' [->|Hin]%elem_of_cons; [done|]. by apply IH.
  - intros Hall. rewrite (Hall bc) by left. apply IH. intros bc' Hin. apply Hall. by right.
Qed.

(** A blueprint runs without a configuration exactly when every required slot is
    filled in the blueprint itself, and is refused as having structural slots
    otherwise.  The cell it makes bears the given name, keeps every container in order
    with exactly the repos that have a url and no secrets, and records the blueprint
    and the parameters it was made from. *)
Theorem blueprint_materialization doc name params :
  match materializeNamed doc name params with
  | Err e => error_is ErrBlueprintStructuralSlots e = true ∧ ¬ inline_runnable doc
  | Ok cell =>
      inline_runnable doc ∧ ext.cm_Name (ext.cell_Metadata cell) = name ∧
      ext.cm_Labels (ext.cell_Metadata cell) !! LabelBlueprint = Some (ext.bpm_Name (ext.bp_Metadata doc)) ∧
      Forall2 (fun bc c => ext.c_ID c = ext.bc_ID bc ∧ ext.c_Secrets c = [] ∧
          (∀ r, r ∈ ext.c_Repos c ↔ r ∈ ext.bc_Repos bc ∧ TrimSpace (ext.repo_URL r) ≠ "") ∧
          ext.c_Volumes c = expandVolume name <$> ext.bc_Volumes bc)
        (ext.bcs_Containers (ext.bps_Cell (ext.bp_Spec doc))) (ext.csp_Containers (ext.cell_Spec cell)) ∧
      ∃ p, ext.csp_Provenance (ext.cell_Spec cell) = Some p ∧ ext.cp_Params p = params ∧
        ext.cbr_Name (ext.cp_BindingRef p) = TrimSpace (ext.bpm_Name (ext.bp_Metadata doc))
  end.
Proof.
  pose proof (blockers_spec doc) as Hb. unfold materializeNamed.
  destruct (concat _) as [|b bs] eqn:Eb; cbn [length Nat.ltb Nat.leb].
  2:{ split; [done|]. by rewrite Hb. }
  split_and!; [by apply Hb|done|by apply lookup_insert_eq| |by eexists].
  cbn [cellDocOf ext.cell_Spec ext.csp_Containers]. unfold ExpandPerCellVolumes.
  rewrite <-!list_fmap_compose. apply Forall2_fmap_r. apply Forall_Forall2_diag, Forall_forall.
  intros bc _. cbn. split_and!; [done|done| |done].
  intros r. rewrite filter_elem. unfold repoUnfilled. by rewrite negb_true_iff, String.eqb_neq.
Qed.
