(* ===== verification/Config.v ===== *)
(** * Cell configurations (internal/cellconfig, internal/apischeme/cellconfig.go,
    runner/cell_runtime_env.go and the attach target of cmd/kuke/run/attach.go)

    A configuration names a blueprint and fills its parameters and slots.  This file
    models the check of the fills, the materialisation of a configured cell, the
    overlay of --env entries on the attachable container, and the two other places
    that pick an attachable container. *)

From Stdlib Require Import Ascii.
From stdpp Require Import base gmap strings list.
From S2P Require Import Prelude Model External Validate Scheme Naming Template Blueprint.

Local Open Scope nat_scope.

Definition LabelConfig : string := "kukeon.io/config".
Definition KukeonDefaultRealmName : string := "default".
Definition KukeonDefaultSpaceName : string := "default".
Definition KukeonDefaultStackName : string := "default".

(** cellconfig.Prefix *)
Definition configPrefix (cfg : ext.CellConfigDoc) : string :=
  let p := TrimSpace (ext.cfs_Prefix (ext.cfg_Spec cfg)) in
  if negb (String.eqb p "") then p else TrimSpace (ext.cfm_Name (ext.cfg_Metadata cfg)).

(** ** Slot fills *)

(** required[name] = required[name] || r, over the declarations in order *)
Definition requiredMap (slots : list (string * bool)) : gmap string bool :=
  foldl (fun m s => <[s.1 := default false (m !! s.1) || s.2]> m) ∅ slots.

Definition repoSlots (bp : ext.CellBlueprintDoc) : list (string * bool) :=
  concat ((fun c => (fun r => (TrimSpace (ext.repo_Name r), ext.repo_Required r))
                      <$> List.filter repoUnfilled (ext.bc_Repos c))
            <$> ext.bcs_Containers (ext.bps_Cell (ext.bp_Spec bp))).
Definition secretSlots (bp : ext.CellBlueprintDoc) : list (string * bool) :=
  concat ((fun c => (fun s => (TrimSpace (ext.bss_Name s), ext.bss_Required s)) <$> ext.bc_Secrets c)
            <$> ext.bcs_Containers (ext.bps_Cell (ext.bp_Spec bp))).

Definition unknownFill {A} (fills : gmap string A) (slots : gmap string bool) : bool :=
  existsb (fun kv => negb (bool_decide (is_Some (slots !! TrimSpace kv.1)))) (map_to_list fills).
Definition unfilledRequired {A} (fills : gmap string A) (slots : gmap string bool) : bool :=
  existsb (fun kv => kv.2 && negb (bool_decide (is_Some (fills !! kv.1)))) (map_to_list slots).

(** The loops run in map order; the order only chooses the slot an error names. *)
Definition ValidateSlotFill (cfg : ext.CellConfigDoc) (bp : ext.CellBlueprintDoc) : option error :=
  let repoRequired := requiredMap (repoSlots bp) in
  let secretRequired := requiredMap (secretSlots bp) in
  let repos := ext.cfs_Repos (ext.cfg_Spec cfg) in
  let secrets := ext.cfs_Secrets (ext.cfg_Spec cfg) in
  if unknownFill repos repoRequired then
    Some (EWrap "%w: repo slot %q" [ESentinel ErrConfigUnknownRepoSlot])
  else if unknownFill secrets secretRequired then
    Some (EWrap "%w: secret slot %q" [ESentinel ErrConfigUnknownSecretSlot])
  else if unfilledRequired repos repoRequired then
    Some (EWrap "%w: repo slot %q" [ESentinel ErrConfigRequiredSlotUnfilled])
  else if unfilledRequired secrets secretRequired then
    Some (EWrap "%w: secret slot %q" [ESentinel ErrConfigRequiredSlotUnfilled])
  else None.

(** ** Materialisation *)

Definition materializeSecretSlot (slot : ext.BlueprintSecretSlot) (fill : ext.CellConfigSecretFill)
    : result ext.ContainerSecret :=
  match ext.sf_SecretRef fill with
  | None => Err (EWrap "%w: container %q secret slot %q (fill has no secretRef)"
                   [ESentinel ErrConfigRequiredSlotUnfilled])
  | Some ref =>
      let mode := TrimSpace (ext.bss_Mode slot) in
      let mode := if String.eqb mode "" then ext.BlueprintSecretModeEnv else mode in
      if String.eqb mode ext.BlueprintSecretModeEnv then
        Ok {| ext.sec_Name := TrimSpace (ext.bss_EnvName slot); ext.sec_FromFile := ""; ext.sec_FromEnv := "";
              ext.sec_SecretRef := Some ref; ext.sec_MountPath := "" |}
      else if String.eqb mode ext.BlueprintSecretModeFile then
        Ok {| ext.sec_Name := TrimSpace (ext.bss_Name slot); ext.sec_FromFile := ""; ext.sec_FromEnv := "";
              ext.sec_SecretRef := Some ref; ext.sec_MountPath := TrimSpace (ext.bss_MountPath slot) |}
      else Err (EWrap "%w: container %q secret slot %q mode %q" [ESentinel ErrBlueprintInvalid])
  end.

Definition fillRepo (r : ext.ContainerRepo) (fill : ext.CellConfigRepoFill) : ext.ContainerRepo := {|
  ext.repo_Name := ext.repo_Name r; ext.repo_Target := ext.repo_Target r;
  ext.repo_Branch := if negb (String.eqb (TrimSpace (ext.rf_Branch fill)) "") then TrimSpace (ext.rf_Branch fill)
                     else ext.repo_Branch r;
  ext.repo_Ref := if negb (String.eqb (TrimSpace (ext.rf_Ref fill)) "") then TrimSpace (ext.rf_Ref fill)
                  else ext.repo_Ref r;
  ext.repo_URL := TrimSpace (ext.rf_URL fill); ext.repo_Required := ext.repo_Required r |}.

(** One slot: dropped, filled, or an error. *)
Definition materializeRepo (cfg : ext.CellConfigDoc) (r : ext.ContainerRepo)
    : result (option ext.ContainerRepo) :=
  if negb (repoUnfilled r) then Ok (Some r)
  else match ext.cfs_Repos (ext.cfg_Spec cfg) !! TrimSpace (ext.repo_Name r) with
       | None => if ext.repo_Required r
                 then Err (EWrap "%w: container %q repo slot %q" [ESentinel ErrConfigRequiredSlotUnfilled])
                 else Ok None
       | Some fill => Ok (Some (fillRepo r fill))
       end.
Definition materializeSecret (cfg : ext.CellConfigDoc) (s : ext.BlueprintSecretSlot)
    : result (option ext.ContainerSecret) :=
  match ext.cfs_Secrets (ext.cfg_Spec cfg) !! TrimSpace (ext.bss_Name s) with
  | None => if ext.bss_Required s
            then Err (EWrap "%w: container %q secret slot %q" [ESentinel ErrConfigRequiredSlotUnfilled])
            else Ok None
  | Some fill => let? cs := materializeSecretSlot s fill in Ok (Some cs)
  end.

(** A loop that appends what each step yields and stops at the first error. *)
Fixpoint collect {A B} (f : A → result (option B)) (l : list A) : result (list B) :=
  match l with
  | [] => Ok []
  | x :: l' => let? y := f x in let? ys := collect f l' in
               Ok (match y with Some y => y :: ys | None => ys end)
  end.

Definition configContainer (cfg : ext.CellConfigDoc) (bc : ext.BlueprintContainer)
    : result ext.ContainerSpec :=
  let? repos := collect (materializeRepo cfg) (ext.bc_Repos bc) in
  let? secrets := collect (materializeSecret cfg) (ext.bc_Secrets bc) in
  Ok (containerOf bc repos secrets).

Definition mergeConfigLabel (labels : gmap string string) (configName : string) : gmap string string :=
  <[LabelConfig := configName]> labels.

Definition defaultScope (v def : string) : string :=
  if negb (String.eqb (TrimSpace v) "") then TrimSpace v else def.

Definition configProvenance (cfg : ext.CellConfigDoc) : option ext.CellProvenance :=
  let m := ext.cfg_Metadata cfg in
  Some {| ext.cp_BindingKind := ext.BindingKindConfig;
          ext.cp_BindingRef := {| ext.cbr_Name := TrimSpace (ext.cfm_Name m); ext.cbr_Realm := TrimSpace (ext.cfm_Realm m);
                                  ext.cbr_Space := TrimSpace (ext.cfm_Space m); ext.cbr_Stack := TrimSpace (ext.cfm_Stack m) |};
          ext.cp_Params := ext.cfs_Values (ext.cfg_Spec cfg); ext.cp_EnvOverrides := [] |}.

(** The cell of a configuration over its resolved blueprint. *)
Definition materializeResolved (cfg : ext.CellConfigDoc) (resolved : ext.CellBlueprintDoc) (name : string)
    : result ext.CellDoc :=
  let? containers := collect (fun bc => let? c := configContainer cfg bc in Ok (Some c))
                       (ext.bcs_Containers (ext.bps_Cell (ext.bp_Spec resolved))) in
  let cellName := TrimSpace name in
  let m := ext.cfg_Metadata cfg in
  Ok (cellDocOf cellName (mergeConfigLabel (ext.cfm_Labels m) (ext.cfm_Name m))
        (defaultScope (ext.cfm_Realm m) KukeonDefaultRealmName)
        (defaultScope (ext.cfm_Space m) KukeonDefaultSpaceName)
        (defaultScope (ext.cfm_Stack m) KukeonDefaultStackName)
        (ext.bps_Cell (ext.bp_Spec resolved)) (ExpandPerCellVolumes cellName containers)
        (configProvenance cfg)).

Section Materialize.
Context `{YamlCodec ext.CellBlueprintDoc}.

(** cellconfig.MaterializeWithName *)
Definition materializeConfig (cfg : ext.CellConfigDoc) (bp : ext.CellBlueprintDoc) (name : string)
    : result ext.CellDoc :=
  match ValidateSlotFill cfg bp with
  | Some e => Err e
  | None =>
      match ResolveConfig bp (ext.cfs_Values (ext.cfg_Spec cfg)) None with
      | Err e => Err (EWrap "config %q: resolve blueprint %q: %w" [e])
      | Ok resolved => materializeResolved cfg resolved name
      end
  end.

End Materialize.

(** *** The stored carrier (internal/apischeme/cellconfig.go) *)

Section Carrier.
Context `{YamlCodec ext.CellConfigDoc}.

Definition canonicalConfig (d : ext.CellConfigDoc) : ext.CellConfigDoc := {|
  ext.cfg_APIVersion := ext.APIVersionV1Beta1; ext.cfg_Kind := ext.KindCellConfig;
  ext.cfg_Metadata := ext.cfg_Metadata d; ext.cfg_Spec := ext.cfg_Spec d |}.
Definition ConvertCellConfigDocToInternal (d : ext.CellConfigDoc) : result CellConfig :=
  if supportedVersion (ext.cfg_APIVersion d) then
    match yaml_Marshal (canonicalConfig d) with
    | Err e => Err (EWrap "marshal CellConfig document: %w" [e])
    | Ok document =>
        let m := ext.cfg_Metadata d in
        Ok {| cfg_Metadata := {| scn_Name := ext.cfm_Name m; scn_Realm := ext.cfm_Realm m;
                                 scn_Space := ext.cfm_Space m; scn_Stack := ext.cfm_Stack m;
                                 scn_Labels := ext.cfm_Labels m |};
              cfg_Document := document |}
    end
  else Err (EOpaque "unsupported apiVersion for CellConfig: %s").
Definition NormalizeCellConfig (d : ext.CellConfigDoc) : result (CellConfig * string) :=
  normalize (ext.cfg_APIVersion d) (ConvertCellConfigDocToInternal d).
Definition ConvertCellConfigToExternal (c : CellConfig) : result ext.CellConfigDoc :=
  match yaml_Unmarshal (cfg_Document c) with
  | Err e => Err (EWrap "unmarshal CellConfig document: %w" [e])
  | Ok doc => Ok doc
  end.

End Carrier.

Definition zero_ConfigSpec : ext.CellConfigSpec := {|
  ext.cfs_Prefix := ""; ext.cfs_Blueprint := ext.Build_CellConfigBlueprintRef "" "" "" "";
  ext.cfs_Values := ∅; ext.cfs_Repos := ∅; ext.cfs_Secrets := ∅ |}.
Definition ConvertCellConfigMetadataToExternal (c : CellConfig) : ext.CellConfigDoc :=
  let m := cfg_Metadata c in
  {| ext.cfg_APIVersion := ext.APIVersionV1Beta1; ext.cfg_Kind := ext.KindCellConfig;
     ext.cfg_Metadata := {| ext.cfm_Name := scn_Name m; ext.cfm_Realm := scn_Realm m;
                            ext.cfm_Space := scn_Space m; ext.cfm_Stack := scn_Stack m;
                            ext.cfm_Labels := scn_Labels m; ext.cfm_Annotations := ∅ |};
     ext.cfg_Spec := zero_ConfigSpec |}.
Definition ConvertCellConfigListToExternal (l : list CellConfig) : list ext.CellConfigDoc :=
  ConvertCellConfigMetadataToExternal <$> l.

(** ** The environment overlay *)

(** strings.Cut(entry, "="), its first result *)
Definition envKey (e : string) : string :=
  match cut_at "="%char e with Some (k, _) => k | None => e end.

Definition MergeEnv (specEnv envArgs : list string) : list string :=
  if (length envArgs =? 0)%nat then specEnv
  else
    let overrideKeys : gset string := list_to_set (envKey <$> envArgs) in
    List.filter (fun e => negb (bool_decide (envKey e ∈ overrideKeys))) specEnv ++ envArgs.

(** The first index that satisfies a test: a Go loop that returns its index. *)
Fixpoint find_index {A} (p : A → bool) (l : list A) : option nat :=
  match l with
  | [] => None
  | x :: l' => if p x then Some 0 else S <$> find_index p l'
  end.

Definition ResolveAttachableContainerIndex (spec : ext.CellSpec) : option nat :=
  let pref := match ext.csp_Tty spec with Some t => TrimSpace (ext.ctty_Default t) | None => "" end in
  let named := if String.eqb pref "" then None
               else find_index (fun c => negb (ext.c_Root c) && String.eqb (ext.c_ID c) pref)
                      (ext.csp_Containers spec) in
  match named with
  | Some i => Some i
  | None => find_index (fun c => negb (ext.c_Root c) && ext.c_Attachable c) (ext.csp_Containers spec)
  end.

Definition set_ext_Env (env : list string) (c : ext.ContainerSpec) : ext.ContainerSpec :=
  let 'ext.Build_ContainerSpec id cid r s t ce root im cm ar wd _ po vo ne na pr hn hp hc us ro ca so
    de tm re se rp gi cp pol bo mr at_ ty gid := c in
  ext.Build_ContainerSpec id cid r s t ce root im cm ar wd env po vo ne na pr hn hp hc us ro ca so
    de tm re se rp gi cp pol bo mr at_ ty gid.

Definition overlayContainers (spec : ext.CellSpec) (envArgs : list string) : list ext.ContainerSpec :=
  match ResolveAttachableContainerIndex spec with
  | Some i => alter (fun c => set_ext_Env (MergeEnv (ext.c_Env c) envArgs) c) i (ext.csp_Containers spec)
  | None => ext.csp_Containers spec
  end.

Definition ApplyEnvOverrides (doc : ext.CellDoc) (envArgs : list string) : ext.CellDoc :=
  if (length envArgs =? 0)%nat then doc
  else {| ext.cell_APIVersion := ext.cell_APIVersion doc; ext.cell_Kind := ext.cell_Kind doc;
          ext.cell_Metadata := ext.cell_Metadata doc;
          ext.cell_Spec :=
            let s := ext.cell_Spec doc in
            let 'ext.Build_CellSpec id r sp st root ty _ ad nc re pr dp := s in
            ext.Build_CellSpec id r sp st root ty (overlayContainers s envArgs) ad nc re
              ((fun p => {| ext.cp_BindingKind := ext.cp_BindingKind p; ext.cp_BindingRef := ext.cp_BindingRef p;
                            ext.cp_Params := ext.cp_Params p; ext.cp_EnvOverrides := envArgs |}) <$> pr) dp;
          ext.cell_Status := ext.cell_Status doc |}.

(** *** The runner's copy (cell_runtime_env.go) *)

Definition resolveAttachableContainerID (cell : Cell) : string :=
  let spec := cell_Spec cell in
  let pref := match csp_Tty spec with Some t => TrimSpace (ctty_Default t) | None => "" end in
  let named := if String.eqb pref "" then None
               else find_first (fun c => negb (c_Root c) && String.eqb (c_ID c) pref) (csp_Containers spec) in
  match named with
  | Some c => c_ID c
  | None => match find_first (fun c => negb (c_Root c) && c_Attachable c) (csp_Containers spec) with
            | Some c => c_ID c
            | None => ""
            end
  end.

Definition mergeRuntimeEnv (specEnv runtimeEnv : list string) : list string :=
  if (length runtimeEnv =? 0)%nat then specEnv
  else
    let runtimeKeys : gset string := list_to_set (envKey <$> runtimeEnv) in
    List.filter (fun e => negb (bool_decide (envKey e ∈ runtimeKeys))) specEnv ++ runtimeEnv.

Definition set_Env (env : list string) (c : ContainerSpec) : ContainerSpec :=
  let 'Build_ContainerSpec id cid r s t ce root im cm ar wd _ po vo ne na pr hn hp hc nc us ro ca so
    de tm re se rp gi cp pol bo mr at_ ty cg eh en := c in
  Build_ContainerSpec id cid r s t ce root im cm ar wd env po vo ne na pr hn hp hc nc us ro ca so
    de tm re se rp gi cp pol bo mr at_ ty cg eh en.

Definition mergeRuntimeEnvForContainer (spec : ContainerSpec) (attachableID : string)
    (runtimeEnv : list string) : ContainerSpec :=
  if (length runtimeEnv =? 0)%nat then spec
  else if String.eqb attachableID "" || negb (String.eqb (c_ID spec) attachableID) then spec
  else set_Env (mergeRuntimeEnv (c_Env spec) runtimeEnv) spec.

(** *** The command line's choice (cmd/kuke/run/attach.go) *)

Definition pickAttachTarget (spec : ext.CellSpec) (explicit : string) : result string :=
  let explicit := TrimSpace explicit in
  let cs := ext.csp_Containers spec in
  if negb (String.eqb explicit "") then
    match find_first (fun c => String.eqb (ext.c_ID c) explicit) cs with
    | Some c => if ext.c_Attachable c then Ok (ext.c_ID c)
                else Err (EWrap "container %q in cell %q is not attachable: %w; available attachable containers: %s"
                            [ESentinel ErrAttachNotSupported])
    | None => Err (EWrap "container %q not found in cell %q: %w; available attachable containers: %s"
                     [ESentinel ErrContainerNotFound])
    end
  else
    let name := match ext.csp_Tty spec with Some t => TrimSpace (ext.ctty_Default t) | None => "" end in
    if negb (String.eqb name "") then Ok name
    else match find_first ext.c_Attachable cs with
         | Some c => Ok (ext.c_ID c)
         | None => Err (EWrap "%w (cell %q); declare 'attachable: true' on one container or pass -d/--detach"
                          [ESentinel ErrAttachNoCandidate])
         end.

(** ** Theorems: slot fills *)

Lemma requiredMap_app l s : requiredMap (l ++ [s]) = <[s.1 := default false (requiredMap l !! s.1) || s.2]> (requiredMap l).
Proof. unfold requiredMap. by rewrite foldl_app. Qed.

(** A slot is declared by any of its declarations and required by any required one. *)
Lemma requiredMap_spec l k :
  (is_Some (requiredMap l !! k) ↔ ∃ b, (k, b) ∈ l) ∧ (requiredMap l !! k = Some true ↔ (k, true) ∈ l).
Proof.
  induction l as [|[k' b] l [IH1 IH2]] using rev_ind.
  - split; split; [by intros [? ?]|intros [b H]; by apply elem_of_nil in H|done|intros H; by apply elem_of_nil in H].
  - rewrite requiredMap_app. cbn [fst snd]. setoid_rewrite elem_of_app. setoid_rewrite list_elem_of_singleton.
    destruct (decide (k' = k)) as [->|Hne].
    + rewrite lookup_insert_eq. split; [split; [|done]; intros _; exists b; by right|].
      split.
      * intros [= E]. apply orb_true_iff in E as [E|E]; [|right; congruence]. left. apply IH2.
        destruct (requiredMap l !! k); simplify_eq/=; done.
      * intros [H|[= <-]]; [|by rewrite orb_true_r]. apply IH2 in H. by rewrite H.
    + rewrite lookup_insert_ne by done. rewrite IH1, IH2. naive_solver.
Qed.

Lemma unknownFill_spec {A} (fills : gmap string A) slots :
  unknownFill fills (requiredMap slots) = false ↔
  ∀ k, is_Some (fills !! k) → ∃ b, (TrimSpace k, b) ∈ slots.
Proof.
  unfold unknownFill. rewrite existsb_false_elem. split.
  - intros H k [f Hk]. specialize (H (k, f)). rewrite elem_of_map_to_list in H. specialize (H Hk).
    apply negb_false_iff, bool_decide_eq_true in H. by apply requiredMap_spec in H.
  - intros H [k f] Hk%elem_of_map_to_list. apply negb_false_iff, bool_decide_eq_true, requiredMap_spec, H. eauto.
Qed.

Lemma unfilledRequired_spec {A} (fills : gmap string A) slots :
  unfilledRequired fills (requiredMap slots) = false ↔ ∀ k, (k, true) ∈ slots → is_Some (fills !! k).
Proof.
  unfold unfilledRequired. rewrite existsb_false_elem. split.
  - intros H k Hk%requiredMap_spec. specialize (H (k, true)). rewrite elem_of_map_to_list in H.
    specialize (H Hk). cbn in H. by apply negb_false_iff, bool_decide_eq_true in H.
  - intros H [k b] Hk%elem_of_map_to_list. destruct b; [|done]. cbn.
    apply negb_false_iff, bool_decide_eq_true, H. by apply requiredMap_spec.
Qed.

Lemma repoSlots_spec bp k b :
  (k, b) ∈ repoSlots bp ↔ ∃ c r, c ∈ ext.bcs_Containers (ext.bps_Cell (ext.bp_Spec bp)) ∧ r ∈ ext.bc_Repos c ∧
    TrimSpace (ext.repo_URL r) = "" ∧ TrimSpace (ext.repo_Name r) = k ∧ ext.repo_Required r = b.
Proof.
  unfold repoSlots. rewrite elem_of_concat. setoid_rewrite list_elem_of_fmap. split.
  - intros (l & Hl & c & -> & Hc). apply list_elem_of_fmap in Hl as (r & [= -> ->] & [Hr Hu]%filter_elem).
    unfold repoUnfilled in Hu. apply String.eqb_eq in Hu. eauto 10.
  - intros (c & r & Hc & Hr & Hu & <- & <-). eexists. split; [|by exists c]. apply list_elem_of_fmap.
    exists r. split; [done|]. apply filter_elem. split; [done|]. unfold repoUnfilled. by rewrite Hu.
Qed.

Lemma secretSlots_spec bp k b :
  (k, b) ∈ secretSlots bp ↔ ∃ c s, c ∈ ext.bcs_Containers (ext.bps_Cell (ext.bp_Spec bp)) ∧ s ∈ ext.bc_Secrets c ∧
    TrimSpace (ext.bss_Name s) = k ∧ ext.bss_Required s = b.
Proof.
  unfold secretSlots. rewrite elem_of_concat. setoid_rewrite list_elem_of_fmap. split.
  - intros (l & Hl & c & -> & Hc). apply list_elem_of_fmap in Hl as (s & [= -> ->] & Hs). eauto 10.
  - intros (c & s & Hc & Hs & <- & <-). eexists. split; [|by exists c]. apply list_elem_of_fmap. eauto.
Qed.

(** What the check of the fills promises. *)
Record fills_match (cfg : ext.CellConfigDoc) (bp : ext.CellBlueprintDoc) : Prop := {
  fm_repo_known : ∀ k, is_Some (ext.cfs_Repos (ext.cfg_Spec cfg) !! k) → ∃ b, (TrimSpace k, b) ∈ repoSlots bp;
  fm_secret_known : ∀ k, is_Some (ext.cfs_Secrets (ext.cfg_Spec cfg) !! k) → ∃ b, (TrimSpace k, b) ∈ secretSlots bp;
  fm_repo_filled : ∀ k, (k, true) ∈ repoSlots bp → is_Some (ext.cfs_Repos (ext.cfg_Spec cfg) !! k);
  fm_secret_filled : ∀ k, (k, true) ∈ secretSlots bp → is_Some (ext.cfs_Secrets (ext.cfg_Spec cfg) !! k)
}.

Lemma ValidateSlotFill_spec cfg bp : ValidateSlotFill cfg bp = None ↔ fills_match cfg bp.
Proof.
  unfold ValidateSlotFill. split.
  - destruct (unknownFill _ _) eqn:E1; [done|]. destruct (unknownFill (ext.cfs_Secrets _) _) eqn:E2; [done|].
    destruct (unfilledRequired _ _) eqn:E3; [done|]. destruct (unfilledRequired (ext.cfs_Secrets _) _) eqn:E4; [done|].
    rewrite unknownFill_spec in E1. rewrite unknownFill_spec in E2.
    rewrite unfilledRequired_spec in E3. rewrite unfilledRequired_spec in E4. by split.
  - intros [H1 H2 H3 H4]. rewrite (proj2 (unknownFill_spec _ _) H1), (proj2 (unknownFill_spec _ _) H2).
    by rewrite (proj2 (unfilledRequired_spec _ _) H3), (proj2 (unfilledRequired_spec _ _) H4).
Qed.

(** ** Theorems: materialisation *)

Lemma collect_spec {A B} (f : A → result (option B)) l ys :
  collect f l = Ok ys ↔ ∃ os, Forall2 (fun x o => f x = Ok o) l os ∧ ys = omap id os.
Proof.
  revert ys. induction l as [|x l IH]; intros ys; cbn.
  - split; [intros [= <-]; by exists []|]. intros (os & H & ->). by apply Forall2_nil_inv_l in H as ->.
  - rewrite res_bind_Ok. setoid_rewrite res_bind_Ok. setoid_rewrite IH. split.
    + intros (o & Ho & ys' & (os & HF & ->) & [= <-]). exists (o :: os). split; [by constructor|]. by destruct o.
    + intros (os & HF & ->). apply Forall2_cons_inv_l in HF as (o & os' & Ho & HF & ->).
      exists o. split; [done|]. exists (omap id os'). split; [eauto|]. by destruct o.
Qed.

Lemma collect_ok {A B} (f : A → result (option B)) l :
  (∀ x, x ∈ l → is_Ok (f x) = true) → ∃ ys, collect f l = Ok ys.
Proof.
  induction l as [|x l IH]; intros H; [by eexists|]. cbn.
  destruct (f x) as [o|] eqn:E; [|by specialize (H x ltac:(left)); rewrite E in H].
  destruct IH as [ys ->]; [intros y Hy; apply H; by right|]. by eexists.
Qed.

(** *** What becomes of a slot *)

(** [v], or [dflt] when it is blank. *)
Definition given_or (v dflt x : string) : Prop :=
  (TrimSpace v ≠ "" ∧ x = TrimSpace v) ∨ (TrimSpace v = "" ∧ x = dflt).

(** A repo with a url is kept; a slot without takes the fill's url, and its branch and
    ref when the fill has them; an optional slot without a fill is dropped. *)
Inductive repo_slot (cfg : ext.CellConfigDoc) (r : ext.ContainerRepo) : option ext.ContainerRepo → Prop :=
| RepoOwn : TrimSpace (ext.repo_URL r) ≠ "" → repo_slot cfg r (Some r)
| RepoFilled fill x :
    TrimSpace (ext.repo_URL r) = "" →
    ext.cfs_Repos (ext.cfg_Spec cfg) !! TrimSpace (ext.repo_Name r) = Some fill →
    ext.repo_URL x = TrimSpace (ext.rf_URL fill) →
    given_or (ext.rf_Branch fill) (ext.repo_Branch r) (ext.repo_Branch x) →
    given_or (ext.rf_Ref fill) (ext.repo_Ref r) (ext.repo_Ref x) →
    ext.repo_Name x = ext.repo_Name r → ext.repo_Target x = ext.repo_Target r →
    ext.repo_Required x = ext.repo_Required r → repo_slot cfg r (Some x)
| RepoDropped :
    TrimSpace (ext.repo_URL r) = "" →
    ext.cfs_Repos (ext.cfg_Spec cfg) !! TrimSpace (ext.repo_Name r) = None →
    ext.repo_Required r = false → repo_slot cfg r None.

(** A filled secret slot becomes a reference to the fill's secret, as an environment
    variable (the default) or as a file; an optional one without a fill is dropped. *)
Inductive secret_slot (cfg : ext.CellConfigDoc) (s : ext.BlueprintSecretSlot) : option ext.ContainerSecret → Prop :=
| SecretEnv fill ref :
    ext.cfs_Secrets (ext.cfg_Spec cfg) !! TrimSpace (ext.bss_Name s) = Some fill →
    ext.sf_SecretRef fill = Some ref → TrimSpace (ext.bss_Mode s) ∈ [""; "env"] →
    secret_slot cfg s (Some {| ext.sec_Name := TrimSpace (ext.bss_EnvName s); ext.sec_FromFile := "";
      ext.sec_FromEnv := ""; ext.sec_SecretRef := Some ref; ext.sec_MountPath := "" |})
| SecretFile fill ref :
    ext.cfs_Secrets (ext.cfg_Spec cfg) !! TrimSpace (ext.bss_Name s) = Some fill →
    ext.sf_SecretRef fill = Some ref → TrimSpace (ext.bss_Mode s) = "file" →
    secret_slot cfg s (Some {| ext.sec_Name := TrimSpace (ext.bss_Name s); ext.sec_FromFile := "";
      ext.sec_FromEnv := ""; ext.sec_SecretRef := Some ref; ext.sec_MountPath := TrimSpace (ext.bss_MountPath s) |})
| SecretDropped :
    ext.cfs_Secrets (ext.cfg_Spec cfg) !! TrimSpace (ext.bss_Name s) = None →
    ext.bss_Required s = false → secret_slot cfg s None.

(** The cell's name in place of its variable. *)
Definition named (name s x : string) : Prop :=
  if Contains s "${CELL_NAME}" then x = ReplaceAll s "${CELL_NAME}" name else x = s.

(** A mount of a volume has the cell's name for its variable and is provisioned on demand
    when the variable occurs; every other mount is as written. *)
Record mount_for (name : string) (v x : ext.VolumeMount) : Prop := {
  mf_kind : ext.vm_Kind x = ext.vm_Kind v; mf_target : ext.vm_Target x = ext.vm_Target v;
  mf_readOnly : ext.vm_ReadOnly x = ext.vm_ReadOnly v; mf_size : ext.vm_SizeBytes x = ext.vm_SizeBytes v;
  mf_mode : ext.vm_Mode x = ext.vm_Mode v;
  mf_plain : ext.vm_Kind v ≠ "volume" → x = v;
  mf_source : ext.vm_Kind v = "volume" → named name (ext.vm_Source v) (ext.vm_Source x);
  mf_ref : ext.vm_Kind v = "volume" →
    match ext.vm_VolumeRef v, ext.vm_VolumeRef x with
    | Some r, Some q => named name (ext.vr_Name r) (ext.vr_Name q) ∧
        ext.vr_Realm q = ext.vr_Realm r ∧ ext.vr_Space q = ext.vr_Space r ∧ ext.vr_Stack q = ext.vr_Stack r
    | None, None => True
    | _, _ => False
    end;
  mf_ensure : ext.vm_Kind v = "volume" →
    ext.vm_Ensure x = ext.vm_Ensure v || Contains (ext.vm_Source v) "${CELL_NAME}"
      || match ext.vm_VolumeRef v with Some r => Contains (ext.vr_Name r) "${CELL_NAME}" | None => false end
}.

(** The container of a blueprint's container. *)
Record container_for (cfg : ext.CellConfigDoc) (name : string) (bc : ext.BlueprintContainer) (c : ext.ContainerSpec) : Prop := {
  cf_command : (ext.c_ID c, ext.c_Root c, ext.c_Image c, ext.c_Command c, ext.c_Args c, ext.c_WorkingDir c, ext.c_Env c, ext.c_User c)
    = (ext.bc_ID bc, ext.bc_Root bc, ext.bc_Image bc, ext.bc_Command bc, ext.bc_Args bc, ext.bc_WorkingDir bc, ext.bc_Env bc, ext.bc_User bc);
  cf_network : (ext.c_Ports c, ext.c_Networks c, ext.c_NetworksAliases c, ext.c_HostNetwork c, ext.c_HostPID c, ext.c_HostCgroup c)
    = (ext.bc_Ports bc, ext.bc_Networks bc, ext.bc_NetworksAliases bc, ext.bc_HostNetwork bc, ext.bc_HostPID bc, ext.bc_HostCgroup bc);
  cf_isolation : (ext.c_Privileged c, ext.c_ReadOnlyRootFilesystem c, ext.c_Capabilities c, ext.c_SecurityOpts c, ext.c_Devices c, ext.c_Tmpfs c, ext.c_Resources c)
    = (ext.bc_Privileged bc, ext.bc_ReadOnlyRootFilesystem bc, ext.bc_Capabilities bc, ext.bc_SecurityOpts bc, ext.bc_Devices bc, ext.bc_Tmpfs bc, ext.bc_Resources bc);
  cf_session : (ext.c_Git c, ext.c_RestartPolicy c, ext.c_Attachable c, ext.c_Tty c)
    = (ext.bc_Git bc, ext.bc_RestartPolicy bc, ext.bc_Attachable bc, ext.bc_Tty bc);
  cf_volumes : Forall2 (mount_for (TrimSpace name)) (ext.bc_Volumes bc) (ext.c_Volumes c);
  cf_repos : ∃ os, Forall2 (repo_slot cfg) (ext.bc_Repos bc) os ∧ ext.c_Repos c = omap id os;
  cf_secrets : ∃ os, Forall2 (secret_slot cfg) (ext.bc_Secrets bc) os ∧ ext.c_Secrets c = omap id os
}.

Lemma given_or_code v dflt :
  given_or v dflt (if negb (String.eqb (TrimSpace v) "") then TrimSpace v else dflt).
Proof. unfold given_or. destruct (String.eqb_spec (TrimSpace v) ""); cbn; auto. Qed.

Lemma materializeRepo_ok cfg r o : materializeRepo cfg r = Ok o → repo_slot cfg r o.
Proof.
  unfold materializeRepo, repoUnfilled. destruct (String.eqb_spec (TrimSpace (ext.repo_URL r)) "") as [Hu|Hu]; cbn [negb].
  - destruct (ext.cfs_Repos _ !! _) as [fill|] eqn:E.
    + intros [= <-]. eapply RepoFilled; [done|exact E|..]; try done; apply given_or_code.
    + destruct (ext.repo_Required r) eqn:Er; [done|]. intros [= <-]. by apply RepoDropped.
  - intros [= <-]. by apply RepoOwn.
Qed.

Lemma materializeSecret_ok cfg s o : materializeSecret cfg s = Ok o → secret_slot cfg s o.
Proof.
  unfold materializeSecret. destruct (ext.cfs_Secrets _ !! _) as [fill|] eqn:E.
  - rewrite res_bind_Ok. intros (x & Hx & [= <-]). unfold materializeSecretSlot in Hx.
    destruct (ext.sf_SecretRef fill) as [ref|] eqn:Er; [|done]. cbv zeta in Hx.
    destruct (String.eqb_spec (TrimSpace (ext.bss_Mode s)) "") as [Hm|Hm].
    { injection Hx as <-. eapply SecretEnv; [exact E|exact Er|]. rewrite Hm. left. }
    destruct (String.eqb_spec (TrimSpace (ext.bss_Mode s)) ext.BlueprintSecretModeEnv) as [Hm2|_].
    { injection Hx as <-. eapply SecretEnv; [exact E|exact Er|]. rewrite Hm2. right. left. }
    destruct (String.eqb_spec (TrimSpace (ext.bss_Mode s)) ext.BlueprintSecretModeFile) as [Hm3|_]; [|done].
    injection Hx as <-. by eapply SecretFile.
  - destruct (ext.bss_Required s) eqn:Er; [done|]. intros [= <-]. by apply SecretDropped.
Qed.

Lemma expandVolume_mount name v : mount_for name v (expandVolume name v).
Proof.
  unfold expandVolume. destruct (String.eqb_spec (ext.vm_Kind v) ext.VolumeKindVolume) as [Hk|Hk]; cbn [negb].
  2:{ split; try done; by intros ?. }
  split; try done; cbn; intros _; unfold named; fold CellNameVar.
  - by destruct (Contains _ _).
  - destruct (ext.vm_VolumeRef v) as [r|]; [|done]. by destruct (Contains (ext.vr_Name r) _).
  - destruct (Contains (ext.vm_Source v) _); cbn; [by rewrite orb_true_r|]. rewrite orb_false_r.
    destruct (ext.vm_VolumeRef v) as [r|]; [|by rewrite orb_false_r].
    destruct (Contains (ext.vr_Name r) _); by rewrite ?orb_true_r, ?orb_false_r.
Qed.

Lemma configContainer_ok cfg name bc c :
  configContainer cfg bc = Ok c →
  container_for cfg name bc
    (let 'ext.Build_ContainerSpec id cid r s t ce root im cm ar wd en po vo ne na pr hn hp hc us ro ca so
       de tm re se rp gi cp pol bo mr at_ ty gid := c in
     ext.Build_ContainerSpec id cid r s t ce root im cm ar wd en po (expandVolume (TrimSpace name) <$> vo) ne na pr hn hp hc us ro ca so
       de tm re se rp gi cp pol bo mr at_ ty gid).
Proof.
  unfold configContainer. rewrite res_bind_Ok. intros (rs & Hr & Hc).
  rewrite res_bind_Ok in Hc. destruct Hc as (ss & Hs & [= <-]).
  apply collect_spec in Hr as (ros & HR & ->). apply collect_spec in Hs as (sos & HS & ->). cbn.
  split; try done; cbn.
  - apply Forall2_fmap_r. apply Forall_Forall2_diag, Forall_true. intros v. apply expandVolume_mount.
  - exists ros. split; [|done]. eapply Forall2_impl; [exact HR|]. apply materializeRepo_ok.
  - exists sos. split; [|done]. eapply Forall2_impl; [exact HS|]. apply materializeSecret_ok.
Qed.

Lemma materializeRepo_total cfg r :
  (ext.repo_Required r = true → TrimSpace (ext.repo_URL r) = "" →
   is_Some (ext.cfs_Repos (ext.cfg_Spec cfg) !! TrimSpace (ext.repo_Name r))) →
  is_Ok (materializeRepo cfg r) = true.
Proof.
  unfold materializeRepo, repoUnfilled. intros H. destruct (String.eqb_spec (TrimSpace (ext.repo_URL r)) ""); [|done].
  cbn [negb]. destruct (_ !! _) eqn:E; [done|]. destruct (ext.repo_Required r); [|done].
  destruct (H eq_refl e) as [? H']. congruence.
Qed.

(** C16: The cell made from a configuration over a resolved blueprint has the
    blueprint's containers in order, each with the blueprint's settings.  A repo with a url is
    kept; a slot takes the url of the fill of its trimmed name, and its branch and ref when the
    fill has them; an optional slot without a fill is dropped, a required one never is.  Each
    filled secret slot yields, in order, one reference to the fill's secret, under the
    slot's variable or as a file at its mount path by its mode, and nothing else yields one.
    Volume mounts have the cell's name in place of its variable.  The scope is the
    configuration's with the default names for what is left out, and the labels are the
    configuration's with its name added. *)
Theorem config_materialization cfg bp name cell :
  materializeResolved cfg bp name = Ok cell →
  Forall2 (container_for cfg name)
    (ext.bcs_Containers (ext.bps_Cell (ext.bp_Spec bp))) (ext.csp_Containers (ext.cell_Spec cell)) ∧
  (let scope given dflt := if String.eqb (TrimSpace given) "" then dflt else TrimSpace given in
   let m := ext.cfg_Metadata cfg in
   ext.csp_RealmID (ext.cell_Spec cell) = scope (ext.cfm_Realm m) "default" ∧
   ext.csp_SpaceID (ext.cell_Spec cell) = scope (ext.cfm_Space m) "default" ∧
   ext.csp_StackID (ext.cell_Spec cell) = scope (ext.cfm_Stack m) "default") ∧
  ext.cm_Labels (ext.cell_Metadata cell) !! LabelConfig = Some (ext.cfm_Name (ext.cfg_Metadata cfg)) ∧
  ∀ k, k ≠ LabelConfig →
    ext.cm_Labels (ext.cell_Metadata cell) !! k = ext.cfm_Labels (ext.cfg_Metadata cfg) !! k.
Proof.
  unfold materializeResolved. rewrite res_bind_Ok. intros (cs & Hcs & [= <-]).
  split; [|split; [|split; [by apply lookup_insert_eq|intros k Hk; by apply lookup_insert_ne]]].
  2:{ cbn. unfold defaultScope.
      split_and!; (destruct (String.eqb_spec (TrimSpace (ext.cfm_Realm (ext.cfg_Metadata cfg))) ""),
        (String.eqb_spec (TrimSpace (ext.cfm_Space (ext.cfg_Metadata cfg))) ""),
        (String.eqb_spec (TrimSpace (ext.cfm_Stack (ext.cfg_Metadata cfg))) "")); done. }
  cbn [ext.cell_Spec cellDocOf ext.csp_Containers]. unfold ExpandPerCellVolumes. apply Forall2_fmap_r.
  apply collect_spec in Hcs as (os & HF & ->).
  induction HF as [|bc o bcs os Hbc _ IH]; [constructor|].
  rewrite res_bind_Ok in Hbc. destruct Hbc as (c & Hc & [= <-]). cbn. constructor; [|exact IH].
  apply (configContainer_ok _ name) in Hc. by destruct c.
Qed.

(** Slots that a fill can satisfy: a secretRef on the fill and a known mode. *)
Definition secret_fillable (cfg : ext.CellConfigDoc) (s : ext.BlueprintSecretSlot) : Prop :=
  (∀ fill, ext.cfs_Secrets (ext.cfg_Spec cfg) !! TrimSpace (ext.bss_Name s) = Some fill →
     is_Some (ext.sf_SecretRef fill)) ∧
  TrimSpace (ext.bss_Mode s) ∈ [""; ext.BlueprintSecretModeEnv; ext.BlueprintSecretModeFile].

Lemma materializeSecret_total cfg s :
  secret_fillable cfg s →
  (ext.bss_Required s = true → is_Some (ext.cfs_Secrets (ext.cfg_Spec cfg) !! TrimSpace (ext.bss_Name s))) →
  is_Ok (materializeSecret cfg s) = true.
Proof.
  intros [Hf Hm] Hr. unfold materializeSecret. destruct (_ !! _) as [fill|].
  - destruct (Hf fill eq_refl) as [r Er]. unfold materializeSecretSlot. rewrite Er.
    rewrite !elem_of_cons in Hm. destruct Hm as [-> | [-> | [-> | []%elem_of_nil]]]; done.
  - destruct (ext.bss_Required s); [|done]. by destruct (Hr eq_refl).
Qed.

(** The check of the fills is enough: a configuration whose fills match the
    blueprint's slots (every fill names a declared slot, every required slot is
    filled) materialises over that blueprint whenever its secret fills carry a
    reference and the slots a known mode; a configuration that is refused is refused
    for a fill of an undeclared slot or for an unfilled required one. *)
Theorem slot_check_sufficient cfg bp name :
  match ValidateSlotFill cfg bp with
  | None =>
      (∀ c s, c ∈ ext.bcs_Containers (ext.bps_Cell (ext.bp_Spec bp)) → s ∈ ext.bc_Secrets c → secret_fillable cfg s) →
      ∃ cell, materializeResolved cfg bp name = Ok cell
  | Some e =>
      ¬ fills_match cfg bp ∧
      (error_is ErrConfigUnknownRepoSlot e || error_is ErrConfigUnknownSecretSlot e
       || error_is ErrConfigRequiredSlotUnfilled e) = true
  end.
Proof.
  pose proof (ValidateSlotFill_spec cfg bp) as Hv. destruct (ValidateSlotFill cfg bp) as [e|] eqn:Ev.
  - split; [by rewrite <-Hv|]. unfold ValidateSlotFill in Ev. repeat case_match; simplify_eq; done.
  - destruct (proj1 Hv eq_refl) as [_ _ Hr Hs]. intros Hf. unfold materializeResolved.
    destruct (collect_ok (fun bc => let? c := configContainer cfg bc in Ok (Some c))
      (ext.bcs_Containers (ext.bps_Cell (ext.bp_Spec bp)))) as [cs ->]; [|by eexists].
    intros bc Hbc. unfold configContainer.
    destruct (collect_ok (materializeRepo cfg) (ext.bc_Repos bc)) as [rs ->].
    { intros r Hin. apply materializeRepo_total. intros Hreq Hurl. apply Hr, repoSlots_spec. eauto 10. }
    destruct (collect_ok (materializeSecret cfg) (ext.bc_Secrets bc)) as [ss ->]; [|done].
    intros s Hin. apply materializeSecret_total; [eauto|]. intros Hreq. apply Hs, secretSlots_spec. eauto 10.
Qed.

(** *** Samples *)

Definition sample_slot_container : ext.BlueprintContainer := {|
  ext.bc_ID := "web"; ext.bc_Root := false; ext.bc_Image := "img"; ext.bc_Command := ""; ext.bc_Args := [];
  ext.bc_WorkingDir := ""; ext.bc_Env := []; ext.bc_Ports := []; ext.bc_Volumes := []; ext.bc_Networks := [];
  ext.bc_NetworksAliases := []; ext.bc_Privileged := false; ext.bc_HostNetwork := false; ext.bc_HostPID := false;
  ext.bc_HostCgroup := false; ext.bc_User := ""; ext.bc_ReadOnlyRootFilesystem := false;
  ext.bc_Capabilities := None; ext.bc_SecurityOpts := []; ext.bc_Devices := []; ext.bc_Tmpfs := [];
  ext.bc_Resources := None;
  ext.bc_Repos := [{| ext.repo_Name := "src"; ext.repo_Target := "/src"; ext.repo_Branch := "main";
                      ext.repo_Ref := ""; ext.repo_URL := ""; ext.repo_Required := false |}];
  ext.bc_Git := None; ext.bc_RestartPolicy := ""; ext.bc_Attachable := true; ext.bc_Tty := None;
  ext.bc_Secrets := [] |}.
Definition sample_slot_blueprint : ext.CellBlueprintDoc := {|
  ext.bp_APIVersion := "v1beta1"; ext.bp_Kind := ext.KindCellBlueprint;
  ext.bp_Metadata := ext.bp_Metadata sample_blueprint;
  ext.bp_Spec := {| ext.bps_Prefix := ""; ext.bps_Parameters := [];
    ext.bps_Cell := {| ext.bcs_Tty := None; ext.bcs_Containers := [sample_slot_container];
                       ext.bcs_AutoDelete := false; ext.bcs_NestedCgroupRuntime := false |} |} |}.
Definition sample_config (slot : string) : ext.CellConfigDoc := {|
  ext.cfg_APIVersion := "v1beta1"; ext.cfg_Kind := ext.KindCellConfig;
  ext.cfg_Metadata := ext.Build_CellConfigMetadata "dev-cfg" "r" "" "" ∅ ∅;
  ext.cfg_Spec := {| ext.cfs_Prefix := ""; ext.cfs_Blueprint := ext.Build_CellConfigBlueprintRef "dev" "r" "" "";
    ext.cfs_Values := ∅;
    ext.cfs_Repos := {[ slot := {| ext.rf_URL := "https://x/y.git"; ext.rf_Branch := "dev"; ext.rf_Ref := "" |} ]};
    ext.cfs_Secrets := ∅ |} |}.

Lemma config_materialization_witness :
  match materializeResolved (sample_config "src") sample_slot_blueprint "c1" with
  | Ok cell =>
      (ext.repo_URL <$> concat (ext.c_Repos <$> ext.csp_Containers (ext.cell_Spec cell))) = ["https://x/y.git"] ∧
      ext.csp_StackID (ext.cell_Spec cell) = "default"
  | Err _ => False
  end.
Proof.
  destruct (materializeResolved (sample_config "src") sample_slot_blueprint "c1") as [cell|e] eqn:E;
    [|by vm_compute in E].
  destruct (config_materialization _ _ _ _ E) as (_ & (_ & _ & Hr) & _ & _). split; [|exact Hr].
  vm_compute in E. injection E as <-. vm_compute. reflexivity.
Defined.

Lemma slot_check_sufficient_witness :
  ValidateSlotFill (sample_config "src") sample_slot_blueprint = None ∧
  ∃ cell, materializeResolved (sample_config "src") sample_slot_blueprint "c1" = Ok cell.
Proof.
  pose proof (slot_check_sufficient (sample_config "src") sample_slot_blueprint "c1") as H.
  assert (E : ValidateSlotFill (sample_config "src") sample_slot_blueprint = None) by (vm_compute; reflexivity).
  rewrite E in H. split; [exact E|]. apply H.
  intros c s Hc Hs.
  cbn [sample_slot_blueprint ext.bp_Spec ext.bps_Cell ext.bcs_Containers] in Hc.
  apply list_elem_of_singleton in Hc as ->. inversion Hs.
Defined.

(** A fill under a padded slot name passes the check, which trims the name, and is
    then silently dropped by materialisation, which does not. *)
Lemma padded_fill_dropped :
  ValidateSlotFill (sample_config " src") sample_slot_blueprint = None ∧
  match materializeResolved (sample_config " src") sample_slot_blueprint "c1" with
  | Ok cell => concat (ext.c_Repos <$> ext.csp_Containers (ext.cell_Spec cell)) = []
  | Err _ => False
  end.
Proof. by vm_compute. Qed.

(** ** Theorems: the environment overlay *)

Lemma MergeEnv_runtime specEnv envArgs : mergeRuntimeEnv specEnv envArgs = MergeEnv specEnv envArgs.
Proof. done. Qed.

Lemma filter_all {A} (p : A → bool) l : (∀ x, x ∈ l → p x = true) → List.filter p l = l.
Proof.
  induction l as [|x l IH]; intros H; [done|]. cbn. rewrite H by left. f_equal. apply IH. intros y Hy. apply H. by right.
Qed.

Lemma MergeEnv_idem specEnv envArgs : MergeEnv (MergeEnv specEnv envArgs) envArgs = MergeEnv specEnv envArgs.
Proof.
  unfold MergeEnv. destruct (Nat.eqb_spec (length envArgs) 0); [done|]. cbv zeta. f_equal.
  set (p := fun e => _). rewrite List.filter_app. replace (List.filter p envArgs) with (@nil string).
  - rewrite app_nil_r. apply filter_all. by intros x [_ Hx]%filter_elem.
  - symmetry. destruct (List.filter p envArgs) as [|x l] eqn:E; [done|].
    assert (Hx : x ∈ List.filter p envArgs) by (rewrite E; left). apply filter_elem in Hx as [Hin Hp].
    unfold p in Hp. apply negb_true_iff, bool_decide_eq_false in Hp. destruct Hp.
    apply elem_of_list_to_set. by apply list_elem_of_fmap_2.
Qed.

(** What a container sees for a key: an override of the key hides every entry the
    spec had for it, and all other entries stay in order. *)
Lemma MergeEnv_entries specEnv envArgs e :
  e ∈ MergeEnv specEnv envArgs ↔
  e ∈ envArgs ∨ (e ∈ specEnv ∧ ∀ o, o ∈ envArgs → envKey o ≠ envKey e).
Proof.
  unfold MergeEnv. destruct envArgs as [|a l]; [cbn; set_solver|]. cbn [length Nat.eqb].
  rewrite elem_of_app, filter_elem, negb_true_iff, bool_decide_eq_false, elem_of_list_to_set, list_elem_of_fmap.
  naive_solver.
Qed.

Lemma set_ext_Env_idem env env' c : set_ext_Env env (set_ext_Env env' c) = set_ext_Env env c.
Proof. by destruct c. Qed.
Lemma set_ext_Env_fields env c :
  ext.c_Env (set_ext_Env env c) = env ∧ ext.c_ID (set_ext_Env env c) = ext.c_ID c ∧
  ext.c_Root (set_ext_Env env c) = ext.c_Root c ∧ ext.c_Attachable (set_ext_Env env c) = ext.c_Attachable c.
Proof. by destruct c. Qed.

Lemma find_index_ext {A} (p : A → bool) (l l' : list A) :
  Forall2 (fun x y => p x = p y) l l' → find_index p l = find_index p l'.
Proof. induction 1 as [|x y l l' E _ IH]; [done|]. cbn. by rewrite E, IH. Qed.

Lemma find_index_Some {A} (p : A → bool) l i :
  find_index p l = Some i → ∃ x, l !! i = Some x ∧ p x = true.
Proof.
  revert i. induction l as [|x l IH]; intros i; cbn; [done|]. destruct (p x) eqn:E; [intros [= <-]; eauto|].
  destruct (find_index p l) as [j|]; [|done]. intros [= <-]. by apply IH.
Qed.

(** The overlay leaves the choice of its target unchanged. *)
Lemma attachable_index_overlay spec id r sp st root ad nc re pr dp envArgs :
  ResolveAttachableContainerIndex
    (ext.Build_CellSpec id r sp st root (ext.csp_Tty spec) (overlayContainers spec envArgs) ad nc re pr dp)
  = ResolveAttachableContainerIndex spec.
Proof.
  assert (HF : Forall2 (fun x y => ext.c_ID x = ext.c_ID y ∧ ext.c_Root x = ext.c_Root y ∧
      ext.c_Attachable x = ext.c_Attachable y) (overlayContainers spec envArgs) (ext.csp_Containers spec)).
  { assert (Hd : ∀ l, Forall2 (fun x y => ext.c_ID x = ext.c_ID y ∧ ext.c_Root x = ext.c_Root y ∧
      ext.c_Attachable x = ext.c_Attachable y) l l) by (intros l; by apply Forall_Forall2_diag, Forall_forall).
    unfold overlayContainers. destruct (ResolveAttachableContainerIndex spec) as [i|]; [|apply Hd].
    apply Forall2_alter_l; [apply Hd|]. intros x y _ _ (E1 & E2 & E3).
    by destruct (set_ext_Env_fields (MergeEnv (ext.c_Env x) envArgs) x) as (_ & -> & -> & ->). }
  unfold ResolveAttachableContainerIndex. cbn [ext.csp_Tty ext.csp_Containers].
  assert (Hfi : ∀ p, (∀ x y, ext.c_ID x = ext.c_ID y ∧ ext.c_Root x = ext.c_Root y ∧
      ext.c_Attachable x = ext.c_Attachable y → p x = p y) →
    find_index p (overlayContainers spec envArgs) = find_index p (ext.csp_Containers spec)).
  { intros p Hp. apply find_index_ext. eapply Forall2_impl; [exact HF|exact Hp]. }
  rewrite !Hfi; [done|by intros x y (E1 & E2 & E3); rewrite ?E1, ?E2, ?E3..].
Qed.

(** Overlaying --env entries on a cell is stable: applying the same entries again
    changes nothing, so re-materialising and re-applying them reproduces the stored
    cell.  Only the environment of the container a run would attach to changes, and
    there an entry overrides every entry of the spec with its key. *)
Theorem env_overlay_stable doc envArgs :
  let doc' := ApplyEnvOverrides doc envArgs in
  ApplyEnvOverrides doc' envArgs = doc' ∧
  ext.cell_Metadata doc' = ext.cell_Metadata doc ∧
  ∀ i c, ext.csp_Containers (ext.cell_Spec doc) !! i = Some c →
    ∃ c', ext.csp_Containers (ext.cell_Spec doc') !! i = Some c' ∧ c' = set_ext_Env (ext.c_Env c') c ∧
      (ResolveAttachableContainerIndex (ext.cell_Spec doc) ≠ Some i → c' = c) ∧
      (ResolveAttachableContainerIndex (ext.cell_Spec doc) = Some i →
         ∀ e, e ∈ ext.c_Env c' ↔
           e ∈ envArgs ∨ (e ∈ ext.c_Env c ∧ ∀ o, o ∈ envArgs → envKey o ≠ envKey e)).
Proof.
  intros doc'. subst doc'.
  assert (Hset : ∀ c : ext.ContainerSpec, c = set_ext_Env (ext.c_Env c) c) by by intros [].
  unfold ApplyEnvOverrides. destruct (Nat.eqb_spec (length envArgs) 0) as [E|E].
  { split_and!; [done|done|]. intros i c Hi. exists c. split_and!; [done|done|done|].
    destruct envArgs; [|done]. set_solver. }
  destruct doc as [av kd md [id r sp st root ty cs ad nc re pr dp] stt]. cbn [ext.cell_Spec ext.cell_Metadata].
  split_and!; [|done|].
  - f_equal. set (spec := ext.Build_CellSpec id r sp st root ty cs ad nc re pr dp).
    f_equal; [|by destruct pr as [[]|]]. unfold overlayContainers at 1.
    rewrite (attachable_index_overlay spec). cbn [ext.csp_Containers].
    unfold overlayContainers. destruct (ResolveAttachableContainerIndex spec) as [j|]; [|done].
    rewrite list_alter_alter_eq. apply list_alter_ext; [|done]. intros c _. cbn.
    destruct (set_ext_Env_fields (MergeEnv (ext.c_Env c) envArgs) c) as (-> & _).
    by rewrite MergeEnv_idem, set_ext_Env_idem.
  - cbn [ext.csp_Containers]. intros i c Hi. unfold overlayContainers.
    destruct (ResolveAttachableContainerIndex _) as [j|].
    + destruct (decide (j = i)) as [->|Hne]; cbn [ext.csp_Containers].
      * rewrite list_lookup_alter_eq, Hi. cbn. eexists. split; [done|].
        destruct (set_ext_Env_fields (MergeEnv (ext.c_Env c) envArgs) c) as (-> & _).
        split_and!; [done|done|]. intros _ e. apply MergeEnv_entries.
      * rewrite list_lookup_alter_ne by done. exists c. split_and!; [done|done|done|]. intros [= ->]. done.
    + exists c. split_and!; done.
Qed.

Lemma env_overlay_stable_witness :
  ext.c_Env <$> overlayContainers (ext.cell_Spec sample_ext_cell) ["A=2"] = [[]; ["A=2"]].
Proof.
  destruct (env_overlay_stable sample_ext_cell ["A=2"]) as (_ & _ & H).
  destruct (H 1 _ eq_refl) as (c' & E & _). vm_compute in E. vm_compute. reflexivity.
Defined.

(** *** The three places that choose the attachable container *)

Lemma find_first_index {A} (p : A → bool) l : find_first p l = find_index p l ≫= (fun i => l !! i).
Proof.
  induction l as [|x l IH]; [done|]. cbn. destruct (p x); [done|].
  unfold find_first in IH. rewrite IH. by destruct (find_index p l).
Qed.

Lemma find_index_Forall2 {A B} (R : A → B → Prop) (p : A → bool) (q : B → bool) l l' :
  Forall2 R l l' → (∀ x y, R x y → p x = q y) → find_index p l = find_index q l'.
Proof. intros HF H. induction HF as [|x y l l' E _ IH]; [done|]. cbn. by rewrite (H x y E), IH. Qed.

(** A document's container and the stored one agree on what the overlay reads. *)
Definition same_overlay (e : ext.ContainerSpec) (c : ContainerSpec) : Prop :=
  c_ID c = ext.c_ID e ∧ c_Root c = ext.c_Root e ∧ c_Attachable c = ext.c_Attachable e ∧ c_Env c = ext.c_Env e.

Lemma converted_same_overlay l p : Forall2 same_overlay l (st_map convertContainerSpecToInternal l p).2.
Proof.
  apply st_map_Forall2. intros e q _. unfold convertContainerSpecToInternal, st_bind.
  by destruct (volumeMountsToInternal _ q).
Qed.

Lemma tty_pref_converted t :
  match convertCellTtyToInternal t with Some t => TrimSpace (ctty_Default t) | None => "" end
  = match t with Some t => TrimSpace (ext.ctty_Default t) | None => "" end.
Proof.
  destruct t as [[d]|]; [|done]. cbn. by destruct (String.eqb_spec d "") as [->|].
Qed.

(** The runner's choice, by position in the document it was converted from. *)
Lemma runner_choice s cell :
  Forall2 same_overlay (ext.csp_Containers s) (csp_Containers (cell_Spec cell)) →
  csp_Tty (cell_Spec cell) = convertCellTtyToInternal (ext.csp_Tty s) →
  resolveAttachableContainerID cell
  = default "" (ResolveAttachableContainerIndex s ≫= (fun i => ext.c_ID <$> ext.csp_Containers s !! i)).
Proof.
  intros HF Ht. unfold resolveAttachableContainerID, ResolveAttachableContainerIndex.
  rewrite Ht, tty_pref_converted. set (pref := match ext.csp_Tty s with Some t => _ | None => _ end).
  assert (Hid : ∀ i, c_ID <$> csp_Containers (cell_Spec cell) !! i = ext.c_ID <$> ext.csp_Containers s !! i).
  { intros i. destruct (csp_Containers (cell_Spec cell) !! i) as [c|] eqn:Ec.
    - destruct (Forall2_lookup_r _ _ _ _ _ HF Ec) as (e & -> & (E & _)). cbn. by rewrite E.
    - destruct (ext.csp_Containers s !! i) as [e|] eqn:Ee; [|done].
      destruct (Forall2_lookup_l _ _ _ _ _ HF Ee) as (c & Ec' & _). congruence. }
  rewrite !find_first_index.
  rewrite <-(find_index_Forall2 same_overlay (fun c => negb (ext.c_Root c) && String.eqb (ext.c_ID c) pref)
    _ _ _ HF) by (by intros x y (-> & -> & _)).
  rewrite <-(find_index_Forall2 same_overlay (fun c => negb (ext.c_Root c) && ext.c_Attachable c)
    _ _ _ HF) by (by intros x y (_ & -> & -> & _)).
  assert (Hopt : ∀ o : option nat, (∀ i, o = Some i → is_Some (csp_Containers (cell_Spec cell) !! i)) →
    match o ≫= (fun i => csp_Containers (cell_Spec cell) !! i) with Some c => c_ID c | None => "" end
    = default "" (o ≫= (fun i => ext.c_ID <$> ext.csp_Containers s !! i))).
  { intros [i|] _; [|done]. cbn. rewrite <-Hid. by destruct (csp_Containers (cell_Spec cell) !! i). }
  assert (Hin : ∀ p i, find_index p (ext.csp_Containers s) = Some i → is_Some (csp_Containers (cell_Spec cell) !! i)).
  { intros p i (e & He & _)%find_index_Some. destruct (Forall2_lookup_l _ _ _ _ _ HF He) as (c & Hc & _). eauto. }
  destruct (String.eqb pref ""); [apply Hopt; eauto|].
  destruct (find_index (fun c => negb (ext.c_Root c) && String.eqb (ext.c_ID c) pref) _) as [i|] eqn:Ei; [|apply Hopt; eauto].
  cbn. rewrite <-Hid. destruct (Hin _ _ Ei) as [c Hc]. by rewrite Hc.
Qed.

(** An --env entry has the same effect whether the client bakes it into the cell
    document or the runner merges it at start: for an accepted document with distinct
    non-empty container names, the environment the runner gives each container is the
    one the overlaid document gives it. *)
Theorem runtime_overlay_agrees d p cell envArgs i e c :
  (ConvertCellDocToInternal d p).2 = Ok cell →
  NoDup (ext.c_ID <$> ext.csp_Containers (ext.cell_Spec d)) →
  "" ∉ ext.c_ID <$> ext.csp_Containers (ext.cell_Spec d) →
  overlayContainers (ext.cell_Spec d) envArgs !! i = Some e → csp_Containers (cell_Spec cell) !! i = Some c →
  c_Env (mergeRuntimeEnvForContainer c (resolveAttachableContainerID cell) envArgs) = ext.c_Env e.
Proof.
  intros Hc Hnd Hne He Hci. destruct (convert_cell_inv d p cell Hc) as (_ & _ & _ & Hspec & _).
  set (s := ext.cell_Spec d) in *.
  assert (HF : Forall2 same_overlay (ext.csp_Containers s) (csp_Containers (cell_Spec cell)))
    by (rewrite Hspec; apply converted_same_overlay).
  rewrite (runner_choice s cell HF) by by rewrite Hspec.
  destruct (Forall2_lookup_r _ _ _ _ _ HF Hci) as (e0 & He0 & (Eid & _ & _ & Eenv)).
  unfold overlayContainers in He. unfold mergeRuntimeEnvForContainer.
  assert (Henv : ∀ env c, c_Env (set_Env env c) = env) by by intros ? [].
  destruct (ResolveAttachableContainerIndex s) as [j|] eqn:Ej; cbn.
  2:{ simplify_eq. by destruct (length envArgs =? 0). }
  destruct (Nat.eqb_spec (length envArgs) 0) as [El|El].
  { destruct envArgs; [|done]. rewrite Eenv. destruct (decide (j = i)) as [->|Hji].
    - rewrite list_lookup_alter_eq, He0 in He. cbn in He. injection He as <-.
      by destruct (set_ext_Env_fields (ext.c_Env e0) e0) as (-> & _).
    - rewrite list_lookup_alter_ne in He by done. by simplify_eq. }
  destruct (ext.csp_Containers s !! j) as [ej|] eqn:Eej; cbn.
  - assert (Hnej : ext.c_ID ej ≠ "").
    { intros Hn. apply Hne. apply list_elem_of_fmap. exists ej. split; [done|]. by apply list_elem_of_lookup_2 in Eej. }
    apply String.eqb_neq in Hnej. rewrite Hnej. cbn [orb]. rewrite Eid.
    destruct (String.eqb_spec (ext.c_ID e0) (ext.c_ID ej)) as [Eq|Nq]; cbn [negb].
    + assert (i = j) as ->.
      { eapply NoDup_lookup; [exact Hnd|rewrite list_lookup_fmap, He0; reflexivity|].
        rewrite list_lookup_fmap, Eej. cbn. by rewrite Eq. }
      rewrite list_lookup_alter_eq, He0 in He. cbn in He. injection He as <-.
      rewrite Henv, Eenv. by destruct (set_ext_Env_fields (MergeEnv (ext.c_Env e0) envArgs) e0) as (-> & _).
    + assert (j ≠ i) by congruence. rewrite list_lookup_alter_ne in He by done. by simplify_eq.
  - assert (j ≠ i) by congruence. rewrite list_lookup_alter_ne in He by done. by simplify_eq.
Qed.

Lemma runtime_overlay_agrees_witness :
  match (ConvertCellDocToInternal sample_ext_cell 1%positive).2 with
  | Ok cell => match csp_Containers (cell_Spec cell) !! 1 with
      | Some c => c_Env (mergeRuntimeEnvForContainer c (resolveAttachableContainerID cell) ["A=2"]) = ["A=2"]
      | None => False end
  | Err _ => False end.
Proof.
  destruct (ConvertCellDocToInternal sample_ext_cell 1%positive).2 as [cell|] eqn:E; [|by vm_compute in E].
  destruct (csp_Containers (cell_Spec cell) !! 1) as [c|] eqn:Ec; [|by vm_compute in E; injection E as <-].
  assert (Hnd : NoDup ["root"; "web"]) by (apply NoDup_ListNoDup; repeat constructor; cbn; intuition congruence).
  assert (Hin : "" ∉ ["root"; "web"]) by (rewrite !elem_of_cons; intros [?|[?|?%elem_of_nil]]; done).
  exact (runtime_overlay_agrees sample_ext_cell 1%positive cell ["A=2"] 1 _ c E Hnd Hin eq_refl Ec).
Defined.

(** The command line does not skip root containers: for a cell whose root container
    is attachable it attaches to the root, while the runner gives the --env entries to
    another container. *)
Lemma attach_target_may_be_root :
  let root := sample_ext_container "root" true true [] None in
  let web := sample_ext_container "web" false true [] None in
  let spec := ext.Build_CellSpec "c" "r" "s" "t" "root" None [root; web] false false [] None false in
  pickAttachTarget spec "" = Ok "root" ∧ ResolveAttachableContainerIndex spec = Some 1.
Proof. by vm_compute. Qed.
