(* ===== verification/Layout.v ===== *)
(** * The on-disk layout (internal/util/fs/metadata.go, runner/scope_children.go,
    runner/reclaim_scope.go and the residue scan of runner/delete_stack.go)

    Every resource has a path under the run path.  This file models path/filepath's
    Clean and Join, the path of every resource, the directory walks that tell child
    scopes from resource directories, and the reclaim of a purged scope's tree, and
    proves when two resources have the same path and what a reclaim leaves. *)

From Stdlib Require Import Ascii.
From stdpp Require Import base gmap strings list.
From S2P Require Import Prelude Model Validate Naming.

Local Open Scope nat_scope.

(** ** path/filepath *)

(** strings.Split on a one-byte separator *)
Fixpoint split_on (sep : ascii) (s : string) : list string :=
  match s with
  | EmptyString => [""]
  | String c s' =>
      if Ascii.eqb c sep then "" :: split_on sep s'
      else match split_on sep s' with
           | x :: l => String c x :: l
           | [] => [String c EmptyString]
           end
  end.

(** One element of Clean; [stack] is the path so far, innermost first. *)
Definition clean_step (rooted : bool) (stack : list string) (c : string) : list string :=
  if String.eqb c "" || String.eqb c "." then stack
  else if String.eqb c ".." then
    match stack with
    | top :: rest => if String.eqb top ".." then ".." :: stack else rest
    | [] => if rooted then [] else [".."]
    end
  else c :: stack.

Definition Clean (p : string) : string :=
  if String.eqb p "" then "."
  else
    let rooted := HasPrefix p "/" in
    let l := reverse (foldl (clean_step rooted) [] (split_on slash p)) in
    if rooted then "/" +:+ Join "/" l
    else match l with [] => "." | _ => Join "/" l end.

Fixpoint FJoin (elems : list string) : string :=
  match elems with
  | [] => ""
  | e :: rest => if String.eqb e "" then FJoin rest else Clean (Join "/" elems)
  end.

(** The prefix up to and with the last slash, and filepath.Dir. *)
Fixpoint through_last_slash (s : string) : string :=
  match s with
  | EmptyString => EmptyString
  | String c s' =>
      match through_last_slash s' with
      | EmptyString => if Ascii.eqb c slash then String c EmptyString else EmptyString
      | t => String c t
      end
  end.
Definition FDir (p : string) : string := Clean (through_last_slash p).

(** ** Paths (internal/util/fs/metadata.go) *)

Definition KukeonMetadataFile : string := "metadata.json".
Definition KukeonMetadataSubdir : string := "data".
Definition KukeonSecretsSubdir : string := "secrets".
Definition KukeonBlueprintsSubdir : string := "blueprints".
Definition KukeonConfigsSubdir : string := "configs".
Definition KukeonVolumesSubdir : string := "volumes".
Definition KukeonVolumeMetaSubdir : string := "volume-meta".
Definition KukeonContainerTTYDir : string := "tty".
Definition KukeonContainerSocketFile : string := "socket".
Definition KukeonContainerCaptureFile : string := "capture".
Definition KukeonContainerLogFile : string := "log".
Definition KukeonContainerKukettyLogFile : string := "kuketty.log".

Section Paths.
Context (base : string).

Definition MetadataRoot : string := FJoin [base; KukeonMetadataSubdir].
Definition RealmMetadataDir (realm : string) : string := FJoin [MetadataRoot; realm].
Definition RealmMetadataPath realm : string := FJoin [RealmMetadataDir realm; KukeonMetadataFile].
Definition SpaceMetadataDir realm space : string := FJoin [RealmMetadataDir realm; space].
Definition SpaceMetadataPath realm space : string := FJoin [SpaceMetadataDir realm space; KukeonMetadataFile].
Definition StackMetadataDir realm space stack : string := FJoin [SpaceMetadataDir realm space; stack].
Definition StackMetadataPath realm space stack : string :=
  FJoin [StackMetadataDir realm space stack; KukeonMetadataFile].
Definition CellMetadataDir realm space stack cell : string := FJoin [StackMetadataDir realm space stack; cell].
Definition CellMetadataPath realm space stack cell : string :=
  FJoin [CellMetadataDir realm space stack cell; KukeonMetadataFile].
Definition CellEtcHostsPath realm space stack cell : string :=
  FJoin [CellMetadataDir realm space stack cell; "etc-hosts"].
Definition CellEtcHostnamePath realm space stack cell : string :=
  FJoin [CellMetadataDir realm space stack cell; "etc-hostname"].
Definition ContainerMetadataDir realm space stack cell container : string :=
  FJoin [CellMetadataDir realm space stack cell; container].
Definition ContainerTTYDir realm space stack cell container : string :=
  FJoin [ContainerMetadataDir realm space stack cell container; KukeonContainerTTYDir].
Definition ContainerSocketPath realm space stack cell container : string :=
  FJoin [ContainerTTYDir realm space stack cell container; KukeonContainerSocketFile].
Definition ContainerCapturePath realm space stack cell container : string :=
  FJoin [ContainerTTYDir realm space stack cell container; KukeonContainerCaptureFile].
Definition ContainerKukettyLogPath realm space stack cell container : string :=
  FJoin [ContainerTTYDir realm space stack cell container; KukeonContainerKukettyLogFile].
Definition ContainerLogPath realm space stack cell container : string :=
  FJoin [ContainerMetadataDir realm space stack cell container; KukeonContainerLogFile].

Definition SecretScopeDir realm space stack cell : string :=
  if negb (String.eqb cell "") then CellMetadataDir realm space stack cell
  else if negb (String.eqb stack "") then StackMetadataDir realm space stack
  else if negb (String.eqb space "") then SpaceMetadataDir realm space
  else RealmMetadataDir realm.
Definition SecretsDir realm space stack cell : string :=
  FJoin [SecretScopeDir realm space stack cell; KukeonSecretsSubdir].
Definition SecretPath realm space stack cell name : string := FJoin [SecretsDir realm space stack cell; name].

Definition BlueprintScopeDir realm space stack : string :=
  if negb (String.eqb stack "") then StackMetadataDir realm space stack
  else if negb (String.eqb space "") then SpaceMetadataDir realm space
  else RealmMetadataDir realm.
Definition BlueprintsDir realm space stack : string :=
  FJoin [BlueprintScopeDir realm space stack; KukeonBlueprintsSubdir].
Definition BlueprintPath realm space stack name : string := FJoin [BlueprintsDir realm space stack; name].

Definition ConfigScopeDir realm space stack : string :=
  if negb (String.eqb stack "") then StackMetadataDir realm space stack
  else if negb (String.eqb space "") then SpaceMetadataDir realm space
  else RealmMetadataDir realm.
Definition ConfigsDir realm space stack : string := FJoin [ConfigScopeDir realm space stack; KukeonConfigsSubdir].
Definition ConfigPath realm space stack name : string := FJoin [ConfigsDir realm space stack; name].

Definition VolumeScopeDir realm space stack : string :=
  if negb (String.eqb stack "") then StackMetadataDir realm space stack
  else if negb (String.eqb space "") then SpaceMetadataDir realm space
  else RealmMetadataDir realm.
Definition VolumesDir realm space stack : string := FJoin [VolumeScopeDir realm space stack; KukeonVolumesSubdir].
Definition VolumePath realm space stack name : string := FJoin [VolumesDir realm space stack; name].
Definition VolumeMetaDir realm space stack : string :=
  FJoin [VolumeScopeDir realm space stack; KukeonVolumeMetaSubdir].
Definition VolumeMetaPath realm space stack name : string :=
  FJoin [VolumeMetaDir realm space stack; name +:+ ".json"].

End Paths.

(** ** Theorems: paths as lists of elements *)

(** An element Clean leaves alone. *)
Record seg_ok (s : string) : Prop := {
  so_nonempty : s ≠ "";
  so_slash : avoids slash s = true;
  so_dot : s ≠ ".";
  so_dotdot : s ≠ ".."
}.

(** The absolute path with the given elements. *)
Definition render_path (l : list string) : string := "/" +:+ Join "/" l.

#[local] Arguments String.append !_ _ / : simpl nomatch.

Lemma split_on_avoids sep s : avoids sep s = true → split_on sep s = [s].
Proof.
  induction s as [|c s IH]; [done|]. cbn. intros [Hc Hs]%andb_true_iff.
  apply negb_true_iff in Hc. by rewrite Hc, (IH Hs).
Qed.

Lemma split_on_nonempty sep s : split_on sep s ≠ [].
Proof. destruct s as [|c s]; [done|]. cbn. destruct (Ascii.eqb c sep); [done|]. by destruct (split_on sep s). Qed.

Lemma split_on_app sep a b : split_on sep (a +:+ String sep b) = split_on sep a ++ split_on sep b.
Proof.
  induction a as [|c a IH]; cbn; [by rewrite Ascii.eqb_refl|].
  destruct (Ascii.eqb c sep); [by rewrite IH|]. rewrite IH.
  pose proof (split_on_nonempty sep a). by destruct (split_on sep a).
Qed.

Lemma split_on_Join l x :
  Forall (fun s => avoids slash s = true) (x :: l) → split_on slash (Join "/" (x :: l)) = x :: l.
Proof.
  revert x. induction l as [|y l IH]; intros x [Hx Hl]%Forall_cons; [by apply split_on_avoids|].
  change (Join "/" (x :: y :: l)) with (x +:+ String slash (Join "/" (y :: l))).
  rewrite split_on_app, split_on_avoids by done. by rewrite (IH y Hl).
Qed.

Lemma clean_keeps rooted l stack :
  Forall seg_ok l → foldl (clean_step rooted) stack l = reverse l ++ stack.
Proof.
  intros H. revert stack. induction H as [|s l [H1 H2 H3 H4] _ IH]; intros stack; [done|].
  cbn [foldl]. rewrite IH. unfold clean_step. rewrite reverse_cons, <-app_assoc. cbn.
  by rewrite (proj2 (String.eqb_neq _ _) H1), (proj2 (String.eqb_neq _ _) H3), (proj2 (String.eqb_neq _ _) H4).
Qed.

Lemma split_render l : Forall seg_ok l →
  split_on slash (render_path l) = "" :: match l with [] => [""] | _ => l end.
Proof.
  intros H. change (render_path l) with (String slash (Join "/" l)). cbn [split_on].
  rewrite Ascii.eqb_refl. f_equal. destruct l as [|x l]; [done|]. apply split_on_Join.
  eapply Forall_impl; [exact H|]. by intros s [].
Qed.

Lemma clean_render rooted l stack : Forall seg_ok l →
  foldl (clean_step rooted) stack (split_on slash (render_path l)) = reverse l ++ stack.
Proof.
  intros H. rewrite split_render by done. cbn [foldl]. change (clean_step rooted stack "") with stack.
  destruct l as [|x l]; [done|]. by apply clean_keeps.
Qed.

Lemma HasPrefix_slash s : HasPrefix (String slash s) "/" = true.
Proof. change "/" with (String slash ""). rewrite HasPrefix_cons. cbn. by destruct s. Qed.

(** Joining a relative path to a clean absolute one. *)
Lemma FJoin_rel l p : Forall seg_ok l →
  FJoin [render_path l; p] = render_path (reverse (foldl (clean_step true) (reverse l) (split_on slash p))).
Proof.
  intros Hl. cbn [FJoin]. change (String.eqb (render_path l) "") with false. cbn beta iota.
  cbn [Join]. change ("/" +:+ p) with (String slash p). unfold Clean.
  change (render_path l +:+ String slash p) with (String slash (Join "/" l +:+ String slash p)).
  cbn [String.eqb]. rewrite HasPrefix_slash.
  change (String slash (Join "/" l +:+ String slash p)) with (render_path l +:+ String slash p).
  by rewrite split_on_app, foldl_app, clean_render, app_nil_r by done.
Qed.

Lemma split_on_parts sep s : Forall (fun x => avoids sep x = true) (split_on sep s).
Proof.
  induction s as [|c s IH]; [by repeat constructor|]. cbn. destruct (Ascii.eqb c sep) eqn:E; [by constructor|].
  destruct (split_on sep s) as [|x l]; [by repeat constructor; cbn; rewrite E|]. apply Forall_cons in IH as [Hx Hl].
  constructor; [|done]. cbn. by rewrite E.
Qed.
Lemma clean_step_seg stack x : Forall seg_ok stack → avoids slash x = true → Forall seg_ok (clean_step true stack x).
Proof.
  intros Hs Hx. unfold clean_step. destruct (String.eqb_spec x ""); [done|]. destruct (String.eqb_spec x "."); [done|].
  destruct (String.eqb_spec x ".."); cbn [orb]; [|by constructor].
  destruct Hs as [|t r Ht Hr]; [by constructor|]. destruct (String.eqb_spec t ".."); [by destruct Ht|done].
Qed.

(** A cleaned absolute path is made of plain elements. *)
Lemma Clean_rooted g : HasPrefix g "/" = true → ∃ l, Forall seg_ok l ∧ Clean g = render_path l.
Proof.
  intros Hp. unfold Clean. destruct (String.eqb_spec g "") as [->|]; [done|]. rewrite Hp. eexists. split; [|reflexivity].
  apply Forall_reverse. pose proof (split_on_parts slash g) as Hg.
  assert (Hi : ∀ l stack, Forall (fun x => avoids slash x = true) l → Forall seg_ok stack → Forall seg_ok (foldl (clean_step true) stack l)).
  { induction l as [|x l IH]; intros stack Hl Hs; [done|]. apply Forall_cons in Hl as [Hx Hl]. cbn [foldl]. by apply IH, clean_step_seg. }
  by apply Hi.
Qed.

Lemma FJoin_seg l s : Forall seg_ok l → seg_ok s → FJoin [render_path l; s] = render_path (l ++ [s]).
Proof.
  intros Hl Hs. rewrite FJoin_rel by done. rewrite (split_on_avoids slash s) by apply Hs.
  rewrite (clean_keeps true [s]) by (by constructor). f_equal. change (reverse [s] ++ reverse l) with (s :: reverse l).
  by rewrite reverse_cons, reverse_involutive.
Qed.

(** The directory of a clean path. *)
Lemma through_none s : avoids slash s = true → through_last_slash s = "".
Proof.
  induction s as [|c s IH]; [done|]. cbn. intros [Hc Hs]%andb_true_iff. rewrite (IH Hs).
  apply negb_true_iff in Hc. by rewrite Hc.
Qed.
Lemma through_app a s : avoids slash s = true → through_last_slash (a +:+ String slash s) = a +:+ "/".
Proof.
  intros Hs. induction a as [|c a IH].
  - change ("" +:+ String slash s) with (String slash s). cbn. by rewrite through_none.
  - change (String c a +:+ String slash s) with (String c (a +:+ String slash s)). cbn [through_last_slash]. rewrite IH.
    change (String c a +:+ "/") with (String c (a +:+ "/")). by destruct a.
Qed.
Lemma Join_snoc l s : l ≠ [] → Join "/" (l ++ [s]) = Join "/" l +:+ String slash s.
Proof.
  induction l as [|x [|y l] IH]; [done| |]; intros _; [done|].
  change (Join "/" ((x :: y :: l) ++ [s])) with (x +:+ "/" +:+ Join "/" ((y :: l) ++ [s])). rewrite IH by done.
  change (Join "/" (x :: y :: l)) with (x +:+ "/" +:+ Join "/" (y :: l)). by rewrite !string_app_assoc.
Qed.
Lemma FDir_render l s : Forall seg_ok l → seg_ok s → FDir (render_path (l ++ [s])) = render_path l.
Proof.
  intros Hl Hs. unfold FDir. destruct l as [|x l].
  { change (render_path ([] ++ [s])) with ("" +:+ String slash s). rewrite through_app by apply Hs. done. }
  unfold render_path at 1. rewrite Join_snoc by done. rewrite <-string_app_assoc, through_app by apply Hs.
  change ("/" +:+ Join "/" (x :: l)) with (render_path (x :: l)). unfold Clean.
  change (String.eqb (render_path (x :: l) +:+ "/") "") with false. cbn iota zeta.
  rewrite (HasPrefix_slash (Join "/" (x :: l) +:+ "/") : HasPrefix (render_path (x :: l) +:+ "/") "/" = true).
  change (render_path (x :: l) +:+ "/") with (render_path (x :: l) +:+ String slash "").
  rewrite split_on_app, foldl_app, clean_render, app_nil_r by done.
  change (foldl (clean_step true) (reverse (x :: l)) (split_on slash "")) with (reverse (x :: l)). by rewrite reverse_involutive.
Qed.
Lemma render_snoc l s : l ≠ [] → render_path (l ++ [s]) = render_path l +:+ String slash s.
Proof. intros Hl. unfold render_path. by rewrite Join_snoc, string_app_assoc. Qed.

(** Joining several plain elements at once. *)
Lemma FJoin_segs l x ss : Forall seg_ok l → Forall seg_ok (x :: ss) →
  FJoin (render_path l :: x :: ss) = render_path (l ++ x :: ss).
Proof.
  intros Hl Hs. transitivity (FJoin [render_path l; Join "/" (x :: ss)]); [done|].
  rewrite FJoin_rel by done. rewrite split_on_Join by (eapply Forall_impl; [exact Hs|by intros s []]).
  by rewrite clean_keeps, reverse_app, !reverse_involutive by done.
Qed.

(** Joining ".." climbs one element. *)
Lemma clean_step_up l s : seg_ok s → clean_step true (reverse (l ++ [s])) ".." = reverse l.
Proof.
  intros [_ _ _ Hd%String.eqb_neq]. rewrite reverse_app. change (reverse [s] ++ reverse l) with (s :: reverse l).
  unfold clean_step. cbn. by rewrite Hd.
Qed.

Lemma FJoin_parent l s : Forall seg_ok (l ++ [s]) → FJoin [render_path (l ++ [s]); ".."] = render_path l.
Proof.
  intros Hl. rewrite FJoin_rel by done. change (split_on slash "..") with [".."]. cbn [foldl].
  apply Forall_app in Hl as [_ [Hs _]%Forall_cons]. by rewrite clean_step_up, reverse_involutive.
Qed.

(** A sibling's content: "../x/n" from below [l ++ [s]]. *)
Lemma FJoin_sibling l s x n : Forall seg_ok (l ++ [s]) → seg_ok x → seg_ok n →
  FJoin [render_path (l ++ [s]); "../" +:+ x +:+ "/" +:+ n] = render_path (l ++ [x; n]).
Proof.
  intros Hl Hx Hn. rewrite FJoin_rel by done.
  change ("../" +:+ x +:+ "/" +:+ n) with (".." +:+ String slash (x +:+ String slash n)).
  rewrite !split_on_app, !split_on_avoids by (done || apply Hx || apply Hn).
  change ([".."] ++ [x] ++ [n]) with (".." :: [x; n]). cbn [foldl].
  assert (Hs : seg_ok s) by (apply Forall_app in Hl as [_ H]; by inversion H).
  rewrite clean_step_up by done. change (clean_step true (clean_step true (reverse l) x) n) with (foldl (clean_step true) (reverse l) [x; n]).
  rewrite clean_keeps by (apply Forall_cons_2; [done|by apply Forall_singleton]). by rewrite reverse_app, !reverse_involutive.
Qed.

(** An optional element: empty coordinates vanish. *)
Definition given (s : string) : list string := if String.eqb s "" then [] else [s].
Definition coord_ok (s : string) : Prop := s = "" ∨ seg_ok s.

Lemma given_ok s : coord_ok s → Forall seg_ok (given s).
Proof.
  intros [->|Hs]; [by constructor|]. unfold given. destruct (String.eqb_spec s ""); [by constructor|by apply Forall_singleton].
Qed.

Lemma FJoin_given l s : Forall seg_ok l → coord_ok s → FJoin [render_path l; s] = render_path (l ++ given s).
Proof.
  intros Hl [->|Hs].
  - rewrite FJoin_rel by done. change (foldl _ _ (split_on slash "")) with (reverse l).
    by rewrite reverse_involutive, app_nil_r.
  - unfold given. destruct (String.eqb_spec s "") as [->|_]; [by destruct Hs|]. by apply FJoin_seg.
Qed.

Lemma render_path_inj l1 l2 :
  Forall seg_ok l1 → Forall seg_ok l2 → render_path l1 = render_path l2 → l1 = l2.
Proof.
  intros H1 H2 E. apply (f_equal (split_on slash)) in E. rewrite !split_render in E by done.
  injection E as E. destruct l1 as [|x l1], l2 as [|y l2]; simplify_eq; try done.
  - apply Forall_cons in H2 as [[Hn _ _ _] _]. done.
  - apply Forall_cons in H1 as [[Hn _ _ _] _]. done.
Qed.

(** ** Theorems: the resources *)

(** A scope a resource can be bound to. *)
Inductive Scope :=
| ScRealm (r : string) | ScSpace (r s : string) | ScStack (r s t : string) | ScCell (r s t c : string).

Definition scope_names (sc : Scope) : list string :=
  match sc with
  | ScRealm r => [r] | ScSpace r s => [r; s] | ScStack r s t => [r; s; t] | ScCell r s t c => [r; s; t; c]
  end.

Inductive Resource :=
| RMetadata (sc : Scope)
| REtcHosts (r s t c : string) | REtcHostname (r s t c : string)
| RSocket (r s t c k : string) | RCapture (r s t c k : string) | RKukettyLog (r s t c k : string)
| RLog (r s t c k : string)
| RSecret (sc : Scope) (n : string)
| RBlueprint (sc : Scope) (n : string) | RConfig (sc : Scope) (n : string)
| RVolume (sc : Scope) (n : string) | RVolumeMeta (sc : Scope) (n : string).

(** The coordinates a scope is given by, empty below its depth. *)
Definition coords (sc : Scope) : string * string * string * string :=
  match sc with
  | ScRealm r => (r, "", "", "") | ScSpace r s => (r, s, "", "")
  | ScStack r s t => (r, s, t, "") | ScCell r s t c => (r, s, t, c)
  end.

Definition resource_path (base : string) (x : Resource) : string :=
  match x with
  | RMetadata (ScRealm r) => RealmMetadataPath base r
  | RMetadata (ScSpace r s) => SpaceMetadataPath base r s
  | RMetadata (ScStack r s t) => StackMetadataPath base r s t
  | RMetadata (ScCell r s t c) => CellMetadataPath base r s t c
  | REtcHosts r s t c => CellEtcHostsPath base r s t c
  | REtcHostname r s t c => CellEtcHostnamePath base r s t c
  | RSocket r s t c k => ContainerSocketPath base r s t c k
  | RCapture r s t c k => ContainerCapturePath base r s t c k
  | RKukettyLog r s t c k => ContainerKukettyLogPath base r s t c k
  | RLog r s t c k => ContainerLogPath base r s t c k
  | RSecret sc n => let '(r, s, t, c) := coords sc in SecretPath base r s t c n
  | RBlueprint sc n => let '(r, s, t, _) := coords sc in BlueprintPath base r s t n
  | RConfig sc n => let '(r, s, t, _) := coords sc in ConfigPath base r s t n
  | RVolume sc n => let '(r, s, t, _) := coords sc in VolumePath base r s t n
  | RVolumeMeta sc n => let '(r, s, t, _) := coords sc in VolumeMetaPath base r s t n
  end.

(** The names that have a meaning of their own inside a scope or a container. *)
Definition reserved_names : list string :=
  [KukeonMetadataFile; KukeonSecretsSubdir; KukeonBlueprintsSubdir; KukeonConfigsSubdir; KukeonVolumesSubdir;
   KukeonVolumeMetaSubdir; "etc-hosts"; "etc-hostname"; KukeonContainerTTYDir; KukeonContainerLogFile].

Definition plain_name (s : string) : Prop := seg_ok s ∧ s ∉ reserved_names.

(** Where a resource lives: the scope and container names above it, the reserved
    element that tells its kind, and what follows. *)
Definition parts (x : Resource) : list string * string * list string :=
  match x with
  | RMetadata sc => (scope_names sc, KukeonMetadataFile, [])
  | REtcHosts r s t c => ([r; s; t; c], "etc-hosts", [])
  | REtcHostname r s t c => ([r; s; t; c], "etc-hostname", [])
  | RSocket r s t c k => ([r; s; t; c; k], KukeonContainerTTYDir, [KukeonContainerSocketFile])
  | RCapture r s t c k => ([r; s; t; c; k], KukeonContainerTTYDir, [KukeonContainerCaptureFile])
  | RKukettyLog r s t c k => ([r; s; t; c; k], KukeonContainerTTYDir, [KukeonContainerKukettyLogFile])
  | RLog r s t c k => ([r; s; t; c; k], KukeonContainerLogFile, [])
  | RSecret sc n => (scope_names sc, KukeonSecretsSubdir, [n])
  | RBlueprint sc n => (scope_names sc, KukeonBlueprintsSubdir, [n])
  | RConfig sc n => (scope_names sc, KukeonConfigsSubdir, [n])
  | RVolume sc n => (scope_names sc, KukeonVolumesSubdir, [n])
  | RVolumeMeta sc n => (scope_names sc, KukeonVolumeMetaSubdir, [n +:+ ".json"])
  end.

Definition elems (x : Resource) : list string := let '(l, tag, rest) := parts x in l ++ tag :: rest.

Definition cell_scoped (sc : Scope) : bool := match sc with ScCell _ _ _ _ => true | _ => false end.

(** Every name is a plain path element and those of scopes and containers are not
    reserved (the daemon itself accepts "." and the reserved names, and a slash in the
    name of a blueprint or config); blueprints, configs and volumes are never bound to a cell. *)
Definition resource_wf (x : Resource) : Prop :=
  Forall plain_name (parts x).1.1 ∧ Forall seg_ok (parts x).2 ∧
  match x with
  | RBlueprint sc _ | RConfig sc _ | RVolume sc _ | RVolumeMeta sc _ => cell_scoped sc = false
  | _ => True
  end.

Lemma reserved_seg_ok s : s ∈ reserved_names → seg_ok s.
Proof.
  unfold reserved_names. rewrite !elem_of_cons.
  intros H. repeat destruct H as [->|H]; try (by split). by apply elem_of_nil in H.
Qed.

Lemma parts_tag x : (parts x).1.2 ∈ reserved_names.
Proof. destruct x; cbn; unfold reserved_names; set_solver. Qed.

Lemma elems_seg_ok x : resource_wf x → Forall seg_ok (elems x).
Proof.
  intros (H1 & H2 & _). unfold elems. pose proof (parts_tag x) as Ht. destruct (parts x) as [[l tag] rest].
  cbn in *. apply Forall_app. split; [eapply Forall_impl; [exact H1|]; by intros s []|].
  constructor; [by apply reserved_seg_ok|done].
Qed.

Ltac seg_side :=
  repeat first [ assumption | apply Forall_app; split | apply Forall_cons; split | apply Forall_nil_2 ];
  try assumption; try (by split).

#[local] Arguments FJoin : simpl never.
#[local] Arguments Clean : simpl never.
#[local] Arguments render_path : simpl never.

(** The directories of the scopes. *)
Lemma RealmMetadataDir_render bl r : Forall seg_ok bl → seg_ok r →
  RealmMetadataDir (render_path bl) r = render_path (bl ++ ["data"; r]).
Proof.
  intros Hb Hr. unfold RealmMetadataDir, MetadataRoot. rewrite !FJoin_seg by seg_side.
  by rewrite <-app_assoc.
Qed.
Lemma SpaceMetadataDir_render bl r s : Forall seg_ok bl → seg_ok r → seg_ok s →
  SpaceMetadataDir (render_path bl) r s = render_path (bl ++ ["data"; r; s]).
Proof.
  intros Hb Hr Hs. unfold SpaceMetadataDir. rewrite RealmMetadataDir_render, FJoin_seg by seg_side.
  by rewrite <-app_assoc.
Qed.
Lemma StackMetadataDir_render bl r s t : Forall seg_ok bl → seg_ok r → seg_ok s → seg_ok t →
  StackMetadataDir (render_path bl) r s t = render_path (bl ++ ["data"; r; s; t]).
Proof.
  intros Hb Hr Hs Ht. unfold StackMetadataDir. rewrite SpaceMetadataDir_render, FJoin_seg by seg_side.
  by rewrite <-app_assoc.
Qed.
Lemma CellMetadataDir_render bl r s t c : Forall seg_ok bl → seg_ok r → seg_ok s → seg_ok t → seg_ok c →
  CellMetadataDir (render_path bl) r s t c = render_path (bl ++ ["data"; r; s; t; c]).
Proof.
  intros Hb Hr Hs Ht Hc. unfold CellMetadataDir. rewrite StackMetadataDir_render, FJoin_seg by seg_side.
  by rewrite <-app_assoc.
Qed.

(** The scope directory all the resource directories hang off. *)
Lemma SecretScopeDir_render bl sc : Forall seg_ok bl → Forall seg_ok (scope_names sc) →
  (let '(r, s, t, c) := coords sc in SecretScopeDir (render_path bl) r s t c)
  = render_path (bl ++ "data" :: scope_names sc).
Proof.
  intros Hb Hs. assert (Hne : ∀ s, seg_ok s → String.eqb s "" = false) by (intros s []; by apply String.eqb_neq).
  destruct sc; cbn [coords scope_names] in *; decompose_Forall; unfold SecretScopeDir;
    change (String.eqb "" "") with true; cbn [negb]; rewrite ?Hne by done; cbn [negb].
  - by apply RealmMetadataDir_render.
  - by apply SpaceMetadataDir_render.
  - by apply StackMetadataDir_render.
  - by apply CellMetadataDir_render.
Qed.
Lemma scope_dirs_agree base sc : cell_scoped sc = false →
  let '(r, s, t, c) := coords sc in
  BlueprintScopeDir base r s t = SecretScopeDir base r s t c ∧
  ConfigScopeDir base r s t = SecretScopeDir base r s t c ∧
  VolumeScopeDir base r s t = SecretScopeDir base r s t c.
Proof. by destruct sc. Qed.

Lemma resource_path_render bl x : Forall seg_ok bl → resource_wf x →
  resource_path (render_path bl) x = render_path (bl ++ "data" :: elems x).
Proof.
  intros Hb Hwf. pose proof (elems_seg_ok x Hwf) as He. destruct Hwf as (_ & _ & Hc).
  assert (Hx : ∀ l sub n, Forall seg_ok (l ++ [sub; n]) →
    FJoin [FJoin [render_path l; sub]; n] = render_path (l ++ [sub; n])).
  { intros l sub n [Hl [Hsub [Hn _]%Forall_cons]%Forall_cons]%Forall_app.
    rewrite !FJoin_seg by seg_side. by rewrite <-app_assoc. }
  assert (Hall : Forall seg_ok (bl ++ "data" :: elems x)).
  { apply Forall_app. split; [done|]. constructor; [by split|done]. }
  assert (Hsub : ∀ sc sub n, Forall seg_ok (bl ++ "data" :: (scope_names sc ++ [sub; n])) →
    (let '(r, s, t, c) := coords sc in FJoin [FJoin [SecretScopeDir (render_path bl) r s t c; sub]; n])
    = render_path (bl ++ "data" :: (scope_names sc ++ [sub; n]))).
  { intros sc sub n H.
    assert (E : bl ++ "data" :: (scope_names sc ++ [sub; n]) = (bl ++ "data" :: scope_names sc) ++ [sub; n])
      by by rewrite <-app_assoc.
    rewrite E in *. pose proof H as [Hl _]%Forall_app. apply Forall_app in Hl as [_ [_ Hsc]%Forall_cons].
    pose proof (SecretScopeDir_render bl sc Hb Hsc) as Hd.
    destruct (coords sc) as [[[r s] t] c]. rewrite Hd. by apply Hx. }
  destruct x as [sc| | | | | | |sc n|sc n|sc n|sc n|sc n]; cbn [elems parts resource_path] in *.
  - destruct sc; cbn [scope_names app] in *; decompose_Forall;
      [unfold RealmMetadataPath; rewrite RealmMetadataDir_render, FJoin_seg by seg_side
      |unfold SpaceMetadataPath; rewrite SpaceMetadataDir_render, FJoin_seg by seg_side
      |unfold StackMetadataPath; rewrite StackMetadataDir_render, FJoin_seg by seg_side
      |unfold CellMetadataPath; rewrite CellMetadataDir_render, FJoin_seg by seg_side];
      by rewrite <-app_assoc.
  - decompose_Forall. unfold CellEtcHostsPath. rewrite CellMetadataDir_render, FJoin_seg by seg_side. by rewrite <-app_assoc.
  - decompose_Forall. unfold CellEtcHostnamePath. rewrite CellMetadataDir_render, FJoin_seg by seg_side. by rewrite <-app_assoc.
  - decompose_Forall. unfold ContainerSocketPath, ContainerTTYDir, ContainerMetadataDir.
    rewrite CellMetadataDir_render, !FJoin_seg by seg_side. by rewrite <-!app_assoc.
  - decompose_Forall. unfold ContainerCapturePath, ContainerTTYDir, ContainerMetadataDir.
    rewrite CellMetadataDir_render, !FJoin_seg by seg_side. by rewrite <-!app_assoc.
  - decompose_Forall. unfold ContainerKukettyLogPath, ContainerTTYDir, ContainerMetadataDir.
    rewrite CellMetadataDir_render, !FJoin_seg by seg_side. by rewrite <-!app_assoc.
  - decompose_Forall. unfold ContainerLogPath, ContainerMetadataDir.
    rewrite CellMetadataDir_render, !FJoin_seg by seg_side. by rewrite <-!app_assoc.
  - exact (Hsub sc _ n Hall).
  - destruct sc; [exact (Hsub (ScRealm _) _ n Hall)|exact (Hsub (ScSpace _ _) _ n Hall)
                 |exact (Hsub (ScStack _ _ _) _ n Hall)|done].
  - destruct sc; [exact (Hsub (ScRealm _) _ n Hall)|exact (Hsub (ScSpace _ _) _ n Hall)
                 |exact (Hsub (ScStack _ _ _) _ n Hall)|done].
  - destruct sc; [exact (Hsub (ScRealm _) _ n Hall)|exact (Hsub (ScSpace _ _) _ n Hall)
                 |exact (Hsub (ScStack _ _ _) _ n Hall)|done].
  - destruct sc; [exact (Hsub (ScRealm _) _ (n +:+ ".json") Hall)|exact (Hsub (ScSpace _ _) _ (n +:+ ".json") Hall)
                 |exact (Hsub (ScStack _ _ _) _ (n +:+ ".json") Hall)|done].
Qed.

Lemma plain_prefix_inj l1 x1 r1 l2 x2 r2 :
  Forall plain_name l1 → Forall plain_name l2 → x1 ∈ reserved_names → x2 ∈ reserved_names →
  l1 ++ x1 :: r1 = l2 ++ x2 :: r2 → l1 = l2 ∧ x1 = x2 ∧ r1 = r2.
Proof.
  intros H1. revert l2. induction H1 as [|a l1 [_ Ha] _ IH]; intros l2 H2 Hx1 Hx2;
    destruct H2 as [|b l2 [_ Hb] H2]; cbn [app].
  - by intros [= -> ->].
  - by intros [= -> _].
  - by intros [= -> _].
  - intros [= -> E]. by destruct (IH l2 H2 Hx1 Hx2 E) as (-> & -> & ->).
Qed.

Lemma scope_names_inj sc1 sc2 : scope_names sc1 = scope_names sc2 → sc1 = sc2.
Proof. destruct sc1, sc2; cbn; intros; by simplify_eq. Qed.

Lemma string_app_inj_r (a b x : string) : a +:+ x = b +:+ x → a = b.
Proof.
  intros E. assert (L : ∀ s t, String.length (s +:+ t) = String.length s + String.length t).
  { induction s as [|c s IH]; intros t; [done|]. cbn. by rewrite IH. }
  assert (HL : String.length a = String.length b).
  { apply (f_equal String.length) in E. rewrite !L in E. lia. }
  revert b E HL. induction a as [|c a IH]; intros [|d b] E HL; try done.
  cbn in E. injection E as -> E. f_equal. apply IH; [done|]. by injection HL.
Qed.

Lemma parts_inj x y : parts x = parts y → x = y.
Proof.
  destruct x, y; cbn; intros E; simplify_eq; try done;
    repeat match goal with
    | H : scope_names _ = scope_names _ |- _ => apply scope_names_inj in H as ->
    | H : _ +:+ ".json" = _ +:+ ".json" |- _ => apply string_app_inj_r in H as ->
    end; done.
Qed.

Lemma elems_inj x y : resource_wf x → resource_wf y → elems x = elems y → x = y.
Proof.
  intros (Hpx & _) (Hpy & _) E. apply parts_inj. unfold elems in E.
  pose proof (parts_tag x). pose proof (parts_tag y).
  destruct (parts x) as [[l1 t1] r1], (parts y) as [[l2 t2] r2]. cbn in *.
  destruct (plain_prefix_inj l1 t1 r1 l2 t2 r2) as (-> & -> & ->); done.
Qed.

(** C12: No two resources share a path, below an absolute run path: as long as every name
    is a plain path element (not empty, "." or "..", without a slash) and no realm, space,
    stack, cell or container bears one of the names the layout reserves, the path of a
    metadata file, generated file, socket, log, secret, blueprint, config, volume or
    reclaim manifest determines the resource. *)
Theorem layout_injective bl x y :
  Forall seg_ok bl → resource_wf x → resource_wf y →
  resource_path (render_path bl) x = resource_path (render_path bl) y → x = y.
Proof.
  intros Hb Hx Hy E. rewrite !resource_path_render in E by done.
  pose proof (elems_seg_ok x Hx). pose proof (elems_seg_ok y Hy).
  assert (Hd : seg_ok "data") by by split.
  apply render_path_inj in E; [|apply Forall_app; split; [done|by constructor]..].
  apply (inj (app bl)) in E. injection E as E. by apply elems_inj.
Qed.

Lemma layout_injective_witness :
  resource_path "/opt/kukeon" (RSecret (ScRealm "r") "token") = "/opt/kukeon/data/r/secrets/token" ∧
  resource_path "/opt/kukeon" (RSecret (ScRealm "r") "token")
  ≠ resource_path "/opt/kukeon" (RVolume (ScSpace "r" "s") "token").
Proof.
  split; [vm_compute; reflexivity|]. intros E.
  assert (Hp : ∀ s, s ∈ ["r"; "s"] → plain_name s).
  { intros s Hs. rewrite !elem_of_cons in Hs. destruct Hs as [->|[->|Hs%elem_of_nil]]; [..|done];
      (split; [by split|apply (bool_decide_unpack _); vm_compute; exact I]). }
  assert (X : RSecret (ScRealm "r") "token" = RVolume (ScSpace "r" "s") "token").
  { apply (layout_injective ["opt"; "kukeon"]).
    - seg_side.
    - split; [apply Forall_forall; cbn; set_solver|]. split; [cbn; seg_side|done].
    - split; [apply Forall_forall; cbn; set_solver|]. split; [cbn; seg_side|done].
    - exact E. }
  discriminate.
Defined.

(** *** What the reserved names alias *)

(** The reserved names are needed, and nothing refuses them: a space named
    "secrets", "volumes", ... has for its own directory the directory that holds its
    realm's secrets, volumes, ..., and a child named ".." has its grandparent's, while
    the name check accepts each of these names. *)
Theorem reserved_names_alias bl r :
  Forall seg_ok bl → seg_ok r →
  let base := render_path bl in
  (∀ n, n ∈ ["secrets"; "blueprints"; "configs"; "volumes"; ".."] → ValidateHierarchyName "space" n = None) ∧
  SpaceMetadataDir base r "secrets" = SecretsDir base r "" "" "" ∧
  SpaceMetadataDir base r "volumes" = VolumesDir base r "" "" ∧
  SpaceMetadataPath base r "secrets" = SecretPath base r "" "" "" "metadata.json" ∧
  SpaceMetadataDir base r ".." = MetadataRoot base ∧
  (∀ s t, seg_ok s → seg_ok t → CellMetadataDir base r s t ".." = SpaceMetadataDir base r s).
Proof.
  intros Hb Hr base. assert (Hd : seg_ok "data") by by split. split_and!.
  - intros n. rewrite !elem_of_cons. intros H. repeat destruct H as [->|H]; try reflexivity. by apply elem_of_nil in H.
  - done.
  - done.
  - done.
  - unfold SpaceMetadataDir, base. rewrite RealmMetadataDir_render by done.
    change (bl ++ ["data"; r]) with (bl ++ (["data"] ++ [r])). rewrite app_assoc, FJoin_parent by seg_side.
    unfold MetadataRoot. by rewrite FJoin_seg.
  - intros s t Hs Ht. unfold CellMetadataDir, base. rewrite StackMetadataDir_render, SpaceMetadataDir_render by done.
    change (bl ++ ["data"; r; s; t]) with (bl ++ (["data"; r; s] ++ [t])). rewrite app_assoc, FJoin_parent by seg_side.
    done.
Qed.

Lemma reserved_names_alias_witness :
  SpaceMetadataDir "/opt/kukeon" "r" ".." = "/opt/kukeon/data".
Proof.
  destruct (reserved_names_alias ["opt"; "kukeon"] "r") as (_ & _ & _ & _ & E & _).
  - seg_side.
  - by split.
  - etrans; [exact E|]. vm_compute. reflexivity.
Defined.
