(* ===== verification/Reclaim.v ===== *)
(** * Directory walks and the reclaim of a purged scope
    (runner/scope_children.go, runner/reclaim_scope.go, the residue scan of
    runner/delete_stack.go)

    A directory tree is modelled with its file contents; an absolute path is the list
    of its elements ([Layout.render_path]).  The calls into the file system are taken
    to succeed, as they do on a tree no one else changes; the errors the code itself
    raises (an unreadable manifest) are modelled. *)

From stdpp Require Import base gmap strings list.
From S2P Require Import Prelude Model External Validate Naming Layout.

Local Open Scope nat_scope.

(** ** Directory trees *)

Inductive tree :=
| File (data : string)
| Dir (entries : list (string * tree)).

Definition is_dir (t : tree) : bool := match t with Dir _ => true | File _ => false end.

(** filepath.Join of a clean absolute path and one directory entry's name *)
Definition path_join (path : list string) (name : string) : list string :=
  reverse (clean_step true (reverse path) name).

(** ** Child scopes *)

Definition reservedScopeSubdirs : gset string :=
  {[ KukeonSecretsSubdir; KukeonBlueprintsSubdir; KukeonConfigsSubdir; KukeonVolumesSubdir;
     KukeonVolumeMetaSubdir ]}.

(** [dir] is what os.ReadDir finds at the scope's directory, None when it does not
    exist; a wanted child is looked up by name even when the name is reserved. *)
Definition childScopeNames (dir : option (list (string * tree))) (want : string) : list string :=
  match dir with
  | None => []
  | Some entries =>
      if negb (String.eqb (TrimSpace want) "") then
        match find_first (fun e => String.eqb e.1 want) entries with
        | Some e => if is_dir e.2 then [want] else []
        | None => []
        end
      else fst <$> List.filter (fun e => is_dir e.2 && negb (bool_decide (e.1 ∈ reservedScopeSubdirs))) entries
  end.

(** metadata.LockFileSuffix *)
Definition LockFileSuffix : string := ".lock".

(** The names that block the deletion of a stack, unsorted. *)
Definition scanStackDirCellResidue (dir : option (list (string * tree))) : list string :=
  match dir with
  | None => []
  | Some entries =>
      List.filter (fun n => negb (existsb (String.eqb n)
        [KukeonMetadataFile; KukeonMetadataFile +:+ LockFileSuffix; KukeonSecretsSubdir;
         KukeonBlueprintsSubdir; KukeonConfigsSubdir])) (fst <$> entries)
  end.

(** ** Reclaim *)

(** filepath.Ext: from the last dot to the end *)
Fixpoint Ext (s : string) : string :=
  match s with
  | EmptyString => ""
  | String c s' =>
      if negb (String.eqb (Ext s') "") then Ext s'
      else if Ascii.eqb c (Ascii.ascii_of_nat 46) then s else ""
  end.

Fixpoint string_take (n : nat) (s : string) : string :=
  match n, s with S n, String c s' => String c (string_take n s') | _, _ => "" end.

Section Reclaim.
(** json.Unmarshal of a reclaim manifest, its reclaimPolicy field. *)
Context (manifestPolicy : string → result string).

(** The preserve leaves of one volume-meta directory at [path]. *)
Fixpoint collectRetainedInMetaDir (path : list string) (entries : list (string * tree))
    : result (list (list string)) :=
  match entries with
  | [] => Ok []
  | (name, Dir _) :: rest => collectRetainedInMetaDir path rest
  | (name, File data) :: rest =>
      if negb (String.eqb (Ext name) ".json") then collectRetainedInMetaDir path rest
      else
        match manifestPolicy data with
        | Err e => Err (EWrap "parse reclaim manifest %q: %w" [e])
        | Ok policy =>
            let? more := collectRetainedInMetaDir path rest in
            if negb (String.eqb policy ext.ReclaimRetain) then Ok more
            else
              let volName := string_take (String.length name - 5) name in
              let volumesDir := path_join (path_join path "..") KukeonVolumesSubdir in
              Ok (path_join path name :: path_join volumesDir volName :: more)
        end
  end.

(** filepath.WalkDir from [path], whose last element is [name]. *)
Fixpoint collectLeaves (path : list string) (name : string) (t : tree) : result (list (list string)) :=
  match t with
  | File _ => Ok []
  | Dir entries =>
      if String.eqb name KukeonVolumesSubdir then Ok []
      else if String.eqb name KukeonVolumeMetaSubdir then collectRetainedInMetaDir path entries
      else
        (fix walk es :=
           match es with
           | [] => Ok []
           | (n, t') :: es' =>
               let? a := collectLeaves (path_join path n) n t' in
               let? b := walk es' in Ok (a ++ b)
           end) entries
  end.

(** The directories from a leaf's parent up to the scope; [rdir] is reversed. *)
Definition path_len (l : list string) : nat := String.length (render_path l).
Fixpoint addAncestors (scopeDir rdir : list string) : list (list string) :=
  reverse rdir ::
  (if bool_decide (reverse rdir = scopeDir) then []
   else if (path_len (reverse rdir) <=? path_len scopeDir) then []
   else match rdir with [] => [] | _ :: r => addAncestors scopeDir r end).
Definition ancestorsOf (scopeDir leaf : list string) : list (list string) :=
  addAncestors scopeDir (tail (reverse leaf)).

Fixpoint pruneExcept (path : list string) (leaves ancestors : gset (list string)) (t : tree) : result tree :=
  match t with
  | File _ => Err (EOpaque "read dir %q during selective reclaim: not a directory")
  | Dir entries =>
      let? kept :=
        (fix prune es :=
           match es with
           | [] => Ok []
           | (n, t') :: es' =>
               let full := path_join path n in
               if bool_decide (full ∈ leaves) then let? rest := prune es' in Ok ((n, t') :: rest)
               else if bool_decide (full ∈ ancestors) then
                 let? t'' := pruneExcept full leaves ancestors t' in
                 let? rest := prune es' in Ok ((n, t'') :: rest)
               else prune es'
           end) entries in
      Ok (Dir kept)
  end.

(** What is left of the scope's directory: None when it is removed.  A scope without
    a directory fails the walk. *)
Definition reclaimScopeMetadata (scopeDir : list string) (dir : option tree) : result (option tree) :=
  match dir with
  | None => Err (EOpaque "scan scope %q for retained volumes: no such file or directory")
  | Some t =>
      match collectLeaves scopeDir (default "" (last scopeDir)) t with
      | Err e => Err (EWrap "scan scope %q for retained volumes: %w" [e])
      | Ok leaves =>
          if length leaves =? 0 then Ok None
          else
            let ancestors := concat (ancestorsOf scopeDir <$> leaves) in
            let? t' := pruneExcept scopeDir (list_to_set leaves) (list_to_set ancestors) t in
            Ok (Some t')
      end
  end.

End Reclaim.

(** ** Theorems *)

#[local] Arguments String.append !_ _ / : simpl nomatch.

Lemma tree_ind' (P : tree → Prop) :
  (∀ d, P (File d)) → (∀ es, Forall (fun e => P e.2) es → P (Dir es)) → ∀ t, P t.
Proof.
  intros HF HD. fix IH 1. intros [d|es]; [apply HF|apply HD].
  induction es as [|[n t] es IHes]; constructor; [apply IH|exact IHes].
Qed.

(** Names a directory can hold. *)
Fixpoint tree_ok (t : tree) : Prop :=
  match t with
  | File _ => True
  | Dir es =>
      NoDup (fst <$> es) ∧
      (fix ok es := match es with [] => True | (n, t') :: es' => seg_ok n ∧ tree_ok t' ∧ ok es' end) es
  end.

Lemma tree_ok_Dir es :
  tree_ok (Dir es) ↔ NoDup (fst <$> es) ∧ Forall (fun e => seg_ok e.1 ∧ tree_ok e.2) es.
Proof.
  cbn. f_equiv. induction es as [|[n t] es IH]; [by rewrite Forall_nil|]. rewrite Forall_cons, <-IH. cbn. tauto.
Qed.

Lemma path_join_ok path n : seg_ok n → path_join path n = path ++ [n].
Proof.
  intros [H1 H2 H3 H4]. unfold path_join, clean_step.
  rewrite (proj2 (String.eqb_neq _ _) H1), (proj2 (String.eqb_neq _ _) H3), (proj2 (String.eqb_neq _ _) H4).
  cbn [orb]. by rewrite reverse_cons, reverse_involutive.
Qed.

Lemma path_join_up path n : n ≠ ".." → path_join (path ++ [n]) ".." = path.
Proof.
  intros Hn%String.eqb_neq. unfold path_join. rewrite reverse_app. change (reverse [n]) with [n]. cbn [app].
  unfold clean_step. change (String.eqb ".." "" || String.eqb ".." ".") with false.
  change (String.eqb ".." "..") with true. cbn beta iota. rewrite Hn. by rewrite reverse_involutive.
Qed.

(** The entry a name leads to, and the subtree at a path. *)
Definition entry_of (n : string) (es : list (string * tree)) : option tree :=
  snd <$> find_first (fun e => String.eqb e.1 n) es.
Fixpoint at_path (t : tree) (q : list string) : option tree :=
  match q with
  | [] => Some t
  | n :: q' => match t with
               | File _ => None
               | Dir es => entry_of n es ≫= (fun t' => at_path t' q')
               end
  end.

Lemma entry_of_cons n m t es : entry_of n ((m, t) :: es) = if String.eqb m n then Some t else entry_of n es.
Proof. unfold entry_of. cbn. by destruct (String.eqb m n). Qed.

Lemma entry_of_elem n es t : entry_of n es = Some t → (n, t) ∈ es.
Proof.
  induction es as [|[m t'] es IH]; [done|]. rewrite entry_of_cons.
  destruct (String.eqb_spec m n) as [->|]; [intros [= ->]; left|]. intros H. right. by apply IH.
Qed.

Lemma tree_ok_entry es n t : tree_ok (Dir es) → entry_of n es = Some t → seg_ok n ∧ tree_ok t.
Proof. rewrite tree_ok_Dir, Forall_forall. intros [_ H] He%entry_of_elem. by apply (H (n, t)). Qed.

Lemma elem_entry_of es n t : NoDup (fst <$> es) → (n, t) ∈ es → entry_of n es = Some t.
Proof.
  induction es as [|[m t'] es IH]; intros Hnd Hin; [by apply elem_of_nil in Hin|].
  rewrite entry_of_cons. cbn in Hnd. apply NoDup_cons in Hnd as [Hm Hnd].
  apply elem_of_cons in Hin as [[= <- <-]|Hin]; [by rewrite String.eqb_refl|].
  destruct (String.eqb_spec m n) as [->|]; [|by apply IH].
  destruct Hm. apply list_elem_of_fmap. by exists (n, t).
Qed.

#[local] Arguments entry_of : simpl never.
#[local] Arguments path_join : simpl never.

Lemma at_path_names t q : tree_ok t → is_Some (at_path t q) → Forall (fun x => x ≠ "") q.
Proof.
  revert t. induction q as [|n q IH]; intros t Hok Hs; [constructor|]. destruct t as [|es]; [by destruct Hs|].
  cbn in Hs. destruct (entry_of n es) as [t'|] eqn:E; [|by destruct Hs].
  destruct (tree_ok_entry _ _ _ Hok E) as [[Hn _ _ _] Hok']. constructor; [done|]. by eapply IH.
Qed.

(** *** What pruning keeps *)

Lemma prune_entry path L A es es' n :
  pruneExcept path L A (Dir es) = Ok (Dir es') →
  match entry_of n es with
  | None => entry_of n es' = None
  | Some t =>
      if bool_decide (path_join path n ∈ L) then entry_of n es' = Some t
      else if bool_decide (path_join path n ∈ A) then
        ∃ t', pruneExcept (path_join path n) L A t = Ok t' ∧ entry_of n es' = Some t'
      else entry_of n es' = None
  end.
Proof.
  cbn. rewrite res_bind_Ok. intros (kept & Hk & [= <-]). revert kept Hk.
  induction es as [|[m t] es IH]; intros kept; [by intros [= <-]|].
  rewrite entry_of_cons. cbn -[res_bind].
  destruct (bool_decide_reflect (path_join path m ∈ L)) as [HL|HL];
    [|destruct (bool_decide_reflect (path_join path m ∈ A)) as [HA|HA]].
  - rewrite res_bind_Ok. intros (rest & Hr & [= <-]). rewrite entry_of_cons.
    destruct (String.eqb_spec m n) as [->|]; [by rewrite bool_decide_true|by apply IH].
  - rewrite res_bind_Ok. intros (t'' & Ht & Hr). rewrite res_bind_Ok in Hr. destruct Hr as (rest & Hr & [= <-]).
    rewrite entry_of_cons. destruct (String.eqb_spec m n) as [->|]; [|by apply IH].
    rewrite bool_decide_false, bool_decide_true by done. eauto.
  - intros Hr. specialize (IH kept Hr). destruct (String.eqb_spec m n) as [->|]; [|done].
    rewrite !bool_decide_false by done. destruct (entry_of n es) as [t'|]; [|done].
    by rewrite !bool_decide_false in IH by done.
Qed.

Lemma prune_is_dir path L A t t' : pruneExcept path L A t = Ok t' → ∃ es es', t = Dir es ∧ t' = Dir es'.
Proof. destruct t as [d|es]; [done|]. cbn. rewrite res_bind_Ok. intros (k & _ & [= <-]). eauto. Qed.

(** A leaf survives with its whole subtree. *)
Lemma prune_keeps path L A q t t' :
  tree_ok t → pruneExcept path L A t = Ok t' → q ≠ [] → path ++ q ∈ L →
  (∀ q1 q2, q = q1 ++ q2 → q1 ≠ [] → q2 ≠ [] → path ++ q1 ∈ A) →
  is_Some (at_path t q) → ∀ q', at_path t' (q ++ q') = at_path t (q ++ q').
Proof.
  revert path t t'. induction q as [|n q IH]; intros path t t' Hok Hp Hne HL HA Hs q'; [done|].
  destruct (prune_is_dir _ _ _ _ _ Hp) as (es & es' & -> & ->). pose proof (prune_entry _ _ _ _ _ n Hp) as He.
  cbn in Hs |- *. destruct (entry_of n es) as [t1|] eqn:E1; [|by destruct Hs].
  destruct (tree_ok_entry _ _ _ Hok E1) as [Hn Hok1]. rewrite (path_join_ok _ _ Hn) in He.
  case_bool_decide as HL1; [by rewrite He|].
  destruct q as [|m q]; [done|].
  rewrite bool_decide_true in He by (apply (HA [n] (m :: q)); done).
  destruct He as (t1' & Hp1 & ->). cbn [mbind option_bind].
  apply (IH (path ++ [n])); [done|done|done|by rewrite <-app_assoc| |done].
  intros q1 q2 E Hq1 Hq2. rewrite <-app_assoc. apply (HA (n :: q1) q2); [by rewrite E|done|done].
Qed.

(** Whatever file survives lies under a leaf and is unchanged. *)
Lemma prune_exact path L A q t t' d :
  tree_ok t → pruneExcept path L A t = Ok t' → at_path t' q = Some (File d) →
  at_path t q = Some (File d) ∧ ∃ q1 q2, q = q1 ++ q2 ∧ path ++ q1 ∈ L.
Proof.
  revert path t t'. induction q as [|n q IH]; intros path t t' Hok Hp Hq;
    destruct (prune_is_dir _ _ _ _ _ Hp) as (es & es' & -> & ->); [done|].
  pose proof (prune_entry _ _ _ _ _ n Hp) as He. cbn in Hq |- *.
  destruct (entry_of n es) as [t1|] eqn:E1; [|by rewrite He in Hq].
  destruct (tree_ok_entry _ _ _ Hok E1) as [Hn Hok1]. rewrite (path_join_ok _ _ Hn) in He.
  case_bool_decide as HL1.
  - rewrite He in Hq. split; [done|]. by exists [n], q.
  - case_bool_decide as HA1; [|by rewrite He in Hq]. destruct He as (t1' & Hp1 & He). rewrite He in Hq.
    destruct (IH (path ++ [n]) t1 t1' Hok1 Hp1 Hq) as [H1 (q1 & q2 & -> & H2)]. split; [done|].
    exists (n :: q1), q2. by rewrite <-app_assoc in H2.
Qed.

(** *** What the walk finds *)

Lemma Ext_json v : Ext (v +:+ ".json") = ".json".
Proof. induction v as [|c v IH]; [done|]. cbn. by rewrite IH. Qed.

Lemma Ext_suffix s e : Ext s = e → e ≠ "" → ∃ v, s = v +:+ e.
Proof.
  revert e. induction s as [|c s IH]; intros e; cbn; [by intros <-|].
  destruct (String.eqb_spec (Ext s) "") as [E|E]; cbn [negb].
  - destruct (Ascii.eqb c (Ascii.ascii_of_nat 46)); intros <- Hne; [by exists ""|done].
  - intros Ee Hne. destruct (IH e Ee Hne) as [v Hv]. exists (String c v). by rewrite Hv at 1.
Qed.

Lemma string_take_app v e : string_take (String.length v) (v +:+ e) = v.
Proof. induction v as [|c v IH]; [by destruct e|]. cbn. by rewrite IH. Qed.

Lemma volume_name v : string_take (String.length (v +:+ ".json") - 5) (v +:+ ".json") = v.
Proof.
  assert (L : ∀ s t, String.length (s +:+ t) = String.length s + String.length t)
    by (induction s as [|c s IH]; intros t; [done|]; cbn; by rewrite IH).
  rewrite L. cbn [String.length]. rewrite Nat.add_sub. apply string_take_app.
Qed.

Section Found.
Context (manifestPolicy : string → result string).

(** A scope directory at [s] below the tree's root keeps volume [v]. *)
Definition retained (t : tree) (s : list string) (v : string) : Prop :=
  Forall (fun n => n ≠ KukeonVolumesSubdir ∧ n ≠ KukeonVolumeMetaSubdir) s ∧
  ∃ data, at_path t (s ++ [KukeonVolumeMetaSubdir; v +:+ ".json"]) = Some (File data) ∧
          manifestPolicy data = Ok ext.ReclaimRetain.

(** The two leaves of a retained volume. *)
Definition leaves_of (scope : list string) (v : string) : list (list string) :=
  [scope ++ [KukeonVolumeMetaSubdir; v +:+ ".json"]; path_join (scope ++ [KukeonVolumesSubdir]) v].

Lemma meta_dir_leaves scope es leaves :
  Forall (fun e => seg_ok e.1) es →
  collectRetainedInMetaDir manifestPolicy (scope ++ [KukeonVolumeMetaSubdir]) es = Ok leaves →
  ∀ l, l ∈ leaves ↔ ∃ v data, (v +:+ ".json", File data) ∈ es ∧
    manifestPolicy data = Ok ext.ReclaimRetain ∧ l ∈ leaves_of scope v.
Proof.
  intros Hok. revert leaves. induction Hok as [|[name t] es Hn _ IH]; intros leaves; cbn -[path_join res_bind leaves_of].
  { intros [= <-] l. split; [by intros ?%elem_of_nil|]. intros (v & d & H & _). by apply elem_of_nil in H. }
  assert (Hskip : ∀ leaves', (∀ v data, (v +:+ ".json", File data) = (name, t) →
      manifestPolicy data ≠ Ok ext.ReclaimRetain) →
    collectRetainedInMetaDir manifestPolicy (scope ++ [KukeonVolumeMetaSubdir]) es = Ok leaves' →
    ∀ l, l ∈ leaves' ↔ ∃ v data, (v +:+ ".json", File data) ∈ (name, t) :: es ∧
      manifestPolicy data = Ok ext.ReclaimRetain ∧ l ∈ leaves_of scope v).
  { intros leaves' Hno Hc l. rewrite (IH leaves' Hc l). setoid_rewrite elem_of_cons. split.
    - intros (v & d & H & ?). exists v, d. eauto.
    - intros (v & d & [H|H] & Hp & ?); [by destruct (Hno v d H)|eauto]. }
  destruct t as [data|es0]; [|apply Hskip; done].
  destruct (String.eqb_spec (Ext name) ".json") as [Ej|Nj]; cbn [negb].
  2:{ apply Hskip. intros v d [= <- <-]. by rewrite Ext_json in Nj. }
  destruct (manifestPolicy data) as [policy|] eqn:Ep; [|done].
  rewrite res_bind_Ok. intros (more & Hm & Hl).
  destruct (String.eqb_spec policy ext.ReclaimRetain) as [->|Np]; cbn [negb] in Hl; injection Hl as <-.
  2:{ apply Hskip; [|done]. intros v d [= <- <-]. congruence. }
  destruct (Ext_suffix name ".json" Ej) as [v ->]; [done|]. rewrite volume_name.
  rewrite path_join_up by done. assert (Hv : seg_ok KukeonVolumesSubdir) by by split.
  rewrite (path_join_ok scope _ Hv), (path_join_ok _ _ Hn), <-app_assoc.
  intros l. rewrite !elem_of_cons, (IH more Hm l). setoid_rewrite elem_of_cons. unfold leaves_of. split.
  - intros [->|[->|(v' & d & ? & ? & ?)]]; [exists v, data..|exists v', d]; split_and!; eauto;
      rewrite !elem_of_cons; eauto.
  - intros (v' & d & [[= E <-]|H] & Hp & Hl); [|right; right; eauto 10].
    apply string_app_inj_r in E as ->. rewrite !elem_of_cons in Hl.
    destruct Hl as [->|[->|[]%elem_of_nil]]; eauto.
Qed.

Lemma walk_elem path es leaves :
  (fix walk es :=
     match es with
     | [] => Ok []
     | (n, t') :: es' =>
         let? a := collectLeaves manifestPolicy (path_join path n) n t' in
         let? b := walk es' in Ok (a ++ b)
     end) es = Ok leaves →
  (∀ l, l ∈ leaves ↔ ∃ n t' ls, (n, t') ∈ es ∧ collectLeaves manifestPolicy (path_join path n) n t' = Ok ls ∧ l ∈ ls) ∧
  ∀ n t', (n, t') ∈ es → ∃ ls, collectLeaves manifestPolicy (path_join path n) n t' = Ok ls.
Proof.
  revert leaves. induction es as [|[n t] es IH]; intros leaves.
  { intros [= <-]. split; [|by intros ?? ?%elem_of_nil]. intros l.
    split; [by intros ?%elem_of_nil|]. intros (? & ? & ? & H & _). by apply elem_of_nil in H. }
  rewrite res_bind_Ok. intros (a & Ha & Hb). rewrite res_bind_Ok in Hb. destruct Hb as (b & Hb & [= <-]).
  destruct (IH b Hb) as [H1 H2]. split.
  - intros l. rewrite elem_of_app, H1. setoid_rewrite elem_of_cons. split.
    + intros [Hl|(n' & t' & ls & ? & ? & ?)]; [exists n, t, a|exists n', t', ls]; split_and!; try done; [by left|by right].
    + intros (n' & t' & ls & [[= -> ->]|Hin] & Hc & Hl); [left; congruence|right].
      exists n', t', ls. done.
  - intros n' t' [[= -> ->]|Hin]%elem_of_cons; eauto.
Qed.

(** The walk finds exactly the leaves of the retained volumes. *)
Lemma collectLeaves_spec path name t leaves :
  tree_ok t → name ≠ KukeonVolumesSubdir → name ≠ KukeonVolumeMetaSubdir →
  collectLeaves manifestPolicy path name t = Ok leaves →
  ∀ l, l ∈ leaves ↔ ∃ s v, retained t s v ∧ l ∈ leaves_of (path ++ s) v.
Proof.
  revert path name leaves. induction t as [d|es IH] using tree_ind'; intros path name leaves Hok Hn1 Hn2.
  { intros [= <-] l. split; [by intros ?%elem_of_nil|]. intros (s & v & (_ & data & H & _) & _). by destruct s. }
  cbn. apply String.eqb_neq in Hn1 as ->, Hn2 as ->. intros [Hw Hw2]%walk_elem l. rewrite Hw. clear Hw.
  pose proof Hok as [Hnd Hes]%tree_ok_Dir. rewrite Forall_forall in Hes, IH. split.
  - intros (n & t' & ls & Hin & Hc & Hl). destruct (Hes _ Hin) as [Hn Hok']. cbn in Hn, Hok'.
    rewrite (path_join_ok _ _ Hn) in Hc. pose proof (elem_entry_of _ _ _ Hnd Hin) as He.
    destruct (String.eqb_spec n KukeonVolumesSubdir) as [->|Nv].
    { destruct t'; cbn in Hc; injection Hc as <-; by apply elem_of_nil in Hl. }
    destruct (String.eqb_spec n KukeonVolumeMetaSubdir) as [->|Nm].
    + destruct t' as [|es']; cbn in Hc; [injection Hc as <-; by apply elem_of_nil in Hl|].
      pose proof Hok' as [Hnd' Hes']%tree_ok_Dir.
      assert (Hseg : Forall (fun e => seg_ok e.1) es') by (eapply Forall_impl; [exact Hes'|]; by intros ? []).
      apply (meta_dir_leaves path es' ls Hseg Hc) in Hl as (v & data & Hv & Hp & Hl).
      exists [], v. rewrite app_nil_r. split; [|done]. split; [constructor|]. exists data. cbn.
      rewrite He. cbn. by rewrite (elem_entry_of _ _ _ Hnd' Hv).
    + apply (IH _ Hin (path ++ [n]) n ls Hok' Nv Nm Hc) in Hl as (s & v & (Hs & data & Hd & Hp) & Hl).
      exists (n :: s), v. rewrite <-app_assoc in Hl. split; [|done]. split; [by constructor|].
      exists data. cbn. by rewrite He.
  - intros (s & v & (Hs & data & Hd & Hp) & Hl). destruct s as [|n s]; cbn in Hd.
    + destruct (entry_of KukeonVolumeMetaSubdir es) as [t'|] eqn:He; [|done]. cbn in Hd.
      destruct t' as [|es']; [done|]. pose proof (entry_of_elem _ _ _ He) as Hin.
      destruct (entry_of (v +:+ ".json") es') as [f|] eqn:Ef; [|done]. cbn in Hd. injection Hd as ->.
      destruct (Hw2 _ _ Hin) as [ls Hc]. exists KukeonVolumeMetaSubdir, (Dir es'), ls. split_and!; [done|done|].
      destruct (Hes _ Hin) as [Hn Hok']. cbn in Hn, Hok'. rewrite (path_join_ok _ _ Hn) in Hc. cbn in Hc.
      pose proof Hok' as [_ Hes']%tree_ok_Dir.
      assert (Hseg : Forall (fun e => seg_ok e.1) es') by (eapply Forall_impl; [exact Hes'|]; by intros ? []).
      apply (meta_dir_leaves path es' ls Hseg Hc). exists v, data. rewrite app_nil_r in Hl.
      split_and!; [by apply entry_of_elem|done|done].
    + apply Forall_cons in Hs as [[Nv Nm] Hs].
      destruct (entry_of n es) as [t'|] eqn:He; [|done]. cbn in Hd. pose proof (entry_of_elem _ _ _ He) as Hin.
      destruct (Hw2 _ _ Hin) as [ls Hc]. exists n, t', ls. split_and!; [done|done|].
      destruct (Hes _ Hin) as [Hn Hok']. cbn in Hn, Hok'. rewrite (path_join_ok _ _ Hn) in Hc.
      apply (IH _ Hin (path ++ [n]) n ls Hok' Nv Nm Hc). exists s, v. rewrite <-app_assoc. split; [|done].
      split; [done|]. eauto.
Qed.

(** *** Ancestors *)

Lemma path_len_snoc l x : x ≠ "" → path_len l < path_len (l ++ [x]).
Proof.
  assert (L : ∀ s t, String.length (s +:+ t) = String.length s + String.length t)
    by (induction s as [|c s IH]; intros t; [done|]; cbn; by rewrite IH).
  intros Hx. assert (Hx' : 0 < String.length x) by (destruct x; [done|cbn; lia]).
  unfold path_len, render_path. rewrite !L. cbn [String.length]. induction l as [|y l IH]; [cbn; lia|].
  destruct l as [|z l]; [cbn; rewrite !L; cbn; lia|].
  change ((y :: z :: l) ++ [x]) with (y :: z :: (l ++ [x])). change ((z :: l) ++ [x]) with (z :: (l ++ [x])) in IH.
  cbn [Join] in *. rewrite !L in *. cbn [String.length] in *. lia.
Qed.

Lemma path_len_app l r : Forall (fun x => x ≠ "") r → r ≠ [] → path_len l < path_len (l ++ r).
Proof.
  intros Hr. revert l. induction Hr as [|x r Hx Hr IH]; intros l Hne; [done|].
  destruct r as [|y r]; [by apply path_len_snoc|].
  etrans; [apply (path_len_snoc l x Hx)|]. specialize (IH (l ++ [x]) ltac:(done)).
  by rewrite <-app_assoc in IH.
Qed.

(** Every directory between the scope and a leaf below it is an ancestor. *)
Lemma ancestors_between scope r1 r2 :
  Forall (fun x => x ≠ "") (r1 ++ r2) → r2 ≠ [] → scope ++ r1 ∈ ancestorsOf scope (scope ++ r1 ++ r2).
Proof.
  intros Hne Hr2. unfold ancestorsOf. destruct (exists_last Hr2) as (r & x & ->).
  rewrite !app_assoc, reverse_app. change (reverse [x]) with [x]. cbn [app tail].
  assert (Hr : Forall (fun x => x ≠ "") (r1 ++ r)) by (rewrite app_assoc in Hne; by apply Forall_app in Hne as [? _]).
  clear x Hr2 Hne. rewrite <-app_assoc. revert Hr.
  induction r as [|y r IH] using rev_ind; intros Hr.
  - rewrite app_nil_r. destruct (reverse (scope ++ r1)) as [|z l] eqn:E; cbn [addAncestors];
      rewrite <-E, reverse_involutive; left.
  - rewrite app_assoc in Hr. apply Forall_app in Hr as [Hr Hy].
    rewrite !app_assoc, reverse_app. change (reverse [y]) with [y]. cbn [app addAncestors].
    rewrite reverse_cons, reverse_involutive, <-!app_assoc.
    assert (Hlt : path_len scope < path_len (scope ++ r1 ++ r ++ [y])).
    { apply path_len_app; [rewrite app_assoc; by apply Forall_app|]. destruct r1; [by destruct r|done]. }
    right. rewrite bool_decide_false by (intros E; rewrite E in Hlt; lia).
    rewrite (proj2 (Nat.leb_gt _ _) Hlt). by apply IH.
Qed.


End Found.

Definition sample_stack_tree : tree :=
  Dir [("cell", Dir [("metadata.json", File "{}")]);
       ("metadata.json", File "{}");
       ("volume-meta", Dir [("keep.json", File "Retain")]);
       ("volumes", Dir [("drop", Dir [("b", File "2")]); ("keep", Dir [("a", File "1")])])].


(** *** Two lists of reserved directories *)

(** The deletion of a stack disagrees with the directory walks about what a child
    is: a stack that holds a stack-scoped volume is reported as holding the residue of
    cells named "volumes" and "volume-meta", although no walk takes these for cells. *)
Theorem stack_volume_blocks_deletion entries es :
  (KukeonVolumesSubdir, Dir es) ∈ entries →
  KukeonVolumesSubdir ∈ scanStackDirCellResidue (Some entries) ∧
  (∀ n, n ∈ childScopeNames (Some entries) "" → n ∉ reservedScopeSubdirs) ∧
  (∀ n, n ∈ childScopeNames (Some entries) "" → n ∉ [KukeonMetadataFile; KukeonMetadataFile +:+ LockFileSuffix] →
     n ∈ scanStackDirCellResidue (Some entries)).
Proof.
  intros Hin. unfold scanStackDirCellResidue, childScopeNames. cbn [negb TrimSpace ltrim rtrim String.eqb].
  split_and!.
  - apply filter_elem. split; [|done].
    apply list_elem_of_fmap. by exists (KukeonVolumesSubdir, Dir es).
  - intros n (e & -> & [_ He]%filter_elem)%list_elem_of_fmap. apply andb_true_iff in He as [_ He].
    by apply negb_true_iff, bool_decide_eq_false in He.
  - intros n (e & -> & [Hin' He]%filter_elem)%list_elem_of_fmap Hm. apply andb_true_iff in He as [_ He].
    apply negb_true_iff, bool_decide_eq_false in He.
    apply filter_elem. split; [by apply list_elem_of_fmap_2|]. apply negb_true_iff, existsb_false_elem.
    intros x Hx. apply String.eqb_neq. intros E. rewrite <-E in Hx.
    apply elem_of_cons in Hx as [Hx|Hx]; [apply Hm; rewrite Hx; left|].
    apply elem_of_cons in Hx as [Hx|Hx]; [apply Hm; rewrite Hx; right; left|].
    apply He. unfold reservedScopeSubdirs. set_solver.
Qed.

Lemma stack_volume_blocks_deletion_witness :
  KukeonVolumesSubdir ∈ scanStackDirCellResidue (Some [("volumes", Dir [])]) ∧
  childScopeNames (Some [("volumes", Dir [])]) "" = [].
Proof.
  split; [|vm_compute; reflexivity].
  refine (proj1 (stack_volume_blocks_deletion [("volumes", Dir [])] [] _)). left.
Defined.
