(* ===== verification/Parser.v ===== *)
(** * The document parser (internal/apply/parser/parser.go)

    Splitting the input into documents, decoding one by its kind, and the checks every
    document passes before the daemon acts on it. *)

From Stdlib Require Import Ascii.
From stdpp Require Import base gmap strings list.
From S2P Require Import Prelude Model External Validate Scheme Naming Template Blueprint Config Layout.

Local Open Scope nat_scope.

(** ** Splitting *)

(** The class \s of regexp: no vertical tab, unlike strings.TrimSpace. *)
Definition re_space (c : ascii) : bool :=
  match nat_of_ascii c with 9 | 10 | 12 | 13 | 32 => true | _ => false end.
Definition is_newline (c : ascii) : bool := Ascii.eqb c "010".

(** The longest \s* after which the line or the text ends ($ in multi-line mode). *)
Fixpoint trailing (s : string) : option nat :=
  match s with
  | EmptyString => Some 0
  | String c s' =>
      match (if re_space c then trailing s' else None) with
      | Some n => Some (S n)
      | None => if is_newline c then Some 0 else None
      end
  end.

(** The length of a match of ^\s*---\s*$ at a line start; the dashes are not spaces,
    so the leading run is the longest one. *)
Definition matchSeparator (s : string) : option nat :=
  let '(w, r) := span re_space s in
  match r with
  | String "-" (String "-" (String "-" r')) =>
      match trailing r' with Some n => Some (String.length w + 3 + n) | None => None end
  | _ => None
  end.

(** regexp.Split: [bol] tells that the text is at a line start, [skip] counts what is
    left of the last match. *)
Fixpoint splitDocs (bol : bool) (skip : nat) (s : string) : string * list string :=
  match s with
  | EmptyString => ("", [])
  | String c s' =>
      match skip with
      | S n => splitDocs (is_newline c) n s'
      | O =>
          match (if bol then matchSeparator s else None) with
          | Some n => let '(d, ds) := splitDocs (is_newline c) (n - 1) s' in ("", d :: ds)
          | None => let '(d, ds) := splitDocs (is_newline c) 0 s' in (String c d, ds)
          end
      end
  end.
Definition separatorSplit (s : string) : list string := let '(d, ds) := splitDocs true 0 s in d :: ds.

(** [input] is the outcome of io.ReadAll. *)
Definition ParseDocuments (input : result string) : result (list string) :=
  match input with
  | Err e => Err (EWrap "failed to read input: %w" [e])
  | Ok data =>
      let docs := List.filter (fun d => negb (String.eqb d "")) (TrimSpace <$> separatorSplit data) in
      if length docs =? 0 then Err (EOpaque "no documents found in input") else Ok docs
  end.

(** ** Documents *)

Record Document := {
  doc_Index : Z;
  doc_Raw : string;
  doc_APIVersion : string;
  doc_Kind : string;
  doc_RealmDoc : option ext.RealmDoc;
  doc_SpaceDoc : option ext.SpaceDoc;
  doc_StackDoc : option ext.StackDoc;
  doc_CellDoc : option ext.CellDoc;
  doc_ContainerDoc : option ext.ContainerDoc;
  doc_SecretDoc : option ext.SecretDoc;
  doc_CellBlueprintDoc : option ext.CellBlueprintDoc;
  doc_CellConfigDoc : option ext.CellConfigDoc;
  doc_VolumeDoc : option ext.VolumeDoc
}.

(** yaml.Unmarshal at the types the parser decodes. *)
Class YamlDocuments := {
  yaml_Kind : string → result string;
  yaml_Realm : string → result ext.RealmDoc;
  yaml_Space : string → result ext.SpaceDoc;
  yaml_Stack : string → result ext.StackDoc;
  yaml_Cell : string → result ext.CellDoc;
  yaml_Container : string → result ext.ContainerDoc;
  yaml_Secret : string → result ext.SecretDoc;
  yaml_Blueprint : string → result ext.CellBlueprintDoc;
  yaml_Config : string → result ext.CellConfigDoc;
  yaml_Volume : string → result ext.VolumeDoc
}.

Section Parse.
Context `{YamlDocuments}.

Definition DetectKind (raw : string) : result string :=
  match yaml_Kind raw with
  | Err e => Err (EWrap "failed to parse kind: %w" [e])
  | Ok k => Ok k
  end.

Definition ParseDocument (index : Z) (raw : string) : result Document :=
  match DetectKind raw with
  | Err e => Err (EWrap "document %d: %w" [e])
  | Ok kind =>
      if String.eqb kind ext.KindRealm then
        match yaml_Realm raw with
        | Err e => Err (EWrap "document %d: failed to parse Realm: %w" [e])
        | Ok d => Ok (Build_Document index raw (ext.realm_APIVersion d) kind (Some d) None None None None None None None None)
        end
      else if String.eqb kind ext.KindSpace then
        match yaml_Space raw with
        | Err e => Err (EWrap "document %d: failed to parse Space: %w" [e])
        | Ok d => Ok (Build_Document index raw (ext.space_APIVersion d) kind None (Some d) None None None None None None None)
        end
      else if String.eqb kind ext.KindStack then
        match yaml_Stack raw with
        | Err e => Err (EWrap "document %d: failed to parse Stack: %w" [e])
        | Ok d => Ok (Build_Document index raw (ext.stack_APIVersion d) kind None None (Some d) None None None None None None)
        end
      else if String.eqb kind ext.KindCell then
        match yaml_Cell raw with
        | Err e => Err (EWrap "document %d: failed to parse Cell: %w" [e])
        | Ok d => Ok (Build_Document index raw (ext.cell_APIVersion d) kind None None None (Some d) None None None None None)
        end
      else if String.eqb kind ext.KindContainer then
        match yaml_Container raw with
        | Err e => Err (EWrap "document %d: failed to parse Container: %w" [e])
        | Ok d => Ok (Build_Document index raw (ext.cont_APIVersion d) kind None None None None (Some d) None None None None)
        end
      else if String.eqb kind ext.KindSecret then
        match yaml_Secret raw with
        | Err e => Err (EWrap "document %d: failed to parse Secret: %w" [e])
        | Ok d => Ok (Build_Document index raw (ext.secret_APIVersion d) kind None None None None None (Some d) None None None)
        end
      else if String.eqb kind ext.KindCellBlueprint then
        match yaml_Blueprint raw with
        | Err e => Err (EWrap "document %d: failed to parse CellBlueprint: %w" [e])
        | Ok d => Ok (Build_Document index raw (ext.bp_APIVersion d) kind None None None None None None (Some d) None None)
        end
      else if String.eqb kind ext.KindCellConfig then
        match yaml_Config raw with
        | Err e => Err (EWrap "document %d: failed to parse CellConfig: %w" [e])
        | Ok d => Ok (Build_Document index raw (ext.cfg_APIVersion d) kind None None None None None None None (Some d) None)
        end
      else if String.eqb kind ext.KindVolume then
        match yaml_Volume raw with
        | Err e => Err (EWrap "document %d: failed to parse Volume: %w" [e])
        | Ok d => Ok (Build_Document index raw (ext.vol_APIVersion d) kind None None None None None None None None (Some d))
        end
      else Err (EWrap "document %d: %w: %s" [ESentinel ErrUnknownKind])
  end.

End Parse.

(** ** Checks *)

Record ValidationError := { ve_Index : Z; ve_Kind : string; ve_Name : string; ve_Err : error }.

Definition backslash : ascii := ascii_of_nat 92.

(** validateSecretSegment and validateVolumeSegment differ in their sentinel only. *)
Definition validateSegment (unsafe : errdef) (value : string) : option error :=
  if String.eqb value "" then None
  else if String.eqb value "." || String.eqb value ".." then Some (ESentinel unsafe)
  else if contains_byte nul value || contains_byte slash value || contains_byte backslash value
          || contains_byte slash value then Some (ESentinel unsafe)
  else None.
Definition validateSecretSegment : string → option error := validateSegment ErrSecretCoordUnsafe.
Definition validateVolumeSegment : string → option error := validateSegment ErrVolumeCoordUnsafe.

Definition blank (s : string) : bool := String.eqb (TrimSpace s) "".

Definition validateSecretScope (m : ext.SecretMetadata) : option error :=
  let realm := TrimSpace (ext.secm_Realm m) in
  let space := TrimSpace (ext.secm_Space m) in
  let stack := TrimSpace (ext.secm_Stack m) in
  let cell := TrimSpace (ext.secm_Cell m) in
  if String.eqb realm "" then Some (ESentinel ErrSecretRealmRequired)
  else if negb (String.eqb cell "") && String.eqb stack "" then
    Some (EWrap "%w (cell set without stack)" [ESentinel ErrSecretScopeIncomplete])
  else if negb (String.eqb stack "") && String.eqb space "" then
    Some (EWrap "%w (stack set without space)" [ESentinel ErrSecretScopeIncomplete])
  else first_error ((fun seg => wrapErr "%w (%s)" (validateSecretSegment seg))
                      <$> [TrimSpace (ext.secm_Name m); realm; space; stack; cell]).

Definition validateSecretRef (ref : ext.ContainerSecretRef) : option error :=
  let realm := TrimSpace (ext.csr_Realm ref) in
  let space := TrimSpace (ext.csr_Space ref) in
  let stack := TrimSpace (ext.csr_Stack ref) in
  let cell := TrimSpace (ext.csr_Cell ref) in
  if blank (ext.csr_Name ref) then Some (EWrap "%w (secrets[%d] %q)" [ESentinel ErrSecretRefNameRequired])
  else if String.eqb realm "" then Some (EWrap "%w (secrets[%d] %q)" [ESentinel ErrSecretRefRealmRequired])
  else if negb (String.eqb cell "") && String.eqb stack "" then
    Some (EWrap "%w (secrets[%d] %q: cell set without stack)" [ESentinel ErrSecretRefScopeIncomplete])
  else if negb (String.eqb stack "") && String.eqb space "" then
    Some (EWrap "%w (secrets[%d] %q: stack set without space)" [ESentinel ErrSecretRefScopeIncomplete])
  else first_error ((fun seg => wrapErr "%w (secrets[%d] %q %s)" (validateSecretSegment seg))
                      <$> [TrimSpace (ext.csr_Name ref); realm; space; stack; cell]).

Definition validateSecretEntry (s : ext.ContainerSecret) : option error :=
  let sources := Nat.b2n (negb (blank (ext.sec_FromFile s))) + Nat.b2n (negb (blank (ext.sec_FromEnv s)))
                 + match ext.sec_SecretRef s with Some _ => 1 | None => 0 end in
  if blank (ext.sec_Name s) then Some (EWrap "%w (secrets[%d])" [ESentinel ErrSecretNameRequired])
  else if sources =? 0 then Some (EWrap "%w (secrets[%d] %q)" [ESentinel ErrSecretSourceRequired])
  else if 1 <? sources then Some (EWrap "%w (secrets[%d] %q)" [ESentinel ErrSecretMultipleSources])
  else first_error [
    match ext.sec_SecretRef s with Some ref => validateSecretRef ref | None => None end;
    (let mountPath := TrimSpace (ext.sec_MountPath s) in
     if negb (String.eqb mountPath "") && negb (IsAbs mountPath) then
       Some (EWrap "%w (secrets[%d] %q mountPath %q)" [ESentinel ErrSecretMountPathNotAbsolute]) else None) ].
Definition validateSecrets (l : list ext.ContainerSecret) : option error := first_error (validateSecretEntry <$> l).

(** The repo checks; a blueprint's repos may lack a url. *)
Definition validateRepoEntry (urlRequired : bool) (r : ext.ContainerRepo) : option error :=
  let target := TrimSpace (ext.repo_Target r) in
  if blank (ext.repo_Name r) then Some (EWrap "%w (repos[%d])" [ESentinel ErrRepoNameRequired])
  else if String.eqb target "" then Some (EWrap "%w (repos[%d] %q)" [ESentinel ErrRepoTargetRequired])
  else if negb (IsAbs target) then Some (EWrap "%w (repos[%d] %q target %q)" [ESentinel ErrRepoTargetNotAbsolute])
  else if urlRequired && blank (ext.repo_URL r) then Some (EWrap "%w (repos[%d] %q)" [ESentinel ErrRepoURLRequired])
  else if negb (blank (ext.repo_Branch r)) && negb (blank (ext.repo_Ref r)) then
    Some (EWrap "%w (repos[%d] %q)" [ESentinel ErrRepoBranchRefMutex])
  else None.
Definition validateRepos (l : list ext.ContainerRepo) : option error := first_error (validateRepoEntry true <$> l).
Definition validateBlueprintRepos (l : list ext.ContainerRepo) : option error :=
  first_error (validateRepoEntry false <$> l).

Definition validateSecretSlot (s : ext.BlueprintSecretSlot) : option error :=
  let mode := TrimSpace (ext.bss_Mode s) in
  if blank (ext.bss_Name s) then Some (EWrap "%w (secrets[%d])" [ESentinel ErrBlueprintSecretSlotNameRequired])
  else if String.eqb mode "" || String.eqb mode ext.BlueprintSecretModeEnv then
    if blank (ext.bss_EnvName s) then Some (EWrap "%w (secrets[%d] %q)" [ESentinel ErrBlueprintSecretSlotEnvName])
    else None
  else if String.eqb mode ext.BlueprintSecretModeFile then
    let mountPath := TrimSpace (ext.bss_MountPath s) in
    if String.eqb mountPath "" || negb (IsAbs mountPath) then
      Some (EWrap "%w (secrets[%d] %q)" [ESentinel ErrBlueprintSecretSlotMountPath]) else None
  else Some (EWrap "%w (secrets[%d] %q mode %q)" [ESentinel ErrBlueprintSecretSlotMode]).
Definition validateBlueprintSecretSlots (l : list ext.BlueprintSecretSlot) : option error :=
  first_error (validateSecretSlot <$> l).

Definition validateBlueprintScope (m : ext.CellBlueprintMetadata) : option error :=
  if blank (ext.bpm_Realm m) then Some (ESentinel ErrBlueprintRealmRequired)
  else if negb (blank (ext.bpm_Stack m)) && blank (ext.bpm_Space m) then
    Some (EWrap "%w (stack set without space)" [ESentinel ErrBlueprintScopeIncomplete])
  else None.

Definition validateReclaimPolicy (p : string) : option error :=
  if String.eqb p "" || String.eqb p ext.ReclaimRetain || String.eqb p ext.ReclaimDelete then None
  else Some (EWrap "%w (got %q)" [ESentinel ErrVolumeReclaimPolicyInvalid]).

Definition validateVolumeScope (m : ext.VolumeMetadata) : option error :=
  let realm := TrimSpace (ext.volm_Realm m) in
  let space := TrimSpace (ext.volm_Space m) in
  let stack := TrimSpace (ext.volm_Stack m) in
  if String.eqb realm "" then Some (ESentinel ErrVolumeRealmRequired)
  else if negb (String.eqb stack "") && String.eqb space "" then
    Some (EWrap "%w (stack set without space)" [ESentinel ErrVolumeScopeIncomplete])
  else first_error ((fun seg => wrapErr "%w (%s)" (validateVolumeSegment seg))
                      <$> [TrimSpace (ext.volm_Name m); realm; space; stack]).

Definition validateConfigScope (m : ext.CellConfigMetadata) : option error :=
  if blank (ext.cfm_Realm m) then Some (ESentinel ErrConfigRealmRequired)
  else if negb (blank (ext.cfm_Stack m)) && blank (ext.cfm_Space m) then
    Some (EWrap "%w (stack set without space)" [ESentinel ErrConfigScopeIncomplete])
  else None.

Definition validateConfigBlueprintRef (r : ext.CellConfigBlueprintRef) : option error :=
  if blank (ext.bref_Name r) || blank (ext.bref_Realm r) then Some (ESentinel ErrConfigBlueprintRefRequired)
  else if negb (blank (ext.bref_Stack r)) && blank (ext.bref_Space r) then
    Some (EWrap "%w (stack set without space)" [ESentinel ErrConfigBlueprintRefScopeIncomplete])
  else None.

Definition validateRepoFill (f : ext.CellConfigRepoFill) : option error :=
  if blank (ext.rf_URL f) then Some (EWrap "%w (repos[%q])" [ESentinel ErrConfigRepoFillURLRequired])
  else if negb (blank (ext.rf_Branch f)) && negb (blank (ext.rf_Ref f)) then
    Some (EWrap "%w (repos[%q])" [ESentinel ErrRepoBranchRefMutex])
  else None.
Definition validateSecretFill (f : ext.CellConfigSecretFill) : option error :=
  match ext.sf_SecretRef f with
  | Some r => if blank (ext.csr_Name r) || blank (ext.csr_Realm r)
              then Some (EWrap "%w (secrets[%q])" [ESentinel ErrConfigSecretFillRefRequired]) else None
  | None => Some (EWrap "%w (secrets[%q])" [ESentinel ErrConfigSecretFillRefRequired])
  end.

Section Validate.
Context (doc : Document).

Definition fail (name : string) (e : error) : option ValidationError :=
  Some {| ve_Index := doc_Index doc; ve_Kind := doc_Kind doc; ve_Name := name; ve_Err := e |}.
Definition report (name : string) (e : option error) : option ValidationError :=
  match e with Some e => fail name e | None => None end.
Definition required (value msg : string) : option error := if String.eqb value "" then Some (EOpaque msg) else None.

Definition validateBlueprint : option ValidationError :=
  match doc_CellBlueprintDoc doc with
  | None => fail "" (EOpaque "blueprint document is nil")
  | Some bp =>
      let m := ext.bp_Metadata bp in
      if blank (ext.bpm_Name m) then fail "" (ESentinel ErrBlueprintNameRequired)
      else report (ext.bpm_Name m) (first_error
        ([validateBlueprintScope m;
          if length (ext.bcs_Containers (ext.bps_Cell (ext.bp_Spec bp))) =? 0
          then Some (ESentinel ErrBlueprintCellRequired) else None]
         ++ concat ((fun c => [validateBlueprintRepos (ext.bc_Repos c);
                               validateBlueprintSecretSlots (ext.bc_Secrets c)])
                      <$> ext.bcs_Containers (ext.bps_Cell (ext.bp_Spec bp)))))
  end.

Definition validateVolume : option ValidationError :=
  match doc_VolumeDoc doc with
  | None => fail "" (EOpaque "volume document is nil")
  | Some v =>
      let m := ext.vol_Metadata v in
      if blank (ext.volm_Name m) then fail "" (ESentinel ErrVolumeNameRequired)
      else report (ext.volm_Name m)
             (first_error [validateVolumeScope m; validateReclaimPolicy (ext.vol_ReclaimPolicy v)])
  end.

(** The fills are visited in map order, which only chooses the error reported. *)
Definition validateConfig : option ValidationError :=
  match doc_CellConfigDoc doc with
  | None => fail "" (EOpaque "config document is nil")
  | Some cfg =>
      let m := ext.cfg_Metadata cfg in
      if blank (ext.cfm_Name m) then fail "" (ESentinel ErrConfigNameRequired)
      else report (ext.cfm_Name m) (first_error
        ([validateConfigScope m; validateConfigBlueprintRef (ext.cfs_Blueprint (ext.cfg_Spec cfg))]
         ++ ((fun kv => validateRepoFill kv.2) <$> map_to_list (ext.cfs_Repos (ext.cfg_Spec cfg)))
         ++ ((fun kv => validateSecretFill kv.2) <$> map_to_list (ext.cfs_Secrets (ext.cfg_Spec cfg)))))
  end.

Definition validateByKind : option ValidationError :=
  let kind := doc_Kind doc in
  if String.eqb kind ext.KindRealm then
    match doc_RealmDoc doc with
    | None => fail "" (EOpaque "realm document is nil")
    | Some d => report (ext.sm_Name (ext.realm_Metadata d))
                  (required (ext.sm_Name (ext.realm_Metadata d)) "metadata.name is required")
    end
  else if String.eqb kind ext.KindSpace then
    match doc_SpaceDoc doc with
    | None => fail "" (EOpaque "space document is nil")
    | Some d => report (ext.sm_Name (ext.space_Metadata d)) (first_error
                  [required (ext.sm_Name (ext.space_Metadata d)) "metadata.name is required";
                   required (ext.spsp_RealmID (ext.space_Spec d)) "spec.realmId is required"])
    end
  else if String.eqb kind ext.KindStack then
    match doc_StackDoc doc with
    | None => fail "" (EOpaque "stack document is nil")
    | Some d => report (ext.sm_Name (ext.stack_Metadata d)) (first_error
                  [required (ext.sm_Name (ext.stack_Metadata d)) "metadata.name is required";
                   required (ext.stsp_RealmID (ext.stack_Spec d)) "spec.realmId is required";
                   required (ext.stsp_SpaceID (ext.stack_Spec d)) "spec.spaceId is required"])
    end
  else if String.eqb kind ext.KindCell then
    match doc_CellDoc doc with
    | None => fail "" (EOpaque "cell document is nil")
    | Some d =>
        let s := ext.cell_Spec d in
        report (ext.cm_Name (ext.cell_Metadata d)) (first_error
          [required (ext.cm_Name (ext.cell_Metadata d)) "metadata.name is required";
           required (ext.csp_RealmID s) "spec.realmId is required";
           required (ext.csp_SpaceID s) "spec.spaceId is required";
           required (ext.csp_StackID s) "spec.stackId is required";
           if length (ext.csp_Containers s) =? 0
           then Some (EOpaque "spec.containers is required and cannot be empty") else None])
    end
  else if String.eqb kind ext.KindContainer then
    match doc_ContainerDoc doc with
    | None => fail "" (EOpaque "container document is nil")
    | Some d =>
        let s := ext.cont_Spec d in
        report (ext.ctm_Name (ext.cont_Metadata d)) (first_error
          [required (ext.ctm_Name (ext.cont_Metadata d)) "metadata.name is required";
           required (ext.c_RealmID s) "spec.realmId is required";
           required (ext.c_SpaceID s) "spec.spaceId is required";
           required (ext.c_StackID s) "spec.stackId is required";
           required (ext.c_CellID s) "spec.cellId is required";
           required (ext.c_Image s) "spec.image is required";
           validateSecrets (ext.c_Secrets s); validateRepos (ext.c_Repos s)])
    end
  else if String.eqb kind ext.KindSecret then
    match doc_SecretDoc doc with
    | None => fail "" (EOpaque "secret document is nil")
    | Some d =>
        let m := ext.secret_Metadata d in
        report (ext.secm_Name m) (first_error
          [required (ext.secm_Name m) "metadata.name is required"; validateSecretScope m;
           if blank (ext.secret_Data d) then Some (ESentinel ErrSecretDataRequired) else None])
    end
  else if String.eqb kind ext.KindCellBlueprint then validateBlueprint
  else if String.eqb kind ext.KindCellConfig then validateConfig
  else if String.eqb kind ext.KindVolume then validateVolume
  else None.

Definition documentKinds : list string :=
  [ext.KindRealm; ext.KindSpace; ext.KindStack; ext.KindCell; ext.KindContainer; ext.KindSecret;
   ext.KindCellBlueprint; ext.KindCellConfig; ext.KindVolume].

Definition ValidateDocument : option ValidationError :=
  if negb (String.eqb (DefaultVersion (doc_APIVersion doc)) VersionV1Beta1) then
    fail "" (EWrap "%w: %s (expected %s)" [ESentinel ErrUnsupportedAPIVersion])
  else if negb (existsb (String.eqb (doc_Kind doc)) documentKinds) then
    fail "" (EWrap "%w: %s" [ESentinel ErrUnknownKind])
  else validateByKind.

End Validate.

(** ** Theorems: splitting *)

#[local] Arguments String.append !_ _ / : simpl nomatch.

(** The last character of a string. *)
Fixpoint last_char (s : string) : option ascii :=
  match s with
  | EmptyString => None
  | String c EmptyString => Some c
  | String _ s' => last_char s'
  end.

(** A document as the splitter returns it: neither end is space, and no line of it
    is a separator. *)
Fixpoint no_separator (bol : bool) (s : string) : bool :=
  match s with
  | EmptyString => true
  | String c s' =>
      negb (bol && bool_decide (is_Some (matchSeparator s))) && no_separator (is_newline c) s'
  end.

Definition ends_plain (s : string) : Prop := ∃ c, last_char s = Some c ∧ re_space c = false.

Record plain_document (d : string) : Prop := {
  pd_first : ∃ c s, d = String c s ∧ is_space c = false;
  pd_last : ∃ c, last_char d = Some c ∧ is_space c = false;
  pd_inner : no_separator true d = true
}.

Definition newline_char : ascii := "010".

Lemma not_re_space c : is_space c = false → re_space c = false.
Proof. by destruct c as [[] [] [] [] [] [] [] []]. Qed.

Lemma plain_ends d : plain_document d → ends_plain d.
Proof. intros [_ (c & Hl & Hc) _]. exists c. split; [done|by apply not_re_space]. Qed.

Lemma ends_plain_tail c s : ends_plain (String c s) → s ≠ "" → ends_plain s.
Proof. intros (x & Hx & Hs) Hne. exists x. destruct s; [done|]. done. Qed.

Lemma span_stops s rest : ends_plain s →
  (span re_space (s +:+ rest)).1 = (span re_space s).1 ∧
  (span re_space (s +:+ rest)).2 = (span re_space s).2 +:+ rest ∧ ends_plain (span re_space s).2.
Proof.
  induction s as [|c s IH]; intros He; [by destruct He as (x & ? & _)|]. cbn.
  destruct (re_space c) eqn:Ec; [|done]. destruct s as [|c' s].
  { destruct He as (x & [= <-] & Hx). congruence. }
  specialize (IH (ends_plain_tail _ _ He ltac:(done))).
  destruct (span re_space (String c' s +:+ rest)), (span re_space (String c' s)).
  destruct IH as (E1 & E2 & E3). cbn in *. split_and!; [by rewrite E1|done|done].
Qed.

Lemma trailing_stops s rest : ends_plain s → trailing (s +:+ String newline_char rest) = trailing s.
Proof.
  induction s as [|c s IH]; intros He; [by destruct He as (x & ? & _)|]. cbn. destruct s as [|c' s].
  { destruct He as (x & [= <-] & Hx). by rewrite Hx. }
  by rewrite (IH (ends_plain_tail _ _ He ltac:(done))).
Qed.

(** A separator match, with the literal dashes as a test. *)
Lemma matchSeparator_unfold s : matchSeparator s =
  let '(w, r) := span re_space s in
  match r with
  | String a (String b (String c r')) =>
      if Ascii.eqb a "-" && Ascii.eqb b "-" && Ascii.eqb c "-"
      then match trailing r' with Some n => Some (String.length w + 3 + n) | None => None end
      else None
  | _ => None
  end.
Proof.
  unfold matchSeparator. destruct (span re_space s) as [w [|a [|b [|c r]]]]; [done| | |].
  - by destruct a as [[] [] [] [] [] [] [] []].
  - by destruct a as [[] [] [] [] [] [] [] []], b as [[] [] [] [] [] [] [] []].
  - destruct (Ascii.eqb_spec a "-") as [->|N]; [|by destruct a as [[] [] [] [] [] [] [] []]].
    destruct (Ascii.eqb_spec b "-") as [->|N]; [|by destruct b as [[] [] [] [] [] [] [] []]].
    destruct (Ascii.eqb_spec c "-") as [->|N]; [done|by destruct c as [[] [] [] [] [] [] [] []]].
Qed.

Lemma matchSeparator_stops s rest : ends_plain s → matchSeparator s = None →
  matchSeparator (s +:+ String newline_char rest) = None.
Proof.
  intros He. rewrite !matchSeparator_unfold.
  destruct (span_stops s (String newline_char rest) He) as (H1 & H2 & H3).
  destruct (span re_space (s +:+ _)) as [w r], (span re_space s) as [w0 r0]. cbn in *. subst w r.
  destruct r0 as [|c1 [|c2 [|c3 r]]]; cbn.
  - by destruct H3 as (x & ? & _).
  - destruct rest as [|a r]; [done|]. by rewrite andb_false_r.
  - by rewrite andb_false_r.
  - destruct (Ascii.eqb c1 "-" && _ && _); [|done]. destruct r as [|c r]; [done|].
    rewrite <-(trailing_stops (String c r) rest); [done|].
    do 3 (apply ends_plain_tail in H3; [|done]). done.
Qed.

(** Splitting a document followed by a separator line: the document with its newline,
    then what the rest of the text splits into. *)
Lemma splitDocs_document d bol rest : ends_plain d → no_separator bol d = true →
  splitDocs bol 0 (d +:+ String newline_char rest)
  = let '(x, xs) := splitDocs true 0 rest in (d +:+ String newline_char x, xs).
Proof.
  revert bol. induction d as [|c d IH]; intros bol He Hn; [by destruct He as (x & ? & _)|].
  cbn [no_separator] in Hn. apply andb_true_iff in Hn as [Hm Hn].
  assert (Hsep : (if bol then matchSeparator (String c d +:+ String newline_char rest) else None) = None).
  { destruct bol; [|done]. apply matchSeparator_stops; [done|]. cbn in Hm.
    destruct (matchSeparator (String c d)); [by rewrite bool_decide_true in Hm|done]. }
  change (splitDocs bol 0 (String c d +:+ String newline_char rest)) with
    (match (if bol then matchSeparator (String c d +:+ String newline_char rest) else None) with
     | Some n => let '(d', ds) := splitDocs (is_newline c) (n - 1) (d +:+ String newline_char rest) in ("", d' :: ds)
     | None => let '(d', ds) := splitDocs (is_newline c) 0 (d +:+ String newline_char rest) in (String c d', ds)
     end).
  rewrite Hsep. destruct d as [|c' d].
  - destruct He as (x & [= <-] & Hx). assert (is_newline c = false) as ->.
    { destruct (Ascii.eqb_spec c "010") as [->|]; [done|]. by apply Ascii.eqb_neq. }
    cbn. by destruct (splitDocs true 0 rest).
  - rewrite (IH _ (ends_plain_tail _ _ He ltac:(done)) Hn). by destruct (splitDocs true 0 rest).
Qed.

(** The text of a list of documents, as kuke writes it: a separator line between two. *)
Definition docSeparator : string := String newline_char ("---" +:+ String newline_char "").

Lemma splitDocs_separator c s : re_space c = false →
  splitDocs true 0 ("---" +:+ String newline_char (String c s))
  = let '(x, xs) := splitDocs true 0 (String c s) in ("", String newline_char x :: xs).
Proof.
  intros Hc. assert (Hn : is_newline c = false).
  { destruct (Ascii.eqb_spec c "010") as [->|]; [done|]. by apply Ascii.eqb_neq. }
  assert (Hm : matchSeparator ("---" +:+ String newline_char (String c s)) = Some 3).
  { assert (Ht : trailing (String newline_char (String c s)) = Some 0).
    { cbn [trailing]. by rewrite Hc, Hn. }
    change (matchSeparator _) with
      (match trailing (String newline_char (String c s)) with Some n => Some (3 + n) | None => None end).
    by rewrite Ht. }
  change (splitDocs true 0 ("---" +:+ String newline_char (String c s))) with
    (match matchSeparator ("---" +:+ String newline_char (String c s)) with
     | Some n => let '(d', ds) := splitDocs false (n - 1) ("--" +:+ String newline_char (String c s)) in ("", d' :: ds)
     | None => let '(d', ds) := splitDocs false 0 ("--" +:+ String newline_char (String c s)) in (String "-" d', ds)
     end).
  rewrite Hm. change (3 - 1) with 2.
  change (splitDocs false 2 ("--" +:+ String newline_char (String c s))) with
    (let '(d', ds) := splitDocs true 0 (String c s) in (String newline_char d', ds)).
  by destruct (splitDocs true 0 (String c s)).
Qed.

Lemma splitDocs_single d bol : ends_plain d → no_separator bol d = true → splitDocs bol 0 d = (d, []).
Proof.
  revert bol. induction d as [|c d IH]; intros bol He Hn; [done|].
  cbn [no_separator] in Hn. apply andb_true_iff in Hn as [Hm Hn].
  assert (Hsep : (if bol then matchSeparator (String c d) else None) = None).
  { destruct bol; [|done]. cbn in Hm.
    destruct (matchSeparator (String c d)); [by rewrite bool_decide_true in Hm|done]. }
  cbn [splitDocs]. rewrite Hsep. destruct d as [|c' d]; [done|].
  by rewrite (IH _ (ends_plain_tail _ _ He ltac:(done)) Hn).
Qed.

(** A document with the newlines the splitter leaves around it. *)
Definition framed (d x : string) : Prop :=
  x = d ∨ x = d +:+ String newline_char "" ∨ x = String newline_char d
  ∨ x = String newline_char (d +:+ String newline_char "").

Lemma splitDocs_join d ds : Forall plain_document (d :: ds) →
  ∃ x xs, splitDocs true 0 (Join docSeparator (d :: ds)) = (x, xs) ∧ (x = d ∨ x = d +:+ String newline_char "")
    ∧ Forall2 framed ds xs.
Proof.
  revert d. induction ds as [|d' ds IH]; intros d Hp; inversion_clear Hp as [|?? Hd Hds].
  { exists d, []. split_and!; [|by left|constructor].
    apply splitDocs_single; [by apply plain_ends|apply Hd]. }
  destruct (IH d' Hds) as (x & xs & Hs & Hx & Hf).
  assert (Hj : ∃ c s, Join docSeparator (d' :: ds) = String c s ∧ re_space c = false).
  { inversion_clear Hds as [|?? [(c & s & -> & Hc%not_re_space) _ _] _]. exists c. destruct ds; cbn; eauto. }
  destruct Hj as (c & s & Hj & Hc). rewrite Hj in Hs.
  change (Join docSeparator (d :: d' :: ds)) with (d +:+ String newline_char (("---" +:+ String newline_char "") +:+ Join docSeparator (d' :: ds))).
  rewrite splitDocs_document by first [by apply plain_ends|apply Hd]. rewrite Hj.
  change (("---" +:+ String newline_char "") +:+ String c s) with ("---" +:+ String newline_char (String c s)).
  rewrite (splitDocs_separator c s Hc), Hs. eexists _, _. split_and!; [done|by right|].
  constructor; [|done]. unfold framed. destruct Hx as [->| ->]; eauto.
Qed.

(** Trimming. *)
Lemma rtrim_newline s : rtrim (s +:+ String newline_char "") = rtrim s.
Proof. induction s as [|c s IH]; [done|]. cbn. by rewrite IH. Qed.

Lemma rtrim_ends d c : last_char d = Some c → is_space c = false → rtrim d = d.
Proof.
  intros Hl Hc. induction d as [|a d IH]; [done|]. destruct d as [|b d].
  { injection Hl as ->. cbn. by rewrite Hc. }
  cbn [rtrim] in *. by rewrite (IH Hl).
Qed.

Lemma TrimSpace_framed d x : plain_document d → framed d x → TrimSpace x = d.
Proof.
  intros [(c & s & -> & Hc) (e & Hl & He) _] Hf.
  assert (Ht : ∀ t, TrimSpace (String c t) = rtrim (String c t)).
  { intros t. unfold TrimSpace. cbn [ltrim]. by rewrite Hc. }
  unfold framed in Hf. destruct Hf as [->|[->|[->| ->]]];
    repeat change (TrimSpace (String newline_char ?t)) with (TrimSpace t);
    rewrite ?Ht; [|change (String c s +:+ ?t) with (String c (s +:+ t)); rewrite Ht| |
      change (String c s +:+ ?t) with (String c (s +:+ t)); rewrite Ht];
    repeat change (String c (s +:+ ?t)) with (String c s +:+ t);
    rewrite ?rtrim_newline; by apply (rtrim_ends _ e).
Qed.

Lemma plain_nonempty d : plain_document d → negb (String.eqb d "") = true.
Proof. by intros [(c & s & -> & _) _ _]. Qed.

Lemma kept_documents ds xs : Forall plain_document ds → Forall2 framed ds xs →
  List.filter (fun d => negb (String.eqb d "")) (TrimSpace <$> xs) = ds.
Proof.
  intros Hp. revert xs. induction Hp as [|d ds Hd Hp IH]; intros xs Hf; inversion_clear Hf; [done|].
  cbn. rewrite (TrimSpace_framed d) by done. rewrite plain_nonempty by done. f_equal. by apply IH.
Qed.

(** C17: splitting undoes joining: a non-empty sequence of documents, none of which
    starts or ends with space or holds a separator line, written with a line of three
    dashes between two of them, is read back as that sequence, in order. *)
Theorem parse_documents_roundtrip ds : ds ≠ [] → Forall plain_document ds →
  ParseDocuments (Ok (Join docSeparator ds)) = Ok ds.
Proof.
  intros Hne Hp. destruct ds as [|d ds]; [done|].
  destruct (splitDocs_join d ds Hp) as (x & xs & Hs & Hx & Hf).
  unfold ParseDocuments, separatorSplit. rewrite Hs.
  rewrite (kept_documents (d :: ds)); [done|done|]. constructor; [|done].
  unfold framed. tauto.
Qed.

Lemma parse_documents_roundtrip_witness :
  ParseDocuments (Ok (Join docSeparator ["kind: Realm"; "kind: Space"])) = Ok ["kind: Realm"; "kind: Space"].
Proof.
  apply parse_documents_roundtrip; [done|].
  repeat constructor; try (eexists _, _; split; reflexivity); try (eexists _; split; reflexivity).
Defined.

(** ** Theorems: decoding *)

(** The kinds of the document pointers that are set. *)
Definition set_kinds (d : Document) : list string :=
  let mark {A} (o : option A) (kind : string) := match o with Some _ => [kind] | None => [] end in
  mark (doc_RealmDoc d) ext.KindRealm ++ mark (doc_SpaceDoc d) ext.KindSpace
  ++ mark (doc_StackDoc d) ext.KindStack ++ mark (doc_CellDoc d) ext.KindCell
  ++ mark (doc_ContainerDoc d) ext.KindContainer ++ mark (doc_SecretDoc d) ext.KindSecret
  ++ mark (doc_CellBlueprintDoc d) ext.KindCellBlueprint ++ mark (doc_CellConfigDoc d) ext.KindCellConfig
  ++ mark (doc_VolumeDoc d) ext.KindVolume.

(** what decoding returns is well formed: it keeps the text and the index, its
    kind is the one detected in the text and is one of the nine known kinds, and of the
    nine document pointers exactly the kind's own is set, so no later handler that
    switches on the kind dereferences a nil document; any other kind is refused with
    ErrUnknownKind. *)
Theorem parsed_document_typed `{YamlDocuments} index raw :
  (∀ d, ParseDocument index raw = Ok d →
     doc_Index d = index ∧ doc_Raw d = raw ∧ DetectKind raw = Ok (doc_Kind d) ∧
     doc_Kind d ∈ documentKinds ∧ set_kinds d = [doc_Kind d]) ∧
  (∀ k, DetectKind raw = Ok k → k ∉ documentKinds →
     ∃ e, ParseDocument index raw = Err e ∧ error_is ErrUnknownKind e = true).
Proof.
  unfold ParseDocument. split.
  - intros d. destruct (DetectKind raw) as [k|e] eqn:Ek; [|done].
    repeat match goal with
      | |- (if String.eqb k ?x then _ else _) = _ → _ =>
          destruct (String.eqb_spec k x) as [->|_];
          [case_match; [|done]; intros [= <-]; split_and!; try done; by apply (bool_decide_unpack _); vm_compute|]
      end.
    done.
  - intros k -> Hk. unfold documentKinds in Hk. rewrite !not_elem_of_cons in Hk.
    destruct_and! Hk. rewrite !(proj2 (String.eqb_neq _ _)) by done. eexists; split; [done|]. reflexivity.
Qed.

(** ** Theorems: checked names as path elements *)

Lemma avoids_ltrim c s : is_space c = false → avoids c (ltrim s) = avoids c s.
Proof.
  intros Hc. induction s as [|d s IH]; [done|]. cbn [ltrim]. destruct (is_space d) eqn:Ed; [|done].
  rewrite IH. cbn. destruct (Ascii.eqb_spec d c) as [->|_]; [congruence|done].
Qed.

Lemma avoids_rtrim c s : is_space c = false → avoids c (rtrim s) = avoids c s.
Proof.
  intros Hc. induction s as [|d s IH]; [done|]. cbn [rtrim avoids]. rewrite <-IH.
  destruct (rtrim s) as [|e t]; [|done]. destruct (is_space d) eqn:Ed; [|done].
  cbn. destruct (Ascii.eqb_spec d c) as [->|_]; [congruence|done].
Qed.

Lemma avoids_TrimSpace c s : is_space c = false → avoids c (TrimSpace s) = avoids c s.
Proof. intros Hc. unfold TrimSpace. by rewrite avoids_rtrim, avoids_ltrim. Qed.

Lemma validateSegment_None unsafe v : validateSegment unsafe v = None →
  v ≠ "." ∧ v ≠ ".." ∧ avoids slash v = true.
Proof.
  unfold validateSegment, contains_byte. destruct (String.eqb_spec v "") as [->|_]; [done|].
  destruct (String.eqb_spec v ".") as [->|?]; [done|]. destruct (String.eqb_spec v "..") as [->|?]; [done|].
  cbn [orb]. destruct (avoids slash v); [done|]. by rewrite !orb_true_r.
Qed.

(** The checks look at the trimmed value; the untrimmed one is an element as well. *)
Lemma checked_coord unsafe v : validateSegment unsafe (TrimSpace v) = None → coord_ok v.
Proof.
  intros (H1 & H2 & H3)%validateSegment_None. rewrite avoids_TrimSpace in H3 by done.
  destruct (decide (v = "")) as [->|Hv]; [by left|right]. split; try done; by intros ->.
Qed.

Lemma coord_seg v : coord_ok v → v ≠ "" → seg_ok v.
Proof. by intros [->|?]. Qed.

Lemma validateSecretScope_coords m : validateSecretScope m = None →
  ext.secm_Realm m ≠ "" ∧
  Forall coord_ok [ext.secm_Name m; ext.secm_Realm m; ext.secm_Space m; ext.secm_Stack m; ext.secm_Cell m].
Proof.
  unfold validateSecretScope. destruct (String.eqb_spec (TrimSpace (ext.secm_Realm m)) "") as [|Hr]; [done|].
  case_match; [done|]. case_match; [done|]. rewrite first_error_fmap_None. intros HF.
  split; [by intros E; rewrite E in Hr|].
  repeat (apply Forall_cons; split; [eapply checked_coord, (proj1 (wrapErr_None _ _)), HF; set_solver|]). by constructor.
Qed.

Lemma validateVolumeScope_coords m : validateVolumeScope m = None →
  ext.volm_Realm m ≠ "" ∧
  Forall coord_ok [ext.volm_Name m; ext.volm_Realm m; ext.volm_Space m; ext.volm_Stack m].
Proof.
  unfold validateVolumeScope. destruct (String.eqb_spec (TrimSpace (ext.volm_Realm m)) "") as [|Hr]; [done|].
  case_match; [done|]. rewrite first_error_fmap_None. intros HF.
  split; [by intros E; rewrite E in Hr|].
  repeat (apply Forall_cons; split; [eapply checked_coord, (proj1 (wrapErr_None _ _)), HF; set_solver|]). by constructor.
Qed.

Lemma report_None doc n e : report doc n e = None → e = None.
Proof. by destruct e. Qed.

Section Contained.
Context (bl : list string) (Hbl : Forall seg_ok bl).
Let base := render_path bl.

(** The scope directory of any checked coordinates: an empty one, even above a set
    one, contributes no element. *)
Lemma SecretScopeDir_given r s t c : seg_ok r → coord_ok s → coord_ok t → coord_ok c →
  SecretScopeDir base r s t c = render_path (bl ++ "data" :: r :: given s ++ given t ++ given c).
Proof.
  intros Hr Hs Ht Hc. pose proof (given_ok s Hs). pose proof (given_ok t Ht).
  assert (Er : RealmMetadataDir base r = render_path (bl ++ ["data"; r])) by by apply RealmMetadataDir_render.
  assert (Hrb : Forall seg_ok (bl ++ ["data"; r])).
  { apply Forall_app; split; [done|]. repeat apply Forall_cons_2; [by split|done|by constructor]. }
  assert (Es : SpaceMetadataDir base r s = render_path ((bl ++ ["data"; r]) ++ given s)).
  { unfold SpaceMetadataDir. rewrite Er. by apply FJoin_given. }
  assert (Et : StackMetadataDir base r s t = render_path (((bl ++ ["data"; r]) ++ given s) ++ given t)).
  { unfold StackMetadataDir. rewrite Es. apply FJoin_given; [by apply Forall_app|done]. }
  assert (Ec : CellMetadataDir base r s t c = render_path ((((bl ++ ["data"; r]) ++ given s) ++ given t) ++ given c)).
  { unfold CellMetadataDir. rewrite Et. apply FJoin_given; [|done]. apply Forall_app; split; [by apply Forall_app|done]. }
  unfold SecretScopeDir. destruct (String.eqb_spec c "") as [->|_]; cbn [negb].
  2:{ rewrite Ec. by rewrite <-!app_assoc. }
  destruct (String.eqb_spec t "") as [->|_]; cbn [negb].
  2:{ rewrite Et. by rewrite <-!app_assoc, app_nil_r. }
  destruct (String.eqb_spec s "") as [->|_]; cbn [negb]; [by rewrite Er, !app_nil_r|].
  rewrite Es. change (given "") with (@nil string). by rewrite !app_nil_r, <-!app_assoc.
Qed.

Lemma below_scope r s t c sub n : seg_ok r → coord_ok s → coord_ok t → coord_ok c → seg_ok sub → seg_ok n →
  FJoin [FJoin [SecretScopeDir base r s t c; sub]; n]
  = render_path (bl ++ "data" :: r :: (given s ++ given t ++ given c) ++ [sub; n]).
Proof.
  intros Hr Hs Ht Hc Hsub Hn. rewrite SecretScopeDir_given by done.
  assert (HF : Forall seg_ok (bl ++ "data" :: r :: given s ++ given t ++ given c)).
  { apply Forall_app; split; [done|]. repeat apply Forall_cons_2; [by split|done|].
    repeat (apply Forall_app; split); by apply given_ok. }
  rewrite FJoin_seg by done. rewrite FJoin_seg by (done || by apply Forall_app; split; [done|apply Forall_singleton]).
  f_equal. rewrite <-!app_assoc. cbn. by rewrite <-!app_assoc.
Qed.

(** documents cannot name files outside their realm: when a Secret or Volume
    document passes validation, the path its data is stored at is its realm's metadata
    directory followed by the names of its scope (each a single path element), the
    directory of its kind and its name, itself a single element. *)
Theorem checked_documents_contained doc :
  ValidateDocument doc = None →
  (∀ d, doc_Kind doc = ext.KindSecret → doc_SecretDoc doc = Some d →
     let m := ext.secret_Metadata d in
     ∃ scope, Forall seg_ok (ext.secm_Realm m :: scope ++ [ext.secm_Name m]) ∧
       SecretPath base (ext.secm_Realm m) (ext.secm_Space m) (ext.secm_Stack m) (ext.secm_Cell m) (ext.secm_Name m)
       = render_path (bl ++ "data" :: ext.secm_Realm m :: scope ++ ["secrets"; ext.secm_Name m])) ∧
  (∀ d, doc_Kind doc = ext.KindVolume → doc_VolumeDoc doc = Some d →
     let m := ext.vol_Metadata d in
     ∃ scope, Forall seg_ok (ext.volm_Realm m :: scope ++ [ext.volm_Name m]) ∧
       VolumePath base (ext.volm_Realm m) (ext.volm_Space m) (ext.volm_Stack m) (ext.volm_Name m)
       = render_path (bl ++ "data" :: ext.volm_Realm m :: scope ++ ["volumes"; ext.volm_Name m])).
Proof.
  unfold ValidateDocument. case_match; [done|]. case_match; [done|]. intros HV. split; intros d Hk Hd.
  - set (m := ext.secret_Metadata d). unfold validateByKind in HV. rewrite Hk in HV. cbn -[first_error] in HV. rewrite Hd in HV. fold m in HV.
    apply report_None in HV as HE.
    apply first_error_cons_None in HE as [Hn HE]. apply first_error_cons_None in HE as [HE _].
    unfold required in Hn. destruct (String.eqb_spec (ext.secm_Name m) "") as [|Hne]; [done|].
    apply validateSecretScope_coords in HE as [Hr HF]. decompose_Forall.
    exists (given (ext.secm_Space m) ++ given (ext.secm_Stack m) ++ given (ext.secm_Cell m)). split.
    + apply Forall_cons_2; [by apply coord_seg|]. apply Forall_app; split.
      * repeat (apply Forall_app; split); by apply given_ok.
      * apply Forall_singleton. by apply coord_seg.
    + apply below_scope; try done; first [by apply coord_seg|by split].
  - set (m := ext.vol_Metadata d). unfold validateByKind in HV. rewrite Hk in HV. cbn -[first_error] in HV. unfold validateVolume in HV. rewrite Hd in HV. fold m in HV.
    destruct (blank (ext.volm_Name m)) eqn:Hn; [done|].
    apply report_None in HV as HE.
    apply first_error_cons_None in HE as [HE _].
    apply validateVolumeScope_coords in HE as [Hr HF]. decompose_Forall.
    assert (ext.volm_Name m ≠ "") by (intros E; by rewrite E in Hn).
    exists (given (ext.volm_Space m) ++ given (ext.volm_Stack m) ++ given ""). split.
    + apply Forall_cons_2; [by apply coord_seg|]. apply Forall_app; split.
      * repeat (apply Forall_app; split); apply given_ok; first [done|by left].
      * apply Forall_singleton. by apply coord_seg.
    + rewrite <-(below_scope _ _ _ ""); try done; first [by apply coord_seg|by split|by left].
Qed.

End Contained.

Definition sample_secret_document : Document :=
  Build_Document 0 "raw" "" ext.KindSecret None None None None None
    (Some {| ext.secret_APIVersion := ""; ext.secret_Kind := ext.KindSecret;
             ext.secret_Metadata := {| ext.secm_Name := "token"; ext.secm_Realm := "r"; ext.secm_Space := "";
                                       ext.secm_Stack := ""; ext.secm_Cell := "" |};
             ext.secret_Data := "hunter2" |}) None None None.

Lemma checked_documents_contained_witness :
  SecretPath "/opt/kukeon" "r" "" "" "" "token" = "/opt/kukeon/data/r/secrets/token".
Proof.
  destruct (checked_documents_contained ["opt"; "kukeon"] ltac:(repeat apply Forall_cons_2; by split || constructor)
    sample_secret_document ltac:(vm_compute; reflexivity)) as [H _].
  destruct (H _ eq_refl eq_refl) as (scope & _ & _). vm_compute. reflexivity.
Defined.

(** The same document under another name. *)
Definition rename_blueprint (name : string) (bp : ext.CellBlueprintDoc) : ext.CellBlueprintDoc :=
  let m := ext.bp_Metadata bp in
  {| ext.bp_APIVersion := ext.bp_APIVersion bp; ext.bp_Kind := ext.bp_Kind bp;
     ext.bp_Metadata := {| ext.bpm_Name := name; ext.bpm_Realm := ext.bpm_Realm m; ext.bpm_Space := ext.bpm_Space m;
                           ext.bpm_Stack := ext.bpm_Stack m; ext.bpm_Labels := ext.bpm_Labels m |};
     ext.bp_Spec := ext.bp_Spec bp |}.
Definition blueprint_document (index : Z) (raw : string) (bp : ext.CellBlueprintDoc) : Document :=
  Build_Document index raw (ext.bp_APIVersion bp) ext.KindCellBlueprint None None None None None None (Some bp) None None.

(** a blueprint's name is not checked the way a secret's is: any accepted
    realm-scoped blueprint stays accepted when it is renamed to "../secrets/n", and the
    path it is then stored at is the path of the realm's secret n. *)
Theorem blueprint_name_escapes bl index raw bp n :
  Forall seg_ok bl → seg_ok (ext.bpm_Realm (ext.bp_Metadata bp)) → seg_ok n →
  ValidateDocument (blueprint_document index raw bp) = None →
  ValidateDocument (blueprint_document index raw (rename_blueprint ("../secrets/" +:+ n) bp)) = None ∧
  BlueprintPath (render_path bl) (ext.bpm_Realm (ext.bp_Metadata bp)) "" "" ("../secrets/" +:+ n)
  = SecretPath (render_path bl) (ext.bpm_Realm (ext.bp_Metadata bp)) "" "" "" n.
Proof.
  intros Hb Hr Hn HV. split.
  - revert HV. unfold ValidateDocument, validateByKind. cbn -[first_error validateBlueprint].
    case_match; [done|]. unfold validateBlueprint. cbn -[first_error blank].
    destruct (blank (ext.bpm_Name _)); [done|]. intros HV%report_None.
    match goal with |- (if blank ?x then _ else _) = _ => assert (blank x = false) as -> end.
    { apply String.eqb_neq. by apply TrimSpace_head. }
    change (validateBlueprintScope _) with (validateBlueprintScope (ext.bp_Metadata bp)).
    unfold report. by rewrite HV.
  - unfold BlueprintPath, BlueprintsDir, BlueprintScopeDir, SecretPath, SecretsDir, SecretScopeDir. cbn [String.eqb negb].
    assert (HF : Forall seg_ok (bl ++ ["data"; ext.bpm_Realm (ext.bp_Metadata bp)])).
    { apply Forall_app; split; [done|]. repeat apply Forall_cons_2; [by split|done|by constructor]. }
    rewrite RealmMetadataDir_render by done. rewrite !(FJoin_seg (bl ++ _)) by (done || by split).
    assert (HS : ∀ x, seg_ok x → Forall seg_ok ((bl ++ ["data"; ext.bpm_Realm (ext.bp_Metadata bp)]) ++ [x])).
    { intros x Hx. apply Forall_app; split; [done|by apply Forall_singleton]. }
    change ("../secrets/" +:+ n) with ("../" +:+ KukeonSecretsSubdir +:+ "/" +:+ n).
    rewrite FJoin_sibling by (done || (by split) || by apply HS; split).
    rewrite FJoin_seg by (done || by apply HS; split).
    rewrite <-!app_assoc. reflexivity.
Qed.

Lemma blueprint_name_escapes_witness :
  BlueprintPath "/opt/kukeon" "r" "" "" "../secrets/token" = SecretPath "/opt/kukeon" "r" "" "" "" "token".
Proof.
  apply (blueprint_name_escapes ["opt"; "kukeon"] 0 "" (
    {| ext.bp_APIVersion := ext.bp_APIVersion sample_blueprint; ext.bp_Kind := ext.KindCellBlueprint;
       ext.bp_Metadata := {| ext.bpm_Name := "b"; ext.bpm_Realm := "r"; ext.bpm_Space := ""; ext.bpm_Stack := "";
                             ext.bpm_Labels := ∅ |};
       ext.bp_Spec := ext.bp_Spec sample_slot_blueprint |}) "token");
    [repeat apply Forall_cons_2; by split || constructor|by split|by split|vm_compute; reflexivity].
Defined.
