(* ===== verification/Fs.v ===== *)
(** * The file system calls of the daemon's stores

    A file system as the os package shows it to a root daemon: inodes by path, each
    call an operation that may fail.  A path is resolved to the list of its elements
    (the callers pass absolute cleaned paths, so no "." or ".." is left in them).  The
    state carries the faults the environment injects: every call consumes one entry, and
    a fault makes the call fail, after doing part of its work where it has parts. *)

From Stdlib Require Import Ascii ZArith.
From stdpp Require Import base gmap strings list sorting.
From S2P Require Import Prelude Naming Layout.

Local Open Scope nat_scope.

(** ** State *)

Definition Path := list string.

Definition resolve_path (p : string) : Path :=
  List.filter (fun s => negb (String.eqb s "")) (split_on slash p).

Inductive node := NFile (data : string) | NDir.
Record inode := { i_node : node; i_mode : Z; i_uid : Z; i_gid : Z }.

Record OS := {
  os_fs : gmap Path inode;
  os_faults : list (option (nat * error));  (* how much of the work is done, and the error *)
  os_names : list string;                   (* the random parts of temporary names *)
  os_umask : Z
}.

Inductive oserr := ENOENT | EEXIST | EOther (e : error).
Definition os_error (e : oserr) : error :=
  match e with
  | ENOENT => EOpaque "no such file or directory"
  | EEXIST => EOpaque "file exists"
  | EOther e => e
  end.

Definition Sys (A : Type) : Type := st OS (oserr + A).

Definition with_fs (fs : gmap Path inode) (os : OS) : OS :=
  {| os_fs := fs; os_faults := os_faults os; os_names := os_names os; os_umask := os_umask os |}.

(** The next fault, if the environment injects one. *)
Definition take_fault (os : OS) : OS * option (nat * error) :=
  ({| os_fs := os_fs os; os_faults := tail (os_faults os); os_names := os_names os; os_umask := os_umask os |},
   match os_faults os with f :: _ => f | [] => None end).

(** A call: [work] computes the new file system and the outcome; under a fault it gets
    the share of the work to do, and its outcome is replaced by the error. *)
Definition syscall {A} (work : option nat → gmap Path inode → gmap Path inode * (oserr + A)) : Sys A := fun os =>
  let '(os, f) := take_fault os in
  match f with
  | None => let '(fs, r) := work None (os_fs os) in (with_fs fs os, r)
  | Some (n, e) => let '(fs, _) := work (Some n) (os_fs os) in (with_fs fs os, inl (EOther e))
  end.

(** A call that either does all its work or none. *)
Definition syscall1 {A} (work : gmap Path inode → gmap Path inode * (oserr + A)) : Sys A :=
  syscall (fun part fs => match part with None => work fs | Some _ => (fs, inl ENOENT) end).

(** ** Calls *)

Definition is_dir_at (fs : gmap Path inode) (p : Path) : bool :=
  match p with
  | [] => true
  | _ => match fs !! p with Some i => match i_node i with NDir => true | NFile _ => false end | None => false end
  end.
Definition parent (p : Path) : Path := removelast p.

(** The directories a path goes through, itself excluded, outermost first. *)
Definition prefixes (p : Path) : list Path := (fun i => take i p) <$> seq 1 (length p - 1).

(** A missing path is ENOENT unless it goes through a file. *)
Definition missing (fs : gmap Path inode) (p : Path) : oserr :=
  if existsb (fun q => match fs !! q with Some i => match i_node i with NFile _ => true | NDir => false end
                       | None => false end) (prefixes p)
  then EOther (EOpaque "not a directory") else ENOENT.

Definition os_Stat (p : Path) : Sys inode :=
  syscall1 (fun fs => (fs, match fs !! p with Some i => inr i | None => inl (missing fs p) end)).

(** A new entry takes its parent's group when the parent is setgid. *)
Definition setgid : Z := 1024.
Definition new_inode (fs : gmap Path inode) (umask : Z) (p : Path) (n : node) (mode : Z) : inode :=
  let inherited := match fs !! parent p with
                   | Some i => if Z.testbit (i_mode i) 10 then Some (i_gid i) else None
                   | None => None
                   end in
  {| i_node := n;
     i_mode := Z.lor (Z.ldiff mode umask)
                 (match n, inherited with NDir, Some _ => setgid | _, _ => 0%Z end);
     i_uid := 0; i_gid := default 0%Z inherited |}.

Fixpoint mkdirs (umask mode : Z) (todo : list Path) (fs : gmap Path inode) : gmap Path inode * (oserr + unit) :=
  match todo with
  | [] => (fs, inr ())
  | p :: rest =>
      match fs !! p with
      | Some i => match i_node i with
                  | NDir => mkdirs umask mode rest fs
                  | NFile _ => (fs, inl (EOther (EOpaque "not a directory")))
                  end
      | None => mkdirs umask mode rest (<[p := new_inode fs umask p NDir mode]> fs)
      end
  end.
Definition os_MkdirAll (p : Path) (mode : Z) : Sys unit := fun os =>
  syscall (fun part fs =>
    let todo := prefixes p ++ [p] in
    mkdirs (os_umask os) mode (match part with None => todo | Some n => take n todo end) fs) os.

Definition os_Chmod (p : Path) (mode : Z) : Sys unit :=
  syscall1 (fun fs =>
    match fs !! p with
    | Some i => (<[p := {| i_node := i_node i; i_mode := mode; i_uid := i_uid i; i_gid := i_gid i |}]> fs, inr ())
    | None => (fs, inl (missing fs p))
    end).

(** A negative id is left as it is. *)
Definition os_Chown (p : Path) (uid gid : Z) : Sys unit :=
  syscall1 (fun fs =>
    match fs !! p with
    | Some i => (<[p := {| i_node := i_node i; i_mode := i_mode i;
                           i_uid := if (uid <? 0)%Z then i_uid i else uid;
                           i_gid := if (gid <? 0)%Z then i_gid i else gid |}]> fs, inr ())
    | None => (fs, inl (missing fs p))
    end).

(** os.CreateTemp: the first random name that is free, at mode 0600; the random parts
    are retried as long as there are any. *)
Fixpoint free_name (fs : gmap Path inode) (dir : Path) (pre suf : string) (names : list string)
    : option string * list string :=
  match names with
  | [] => (None, [])
  | r :: rest =>
      match fs !! (dir ++ [pre +:+ r +:+ suf]) with
      | None => (Some (pre +:+ r +:+ suf), rest)
      | Some _ => free_name fs dir pre suf rest
      end
  end.
Definition os_CreateTemp (dir : Path) (pre suf : string) : Sys Path := fun os =>
  let '(found, names) := free_name (os_fs os) dir pre suf (os_names os) in
  let os := {| os_fs := os_fs os; os_faults := os_faults os; os_names := names; os_umask := os_umask os |} in
  syscall1 (fun fs =>
    if negb (is_dir_at fs dir) then (fs, inl (missing fs (dir ++ [""])))
    else match found with
         | None => (fs, inl (EOther (EOpaque "file exists")))
         | Some n => (<[dir ++ [n] := new_inode fs (os_umask os) (dir ++ [n]) (NFile "") 384]> fs, inr (dir ++ [n]))
         end) os.

(** Write to the file at [p]; under a fault a prefix is written. *)
Fixpoint str_take (n : nat) (s : string) : string :=
  match n, s with S n, String c s' => String c (str_take n s') | _, _ => "" end.
Definition os_Write (p : Path) (data : string) : Sys unit :=
  syscall (fun part fs =>
    match fs !! p with
    | Some i => (<[p := {| i_node := NFile (match part with None => data | Some n => str_take n data end);
                           i_mode := i_mode i; i_uid := i_uid i; i_gid := i_gid i |}]> fs, inr ())
    | None => (fs, inl (missing fs p))
    end).
Definition os_Close : Sys unit := syscall1 (fun fs => (fs, inr ())).

(** rename(2) of a file: it replaces a file, not a directory. *)
Definition os_Rename (src dst : Path) : Sys unit :=
  syscall1 (fun fs =>
    match fs !! src with
    | None => (fs, inl (missing fs src))
    | Some i =>
        if negb (is_dir_at fs (parent dst)) then (fs, inl (missing fs dst))
        else if is_dir_at fs dst then (fs, inl (EOther (EOpaque "is a directory")))
        else (<[dst := i]> (delete src fs), inr ())
    end).

(** link(2): claims a free name for the same file. *)
Definition os_Link (src dst : Path) : Sys unit :=
  syscall1 (fun fs =>
    match fs !! src with
    | None => (fs, inl (missing fs src))
    | Some i =>
        if negb (is_dir_at fs (parent dst)) then (fs, inl (missing fs dst))
        else match fs !! dst with
             | Some _ => (fs, inl EEXIST)
             | None => (<[dst := i]> fs, inr ())
             end
    end).

Definition is_below (p q : Path) : bool := bool_decide (p ≠ q) && bool_decide (take (length p) q = p).

(** os.Remove: a file, or a directory with nothing in it. *)
Definition os_Remove (p : Path) : Sys unit :=
  syscall1 (fun fs =>
    match fs !! p with
    | None => (fs, inl (missing fs p))
    | Some i =>
        if match i_node i with NDir => existsb (fun kv => is_below p kv.1) (map_to_list fs) | NFile _ => false end
        then (fs, inl (EOther (EOpaque "directory not empty")))
        else (delete p fs, inr ())
    end).

(** os.RemoveAll; under a fault some of what is below is gone. *)
Definition os_RemoveAll (p : Path) : Sys unit :=
  syscall (fun part fs =>
    let below := List.filter (fun q => bool_decide (q = p) || is_below p q) (fst <$> map_to_list fs) in
    let gone := match part with None => below
                | Some n => take n (List.filter (fun q => is_below p q) below) end in
    (foldr delete fs gone, inr ())).

Definition os_ReadFile (p : Path) : Sys string :=
  syscall1 (fun fs =>
    (fs, match fs !! p with
         | None => inl (missing fs p)
         | Some i => match i_node i with
                     | NFile d => inr d
                     | NDir => inl (EOther (EOpaque "is a directory"))
                     end
         end)).

(** os.ReadDir: the entries sorted by name. *)
Definition name_le (a b : string * bool) : Prop := String.leb a.1 b.1 = true.
#[global] Instance name_le_dec a b : Decision (name_le a b) := decide (_ = true).
Definition entries_of (fs : gmap Path inode) (p : Path) : list (string * bool) :=
  omap (fun kv => if bool_decide (kv.1 ≠ []) && bool_decide (parent kv.1 = p)
                  then Some (List.last kv.1 "", match i_node kv.2 with NDir => true | NFile _ => false end)
                  else None) (map_to_list fs).
Definition os_ReadDir (p : Path) : Sys (list (string * bool)) :=
  syscall1 (fun fs =>
    (fs, if is_dir_at fs p then inr (merge_sort name_le (entries_of fs p))
         else inl (match fs !! p with Some _ => EOther (EOpaque "not a directory") | None => missing fs p end))).

(** ** Theorems: what each call may change *)

Lemma resolve_render l : Forall seg_ok l → resolve_path (render_path l) = l.
Proof.
  intros H. unfold resolve_path. rewrite split_render by done.
  change (List.filter (fun s => negb (String.eqb s "")) match l with [] => [""] | _ => l end = l).
  destruct l as [|x l]; [done|].
  induction H as [|y l' [Hy _ _ _] _ IH]; [done|]. cbn.
  by rewrite (proj2 (String.eqb_neq _ _) Hy), IH.
Qed.

(** The file at a path as a reader sees it: directories and holes hold no data. *)
Definition file_at (os : OS) (p : Path) : option string :=
  match os_fs os !! p with Some {| i_node := NFile d |} => Some d | _ => None end.

Lemma take_fault_fs os : os_fs (take_fault os).1 = os_fs os.
Proof. done. Qed.

(** A one-piece call either failed without a trace or did its work. *)
Lemma syscall1_spec {A} (work : gmap Path inode → gmap Path inode * (oserr + A)) os os' r :
  syscall1 work os = (os', r) →
  (∃ e, os_fs os' = os_fs os ∧ r = inl (EOther e)) ∨ (os_fs os' = (work (os_fs os)).1 ∧ r = (work (os_fs os)).2).
Proof.
  unfold syscall1, syscall. destruct (take_fault os) as [os1 f] eqn:Et.
  assert (Hfs : os_fs os1 = os_fs os) by (by rewrite <-(take_fault_fs os), Et). rewrite Hfs.
  destruct f as [[n e]|]; [|destruct (work (os_fs os)) as [fs1 r1]]; intros [= <- <-]; eauto.
Qed.

(** A call that only reads. *)
Lemma read_spec {A} (f : gmap Path inode → oserr + A) os os' r :
  syscall1 (fun fs => (fs, f fs)) os = (os', r) →
  os_fs os' = os_fs os ∧ ((∃ e, r = inl (EOther e)) ∨ r = f (os_fs os)).
Proof. intros [(e & ? & ->)|[? ->]]%syscall1_spec; naive_solver. Qed.

Lemma mkdirs_spec umask mode todo fs fs' r : mkdirs umask mode todo fs = (fs', r) →
  (∀ q, fs' !! q = fs !! q ∨ (fs !! q = None ∧ q ∈ todo ∧ ∃ i, fs' !! q = Some i ∧ i_node i = NDir)) ∧
  (r = inr () → ∀ q, q ∈ todo → ∃ i, fs' !! q = Some i ∧ i_node i = NDir).
Proof.
  revert fs. induction todo as [|p todo IH]; intros fs; cbn.
  { intros [= <- <-]. split; [by left|]. intros _ q Hq. by apply elem_of_nil in Hq. }
  destruct (fs !! p) as [i|] eqn:Ep; [destruct (i_node i) as [d|] eqn:Ei|].
  - intros [= <- <-]. split; [by left|done].
  - intros [H1 H2]%IH. split.
    + intros q. destruct (H1 q) as [?|(?&?&?)]; [by left|right]. split_and!; [done|by right|done].
    + intros Hr q [->|Hq]%elem_of_cons; [|by apply H2]. destruct (H1 p) as [E|(E&_&?)]; [|done].
      exists i. by rewrite E.
  - intros [H1 H2]%IH. split.
    + intros q. destruct (decide (q = p)) as [->|Hne].
      * right. split_and!; [done|by left|]. destruct (H1 p) as [E|(E&_&?)]; [|done].
        rewrite lookup_insert_eq in E. eexists; by split.
      * destruct (H1 q) as [E|(E&?&?)]; rewrite lookup_insert_ne in E by done; [by left|right].
        split_and!; [done|by right|done].
    + intros Hr q [->|Hq]%elem_of_cons; [|by apply H2]. destruct (H1 p) as [E|(_&_&?)]; [|done].
      rewrite lookup_insert_eq in E. eexists; by split.
Qed.

Lemma os_MkdirAll_spec p mode os os' r : os_MkdirAll p mode os = (os', r) →
  (∀ q, os_fs os' !! q = os_fs os !! q ∨
     (os_fs os !! q = None ∧ q ∈ prefixes p ++ [p] ∧ ∃ i, os_fs os' !! q = Some i ∧ i_node i = NDir)) ∧
  (r = inr () → ∃ i, os_fs os' !! p = Some i ∧ i_node i = NDir).
Proof.
  unfold os_MkdirAll, syscall. destruct (take_fault os) as [os1 f] eqn:Et.
  assert (Hfs : os_fs os1 = os_fs os) by (by rewrite <-(take_fault_fs os), Et). rewrite Hfs.
  destruct f as [[n e]|]; (destruct (mkdirs _ _ _ _) as [fs' r'] eqn:Em); intros [= <- <-];
    apply mkdirs_spec in Em as [H1 H2].
  - split; [|done]. intros q. destruct (H1 q) as [?|(?&Hq&?)]; [by left|right].
    split_and!; [done| |done]. rewrite <-(take_drop n (prefixes p ++ [p])). apply elem_of_app. by left.
  - split; [done|]. intros Hr. apply H2; [done|]. apply elem_of_app. right. by apply list_elem_of_singleton.
Qed.

Lemma os_Chmod_spec p mode os os' r : os_Chmod p mode os = (os', r) →
  (∀ q, q ≠ p → os_fs os' !! q = os_fs os !! q) ∧
  (∀ q, i_node <$> os_fs os' !! q = i_node <$> os_fs os !! q) ∧
  (r = inr () → ∃ i i', os_fs os !! p = Some i ∧ os_fs os' !! p = Some i' ∧ i_node i' = i_node i ∧ i_mode i' = mode).
Proof.
  intros [(e & E & ->)|[E ->]]%syscall1_spec; rewrite E; clear E; [done|].
  destruct (os_fs os !! p) as [i|] eqn:Ep; [|by split_and!]. cbn. split_and!.
  - intros q Hq. by rewrite lookup_insert_ne.
  - intros q. destruct (decide (q = p)) as [->|?]; [by rewrite lookup_insert_eq, Ep|by rewrite lookup_insert_ne].
  - intros _. exists i. eexists. split_and!; [done|apply lookup_insert_eq|done|done].
Qed.

Lemma free_name_spec fs dir pre suf names n rest : free_name fs dir pre suf names = (Some n, rest) →
  fs !! (dir ++ [n]) = None ∧ ∃ r, n = pre +:+ r +:+ suf.
Proof.
  induction names as [|r names IH]; cbn; [done|].
  destruct (fs !! (dir ++ [pre +:+ r +:+ suf])) eqn:E; [exact IH|]. intros [= <- <-]. eauto.
Qed.

Lemma os_CreateTemp_spec dir pre suf os os' r : os_CreateTemp dir pre suf os = (os', r) →
  match r with
  | inr p => os_fs os !! p = None ∧ (∃ n, p = dir ++ [pre +:+ n +:+ suf]) ∧
             ∃ i, i_node i = NFile "" ∧ os_fs os' = <[p := i]> (os_fs os)
  | inl _ => os_fs os' = os_fs os
  end.
Proof.
  unfold os_CreateTemp. destruct (free_name _ _ _ _ _) as [found names] eqn:Ef.
  intros [(e & E & ->)|[E ->]]%syscall1_spec; [done|]. revert E. cbn.
  destruct (is_dir_at _ _); cbn; [|done]. destruct found as [n|]; cbn; [|done]. intros E.
  apply free_name_spec in Ef as [Hn [m ->]]. split_and!; [done|eauto|]. eexists. by split; [|exact E].
Qed.

Lemma os_Write_spec p data os os' r : os_Write p data os = (os', r) →
  (∀ q, q ≠ p → os_fs os' !! q = os_fs os !! q) ∧
  (r = inr () → ∃ i', os_fs os' !! p = Some i' ∧ i_node i' = NFile data).
Proof.
  unfold os_Write, syscall. destruct (take_fault os) as [os1 f] eqn:Et.
  assert (Hfs : os_fs os1 = os_fs os) by (by rewrite <-(take_fault_fs os), Et). rewrite Hfs.
  destruct f as [[n e]|]; (destruct (os_fs os !! p) as [i|] eqn:Ep); intros [= <- <-]; cbn; split; try done.
  - intros q Hq. by rewrite lookup_insert_ne.
  - intros q Hq. by rewrite lookup_insert_ne.
  - intros _. eexists. by split; [apply lookup_insert_eq|].
Qed.

Lemma os_Rename_spec src dst os os' r : os_Rename src dst os = (os', r) →
  match r with
  | inr _ => ∃ i, os_fs os !! src = Some i ∧ os_fs os' = <[dst := i]> (delete src (os_fs os))
  | inl _ => os_fs os' = os_fs os
  end.
Proof.
  intros [(e & E & ->)|[E ->]]%syscall1_spec; [done|]. revert E.
  destruct (os_fs os !! src) as [i|] eqn:Es; [|done]. repeat case_match; cbn; try done. eauto.
Qed.

Lemma os_Link_spec src dst os os' r : os_Link src dst os = (os', r) →
  match r with
  | inr _ => ∃ i, os_fs os !! src = Some i ∧ os_fs os !! dst = None ∧ os_fs os' = <[dst := i]> (os_fs os)
  | inl e => os_fs os' = os_fs os ∧ (e = EEXIST → is_Some (os_fs os !! dst))
  end.
Proof.
  intros [(e & E & ->)|[E ->]]%syscall1_spec; [done|]. revert E.
  destruct (os_fs os !! src) as [i|] eqn:Es; [|unfold missing; case_match; done].
  destruct (is_dir_at _ (parent dst)); cbn; [|unfold missing; case_match; done].
  destruct (os_fs os !! dst) eqn:Ed; cbn; [done|]. eauto.
Qed.

Lemma os_Remove_spec p os os' r : os_Remove p os = (os', r) →
  match r with
  | inr _ => is_Some (os_fs os !! p) ∧ os_fs os' = delete p (os_fs os)
  | inl e => os_fs os' = os_fs os ∧ (e = ENOENT → os_fs os !! p = None)
  end.
Proof.
  intros [(e & E & ->)|[E ->]]%syscall1_spec; [done|]. revert E.
  destruct (os_fs os !! p) as [i|] eqn:Es; [|by split].
  destruct (match i_node i with NFile _ => _ | NDir => _ end); cbn; [done|]. eauto.
Qed.
