(* ===== verification/Objects.v ===== *)
(** * Scoped objects on disk
    (runner/secret.go, blueprint.go, config.go, volume.go, volume_meta.go, get.go's
     resolveRealmDirs, ctr/volume_ref.go)

    Secrets, blueprints and configs are files, volumes are directories with an optional
    reclaim manifest; each lives below the metadata directory of its scope. *)

From Stdlib Require Import Ascii ZArith Lia.
From stdpp Require Import base gmap strings list sorting.
From S2P Require Import Prelude Model External Validate Naming Layout Reclaim Fs.

Local Open Scope nat_scope.

(** ** Calls with an early return *)

(** A call whose failure the function returns, wrapped. *)
Definition orReturn {A B} (c : Sys A) (wrap : oserr → error) (k : A → st OS (result B)) : st OS (result B) :=
  let! r := c in
  match r with inr a => k a | inl e => st_ret (Err (wrap e)) end.
Notation "'do!' x ':=' c 'orelse' w 'in' k" := (orReturn c w (fun x => k))
  (at level 200, x name, c at level 100, w at level 100, k at level 200) : kuke_scope.

Definition wrapping (sentinel : errdef) (fmt : string) (e : oserr) : error :=
  EWrap fmt [ESentinel sentinel; os_error e].

Section Objects.
(** Options.RunPath and Options.KukeonGroupGID; the JSON of a reclaim manifest. *)
Context (RunPath : string) (KukeonGroupGID : Z).
Context (manifestJSON : string → string) (manifestPolicy : string → result string).

(** ** Files *)

Definition secretsDirMode : Z := 448.
Definition secretFileMode : Z := 384.
Definition blueprintsDirMode : Z := 493.
Definition blueprintFileMode : Z := 420.
Definition configsDirMode : Z := 493.
Definition configFileMode : Z := 420.

(** The temporary file of an atomic write is removed on every way out. *)
Definition deferRemove {A} (tmp : Path) (body : st OS (result A)) : st OS (result A) :=
  let! r := body in
  let! _ := os_Remove tmp in
  st_ret r.

(** atomicWriteFileMode; atomicWriteSecret differs in its messages only. *)
Definition fmtWrap (fmt : string) (e : oserr) : error := EWrap fmt [os_error e].
Definition fillTemp (tmp : Path) (data : string) (mode : Z) (k : st OS (result unit)) : st OS (result unit) :=
  do! _ := os_Write tmp data orelse fmtWrap "write temp file: %w" in
  do! _ := os_Close orelse fmtWrap "close temp file: %w" in
  do! _ := os_Chmod tmp mode orelse fmtWrap "chmod temp file: %w" in
  k.
Definition atomicWriteFileMode (dir path : Path) (pre suf : string) (data : string) (mode : Z)
    : st OS (result unit) :=
  do! tmp := os_CreateTemp dir pre suf orelse fmtWrap "create temp file: %w" in
  deferRemove tmp
    (fillTemp tmp data mode
       (do! _ := os_Rename tmp path orelse fmtWrap "rename file into place: %w" in
        st_ret (Ok ()))).

(** WriteSecret, WriteBlueprint and WriteConfig: the directory, its mode, whether the
    file is new, the atomic write. *)
Definition writeObject (sentinel : errdef) (what pre : string) (dirMode fileMode : Z) (dir path : Path) (data : string)
    : st OS (result bool) :=
  do! _ := os_MkdirAll dir dirMode orelse wrapping sentinel ("%w: create " +:+ what +:+ "s dir: %w") in
  do! _ := os_Chmod dir dirMode orelse wrapping sentinel ("%w: chmod " +:+ what +:+ "s dir: %w") in
  let! statRes := os_Stat path in
  let created := match statRes with inl ENOENT => true | _ => false end in
  match statRes with
  | inl (EOther e) => st_ret (Err (wrapping sentinel ("%w: stat " +:+ what +:+ ": %w") (EOther e)))
  | inl EEXIST => st_ret (Err (wrapping sentinel ("%w: stat " +:+ what +:+ ": %w") EEXIST))
  | _ =>
      let! wrote := atomicWriteFileMode dir path pre ".tmp" data fileMode in
      st_ret (match wrote with Err e => Err (EWrap "%w: %w" [ESentinel sentinel; e]) | Ok _ => Ok created end)
  end.

Definition secretDir (md : SecretMetadata) : Path :=
  resolve_path (SecretsDir RunPath (secm_Realm md) (secm_Space md) (secm_Stack md) (secm_Cell md)).
Definition secretPath (md : SecretMetadata) : Path :=
  resolve_path (SecretPath RunPath (secm_Realm md) (secm_Space md) (secm_Stack md) (secm_Cell md) (secm_Name md)).
Definition blueprintDir (md : ScopedName) : Path :=
  resolve_path (BlueprintsDir RunPath (scn_Realm md) (scn_Space md) (scn_Stack md)).
Definition blueprintPath (md : ScopedName) : Path :=
  resolve_path (BlueprintPath RunPath (scn_Realm md) (scn_Space md) (scn_Stack md) (scn_Name md)).
Definition configDir (md : ScopedName) : Path :=
  resolve_path (ConfigsDir RunPath (scn_Realm md) (scn_Space md) (scn_Stack md)).
Definition configPath (md : ScopedName) : Path :=
  resolve_path (ConfigPath RunPath (scn_Realm md) (scn_Space md) (scn_Stack md) (scn_Name md)).

Definition WriteSecret (secret : Secret) : st OS (result bool) :=
  let md := secret_Metadata secret in
  writeObject ErrWriteSecret "secret" ".secret-" secretsDirMode secretFileMode (secretDir md) (secretPath md)
    (secret_Data secret).
Definition WriteBlueprint (blueprint : CellBlueprint) : st OS (result bool) :=
  let md := bp_Metadata blueprint in
  writeObject ErrWriteBlueprint "blueprint" ".blueprint-" blueprintsDirMode blueprintFileMode
    (blueprintDir md) (blueprintPath md) (bp_Document blueprint).
Definition WriteConfig (config : CellConfig) : st OS (result bool) :=
  let md := cfg_Metadata config in
  writeObject ErrWriteConfig "config" ".config-" configsDirMode configFileMode (configDir md) (configPath md)
    (cfg_Document config).

(** Create-only: the name is claimed with link, which fails when it is taken. *)
Definition wrapCreate (r : result unit) : result unit :=
  match r with
  | Err (EWrap fmt [e]) => Err (EWrap ("%w: " +:+ fmt) [ESentinel ErrCreateConfig; e])
  | r => r
  end.
Definition WriteConfigIfAbsent (config : CellConfig) : st OS (result unit) :=
  let md := cfg_Metadata config in
  let dir := configDir md in
  do! _ := os_MkdirAll dir configsDirMode orelse wrapping ErrCreateConfig "%w: create configs dir: %w" in
  do! _ := os_Chmod dir configsDirMode orelse wrapping ErrCreateConfig "%w: chmod configs dir: %w" in
  do! tmp := os_CreateTemp dir ".config-" ".tmp" orelse wrapping ErrCreateConfig "%w: create temp file: %w" in
  deferRemove tmp
    (let! filled := fillTemp tmp (cfg_Document config) configFileMode (st_ret (Ok ())) in
     match wrapCreate filled with
     | Err e => st_ret (Err e)
     | Ok _ =>
         let! linked := os_Link tmp (configPath md) in
         st_ret (match linked with
                 | inr _ => Ok ()
                 | inl EEXIST => Err (ESentinel ErrConfigExists)
                 | inl e => Err (wrapping ErrCreateConfig "%w: link temp into place: %w" e)
                 end)
     end).

(** The bytes of a secret are never read back. *)
Definition GetSecret (secret : Secret) : st OS (result Secret) :=
  let md := secret_Metadata secret in
  let! info := os_Stat (secretPath md) in
  st_ret (match info with
          | inl ENOENT => Err (ESentinel ErrSecretNotFound)
          | inl e => Err (wrapping ErrGetSecret "%w: %w" e)
          | inr i => match i_node i with
                     | NDir => Err (ESentinel ErrSecretNotFound)
                     | NFile _ => Ok {| secret_Metadata := md; secret_Data := "" |}
                     end
          end).
Definition readObject (notFound get : errdef) (path : Path) : st OS (result string) :=
  let! data := os_ReadFile path in
  st_ret (match data with
          | inl ENOENT => Err (ESentinel notFound)
          | inl e => Err (wrapping get "%w: %w" e)
          | inr d => Ok d
          end).
Definition GetBlueprint (blueprint : CellBlueprint) : st OS (result CellBlueprint) :=
  let md := bp_Metadata blueprint in
  let! data := readObject ErrBlueprintNotFound ErrGetBlueprint (blueprintPath md) in
  st_ret (let? d := data in Ok {| bp_Metadata := md; bp_Document := d |}).
Definition GetConfig (config : CellConfig) : st OS (result CellConfig) :=
  let md := cfg_Metadata config in
  let! data := readObject ErrConfigNotFound ErrGetConfig (configPath md) in
  st_ret (let? d := data in Ok {| cfg_Metadata := md; cfg_Document := d |}).

Definition removeObject (notFound del : errdef) (path : Path) : st OS (option error) :=
  let! r := os_Remove path in
  st_ret (match r with
          | inr _ => None
          | inl ENOENT => Some (ESentinel notFound)
          | inl e => Some (wrapping del "%w: %w" e)
          end).
Definition DeleteSecret (secret : Secret) : st OS (option error) :=
  removeObject ErrSecretNotFound ErrDeleteSecret (secretPath (secret_Metadata secret)).
Definition DeleteBlueprint (blueprint : CellBlueprint) : st OS (option error) :=
  removeObject ErrBlueprintNotFound ErrDeleteBlueprint (blueprintPath (bp_Metadata blueprint)).
Definition DeleteConfig (config : CellConfig) : st OS (option error) :=
  removeObject ErrConfigNotFound ErrDeleteConfig (configPath (cfg_Metadata config)).

(** ** Listings *)

(** childScopeNames with the failures of its calls; [dir] is a path string. *)
Definition listChildScopes (dir want : string) : st OS (result (list string)) :=
  if negb (String.eqb (TrimSpace want) "") then
    let! info := os_Stat (resolve_path (FJoin [dir; want])) in
    st_ret (match info with
            | inl ENOENT => Ok []
            | inl e => Err (EWrap "failed to stat scope dir %q: %w" [os_error e])
            | inr i => match i_node i with NDir => Ok [want] | NFile _ => Ok [] end
            end)
  else
    let! entries := os_ReadDir (resolve_path dir) in
    st_ret (match entries with
            | inl ENOENT => Ok []
            | inl e => Err (EWrap "failed to read scope dir %q: %w" [os_error e])
            | inr es => Ok (fst <$> List.filter (fun e => e.2 && negb (bool_decide (e.1 ∈ reservedScopeSubdirs))) es)
            end).

(** The realms to walk, by name: the callers take filepath.Base of each directory.
    The first Stat of the all-realms branch only tells a missing root apart. *)
Definition resolveRealmDirs (realmName : string) : st OS (result (list string)) :=
  if negb (String.eqb (TrimSpace realmName) "") then
    let! info := os_Stat (resolve_path (RealmMetadataDir RunPath realmName)) in
    st_ret (match info with
            | inl ENOENT => Ok []
            | inl e => Err (EWrap "failed to stat realm dir %q: %w" [os_error e])
            | inr i => match i_node i with
                       | NDir => Ok [List.last (resolve_path (RealmMetadataDir RunPath realmName)) ""]
                       | NFile _ => Ok []
                       end
            end)
  else
    let base := resolve_path (MetadataRoot RunPath) in
    let! there := os_Stat base in
    match there with
    | inl ENOENT => st_ret (Ok [])
    | _ =>
        let! entries := os_ReadDir base in
        st_ret (match entries with
                | inl e => Err (EWrap "failed to read realm directory %q: %w" [os_error e])
                | inr es => Ok (fst <$> List.filter snd es)
                end)
    end.

(** A loop that concatenates what each step lists and stops at the first error. *)
Fixpoint st_concat {A B} (f : A → st OS (result (list B))) (l : list A) : st OS (result (list B)) :=
  match l with
  | [] => st_ret (Ok [])
  | x :: l' =>
      let! r := f x in
      match r with
      | Err e => st_ret (Err e)
      | Ok ys => let! rest := st_concat f l' in
                 st_ret (let? zs := rest in Ok (ys ++ zs))
      end
  end.
Definition then_list {B} (a b : st OS (result (list B))) : st OS (result (list B)) :=
  let! r := a in
  match r with
  | Err e => st_ret (Err e)
  | Ok ys => let! rest := b in st_ret (let? zs := rest in Ok (ys ++ zs))
  end.
Definition for_children {B} (dir want : string) (f : string → st OS (result (list B))) : st OS (result (list B)) :=
  let! names := listChildScopes dir want in
  match names with Err e => st_ret (Err e) | Ok ns => st_concat f ns end.
Definition only_if {B} (b : bool) (a : st OS (result (list B))) : st OS (result (list B)) :=
  if b then a else st_ret (Ok []).

(** The subtree walk: a level's own objects only when no deeper coordinate is asked. *)
Definition collectSecretSubtree {B} (inScope : string → string → string → string → st OS (result (list B)))
    (realm space stack cell : string) : st OS (result (list B)) :=
  then_list (only_if (String.eqb space "") (inScope realm "" "" ""))
    (for_children (RealmMetadataDir RunPath realm) space (fun sp =>
       then_list (only_if (String.eqb stack "") (inScope realm sp "" ""))
         (for_children (SpaceMetadataDir RunPath realm sp) stack (fun st' =>
            then_list (only_if (String.eqb cell "") (inScope realm sp st' ""))
              (for_children (StackMetadataDir RunPath realm sp st') cell (fun ce =>
                 inScope realm sp st' ce)))))).
Definition collectScopedSubtree {B} (inScope : string → string → string → st OS (result (list B)))
    (realm space stack : string) : st OS (result (list B)) :=
  then_list (only_if (String.eqb space "") (inScope realm "" ""))
    (for_children (RealmMetadataDir RunPath realm) space (fun sp =>
       then_list (only_if (String.eqb stack "") (inScope realm sp ""))
         (for_children (SpaceMetadataDir RunPath realm sp) stack (fun st' => inScope realm sp st')))).

Definition listRealms {B} (sentinel : errdef) (realmName : string) (f : string → st OS (result (list B)))
    : st OS (result (list B)) :=
  let wrap (r : result (list B)) := match r with Err e => Err (EWrap "%w: %w" [ESentinel sentinel; e]) | r => r end in
  let! dirs := resolveRealmDirs realmName in
  match dirs with
  | Err e => st_ret (Err (EWrap "%w: %w" [ESentinel sentinel; e]))
  | Ok rs => let! r := st_concat f rs in st_ret (wrap r)
  end.

Definition isTemp (pre name : string) : bool := HasPrefix name pre && HasSuffix name ".tmp".

(** The names of the plain files of a directory that are not temporary. *)
Definition fileNames (what pre : string) (dir : Path) : st OS (result (list string)) :=
  let! entries := os_ReadDir dir in
  st_ret (match entries with
          | inl ENOENT => Ok []
          | inl e => Err (EWrap ("failed to read " +:+ what +:+ "s dir %q: %w") [os_error e])
          | inr es => Ok (fst <$> List.filter (fun e => negb e.2 && negb (isTemp pre e.1)) es)
          end).

Definition collectSecretsInScope (realm space stack cell : string) : st OS (result (list Secret)) :=
  let! names := fileNames "secret" ".secret-" (resolve_path (SecretsDir RunPath realm space stack cell)) in
  st_ret (let? ns := names in
          Ok ((fun n => {| secret_Metadata := {| secm_Name := n; secm_Realm := realm; secm_Space := space;
                                                 secm_Stack := stack; secm_Cell := cell |};
                           secret_Data := "" |}) <$> ns)).
Definition ListSecrets (realmName spaceName stackName cellName : string) : st OS (result (list Secret)) :=
  listRealms ErrListSecrets realmName (fun realm =>
    collectSecretSubtree collectSecretsInScope realm spaceName stackName cellName).

(** The labels of a stored document; every failure reads as none. *)
Definition readLabelsFromDoc (parseLabels : string → option (gmap string string)) (path : Path)
    : st OS (gmap string string) :=
  let! data := os_ReadFile path in
  st_ret (match data with inr d => default ∅ (parseLabels d) | inl _ => ∅ end).
Definition collectDocumentsInScope (parseLabels : string → option (gmap string string)) (what pre : string)
    (dirOf pathOf : ScopedName → Path) (realm space stack : string) : st OS (result (list ScopedName)) :=
  let named n ls := {| scn_Name := n; scn_Realm := realm; scn_Space := space; scn_Stack := stack; scn_Labels := ls |} in
  let! names := fileNames what pre (dirOf (named "" ∅)) in
  match names with
  | Err e => st_ret (Err e)
  | Ok ns => let! r := st_map (fun n => let! ls := readLabelsFromDoc parseLabels (pathOf (named n ∅)) in
                                        st_ret (named n ls)) ns in
             st_ret (Ok r)
  end.
Definition ListBlueprints (parseLabels : string → option (gmap string string)) (realmName spaceName stackName : string)
    : st OS (result (list CellBlueprint)) :=
  let! r := listRealms ErrListBlueprints realmName (fun realm =>
    collectScopedSubtree (collectDocumentsInScope parseLabels "blueprint" ".blueprint-" blueprintDir blueprintPath)
      realm spaceName stackName) in
  st_ret (let? l := r in Ok ((fun md => {| bp_Metadata := md; bp_Document := "" |}) <$> l)).
Definition ListConfigs (parseLabels : string → option (gmap string string)) (realmName spaceName stackName : string)
    : st OS (result (list CellConfig)) :=
  let! r := listRealms ErrListConfigs realmName (fun realm =>
    collectScopedSubtree (collectDocumentsInScope parseLabels "config" ".config-" configDir configPath)
      realm spaceName stackName) in
  st_ret (let? l := r in Ok ((fun md => {| cfg_Metadata := md; cfg_Document := "" |}) <$> l)).

(** ** Volumes *)

Definition volumesDirMode : Z := 493.
Definition volumeDirRootMode : Z := 1528.
Definition volumeDirFallbackMode : Z := 504.
Definition volumeMetaDirMode : Z := 448.
Definition volumeMetaFileMode : Z := 384.

Definition volumeDirInitialPerms (kukeonGroupGID : Z) : Z * Z :=
  if (0 <? kukeonGroupGID)%Z then (volumeDirRootMode, kukeonGroupGID) else (volumeDirFallbackMode, 0%Z).

Definition volumesDir (md : VolumeMetadata) : Path :=
  resolve_path (VolumesDir RunPath (volm_Realm md) (volm_Space md) (volm_Stack md)).
Definition volumePath (md : VolumeMetadata) : Path :=
  resolve_path (VolumePath RunPath (volm_Realm md) (volm_Space md) (volm_Stack md) (volm_Name md)).
Definition volumeMetaDir (md : VolumeMetadata) : Path :=
  resolve_path (VolumeMetaDir RunPath (volm_Realm md) (volm_Space md) (volm_Stack md)).
Definition volumeMetaPath (md : VolumeMetadata) : Path :=
  resolve_path (VolumeMetaPath RunPath (volm_Realm md) (volm_Space md) (volm_Stack md) (volm_Name md)).

Definition persistVolumeReclaimPolicy (volume : Volume) : st OS (result unit) :=
  let md := vol_Metadata volume in
  if negb (String.eqb (vol_ReclaimPolicy volume) ext.ReclaimRetain) then
    let! r := os_Remove (volumeMetaPath md) in
    st_ret (match r with
            | inr _ | inl ENOENT => Ok ()
            | inl e => Err (wrapping ErrWriteVolume "%w: remove stale reclaim manifest: %w" e)
            end)
  else
    let dir := volumeMetaDir md in
    do! _ := os_MkdirAll dir volumeMetaDirMode orelse wrapping ErrWriteVolume "%w: create volume-meta dir: %w" in
    do! _ := os_Chmod dir volumeMetaDirMode orelse wrapping ErrWriteVolume "%w: chmod volume-meta dir: %w" in
    let! wrote := atomicWriteFileMode dir (volumeMetaPath md) ".volume-meta-" ".tmp"
                    (manifestJSON ext.ReclaimRetain) volumeMetaFileMode in
    st_ret (match wrote with
            | Err e => Err (EWrap "%w: write reclaim manifest: %w" [ESentinel ErrWriteVolume; e])
            | Ok _ => Ok ()
            end).

Definition WriteVolume (volume : Volume) : st OS (result bool) :=
  let md := vol_Metadata volume in
  let dir := volumesDir md in
  let path := volumePath md in
  do! _ := os_MkdirAll dir volumesDirMode orelse wrapping ErrWriteVolume "%w: create volumes dir: %w" in
  do! _ := os_Chmod dir volumesDirMode orelse wrapping ErrWriteVolume "%w: chmod volumes dir: %w" in
  let! info := os_Stat path in
  let created := match info with inl ENOENT => true | _ => false end in
  match info with
  | inl (EOther e) => st_ret (Err (wrapping ErrWriteVolume "%w: stat volume: %w" (EOther e)))
  | inl EEXIST => st_ret (Err (wrapping ErrWriteVolume "%w: stat volume: %w" EEXIST))
  | inr {| i_node := NFile _ |} =>
      st_ret (Err (EWrap "%w: %q exists and is not a directory" [ESentinel ErrWriteVolume]))
  | _ =>
      let '(mode, gid) := volumeDirInitialPerms KukeonGroupGID in
      do! _ := os_MkdirAll path mode orelse wrapping ErrWriteVolume "%w: create volume dir: %w" in
      do! _ := os_Chmod path mode orelse wrapping ErrWriteVolume "%w: chmod volume dir: %w" in
      let chown := if (0 <? gid)%Z then os_Chown path 0 gid else st_ret (inr ()) in
      do! _ := chown orelse wrapping ErrWriteVolume "%w: chown volume dir to root:%d: %w" in
      let! policy := persistVolumeReclaimPolicy volume in
      st_ret (let? _ := policy in Ok created)
  end.

Definition chownVolumeDirToUID (path : Path) (uid : Z) : st OS (result unit) :=
  do! _ := os_Chown path uid (-1) orelse wrapping ErrWriteVolume "%w: chown volume dir %q to uid %d: %w" in
  do! _ := os_Chmod path (volumeDirInitialPerms KukeonGroupGID).1
             orelse wrapping ErrWriteVolume "%w: chmod volume dir %q: %w" in
  st_ret (Ok ()).

Definition readVolumeReclaimPolicy (md : VolumeMetadata) : st OS (result string) :=
  let! data := os_ReadFile (volumeMetaPath md) in
  st_ret (match data with
          | inl ENOENT => Ok ""
          | inl e => Err (os_error e)
          | inr d => match manifestPolicy d with
                     | Err e => Err (EWrap "parse reclaim manifest %q: %w" [e])
                     | Ok p => Ok p
                     end
          end).
Definition removeVolumeReclaimManifest (md : VolumeMetadata) : st OS (option error) :=
  let! r := os_Remove (volumeMetaPath md) in
  st_ret (match r with inr _ | inl ENOENT => None | inl e => Some (os_error e) end).

Definition GetVolume (volume : Volume) : st OS (result Volume) :=
  let md := vol_Metadata volume in
  let! info := os_Stat (volumePath md) in
  match info with
  | inl ENOENT => st_ret (Err (ESentinel ErrVolumeNotFound))
  | inl e => st_ret (Err (wrapping ErrGetVolume "%w: %w" e))
  | inr {| i_node := NFile _ |} => st_ret (Err (ESentinel ErrVolumeNotFound))
  | inr _ =>
      let! policy := readVolumeReclaimPolicy md in
      st_ret (match policy with
              | Err e => Err (EWrap "%w: %w" [ESentinel ErrGetVolume; e])
              | Ok p => Ok {| vol_Metadata := md; vol_ReclaimPolicy := p |}
              end)
  end.

Definition collectVolumesInScope (realm space stack : string) : st OS (result (list Volume)) :=
  let! entries := os_ReadDir (resolve_path (VolumesDir RunPath realm space stack)) in
  match entries with
  | inl ENOENT => st_ret (Ok [])
  | inl e => st_ret (Err (EWrap "failed to read volumes dir %q: %w" [os_error e]))
  | inr es =>
      st_concat (fun e : string * bool =>
        let vmd := {| volm_Name := e.1; volm_Realm := realm; volm_Space := space; volm_Stack := stack |} in
        if e.2 then
          let! policy := readVolumeReclaimPolicy vmd in
          st_ret (let? p := policy in Ok [{| vol_Metadata := vmd; vol_ReclaimPolicy := p |}])
        else st_ret (Ok [])) es
  end.
Definition ListVolumes (realmName spaceName stackName : string) : st OS (result (list Volume)) :=
  listRealms ErrListVolumes realmName (fun realm =>
    collectScopedSubtree collectVolumesInScope realm spaceName stackName).

Definition DeleteVolume (volume : Volume) : st OS (option error) :=
  let md := vol_Metadata volume in
  let! info := os_Stat (volumePath md) in
  match info with
  | inl ENOENT => st_ret (Some (ESentinel ErrVolumeNotFound))
  | inl e => st_ret (Some (wrapping ErrDeleteVolume "%w: stat volume: %w" e))
  | inr {| i_node := NFile _ |} => st_ret (Some (ESentinel ErrVolumeNotFound))
  | inr _ =>
      let! removed := os_RemoveAll (volumePath md) in
      match removed with
      | inl e => st_ret (Some (wrapping ErrDeleteVolume "%w: %w" e))
      | inr _ =>
          let! manifest := removeVolumeReclaimManifest md in
          st_ret (match manifest with
                  | Some e => Some (EWrap "%w: remove reclaim manifest: %w" [ESentinel ErrDeleteVolume; e])
                  | None => None
                  end)
      end
  end.

(** ** Volume references (internal/ctr/volume_ref.go) *)

Record VolumeScope := { vs_Realm : string; vs_Space : string; vs_Stack : string }.
Record ResolvedVolume := {
  rv_HostPath : string; rv_Realm : string; rv_Space : string; rv_Stack : string; rv_Name : string
}.

(** Any failure of the stat reads as absent. *)
Definition volumeDirExists (path : string) : st OS bool :=
  let! info := os_Stat (resolve_path path) in
  st_ret (match info with inr i => match i_node i with NDir => true | NFile _ => false end | inl _ => false end).

Definition volumeScopeCandidates (scope : VolumeScope) : list VolumeScope :=
  let realm := negb (String.eqb (vs_Realm scope) "") in
  let space := negb (String.eqb (vs_Space scope) "") in
  let stack := negb (String.eqb (vs_Stack scope) "") in
  (if realm && space && stack then [scope] else [])
  ++ (if realm && space then [{| vs_Realm := vs_Realm scope; vs_Space := vs_Space scope; vs_Stack := "" |}] else [])
  ++ (if realm then [{| vs_Realm := vs_Realm scope; vs_Space := ""; vs_Stack := "" |}] else []).

Definition resolvedAt (cand : VolumeScope) (name : string) : ResolvedVolume := {|
  rv_HostPath := VolumePath RunPath (vs_Realm cand) (vs_Space cand) (vs_Stack cand) name;
  rv_Realm := vs_Realm cand; rv_Space := vs_Space cand; rv_Stack := vs_Stack cand; rv_Name := name |}.

Fixpoint probeCandidates (cands : list VolumeScope) (name : string) : st OS (option ResolvedVolume) :=
  match cands with
  | [] => st_ret None
  | cand :: rest =>
      let! found := volumeDirExists (rv_HostPath (resolvedAt cand name)) in
      if found : bool then st_ret (Some (resolvedAt cand name)) else probeCandidates rest name
  end.

Definition ResolveVolumeMount (scope : VolumeScope) (mount : VolumeMount) : st OS (result ResolvedVolume) :=
  if negb (String.eqb (vm_Kind mount) ext.VolumeKindVolume) then
    st_ret (Err (EWrap "%w: not a volume-kind mount" [ESentinel ErrVolumeKindUnknown]))
  else if String.eqb RunPath "" then
    st_ret (Err (EOpaque "cannot resolve volume reference: daemon RunPath is unset"))
  else
    match vm_VolumeRef mount with
    | Some ref =>
        let r := ptr_val ref in
        let at_ref := resolvedAt {| vs_Realm := vr_Realm r; vs_Space := vr_Space r; vs_Stack := vr_Stack r |} (vr_Name r) in
        let! found := volumeDirExists (rv_HostPath at_ref) in
        st_ret (if found : bool then Ok at_ref
                else Err (EWrap "%w: volumeRef %q (realm=%q space=%q stack=%q)" [ESentinel ErrVolumeNotFound]))
    | None =>
        let! found := probeCandidates (volumeScopeCandidates scope) (vm_Source mount) in
        st_ret (match found with
                | Some rv => Ok rv
                | None => Err (EWrap "%w: volume %q not found in scope realm=%q space=%q stack=%q (or any parent scope)"
                                 [ESentinel ErrVolumeNotFound])
                end)
    end.

Definition is_volume_mount (m : VolumeMount) : bool := String.eqb (vm_Kind m) ext.VolumeKindVolume.

Fixpoint resolveEach (scope : VolumeScope) (mounts : list VolumeMount) : st OS (result (list VolumeMount)) :=
  match mounts with
  | [] => st_ret (Ok [])
  | m :: rest =>
      if is_volume_mount m then
        let! resolved := ResolveVolumeMount scope m in
        match resolved with
        | Err e => st_ret (Err e)
        | Ok rv =>
            let! more := resolveEach scope rest in
            st_ret (let? ms := more in
                    Ok ({| vm_Kind := vm_Kind m; vm_Source := rv_HostPath rv; vm_Target := vm_Target m;
                           vm_VolumeRef := None; vm_ReadOnly := vm_ReadOnly m; vm_SizeBytes := vm_SizeBytes m;
                           vm_Mode := vm_Mode m; vm_Ensure := vm_Ensure m |} :: ms))
        end
      else
        let! more := resolveEach scope rest in
        st_ret (let? ms := more in Ok (m :: ms))
  end.
Definition resolveVolumeMounts (scope : VolumeScope) (mounts : list VolumeMount) : st OS (result (list VolumeMount)) :=
  if negb (existsb is_volume_mount mounts) then st_ret (Ok mounts) else resolveEach scope mounts.

(** ** The live-mount gate *)

Definition cellScopedRef (scope : VolumeScope) (cellName : string) : string :=
  Join "/" (List.filter (fun p => negb (String.eqb p "")) [vs_Realm scope; vs_Space scope; vs_Stack scope; cellName]).

Definition names_volume (rv : ResolvedVolume) (md : VolumeMetadata) : bool :=
  String.eqb (rv_Realm rv) (volm_Realm md) && String.eqb (rv_Space rv) (volm_Space md)
  && String.eqb (rv_Stack rv) (volm_Stack md) && String.eqb (rv_Name rv) (volm_Name md).

Fixpoint anyMounts (scope : VolumeScope) (md : VolumeMetadata) (mounts : list VolumeMount) : st OS bool :=
  match mounts with
  | [] => st_ret false
  | m :: rest =>
      if is_volume_mount m then
        let! resolved := ResolveVolumeMount scope m in
        match resolved with
        | Ok rv => if names_volume rv md then st_ret true else anyMounts scope md rest
        | Err _ => anyMounts scope md rest
        end
      else anyMounts scope md rest
  end.

Definition cell_scope (cell : Cell) : VolumeScope :=
  let s := cell_Spec cell in
  {| vs_Realm := csp_RealmName s; vs_Space := csp_SpaceName s; vs_Stack := csp_StackName s |}.
Definition cell_mounts (cell : Cell) : list VolumeMount := concat (c_Volumes <$> csp_Containers (cell_Spec cell)).
Definition cell_live (cell : Cell) : bool :=
  bool_decide (cst_State (cell_Status cell) = CellStateReady)
  || bool_decide (cst_State (cell_Status cell) = CellStateDegraded).

Fixpoint mountedByLive (md : VolumeMetadata) (cells : list Cell) : st OS (option string) :=
  match cells with
  | [] => st_ret None
  | cell :: rest =>
      if negb (cell_live cell) then mountedByLive md rest
      else
        let! hit := anyMounts (cell_scope cell) md (cell_mounts cell) in
        if hit : bool then st_ret (Some (cellScopedRef (cell_scope cell) (cm_Name (cell_Metadata cell))))
        else mountedByLive md rest
  end.
(** [cells] is the outcome of ListCells over every realm. *)
Definition VolumeMountedByLiveCell (cells : result (list Cell)) (volume : Volume) : st OS (result (option string)) :=
  match cells with
  | Err e => st_ret (Err (EWrap "%w: enumerate cells: %w" [ESentinel ErrDeleteVolume; e]))
  | Ok l => let! hit := mountedByLive (vol_Metadata volume) l in st_ret (Ok hit)
  end.

(** The owner of the volumes a container may write: [uidOf] is the process uid that
    containerd reports for the container. *)
Fixpoint chownTargets (scope : VolumeScope) (mounts : list VolumeMount) : st OS (result (list string)) :=
  match mounts with
  | [] => st_ret (Ok [])
  | m :: rest =>
      if negb (is_volume_mount m) || vm_ReadOnly m then chownTargets scope rest
      else
        let! resolved := ResolveVolumeMount scope m in
        match resolved with
        | Err e => st_ret (Err (EWrap "resolve volume mount for target %q: %w" [e]))
        | Ok rv => let! more := chownTargets scope rest in
                   st_ret (let? ts := more in Ok (rv_HostPath rv :: ts))
        end
  end.
Fixpoint chownEach (uid : Z) (paths : list string) : st OS (result unit) :=
  match paths with
  | [] => st_ret (Ok ())
  | p :: rest => let! r := chownVolumeDirToUID (resolve_path p) uid in
                 match r with Err e => st_ret (Err e) | Ok _ => chownEach uid rest end
  end.
Definition volumePostCreateChown (uidOf : string → result Z) (spec : ContainerSpec) : st OS (result unit) :=
  let! targets := chownTargets {| vs_Realm := c_RealmName spec; vs_Space := c_SpaceName spec;
                                  vs_Stack := c_StackName spec |} (c_Volumes spec) in
  match targets with
  | Err e => st_ret (Err e)
  | Ok [] => st_ret (Ok ())
  | Ok ts =>
      match uidOf (if String.eqb (c_ContainerdID spec) "" then c_ID spec else c_ContainerdID spec) with
      | Err e => st_ret (Err (EWrap "resolve process uid for %q: %w" [e]))
      | Ok uid => if (uid =? 0)%Z then st_ret (Ok ()) else chownEach uid ts
      end
  end.

End Objects.

(** ** Theorems: atomic writes *)

(** The temporary names of an atomic write into [dir]. *)
Definition temp_of (dir : Path) (pre suf : string) (q : Path) : Prop := ∃ n, q = dir ++ [pre +:+ n +:+ suf].

(** Inversion of the early-return sequencing. *)
Lemma orReturn_inv {A B} (c : Sys A) w (k : A → st OS (result B)) os os' r :
  orReturn c w k os = (os', r) →
  (∃ e, c os = (os', inl e) ∧ r = Err (w e)) ∨ (∃ os1 a, c os = (os1, inr a) ∧ k a os1 = (os', r)).
Proof.
  unfold orReturn, st_bind. destruct (c os) as [os1 [e|a]]; [|by eauto 10]. intros [= <- <-]. eauto.
Qed.

Ltac inv_call H :=
  let e := fresh "e" in let os1 := fresh "os" in let a := fresh "a" in
  apply orReturn_inv in H as [(e & ? & ->)|(os1 & a & ? & H)].

(** Filling the temporary file touches no other path. *)
Lemma fillTemp_spec tmp data mode k os os' r : fillTemp tmp data mode k os = (os', r) →
  (∃ fmt e, r = Err (fmtWrap fmt e) ∧ ∀ q, q ≠ tmp → os_fs os' !! q = os_fs os !! q) ∨
  (∃ os1 i, k os1 = (os', r) ∧ (∀ q, q ≠ tmp → os_fs os1 !! q = os_fs os !! q) ∧
     os_fs os1 !! tmp = Some i ∧ i_node i = NFile data ∧ i_mode i = mode).
Proof.
  unfold fillTemp. intros H. inv_call H; [left|].
  { match goal with E : os_Write _ _ _ = _ |- _ => apply os_Write_spec in E as [E _] end. eauto 10. }
  destruct a. match goal with E : os_Write _ _ _ = _ |- _ => apply os_Write_spec in E as [Hq Hw] end.
  destruct (Hw eq_refl) as (iw & Hiw & Hn).
  inv_call H; match goal with E : os_Close _ = _ |- _ => apply read_spec in E as [Ec _] end; [left|].
  { eexists _, _; split; [done|]. intros q Hne. rewrite Ec. by apply Hq. }
  inv_call H; match goal with E : os_Chmod _ _ _ = _ |- _ => apply os_Chmod_spec in E as (Hc & _ & Hm) end; [left|right].
  { eexists _, _; split; [done|]. intros q Hne. rewrite Hc by done. rewrite Ec. by apply Hq. }
  destruct a0. destruct (Hm eq_refl) as (i & i' & E1 & E2 & E3 & E4). rewrite Ec, Hiw in E1. injection E1 as <-.
  eexists _, i'. split_and!; [done| |done|by rewrite E3|done].
  intros q Hne. rewrite Hc by done. rewrite Ec. by apply Hq.
Qed.

(** An atomic write under any faults: on success exactly the target changed, to the
    whole data at the given mode; on failure at most one temporary file is left. *)
Lemma atomicWriteFileMode_spec dir path pre suf data mode os os' r :
  ¬ temp_of dir pre suf path →
  atomicWriteFileMode dir path pre suf data mode os = (os', r) →
  match r with
  | Ok _ => ∃ i, i_node i = NFile data ∧ i_mode i = mode ∧ os_fs os' = <[path := i]> (os_fs os)
  | Err _ => ∀ q, ¬ temp_of dir pre suf q → os_fs os' !! q = os_fs os !! q
  end.
Proof.
  intros Hpath H. unfold atomicWriteFileMode in H. inv_call H.
  { match goal with E : os_CreateTemp _ _ _ _ = _ |- _ => apply os_CreateTemp_spec in E end. congruence. }
  match goal with E : os_CreateTemp _ _ _ _ = _ |- _ => apply os_CreateTemp_spec in E as (Hfree & Htmp & i0 & _ & Efs) end.
  rename a into tmp. assert (Hne : path ≠ tmp) by (intros ->; by apply Hpath).
  unfold deferRemove, st_bind in H. destruct (fillTemp _ _ _ _ _) as [os1 r1] eqn:EF.
  destruct (os_Remove tmp os1) as [os2 rr] eqn:ER. cbn in H. injection H as <- <-.
  assert (Hout : ∀ q, ¬ temp_of dir pre suf q → q ≠ tmp) by (intros q Hq ->; done).
  assert (Hrm : ∀ q, q ≠ tmp → os_fs os2 !! q = os_fs os1 !! q).
  { intros q Hq. apply os_Remove_spec in ER. destruct rr; [by destruct ER as [-> _]|destruct ER as [_ ->]; by rewrite lookup_delete_ne]. }
  apply fillTemp_spec in EF as [(fmt & e & -> & Hf)|(os3 & i & H & Hf & Ei & Hn & Hm)].
  { intros q Hq%Hout. rewrite Hrm, Hf, Efs by done. by rewrite lookup_insert_ne. }
  inv_call H; match goal with E : os_Rename _ _ _ = _ |- _ => apply os_Rename_spec in E end.
  { intros q Hq%Hout. rewrite Hrm by done. match goal with E : os_fs os1 = _ |- _ => rewrite E end.
    rewrite Hf, Efs by done. by rewrite lookup_insert_ne. }
  match goal with E : ∃ i, _ |- _ => destruct E as (i' & Ei' & Eos) end.
  injection H as <- <-. rewrite Ei in Ei'. injection Ei' as <-. exists i. split_and!; [done..|]. apply map_eq. intros q.
  destruct (decide (q = tmp)) as [->|Hq].
  - rewrite lookup_insert_ne by done. rewrite Hfree. apply os_Remove_spec in ER.
    destruct rr; [destruct ER as [-> _]|destruct ER as [_ ->]; by rewrite lookup_delete_eq].
    rewrite Eos, lookup_insert_ne by done. by rewrite lookup_delete_eq.
  - rewrite Hrm, Eos by done. destruct (decide (q = path)) as [->|?]; [by rewrite !lookup_insert_eq|].
    rewrite !lookup_insert_ne, lookup_delete_ne, Hf, Efs by done. by rewrite lookup_insert_ne.
Qed.

(** What a path may have become when only directories were created and modes changed. *)
Definition same_files (fs fs' : gmap Path inode) (q : Path) : Prop :=
  i_node <$> fs' !! q = i_node <$> fs !! q ∨ (fs !! q = None ∧ i_node <$> fs' !! q = Some NDir).

Lemma same_files_file os os' q : same_files (os_fs os) (os_fs os') q → file_at os' q = file_at os q.
Proof.
  unfold file_at, same_files. intros [E|[E1 E2]].
  - destruct (os_fs os' !! q) as [[[] ? ? ?]|], (os_fs os !! q) as [[[] ? ? ?]|]; naive_solver.
  - rewrite E1. destruct (os_fs os' !! q) as [[[] ? ? ?]|]; naive_solver.
Qed.

(** MkdirAll of a directory followed by its chmod. *)
Definition made (dir : Path) (mode : Z) (os os' : OS) : Prop :=
  (∀ q, q ∉ prefixes dir ++ [dir] → os_fs os' !! q = os_fs os !! q) ∧
  (∀ q, same_files (os_fs os) (os_fs os') q) ∧
  ∃ i, os_fs os' !! dir = Some i ∧ i_node i = NDir ∧ i_mode i = mode.

Lemma mkdir_only dir mode os os' r : os_MkdirAll dir mode os = (os', r) →
  (∀ q, q ∉ prefixes dir ++ [dir] → os_fs os' !! q = os_fs os !! q) ∧
  (∀ q, same_files (os_fs os) (os_fs os') q).
Proof.
  intros [H _]%os_MkdirAll_spec. unfold same_files. split; intros q.
  - intros Hq. by destruct (H q) as [?|(_ & ? & _)].
  - destruct (H q) as [->|(E & _ & i & Ei & En)]; [by left|right]. by rewrite Ei, <-En.
Qed.

Lemma prepareDir_inv {B} dir mode w1 w2 (k : unit → st OS (result B)) os os' r :
  orReturn (os_MkdirAll dir mode) w1 (fun _ => orReturn (os_Chmod dir mode) w2 k) os = (os', r) →
  (∃ e, (r = Err (w1 e) ∨ r = Err (w2 e)) ∧ (∀ q, q ∉ prefixes dir ++ [dir] → os_fs os' !! q = os_fs os !! q) ∧
        ∀ q, same_files (os_fs os) (os_fs os') q) ∨
  (∃ os1, made dir mode os os1 ∧ k () os1 = (os', r)).
Proof.
  intros H. inv_call H; [left|].
  { eexists; split; [by left|]. by eapply mkdir_only. }
  destruct a. match goal with E : os_MkdirAll _ _ _ = _ |- _ => pose proof (mkdir_only _ _ _ _ _ E) as [Hq Hs];
    apply os_MkdirAll_spec in E as [_ Hd] end.
  destruct (Hd eq_refl) as (i & Ei & Hn). clear Hd.
  inv_call H; match goal with E : os_Chmod _ _ _ = _ |- _ => apply os_Chmod_spec in E as (Hc & Hcn & Hm) end; [left|right].
  - eexists; split; [by right|]. split.
    + intros q Hqd. rewrite Hc, Hq; [done|done|]. intros ->. apply Hqd, elem_of_app. right. by apply list_elem_of_singleton.
    + intros q. unfold same_files. rewrite Hcn. apply Hs.
  - destruct a. destruct (Hm eq_refl) as (i1 & i2 & E1 & E2 & E3 & E4). rewrite Ei in E1. injection E1 as <-.
    eexists; split; [|done]. split_and!.
    + intros q Hqd. rewrite Hc, Hq; [done|done|]. intros ->. apply Hqd, elem_of_app. right. by apply list_elem_of_singleton.
    + intros q. unfold same_files. rewrite Hcn. apply Hs.
    + exists i2. by rewrite E3.
Qed.

Lemma same_files_trans fs1 fs2 fs3 q : same_files fs1 fs2 q → fs3 !! q = fs2 !! q → same_files fs1 fs3 q.
Proof. unfold same_files. by intros ? ->. Qed.

Lemma writeObject_spec sentinel what pre dirMode fileMode dir path data os os' r :
  ¬ temp_of dir pre ".tmp" path → path ∉ prefixes dir ++ [dir] →
  writeObject sentinel what pre dirMode fileMode dir path data os = (os', r) →
  (∀ q, q ≠ path → ¬ temp_of dir pre ".tmp" q → same_files (os_fs os) (os_fs os') q) ∧
  match r with
  | Ok created =>
      created = bool_decide (os_fs os !! path = None) ∧
      (∃ i, os_fs os' !! path = Some i ∧ i_node i = NFile data ∧ i_mode i = fileMode) ∧
      (∃ i, os_fs os' !! dir = Some i ∧ i_node i = NDir ∧ i_mode i = dirMode) ∧
      (∀ q, q ≠ path → q ∉ prefixes dir ++ [dir] → os_fs os' !! q = os_fs os !! q)
  | Err _ => ∀ q, ¬ temp_of dir pre ".tmp" q → q ∉ prefixes dir ++ [dir] → os_fs os' !! q = os_fs os !! q
  end.
Proof.
  intros Hpath Hdir H. unfold writeObject in H.
  apply prepareDir_inv in H as [(e & [->| ->] & Hq & Hs)|(os1 & (Hq & Hs & i & Ei & Hn & Hm) & H)]; [by auto..|].
  unfold st_bind in H. destruct (os_Stat path os1) as [os2 info] eqn:Est.
  apply read_spec in Est as [E2 Hinfo].
  assert (Herr : (∃ e, info = inl e ∧ e ≠ ENOENT ∧ r = Err (wrapping sentinel ("%w: stat " +:+ what +:+ ": %w") e) ∧ os' = os2) ∨
    (bool_decide (os_fs os !! path = None) = match info with inl ENOENT => true | _ => false end ∧
     ∃ wrote, atomicWriteFileMode dir path pre ".tmp" data fileMode os2 = (os', wrote) ∧
       r = match wrote with Err e => Err (EWrap "%w: %w" [ESentinel sentinel; e])
           | Ok _ => Ok (match info with inl ENOENT => true | _ => false end) end)).
  { destruct info as [[| |e]|inf].
    - right. split.
      + destruct Hinfo as [[? [=]]|Hinfo]. apply bool_decide_eq_true. rewrite <-Hq by done.
        by destruct (os_fs os1 !! path).
      + unfold st_bind in H. destruct (atomicWriteFileMode _ _ _ _ _ _ _) as [os3 w] eqn:Ew. injection H as <- <-. eauto.
    - left. injection H as <- <-. eauto 10.
    - left. injection H as <- <-. eauto 10.
    - right. split.
      + destruct Hinfo as [[? [=]]|Hinfo]. apply bool_decide_eq_false. rewrite <-Hq by done.
        by destruct (os_fs os1 !! path).
      + unfold st_bind in H. destruct (atomicWriteFileMode _ _ _ _ _ _ _) as [os3 w] eqn:Ew. injection H as <- <-. eauto. }
  clear H Hinfo. destruct Herr as [(e & _ & _ & -> & ->)|(Hcr & wrote & Hw & ->)].
  { split; intros q; rewrite E2; auto. }
  apply atomicWriteFileMode_spec in Hw; [|done]. rewrite <-Hcr. destruct wrote as [u|e].
  - destruct Hw as (i' & Hn' & Hm' & Efs). rewrite E2 in Efs. split; [|split_and!].
    + intros q Hne _. eapply same_files_trans; [apply Hs|]. by rewrite Efs, lookup_insert_ne.
    + done.
    + exists i'. by rewrite Efs, lookup_insert_eq.
    + exists i. rewrite Efs, lookup_insert_ne; [done|]. intros ->. apply Hdir, elem_of_app. right. by apply list_elem_of_singleton.
    + intros q Hne Hqd. by rewrite Efs, lookup_insert_ne, Hq.
  - split; intros q.
    + intros Hne Ht. eapply same_files_trans; [apply Hs|]. by rewrite Hw, E2.
    + intros Ht Hqd. by rewrite Hw, E2, Hq.
Qed.

(** ** Theorems: the store as a map

    The abstract store maps resources to data; the concrete one is the tree of files. *)

#[global] Instance Scope_eq_dec : EqDecision Scope.
Proof. solve_decision. Defined.
#[global] Instance Resource_eq_dec : EqDecision Resource.
Proof. solve_decision. Defined.

Inductive ObjOp := OpWrite (data : string) | OpDelete.

(** The objects that are files. *)
Definition is_object (x : Resource) : bool :=
  match x with RSecret _ _ | RBlueprint _ _ | RConfig _ _ => true | _ => false end.
Definition secret_md (sc : Scope) (n : string) : SecretMetadata :=
  let '(r, s, t, c) := coords sc in
  {| secm_Name := n; secm_Realm := r; secm_Space := s; secm_Stack := t; secm_Cell := c |}.
Definition scoped_md (sc : Scope) (n : string) : ScopedName :=
  let '(r, s, t, _) := coords sc in
  {| scn_Name := n; scn_Realm := r; scn_Space := s; scn_Stack := t; scn_Labels := ∅ |}.

Definition outcome (r : result bool) : option error := match r with Ok _ => None | Err e => Some e end.

(** The runner's operation on an object, with its error. *)
Definition run_op (base : string) (x : Resource) (op : ObjOp) : st OS (option error) :=
  match x, op with
  | RSecret sc n, OpWrite d =>
      let! r := WriteSecret base {| secret_Metadata := secret_md sc n; secret_Data := d |} in st_ret (outcome r)
  | RSecret sc n, OpDelete => DeleteSecret base {| secret_Metadata := secret_md sc n; secret_Data := "" |}
  | RBlueprint sc n, OpWrite d =>
      let! r := WriteBlueprint base {| bp_Metadata := scoped_md sc n; bp_Document := d |} in st_ret (outcome r)
  | RBlueprint sc n, OpDelete => DeleteBlueprint base {| bp_Metadata := scoped_md sc n; bp_Document := "" |}
  | RConfig sc n, OpWrite d =>
      let! r := WriteConfig base {| cfg_Metadata := scoped_md sc n; cfg_Document := d |} in st_ret (outcome r)
  | RConfig sc n, OpDelete => DeleteConfig base {| cfg_Metadata := scoped_md sc n; cfg_Document := "" |}
  | _, _ => st_ret (Some (EOpaque "not an object"))
  end.
Fixpoint run_ops (base : string) (ops : list (Resource * ObjOp)) : st OS (list (option error)) :=
  match ops with
  | [] => st_ret []
  | (x, op) :: rest => let! e := run_op base x op in let! es := run_ops base rest in st_ret (e :: es)
  end.

(** The abstract store and its run: an operation that returned an error did nothing. *)
Definition AbsStore := Resource → option string.
Definition abs_op (x : Resource) (op : ObjOp) (err : option error) (m : AbsStore) : AbsStore :=
  match err with
  | Some _ => m
  | None => fun y => if decide (y = x) then match op with OpWrite d => Some d | OpDelete => None end else m y
  end.
Fixpoint abs_ops (ops : list (Resource * ObjOp)) (errs : list (option error)) (m : AbsStore) : AbsStore :=
  match ops, errs with
  | (x, op) :: ops, e :: errs => abs_ops ops errs (abs_op x op e m)
  | _, _ => m
  end.

(** What is on disk of a resource. *)
Definition stored (base : string) (os : OS) : AbsStore := fun x => file_at os (resolve_path (resource_path base x)).

(** A resource whose file is not named like a temporary one. *)
Definition not_temp (x : Resource) : Prop :=
  ∀ dir pre, pre ∈ [".secret-"; ".blueprint-"; ".config-"] → ¬ temp_of dir pre ".tmp" (elems x).

Section Refinement.
Context (bl : list string) (Hbl : Forall seg_ok bl).
Let base := render_path bl.

Definition object_dir (x : Resource) : Path := bl ++ "data" :: (parts x).1.1 ++ [(parts x).1.2].
Definition object_path (x : Resource) : Path := bl ++ "data" :: elems x.

Lemma resolve_resource x : resource_wf x → resolve_path (resource_path base x) = object_path x.
Proof.
  intros Hwf. unfold base. rewrite resource_path_render by done. apply resolve_render.
  apply Forall_app; split; [done|]. constructor; [by split|]. by apply elems_seg_ok.
Qed.

Lemma prefixes_length p q : q ∈ prefixes p ++ [p] → length q ≤ length p.
Proof.
  intros [H|H%list_elem_of_singleton]%elem_of_app; [|by subst]. unfold prefixes in H.
  apply list_elem_of_fmap in H as (i & -> & _). rewrite length_take. lia.
Qed.

Lemma not_prefix p n : p ++ [n] ∉ prefixes p ++ [p].
Proof. intros H%prefixes_length. rewrite length_app in H. cbn in H. lia. Qed.

(** Temporary files of one directory are not files of any resource. *)
Lemma not_temp_path x y pre : not_temp y → pre ∈ [".secret-"; ".blueprint-"; ".config-"] →
  ¬ temp_of (object_dir x) pre ".tmp" (object_path y).
Proof.
  intros Hy Hpre [n E]. unfold object_path, object_dir in E.
  rewrite <-!app_assoc in E. apply (inj (app bl)) in E. cbn in E. injection E as E.
  apply (Hy ((parts x).1.1 ++ [(parts x).1.2]) pre Hpre). exists n. by rewrite E.
Qed.

(** Where an object and its directory are. *)
Lemma object_paths x sub n sc : resource_wf x → parts x = (scope_names sc, sub, [n]) →
  object_path x = object_dir x ++ [n] ∧ Forall seg_ok (object_dir x).
Proof.
  intros Hwf Hp. unfold object_path, object_dir, elems. pose proof (elems_seg_ok x Hwf) as He. unfold elems in He.
  rewrite Hp in *. cbn. split; [by rewrite <-!app_assoc; cbn; rewrite <-app_assoc|].
  apply Forall_app; split; [done|]. constructor; [by split|].
  apply Forall_app in He as [He1 He2]. apply Forall_app; split; [done|]. inversion He2; subst. by constructor.
Qed.

Lemma sub_dir_at sc sub r s t c : coords sc = (r, s, t, c) → Forall seg_ok (scope_names sc) → seg_ok sub →
  resolve_path (FJoin [SecretScopeDir base r s t c; sub]) = bl ++ "data" :: scope_names sc ++ [sub].
Proof.
  intros Ec Hn Hsub. pose proof (SecretScopeDir_render bl sc Hbl Hn) as E. rewrite Ec in E. fold base in E.
  rewrite E. assert (HF : Forall seg_ok (bl ++ "data" :: scope_names sc)).
  { apply Forall_app; split; [done|]. constructor; [by split|done]. }
  rewrite FJoin_seg, resolve_render by (done || by apply Forall_app; split; [done|apply Forall_singleton]).
  by rewrite <-app_assoc.
Qed.

Lemma wf_names x : resource_wf x → Forall seg_ok (parts x).1.1.
Proof. intros (H & _). eapply Forall_impl; [exact H|by intros ? []]. Qed.

Lemma secret_at sc n : resource_wf (RSecret sc n) →
  secretDir base (secret_md sc n) = object_dir (RSecret sc n) ∧
  secretPath base (secret_md sc n) = object_path (RSecret sc n).
Proof.
  intros Hwf. pose proof (wf_names _ Hwf) as Hn. rewrite <-resolve_resource by done.
  unfold secretDir, secretPath, secret_md, resource_path. destruct (coords sc) as [[[r s] t] c] eqn:Ec.
  split; [|done]. by apply (sub_dir_at sc).
Qed.

Lemma blueprint_at sc n : resource_wf (RBlueprint sc n) →
  blueprintDir base (scoped_md sc n) = object_dir (RBlueprint sc n) ∧
  blueprintPath base (scoped_md sc n) = object_path (RBlueprint sc n).
Proof.
  intros Hwf. pose proof (wf_names _ Hwf) as Hn. rewrite <-resolve_resource by done.
  pose proof (scope_dirs_agree base sc (proj2 (proj2 Hwf))) as Ha.
  unfold blueprintDir, blueprintPath, scoped_md, resource_path. destruct (coords sc) as [[[r s] t] c] eqn:Ec.
  split; [|done]. unfold BlueprintsDir. cbn [scn_Realm scn_Space scn_Stack]. rewrite (proj1 Ha). by apply (sub_dir_at sc).
Qed.

Lemma config_at sc n : resource_wf (RConfig sc n) →
  configDir base (scoped_md sc n) = object_dir (RConfig sc n) ∧
  configPath base (scoped_md sc n) = object_path (RConfig sc n).
Proof.
  intros Hwf. pose proof (wf_names _ Hwf) as Hn. rewrite <-resolve_resource by done.
  pose proof (scope_dirs_agree base sc (proj2 (proj2 Hwf))) as Ha.
  unfold configDir, configPath, scoped_md, resource_path. destruct (coords sc) as [[[r s] t] c] eqn:Ec.
  split; [|done]. unfold ConfigsDir. cbn [scn_Realm scn_Space scn_Stack]. rewrite (proj1 (proj2 Ha)). by apply (sub_dir_at sc).
Qed.

(** Writing and removing one object, seen from any resource. *)
Lemma write_step sentinel what pre dirMode fileMode data x y n sub sc os os' r :
  resource_wf x → not_temp x → parts x = (scope_names sc, sub, [n]) →
  pre ∈ [".secret-"; ".blueprint-"; ".config-"] → resource_wf y → not_temp y →
  writeObject sentinel what pre dirMode fileMode (object_dir x) (object_path x) data os = (os', r) →
  file_at os' (object_path y)
  = match r with
    | Ok _ => if decide (y = x) then Some data else file_at os (object_path y)
    | Err _ => file_at os (object_path y)
    end.
Proof.
  intros Hx Htx Hp Hpre Hy Hty H. destruct (object_paths x sub n sc Hx Hp) as [Ep _].
  apply writeObject_spec in H as [Hs Hr]; [|by apply not_temp_path|rewrite Ep; apply not_prefix].
  assert (Hne : y ≠ x → object_path y ≠ object_path x).
  { intros Hyx E. apply Hyx. apply (inj (app bl)) in E. injection E as E. by apply elems_inj. }
  assert (Hother : y ≠ x → file_at os' (object_path y) = file_at os (object_path y)).
  { intros Hyx. apply same_files_file, Hs; [by apply Hne|by apply not_temp_path]. }
  destruct r as [b|e].
  - destruct Hr as (_ & (i & Ei & En & _) & _). destruct (decide (y = x)) as [->|Hyx]; [|by apply Hother].
    unfold file_at. rewrite Ei. destruct i as [nd ? ? ?]. cbn in En. by rewrite En.
  - destruct (decide (y = x)) as [->|Hyx]; [|by apply Hother].
    unfold file_at. rewrite Hr; [done|by apply not_temp_path|]. rewrite Ep. apply not_prefix.
Qed.

Lemma delete_step notFound del x y os os' e :
  resource_wf x → resource_wf y → removeObject notFound del (object_path x) os = (os', e) →
  file_at os' (object_path y)
  = match e with
    | None => if decide (y = x) then None else file_at os (object_path y)
    | Some _ => file_at os (object_path y)
    end.
Proof.
  intros Hx Hy H. unfold removeObject, st_bind in H. destruct (os_Remove _ os) as [os1 r] eqn:ER.
  apply os_Remove_spec in ER. injection H as <- <-. unfold file_at. destruct r as [er|[]].
  - destruct ER as [-> _]. by destruct er.
  - destruct ER as [_ ->]. destruct (decide (y = x)) as [->|Hyx]; [by rewrite lookup_delete_eq|].
    rewrite lookup_delete_ne; [done|]. intros E. apply Hyx. symmetry. apply (inj (app bl)) in E.
    injection E as E. by apply elems_inj.
Qed.

Ltac object_at Hx :=
  let E1 := fresh "E1" in let E2 := fresh "E2" in
  lazymatch type of Hx with
  | resource_wf (RSecret _ _) => destruct (secret_at _ _ Hx) as [E1 E2]
  | resource_wf (RBlueprint _ _) => destruct (blueprint_at _ _ Hx) as [E1 E2]
  | resource_wf (RConfig _ _) => destruct (config_at _ _ Hx) as [E1 E2]
  end.

Lemma run_op_step x op y os os' e :
  is_object x = true → resource_wf x → not_temp x → resource_wf y → not_temp y →
  run_op base x op os = (os', e) → stored base os' y = abs_op x op e (stored base os) y.
Proof.
  intros Ho Hx Htx Hy Hty H. unfold stored. rewrite resolve_resource by done.
  destruct x, op; try done; cbn [run_op] in H; unfold st_bind in H.
  all: lazymatch type of H with
    | (let '(_, _) := ?w in _) = _ => destruct w as [os1 r] eqn:Ew; injection H as <- <-;
        unfold WriteSecret, WriteBlueprint, WriteConfig in Ew;
        cbn [secret_Metadata bp_Metadata cfg_Metadata secret_Data bp_Document cfg_Document] in Ew;
        object_at Hx;
        rewrite ?E1, ?E2 in Ew; eapply (write_step _ _ _ _ _ _ _ y) in Ew; [|done|done|reflexivity|set_solver|done|done];
        rewrite Ew; destruct r; cbn; [case_decide; [done|]|]; by rewrite resolve_resource
    | _ => unfold DeleteSecret, DeleteBlueprint, DeleteConfig in H;
        cbn [secret_Metadata bp_Metadata cfg_Metadata] in H;
        object_at Hx;
        rewrite E2 in H; rewrite (delete_step _ _ _ y _ _ _ Hx Hy H);
        destruct e; cbn; [|case_decide; [done|]]; by rewrite resolve_resource
    end.
Qed.

Lemma abs_ops_at ops errs m1 m2 y : m1 y = m2 y → abs_ops ops errs m1 y = abs_ops ops errs m2 y.
Proof.
  revert errs m1 m2. induction ops as [|[x op] ops IH]; intros [|e errs] m1 m2 E; [done..|].
  apply IH. unfold abs_op. destruct e; [done|]. by case_decide.
Qed.

Lemma read_back path d os : os_faults os = [] → file_at os path = Some d →
  ∀ notFound get, (readObject notFound get path os).2 = Ok d.
Proof.
  intros Hf Hd notFound get. unfold readObject, st_bind, os_ReadFile, syscall1, syscall, take_fault. rewrite Hf. cbn.
  unfold file_at in Hd. destruct (os_fs os !! path) as [[[]]|]; [|done..]. cbn. by injection Hd as ->.
Qed.

(** C11: the tree of files implements a map from resources to documents, for resources
    whose names are plain path elements (not empty, "." or "..", without a slash, not a
    name the layout reserves for a directory) and not those of the store's own temporary
    files: after any sequence of writes and deletions of such secrets, blueprints and
    configs, under any failures of the system calls, every such resource holds what the
    successful operations on it say and nothing else was disturbed (an operation that
    failed left its object as it was); and what a blueprint or config holds is what
    reading it returns once no call fails. *)
Theorem object_store_refines_map ops os os' errs :
  Forall (fun xo => is_object xo.1 = true ∧ resource_wf xo.1 ∧ not_temp xo.1) ops →
  run_ops base ops os = (os', errs) →
  (∀ y, resource_wf y → not_temp y → stored base os' y = abs_ops ops errs (stored base os) y) ∧
  (os_faults os' = [] → ∀ sc n d,
     (resource_wf (RBlueprint sc n) → stored base os' (RBlueprint sc n) = Some d →
      (GetBlueprint base {| bp_Metadata := scoped_md sc n; bp_Document := "" |} os').2
      = Ok {| bp_Metadata := scoped_md sc n; bp_Document := d |}) ∧
     (resource_wf (RConfig sc n) → stored base os' (RConfig sc n) = Some d →
      (GetConfig base {| cfg_Metadata := scoped_md sc n; cfg_Document := "" |} os').2
      = Ok {| cfg_Metadata := scoped_md sc n; cfg_Document := d |})).
Proof.
  intros Hops Hrun. split.
  - revert os errs Hrun. induction Hops as [|[x op] ops (Ho & Hx & Ht) _ IH]; intros os errs Hrun y Hy Hty.
    { by injection Hrun as <- <-. }
    cbn [run_ops] in Hrun. unfold st_bind in Hrun. destruct (run_op base x op os) as [os1 e] eqn:E1.
    destruct (run_ops base ops os1) as [os2 es] eqn:E2. injection Hrun as <- <-.
    rewrite (IH os1 es E2 y Hy Hty). cbn. apply abs_ops_at. by apply run_op_step.
  - intros Hf sc n d. split; intros Hwf Hs; unfold stored in Hs; rewrite resolve_resource in Hs by done;
      object_at Hwf; unfold GetBlueprint, GetConfig, st_bind; cbn [bp_Metadata cfg_Metadata];
      match goal with E : _ = object_path _ |- context [readObject ?a ?b _ _] =>
        rewrite E; pose proof (read_back _ _ _ Hf Hs a b) as Hr; destruct (readObject a b _ _); cbn in *; by rewrite Hr end.
Qed.

(** secret material is never readable by others: whatever the umask, the failures
    and the modes found on disk, a secret that was written is a file of mode 0600 in a
    directory of mode 0700, holding the whole data; one that was not written is as it
    was before, and so is every other file. *)
Theorem secret_written_root_only sc n data os os' r :
  resource_wf (RSecret sc n) → not_temp (RSecret sc n) →
  WriteSecret base {| secret_Metadata := secret_md sc n; secret_Data := data |} os = (os', r) →
  match r with
  | Ok created =>
      created = bool_decide (os_fs os !! object_path (RSecret sc n) = None) ∧
      (∃ i, os_fs os' !! object_path (RSecret sc n) = Some i ∧ i_node i = NFile data ∧ i_mode i = 384%Z) ∧
      (∃ i, os_fs os' !! object_dir (RSecret sc n) = Some i ∧ i_node i = NDir ∧ i_mode i = 448%Z)
  | Err _ => os_fs os' !! object_path (RSecret sc n) = os_fs os !! object_path (RSecret sc n)
  end.
Proof.
  intros Hwf Ht H. object_at Hwf. unfold WriteSecret in H. cbn [secret_Metadata secret_Data] in H. rewrite E1, E2 in H.
  destruct (object_paths (RSecret sc n) _ n sc Hwf eq_refl) as [Ep _].
  apply writeObject_spec in H as [_ H]; [|apply not_temp_path; [done|set_solver]|rewrite Ep; apply not_prefix].
  destruct r as [created|e]; [naive_solver|]. apply H; [apply not_temp_path; [done|set_solver]|].
  rewrite Ep. apply not_prefix.
Qed.

(** create-only configs never overwrite: whatever fails, a name that is taken keeps
    its document; success means the name was free and now holds the new document, and
    ErrConfigExists is returned only when the name was taken. *)
Theorem config_create_never_overwrites sc n doc os os' r :
  resource_wf (RConfig sc n) → not_temp (RConfig sc n) →
  WriteConfigIfAbsent base {| cfg_Metadata := scoped_md sc n; cfg_Document := doc |} os = (os', r) →
  let p := object_path (RConfig sc n) in
  match r with
  | Ok _ => os_fs os !! p = None ∧ file_at os' p = Some doc
  | Err e => os_fs os' !! p = os_fs os !! p ∧ (e = ESentinel ErrConfigExists → is_Some (os_fs os !! p))
  end.
Proof.
  intros Hwf Ht H p. object_at Hwf. unfold WriteConfigIfAbsent in H.
  cbn [cfg_Metadata cfg_Document] in H. rewrite E1, E2 in H. fold p in H.
  destruct (object_paths (RConfig sc n) _ n sc Hwf eq_refl) as [Ep _].
  assert (Hdir : p ∉ prefixes (object_dir (RConfig sc n)) ++ [object_dir (RConfig sc n)])
    by (unfold p; rewrite Ep; apply not_prefix).
  assert (Htmp : ¬ temp_of (object_dir (RConfig sc n)) ".config-" ".tmp" p) by (apply not_temp_path; [done|set_solver]).
  apply prepareDir_inv in H as [(e & [->| ->] & Hq & _)|(os1 & (Hq & _ & _) & H)]; [by split; [apply Hq|]..|].
  inv_call H; match goal with E : os_CreateTemp _ _ _ _ = _ |- _ => apply os_CreateTemp_spec in E; rename E into Ec end.
  { split; [by rewrite Ec, Hq|done]. }
  destruct Ec as (_ & Hat & i0 & _ & Efs). rename a into tmp.
  assert (Hne : p ≠ tmp) by (intros E; apply Htmp; by rewrite E).
  unfold deferRemove, st_bind in H. destruct (fillTemp _ _ _ _ _) as [os2 r1] eqn:EF.
  assert (Hkeep : ∀ osa osb (rr : oserr + unit), os_Remove tmp osa = (osb, rr) → os_fs osb !! p = os_fs osa !! p).
  { intros osa osb rr ER%os_Remove_spec. destruct rr; [by destruct ER as [-> _]|destruct ER as [_ ->]].
    by rewrite lookup_delete_ne. }
  apply fillTemp_spec in EF as [(fmt & e & -> & Hf)|(os3 & i & [= <- <-] & Hf & Ei & Hn & Hm)].
  - cbn -[os_Remove os_Link] in H. destruct (os_Remove tmp os2) as [os4 rr] eqn:ER. cbn in H. injection H as <- <-.
    split; [|done]. by rewrite (Hkeep _ _ _ ER), Hf, Efs, lookup_insert_ne, Hq.
  - cbn -[os_Remove os_Link] in H. destruct (os_Link tmp p os3) as [os4 lk] eqn:EL. apply os_Link_spec in EL.
    cbn -[os_Remove] in H. destruct (os_Remove tmp os4) as [os5 rr] eqn:ER. injection H as <- <-.
    assert (Hp3 : os_fs os3 !! p = os_fs os !! p) by by rewrite Hf, Efs, lookup_insert_ne, Hq.
    destruct lk as [e|[]].
    + destruct EL as [Efs4 Hex]. rewrite Hp3 in Hex. assert (os_fs os5 !! p = os_fs os !! p).
      { by rewrite (Hkeep _ _ _ ER), Efs4. }
      destruct e; split; try done; intros _; by apply Hex.
    + destruct EL as (i' & Ei' & Hnone & Efs4). rewrite Hp3 in Hnone. split; [done|].
      unfold file_at. rewrite (Hkeep _ _ _ ER), Efs4, lookup_insert_eq. rewrite Ei in Ei'. injection Ei' as <-.
      destruct i as [nd ? ? ?]. cbn in Hn. by rewrite Hn.
Qed.

End Refinement.

(** *** Samples *)

Definition sample_os (faults : list (option (nat * error))) : OS := {|
  os_fs := ∅; os_faults := faults; os_names := ["1"; "2"; "3"; "4"]; os_umask := 18 |}.
Definition sample_secret_res : Resource := RSecret (ScSpace "r" "s") "token".
Definition sample_config_res : Resource := RConfig (ScRealm "r") "web".

Ltac seg_list := cbn; repeat (apply Forall_cons_2; [by split|]); apply Forall_nil_2.
Ltac res_wf :=
  split_and!; [|seg_list|done]; cbn;
  repeat (apply Forall_cons_2; [split; [by split|apply (bool_decide_unpack _); vm_compute; exact I]|]);
  apply Forall_nil_2.
Lemma temp_suffix dir pre q : temp_of dir pre ".tmp" q → HasSuffix (List.last q "") ".tmp" = true.
Proof.
  intros [m ->]. rewrite List.last_last, <-string_app_assoc. generalize (pre +:+ m). clear.
  induction s as [|c a IH]; [done|]. change (String c a +:+ ".tmp") with (String c (a +:+ ".tmp")).
  cbn [HasSuffix]. rewrite IH. apply orb_true_r.
Qed.

Lemma not_temp_last x : HasSuffix (List.last (elems x) "") ".tmp" = false → not_temp x.
Proof. intros Hn dir pre _ H%temp_suffix. congruence. Qed.

Lemma object_store_refines_map_witness :
  let ops := [(sample_secret_res, OpWrite "hunter2"); (sample_config_res, OpWrite "kind: CellConfig");
              (sample_secret_res, OpDelete)] in
  let '(os', errs) := run_ops "/opt/kukeon" ops (sample_os [None; None; None; None; Some (3, EOpaque "disk full")]) in
  errs !! 1 = Some None ∧ stored "/opt/kukeon" os' sample_config_res = Some "kind: CellConfig".
Proof.
  intros ops. destruct (run_ops _ ops _) as [os' errs] eqn:E.
  destruct (object_store_refines_map ["opt"; "kukeon"] ltac:(seg_list) ops _ os' errs ltac:(
    repeat (apply Forall_cons_2; [split_and!; [done|res_wf|by apply not_temp_last]|]);
    apply Forall_nil_2) E) as [H _].
  assert (Ee : errs = (run_ops "/opt/kukeon" ops (sample_os [None; None; None; None; Some (3, EOpaque "disk full")])).2)
    by by rewrite E.
  vm_compute in Ee. subst errs. split; [done|].
  etrans; [apply (H sample_config_res); [res_wf|by apply not_temp_last]|].
  vm_compute. reflexivity.
Defined.

Lemma secret_written_root_only_witness :
  let '(os', r) := WriteSecret "/opt/kukeon"
    {| secret_Metadata := secret_md (ScSpace "r" "s") "token"; secret_Data := "hunter2" |} (sample_os []) in
  r = Ok true ∧ ∃ i, os_fs os' !! ["opt"; "kukeon"; "data"; "r"; "s"; "secrets"; "token"] = Some i ∧ i_mode i = 384%Z.
Proof.
  destruct (WriteSecret _ _ _) as [os' r] eqn:E.
  pose proof (secret_written_root_only ["opt"; "kukeon"] ltac:(seg_list) (ScSpace "r" "s") "token" "hunter2"
    (sample_os []) os' r ltac:(res_wf) ltac:(by apply not_temp_last) E) as H.
  assert (Er : r = (WriteSecret "/opt/kukeon"
    {| secret_Metadata := secret_md (ScSpace "r" "s") "token"; secret_Data := "hunter2" |} (sample_os [])).2) by by rewrite E.
  vm_compute in Er. subst r. split; [done|]. destruct H as (_ & (i & Hi & _ & Hm) & _). exists i. split; [exact Hi|exact Hm].
Defined.

Lemma config_create_never_overwrites_witness :
  let taken := (WriteConfig "/opt/kukeon" {| cfg_Metadata := scoped_md (ScRealm "r") "web"; cfg_Document := "old" |}
                  (sample_os [])).1 in
  let '(os', r) := WriteConfigIfAbsent "/opt/kukeon"
    {| cfg_Metadata := scoped_md (ScRealm "r") "web"; cfg_Document := "new" |} taken in
  r = Err (ESentinel ErrConfigExists) ∧
  os_fs os' !! ["opt"; "kukeon"; "data"; "r"; "configs"; "web"] = os_fs taken !! ["opt"; "kukeon"; "data"; "r"; "configs"; "web"].
Proof.
  intros taken. destruct (WriteConfigIfAbsent _ _ taken) as [os' r] eqn:E.
  pose proof (config_create_never_overwrites ["opt"; "kukeon"] ltac:(seg_list) (ScRealm "r") "web" "new"
    taken os' r ltac:(res_wf) ltac:(by apply not_temp_last) E) as H.
  assert (Er : r = (WriteConfigIfAbsent "/opt/kukeon"
    {| cfg_Metadata := scoped_md (ScRealm "r") "web"; cfg_Document := "new" |} taken).2) by by rewrite E.
  vm_compute in Er. subst r. split; [done|]. exact (proj1 H).
Defined.

(** ** Theorems: volumes *)

Section VolumeTheorems.
Context (bl : list string) (Hbl : Forall seg_ok bl) (gid : Z).
Context (manifestJSON : string → string).
Let base := render_path bl.

Definition volume_md (sc : Scope) (n : string) : VolumeMetadata :=
  let '(r, s, t, _) := coords sc in {| volm_Name := n; volm_Realm := r; volm_Space := s; volm_Stack := t |}.

Lemma volume_at sc n : resource_wf (RVolume sc n) →
  volumesDir base (volume_md sc n) = object_dir bl (RVolume sc n) ∧
  volumePath base (volume_md sc n) = object_path bl (RVolume sc n) ∧
  volumeMetaDir base (volume_md sc n) = object_dir bl (RVolumeMeta sc n) ∧
  volumeMetaPath base (volume_md sc n) = object_path bl (RVolumeMeta sc n) ∧ resource_wf (RVolumeMeta sc n).
Proof.
  intros Hwf. pose proof (wf_names _ Hwf) as Hn. destruct Hwf as (Hp & Hr & Hc).
  pose proof (scope_dirs_agree base sc Hc) as Ha.
  assert (Hm : resource_wf (RVolumeMeta sc n)).
  { split_and!; [done| |done]. cbn in Hr |- *. apply Forall_singleton in Hr as [H1 H2 H3 H4]. apply Forall_singleton.
    split.
    - by destruct n.
    - rewrite avoids_app, H2. done.
    - destruct n as [|? [|]]; [done|done|done].
    - destruct n as [|? [|? [|]]]; done. }
  rewrite <-(resolve_resource bl Hbl (RVolume sc n)), <-(resolve_resource bl Hbl (RVolumeMeta sc n)) by done.
  unfold volumesDir, volumePath, volumeMetaDir, volumeMetaPath, volume_md, resource_path.
  destruct (coords sc) as [[[r s] t] c] eqn:Ec. cbn [volm_Name volm_Realm volm_Space volm_Stack].
  unfold VolumesDir, VolumeMetaDir. rewrite (proj2 (proj2 Ha)).
  split_and!; try done; by apply (sub_dir_at bl Hbl sc).
Qed.

(** The manifest after a successful persist, and what else it may have touched. *)
Lemma persist_spec sc n policy os os' :
  resource_wf (RVolume sc n) → (∀ dir, ¬ temp_of dir ".volume-meta-" ".tmp" (object_path bl (RVolumeMeta sc n))) →
  persistVolumeReclaimPolicy base manifestJSON {| vol_Metadata := volume_md sc n; vol_ReclaimPolicy := policy |} os
  = (os', Ok ()) →
  file_at os' (object_path bl (RVolumeMeta sc n))
  = (if String.eqb policy ext.ReclaimRetain then Some (manifestJSON ext.ReclaimRetain) else None) ∧
  os_fs os' !! object_path bl (RVolume sc n) = os_fs os !! object_path bl (RVolume sc n).
Proof.
  intros Hwf Ht H. destruct (volume_at sc n Hwf) as (_ & E2 & E3 & E4 & Hm).
  destruct (object_paths bl Hbl (RVolume sc n) _ n sc Hwf eq_refl) as [Ev _].
  destruct (object_paths bl Hbl (RVolumeMeta sc n) _ (n +:+ ".json") sc Hm eq_refl) as [Em _].
  assert (Hne : object_path bl (RVolume sc n) ≠ object_path bl (RVolumeMeta sc n)).
  { intros E. apply (inj (app bl)) in E. injection E as E. apply elems_inj in E; done. }
  unfold persistVolumeReclaimPolicy in H. cbn [vol_Metadata vol_ReclaimPolicy] in H. rewrite E3, E4 in H.
  destruct (String.eqb policy ext.ReclaimRetain); cbn [negb] in H.
  - apply prepareDir_inv in H as [(e & [[=]|[=]] & _)|(os1 & (Hq & _ & _) & H)].
    unfold st_bind in H. destruct (atomicWriteFileMode _ _ _ _ _ _ _) as [os2 w] eqn:Ew.
    destruct w as [u|e]; injection H as <-; [|done]. apply atomicWriteFileMode_spec in Ew; [|done].
    destruct Ew as (i & Hn & _ & Efs). split.
    + unfold file_at. rewrite Efs, lookup_insert_eq. destruct i. cbn in Hn. by rewrite Hn.
    + rewrite Efs, lookup_insert_ne by done. apply Hq. intros Hin%prefixes_length.
      apply (f_equal length) in Ev. rewrite length_app in Ev. cbn in Ev.
      unfold object_dir in Ev, Hin. cbn in Ev, Hin. rewrite !length_app in Ev, Hin. cbn in Ev, Hin.
      rewrite !length_app in Ev, Hin. cbn in Ev, Hin. lia.
  - unfold st_bind in H. destruct (os_Remove _ os) as [os1 r] eqn:ER. apply os_Remove_spec in ER.
    destruct r as [[]|[]]; try done; injection H as <-; destruct ER as [ER1 ER2].
    + rewrite ER1. split; [|done]. unfold file_at. by rewrite ER1, (ER2 eq_refl).
    + rewrite ER2. split; [|by rewrite lookup_delete_ne]. unfold file_at. by rewrite ER2, lookup_delete_eq.
Qed.

(** The directory and the manifest after a successful write. *)
Lemma write_volume_spec sc n policy os os' created :
  resource_wf (RVolume sc n) → (∀ dir, ¬ temp_of dir ".volume-meta-" ".tmp" (object_path bl (RVolumeMeta sc n))) →
  WriteVolume base gid manifestJSON {| vol_Metadata := volume_md sc n; vol_ReclaimPolicy := policy |} os
  = (os', Ok created) →
  (∃ i, os_fs os' !! object_path bl (RVolume sc n) = Some i ∧ i_node i = NDir ∧ i_mode i = (volumeDirInitialPerms gid).1) ∧
  file_at os' (object_path bl (RVolumeMeta sc n))
  = (if String.eqb policy ext.ReclaimRetain then Some (manifestJSON ext.ReclaimRetain) else None).
Proof.
  intros Hwf Ht H. destruct (volume_at sc n Hwf) as (E1 & E2 & _).
  unfold WriteVolume in H. cbn [vol_Metadata vol_ReclaimPolicy] in H. rewrite E1, E2 in H.
  apply prepareDir_inv in H as [(e & [[=]|[=]] & _)|(os1 & _ & H)].
  unfold st_bind in H at 1. destruct (os_Stat _ os1) as [os2 info] eqn:Est.
  assert (Hd : ∃ os3 b, persistVolumeReclaimPolicy base manifestJSON
      {| vol_Metadata := volume_md sc n; vol_ReclaimPolicy := policy |} os3 = (os', b) ∧ b = Ok () ∧
    ∃ i, os_fs os3 !! object_path bl (RVolume sc n) = Some i ∧ i_node i = NDir ∧ i_mode i = (volumeDirInitialPerms gid).1).
  { destruct (volumeDirInitialPerms gid) as [mode g] eqn:Ep. cbn [fst].
    assert (H' : orReturn (os_MkdirAll (object_path bl (RVolume sc n)) mode)
        (wrapping ErrWriteVolume "%w: create volume dir: %w") (fun _ =>
      orReturn (os_Chmod (object_path bl (RVolume sc n)) mode) (wrapping ErrWriteVolume "%w: chmod volume dir: %w") (fun _ =>
      orReturn (if (0 <? g)%Z then os_Chown (object_path bl (RVolume sc n)) 0 g else st_ret (inr ()))
        (wrapping ErrWriteVolume "%w: chown volume dir to root:%d: %w") (fun _ =>
      let! p := persistVolumeReclaimPolicy base manifestJSON {| vol_Metadata := volume_md sc n; vol_ReclaimPolicy := policy |} in
      st_ret (let? _ := p in Ok (match info with inl ENOENT => true | _ => false end))))) os2 = (os', Ok created)).
    { destruct info as [[| |e]|[[d|] m u g']]; try exact H; done. }
    clear H. apply prepareDir_inv in H' as [(e & [[=]|[=]] & _)|(os3 & (_ & _ & Hdir) & H)].
    apply orReturn_inv in H as [(e & _ & [=])|(os4 & [] & Hc & H)].
    unfold st_bind in H. destruct (persistVolumeReclaimPolicy _ _ _ _) as [os5 b] eqn:Epp.
    destruct b as [[]|e]; [injection H as <- _|discriminate H]. eexists _, _; split_and!; [exact Epp|done|].
    destruct Hdir as (i & Ei & Hn & Hmo). destruct (0 <? g)%Z.
    + apply syscall1_spec in Hc as [(? & _ & [=])|[Efs _]].
      rewrite Ei in Efs. cbn in Efs. rewrite Efs, lookup_insert_eq. eexists; split_and!; [done|done|done].
    + injection Hc as <-. eauto. }
  destruct Hd as (os3 & b & Hp & -> & i & Ei & Hn & Hmo).
  destruct (persist_spec sc n policy os3 os' Hwf Ht Hp) as [Hman Hsame]. rewrite <-Hsame in Ei.
  split; [eauto|done].
Qed.

(** the reclaim policy is durable: whatever fails, when applying a volume succeeds
    its directory exists with the mode of the group configuration, the manifest that
    protects it from a cascading purge is there exactly when the policy is Retain (so a
    policy flipped back drops it), and reading the volume back reports Retain. *)
Theorem volume_policy_persisted manifestPolicy sc n policy os os' created :
  resource_wf (RVolume sc n) → (∀ dir, ¬ temp_of dir ".volume-meta-" ".tmp" (object_path bl (RVolumeMeta sc n))) →
  manifestPolicy (manifestJSON ext.ReclaimRetain) = Ok ext.ReclaimRetain →
  WriteVolume base gid manifestJSON {| vol_Metadata := volume_md sc n; vol_ReclaimPolicy := policy |} os
  = (os', Ok created) →
  (∃ i, os_fs os' !! object_path bl (RVolume sc n) = Some i ∧ i_node i = NDir ∧ i_mode i = (volumeDirInitialPerms gid).1) ∧
  file_at os' (object_path bl (RVolumeMeta sc n))
  = (if String.eqb policy ext.ReclaimRetain then Some (manifestJSON ext.ReclaimRetain) else None) ∧
  (policy = ext.ReclaimRetain → os_faults os' = [] →
   (GetVolume base manifestPolicy {| vol_Metadata := volume_md sc n; vol_ReclaimPolicy := "" |} os').2
   = Ok {| vol_Metadata := volume_md sc n; vol_ReclaimPolicy := ext.ReclaimRetain |}).
Proof.
  intros Hwf Ht Hj H. destruct (volume_at sc n Hwf) as (_ & E2 & _ & E4 & _).
  destruct (write_volume_spec sc n policy os os' created Hwf Ht H) as [(i & Ei & Hn & Hmo) Hman].
  split_and!; [eauto|done|]. intros -> Hf. change (String.eqb ext.ReclaimRetain ext.ReclaimRetain) with true in Hman.
  unfold GetVolume, readVolumeReclaimPolicy. cbn [vol_Metadata]. rewrite E2, E4.
  unfold st_bind, os_Stat, os_ReadFile, syscall1, syscall, take_fault. rewrite Hf. cbn. rewrite Ei. destruct i as [nd m u g].
  cbn in Hn. rewrite Hn. cbn. unfold file_at in Hman.
  destruct (os_fs os' !! object_path bl (RVolumeMeta sc n)) as [[[d|] ? ? ?]|]; try done. cbn.
  injection Hman as ->. by rewrite Hj.
Qed.

End VolumeTheorems.

Lemma volume_policy_persisted_witness :
  let json p := "policy=" +:+ p in
  let read d := if String.eqb d "policy=Retain" then Ok "Retain" else Err (EOpaque "bad") in
  let v := {| vol_Metadata := volume_md (ScRealm "r") "data"; vol_ReclaimPolicy := ext.ReclaimRetain |} in
  let '(os', _) := WriteVolume "/opt/kukeon" 1000 json v (sample_os []) in
  (GetVolume "/opt/kukeon" read v os').2 = Ok v.
Proof.
  intros json read v. destruct (WriteVolume _ _ _ _ _) as [os' r] eqn:E.
  assert (Er : r = (WriteVolume "/opt/kukeon" 1000 json v (sample_os [])).2) by by rewrite E.
  vm_compute in Er. subst r.
  destruct (volume_policy_persisted ["opt"; "kukeon"] ltac:(seg_list) 1000 json read (ScRealm "r") "data"
    ext.ReclaimRetain (sample_os []) os' true) as (_ & _ & H); [res_wf| |reflexivity|exact E|].
  - intros dir H%temp_suffix. vm_compute in H. discriminate.
  - apply H; [done|]. assert (Ef : os_faults os' = os_faults (WriteVolume "/opt/kukeon" 1000 json v (sample_os [])).1)
      by by rewrite E. vm_compute in Ef. exact Ef.
Defined.
