(* ===== verification/Observe.v ===== *)
(** * Observe: what the runner reads back from the host

    internal/controller/runner/stage_status.go (run-once create stages),
    container_state.go (the observation of one container), ctr/task.go (the
    mapping of containerd's task status), setup_status_client.go and the
    populate pass of helpers.go that rebuilds a cell's container statuses. *)

From Stdlib Require Import ZArith String.
From stdpp Require Import base gmap strings list.
From S2P Require Import Prelude Model CellState Sha256 Naming.

(** ** Create-stage records (stage_status.go) *)

Definition StageDone : string := "done".
Definition stageHashLen : nat := 16.

(** The bytes the stage hash is taken over. *)
Definition stageHashInput (stage : TtyStage) : string :=
  ts_Script stage +:+ String NUL (ts_RunOn stage).

Definition stageContentHash (stage : TtyStage) : string :=
  String.substring 0 stageHashLen (sha256_hex (stageHashInput stage)).

Definition restampHash (s : StageStatus) (hash : string) : StageStatus :=
  {| ss_Index := ss_Index s; ss_State := ss_State s; ss_Error := ss_Error s; ss_Hash := hash |}.

(** One iteration of the merge loop, at position i of OnInit. *)
Definition mergeStage (live prior : gmap Z StageStatus) (i : Z) (stage : TtyStage)
    : list StageStatus :=
  if negb (String.eqb (ts_RunOn stage) RunOnCreate) then []
  else
    let hash := stageContentHash stage in
    match live !! i with
    | Some l => [restampHash l hash]
    | None =>
        match prior !! i with
        | Some p =>
            if String.eqb (ss_Hash p) hash && String.eqb (ss_State p) StageDone
            then [p] else []
        | None => []
        end
    end.

Definition mergeStageStatuses (spec : ContainerSpec) (prior live : list StageStatus)
    : list StageStatus :=
  match c_Tty spec with
  | None => []
  | Some tty =>
      let liveByIndex := index_by ss_Index id live in
      let priorByIndex := index_by ss_Index id prior in
      concat (imap (fun i stage => mergeStage liveByIndex priorByIndex (Z.of_nat i) stage)
                (ct_OnInit tty))
  end.

Fixpoint priorStages (statuses : list ContainerStatus) (containerID : string)
    : list StageStatus :=
  match statuses with
  | [] => []
  | s :: rest => if String.eqb (cs_ID s) containerID then cs_Stages s
                 else priorStages rest containerID
  end.

Definition priorStagesForContainer (cell : Cell) (containerID : string) : list StageStatus :=
  priorStages (cst_Containers (cell_Status cell)) containerID.

Definition doneHashes (prior : list StageStatus) : gset string :=
  list_to_set (ss_Hash <$> List.filter
    (fun s => String.eqb (ss_State s) StageDone && negb (String.eqb (ss_Hash s) "")) prior).

(** The gate blanks the script in place; the model returns the updated slice. *)
Definition applyStageRenderGate (onInit : list TtyStage) (prior : list StageStatus)
    : list TtyStage :=
  (fun stage =>
     if negb (String.eqb (ts_RunOn stage) RunOnCreate) then stage
     else if bool_decide (stageContentHash stage ∈ doneHashes prior)
     then {| ts_Script := ""; ts_RunOn := ts_RunOn stage |}
     else stage) <$> onInit.

(** ** containerd task status (ctr/task.go) *)

(** containerd's ProcessStatus is a string type; these are the values it names. *)
Inductive ProcessStatus :=
| ProcRunning | ProcCreated | ProcStopped | ProcPaused | ProcPausing | ProcUnknown
| ProcOther (s : string).

(** containerd.Status; ExitStatus is a uint32. *)
Record TaskStatus := {
  tk_Status : ProcessStatus;
  tk_ExitStatus : Z;
  tk_ExitTime : Time
}.

Definition ConvertContainerdStatusToContainerState (status : TaskStatus) : ContainerState :=
  match tk_Status status with
  | ProcRunning => ContainerStateReady
  | ProcStopped => if negb (Z.eqb (tk_ExitStatus status) 0) then ContainerStateError
                   else ContainerStateExited
  | ProcCreated => ContainerStatePending
  | ProcUnknown => ContainerStateUnknown
  | ProcPaused => ContainerStatePaused
  | ProcPausing => ContainerStatePausing
  | ProcOther _ => ContainerStateUnknown
  end.

(** ** The host as the runner sees it

    One operation per external effect, each threading the host's state: the
    clock, the containerd connection and client, the metadata store's realm
    lookup, kuketty's control socket.  No law is assumed of them.  The constants
    of the process (the signal-name table of golang.org/x/sys/unix, the configured
    namespace suffix and run path) are a class of their own. *)

Class HostConfig := {
  SignalName : Z → string;
  RealmNamespaceSuffix : string;
  RunPath : string
}.

Class ContainerHost (W : Type) := {
  nowUTC : st W Time;
  ensureClientConnected : st W (option error);
  GetRealm : Realm → st W (result Realm);
  ExistsContainer : string → string → st W (result bool);
  ctr_TaskStatus : string → string → st W (result TaskStatus);
  pullSetupStatus : string → st W (result (list RepoStatus * list StageStatus))
}.

Record ContainerObservation := {
  obs_State : ContainerState;
  obs_ExitCode : Z;
  obs_ExitTime : Time
}.

Definition obs_of_state (s : ContainerState) : ContainerObservation :=
  {| obs_State := s; obs_ExitCode := 0; obs_ExitTime := 0%Z |}.

Section Observe.
Context `{HostConfig} {W : Type} `{ContainerHost W}.

(** ** Container observation (container_state.go) *)

Definition exitSignalCodeBase : Z := 128.
Definition maxSignalNumber : Z := 64.

Definition exitSignalName (exitCode : Z) : string :=
  let signum := (exitCode - exitSignalCodeBase)%Z in
  if (signum <=? 0)%Z || (maxSignalNumber <? signum)%Z then "" else SignalName signum.

Definition RealmNamespace (realm : string) : string := realm +:+ RealmNamespaceSuffix.

Definition unknown_with (e : error) : st W (ContainerObservation * option error) :=
  st_ret (obs_of_state ContainerStateUnknown, Some e).

(** The containerd part, once the container's IDs are known. *)
Definition observeTask (namespace containerdID : string)
    : st W (ContainerObservation * option error) :=
  let! containerExists := ExistsContainer namespace containerdID in
  match containerExists with
  | Err _ => st_ret (obs_of_state ContainerStateUnknown, None)
  | Ok false => st_ret (obs_of_state ContainerStateNotCreated, None)
  | Ok true =>
      let! taskStatus := ctr_TaskStatus namespace containerdID in
      st_ret (match taskStatus with
              | Ok ts => ({| obs_State := ConvertContainerdStatusToContainerState ts;
                             obs_ExitCode := tk_ExitStatus ts;
                             obs_ExitTime := tk_ExitTime ts |}, None)
              | Err e => if error_is ErrTaskNotFound e
                         then (obs_of_state ContainerStateStopped, None)
                         else (obs_of_state ContainerStateUnknown, None)
              end)
  end.

Definition containerdIDFor (cell : Cell) (spec : ContainerSpec) (cellID : string)
    : result string :=
  if negb (String.eqb (c_ContainerdID spec) "") then Ok (c_ContainerdID spec)
  else if c_Root spec then
    BuildRootContainerdID (csp_SpaceName (cell_Spec cell)) (csp_StackName (cell_Spec cell)) cellID
  else
    BuildContainerdID (csp_SpaceName (cell_Spec cell)) (csp_StackName (cell_Spec cell)) cellID
      (c_ID spec).

Definition GetContainerObservation (cell : Cell) (containerID : string)
    : st W (ContainerObservation * option error) :=
  let containerID := TrimSpace containerID in
  if String.eqb containerID "" then unknown_with (EOpaque "container ID is required")
  else if String.eqb (TrimSpace (cm_Name (cell_Metadata cell))) "" then
    unknown_with (ESentinel ErrCellNotFound)
  else
  let realmName := TrimSpace (csp_RealmName (cell_Spec cell)) in
  if String.eqb realmName "" then unknown_with (ESentinel ErrRealmNameRequired)
  else if String.eqb (TrimSpace (csp_SpaceName (cell_Spec cell))) "" then
    unknown_with (ESentinel ErrSpaceNameRequired)
  else if String.eqb (TrimSpace (csp_StackName (cell_Spec cell))) "" then
    unknown_with (ESentinel ErrStackNameRequired)
  else
  let! connErr := ensureClientConnected in
  match connErr with
  | Some e => unknown_with (EWrap "%w: %w" [ESentinel ErrConnectContainerd; e])
  | None =>
  let! internalRealm := GetRealm (realm_named realmName) in
  match internalRealm with
  | Err e => unknown_with (EWrap "failed to get realm: %w" [e])
  | Ok realm =>
  let namespace := if String.eqb (rsp_Namespace (realm_Spec realm)) ""
                   then RealmNamespace realmName else rsp_Namespace (realm_Spec realm) in
  match find_first (fun c => String.eqb (c_ID c) containerID) (csp_Containers (cell_Spec cell)) with
  | None => st_ret (obs_of_state ContainerStateUnknown, None)
  | Some spec =>
  let cellID := if String.eqb (TrimSpace (csp_ID (cell_Spec cell))) ""
                then TrimSpace (cm_Name (cell_Metadata cell))
                else TrimSpace (csp_ID (cell_Spec cell)) in
  if String.eqb cellID "" then unknown_with (ESentinel ErrCellIDRequired)
  else
  match containerdIDFor cell spec cellID with
  | Err e => unknown_with (EWrap "failed to build containerd ID: %w" [e])
  | Ok containerdID => observeTask namespace containerdID
  end end end end.

Definition GetContainerState (cell : Cell) (containerID : string)
    : st W (result ContainerState) :=
  let! (obs, err) := GetContainerObservation cell containerID in
  st_ret (match err with Some e => Err e | None => Ok (obs_State obs) end).

(** ** Setup status (helpers.go, setup_status_client.go) *)

Definition hasCreateStages (spec : ContainerSpec) : bool :=
  match c_Tty spec with
  | None => false
  | Some tty => existsb (fun s => String.eqb (ts_RunOn s) RunOnCreate) (ct_OnInit tty)
  end.

Definition repoStatusToInternal (repos : list RepoStatus) : list RepoStatus := repos.

(** The wire stage's Hash is not copied. *)
Definition stageStatusToInternal (stages : list StageStatus) : list StageStatus :=
  (fun s => restampHash s "") <$> stages.

Definition setupStatuses (cell : Cell) (spec : ContainerSpec) (state : ContainerState)
    : st W (list RepoStatus * list StageStatus) :=
  if negb (c_Attachable spec) || negb (bool_decide (state = ContainerStateReady))
  then st_ret ([], [])
  else if Nat.eqb (length (c_Repos spec)) 0 && negb (hasCreateStages spec)
  then st_ret ([], [])
  else
    let! reply := pullSetupStatus (ContainerSocketSymlinkPath RunPath
      (csp_RealmName (cell_Spec cell)) (csp_SpaceName (cell_Spec cell))
      (csp_StackName (cell_Spec cell)) (cm_Name (cell_Metadata cell)) (c_ID spec)) in
    st_ret (match reply with
            | Err _ => ([], [])
            | Ok (repos, stages) => (repoStatusToInternal repos, stageStatusToInternal stages)
            end).

(** ** The populate pass (helpers.go populateCellContainerStatuses) *)

(** What the prior snapshot says of a container; the zero value when absent. *)
Definition priorOf (prior : gmap string ContainerStatus) (id : string) : ContainerStatus :=
  default zero_ContainerStatus (prior !! id).

(** The status of one container from its prior record, the observation, the
    pass's clock reading and the setup pull. *)
Definition containerStatusOf (spec : ContainerSpec) (prev : ContainerStatus)
    (obs : ContainerObservation) (now : Time) (repos : list RepoStatus)
    (liveStages : list StageStatus) : ContainerStatus :=
  let createdAt := if time_IsZero (cs_CreatedAt prev) then now else cs_CreatedAt prev in
  let ready := bool_decide (obs_State obs = ContainerStateReady) in
  let startTime := if time_IsZero (cs_StartTime prev) && ready then now else cs_StartTime prev in
  let '(finishTime, exitCode) :=
    if ready then (0%Z, 0%Z)
    else if negb (time_IsZero (obs_ExitTime obs)) then (obs_ExitTime obs, obs_ExitCode obs)
    else (cs_FinishTime prev, cs_ExitCode prev) in
  {| cs_Name := c_ID spec;
     cs_ID := c_ID spec;
     cs_CreatedAt := createdAt;
     cs_State := obs_State obs;
     cs_RestartCount := cs_RestartCount prev;
     cs_RestartTime := cs_RestartTime prev;
     cs_StartTime := startTime;
     cs_FinishTime := finishTime;
     cs_ExitCode := exitCode;
     cs_ExitSignal := exitSignalName exitCode;
     cs_Repos := repos;
     cs_Stages := mergeStageStatuses spec (cs_Stages prev) liveStages |}.

Fixpoint populateLoop (cell : Cell) (prior : gmap string ContainerStatus) (now : Time)
    (specs : list ContainerSpec) : st W (list ContainerStatus) :=
  match specs with
  | [] => st_ret []
  | spec :: rest =>
      let! (obs, err) := GetContainerObservation cell (c_ID spec) in
      let obs := match err with Some _ => obs_of_state ContainerStateUnknown | None => obs end in
      let! (repos, live) := setupStatuses cell spec (obs_State obs) in
      let status := containerStatusOf spec (priorOf prior (c_ID spec)) obs now repos live in
      let! statuses := populateLoop cell prior now rest in
      st_ret (status :: statuses)
  end.

(** The function's error result is nil on every path. *)
Definition populateCellContainerStatuses (cell : Cell) : st W Cell :=
  match csp_Containers (cell_Spec cell) with
  | [] => st_ret (upd_status (set_Containers []) cell)
  | specs =>
      let prior := statusByID (cst_Containers (cell_Status cell)) in
      let! now := nowUTC in
      let! statuses := populateLoop cell prior now specs in
      st_ret (upd_status (set_Containers statuses) cell)
  end.

End Observe.

(** ** Theorems: create stages run once *)

Definition isDone (s : StageStatus) : bool := String.eqb (ss_State s) StageDone.

(** Every record the merge emits at position i carries that index and the hash
    of the stage there. *)
Lemma mergeStage_shape live prior i stage :
  (∀ k s, live !! k = Some s → ss_Index s = k) → (∀ k s, prior !! k = Some s → ss_Index s = k) →
  mergeStage live prior i stage = [] ∨
  ∃ s, mergeStage live prior i stage = [s] ∧ ss_Index s = i ∧
       ss_Hash s = stageContentHash stage ∧ ts_RunOn stage = RunOnCreate.
Proof.
  intros Hl Hp. unfold mergeStage.
  destruct (String.eqb_spec (ts_RunOn stage) RunOnCreate); simpl; [|auto].
  destruct (live !! i) as [s|] eqn:E.
  - right. eexists. split; [done|]. simpl. eauto.
  - destruct (prior !! i) as [s|] eqn:E'; [|auto].
    destruct (String.eqb_spec (ss_Hash s) (stageContentHash stage)); simpl; [|auto].
    destruct (String.eqb _ _); [|auto]. right. eauto 10.
Qed.

Lemma index_by_ss_Index l k s :
  index_by ss_Index id l !! k = Some s → ss_Index s = k.
Proof. by intros (x & _ & <- & <-)%index_by_lookup_Some. Qed.

(** Indexing the emitted records by position finds each one back. *)
Lemma index_by_concat_imap (chunk : Z → TtyStage → list StageStatus) l k :
  (∀ i st, chunk i st = [] ∨ ∃ s, chunk i st = [s] ∧ ss_Index s = i) →
  index_by ss_Index id (concat (imap (fun i => chunk (Z.of_nat i)) l)) !! k
  = (if decide (0 ≤ k < Z.of_nat (length l))%Z
     then l !! Z.to_nat k ≫= (fun st => head (chunk k st)) else None).
Proof.
  intros Hc. induction l as [|st l IH] using rev_ind.
  { simpl. case_decide; [lia|]. done. }
  rewrite imap_app, concat_app, index_by_app. simpl. rewrite Nat.add_0_r, app_nil_r, length_app.
  simpl. destruct (decide (k = Z.of_nat (length l))) as [->|Hk].
  - rewrite decide_True by lia. rewrite Nat2Z.id, lookup_app_r, Nat.sub_diag by lia. simpl.
    destruct (Hc (Z.of_nat (length l)) st) as [->|(s & -> & Hs)]; simpl.
    + rewrite IH. by rewrite decide_False by lia.
    + rewrite Hs. apply lookup_insert_eq.
  - assert (Hrest : foldl (fun m x => <[ss_Index x := id x]> m)
        (index_by ss_Index id (concat (imap (fun i => chunk (Z.of_nat i)) l)))
        (chunk (Z.of_nat (length l)) st) !! k
        = index_by ss_Index id (concat (imap (fun i => chunk (Z.of_nat i)) l)) !! k).
    { destruct (Hc (Z.of_nat (length l)) st) as [->|(s & -> & Hs)]; simpl; [done|].
      rewrite Hs. by apply lookup_insert_ne. }
    etrans; [exact Hrest|]. rewrite IH. repeat case_decide; try lia; [|done].
    rewrite lookup_app_l by lia. done.
Qed.

Lemma filter_concat {A} (f : A → bool) ls :
  List.filter f (concat ls) = concat (List.filter f <$> ls).
Proof.
  induction ls as [|l ls IH]; [done|]. simpl. by rewrite List.filter_app, IH.
Qed.

(** A stop/start cycle keeps exactly the finished create stages: merging the
    persisted records again with no live pull (the container is down) returns the
    done records of the previous merge and nothing else, so a finished stage is
    remembered for as long as its content is unchanged and a failed one is not. *)
Theorem merge_without_live_keeps_done spec prior live :
  mergeStageStatuses spec (mergeStageStatuses spec prior live) []
  = List.filter isDone (mergeStageStatuses spec prior live).
Proof.
  unfold mergeStageStatuses. destruct (c_Tty spec) as [tty|]; [|done].
  set (lv := index_by ss_Index id live). set (pr := index_by ss_Index id prior).
  assert (Hshape : ∀ i st, mergeStage lv pr i st = [] ∨
    ∃ s, mergeStage lv pr i st = [s] ∧ ss_Index s = i ∧
         ss_Hash s = stageContentHash st ∧ ts_RunOn st = RunOnCreate).
  { intros i st. apply mergeStage_shape; intros k s; apply index_by_ss_Index. }
  rewrite filter_concat, fmap_imap. f_equal. apply imap_ext. intros i st Hi.
  unfold mergeStage at 1. change (index_by ss_Index id []) with (∅ : gmap Z StageStatus).
  rewrite lookup_empty.
  rewrite index_by_concat_imap by (intros j s; destruct (Hshape j s) as [->|(? & -> & ? & _)]; eauto).
  assert (i < length (ct_OnInit tty))%nat by (by eapply lookup_lt_Some).
  rewrite decide_True by lia. rewrite Nat2Z.id, Hi. simpl.
  destruct (Hshape (Z.of_nat i) st) as [->|(s & -> & Hidx & Hh & Hrun)]; simpl.
  - by destruct (negb _).
  - rewrite Hrun, Hh. simpl. rewrite String.eqb_refl. unfold isDone. simpl.
    by destruct (String.eqb (ss_State s) StageDone).
Qed.

(** The hash input separates script from trigger: two create stages feed the
    digest the same bytes only when they are the same stage. *)
Theorem stage_hash_input_injective s1 s2 :
  ts_RunOn s1 = RunOnCreate → ts_RunOn s2 = RunOnCreate →
  stageHashInput s1 = stageHashInput s2 → s1 = s2.
Proof.
  destruct s1 as [a1 r1], s2 as [a2 r2]. simpl. intros -> ->. unfold stageHashInput. simpl.
  intros E. f_equal. revert a2 E.
  assert (L : ∀ a b c : string, a +:+ c = b +:+ c → String.length a = String.length b).
  { intros a b c E. apply (f_equal String.length) in E.
    assert (La : ∀ x : string, String.length (x +:+ c) = (String.length x + String.length c)%nat).
    { intros x. induction x as [|d x IH]; [done|]. exact (f_equal S IH). }
    rewrite !La in E. lia. }
  induction a1 as [|d a1 IH]; intros [|d' a2] E; pose proof (L _ _ _ E) as HL; simpl in HL;
    try done.
  injection E as -> E. f_equal. by apply IH.
Qed.

Lemma stage_hash_input_injective_witness :
  let s := {| ts_Script := "make"; ts_RunOn := "create" |} in s = s.
Proof. intros s. apply (stage_hash_input_injective s s); reflexivity. Defined.

(** The render gate position by position. *)
Lemma gate_lookup onInit prior i :
  applyStageRenderGate onInit prior !! i =
  (fun stage =>
     if negb (String.eqb (ts_RunOn stage) RunOnCreate) then stage
     else if bool_decide (stageContentHash stage ∈ doneHashes prior)
     then {| ts_Script := ""; ts_RunOn := ts_RunOn stage |} else stage) <$> onInit !! i.
Proof. apply list_lookup_fmap. Qed.

Lemma doneHashes_spec prior h :
  h ∈ doneHashes prior ↔ ∃ s, s ∈ prior ∧ isDone s = true ∧ ss_Hash s = h ∧ h ≠ "".
Proof.
  unfold doneHashes. rewrite elem_of_list_to_set, list_elem_of_fmap. unfold isDone. split.
  - intros (s & -> & [Hs [Hd Hn]%andb_true_iff]%filter_elem).
    exists s. apply negb_true_iff, String.eqb_neq in Hn. done.
  - intros (s & Hs & Hd & <- & Hn). exists s. split; [done|]. apply filter_elem.
    split; [done|]. rewrite Hd. by apply String.eqb_neq in Hn as ->.
Qed.

Lemma stageContentHash_nonempty stage : stageContentHash stage ≠ "".
Proof.
  unfold stageContentHash, sha256_hex, stageHashLen.
  pose proof (sha256_length (bytes_of_string (stageHashInput stage))) as HL.
  by destruct (sha256 _) as [|b l].
Qed.

(** The render gate keeps the length of OnInit, leaves every stage that is
    not a create stage alone, blanks a create stage exactly when a done record
    with its content hash is in the snapshot, and otherwise renders it verbatim. *)
Theorem render_gate_spec onInit prior :
  length (applyStageRenderGate onInit prior) = length onInit ∧
  ∀ i stage, onInit !! i = Some stage →
    ∃ stage', applyStageRenderGate onInit prior !! i = Some stage' ∧
      ts_RunOn stage' = ts_RunOn stage ∧
      ((ts_RunOn stage = RunOnCreate ∧
        ∃ s, s ∈ prior ∧ ss_State s = StageDone ∧ ss_Hash s = stageContentHash stage)
         ∧ ts_Script stage' = ""
       ∨ ¬ (ts_RunOn stage = RunOnCreate ∧
            ∃ s, s ∈ prior ∧ ss_State s = StageDone ∧ ss_Hash s = stageContentHash stage)
         ∧ stage' = stage).
Proof.
  split; [apply length_fmap|]. intros i stage Hi. rewrite gate_lookup, Hi. simpl.
  eexists. split; [done|].
  destruct (String.eqb_spec (ts_RunOn stage) RunOnCreate) as [R|R]; simpl; [|tauto].
  case_bool_decide as Hd; rewrite doneHashes_spec in Hd; unfold isDone in Hd;
    setoid_rewrite String.eqb_eq in Hd.
  - split; [done|]. left. split; [|done]. split; [done|]. naive_solver.
  - split; [done|]. right. split; [|done]. intros [_ (s & ? & ? & ?)].
    apply Hd. exists s. eauto using stageContentHash_nonempty.
Qed.

(** ** Theorems: the populate pass *)

Section Populate.
Context `{HostConfig} {W : Type} `{ContainerHost W}.

(** [s] is the status the pass computes for [spec] from some observation. *)
Definition Populated (prior : gmap string ContainerStatus) (spec : ContainerSpec)
    (s : ContainerStatus) : Prop :=
  ∃ obs now repos live, s = containerStatusOf spec (priorOf prior (c_ID spec)) obs now repos live.

Lemma populateLoop_spec cell prior now specs w w' statuses :
  populateLoop cell prior now specs w = (w', statuses) →
  Forall2 (Populated prior) specs statuses.
Proof.
  revert w w' statuses. induction specs as [|spec specs IH]; intros w w' statuses; simpl.
  { unfold st_ret. intros [= _ <-]. constructor. }
  unfold st_bind, st_ret.
  destruct (GetContainerObservation _ _ w) as [w1 [obs err]].
  destruct (setupStatuses _ _ _ w1) as [w2 [repos live]].
  destruct (populateLoop _ _ _ _ w2) as [w3 rest] eqn:E. intros [= _ <-].
  constructor; [|eauto]. by eexists _, _, _, _.
Qed.

Lemma populate_spec cell w w' cell' :
  populateCellContainerStatuses cell w = (w', cell') →
  ∃ statuses, cell' = upd_status (set_Containers statuses) cell ∧
    Forall2 (Populated (statusByID (cst_Containers (cell_Status cell))))
      (csp_Containers (cell_Spec cell)) statuses.
Proof.
  unfold populateCellContainerStatuses, st_bind, st_ret.
  destruct (csp_Containers (cell_Spec cell)) as [|c cs].
  { intros [= _ <-]. exists []. split; [done|constructor]. }
  destruct (nowUTC w) as [w1 now]. destruct (populateLoop _ _ _ _ w1) as [w2 sts] eqn:E.
  intros [= _ <-]. exists sts. split; [done|]. by eapply populateLoop_spec.
Qed.

Lemma Populated_id prior spec s : Populated prior spec s → cs_ID s = c_ID spec.
Proof.
  intros (obs & now & repos & live & ->). unfold containerStatusOf.
  by repeat case_match.
Qed.

Lemma populate_ids prior specs statuses :
  Forall2 (Populated prior) specs statuses → cs_ID <$> statuses = c_ID <$> specs.
Proof.
  induction 1 as [|spec s specs sts Hs _ IH]; [done|]. rewrite !fmap_cons, IH.
  f_equal. by eapply Populated_id.
Qed.

(** The pass yields a well-formed snapshot. *)
Lemma populate_Snapshot cell w w' cell' :
  populateCellContainerStatuses cell w = (w', cell') →
  NoDup (c_ID <$> csp_Containers (cell_Spec cell)) →
  Snapshot (csp_Containers (cell_Spec cell')) (cst_Containers (cell_Status cell')).
Proof.
  intros (sts & -> & HF)%populate_spec Hnd. destruct cell as [md sp []]. simpl in *.
  split; [done|]. by eapply populate_ids.
Qed.

(** Re-reading the host rebuilds only the container statuses: metadata, spec
    and every other status field of the cell are untouched, there is one status
    per container of the spec in its order, and for each the restart counter and
    time, a creation time and a start time once recorded, are those of the prior
    snapshot. *)
Theorem populate_preserves_history cell w w' cell' :
  populateCellContainerStatuses cell w = (w', cell') →
  cell' = upd_status (set_Containers (cst_Containers (cell_Status cell'))) cell ∧
  Forall2 (fun spec s =>
      let prev := priorOf (statusByID (cst_Containers (cell_Status cell))) (c_ID spec) in
      cs_ID s = c_ID spec ∧
      cs_RestartCount s = cs_RestartCount prev ∧ cs_RestartTime s = cs_RestartTime prev ∧
      (cs_CreatedAt prev ≠ 0%Z → cs_CreatedAt s = cs_CreatedAt prev) ∧
      (cs_StartTime prev ≠ 0%Z → cs_StartTime s = cs_StartTime prev))
    (csp_Containers (cell_Spec cell)) (cst_Containers (cell_Status cell')).
Proof.
  intros (sts & -> & HF)%populate_spec. destruct cell as [md sp []]. simpl in *.
  split; [done|]. eapply Forall2_impl; [exact HF|].
  intros spec s (obs & now & repos & live & ->). unfold containerStatusOf, time_IsZero.
  destruct (bool_decide (obs_State obs = _)), (negb (Z.eqb (obs_ExitTime obs) 0)); simpl;
    (split_and!; try done; intros Hz%Z.eqb_neq; by rewrite Hz).
Qed.

Definition ExitTriple (s : ContainerStatus) : Prop :=
  (cs_FinishTime s = 0%Z → cs_ExitCode s = 0%Z).

Lemma priorOf_ExitTriple statuses id :
  Forall ExitTriple statuses → ExitTriple (priorOf (statusByID statuses) id).
Proof.
  rewrite Forall_forall. intros HF. unfold priorOf, statusByID.
  destruct (index_by _ _ _ !! id) as [s|] eqn:E; [|done].
  apply index_by_lookup_Some in E as (x & Hx & _ & <-). by apply HF.
Qed.

(** The recorded exit is consistent: if no prior status pairs a non-zero exit
    code with a zero finish time then no rebuilt one does, the signal is the one
    decoded from the recorded code, and a container observed running carries
    neither a finish time nor an exit code. *)
Theorem populate_exit_triple cell w w' cell' :
  populateCellContainerStatuses cell w = (w', cell') →
  Forall ExitTriple (cst_Containers (cell_Status cell)) →
  Forall (fun s => ExitTriple s ∧ cs_ExitSignal s = exitSignalName (cs_ExitCode s) ∧
            (cs_State s = ContainerStateReady → cs_FinishTime s = 0%Z ∧ cs_ExitCode s = 0%Z))
    (cst_Containers (cell_Status cell')).
Proof.
  intros (sts & -> & HF)%populate_spec HT.
  assert (E : cst_Containers (cell_Status (upd_status (set_Containers sts) cell)) = sts)
    by (by destruct cell as [? ? []]).
  rewrite E. clear E. eapply Forall2_Forall_r; [exact HF|]. apply Forall_forall.
  intros spec _ s (obs & now & repos & live & ->).
  pose proof (priorOf_ExitTriple _ (c_ID spec) HT) as Hp.
  unfold containerStatusOf, ExitTriple, time_IsZero in *. case_bool_decide as Hr; simpl.
  - done.
  - destruct (Z.eqb_spec (obs_ExitTime obs) 0); simpl; (split_and!; [|done|done]); done.
Qed.

End Populate.

(** A host on which every container runs, for concrete evaluations. *)
Definition sample_realm : Realm := realm_named "r".
#[local] Instance sample_ContainerHost : ContainerHost Z := {|
  nowUTC := fun t => ((t + 1)%Z, t);
  ensureClientConnected := st_ret None;
  GetRealm := fun r => st_ret (Ok r);
  ExistsContainer := fun _ _ => st_ret (Ok true);
  ctr_TaskStatus := fun _ id => st_ret (Ok
    (if HasSuffix id "job" then {| tk_Status := ProcStopped; tk_ExitStatus := 137; tk_ExitTime := 50%Z |}
     else {| tk_Status := ProcRunning; tk_ExitStatus := 0; tk_ExitTime := 0%Z |}));
  pullSetupStatus := fun _ => st_ret (Err (EOpaque "no socket"))
|}.
#[local] Instance sample_HostConfig : HostConfig := {|
  SignalName := fun n => if Z.eqb n 9 then "SIGKILL" else "";
  RealmNamespaceSuffix := ".kukeon.io";
  RunPath := "/run/kukeon"
|}.

Definition sample_running : Cell :=
  sample_cell false CellStateReady
    [sample_container "root" true ""; sample_container "job" false "never"]
    [sample_status "root" ContainerStateReady 0; sample_status "job" ContainerStateReady 0].

Lemma populate_preserves_history_witness :
  let '(w', cell') := populateCellContainerStatuses sample_running 100%Z in
  cell' = upd_status (set_Containers (cst_Containers (cell_Status cell'))) sample_running.
Proof.
  destruct (populateCellContainerStatuses sample_running 100%Z) as [w' cell'] eqn:E.
  exact (proj1 (populate_preserves_history sample_running 100%Z w' cell' E)).
Defined.

Lemma populate_exit_triple_witness :
  let cell' := (populateCellContainerStatuses sample_running 100%Z).2 in
  cs_ExitSignal <$> cst_Containers (cell_Status cell') = [""; "SIGKILL"] ∧
  Forall ExitTriple (cst_Containers (cell_Status cell')).
Proof.
  split; [vm_compute; reflexivity|].
  assert (HT : Forall ExitTriple (cst_Containers (cell_Status sample_running)))
    by (repeat constructor).
  pose proof (populate_exit_triple sample_running 100%Z _ _ eq_refl HT) as H.
  eapply Forall_impl; [exact H|]. intros s Hs. exact (proj1 Hs).
Defined.
