(* ===== verification/Refresh.v ===== *)
(** * Refresh: the reconcile and refresh passes of the runner

    internal/controller/runner/refresh.go: the per-cell reconcile pass with its
    restart-on-exit machine, wind-down and auto-delete, and the on-demand
    refresh of realms, spaces, stacks and cells.  The runner's other methods
    (start, kill, delete, cgroup and metadata access) are the operations of the
    class [RunnerHost]; the pass keeps its own state, the restart bookkeeping,
    beside the host's. *)

From Stdlib Require Import ZArith String.
From stdpp Require Import base gmap strings list.
From S2P Require Import Prelude Model CellState Sha256 Naming Observe.

(** ** The runner's other operations *)

Class RunnerHost (W : Type) := {
  GetCell : Cell → st W (result Cell);
  ExistsCgroupCell : Cell → st W (result bool);
  ExistsCgroupRealm : Realm → st W (result bool);
  ExistsCgroupSpace : Space → st W (result bool);
  ExistsCgroupStack : Stack → st W (result bool);
  ExistsRealmContainerdNamespace : string → st W (result bool);
  ExistsSpaceCNIConfig : Space → st W (result bool);
  ctrClientSet : st W bool;
  runnerExistsContainer : string → string → st W (result bool);
  ensureCellCgroup : Cell → st W (result Cell);
  UpdateCellMetadata : Cell → st W (option error);
  UpdateRealmMetadata : Realm → st W (option error);
  UpdateSpaceMetadata : Space → st W (option error);
  UpdateStackMetadata : Stack → st W (option error);
  restartContainer : Cell → string → st W (result Cell);
  killCellLocked : Cell → st W (result Cell);
  deleteCellLocked : Cell → st W (option error)
}.

(** ** Restart bookkeeping *)

Record containerRestartState := { rs_attempts : Z; rs_lastAttempt : Time }.

(** The part of Exec the pass itself mutates, beside the host. *)
Record Exec (W : Type) := MkExec {
  ex_world : W;
  ex_restartStates : gmap string containerRestartState
}.
Arguments MkExec {W} _ _.
Arguments ex_world {W} _.
Arguments ex_restartStates {W} _.

Definition lift {W A} (m : st W A) : st (Exec W) A :=
  fun r => let '(w, a) := m (ex_world r) in (MkExec w (ex_restartStates r), a).

Definition get_restartStates {W} : st (Exec W) (gmap string containerRestartState) :=
  fun r => (r, ex_restartStates r).
Definition put_restartStates {W} (m : gmap string containerRestartState) : st (Exec W) unit :=
  fun r => (MkExec (ex_world r) m, tt).

Definition restartBackoff : Z := (30 * Second)%Z.
Definition onFailureMaxRestarts : Z := 5.

Inductive restartPassResult := restartNone | restartFired | restartDeferred.
#[export] Instance restartPassResult_eq_dec : EqDecision restartPassResult.
Proof. solve_decision. Defined.

Record ReconcileOutcome := { ro_Updated : bool; ro_Deleted : bool; ro_Vanished : bool }.
Definition outcome_none : ReconcileOutcome :=
  {| ro_Updated := false; ro_Deleted := false; ro_Vanished := false |}.
Definition outcome_updated (b : bool) : ReconcileOutcome :=
  {| ro_Updated := b; ro_Deleted := false; ro_Vanished := false |}.

Definition restartStateKey (cell : Cell) (containerID : string) : string :=
  cellLockKey cell +:+ String NUL containerID.

(** time.Duration(seconds) * time.Second in int64 *)
Definition effectiveRestartBackoff (spec : ContainerSpec) : Z :=
  match c_RestartBackoffSeconds spec with
  | Some s => wrap64 (s * Second)
  | None => restartBackoff
  end.

Definition effectiveOnFailureMaxRestarts (spec : ContainerSpec) : Z :=
  default onFailureMaxRestarts (c_RestartMaxRetries spec).

(** t.Sub(u) *)
Definition time_Sub (t u : Time) : Z := saturate64 (t - u).

Fixpoint stampStatus (statuses : list ContainerStatus) (containerID : string) (now : Time)
    : list ContainerStatus :=
  match statuses with
  | [] => []
  | s :: rest =>
      if String.eqb (cs_ID s) containerID then
        {| cs_Name := cs_Name s; cs_ID := cs_ID s; cs_CreatedAt := cs_CreatedAt s;
           cs_State := cs_State s; cs_RestartCount := (cs_RestartCount s + 1)%Z;
           cs_RestartTime := now; cs_StartTime := cs_StartTime s;
           cs_FinishTime := cs_FinishTime s; cs_ExitCode := cs_ExitCode s;
           cs_ExitSignal := cs_ExitSignal s; cs_Repos := cs_Repos s;
           cs_Stages := cs_Stages s |} :: rest
      else s :: stampStatus rest containerID now
  end.

Definition stampContainerRestart (cell : Cell) (containerID : string) (now : Time) : Cell :=
  upd_status (fun s => set_Containers (stampStatus (cst_Containers s) containerID now) s) cell.

Section Reconcile.
Context `{HostConfig} {W : Type} `{ContainerHost W} `{RunnerHost W}.
Notation M A := (st (Exec W) A).

Definition restartDecisionFor (cell : Cell) (containerID policy : string) (backoff maxRetries : Z)
    : M restartPassResult :=
  let! states := get_restartStates in
  match states !! restartStateKey cell containerID with
  | None => st_ret restartFired
  | Some s =>
      if String.eqb policy RestartPolicyOnFailure && (maxRetries <=? rs_attempts s)%Z
      then st_ret restartNone
      else if negb (time_IsZero (rs_lastAttempt s)) then
        let! now := lift nowUTC in
        st_ret (if (time_Sub now (rs_lastAttempt s) <? backoff)%Z then restartDeferred
                else restartFired)
      else st_ret restartFired
  end.

Definition recordRestartAttempt (cell : Cell) (containerID : string) : M unit :=
  let! states := get_restartStates in
  let key := restartStateKey cell containerID in
  let attempts := default 0%Z (rs_attempts <$> states !! key) in
  let! now := lift nowUTC in
  put_restartStates (<[key := {| rs_attempts := (attempts + 1)%Z; rs_lastAttempt := now |}]> states).

Definition clearRestartState (cell : Cell) (containerID : string) : M unit :=
  let! states := get_restartStates in
  put_restartStates (delete (restartStateKey cell containerID) states).

(** The body of the loop reads cell.Spec.Containers[i] of the current cell, which
    a relaunch replaces, while the range was fixed on entry. *)
Fixpoint restartLoop (idxs : list nat) (byID : gmap string ContainerStatus) (cell : Cell)
    (result : restartPassResult) : M (Cell * restartPassResult * option error) :=
  match idxs with
  | [] => st_ret (cell, result, None)
  | i :: rest =>
      match csp_Containers (cell_Spec cell) !! i with
      | None => st_ret (cell, result, Some (EPanic "index out of range"))
      | Some spec =>
          if c_Root spec then restartLoop rest byID cell result
          else match byID !! c_ID spec with
          | None => restartLoop rest byID cell result
          | Some status =>
              if negb (containerStateIsTerminal (cs_State status)) then
                let! _ := clearRestartState cell (c_ID spec) in
                restartLoop rest byID cell result
              else if negb (restartPolicyRequiresRestart (c_RestartPolicy spec) (cs_ExitCode status))
              then restartLoop rest byID cell result
              else
                let! decision := restartDecisionFor cell (c_ID spec) (c_RestartPolicy spec)
                    (effectiveRestartBackoff spec) (effectiveOnFailureMaxRestarts spec) in
                match decision with
                | restartFired =>
                    let! started := lift (restartContainer cell (c_ID spec)) in
                    let! _ := recordRestartAttempt cell (c_ID spec) in
                    match started with
                    | Err e => st_ret (cell, result, Some (EWrap "restart container %q: %w" [e]))
                    | Ok startedCell =>
                        let! now := lift nowUTC in
                        restartLoop rest byID
                          (stampContainerRestart startedCell (c_ID spec) now) restartFired
                    end
                | restartDeferred =>
                    restartLoop rest byID cell
                      (match result with restartNone => restartDeferred | r => r end)
                | restartNone => restartLoop rest byID cell result
                end
          end
      end
  end.

(** The root-liveness precondition of the restart pass. *)
Definition rootNotRunning (cell : Cell) : bool :=
  match findRootContainerSpec cell with
  | Some rootSpec =>
      negb (rootContainerStillRunning (c_ID rootSpec) (cst_Containers (cell_Status cell)))
  | None => false
  end.

Definition maybeRestartExitedContainers (cell : Cell)
    : M (Cell * restartPassResult * option error) :=
  if negb (cst_ReadyObserved (cell_Status cell)) then st_ret (cell, restartNone, None)
  else if rootNotRunning cell then st_ret (cell, restartNone, None)
  else restartLoop (seq 0 (length (csp_Containers (cell_Spec cell))))
         (statusByID (cst_Containers (cell_Status cell))) cell restartNone.

(** ** Persisting *)

Definition persistCellStatusGuarded (cell : Cell) : M (result bool) :=
  let cell := upd_status (set_ObservedGeneration (cm_Generation (cell_Metadata cell))) cell in
  let! err := lift (UpdateCellMetadata cell) in
  st_ret (match err with
          | Some e => if error_is ErrStaleResource e then Ok false else Err e
          | None => Ok true
          end).

(** ** Derivation *)

Definition deriveCellStateFromRootContainer (cell : Cell) : M CellState :=
  match findRootContainerSpec cell with
  | None => st_ret CellStateReady
  | Some rootSpec =>
      let! state := lift (GetContainerState cell (c_ID rootSpec)) in
      st_ret (match state with
              | Err _ => CellStateUnknown
              | Ok s => cellStateOfRootState (c_ID rootSpec) (cst_Containers (cell_Status cell)) s
              end)
  end.

Definition deriveCellState (cell : Cell) : M CellState :=
  if negb (hasNonRootContainerSpec (csp_Containers (cell_Spec cell)))
  then deriveCellStateFromRootContainer cell
  else st_ret (deriveCellStateFromNonRootContainerStatuses
                 (csp_Containers (cell_Spec cell)) (cst_Containers (cell_Status cell))).

(** Derivation runs only when the cgroup probe did not fail. *)
Definition deriveUnlessErr (cgroupErr : option error) (cell : Cell) : M CellState :=
  match cgroupErr with
  | None => deriveCellState cell
  | Some _ => st_ret CellStateUnknown
  end.

(** ** Wind-down and auto-delete *)

Definition windDownCell (cell : Cell) : M (Cell * ReconcileOutcome * option error) :=
  let! killed := lift (killCellLocked cell) in
  st_ret (match killed with
          | Err e => (cell, outcome_none, Some (EWrap "wind-down: kill cell: %w" [e]))
          | Ok updatedCell => (updatedCell, outcome_updated true, None)
          end).

Definition autoDeleteCell (cell : Cell) : M (Cell * ReconcileOutcome * option error) :=
  let! killed := lift (killCellLocked cell) in
  match killed with
  | Err e => st_ret (cell, outcome_none, Some (EWrap "auto-delete: kill cell: %w" [e]))
  | Ok _ =>
      let! deleted := lift (deleteCellLocked cell) in
      st_ret (match deleted with
              | Some e => (cell, outcome_none, Some (EWrap "auto-delete: delete cell: %w" [e]))
              | None => (cell, {| ro_Updated := false; ro_Deleted := true; ro_Vanished := false |},
                         None)
              end)
  end.

(** ** The reconcile pass *)

(** "failed to update cell metadata", or the persisted flag. *)
Definition persistOutcome (cell : Cell) : M (Cell * ReconcileOutcome * option error) :=
  let! persisted := persistCellStatusGuarded cell in
  st_ret (match persisted with
          | Err e => (cell, outcome_none, Some (EWrap "failed to update cell metadata: %w" [e]))
          | Ok b => (cell, outcome_updated b, None)
          end).

Definition reconcileSticky (cell : Cell) : M (Cell * ReconcileOutcome * option error) :=
  let originalStatus := cell_Status cell in
  let! cell := lift (populateCellContainerStatuses cell) in
  let updated :=
    negb (containerStatusesEqual (cst_Containers originalStatus) (cst_Containers (cell_Status cell)))
    || observedGenerationBehind originalStatus (cm_Generation (cell_Metadata cell)) in
  if updated then persistOutcome cell else st_ret (cell, outcome_updated false, None).

(** The cgroup probe and the post-reboot heal. *)
Definition probeAndHealCgroup (cell : Cell) : M (Cell * option error) :=
  let! cgroup := lift (ExistsCgroupCell cell) in
  match cgroup with
  | Err e => st_ret (upd_status (set_CgroupReady false) cell, Some e)
  | Ok cgroupExists =>
      let cell' := upd_status (set_CgroupReady cgroupExists) cell in
      if negb cgroupExists && cst_ReadyObserved (cell_Status cell) then
        let! healed := lift (ensureCellCgroup cell') in
        st_ret (match healed with
                | Err _ => cell'
                | Ok healedCell => upd_status (set_CgroupReady true) healedCell
                end, None)
      else st_ret (cell', None)
  end.

(** The tail of the pass: which status fields changed since the cell was listed. *)
Definition statusChanged (originalStatus : CellStatus) (cell : Cell) : bool :=
  negb (bool_decide (cst_State originalStatus = cst_State (cell_Status cell)))
  || negb (Bool.eqb (cst_ReadyObserved originalStatus) (cst_ReadyObserved (cell_Status cell)))
  || negb (Bool.eqb (cst_CgroupReady originalStatus) (cst_CgroupReady (cell_Status cell)))
  || negb (containerStatusesEqual (cst_Containers originalStatus)
             (cst_Containers (cell_Status cell)))
  || observedGenerationBehind originalStatus (cm_Generation (cell_Metadata cell)).

Definition persistIfChanged (originalStatus : CellStatus) (cell : Cell)
    : M (Cell * ReconcileOutcome * option error) :=
  if statusChanged originalStatus cell then persistOutcome cell
  else st_ret (cell, outcome_updated false, None).

(** Holding a cell at Degraded while a restart is owed. *)
Definition holdDegraded (originalStatus : CellStatus) (cell : Cell) : Cell :=
  upd_status (fun s => set_ReasonMessage (cst_Reason originalStatus) (cst_Message originalStatus)
                         (set_State CellStateDegraded s)) cell.

(** After derivation: restart pass, reap gates and the final persist. *)
Definition settleCell (originalStatus : CellStatus) (newState : CellState) (cell : Cell)
    : M (Cell * ReconcileOutcome * option error) :=
  let! (cell, restartResult, restartErr) := maybeRestartExitedContainers cell in
  match restartErr with
  | Some e => st_ret (cell, outcome_none, Some e)
  | None =>
      match restartResult with
      | restartFired => persistOutcome (holdDegraded originalStatus cell)
      | restartDeferred =>
          persistIfChanged originalStatus
            (upd_status (set_ReadyObserved (cst_ReadyObserved originalStatus))
               (holdDegraded originalStatus cell))
      | restartNone =>
          if shouldAutoDeleteCell (csp_AutoDelete (cell_Spec cell)) newState
               (cst_ReadyObserved (cell_Status cell))
          then autoDeleteCell cell
          else if restartPolicyPermitsCellReap cell && shouldWindDownCell cell newState
          then windDownCell cell
          else persistIfChanged originalStatus cell
      end
  end.

(** The pass proper, once the cell's metadata was found to exist. *)
Definition reconcileLive (cell : Cell) : M (Cell * ReconcileOutcome * option error) :=
  let originalStatus := cell_Status cell in
  if cellStateIsSticky (cst_State originalStatus) then reconcileSticky cell
  else
    let! (cell, cgroupErr) := probeAndHealCgroup cell in
    let! cell := lift (populateCellContainerStatuses cell) in
    let! newState := deriveUnlessErr cgroupErr cell in
    let cell := upd_status (fun s => set_ReadyObserved
                  (latchReadyObserved (cst_ReadyObserved originalStatus)
                     (cst_State originalStatus) newState) (set_State newState s)) cell in
    let cell := if bool_decide (newState = CellStateError)
                   && negb (bool_decide (cst_State originalStatus = CellStateError))
                then stampCellFailure cell else cell in
    settleCell originalStatus newState cell.

(** ReconcileCell; the caller holds the cell's lifecycle lock throughout. *)
Definition ReconcileCell (cell : Cell) : M (Cell * ReconcileOutcome * option error) :=
  let! current := lift (GetCell cell) in
  match current with
  | Err e =>
      if error_is ErrCellNotFound e then
        st_ret (cell, {| ro_Updated := false; ro_Deleted := false; ro_Vanished := true |}, None)
      else reconcileLive cell
  | Ok _ => reconcileLive cell
  end.

(** ** On-demand refresh *)

(** A CAS rejection is a skip; anything else is the error. *)
Definition guarded (err : option error) : result bool :=
  match err with
  | Some e => if error_is ErrStaleResource e then Ok false else Err e
  | None => Ok true
  end.

Definition persistRealmStatusGuarded (realm : Realm) : M (result bool) :=
  let! err := lift (UpdateRealmMetadata realm) in st_ret (guarded err).
Definition persistSpaceStatusGuarded (space : Space) : M (result bool) :=
  let! err := lift (UpdateSpaceMetadata space) in st_ret (guarded err).
Definition persistStackStatusGuarded (stack : Stack) : M (result bool) :=
  let! err := lift (UpdateStackMetadata stack) in st_ret (guarded err).

(** State, CgroupReady and ContainerdNamespaceReady from the two probes; the
    namespace is only probed when the cgroup probe did not fail. *)
Definition realmProbes (realm : Realm) : M (RealmState * bool * bool) :=
  let! cgroup := lift (ExistsCgroupRealm realm) in
  match cgroup with
  | Err _ => st_ret (RealmStateUnknown, false, false)
  | Ok cgroupExists =>
      let state := if cgroupExists then RealmStateReady else RealmStateUnknown in
      let namespace := if String.eqb (rsp_Namespace (realm_Spec realm)) ""
                       then sm_Name (realm_Metadata realm)
                       else rsp_Namespace (realm_Spec realm) in
      let! ns := lift (ExistsRealmContainerdNamespace namespace) in
      st_ret (match ns with
              | Err _ => (RealmStateUnknown, cgroupExists, false)
              | Ok namespaceExists =>
                  if namespaceExists && bool_decide (state = RealmStateReady)
                  then (RealmStateReady, cgroupExists, true)
                  else if negb namespaceExists && bool_decide (state = RealmStateReady)
                  then (RealmStateUnknown, cgroupExists, false)
                  else if namespaceExists then (state, cgroupExists, true)
                  else (state, cgroupExists, false)
              end)
  end.

(** The new status, with the lifecycle fields carried (carryRealmLifecycle). *)
Definition refreshedRealmStatus (orig : RealmStatus) (state : RealmState) (cgroupReady nsReady : bool)
    : RealmStatus := {|
  rst_State := state; rst_CgroupPath := rst_CgroupPath orig; rst_SubtreeControllers := [];
  rst_CreatedAt := rst_CreatedAt orig; rst_UpdatedAt := 0%Z; rst_ReadyAt := rst_ReadyAt orig;
  rst_Reason := rst_Reason orig; rst_Message := rst_Message orig;
  rst_CgroupReady := cgroupReady; rst_ContainerdNamespaceReady := nsReady;
  rst_ObservedGeneration := 0 |}.

Definition RefreshRealm (realm : Realm) : M (Realm * bool * option error) :=
  let orig := realm_Status realm in
  let! (state, cgroupReady, nsReady) := realmProbes realm in
  let newStatus := refreshedRealmStatus orig state cgroupReady nsReady in
  if negb (bool_decide (rst_State newStatus = rst_State orig))
     || negb (String.eqb (rst_CgroupPath newStatus) (rst_CgroupPath orig))
     || negb (Bool.eqb (rst_CgroupReady newStatus) (rst_CgroupReady orig))
     || negb (Bool.eqb (rst_ContainerdNamespaceReady newStatus) (rst_ContainerdNamespaceReady orig))
  then
    let realm := {| realm_Metadata := realm_Metadata realm; realm_Spec := realm_Spec realm;
                    realm_Status := newStatus |} in
    let! persisted := persistRealmStatusGuarded realm in
    st_ret (match persisted with
            | Err e => (realm, false, Some (EWrap "failed to update realm metadata: %w" [e]))
            | Ok b => (realm, b, None)
            end)
  else st_ret (realm, false, None).

(** carrySpaceLifecycle and carryStackLifecycle on the locally built status. *)
Definition refreshedScopeStatus {S} (orig : ScopeStatus S) (state : S) (cgroupReady : bool)
    : ScopeStatus S :=
  Build_ScopeStatus state (sst_CgroupPath orig) [] (sst_CreatedAt orig) 0%Z (sst_ReadyAt orig)
    (sst_Reason orig) (sst_Message orig) cgroupReady 0%Z.

Definition scopeStatusChanged {S} `{EqDecision S} (orig new : ScopeStatus S) : bool :=
  negb (bool_decide (sst_State new = sst_State orig))
  || negb (String.eqb (sst_CgroupPath new) (sst_CgroupPath orig))
  || negb (Bool.eqb (sst_CgroupReady new) (sst_CgroupReady orig)).

Definition spaceProbes (space : Space) : M (SpaceState * bool) :=
  let! cni := lift (ExistsSpaceCNIConfig space) in
  match cni with
  | Err _ => st_ret (SpaceStateUnknown, false)
  | Ok cniExists =>
      let state := if cniExists then SpaceStateReady else SpaceStateUnknown in
      let! cgroup := lift (ExistsCgroupSpace space) in
      st_ret (match cgroup with
              | Err _ => (SpaceStateUnknown, false)
              | Ok cgroupExists =>
                  if cgroupExists && bool_decide (state = SpaceStateReady)
                  then (SpaceStateReady, true)
                  else if negb cgroupExists && bool_decide (state = SpaceStateReady)
                  then (SpaceStateUnknown, false)
                  else if cgroupExists then (state, true)
                  else (state, false)
              end)
  end.

Definition RefreshSpace (space : Space) : M (Space * bool * option error) :=
  let orig := space_Status space in
  let! (state, cgroupReady) := spaceProbes space in
  let newStatus := refreshedScopeStatus orig state cgroupReady in
  if scopeStatusChanged orig newStatus then
    let space := {| space_Metadata := space_Metadata space; space_Spec := space_Spec space;
                    space_Status := newStatus |} in
    let! persisted := persistSpaceStatusGuarded space in
    st_ret (match persisted with
            | Err e => (space, false, Some (EWrap "failed to update space metadata: %w" [e]))
            | Ok b => (space, b, None)
            end)
  else st_ret (space, false, None).

Definition RefreshStack (stack : Stack) : M (Stack * bool * option error) :=
  let orig := stack_Status stack in
  let! cgroup := lift (ExistsCgroupStack stack) in
  let '(state, cgroupReady) := match cgroup with
    | Err _ => (StackStateUnknown, false)
    | Ok true => (StackStateReady, true)
    | Ok false => (StackStateUnknown, false)
    end in
  let newStatus := refreshedScopeStatus orig state cgroupReady in
  if scopeStatusChanged orig newStatus then
    let stack := {| stack_Metadata := stack_Metadata stack; stack_Spec := stack_Spec stack;
                    stack_Status := newStatus |} in
    let! persisted := persistStackStatusGuarded stack in
    st_ret (match persisted with
            | Err e => (stack, false, Some (EWrap "failed to update stack metadata: %w" [e]))
            | Ok b => (stack, b, None)
            end)
  else st_ret (stack, false, None).

(** *** RefreshCell *)

Definition set_ContainerdID (spec : ContainerSpec) (id : string) : ContainerSpec :=
  let 'Build_ContainerSpec a _ b c d e f g h i j k l m n o p q r s t u v w x y z
        a1 a2 a3 a4 a5 a6 a7 a8 a9 b1 b2 b3 b4 := spec in
  Build_ContainerSpec a id b c d e f g h i j k l m n o p q r s t u v w x y z
        a1 a2 a3 a4 a5 a6 a7 a8 a9 b1 b2 b3 b4.

(** The container's existence and its task are probed for the debug log only. *)
Definition probeForLog (namespace containerdID : string) : M unit :=
  let! client := lift ctrClientSet in
  if negb client then st_ret tt
  else
    let! ex := lift (runnerExistsContainer namespace containerdID) in
    match ex with
    | Ok true => let! _ := lift (ctr_TaskStatus namespace containerdID) in st_ret tt
    | _ => st_ret tt
    end.

(** Returns the spec, with a missing ContainerdID filled in, and whether it was. *)
Definition refreshContainerStatus (cell : Cell) (spec : ContainerSpec)
    : M (ContainerSpec * result bool) :=
  let! realm := lift (GetRealm (realm_named (csp_RealmName (cell_Spec cell)))) in
  match realm with
  | Err e => st_ret (spec, Err (EWrap "failed to get realm: %w" [e]))
  | Ok internalRealm =>
      let namespace := if String.eqb (rsp_Namespace (realm_Spec internalRealm)) ""
                       then sm_Name (realm_Metadata internalRealm)
                       else rsp_Namespace (realm_Spec internalRealm) in
      match containerdIDFor cell spec (csp_ID (cell_Spec cell)) with
      | Err e => st_ret (spec, Err (EWrap "failed to build containerd ID: %w" [e]))
      | Ok containerdID =>
          let! _ := probeForLog namespace containerdID in
          st_ret (if String.eqb (c_ContainerdID spec) "" && negb (String.eqb containerdID "")
                  then (set_ContainerdID spec containerdID, Ok true)
                  else (spec, Ok false))
      end
  end.

(** The loop over the containers: a failure is logged and the loop continues.
    It writes the specs of the cell's own slice. *)
Fixpoint refreshContainers (cell : Cell) (specs : list ContainerSpec)
    : M (list ContainerSpec * nat) :=
  match specs with
  | [] => st_ret ([], 0%nat)
  | spec :: rest =>
      let! (spec', r) := refreshContainerStatus cell spec in
      let! (rest', n) := refreshContainers cell rest in
      st_ret (spec' :: rest', match r with Ok true => S n | _ => n end)
  end.

Definition with_containers (c : Cell) (specs : list ContainerSpec) : Cell :=
  let s := cell_Spec c in
  {| cell_Metadata := cell_Metadata c;
     cell_Spec := {| csp_ID := csp_ID s; csp_RealmName := csp_RealmName s;
       csp_SpaceName := csp_SpaceName s; csp_StackName := csp_StackName s;
       csp_RootContainerID := csp_RootContainerID s; csp_Tty := csp_Tty s;
       csp_Containers := specs; csp_AutoDelete := csp_AutoDelete s;
       csp_NestedCgroupRuntime := csp_NestedCgroupRuntime s;
       csp_RuntimeEnv := csp_RuntimeEnv s; csp_Provenance := csp_Provenance s;
       csp_IgnoreDiskPressure := csp_IgnoreDiskPressure s |};
     cell_Status := cell_Status c |}.

(** The status RefreshCell builds, from the probe, the populated containers and
    the derived state. *)
Definition refreshedCellStatus (orig : CellStatus) (cgroupReady : bool) (cell : Cell)
    (state : CellState) : CellStatus :=
  let base := carryCellLifecycle orig {|
    cst_State := state; cst_CgroupPath := cst_CgroupPath orig; cst_SubtreeControllers := [];
    cst_BridgeName := ""; cst_Containers := cst_Containers (cell_Status cell);
    cst_ReadyObserved := latchReadyObserved (cst_ReadyObserved orig) (cst_State orig) state;
    cst_CreatedAt := 0%Z; cst_UpdatedAt := 0%Z; cst_ReadyAt := 0%Z; cst_Reason := "";
    cst_Message := ""; cst_CgroupReady := cgroupReady; cst_ObservedGeneration := 0;
    cst_OutOfSync := false; cst_OutOfSyncReason := ""; cst_OutOfSyncError := "" |} in
  if bool_decide (state = CellStateError) && negb (bool_decide (cst_State orig = CellStateError))
  then let '(reason, msg) := cellFailureBreadcrumb cell in set_ReasonMessage reason msg base
  else base.

Definition RefreshCell (cell : Cell) : M (Cell * nat * option error) :=
  let orig := cell_Status cell in
  let! cgroup := lift (ExistsCgroupCell cell) in
  let cgroupReady := match cgroup with Ok b => b | Err _ => false end in
  let! cell := lift (populateCellContainerStatuses cell) in
  let! state := deriveUnlessErr (match cgroup with Ok _ => None | Err e => Some e end) cell in
  let newStatus := refreshedCellStatus orig cgroupReady cell state in
  let! (specs, filled) := refreshContainers cell (csp_Containers (cell_Spec cell)) in
  let cell := with_containers cell specs in
  let same := containerStatusesEqual (cst_Containers orig) (cst_Containers newStatus) in
  let containersUpdated := if same then filled
    else (filled + countContainerStatusChanges (cst_Containers orig) (cst_Containers newStatus))%nat in
  let cellUpdated :=
    negb (bool_decide (cst_State newStatus = cst_State orig))
    || negb (String.eqb (cst_CgroupPath newStatus) (cst_CgroupPath orig))
    || negb (Bool.eqb (cst_CgroupReady newStatus) (cst_CgroupReady orig))
    || negb (Bool.eqb (cst_ReadyObserved newStatus) (cst_ReadyObserved orig))
    || negb same in
  let cell := if cellUpdated then with_status cell newStatus else cell in
  if cellUpdated || negb (Nat.eqb containersUpdated 0) then
    let! persisted := persistCellStatusGuarded cell in
    st_ret (match persisted with
            | Err e => (cell, containersUpdated,
                        Some (EWrap "failed to update cell metadata: %w" [e]))
            | Ok false => (cell, 0%nat, None)
            | Ok true => (cell, containersUpdated, None)
            end)
  else st_ret (cell, containersUpdated, None).

End Reconcile.

(** ** Theorems: what a reconcile pass may do *)

Section Frames.
Context `{HostConfig} {W : Type} `{ContainerHost W} `{RunnerHost W}.
Context (R : W → W → Prop) `{!Reflexive R} `{!Transitive R}.

(** The operations a populate pass uses respect R. *)
Record ObservationFrame : Prop := {
  of_now : respects R nowUTC;
  of_conn : respects R ensureClientConnected;
  of_GetRealm : ∀ r, respects R (GetRealm r);
  of_Exists : ∀ ns id, respects R (ExistsContainer ns id);
  of_Task : ∀ ns id, respects R (ctr_TaskStatus ns id);
  of_pull : ∀ p, respects R (pullSetupStatus p)
}.

(** A preorder on the runner's state under which every host operation that
    respects R stays. *)
Context (Q : Exec W → Exec W → Prop) `{!Reflexive Q} `{!Transitive Q}.
Context (respects_lift : ∀ A (m : st W A), respects R m → respects Q (lift m)).
#[local] Hint Resolve respects_lift : frame.

Section Observations.
Context (OF : ObservationFrame).
#[local] Hint Resolve of_now of_conn of_GetRealm of_Exists of_Task of_pull : frame.

Lemma GetContainerObservation_frame cell id : respects R (GetContainerObservation cell id).
Proof. unfold GetContainerObservation, unknown_with, observeTask. solve_frame. Qed.
#[local] Hint Resolve GetContainerObservation_frame : frame.

Lemma GetContainerState_frame cell id : respects R (GetContainerState cell id).
Proof. unfold GetContainerState. solve_frame. Qed.

Lemma setupStatuses_frame cell spec s : respects R (setupStatuses cell spec s).
Proof. unfold setupStatuses. solve_frame. Qed.
#[local] Hint Resolve setupStatuses_frame : frame.

Lemma populateLoop_frame cell prior now specs : respects R (populateLoop cell prior now specs).
Proof. induction specs as [|spec specs IH]; simpl; solve_frame. Qed.
#[local] Hint Resolve populateLoop_frame : frame.

Lemma populate_frame cell : respects R (populateCellContainerStatuses cell).
Proof. unfold populateCellContainerStatuses. solve_frame. Qed.
#[local] Hint Resolve populate_frame GetContainerState_frame : frame.

Lemma deriveCellState_frame cell : respects Q (deriveCellState cell).
Proof. unfold deriveCellState, deriveCellStateFromRootContainer. solve_frame. Qed.

Context (Hupd : ∀ c, respects R (UpdateCellMetadata c)).
#[local] Hint Resolve Hupd : frame.

Lemma persistOutcome_frame cell : respects Q (persistOutcome cell).
Proof. unfold persistOutcome, persistCellStatusGuarded. solve_frame. Qed.
#[local] Hint Resolve persistOutcome_frame : frame.

Lemma persistIfChanged_frame orig cell : respects Q (persistIfChanged orig cell).
Proof. unfold persistIfChanged. solve_frame. Qed.

Lemma reconcileSticky_frame cell : respects Q (reconcileSticky cell).
Proof. unfold reconcileSticky. solve_frame. Qed.

Context (Hcg : ∀ c, respects R (ExistsCgroupCell c)) (Hens : ∀ c, respects R (ensureCellCgroup c)).
#[local] Hint Resolve Hcg Hens : frame.

Lemma probeAndHealCgroup_frame cell : respects Q (probeAndHealCgroup cell).
Proof. unfold probeAndHealCgroup. solve_frame. Qed.

Context (Hrst : ∀ c id, respects R (restartContainer c id)).
Context (Qget : respects Q get_restartStates) (Qput : ∀ m, respects Q (put_restartStates m)).
#[local] Hint Resolve Hrst Qget Qput : frame.

Lemma restartLoop_frame idxs byID cell res : respects Q (restartLoop idxs byID cell res).
Proof.
  revert cell res. induction idxs as [|i idxs IH]; intros cell res; simpl; [solve_frame|].
  unfold clearRestartState, restartDecisionFor, recordRestartAttempt. solve_frame.
Qed.
#[local] Hint Resolve restartLoop_frame : frame.

Lemma maybeRestart_frame cell : respects Q (maybeRestartExitedContainers cell).
Proof. unfold maybeRestartExitedContainers. solve_frame. Qed.
End Observations.
End Frames.

(** R on the host's part of the runner, whatever happens to the bookkeeping ... *)
Definition onWorld {W} (R : W → W → Prop) (r r' : Exec W) : Prop :=
  R (ex_world r) (ex_world r').
(** ... and with the bookkeeping unchanged. *)
Definition onWorldOnly {W} (R : W → W → Prop) (r r' : Exec W) : Prop :=
  R (ex_world r) (ex_world r') ∧ ex_restartStates r' = ex_restartStates r.

#[export] Instance onWorld_refl {W} (R : W → W → Prop) `{!Reflexive R} : Reflexive (onWorld R).
Proof. intros r. unfold onWorld. reflexivity. Qed.
#[export] Instance onWorld_trans {W} (R : W → W → Prop) `{!Transitive R} : Transitive (onWorld R).
Proof. intros r1 r2 r3. unfold onWorld. apply transitivity. Qed.
#[export] Instance onWorldOnly_refl {W} (R : W → W → Prop) `{!Reflexive R} :
  Reflexive (onWorldOnly R).
Proof. intros r. split; reflexivity. Qed.
#[export] Instance onWorldOnly_trans {W} (R : W → W → Prop) `{!Transitive R} :
  Transitive (onWorldOnly R).
Proof. intros r1 r2 r3 [? ?] [? ?]. split; [by etrans|congruence]. Qed.

Lemma lift_onWorld {W} (R : W → W → Prop) A (m : st W A) :
  respects R m → respects (onWorld R) (lift m).
Proof. intros Hm r. unfold lift, onWorld. specialize (Hm (ex_world r)). by destruct (m _). Qed.
Lemma lift_onWorldOnly {W} (R : W → W → Prop) A (m : st W A) :
  respects R m → respects (onWorldOnly R) (lift m).
Proof.
  intros Hm r. unfold lift, onWorldOnly. specialize (Hm (ex_world r)). by destruct (m _).
Qed.
Lemma get_onWorld {W} (R : W → W → Prop) `{!Reflexive R} :
  respects (onWorld R) (@get_restartStates W).
Proof. intros r. unfold onWorld. simpl. reflexivity. Qed.
Lemma put_onWorld {W} (R : W → W → Prop) `{!Reflexive R} m :
  respects (onWorld R) (@put_restartStates W m).
Proof. intros r. unfold onWorld. simpl. reflexivity. Qed.

Section ReconcileTheorems.
Context `{HostConfig} {W : Type} `{ContainerHost W} `{RunnerHost W}.

(** What an outcome may say: at most one effect, and none beside an error. *)
Definition OutcomeOK (o : ReconcileOutcome) (err : option error) : Prop :=
  (o = outcome_none ∨ o = outcome_updated true ∨
   o = {| ro_Updated := false; ro_Deleted := true; ro_Vanished := false |} ∨
   o = {| ro_Updated := false; ro_Deleted := false; ro_Vanished := true |}) ∧
  (err ≠ None → o = outcome_none).

Lemma persistOutcome_result cell r r' cell' o e :
  persistOutcome cell r = (r', (cell', o, e)) →
  cell' = cell ∧ ro_Deleted o = false ∧ ro_Vanished o = false ∧ OutcomeOK o e.
Proof.
  unfold persistOutcome, st_bind, st_ret.
  destruct (persistCellStatusGuarded cell r) as [r1 [[]|err]]; intros [= _ <- <- <-];
    unfold OutcomeOK, outcome_updated, outcome_none; naive_solver.
Qed.

Lemma persistIfChanged_result orig cell r r' cell' o e :
  persistIfChanged orig cell r = (r', (cell', o, e)) →
  cell' = cell ∧ ro_Deleted o = false ∧ ro_Vanished o = false ∧ OutcomeOK o e.
Proof.
  unfold persistIfChanged. destruct (statusChanged orig cell); [apply persistOutcome_result|].
  intros [= _ <- <- <-]. unfold OutcomeOK, outcome_updated, outcome_none. naive_solver.
Qed.

Lemma lift_result {A} (m : st W A) r r' a :
  lift m r = (r', a) → m (ex_world r) = (ex_world r', a) ∧ ex_restartStates r' = ex_restartStates r.
Proof. unfold lift. destruct (m _) as [w x]. by intros [= <- <-]. Qed.

Lemma reconcileSticky_result cell r r' cell' o e :
  reconcileSticky cell r = (r', (cell', o, e)) →
  (∃ sts, cell' = upd_status (set_Containers sts) cell) ∧
  ro_Deleted o = false ∧ ro_Vanished o = false ∧ OutcomeOK o e.
Proof.
  unfold reconcileSticky, st_bind at 1.
  destruct (lift _ r) as [r1 cell1] eqn:E. apply lift_result in E as [E _].
  apply populate_spec in E as (sts & -> & _).
  destruct (_ || _).
  - intros (-> & ? & ? & ?)%persistOutcome_result. eauto 10.
  - intros [= _ <- <- <-]. split; [eauto|]. unfold OutcomeOK, outcome_updated, outcome_none.
    naive_solver.
Qed.

(** C10: A cell in a sticky state (Failed or Error) is left to the operator: the
    pass returns it with its state and spec unchanged, never deletes it, does not
    touch the restart bookkeeping, and calls nothing but the metadata lookup, the
    container observations and the guarded status write.  The last part is the
    frame: every preorder on host states those operations respect relates the
    host before and after the pass. *)
Theorem sticky_cell_left_alone (R : W → W → Prop) cell r r' cell' o e :
  Reflexive R → Transitive R → ObservationFrame R →
  (∀ c, respects R (GetCell c)) → (∀ c, respects R (UpdateCellMetadata c)) →
  cellStateIsSticky (cst_State (cell_Status cell)) = true →
  ReconcileCell cell r = (r', (cell', o, e)) →
  R (ex_world r) (ex_world r') ∧ ex_restartStates r' = ex_restartStates r ∧
  cst_State (cell_Status cell') = cst_State (cell_Status cell) ∧
  cell_Spec cell' = cell_Spec cell ∧ ro_Deleted o = false.
Proof.
  intros HR1 HR2 OF Hget Hupd Hs HE.
  assert (HF : respects (onWorldOnly R) (ReconcileCell cell)).
  { unfold ReconcileCell, reconcileLive. rewrite Hs.
    pose proof (lift_onWorldOnly R) as HL.
    pose proof (reconcileSticky_frame R (onWorldOnly R) HL OF Hupd) as HS.
    apply respects_bind; [apply _|auto|]. intros [c|err]; [apply HS|].
    destruct (error_is _ _); [apply respects_ret; apply _|apply HS]. }
  specialize (HF r). rewrite HE in HF. destruct HF as [HF1 HF2]. simpl in *.
  split; [done|]. split; [done|].
  revert HE. unfold ReconcileCell, reconcileLive, st_bind. rewrite Hs.
  assert (HS : ∀ r0, reconcileSticky cell r0 = (r', (cell', o, e)) →
    cst_State (cell_Status cell') = cst_State (cell_Status cell) ∧
    cell_Spec cell' = cell_Spec cell ∧ ro_Deleted o = false).
  { intros r0 ((sts & ->) & ? & _)%reconcileSticky_result. by destruct cell as [? ? []]. }
  destruct (lift _ r) as [r1 [c|err]]; [apply HS|].
  destruct (error_is _ _); [|apply HS]. by intros [= _ <- <- <-].
Qed.

(** Without a relaunch the restart pass returns the cell it was given. *)
Lemma restartLoop_none idxs byID cell res r r' cell' res' e :
  restartLoop idxs byID cell res r = (r', (cell', res', e)) →
  res' ≠ restartFired → cell' = cell ∧ res ≠ restartFired ∧ (res' = restartNone → res = restartNone).
Proof.
  revert cell res r. induction idxs as [|i idxs IH]; intros cell res r; simpl.
  { intros [= _ <- <- _]. done. }
  destruct (csp_Containers _ !! i) as [spec|]; [|by intros [= _ <- <- _]].
  destruct (c_Root spec); [apply IH|]. destruct (byID !! _) as [status|]; [|apply IH].
  destruct (negb (containerStateIsTerminal _)).
  { unfold st_bind. destruct (clearRestartState _ _ r). apply IH. }
  destruct (negb _); [apply IH|]. unfold st_bind at 1.
  destruct (restartDecisionFor _ _ _ _ _ r) as [r1 []].
  - apply IH.
  - unfold st_bind. destruct (lift _ r1) as [r2 started].
    destruct (recordRestartAttempt _ _ r2) as [r3 []]. destruct started as [c|err].
    + destruct (lift _ r3) as [r4 now]. intros HE Hne. by destruct (IH _ _ _ HE Hne) as (_ & ? & _).
    + by intros [= _ <- <- _].
  - intros HE Hne. destruct (IH _ _ _ HE Hne) as (-> & Hr & Hn).
    split; [done|]. by destruct res.
Qed.

Lemma maybeRestart_none cell r r' cell' res e :
  maybeRestartExitedContainers cell r = (r', (cell', res, e)) →
  res ≠ restartFired → cell' = cell.
Proof.
  unfold maybeRestartExitedContainers.
  destruct (negb _); [by intros [= _ <- _ _]|]. destruct (rootNotRunning cell).
  - by intros [= _ <- _ _].
  - intros HE Hne. by destruct (restartLoop_none _ _ _ _ _ _ _ _ _ HE Hne).
Qed.

(** The conditions under which the pass reaps a cell. *)
Definition ReapCondition (cell : Cell) : Prop :=
  cst_State (cell_Status cell) = CellStateExited ∧
  cst_ReadyObserved (cell_Status cell) = true ∧
  (csp_AutoDelete (cell_Spec cell) = true ∨
   restartPolicyPermitsCellReap cell = true ∧
   ∃ root, findRootContainerSpec cell = Some root ∧
     rootContainerStillRunning (c_ID root) (cst_Containers (cell_Status cell)) = true).

(** The conditions under which the restart pass relaunches a workload of the
    cell: it was observed ready, its root is not known to be down, and one of its
    workloads has ended with a policy that asks for a restart. *)
Definition RelaunchOwed (cell : Cell) : Prop :=
  cst_ReadyObserved (cell_Status cell) = true ∧ rootNotRunning cell = false ∧
  ∃ spec s, spec ∈ csp_Containers (cell_Spec cell) ∧ c_Root spec = false ∧
    statusByID (cst_Containers (cell_Status cell)) !! c_ID spec = Some s ∧
    containerStateIsTerminal (cs_State s) = true ∧
    restartPolicyRequiresRestart (c_RestartPolicy spec) (cs_ExitCode s) = true.

(** The spec the pass works on: the one it was given, or the one that came back
    from healing the cell's cgroup. *)
Definition WorksOn (cell cell1 : Cell) : Prop :=
  cell_Spec cell1 = cell_Spec cell ∨
  ∃ c w w' healed, ensureCellCgroup c w = (w', Ok healed) ∧ cell_Spec c = cell_Spec cell ∧
    cell_Spec cell1 = cell_Spec healed.

(** Every workload of the snapshot has ended and none of them failed. *)
Definition AllWorkloadsClean (cell : Cell) : Prop :=
  ∀ spec s, (spec, s) ∈ workloads (csp_Containers (cell_Spec cell)) (cst_Containers (cell_Status cell)) →
    containerStateIsTerminal (cs_State s) = true ∧ containerExitedNonZero s = false.

Lemma verdict_exited ws :
  workloadVerdict ws = CellStateExited →
  ∀ spec s, (spec, s) ∈ ws →
    containerStateIsTerminal (cs_State s) = true ∧ containerExitedNonZero s = false.
Proof.
  unfold workloadVerdict. destruct (existsb _ ws); [by case_match|].
  destruct (forallb _ ws) eqn:F; [|done]. destruct (existsb _ ws) eqn:E; [done|].
  intros _ spec s Hin. rewrite forallb_elem in F. rewrite existsb_false_elem in E.
  split; [apply (F _ Hin)|apply (E _ Hin)].
Qed.

Section Reap.
Context (R : W → W → Prop) `{!Reflexive R} `{!Transitive R}.
Context (OF : ObservationFrame R) (Hget : ∀ c, respects R (GetCell c))
  (Hupd : ∀ c, respects R (UpdateCellMetadata c))
  (Hcg : ∀ c, respects R (ExistsCgroupCell c)) (Hens : ∀ c, respects R (ensureCellCgroup c)).

(** Up to its first relaunch the restart pass keeps the cell and stays in R. *)
Lemma restartLoop_owed idxs byID cell res r r' cell' res' e :
  restartLoop idxs byID cell res r = (r', (cell', res', e)) →
  onWorld R r r' ∨
  ((res' = restartFired ∨ e ≠ None) ∧
   ∃ spec s, spec ∈ csp_Containers (cell_Spec cell) ∧ c_Root spec = false ∧
     byID !! c_ID spec = Some s ∧ containerStateIsTerminal (cs_State s) = true ∧
     restartPolicyRequiresRestart (c_RestartPolicy spec) (cs_ExitCode s) = true).
Proof.
  revert res r. induction idxs as [|i idxs IH]; intros res r; simpl.
  { intros [= <- _ _ _]. left. reflexivity. }
  destruct (csp_Containers _ !! i) as [spec|] eqn:Hi; [|intros [= <- _ _ _]; left; reflexivity].
  destruct (c_Root spec) eqn:Hr; [apply IH|]. destruct (byID !! _) as [status|] eqn:Hb; [|apply IH].
  destruct (containerStateIsTerminal _) eqn:Ht; simpl; [|exact (IH _ _)].
  destruct (restartPolicyRequiresRestart _ _) eqn:Hp; simpl; [|apply IH]. unfold st_bind at 1.
  destruct (restartDecisionFor _ _ _ _ _ r) as [r1 d] eqn:HD.
  assert (FD : onWorld R r r1).
  { assert (HF : respects (onWorld R) (restartDecisionFor cell (c_ID spec) (c_RestartPolicy spec)
      (effectiveRestartBackoff spec) (effectiveOnFailureMaxRestarts spec))).
    { unfold restartDecisionFor. pose proof (lift_onWorld R _ _ (of_now R OF)).
      pose proof (get_onWorld R). solve_frame. }
    specialize (HF r). by rewrite HD in HF. }
  destruct d; [intros [?|?]%IH; [left; by etrans|by right]| |
    intros [?|?]%IH; [left; by etrans|by right]].
  unfold st_bind. destruct (lift _ r1) as [r2 started].
  destruct (recordRestartAttempt _ _ r2) as [r3 []]. intros HE. right.
  split; [|exists spec, status; split_and!; try done; by eapply list_elem_of_lookup_2].
  destruct started as [c|err]; [|injection HE as _ _ _ <-; by right].
  destruct (lift _ r3) as [r4 now]. left. destruct (decide (res' = restartFired)) as [|Hne]; [done|].
  by destruct (restartLoop_none _ _ _ _ _ _ _ _ _ HE Hne) as (_ & ? & _).
Qed.

Lemma maybeRestart_owed cell r r' cell' res e :
  maybeRestartExitedContainers cell r = (r', (cell', res, e)) →
  onWorld R r r' ∨ ((res = restartFired ∨ e ≠ None) ∧ RelaunchOwed cell).
Proof.
  unfold maybeRestartExitedContainers, RelaunchOwed.
  destruct (cst_ReadyObserved _); simpl; [|intros [= <- _ _ _]; left; reflexivity].
  destruct (rootNotRunning cell); [intros [= <- _ _ _]; left; reflexivity|].
  intros [?|[? ?]]%restartLoop_owed; [by left|right]. split; [done|]. eauto.
Qed.

Lemma settleCell_reap orig ns cell r r' x :
  cst_State (cell_Status cell) = ns →
  settleCell orig ns cell r = (r', x) →
  onWorld R r r' ∨ ReapCondition cell ∨ (RelaunchOwed cell ∧ ro_Deleted x.1.2 = false).
Proof.
  intros Hst. unfold settleCell, st_bind at 1.
  destruct (maybeRestartExitedContainers cell r) as [r1 [[cell1 res] e]] eqn:EM.
  destruct (maybeRestart_owed _ _ _ _ _ _ EM) as [HM|[Hres HO]].
  2:{ intros HE. right. right. split; [done|]. destruct e as [err|]; [by injection HE as _ <-|].
      destruct Hres as [->|?]; [|done]. destruct x as [[cell' o] e].
      by apply persistOutcome_result in HE as (_ & ? & _). }
  assert (HP : ∀ c, respects (onWorld R) (persistOutcome c))
    by (intros c; apply (persistOutcome_frame R (onWorld R)); auto using lift_onWorld).
  assert (HI : ∀ o c, respects (onWorld R) (persistIfChanged o c))
    by (intros o c; apply (persistIfChanged_frame R (onWorld R)); auto using lift_onWorld).
  destruct e as [err|]; [intros [= <- _]; by left|].
  assert (HK : ∀ m : st (Exec W) (Cell * ReconcileOutcome * option error),
    respects (onWorld R) m → m r1 = (r', x) → onWorld R r r').
  { intros m Hm Em. etrans; [exact HM|]. specialize (Hm r1). by rewrite Em in Hm. }
  destruct res; [|intros HE; left; eapply HK; [|exact HE]; auto..].
  assert (cell1 = cell) as -> by (by eapply maybeRestart_none).
  destruct (shouldAutoDeleteCell _ _ _) eqn:HA.
  - intros _. right. left. unfold shouldAutoDeleteCell, cellStateAutoDeleteTriggers in HA.
    apply andb_true_iff in HA as [[HA HB%bool_decide_eq_true]%andb_true_iff HC].
    unfold ReapCondition. rewrite Hst. auto.
  - destruct (restartPolicyPermitsCellReap cell && _) eqn:HW;
      [|intros HE; left; eapply HK; [|exact HE]; auto].
    intros _. right. left. apply andb_true_iff in HW as [HW1 HW2].
    unfold shouldWindDownCell, cellStateAutoDeleteTriggers in HW2.
    case_bool_decide as Hx; [|done]. simpl in HW2.
    destruct (cst_ReadyObserved (cell_Status cell)) eqn:HR; [|done]. simpl in HW2.
    destruct (negb (hasNonRootContainerSpec _)); [done|].
    destruct (findRootContainerSpec cell) as [root|] eqn:HF; [|done].
    unfold ReapCondition. rewrite Hst, HR. eauto 10.
Qed.

Lemma probeAndHeal_spec cell r r1 cell1 err :
  probeAndHealCgroup cell r = (r1, (cell1, err)) → WorksOn cell cell1.
Proof.
  unfold probeAndHealCgroup, st_bind, st_ret. destruct (lift _ r) as [r2 [b|e]].
  - destruct (negb b && _); [|intros [= _ <- _]; by left].
    destruct (lift _ r2) as [r3 [healed|e]] eqn:E; intros [= _ <- _]; [|by left].
    apply lift_result in E as [E _]. right. by eexists _, _, _, _.
  - intros [= _ <- _]. by left.
Qed.

(** The state, latch and breadcrumb written before the restart pass. *)
Definition stampState (orig : CellStatus) (ns : CellState) (cell : Cell) : Cell :=
  let cell := upd_status (fun s => set_ReadyObserved
      (latchReadyObserved (cst_ReadyObserved orig) (cst_State orig) ns) (set_State ns s)) cell in
  if bool_decide (ns = CellStateError) && negb (bool_decide (cst_State orig = CellStateError))
  then stampCellFailure cell else cell.

Lemma stampState_keeps orig ns cell :
  cell_Spec (stampState orig ns cell) = cell_Spec cell ∧
  cell_Metadata (stampState orig ns cell) = cell_Metadata cell ∧
  cst_Containers (cell_Status (stampState orig ns cell)) = cst_Containers (cell_Status cell) ∧
  cst_State (cell_Status (stampState orig ns cell)) = ns.
Proof.
  unfold stampState. destruct (bool_decide (ns = CellStateError) && _);
    by destruct cell as [? ? []].
Qed.

Lemma deriveCellState_workloads cell r r' ns :
  deriveCellState cell r = (r', ns) →
  hasNonRootContainerSpec (csp_Containers (cell_Spec cell)) = true →
  ns = deriveCellStateFromNonRootContainerStatuses
         (csp_Containers (cell_Spec cell)) (cst_Containers (cell_Status cell)).
Proof. intros HE Hn. unfold deriveCellState in HE. rewrite Hn in HE. by injection HE as _ <-. Qed.

(** Why a pass left R: it reaped the cell [cell1] it derived, or it relaunched
    one of its workloads and reported no deletion. *)
Definition ReapedOrRelaunched (cell cell1 : Cell) (x : Cell * ReconcileOutcome * option error) : Prop :=
  cellStateIsSticky (cst_State (cell_Status cell)) = false ∧ WorksOn cell cell1 ∧
  ((ReapCondition cell1 ∧
    (hasNonRootContainerSpec (csp_Containers (cell_Spec cell1)) = true →
     NoDup (c_ID <$> csp_Containers (cell_Spec cell1)) → AllWorkloadsClean cell1)) ∨
   (RelaunchOwed cell1 ∧ ro_Deleted x.1.2 = false)).

Lemma reconcileLive_reap cell r r' x :
  reconcileLive cell r = (r', x) →
  onWorld R r r' ∨ ∃ cell1, ReapedOrRelaunched cell cell1 x.
Proof.
  unfold reconcileLive. destruct (cellStateIsSticky _) eqn:HS.
  { intros HE. left.
    pose proof (reconcileSticky_frame R (onWorld R) (lift_onWorld R) OF Hupd cell r) as HF.
    by rewrite HE in HF. }
  unfold st_bind at 1. destruct (probeAndHealCgroup cell r) as [r1 [cellA cgErr]] eqn:EA.
  pose proof (probeAndHealCgroup_frame R (onWorld R) (lift_onWorld R) Hcg Hens cell r) as FA.
  rewrite EA in FA. apply probeAndHeal_spec in EA.
  unfold st_bind at 1. destruct (lift (populateCellContainerStatuses cellA) r1) as [r2 cellB] eqn:EB.
  pose proof (lift_onWorld R _ _ (populate_frame R OF cellA) r1) as FB. rewrite EB in FB.
  apply lift_result in EB as [EB _].
  unfold st_bind at 1. destruct (deriveUnlessErr cgErr cellB r2) as [r3 ns] eqn:EC.
  unfold deriveUnlessErr in EC.
  assert (FC : onWorld R r2 r3).
  { pose proof (deriveCellState_frame R (onWorld R) (lift_onWorld R) OF cellB r2) as FC.
    destruct cgErr; [injection EC as <- _; reflexivity|]. by rewrite EC in FC. }
  fold (stampState (cell_Status cell) ns cellB). intros HE.
  destruct (stampState_keeps (cell_Status cell) ns cellB) as (K1 & _ & K2 & K3).
  pose proof (populate_spec _ _ _ _ EB) as (sts & EBs & _).
  assert (EBspec : cell_Spec cellB = cell_Spec cellA) by (by rewrite EBs).
  assert (WO : WorksOn cell (stampState (cell_Status cell) ns cellB))
    by (unfold WorksOn in *; rewrite K1, EBspec; naive_solver).
  destruct (settleCell_reap _ _ _ _ _ _ K3 HE) as [HF|[HC|HO]].
  { left. etrans; [exact FA|]. etrans; [exact FB|]. by etrans. }
  2:{ right. eexists. split; [done|]. split; [exact WO|]. by right. }
  right. eexists. split; [done|]. split; [exact WO|]. left. split; [done|].
  destruct HC as (HEx & _). rewrite K3 in HEx. subst ns. rewrite K1. intros Hn Hd.
  destruct cgErr; [by injection EC|].
  apply deriveCellState_workloads in EC; [|done]. unfold AllWorkloadsClean. rewrite K1, K2.
  intros spec s. apply verdict_exited. rewrite EC. symmetry. apply derive_verdict.
  rewrite EBspec in Hd. eapply populate_Snapshot; eassumption.
Qed.

End Reap.

(** *** Outcomes *)

(** The effect a Deleted outcome claims. *)
Definition DeletedOK (cell' : Cell) (o : ReconcileOutcome) : Prop :=
  ro_Deleted o = true →
  csp_AutoDelete (cell_Spec cell') = true ∧ cst_State (cell_Status cell') = CellStateExited ∧
  cst_ReadyObserved (cell_Status cell') = true.

Lemma kept_outcome c (cell' : Cell) o e :
  cell' = c ∧ ro_Deleted o = false ∧ ro_Vanished o = false ∧ OutcomeOK o e →
  OutcomeOK o e ∧ ro_Vanished o = false ∧ DeletedOK cell' o.
Proof. intros (_ & Hd & Hv & Ho). unfold DeletedOK. rewrite Hd. done. Qed.

Lemma settleCell_outcome orig ns cell r r' cell' o e :
  cst_State (cell_Status cell) = ns →
  settleCell orig ns cell r = (r', (cell', o, e)) →
  OutcomeOK o e ∧ ro_Vanished o = false ∧ DeletedOK cell' o.
Proof.
  intros Hst. unfold settleCell, st_bind at 1.
  destruct (maybeRestartExitedContainers cell r) as [r1 [[cell1 res] [err|]]] eqn:EM.
  { intros [= _ <- <- <-]. unfold OutcomeOK, outcome_none, DeletedOK. naive_solver. }
  destruct res; [|intros HE; eapply kept_outcome, persistOutcome_result, HE
                 |intros HE; eapply kept_outcome, persistIfChanged_result, HE].
  assert (cell1 = cell) as -> by (by eapply maybeRestart_none).
  destruct (shouldAutoDeleteCell _ _ _) eqn:HA.
  - unfold shouldAutoDeleteCell, cellStateAutoDeleteTriggers in HA.
    apply andb_true_iff in HA as [[HA HB%bool_decide_eq_true]%andb_true_iff HC].
    unfold autoDeleteCell, st_bind. destruct (lift _ r1) as [r2 [k|err]].
    + unfold st_ret. destruct (lift _ r2) as [r3 [err|]]; intros [= _ <- <- <-];
        unfold OutcomeOK, outcome_none, DeletedOK; naive_solver.
    + intros [= _ <- <- <-]. unfold OutcomeOK, outcome_none, DeletedOK. naive_solver.
  - destruct (_ && _); [|intros HE; eapply kept_outcome, persistIfChanged_result, HE].
    unfold windDownCell, st_bind, st_ret. destruct (lift _ r1) as [r2 [k|err]];
      intros [= _ <- <- <-]; unfold OutcomeOK, outcome_none, outcome_updated, DeletedOK; naive_solver.
Qed.

(** The outcome of a pass is exact: at most one of Updated, Deleted and
    Vanished is set and none of them beside an error; Deleted is reported only for
    a cell that asked for auto-delete, derived Exited and had been observed ready,
    so a crashed (Error) or failed cell is never auto-deleted; and Vanished exactly
    when the locked re-read found the metadata gone, in which case the pass did
    nothing but that read. *)
Theorem reconcile_outcome_exact cell r r' cell' o e :
  ReconcileCell cell r = (r', (cell', o, e)) →
  OutcomeOK o e ∧ DeletedOK cell' o ∧
  (ro_Vanished o = true ↔
   ∃ err, (lift (GetCell cell) r).2 = Err err ∧ error_is ErrCellNotFound err = true) ∧
  (ro_Vanished o = true → cell' = cell ∧ r' = (lift (GetCell cell) r).1).
Proof.
  unfold ReconcileCell, st_bind at 1. destruct (lift (GetCell cell) r) as [r1 cur]. simpl.
  assert (HL : reconcileLive cell r1 = (r', (cell', o, e)) →
    OutcomeOK o e ∧ ro_Vanished o = false ∧ DeletedOK cell' o).
  { unfold reconcileLive. destruct (cellStateIsSticky _).
    { intros (_ & Hk)%reconcileSticky_result. by apply (kept_outcome cell'). }
    unfold st_bind. destruct (probeAndHealCgroup cell r1) as [r2 [cA cgErr]].
    destruct (lift _ r2) as [r3 cB]. destruct (deriveUnlessErr _ _ r3) as [r4 ns].
    apply settleCell_outcome. destruct (_ && _); by destruct cB as [? ? []]. }
  destruct cur as [c|err].
  { intros (? & Hv & ?)%HL. rewrite Hv. naive_solver. }
  destruct (error_is _ err) eqn:HN.
  - intros [= <- <- <- <-]. unfold OutcomeOK, DeletedOK. naive_solver.
  - intros (? & Hv & ?)%HL. rewrite Hv. split; [done|]. split; [done|]. naive_solver congruence.
Qed.

(** While a restart is owed the cell is kept and kept out of the sticky
    states: when the restart pass relaunched a container or is waiting for its
    backoff, the pass ends in Degraded, with the failure breadcrumb of before, and
    reports no deletion. *)
Theorem restart_owed_holds_degraded orig ns cell r r1 cell1 res r' cell' o e :
  maybeRestartExitedContainers cell r = (r1, (cell1, res, None)) → res ≠ restartNone →
  settleCell orig ns cell r = (r', (cell', o, e)) →
  cst_State (cell_Status cell') = CellStateDegraded ∧
  cst_Reason (cell_Status cell') = cst_Reason orig ∧
  cst_Message (cell_Status cell') = cst_Message orig ∧ ro_Deleted o = false ∧
  cellStateIsSticky (cst_State (cell_Status cell')) = false.
Proof.
  intros EM Hne. unfold settleCell, st_bind at 1. rewrite EM.
  destruct res; [done|intros (-> & Hd & _)%persistOutcome_result
                |intros (-> & Hd & _)%persistIfChanged_result]; rewrite Hd;
    by destruct cell1 as [? ? []].
Qed.
End ReconcileTheorems.

(** *** The on-failure cap *)

(** A relaunch the passes asked for: of which cell and container, and what came back. *)
Record Relaunch := { rl_cell : Cell; rl_id : string; rl_result : result Cell }.

Section RestartCap.
Context `{HostConfig} {W : Type} `{ContainerHost W} `{RunnerHost W}.

(** The same host, keeping a log of the relaunches. *)
#[local] Instance logged_ContainerHost : ContainerHost (W * list Relaunch) := {|
  nowUTC := beside nowUTC;
  ensureClientConnected := beside ensureClientConnected;
  GetRealm := fun r => beside (GetRealm r);
  ExistsContainer := fun ns id => beside (ExistsContainer ns id);
  ctr_TaskStatus := fun ns id => beside (ctr_TaskStatus ns id);
  pullSetupStatus := fun p => beside (pullSetupStatus p) |}.

#[local] Instance logged_RunnerHost : RunnerHost (W * list Relaunch) := {|
  GetCell := fun c => beside (GetCell c);
  ExistsCgroupCell := fun c => beside (ExistsCgroupCell c);
  ExistsCgroupRealm := fun r => beside (ExistsCgroupRealm r);
  ExistsCgroupSpace := fun s => beside (ExistsCgroupSpace s);
  ExistsCgroupStack := fun s => beside (ExistsCgroupStack s);
  ExistsRealmContainerdNamespace := fun n => beside (ExistsRealmContainerdNamespace n);
  ExistsSpaceCNIConfig := fun s => beside (ExistsSpaceCNIConfig s);
  ctrClientSet := beside ctrClientSet;
  runnerExistsContainer := fun ns id => beside (runnerExistsContainer ns id);
  ensureCellCgroup := fun c => beside (ensureCellCgroup c);
  UpdateCellMetadata := fun c => beside (UpdateCellMetadata c);
  UpdateRealmMetadata := fun r => beside (UpdateRealmMetadata r);
  UpdateSpaceMetadata := fun s => beside (UpdateSpaceMetadata s);
  UpdateStackMetadata := fun s => beside (UpdateStackMetadata s);
  restartContainer := fun c id => logging (Build_Relaunch c id) (restartContainer c id);
  killCellLocked := fun c => beside (killCellLocked c);
  deleteCellLocked := fun c => beside (deleteCellLocked c) |}.

Notation R := (Exec (W * list Relaunch)).
Definition relaunches (r : R) : list Relaunch := (ex_world r).2.

(** One container, by its bookkeeping key, and its cap. *)
Context (k : string) (cap : Z).

(** How often it was relaunched. *)
Definition launches (log : list Relaunch) : nat :=
  length (filter (fun l => restartStateKey (rl_cell l) (rl_id l) = k) log).

(** In this cell the container is on-failure with that cap. *)
Definition Agree (cell : Cell) : Prop :=
  ∀ spec, spec ∈ csp_Containers (cell_Spec cell) → c_Root spec = false →
    restartStateKey cell (c_ID spec) = k →
    c_RestartPolicy spec = RestartPolicyOnFailure ∧ effectiveOnFailureMaxRestarts spec = cap.

(** The cell a relaunch gave back is the same cell and still says so. *)
Definition Stable (l : Relaunch) : Prop :=
  ∀ c, rl_result l = Ok c → cellLockKey c = cellLockKey (rl_cell l) ∧ Agree c.

(** The snapshot does not show the container as anything but ended. *)
Definition Ended (key : string) (byID : gmap string ContainerStatus) : Prop :=
  ∀ id s, key +:+ String NUL id = k → byID !! id = Some s →
    containerStateIsTerminal (cs_State s) = true.

(** The cell as the pass observed it, before it decides anything. *)
Definition observed (cell : Cell) (r : R) : Cell :=
  let '(r1, (c, _)) := probeAndHealCgroup cell (lift (GetCell cell) r).1 in
  (lift (populateCellContainerStatuses c) r1).2.

Definition Quiet (cell : Cell) (r : R) : Prop :=
  let c := observed cell r in
  Agree c ∧ Ended (cellLockKey c) (statusByID (cst_Containers (cell_Status c))).

(** Passes, each from whatever state the host is in by then. *)
Definition pass (r : R) (p : W * Cell) : R :=
  (ReconcileCell p.2 (MkExec (p.1, relaunches r) (ex_restartStates r))).1.
Fixpoint AllQuiet (r : R) (passes : list (W * Cell)) : Prop :=
  match passes with
  | [] => True
  | p :: rest => Quiet p.2 (MkExec (p.1, relaunches r) (ex_restartStates r)) ∧ AllQuiet (pass r p) rest
  end.

(** The bookkeeping counts the relaunches, and stays below the cap. *)
Definition attempts (r : R) : Z := default 0%Z (rs_attempts <$> ex_restartStates r !! k).
Definition Counted (r : R) : Prop :=
  Z.of_nat (launches (relaunches r)) = attempts r ∧ (attempts r ≤ Z.max 1 cap)%Z.

Lemma Counted_same r r' :
  relaunches r' = relaunches r → ex_restartStates r' = ex_restartStates r → Counted r → Counted r'.
Proof. unfold Counted, attempts. by intros -> ->. Qed.

Lemma record_counted cell id c r r1 r2 :
  lift (restartContainer cell id) r = (r1, c) → recordRestartAttempt cell id r1 = (r2, tt) →
  (restartStateKey cell id = k → (attempts r + 1 ≤ Z.max 1 cap)%Z) →
  Counted r →
  Counted r2 ∧ relaunches r2 = relaunches r ++ [Build_Relaunch cell id c].
Proof.
  unfold lift at 1. simpl. unfold logging. destruct (restartContainer cell id _) as [w x].
  intros [= <- <-]. unfold recordRestartAttempt, st_bind, get_restartStates, lift. simpl.
  unfold beside at 1. simpl. destruct (nowUTC w) as [w' now]. intros [= <-] Hk [HI1 HI2].
  split; [|done]. unfold Counted, attempts, relaunches, launches in *. simpl.
  rewrite filter_app, length_app, filter_cons, filter_nil. simpl.
  destruct (decide (restartStateKey cell id = k)) as [E|E].
  - rewrite E, lookup_insert_eq in *. specialize (Hk eq_refl). simpl. lia.
  - rewrite lookup_insert_ne by done. simpl. lia.
Qed.

(** A relaunch is only decided while the cap leaves room for it. *)
Lemma decision_cap cell spec r r1 :
  restartDecisionFor cell (c_ID spec) (c_RestartPolicy spec) (effectiveRestartBackoff spec)
    (effectiveOnFailureMaxRestarts spec) r = (r1, restartFired) →
  c_RestartPolicy spec = RestartPolicyOnFailure → effectiveOnFailureMaxRestarts spec = cap →
  restartStateKey cell (c_ID spec) = k → (attempts r + 1 ≤ Z.max 1 cap)%Z.
Proof.
  intros HD Hp Hm Hk. unfold restartDecisionFor, st_bind, get_restartStates, attempts in *. simpl in HD.
  rewrite Hk in HD. destruct (ex_restartStates r !! k) as [s|] eqn:E; simpl; [|lia].
  rewrite Hp, Hm, String.eqb_refl in HD. simpl in HD.
  destruct (Z.leb_spec cap (rs_attempts s)); [by injection HD|lia].
Qed.

Lemma decision_states cell id p b m r r1 d :
  restartDecisionFor cell id p b m r = (r1, d) →
  ex_restartStates r1 = ex_restartStates r ∧ relaunches r1 = relaunches r.
Proof.
  unfold restartDecisionFor, st_bind, get_restartStates. simpl.
  destruct (ex_restartStates r !! _) as [s|]; [|by intros [= <- _]].
  destruct (_ && _); [by intros [= <- _]|]. destruct (negb _); [|by intros [= <- _]].
  unfold lift. simpl. unfold beside. simpl. destruct (nowUTC _) as [w now]. by intros [= <- _].
Qed.

Lemma restartLoop_grows idxs byID cell res r r' x :
  restartLoop idxs byID cell res r = (r', x) → relaunches r `prefix_of` relaunches r'.
Proof.
  intros HE.
  assert (HF : respects (onWorld log_grows) (restartLoop idxs byID cell res)).
  { apply (restartLoop_frame log_grows (onWorld log_grows) (lift_onWorld log_grows)).
    - split; intros; apply beside_grows.
    - intros. apply logging_grows.
    - apply (get_onWorld log_grows).
    - apply (put_onWorld log_grows). }
  specialize (HF r). by rewrite HE in HF.
Qed.

Lemma clear_counted cell id r r' :
  clearRestartState cell id r = (r', tt) → restartStateKey cell id ≠ k →
  Counted r → Counted r' ∧ relaunches r' = relaunches r.
Proof.
  unfold clearRestartState, st_bind, get_restartStates, put_restartStates. simpl.
  intros [= <-] Hk HI. split; [|done]. revert HI. unfold Counted, attempts, relaunches. simpl.
  by rewrite lookup_delete_ne.
Qed.

Lemma restartLoop_counted idxs byID cell res r r' x :
  Agree cell → Ended (cellLockKey cell) byID → Counted r →
  restartLoop idxs byID cell res r = (r', x) → Forall Stable (relaunches r') → Counted r'.
Proof.
  revert cell res r. induction idxs as [|i idxs IH]; intros cell res r HA HN HI; simpl.
  { by intros [= <- _]. }
  destruct (csp_Containers _ !! i) as [spec|] eqn:Hi; [|by intros [= <- _]].
  destruct (c_Root spec) eqn:Hr; [by apply IH|].
  destruct (byID !! _) as [status|] eqn:Hb; [|by apply IH].
  destruct (containerStateIsTerminal _) eqn:Ht; simpl.
  2:{ unfold st_bind. destruct (clearRestartState cell (c_ID spec) r) as [r1 []] eqn:HC.
      apply IH; [done..|]. eapply clear_counted; [exact HC| |done].
      intros Hk. specialize (HN _ _ Hk Hb). congruence. }
  destruct (negb _); [by apply IH|]. unfold st_bind at 1.
  destruct (restartDecisionFor _ _ _ _ _ r) as [r1 d] eqn:HD.
  destruct (decision_states _ _ _ _ _ _ _ _ HD) as [HDs HDl].
  assert (HI1 : Counted r1) by (by eapply Counted_same).
  destruct d; [by apply IH| |by apply IH].
  unfold st_bind. destruct (lift _ r1) as [r2 started] eqn:HS.
  destruct (recordRestartAttempt _ _ r2) as [r3 []] eqn:HRc.
  destruct (record_counted _ _ _ _ _ _ HS HRc) as [HI3 HL]; [|done|].
  { intros Hk. destruct (HA spec) as [Hp Hm]; [by eapply list_elem_of_lookup_2|done|done|].
    assert (attempts r1 = attempts r) as -> by (unfold attempts; by rewrite HDs).
    by eapply decision_cap. }
  destruct started as [c|err]; [|by intros [= <- _]].
  destruct (lift _ r3) as [r4 now] eqn:HNow.
  assert (HL4 : relaunches r4 = relaunches r3 ∧ ex_restartStates r4 = ex_restartStates r3).
  { revert HNow. unfold lift. simpl. unfold beside. destruct (nowUTC _). by intros [= <- _]. }
  intros HE HF. pose proof (restartLoop_grows _ _ _ _ _ _ _ HE) as [tl Htl].
  assert (HSt : Stable (Build_Relaunch cell (c_ID spec) (Ok c))).
  { rewrite Htl, (proj1 HL4), HL, !Forall_app, Forall_singleton in HF. apply HF. }
  destruct (HSt c eq_refl) as [HKey HAg]. eapply IH; [| | |exact HE|exact HF].
  - exact HAg.
  - simpl in HKey. change (cellLockKey (stampContainerRestart c (c_ID spec) now)) with (cellLockKey c).
    by rewrite HKey.
  - by eapply Counted_same; [apply HL4|apply HL4|].
Qed.

(** What is not a relaunch leaves the log and the bookkeeping alone. *)
Definition untouched (r r' : R) : Prop :=
  relaunches r' = relaunches r ∧ ex_restartStates r' = ex_restartStates r.
#[local] Instance untouched_refl : Reflexive untouched.
Proof. intros r. split; reflexivity. Qed.
#[local] Instance untouched_trans : Transitive untouched.
Proof. intros r1 r2 r3 [? ?] [? ?]. split; congruence. Qed.
Lemma lift_untouched {A} (m : st W A) : respects untouched (lift (beside m)).
Proof. intros r. unfold lift, beside, untouched. by destruct (m _). Qed.
Lemma lift_untouched' A (m : st (W * list Relaunch) A) : respects same_log m → respects untouched (lift m).
Proof.
  intros Hm r. specialize (Hm (ex_world r)). unfold lift, untouched, relaunches, same_log in *.
  by destruct (m _) as [[w l] a].
Qed.
Lemma observations_untouched : ObservationFrame same_log.
Proof. split; intros; apply beside_same. Qed.
#[local] Hint Resolve lift_untouched : frame.

Lemma sticky_untouched cell : respects untouched (reconcileSticky cell).
Proof.
  apply (reconcileSticky_frame same_log untouched lift_untouched' observations_untouched).
  intros. apply beside_same.
Qed.
Lemma probeAndHeal_untouched cell : respects untouched (probeAndHealCgroup cell).
Proof. unfold probeAndHealCgroup. simpl. solve_frame. Qed.
Lemma populate_untouched cell : respects untouched (lift (populateCellContainerStatuses cell)).
Proof. apply lift_untouched', (populate_frame same_log observations_untouched). Qed.
Lemma derive_untouched e cell : respects untouched (deriveUnlessErr e cell).
Proof.
  unfold deriveUnlessErr. destruct e; [solve_frame|].
  apply (deriveCellState_frame same_log untouched lift_untouched' observations_untouched).
Qed.
Lemma persist_untouched orig cell :
  respects untouched (persistIfChanged orig cell) ∧ respects untouched (persistOutcome cell).
Proof. unfold persistIfChanged, persistOutcome, persistCellStatusGuarded. simpl. split; solve_frame. Qed.
Lemma reap_untouched cell :
  respects untouched (windDownCell cell) ∧ respects untouched (autoDeleteCell cell).
Proof. unfold windDownCell, autoDeleteCell. simpl. split; solve_frame. Qed.

Lemma Counted_untouched r r' : untouched r r' → Counted r → Counted r'.
Proof. intros [? ?]. by apply Counted_same. Qed.

Lemma settleCell_counted orig ns cell r r' x :
  Agree cell → Ended (cellLockKey cell) (statusByID (cst_Containers (cell_Status cell))) →
  Counted r → settleCell orig ns cell r = (r', x) → Forall Stable (relaunches r') → Counted r'.
Proof.
  intros HA HN HI. unfold settleCell, st_bind at 1.
  destruct (maybeRestartExitedContainers cell r) as [r1 [[cell1 res] e]] eqn:EM.
  assert (HI1 : Forall Stable (relaunches r1) → Counted r1).
  { revert EM. unfold maybeRestartExitedContainers.
    destruct (negb _); [by intros [= <- _]|]. destruct (rootNotRunning cell); [by intros [= <- _]|].
    by apply restartLoop_counted. }
  assert (HK : ∀ m : st R (Cell * ReconcileOutcome * option error),
    respects untouched m → m r1 = (r', x) → Forall Stable (relaunches r') → Counted r').
  { intros m Hm Em HF. specialize (Hm r1). rewrite Em in Hm. simpl in Hm.
    apply (Counted_untouched _ _ Hm), HI1. by rewrite <-(proj1 Hm). }
  destruct e; [by intros [= <- _]|].
  destruct res; [|apply HK, (persist_untouched orig)|apply HK, persist_untouched].
  destruct (shouldAutoDeleteCell _ _ _); [apply HK, reap_untouched|].
  destruct (_ && _); [apply HK, reap_untouched|apply HK, persist_untouched].
Qed.

Lemma reconcile_counted cell r r' x :
  Quiet cell r → Counted r →
  ReconcileCell cell r = (r', x) → Forall Stable (relaunches r') → Counted r'.
Proof.
  unfold Quiet, observed, ReconcileCell, st_bind at 1.
  pose proof (lift_untouched (GetCell cell) r) as E.
  change (@GetCell _ logged_RunnerHost cell) with (beside (L := list Relaunch) (@GetCell W _ cell)).
  destruct (lift (beside (@GetCell W _ cell)) r) as [r1 cur]. simpl in *. intros HQ HI%(Counted_untouched _ _ E).
  assert (HL : reconcileLive cell r1 = (r', x) → Forall Stable (relaunches r') → Counted r').
  { unfold reconcileLive. destruct (cellStateIsSticky _).
    { intros HE _. pose proof (sticky_untouched cell r1) as Hs. rewrite HE in Hs.
      by eapply Counted_untouched. }
    unfold st_bind. pose proof (probeAndHeal_untouched cell r1) as SA.
    destruct (probeAndHealCgroup cell r1) as [r2 [cA cgErr]].
    pose proof (populate_untouched cA r2) as SB. destruct (lift _ r2) as [r3 cB].
    pose proof (derive_untouched cgErr cB r3) as SC. destruct (deriveUnlessErr _ _ r3) as [r4 ns].
    simpl in *. fold (stampState (cell_Status cell) ns cB).
    destruct (stampState_keeps (cell_Status cell) ns cB) as (K1 & K2 & K3 & _).
    unfold Agree, restartStateKey, cellLockKey in HQ.
    apply settleCell_counted; unfold Agree, restartStateKey, cellLockKey; rewrite ?K1, ?K2, ?K3; [apply HQ..|].
    by apply (Counted_untouched r3), (Counted_untouched r2), (Counted_untouched r1). }
  destruct cur as [c|err]; [exact HL|]. destruct (error_is _ _); [|exact HL].
  by intros [= <- _].
Qed.

Notation LG := (@log_grows W Relaunch) (only parsing).
Lemma reconcile_grows cell r : relaunches r `prefix_of` relaunches (ReconcileCell cell r).1.
Proof.
  assert (OF : ObservationFrame LG) by (split; intros; apply beside_grows).
  pose proof (lift_onWorld LG) as HL.
  assert (HB : ∀ A (m : st W A), respects (onWorld LG) (lift (beside m)))
    by (intros; apply HL, beside_grows).
  assert (HP : ∀ orig c, respects (onWorld LG) (persistIfChanged orig c) ∧
    respects (onWorld LG) (persistOutcome c)).
  { intros. unfold persistIfChanged, persistOutcome, persistCellStatusGuarded. simpl. split; solve_frame. }
  assert (HS : respects (onWorld LG) (reconcileSticky cell)).
  { apply (reconcileSticky_frame LG _ HL OF). intros. apply beside_grows. }
  assert (HM : ∀ c, respects (onWorld LG) (maybeRestartExitedContainers c)).
  { apply (maybeRestart_frame LG _ HL OF); [intros; apply logging_grows|
      apply (get_onWorld LG)|apply (put_onWorld LG)]. }
  assert (HD : ∀ c, respects (onWorld LG) (deriveCellState c))
    by apply (deriveCellState_frame LG _ HL OF).
  assert (HO : ∀ c, respects (onWorld LG) (lift (populateCellContainerStatuses c)))
    by (intros; apply HL, (populate_frame LG OF)).
  enough (HF : respects (onWorld LG) (ReconcileCell cell)) by apply (HF r).
  unfold ReconcileCell, reconcileLive, probeAndHealCgroup, deriveUnlessErr, settleCell,
    autoDeleteCell, windDownCell. simpl.
  repeat (frame_step || (progress eauto with frame) || apply (HP (cell_Status cell)) || apply HP).
Qed.
Lemma pass_grows r p : relaunches r `prefix_of` relaunches (pass r p).
Proof. apply (reconcile_grows p.2 (MkExec (p.1, relaunches r) (ex_restartStates r))). Qed.

(** C40: An on-failure container that never comes up is not relaunched forever.
    From a daemon start, over any sequence of reconcile passes, whatever happens to
    the host between them: as long as no pass observes the container as anything
    but ended and each cell the passes observe, or get back from a relaunch, gives
    it policy on-failure and the same cap, the relaunches the passes ask for, failed
    ones included, are at most its cap (or one, for a cap below one). *)
Theorem on_failure_attempts_capped w passes :
  let r := foldl pass (MkExec (w, []) ∅) passes in
  AllQuiet (MkExec (w, []) ∅) passes → Forall Stable (relaunches r) →
  (Z.of_nat (launches (relaunches r)) ≤ Z.max 1 cap)%Z.
Proof.
  simpl. assert (HI : Counted (MkExec (w, []) ∅)).
  { unfold Counted, attempts. simpl. rewrite lookup_empty. simpl. unfold launches. simpl. lia. }
  assert (HG : ∀ ps r, relaunches r `prefix_of` relaunches (foldl pass r ps)).
  { induction ps as [|p ps IH]; intros r; simpl; [done|]. etrans; [apply pass_grows|apply IH]. }
  cut (AllQuiet (MkExec (w, []) ∅) passes → Forall Stable (relaunches (foldl pass (MkExec (w, []) ∅) passes)) →
       Counted (foldl pass (MkExec (w, []) ∅) passes)).
  { intros HC HQ HF. destruct (HC HQ HF) as [-> HB]. exact HB. }
  revert HI. generalize (@MkExec (W * list Relaunch) (w, []) ∅).
  induction passes as [|p ps IH]; intros r HI; simpl; [done|]. intros [HQ HQs] HF.
  apply IH; [|done..]. destruct (HG ps (pass r p)) as [tl Htl]. rewrite Htl, Forall_app in HF.
  unfold pass in HF |- *. destruct (ReconcileCell p.2 _) as [r' x] eqn:E.
  eapply reconcile_counted; [exact HQ| |exact E|apply HF]. revert HI. by apply Counted_same.
Qed.
End RestartCap.

(** ** A concrete host

    One cell with a root container and a job: a clock, the number of kills and
    deletes so far, whether the root runs and the job's exit code once it ended. *)

Record SampleWorld := {
  sw_clock : Z; sw_reaps : nat; sw_rootUp : bool; sw_jobExit : option Z
}.

Definition sw_task (id : string) (w : SampleWorld) : result TaskStatus :=
  let running := Ok {| tk_Status := ProcRunning; tk_ExitStatus := 0; tk_ExitTime := 0%Z |} in
  if HasSuffix id "_root" then
    if sw_rootUp w then running else Err (EWrap "load task: %w" [ESentinel ErrTaskNotFound])
  else match sw_jobExit w with
       | None => running
       | Some c => Ok {| tk_Status := ProcStopped; tk_ExitStatus := c; tk_ExitTime := 50%Z |}
       end.

Definition sw_HostConfig : HostConfig := {|
  SignalName := fun n => if Z.eqb n 9 then "SIGKILL" else "";
  RealmNamespaceSuffix := ".kukeon.io"; RunPath := "/run/kukeon" |}.

Definition sw_ContainerHost : ContainerHost SampleWorld := {|
  nowUTC := fun w => ({| sw_clock := sw_clock w + 1; sw_reaps := sw_reaps w;
                         sw_rootUp := sw_rootUp w; sw_jobExit := sw_jobExit w |}, sw_clock w);
  ensureClientConnected := st_ret None;
  GetRealm := fun r => st_ret (Ok r);
  ExistsContainer := fun _ _ => st_ret (Ok true);
  ctr_TaskStatus := fun _ id w => (w, sw_task id w);
  pullSetupStatus := fun _ => st_ret (Err (EOpaque "no socket")) |}.

Definition sw_reap (w : SampleWorld) : SampleWorld :=
  {| sw_clock := sw_clock w; sw_reaps := S (sw_reaps w); sw_rootUp := false;
     sw_jobExit := sw_jobExit w |}.

Definition sw_RunnerHost : RunnerHost SampleWorld := {|
  GetCell := fun c => st_ret (Ok c);
  ExistsCgroupCell := fun _ => st_ret (Ok true);
  ExistsCgroupRealm := fun _ => st_ret (Ok true);
  ExistsCgroupSpace := fun _ => st_ret (Ok true);
  ExistsCgroupStack := fun _ => st_ret (Ok true);
  ExistsRealmContainerdNamespace := fun _ => st_ret (Ok true);
  ExistsSpaceCNIConfig := fun _ => st_ret (Ok true);
  ctrClientSet := st_ret true;
  runnerExistsContainer := fun _ _ => st_ret (Ok true);
  ensureCellCgroup := fun c => st_ret (Ok c);
  UpdateCellMetadata := fun _ => st_ret None;
  UpdateRealmMetadata := fun _ => st_ret None;
  UpdateSpaceMetadata := fun _ => st_ret None;
  UpdateStackMetadata := fun _ => st_ret None;
  restartContainer := fun c _ w => (w, Ok c);
  killCellLocked := fun c w => (sw_reap w, Ok (upd_status (set_State CellStateStopped) c));
  deleteCellLocked := fun _ w => (sw_reap w, None) |}.

#[local] Existing Instance sw_HostConfig.
#[local] Existing Instance sw_ContainerHost.
#[local] Existing Instance sw_RunnerHost.

(** No kill and no delete happened in between. *)
Definition sw_noReap (w w' : SampleWorld) : Prop := sw_reaps w' = sw_reaps w.
#[local] Instance sw_noReap_refl : Reflexive sw_noReap.
Proof. intros w. reflexivity. Defined.
#[local] Instance sw_noReap_trans : Transitive sw_noReap.
Proof. intros w1 w2 w3. unfold sw_noReap. congruence. Defined.
Lemma sw_observations : ObservationFrame sw_noReap.
Proof. split; intros; intros w; reflexivity. Qed.

Lemma sw_GetCell : ∀ c, respects sw_noReap (GetCell c).
Proof. intros c w. reflexivity. Qed.
Lemma sw_UpdateCellMetadata : ∀ c, respects sw_noReap (UpdateCellMetadata c).
Proof. intros c w. reflexivity. Qed.
Lemma sw_ExistsCgroupCell : ∀ c, respects sw_noReap (ExistsCgroupCell c).
Proof. intros c w. reflexivity. Qed.
Lemma sw_ensureCellCgroup : ∀ c, respects sw_noReap (ensureCellCgroup c).
Proof. intros c w. reflexivity. Qed.
Definition jobCell (autoDelete : bool) (state : CellState) (policy : string) : Cell :=
  sample_cell autoDelete state
    [sample_container "root" true ""; sample_container "job" false policy]
    [sample_status "root" ContainerStateReady 0; sample_status "job" ContainerStateReady 0].

Definition jobWorld (rootUp : bool) (jobExit : option Z) : Exec SampleWorld :=
  MkExec {| sw_clock := 100; sw_reaps := 0; sw_rootUp := rootUp; sw_jobExit := jobExit |} ∅.

Lemma sticky_cell_left_alone_witness :
  let '(r', (cell', o, e)) :=
    ReconcileCell (jobCell true CellStateError "") (jobWorld true (Some 0%Z)) in
  sw_reaps (ex_world r') = 0%nat ∧ cst_State (cell_Status cell') = CellStateError.
Proof.
  destruct (ReconcileCell (jobCell true CellStateError "") (jobWorld true (Some 0%Z)))
    as [r' [[cell' o] e]] eqn:E.
  destruct (sticky_cell_left_alone sw_noReap (jobCell true CellStateError "") _ _ _ _ _ _ _
    sw_observations
    sw_GetCell sw_UpdateCellMetadata eq_refl E)
    as (H1 & _ & H2 & _). split; [exact H1|exact H2].
Defined.


Lemma reconcile_outcome_exact_witness :
  let '(r', (cell', o, e)) :=
    ReconcileCell (jobCell true CellStateReady "") (jobWorld true (Some 0%Z)) in
  ro_Deleted o = true ∧ DeletedOK cell' o.
Proof.
  destruct (ReconcileCell (jobCell true CellStateReady "") (jobWorld true (Some 0%Z)))
    as [r' [[cell' o] e]] eqn:E.
  split; [vm_compute in E; injection E as _ _ <- _; reflexivity|].
  exact (proj1 (proj2 (reconcile_outcome_exact _ _ _ _ _ _ E))).
Defined.

Lemma restart_owed_holds_degraded_witness :
  let cell := upd_status (set_Containers [sample_status "root" ContainerStateReady 0;
    sample_status "job" ContainerStateError 1]) (jobCell true CellStateReady "on-failure") in
  let '(_, (cell', _, _)) := settleCell (cell_Status cell) CellStateError cell
                               (jobWorld true (Some 1%Z)) in
  cst_State (cell_Status cell') = CellStateDegraded.
Proof.
  intros cell.
  destruct (settleCell (cell_Status cell) CellStateError cell (jobWorld true (Some 1%Z)))
    as [r' [[cell' o] e]] eqn:E.
  destruct (maybeRestartExitedContainers cell (jobWorld true (Some 1%Z)))
    as [r1 [[cell1 res] err]] eqn:EM.
  assert (HX : res = restartFired ∧ err = None)
    by (vm_compute in EM; injection EM as _ _ <- <-; split; reflexivity).
  destruct HX as [-> ->].
  exact (proj1 (restart_owed_holds_degraded _ _ _ _ _ _ _ _ _ _ _ EM ltac:(discriminate) E)).
Defined.

(** A job that keeps failing, looked at every 31 seconds: five relaunches in nine passes. *)
Definition crashing : Cell := jobCell false CellStateDegraded "on-failure".
Definition crashWorld (i : nat) : SampleWorld :=
  {| sw_clock := Z.of_nat i * 31 * Second; sw_reaps := 0; sw_rootUp := true; sw_jobExit := Some 1%Z |}.
Definition crashPasses : list (SampleWorld * Cell) := (fun i => (crashWorld i, crashing)) <$> seq 1 9.

Lemma crash_agrees c :
  cell_Spec c = cell_Spec crashing → Agree (restartStateKey crashing "job") 5%Z c.
Proof.
  intros E spec. rewrite E. intros Hin Hr. apply elem_of_cons in Hin as [->|Hin]; [discriminate Hr|].
  apply list_elem_of_singleton in Hin as ->. intros _. split; reflexivity.
Qed.

Lemma crash_ended key (byID : gmap string ContainerStatus) :
  key = cellLockKey crashing →
  match byID !! "job" with Some s => containerStateIsTerminal (cs_State s) | None => true end = true →
  Ended (restartStateKey crashing "job") key byID.
Proof.
  intros -> Hj id s. unfold restartStateKey. intros E%(inj _). injection E as ->. intros Hs.
  by rewrite Hs in Hj.
Qed.

Lemma on_failure_attempts_capped_witness :
  let key := restartStateKey crashing "job" in
  let log := relaunches (foldl pass (MkExec (crashWorld 0, []) ∅) crashPasses) in
  launches key log = 5%nat ∧ (Z.of_nat (launches key log) ≤ 5)%Z.
Proof.
  split; [vm_compute; reflexivity|].
  refine (on_failure_attempts_capped (restartStateKey crashing "job") 5%Z (crashWorld 0) crashPasses _ _).
  - repeat (split; [split; [apply crash_agrees; vm_compute; reflexivity
                           |apply crash_ended; vm_compute; reflexivity]|]). exact I.
  - apply (Forall_impl (fun l => rl_result l = Ok (rl_cell l) ∧ cell_Spec (rl_cell l) = cell_Spec crashing)).
    + vm_compute. repeat (apply Forall_cons; split; [split; reflexivity|]). apply Forall_nil. exact I.
    + intros l [E1 E2] c E3. rewrite E1 in E3. injection E3 as <-. split; [reflexivity|].
      by apply crash_agrees.
Defined.

(** ** Refresh and reconcile disagree on stickiness *)

(** An on-demand refresh re-derives a Failed cell's state, so stickiness does
    not survive it: a Failed auto-delete cell whose job exited cleanly is turned
    into Exited by RefreshCell, and the next reconcile pass deletes it, while
    reconciling the Failed cell directly keeps it. *)
Theorem refresh_unsticks_failed_cell :
  let cell := jobCell true CellStateFailed "" in
  let world := jobWorld true (Some 0%Z) in
  cst_State (cell_Status (ReconcileCell cell world).2.1.1) = CellStateFailed ∧
  (let '(r1, (refreshed, _, _)) := RefreshCell cell world in
   cst_State (cell_Status refreshed) = CellStateExited ∧
   ro_Deleted (ReconcileCell refreshed r1).2.1.2 = true).
Proof. vm_compute. split; [reflexivity|]. split; reflexivity. Qed.

(** A job with restartPolicy always is auto-deleted, not relaunched, when its
    cell's root container is down: the restart pass declines before it looks at
    the policy, and the auto-delete branch is taken although a restart-requiring
    policy is said to win. *)
Theorem auto_delete_beats_always_when_root_down :
  let outcome up := (ReconcileCell (jobCell true CellStateReady "always")
                       (jobWorld up (Some 0%Z))).2.1.2 in
  ro_Deleted (outcome true) = false ∧ ro_Deleted (outcome false) = true.
Proof. vm_compute. split; reflexivity. Qed.
