(* ===== verification/Diff.v ===== *)
(** * Diff: desired against actual (internal/controller/apply/diff.go)

    The comparison that decides what `kuke apply` does with an existing
    resource.  A [DiffResult] is threaded through the field checks in their
    source order; a Go map ranged over by the source appears as a list of its
    keys in the order of that range. *)

From Stdlib Require Import ZArith String.
From stdpp Require Import base gmap strings list.
From S2P Require Import Prelude Model.

#[global] Instance TtyStage_eq_dec : EqDecision TtyStage.
Proof. solve_decision. Defined.
#[global] Instance ContainerSecretRef_eq_dec : EqDecision ContainerSecretRef.
Proof. solve_decision. Defined.
#[global] Instance ContainerRepo_eq_dec : EqDecision ContainerRepo.
Proof. solve_decision. Defined.
#[global] Instance GitIdentity_eq_dec : EqDecision GitIdentity.
Proof. solve_decision. Defined.

(** ** Comparisons *)

(** The loop shared by the slice comparisons: lengths, then element by element. *)
Fixpoint list_eqb {A} (eqb : A → A → bool) (a b : list A) : bool :=
  match a, b with
  | [], [] => true
  | x :: a', y :: b' => eqb x y && list_eqb eqb a' b'
  | _, _ => false
  end.

Definition slicesEqual (a b : list string) : bool := list_eqb String.eqb a b.

(** Struct equality with [==]: the VolumeRef pointers are compared by identity. *)
Definition volumeMount_eqb (a b : VolumeMount) : bool :=
  String.eqb (vm_Kind a) (vm_Kind b) && String.eqb (vm_Source a) (vm_Source b)
  && String.eqb (vm_Target a) (vm_Target b) && ptr_eq (vm_VolumeRef a) (vm_VolumeRef b)
  && Bool.eqb (vm_ReadOnly a) (vm_ReadOnly b) && Z.eqb (vm_SizeBytes a) (vm_SizeBytes b)
  && Z.eqb (vm_Mode a) (vm_Mode b) && Bool.eqb (vm_Ensure a) (vm_Ensure b).

Definition volumeMountsEqual (a b : list VolumeMount) : bool := list_eqb volumeMount_eqb a b.

Definition reposEqual (a b : list ContainerRepo) : bool :=
  list_eqb (fun x y => bool_decide (x = y)) a b.

Definition secretRefEqual (a b : option ContainerSecretRef) : bool :=
  match a, b with
  | None, None => true
  | Some x, Some y => bool_decide (x = y)
  | _, _ => false
  end.

Definition secretsEqual (a b : list ContainerSecret) : bool :=
  list_eqb (fun x y =>
    String.eqb (sec_Name x) (sec_Name y) && String.eqb (sec_FromFile x) (sec_FromFile y)
    && String.eqb (sec_FromEnv x) (sec_FromEnv y) && String.eqb (sec_MountPath x) (sec_MountPath y)
    && secretRefEqual (sec_SecretRef x) (sec_SecretRef y)) a b.

Definition registryCredentialsEqual (a b : list RegistryCredentials) : bool :=
  list_eqb (fun x y =>
    String.eqb (rc_Username x) (rc_Username y) && String.eqb (rc_Password x) (rc_Password y)
    && String.eqb (rc_ServerAddress x) (rc_ServerAddress y)) a b.

Definition mapsEqual (a b : gmap string string) : bool :=
  Nat.eqb (size a) (size b)
  && forallb (fun kv => String.eqb (map_index b kv.1) kv.2) (map_to_list a).

Definition managedSuffix : string := ".kukeon.io".

Definition filterManagedLabels (m : gmap string string) : gmap string string :=
  filter (fun kv => HasSuffix kv.1 managedSuffix = false) m.

Definition userLabelsEqual (desired actual : gmap string string) : bool :=
  mapsEqual (filterManagedLabels desired) (filterManagedLabels actual).

Definition cellTtyEqual (a b : option CellTty) : bool :=
  match a, b with
  | None, None => true
  | None, Some y => String.eqb (ctty_Default y) ""
  | Some x, None => String.eqb (ctty_Default x) ""
  | Some x, Some y => String.eqb (ctty_Default x) (ctty_Default y)
  end.

Definition capabilitiesDrop (c : option ContainerCapabilities) : list string :=
  match c with None => [] | Some c => cap_Drop c end.
Definition capabilitiesAdd (c : option ContainerCapabilities) : list string :=
  match c with None => [] | Some c => cap_Add c end.

Definition capabilitiesEqual (a b : option ContainerCapabilities) : bool :=
  match a, b with
  | None, None => true
  | Some x, Some y => slicesEqual (cap_Drop x) (cap_Drop y) && slicesEqual (cap_Add x) (cap_Add y)
  | _, _ =>
      Nat.eqb (length (capabilitiesDrop a) + length (capabilitiesAdd a)) 0
      && Nat.eqb (length (capabilitiesDrop b) + length (capabilitiesAdd b)) 0
  end.

Definition tmpfsEqual (a b : list ContainerTmpfsMount) : bool :=
  list_eqb (fun x y => String.eqb (tm_Path x) (tm_Path y) && Z.eqb (tm_SizeBytes x) (tm_SizeBytes y)
                       && slicesEqual (tm_Options x) (tm_Options y)) a b.

Definition int64PtrEqual (a b : option Z) : bool :=
  match a, b with
  | None, None => true
  | Some x, Some y => Z.eqb x y
  | _, _ => false
  end.

Definition isNone {A} (o : option A) : bool := match o with None => true | Some _ => false end.

Definition resourcesAreZero (r : option ContainerResources) : bool :=
  match r with
  | None => true
  | Some r => isNone (res_MemoryLimitBytes r) && isNone (res_CPUShares r) && isNone (res_PidsLimit r)
  end.

Definition resourcesEqual (a b : option ContainerResources) : bool :=
  match a, b with
  | None, None => true
  | Some x, Some y =>
      int64PtrEqual (res_MemoryLimitBytes x) (res_MemoryLimitBytes y)
      && int64PtrEqual (res_CPUShares x) (res_CPUShares y)
      && int64PtrEqual (res_PidsLimit x) (res_PidsLimit y)
  | _, _ => resourcesAreZero a && resourcesAreZero b
  end.

Definition ttyEqual (a b : option ContainerTty) : bool :=
  if ContainerTty_IsEmpty a && ContainerTty_IsEmpty b then true
  else match a, b with
       | Some x, Some y =>
           String.eqb (ct_Prompt x) (ct_Prompt y) && String.eqb (ct_LogFile x) (ct_LogFile y)
           && String.eqb (ct_LogLevel x) (ct_LogLevel y)
           && list_eqb (fun s t => bool_decide (s = t)) (ct_OnInit x) (ct_OnInit y)
       | _, _ => false
       end.

Definition gitIdentityIsZero (id : option GitIdentity) : bool :=
  match id with
  | None => true
  | Some i => String.eqb (gi_Name i) "" && String.eqb (gi_Email i) ""
  end.

Definition gitIdentityEqual (a b : option GitIdentity) : bool :=
  if gitIdentityIsZero a && gitIdentityIsZero b then true
  else match a, b with
       | Some x, Some y => bool_decide (x = y)
       | _, _ => false
       end.

Definition gitIsZero (g : option ContainerGit) : bool :=
  match g with
  | None => true
  | Some g => gitIdentityIsZero (git_Author g) && gitIdentityIsZero (git_Committer g)
              && String.eqb (git_SigningKey g) "" && String.eqb (git_AllowedSigners g) ""
              && Nat.eqb (length (git_Sign g)) 0
  end.

Definition gitEqual (a b : option ContainerGit) : bool :=
  if gitIsZero a && gitIsZero b then true
  else match a, b with
       | Some x, Some y =>
           gitIdentityEqual (git_Author x) (git_Author y)
           && gitIdentityEqual (git_Committer x) (git_Committer y)
           && String.eqb (git_SigningKey x) (git_SigningKey y)
           && String.eqb (git_AllowedSigners x) (git_AllowedSigners y)
           && slicesEqual (git_Sign x) (git_Sign y)
       | _, _ => false
       end.

Definition spaceDefaultsContainer (d : option SpaceDefaults) : option SpaceContainerDefaults :=
  match d with None => None | Some d => sd_Container d end.

Definition spaceContainerDefaultsIsZero (c : option SpaceContainerDefaults) : bool :=
  match c with
  | None => true
  | Some c => String.eqb (scd_User c) "" && isNone (scd_ReadOnlyRootFilesystem c)
              && isNone (scd_Capabilities c) && Nat.eqb (length (scd_SecurityOpts c)) 0
              && Nat.eqb (length (scd_Tmpfs c)) 0 && isNone (scd_Resources c)
  end.

Definition boolPtrEqual (a b : option bool) : bool :=
  match a, b with
  | None, None => true
  | Some x, Some y => Bool.eqb x y
  | _, _ => false
  end.

Definition spaceDefaultsEqual (a b : option SpaceDefaults) : bool :=
  match spaceDefaultsContainer a, spaceDefaultsContainer b with
  | None, None => true
  | Some x, Some y =>
      String.eqb (scd_User x) (scd_User y)
      && boolPtrEqual (scd_ReadOnlyRootFilesystem x) (scd_ReadOnlyRootFilesystem y)
      && capabilitiesEqual (scd_Capabilities x) (scd_Capabilities y)
      && slicesEqual (scd_SecurityOpts x) (scd_SecurityOpts y)
      && tmpfsEqual (scd_Tmpfs x) (scd_Tmpfs y)
      && resourcesEqual (scd_Resources x) (scd_Resources y)
  | ac, bc => spaceContainerDefaultsIsZero ac && spaceContainerDefaultsIsZero bc
  end.

Definition findRootContainer (containers : list ContainerSpec) : option ContainerSpec :=
  find_first c_Root containers.

(** ** Results *)

Inductive ChangeType := ChangeTypeNone | ChangeTypeAdditive | ChangeTypeCompatible | ChangeTypeBreaking.

#[global] Instance ChangeType_eq_dec : EqDecision ChangeType.
Proof. solve_decision. Defined.

Definition isBreakingChange (t : ChangeType) : bool := bool_decide (t = ChangeTypeBreaking).

Record DiffResult := {
  dr_HasChanges : bool;
  dr_ChangeType : ChangeType;
  dr_ChangedFields : list string;
  dr_BreakingChanges : list string;
  dr_Details : gmap string string
}.

Definition emptyDiff : DiffResult :=
  {| dr_HasChanges := false; dr_ChangeType := ChangeTypeNone; dr_ChangedFields := [];
     dr_BreakingChanges := []; dr_Details := ∅ |}.

(** "if result.ChangeType == ChangeTypeNone { result.ChangeType = t }" *)
Definition raiseType (t cur : ChangeType) : ChangeType :=
  match cur with ChangeTypeNone => t | _ => cur end.

(** The two blocks the field checks are made of. *)
Definition recordBreaking (field detail : string) (r : DiffResult) : DiffResult :=
  {| dr_HasChanges := true; dr_ChangeType := ChangeTypeBreaking;
     dr_ChangedFields := dr_ChangedFields r;
     dr_BreakingChanges := dr_BreakingChanges r ++ [field];
     dr_Details := <[field := detail]> (dr_Details r) |}.

Definition recordCompatible (field detail : string) (r : DiffResult) : DiffResult :=
  {| dr_HasChanges := true; dr_ChangeType := raiseType ChangeTypeCompatible (dr_ChangeType r);
     dr_ChangedFields := dr_ChangedFields r ++ [field];
     dr_BreakingChanges := dr_BreakingChanges r;
     dr_Details := <[field := detail]> (dr_Details r) |}.

Definition recordSpecFieldChange (rootContainer breakingOnRoot : bool) (field detail : string)
    (r : DiffResult) : DiffResult :=
  if rootContainer && breakingOnRoot then recordBreaking field detail r
  else recordCompatible field detail r.

Definition when (b : bool) (f : DiffResult → DiffResult) (r : DiffResult) : DiffResult :=
  if b then f r else r.

(** Statements in sequence. *)
Definition runSteps (steps : list (DiffResult → DiffResult)) (r : DiffResult) : DiffResult :=
  foldl (fun r f => f r) r steps.

Definition changedFrom (what from to : string) : string :=
  what +:+ " changed from " +:+ from +:+ " to " +:+ to.
Definition breakingFrom (what from to : string) : string :=
  changedFrom what from to +:+ " (breaking)".

Definition labelsChangedMsg : string := "labels changed".

(** ** The diffs *)

Definition DiffRealm (desired actual : Realm) : DiffResult :=
  if negb (String.eqb (sm_Name (realm_Metadata desired)) (sm_Name (realm_Metadata actual))) then
    recordBreaking "metadata.name"
      (breakingFrom "name" (Quote (sm_Name (realm_Metadata actual)))
         (Quote (sm_Name (realm_Metadata desired)))) emptyDiff
  else if negb (String.eqb (rsp_Namespace (realm_Spec desired)) "")
          && negb (String.eqb (rsp_Namespace (realm_Spec desired)) (rsp_Namespace (realm_Spec actual)))
  then
    recordBreaking "spec.namespace"
      (breakingFrom "namespace" (Quote (rsp_Namespace (realm_Spec actual)))
         (Quote (rsp_Namespace (realm_Spec desired)))) emptyDiff
  else runSteps
    [ when (negb (mapsEqual (sm_Labels (realm_Metadata desired)) (sm_Labels (realm_Metadata actual))))
        (recordCompatible "metadata.labels" labelsChangedMsg);
      when (negb (registryCredentialsEqual (rsp_RegistryCredentials (realm_Spec desired))
                    (rsp_RegistryCredentials (realm_Spec actual))))
        (recordCompatible "spec.registryCredentials" "registry credentials changed") ] emptyDiff.

Definition DiffSpace (desired actual : Space) : DiffResult :=
  if negb (String.eqb (sm_Name (space_Metadata desired)) (sm_Name (space_Metadata actual))) then
    recordBreaking "metadata.name"
      (breakingFrom "name" (Quote (sm_Name (space_Metadata actual)))
         (Quote (sm_Name (space_Metadata desired)))) emptyDiff
  else if negb (String.eqb (spsp_RealmName (space_Spec desired)) (spsp_RealmName (space_Spec actual)))
  then
    recordBreaking "spec.realmName"
      (breakingFrom "realm" (Quote (spsp_RealmName (space_Spec actual)))
         (Quote (spsp_RealmName (space_Spec desired)))) emptyDiff
  else if negb (String.eqb (spsp_CNIConfigPath (space_Spec desired)) "")
          && negb (String.eqb (spsp_CNIConfigPath (space_Spec desired))
                     (spsp_CNIConfigPath (space_Spec actual)))
  then
    recordBreaking "spec.cniConfigPath"
      (changedFrom "CNI config path" (Quote (spsp_CNIConfigPath (space_Spec actual)))
         (Quote (spsp_CNIConfigPath (space_Spec desired)))
       +:+ " (breaking - requires network recreation)") emptyDiff
  else runSteps
    [ when (negb (mapsEqual (sm_Labels (space_Metadata desired)) (sm_Labels (space_Metadata actual))))
        (recordCompatible "metadata.labels" labelsChangedMsg);
      when (negb (spaceDefaultsEqual (spsp_Defaults (space_Spec desired))
                    (spsp_Defaults (space_Spec actual))))
        (recordCompatible "spec.defaults.container" "container defaults changed") ] emptyDiff.

Definition DiffStack (desired actual : Stack) : DiffResult :=
  if negb (String.eqb (sm_Name (stack_Metadata desired)) (sm_Name (stack_Metadata actual))) then
    recordBreaking "metadata.name"
      (breakingFrom "name" (Quote (sm_Name (stack_Metadata actual)))
         (Quote (sm_Name (stack_Metadata desired)))) emptyDiff
  else if negb (String.eqb (stsp_RealmName (stack_Spec desired)) (stsp_RealmName (stack_Spec actual)))
  then
    recordBreaking "spec.realmName"
      (breakingFrom "realm" (Quote (stsp_RealmName (stack_Spec actual)))
         (Quote (stsp_RealmName (stack_Spec desired)))) emptyDiff
  else if negb (String.eqb (stsp_SpaceName (stack_Spec desired)) (stsp_SpaceName (stack_Spec actual)))
  then
    recordBreaking "spec.spaceName"
      (breakingFrom "space" (Quote (stsp_SpaceName (stack_Spec actual)))
         (Quote (stsp_SpaceName (stack_Spec desired)))) emptyDiff
  else runSteps
    [ when (negb (mapsEqual (sm_Labels (stack_Metadata desired)) (sm_Labels (stack_Metadata actual))))
        (recordCompatible "metadata.labels" labelsChangedMsg);
      when (negb (String.eqb (stsp_ID (stack_Spec desired)) "")
            && negb (String.eqb (stsp_ID (stack_Spec desired)) (stsp_ID (stack_Spec actual))))
        (recordCompatible "spec.id"
           (changedFrom "ID" (Quote (stsp_ID (stack_Spec actual)))
              (Quote (stsp_ID (stack_Spec desired))))) ] emptyDiff.

(** The checks of diffContainerSpec, in order. *)
Definition containerSpecSteps (desired actual : ContainerSpec) (rootContainer : bool)
    : list (DiffResult → DiffResult) :=
  let root_breaking := recordSpecFieldChange rootContainer true in
  let always_compatible := recordSpecFieldChange rootContainer false in
  [ when (negb (String.eqb (c_Image desired) (c_Image actual)))
      (root_breaking "image"
         (changedFrom "image" (Quote (c_Image actual)) (Quote (c_Image desired))));
    when (negb (String.eqb (c_Command desired) (c_Command actual)))
      (root_breaking "command"
         (changedFrom "command" (Quote (c_Command actual)) (Quote (c_Command desired))));
    when (negb (slicesEqual (c_Args desired) (c_Args actual)))
      (root_breaking "args" "args changed");
    when (negb (slicesEqual (c_Env desired) (c_Env actual)))
      (always_compatible "env" "environment variables changed");
    when (negb (slicesEqual (c_Ports desired) (c_Ports actual)))
      (always_compatible "ports" "ports changed");
    when (negb (volumeMountsEqual (c_Volumes desired) (c_Volumes actual)))
      (root_breaking "volumes" "volumes changed");
    when (negb (Bool.eqb (c_Privileged desired) (c_Privileged actual)))
      (root_breaking "privileged"
         (changedFrom "privileged" (FmtBool (c_Privileged actual)) (FmtBool (c_Privileged desired))));
    when (negb (String.eqb (c_User desired) (c_User actual)))
      (root_breaking "user" (changedFrom "user" (Quote (c_User actual)) (Quote (c_User desired))));
    when (negb (Bool.eqb (c_ReadOnlyRootFilesystem desired) (c_ReadOnlyRootFilesystem actual)))
      (root_breaking "readOnlyRootFilesystem"
         (changedFrom "readOnlyRootFilesystem" (FmtBool (c_ReadOnlyRootFilesystem actual))
            (FmtBool (c_ReadOnlyRootFilesystem desired))));
    when (negb (capabilitiesEqual (c_Capabilities desired) (c_Capabilities actual)))
      (root_breaking "capabilities" "capabilities changed");
    when (negb (slicesEqual (c_SecurityOpts desired) (c_SecurityOpts actual)))
      (root_breaking "securityOpts" "securityOpts changed");
    when (negb (slicesEqual (c_Devices desired) (c_Devices actual)))
      (root_breaking "devices" "devices changed");
    when (negb (tmpfsEqual (c_Tmpfs desired) (c_Tmpfs actual)))
      (root_breaking "tmpfs" "tmpfs mounts changed");
    when (negb (resourcesEqual (c_Resources desired) (c_Resources actual)))
      (root_breaking "resources" "resource limits changed");
    when (negb (secretsEqual (c_Secrets desired) (c_Secrets actual)))
      (root_breaking "secrets" "secrets changed");
    when (negb (reposEqual (c_Repos desired) (c_Repos actual)))
      (always_compatible "repos" "repos changed");
    when (negb (String.eqb (c_WorkingDir desired) (c_WorkingDir actual)))
      (root_breaking "workingDir"
         (changedFrom "workingDir" (Quote (c_WorkingDir actual)) (Quote (c_WorkingDir desired))));
    when (negb (slicesEqual (c_Networks desired) (c_Networks actual)))
      (recordCompatible "networks" "networks changed");
    when (negb (slicesEqual (c_NetworksAliases desired) (c_NetworksAliases actual)))
      (recordCompatible "networksAliases" "networksAliases changed");
    when (negb (Bool.eqb (c_HostNetwork desired) (c_HostNetwork actual)))
      (recordBreaking "hostNetwork"
         (breakingFrom "hostNetwork" (FmtBool (c_HostNetwork actual)) (FmtBool (c_HostNetwork desired))));
    when (negb (Bool.eqb (c_HostPID desired) (c_HostPID actual)))
      (recordBreaking "hostPID"
         (breakingFrom "hostPID" (FmtBool (c_HostPID actual)) (FmtBool (c_HostPID desired))));
    when (negb (Bool.eqb (c_HostCgroup desired) (c_HostCgroup actual)))
      (recordBreaking "hostCgroup"
         (breakingFrom "hostCgroup" (FmtBool (c_HostCgroup actual)) (FmtBool (c_HostCgroup desired))));
    when (negb (String.eqb (c_CNIConfigPath desired) "")
          && negb (String.eqb (c_CNIConfigPath desired) (c_CNIConfigPath actual)))
      (recordCompatible "cniConfigPath"
         (changedFrom "cniConfigPath" (Quote (c_CNIConfigPath actual)) (Quote (c_CNIConfigPath desired))));
    when (negb (String.eqb (c_RestartPolicy desired) (c_RestartPolicy actual)))
      (recordCompatible "restartPolicy"
         (changedFrom "restartPolicy" (Quote (c_RestartPolicy actual)) (Quote (c_RestartPolicy desired))));
    when (negb (Bool.eqb (c_Attachable desired) (c_Attachable actual)))
      (recordCompatible "attachable"
         (changedFrom "attachable" (FmtBool (c_Attachable actual)) (FmtBool (c_Attachable desired))));
    when (negb (ttyEqual (c_Tty desired) (c_Tty actual)))
      (recordCompatible "tty" "tty changed");
    when (negb (gitEqual (c_Git desired) (c_Git actual)))
      (recordCompatible "git" "git identity changed") ].

Definition diffContainerSpec (desired actual : ContainerSpec) (rootContainer : bool) : DiffResult :=
  runSteps (containerSpecSteps desired actual rootContainer) emptyDiff.

(** DiffContainer merges the spec diff into the result of the label check. *)
Definition mergeSpecDiff (specDiff r : DiffResult) : DiffResult :=
  if dr_HasChanges specDiff then
    {| dr_HasChanges := true;
       dr_ChangeType := if isBreakingChange (dr_ChangeType specDiff) then ChangeTypeBreaking
                        else raiseType (dr_ChangeType specDiff) (dr_ChangeType r);
       dr_ChangedFields := dr_ChangedFields r ++ dr_ChangedFields specDiff;
       dr_BreakingChanges := dr_BreakingChanges r ++ dr_BreakingChanges specDiff;
       dr_Details := dr_Details specDiff ∪ dr_Details r |}
  else r.

Definition DiffContainer (desired actual : Container) : DiffResult :=
  let ds := cont_Spec desired in
  let as_ := cont_Spec actual in
  if negb (String.eqb (ctm_Name (cont_Metadata desired)) (ctm_Name (cont_Metadata actual))) then
    recordBreaking "metadata.name"
      (breakingFrom "name" (Quote (ctm_Name (cont_Metadata actual)))
         (Quote (ctm_Name (cont_Metadata desired)))) emptyDiff
  else if negb (String.eqb (c_RealmName ds) (c_RealmName as_))
          || negb (String.eqb (c_SpaceName ds) (c_SpaceName as_))
          || negb (String.eqb (c_StackName ds) (c_StackName as_))
          || negb (String.eqb (c_CellName ds) (c_CellName as_))
  then recordBreaking "spec.parent" "parent resource changed (breaking)" emptyDiff
  else mergeSpecDiff (diffContainerSpec ds as_ (c_Root ds))
         (when (negb (mapsEqual (ctm_Labels (cont_Metadata desired)) (ctm_Labels (cont_Metadata actual))))
            (recordCompatible "metadata.labels" labelsChangedMsg) emptyDiff).

(** *** DiffCell *)

Record ContainerDiff := {
  cd_Name : string;
  cd_Action : string;
  cd_ChangedFields : list string;
  cd_BreakingChanges : list string;
  cd_Details : gmap string string
}.

Record CellDiffResult := {
  cdr_Diff : DiffResult;
  cdr_RootContainerChanged : bool;
  cdr_RootContainerDetails : gmap string string;
  cdr_Containers : list ContainerDiff;
  cdr_Orphans : list string
}.

Definition cellDiff (r : DiffResult) : CellDiffResult :=
  {| cdr_Diff := r; cdr_RootContainerChanged := false; cdr_RootContainerDetails := ∅;
     cdr_Containers := []; cdr_Orphans := [] |}.

(** The cell-level checks after the identity ones. *)
Definition cellSteps (desired actual : Cell) : list (DiffResult → DiffResult) :=
  let ds := cell_Spec desired in
  let as_ := cell_Spec actual in
  [ when (negb (userLabelsEqual (cm_Labels (cell_Metadata desired)) (cm_Labels (cell_Metadata actual))))
      (recordCompatible "metadata.labels" labelsChangedMsg);
    when (negb (cellTtyEqual (csp_Tty ds) (csp_Tty as_)))
      (recordCompatible "spec.tty" "tty default changed");
    when (negb (Bool.eqb (csp_AutoDelete ds) (csp_AutoDelete as_)))
      (recordCompatible "spec.autoDelete"
         (changedFrom "autoDelete" (FmtBool (csp_AutoDelete as_)) (FmtBool (csp_AutoDelete ds))));
    when (negb (Bool.eqb (csp_NestedCgroupRuntime ds) (csp_NestedCgroupRuntime as_)))
      (recordBreaking "spec.nestedCgroupRuntime"
         (breakingFrom "nestedCgroupRuntime" (FmtBool (csp_NestedCgroupRuntime as_))
            (FmtBool (csp_NestedCgroupRuntime ds)))) ].

(** The root container's diff, qualified with rootContainer. *)
Definition mergeRootDiff (rootDiff : DiffResult) (r : CellDiffResult) : CellDiffResult :=
  if dr_HasChanges rootDiff then
    let d := cdr_Diff r in
    {| cdr_Diff := {|
         dr_HasChanges := true;
         dr_ChangeType := if isBreakingChange (dr_ChangeType rootDiff) then ChangeTypeBreaking
                          else raiseType (dr_ChangeType rootDiff) (dr_ChangeType d);
         dr_ChangedFields := dr_ChangedFields d
           ++ ((fun f => "rootContainer." +:+ f) <$> dr_ChangedFields rootDiff);
         dr_BreakingChanges := dr_BreakingChanges d
           ++ ((fun f => "rootContainer." +:+ f) <$> dr_BreakingChanges rootDiff);
         dr_Details := dr_Details d |};
       cdr_RootContainerChanged := true;
       cdr_RootContainerDetails := dr_Details rootDiff ∪ cdr_RootContainerDetails r;
       cdr_Containers := cdr_Containers r; cdr_Orphans := cdr_Orphans r |}
  else r.

Definition diffRoot (desired actual : Cell) (r : CellDiffResult) : CellDiffResult :=
  match findRootContainer (csp_Containers (cell_Spec desired)),
        findRootContainer (csp_Containers (cell_Spec actual)) with
  | Some desiredRoot, Some actualRoot =>
      mergeRootDiff (diffContainerSpec desiredRoot actualRoot true) r
  | Some _, None =>
      let d := cdr_Diff r in
      {| cdr_Diff := {| dr_HasChanges := true; dr_ChangeType := ChangeTypeBreaking;
                        dr_ChangedFields := dr_ChangedFields d;
                        dr_BreakingChanges := dr_BreakingChanges d ++ ["spec.rootContainer"];
                        dr_Details := dr_Details d |};
         cdr_RootContainerChanged := true;
         cdr_RootContainerDetails :=
           <["rootContainer" := "root container added"]> (cdr_RootContainerDetails r);
         cdr_Containers := cdr_Containers r; cdr_Orphans := cdr_Orphans r |}
  | None, _ => r
  end.

(** The non-root containers with an ID, by ID. *)
Definition childContainers (containers : list ContainerSpec) : gmap string ContainerSpec :=
  index_by c_ID id
    (List.filter (fun c => negb (c_Root c) && negb (String.eqb (c_ID c) "")) containers).

Definition addContainerDiff (t : ChangeType → ChangeType) (breaking : list string)
    (cd : ContainerDiff) (r : CellDiffResult) : CellDiffResult :=
  let d := cdr_Diff r in
  {| cdr_Diff := {| dr_HasChanges := true; dr_ChangeType := t (dr_ChangeType d);
                    dr_ChangedFields := dr_ChangedFields d;
                    dr_BreakingChanges := dr_BreakingChanges d ++ breaking;
                    dr_Details := dr_Details d |};
     cdr_RootContainerChanged := cdr_RootContainerChanged r;
     cdr_RootContainerDetails := cdr_RootContainerDetails r;
     cdr_Containers := cdr_Containers r ++ [cd]; cdr_Orphans := cdr_Orphans r |}.

(** One iteration of the range over the desired containers. *)
Definition diffChild (desired actual : gmap string ContainerSpec) (r : CellDiffResult)
    (id : string) : CellDiffResult :=
  match desired !! id with
  | None => r
  | Some desiredContainer =>
      match actual !! id with
      | None =>
          addContainerDiff (raiseType ChangeTypeAdditive) []
            {| cd_Name := id; cd_Action := "add"; cd_ChangedFields := []; cd_BreakingChanges := [];
               cd_Details := ∅ |} r
      | Some actualContainer =>
          let cd := diffContainerSpec desiredContainer actualContainer false in
          if dr_HasChanges cd then
            let entry := {| cd_Name := id; cd_Action := "update";
                            cd_ChangedFields := dr_ChangedFields cd;
                            cd_BreakingChanges := dr_BreakingChanges cd;
                            cd_Details := dr_Details cd |} in
            if isBreakingChange (dr_ChangeType cd) then
              addContainerDiff (fun _ => ChangeTypeBreaking)
                ((fun f => "containers[" +:+ id +:+ "]." +:+ f) <$> dr_BreakingChanges cd) entry r
            else addContainerDiff (raiseType (dr_ChangeType cd)) [] entry r
          else r
      end
  end.

(** One iteration of the range over the actual containers. *)
Definition diffOrphan (desired : gmap string ContainerSpec) (r : CellDiffResult) (id : string)
    : CellDiffResult :=
  match desired !! id with
  | Some _ => r
  | None =>
      let d := cdr_Diff r in
      {| cdr_Diff := {| dr_HasChanges := true;
                        dr_ChangeType := raiseType ChangeTypeAdditive (dr_ChangeType d);
                        dr_ChangedFields := dr_ChangedFields d;
                        dr_BreakingChanges := dr_BreakingChanges d;
                        dr_Details := dr_Details d |};
         cdr_RootContainerChanged := cdr_RootContainerChanged r;
         cdr_RootContainerDetails := cdr_RootContainerDetails r;
         cdr_Containers := cdr_Containers r; cdr_Orphans := cdr_Orphans r ++ [id] |}
  end.

(** [dorder] and [aorder] are the orders in which the runtime ranges over the
    maps of desired and of actual containers. *)
Definition DiffCell (dorder aorder : list string) (desired actual : Cell) : CellDiffResult :=
  let ds := cell_Spec desired in
  let as_ := cell_Spec actual in
  if negb (String.eqb (cm_Name (cell_Metadata desired)) (cm_Name (cell_Metadata actual))) then
    cellDiff (recordBreaking "metadata.name"
      (breakingFrom "name" (Quote (cm_Name (cell_Metadata actual)))
         (Quote (cm_Name (cell_Metadata desired)))) emptyDiff)
  else if negb (String.eqb (csp_RealmName ds) (csp_RealmName as_)) then
    cellDiff (recordBreaking "spec.realmName"
      (breakingFrom "realm" (Quote (csp_RealmName as_)) (Quote (csp_RealmName ds))) emptyDiff)
  else if negb (String.eqb (csp_SpaceName ds) (csp_SpaceName as_)) then
    cellDiff (recordBreaking "spec.spaceName"
      (breakingFrom "space" (Quote (csp_SpaceName as_)) (Quote (csp_SpaceName ds))) emptyDiff)
  else if negb (String.eqb (csp_StackName ds) (csp_StackName as_)) then
    cellDiff (recordBreaking "spec.stackName"
      (breakingFrom "stack" (Quote (csp_StackName as_)) (Quote (csp_StackName ds))) emptyDiff)
  else
    let r := diffRoot desired actual (cellDiff (runSteps (cellSteps desired actual) emptyDiff)) in
    let desiredContainers := childContainers (csp_Containers ds) in
    let actualContainers := childContainers (csp_Containers as_) in
    let r := foldl (diffChild desiredContainers actualContainers) r dorder in
    foldl (diffOrphan desiredContainers) r aorder.

(** An order in which a range over the map may visit it. *)
Definition RangeOrder {A} (m : gmap string A) (keys : list string) : Prop :=
  keys ≡ₚ (map_to_list m).*1.

Definition rangeKeys {A} (m : gmap string A) : list string := (map_to_list m).*1.

(** ** Theorems: shape of a diff *)

(** Flags, type and field lists of a result agree with one another. *)
Record DiffWF (r : DiffResult) : Prop := {
  wf_changes : dr_HasChanges r = true ↔ dr_ChangedFields r ≠ [] ∨ dr_BreakingChanges r ≠ [];
  wf_breaking : dr_ChangeType r = ChangeTypeBreaking ↔ dr_BreakingChanges r ≠ [];
  wf_none : dr_ChangeType r = ChangeTypeNone ↔ dr_HasChanges r = false;
  wf_additive : dr_ChangeType r ≠ ChangeTypeAdditive;
  wf_details : dom (dr_Details r) ≡@{gset string}
                 list_to_set (dr_ChangedFields r ++ dr_BreakingChanges r)
}.

Create HintDb diff.

Lemma app_singleton_ne {A} (l : list A) x : l ++ [x] ≠ [].
Proof. by destruct l. Qed.

Lemma emptyDiff_wf : DiffWF emptyDiff.
Proof. split; simpl; naive_solver set_solver. Qed.

Lemma recordBreaking_wf f d r : DiffWF r → DiffWF (recordBreaking f d r).
Proof.
  intros [H1 H2 H3 H4 H5]. pose proof (app_singleton_ne (dr_BreakingChanges r) f).
  split; simpl; [clear H5; naive_solver..|]. rewrite dom_insert, H5. set_solver.
Qed.

Lemma recordCompatible_wf f d r : DiffWF r → DiffWF (recordCompatible f d r).
Proof.
  intros [H1 H2 H3 H4 H5]. pose proof (app_singleton_ne (dr_ChangedFields r) f).
  split; simpl; [clear H5; destruct (dr_ChangeType r); naive_solver..|].
  rewrite dom_insert, H5. set_solver.
Qed.

Lemma recordSpecFieldChange_wf root b f d r :
  DiffWF r → DiffWF (recordSpecFieldChange root b f d r).
Proof.
  unfold recordSpecFieldChange. destruct (root && b);
    [apply recordBreaking_wf|apply recordCompatible_wf].
Qed.

Lemma when_wf b f r : (DiffWF r → DiffWF (f r)) → DiffWF r → DiffWF (when b f r).
Proof. destruct b; simpl; auto. Qed.

#[export] Hint Resolve emptyDiff_wf recordBreaking_wf recordCompatible_wf
  recordSpecFieldChange_wf when_wf : diff.

Lemma runSteps_wf steps r :
  Forall (fun f => ∀ r, DiffWF r → DiffWF (f r)) steps → DiffWF r → DiffWF (runSteps steps r).
Proof.
  intros HF. revert r. induction HF as [|f steps Hf _ IH]; intros r Hr; [done|].
  apply IH. auto.
Qed.

Lemma containerSpecSteps_wf d a root :
  Forall (fun f => ∀ r, DiffWF r → DiffWF (f r)) (containerSpecSteps d a root).
Proof.
  unfold containerSpecSteps. repeat (apply Forall_cons; split);
    [auto with diff..|apply Forall_nil_2].
Qed.

Lemma diffContainerSpec_wf d a root : DiffWF (diffContainerSpec d a root).
Proof. apply runSteps_wf; auto using containerSpecSteps_wf with diff. Qed.

Lemma mergeSpecDiff_wf s r :
  DiffWF s → DiffWF r → DiffWF (mergeSpecDiff s r).
Proof.
  intros [S1 S2 S3 S4 S5] [H1 H2 H3 H4 H5]. unfold mergeSpecDiff, isBreakingChange.
  destruct (dr_HasChanges s) eqn:E; [|by split].
  split; simpl.
  - split; [|done]. intros _. destruct (proj1 S1 eq_refl) as [Hc|Hb]; [left|right];
      intros [_ ?]%app_eq_nil; done.
  - case_bool_decide as Hb.
    + split; [|done]. intros _ [_ Hn]%app_eq_nil. apply S2 in Hb. done.
    + assert (dr_BreakingChanges s = []) as -> by (destruct (dr_BreakingChanges s); naive_solver).
      rewrite app_nil_r, <-H2. destruct (dr_ChangeType r); simpl; naive_solver.
  - split; [|done]. case_bool_decide; [done|]. destruct (dr_ChangeType r); simpl; naive_solver.
  - case_bool_decide; [done|]. destruct (dr_ChangeType r); simpl; naive_solver.
  - rewrite dom_union, S5, H5. set_solver.
Qed.

(** Every diff of a realm, space, stack or container is consistent: it has
    changes exactly when it names a changed or breaking field, is Breaking exactly
    when it names a breaking one, is None exactly when it has no changes, is never
    Additive, and gives a detail for exactly the fields it names. *)
Theorem diff_results_consistent :
  (∀ d a, DiffWF (DiffRealm d a)) ∧ (∀ d a, DiffWF (DiffSpace d a)) ∧
  (∀ d a, DiffWF (DiffStack d a)) ∧ (∀ d a, DiffWF (DiffContainer d a)).
Proof.
  assert (HS : ∀ f g : DiffResult → DiffResult, (∀ r, DiffWF r → DiffWF (f r)) →
    (∀ r, DiffWF r → DiffWF (g r)) → DiffWF (runSteps [f; g] emptyDiff))
    by (intros f g Hf Hg; apply runSteps_wf; auto with diff).
  split_and!; intros d a.
  - unfold DiffRealm. destruct (negb _); [auto with diff|]. destruct (_ && _); auto with diff.
  - unfold DiffSpace. do 2 (destruct (negb _); [auto with diff|]).
    destruct (_ && _); auto with diff.
  - unfold DiffStack. do 3 (destruct (negb _); [auto with diff|]). auto with diff.
  - unfold DiffContainer. destruct (negb _); [auto with diff|].
    destruct (_ || _); [auto with diff|]. apply mergeSpecDiff_wf; auto using diffContainerSpec_wf with diff.
Qed.

(** ** Theorems: the container diff is exact *)

Lemma list_eqb_fmap {A B} (eqb : A → A → bool) (n : A → B) a b :
  (∀ x y, eqb x y = true ↔ n x = n y) → list_eqb eqb a b = true ↔ n <$> a = n <$> b.
Proof.
  intros He. revert b. induction a as [|x a IH]; intros [|y b]; try done.
  cbn [list_eqb]. rewrite andb_true_iff, He, IH, !fmap_cons. split.
  - intros [Hx Hl]. by rewrite Hx, Hl.
  - intros [= Hx Hl]. done.
Qed.

Lemma list_eqb_spec {A} (eqb : A → A → bool) a b :
  (∀ x y, eqb x y = true ↔ x = y) → list_eqb eqb a b = true ↔ a = b.
Proof. intros He. rewrite (list_eqb_fmap eqb id) by done. by rewrite !list_fmap_id. Qed.

Lemma slicesEqual_spec a b : slicesEqual a b = true ↔ a = b.
Proof. apply list_eqb_spec, String.eqb_eq. Qed.

Lemma tmpfsEqual_spec a b : tmpfsEqual a b = true ↔ a = b.
Proof.
  apply list_eqb_spec. intros [p s o] [p' s' o']. simpl.
  rewrite !andb_true_iff, String.eqb_eq, Z.eqb_eq, slicesEqual_spec. naive_solver.
Qed.

Lemma reposEqual_spec a b : reposEqual a b = true ↔ a = b.
Proof. apply list_eqb_spec. intros. apply bool_decide_eq_true. Qed.

Lemma secretsEqual_spec a b : secretsEqual a b = true ↔ a = b.
Proof.
  apply list_eqb_spec. intros [n f e r m] [n' f' e' r' m']. simpl.
  rewrite !andb_true_iff, !String.eqb_eq.
  destruct r, r'; simpl; rewrite ?bool_decide_eq_true; naive_solver.
Qed.

(** Equality of normal forms against the conjunction of the field equalities. *)
Ltac norm_eq :=
  split; [intros; destruct_and?; simplify_eq/=; congruence
         |intros; simplify_eq/=; repeat split; congruence].

Definition volNorm (v : VolumeMount) :=
  (vm_Kind v, vm_Source v, vm_Target v, ptr_addr <$> vm_VolumeRef v, vm_ReadOnly v,
   vm_SizeBytes v, vm_Mode v, vm_Ensure v).

Lemma volumeMountsEqual_spec a b :
  volumeMountsEqual a b = true ↔ volNorm <$> a = volNorm <$> b.
Proof.
  apply list_eqb_fmap. intros [k s t p ro sz m e] [k' s' t' p' ro' sz' m' e'].
  unfold volumeMount_eqb, volNorm. simpl.
  rewrite !andb_true_iff, !String.eqb_eq, !Bool.eqb_true_iff, !Z.eqb_eq.
  destruct p as [p|], p' as [p'|]; simpl; rewrite ?Pos.eqb_eq; norm_eq.
Qed.

Definition capNorm (c : option ContainerCapabilities) :=
  match c with None => ([], []) | Some c => (cap_Drop c, cap_Add c) end.

Lemma length2_zero {A} (l1 l2 : list A) :
  Nat.eqb (length l1 + length l2) 0 = true ↔ l1 = [] ∧ l2 = [].
Proof. rewrite Nat.eqb_eq. destruct l1, l2; simpl; naive_solver lia. Qed.

Lemma capabilitiesEqual_spec a b : capabilitiesEqual a b = true ↔ capNorm a = capNorm b.
Proof.
  destruct a as [[d1 a1]|], b as [[d2 a2]|]; unfold capabilitiesEqual, capNorm;
    cbn [capabilitiesDrop capabilitiesAdd cap_Drop cap_Add];
    rewrite ?andb_true_iff, ?slicesEqual_spec, ?length2_zero; naive_solver.
Qed.

Definition resNorm (r : option ContainerResources) :=
  match r with
  | None => (None, None, None)
  | Some r => (res_MemoryLimitBytes r, res_CPUShares r, res_PidsLimit r)
  end.

Lemma int64PtrEqual_spec a b : int64PtrEqual a b = true ↔ a = b.
Proof. destruct a, b; simpl; rewrite ?Z.eqb_eq; naive_solver. Qed.

Lemma isNone_spec {A} (o : option A) : isNone o = true ↔ o = None.
Proof. destruct o; naive_solver. Qed.

Lemma resourcesEqual_spec a b : resourcesEqual a b = true ↔ resNorm a = resNorm b.
Proof.
  destruct a as [[m1 c1 p1]|], b as [[m2 c2 p2]|]; simpl;
    rewrite ?andb_true_iff, ?int64PtrEqual_spec, ?isNone_spec; naive_solver.
Qed.

(** A block that only holds blank stages counts as absent. *)
Definition tty_blank (t : ContainerTty) : Prop :=
  ct_Prompt t = "" ∧ ct_LogFile t = "" ∧ ct_LogLevel t = "" ∧
  Forall (fun s => ts_Script s = "" ∧ ts_RunOn s = "") (ct_OnInit t).
#[export] Instance tty_blank_dec t : Decision (tty_blank t).
Proof. unfold tty_blank. apply _. Defined.

Definition ttyNorm (t : option ContainerTty) :=
  match t with
  | None => ("", "", "", [])
  | Some t => if decide (tty_blank t) then ("", "", "", [])
              else (ct_Prompt t, ct_LogFile t, ct_LogLevel t, ct_OnInit t)
  end.

Lemma tty_blank_spec t : ContainerTty_IsEmpty (Some t) = true ↔ tty_blank t.
Proof.
  unfold tty_blank. cbn [ContainerTty_IsEmpty].
  rewrite !andb_true_iff, !String.eqb_eq, forallb_elem, Forall_forall.
  setoid_rewrite andb_true_iff. setoid_rewrite String.eqb_eq. tauto.
Qed.

Lemma ttyNorm_code t : ttyNorm t =
  if ContainerTty_IsEmpty t then ("", "", "", [])
  else match t with
       | None => ("", "", "", [])
       | Some t => (ct_Prompt t, ct_LogFile t, ct_LogLevel t, ct_OnInit t)
       end.
Proof.
  destruct t as [t|]; [|done]. unfold ttyNorm. pose proof (tty_blank_spec t) as HB.
  destruct (decide (tty_blank t)), (ContainerTty_IsEmpty (Some t)); naive_solver.
Qed.

Lemma length_zero {A} (l : list A) : Nat.eqb (length l) 0 = true ↔ l = [].
Proof. rewrite Nat.eqb_eq. destruct l; naive_solver. Qed.

Lemma ttyEmpty_spec t : ContainerTty_IsEmpty t = true ↔ ttyNorm t = ("", "", "", []).
Proof.
  rewrite ttyNorm_code. destruct (ContainerTty_IsEmpty t) eqn:E; [done|].
  destruct t as [[p o f l]|]; [|done]. split; [done|]. cbn. intros [= -> -> -> ->]. done.
Qed.

Lemma ttyEqual_spec a b : ttyEqual a b = true ↔ ttyNorm a = ttyNorm b.
Proof.
  unfold ttyEqual. destruct (ContainerTty_IsEmpty a && _) eqn:E.
  - apply andb_true_iff in E as [Ea%ttyEmpty_spec Eb%ttyEmpty_spec]. by rewrite Ea, Eb.
  - assert (Hne : ¬ (ttyNorm a = ("", "", "", []) ∧ ttyNorm b = ("", "", "", []))).
    { intros [Ha%ttyEmpty_spec Hb%ttyEmpty_spec]. by rewrite Ha, Hb in E. }
    destruct a as [x|], b as [y|]; [|naive_solver..].
    rewrite !andb_true_iff, !String.eqb_eq,
      (list_eqb_spec _ (ct_OnInit x) (ct_OnInit y) (fun x y => bool_decide_eq_true (x = y))).
    rewrite <-!ttyEmpty_spec in Hne. split.
    + destruct x, y. rewrite !ttyNorm_code. cbn. naive_solver.
    + destruct (ContainerTty_IsEmpty (Some x)) eqn:Ex; intros Hn.
      * pose proof Ex as Ex'. rewrite ttyEmpty_spec, Hn, <-ttyEmpty_spec in Ex'. naive_solver.
      * rewrite !ttyNorm_code, Ex in Hn.
        destruct (ContainerTty_IsEmpty (Some y)) eqn:Ey; [|naive_solver].
        destruct x. cbn in *. naive_solver.
Qed.

Definition idNorm (i : option GitIdentity) :=
  match i with None => ("", "") | Some i => (gi_Name i, gi_Email i) end.

Lemma gitIdentityZero_spec i : gitIdentityIsZero i = true ↔ idNorm i = ("", "").
Proof.
  destruct i as [[n e]|]; simpl; [|done].
  rewrite andb_true_iff, !String.eqb_eq. naive_solver.
Qed.

Lemma gitIdentityEqual_spec a b : gitIdentityEqual a b = true ↔ idNorm a = idNorm b.
Proof.
  unfold gitIdentityEqual. destruct (gitIdentityIsZero a && _) eqn:E.
  - apply andb_true_iff in E as [Ea%gitIdentityZero_spec Eb%gitIdentityZero_spec].
    by rewrite Ea, Eb.
  - assert (Hne : ¬ (idNorm a = ("", "") ∧ idNorm b = ("", ""))).
    { intros [Ha%gitIdentityZero_spec Hb%gitIdentityZero_spec]. by rewrite Ha, Hb in E. }
    destruct a as [[n e]|], b as [[n' e']|]; simpl in *; rewrite ?bool_decide_eq_true; naive_solver.
Qed.

Definition gitNorm (g : option ContainerGit) :=
  match g with
  | None => (("", ""), ("", ""), "", "", [])
  | Some g => (idNorm (git_Author g), idNorm (git_Committer g), git_SigningKey g,
               git_AllowedSigners g, git_Sign g)
  end.

Lemma gitZero_spec g : gitIsZero g = true ↔ gitNorm g = (("", ""), ("", ""), "", "", []).
Proof.
  destruct g as [[a c k s al]|]; simpl; [|done].
  rewrite !andb_true_iff, !String.eqb_eq, !gitIdentityZero_spec, length_zero. norm_eq.
Qed.

Lemma gitEqual_spec a b : gitEqual a b = true ↔ gitNorm a = gitNorm b.
Proof.
  unfold gitEqual. destruct (gitIsZero a && _) eqn:E.
  - apply andb_true_iff in E as [Ea%gitZero_spec Eb%gitZero_spec]. by rewrite Ea, Eb.
  - assert (Hne : ¬ (gitNorm a = (("", ""), ("", ""), "", "", []) ∧
                     gitNorm b = (("", ""), ("", ""), "", "", []))).
    { intros [Ha%gitZero_spec Hb%gitZero_spec]. by rewrite Ha, Hb in E. }
    destruct a as [[a1 c1 k1 s1 l1]|], b as [[a2 c2 k2 s2 l2]|]; simpl in *;
      [|split; [done|intros Hx; exfalso; apply Hne; split; congruence]..].
    rewrite !andb_true_iff, !gitIdentityEqual_spec, !String.eqb_eq, slicesEqual_spec. norm_eq.
Qed.

(** What the container diff sees of a spec: nil and empty blocks coincide, and a
    VolumeRef is the pointer, not its target. *)
Definition specNorm (c : ContainerSpec) :=
  ((c_Image c, c_Command c, c_Args c, c_Env c, c_Ports c, volNorm <$> c_Volumes c,
    c_Privileged c, c_User c, c_ReadOnlyRootFilesystem c),
   (capNorm (c_Capabilities c), c_SecurityOpts c, c_Devices c, c_Tmpfs c,
    resNorm (c_Resources c), c_Secrets c, c_Repos c, c_WorkingDir c, c_Networks c),
   (c_NetworksAliases c, c_HostNetwork c, c_HostPID c, c_HostCgroup c, c_RestartPolicy c,
    c_Attachable c, ttyNorm (c_Tty c), gitNorm (c_Git c))).

(** A desired CNI path is only compared when it is set. *)
Definition cniAgrees (desired actual : ContainerSpec) : Prop :=
  c_CNIConfigPath desired = "" ∨ c_CNIConfigPath desired = c_CNIConfigPath actual.

(** [f] reports a change exactly when [b]. *)
Definition flags (f : DiffResult → DiffResult) (b : bool) : Prop :=
  ∀ r, dr_HasChanges (f r) = b || dr_HasChanges r.

Lemma flags_when b f : (∀ r, dr_HasChanges (f r) = true) → flags (when b f) b.
Proof. intros Hf r. destruct b; simpl; [apply Hf|done]. Qed.

Lemma recordSpecFieldChange_has root b f d r :
  dr_HasChanges (recordSpecFieldChange root b f d r) = true.
Proof. unfold recordSpecFieldChange. by destruct (root && b). Qed.

Lemma flags_runSteps steps bs r :
  Forall2 flags steps bs → dr_HasChanges (runSteps steps r) = existsb id bs || dr_HasChanges r.
Proof.
  intros HF. revert r. induction HF as [|f b steps bs Hf _ IH]; intros r; [done|].
  unfold runSteps. cbn [foldl existsb]. fold (runSteps steps (f r)). rewrite IH, Hf.
  unfold id at 2. by destruct b, (existsb id bs).
Qed.

Lemma cni_guard d a :
  negb (String.eqb (c_CNIConfigPath d) "") && negb (String.eqb (c_CNIConfigPath d) (c_CNIConfigPath a))
  = false ↔ cniAgrees d a.
Proof.
  unfold cniAgrees. destruct (String.eqb_spec (c_CNIConfigPath d) "");
    destruct (String.eqb_spec (c_CNIConfigPath d) (c_CNIConfigPath a)); simpl; naive_solver.
Qed.

Lemma diffContainerSpec_exact d a root :
  dr_HasChanges (diffContainerSpec d a root) = false ↔ specNorm d = specNorm a ∧ cniAgrees d a.
Proof.
  unfold diffContainerSpec. erewrite flags_runSteps.
  2:{ unfold containerSpecSteps.
      repeat (apply Forall2_cons; split;
        [apply flags_when; intros; first [apply recordSpecFieldChange_has|reflexivity]|]).
      exact (List.Forall2_nil _). }
  rewrite <-cni_guard.
  cbn [existsb dr_HasChanges emptyDiff]. unfold id. rewrite orb_false_r.
  rewrite !orb_false_iff, !negb_false_iff, !String.eqb_eq, !Bool.eqb_true_iff, !slicesEqual_spec,
    volumeMountsEqual_spec, capabilitiesEqual_spec, tmpfsEqual_spec, resourcesEqual_spec,
    secretsEqual_spec, reposEqual_spec, ttyEqual_spec, gitEqual_spec.
  unfold specNorm. split.
  - intros Hall. split; [|tauto]. destruct_and?.
    repeat match goal with HE : _ = _ |- _ => rewrite HE; clear HE end. reflexivity.
  - rewrite !pair_equal_spec. tauto.
Qed.

(** The container diff is exact: it reports no change exactly when every field
    it tracks agrees, nil and empty blocks counting as the same, and a set desired
    CNI path is the actual one. *)
Theorem container_diff_exact d a root :
  dr_HasChanges (diffContainerSpec d a root) = false ↔ specNorm d = specNorm a ∧ cniAgrees d a.
Proof. apply diffContainerSpec_exact. Qed.

(** ** Theorems: which changes are breaking *)

(** The fields baked into the cell's runtime spec when its root starts. *)
Definition bakedNorm (c : ContainerSpec) :=
  ((c_Image c, c_Command c, c_Args c, volNorm <$> c_Volumes c, c_Privileged c, c_User c,
    c_ReadOnlyRootFilesystem c),
   (capNorm (c_Capabilities c), c_SecurityOpts c, c_Devices c, c_Tmpfs c,
    resNorm (c_Resources c), c_Secrets c, c_WorkingDir c)).

(** The host-namespace toggles. *)
Definition hostNorm (c : ContainerSpec) := (c_HostNetwork c, c_HostPID c, c_HostCgroup c).

Definition breaks (f : DiffResult → DiffResult) (b : bool) : Prop :=
  ∀ r, isBreakingChange (dr_ChangeType (f r)) = b || isBreakingChange (dr_ChangeType r).

Lemma breaks_recordBreaking b f d : breaks (when b (recordBreaking f d)) b.
Proof. intros r. by destruct b. Qed.
Lemma breaks_recordCompatible b f d : breaks (when b (recordCompatible f d)) false.
Proof. intros [? [] ? ? ?]; by destruct b. Qed.
Lemma breaks_rootField b f d root :
  breaks (when b (recordSpecFieldChange root true f d)) (root && b).
Proof. intros [? [] ? ? ?]; by destruct b, root. Qed.
Lemma breaks_liveField b f d root : breaks (when b (recordSpecFieldChange root false f d)) false.
Proof. intros [? [] ? ? ?]; by destruct b, root. Qed.

Lemma breaks_runSteps steps bs r :
  Forall2 breaks steps bs →
  isBreakingChange (dr_ChangeType (runSteps steps r))
  = existsb id bs || isBreakingChange (dr_ChangeType r).
Proof.
  intros HF. revert r. induction HF as [|f b steps bs Hf _ IH]; intros r; [done|].
  unfold runSteps. cbn [foldl existsb]. fold (runSteps steps (f r)). rewrite IH, Hf.
  unfold id at 2. by destruct b, (existsb id bs).
Qed.

Lemma diffContainerSpec_breaking d a root :
  isBreakingChange (dr_ChangeType (diffContainerSpec d a root)) = false ↔
  (root = true → bakedNorm d = bakedNorm a) ∧ hostNorm d = hostNorm a.
Proof.
  unfold diffContainerSpec. erewrite breaks_runSteps.
  2:{ unfold containerSpecSteps.
      repeat (apply Forall2_cons; split;
        [first [apply breaks_recordBreaking|apply breaks_recordCompatible
               |apply breaks_rootField|apply breaks_liveField]|]).
      exact (List.Forall2_nil _). }
  cbn [existsb dr_ChangeType emptyDiff]. unfold id, bakedNorm, hostNorm.
  rewrite !orb_false_l, !orb_false_r.
  destruct root; cbn [andb]; rewrite ?orb_false_l, !orb_false_iff, !negb_false_iff, ?String.eqb_eq,
    !Bool.eqb_true_iff, ?slicesEqual_spec, ?volumeMountsEqual_spec, ?capabilitiesEqual_spec,
    ?tmpfsEqual_spec, ?resourcesEqual_spec, ?secretsEqual_spec; rewrite !pair_equal_spec;
    [|naive_solver].
  split; [intros Hall; split; [intros _|]; tauto|]. intros [Hb Hh]. specialize (Hb eq_refl). tauto.
Qed.

(** A container change can be applied in place exactly when the host-namespace
    toggles agree and, for a root container, so does every field baked into the
    cell's runtime spec (image, command, args, volumes, privileged, user, read-only
    root, capabilities, securityOpts, devices, tmpfs, resources, secrets,
    workingDir): only then is the diff not Breaking; a change of env, ports, repos,
    networks, tty, git, restart policy or attachability alone never is. *)
Theorem breaking_exactly_when_baked d a root :
  dr_ChangeType (diffContainerSpec d a root) ≠ ChangeTypeBreaking ↔
  (root = true → bakedNorm d = bakedNorm a) ∧ hostNorm d = hostNorm a.
Proof. rewrite <-diffContainerSpec_breaking. unfold isBreakingChange. by rewrite bool_decide_eq_false. Qed.

(** ** Theorems: the cell diff *)

Section CellDiff.
Context (desired actual : gmap string ContainerSpec).

(** What one visited container contributes. *)
Definition childChanges (id : string) : bool :=
  match desired !! id with
  | None => false
  | Some d => match actual !! id with
              | None => true
              | Some a => dr_HasChanges (diffContainerSpec d a false)
              end
  end.

Definition childBreaks (id : string) : bool :=
  match desired !! id with
  | None => false
  | Some d => match actual !! id with
              | None => false
              | Some a => isBreakingChange (dr_ChangeType (diffContainerSpec d a false))
              end
  end.

Definition childEntry (id : string) : option ContainerDiff :=
  last (cdr_Containers (diffChild desired actual (cellDiff emptyDiff) id)).

Definition orphaned (id : string) : bool := isNone (desired !! id).

Lemma wf_breaking_changes d a root :
  isBreakingChange (dr_ChangeType (diffContainerSpec d a root)) = true →
  dr_HasChanges (diffContainerSpec d a root) = true.
Proof.
  intros Hb%bool_decide_eq_true. destruct (diffContainerSpec_wf d a root) as [_ _ H3 _ _].
  apply not_false_iff_true. intros E%H3. congruence.
Qed.

Lemma isBreaking_raise t cur :
  isBreakingChange t = false → isBreakingChange (raiseType t cur) = isBreakingChange cur.
Proof. by destruct t, cur. Qed.

Lemma diffChild_effect r id :
  let r' := diffChild desired actual r id in
  dr_HasChanges (cdr_Diff r') = childChanges id || dr_HasChanges (cdr_Diff r) ∧
  isBreakingChange (dr_ChangeType (cdr_Diff r'))
    = childBreaks id || isBreakingChange (dr_ChangeType (cdr_Diff r)) ∧
  cdr_Containers r' = cdr_Containers r ++ option_list (childEntry id) ∧
  cdr_Orphans r' = cdr_Orphans r.
Proof.
  unfold childChanges, childBreaks, childEntry, diffChild.
  destruct (desired !! id) as [d|]; [|simpl; by rewrite app_nil_r].
  destruct (actual !! id) as [a|]; [|simpl; by destruct (dr_ChangeType (cdr_Diff r))].
  pose proof (wf_breaking_changes d a false) as HW.
  destruct (dr_HasChanges (diffContainerSpec d a false)) eqn:HC.
  - destruct (isBreakingChange _) eqn:HB; simpl; [done|]. split_and!; try done.
    by rewrite isBreaking_raise.
  - destruct (isBreakingChange (dr_ChangeType (diffContainerSpec d a false))); [naive_solver|].
    simpl. by rewrite app_nil_r.
Qed.

Lemma foldl_diffChild r keys :
  let r' := foldl (diffChild desired actual) r keys in
  dr_HasChanges (cdr_Diff r') = existsb childChanges keys || dr_HasChanges (cdr_Diff r) ∧
  isBreakingChange (dr_ChangeType (cdr_Diff r'))
    = existsb childBreaks keys || isBreakingChange (dr_ChangeType (cdr_Diff r)) ∧
  cdr_Containers r' = cdr_Containers r ++ omap childEntry keys ∧ cdr_Orphans r' = cdr_Orphans r.
Proof.
  revert r. induction keys as [|k keys IH]; intros r; cbn [foldl existsb].
  { simpl. by rewrite app_nil_r. }
  destruct (IH (diffChild desired actual r k)) as (H1 & H2 & H3 & H4).
  destruct (diffChild_effect r k) as (E1 & E2 & E3 & E4). cbv zeta in *.
  rewrite H1, H2, H3, H4, E1, E2, E3, E4, <-app_assoc. split_and!; [| | |done].
  - by destruct (childChanges k), (existsb childChanges keys).
  - by destruct (childBreaks k), (existsb childBreaks keys).
  - f_equal. simpl. by destruct (childEntry k).
Qed.

Lemma foldl_diffOrphan r keys :
  let r' := foldl (diffOrphan desired) r keys in
  dr_HasChanges (cdr_Diff r') = existsb orphaned keys || dr_HasChanges (cdr_Diff r) ∧
  isBreakingChange (dr_ChangeType (cdr_Diff r')) = isBreakingChange (dr_ChangeType (cdr_Diff r)) ∧
  cdr_Containers r' = cdr_Containers r ∧
  cdr_Orphans r' = cdr_Orphans r ++ List.filter orphaned keys.
Proof.
  revert r. induction keys as [|k keys IH]; intros r; cbn [foldl existsb List.filter].
  { simpl. by rewrite app_nil_r. }
  destruct (IH (diffOrphan desired r k)) as (H1 & H2 & H3 & H4). cbv zeta in *.
  rewrite H1, H2, H3, H4. unfold diffOrphan, orphaned, isNone.
  destruct (desired !! k) as [d|] eqn:E; [done|]. cbn -[isBreakingChange].
  split_and!; [by rewrite orb_true_r|by rewrite isBreaking_raise|done|by rewrite <-app_assoc].
Qed.
End CellDiff.

Lemma existsb_perm {A} (f : A → bool) l1 l2 : l1 ≡ₚ l2 → existsb f l1 = existsb f l2.
Proof. induction 1; simpl; [done|congruence|by rewrite !orb_assoc, (orb_comm (f y))|congruence]. Qed.

Lemma filter_perm {A} (f : A → bool) l1 l2 : l1 ≡ₚ l2 → List.filter f l1 ≡ₚ List.filter f l2.
Proof.
  induction 1 as [|x l1 l2 _ IH|x y l|l1 l2 l3 _ IH1 _ IH2]; simpl; [done| | |by etrans].
  - destruct (f x); [by apply Permutation_skip|done].
  - destruct (f x), (f y); try done. apply Permutation_swap.
Qed.

(** Two results that differ at most in the order of their lists and in the
    non-breaking change types. *)
Definition SameVerdict (r1 r2 : CellDiffResult) : Prop :=
  dr_HasChanges (cdr_Diff r1) = dr_HasChanges (cdr_Diff r2) ∧
  isBreakingChange (dr_ChangeType (cdr_Diff r1)) = isBreakingChange (dr_ChangeType (cdr_Diff r2)) ∧
  cdr_Containers r1 ≡ₚ cdr_Containers r2 ∧ cdr_Orphans r1 ≡ₚ cdr_Orphans r2.

(** Whether a cell needs changing, whether the change is breaking, and which
    containers are added, updated or removed do not depend on the order in which
    the maps of containers happen to be visited. *)
Theorem cell_diff_order_independent d a do1 do2 ao1 ao2 :
  RangeOrder (childContainers (csp_Containers (cell_Spec d))) do1 →
  RangeOrder (childContainers (csp_Containers (cell_Spec d))) do2 →
  RangeOrder (childContainers (csp_Containers (cell_Spec a))) ao1 →
  RangeOrder (childContainers (csp_Containers (cell_Spec a))) ao2 →
  SameVerdict (DiffCell do1 ao1 d a) (DiffCell do2 ao2 d a).
Proof.
  unfold RangeOrder. intros Hd1 Hd2 Ha1 Ha2.
  assert (Hd : do1 ≡ₚ do2) by (by rewrite Hd1, Hd2).
  assert (Ha : ao1 ≡ₚ ao2) by (by rewrite Ha1, Ha2).
  unfold DiffCell. do 4 (destruct (negb _); [done|]).
  set (dc := childContainers _). set (ac := childContainers _). set (r := diffRoot _ _ _).
  destruct (foldl_diffOrphan dc (foldl (diffChild dc ac) r do1) ao1) as (A1 & A2 & A3 & A4).
  destruct (foldl_diffOrphan dc (foldl (diffChild dc ac) r do2) ao2) as (B1 & B2 & B3 & B4).
  destruct (foldl_diffChild dc ac r do1) as (C1 & C2 & C3 & C4).
  destruct (foldl_diffChild dc ac r do2) as (D1 & D2 & D3 & D4). cbv zeta in *.
  unfold SameVerdict.
  rewrite A1, A2, A3, A4, B1, B2, B3, B4, C1, C2, C3, C4, D1, D2, D3, D4.
  rewrite (existsb_perm _ _ _ Hd), (existsb_perm _ _ _ Ha), (existsb_perm (childBreaks dc ac) _ _ Hd).
  split_and!; [done|done|by rewrite Hd|by rewrite (filter_perm _ _ _ Ha)].
Qed.

(** Visiting every key of a map. *)
Lemma existsb_range {A} (m : gmap string A) keys f :
  RangeOrder m keys → existsb f keys = false ↔ ∀ k x, m !! k = Some x → f k = false.
Proof.
  unfold RangeOrder. intros Hk. rewrite existsb_false_elem. split.
  - intros HF k x Hx. apply HF. rewrite Hk, list_elem_of_fmap. exists (k, x).
    by rewrite elem_of_map_to_list.
  - intros HF k Hin. rewrite Hk, list_elem_of_fmap in Hin.
    destruct Hin as ([k' x] & -> & Hx%elem_of_map_to_list). by eapply HF.
Qed.

(** The container's tracked fields agree. *)
Definition sameContainer (desired actual : ContainerSpec) : Prop :=
  specNorm desired = specNorm actual ∧ cniAgrees desired actual.

(** The root of a list of containers: the first one flagged as root ... *)
Definition rootOf (cs : list ContainerSpec) (r : ContainerSpec) : Prop :=
  ∃ pre post, cs = pre ++ r :: post ∧ c_Root r = true ∧ Forall (fun c => c_Root c = false) pre.
(** ... and the child of a name: the last one that is not a root and bears it. *)
Definition childOf (cs : list ContainerSpec) (id : string) (c : ContainerSpec) : Prop :=
  id ≠ "" ∧ ∃ pre post, cs = pre ++ c :: post ∧ c_Root c = false ∧ c_ID c = id ∧
    Forall (fun x => c_Root x = true ∨ c_ID x ≠ id) post.

(** The keys of the labels the user wrote. *)
Definition userKeys (m : gmap string string) : gset string :=
  filter (fun k => HasSuffix k ".kukeon.io" = false) (dom m).

(** As many user labels, and each desired one is there; an empty desired value also
    matches a missing label. *)
Definition labelsAgree (desired actual : gmap string string) : Prop :=
  size (userKeys desired) = size (userKeys actual) ∧
  ∀ k v, HasSuffix k ".kukeon.io" = false → desired !! k = Some v →
    actual !! k = Some v ∨ (v = "" ∧ actual !! k = None).

Definition ttyDefault (t : option CellTty) : string :=
  match t with None => "" | Some t => ctty_Default t end.

(** The actual cell is what the desired document describes, as far as the diff
    tracks it and up to what the controller adds. *)
Record Materialized (desired actual : Cell) : Prop := {
  mat_name : cm_Name (cell_Metadata desired) = cm_Name (cell_Metadata actual);
  mat_realm : csp_RealmName (cell_Spec desired) = csp_RealmName (cell_Spec actual);
  mat_space : csp_SpaceName (cell_Spec desired) = csp_SpaceName (cell_Spec actual);
  mat_stack : csp_StackName (cell_Spec desired) = csp_StackName (cell_Spec actual);
  mat_labels : labelsAgree (cm_Labels (cell_Metadata desired)) (cm_Labels (cell_Metadata actual));
  mat_tty : ttyDefault (csp_Tty (cell_Spec desired)) = ttyDefault (csp_Tty (cell_Spec actual));
  mat_autoDelete : csp_AutoDelete (cell_Spec desired) = csp_AutoDelete (cell_Spec actual);
  mat_nested : csp_NestedCgroupRuntime (cell_Spec desired)
               = csp_NestedCgroupRuntime (cell_Spec actual);
  mat_root : ∀ d, rootOf (csp_Containers (cell_Spec desired)) d →
    ∃ a, rootOf (csp_Containers (cell_Spec actual)) a ∧ sameContainer d a;
  mat_children : ∀ id d, childOf (csp_Containers (cell_Spec desired)) id d →
    ∃ a, childOf (csp_Containers (cell_Spec actual)) id a ∧ sameContainer d a;
  mat_orphans : ∀ id a, childOf (csp_Containers (cell_Spec actual)) id a →
    ∃ d, childOf (csp_Containers (cell_Spec desired)) id d
}.

Lemma findRoot_spec cs r : findRootContainer cs = Some r ↔ rootOf cs r.
Proof.
  unfold findRootContainer, find_first, rootOf. induction cs as [|c cs IH]; cbn.
  { split; [done|]. intros (pre & post & E & _). by destruct pre. }
  destruct (c_Root c) eqn:Hc.
  - split.
    + intros [= <-]. by exists [], cs.
    + intros ([|x pre] & post & E & Hr & HF); [by injection E as -> _|].
      injection E as -> _. apply Forall_cons in HF as [? _]. congruence.
  - rewrite IH. split.
    + intros (pre & post & -> & Hr & HF). exists (c :: pre), post. split_and!; [done..|by constructor].
    + intros ([|x pre] & post & E & Hr & HF); [injection E as -> _; congruence|].
      injection E as -> ->. apply Forall_cons in HF as [_ HF]. by exists pre, post.
Qed.

Lemma child_spec cs k c : childContainers cs !! k = Some c ↔ childOf cs k c.
Proof.
  unfold childContainers, childOf. induction cs as [|x cs IH] using rev_ind.
  { split; [done|]. intros (_ & pre & post & E & _). by destruct pre. }
  rewrite List.filter_app. cbn. set (keep := negb (c_Root x) && _) in *.
  assert (HS : ∀ pre (c : ContainerSpec) post, cs ++ [x] = pre ++ c :: post →
    (post = [] ∧ pre = cs ∧ c = x) ∨ ∃ post', post = post' ++ [x] ∧ cs = pre ++ c :: post').
  { intros pre c0 post. destruct post as [|y post _] using rev_ind.
    - intros [-> [= ->]]%app_inj_2; [|done]. by left.
    - rewrite app_comm_cons, app_assoc. intros [-> [= ->]]%app_inj_2; [|done]. right. by exists post. }
  destruct (keep && String.eqb (c_ID x) k) eqn:E.
  - apply andb_true_iff in E as [E1 E2%String.eqb_eq]. rewrite E1, index_by_app. cbn. unfold id at 1.
    apply andb_true_iff in E1 as [Hr%negb_true_iff Hn%negb_true_iff%String.eqb_neq].
    rewrite E2 at 1. rewrite lookup_insert_eq. rewrite E2 in Hn. split.
    + intros [= <-]. split; [done|]. exists cs, []. by split_and!.
    + intros (_ & pre & post & [(-> & -> & ->)|(post' & -> & _)]%HS & _ & _ & HF); [done|].
      apply Forall_app in HF as [_ [[?|?] _]%Forall_cons]; congruence.
  - assert (HL : index_by c_ID id (List.filter (fun c => negb (c_Root c) && negb (String.eqb (c_ID c) "")) cs
        ++ (if keep then [x] else [])) !! k
      = index_by c_ID id (List.filter (fun c => negb (c_Root c) && negb (String.eqb (c_ID c) "")) cs) !! k).
    { destruct keep; [|by rewrite app_nil_r]. rewrite index_by_app. cbn. rewrite lookup_insert_ne; [done|].
      by apply String.eqb_neq. }
    rewrite HL, IH. split.
    + intros (Hn & pre & post & -> & Hr & Hi & HF). split; [done|]. exists pre, (post ++ [x]).
      split_and!; [by rewrite <-app_assoc|done|done|]. apply Forall_app. split; [done|].
      apply Forall_singleton. unfold keep in E. destruct (c_Root x); [by left|right].
      intros E2. rewrite E2, String.eqb_refl, (proj2 (String.eqb_neq _ _) Hn) in E. done.
    + intros (Hn & pre & post & [(-> & -> & ->)|(post' & -> & Hcs)]%HS & Hr & Hi & HF).
      * unfold keep in E. rewrite Hr, Hi, String.eqb_refl, (proj2 (String.eqb_neq _ _) Hn) in E. done.
      * split; [done|]. exists pre, post'. apply Forall_app in HF as [HF _]. by split_and!.
Qed.

Lemma labels_spec d a : userLabelsEqual d a = true ↔ labelsAgree d a.
Proof.
  assert (HD : ∀ m, size (filterManagedLabels m) = size (userKeys m)).
  { intros m. rewrite <-size_dom. f_equal. apply set_eq. intros k. unfold userKeys, filterManagedLabels.
    rewrite elem_of_filter, !elem_of_dom. unfold is_Some. setoid_rewrite map_lookup_filter_Some. naive_solver. }
  unfold userLabelsEqual, mapsEqual, labelsAgree. rewrite andb_true_iff, Nat.eqb_eq, !HD, forallb_elem.
  apply and_iff_compat_l. split.
  - intros HF k v Hk Hv. specialize (HF (k, v)). rewrite elem_of_map_to_list in HF.
    unfold filterManagedLabels at 1 in HF. rewrite map_lookup_filter_Some in HF. cbn in HF.
    specialize (HF (conj Hv Hk)). apply String.eqb_eq in HF. unfold map_index in HF.
    destruct (filterManagedLabels a !! k) as [w|] eqn:E.
    + apply map_lookup_filter_Some in E as [E _]. left. cbn in HF. congruence.
    + right. split; [by cbn in HF|]. apply map_lookup_filter_None in E as [E|E]; [done|].
      destruct (a !! k) as [w|] eqn:Ea; [|done]. by destruct (E w).
  - intros HF [k v]. rewrite elem_of_map_to_list. unfold filterManagedLabels at 1.
    rewrite map_lookup_filter_Some. cbn. intros [Hv Hk]. apply String.eqb_eq. unfold map_index.
    destruct (HF k v Hk Hv) as [Ha|[-> Ha]].
    + assert (filterManagedLabels a !! k = Some v) as -> by (by apply map_lookup_filter_Some). done.
    + assert (filterManagedLabels a !! k = None) as -> by (apply map_lookup_filter_None; by left). done.
Qed.

Lemma cellTty_spec a b : cellTtyEqual a b = true ↔ ttyDefault a = ttyDefault b.
Proof. destruct a, b; cbn; rewrite ?String.eqb_eq; naive_solver. Qed.

Lemma diffRoot_has d a r :
  dr_HasChanges (cdr_Diff (diffRoot d a r)) = false ↔
  (∀ rd, rootOf (csp_Containers (cell_Spec d)) rd →
     ∃ ra, rootOf (csp_Containers (cell_Spec a)) ra ∧ sameContainer rd ra) ∧
  dr_HasChanges (cdr_Diff r) = false.
Proof.
  setoid_rewrite <-findRoot_spec. unfold diffRoot, mergeRootDiff, sameContainer.
  destruct (findRootContainer _) as [rd|]; [|split; [intros; by split|by intros [_ ?]]].
  destruct (findRootContainer _) as [ra|].
  2:{ simpl. split; [done|]. intros [HA _]. by destruct (HA rd eq_refl) as (? & ? & _). }
  pose proof (diffContainerSpec_exact rd ra true) as HE.
  destruct (dr_HasChanges (diffContainerSpec rd ra true)); simpl; split.
  - done.
  - intros [HA _]. destruct (HA rd eq_refl) as (x & [= <-] & Hx). apply HE in Hx. done.
  - intros Hr. split; [|done]. intros x [= <-]. exists ra. split; [done|]. by apply HE.
  - by intros [_ ?].
Qed.

Lemma cellSteps_has d a :
  dr_HasChanges (runSteps (cellSteps d a) emptyDiff) = false ↔
  labelsAgree (cm_Labels (cell_Metadata d)) (cm_Labels (cell_Metadata a)) ∧
  ttyDefault (csp_Tty (cell_Spec d)) = ttyDefault (csp_Tty (cell_Spec a)) ∧
  csp_AutoDelete (cell_Spec d) = csp_AutoDelete (cell_Spec a) ∧
  csp_NestedCgroupRuntime (cell_Spec d) = csp_NestedCgroupRuntime (cell_Spec a).
Proof.
  erewrite flags_runSteps.
  2:{ unfold cellSteps.
      repeat (apply Forall2_cons; split; [apply flags_when; intros; reflexivity|]).
      exact (List.Forall2_nil _). }
  cbn [existsb dr_HasChanges emptyDiff]. unfold id.
  rewrite !orb_false_r, !orb_false_iff, !negb_false_iff, !Bool.eqb_true_iff, labels_spec, cellTty_spec. done.
Qed.

Lemma children_has dcs acs dorder aorder :
  let dc := childContainers dcs in let ac := childContainers acs in
  RangeOrder dc dorder → RangeOrder ac aorder →
  (existsb (childChanges dc ac) dorder = false ∧ existsb (orphaned dc) aorder = false) ↔
  (∀ id d, childOf dcs id d → ∃ a, childOf acs id a ∧ sameContainer d a) ∧
  (∀ id a, childOf acs id a → ∃ d, childOf dcs id d).
Proof.
  intros dc ac Hd Ha. setoid_rewrite <-child_spec. fold dc ac.
  rewrite (existsb_range dc) by done. rewrite (existsb_range ac) by done.
  unfold childChanges, orphaned, sameContainer. setoid_rewrite <-(diffContainerSpec_exact _ _ false). split.
  - intros [H1 H2]. split; intros id x Hx.
    + specialize (H1 id x Hx). rewrite Hx in H1. destruct (ac !! id) as [y|]; [eauto|done].
    + specialize (H2 id x Hx). destruct (dc !! id) as [y|]; [eauto|done].
  - intros [H1 H2]. split; intros id x Hx.
    + rewrite Hx. by destruct (H1 id x Hx) as (y & -> & ?).
    + by destruct (H2 id x Hx) as (y & ->).
Qed.

(** C9: The cell diff is exact: it reports no change if and only if the actual cell
    agrees with the desired one on every field the diff tracks: name and parents, the
    labels not ending in .kukeon.io (as many of them, each desired value present; an
    empty desired value also matches a missing label), the default terminal,
    auto-delete and nested-cgroup flags, the first root container when the document
    has one, and the last non-root container of each name, none being left over.
    Containers are compared on the fields of [specNorm]: nil and empty blocks are the
    same, a volume reference is compared as a pointer and the CNI path only when the
    document sets it.  Annotations, provenance, the runtime environment, the
    disk-pressure override, a container's nested-cgroup flag, restart backoff and retry
    cap, and the fields the runner stamps are not compared. *)
Theorem cell_diff_empty_iff_materialized d a dorder aorder :
  RangeOrder (childContainers (csp_Containers (cell_Spec d))) dorder →
  RangeOrder (childContainers (csp_Containers (cell_Spec a))) aorder →
  dr_HasChanges (cdr_Diff (DiffCell dorder aorder d a)) = false ↔ Materialized d a.
Proof.
  intros Hd Ha. unfold DiffCell.
  destruct (String.eqb_spec (cm_Name (cell_Metadata d)) (cm_Name (cell_Metadata a))) as [E1|E1];
    [simpl negb; cbv iota|split; [done|by intros []]].
  destruct (String.eqb_spec (csp_RealmName (cell_Spec d)) (csp_RealmName (cell_Spec a))) as [E2|E2];
    [simpl negb; cbv iota|split; [done|by intros []]].
  destruct (String.eqb_spec (csp_SpaceName (cell_Spec d)) (csp_SpaceName (cell_Spec a))) as [E3|E3];
    [simpl negb; cbv iota|split; [done|by intros []]].
  destruct (String.eqb_spec (csp_StackName (cell_Spec d)) (csp_StackName (cell_Spec a))) as [E4|E4];
    [simpl negb; cbv iota|split; [done|by intros []]].
  cbv zeta. set (dc := childContainers (csp_Containers (cell_Spec d))) in *.
  set (ac := childContainers (csp_Containers (cell_Spec a))) in *. set (r := diffRoot _ _ _).
  destruct (foldl_diffOrphan dc (foldl (diffChild dc ac) r dorder) aorder) as (A1 & _).
  destruct (foldl_diffChild dc ac r dorder) as (C1 & _). cbv zeta in *.
  rewrite A1, C1. unfold r. rewrite !orb_false_iff, diffRoot_has. cbn [cellDiff cdr_Diff].
  rewrite cellSteps_has.
  pose proof (children_has (csp_Containers (cell_Spec d)) (csp_Containers (cell_Spec a)) dorder aorder Hd Ha) as HC.
  cbv zeta in HC. fold dc ac in HC. split.
  - intros (Ho & Hc & Hr & Hl & Ht & Hauto & Hn). destruct (proj1 HC (conj Hc Ho)) as [M1 M2]. by split.
  - intros []. destruct (proj2 HC (conj mat_children0 mat_orphans0)). tauto.
Qed.

(** The desired cell: one child; the actual one as created: managed label, a
    synthesised root, the stamped CNI path. *)
Definition reapply_desired : Cell :=
  sample_cell false CellStatePending [sample_container "web" false "always"] [].
Definition reapply_actual : Cell :=
  sample_cell false CellStateReady
    [sample_container "root" true ""; sample_container "web" false "always"] [].

Lemma cell_diff_empty_iff_materialized_witness :
  RangeOrder (childContainers (csp_Containers (cell_Spec reapply_desired))) ["web"] ∧
  Materialized reapply_desired reapply_actual.
Proof.
  assert (H1 : RangeOrder (childContainers (csp_Containers (cell_Spec reapply_desired))) ["web"])
    by (unfold RangeOrder; vm_compute; reflexivity).
  assert (H2 : RangeOrder (childContainers (csp_Containers (cell_Spec reapply_actual))) ["web"])
    by (unfold RangeOrder; vm_compute; reflexivity).
  split; [exact H1|].
  apply (cell_diff_empty_iff_materialized reapply_desired reapply_actual ["web"] ["web"] H1 H2).
  vm_compute. reflexivity.
Defined.

Lemma cell_diff_order_independent_witness :
  let d := sample_cell false CellStatePending
    [sample_container "a" false ""; sample_container "b" false ""] [] in
  SameVerdict (DiffCell ["a"; "b"] [] d (cell_named "r" "s" "t" "web"))
    (DiffCell ["b"; "a"] [] d (cell_named "r" "s" "t" "web")).
Proof.
  intros d.
  assert (HP : RangeOrder (childContainers (csp_Containers (cell_Spec d))) ["a"; "b"])
    by (unfold RangeOrder; vm_compute; first [reflexivity|apply Permutation_swap]).
  apply cell_diff_order_independent; [exact HP| |unfold RangeOrder; vm_compute; reflexivity
    |unfold RangeOrder; vm_compute; reflexivity].
  unfold RangeOrder. etransitivity; [apply Permutation_swap|exact HP].
Defined.

(** ** What the diff does not see *)

(** The reported change type does depend on the visiting order: adding one
    container and editing another is reported Additive or Compatible according to
    which is visited first. *)
Theorem cell_change_type_order_dependent :
  let edited := {| c_ID := "b"; c_ContainerdID := ""; c_RealmName := ""; c_SpaceName := "";
    c_StackName := ""; c_CellName := ""; c_Root := false; c_Image := "v2"; c_Command := "";
    c_Args := []; c_WorkingDir := ""; c_Env := []; c_Ports := []; c_Volumes := [];
    c_Networks := []; c_NetworksAliases := []; c_Privileged := false; c_HostNetwork := false;
    c_HostPID := false; c_HostCgroup := false; c_NestedCgroupRuntime := false; c_User := "";
    c_ReadOnlyRootFilesystem := false; c_Capabilities := None; c_SecurityOpts := [];
    c_Devices := []; c_Tmpfs := []; c_Resources := None; c_Secrets := []; c_Repos := [];
    c_Git := None; c_CNIConfigPath := ""; c_RestartPolicy := ""; c_RestartBackoffSeconds := None;
    c_RestartMaxRetries := None; c_Attachable := false; c_Tty := None; c_CellCgroupPath := "";
    c_EtcHostsPath := ""; c_EtcHostnamePath := "" |} in
  let desired := sample_cell false CellStatePending [sample_container "a" false ""; edited] [] in
  let actual := sample_cell false CellStateReady [sample_container "b" false ""] [] in
  dr_ChangeType (cdr_Diff (DiffCell ["a"; "b"] ["b"] desired actual)) = ChangeTypeAdditive ∧
  dr_ChangeType (cdr_Diff (DiffCell ["b"; "a"] ["b"] desired actual)) = ChangeTypeCompatible.
Proof. vm_compute. split; reflexivity. Qed.

(** The labels {"a": ""} and {"b": ""} compare equal. *)
Lemma mapsEqual_missing_key : mapsEqual {["a" := ""]} {["b" := ""]} = true.
Proof. reflexivity. Qed.

(** mapsEqual is equality on maps without empty values. *)
Lemma mapsEqual_spec a b :
  (∀ k, a !! k ≠ Some "") → mapsEqual a b = true ↔ a = b.
Proof.
  intros Hne. unfold mapsEqual. rewrite andb_true_iff, Nat.eqb_eq, forallb_elem. split.
  - intros [Hsz HF].
    assert (Hsub : a ⊆ b).
    { apply map_subseteq_spec. intros k v Hv.
      assert (Hi : map_index b k = v).
      { apply String.eqb_eq. apply (HF (k, v)). by apply elem_of_map_to_list. }
      unfold map_index in Hi. destruct (b !! k) as [v'|]; simpl in Hi; [by subst|].
      subst v. by destruct (Hne k). }
    apply map_subseteq_size_eq; [done|]. lia.
  - intros ->. split; [done|]. intros [k v] Hv%elem_of_map_to_list. simpl.
    unfold map_index. rewrite Hv. apply String.eqb_refl.
Qed.

Definition labelled (name : string) (labels : gmap string string) : Realm := {|
  realm_Metadata := {| sm_Name := name; sm_Labels := labels; sm_Generation := 0 |};
  realm_Spec := {| rsp_Namespace := ""; rsp_RegistryCredentials := [] |};
  realm_Status := zero_RealmStatus |}.

(** Label changes are detected as long as no desired label is empty; a label
    with an empty value can be renamed without the diff noticing, because an
    absent key reads as the empty string. *)
Theorem label_changes_detected_unless_empty :
  (∀ name l1 l2, (∀ k, l1 !! k ≠ Some "") →
     dr_HasChanges (DiffRealm (labelled name l1) (labelled name l2)) = false ↔ l1 = l2) ∧
  dr_HasChanges (DiffRealm (labelled "r" {["a" := ""]}) (labelled "r" {["b" := ""]})) = false.
Proof.
  split; [|reflexivity]. intros name l1 l2 Hne. rewrite <-(mapsEqual_spec l1 l2 Hne).
  unfold DiffRealm. cbn [labelled realm_Metadata realm_Spec sm_Name sm_Labels rsp_Namespace
    rsp_RegistryCredentials]. rewrite String.eqb_refl. simpl. by destruct (mapsEqual l1 l2).
Qed.

(** Two volume mounts with the same fields and separately allocated VolumeRefs. *)
Definition refMount (addr : positive) : VolumeMount := {|
  vm_Kind := "volume"; vm_Source := ""; vm_Target := "/data";
  vm_VolumeRef := Some (MkPtr addr {| vr_Name := "v"; vr_Realm := "r"; vr_Space := ""; vr_Stack := "" |});
  vm_ReadOnly := false; vm_SizeBytes := 0; vm_Mode := 0; vm_Ensure := false |}.

Definition set_volumes (v : list VolumeMount) (c : ContainerSpec) : ContainerSpec :=
  let 'Build_ContainerSpec a1 a2 a3 a4 a5 a6 a7 a8 a9 a10 a11 a12 a13 _ a15 a16 a17 a18 a19 a20
        a21 a22 a23 a24 a25 a26 a27 a28 a29 a30 a31 a32 a33 a34 a35 a36 a37 a38 a39 a40 := c in
  Build_ContainerSpec a1 a2 a3 a4 a5 a6 a7 a8 a9 a10 a11 a12 a13 v a15 a16 a17 a18 a19 a20
        a21 a22 a23 a24 a25 a26 a27 a28 a29 a30 a31 a32 a33 a34 a35 a36 a37 a38 a39 a40.

(** A root container that mounts a volume by reference never compares equal to
    a separately decoded copy of itself: the VolumeRef pointers are compared, not
    what they point to, so an unchanged document yields a breaking volumes change. *)
Theorem volume_ref_compared_by_pointer c p q :
  p ≠ q →
  let desired := set_volumes [refMount p] c in
  let actual := set_volumes [refMount q] c in
  ptr_val <$> vm_VolumeRef (refMount p) = ptr_val <$> vm_VolumeRef (refMount q) ∧
  dr_ChangeType (diffContainerSpec desired actual true) = ChangeTypeBreaking.
Proof.
  intros Hpq desired actual. split; [done|].
  assert (HN : bakedNorm desired ≠ bakedNorm actual).
  { unfold bakedNorm, desired, actual. destruct c; simpl. intros [= E]. done. }
  pose proof (diffContainerSpec_breaking desired actual true) as HB. unfold isBreakingChange in HB.
  destruct (decide (dr_ChangeType (diffContainerSpec desired actual true) = ChangeTypeBreaking))
    as [E|E]; [done|]. rewrite bool_decide_eq_false in HB. destruct HN. by apply HB in E as [E _]; auto.
Qed.

Lemma volume_ref_compared_by_pointer_witness :
  dr_ChangeType (diffContainerSpec (set_volumes [refMount 1] (sample_container "root" true ""))
    (set_volumes [refMount 2] (sample_container "root" true "")) true) = ChangeTypeBreaking.
Proof.
  exact (proj2 (volume_ref_compared_by_pointer (sample_container "root" true "") 1 2
    ltac:(discriminate))).
Defined.

Definition set_restartTuning (b m : option Z) (c : ContainerSpec) : ContainerSpec :=
  let 'Build_ContainerSpec a1 a2 a3 a4 a5 a6 a7 a8 a9 a10 a11 a12 a13 a14 a15 a16 a17 a18 a19 a20
        a21 a22 a23 a24 a25 a26 a27 a28 a29 a30 a31 a32 a33 _ _ a36 a37 a38 a39 a40 := c in
  Build_ContainerSpec a1 a2 a3 a4 a5 a6 a7 a8 a9 a10 a11 a12 a13 a14 a15 a16 a17 a18 a19 a20
        a21 a22 a23 a24 a25 a26 a27 a28 a29 a30 a31 a32 a33 b m a36 a37 a38 a39 a40.

Definition set_egress (e : option SpaceNetwork) (s : Space) : Space := {|
  space_Metadata := space_Metadata s;
  space_Spec := {| spsp_RealmName := spsp_RealmName (space_Spec s);
                   spsp_CNIConfigPath := spsp_CNIConfigPath (space_Spec s);
                   spsp_Network := e; spsp_Defaults := spsp_Defaults (space_Spec s) |};
  space_Status := space_Status s |}.

(** Editing only a container's restart tuning (restartBackoffSeconds,
    restartMaxRetries), or only a space's egress policy, is invisible to the diff:
    for every document the result is the same as for the unedited one. *)
Theorem diff_ignores_restart_tuning_and_egress :
  (∀ d a root b m, diffContainerSpec (set_restartTuning b m d) a root = diffContainerSpec d a root) ∧
  (∀ d a e, DiffSpace (set_egress e d) a = DiffSpace d a).
Proof. split; intros; [by destruct d|done]. Qed.
