(* ===== verification/SpecHash.v ===== *)
(** * SpecHash: the tamper guard on reused containers
    (internal/controller/runner/spec_hash.go)

    A container's record carries a digest of the fields baked into its runtime
    spec and the version of the digest's domain.  On a restart the digest of the
    spec on disk is compared with it.  The encoding of the hashed projection is
    encoding/json's, a parameter of the model; the digest is [Sha256.sha256]. *)

From Stdlib Require Import ZArith String.
From stdpp Require Import base gmap strings list.
From S2P Require Import Prelude Model Sha256 Diff.

Definition SpecHashLabelKey : string := "kukeon.io/spec-hash".
Definition SpecHashVersionLabelKey : string := "kukeon.io/spec-hash-version".
Definition SpecHashDomainVersion : string := "4".

Record capabilitiesHashPayload := { chp_Add : list string; chp_Drop : list string }.
Record tmpfsHashPayload := { thp_Path : string; thp_SizeBytes : Z; thp_Options : list string }.
Record resourcesHashPayload := {
  rhp_MemoryLimitBytes : Z; rhp_CPUShares : Z; rhp_PidsLimit : Z }.
Record volumeHashPayload := {
  vhp_Kind : string; vhp_Source : string; vhp_Target : string; vhp_ReadOnly : bool;
  vhp_SizeBytes : Z; vhp_Mode : Z }.
Record secretRefHashPayload := {
  srp_Name : string; srp_Realm : string; srp_Space : string; srp_Stack : string; srp_Cell : string }.
Record secretHashPayload := {
  shp_Name : string; shp_FromFile : string; shp_FromEnv : string; shp_MountPath : string;
  shp_SecretRef : option secretRefHashPayload }.

Record containerSpecHashPayload := {
  hp_Image : string; hp_Command : string; hp_Args : list string; hp_WorkingDir : string;
  hp_Privileged : bool; hp_User : string; hp_ReadOnlyRootFilesystem : bool;
  hp_Capabilities : capabilitiesHashPayload; hp_SecurityOpts : list string;
  hp_Devices : list string; hp_Tmpfs : list tmpfsHashPayload;
  hp_Resources : resourcesHashPayload; hp_Volumes : list volumeHashPayload;
  hp_Secrets : list secretHashPayload
}.

(** A nil slice and an empty one are one value of the model, so normalizeStrings
    is the identity on it. *)
Definition normalizeStrings (s : list string) : list string := s.

Definition projectCapabilities (c : option ContainerCapabilities) : capabilitiesHashPayload :=
  match c with
  | None => {| chp_Add := []; chp_Drop := [] |}
  | Some c => {| chp_Add := normalizeStrings (cap_Add c); chp_Drop := normalizeStrings (cap_Drop c) |}
  end.

Definition projectTmpfs (t : list ContainerTmpfsMount) : list tmpfsHashPayload :=
  (fun m => {| thp_Path := tm_Path m; thp_SizeBytes := tm_SizeBytes m;
               thp_Options := normalizeStrings (tm_Options m) |}) <$> t.

Definition derefInt64 (p : option Z) : Z := default 0%Z p.

Definition projectResources (r : option ContainerResources) : resourcesHashPayload :=
  match r with
  | None => {| rhp_MemoryLimitBytes := 0; rhp_CPUShares := 0; rhp_PidsLimit := 0 |}
  | Some r => {| rhp_MemoryLimitBytes := derefInt64 (res_MemoryLimitBytes r);
                 rhp_CPUShares := derefInt64 (res_CPUShares r);
                 rhp_PidsLimit := derefInt64 (res_PidsLimit r) |}
  end.

Definition projectVolumes (v : list VolumeMount) : list volumeHashPayload :=
  (fun m => {| vhp_Kind := vm_Kind m; vhp_Source := vm_Source m; vhp_Target := vm_Target m;
               vhp_ReadOnly := vm_ReadOnly m; vhp_SizeBytes := vm_SizeBytes m;
               vhp_Mode := vm_Mode m |}) <$> v.

Definition projectSecretRef (r : option ContainerSecretRef) : option secretRefHashPayload :=
  match r with
  | None => None
  | Some r => Some {| srp_Name := csr_Name r; srp_Realm := csr_Realm r; srp_Space := csr_Space r;
                      srp_Stack := csr_Stack r; srp_Cell := csr_Cell r |}
  end.

Definition projectSecrets (s : list ContainerSecret) : list secretHashPayload :=
  (fun x => {| shp_Name := sec_Name x; shp_FromFile := sec_FromFile x; shp_FromEnv := sec_FromEnv x;
               shp_MountPath := sec_MountPath x;
               shp_SecretRef := projectSecretRef (sec_SecretRef x) |}) <$> s.

(** The payload ComputeContainerSpecHash builds. *)
Definition hashPayload (spec : ContainerSpec) : containerSpecHashPayload := {|
  hp_Image := c_Image spec; hp_Command := c_Command spec; hp_Args := normalizeStrings (c_Args spec);
  hp_WorkingDir := c_WorkingDir spec; hp_Privileged := c_Privileged spec; hp_User := c_User spec;
  hp_ReadOnlyRootFilesystem := c_ReadOnlyRootFilesystem spec;
  hp_Capabilities := projectCapabilities (c_Capabilities spec);
  hp_SecurityOpts := normalizeStrings (c_SecurityOpts spec);
  hp_Devices := normalizeStrings (c_Devices spec); hp_Tmpfs := projectTmpfs (c_Tmpfs spec);
  hp_Resources := projectResources (c_Resources spec); hp_Volumes := projectVolumes (c_Volumes spec);
  hp_Secrets := projectSecrets (c_Secrets spec) |}.

Inductive specHashReuseAction := specHashReuseAsIs | specHashRestamp | specHashRefuse.
#[global] Instance specHashReuseAction_eq_dec : EqDecision specHashReuseAction.
Proof. solve_decision. Defined.

Definition classifySpecHashReuse (labels : gmap string string) (desiredHash : string)
    : specHashReuseAction :=
  if negb (String.eqb (map_index labels SpecHashVersionLabelKey) SpecHashDomainVersion)
  then specHashRestamp
  else
    let stampedHash := map_index labels SpecHashLabelKey in
    if negb (String.eqb stampedHash "") && negb (String.eqb stampedHash desiredHash)
    then specHashRefuse else specHashReuseAsIs.

(** The containerd client and container handles. *)
Class RecordHost (W : Type) := {
  Handle : Type;
  Task : Type;
  ctr_GetContainer : string → string → st W (result Handle);
  handle_Labels : Handle → st W (gmap string string * option error);
  handle_SetLabels : Handle → gmap string string → st W (option error);
  handle_Task : Handle → st W (result Task);
  task_Delete : Task → st W (option error)
}.

Section Hash.
(** json.Marshal on the payload *)
Context (marshalPayload : containerSpecHashPayload → string).

Definition ComputeContainerSpecHash (spec : ContainerSpec) : string :=
  hex_encode (sha256 (bytes_of_string (marshalPayload (hashPayload spec)))).

Definition specHashLabels (spec : ContainerSpec) : gmap string string :=
  <[SpecHashLabelKey := ComputeContainerSpecHash spec]>
    {[SpecHashVersionLabelKey := SpecHashDomainVersion]}.

(** The pair is written over the labels given; a nil map is the empty one. *)
Definition stampSpecHashOnLabels (labels : gmap string string) (spec : ContainerSpec)
    : gmap string string := specHashLabels spec ∪ labels.

Context {W : Type} `{RecordHost W}.

Definition restampSpecHashLabels (container : Handle) (spec : ContainerSpec) : st W unit :=
  let! _ := handle_SetLabels container (specHashLabels spec) in st_ret tt.

(** A task that cannot be looked up is left; a failed delete is only logged. *)
Definition dropStaleTask (container : Handle) : st W unit :=
  let! task := handle_Task container in
  match task with
  | Ok t => let! _ := task_Delete t in st_ret tt
  | Err _ => st_ret tt
  end.

(** The map container.Labels returns is classified whether or not it came with
    an error; a nil map is the empty one. *)
Definition reuseOrRefuseExistingChildContainer (namespace ctrContainerID : string)
    (spec : ContainerSpec) : st W (result bool) :=
  let! got := ctr_GetContainer namespace ctrContainerID in
  match got with
  | Err e =>
      if error_is ErrContainerNotFound e then st_ret (Ok false)
      else st_ret (Err (EWrap "failed to check existing container %s: %w" [e]))
  | Ok container =>
      let desiredHash := ComputeContainerSpecHash spec in
      let! labels := handle_Labels container in
      let reuse := (let! _ := dropStaleTask container in st_ret (Ok true)) in
      match classifySpecHashReuse labels.1 desiredHash with
      | specHashRefuse =>
          st_ret (Err (EWrap "%w: cell %q: container %q carries spec-hash %q but cell spec hashes to %q"
                         [ESentinel ErrCellSpecHashDrift]))
      | specHashRestamp =>
          let! _ := restampSpecHashLabels container spec in reuse
      | specHashReuseAsIs => reuse
      end
  end.

(** ** Theorems *)

Lemma hash_nonempty spec : ComputeContainerSpecHash spec ≠ "".
Proof.
  unfold ComputeContainerSpecHash. intros E. apply (f_equal String.length) in E.
  rewrite hex_encode_length, sha256_length in E. cbn in E. lia.
Qed.

Lemma stamped_hash labels spec :
  map_index (stampSpecHashOnLabels labels spec) SpecHashLabelKey = ComputeContainerSpecHash spec.
Proof. unfold map_index, stampSpecHashOnLabels, specHashLabels. by rewrite <-insert_union_l, lookup_insert_eq. Qed.

Lemma stamped_version labels spec :
  map_index (stampSpecHashOnLabels labels spec) SpecHashVersionLabelKey = SpecHashDomainVersion.
Proof.
  unfold map_index, stampSpecHashOnLabels, specHashLabels.
  rewrite <-insert_union_l, lookup_insert_ne by done. by rewrite <-insert_union_singleton_l, lookup_insert_eq.
Qed.

(** On labels stamped by this daemon the verdict is the comparison of digests. *)
Lemma classify_stamped labels spec0 spec :
  classifySpecHashReuse (stampSpecHashOnLabels labels spec0) (ComputeContainerSpecHash spec)
  = if String.eqb (ComputeContainerSpecHash spec0) (ComputeContainerSpecHash spec)
    then specHashReuseAsIs else specHashRefuse.
Proof.
  unfold classifySpecHashReuse. rewrite stamped_version, stamped_hash.
  pose proof (hash_nonempty spec0) as Hn. apply String.eqb_neq in Hn. rewrite String.eqb_refl, Hn.
  cbn [negb andb].
  by destruct (String.eqb (ComputeContainerSpecHash spec0) (ComputeContainerSpecHash spec)).
Qed.

(** The settings of a container that its runtime spec is built from, as far as the
    guard watches them: unset and empty blocks are the same, an unset limit is zero, a
    volume counts without its reference and its provisioning flag. *)
Definition watched (c : ContainerSpec) :=
  ((c_Image c, c_Command c, c_Args c, c_WorkingDir c, c_Privileged c, c_User c,
    c_ReadOnlyRootFilesystem c),
   (capNorm (c_Capabilities c), c_SecurityOpts c, c_Devices c, c_Tmpfs c,
    match c_Resources c with
    | None => (0%Z, 0%Z, 0%Z)
    | Some r => (default 0%Z (res_MemoryLimitBytes r), default 0%Z (res_CPUShares r),
                 default 0%Z (res_PidsLimit r))
    end),
   ((fun v => (vm_Kind v, vm_Source v, vm_Target v, vm_ReadOnly v, vm_SizeBytes v, vm_Mode v))
      <$> c_Volumes c, c_Secrets c)).

Lemma map_eq_iff {A B C} (f : A → B) (g : A → C) (l l' : list A) :
  (∀ x y, f x = f y ↔ g x = g y) → f <$> l = f <$> l' ↔ g <$> l = g <$> l'.
Proof.
  intros HE. revert l'. induction l as [|x l IH]; intros [|y l']; try done. rewrite !fmap_cons.
  split; intros [= Hx Hl]; f_equal; (by apply HE) || by apply IH.
Qed.

Lemma tmpfs_payload a b : projectTmpfs a = projectTmpfs b ↔ a = b.
Proof.
  rewrite <-(list_fmap_id a) at 2. rewrite <-(list_fmap_id b) at 2. apply map_eq_iff.
  intros [] []. unfold normalizeStrings. cbn. naive_solver.
Qed.
Lemma secrets_payload a b : projectSecrets a = projectSecrets b ↔ a = b.
Proof.
  rewrite <-(list_fmap_id a) at 2. rewrite <-(list_fmap_id b) at 2. apply map_eq_iff.
  intros [n f e r m] [n' f' e' r' m']. cbn. destruct r as [[]|], r' as [[]|]; cbn; naive_solver.
Qed.
Lemma caps_payload a b : projectCapabilities a = projectCapabilities b ↔ capNorm a = capNorm b.
Proof. destruct a as [[]|], b as [[]|]; unfold normalizeStrings; cbn; naive_solver. Qed.

(** The hashed projection determines the watched settings and nothing else. *)
Lemma payload_watched a b : hashPayload a = hashPayload b ↔ watched a = watched b.
Proof.
  unfold hashPayload, watched, normalizeStrings. rewrite !pair_equal_spec.
  pose proof (caps_payload (c_Capabilities a) (c_Capabilities b)) as HC.
  pose proof (tmpfs_payload (c_Tmpfs a) (c_Tmpfs b)) as HT.
  pose proof (secrets_payload (c_Secrets a) (c_Secrets b)) as HS.
  assert (HV : projectVolumes (c_Volumes a) = projectVolumes (c_Volumes b) ↔
    (fun v => (vm_Kind v, vm_Source v, vm_Target v, vm_ReadOnly v, vm_SizeBytes v, vm_Mode v)) <$> c_Volumes a =
    (fun v => (vm_Kind v, vm_Source v, vm_Target v, vm_ReadOnly v, vm_SizeBytes v, vm_Mode v)) <$> c_Volumes b).
  { apply map_eq_iff. intros [] []. cbn. naive_solver. }
  assert (HR : projectResources (c_Resources a) = projectResources (c_Resources b) ↔
    match c_Resources a with None => (0%Z, 0%Z, 0%Z)
    | Some r => (default 0%Z (res_MemoryLimitBytes r), default 0%Z (res_CPUShares r), default 0%Z (res_PidsLimit r)) end =
    match c_Resources b with None => (0%Z, 0%Z, 0%Z)
    | Some r => (default 0%Z (res_MemoryLimitBytes r), default 0%Z (res_CPUShares r), default 0%Z (res_PidsLimit r)) end).
  { destruct (c_Resources a), (c_Resources b); cbn; unfold derefInt64; split; intros HE;
      (done || (injection HE; intros; congruence)). }
  rewrite <-HC, <-HT, <-HS, <-HV, <-HR. split.
  - intros HE. injection HE. tauto.
  - intros HE. destruct_and!. congruence.
Qed.

(** Neither the JSON encoding nor the digest confuses the two payloads. *)
Definition no_collision (a b : ContainerSpec) : Prop :=
  ComputeContainerSpecHash a = ComputeContainerSpecHash b → hashPayload a = hashPayload b.

Lemma stamped_verdict labels stamped spec : no_collision stamped spec →
  (classifySpecHashReuse (stampSpecHashOnLabels labels stamped) (ComputeContainerSpecHash spec) = specHashRefuse ↔
   watched stamped ≠ watched spec) ∧
  (classifySpecHashReuse (stampSpecHashOnLabels labels stamped) (ComputeContainerSpecHash spec) = specHashReuseAsIs ↔
   watched stamped = watched spec).
Proof.
  intros Hcol. rewrite classify_stamped, <-payload_watched.
  destruct (String.eqb_spec (ComputeContainerSpecHash stamped) (ComputeContainerSpecHash spec)) as [E|N].
  - specialize (Hcol E). by split.
  - assert (hashPayload stamped ≠ hashPayload spec) by (intros Hp; destruct N; unfold ComputeContainerSpecHash; by rewrite Hp).
    by split.
Qed.


(** A daemon upgrade that changes the digest's domain never strands a cell and
    heals in one start: labels of any other domain version, or none, are
    restamped, and the restamped labels are accepted as they are at the next
    start with the same spec. *)
Theorem domain_change_restamps_once labels spec :
  map_index labels SpecHashVersionLabelKey ≠ SpecHashDomainVersion →
  classifySpecHashReuse labels (ComputeContainerSpecHash spec) = specHashRestamp ∧
  classifySpecHashReuse (stampSpecHashOnLabels labels spec) (ComputeContainerSpecHash spec)
  = specHashReuseAsIs.
Proof.
  intros Hv. split; [|by rewrite classify_stamped, String.eqb_refl].
  unfold classifySpecHashReuse. apply String.eqb_neq in Hv. by rewrite Hv.
Qed.

(** An existing container is refused only for drift.  When the record exists the
    guard returns ErrCellSpecHashDrift, having changed nothing, exactly when the
    verdict on its labels is to refuse; otherwise it reports reuse after the
    restamp the verdict asks for and after dropping the stale task.  A fresh
    container is asked for only when the record is absent; a lookup that fails for
    another reason surfaces instead of widening into a recreation.  Labels that
    cannot be read come back empty and so are restamped, never refused. *)
Theorem existing_container_outcomes ns id spec w w' r :
  reuseOrRefuseExistingChildContainer ns id spec w = (w', r) →
  match (ctr_GetContainer ns id w).2 with
  | Err e => w' = (ctr_GetContainer ns id w).1 ∧
             (r = Ok false ↔ error_is ErrContainerNotFound e = true) ∧ r ≠ Ok true
  | Ok c =>
      let '(w1, (labels, err)) := handle_Labels c (ctr_GetContainer ns id w).1 in
      (labels = ∅ →
       r = Ok true ∧ w' = (dropStaleTask c (handle_SetLabels c (specHashLabels spec) w1).1).1) ∧
      match classifySpecHashReuse labels (ComputeContainerSpecHash spec) with
      | specHashRefuse =>
          w' = w1 ∧ ∃ e, r = Err e ∧ error_is ErrCellSpecHashDrift e = true
      | specHashRestamp =>
          r = Ok true ∧ w' = (dropStaleTask c (handle_SetLabels c (specHashLabels spec) w1).1).1
      | specHashReuseAsIs => r = Ok true ∧ w' = (dropStaleTask c w1).1
      end
  end.
Proof.
  unfold reuseOrRefuseExistingChildContainer, restampSpecHashLabels, st_bind, st_ret.
  destruct (ctr_GetContainer ns id w) as [w0 [c|e]]; cbn [fst snd].
  - destruct (handle_Labels c w0) as [w1 [labels err]]. cbn [fst].
    destruct (decide (labels = ∅)) as [->|Hne].
    + change (classifySpecHashReuse ∅ _) with specHashRestamp. cbv beta iota zeta.
      destruct (handle_SetLabels c _ w1) as [w2 x]. cbn [fst].
      destruct (dropStaleTask c w2). by intros [= <- <-].
    + destruct (classifySpecHashReuse _ _).
      * destruct (dropStaleTask c w1). by intros [= <- <-].
      * destruct (handle_SetLabels c _ w1) as [w2 x]. cbn [fst].
        destruct (dropStaleTask c w2). by intros [= <- <-].
      * intros [= <- <-]. split; [done|]. split; [done|]. eexists. split; [done|reflexivity].
  - destruct (error_is ErrContainerNotFound e) eqn:E; intros [= <- <-]; naive_solver.
Qed.
End Hash.

(** ** Where the hash domain is narrower than the breaking domain *)

Definition with_host_network (b : bool) (c : ContainerSpec) : ContainerSpec := {|
  c_ID := c_ID c; c_ContainerdID := c_ContainerdID c; c_RealmName := c_RealmName c;
  c_SpaceName := c_SpaceName c; c_StackName := c_StackName c; c_CellName := c_CellName c;
  c_Root := c_Root c; c_Image := c_Image c; c_Command := c_Command c; c_Args := c_Args c;
  c_WorkingDir := c_WorkingDir c; c_Env := c_Env c; c_Ports := c_Ports c;
  c_Volumes := c_Volumes c; c_Networks := c_Networks c; c_NetworksAliases := c_NetworksAliases c;
  c_Privileged := c_Privileged c; c_HostNetwork := b; c_HostPID := c_HostPID c;
  c_HostCgroup := c_HostCgroup c; c_NestedCgroupRuntime := c_NestedCgroupRuntime c;
  c_User := c_User c; c_ReadOnlyRootFilesystem := c_ReadOnlyRootFilesystem c;
  c_Capabilities := c_Capabilities c; c_SecurityOpts := c_SecurityOpts c; c_Devices := c_Devices c;
  c_Tmpfs := c_Tmpfs c; c_Resources := c_Resources c; c_Secrets := c_Secrets c;
  c_Repos := c_Repos c; c_Git := c_Git c; c_CNIConfigPath := c_CNIConfigPath c;
  c_RestartPolicy := c_RestartPolicy c; c_RestartBackoffSeconds := c_RestartBackoffSeconds c;
  c_RestartMaxRetries := c_RestartMaxRetries c; c_Attachable := c_Attachable c; c_Tty := c_Tty c;
  c_CellCgroupPath := c_CellCgroupPath c; c_EtcHostsPath := c_EtcHostsPath c;
  c_EtcHostnamePath := c_EtcHostnamePath c |}.

(** The hash does not cover the host-namespace toggles: for every container and
    every encoding, switching hostNetwork in the spec on disk is a breaking change
    for the diff, yet the guard reuses a container stamped before the switch as
    it is. *)
Theorem host_network_switch_unseen_by_guard marshal labels spec :
  let spec' := with_host_network (negb (c_HostNetwork spec)) spec in
  isBreakingChange (dr_ChangeType (diffContainerSpec spec' spec true)) = true ∧
  classifySpecHashReuse (stampSpecHashOnLabels marshal labels spec)
    (ComputeContainerSpecHash marshal spec') = specHashReuseAsIs.
Proof.
  intros spec'. split.
  - apply not_false_iff_true. rewrite diffContainerSpec_breaking. intros [_ [= Hn]].
    by destruct (c_HostNetwork spec).
  - rewrite classify_stamped. change (ComputeContainerSpecHash marshal spec')
      with (ComputeContainerSpecHash marshal spec). by rewrite String.eqb_refl.
Qed.

(** ** Witnesses *)

Section Witnesses.
Let marshalImage (p : containerSpecHashPayload) : string := hp_Image p.

Let rootWithImage (img : string) : ContainerSpec := Build_ContainerSpec "" "" "" "" "" "" true img
  "" [] "" [] [] [] [] [] false false false false false "" false None [] [] [] None [] [] None "" ""
  None None false None "" "" "".


(** A record whose labels were written under domain version 3. *)
Let legacyLabels : gmap string string :=
  <[SpecHashLabelKey := "00"]> {[SpecHashVersionLabelKey := "3"]}.

Lemma domain_change_restamps_once_witness :
  map_index legacyLabels SpecHashVersionLabelKey ≠ SpecHashDomainVersion ∧
  classifySpecHashReuse legacyLabels (ComputeContainerSpecHash marshalImage zero_ContainerSpec)
  = specHashRestamp.
Proof.
  assert (Hv : map_index legacyLabels SpecHashVersionLabelKey ≠ SpecHashDomainVersion)
    by (vm_compute; discriminate).
  split; [exact Hv|].
  exact (proj1 (domain_change_restamps_once marshalImage legacyLabels zero_ContainerSpec Hv)).
Defined.

(** One record that is its labels, and no task. *)
#[local] Instance OneRecord : RecordHost (gmap string string) := {|
  Handle := unit;
  Task := unit;
  ctr_GetContainer _ _ := fun w => (w, Ok tt);
  handle_Labels _ := fun w => (w, (w, None));
  handle_SetLabels _ l := fun w => (l ∪ w, None);
  handle_Task _ := fun w => (w, Err (ESentinel ErrContainerNotFound));
  task_Delete _ := fun w => (w, None)
|}.

Let tamperedLabels : gmap string string :=
  <[SpecHashLabelKey := "00"]> {[SpecHashVersionLabelKey := SpecHashDomainVersion]}.

Lemma existing_container_outcomes_witness :
  ∃ w' r,
    reuseOrRefuseExistingChildContainer marshalImage "ns" "id" zero_ContainerSpec tamperedLabels = (w', r) ∧
    w' = tamperedLabels ∧ ∃ e, r = Err e ∧ error_is ErrCellSpecHashDrift e = true.
Proof.
  destruct (reuseOrRefuseExistingChildContainer marshalImage "ns" "id" zero_ContainerSpec
              tamperedLabels) as [w' r] eqn:E.
  exists w', r. split; [reflexivity|].
  pose proof (existing_container_outcomes marshalImage "ns" "id" zero_ContainerSpec tamperedLabels w' r E)
    as [_ Hc]. clear E.
  replace (classifySpecHashReuse _ _) with specHashRefuse in Hc by (vm_compute; reflexivity).
  exact Hc.
Defined.
End Witnesses.
