(* ===== verification/Facade.v ===== *)
(** * The controller's object operations
    (internal/controller/secret.go, volume.go, blueprint.go, config.go)

    What the RPC handlers call: the scope checks, the deletion gates over the cells that
    refer to an object, and the translation of "not found" into results.  [cells] is the
    outcome of ListCells over every realm. *)

From Stdlib Require Import Ascii ZArith.
From stdpp Require Import base gmap strings list.
From S2P Require Import Prelude Model External Validate Naming Blueprint Config Layout Reclaim Fs Objects CellState Observe Refresh Diff Apply Parser.

Local Open Scope nat_scope.

(** ** Scope checks *)

Definition validateSecretScopeContiguity (space stack cell : string) : option error :=
  let space := TrimSpace space in
  let stack := TrimSpace stack in
  let cell := TrimSpace cell in
  if negb (String.eqb cell "") && String.eqb stack "" then
    Some (EWrap "%w (cell set without stack)" [ESentinel ErrSecretScopeIncomplete])
  else if negb (String.eqb stack "") && String.eqb space "" then
    Some (EWrap "%w (stack set without space)" [ESentinel ErrSecretScopeIncomplete])
  else None.
Definition validateSecretLookup (md : SecretMetadata) : option error :=
  if blank (secm_Name md) then Some (ESentinel ErrSecretNameRequired)
  else if blank (secm_Realm md) then Some (ESentinel ErrSecretRealmRequired)
  else validateSecretScopeContiguity (secm_Space md) (secm_Stack md) (secm_Cell md).
Definition validateSecretScopeFilter (realm space stack cell : string) : option error :=
  if blank realm && (negb (blank space) || negb (blank stack) || negb (blank cell)) then
    Some (EWrap "%w (scope set without realm)" [ESentinel ErrSecretScopeIncomplete])
  else validateSecretScopeContiguity space stack cell.

(** Blueprints and configs share their checks but for the sentinels. *)
Definition validateScopedLookup (nameRequired realmRequired incomplete : errdef) (md : ScopedName) : option error :=
  if blank (scn_Name md) then Some (ESentinel nameRequired)
  else if blank (scn_Realm md) then Some (ESentinel realmRequired)
  else if negb (blank (scn_Stack md)) && blank (scn_Space md) then
    Some (EWrap "%w (stack set without space)" [ESentinel incomplete])
  else None.
Definition validateScopedFilter (incomplete : errdef) (realm space stack : string) : option error :=
  let realm := TrimSpace realm in
  let space := TrimSpace space in
  let stack := TrimSpace stack in
  if String.eqb realm "" && (negb (String.eqb space "") || negb (String.eqb stack "")) then
    Some (EWrap "%w (scope set without realm)" [ESentinel incomplete])
  else if negb (String.eqb stack "") && String.eqb space "" then
    Some (EWrap "%w (stack set without space)" [ESentinel incomplete])
  else None.
Definition validateBlueprintLookup : ScopedName → option error :=
  validateScopedLookup ErrBlueprintNameRequired ErrBlueprintRealmRequired ErrBlueprintScopeIncomplete.
Definition validateBlueprintScopeFilter : string → string → string → option error :=
  validateScopedFilter ErrBlueprintScopeIncomplete.
Definition validateConfigLookup : ScopedName → option error :=
  validateScopedLookup ErrConfigNameRequired ErrConfigRealmRequired ErrConfigScopeIncomplete.
Definition validateConfigScopeFilter : string → string → string → option error :=
  validateScopedFilter ErrConfigScopeIncomplete.

Definition checkSegments (segs : list string) : option error :=
  first_error ((fun seg => wrapErr "%w (%s)" (validateVolumeSegment seg)) <$> segs).
Definition validateVolumeLookup (md : VolumeMetadata) : option error :=
  let name := TrimSpace (volm_Name md) in
  let realm := TrimSpace (volm_Realm md) in
  let space := TrimSpace (volm_Space md) in
  let stack := TrimSpace (volm_Stack md) in
  if String.eqb name "" then Some (ESentinel ErrVolumeNameRequired)
  else if String.eqb realm "" then Some (ESentinel ErrVolumeRealmRequired)
  else if negb (String.eqb stack "") && String.eqb space "" then
    Some (EWrap "%w (stack set without space)" [ESentinel ErrVolumeScopeIncomplete])
  else checkSegments [name; realm; space; stack].
Definition validateVolumeScopeFilter (realm space stack : string) : option error :=
  match validateScopedFilter ErrVolumeScopeIncomplete realm space stack with
  | Some e => Some e
  | None => checkSegments [TrimSpace realm; TrimSpace space; TrimSpace stack]
  end.

(** ** Creation: a check, then the reconciler *)

Section Create.
Context {W : Type} `{ApplyRunner W} `{ConfigSchema}.

Definition createThrough {A} (check : option error) (x : A) (reconcile : st W (ReconcileResult * option error))
    : st W (result (A * bool)) :=
  match check with
  | Some e => st_ret (Err e)
  | None =>
      let! r := reconcile in
      st_ret (match r.2 with Some e => Err e | None => Ok (x, String.eqb (rr_Action r.1) actionCreated) end)
  end.
Definition CreateSecret (secret : Secret) : st W (result (Secret * bool)) :=
  createThrough (validateSecretLookup (secret_Metadata secret)) secret (ReconcileSecret secret).
Definition CreateVolume (volume : Volume) : st W (result (Volume * bool)) :=
  createThrough (validateVolumeLookup (vol_Metadata volume)) volume (ReconcileVolume volume).
Definition CreateConfig (config : CellConfig) : st W (result (CellConfig * bool)) :=
  createThrough (validateConfigLookup (cfg_Metadata config)) config (Apply.CreateConfig config).

End Create.

(** ** Lookups, listings and deletions *)

Section Store.
Context (RunPath : string) (manifestPolicy : string → result string).
Context (parseLabels : string → option (gmap string string)).

(** An absent object is reported, not an error: [None] is MetadataExists = false. *)
Definition lookupThrough {A} (check : option error) (notFound get : errdef) (read : st OS (result A))
    : st OS (result (option A)) :=
  match check with
  | Some e => st_ret (Err e)
  | None =>
      let! got := read in
      st_ret (match got with
              | Ok x => Ok (Some x)
              | Err e => if error_is notFound e then Ok None else Err (EWrap "%w: %w" [ESentinel get; e])
              end)
  end.
Definition GetSecret (secret : Secret) : st OS (result (option Secret)) :=
  lookupThrough (validateSecretLookup (secret_Metadata secret)) ErrSecretNotFound ErrGetSecret
    (Objects.GetSecret RunPath secret).
Definition GetVolume (volume : Volume) : st OS (result (option Volume)) :=
  lookupThrough (validateVolumeLookup (vol_Metadata volume)) ErrVolumeNotFound ErrGetVolume
    (Objects.GetVolume RunPath manifestPolicy volume).
Definition GetBlueprint (blueprint : CellBlueprint) : st OS (result (option CellBlueprint)) :=
  lookupThrough (validateBlueprintLookup (bp_Metadata blueprint)) ErrBlueprintNotFound ErrGetBlueprint
    (Objects.GetBlueprint RunPath blueprint).
Definition GetConfig (config : CellConfig) : st OS (result (option CellConfig)) :=
  lookupThrough (validateConfigLookup (cfg_Metadata config)) ErrConfigNotFound ErrGetConfig
    (Objects.GetConfig RunPath config).

Definition checked {A} (check : option error) (list : st OS (result A)) : st OS (result A) :=
  match check with Some e => st_ret (Err e) | None => list end.
Definition ListSecrets (realm space stack cell : string) : st OS (result (list Secret)) :=
  checked (validateSecretScopeFilter realm space stack cell)
    (Objects.ListSecrets RunPath (TrimSpace realm) (TrimSpace space) (TrimSpace stack) (TrimSpace cell)).
Definition ListVolumes (realm space stack : string) : st OS (result (list Volume)) :=
  checked (validateVolumeScopeFilter realm space stack)
    (Objects.ListVolumes RunPath manifestPolicy (TrimSpace realm) (TrimSpace space) (TrimSpace stack)).
Definition ListBlueprints (realm space stack : string) : st OS (result (list CellBlueprint)) :=
  checked (validateBlueprintScopeFilter realm space stack)
    (Objects.ListBlueprints RunPath parseLabels (TrimSpace realm) (TrimSpace space) (TrimSpace stack)).
Definition ListConfigs (realm space stack : string) : st OS (result (list CellConfig)) :=
  checked (validateConfigScopeFilter realm space stack)
    (Objects.ListConfigs RunPath parseLabels (TrimSpace realm) (TrimSpace space) (TrimSpace stack)).

(** realm/space/stack/cell, as the messages name a cell *)
Definition cellRef (cell : Cell) : string :=
  let s := cell_Spec cell in
  Join "/" [csp_RealmName s; csp_SpaceName s; csp_StackName s; cm_Name (cell_Metadata cell)].

Definition refersTo (target : string) (cell : Cell) : bool :=
  existsb (fun c => existsb (fun s =>
      match sec_SecretRef s with
      | None => false
      | Some ref => String.eqb (SecretPath RunPath (csr_Realm ref) (csr_Space ref) (csr_Stack ref) (csr_Cell ref) (csr_Name ref))
                      target
      end) (c_Secrets c)) (csp_Containers (cell_Spec cell)).

(** Each referring cell's name once, in order of the cells. *)
Fixpoint dedup_from (seen : list string) (l : list string) : list string :=
  match l with
  | [] => []
  | x :: l' => if existsb (String.eqb x) seen then dedup_from seen l' else x :: dedup_from (x :: seen) l'
  end.
Definition secretReferences (cells : result (list Cell)) (md : SecretMetadata) : result (list string) :=
  let target := SecretPath RunPath (secm_Realm md) (secm_Space md) (secm_Stack md) (secm_Cell md) (secm_Name md) in
  let? l := cells in
  Ok (dedup_from [] (cellRef <$> List.filter (refersTo target) l)).

(** The runner's answer to a deletion: not found gets a message of its own. *)
Definition deleteThrough (notFound del : errdef) (e : option error) : option error :=
  match e with
  | None => None
  | Some e => Some (if error_is notFound e then EOpaque "%s %q not found" else EWrap "%w: %w" [ESentinel del; e])
  end.
Definition DeleteSecret (cells : result (list Cell)) (secret : Secret) : st OS (result Secret) :=
  match validateSecretLookup (secret_Metadata secret) with
  | Some e => st_ret (Err e)
  | None =>
      match secretReferences cells (secret_Metadata secret) with
      | Err e => st_ret (Err (EWrap "%w: check live references: %w" [ESentinel ErrDeleteSecret; e]))
      | Ok [] =>
          let! e := Objects.DeleteSecret RunPath secret in
          st_ret (match deleteThrough ErrSecretNotFound ErrDeleteSecret e with Some e => Err e | None => Ok secret end)
      | Ok _ => st_ret (Err (EWrap "%w: secret %q is referenced by %d cell(s): %s. Delete or detach them before deleting the secret"
                               [ESentinel ErrSecretInUse]))
      end
  end.

Definition DeleteVolume (cells : result (list Cell)) (volume : Volume) : st OS (result Volume) :=
  match validateVolumeLookup (vol_Metadata volume) with
  | Some e => st_ret (Err e)
  | None =>
      let! mounted := VolumeMountedByLiveCell RunPath cells volume in
      match mounted with
      | Err e => st_ret (Err e)
      | Ok (Some _) => st_ret (Err (EWrap "%w: mounted by cell %q" [ESentinel ErrVolumeInUse]))
      | Ok None =>
          let! e := Objects.DeleteVolume RunPath volume in
          st_ret (match deleteThrough ErrVolumeNotFound ErrDeleteVolume e with Some e => Err e | None => Ok volume end)
      end
  end.

Definition DeleteBlueprint (blueprint : CellBlueprint) : st OS (result CellBlueprint) :=
  match validateBlueprintLookup (bp_Metadata blueprint) with
  | Some e => st_ret (Err e)
  | None =>
      let! e := Objects.DeleteBlueprint RunPath blueprint in
      st_ret (match deleteThrough ErrBlueprintNotFound ErrDeleteBlueprint e with Some e => Err e | None => Ok blueprint end)
  end.

(** The cells that carry the config's label within its scope; informational. *)
Definition configBackRefCells (cells : result (list Cell)) (md : ScopedName) : result (list string) :=
  let realm := TrimSpace (scn_Realm md) in
  let space := TrimSpace (scn_Space md) in
  let stack := TrimSpace (scn_Stack md) in
  let? l := cells in
  Ok (cellRef <$> List.filter (fun cell =>
        String.eqb (default "" (cm_Labels (cell_Metadata cell) !! LabelConfig)) (scn_Name md)
        && String.eqb (csp_RealmName (cell_Spec cell)) realm
        && (String.eqb space "" || String.eqb (csp_SpaceName (cell_Spec cell)) space)
        && (String.eqb stack "" || String.eqb (csp_StackName (cell_Spec cell)) stack)) l).
Definition DeleteConfig (cells : result (list Cell)) (config : CellConfig)
    : st OS (result (CellConfig * list string)) :=
  match validateConfigLookup (cfg_Metadata config) with
  | Some e => st_ret (Err e)
  | None =>
      match configBackRefCells cells (cfg_Metadata config) with
      | Err e => st_ret (Err (EWrap "%w: check back-references: %w" [ESentinel ErrDeleteConfig; e]))
      | Ok refs =>
          let! e := Objects.DeleteConfig RunPath config in
          st_ret (match deleteThrough ErrConfigNotFound ErrDeleteConfig e with Some e => Err e | None => Ok (config, refs) end)
      end
  end.

End Store.

(** ** Theorems: the deletion gates *)

Lemma os_Stat_quiet p os : os_faults os = [] →
  os_Stat p os = (os, match os_fs os !! p with Some i => inr i | None => inl (missing (os_fs os) p) end).
Proof. destruct os as [fs faults names um]. cbn. by intros ->. Qed.

Section Gates.
Context (RunPath : string).

Lemma volumeDirExists_quiet path os : os_faults os = [] → (volumeDirExists path os).1 = os.
Proof. intros H. unfold volumeDirExists, st_bind. by rewrite os_Stat_quiet. Qed.

Lemma probe_quiet cands name os : os_faults os = [] → (probeCandidates RunPath cands name os).1 = os.
Proof.
  intros H. induction cands as [|c cands IH]; [done|]. cbn. unfold st_bind.
  pose proof (volumeDirExists_quiet (rv_HostPath (resolvedAt RunPath c name)) os H) as Hq.
  destruct (volumeDirExists _ os) as [os1 b]. cbn in Hq. subst. by destruct b.
Qed.

(** Without faults, resolving a mount only looks. *)
Lemma ResolveVolumeMount_quiet scope m os : os_faults os = [] → (ResolveVolumeMount RunPath scope m os).1 = os.
Proof.
  intros H. unfold ResolveVolumeMount. case_match; [done|]. case_match; [done|]. case_match; unfold st_bind.
  - pose proof (volumeDirExists_quiet (rv_HostPath (resolvedAt RunPath
      {| vs_Realm := vr_Realm (ptr_val p); vs_Space := vr_Space (ptr_val p); vs_Stack := vr_Stack (ptr_val p) |}
      (vr_Name (ptr_val p)))) os H) as Hq.
    destruct (volumeDirExists _ os) as [os1 b]. exact Hq.
  - pose proof (probe_quiet (volumeScopeCandidates scope) (vm_Source m) os H) as Hq.
    destruct (probeCandidates _ _ _ os) as [os1 b]. exact Hq.
Qed.

Lemma anyMounts_quiet scope md mounts os : os_faults os = [] →
  (anyMounts RunPath scope md mounts os).1 = os ∧
  ((anyMounts RunPath scope md mounts os).2 = false →
   ∀ m rv, m ∈ mounts → is_volume_mount m = true →
     (ResolveVolumeMount RunPath scope m os).2 = Ok rv → names_volume rv md = false).
Proof.
  intros Hf. induction mounts as [|m mounts [IH1 IH2]].
  { split; [done|]. intros _ m rv Hm. by apply elem_of_nil in Hm. }
  cbn [anyMounts]. destruct (is_volume_mount m) eqn:Em.
  - unfold st_bind. pose proof (ResolveVolumeMount_quiet scope m os Hf) as Hq.
    destruct (ResolveVolumeMount RunPath scope m os) as [os1 r] eqn:Er. cbn in Hq. subst os1.
    destruct r as [rv|e]; [destruct (names_volume rv md) eqn:En|].
    + split; [done|]. by intros [=].
    + split; [done|]. intros Hr m' rv' [->|Hm]%elem_of_cons Hk Hres; [|by eapply IH2].
      rewrite Er in Hres. injection Hres as <-. done.
    + split; [done|]. intros Hr m' rv' [->|Hm]%elem_of_cons Hk Hres; [|by eapply IH2]. by rewrite Er in Hres.
  - split; [done|]. intros Hr m' rv' [->|Hm]%elem_of_cons Hk Hres; [congruence|by eapply IH2].
Qed.

Lemma mountedByLive_quiet md cells os : os_faults os = [] →
  (mountedByLive RunPath md cells os).1 = os ∧
  ((mountedByLive RunPath md cells os).2 = None →
   ∀ cell m rv, cell ∈ cells → cell_live cell = true → m ∈ cell_mounts cell → is_volume_mount m = true →
     (ResolveVolumeMount RunPath (cell_scope cell) m os).2 = Ok rv → names_volume rv md = false).
Proof.
  intros Hf. induction cells as [|cell cells [IH1 IH2]].
  { split; [done|]. intros _ c m rv Hc. by apply elem_of_nil in Hc. }
  cbn [mountedByLive]. destruct (cell_live cell) eqn:El; cbn [negb].
  - unfold st_bind. destruct (anyMounts_quiet (cell_scope cell) md (cell_mounts cell) os Hf) as [Hq Hn].
    destruct (anyMounts _ _ _ _ os) as [os1 hit]. cbn in *. subst os1. destruct hit; [by split|].
    split; [done|]. intros Hr c m rv [->|Hc]%elem_of_cons Hl Hm Hk Hres; [by eapply Hn|by eapply IH2].
  - split; [done|]. intros Hr c m rv [->|Hc]%elem_of_cons Hl; [congruence|by eapply IH2].
Qed.

(** the deletion gates hold: a secret is deleted only when the cells could be
    listed and none of their containers refers to the file it is stored in; a volume
    only when none of the mounts of a Ready or Degraded cell resolves to it (the stats of
    the scan succeeding). *)
Theorem deletion_gates_hold cells os os' :
  (∀ secret s, DeleteSecret RunPath cells secret os = (os', Ok s) →
     let md := secret_Metadata secret in
     ∃ l, cells = Ok l ∧
       ∀ cell c x ref, cell ∈ l → c ∈ csp_Containers (cell_Spec cell) → x ∈ c_Secrets c → sec_SecretRef x = Some ref →
         SecretPath RunPath (csr_Realm ref) (csr_Space ref) (csr_Stack ref) (csr_Cell ref) (csr_Name ref)
         ≠ SecretPath RunPath (secm_Realm md) (secm_Space md) (secm_Stack md) (secm_Cell md) (secm_Name md)) ∧
  (∀ volume v, os_faults os = [] → DeleteVolume RunPath cells volume os = (os', Ok v) →
     ∃ l, cells = Ok l ∧
       ∀ cell m rv, cell ∈ l → cell_live cell = true → m ∈ cell_mounts cell → is_volume_mount m = true →
         (ResolveVolumeMount RunPath (cell_scope cell) m os).2 = Ok rv → names_volume rv (vol_Metadata volume) = false).
Proof.
  split.
  - intros secret s H md. unfold DeleteSecret in H. case_match; [done|]. unfold secretReferences in H.
    destruct cells as [l|e]; [|done]. exists l. split; [done|]. cbn [res_bind] in H.
    destruct (dedup_from [] _) eqn:Ed; [|done]. intros cell c x ref Hcell Hc Hx Href Heq.
    assert (Hin : cellRef cell ∈ cellRef <$> List.filter (refersTo RunPath
        (SecretPath RunPath (secm_Realm md) (secm_Space md) (secm_Stack md) (secm_Cell md) (secm_Name md))) l).
    { apply list_elem_of_fmap_2. apply list_elem_of_In, filter_In. split; [by apply list_elem_of_In|].
      unfold refersTo. apply existsb_exists. exists c. split; [by apply list_elem_of_In|].
      apply existsb_exists. exists x. split; [by apply list_elem_of_In|]. rewrite Href. by apply String.eqb_eq. }
    fold md in Ed. destruct (cellRef <$> _) as [|y ys]; [by apply elem_of_nil in Hin|]. done.
  - intros volume v Hf H. unfold DeleteVolume in H. case_match; [done|].
    unfold VolumeMountedByLiveCell in H. destruct cells as [l|e]; [|done]. exists l. split; [done|].
    unfold st_bind in H. destruct (mountedByLive_quiet (vol_Metadata volume) l os Hf) as [_ Hn].
    destruct (mountedByLive _ _ l os) as [os1 hit]. cbn in *. destruct hit; [done|]. by apply Hn.
Qed.

End Gates.

Definition sample_target : Secret :=
  {| secret_Metadata := secret_md (ScRealm "r") "token"; secret_Data := "hunter2" |}.

Lemma deletion_gates_hold_witness :
  let os := (WriteSecret "/opt/kukeon" sample_target (sample_os [])).1 in
  let cells := Ok [sample_cell false CellStateReady [sample_container "main" false RestartPolicyAlways] []] in
  (DeleteSecret "/opt/kukeon" cells sample_target os).2 = Ok sample_target ∧
  ∃ l, cells = Ok l.
Proof.
  intros os cells. destruct (DeleteSecret "/opt/kukeon" cells sample_target os) as [os' r] eqn:E.
  assert (Er : r = (DeleteSecret "/opt/kukeon" cells sample_target os).2) by by rewrite E.
  vm_compute in Er. subst r. split; [reflexivity|].
  destruct (proj1 (deletion_gates_hold "/opt/kukeon" cells os os') sample_target sample_target E) as (l & -> & _).
  by exists l.
Defined.

(** ** Theorems: names the controller does not check *)

(** the controller's own entry points do not apply the path checks of the document
    parser: a secret named "../blueprints/n" passes validateSecretLookup, which the create,
    get and delete calls rely on, while the same name in a Secret document is refused,
    and the path it stands for is the path of the realm's blueprint n. *)
Theorem secret_lookup_unguarded bl r n :
  Forall seg_ok bl → seg_ok r → blank r = false → seg_ok n →
  validateSecretLookup {| secm_Name := "../blueprints/" +:+ n; secm_Realm := r; secm_Space := ""; secm_Stack := "";
                          secm_Cell := "" |} = None ∧
  is_Some (validateSecretScope {| ext.secm_Name := "../blueprints/" +:+ n; ext.secm_Realm := r; ext.secm_Space := "";
                                  ext.secm_Stack := ""; ext.secm_Cell := "" |}) ∧
  SecretPath (render_path bl) r "" "" "" ("../blueprints/" +:+ n) = BlueprintPath (render_path bl) r "" "" n.
Proof.
  intros Hbl Hr Hb Hn. split_and!.
  - unfold validateSecretLookup. cbn [secm_Name secm_Realm secm_Space secm_Stack secm_Cell].
    assert (blank ("../blueprints/" +:+ n) = false) as -> by (apply String.eqb_neq; by apply TrimSpace_head).
    by rewrite Hb.
  - destruct (validateSecretScope _) eqn:E; [done|]. apply validateSecretScope_coords in E as [_ HF].
    apply Forall_cons in HF as [[Hn0|[_ Hs _ _]] _]; [done|]. by cbn in Hs.
  - unfold BlueprintPath, BlueprintsDir, BlueprintScopeDir, SecretPath, SecretsDir, SecretScopeDir. cbn [String.eqb negb].
    assert (HF : Forall seg_ok (bl ++ ["data"; r])).
    { apply Forall_app; split; [done|]. repeat apply Forall_cons_2; [by split|done|by constructor]. }
    rewrite RealmMetadataDir_render by done. rewrite !(FJoin_seg (bl ++ _)) by (done || by split).
    assert (HS : ∀ x, seg_ok x → Forall seg_ok ((bl ++ ["data"; r]) ++ [x])).
    { intros x Hx. apply Forall_app; split; [done|by apply Forall_singleton]. }
    change ("../blueprints/" +:+ n) with ("../" +:+ KukeonBlueprintsSubdir +:+ "/" +:+ n).
    rewrite FJoin_sibling by (done || (by split) || by apply HS; split).
    rewrite FJoin_seg by (done || by apply HS; split). rewrite <-!app_assoc. reflexivity.
Qed.

Lemma secret_lookup_unguarded_witness :
  SecretPath "/opt/kukeon" "r" "" "" "" "../blueprints/web" = BlueprintPath "/opt/kukeon" "r" "" "" "web".
Proof. apply (secret_lookup_unguarded ["opt"; "kukeon"] "r" "web"); [seg_list|by split|done|by split]. Defined.

(** ** Theorems: creation end to end

    The reconcilers of [Apply] run against the object store of [Objects]. *)

Definition with_object_store (base : string) (gid : Z) (manifestJSON : string → string) (R : ApplyRunner OS)
    : ApplyRunner OS := {|
  ap_GetRealm := @ap_GetRealm _ R; ap_CreateRealm := @ap_CreateRealm _ R; ap_UpdateRealm := @ap_UpdateRealm _ R;
  ap_GetSpace := @ap_GetSpace _ R; ap_CreateSpace := @ap_CreateSpace _ R; ap_UpdateSpace := @ap_UpdateSpace _ R;
  ap_GetStack := @ap_GetStack _ R; ap_CreateStack := @ap_CreateStack _ R; ap_UpdateStack := @ap_UpdateStack _ R;
  ap_GetCell := @ap_GetCell _ R; ap_CreateCell := @ap_CreateCell _ R; ap_StartCell := @ap_StartCell _ R;
  ap_UpdateCell := @ap_UpdateCell _ R; ap_RecreateCell := @ap_RecreateCell _ R;
  ap_UpdateCellMetadata := @ap_UpdateCellMetadata _ R;
  ap_CreateContainer := @ap_CreateContainer _ R; ap_UpdateContainer := @ap_UpdateContainer _ R;
  ap_WriteSecret := WriteSecret base; ap_WriteBlueprint := WriteBlueprint base;
  ap_WriteVolume := WriteVolume base gid manifestJSON; ap_WriteConfig := WriteConfig base;
  ap_WriteConfigIfAbsent := fun c => let! r := WriteConfigIfAbsent base c in
                                     st_ret (match r with Err e => Some e | Ok _ => None end);
  ap_GetBlueprint := Objects.GetBlueprint base; ap_rangeOrder := @ap_rangeOrder _ R |}.

(** The lookups of a runner only read the disk. *)
Record reads_only (R : ApplyRunner OS) : Prop := {
  ro_realm : ∀ x os, os_fs (@ap_GetRealm _ R x os).1 = os_fs os;
  ro_space : ∀ x os, os_fs (@ap_GetSpace _ R x os).1 = os_fs os;
  ro_stack : ∀ x os, os_fs (@ap_GetStack _ R x os).1 = os_fs os;
  ro_cell : ∀ x os, os_fs (@ap_GetCell _ R x os).1 = os_fs os
}.

Section EndToEnd.
Context (bl : list string) (Hbl : Forall seg_ok bl) (gid : Z) (manifestJSON : string → string).
Context (R : ApplyRunner OS) (HR : reads_only R).
Let runner := with_object_store (render_path bl) gid manifestJSON R.
#[local] Existing Instance runner.

Definition fs_kept (os os' : OS) : Prop := os_fs os' = os_fs os.
#[local] Instance fs_kept_preorder : PreOrder fs_kept.
Proof. split; [done|]. unfold fs_kept. intros x y z H1 H2. by rewrite H2. Qed.

Lemma secret_scope_reads md os : os_fs (@ensureSecretScopeExists _ runner md os).1 = os_fs os.
Proof.
  destruct HR as [H1 H2 H3 H4].
  enough (Hr : respects fs_kept (@ensureSecretScopeExists _ runner md)) by apply Hr.
  assert (respects fs_kept (@ap_GetRealm _ R (realm_named (secm_Realm md)))) by (intros s; apply H1).
  assert (∀ a b, respects fs_kept (@ap_GetSpace _ R (space_named a b))) by (intros a b s; apply H2).
  assert (∀ a b c, respects fs_kept (@ap_GetStack _ R (stack_named a b c))) by (intros a b c s; apply H3).
  assert (∀ a b c d, respects fs_kept (@ap_GetCell _ R (cell_named a b c d))) by (intros a b c d s; apply H4).
  unfold ensureSecretScopeExists, ensureScopeExists. cbn. solve_frame.
Qed.

(** creating a secret through the controller is all or nothing: it succeeds only
    when its name and scope pass the checks, every scope on its path exists and its file
    then holds the whole data at mode 0600; whenever it fails, the secret's file is as it
    was before. *)
Theorem create_secret_all_or_nothing sc n data os os' res :
  resource_wf (RSecret sc n) → not_temp (RSecret sc n) →
  CreateSecret {| secret_Metadata := secret_md sc n; secret_Data := data |} os = (os', res) →
  match res with
  | Ok (_, created) =>
      validateSecretLookup (secret_md sc n) = None ∧
      created = bool_decide (os_fs os !! object_path bl (RSecret sc n) = None) ∧
      ∃ i, os_fs os' !! object_path bl (RSecret sc n) = Some i ∧ i_node i = NFile data ∧ i_mode i = 384%Z
  | Err _ => os_fs os' !! object_path bl (RSecret sc n) = os_fs os !! object_path bl (RSecret sc n)
  end.
Proof.
  intros Hwf Ht H. unfold CreateSecret, createThrough in H. cbn [secret_Metadata] in H.
  destruct (validateSecretLookup _) eqn:Ev; [by injection H as <- <-|].
  unfold ReconcileSecret, st_bind in H. cbn [secret_Metadata] in H.
  pose proof (secret_scope_reads (secret_md sc n) os) as Hfs.
  destruct (ensureSecretScopeExists (secret_md sc n) os) as [os1 [e|]]; cbn in Hfs.
  { injection H as <- <-. by rewrite Hfs. }
  unfold writeThrough, st_bind in H. cbn [ap_WriteSecret runner with_object_store] in H.
  destruct (WriteSecret _ _ os1) as [os2 w] eqn:Ew.
  destruct (secret_at bl Hbl sc n Hwf) as [E1 E2].
  destruct (object_paths bl Hbl (RSecret sc n) _ n sc Hwf eq_refl) as [Ep _].
  unfold WriteSecret in Ew. cbn [secret_Metadata secret_Data] in Ew. rewrite E1, E2 in Ew.
  apply writeObject_spec in Ew as [_ Ew]; [|apply not_temp_path; [done|set_solver]|rewrite Ep; apply not_prefix].
  rewrite Hfs in Ew. destruct w as [created|e].
  - destruct Ew as (Hc & Hi & _). destruct created; injection H as <- <-; cbn; eauto.
  - injection H as <- <-. apply Ew; [apply not_temp_path; [done|set_solver]|]. rewrite Ep. apply not_prefix.
Qed.

End EndToEnd.

(** A host on which every scope exists. *)
Definition sample_os_runner : ApplyRunner OS := {|
  ap_GetRealm := fun x => st_ret (Ok x); ap_CreateRealm := fun x => st_ret (Ok x); ap_UpdateRealm := fun x => st_ret (Ok x);
  ap_GetSpace := fun x => st_ret (Ok x); ap_CreateSpace := fun x => st_ret (Ok x); ap_UpdateSpace := fun x => st_ret (Ok x);
  ap_GetStack := fun x => st_ret (Ok x); ap_CreateStack := fun x => st_ret (Ok x); ap_UpdateStack := fun x => st_ret (Ok x);
  ap_GetCell := fun x => st_ret (Ok x); ap_CreateCell := fun x => st_ret (Ok x); ap_StartCell := fun x => st_ret (Ok x);
  ap_UpdateCell := fun x => st_ret (Ok x); ap_RecreateCell := fun x => st_ret (Ok x);
  ap_UpdateCellMetadata := fun _ => st_ret None;
  ap_CreateContainer := fun x _ => st_ret (Ok x); ap_UpdateContainer := fun x _ => st_ret (Ok x);
  ap_WriteSecret := fun _ => st_ret (Ok true); ap_WriteBlueprint := fun _ => st_ret (Ok true);
  ap_WriteVolume := fun _ => st_ret (Ok true); ap_WriteConfig := fun _ => st_ret (Ok true);
  ap_WriteConfigIfAbsent := fun _ => st_ret None; ap_GetBlueprint := fun x => st_ret (Ok x);
  ap_rangeOrder := fun m => st_ret (fst <$> map_to_list m) |}.

Lemma create_secret_all_or_nothing_witness :
  let R := with_object_store "/opt/kukeon" 0 (fun p => p) sample_os_runner in
  let '(os', _) := @CreateSecret _ R sample_target (sample_os []) in
  ∃ i, os_fs os' !! ["opt"; "kukeon"; "data"; "r"; "secrets"; "token"] = Some i ∧ i_node i = NFile "hunter2".
Proof.
  intros R. destruct (@CreateSecret _ R sample_target (sample_os [])) as [os' res] eqn:E.
  pose proof (create_secret_all_or_nothing ["opt"; "kukeon"] ltac:(seg_list) 0 (fun p => p) sample_os_runner
    ltac:(by split) (ScRealm "r") "token" "hunter2" (sample_os []) os' res ltac:(res_wf) ltac:(by apply not_temp_last) E) as H.
  assert (Er : res = (@CreateSecret _ R sample_target (sample_os [])).2) by by rewrite E.
  vm_compute in Er. subst res. destruct H as (_ & _ & i & Hi & Hn & _). exists i. split; [exact Hi|exact Hn].
Defined.
