(* ===== verification/Documents.v ===== *)
(** * Applying and deleting documents
    (internal/controller/documents.go, apply.go, delete_documents.go)

    The parsed documents of one request are sorted by kind and handled one by one; a
    document that fails is reported and the rest still run.  With a team name, the stored
    blueprints and configs of the team that were not applied are pruned afterwards. *)

From Stdlib Require Import Ascii ZArith Lia.
From stdpp Require Import base gmap strings list sorting.
From S2P Require Import Prelude Model External Validate Scheme Naming Template Blueprint Config Layout Parser CellState Observe Refresh Diff Apply.

Local Open Scope nat_scope.

(** ** Order *)

(** An unknown kind is absent from the map and reads as zero. *)
Definition kindOrder (kind : string) : nat :=
  match find_index (String.eqb kind) documentKinds with Some i => S i | None => 0 end.

Definition doc_less (reverse : bool) (a b : Document) : bool :=
  let i := kindOrder (doc_Kind a) in
  let j := kindOrder (doc_Kind b) in
  if negb (i =? j) then (if reverse then j <? i else i <? j) else (doc_Index a <? doc_Index b)%Z.
Definition doc_le (reverse : bool) (a b : Document) : Prop := doc_less reverse b a = false.
#[global] Instance doc_le_dec reverse a b : Decision (doc_le reverse a b) := decide (_ = false).

(** sort.Slice may permute documents the comparison does not tell apart; this is the
    stable choice. *)
Definition SortDocumentsByKind (docs : list Document) (reverse : bool) : list Document :=
  merge_sort (doc_le reverse) docs.

(** ** Apply *)

Definition actionFailed : string := "failed".
Definition actionPruned : string := "pruned".

Record ResourceResult := {
  res_Index : Z; res_Kind : string; res_Name : string; res_Action : string; res_Error : option error;
  res_Changes : list string; res_Details : gmap string string
}.
Record ApplyResult := { ar_Resources : list ResourceResult }.

Record scopedRef := { sr_Realm : string; sr_Space : string; sr_Stack : string; sr_Name : string }.
#[global] Instance scopedRef_eq_dec : EqDecision scopedRef.
Proof. solve_decision. Defined.
Definition scopedRefFromMetadata (md : ScopedName) : scopedRef :=
  {| sr_Realm := scn_Realm md; sr_Space := scn_Space md; sr_Stack := scn_Stack md; sr_Name := scn_Name md |}.

Definition stampTeamLabel (labels : gmap string string) (team : string) : gmap string string :=
  <[ext.LabelTeam := team]> labels.
Definition stampBlueprint (team : string) (d : ext.CellBlueprintDoc) : ext.CellBlueprintDoc :=
  if String.eqb team "" then d
  else let m := ext.bp_Metadata d in
       {| ext.bp_APIVersion := ext.bp_APIVersion d; ext.bp_Kind := ext.bp_Kind d;
          ext.bp_Metadata := {| ext.bpm_Name := ext.bpm_Name m; ext.bpm_Realm := ext.bpm_Realm m;
                                ext.bpm_Space := ext.bpm_Space m; ext.bpm_Stack := ext.bpm_Stack m;
                                ext.bpm_Labels := stampTeamLabel (ext.bpm_Labels m) team |};
          ext.bp_Spec := ext.bp_Spec d |}.
Definition stampConfig (team : string) (d : ext.CellConfigDoc) : ext.CellConfigDoc :=
  if String.eqb team "" then d
  else let m := ext.cfg_Metadata d in
       {| ext.cfg_APIVersion := ext.cfg_APIVersion d; ext.cfg_Kind := ext.cfg_Kind d;
          ext.cfg_Metadata := {| ext.cfm_Name := ext.cfm_Name m; ext.cfm_Realm := ext.cfm_Realm m;
                                 ext.cfm_Space := ext.cfm_Space m; ext.cfm_Stack := ext.cfm_Stack m;
                                 ext.cfm_Labels := stampTeamLabel (ext.cfm_Labels m) team;
                                 ext.cfm_Annotations := ext.cfm_Annotations m |};
          ext.cfg_Spec := ext.cfg_Spec d |}.

(** The operations pruning uses beside the reconcilers'. *)
Class PruneRunner (W : Type) := {
  pr_ListConfigs : st W (result (list CellConfig));
  pr_ListBlueprints : st W (result (list CellBlueprint));
  pr_DeleteConfig : CellConfig → st W (option error);
  pr_DeleteBlueprint : CellBlueprint → st W (option error)
}.

Definition scopeDetails (realm space stack : string) : gmap string string :=
  let d : gmap string string := {[ "realm" := realm ]} in
  let d := if String.eqb space "" then d else <["space" := space]> d in
  if String.eqb stack "" then d else <["stack" := stack]> d.

(** The listed objects of the team that the apply did not include. *)
Definition pruneTargets {A} (md : A → ScopedName) (team : string) (applied : list scopedRef) (l : list A) : list A :=
  List.filter (fun x => String.eqb (default "" (scn_Labels (md x) !! ext.LabelTeam)) team
                        && negb (bool_decide (scopedRefFromMetadata (md x) ∈ applied))) l.

Section Apply.
Context {W : Type} `{ApplyRunner W} `{PruneRunner W}.
Context `{YamlCodec ext.CellBlueprintDoc} `{YamlCodec ext.CellConfigDoc}.

(** A pass over the documents threads the runner's state and the addresses of the
    pointers the conversions allocate. *)
Definition MD (A : Type) : Type := st (W * positive) A.
Definition lift_w {A} (m : st W A) : MD A := fun s => let '(w, a) := m s.1 in ((w, s.2), a).
Definition lift_p {A} (m : st positive A) : MD A := fun s => let '(p, a) := m s.2 in ((s.1, p), a).

Definition failed (doc : Document) (name : string) (e : error) : ResourceResult := {|
  res_Index := doc_Index doc; res_Kind := doc_Kind doc; res_Name := name; res_Action := actionFailed;
  res_Error := Some e; res_Changes := []; res_Details := ∅ |}.
Definition reported (doc : Document) (name : string) (r : ReconcileResult * option error) : ResourceResult :=
  match r.2 with
  | Some e => failed doc name e
  | None => {| res_Index := doc_Index doc; res_Kind := doc_Kind doc; res_Name := name; res_Action := rr_Action r.1;
               res_Error := None; res_Changes := rr_Changes r.1; res_Details := rr_Details r.1 |}
  end.

(** The refs an apply records for pruning. *)
Record Applied := { ap_Blueprints : list scopedRef; ap_Configs : list scopedRef }.
Definition none_applied : Applied := {| ap_Blueprints := []; ap_Configs := [] |}.
Definition applied_app (a b : Applied) : Applied :=
  {| ap_Blueprints := ap_Blueprints a ++ ap_Blueprints b; ap_Configs := ap_Configs a ++ ap_Configs b |}.

Definition conversionFailed (e : error) : error := EWrap "%w: %w" [ESentinel ErrConversionFailed; e].

(** The steps the kinds share: nil check, conversion, reconciliation. *)
Definition applyKind {D I} (doc : Document) (nilMsg : string) (d : option D) (convert : D → MD (result (I * string)))
    (name : I → string) (reconcile : I → st W (ReconcileResult * option error))
    (record : I → Applied) : MD (ResourceResult * Applied) :=
  match d with
  | None => st_ret (failed doc "" (EOpaque nilMsg), none_applied)
  | Some d =>
      let! conv := convert d in
      match conv with
      | Err e => st_ret (failed doc "" (conversionFailed e), none_applied)
      | Ok (x, _) =>
          let! r := lift_w (reconcile x) in
          st_ret (reported doc (name x) r, match r.2 with None => record x | Some _ => none_applied end)
      end
  end.

Definition pure {D I} (f : D → result (I * string)) (d : D) : MD (result (I * string)) := st_ret (f d).
Definition unrecorded {I} (_ : I) : Applied := none_applied.

(** The reconcilers see the stored config and blueprint codecs. *)
#[local] Instance config_schema : ConfigSchema := {|
  ConfigDoc := ext.CellConfigDoc; BlueprintDoc := ext.CellBlueprintDoc;
  Apply.ConvertCellConfigToExternal := Config.ConvertCellConfigToExternal;
  Apply.ConvertCellBlueprintToExternal := Blueprint.ConvertCellBlueprintToExternal;
  configBlueprintRef := fun d =>
    let r := ext.cfs_Blueprint (ext.cfg_Spec d) in
    {| scn_Name := ext.bref_Name r; scn_Realm := ext.bref_Realm r; scn_Space := ext.bref_Space r;
       scn_Stack := ext.bref_Stack r; scn_Labels := ∅ |};
  Apply.ValidateSlotFill := Config.ValidateSlotFill |}.

Definition applyDocument (team : string) (doc : Document) : MD (ResourceResult * Applied) :=
  let kind := doc_Kind doc in
  if String.eqb kind ext.KindRealm then
    applyKind doc "realm document is nil" (doc_RealmDoc doc) (pure NormalizeRealm)
      (fun x => sm_Name (realm_Metadata x)) ReconcileRealm unrecorded
  else if String.eqb kind ext.KindSpace then
    applyKind doc "space document is nil" (doc_SpaceDoc doc) (pure NormalizeSpace)
      (fun x => sm_Name (space_Metadata x)) ReconcileSpace unrecorded
  else if String.eqb kind ext.KindStack then
    applyKind doc "stack document is nil" (doc_StackDoc doc) (pure NormalizeStack)
      (fun x => sm_Name (stack_Metadata x)) ReconcileStack unrecorded
  else if String.eqb kind ext.KindCell then
    applyKind doc "cell document is nil" (doc_CellDoc doc) (fun d => lift_p (NormalizeCell d))
      (fun x => cm_Name (cell_Metadata x)) ReconcileCell unrecorded
  else if String.eqb kind ext.KindContainer then
    applyKind doc "container document is nil" (doc_ContainerDoc doc) (fun d => lift_p (NormalizeContainer d))
      (fun x => ctm_Name (cont_Metadata x)) ReconcileContainer unrecorded
  else if String.eqb kind ext.KindSecret then
    applyKind doc "secret document is nil" (doc_SecretDoc doc) (pure NormalizeSecret)
      (fun x => secm_Name (secret_Metadata x)) ReconcileSecret unrecorded
  else if String.eqb kind ext.KindCellBlueprint then
    applyKind doc "blueprint document is nil" (doc_CellBlueprintDoc doc)
      (pure (fun d => NormalizeCellBlueprint (stampBlueprint team d)))
      (fun x => scn_Name (bp_Metadata x)) ReconcileBlueprint
      (fun x => {| ap_Blueprints := [scopedRefFromMetadata (bp_Metadata x)]; ap_Configs := [] |})
  else if String.eqb kind ext.KindCellConfig then
    applyKind doc "config document is nil" (doc_CellConfigDoc doc)
      (pure (fun d => NormalizeCellConfig (stampConfig team d)))
      (fun x => scn_Name (cfg_Metadata x)) ReconcileConfig
      (fun x => {| ap_Blueprints := []; ap_Configs := [scopedRefFromMetadata (cfg_Metadata x)] |})
  else if String.eqb kind ext.KindVolume then
    applyKind doc "volume document is nil" (doc_VolumeDoc doc) (pure NormalizeVolume)
      (fun x => volm_Name (vol_Metadata x)) ReconcileVolume unrecorded
  else st_ret (failed doc "" (EWrap "%w: %s" [ESentinel ErrUnknownKind]), none_applied).

Fixpoint applyAll (team : string) (docs : list Document) : MD (list ResourceResult * Applied) :=
  match docs with
  | [] => st_ret ([], none_applied)
  | doc :: rest =>
      let! one := applyDocument team doc in
      let! more := applyAll team rest in
      st_ret (one.1 :: more.1, applied_app one.2 more.2)
  end.

(** One deletion of the prune pass. *)
Definition pruneOne {A} (kind fmt : string) (md : A → ScopedName) (del : A → st W (option error)) (x : A)
    : st W ResourceResult :=
  let m := md x in
  let! e := del x in
  st_ret {| res_Index := 0; res_Kind := kind; res_Name := scn_Name m;
            res_Action := match e with None => actionPruned | Some _ => actionFailed end;
            res_Error := match e with None => None | Some e => Some (EWrap fmt [e]) end;
            res_Changes := []; res_Details := scopeDetails (scn_Realm m) (scn_Space m) (scn_Stack m) |}.

Definition pruneTeamObjects (team : string) (applied : Applied) : st W (result (list ResourceResult)) :=
  let! configs := pr_ListConfigs in
  match configs with
  | Err e => st_ret (Err (EWrap "prune team %q: list configs: %w" [e]))
  | Ok cfgs =>
      let! blueprints := pr_ListBlueprints in
      match blueprints with
      | Err e => st_ret (Err (EWrap "prune team %q: list blueprints: %w" [e]))
      | Ok bps =>
          let! rc := st_map (pruneOne "CellConfig" "prune team %q: delete config %q: %w" cfg_Metadata pr_DeleteConfig)
                       (pruneTargets cfg_Metadata team (ap_Configs applied) cfgs) in
          let! rb := st_map (pruneOne "CellBlueprint" "prune team %q: delete blueprint %q: %w" bp_Metadata pr_DeleteBlueprint)
                       (pruneTargets bp_Metadata team (ap_Blueprints applied) bps) in
          st_ret (Ok (rc ++ rb))
      end
  end.

Definition ApplyDocuments (docs : list Document) (team : string) : MD (ApplyResult * option error) :=
  let! r := applyAll team (SortDocumentsByKind docs false) in
  if String.eqb team "" then st_ret ({| ar_Resources := r.1 |}, None)
  else
    let! pruned := lift_w (pruneTeamObjects team r.2) in
    st_ret (match pruned with
            | Err e => ({| ar_Resources := r.1 |}, Some e)
            | Ok more => ({| ar_Resources := r.1 ++ more |}, None)
            end).

End Apply.

(** ** Delete *)

Definition actionDeleted : string := "deleted".
Definition actionNotFound : string := "not found".

Record ResourceDeleteResult := {
  rd_Index : Z; rd_Kind : string; rd_Name : string; rd_Action : string; rd_Error : option error;
  rd_Cascaded : list string; rd_Details : gmap string string
}.

(** The controller's deletions: the Deleted list of a scope, ContainersDeleted of a
    cell. *)
Class DeleteController (W : Type) := {
  dc_DeleteRealm : Realm → bool → bool → st W (result (list string));
  dc_DeleteSpace : Space → bool → bool → st W (result (list string));
  dc_DeleteStack : Stack → bool → bool → st W (result (list string));
  dc_DeleteCell : Cell → st W (result bool)
}.

Section Delete.
Context {W : Type} `{DeleteController W}.
(** err.Error() *)
Context (errorText : error → string).

Definition isNotFoundError (e : error) : bool :=
  existsb (fun s => error_is s e) [ErrRealmNotFound; ErrSpaceNotFound; ErrStackNotFound; ErrCellNotFound]
  || Contains (ToLower (errorText e)) "not found".

(** strings.TrimPrefix of a prefix that is there *)
Fixpoint drop_prefix (p s : string) : string :=
  match p, s with
  | String _ p', String _ s' => drop_prefix p' s'
  | _, _ => s
  end.
Definition extractCascadedResources (deleted : list string) (prefix : string) : list string :=
  (fun item => drop_prefix (prefix +:+ ":") item) <$> List.filter (fun item => HasPrefix item (prefix +:+ ":")) deleted.

Definition deleteFailed (doc : Document) (name : string) (e : error) : ResourceDeleteResult := {|
  rd_Index := doc_Index doc; rd_Kind := doc_Kind doc; rd_Name := name; rd_Action := actionFailed;
  rd_Error := Some e; rd_Cascaded := []; rd_Details := ∅ |}.
Definition deleteReported {A} (doc : Document) (name : string) (r : result A) (cascaded : A → list string)
    (details : A → gmap string string) : ResourceDeleteResult :=
  match r with
  | Ok a => {| rd_Index := doc_Index doc; rd_Kind := doc_Kind doc; rd_Name := name; rd_Action := actionDeleted;
               rd_Error := None; rd_Cascaded := cascaded a; rd_Details := details a |}
  | Err e =>
      if isNotFoundError e
      then {| rd_Index := doc_Index doc; rd_Kind := doc_Kind doc; rd_Name := name; rd_Action := actionNotFound;
              rd_Error := None; rd_Cascaded := []; rd_Details := ∅ |}
      else deleteFailed doc name e
  end.

Definition deleteKind {D I A} (doc : Document) (nilMsg : string) (d : option D)
    (convert : D → st (W * positive) (result (I * string))) (name : I → string) (del : I → st W (result A))
    (cascaded : A → list string) (details : I → A → gmap string string)
    : st (W * positive) ResourceDeleteResult :=
  match d with
  | None => st_ret (deleteFailed doc "" (EOpaque nilMsg))
  | Some d =>
      let! conv := convert d in
      match conv with
      | Err e => st_ret (deleteFailed doc "" (conversionFailed e))
      | Ok (x, _) =>
          let! r := lift_w (del x) in
          st_ret (deleteReported doc (name x) r cascaded (details x))
      end
  end.

Definition no_details {I A} (_ : I) (_ : A) : gmap string string := ∅.
Definition cellDetails (cell : Cell) (containersDeleted : bool) : gmap string string :=
  let n := length (csp_Containers (cell_Spec cell)) in
  if containersDeleted && (0 <? n) then {[ "containers" := Itoa (Z.of_nat n) +:+ " deleted" ]} else ∅.

Definition deleteDocument (cascade force : bool) (doc : Document) : st (W * positive) ResourceDeleteResult :=
  let kind := doc_Kind doc in
  if String.eqb kind ext.KindRealm then
    deleteKind doc "realm document is nil" (doc_RealmDoc doc) (pure NormalizeRealm)
      (fun x => sm_Name (realm_Metadata x)) (fun x => dc_DeleteRealm x force cascade)
      (fun l => extractCascadedResources l "space") no_details
  else if String.eqb kind ext.KindSpace then
    deleteKind doc "space document is nil" (doc_SpaceDoc doc) (pure NormalizeSpace)
      (fun x => sm_Name (space_Metadata x)) (fun x => dc_DeleteSpace x force cascade)
      (fun l => extractCascadedResources l "stack") no_details
  else if String.eqb kind ext.KindStack then
    deleteKind doc "stack document is nil" (doc_StackDoc doc) (pure NormalizeStack)
      (fun x => sm_Name (stack_Metadata x)) (fun x => dc_DeleteStack x force cascade)
      (fun l => extractCascadedResources l "cell") no_details
  else if String.eqb kind ext.KindCell then
    deleteKind doc "cell document is nil" (doc_CellDoc doc) (fun d => lift_p (NormalizeCell d))
      (fun x => cm_Name (cell_Metadata x)) dc_DeleteCell (fun _ => []) cellDetails
  else st_ret (deleteFailed doc "" (EWrap "%w: %s" [ESentinel ErrUnknownKind])).

Definition DeleteDocuments (docs : list Document) (cascade force : bool)
    : st (W * positive) (list ResourceDeleteResult) :=
  st_map (deleteDocument cascade force) (SortDocumentsByKind docs true).

End Delete.

(** ** Theorems: the order *)

Lemma kindOrder_known k : k ∈ documentKinds ↔ kindOrder k ≠ 0.
Proof.
  unfold kindOrder. assert (H : ∀ l, find_index (String.eqb k) l = None ↔ k ∉ l).
  { induction l as [|x l IH]; cbn; [split; [by intros _ ?%elem_of_nil|done]|].
    rewrite not_elem_of_cons, <-IH. destruct (String.eqb_spec k x) as [->|Hne]; [naive_solver|].
    destruct (find_index _ l); naive_solver. }
  destruct (find_index (String.eqb k) documentKinds) eqn:E.
  - split; [done|]. intros _. destruct (decide (k ∈ documentKinds)) as [|Hn]; [done|]. apply H in Hn. congruence.
  - split; [intros Hk; by apply H in E|done].
Qed.

#[global] Instance doc_le_total reverse : Total (doc_le reverse).
Proof.
  intros a b. unfold doc_le, doc_less.
  destruct (Nat.eqb_spec (kindOrder (doc_Kind a)) (kindOrder (doc_Kind b))) as [E|E];
    destruct (Nat.eqb_spec (kindOrder (doc_Kind b)) (kindOrder (doc_Kind a))) as [E'|E']; try lia; cbn [negb].
  - rewrite !Z.ltb_ge. lia.
  - destruct reverse; rewrite !Nat.ltb_ge; lia.
Qed.

#[global] Instance doc_le_trans reverse : Transitive (doc_le reverse).
Proof.
  intros a b c. unfold doc_le, doc_less.
  destruct (Nat.eqb_spec (kindOrder (doc_Kind b)) (kindOrder (doc_Kind a))) as [E1|E1],
    (Nat.eqb_spec (kindOrder (doc_Kind c)) (kindOrder (doc_Kind b))) as [E2|E2],
    (Nat.eqb_spec (kindOrder (doc_Kind c)) (kindOrder (doc_Kind a))) as [E3|E3];
    cbn [negb]; destruct reverse; rewrite ?Z.ltb_ge, ?Nat.ltb_ge; lia.
Qed.

(** Documents with distinct indexes are told apart by the comparison. *)
Lemma doc_le_antisym reverse a b : doc_le reverse a b → doc_le reverse b a → doc_Index a = doc_Index b.
Proof.
  unfold doc_le, doc_less.
  destruct (Nat.eqb_spec (kindOrder (doc_Kind a)) (kindOrder (doc_Kind b))) as [E|E];
    destruct (Nat.eqb_spec (kindOrder (doc_Kind b)) (kindOrder (doc_Kind a))) as [E'|E']; try lia; cbn [negb].
  - rewrite !Z.ltb_ge. lia.
  - destruct reverse; rewrite !Nat.ltb_ge; lia.
Qed.

Lemma sorted_unique reverse (l1 l2 : list Document) :
  NoDup (doc_Index <$> l1) → l1 ≡ₚ l2 → StronglySorted (doc_le reverse) l1 → StronglySorted (doc_le reverse) l2 → l1 = l2.
Proof.
  intros Hnd Hp H1. revert l2 Hp. induction H1 as [|x l1 H1 IH Hx]; intros l2 Hp H2.
  { by apply Permutation_nil_l in Hp. }
  destruct l2 as [|y l2]; [by apply Permutation_nil_r in Hp|].
  inversion H2 as [|?? H2' Hy]; subst. cbn in Hnd. apply NoDup_cons in Hnd as [Hni Hnd].
  assert (x = y) as <-.
  { assert (Hxin : x ∈ y :: l2) by (rewrite <-Hp; by left). assert (Hyin : y ∈ x :: l1) by (rewrite Hp; by left).
    apply elem_of_cons in Hxin as [->|Hxin]; [done|]. apply elem_of_cons in Hyin as [->|Hyin]; [done|].
    exfalso. apply Hni. rewrite Forall_forall in Hx, Hy.
    rewrite (doc_le_antisym reverse x y (Hx _ Hyin) (Hy _ Hxin)). by apply list_elem_of_fmap_2. }
  f_equal. apply IH; [done|by apply (inj (cons x)) in Hp|done].
Qed.

Lemma sorted_lookup {A} (R : relation A) (l : list A) i j a b :
  StronglySorted R l → i < j → l !! i = Some a → l !! j = Some b → R a b.
Proof.
  intros Hs. revert i j. induction Hs as [|x l Hs IH Hx]; intros i j Hij Ha Hb; [done|].
  destruct j as [|j]; [lia|]. destruct i as [|i]; cbn in *.
  - simplify_eq. rewrite Forall_forall in Hx. by eapply Hx, list_elem_of_lookup_2.
  - apply (IH i j); [lia|done|done].
Qed.

(** Whatever permutation sort.Slice makes, documents with distinct indexes come out
    in one order: the result is a permutation of the request, sorted by kind, parents
    first for an apply and children first for a delete, and any other sorted permutation
    is the same list. *)
Theorem document_order_determined reverse docs l :
  NoDup (doc_Index <$> docs) → docs ≡ₚ l → StronglySorted (doc_le reverse) l →
  l = SortDocumentsByKind docs reverse ∧
  ∀ i j a b, i < j → l !! i = Some a → l !! j = Some b →
    (if reverse then kindOrder (doc_Kind b) ≤ kindOrder (doc_Kind a)
     else kindOrder (doc_Kind a) ≤ kindOrder (doc_Kind b)) ∧
    (doc_Kind a = doc_Kind b → (doc_Index a < doc_Index b)%Z).
Proof.
  intros Hnd Hp Hs. split.
  - apply (sorted_unique reverse); [by rewrite <-Hp| |done|apply StronglySorted_merge_sort; apply _].
    rewrite <-Hp. symmetry. apply merge_sort_Permutation.
  - rewrite Hp in Hnd. clear Hp docs. intros i j a b Hij Ha Hb.
    assert (Hle : doc_le reverse a b) by by eapply sorted_lookup.
    assert (Hne : doc_Index a ≠ doc_Index b).
    { intros Heq. assert (i = j); [|lia].
      eapply (NoDup_lookup (doc_Index <$> l)); [done| |]; rewrite list_lookup_fmap; [by rewrite Ha|by rewrite Hb, Heq]. }
    revert Hle. unfold doc_le, doc_less.
    destruct (Nat.eqb_spec (kindOrder (doc_Kind b)) (kindOrder (doc_Kind a))) as [E|E]; cbn [negb].
    + rewrite Z.ltb_ge, E. intros Hle. split; [by destruct reverse|lia].
    + destruct reverse; rewrite Nat.ltb_ge; intros Hle; (split; [done|intros Hk; congruence]).
Qed.

(** ** Theorems: apply *)

(** Every value a computation can return satisfies [P]. *)
Definition returns {S A} (P : A → Prop) (m : st S A) : Prop := ∀ s, P (m s).2.
Lemma returns_ret {S A} (P : A → Prop) a : P a → returns P (st_ret (S := S) a).
Proof. by intros ? s. Qed.
Lemma returns_bind {S A B} (P : B → Prop) (m : st S A) (k : A → st S B) :
  (∀ a, returns P (k a)) → returns P (st_bind m k).
Proof. intros Hk s. unfold st_bind. destruct (m s) as [s' a]. apply Hk. Qed.
Lemma returns_bind_2 {S A B} (P : A → Prop) (Q : B → Prop) (m : st S A) (k : A → st S B) :
  returns P m → (∀ a, P a → returns Q (k a)) → returns Q (st_bind m k).
Proof. intros Hm Hk s. unfold st_bind. specialize (Hm s). destruct (m s) as [s' a]. by apply Hk. Qed.

Ltac returns_step :=
  lazymatch goal with
  | |- returns _ (st_ret _) => apply returns_ret
  | |- returns _ (st_bind _ _) => apply returns_bind; intros ?
  | |- returns _ (match ?x with _ => _ end) => destruct x
  | |- returns _ (let _ := _ in _) => cbv zeta
  | |- context [match ?x with _ => _ end] => destruct x
  end.
Ltac returns_solve := repeat (returns_step; cbn -[st_bind st_ret]); try (intros; done).

(** A reconciler that succeeds never reports the action that marks a failure. *)
Definition honest (r : ReconcileResult * option error) : Prop := r.2 = None → rr_Action r.1 ≠ actionFailed.

Section ApplyTheorems.
Context {W : Type} `{ApplyRunner W} `{PruneRunner W}.
Context `{YamlCodec ext.CellBlueprintDoc} `{YamlCodec ext.CellConfigDoc}.

Lemma ReconcileRealm_honest x : returns (S := W) honest (ReconcileRealm x).
Proof. unfold ReconcileRealm. returns_solve. Qed.
Lemma ReconcileSpace_honest x : returns (S := W) honest (ReconcileSpace x).
Proof. unfold ReconcileSpace. returns_solve. Qed.
Lemma ReconcileStack_honest x : returns (S := W) honest (ReconcileStack x).
Proof. unfold ReconcileStack. returns_solve. Qed.
Lemma ReconcileCell_honest x : returns (S := W) honest (ReconcileCell x).
Proof.
  apply (returns_bind_2 honest).
  - unfold reconcileCell, applyCellDiff. returns_solve.
  - intros [r e] Hr. apply returns_ret. unfold honest in *. cbn in *. destruct e; [done|by intros _; apply Hr].
Qed.
Lemma ReconcileContainer_honest x : returns (S := W) honest (ReconcileContainer x).
Proof. unfold ReconcileContainer. returns_solve. Qed.
Lemma writeThrough_honest write r : rr_Action r ≠ actionFailed → returns (S := W) honest (writeThrough write r).
Proof. intros Hr. unfold writeThrough. returns_solve. Qed.
Lemma ReconcileSecret_honest x : returns (S := W) honest (ReconcileSecret x).
Proof. unfold ReconcileSecret. apply returns_bind. intros []; [by apply returns_ret|by apply writeThrough_honest]. Qed.
Lemma ReconcileBlueprint_honest x : returns (S := W) honest (ReconcileBlueprint x).
Proof. unfold ReconcileBlueprint. apply returns_bind. intros []; [by apply returns_ret|by apply writeThrough_honest]. Qed.
Lemma ReconcileVolume_honest x : returns (S := W) honest (ReconcileVolume x).
Proof. unfold ReconcileVolume. apply returns_bind. intros []; [by apply returns_ret|by apply writeThrough_honest]. Qed.
Lemma ReconcileConfig_honest `{ConfigSchema} x : returns (S := W) honest (ReconcileConfig x).
Proof. unfold ReconcileConfig. apply returns_bind. intros []; [by apply returns_ret|by apply writeThrough_honest]. Qed.

(** A report entry for a document: its index and kind, and the failed action exactly when
    there is an error. *)
Definition describes (doc : Document) (r : ResourceResult) : Prop :=
  res_Index r = doc_Index doc ∧ res_Kind r = doc_Kind doc ∧
  (res_Action r = actionFailed ↔ is_Some (res_Error r)).

Lemma describes_failed doc name e : describes doc (failed doc name e).
Proof. by repeat split. Qed.
Lemma describes_reported doc name r : honest r → describes doc (reported doc name r).
Proof.
  intros Hr. unfold reported. destruct r as [r [e|]]; cbn; [apply describes_failed|].
  split_and!; [done|done|]. split; [by intros ?%Hr|by intros [? ?]].
Qed.

Lemma applyKind_describes {D I} doc msg (d : option D) convert (name : I → string) reconcile record :
  (∀ x, returns (S := W) honest (reconcile x)) →
  returns (fun r => describes doc r.1) (applyKind doc msg d convert name reconcile record).
Proof.
  intros Hrec. unfold applyKind. destruct d; [|apply returns_ret, describes_failed].
  apply returns_bind. intros [[x v]|e]; [|apply returns_ret, describes_failed].
  apply (returns_bind_2 honest).
  - intros [w p]. specialize (Hrec x w). unfold lift_w. cbn. by destruct (reconcile x w).
  - intros r Hr. by apply returns_ret, describes_reported.
Qed.

Lemma applyDocument_describes team doc : returns (fun r => describes doc r.1) (applyDocument (W := W) team doc).
Proof.
  unfold applyDocument. cbv zeta.
  repeat match goal with |- returns _ (if ?b then _ else _) => destruct b end;
    first [apply applyKind_describes; eauto using ReconcileRealm_honest, ReconcileSpace_honest, ReconcileStack_honest,
             ReconcileCell_honest, ReconcileContainer_honest, ReconcileSecret_honest, ReconcileBlueprint_honest,
             ReconcileVolume_honest, ReconcileConfig_honest
          |apply returns_ret, describes_failed].
Qed.

Lemma applyAll_describes team docs : returns (fun r => Forall2 describes docs r.1) (applyAll (W := W) team docs).
Proof.
  induction docs as [|doc docs IH]; cbn [applyAll]; [by apply returns_ret; constructor|].
  eapply returns_bind_2; [apply applyDocument_describes|]. intros one Hone. cbv beta in Hone.
  eapply returns_bind_2; [apply IH|]. intros more Hmore. apply returns_ret. by constructor.
Qed.

Lemma st_map_returns {A B} (P : B → Prop) (f : A → st W B) l :
  (∀ x, returns P (f x)) → returns (Forall P) (st_map f l).
Proof.
  intros Hf. induction l as [|x l IH]; cbn [st_map]; [by apply returns_ret|].
  eapply returns_bind_2; [apply Hf|]. intros y Hy. eapply returns_bind_2; [apply IH|]. intros ys Hys.
  apply returns_ret. by constructor.
Qed.

(** An entry of the prune pass: pruned, or failed with an error. *)
Definition prune_entry (r : ResourceResult) : Prop :=
  res_Action r = actionPruned ∧ res_Error r = None ∨ res_Action r = actionFailed ∧ is_Some (res_Error r).

Lemma pruneOne_entry {A} kind fmt md (del : A → st W (option error)) x :
  returns prune_entry (pruneOne kind fmt md del x).
Proof. apply returns_bind. intros [e|]; apply returns_ret; [right|left]; split; done || eauto. Qed.

Lemma pruneTeamObjects_entries team applied :
  returns (fun r => match r with Ok l => Forall prune_entry l | Err _ => True end) (pruneTeamObjects (W := W) team applied).
Proof.
  unfold pruneTeamObjects. apply returns_bind. intros [cfgs|e]; [|by apply returns_ret].
  apply returns_bind. intros [bps|e]; [|by apply returns_ret].
  eapply returns_bind_2; [apply st_map_returns; intros; apply pruneOne_entry|]. intros rc Hrc.
  eapply returns_bind_2; [apply st_map_returns; intros; apply pruneOne_entry|]. intros rb Hrb.
  apply returns_ret. by apply Forall_app.
Qed.

(** C18: An apply answers for every document: the report opens with one entry per
    document, in the sorted order, under the document's own index and kind, whose action
    is "failed" exactly when an error is attached, so that no failure is hidden and none
    stops the documents behind it; the entries after these come from pruning, each pruned
    or failed with its error; and without a team the call itself never fails and prunes
    nothing. *)
Theorem apply_accounts_for_every_document docs team (s : W * positive) :
  ∃ own pruned e, (ApplyDocuments docs team s).2 = ({| ar_Resources := own ++ pruned |}, e) ∧
    Forall2 describes (SortDocumentsByKind docs false) own ∧ length own = length docs ∧
    Forall prune_entry pruned ∧ (is_Some e → pruned = []) ∧ (team = "" → pruned = [] ∧ e = None).
Proof.
  unfold ApplyDocuments, st_bind. pose proof (applyAll_describes team (SortDocumentsByKind docs false) s) as Hown.
  destruct (applyAll team _ s) as [s1 [own ap]]. cbn in Hown.
  assert (Hlen : length own = length docs).
  { rewrite <-(Forall2_length _ _ _ Hown). apply Permutation_length, merge_sort_Permutation. }
  exists own. destruct (String.eqb_spec team "") as [->|Hteam]; cbn.
  { exists [], None. rewrite app_nil_r. by repeat split. }
  pose proof (pruneTeamObjects_entries team ap s1.1) as Hp. unfold lift_w.
  destruct (pruneTeamObjects team ap s1.1) as [w2 [more|e]]; cbn in *.
  - exists more, None. by split_and!.
  - exists [], (Some e). rewrite app_nil_r. by split_and!.
Qed.

End ApplyTheorems.

(** ** Theorems: pruning *)

(** The coordinates a document names. *)
Definition config_ref (d : ext.CellConfigDoc) : scopedRef :=
  let m := ext.cfg_Metadata d in
  {| sr_Realm := ext.cfm_Realm m; sr_Space := ext.cfm_Space m; sr_Stack := ext.cfm_Stack m; sr_Name := ext.cfm_Name m |}.
Definition blueprint_ref (d : ext.CellBlueprintDoc) : scopedRef :=
  let m := ext.bp_Metadata d in
  {| sr_Realm := ext.bpm_Realm m; sr_Space := ext.bpm_Space m; sr_Stack := ext.bpm_Stack m; sr_Name := ext.bpm_Name m |}.

(** A document of the kind that names [ref] whose own entry reports no error. *)
Definition went_in {D} (kind : string) (get : Document → option D) (at_ : D → scopedRef)
    (docs : list Document) (own : list ResourceResult) (ref : scopedRef) : Prop :=
  ∃ i doc entry d, docs !! i = Some doc ∧ own !! i = Some entry ∧ res_Error entry = None ∧
    doc_Kind doc = kind ∧ get doc = Some d ∧ ref = at_ d.

(** The object bears the team's label and no document that went in names it. *)
Definition stale (team : string) (refs : list scopedRef) (md : ScopedName) : Prop :=
  default "" (scn_Labels md !! ext.LabelTeam) = team ∧ scopedRefFromMetadata md ∉ refs.
#[global] Instance stale_dec team refs md : Decision (stale team refs md).
Proof. unfold stale. apply _. Defined.

(** The entry that tells what came of a deletion. *)
Definition tells {A} (kind : string) (md : A → ScopedName) (x : A) (e : option error) (r : ResourceResult) : Prop :=
  res_Kind r = kind ∧ res_Name r = scn_Name (md x) ∧
  match e with
  | None => res_Action r = actionPruned ∧ res_Error r = None
  | Some e => res_Action r = actionFailed ∧ ∃ text, res_Error r = Some (EWrap text [e])
  end.

Lemma pruneTargets_stale {A} (md : A → ScopedName) team refs l :
  pruneTargets md team refs l = filter (fun x => stale team refs (md x)) l.
Proof.
  unfold pruneTargets. induction l as [|x l IH]; [done|]. cbn [List.filter]. rewrite filter_cons, IH.
  unfold stale. destruct (String.eqb_spec (default "" (scn_Labels (md x) !! ext.LabelTeam)) team);
    case_bool_decide; cbn; case_decide; naive_solver.
Qed.

Section Prune.
Context {W : Type} `{ApplyRunner W} `{PruneRunner W}.
Context `{YamlCodec ext.CellBlueprintDoc} `{YamlCodec ext.CellConfigDoc}.

Lemma applyKind_applied {D I} doc msg (d : option D) convert (name : I → string) reconcile record (s s1 : W * positive) r ap :
  applyKind doc msg d convert name reconcile record s = (s1, (r, ap)) →
  (res_Error r = None ∧ ∃ d0 s2 x v, d = Some d0 ∧ convert d0 s = (s2, Ok (x, v)) ∧ ap = record x) ∨
  (res_Error r ≠ None ∧ ap = none_applied).
Proof.
  unfold applyKind. destruct d as [d0|]; [|intros [= _ <- <-]; by right]. unfold st_bind.
  destruct (convert d0 s) as [s2 [[x v]|e]] eqn:E; [|intros [= _ <- <-]; by right].
  destruct (lift_w (reconcile x) s2) as [s3 [rr [e|]]]; intros [= _ <- <-]; [by right|left]. split; [done|].
  by exists d0, s2, x, v.
Qed.

Lemma NormalizeCellConfig_ref team d x v :
  NormalizeCellConfig (stampConfig team d) = Ok (x, v) → scopedRefFromMetadata (cfg_Metadata x) = config_ref d.
Proof.
  unfold NormalizeCellConfig, normalize, ConvertCellConfigDocToInternal, stampConfig.
  destruct (String.eqb team ""); repeat case_match; intros; simplify_eq/=; done.
Qed.
Lemma NormalizeCellBlueprint_ref team d x v :
  NormalizeCellBlueprint (stampBlueprint team d) = Ok (x, v) → scopedRefFromMetadata (bp_Metadata x) = blueprint_ref d.
Proof.
  unfold NormalizeCellBlueprint, normalize, ConvertCellBlueprintDocToInternal, stampBlueprint.
  destruct (String.eqb team ""); repeat case_match; intros; simplify_eq/=; done.
Qed.

(** What one document records. *)
Lemma applyDocument_applied team doc (s s1 : W * positive) r ap :
  applyDocument team doc s = (s1, (r, ap)) →
  (∀ ref, ref ∈ ap_Configs ap ↔ res_Error r = None ∧ doc_Kind doc = "CellConfig" ∧
     ∃ d, doc_CellConfigDoc doc = Some d ∧ ref = config_ref d) ∧
  (∀ ref, ref ∈ ap_Blueprints ap ↔ res_Error r = None ∧ doc_Kind doc = "CellBlueprint" ∧
     ∃ d, doc_CellBlueprintDoc doc = Some d ∧ ref = blueprint_ref d).
Proof.
  unfold applyDocument. cbv zeta. intros HE.
  repeat match type of HE with (if String.eqb ?k ?c then _ else _) _ = _ => destruct (String.eqb_spec k c) as [Hk|?] end;
    try (rewrite Hk); try (apply applyKind_applied in HE as [(He & d0 & s2 & x & v & Hd & Hc & ->)|[He ->]]);
    try (injection HE as _ <- <-); unfold unrecorded, none_applied; cbn [ap_Configs ap_Blueprints];
    try (split; intros ref; (split; [by intros ?%elem_of_nil|intros (? & Hx & _);
      first [congruence|discriminate Hx|match goal with n : doc_Kind doc ≠ _ |- _ => by destruct n end]])).
  - injection Hc as _ Hc. apply NormalizeCellBlueprint_ref in Hc. rewrite Hc. split; intros ref.
    + split; [by intros ?%elem_of_nil|intros (_ & ? & _); done].
    + rewrite list_elem_of_singleton. split; [intros ->; eauto|]. intros (_ & _ & d & Hd' & ->). congruence.
  - injection Hc as _ Hc. apply NormalizeCellConfig_ref in Hc. rewrite Hc. split; intros ref.
    + rewrite list_elem_of_singleton. split; [intros ->; eauto|]. intros (_ & _ & d & Hd' & ->). congruence.
    + split; [by intros ?%elem_of_nil|intros (_ & ? & _); done].
Qed.

Lemma went_in_cons {D} kind (get : Document → option D) at_ doc docs r own ref :
  went_in kind get at_ (doc :: docs) (r :: own) ref ↔
  (res_Error r = None ∧ doc_Kind doc = kind ∧ ∃ d, get doc = Some d ∧ ref = at_ d) ∨
  went_in kind get at_ docs own ref.
Proof.
  unfold went_in. split.
  - intros ([|i] & doc' & r' & d & Hi & Ho & ? & ? & ? & ?); cbn in Hi, Ho; simplify_eq; [left; eauto|right; eauto 10].
  - intros [(He & Hk & d & Hd & ->)|(i & doc' & r' & d & ?)]; [by exists 0, doc, r, d|by exists (S i), doc', r', d].
Qed.

Lemma applyAll_applied team docs (s s1 : W * positive) own ap :
  applyAll team docs s = (s1, (own, ap)) →
  (∀ ref, ref ∈ ap_Configs ap ↔ went_in "CellConfig" doc_CellConfigDoc config_ref docs own ref) ∧
  (∀ ref, ref ∈ ap_Blueprints ap ↔ went_in "CellBlueprint" doc_CellBlueprintDoc blueprint_ref docs own ref).
Proof.
  revert s own ap. induction docs as [|doc docs IH]; intros s own ap; cbn [applyAll].
  { intros [= _ <- <-]. unfold went_in. split; intros ref; (split; [by intros ?%elem_of_nil|intros (i & ? & ? & ? & Hi & _); done]). }
  unfold st_bind. destruct (applyDocument team doc s) as [s2 [r ap1]] eqn:E1.
  destruct (applyAll team docs s2) as [s3 [own2 ap2]] eqn:E2. intros [= -> <- <-]. cbn.
  destruct (applyDocument_applied _ _ _ _ _ _ E1) as [C1 B1], (IH _ _ _ E2) as [C2 B2].
  split; intros ref; rewrite elem_of_app, went_in_cons; [by rewrite C1, C2|by rewrite B1, B2].
Qed.

Lemma prune_run {A} kind fmt (md : A → ScopedName) (del : A → st W (option error)) l (w w' : W) out :
  st_map (pruneOne kind fmt md del) l w = (w', out) →
  ∃ errs, st_map del l w = (w', errs) ∧
    Forall2 (fun x er => tells kind md x er.1 er.2) l (zip errs out) ∧ length errs = length out.
Proof.
  revert w out. induction l as [|x l IH]; intros w out; cbn [st_map].
  { intros [= <- <-]. exists []. by split_and!; try constructor. }
  unfold st_bind, pruneOne at 1, st_bind. destruct (del x w) as [w1 e]. cbn.
  destruct (st_map _ l w1) as [w2 out2] eqn:E. intros [= <- <-]. destruct (IH _ _ E) as (errs & Hm & HF & Hl).
  rewrite Hm. exists (e :: errs). split_and!; [done| |cbn; by rewrite Hl]. cbn. constructor; [|done].
  unfold tells. destruct e; cbn; eauto.
Qed.

(** C19: An apply for a team, once its documents are through (in the state [s1], with the
    entries [own]), prunes exactly the stale objects: those listed then that bear the
    team's label and that no config or blueprint document whose entry reports no error
    names; a document that failed does not protect its object.  The deletions of the stale
    configs, then of the stale blueprints, in the order of the listings, are all that is
    done, whatever fails, and each has an entry at the end of the report that tells what it
    returned.  When a listing fails nothing is deleted and the call returns an error. *)
Theorem team_prune_exact docs team (s s' : W * positive) res err :
  team ≠ "" → ApplyDocuments docs team s = (s', (res, err)) →
  ∃ s1 own ap refsC refsB,
    applyAll team (SortDocumentsByKind docs false) s = (s1, (own, ap)) ∧
    (∀ ref, ref ∈ refsC ↔ went_in "CellConfig" doc_CellConfigDoc config_ref (SortDocumentsByKind docs false) own ref) ∧
    (∀ ref, ref ∈ refsB ↔ went_in "CellBlueprint" doc_CellBlueprintDoc blueprint_ref (SortDocumentsByKind docs false) own ref) ∧
    match pr_ListConfigs s1.1 with
    | (w2, Err _) => s' = (w2, s1.2) ∧ is_Some err ∧ ar_Resources res = own
    | (w2, Ok cfgs) =>
        match pr_ListBlueprints w2 with
        | (w3, Err _) => s' = (w3, s1.2) ∧ is_Some err ∧ ar_Resources res = own
        | (w3, Ok bps) =>
            let staleC := filter (fun c => stale team refsC (cfg_Metadata c)) cfgs in
            let staleB := filter (fun b => stale team refsB (bp_Metadata b)) bps in
            ∃ w4 ec w5 eb rc rb,
              st_map pr_DeleteConfig staleC w3 = (w4, ec) ∧ st_map pr_DeleteBlueprint staleB w4 = (w5, eb) ∧
              s' = (w5, s1.2) ∧ err = None ∧ ar_Resources res = own ++ rc ++ rb ∧
              Forall2 (fun c er => tells "CellConfig" cfg_Metadata c er.1 er.2) staleC (zip ec rc) ∧ length ec = length rc ∧
              Forall2 (fun b er => tells "CellBlueprint" bp_Metadata b er.1 er.2) staleB (zip eb rb) ∧ length eb = length rb
        end
    end.
Proof.
  intros Ht%String.eqb_neq. unfold ApplyDocuments, st_bind. destruct (applyAll team _ s) as [s1 [own ap]] eqn:EA.
  rewrite Ht. destruct (applyAll_applied _ _ _ _ _ _ EA) as [HC HB]. cbn [fst snd].
  unfold lift_w. destruct (pruneTeamObjects team ap s1.1) as [w' out] eqn:EP. intros [= <- HR].
  exists s1, own, ap, (ap_Configs ap), (ap_Blueprints ap). split; [done|]. split; [done|]. split; [done|].
  unfold pruneTeamObjects, st_bind in EP. destruct (pr_ListConfigs s1.1) as [w2 [cfgs|e]].
  2:{ injection EP as <- <-. injection HR as <- <-. by split_and!. }
  destruct (pr_ListBlueprints w2) as [w3 [bps|e]].
  2:{ injection EP as <- <-. injection HR as <- <-. by split_and!. }
  destruct (st_map _ _ w3) as [w4 rc] eqn:E1. destruct (st_map _ _ w4) as [w5 rb] eqn:E2 in EP.
  injection EP as <- <-. injection HR as <- <-. rewrite pruneTargets_stale in E1. rewrite pruneTargets_stale in E2.
  destruct (prune_run _ _ _ _ _ _ _ _ E1) as (ec & M1 & F1 & L1), (prune_run _ _ _ _ _ _ _ _ E2) as (eb & M2 & F2 & L2).
  cbv zeta. exists w4, ec, w5, eb, rc, rb. by split_and!.
Qed.

End Prune.

(** ** Concrete runs *)

Definition sample_document (index : Z) (kind : string) : Document := {|
  doc_Index := index; doc_Raw := ""; doc_APIVersion := VersionV1Beta1; doc_Kind := kind;
  doc_RealmDoc := None; doc_SpaceDoc := None; doc_StackDoc := None; doc_CellDoc := None;
  doc_ContainerDoc := None; doc_SecretDoc := None; doc_CellBlueprintDoc := None;
  doc_CellConfigDoc := None; doc_VolumeDoc := None |}.

Lemma document_order_determined_witness :
  SortDocumentsByKind [sample_document 0 ext.KindCell; sample_document 1 ext.KindRealm; sample_document 2 ext.KindVolume] false
  = [sample_document 1 ext.KindRealm; sample_document 0 ext.KindCell; sample_document 2 ext.KindVolume].
Proof.
  symmetry. apply (document_order_determined false).
  - cbn. repeat (apply NoDup_cons; split; [set_solver|]). by constructor.
  - apply perm_swap.
  - repeat constructor.
Defined.

(** A runner that counts what it writes and deletes, with two configs of team red and one
    of team blue stored, and the blueprint that the apply names. *)
Definition labelled (name team : string) : ScopedName := {|
  scn_Name := name; scn_Realm := "r"; scn_Space := ""; scn_Stack := ""; scn_Labels := {[ ext.LabelTeam := team ]} |}.
Definition stored_config (name team : string) : CellConfig := {| cfg_Metadata := labelled name team; cfg_Document := "" |}.
#[local] Instance counting_prune_runner : PruneRunner nat := {|
  pr_ListConfigs := st_ret (Ok [stored_config "old" "red"; stored_config "other" "blue"; stored_config "older" "red"]);
  pr_ListBlueprints := st_ret (Ok [{| bp_Metadata := labelled "dev" "red"; bp_Document := "" |}]);
  pr_DeleteConfig := fun c => counting (if String.eqb (scn_Name (cfg_Metadata c)) "old" then None else Some (EOpaque "busy"));
  pr_DeleteBlueprint := fun _ => counting None |}.
#[local] Instance counting_apply_runner : ApplyRunner nat := sample_ApplyRunner (Err (ESentinel ErrCellNotFound)).
#[local] Existing Instance sampleCodec.
#[local] Instance config_codec : YamlCodec ext.CellConfigDoc := {|
  yaml_Marshal := fun _ => Ok "doc"; yaml_Unmarshal := fun _ => Err (EOpaque "none");
  yaml_UnmarshalNode := fun _ => Err (EOpaque "none"); yaml_Decode := fun _ => Err (EOpaque "none") |}.

Definition blueprint_document : Document := {|
  doc_Index := 0; doc_Raw := ""; doc_APIVersion := VersionV1Beta1; doc_Kind := ext.KindCellBlueprint;
  doc_RealmDoc := None; doc_SpaceDoc := None; doc_StackDoc := None; doc_CellDoc := None;
  doc_ContainerDoc := None; doc_SecretDoc := None; doc_CellBlueprintDoc := Some sample_blueprint;
  doc_CellConfigDoc := None; doc_VolumeDoc := None |}.

(** One write, then two deletions of configs: the blueprint that went in is kept. *)
Lemma team_prune_exact_witness :
  let run := ApplyDocuments [blueprint_document] "red" (0%nat, 1%positive) in
  run.1.1 = 3%nat ∧
  ∃ w ec, st_map pr_DeleteConfig [stored_config "old" "red"; stored_config "older" "red"] 1%nat = (w, ec) ∧
    ec = [None; Some (EOpaque "busy")].
Proof.
  intros run. split; [vm_compute; reflexivity|].
  destruct run as [s' [res err]] eqn:E.
  destruct (team_prune_exact [blueprint_document] "red" (0%nat, 1%positive) s' res err ltac:(discriminate) E)
    as (s1 & own & ap & refsC & refsB & EA & HC & HB & HP).
  assert (Es : s1.1 = 1%nat ∧ refsC = []).
  { split; [vm_compute in EA; injection EA as <- _ _; reflexivity|].
    destruct refsC as [|r refsC]; [reflexivity|]. exfalso.
    destruct (proj1 (HC r) ltac:(left)) as (i & doc & en & d & Hd & _ & _ & Hk & _).
    destruct i as [|i]; [|vm_compute in Hd; discriminate Hd]. vm_compute in Hd. injection Hd as <-. discriminate Hk. }
  destruct Es as [Es ->]. cbn [pr_ListConfigs pr_ListBlueprints counting_prune_runner st_ret] in HP. rewrite Es in HP.
  destruct HP as (w4 & ec & w5 & eb & rc & rb & HD & _). exists w4, ec. split; [exact HD|].
  vm_compute in HD. injection HD as _ <-. reflexivity.
Defined.
