(* ===== verification/OutOfSync.v ===== *)
(** * Drift of cells from their configuration, and the daemon's tick
    (internal/controller/reconcile_outofsync.go, reconcile.go)

    A cell made from a CellConfig carries its name as a label.  Each tick the daemon
    walks realms, spaces, stacks and cells, reconciles every cell, then makes the cell its
    configuration would give now, compares it with the live one and records the verdict in
    the cell's status. *)

From Stdlib Require Import Ascii ZArith Lia.
From stdpp Require Import base gmap strings list sorting.
From S2P Require Import Prelude Model External Validate Scheme Defaults Naming Template Blueprint Config CellState Observe Refresh Diff Apply Documents.

Local Open Scope nat_scope.

(** The runner operations the controller's cell code uses beside the reconcilers'. *)
Class CellRunner (W : Type) := {
  cr_GetConfig : CellConfig → st W (result CellConfig);
  cr_ResolveSpaceCNIConfigPath : string → string → st W (result string);
  cr_ExistsCgroup : Cell → st W (result bool);
  cr_ExistsCellRootContainer : Cell → st W (result bool);
  cr_GetContainerState : Cell → string → st W (result ContainerState);
  cr_EnsureCell : Cell → st W (result Cell);
  cr_StopCell : Cell → st W (result Cell);
  cr_KillCell : Cell → st W (result Cell);
  cr_DeleteCell : Cell → st W (option error);
  cr_PurgeCell : Cell → st W (option error);
  cr_ListRealms : st W (result (list Realm));
  cr_ListSpaces : string → st W (result (list Space));
  cr_ListStacks : string → string → st W (result (list Stack));
  cr_ListCells : string → string → string → st W (result (list Cell));
  cr_ReconcileCell : Cell → st W (Cell * ReconcileOutcome * option error);
  cr_EnsureSpace : Space → st W (result Space)
}.

Definition set_CNIConfigPath (p : string) (s : ContainerSpec) : ContainerSpec :=
  let 'Build_ContainerSpec a b c d e f g h i j k l m n o p' q r s' t u v w x y z a1 a2 a3 a4 a5 _ a7 a8 a9 b1 b2 b3 b4 b5 := s in
  Build_ContainerSpec a b c d e f g h i j k l m n o p' q r s' t u v w x y z a1 a2 a3 a4 a5 p a7 a8 a9 b1 b2 b3 b4 b5.

(** ** The verdict *)

Definition outOfSyncReasonConfigDeleted : string := "lineage Config deleted".
Definition outOfSyncReasonSpecDiffers : string := "spec differs".

Record cellOutOfSync := { oos_OutOfSync : bool; oos_Reason : string; oos_Err : string }.
Definition synced : cellOutOfSync := {| oos_OutOfSync := false; oos_Reason := ""; oos_Err := "" |}.
Definition undecidable (e : string) : cellOutOfSync := {| oos_OutOfSync := false; oos_Reason := ""; oos_Err := e |}.
Definition drifted (reason : string) : cellOutOfSync := {| oos_OutOfSync := true; oos_Reason := reason; oos_Err := "" |}.

Definition provenanceEnvOverrides (cell : Cell) : list string :=
  match csp_Provenance (cell_Spec cell) with Some p => cp_EnvOverrides p | None => [] end.

Definition configLineage (cell : Cell) : option string :=
  let name := TrimSpace (default "" (cm_Labels (cell_Metadata cell) !! LabelConfig)) in
  if String.eqb name "" then None else Some name.

(** *** The reason: sorted distinct field paths *)

(** The order of Go strings, by bytes. *)
Definition str_le (a b : string) : Prop := String.leb a b = true.
#[global] Instance str_le_dec a b : Decision (str_le a b) := decide (_ = true).

Definition containerDiffPaths (cd : ContainerDiff) : list string :=
  let within s := "containers[" +:+ cd_Name cd +:+ "]" +:+ s in
  if String.eqb (cd_Action cd) "add" then [within " (added)"]
  else if String.eqb (cd_Action cd) "update" then
    ((fun f => within ("." +:+ f)) <$> cd_ChangedFields cd) ++ ((fun f => within ("." +:+ f)) <$> cd_BreakingChanges cd)
  else [].

(** The paths added to the set, in the order of the source. *)
Definition diffPaths (diff : CellDiffResult) : list string :=
  List.filter (fun p => negb (String.eqb p ""))
    (dr_ChangedFields (cdr_Diff diff) ++ dr_BreakingChanges (cdr_Diff diff)
     ++ (if cdr_RootContainerChanged diff then ["spec.rootContainer"] else [])
     ++ (cdr_Containers diff ≫= containerDiffPaths)
     ++ ((fun id => "containers[" +:+ id +:+ "] (removed)") <$> cdr_Orphans diff)).
(** sort.Strings over the keys of the set *)
Definition collectDiffFieldPaths (diff : CellDiffResult) : list string :=
  merge_sort str_le (remove_dups (diffPaths diff)).

Definition outOfSyncSpecDifferReason (diff : CellDiffResult) : string :=
  match collectDiffFieldPaths diff with
  | [] => outOfSyncReasonSpecDiffers
  | fields => outOfSyncReasonSpecDiffers +:+ " at " +:+ Join ", " fields
  end.

Section OutOfSync.
Context {W : Type} `{ApplyRunner W} `{CellRunner W}.
Context `{YamlCodec ext.CellBlueprintDoc} `{YamlCodec ext.CellConfigDoc}.
(** err.Error() *)
Context (errorText : error → string).

(** *** The configuration *)

Definition lineageProbes (space stack : string) : list (string * string) :=
  (space, stack) :: (if negb (String.eqb stack "") then [(space, "")] else [])
                 ++ (if negb (String.eqb space "") then [("", "")] else []).

Definition config_named (name realm space stack : string) : CellConfig :=
  {| cfg_Metadata := {| scn_Name := name; scn_Realm := realm; scn_Space := space; scn_Stack := stack; scn_Labels := ∅ |};
     cfg_Document := "" |}.

Fixpoint probeConfig (name realm : string) (probes : list (string * string)) : st W (result (option CellConfig)) :=
  match probes with
  | [] => st_ret (Ok None)
  | (space, stack) :: rest =>
      let! got := cr_GetConfig (config_named name realm space stack) in
      match got with
      | Ok cfg => st_ret (Ok (Some cfg))
      | Err e => if error_is ErrConfigNotFound e then probeConfig name realm rest else st_ret (Err e)
      end
  end.

(** [Ok None]: the operator deleted the configuration. *)
Definition lookupLineageConfig (cell : Cell) (configName : string) : st W (result (option CellConfig)) :=
  let s := cell_Spec cell in
  probeConfig configName (csp_RealmName s) (lineageProbes (csp_SpaceName s) (csp_StackName s)).

(** *** The cell the configuration gives now *)

Definition injectContainerFields (parentSpace : Space) (cniConfigPath : string) (c : ContainerSpec) : ContainerSpec :=
  let c := ApplySpaceDefaultsToContainer parentSpace c in
  if String.eqb (c_CNIConfigPath c) "" then set_CNIConfigPath cniConfigPath c else c.

Definition applyRunnerInjectedContainerFields (cell : Cell) : st W (result Cell) :=
  let s := cell_Spec cell in
  let! space := ap_GetSpace (space_named (csp_RealmName s) (csp_SpaceName s)) in
  match space with
  | Err e => st_ret (Err (EWrap "resolve space %q defaults: %w" [e]))
  | Ok parentSpace =>
      let! path := cr_ResolveSpaceCNIConfigPath (csp_RealmName s) (csp_SpaceName s) in
      st_ret (match path with
              | Err e => Err (EWrap "resolve space %q cni config path: %w" [e])
              | Ok p => Ok (with_containers cell (injectContainerFields parentSpace p <$> csp_Containers s))
              end)
  end.

Definition materializeCellFromConfig (cfg : CellConfig) (cellName : string) (envOverrides : list string)
    : MD (W := W) (result Cell) :=
  match Config.ConvertCellConfigToExternal cfg with
  | Err e => st_ret (Err (EWrap "decode lineage config: %w" [e]))
  | Ok cfgDoc =>
      let ref := ext.cfs_Blueprint (ext.cfg_Spec cfgDoc) in
      let! bp := lift_w (ap_GetBlueprint
        {| bp_Metadata := {| scn_Name := ext.bref_Name ref; scn_Realm := ext.bref_Realm ref; scn_Space := ext.bref_Space ref;
                             scn_Stack := ext.bref_Stack ref; scn_Labels := ∅ |}; bp_Document := "" |}) in
      match bp with
      | Err e => st_ret (Err (if error_is ErrBlueprintNotFound e
                              then EOpaque ("referenced blueprint " +:+ Quote (ext.bref_Name ref) +:+ " not found")
                              else EWrap "read referenced blueprint %q: %w" [e]))
      | Ok bpCarrier =>
          match Blueprint.ConvertCellBlueprintToExternal bpCarrier with
          | Err e => st_ret (Err (EWrap "decode referenced blueprint: %w" [e]))
          | Ok bpDoc =>
              match materializeConfig cfgDoc bpDoc cellName with
              | Err e => st_ret (Err (EWrap "materialize cell: %w" [e]))
              | Ok cellDoc =>
                  let! conv := lift_p (ConvertCellDocToInternal (ApplyEnvOverrides cellDoc envOverrides)) in
                  match conv with
                  | Err e => st_ret (Err (EWrap "convert materialized cell: %w" [e]))
                  | Ok desired => lift_w (applyRunnerInjectedContainerFields desired)
                  end
              end
          end
      end
  end.

Definition desiredCellOutOfSync (cell : Cell) (configName : string) : MD (W := W) cellOutOfSync :=
  let! found := lift_w (lookupLineageConfig cell configName) in
  match found with
  | Err e => st_ret (undecidable ("read lineage config " +:+ Quote configName +:+ ": " +:+ errorText e))
  | Ok None => st_ret (drifted outOfSyncReasonConfigDeleted)
  | Ok (Some cfg) =>
      let! made := materializeCellFromConfig cfg (cm_Name (cell_Metadata cell)) (provenanceEnvOverrides cell) in
      match made with
      | Err e => st_ret (undecidable (errorText e))
      | Ok desired =>
          let! diff := lift_w (diffCell desired cell) in
          st_ret (if negb (dr_HasChanges (cdr_Diff diff)) then synced else drifted (outOfSyncSpecDifferReason diff))
      end
  end.

(** *** Recording it *)

Definition set_OutOfSync (v : cellOutOfSync) (s : CellStatus) : CellStatus :=
  let 'Build_CellStatus z a b c d e f g h i j k l _ _ _ := s in
  Build_CellStatus z a b c d e f g h i j k l (oos_OutOfSync v) (oos_Reason v) (oos_Err v).
Definition recorded (cell : Cell) : cellOutOfSync :=
  let s := cell_Status cell in
  {| oos_OutOfSync := cst_OutOfSync s; oos_Reason := cst_OutOfSyncReason s; oos_Err := cst_OutOfSyncError s |}.

Definition persistCellOutOfSync (cell : Cell) (desired : cellOutOfSync) : st W (result bool) :=
  if Bool.eqb (cst_OutOfSync (cell_Status cell)) (oos_OutOfSync desired)
     && String.eqb (cst_OutOfSyncReason (cell_Status cell)) (oos_Reason desired)
     && String.eqb (cst_OutOfSyncError (cell_Status cell)) (oos_Err desired)
  then st_ret (Ok false)
  else
    let! e := ap_UpdateCellMetadata (upd_status (set_OutOfSync desired) cell) in
    st_ret (match e with Some e => Err (EWrap "persist OutOfSync status: %w" [e]) | None => Ok true end).

Definition reconcileCellOutOfSync (cell : Cell) : MD (W := W) (result bool) :=
  match configLineage cell with
  | None => st_ret (Ok false)
  | Some configName =>
      let! desired := desiredCellOutOfSync cell configName in
      lift_w (persistCellOutOfSync cell desired)
  end.

(** ** The tick (reconcile.go)

    The disk-pressure check logs and does nothing else, and is left out.  An error is
    kept as the value whose text the source appends. *)

Record ReconcileResult := {
  rcr_Scanned : nat; rcr_Updated : nat; rcr_Deleted : nat; rcr_Errored : nat; rcr_Errors : list error
}.
Definition tick_zero : ReconcileResult :=
  {| rcr_Scanned := 0; rcr_Updated := 0; rcr_Deleted := 0; rcr_Errored := 0; rcr_Errors := [] |}.
Definition tick_error (e : error) (r : ReconcileResult) : ReconcileResult :=
  {| rcr_Scanned := rcr_Scanned r; rcr_Updated := rcr_Updated r; rcr_Deleted := rcr_Deleted r;
     rcr_Errored := rcr_Errored r; rcr_Errors := rcr_Errors r ++ [e] |}.
Definition tick_count (scanned updated deleted errored : nat) (r : ReconcileResult) : ReconcileResult :=
  {| rcr_Scanned := rcr_Scanned r + scanned; rcr_Updated := rcr_Updated r + updated;
     rcr_Deleted := rcr_Deleted r + deleted; rcr_Errored := rcr_Errored r + errored; rcr_Errors := rcr_Errors r |}.
Definition b2n (b : bool) : nat := if b then 1 else 0.

Definition tickCell (cell : Cell) (r : ReconcileResult) : MD (W := W) ReconcileResult :=
  let r := tick_count 1 0 0 0 r in
  let! (reconciled, outcome, err) := lift_w (cr_ReconcileCell cell) in
  match err with
  | Some e => st_ret (tick_error (EWrap "reconcile cell %s/%s/%s/%s: %v" [e]) (tick_count 0 0 0 1 r))
  | None =>
      let r := if ro_Deleted outcome then tick_count 0 0 1 0 r
               else if ro_Updated outcome then tick_count 0 1 0 0 r else r in
      if ro_Deleted outcome || ro_Vanished outcome then st_ret r
      else
        let! sync := reconcileCellOutOfSync reconciled in
        st_ret (match sync with
                | Err e => tick_error (EWrap "OutOfSync detect cell %s/%s/%s/%s: %v" [e]) (tick_count 0 0 0 1 r)
                | Ok syncUpdated => if syncUpdated && negb (ro_Updated outcome) then tick_count 0 1 0 0 r else r
                end)
  end.

(** A loop that threads the result. *)
Fixpoint tick_each {A} (f : A → ReconcileResult → MD (W := W) ReconcileResult) (l : list A) (r : ReconcileResult)
    : MD (W := W) ReconcileResult :=
  match l with
  | [] => st_ret r
  | x :: l' => let! r' := f x r in tick_each f l' r'
  end.
(** List, or record the failure and go on. *)
Definition tick_listed {A} (fmt : string) (list : st W (result (list A)))
    (f : A → ReconcileResult → MD (W := W) ReconcileResult) (r : ReconcileResult) : MD (W := W) ReconcileResult :=
  let! got := lift_w list in
  match got with
  | Err e => st_ret (tick_error (EWrap fmt [e]) r)
  | Ok l => tick_each f l r
  end.

Definition ReconcileCells : MD (W := W) ReconcileResult :=
  tick_listed "list realms: %v" cr_ListRealms (fun realm =>
    let realmName := sm_Name (realm_Metadata realm) in
    tick_listed "list spaces in realm %q: %v" (cr_ListSpaces realmName) (fun space =>
      let spaceName := sm_Name (space_Metadata space) in
      tick_listed "list stacks in %s/%s: %v" (cr_ListStacks realmName spaceName) (fun stack =>
        let stackName := sm_Name (stack_Metadata stack) in
        tick_listed "list cells in %s/%s/%s: %v" (cr_ListCells realmName spaceName stackName) tickCell))) tick_zero.

Record SpaceNetReconcileResult := { sn_Scanned : nat; sn_Errored : nat; sn_Errors : list error }.

Fixpoint ensureSpaces (spaces : list Space) (r : SpaceNetReconcileResult) : st W SpaceNetReconcileResult :=
  match spaces with
  | [] => st_ret r
  | space :: rest =>
      let! ensured := cr_EnsureSpace space in
      ensureSpaces rest
        (match ensured with
         | Ok _ => {| sn_Scanned := S (sn_Scanned r); sn_Errored := sn_Errored r; sn_Errors := sn_Errors r |}
         | Err e => {| sn_Scanned := S (sn_Scanned r); sn_Errored := S (sn_Errored r);
                       sn_Errors := sn_Errors r ++ [EWrap "reconcile space network %s/%s: %v" [e]] |}
         end)
  end.
Fixpoint ensureRealmSpaces (realms : list Realm) (r : SpaceNetReconcileResult) : st W SpaceNetReconcileResult :=
  match realms with
  | [] => st_ret r
  | realm :: rest =>
      let! listed := cr_ListSpaces (sm_Name (realm_Metadata realm)) in
      let! r' := (match listed with
                  | Err e => st_ret {| sn_Scanned := sn_Scanned r; sn_Errored := sn_Errored r;
                                       sn_Errors := sn_Errors r ++ [EWrap "list spaces in realm %q: %v" [e]] |}
                  | Ok spaces => ensureSpaces spaces r
                  end) in
      ensureRealmSpaces rest r'
  end.
Definition ReconcileSpaceNetworks : st W SpaceNetReconcileResult :=
  let zero := {| sn_Scanned := 0; sn_Errored := 0; sn_Errors := [] |} in
  let! realms := cr_ListRealms in
  match realms with
  | Err e => st_ret {| sn_Scanned := 0; sn_Errored := 0; sn_Errors := [EWrap "list realms: %v" [e]] |}
  | Ok rs => ensureRealmSpaces rs zero
  end.

End OutOfSync.

(** ** Theorems: the reason *)

Lemma ascii_compare_N a b : Ascii.compare a b = N.compare (N_of_ascii a) (N_of_ascii b).
Proof. reflexivity. Qed.

#[global] Instance str_le_trans : Transitive str_le.
Proof.
  unfold str_le, String.leb. intros x. induction x as [|a x IH]; intros [|b y] [|c z]; cbn; try done.
  rewrite !ascii_compare_N.
  destruct (N.compare_spec (N_of_ascii a) (N_of_ascii b)) as [Hab|Hab|Hab],
    (N.compare_spec (N_of_ascii b) (N_of_ascii c)) as [Hbc|Hbc|Hbc],
    (N.compare_spec (N_of_ascii a) (N_of_ascii c)) as [Hac|Hac|Hac]; try done; try lia.
  apply IH.
Qed.
#[global] Instance str_le_total : Total str_le.
Proof. intros x y. apply String.leb_total. Qed.
#[global] Instance str_le_antisym : AntiSymm (=) str_le.
Proof. intros x y. apply String.leb_antisym. Qed.

(** The same set of paths gives the same reason. *)
Lemma collect_same d1 d2 : (∀ p, p ∈ diffPaths d1 ↔ p ∈ diffPaths d2) →
  outOfSyncSpecDifferReason d1 = outOfSyncSpecDifferReason d2.
Proof.
  intros Hp. unfold outOfSyncSpecDifferReason. replace (collectDiffFieldPaths d2) with (collectDiffFieldPaths d1); [done|].
  unfold collectDiffFieldPaths. apply (Sorted_unique str_le); try apply _; [by apply Sorted_merge_sort; apply _..|].
  rewrite !merge_sort_Permutation. apply NoDup_Permutation; [apply NoDup_remove_dups..|].
  intros p. by rewrite !elem_of_remove_dups.
Qed.

Section Children.
Context (desired actual : gmap string ContainerSpec).

Definition childBreaking (id : string) : list string :=
  dr_BreakingChanges (cdr_Diff (diffChild desired actual (cellDiff emptyDiff) id)).

Lemma diffChild_rest r id :
  let r' := diffChild desired actual r id in
  dr_ChangedFields (cdr_Diff r') = dr_ChangedFields (cdr_Diff r) ∧
  dr_BreakingChanges (cdr_Diff r') = dr_BreakingChanges (cdr_Diff r) ++ childBreaking id ∧
  cdr_RootContainerChanged r' = cdr_RootContainerChanged r.
Proof.
  unfold childBreaking, diffChild. destruct (desired !! id) as [d|]; [|cbn; by rewrite app_nil_r].
  destruct (actual !! id) as [a|]; [|done].
  destruct (dr_HasChanges _); [|cbn; by rewrite app_nil_r]. by destruct (isBreakingChange _).
Qed.

Lemma foldl_diffChild_rest keys r :
  let r' := foldl (diffChild desired actual) r keys in
  dr_ChangedFields (cdr_Diff r') = dr_ChangedFields (cdr_Diff r) ∧
  dr_BreakingChanges (cdr_Diff r') = dr_BreakingChanges (cdr_Diff r) ++ (keys ≫= childBreaking) ∧
  cdr_RootContainerChanged r' = cdr_RootContainerChanged r.
Proof.
  revert r. induction keys as [|k keys IH]; intros r; cbn [foldl]; [cbn; by rewrite app_nil_r|].
  destruct (IH (diffChild desired actual r k)) as (H1 & H2 & H3).
  destruct (diffChild_rest r k) as (E1 & E2 & E3). cbv zeta in *.
  rewrite H1, H2, H3, E1, E2, E3. rewrite <-app_assoc. done.
Qed.

Lemma foldl_diffOrphan_rest keys r :
  let r' := foldl (diffOrphan desired) r keys in
  dr_ChangedFields (cdr_Diff r') = dr_ChangedFields (cdr_Diff r) ∧
  dr_BreakingChanges (cdr_Diff r') = dr_BreakingChanges (cdr_Diff r) ∧
  cdr_RootContainerChanged r' = cdr_RootContainerChanged r.
Proof.
  revert r. induction keys as [|k keys IH]; intros r; cbn [foldl]; [done|].
  destruct (IH (diffOrphan desired r k)) as (H1 & H2 & H3). cbv zeta in *. rewrite H1, H2, H3.
  unfold diffOrphan. by destruct (desired !! k).
Qed.

End Children.

(** The recorded reason of a drift does not depend on the order in which the maps of
    containers are visited, so that an unchanged drift is reported in the same words on
    every tick. *)
Theorem drift_reason_order_independent d a do1 do2 ao1 ao2 :
  RangeOrder (childContainers (csp_Containers (cell_Spec d))) do1 →
  RangeOrder (childContainers (csp_Containers (cell_Spec d))) do2 →
  RangeOrder (childContainers (csp_Containers (cell_Spec a))) ao1 →
  RangeOrder (childContainers (csp_Containers (cell_Spec a))) ao2 →
  outOfSyncSpecDifferReason (DiffCell do1 ao1 d a) = outOfSyncSpecDifferReason (DiffCell do2 ao2 d a).
Proof.
  intros Hd1 Hd2 Ha1 Ha2. apply collect_same. intros p.
  destruct (cell_diff_order_independent d a do1 do2 ao1 ao2 Hd1 Hd2 Ha1 Ha2) as (_ & _ & HC & HO).
  assert (Hd : do1 ≡ₚ do2) by (unfold RangeOrder in *; by rewrite Hd1, Hd2).
  assert (HR : dr_ChangedFields (cdr_Diff (DiffCell do1 ao1 d a)) = dr_ChangedFields (cdr_Diff (DiffCell do2 ao2 d a)) ∧
    dr_BreakingChanges (cdr_Diff (DiffCell do1 ao1 d a)) ≡ₚ dr_BreakingChanges (cdr_Diff (DiffCell do2 ao2 d a)) ∧
    cdr_RootContainerChanged (DiffCell do1 ao1 d a) = cdr_RootContainerChanged (DiffCell do2 ao2 d a)).
  { unfold DiffCell. do 4 (destruct (negb _); [done|]). cbv zeta.
    set (dc := childContainers _). set (ac := childContainers _). set (r := diffRoot _ _ _).
    destruct (foldl_diffOrphan_rest dc ao1 (foldl (diffChild dc ac) r do1)) as (-> & -> & ->).
    destruct (foldl_diffOrphan_rest dc ao2 (foldl (diffChild dc ac) r do2)) as (-> & -> & ->).
    destruct (foldl_diffChild_rest dc ac do1 r) as (-> & -> & ->).
    destruct (foldl_diffChild_rest dc ac do2 r) as (-> & -> & ->). by rewrite Hd. }
  destruct HR as (E1 & E2 & E3). unfold diffPaths. rewrite !filter_elem, E1, E3.
  f_equiv. by rewrite E2, HC, HO.
Qed.

(** ** Theorems: the tick *)

(** What a tick does that can be seen from outside: its listings, with what they returned,
    and the cells it reconciles, with what came of it. *)
Inductive TickEvent :=
| ListedRealms (r : result (list Realm))
| ListedSpaces (realm : string) (r : result (list Space))
| ListedStacks (realm space : string) (r : result (list Stack))
| ListedCells (realm space stack : string) (r : result (list Cell))
| Reconciled (cell : Cell) (r : Cell * ReconcileOutcome * option error).

(** What a listing names; nothing when it failed. *)
Definition listed {A} (r : result (list A)) : list A := match r with Ok l => l | Err _ => [] end.

(** *** The walk, as a sequence of events *)

Definition WalksCell (cell : Cell) (log : list TickEvent) : Prop := ∃ r, log = [Reconciled cell r].
(** A listing followed by the walk of everything it names, in order. *)
Definition WalksListed {A} (event : result (list A) → TickEvent) (walk : A → list TickEvent → Prop) (log : list TickEvent) : Prop :=
  ∃ r logs, Forall2 walk (listed r) logs ∧ log = event r :: concat logs.
Definition WalksStack (r s : string) (st : Stack) : list TickEvent → Prop :=
  WalksListed (ListedCells r s (sm_Name (stack_Metadata st))) WalksCell.
Definition WalksSpace (r : string) (sp : Space) : list TickEvent → Prop :=
  WalksListed (ListedStacks r (sm_Name (space_Metadata sp))) (WalksStack r (sm_Name (space_Metadata sp))).
Definition WalksRealm (re : Realm) : list TickEvent → Prop :=
  WalksListed (ListedSpaces (sm_Name (realm_Metadata re))) (WalksSpace (sm_Name (realm_Metadata re))).
Definition WalksHost : list TickEvent → Prop := WalksListed ListedRealms WalksRealm.

(** *** Counting events *)

Definition is_scan (e : TickEvent) : bool := match e with Reconciled _ _ => true | _ => false end.
Definition is_delete (e : TickEvent) : bool :=
  match e with Reconciled _ (_, o, None) => ro_Deleted o | _ => false end.
Definition is_error (e : TickEvent) : bool := match e with Reconciled _ (_, _, Some _) => true | _ => false end.
Definition is_unlisted (e : TickEvent) : bool :=
  match e with
  | ListedRealms (Err _) | ListedSpaces _ (Err _) | ListedStacks _ _ (Err _) | ListedCells _ _ _ (Err _) => true
  | _ => false
  end.
Definition events (p : TickEvent → bool) (log : list TickEvent) : nat := length (List.filter p log).

(** How a result grows along a stretch of events. *)
Definition counts (log : list TickEvent) (r r' : ReconcileResult) : Prop :=
  rcr_Scanned r' = rcr_Scanned r + events is_scan log ∧
  rcr_Deleted r' = rcr_Deleted r + events is_delete log ∧
  rcr_Errored r + events is_error log ≤ rcr_Errored r' ∧
  rcr_Errored r' + events is_delete log ≤ rcr_Errored r + events is_scan log ∧
  rcr_Updated r' ≤ rcr_Updated r + events is_scan log ∧
  length (rcr_Errors r') + rcr_Errored r = length (rcr_Errors r) + rcr_Errored r' + events is_unlisted log.

Lemma events_app p l1 l2 : events p (l1 ++ l2) = events p l1 + events p l2.
Proof. unfold events. by rewrite List.filter_app, length_app. Qed.
Lemma counts_nil r : counts [] r r.
Proof. unfold counts, events. cbn. lia. Qed.
Lemma counts_app l1 l2 r1 r2 r3 : counts l1 r1 r2 → counts l2 r2 r3 → counts (l1 ++ l2) r1 r3.
Proof. unfold counts. rewrite !events_app. lia. Qed.

Section TickTheorems.
Context {W : Type} `{ApplyRunner W} `{CellRunner W}.
Context `{YamlCodec ext.CellBlueprintDoc} `{YamlCodec ext.CellConfigDoc} (errorText : error → string).

(** The same host, keeping a log of the events. *)
Definition beside_ApplyRunner {L} : ApplyRunner (W * L) := {|
  ap_GetRealm := fun x => beside (ap_GetRealm x); ap_CreateRealm := fun x => beside (ap_CreateRealm x);
  ap_UpdateRealm := fun x => beside (ap_UpdateRealm x); ap_GetSpace := fun x => beside (ap_GetSpace x);
  ap_CreateSpace := fun x => beside (ap_CreateSpace x); ap_UpdateSpace := fun x => beside (ap_UpdateSpace x);
  ap_GetStack := fun x => beside (ap_GetStack x); ap_CreateStack := fun x => beside (ap_CreateStack x);
  ap_UpdateStack := fun x => beside (ap_UpdateStack x); ap_GetCell := fun x => beside (ap_GetCell x);
  ap_CreateCell := fun x => beside (ap_CreateCell x); ap_StartCell := fun x => beside (ap_StartCell x);
  ap_UpdateCell := fun x => beside (ap_UpdateCell x); ap_RecreateCell := fun x => beside (ap_RecreateCell x);
  ap_UpdateCellMetadata := fun x => beside (ap_UpdateCellMetadata x);
  ap_CreateContainer := fun x y => beside (ap_CreateContainer x y);
  ap_UpdateContainer := fun x y => beside (ap_UpdateContainer x y);
  ap_WriteSecret := fun x => beside (ap_WriteSecret x); ap_WriteBlueprint := fun x => beside (ap_WriteBlueprint x);
  ap_WriteVolume := fun x => beside (ap_WriteVolume x); ap_WriteConfig := fun x => beside (ap_WriteConfig x);
  ap_WriteConfigIfAbsent := fun x => beside (ap_WriteConfigIfAbsent x);
  ap_GetBlueprint := fun x => beside (ap_GetBlueprint x); ap_rangeOrder := fun x => beside (ap_rangeOrder x) |}.
#[local] Instance logged_ApplyRunner : ApplyRunner (W * list TickEvent) := beside_ApplyRunner.
#[local] Instance logged_CellRunner : CellRunner (W * list TickEvent) := {|
  cr_GetConfig := fun x => beside (cr_GetConfig x);
  cr_ResolveSpaceCNIConfigPath := fun x y => beside (cr_ResolveSpaceCNIConfigPath x y);
  cr_ExistsCgroup := fun x => beside (cr_ExistsCgroup x);
  cr_ExistsCellRootContainer := fun x => beside (cr_ExistsCellRootContainer x);
  cr_GetContainerState := fun x y => beside (cr_GetContainerState x y);
  cr_EnsureCell := fun x => beside (cr_EnsureCell x); cr_StopCell := fun x => beside (cr_StopCell x);
  cr_KillCell := fun x => beside (cr_KillCell x); cr_DeleteCell := fun x => beside (cr_DeleteCell x);
  cr_PurgeCell := fun x => beside (cr_PurgeCell x);
  cr_ListRealms := logging ListedRealms cr_ListRealms;
  cr_ListSpaces := fun r => logging (ListedSpaces r) (cr_ListSpaces r);
  cr_ListStacks := fun r s => logging (ListedStacks r s) (cr_ListStacks r s);
  cr_ListCells := fun r s t => logging (ListedCells r s t) (cr_ListCells r s t);
  cr_ReconcileCell := fun c => logging (Reconciled c) (cr_ReconcileCell c);
  cr_EnsureSpace := fun x => beside (cr_EnsureSpace x) |}.

Notation M A := (MD (W := W * list TickEvent) A).
Notation S := (W * list TickEvent * positive)%type.
Definition tick_log (s : S) : list TickEvent := s.1.2.

(** [m] adds events to the log that, with its result, satisfy [P]. *)
Definition emits {A} (P : list TickEvent → A → Prop) (m : M A) : Prop :=
  ∀ s, ∃ l, tick_log (m s).1 = tick_log s ++ l ∧ P l (m s).2.

Lemma emits_ret {A} (P : list TickEvent → A → Prop) a : P [] a → emits P (st_ret a).
Proof. intros Ha s. exists []. by rewrite app_nil_r. Qed.
Lemma emits_bind {A B} (P : list TickEvent → A → Prop) (Q : list TickEvent → B → Prop) (m : M A) (k : A → M B) :
  emits P m → (∀ a l1, P l1 a → emits (fun l b => Q (l1 ++ l) b) (k a)) → emits Q (st_bind m k).
Proof.
  intros Hm Hk s. unfold st_bind. destruct (Hm s) as (l1 & E1 & HP). destruct (m s) as [s1 a]. cbn in *.
  destruct (Hk a l1 HP s1) as (l2 & E2 & HQ). exists (l1 ++ l2). by rewrite E2, E1, app_assoc.
Qed.
Lemma emits_logging {A} (event : A → TickEvent) (m : st W A) :
  emits (fun l a => l = [event a]) (lift_w (logging event m)).
Proof. intros [[w l] p]. unfold lift_w, logging, tick_log. cbn. destruct (m w) as [w' a]. cbn. by eexists. Qed.

(** What only looks and writes adds no event. *)
Definition quiet (s s' : S) : Prop := tick_log s' = tick_log s.
#[local] Instance quiet_refl : Reflexive quiet.
Proof. intros s. reflexivity. Qed.
#[local] Instance quiet_trans : Transitive quiet.
Proof. intros s1 s2 s3. unfold quiet. congruence. Qed.
Lemma lift_w_quiet {A} (m : st (W * list TickEvent) A) : respects same_log m → respects quiet (lift_w m).
Proof. intros Hm [w p]. specialize (Hm w). unfold lift_w, quiet, tick_log. cbn. by destruct (m w). Qed.
Lemma lift_p_quiet {A} (m : st positive A) : respects quiet (lift_p (W := W * list TickEvent) m).
Proof. intros [w p]. unfold lift_p, quiet, tick_log. cbn. by destruct (m p). Qed.
#[local] Hint Resolve lift_p_quiet : frame.

Lemma probeConfig_quiet name realm probes : respects (@same_log W (list TickEvent)) (probeConfig name realm probes).
Proof. induction probes as [|[sp st] probes IH]; cbn [probeConfig]; [solve_frame|]. simpl. solve_frame. Qed.
Lemma outOfSync_quiet cell : respects quiet (reconcileCellOutOfSync (W := W * list TickEvent) errorText cell).
Proof.
  assert (HL : ∀ A (m : st (W * list TickEvent) A), respects same_log m → respects quiet (lift_w m)) by (intros; by apply lift_w_quiet).
  unfold reconcileCellOutOfSync, desiredCellOutOfSync, materializeCellFromConfig.
  repeat (frame_step || apply lift_p_quiet || apply HL || apply probeConfig_quiet
          || (unfold lookupLineageConfig, applyRunnerInjectedContainerFields, persistCellOutOfSync, diffCell; simpl)
          || apply beside_same).
Qed.
Lemma emits_quiet {A} (m : M A) : respects quiet m → emits (fun l _ => l = []) m.
Proof. intros Hm s. exists []. split; [|done]. rewrite app_nil_r. apply Hm. Qed.

Lemma tickCell_emits cell r :
  emits (fun l r' => WalksCell cell l ∧ counts l r r') (tickCell (W := W * list TickEvent) errorText cell r).
Proof.
  unfold tickCell. eapply emits_bind; [apply emits_logging|]. intros [[c o] err] l1 ->. cbv beta zeta.
  assert (HC : WalksCell cell [Reconciled cell (c, o, err)]) by by eexists.
  destruct err as [e|].
  { apply emits_ret. cbn [app]. split; [done|]. unfold counts, events. cbn. rewrite length_app. cbn. lia. }
  destruct o as [upd del van]; cbn [ro_Deleted ro_Updated ro_Vanished].
  destruct (del || van) eqn:Edv.
  { apply emits_ret. cbn [app]. split; [done|]. unfold counts, events.
    destruct del; [cbn; lia|]. destruct upd; cbn; lia. }
  apply orb_false_iff in Edv as [-> ->].
  eapply emits_bind; [apply emits_quiet, outOfSync_quiet|]. intros sync l2 ->. apply emits_ret. cbn [app].
  split; [done|]. unfold counts, events.
  destruct sync as [b|e]; [destruct upd, b|destruct upd]; cbn; rewrite ?length_app; cbn; lia.
Qed.

Lemma tick_each_emits {A} (walk : A → list TickEvent → Prop) f l r :
  (∀ x r, emits (fun log r' => walk x log ∧ counts log r r') (f x r)) →
  emits (fun log r' => (∃ logs, Forall2 walk l logs ∧ log = concat logs) ∧ counts log r r') (tick_each f l r).
Proof.
  intros Hf. revert r. induction l as [|x l IH]; intros r; cbn [tick_each].
  - apply emits_ret. split; [|apply counts_nil]. by exists [].
  - eapply emits_bind; [apply Hf|]. intros r1 l1 [Hw Hc] s. destruct (IH r1 s) as (l2 & E & (logs & HF & ->) & Hc2).
    exists (concat logs). split; [done|]. split; [|by eapply counts_app]. exists (l1 :: logs). by split; [constructor|].
Qed.

Lemma tick_listed_emits {A} fmt event (m : st W (result (list A))) (walk : A → list TickEvent → Prop) f r :
  (∀ l, is_unlisted (event (Ok l)) = false ∧ is_scan (event (Ok l)) = false) →
  (∀ e, is_unlisted (event (Err e)) = true ∧ is_scan (event (Err e)) = false) →
  (∀ x r, emits (fun log r' => walk x log ∧ counts log r r') (f x r)) →
  emits (fun log r' => WalksListed event walk log ∧ counts log r r') (tick_listed fmt (logging event m) f r).
Proof.
  assert (Hns : ∀ e, is_scan e = false → is_delete e = false ∧ is_error e = false) by (by intros []).
  intros HO HE Hf. unfold tick_listed. eapply emits_bind; [apply emits_logging|]. intros got l1 ->.
  destruct got as [l|e].
  - destruct (HO l) as [U1 U2], (Hns _ U2) as [U3 U4]. intros s.
    destruct (tick_each_emits walk f l r Hf s) as (l2 & E & (logs & HF & ->) & Hc).
    exists (concat logs). split; [done|]. split; [by exists (Ok l), logs|].
    apply (counts_app [event (Ok l)] _ r r); [|done]. unfold counts, events. cbn. rewrite U1, U2, U3, U4. cbn. lia.
  - destruct (HE e) as [U1 U2], (Hns _ U2) as [U3 U4]. apply emits_ret. split; [by exists (Err e), []|].
    unfold counts, events. cbn. rewrite U1, U2, U3, U4, length_app. cbn. lia.
Qed.

(** C20: No failure silences the rest of the host.  A tick lists the realms and then, for
    every realm, space and stack a listing names, in order, lists what is below it, and
    reconciles every cell that is listed, in order and once, whatever any of these calls
    returns; a failed listing only costs what is below it.  The report agrees: it counts one
    scan per reconciled cell, one deletion per cell reported deleted, at least one error per
    cell whose reconcile failed and at most one error or deletion per cell, and has one
    message per counted error and per failed listing. *)
Theorem tick_visits_every_cell w p :
  let '(s', r) := ReconcileCells (W := W * list TickEvent) errorText ((w, []), p) in
  let log := tick_log s' in
  WalksHost log ∧
  rcr_Scanned r = events is_scan log ∧ rcr_Deleted r = events is_delete log ∧
  events is_error log ≤ rcr_Errored r ∧ rcr_Errored r + rcr_Deleted r ≤ rcr_Scanned r ∧
  rcr_Updated r ≤ rcr_Scanned r ∧ length (rcr_Errors r) = rcr_Errored r + events is_unlisted log.
Proof.
  enough (HR : emits (fun log r => WalksHost log ∧ counts log tick_zero r) (ReconcileCells (W := W * list TickEvent) errorText)).
  { destruct (HR ((w, []), p)) as (l & E & HW & HC). destruct (ReconcileCells errorText _) as [s' r]. cbn in E, HC |- *.
    rewrite E. split; [done|]. revert HC. unfold counts. cbn. lia. }
  unfold ReconcileCells. cbv zeta.
  apply tick_listed_emits; [done|done|]. intros re r1. apply tick_listed_emits; [done|done|]. intros sp r2.
  apply tick_listed_emits; [done|done|]. intros st r3. apply tick_listed_emits; [done|done|]. intros c r4.
  apply tickCell_emits.
Qed.

End TickTheorems.

(** ** Theorems: the verdict settles *)

Definition no_ref (m : ext.VolumeMount) : Prop := ext.vm_VolumeRef m = None.
Definition no_refs (d : ext.CellDoc) : Prop :=
  Forall (fun c => Forall no_ref (ext.c_Volumes c)) (ext.csp_Containers (ext.cell_Spec d)).

Lemma st_map_pure {S A B} (f : A → st S B) (g : A → B) l s :
  (∀ x s, x ∈ l → f x s = (s, g x)) → st_map f l s = (s, g <$> l).
Proof.
  intros Hf. induction l as [|x l IH]; [done|]. cbn [st_map fmap list_fmap]. unfold st_bind, st_ret.
  rewrite (Hf x s) by (left). rewrite IH; [done|]. intros y s' Hy. apply Hf. by right.
Qed.

(** Without volume references a conversion allocates nothing. *)
Lemma convert_no_refs d : no_refs d → ∃ r, ∀ p, ConvertCellDocToInternal d p = (p, r).
Proof.
  intros Hn. unfold ConvertCellDocToInternal.
  destruct (supportedVersion _); [|by eexists].
  destruct (validateCellDoc _); [by eexists|].
  assert (Hc : ∃ cs, ∀ p, st_map convertContainerSpecToInternal (ext.csp_Containers (ext.cell_Spec d)) p = (p, cs)).
  { eexists. intros p. apply (st_map_pure _ (fun e => (convertContainerSpecToInternal e 1%positive).2)).
    intros e q He. unfold no_refs in Hn. rewrite Forall_forall in Hn. specialize (Hn e He).
    unfold convertContainerSpecToInternal, volumeMountsToInternal, st_bind.
    assert (Hv : ∀ q, st_map volumeMountToInternal (ext.c_Volumes e) q
              = (q, (fun m => (volumeMountToInternal m 1%positive).2) <$> ext.c_Volumes e)).
    { intros q'. apply st_map_pure. intros m q2 Hm. rewrite Forall_forall in Hn. specialize (Hn m Hm).
      unfold no_ref in Hn. unfold volumeMountToInternal, volumeRefToInternal, st_bind. by rewrite Hn. }
    by rewrite !Hv. }
  destruct Hc as [cs Hc]. eexists. intros p. unfold st_bind. rewrite Hc. unfold st_ret. reflexivity.
Qed.

(** Reads that answer the same whenever they are asked. *)
Class StableReads (W : Type) `{ApplyRunner W} `{CellRunner W} := {
  sr_config : CellConfig → result CellConfig;
  sr_blueprint : CellBlueprint → result CellBlueprint;
  sr_space : Space → result Space;
  sr_cni : string → string → result string;
  sr_GetConfig c w : cr_GetConfig c w = (w, sr_config c);
  sr_GetBlueprint b w : ap_GetBlueprint b w = (w, sr_blueprint b);
  sr_GetSpace s w : ap_GetSpace s w = (w, sr_space s);
  sr_ResolveCNI r s w : cr_ResolveSpaceCNIConfigPath r s w = (w, sr_cni r s);
  (** a range visits every key once *)
  sr_rangeOrder m w : RangeOrder m (ap_rangeOrder m w).2
}.

Section Settles.
Context {W : Type} `{StableReads W}.
Context `{YamlCodec ext.CellBlueprintDoc} `{YamlCodec ext.CellConfigDoc} (errorText : error → string).

Fixpoint probe_result (name realm : string) (probes : list (string * string)) : result (option CellConfig) :=
  match probes with
  | [] => Ok None
  | (space, stack) :: rest =>
      match sr_config (config_named name realm space stack) with
      | Ok cfg => Ok (Some cfg)
      | Err e => if error_is ErrConfigNotFound e then probe_result name realm rest else Err e
      end
  end.
Lemma probeConfig_pure name realm probes w : probeConfig name realm probes w = (w, probe_result name realm probes).
Proof.
  induction probes as [|[sp st] l IH]; [done|]. cbn. unfold st_bind. rewrite sr_GetConfig.
  destruct (sr_config _) as [c|e]; [done|]. by destruct (error_is _ e).
Qed.

(** The document a stored configuration gives now. *)
Definition resolved_doc (cfg : CellConfig) (cellName : string) (env : list string) : option ext.CellDoc :=
  match Config.ConvertCellConfigToExternal cfg with
  | Err _ => None
  | Ok cfgDoc =>
      let ref := ext.cfs_Blueprint (ext.cfg_Spec cfgDoc) in
      match sr_blueprint {| bp_Metadata := {| scn_Name := ext.bref_Name ref; scn_Realm := ext.bref_Realm ref;
              scn_Space := ext.bref_Space ref; scn_Stack := ext.bref_Stack ref; scn_Labels := ∅ |}; bp_Document := "" |} with
      | Err _ => None
      | Ok carrier =>
          match Blueprint.ConvertCellBlueprintToExternal carrier with
          | Err _ => None
          | Ok bpDoc => match materializeConfig cfgDoc bpDoc cellName with
                        | Ok d => Some (ApplyEnvOverrides d env)
                        | Err _ => None
                        end
          end
      end
  end.

Lemma injected_stable cell : ∃ r, ∀ w, applyRunnerInjectedContainerFields (W := W) cell w = (w, r).
Proof.
  unfold applyRunnerInjectedContainerFields, st_bind.
  destruct (sr_space (space_named (csp_RealmName (cell_Spec cell)) (csp_SpaceName (cell_Spec cell)))) as [sp|e] eqn:E.
  - eexists. intros w. rewrite sr_GetSpace, E. cbv zeta. rewrite sr_ResolveCNI. reflexivity.
  - eexists. intros w. rewrite sr_GetSpace, E. reflexivity.
Qed.

Lemma materialize_stable cfg name env :
  (∀ d, resolved_doc cfg name env = Some d → no_refs d) →
  ∃ r, ∀ s, materializeCellFromConfig (W := W) cfg name env s = (s, r).
Proof.
  unfold resolved_doc, materializeCellFromConfig. intros Hn.
  destruct (Config.ConvertCellConfigToExternal cfg) as [cfgDoc|e]; [|by eexists]. cbv zeta in *.
  set (key := {| bp_Metadata := _; bp_Document := _ |}) in *.
  assert (Hb : ∀ s : W * positive, lift_w (ap_GetBlueprint key) s = (s, sr_blueprint key)).
  { intros [w p]. unfold lift_w. cbn. by rewrite sr_GetBlueprint. }
  destruct (sr_blueprint key) as [carrier|e]; [|eexists; intros s; unfold st_bind; by rewrite Hb].
  destruct (Blueprint.ConvertCellBlueprintToExternal carrier) as [bpDoc|e] eqn:Ebp;
    [|eexists; intros s; unfold st_bind; by rewrite Hb, Ebp].
  destruct (materializeConfig cfgDoc bpDoc name) as [d|e] eqn:Em;
    [|eexists; intros s; unfold st_bind; by rewrite Hb, Ebp, Em].
  destruct (convert_no_refs (ApplyEnvOverrides d env) (Hn _ eq_refl)) as [conv Hconv].
  destruct conv as [desired|e].
  - destruct (injected_stable desired) as [r Hr]. exists r. intros [w p]. unfold st_bind. rewrite Hb, Ebp, Em.
    unfold lift_p, lift_w. cbn. rewrite Hconv. cbn. by rewrite Hr.
  - eexists. intros [w p]. unfold st_bind. rewrite Hb, Ebp, Em. unfold lift_p. cbn. rewrite Hconv. reflexivity.
Qed.

(** The verdict on a cell is a function of its metadata and spec. *)
Lemma verdict_stable cell cell' name s s' :
  cell_Metadata cell' = cell_Metadata cell → cell_Spec cell' = cell_Spec cell →
  (∀ cfg d, resolved_doc cfg (cm_Name (cell_Metadata cell)) (provenanceEnvOverrides cell) = Some d → no_refs d) →
  (desiredCellOutOfSync (W := W) errorText cell' name s').2 = (desiredCellOutOfSync (W := W) errorText cell name s).2.
Proof.
  intros Em Es Hn. unfold desiredCellOutOfSync, st_bind, lookupLineageConfig, provenanceEnvOverrides. rewrite Em, Es.
  assert (Hp : ∀ s : W * positive, lift_w (probeConfig name (csp_RealmName (cell_Spec cell))
      (lineageProbes (csp_SpaceName (cell_Spec cell)) (csp_StackName (cell_Spec cell)))) s
    = (s, probe_result name (csp_RealmName (cell_Spec cell))
            (lineageProbes (csp_SpaceName (cell_Spec cell)) (csp_StackName (cell_Spec cell))))).
  { intros [w p]. unfold lift_w. cbn [fst snd]. by rewrite probeConfig_pure. }
  rewrite !Hp. destruct (probe_result _ _ _) as [[cfg|]|e]; [|done..].
  destruct (materialize_stable cfg _ _ (Hn cfg)) as [r Hr]. unfold provenanceEnvOverrides in Hr. rewrite !Hr.
  destruct r as [desired|e]; [|done]. unfold lift_w, diffCell, st_bind. rewrite Es.
  destruct (ap_rangeOrder _ s'.1) as [w1 d1] eqn:D1, (ap_rangeOrder _ s.1) as [w2 d2] eqn:D2.
  destruct (ap_rangeOrder _ w1) as [w3 a1] eqn:A1, (ap_rangeOrder _ w2) as [w4 a2] eqn:A2. cbn.
  assert (EC : DiffCell d1 a1 desired cell' = DiffCell d1 a1 desired cell)
    by (destruct cell, cell'; cbn in *; subst; reflexivity). rewrite EC.
  pose proof (sr_rangeOrder (childContainers (csp_Containers (cell_Spec desired))) s'.1) as R1. rewrite D1 in R1.
  pose proof (sr_rangeOrder (childContainers (csp_Containers (cell_Spec desired))) s.1) as R2. rewrite D2 in R2.
  pose proof (sr_rangeOrder (childContainers (csp_Containers (cell_Spec cell))) w1) as R3. rewrite A1 in R3.
  pose proof (sr_rangeOrder (childContainers (csp_Containers (cell_Spec cell))) w2) as R4. rewrite A2 in R4.
  cbn in R1, R2, R3, R4.
  destruct (cell_diff_order_independent desired cell d1 d2 a1 a2 R1 R2 R3 R4) as (-> & _).
  destruct (negb _); [done|]. f_equal. by apply drift_reason_order_independent.
Qed.

Lemma verdict_footprint (R : W → W → Prop) `{!PreOrder R} cell name :
  (∀ m, respects R (ap_rangeOrder m)) →
  (∀ cfg d, resolved_doc cfg (cm_Name (cell_Metadata cell)) (provenanceEnvOverrides cell) = Some d → no_refs d) →
  ∀ s, R s.1 (desiredCellOutOfSync (W := W) errorText cell name s).1.1.
Proof.
  intros Ho Hn [w p]. unfold desiredCellOutOfSync, st_bind, lookupLineageConfig, lift_w at 1. cbn [fst snd].
  rewrite probeConfig_pure. destruct (probe_result _ _ _) as [[cfg|]|e]; [|reflexivity..].
  destruct (materialize_stable cfg _ _ (Hn cfg)) as [r Hr]. rewrite Hr. destruct r as [desired|e]; [|reflexivity].
  unfold lift_w, diffCell, st_bind. cbn [fst snd].
  pose proof (Ho (childContainers (csp_Containers (cell_Spec desired))) w) as H1'.
  destruct (ap_rangeOrder _ w) as [w1 o1]. cbn in H1'.
  pose proof (Ho (childContainers (csp_Containers (cell_Spec cell))) w1) as H2'.
  destruct (ap_rangeOrder _ w1) as [w2 o2]. cbn in *. by etrans.
Qed.

Lemma recorded_set v cell : recorded (upd_status (set_OutOfSync v) cell) = v.
Proof. by destruct v, cell as [? ? []]. Qed.
Lemma persist_recorded cell v w : recorded cell = v → persistCellOutOfSync (W := W) cell v w = (w, Ok false).
Proof.
  intros <-. unfold persistCellOutOfSync, recorded. cbn. by rewrite eqb_reflx, !String.eqb_refl.
Qed.
Lemma persist_new cell v w : recorded cell ≠ v →
  persistCellOutOfSync (W := W) cell v w
  = let '(w', e) := ap_UpdateCellMetadata (upd_status (set_OutOfSync v) cell) w in
    (w', match e with Some e => Err (EWrap "persist OutOfSync status: %w" [e]) | None => Ok true end).
Proof.
  intros Hne. unfold persistCellOutOfSync. destruct (_ && _ && _) eqn:E.
  - exfalso. apply Hne. destruct (andb_prop _ _ E) as [E12 E3]. destruct (andb_prop _ _ E12) as [E1 E2].
    apply eqb_prop in E1. apply String.eqb_eq in E2, E3. unfold recorded. destruct v. cbn in *. congruence.
  - unfold st_bind. by destruct (ap_UpdateCellMetadata _ w).
Qed.

(** Drift detection settles: when the stored objects do not change, a pass over a
    cell made from a configuration without volume references writes the cell at most
    once, changing nothing but the verdict, and every later pass over the cell with that
    verdict, in whatever order maps are visited, finds it recorded and writes nothing. *)
Theorem drift_detection_settles (R : W → W → Prop) `{!PreOrder R} cell name s :
  configLineage cell = Some name →
  (∀ m, respects R (ap_rangeOrder m)) →
  (∀ cfg d, resolved_doc cfg (cm_Name (cell_Metadata cell)) (provenanceEnvOverrides cell) = Some d → no_refs d) →
  let cell' := upd_status (set_OutOfSync (desiredCellOutOfSync (W := W) errorText cell name s).2) cell in
  (recorded cell ≠ recorded cell' →
   ∃ w1, R s.1 w1 ∧ (reconcileCellOutOfSync (W := W) errorText cell s).1.1 = (ap_UpdateCellMetadata cell' w1).1) ∧
  (∀ s', (reconcileCellOutOfSync (W := W) errorText cell' s').2 = Ok false ∧
         R s'.1 (reconcileCellOutOfSync (W := W) errorText cell' s').1.1).
Proof.
  intros Hl Ho Hn cell'. split.
  - intros Hne. unfold cell' in *. rewrite recorded_set in Hne. unfold reconcileCellOutOfSync. rewrite Hl. unfold st_bind.
    pose proof (verdict_footprint R cell name Ho Hn s) as Hf.
    destruct (desiredCellOutOfSync errorText cell name s) as [[w1 p1] v] eqn:E. cbn in *. exists w1. split; [done|].
    unfold lift_w. cbn. rewrite persist_new by done. by destruct (ap_UpdateCellMetadata _ w1).
  - intros s'.
    assert (Hv : (desiredCellOutOfSync (W := W) errorText cell' name s').2 = recorded cell').
    { unfold cell'. rewrite recorded_set. by apply verdict_stable. }
    unfold reconcileCellOutOfSync. change (configLineage cell') with (configLineage cell). rewrite Hl. unfold st_bind.
    pose proof (verdict_footprint R cell' name Ho Hn s') as Hf.
    destruct (desiredCellOutOfSync errorText cell' name s') as [[w1 p1] v]. cbn in *. subst v.
    unfold lift_w. cbn. by rewrite persist_recorded.
Qed.

End Settles.

(** ** The tick over the reconcile pass of [Refresh] *)

Section Compose.
Context `{HostConfig} {W : Type} `{ContainerHost W} `{RunnerHost W}.
Context `{ApplyRunner (Exec W)} `{CellRunner (Exec W)}.
Context `{YamlCodec ext.CellBlueprintDoc} `{YamlCodec ext.CellConfigDoc} (errorText : error → string).
Context (Hrec : ∀ c, cr_ReconcileCell c = Refresh.ReconcileCell c).

(** A cell that is gone is not brought back: when the metadata of a listed cell has
    disappeared, the tick only looks it up, and when the reconcile pass deletes the cell
    the tick ends in the state that pass left, without recording anything on it. *)
Theorem gone_cell_not_rewritten cell r ex p :
  (∀ e, (Refresh.GetCell cell (ex_world ex)).2 = Err e → error_is ErrCellNotFound e = true →
     tickCell (W := Exec W) errorText cell r (ex, p)
     = (((lift (Refresh.GetCell cell) ex).1, p), tick_count 1 0 0 0 r)) ∧
  (∀ c o, (Refresh.ReconcileCell cell ex).2 = (c, o, None) → ro_Deleted o = true →
     tickCell (W := Exec W) errorText cell r (ex, p)
     = (((Refresh.ReconcileCell cell ex).1, p), tick_count 1 0 1 0 r)).
Proof.
  unfold tickCell, st_bind, lift_w. cbn [fst snd]. rewrite Hrec. split.
  - intros e He Hn. unfold Refresh.ReconcileCell, st_bind, lift.
    destruct (Refresh.GetCell cell (ex_world ex)) as [w [|e']]; cbn in *; [done|]. injection He as ->.
    rewrite Hn. done.
  - intros c o Ho Hd. destruct (Refresh.ReconcileCell cell ex) as [ex' [[c' o'] e']]. cbn in *. injection Ho as -> -> ->.
    rewrite Hd. cbn. destruct r. unfold tick_count. cbn. by rewrite !Nat.add_0_r.
Qed.

End Compose.

(** ** Concrete runs *)

Definition sample_CellRunner (config : result CellConfig) (cells : result (list Cell)) : CellRunner nat := {|
  cr_GetConfig := fun _ => st_ret config;
  cr_ResolveSpaceCNIConfigPath := fun _ _ => st_ret (Ok "/etc/cni.conflist");
  cr_ExistsCgroup := fun _ => st_ret (Ok true);
  cr_ExistsCellRootContainer := fun _ => st_ret (Ok true);
  cr_GetContainerState := fun _ _ => st_ret (Ok ContainerStateReady);
  cr_EnsureCell := fun c => counting (Ok c);
  cr_StopCell := fun c => counting (Ok c);
  cr_KillCell := fun c => counting (Ok c);
  cr_DeleteCell := fun _ => counting None;
  cr_PurgeCell := fun _ => counting None;
  cr_ListRealms := st_ret (Ok [realm_named "r"; realm_named "q"]);
  cr_ListSpaces := fun r => st_ret (if String.eqb r "r" then Ok [space_named "r" "s"] else Err (EOpaque "unreadable"));
  cr_ListStacks := fun r s => st_ret (Ok [stack_named r s "t"]);
  cr_ListCells := fun _ _ _ => st_ret cells;
  cr_ReconcileCell := fun c => counting (c, outcome_none, Some (EOpaque "no task"));
  cr_EnsureSpace := fun s => counting (Ok s) |}.

(** Two failing cells in the one readable realm of two. *)
Example tick_past_failures (codec : YamlCodec ext.CellBlueprintDoc) (codec' : YamlCodec ext.CellConfigDoc) :
  let r := (@ReconcileCells nat (sample_ApplyRunner (Err (ESentinel ErrCellNotFound)))
              (sample_CellRunner (Err (ESentinel ErrConfigNotFound)) (Ok [cell_named "r" "s" "t" "a"; cell_named "r" "s" "t" "b"]))
              codec codec' (fun _ => "") (0, 1%positive)).2 in
  rcr_Scanned r = 2 ∧ rcr_Errored r = 2 ∧ length (rcr_Errors r) = 3.
Proof. vm_compute. split_and!; reflexivity. Qed.

Definition const_codec {D} (doc : D) : YamlCodec D := {|
  yaml_Marshal := fun _ => Ok "doc"; yaml_Unmarshal := fun _ => Ok doc;
  yaml_UnmarshalNode := fun _ => Ok (DocumentNode [ScalarNode 0 "!!str" "dev"]); yaml_Decode := fun _ => Ok doc |}.


Definition config_carrier : CellConfig := config_named "dev-cfg" "r" "" "".
Definition lineage_cell (containers : list ContainerSpec) : Cell := {|
  cell_Metadata := {| cm_Name := "c1"; cm_Labels := {[ LabelConfig := "dev-cfg" ]}; cm_Annotations := ∅; cm_Generation := 0 |};
  cell_Spec := {| csp_ID := "c1"; csp_RealmName := "r"; csp_SpaceName := "default"; csp_StackName := "default";
    csp_RootContainerID := ""; csp_Tty := None; csp_Containers := containers; csp_AutoDelete := false;
    csp_NestedCgroupRuntime := false; csp_RuntimeEnv := []; csp_Provenance := None; csp_IgnoreDiskPressure := false |};
  cell_Status := Model.zero_CellStatus |}.

#[local] Instance sample_apply_runner : ApplyRunner nat := sample_ApplyRunner (Err (ESentinel ErrCellNotFound)).
#[local] Instance sample_cell_runner : CellRunner nat := sample_CellRunner (Ok config_carrier) (Ok []).
#[local] Instance sample_stable_reads : StableReads nat.
Proof.
  refine {| sr_config := fun _ => Ok config_carrier; sr_blueprint := Ok; sr_space := Ok;
            sr_cni := fun _ _ => Ok "/etc/cni.conflist" |}; try done.
  intros m w. unfold RangeOrder. done.
Defined.
#[local] Instance sample_config_codec : YamlCodec ext.CellConfigDoc := const_codec (sample_config "src").

Section PlainBlueprint.
#[local] Instance plain_codec : YamlCodec ext.CellBlueprintDoc := const_codec sample_slot_blueprint.

Lemma drift_detection_settles_witness :
  let cell := lineage_cell [] in
  let v := (desiredCellOutOfSync (W := nat) (fun _ => "") cell "dev-cfg" (0, 1%positive)).2 in
  oos_OutOfSync v = true ∧
  (reconcileCellOutOfSync (W := nat) (fun _ => "") (upd_status (set_OutOfSync v) cell) (7, 9%positive)).2 = Ok false.
Proof.
  intros cell v. split; [vm_compute; reflexivity|].
  apply (drift_detection_settles (W := nat) (fun _ => "") eq cell "dev-cfg" (0, 1%positive)).
  - reflexivity.
  - intros m s. reflexivity.
  - intros cfg d Hd. assert (Ed : d = default d (resolved_doc (W := nat) config_carrier "c1" [])) by
      (vm_compute; vm_compute in Hd; by injection Hd).
    rewrite Ed. vm_compute. repeat constructor.
Defined.

End PlainBlueprint.

(** A configuration whose blueprint mounts a volume by reference. *)
Definition ref_mount : ext.VolumeMount := {|
  ext.vm_Kind := ext.VolumeKindVolume; ext.vm_Source := ""; ext.vm_Target := "/data";
  ext.vm_VolumeRef := Some {| ext.vr_Name := "data"; ext.vr_Realm := "r"; ext.vr_Space := ""; ext.vr_Stack := "" |};
  ext.vm_ReadOnly := false; ext.vm_SizeBytes := 0; ext.vm_Mode := 0; ext.vm_Ensure := false |}.
Definition ref_blueprint : ext.CellBlueprintDoc :=
  let 'ext.Build_BlueprintContainer id root im cm ar wd env po _ ne na pr hn hp hc us ro ca so de tm re rp gi pol at_ ty se :=
    sample_slot_container in
  {| ext.bp_APIVersion := "v1beta1"; ext.bp_Kind := ext.KindCellBlueprint;
     ext.bp_Metadata := ext.bp_Metadata sample_blueprint;
     ext.bp_Spec := {| ext.bps_Prefix := ""; ext.bps_Parameters := [];
       ext.bps_Cell := {| ext.bcs_Tty := None;
         ext.bcs_Containers := [ext.Build_BlueprintContainer id root im cm ar wd env po [ref_mount] ne na pr hn hp hc us ro ca
                                  so de tm re rp gi pol at_ ty se];
         ext.bcs_AutoDelete := false; ext.bcs_NestedCgroupRuntime := false |} |} |}.

Section RefBlueprint.
#[local] Instance ref_codec : YamlCodec ext.CellBlueprintDoc := const_codec ref_blueprint.

(** A cell made from a configuration that mounts a volume by reference can be out of
    sync from the start:
    the cell just made from the configuration differs from the one made for the
    comparison, because the references are compared by address. *)
Theorem volume_ref_cell_out_of_sync_at_once :
  match materializeCellFromConfig (W := nat) config_carrier "c1" [] (0, 1%positive) with
  | ((w, p), Ok live) =>
      (desiredCellOutOfSync (W := nat) (fun _ => "") live "dev-cfg" (w, p)).2
      = drifted "spec differs at containers[web].volumes"
  | _ => False
  end.
Proof. vm_compute. reflexivity. Qed.

End RefBlueprint.

(** Runners that answer and do nothing, over any state. *)
Definition quiet_ApplyRunner {W} : ApplyRunner W := {|
  ap_GetRealm := fun x => st_ret (Ok x); ap_CreateRealm := fun x => st_ret (Ok x); ap_UpdateRealm := fun x => st_ret (Ok x);
  ap_GetSpace := fun x => st_ret (Ok x); ap_CreateSpace := fun x => st_ret (Ok x); ap_UpdateSpace := fun x => st_ret (Ok x);
  ap_GetStack := fun x => st_ret (Ok x); ap_CreateStack := fun x => st_ret (Ok x); ap_UpdateStack := fun x => st_ret (Ok x);
  ap_GetCell := fun x => st_ret (Ok x); ap_CreateCell := fun x => st_ret (Ok x); ap_StartCell := fun x => st_ret (Ok x);
  ap_UpdateCell := fun x => st_ret (Ok x); ap_RecreateCell := fun x => st_ret (Ok x);
  ap_UpdateCellMetadata := fun _ => st_ret None;
  ap_CreateContainer := fun x _ => st_ret (Ok x); ap_UpdateContainer := fun x _ => st_ret (Ok x);
  ap_WriteSecret := fun _ => st_ret (Ok true); ap_WriteBlueprint := fun _ => st_ret (Ok true);
  ap_WriteVolume := fun _ => st_ret (Ok true); ap_WriteConfig := fun _ => st_ret (Ok true);
  ap_WriteConfigIfAbsent := fun _ => st_ret None; ap_GetBlueprint := fun x => st_ret (Ok x);
  ap_rangeOrder := fun m => st_ret (rangeKeys m) |}.
Definition quiet_CellRunner {W} (reconcile : Cell → st W (Cell * ReconcileOutcome * option error)) : CellRunner W := {|
  cr_GetConfig := fun c => st_ret (Ok c); cr_ResolveSpaceCNIConfigPath := fun _ _ => st_ret (Ok "");
  cr_ExistsCgroup := fun _ => st_ret (Ok true); cr_ExistsCellRootContainer := fun _ => st_ret (Ok true);
  cr_GetContainerState := fun _ _ => st_ret (Ok ContainerStateReady); cr_EnsureCell := fun c => st_ret (Ok c);
  cr_StopCell := fun c => st_ret (Ok c); cr_KillCell := fun c => st_ret (Ok c); cr_DeleteCell := fun _ => st_ret None;
  cr_PurgeCell := fun _ => st_ret None; cr_ListRealms := st_ret (Ok []); cr_ListSpaces := fun _ => st_ret (Ok []);
  cr_ListStacks := fun _ _ => st_ret (Ok []); cr_ListCells := fun _ _ _ => st_ret (Ok []);
  cr_ReconcileCell := reconcile; cr_EnsureSpace := fun s => st_ret (Ok s) |}.

(** A finished auto-delete job is deleted and left alone. *)
Lemma gone_cell_not_rewritten_witness :
  let RC := @Refresh.ReconcileCell sw_HostConfig SampleWorld sw_ContainerHost sw_RunnerHost in
  let s0 := (MkExec {| sw_clock := 100; sw_reaps := 0; sw_rootUp := true; sw_jobExit := Some 0%Z |} ∅, 1%positive) in
  let cell := upd_status (set_ReadyObserved true)
                (sample_cell true CellStateReady [sample_container "root" true ""; sample_container "job" false "never"] []) in
  rcr_Deleted (@tickCell _ quiet_ApplyRunner (quiet_CellRunner RC) (const_codec sample_slot_blueprint)
                 (const_codec (sample_config "src")) (fun _ => "") cell tick_zero s0).2 = 1.
Proof.
  intros RC s0 cell.
  destruct (@gone_cell_not_rewritten sw_HostConfig SampleWorld sw_ContainerHost sw_RunnerHost quiet_ApplyRunner
    (quiet_CellRunner RC) (const_codec sample_slot_blueprint) (const_codec (sample_config "src")) (fun _ => "")
    (fun _ => eq_refl) cell tick_zero s0.1 s0.2) as [_ H].
  destruct (RC cell s0.1) as [ex' [[c o] e]] eqn:E.
  assert (Hd : (RC cell s0.1).2 = (c, o, e)) by by rewrite E.
  assert (He : e = None) by (vm_compute in Hd; congruence).
  assert (Ho : ro_Deleted o = true) by (vm_compute in Hd; injection Hd as _ <- _; reflexivity).
  subst e. change s0 with (s0.1, s0.2). rewrite (H c o Hd Ho). reflexivity.
Defined.
