(* ===== verification/CellOps.v ===== *)
(** * The controller's operations on cells
    (internal/controller/get_cell.go, create_cell.go, start_cell.go, stop_cell.go,
    kill_cell.go, delete_cell.go, purge_cell.go, percell_volume.go)

    Each operation validates its input, reads the stored cell and hands it to the runner.
    Starting a cell decides between refusing, recreating, reapplying its configuration and
    a plain start. *)

From Stdlib Require Import Ascii ZArith Lia.
From stdpp Require Import base gmap strings list.
From S2P Require Import Prelude Model External Validate Scheme Defaults Naming Template Blueprint Config Layout Fs Objects CellState Observe Refresh Diff Apply Facade Documents OutOfSync.

Local Open Scope nat_scope.

Definition KukeonRealmLabelKey : string := "realm.kukeon.io".
Definition KukeonSpaceLabelKey : string := "space.kukeon.io".
Definition KukeonStackLabelKey : string := "stack.kukeon.io".
Definition KukeonCellLabelKey : string := "cell.kukeon.io".

Definition with_spec (c : Cell) (s : CellSpec) : Cell :=
  {| cell_Metadata := cell_Metadata c; cell_Spec := s; cell_Status := cell_Status c |}.
Definition set_RuntimeEnv (env : list string) (c : Cell) : Cell :=
  let 'Build_CellSpec id r s t root ty cs ad nc _ pr dp := cell_Spec c in
  with_spec c (Build_CellSpec id r s t root ty cs ad nc env pr dp).
Definition set_container_ID (id : string) (s : ContainerSpec) : ContainerSpec :=
  let 'Build_ContainerSpec _ b c d e f g h i j k l m n o p q r s' t u v w x y z a1 a2 a3 a4 a5 a6 a7 a8 a9 b1 b2 b3 b4 b5 := s in
  Build_ContainerSpec id b c d e f g h i j k l m n o p q r s' t u v w x y z a1 a2 a3 a4 a5 a6 a7 a8 a9 b1 b2 b3 b4 b5.
Definition set_owner (realm space stack cell : string) (s : ContainerSpec) : ContainerSpec :=
  let 'Build_ContainerSpec a b _ _ _ _ g h i j k l m n o p q r s' t u v w x y z a1 a2 a3 a4 a5 a6 a7 a8 a9 b1 b2 b3 b4 b5 := s in
  Build_ContainerSpec a b realm space stack cell g h i j k l m n o p q r s' t u v w x y z a1 a2 a3 a4 a5 a6 a7 a8 a9 b1 b2 b3 b4 b5.

(** ** Input checks *)

(** The trimmed name, realm, space and stack. *)
Definition cellCoordinates (cell : Cell) : result (string * string * string * string) :=
  let name := TrimSpace (cm_Name (cell_Metadata cell)) in
  let realm := TrimSpace (csp_RealmName (cell_Spec cell)) in
  let space := TrimSpace (csp_SpaceName (cell_Spec cell)) in
  let stack := TrimSpace (csp_StackName (cell_Spec cell)) in
  if String.eqb name "" then Err (ESentinel ErrCellNameRequired)
  else if String.eqb realm "" then Err (ESentinel ErrRealmNameRequired)
  else if String.eqb space "" then Err (ESentinel ErrSpaceNameRequired)
  else if String.eqb stack "" then Err (ESentinel ErrStackNameRequired)
  else Ok (name, realm, space, stack).

Definition applyDefaultCellLabels (labels : gmap string string) (realm space stack name : string) : gmap string string :=
  labels ∪ {[ KukeonRealmLabelKey := realm; KukeonSpaceLabelKey := space;
              KukeonStackLabelKey := stack; KukeonCellLabelKey := name ]}.

Fixpoint checkContainerIDs (l : list ContainerSpec) : result (list ContainerSpec) :=
  match l with
  | [] => Ok []
  | c :: rest =>
      let id := TrimSpace (c_ID c) in
      if String.eqb id "" then Err (ESentinel ErrContainerNameRequired)
      else match ValidateHierarchyName "container" id with
           | Some e => Err e
           | None => let? rest' := checkContainerIDs rest in Ok (set_container_ID id c :: rest')
           end
  end.

(** The normalised cell with its trimmed name, realm, space and stack.  The realm, space
    and stack of the cell's own spec are left as given. *)
Definition normalizeCellInputs (cell : Cell) : result (Cell * (string * string * string * string)) :=
  let name := TrimSpace (cm_Name (cell_Metadata cell)) in
  if String.eqb name "" then Err (ESentinel ErrCellNameRequired)
  else match ValidateHierarchyName "cell" name with
  | Some e => Err e
  | None =>
      let realm := TrimSpace (csp_RealmName (cell_Spec cell)) in
      let space := TrimSpace (csp_SpaceName (cell_Spec cell)) in
      let stack := TrimSpace (csp_StackName (cell_Spec cell)) in
      if String.eqb realm "" then Err (ESentinel ErrRealmNameRequired)
      else if String.eqb space "" then Err (ESentinel ErrSpaceNameRequired)
      else if String.eqb stack "" then Err (ESentinel ErrStackNameRequired)
      else
        let? containers := checkContainerIDs (csp_Containers (cell_Spec cell)) in
        let 'Build_CellSpec id r s t root ty _ ad nc re pr dp := cell_Spec cell in
        let m := cell_Metadata cell in
        Ok ({| cell_Metadata := {| cm_Name := name;
                                   cm_Labels := applyDefaultCellLabels (cm_Labels m) realm space stack name;
                                   cm_Annotations := cm_Annotations m; cm_Generation := cm_Generation m |};
               cell_Spec := Build_CellSpec (if String.eqb id "" then name else id) r s t root ty
                              (set_owner realm space stack name <$> containers) ad nc re pr dp;
               cell_Status := cell_Status cell |}, (name, realm, space, stack))
  end.

(** The first container flagged as root, else the named one. *)
Definition rootContainerID (cell : Cell) : string :=
  match find_first c_Root (csp_Containers (cell_Spec cell)) with
  | Some c => c_ID c
  | None => csp_RootContainerID (cell_Spec cell)
  end.

(** ** Volumes provisioned on demand *)

Definition volumeForEnsureMount (cell : Cell) (m : VolumeMount) : Volume :=
  match vm_VolumeRef m with
  | Some p =>
      let ref := ptr_val p in
      {| vol_Metadata := {| volm_Name := vr_Name ref; volm_Realm := vr_Realm ref; volm_Space := vr_Space ref;
                            volm_Stack := vr_Stack ref |}; vol_ReclaimPolicy := "" |}
  | None =>
      let s := cell_Spec cell in
      {| vol_Metadata := {| volm_Name := vm_Source m; volm_Realm := csp_RealmName s; volm_Space := csp_SpaceName s;
                            volm_Stack := csp_StackName s |}; vol_ReclaimPolicy := "" |}
  end.

Definition ensured_mounts (cell : Cell) : list VolumeMount :=
  List.filter (fun m => is_volume_mount m && vm_Ensure m) (cell_mounts cell).

Section CellOps.
Context {W : Type} `{ApplyRunner W} `{CellRunner W}.
Context `{YamlCodec ext.CellBlueprintDoc} `{YamlCodec ext.CellConfigDoc}.

Fixpoint ensureVolumes (cell : Cell) (mounts : list VolumeMount) : st W (option error) :=
  match mounts with
  | [] => st_ret None
  | m :: rest =>
      let! r := ReconcileVolume (volumeForEnsureMount cell m) in
      match r.2 with
      | Some e => st_ret (Some (EWrap "%w: ensure volume %q for cell %q: %w" [ESentinel ErrWriteVolume; e]))
      | None => ensureVolumes cell rest
      end
  end.
Definition ensurePerCellVolumes (cell : Cell) : st W (option error) := ensureVolumes cell (ensured_mounts cell).

(** ** Lookups *)

(** The stored cell must lie in the scope it was asked for in. *)
Definition scopeMismatch (cell : Cell) (realm space stack : string) : option error :=
  let s := cell_Spec cell in
  if negb (String.eqb (csp_RealmName s) realm) then
    Some (EOpaque "cell %q not found in realm %q (found in realm %q) at run-path %q")
  else if negb (String.eqb (csp_SpaceName s) space) then
    Some (EOpaque "cell %q not found in space %q (found in space %q) at run-path %q")
  else if negb (String.eqb (csp_StackName s) stack) then
    Some (EOpaque "cell %q not found in stack %q (found in stack %q) at run-path %q")
  else None.

Definition notFoundMessage (e : error) : error :=
  if error_is ErrCellNotFound e then EOpaque "cell %q not found in realm %q, space %q, stack %q" else e.

Definition validateAndGetCell (cell : Cell) : st W (result Cell) :=
  match cellCoordinates cell with
  | Err e => st_ret (Err e)
  | Ok (name, realm, space, stack) =>
      let! got := ap_GetCell (cell_named realm space stack name) in
      match got with
      | Err e => st_ret (Err (notFoundMessage e))
      | Ok internalCell =>
          match scopeMismatch internalCell realm space stack with
          | Some e => st_ret (Err e)
          | None =>
              let! cg := cr_ExistsCgroup internalCell in
              match cg with
              | Err e => st_ret (Err (EWrap "failed to check if cell cgroup exists: %w" [e]))
              | Ok _ =>
                  let! root := cr_ExistsCellRootContainer internalCell in
                  st_ret (match root with
                          | Err e => Err (EWrap "failed to check root container: %w" [e])
                          | Ok _ => Ok internalCell
                          end)
              end
          end
      end
  end.

Definition rootContainerTaskRunning (cell : Cell) : st W (result bool) :=
  let rootID := rootContainerID cell in
  if String.eqb rootID "" then st_ret (Ok true)
  else
    let! state := cr_GetContainerState cell rootID in
    st_ret (match state with
            | Err e => Err e
            | Ok s => Ok (bool_decide (s = ContainerStateReady))
            end).

(** A missing cell is reported, not an error: [None]. *)
Record GetCellResult := {
  gc_Cell : Cell; gc_CgroupExists : bool; gc_RootContainerExists : bool; gc_RootContainerTaskRunning : bool
}.
Definition GetCell (cell : Cell) : st W (result (option GetCellResult)) :=
  match cellCoordinates cell with
  | Err e => st_ret (Err e)
  | Ok (name, realm, space, stack) =>
      let! got := ap_GetCell (cell_named realm space stack name) in
      match got with
      | Err e => st_ret (if error_is ErrCellNotFound e then Ok None else Err (EWrap "%w: %w" [ESentinel ErrGetCell; e]))
      | Ok internalCell =>
          match scopeMismatch internalCell realm space stack with
          | Some e => st_ret (Err e)
          | None =>
              let! cg := cr_ExistsCgroup internalCell in
              match cg with
              | Err e => st_ret (Err (EWrap "failed to check if cell cgroup exists: %w" [e]))
              | Ok cgroup =>
                  let! root := cr_ExistsCellRootContainer internalCell in
                  match root with
                  | Err e => st_ret (Err (EWrap "failed to check root container: %w" [e]))
                  | Ok rootExists =>
                      let! task := (if rootExists then rootContainerTaskRunning internalCell else st_ret (Ok false)) in
                      st_ret (match task with
                              | Err e => Err (EWrap "failed to check root container task: %w" [e])
                              | Ok running => Ok (Some {| gc_Cell := internalCell; gc_CgroupExists := cgroup;
                                  gc_RootContainerExists := rootExists; gc_RootContainerTaskRunning := running |})
                              end)
                  end
              end
          end
      end
  end.

(** ** Stop, kill, delete, purge *)

(** The common tail: run, then persist. *)
Definition runAndPersist (run : st W (result Cell)) (what : string) : st W (result Cell) :=
  let! r := run in
  match r with
  | Err e => st_ret (Err (EWrap what [e]))
  | Ok cell =>
      let! e := ap_UpdateCellMetadata cell in
      st_ret (match e with Some e => Err (EWrap "failed to update cell metadata: %w" [e]) | None => Ok cell end)
  end.

Definition StopCell (cell : Cell) : st W (result Cell) :=
  let! got := validateAndGetCell cell in
  match got with
  | Err e => st_ret (Err e)
  | Ok internalCell => runAndPersist (cr_StopCell internalCell) "failed to stop cell containers: %w"
  end.

Definition KillCell (cell : Cell) : st W (result Cell) :=
  match cellCoordinates cell with
  | Err e => st_ret (Err e)
  | Ok (name, realm, space, stack) =>
      let! got := ap_GetCell (cell_named realm space stack name) in
      match got with
      | Err e => st_ret (Err (notFoundMessage e))
      | Ok internalCell => runAndPersist (cr_KillCell internalCell) "failed to kill cell containers: %w"
      end
  end.

Record DeleteCellResult := { dcr_Cell : Cell; dcr_ContainersDeleted : bool; dcr_CgroupDeleted : bool; dcr_MetadataDeleted : bool }.
Definition DeleteCell (cell : Cell) : st W (result DeleteCellResult) :=
  let! got := validateAndGetCell cell in
  match got with
  | Err e => st_ret (Err e)
  | Ok internalCell =>
      let! e := cr_DeleteCell internalCell in
      st_ret (match e with
              | Some e => Err (EWrap "%w: %w" [ESentinel ErrDeleteCell; e])
              | None => Ok {| dcr_Cell := internalCell;
                              dcr_ContainersDeleted := 0 <? length (csp_Containers (cell_Spec internalCell));
                              dcr_CgroupDeleted := true; dcr_MetadataDeleted := true |}
              end)
  end.

Definition purgeCellCascade (cell : Cell) : st W (option error) :=
  let! e := cr_DeleteCell cell in
  match e with
  | Some e => st_ret (Some (EWrap "failed to delete cell: %w" [e]))
  | None => cr_PurgeCell cell
  end.
(** A failed purge is a result, with the error in its Purged list. *)
Record PurgeCellResult := {
  pcr_Cell : Cell; pcr_ContainersDeleted : bool; pcr_CgroupDeleted : bool; pcr_MetadataDeleted : bool;
  pcr_PurgeSucceeded : bool; pcr_Force : bool; pcr_Cascade : bool; pcr_Deleted : list string;
  pcr_Purged : list (string + error)
}.
Definition PurgeCell (cell : Cell) (force cascade : bool) : st W (result PurgeCellResult) :=
  match cellCoordinates cell with
  | Err e => st_ret (Err e)
  | Ok _ =>
      let! got := ap_GetCell cell in
      match got with
      | Err e => st_ret (Err (notFoundMessage e))
      | Ok internalCell =>
          let some := 0 <? length (csp_Containers (cell_Spec internalCell)) in
          let! e := purgeCellCascade internalCell in
          let ok := match e with None => true | Some _ => false end in
          st_ret (Ok {| pcr_Cell := internalCell; pcr_ContainersDeleted := ok && some; pcr_CgroupDeleted := ok;
                        pcr_MetadataDeleted := ok; pcr_PurgeSucceeded := ok; pcr_Force := force; pcr_Cascade := cascade;
                        pcr_Deleted := (if some then ["containers"] else []) ++ ["cgroup"; "metadata"];
                        pcr_Purged := match e with
                                      | Some e => [inr e]
                                      | None => inl <$> ["cni-resources"; "orphaned-containers"; "all-metadata"]
                                      end |})
      end
  end.

(** ** Create *)

Record ContainerCreationOutcome := { cco_Name : string; cco_ExistsPre : bool; cco_ExistsPost : bool; cco_Created : bool }.
Record CreateCellResult := {
  ccr_Cell : Cell; ccr_MetadataExistsPre : bool; ccr_MetadataExistsPost : bool; ccr_CgroupExistsPre : bool;
  ccr_CgroupExistsPost : bool; ccr_CgroupCreated : bool; ccr_RootContainerExistsPre : bool;
  ccr_RootContainerExistsPost : bool; ccr_RootContainerCreated : bool; ccr_StartedPre : bool; ccr_StartedPost : bool;
  ccr_Started : bool; ccr_Created : bool; ccr_Containers : list ContainerCreationOutcome
}.

(** What acquireOrCreateCell learns of the state before. *)
Record PreState := { pre_Metadata : bool; pre_Cgroup : bool; pre_Root : bool; pre_Containers : list string }.

Definition containerIDs (cell : Cell) : list string :=
  List.filter (fun id => negb (String.eqb id "")) ((fun c => TrimSpace (c_ID c)) <$> csp_Containers (cell_Spec cell)).

Definition acquireOrCreateCell (cell lookupCell : Cell) : st W (result (Cell * bool * PreState)) :=
  let! got := ap_GetCell lookupCell in
  match got with
  | Err e =>
      if negb (error_is ErrCellNotFound e) then st_ret (Err (EWrap "%w: %w" [ESentinel ErrGetCell; e]))
      else
        let! made := ap_CreateCell cell in
        st_ret (match made with
                | Err e => Err (EWrap "%w: %w" [ESentinel ErrCreateCell; e])
                | Ok c => Ok (c, true, {| pre_Metadata := false; pre_Cgroup := false; pre_Root := false; pre_Containers := [] |})
                end)
  | Ok pre =>
      let! cg := cr_ExistsCgroup pre in
      match cg with
      | Err e => st_ret (Err (EWrap "failed to check if cell cgroup exists: %w" [e]))
      | Ok cgroup =>
          let! root := cr_ExistsCellRootContainer pre in
          match root with
          | Err e => st_ret (Err (EWrap "failed to check root container: %w" [e]))
          | Ok rootExists =>
              let! ensured := cr_EnsureCell pre in
              st_ret (match ensured with
                      | Err e => Err (EWrap "%w: %w" [ESentinel ErrCreateCell; e])
                      | Ok c => Ok (c, false, {| pre_Metadata := true; pre_Cgroup := cgroup; pre_Root := rootExists;
                                                 pre_Containers := containerIDs pre |})
                      end)
          end
      end
  end.

Definition creationOutcomes (requested : Cell) (pre post : list string) : list ContainerCreationOutcome :=
  (fun id => let before := bool_decide (id ∈ pre) in
             let after := bool_decide (id ∈ post) in
             {| cco_Name := id; cco_ExistsPre := before; cco_ExistsPost := after; cco_Created := negb before && after |})
    <$> containerIDs requested.

(** After acquiring: start, or record a fresh cell as stopped. *)
Definition settleCreated (startAfterCreate wasCreated : bool) (runtimeEnv : list string) (cell : Cell) : st W (result Cell) :=
  if startAfterCreate then
    let! started := ap_StartCell (set_RuntimeEnv runtimeEnv cell) in
    st_ret (match started with Err e => Err (EWrap "failed to start cell containers: %w" [e]) | r => r end)
  else if wasCreated then
    let stopped := upd_status (set_State CellStateStopped) cell in
    let! e := ap_UpdateCellMetadata stopped in
    st_ret (match e with Some e => Err (EWrap "%w: %w" [ESentinel ErrUpdateCellMetadata; e]) | None => Ok stopped end)
  else st_ret (Ok cell).

Definition createCellInternal (cell : Cell) (startAfterCreate : bool) : st W (result CreateCellResult) :=
  match normalizeCellInputs cell with
  | Err e => st_ret (Err e)
  | Ok (cell, (name, realm, space, stack)) =>
      let! ve := ensurePerCellVolumes cell in
      match ve with
      | Some e => st_ret (Err e)
      | None =>
          let! acquired := acquireOrCreateCell cell (cell_named realm space stack name) in
          match acquired with
          | Err e => st_ret (Err e)
          | Ok (resultCell, wasCreated, pre) =>
              let! settled := settleCreated startAfterCreate wasCreated (csp_RuntimeEnv (cell_Spec cell)) resultCell in
              st_ret (let? final := settled in
                Ok {| ccr_Cell := final; ccr_MetadataExistsPre := pre_Metadata pre; ccr_MetadataExistsPost := true;
                      ccr_CgroupExistsPre := pre_Cgroup pre; ccr_CgroupExistsPost := true;
                      ccr_CgroupCreated := wasCreated || negb (pre_Cgroup pre);
                      ccr_RootContainerExistsPre := pre_Root pre; ccr_RootContainerExistsPost := true;
                      ccr_RootContainerCreated := wasCreated || negb (pre_Root pre);
                      ccr_StartedPre := false; ccr_StartedPost := startAfterCreate; ccr_Started := startAfterCreate;
                      ccr_Created := wasCreated;
                      ccr_Containers := creationOutcomes cell (pre_Containers pre) (containerIDs final) |})
          end
      end
  end.
Definition CreateCell (cell : Cell) : st W (result CreateCellResult) := createCellInternal cell true.
Definition MaterializeCell (cell : Cell) : st W (result CreateCellResult) := createCellInternal cell false.

(** ** Start *)

(** A live container that a second start would duplicate.  The root counts only in a cell
    without workloads. *)
Definition hasRunningContainer (cell : Cell) : bool :=
  let rootID := if hasNonRootContainerSpec (csp_Containers (cell_Spec cell)) then rootContainerID cell else "" in
  existsb (fun s => negb (negb (String.eqb rootID "") && String.eqb (cs_ID s) rootID)
                    && bool_decide (cs_State s = ContainerStateReady)) (cst_Containers (cell_Status cell)).

(** The refusal of a cell that is still up. *)
Definition alreadyRunning (cell : Cell) : option error :=
  if 0 <? length (cst_Containers (cell_Status cell)) then
    if hasRunningContainer cell then Some (EOpaque "cell %q has running containers and must first be stopped") else None
  else if bool_decide (cst_State (cell_Status cell) = CellStateReady) then
    Some (EOpaque "cell %q is already in Ready state and must first be stopped")
  else None.

(** The materialised cell under the live cell's identity. *)
Definition adoptIdentity (cell desired : Cell) : Cell :=
  let s := cell_Spec cell in
  let m := cell_Metadata desired in
  let 'Build_CellSpec _ _ _ _ root ty cs ad nc _ pr dp := cell_Spec desired in
  {| cell_Metadata := {| cm_Name := cm_Name (cell_Metadata cell); cm_Labels := cm_Labels m;
                         cm_Annotations := cm_Annotations m; cm_Generation := cm_Generation m |};
     cell_Spec := Build_CellSpec (csp_ID s) (csp_RealmName s) (csp_SpaceName s) (csp_StackName s) root ty cs ad nc
                    (csp_RuntimeEnv s) pr dp;
     cell_Status := cell_Status desired |}.

(** Some (cell, started), or None to go on with the stored spec. *)
Definition reapplyBreaking (desired : Cell) : st W (option (Cell * bool)) :=
  let! ve := ensurePerCellVolumes desired in
  match ve with
  | Some _ => st_ret None
  | None =>
      let! r := ap_RecreateCell desired in
      st_ret (match r with Ok c => Some (c, true) | Err _ => None end)
  end.

Definition reapplyCompatibleInPlace (cell desired : Cell) : st W (option (Cell * bool)) :=
  let! started := ap_StartCell cell in
  match started with
  | Err _ => st_ret None
  | Ok started =>
      let! ve := ensurePerCellVolumes desired in
      match ve with
      | Some _ => st_ret (Some (started, true))
      | None =>
          let! updated := ap_UpdateCell desired in
          st_ret (Some (match updated with Ok c => c | Err _ => started end, true))
      end
  end.

Definition reapplyOutOfSyncFromConfig (cell : Cell) : MD (W := W) (option (Cell * bool)) :=
  let s := cell_Status cell in
  if negb (cst_OutOfSync s) || negb (String.eqb (cst_OutOfSyncError s) "") then st_ret None
  else match configLineage cell with
  | None => st_ret None
  | Some configName =>
      let! found := lift_w (lookupLineageConfig cell configName) in
      match found with
      | Err _ | Ok None => st_ret None
      | Ok (Some cfg) =>
          let! made := materializeCellFromConfig cfg (cm_Name (cell_Metadata cell)) (provenanceEnvOverrides cell) in
          match made with
          | Err _ => st_ret None
          | Ok made =>
              let desired := adoptIdentity cell made in
              let! diff := lift_w (diffCell desired cell) in
              if negb (dr_HasChanges (cdr_Diff diff)) then st_ret None
              else if isBreakingChange (dr_ChangeType (cdr_Diff diff)) then lift_w (reapplyBreaking desired)
              else lift_w (reapplyCompatibleInPlace cell desired)
          end
      end
  end.

(** A plain start of the stored cell. *)
Definition plainStart (cell : Cell) : st W (result Cell) :=
  runAndPersist (ap_StartCell cell) "failed to start cell containers: %w".

(** The started cell, or the error. *)
Definition StartCell (cell : Cell) : MD (W := W) (result Cell) :=
  let! got := lift_w (validateAndGetCell cell) in
  match got with
  | Err e => st_ret (Err e)
  | Ok stored =>
      let internalCell := set_RuntimeEnv (csp_RuntimeEnv (cell_Spec cell)) stored in
      let! ve := lift_w (ensurePerCellVolumes internalCell) in
      match ve with
      | Some e => st_ret (Err e)
      | None =>
          match cst_State (cell_Status internalCell) with
          | CellStatePending | CellStateUnknown =>
              st_ret (Err (EOpaque "cell %q exists in %s state; delete it with `kuke delete cell %s` before restarting"))
          | CellStateFailed | CellStateError | CellStateDegraded =>
              let! r := lift_w (ap_RecreateCell internalCell) in
              st_ret (match r with Err e => Err (EWrap "failed to recover %s cell: %w" [e]) | Ok c => Ok c end)
          | _ =>
              match alreadyRunning internalCell with
              | Some e => st_ret (Err e)
              | None =>
                  let! reapplied := reapplyOutOfSyncFromConfig internalCell in
                  match reapplied with
                  | Some (c, true) => st_ret (Ok c)
                  | Some (c, false) => lift_w (plainStart c)
                  | None => lift_w (plainStart internalCell)
                  end
              end
          end
      end
  end.

End CellOps.

(** ** Theorems: input checks *)

Lemma set_owner_fields r s t n c :
  c_ID (set_owner r s t n c) = c_ID c ∧ c_RealmName (set_owner r s t n c) = r ∧ c_SpaceName (set_owner r s t n c) = s ∧
  c_StackName (set_owner r s t n c) = t ∧ c_CellName (set_owner r s t n c) = n.
Proof. by destruct c. Qed.
Lemma set_owner_idem r s t n c : set_owner r s t n (set_owner r s t n c) = set_owner r s t n c.
Proof. by destruct c. Qed.
Lemma set_container_ID_ID id c : c_ID (set_container_ID id c) = id.
Proof. by destruct c. Qed.
Lemma set_container_ID_own r s t n c : set_container_ID (c_ID c) (set_owner r s t n c) = set_owner r s t n c.
Proof. by destruct c. Qed.

Lemma checkContainerIDs_ok l l' : checkContainerIDs l = Ok l' →
  Forall2 (fun c c' => c' = set_container_ID (TrimSpace (c_ID c)) c) l l' ∧
  Forall (fun c => ValidName (c_ID c) ∧ TrimSpace (c_ID c) = c_ID c ∧ ValidateHierarchyName "container" (c_ID c) = None) l'.
Proof.
  revert l'. induction l as [|c l IH]; intros l'; cbn; [intros [= <-]; by split|].
  destruct (String.eqb_spec (TrimSpace (c_ID c)) ""); [done|].
  destruct (ValidateHierarchyName "container" (TrimSpace (c_ID c))) eqn:Ev; [done|].
  rewrite res_bind_Ok. intros (l1 & E & [= <-]). destruct (IH _ E) as [H1 H2]. split; [by constructor|].
  constructor; [|done]. rewrite set_container_ID_ID, TrimSpace_idem. split_and!; [|done|done].
  by eapply ValidateHierarchyName_ok.
Qed.
Lemma checkContainerIDs_again r s t n l :
  Forall (fun c => ValidName (c_ID c) ∧ TrimSpace (c_ID c) = c_ID c ∧ ValidateHierarchyName "container" (c_ID c) = None) l →
  checkContainerIDs (set_owner r s t n <$> l) = Ok (set_owner r s t n <$> l).
Proof.
  induction 1 as [|c l (Hv & Ht & Hok) _ IH]; [done|]. cbn -[set_owner]. rewrite (proj1 (set_owner_fields r s t n c)), Ht, Hok.
  destruct (String.eqb_spec (c_ID c) "") as [E|]; [destruct Hv as [Hv _]; by rewrite Ht in Hv|].
  rewrite IH. cbn -[set_owner]. by rewrite set_container_ID_own.
Qed.

(** Normalisation makes a cell consistent, and is stable: every container ends with a
    valid trimmed name and is owned by exactly this cell, the scope labels are there and
    those given by the operator win, and normalising the result again changes nothing. *)
Theorem normalized_cell_owns_its_containers cell cell' n r s t :
  normalizeCellInputs cell = Ok (cell', (n, r, s, t)) →
  Forall (fun c => ValidName (c_ID c) ∧ TrimSpace (c_ID c) = c_ID c ∧
            c_RealmName c = r ∧ c_SpaceName c = s ∧ c_StackName c = t ∧ c_CellName c = n)
    (csp_Containers (cell_Spec cell')) ∧
  length (csp_Containers (cell_Spec cell')) = length (csp_Containers (cell_Spec cell)) ∧
  cm_Labels (cell_Metadata cell)
    ⊆ cm_Labels (cell_Metadata cell') ∧
  (∀ k, k ∈ [KukeonRealmLabelKey; KukeonSpaceLabelKey; KukeonStackLabelKey; KukeonCellLabelKey] →
     is_Some (cm_Labels (cell_Metadata cell') !! k)) ∧
  csp_ID (cell_Spec cell') ≠ "" ∧
  normalizeCellInputs cell' = Ok (cell', (n, r, s, t)).
Proof.
  unfold normalizeCellInputs.
  destruct (String.eqb_spec (TrimSpace (cm_Name (cell_Metadata cell))) "") as [|Hn]; [done|].
  destruct (ValidateHierarchyName "cell" (TrimSpace (cm_Name (cell_Metadata cell)))) eqn:Ev; [done|].
  destruct cell as [[name labels ann gen] [id re sp st root ty cs ad nc renv pr dp] status].
  cbn [cell_Metadata cell_Spec cell_Status cm_Name cm_Labels cm_Annotations cm_Generation csp_RealmName csp_SpaceName
       csp_StackName csp_Containers] in *.
  destruct (String.eqb_spec (TrimSpace re) "") as [|Hr]; [done|]. destruct (String.eqb_spec (TrimSpace sp) "") as [|Hs]; [done|].
  destruct (String.eqb_spec (TrimSpace st) "") as [|Ht]; [done|].
  rewrite res_bind_Ok. intros (cs' & Ec & [= <- <- <- <- <-]).
  destruct (checkContainerIDs_ok _ _ Ec) as [HF HV].
  cbn [cell_Metadata cell_Spec cell_Status cm_Name cm_Labels cm_Annotations cm_Generation csp_RealmName csp_SpaceName
       csp_StackName csp_Containers csp_ID].
  set (defaults := {[ KukeonRealmLabelKey := TrimSpace re; KukeonSpaceLabelKey := TrimSpace sp;
              KukeonStackLabelKey := TrimSpace st; KukeonCellLabelKey := TrimSpace name ]} : gmap string string).
  assert (Hid : (if String.eqb id "" then TrimSpace name else id) ≠ "") by by destruct (String.eqb_spec id "").
  split_and!.
  - apply Forall_fmap. apply (Forall_impl _ _ _ HV). intros c (Hv & Htr & _). unfold compose.
    destruct (set_owner_fields (TrimSpace re) (TrimSpace sp) (TrimSpace st) (TrimSpace name) c) as (-> & -> & -> & -> & ->).
    by split_and!.
  - rewrite length_fmap. symmetry. by eapply Forall2_length.
  - unfold applyDefaultCellLabels. apply map_union_subseteq_l.
  - intros k Hk. unfold applyDefaultCellLabels. fold defaults. apply lookup_union_is_Some. right.
    unfold defaults. repeat (apply elem_of_cons in Hk as [->|Hk]; [by eexists|]). by apply elem_of_nil in Hk.
  - done.
  - rewrite !TrimSpace_idem.
    destruct (String.eqb_spec (TrimSpace name) ""); [done|]. rewrite Ev.
    destruct (String.eqb_spec (TrimSpace re) ""); [done|]. destruct (String.eqb_spec (TrimSpace sp) ""); [done|].
    destruct (String.eqb_spec (TrimSpace st) ""); [done|]. rewrite checkContainerIDs_again by done. cbn [res_bind].
    destruct (String.eqb_spec (if String.eqb id "" then TrimSpace name else id) ""); [done|].
    do 4 f_equal.
    + unfold applyDefaultCellLabels. fold defaults. rewrite <-(assoc_L (∪)). by rewrite (idemp_L (∪)).
    + rewrite <-list_fmap_compose. apply list_fmap_ext. intros _ c _. apply set_owner_idem.
Qed.

Lemma normalized_cell_owns_its_containers_witness :
  let cell := upd_status (set_State CellStateReady)
                (with_spec (cell_named " r " "s" "t" " web ")
                   (cell_Spec (lineage_cell [sample_container " app " false "never"]))) in
  ∃ cell', normalizeCellInputs cell = Ok (cell', ("web", "r", "default", "default")) ∧
    (c_ID <$> csp_Containers (cell_Spec cell')) = ["app"] ∧
    normalizeCellInputs cell' = Ok (cell', ("web", "r", "default", "default")).
Proof.
  intros cell. destruct (normalizeCellInputs cell) as [[cell' [[[n r] s] t]]|e] eqn:E; [|vm_compute in E; discriminate].
  pose proof (normalized_cell_owns_its_containers cell cell' n r s t E) as (_ & _ & _ & _ & _ & H).
  assert (E2 : Ok (cell', (n, r, s, t)) = normalizeCellInputs cell) by done. vm_compute in E2. injection E2 as Ec -> -> -> ->.
  exists cell'. split_and!; [done|by rewrite Ec|exact H].
Defined.

(** ** Theorems: what an operation may do *)

Section CellFrames.
Context {W : Type} `{ApplyRunner W} `{CellRunner W}.
Context `{YamlCodec ext.CellBlueprintDoc} `{YamlCodec ext.CellConfigDoc}.
Context (R : W → W → Prop) `{!PreOrder R}.

(** Looking up a cell and provisioning its volumes respect [R]. *)
Record QuietFrame : Prop := {
  qf_reads : ReadFrame R;
  qf_cgroup : ∀ c, respects R (cr_ExistsCgroup c);
  qf_root : ∀ c, respects R (cr_ExistsCellRootContainer c);
  qf_volume : ∀ v, respects R (ap_WriteVolume v)
}.
Context (QF : QuietFrame).
#[local] Hint Resolve rf_realm rf_space rf_stack rf_cell rf_blueprint rf_order qf_reads qf_cgroup qf_root qf_volume : frame.

Lemma ReconcileVolume_frame v : respects R (ReconcileVolume v).
Proof.
  unfold ReconcileVolume, ensureVolumeScopeExists, writeThrough.
  apply respects_bind; [apply _|apply ensureScopeExists_frame; [apply _|apply _|apply QF]|]. intros []; solve_frame.
Qed.
#[local] Hint Resolve ReconcileVolume_frame : frame.
Lemma ensureVolumes_frame cell l : respects R (ensureVolumes cell l).
Proof. induction l; cbn; solve_frame. Qed.
#[local] Hint Resolve ensureVolumes_frame : frame.
Lemma validateAndGetCell_frame cell : respects R (validateAndGetCell cell).
Proof. unfold validateAndGetCell. destruct (cellCoordinates cell) as [[[[n r] s] t]|e]; solve_frame. Qed.
#[local] Hint Resolve validateAndGetCell_frame : frame.

(** *** Start *)

(** A cell the operator may start: settled, and, unless it is being recovered, without a
    live container.  The root of a cell with workloads does not count as live. *)
Definition startable (c : Cell) : Prop :=
  cst_State (cell_Status c) ∉ [CellStatePending; CellStateUnknown] ∧
  (cst_State (cell_Status c) ∈ [CellStateFailed; CellStateError; CellStateDegraded] ∨
   (cst_Containers (cell_Status c) = [] → cst_State (cell_Status c) ≠ CellStateReady) ∧
   ∀ s, s ∈ cst_Containers (cell_Status c) → cs_State s = ContainerStateReady →
     hasNonRootContainerSpec (csp_Containers (cell_Spec c)) = true ∧ cs_ID s = rootContainerID c).

Lemma alreadyRunning_None c : alreadyRunning c = None →
  (cst_Containers (cell_Status c) = [] → cst_State (cell_Status c) ≠ CellStateReady) ∧
  ∀ s, s ∈ cst_Containers (cell_Status c) → cs_State s = ContainerStateReady →
    hasNonRootContainerSpec (csp_Containers (cell_Spec c)) = true ∧ cs_ID s = rootContainerID c.
Proof.
  unfold alreadyRunning. intros Ha. split.
  - intros E. rewrite E in Ha. cbn in Ha. by case_bool_decide.
  - intros s Hs Hr. destruct (cst_Containers (cell_Status c)) as [|x l] eqn:El; [by apply elem_of_nil in Hs|].
    cbn [length Nat.ltb Nat.leb] in Ha. destruct (hasRunningContainer c) eqn:Eh; [done|].
    unfold hasRunningContainer in Eh. rewrite El in Eh.
    destruct (negb (negb (String.eqb (if hasNonRootContainerSpec (csp_Containers (cell_Spec c)) then rootContainerID c else "") "")
       && String.eqb (cs_ID s) (if hasNonRootContainerSpec (csp_Containers (cell_Spec c)) then rootContainerID c else ""))) eqn:En.
    + exfalso. enough (T : existsb (fun s => negb (negb (String.eqb (if hasNonRootContainerSpec (csp_Containers (cell_Spec c)) then rootContainerID c else "") "")
         && String.eqb (cs_ID s) (if hasNonRootContainerSpec (csp_Containers (cell_Spec c)) then rootContainerID c else ""))
         && bool_decide (cs_State s = ContainerStateReady)) (x :: l) = true) by by rewrite T in Eh.
      apply existsb_exists. exists s. split; [by apply list_elem_of_In|]. rewrite En, Hr. done.
    + apply negb_false_iff, andb_true_iff in En as [E1 E2%String.eqb_eq].
      destruct (hasNonRootContainerSpec _); [done|]. by cbn in E1.
Qed.

(** Starting a cell touches the host beyond provisioning its volumes, or reports
    success, only when the stored cell is startable: it was read from the store, is not
    pending or unknown, and either is being recovered from failure or has no live
    container that a second start would duplicate. *)
Theorem start_refuses_live_cells cell s :
  ¬ R s.1 (StartCell (W := W) cell s).1.1 ∨ (∃ c, (StartCell (W := W) cell s).2 = Ok c) →
  ∃ stored, (validateAndGetCell (W := W) cell s.1).2 = Ok stored ∧ startable stored.
Proof.
  destruct s as [w p]. cbn [fst]. intros Hout. unfold StartCell, st_bind, lift_w in Hout. cbn [fst snd] in Hout.
  pose proof (validateAndGetCell_frame cell w) as HR1.
  destruct (validateAndGetCell cell w) as [w1 [stored|e]]; cbn [fst snd] in *.
  2:{ destruct Hout as [[]|[? Hf]]; [done|discriminate]. }
  exists stored. split; [done|].
  pose proof (ensureVolumes_frame (set_RuntimeEnv (csp_RuntimeEnv (cell_Spec cell)) stored)
    (ensured_mounts (set_RuntimeEnv (csp_RuntimeEnv (cell_Spec cell)) stored)) w1) as HR2. unfold ensurePerCellVolumes in Hout.
  assert (Hst : cell_Status (set_RuntimeEnv (csp_RuntimeEnv (cell_Spec cell)) stored) = cell_Status stored)
    by by destruct stored as [? [] ?].
  assert (Hroot : rootContainerID (set_RuntimeEnv (csp_RuntimeEnv (cell_Spec cell)) stored) = rootContainerID stored)
    by by destruct stored as [? [] ?].
  assert (Hcs : csp_Containers (cell_Spec (set_RuntimeEnv (csp_RuntimeEnv (cell_Spec cell)) stored)) = csp_Containers (cell_Spec stored))
    by by destruct stored as [? [] ?].
  set (ic := set_RuntimeEnv (csp_RuntimeEnv (cell_Spec cell)) stored) in *.
  destruct (ensureVolumes ic _ w1) as [w2 [e|]]; cbn [fst snd] in *.
  { destruct Hout as [[]|[? Hf]]; [by etrans|discriminate]. }
  rewrite Hst in Hout. unfold startable.
  assert (Hquiet : ∀ e : error, ¬ (¬ R w w2 ∨ ∃ c : Cell, Err e = Ok c)) by (intros e [Hn|[? ?]]; [apply Hn; by etrans|done]).
  pose proof (alreadyRunning_None ic) as Hrun. rewrite Hst, Hroot, Hcs in Hrun.
  destruct (cst_State (cell_Status stored)); try (exfalso; eapply Hquiet; exact Hout);
    (split; [by rewrite !not_elem_of_cons; split_and!; try done; apply not_elem_of_nil|]);
    try (left; rewrite !elem_of_cons; tauto); right;
    (destruct (alreadyRunning ic); [exfalso; eapply Hquiet; exact Hout|by apply Hrun]).
Qed.

(** *** Materialise *)

(** Creating and recording a cell respects [R] too. *)
Record CreateFrame : Prop := {
  xf_create : ∀ c, respects R (ap_CreateCell c);
  xf_ensure : ∀ c, respects R (cr_EnsureCell c);
  xf_record : ∀ c, respects R (ap_UpdateCellMetadata c)
}.
Context (XF : CreateFrame).
#[local] Hint Resolve xf_create xf_ensure xf_record : frame.

Lemma acquireOrCreateCell_frame cell key : respects R (acquireOrCreateCell cell key).
Proof.
  unfold acquireOrCreateCell. apply respects_bind; [apply _|apply rf_cell, QF|]. intros []; solve_frame.
Qed.

(** Materialising a cell never starts it: no step outside the lookups, the volume
    provisioning, the creation and the recording runs, whatever fails; and a cell that it
    creates is reported, and was last recorded, as stopped. *)
Theorem materialize_never_starts cell s :
  R s (MaterializeCell (W := W) cell s).1 ∧
  ∀ res, (MaterializeCell (W := W) cell s).2 = Ok res → ccr_Created res = true →
    ccr_Started res = false ∧ cst_State (cell_Status (ccr_Cell res)) = CellStateStopped.
Proof.
  split.
  - revert s. change (respects R (MaterializeCell (W := W) cell)). unfold MaterializeCell, createCellInternal.
    destruct (normalizeCellInputs cell) as [[c [[[n r] sp] t]]|e]; [|solve_frame].
    apply respects_bind; [apply _|apply ensureVolumes_frame|]. intros [e|]; [solve_frame|].
    apply respects_bind; [apply _|apply acquireOrCreateCell_frame|]. intros [[[c' cr] pre]|e]; [|solve_frame].
    unfold settleCreated. solve_frame.
  - revert s. enough (Q : returns (fun r => ∀ res, r = Ok res → ccr_Created res = true →
      ccr_Started res = false ∧ cst_State (cell_Status (ccr_Cell res)) = CellStateStopped) (MaterializeCell (W := W) cell))
      by (intros s; apply Q).
    unfold MaterializeCell, createCellInternal.
    destruct (normalizeCellInputs cell) as [[c [[[n r] sp] t]]|e]; [|by apply returns_ret].
    apply returns_bind. intros [e|]; [by apply returns_ret|].
    apply returns_bind. intros [[[c' cr] pre]|e]; [|by apply returns_ret].
    apply returns_bind_2 with (P := fun r => cr = true → ∀ f, r = Ok f → cst_State (cell_Status f) = CellStateStopped).
    + unfold settleCreated. destruct cr; [|by apply returns_ret]. apply returns_bind. intros [e|]; apply returns_ret; [done|].
      intros _ f [= <-]. by destruct c' as [? ? []].
    + intros f Hf. apply returns_ret. destruct f as [f|e]; [|done]. cbn. intros res [= <-]. cbn. intros ->.
      split; [done|]. by apply Hf.
Qed.
End CellFrames.

(** The runner of [Apply] with volume writes that leave the counter alone: the counter
    then counts what a start may not do to a live cell. *)
Definition uncounted_volumes (stored : result Cell) : ApplyRunner nat :=
  let R := sample_ApplyRunner stored in {|
  ap_GetRealm := @ap_GetRealm _ R; ap_CreateRealm := @ap_CreateRealm _ R; ap_UpdateRealm := @ap_UpdateRealm _ R;
  ap_GetSpace := @ap_GetSpace _ R; ap_CreateSpace := @ap_CreateSpace _ R; ap_UpdateSpace := @ap_UpdateSpace _ R;
  ap_GetStack := @ap_GetStack _ R; ap_CreateStack := @ap_CreateStack _ R; ap_UpdateStack := @ap_UpdateStack _ R;
  ap_GetCell := @ap_GetCell _ R; ap_CreateCell := @ap_CreateCell _ R; ap_StartCell := @ap_StartCell _ R;
  ap_UpdateCell := @ap_UpdateCell _ R; ap_RecreateCell := @ap_RecreateCell _ R;
  ap_UpdateCellMetadata := @ap_UpdateCellMetadata _ R; ap_CreateContainer := @ap_CreateContainer _ R;
  ap_UpdateContainer := @ap_UpdateContainer _ R; ap_WriteSecret := @ap_WriteSecret _ R;
  ap_WriteBlueprint := @ap_WriteBlueprint _ R; ap_WriteVolume := fun _ => st_ret (Ok true);
  ap_WriteConfig := @ap_WriteConfig _ R; ap_WriteConfigIfAbsent := @ap_WriteConfigIfAbsent _ R;
  ap_GetBlueprint := @ap_GetBlueprint _ R; ap_rangeOrder := @ap_rangeOrder _ R |}.

Lemma uncounted_QuietFrame stored cells :
  @QuietFrame nat (uncounted_volumes stored) (sample_CellRunner (Err (ESentinel ErrConfigNotFound)) cells) eq.
Proof. split; [split|..]; intros; intros w; reflexivity. Qed.

(** A stopped cell starts; the counter shows the start and the recording. *)
Lemma start_refuses_live_cells_witness :
  let A := uncounted_volumes (Ok (upd_status (set_State CellStateStopped) (cell_named "r" "s" "t" "web"))) in
  let C := sample_CellRunner (Err (ESentinel ErrConfigNotFound)) (Ok []) in
  (@StartCell nat A C (const_codec sample_slot_blueprint) (const_codec (sample_config "src"))
     (cell_named "r" "s" "t" "web") (0, 1%positive)).1.1 = 2 ∧
  ∃ stored, (@validateAndGetCell nat A C (cell_named "r" "s" "t" "web") 0).2 = Ok stored ∧ startable stored.
Proof.
  intros A C. split; [vm_compute; reflexivity|].
  apply (@start_refuses_live_cells nat A C (const_codec sample_slot_blueprint) (const_codec (sample_config "src")) eq _
    (uncounted_QuietFrame _ _) (cell_named "r" "s" "t" "web") (0, 1%positive)).
  left. vm_compute. discriminate.
Defined.

(** A new cell is created and recorded, not started. *)
Lemma materialize_never_starts_witness :
  let A := sample_ApplyRunner (Err (ESentinel ErrCellNotFound)) in
  let C := sample_CellRunner (Err (ESentinel ErrConfigNotFound)) (Ok []) in
  0 ≤ (@MaterializeCell nat A C (cell_named "r" "s" "t" "web") 0).1 ∧
  ∃ res, (@MaterializeCell nat A C (cell_named "r" "s" "t" "web") 0).2 = Ok res ∧
    cst_State (cell_Status (ccr_Cell res)) = CellStateStopped.
Proof.
  intros A C.
  destruct (@materialize_never_starts nat A C le _
    ltac:(split; [apply sample_ReadFrame_le|..]; intros; intros w; simpl; lia)
    ltac:(split; intros; intros w; simpl; lia) (cell_named "r" "s" "t" "web") 0) as [H1 H2].
  split; [exact H1|].
  destruct (@MaterializeCell nat A C (cell_named "r" "s" "t" "web") 0) as [w [res|e]] eqn:E; [|vm_compute in E; discriminate].
  exists res. split; [done|]. apply H2; [done|]. vm_compute in E. by injection E as _ <-.
Defined.

(** ** Theorems: volumes provisioned on demand over the object store *)

(** Provisioning a volume on demand clears its reclaim policy: when a cell whose
    mount asks for an existing volume with Retain is created or started, the volume's
    manifest is gone afterwards, so that a cascading purge of its scope deletes the data
    it was to keep. *)
Theorem ensured_volume_loses_retain bl gid manifestJSON (R : ApplyRunner OS) cell m sc n os os' :
  Forall seg_ok bl → resource_wf (RVolume sc n) →
  (∀ dir, ¬ temp_of dir ".volume-meta-" ".tmp" (object_path bl (RVolumeMeta sc n))) →
  ensured_mounts cell = [m] → vol_Metadata (volumeForEnsureMount cell m) = volume_md sc n →
  @ensurePerCellVolumes OS (with_object_store (render_path bl) gid manifestJSON R) cell os = (os', None) →
  file_at os' (object_path bl (RVolumeMeta sc n)) = None.
Proof.
  intros Hbl Hwf Ht Hm Hv H. unfold ensurePerCellVolumes in H. rewrite Hm in H. cbn in H. unfold st_bind in H.
  assert (Ev : volumeForEnsureMount cell m = {| vol_Metadata := volume_md sc n; vol_ReclaimPolicy := "" |}).
  { unfold volumeForEnsureMount in *. destruct (vm_VolumeRef m); cbn in Hv; by rewrite <-Hv. }
  rewrite Ev in H. unfold ReconcileVolume, st_bind, writeThrough in H. 
  destruct (ensureVolumeScopeExists _ os) as [os1 [e|]]; cbn in H; [done|].
  unfold st_bind in H. destruct (WriteVolume _ _ _ _ os1) as [os2 [c|e]] eqn:Ew; cbn in H; [|done].
  destruct c; injection H as <-;
    by destruct (write_volume_spec bl Hbl gid manifestJSON sc n "" os1 os2 _ Hwf Ht Ew) as [_ ->].
Qed.

Definition ensuring_cell : Cell :=
  let 'Build_ContainerSpec a b c d e f g h i j k l m _ o p q r s t u v w x y z a1 a2 a3 a4 a5 a6 a7 a8 a9 b1 b2 b3 b4 b5 :=
    sample_container "app" false "" in
  let mount := {| vm_Kind := ext.VolumeKindVolume; vm_Source := ""; vm_Target := "/data";
    vm_VolumeRef := Some (MkPtr 1%positive {| vr_Name := "data"; vr_Realm := "r"; vr_Space := ""; vr_Stack := "" |});
    vm_ReadOnly := false; vm_SizeBytes := 0; vm_Mode := 0; vm_Ensure := true |} in
  lineage_cell [Build_ContainerSpec a b c d e f g h i j k l m [mount] o p q r s t u v w x y z a1 a2 a3 a4 a5 a6 a7 a8 a9 b1 b2 b3 b4 b5].

(** The volume is there with Retain, and loses it. *)
Lemma ensured_volume_loses_retain_witness :
  let R := with_object_store "/opt/kukeon" 0 (fun p => p) sample_os_runner in
  let v := {| vol_Metadata := volume_md (ScRealm "r") "data"; vol_ReclaimPolicy := ext.ReclaimRetain |} in
  let os := (WriteVolume "/opt/kukeon" 0 (fun p => p) v (sample_os [])).1 in
  let path := object_path ["opt"; "kukeon"] (RVolumeMeta (ScRealm "r") "data") in
  file_at os path = Some ext.ReclaimRetain ∧
  file_at (@ensurePerCellVolumes OS R ensuring_cell os).1 path = None.
Proof.
  intros R v os path. split; [vm_compute; reflexivity|].
  destruct (@ensurePerCellVolumes OS R ensuring_cell os) as [os' r] eqn:E.
  assert (Er : r = (@ensurePerCellVolumes OS R ensuring_cell os).2) by by rewrite E. vm_compute in Er. subst r.
  apply (ensured_volume_loses_retain ["opt"; "kukeon"] 0 (fun p => p) sample_os_runner ensuring_cell
    (default {| vm_Kind := ""; vm_Source := ""; vm_Target := ""; vm_VolumeRef := None; vm_ReadOnly := false;
       vm_SizeBytes := 0; vm_Mode := 0; vm_Ensure := false |} (head (ensured_mounts ensuring_cell)))
    (ScRealm "r") "data" os os'); [seg_list|res_wf| |reflexivity|reflexivity|exact E].
  intros dir H%temp_suffix. vm_compute in H. discriminate.
Defined.
