(* ===== verification/OciSpec.v ===== *)
(** * OciSpec: from a container of a cell to its OCI runtime specification
    (internal/ctr/spec.go, container_utils.go, attachable.go, devices.go)

    kukeon describes a container to containerd by a list of spec options, closures that
    edit the OCI runtime specification one after the other.  An option of containerd's own
    oci package is data here ([LibOpt]) whose effect is a parameter; the options kukeon
    defines itself are executed.  The specification record holds the fields kukeon's own
    code reads or writes. *)

From Stdlib Require Import Ascii ZArith Lia.
From stdpp Require Import base gmap strings list pretty.
From S2P Require Import Prelude Model External Template Config Layout.

Local Open Scope nat_scope.

(** ** The runtime specification *)

Record Mount := { mnt_Destination : string; mnt_Source : string; mnt_Type : string; mnt_Options : list string }.

Definition NetworkNamespace : string := "network".
Definition IPCNamespace : string := "ipc".
Definition UTSNamespace : string := "uts".
Definition PIDNamespace : string := "pid".
Definition CgroupNamespace : string := "cgroup".
Record LinuxNamespace := { ns_Type : string; ns_Path : string }.

Record LinuxDevice := {
  dev_Path : string; dev_Type : string; dev_Major : Z; dev_Minor : Z;
  dev_FileMode : option Z; dev_UID : option Z; dev_GID : option Z
}.
Definition set_dev_Path (p : string) (d : LinuxDevice) : LinuxDevice :=
  {| dev_Path := p; dev_Type := dev_Type d; dev_Major := dev_Major d; dev_Minor := dev_Minor d;
     dev_FileMode := dev_FileMode d; dev_UID := dev_UID d; dev_GID := dev_GID d |}.
Record LinuxDeviceCgroup := {
  dcg_Allow : bool; dcg_Type : string; dcg_Major : option Z; dcg_Minor : option Z; dcg_Access : string
}.

(** A seccomp profile is carried as the text it was parsed from. *)
Record Process := { pr_Args : list string; pr_UID : Z; pr_AdditionalGids : list Z; pr_NoNewPrivileges : bool }.
Definition zero_Process : Process := {| pr_Args := []; pr_UID := 0; pr_AdditionalGids := []; pr_NoNewPrivileges := false |}.
(** [lx_ResourceDevices] is Resources.Devices; [None] when Resources is nil. *)
Record Linux := {
  lx_Namespaces : list LinuxNamespace; lx_CgroupsPath : string; lx_Seccomp : option string;
  lx_Devices : list LinuxDevice; lx_ResourceDevices : option (list LinuxDeviceCgroup)
}.
Definition zero_Linux : Linux :=
  {| lx_Namespaces := []; lx_CgroupsPath := ""; lx_Seccomp := None; lx_Devices := []; lx_ResourceDevices := None |}.
Record OciSpec := { sp_Process : option Process; sp_Linux : option Linux }.

Definition upd_process (f : Process → Process) (s : OciSpec) : OciSpec :=
  {| sp_Process := Some (f (default zero_Process (sp_Process s))); sp_Linux := sp_Linux s |}.
Definition upd_linux (f : Linux → Linux) (s : OciSpec) : OciSpec :=
  {| sp_Process := sp_Process s; sp_Linux := Some (f (default zero_Linux (sp_Linux s))) |}.
Definition set_Args (a : list string) (p : Process) : Process :=
  {| pr_Args := a; pr_UID := pr_UID p; pr_AdditionalGids := pr_AdditionalGids p; pr_NoNewPrivileges := pr_NoNewPrivileges p |}.
Definition set_AdditionalGids (g : list Z) (p : Process) : Process :=
  {| pr_Args := pr_Args p; pr_UID := pr_UID p; pr_AdditionalGids := g; pr_NoNewPrivileges := pr_NoNewPrivileges p |}.
Definition set_NoNewPrivileges (b : bool) (p : Process) : Process :=
  {| pr_Args := pr_Args p; pr_UID := pr_UID p; pr_AdditionalGids := pr_AdditionalGids p; pr_NoNewPrivileges := b |}.
Definition set_Namespaces (n : list LinuxNamespace) (l : Linux) : Linux :=
  {| lx_Namespaces := n; lx_CgroupsPath := lx_CgroupsPath l; lx_Seccomp := lx_Seccomp l; lx_Devices := lx_Devices l;
     lx_ResourceDevices := lx_ResourceDevices l |}.
Definition set_Seccomp (p : option string) (l : Linux) : Linux :=
  {| lx_Namespaces := lx_Namespaces l; lx_CgroupsPath := lx_CgroupsPath l; lx_Seccomp := p; lx_Devices := lx_Devices l;
     lx_ResourceDevices := lx_ResourceDevices l |}.
Definition set_Devices (d : list LinuxDevice) (r : option (list LinuxDeviceCgroup)) (l : Linux) : Linux :=
  {| lx_Namespaces := lx_Namespaces l; lx_CgroupsPath := lx_CgroupsPath l; lx_Seccomp := lx_Seccomp l; lx_Devices := d;
     lx_ResourceDevices := r |}.

(** ** Options *)

(** The options of containerd's oci package that kukeon uses. *)
Inductive LibOpt :=
| WithDefaultPathEnv
| WithHostname (h : string)
| WithMounts (m : list Mount)
| WithProcessArgs (args : list string)
| WithProcessCwd (cwd : string)
| WithEnv (env : list string)
| WithPrivileged
| WithAllDevicesAllowed
| WithHostDevices
| WithHostNamespace (ty : string)
| WithLinuxNamespace (ns : LinuxNamespace)
| WithCgroup (path : string)
| WithUser (user : string)
| WithRootFSReadonly
| WithCapabilities (caps : list string)
| WithDroppedCapabilities (caps : list string)
| WithAddedCapabilities (caps : list string)
| WithMemoryLimit (bytes : Z)
| WithCPUShares (shares : Z)
| WithPidsLimit (limit : Z)
| WithImageConfig (image : string)
| WithAnnotations (a : gmap string string).

(** What an option may touch beside the specification: the files of the host and the
    effect of a library option. *)
Class OciHost (W : Type) := {
  oh_lib : LibOpt → OciSpec → st W (result OciSpec);
  oh_ReadFile : string → st W (result string);
  oh_ParseSeccomp : string → result string;
  oh_StatID : string → st W (result Z);
  oh_ReadDir : string → st W (result (list (string * bool)));
  oh_DeviceFromPath : string → st W (result LinuxDevice);
  oh_NotADevice : error → bool;
  oh_IsNotExist : error → bool
}.

(** The host paths an attachable container needs, and the callback that writes its
    metadata file. *)
Record AttachableInjection (W : Type) := {
  inj_KukettyBinaryPath : string; inj_HostTTYDir : string; inj_HostMetadataPath : string;
  inj_RenderMetadata : option (list string → st W (option error))
}.
Arguments inj_KukettyBinaryPath {W} _.
Arguments inj_HostTTYDir {W} _.
Arguments inj_HostMetadataPath {W} _.
Arguments inj_RenderMetadata {W} _.

Inductive SpecOpt (W : Type) :=
| Lib (o : LibOpt)
| withNamespacePathOpt (ty path : string)
| withKukeonGroupGIDSpecOpt (gid : Z)
| privilegedHostDevicesOpt
| hostLinuxDeviceOpt (containerPath access : string)
| noNewPrivilegesOpt (enabled : bool)
| seccompUnconfinedOpt
| seccompProfileOpt (raw value : string)
| errorSpecOpt (e : error)
| withAttachableArgsWrap (inj : AttachableInjection W).
Arguments Lib {W} o.
Arguments withNamespacePathOpt {W} ty path.
Arguments withKukeonGroupGIDSpecOpt {W} gid.
Arguments privilegedHostDevicesOpt {W}.
Arguments hostLinuxDeviceOpt {W} containerPath access.
Arguments noNewPrivilegesOpt {W} enabled.
Arguments seccompUnconfinedOpt {W}.
Arguments seccompProfileOpt {W} raw value.
Arguments errorSpecOpt {W} e.
Arguments withAttachableArgsWrap {W} inj.

(** *** Devices (devices.go) *)

Definition hostRootViaPID1 : string := "/proc/1/root".

Section Devices.
Context {W : Type} `{OciHost W}.

Definition daemonInPrivateMountNS : st W bool :=
  let! self := oh_StatID "/" in
  match self with
  | Err _ => st_ret false
  | Ok self =>
      let! pid1 := oh_StatID hostRootViaPID1 in
      st_ret (match pid1 with Err _ => false | Ok p => negb (Z.eqb self p) end)
  end.
Definition resolveDeviceHostRoot : st W string :=
  let! priv := daemonInPrivateMountNS in
  st_ret (if priv then hostRootViaPID1 else "/").

(** strings.TrimPrefix with a slash *)
Definition trim_slash (p : string) : string :=
  match p with String c rest => if Ascii.eqb c slash then rest else p | EmptyString => p end.

Definition add_device (d : LinuxDevice) (access : string) (l : Linux) : Linux :=
  set_Devices (lx_Devices l ++ [d])
    (Some (default [] (lx_ResourceDevices l)
           ++ [{| dcg_Allow := true; dcg_Type := dev_Type d; dcg_Major := Some (dev_Major d); dcg_Minor := Some (dev_Minor d);
                  dcg_Access := access |}])) l.

Definition applyHostLinuxDevice (containerPath access : string) (s : OciSpec) : st W (result OciSpec) :=
  let! root := resolveDeviceHostRoot in
  let! dev := oh_DeviceFromPath (FJoin [root; trim_slash containerPath]) in
  st_ret (match dev with
          | Err e => Err (EWrap "resolve device %q: %w" [e])
          | Ok d => Ok (upd_linux (add_device (set_dev_Path containerPath d) access) s)
          end).

Definition skippedDevDirs : list string := ["pts"; "shm"; "fd"; "mqueue"; ".lxc"; ".lxd-mounts"; ".udev"].

(** The walk below a directory; [rel] is the path already walked, under which the nodes
    appear in the container.  The depth bounds the nesting of directories: the kernel
    refuses a path of more than 4096 bytes, so a deeper tree cannot be opened. *)
Fixpoint walkHostDevices (depth : nat) (dir rel : string) : st W (result (list LinuxDevice)) :=
  match depth with
  | O => st_ret (Err (EOpaque "file name too long"))
  | S depth =>
      let! entries := oh_ReadDir dir in
      match entries with
      | Err e => st_ret (Err e)
      | Ok entries =>
          (fix walk (entries : list (string * bool)) (out : list LinuxDevice) : st W (result (list LinuxDevice)) :=
             match entries with
             | [] => st_ret (Ok out)
             | (name, isDir) :: rest =>
                 if isDir then
                   if bool_decide (name ∈ skippedDevDirs) then walk rest out
                   else
                     let! below := walkHostDevices depth (FJoin [dir; name]) (FJoin [rel; name]) in
                     match below with
                     | Err e => st_ret (Err e)
                     | Ok l => walk rest (out ++ l)
                     end
                 else if String.eqb name "console" then walk rest out
                 else
                   let! dev := oh_DeviceFromPath (FJoin [dir; name]) in
                   match dev with
                   | Err e => if oh_NotADevice e || oh_IsNotExist e then walk rest out else st_ret (Err e)
                   | Ok d => if String.eqb (dev_Type d) "p" then walk rest out
                             else walk rest (out ++ [set_dev_Path (FJoin [rel; name]) d])
                   end
             end) entries []
      end
  end.
Definition PATH_MAX : nat := Z.to_nat 4096.
Definition enumerateHostDevices (devRoot : string) : st W (result (list LinuxDevice)) :=
  walkHostDevices PATH_MAX devRoot "/dev".

Definition applyPrivilegedHostDevices (s : OciSpec) : st W (result OciSpec) :=
  let! root := resolveDeviceHostRoot in
  if String.eqb root "/" then oh_lib WithHostDevices s
  else
    let! devices := enumerateHostDevices (FJoin [root; "dev"]) in
    st_ret (match devices with
            | Err e => Err (EWrap "enumerate host devices under %q: %w" [e])
            | Ok l => Ok (upd_linux (fun x => set_Devices (lx_Devices x ++ l) (lx_ResourceDevices x) x) s)
            end).

End Devices.

(** *** Running an option *)

Definition AttachableBinaryPath : string := "/.kukeon/bin/kuketty".

Fixpoint setNamespacePath (ty path : string) (l : list LinuxNamespace) : list LinuxNamespace :=
  match l with
  | [] => [{| ns_Type := ty; ns_Path := path |}]
  | n :: rest =>
      if String.eqb (ns_Type n) ty then {| ns_Type := ns_Type n; ns_Path := path |} :: rest
      else n :: setNamespacePath ty path rest
  end.

(** *** What applySpecOpts clears before it runs the options *)

(** The paths that a start may leave stale. *)
Definition dynamic_ns (ty : string) : bool := String.eqb ty NetworkNamespace || String.eqb ty IPCNamespace || String.eqb ty UTSNamespace.
Definition clearStalePaths (s : OciSpec) : OciSpec :=
  match sp_Linux s with
  | None => s
  | Some l => {| sp_Process := sp_Process s;
                 sp_Linux := Some (set_Namespaces ((fun n => if dynamic_ns (ns_Type n) then {| ns_Type := ns_Type n; ns_Path := "" |} else n)
                                                    <$> lx_Namespaces l) l) |}
  end.

Section Run.
Context {W : Type} `{OciHost W}.

Definition applyOpt (o : SpecOpt W) (s : OciSpec) : st W (result OciSpec) :=
  match o with
  | Lib o => oh_lib o s
  | withNamespacePathOpt ty path => st_ret (Ok (upd_linux (fun l => set_Namespaces (setNamespacePath ty path (lx_Namespaces l)) l) s))
  | withKukeonGroupGIDSpecOpt gid =>
      st_ret (Ok (if Z.eqb gid 0 then s
                  else match sp_Process s with
                       | None => s
                       | Some p => if bool_decide (gid ∈ pr_AdditionalGids p) then s
                                   else upd_process (set_AdditionalGids (pr_AdditionalGids p ++ [gid])) s
                       end))
  | privilegedHostDevicesOpt => applyPrivilegedHostDevices s
  | hostLinuxDeviceOpt path access => applyHostLinuxDevice path access s
  | noNewPrivilegesOpt enabled => st_ret (Ok (upd_process (set_NoNewPrivileges enabled) s))
  | seccompUnconfinedOpt =>
      st_ret (Ok (match sp_Linux s with Some _ => upd_linux (set_Seccomp None) s | None => s end))
  | seccompProfileOpt raw value =>
      let! data := oh_ReadFile value in
      st_ret (match data with
              | Err e => Err (EWrap "securityOpt %q: read seccomp profile: %w" [e])
              | Ok d => match oh_ParseSeccomp d with
                        | Err e => Err (EWrap "securityOpt %q: parse seccomp profile: %w" [e])
                        | Ok p => Ok (upd_linux (set_Seccomp (Some p)) s)
                        end
              end)
  | errorSpecOpt e => st_ret (Err e)
  | withAttachableArgsWrap inj =>
      let workload := pr_Args (default zero_Process (sp_Process s)) in
      let! rendered := match inj_RenderMetadata inj with Some render => render workload | None => st_ret None end in
      st_ret (match rendered with
              | Some e => Err (EWrap "render kuketty metadata: %w" [e])
              | None => Ok (upd_process (set_Args [AttachableBinaryPath]) s)
              end)
  end.

Fixpoint applyOpts (opts : list (SpecOpt W)) (s : OciSpec) : st W (result OciSpec) :=
  match opts with
  | [] => st_ret (Ok s)
  | o :: rest =>
      let! r := applyOpt o s in
      match r with Err e => st_ret (Err e) | Ok s' => applyOpts rest s' end
  end.

End Run.

(** ** The environment *)

Definition kukeonDefaultEnv (spec : ContainerSpec) : list string :=
  let pairs := [("KUKEON_CELL_NAME", c_CellName spec); ("KUKEON_CONTAINER_ID", c_ID spec); ("KUKEON_REALM", c_RealmName spec);
                ("KUKEON_SPACE", c_SpaceName spec); ("KUKEON_STACK", c_StackName spec);
                ("KUKEON_CGROUP_PATH", c_CellCgroupPath spec)] in
  (fun p : string * string => p.1 +:+ "=" +:+ p.2) <$> List.filter (fun p => negb (String.eqb p.2 "")) pairs.

Definition GitSignCommits : string := "commits".
Definition GitSignTags : string := "tags".
Definition signPairs (s : string) : list (string * string) :=
  if String.eqb s GitSignCommits then [("commit.gpgsign", "true")]
  else if String.eqb s GitSignTags then [("tag.gpgsign", "true")] else [].
Definition gitConfigPairs (git : ContainerGit) : list (string * string) :=
  (if negb (String.eqb (git_SigningKey git) "") then [("user.signingkey", git_SigningKey git); ("gpg.format", "ssh")] else [])
  ++ (git_Sign git ≫= signPairs)
  ++ (if negb (String.eqb (git_AllowedSigners git) "") then [("gpg.ssh.allowedSignersFile", git_AllowedSigners git)] else []).
Definition identityEnv (who : string) (i : option GitIdentity) : list string :=
  match i with
  | Some i => ["GIT_" +:+ who +:+ "_NAME=" +:+ gi_Name i; "GIT_" +:+ who +:+ "_EMAIL=" +:+ gi_Email i]
  | None => []
  end.
Definition gitEnv (git : option ContainerGit) : list string :=
  match git with
  | None => []
  | Some git =>
      let pairs := gitConfigPairs git in
      identityEnv "AUTHOR" (git_Author git) ++ identityEnv "COMMITTER" (git_Committer git)
      ++ (if 0 <? length pairs then
            ("GIT_CONFIG_COUNT=" +:+ Itoa (Z.of_nat (length pairs)))
            :: concat (imap (fun i p => ["GIT_CONFIG_KEY_" +:+ Itoa (Z.of_nat i) +:+ "=" +:+ p.1;
                                         "GIT_CONFIG_VALUE_" +:+ Itoa (Z.of_nat i) +:+ "=" +:+ p.2]) pairs)
          else [])
  end.

Definition kukeonContainerEnv (spec : ContainerSpec) : list string :=
  let defaults := kukeonDefaultEnv spec ++ gitEnv (c_Git spec) in
  if length (c_Env spec) =? 0 then defaults
  else if length defaults =? 0 then c_Env spec
  else
    let userKeys : gset string := list_to_set (envKey <$> c_Env spec) in
    List.filter (fun kv => negb (bool_decide (envKey kv ∈ userKeys))) defaults ++ c_Env spec.

(** ** Mounts *)

Definition etcFileBindMounts (hostsPath hostnamePath : string) : list Mount :=
  (if negb (String.eqb hostsPath "") then
     [{| mnt_Destination := "/etc/hosts"; mnt_Source := hostsPath; mnt_Type := "bind"; mnt_Options := ["rbind"; "ro"] |}] else [])
  ++ (if negb (String.eqb hostnamePath "") then
     [{| mnt_Destination := "/etc/hostname"; mnt_Source := hostnamePath; mnt_Type := "bind"; mnt_Options := ["rbind"; "ro"] |}] else []).

Definition nestedCgroupMount : Mount :=
  {| mnt_Destination := "/sys/fs/cgroup"; mnt_Source := "cgroup"; mnt_Type := "cgroup";
     mnt_Options := ["rw"; "nosuid"; "noexec"; "nodev"] |}.

(** An empty result is a skipped entry. *)
Definition bindVolumeMount (v : VolumeMount) : list Mount :=
  if String.eqb (vm_Source v) "" || String.eqb (vm_Target v) "" then []
  else [{| mnt_Destination := vm_Target v; mnt_Source := vm_Source v; mnt_Type := "bind";
           mnt_Options := ["rbind"; if vm_ReadOnly v then "ro" else "rw"] |}].

(** fmt's %04o on a uint32, of at most eleven octal digits *)
Fixpoint octal_digits (fuel : nat) (z : Z) (acc : string) : string :=
  match fuel with
  | O => acc
  | S fuel => let acc := String (ascii_of_nat (48 + Z.to_nat (z mod 8))) acc in
              if (z <? 8)%Z then acc else octal_digits fuel (z / 8) acc
  end.
Fixpoint zeros (n : nat) : string := match n with O => "" | S n => String "0" (zeros n) end.
Definition Octal04 (z : Z) : string := let d := octal_digits 11 z "" in zeros (4 - String.length d) +:+ d.

Definition tmpfsVolumeMount (v : VolumeMount) : list Mount :=
  if String.eqb (vm_Target v) "" then []
  else [{| mnt_Destination := vm_Target v; mnt_Source := "tmpfs"; mnt_Type := "tmpfs";
           mnt_Options := (if (0 <? vm_SizeBytes v)%Z then ["size=" +:+ Itoa (vm_SizeBytes v)] else [])
                          ++ (if negb (Z.eqb (vm_Mode v) 0) then ["mode=" +:+ Octal04 (vm_Mode v)] else [])
                          ++ [if vm_ReadOnly v then "ro" else "rw"] |}].

Definition buildVolumeMount (v : VolumeMount) : list Mount :=
  if String.eqb (vm_Kind v) ext.VolumeKindTmpfs then tmpfsVolumeMount v
  else if String.eqb (vm_Kind v) "" || String.eqb (vm_Kind v) ext.VolumeKindBind || String.eqb (vm_Kind v) ext.VolumeKindVolume
  then bindVolumeMount v else [].
Definition buildVolumeMounts (volumes : list VolumeMount) : list Mount := volumes ≫= buildVolumeMount.

Definition buildTmpfsMount (e : ContainerTmpfsMount) : list Mount :=
  let path := TrimSpace (tm_Path e) in
  if String.eqb path "" then []
  else [{| mnt_Destination := path; mnt_Source := "tmpfs"; mnt_Type := "tmpfs";
           mnt_Options := ["nosuid"; "nodev"]
             ++ (if (0 <? tm_SizeBytes e)%Z then ["size=" +:+ Itoa (tm_SizeBytes e)] else []) ++ tm_Options e |}].
Definition buildTmpfsMounts (entries : list ContainerTmpfsMount) : list Mount := entries ≫= buildTmpfsMount.

Definition cellCgroupsPath (cellCgroupPath containerdID : string) : string :=
  if String.eqb cellCgroupPath "" || String.eqb containerdID "" then "" else FJoin [cellCgroupPath; containerdID].

(** ** Security options *)

Definition containsAllCaps (caps : list string) : bool :=
  existsb (fun c => String.eqb c "ALL" || String.eqb c "CAP_ALL") caps.

Definition normalizeCapability (c : string) : list string :=
  let c := TrimSpace c in
  if String.eqb c "" then []
  else let upper := ToUpper c in
       if String.eqb upper "ALL" || HasPrefix upper "CAP_" then [upper] else ["CAP_" +:+ upper].
Definition normalizeCapabilities (l : list string) : list string := l ≫= normalizeCapability.

(** strconv.ParseBool *)
Definition ParseBool (s : string) : result bool :=
  if bool_decide (s ∈ ["1"; "t"; "T"; "TRUE"; "true"; "True"]) then Ok true
  else if bool_decide (s ∈ ["0"; "f"; "F"; "FALSE"; "false"; "False"]) then Ok false
  else Err (EOpaque "strconv.ParseBool: parsing: invalid syntax").

(** The text before and after the first "=" or ":". *)
Fixpoint cut_any (s : string) : option (string * string) :=
  match s with
  | EmptyString => None
  | String c s' =>
      if Ascii.eqb c "="%char || Ascii.eqb c ":"%char then Some ("", s')
      else match cut_any s' with Some (a, b) => Some (String c a, b) | None => None end
  end.
Definition splitSecurityOpt (entry : string) : string * string * bool :=
  match cut_any entry with
  | Some (k, v) => (TrimSpace k, TrimSpace v, true)
  | None => (entry, "", false)
  end.

Section Builders.
Context {W : Type}.
Notation Opt := (SpecOpt W).

Definition seccompSpecOpt (raw value : string) (hasValue : bool) : Opt :=
  if negb hasValue || String.eqb value "" then
    errorSpecOpt (EOpaque "securityOpt %q: seccomp requires a value (unconfined or profile path)")
  else if String.eqb (ToLower value) "unconfined" then seccompUnconfinedOpt
  else seccompProfileOpt raw value.

Definition securityOptSpecOpt (raw : string) : Opt :=
  let '(key, value, hasValue) := splitSecurityOpt (TrimSpace raw) in
  let key := ToLower key in
  if String.eqb key "no-new-privileges" then
    if hasValue then
      match ParseBool value with
      | Err e => errorSpecOpt (EWrap "securityOpt %q: invalid bool: %w" [e])
      | Ok b => noNewPrivilegesOpt b
      end
    else noNewPrivilegesOpt true
  else if String.eqb key "seccomp" then seccompSpecOpt raw value hasValue
  else errorSpecOpt (EOpaque "unsupported securityOpt %q").

Definition positive_limit (x : option Z) (mk : Z → LibOpt) : list Opt :=
  match x with Some v => if (0 <? v)%Z then [Lib (mk v)] else [] | None => [] end.
Definition mounts_opt (m : list Mount) : list Opt := match m with [] => [] | _ => [Lib (WithMounts m)] end.

Definition capabilityOpts (caps : ContainerCapabilities) : list Opt :=
  let drop := normalizeCapabilities (cap_Drop caps) in
  let add := normalizeCapabilities (cap_Add caps) in
  (if containsAllCaps drop then [Lib (WithCapabilities [])]
   else match drop with [] => [] | _ => [Lib (WithDroppedCapabilities drop)] end)
  ++ match add with [] => [] | _ => [Lib (WithAddedCapabilities add)] end.

Definition securitySpecOpts (spec : ContainerSpec) : list Opt :=
  (if negb (String.eqb (c_User spec) "") then [Lib (WithUser (c_User spec))] else [])
  ++ (if c_ReadOnlyRootFilesystem spec then [Lib WithRootFSReadonly] else [])
  ++ (match c_Capabilities spec with Some caps => capabilityOpts caps | None => [] end)
  ++ (securityOptSpecOpt <$> c_SecurityOpts spec)
  ++ mounts_opt (buildTmpfsMounts (c_Tmpfs spec))
  ++ match c_Resources spec with
     | None => []
     | Some r => positive_limit (res_MemoryLimitBytes r) WithMemoryLimit
                 ++ positive_limit (res_CPUShares r) WithCPUShares ++ positive_limit (res_PidsLimit r) WithPidsLimit
     end.

Definition deviceAccessRWM : string := "rwm".
Definition deviceSpecOpts (devices : list string) : list Opt :=
  (fun p => hostLinuxDeviceOpt p deviceAccessRWM)
    <$> List.filter (fun p => negb (String.eqb p "")) (TrimSpace <$> devices).

(** ** Namespaces of a joined container *)

Record NamespacePaths := { np_Net : string; np_IPC : string; np_UTS : string; np_PID : string }.

Definition path_opt (ty path : string) : list Opt := if negb (String.eqb path "") then [withNamespacePathOpt ty path] else [].
Definition namespaceSpecOpts (ns : NamespacePaths) : list Opt :=
  path_opt NetworkNamespace (np_Net ns) ++ path_opt IPCNamespace (np_IPC ns) ++ path_opt UTSNamespace (np_UTS ns)
  ++ path_opt PIDNamespace (np_PID ns).

(** ** Building a container *)

Inductive BuildOption :=
| WithAttachableInjection (inj : AttachableInjection W)
| WithDefaultMemoryLimit (bytes : Z)
| WithExtraLabels (labels : gmap string string)
| WithKukeonGroupGID (gid : Z)
| WithSecretRunPath (runPath : string).

Record buildOpts := {
  bo_attachable : AttachableInjection W; bo_defaultMemoryLimitBytes : Z; bo_runPath : string;
  bo_extraLabels : gmap string string; bo_kukeonGroupGID : Z
}.
Definition zero_buildOpts : buildOpts := {|
  bo_attachable := {| inj_KukettyBinaryPath := ""; inj_HostTTYDir := ""; inj_HostMetadataPath := ""; inj_RenderMetadata := None |};
  bo_defaultMemoryLimitBytes := 0; bo_runPath := ""; bo_extraLabels := ∅; bo_kukeonGroupGID := 0 |}.
Definition applyBuildOption (o : buildOpts) (b : BuildOption) : buildOpts :=
  let '{| bo_attachable := a; bo_defaultMemoryLimitBytes := m; bo_runPath := p; bo_extraLabels := l; bo_kukeonGroupGID := g |} := o in
  match b with
  | WithAttachableInjection inj => Build_buildOpts inj m p l g
  | WithDefaultMemoryLimit bytes => Build_buildOpts a (if (0 <? bytes)%Z then bytes else m) p l g
  | WithExtraLabels labels => Build_buildOpts a m p (labels ∪ l) g
  | WithKukeonGroupGID gid => Build_buildOpts a m p l (if (0 <? gid)%Z then gid else g)
  | WithSecretRunPath runPath => Build_buildOpts a m (if negb (String.eqb runPath "") then runPath else p) l g
  end.
Definition collectBuildOptions (options : list BuildOption) : buildOpts := foldl applyBuildOption zero_buildOpts options.

(** ctr.ContainerSpec; the runtime is never set by kukeon's builders. *)
Record CtrSpec := {
  ks_ID : string; ks_Image : string; ks_SnapshotKey : string; ks_Snapshotter : string;
  ks_SpecOpts : list Opt; ks_Labels : gmap string string; ks_CNIConfigPath : string
}.

Definition JoinContainerNamespaces (spec : CtrSpec) (ns : NamespacePaths) : CtrSpec :=
  {| ks_ID := ks_ID spec; ks_Image := ks_Image spec; ks_SnapshotKey := ks_SnapshotKey spec; ks_Snapshotter := ks_Snapshotter spec;
     ks_SpecOpts := ks_SpecOpts spec ++ namespaceSpecOpts ns; ks_Labels := ks_Labels spec;
     ks_CNIConfigPath := ks_CNIConfigPath spec |}.

Definition specHasMemoryLimit (spec : ContainerSpec) : bool :=
  match c_Resources spec with
  | Some r => match res_MemoryLimitBytes r with Some v => (0 <? v)%Z | None => false end
  | None => false
  end.

Definition containerdIDOf (spec : ContainerSpec) : string :=
  if String.eqb (c_ContainerdID spec) "" then c_ID spec else c_ContainerdID spec.

Definition process_args (spec : ContainerSpec) : list string :=
  if negb (String.eqb (c_Command spec) "") then c_Command spec :: c_Args spec else c_Args spec.
Definition buildRootProcessArgs (rootSpec : ContainerSpec) : list string := process_args rootSpec.

Definition list_opt {A} (l : list A) (mk : list A → LibOpt) : list Opt := match l with [] => [] | _ => [Lib (mk l)] end.
Definition flag (b : bool) (o : list Opt) : list Opt := if b then o else [].

Definition AttachableTTYDir : string := "/run/kukeon/tty".
Definition AttachableMetadataPath : string := "/.kukeon/kuketty/metadata.json".
Definition withAttachableMounts (inj : AttachableInjection W) : Opt :=
  Lib (WithMounts
    [{| mnt_Destination := AttachableBinaryPath; mnt_Source := inj_KukettyBinaryPath inj; mnt_Type := "bind"; mnt_Options := ["rbind"; "ro"] |};
     {| mnt_Destination := AttachableTTYDir; mnt_Source := inj_HostTTYDir inj; mnt_Type := "bind"; mnt_Options := ["rbind"; "rw"; "rprivate"] |};
     {| mnt_Destination := AttachableMetadataPath; mnt_Source := inj_HostMetadataPath inj; mnt_Type := "bind"; mnt_Options := ["rbind"; "ro"] |}]).

Definition privilegedOpts : list Opt := [Lib WithPrivileged; Lib WithAllDevicesAllowed; privilegedHostDevicesOpt].

(** The options both builders emit between the working directory and the volumes. *)
Definition isolationOpts (spec : ContainerSpec) : list Opt :=
  list_opt (kukeonContainerEnv spec) WithEnv
  ++ flag (c_Privileged spec) privilegedOpts
  ++ flag (c_HostNetwork spec) [Lib (WithHostNamespace NetworkNamespace)]
  ++ flag (c_HostPID spec) [Lib (WithHostNamespace PIDNamespace)]
  ++ flag (negb (c_HostCgroup spec)) [Lib (WithLinuxNamespace {| ns_Type := CgroupNamespace; ns_Path := "" |})]
  ++ flag (c_NestedCgroupRuntime spec && negb (c_HostCgroup spec)) [Lib (WithMounts [nestedCgroupMount])]
  ++ mounts_opt (buildVolumeMounts (c_Volumes spec)).

(** The options both builders emit from the cgroup path on. *)
Definition limitOpts (opts : buildOpts) (spec : ContainerSpec) : list Opt :=
  flag (negb (String.eqb (cellCgroupsPath (c_CellCgroupPath spec) (containerdIDOf spec)) ""))
    [Lib (WithCgroup (cellCgroupsPath (c_CellCgroupPath spec) (containerdIDOf spec)))]
  ++ securitySpecOpts spec
  ++ flag (0 <? bo_kukeonGroupGID opts)%Z [withKukeonGroupGIDSpecOpt (bo_kukeonGroupGID opts)]
  ++ flag ((0 <? bo_defaultMemoryLimitBytes opts)%Z && negb (specHasMemoryLimit spec))
       [Lib (WithMemoryLimit (bo_defaultMemoryLimitBytes opts))].

Definition BuildContainerSpec (spec : ContainerSpec) (options : list BuildOption) : CtrSpec :=
  let opts := collectBuildOptions options in
  {| ks_ID := containerdIDOf spec; ks_Image := c_Image spec; ks_SnapshotKey := ""; ks_Snapshotter := "";
     ks_SpecOpts :=
       [Lib WithDefaultPathEnv]
       ++ mounts_opt (etcFileBindMounts (c_EtcHostsPath spec) (c_EtcHostnamePath spec))
       ++ list_opt (process_args spec) WithProcessArgs
       ++ flag (negb (String.eqb (c_WorkingDir spec) "")) [Lib (WithProcessCwd (c_WorkingDir spec))]
       ++ isolationOpts spec
       ++ deviceSpecOpts (c_Devices spec)
       ++ limitOpts opts spec
       ++ flag (c_Attachable spec) [withAttachableMounts (bo_attachable opts); withAttachableArgsWrap (bo_attachable opts)];
     ks_Labels := bo_extraLabels opts ∪
       {[ "kukeon.io/container-type" := "container"; "kukeon.io/cell" := c_CellName spec; "kukeon.io/space" := c_SpaceName spec;
          "kukeon.io/realm" := c_RealmName spec; "kukeon.io/stack" := c_StackName spec ]};
     ks_CNIConfigPath := c_CNIConfigPath spec |}.

Definition DefaultRootContainerImage : string := "docker.io/library/busybox:latest".
Definition RootContainerPauseBinaryTarget : string := "/.kukeon/bin/kukepause".
Definition rootContainerLabelKey : string := "kukeon.io/container-type".
Definition rootContainerLabelValue : string := "root".

Definition DefaultRootContainerSpec (containerdID cellID realmID spaceID stackID cniConfigPath kukepauseHostPath : string)
    : ContainerSpec :=
  let volumes := if negb (String.eqb kukepauseHostPath "") then
      [{| vm_Kind := ext.VolumeKindBind; vm_Source := kukepauseHostPath; vm_Target := RootContainerPauseBinaryTarget;
          vm_VolumeRef := None; vm_ReadOnly := true; vm_SizeBytes := 0; vm_Mode := 0; vm_Ensure := false |}] else [] in
  {| c_ID := "root"; c_ContainerdID := containerdID; c_RealmName := realmID; c_SpaceName := spaceID; c_StackName := stackID;
     c_CellName := cellID; c_Root := true; c_Image := DefaultRootContainerImage; c_Command := RootContainerPauseBinaryTarget;
     c_Args := []; c_WorkingDir := ""; c_Env := []; c_Ports := []; c_Volumes := volumes; c_Networks := [];
     c_NetworksAliases := []; c_Privileged := false; c_HostNetwork := false; c_HostPID := false; c_HostCgroup := false;
     c_NestedCgroupRuntime := false; c_User := ""; c_ReadOnlyRootFilesystem := false; c_Capabilities := None;
     c_SecurityOpts := []; c_Devices := []; c_Tmpfs := []; c_Resources := None; c_Secrets := []; c_Repos := []; c_Git := None;
     c_CNIConfigPath := cniConfigPath; c_RestartPolicy := ""; c_RestartBackoffSeconds := None; c_RestartMaxRetries := None;
     c_Attachable := false; c_Tty := None; c_CellCgroupPath := ""; c_EtcHostsPath := ""; c_EtcHostnamePath := "" |}.

Definition rootHostname (rootSpec : ContainerSpec) : string :=
  let h := TrimSpace (c_CellName rootSpec) in if String.eqb h "" then containerdIDOf rootSpec else h.

Definition BuildRootContainerSpec (rootSpec : ContainerSpec) (labels : gmap string string) (options : list BuildOption) : CtrSpec :=
  let opts := collectBuildOptions options in
  {| ks_ID := containerdIDOf rootSpec;
     ks_Image := if String.eqb (c_Image rootSpec) "" then DefaultRootContainerImage else c_Image rootSpec;
     ks_SnapshotKey := ""; ks_Snapshotter := "";
     ks_SpecOpts :=
       [Lib WithDefaultPathEnv]
       ++ flag (negb (String.eqb (rootHostname rootSpec) "")) [Lib (WithHostname (rootHostname rootSpec))]
       ++ mounts_opt (etcFileBindMounts (c_EtcHostsPath rootSpec) (c_EtcHostnamePath rootSpec))
       ++ list_opt (buildRootProcessArgs rootSpec) WithProcessArgs
       ++ flag (negb (String.eqb (c_WorkingDir rootSpec) "")) [Lib (WithProcessCwd (c_WorkingDir rootSpec))]
       ++ isolationOpts rootSpec
       ++ limitOpts opts rootSpec;
     ks_Labels := <[rootContainerLabelKey := rootContainerLabelValue]> labels;
     ks_CNIConfigPath := c_CNIConfigPath rootSpec |}.

End Builders.
Arguments BuildOption W : clear implicits.
Arguments buildOpts W : clear implicits.
Arguments CtrSpec W : clear implicits.

(** ** Theorems: the environment *)

Lemma envKey_entry k v : string_forallb key_tail k = true → envKey (k +:+ "=" +:+ v) = k.
Proof. intros H. unfold envKey. change ("=" +:+ v) with (String "="%char v). by rewrite key_tail_not_eq. Qed.

Lemma string_forallb_app p a b : string_forallb p (a +:+ b) = string_forallb p a && string_forallb p b.
Proof. induction a as [|c a IH]; [done|]. change (String c a +:+ b) with (String c (a +:+ b)). cbn. by rewrite IH, andb_assoc. Qed.

(** The decimal digits of a natural number can stand in a key. *)
Lemma digits_key_tail n : string_forallb key_tail (Itoa (Z.of_nat n)) = true.
Proof.
  unfold Itoa, pretty, pretty_Z. replace (Z.of_nat n) with (Z.of_N (N.of_nat n)) by lia.
  generalize (N.of_nat n). clear n. intros n.
  assert (Hgo : ∀ x s, string_forallb key_tail s = true → string_forallb key_tail (pretty_N_go x s) = true).
  { induction x as [x IH] using (well_founded_induction N.lt_wf_0). intros s Hs.
    destruct (decide (x = 0)%N) as [->|]; [done|]. rewrite pretty_N_go_step by lia.
    apply IH; [apply N.div_lt; lia|]. cbn. rewrite Hs, andb_true_r.
    assert (Hc : ∀ d, (d < 10)%N → key_tail (pretty_N_char d) = true).
    { intros d Hd. assert (d ∈ [0;1;2;3;4;5;6;7;8;9]%N) as Hin by (rewrite !elem_of_cons; lia).
      rewrite !elem_of_cons, elem_of_nil in Hin. by destruct_or? Hin; subst. }
    apply Hc. apply N.mod_lt. lia. }
  destruct n as [|p]; [done|]. exact (Hgo (Npos p) "" eq_refl).
Qed.

Lemma kukeonContainerEnv_merge spec :
  kukeonContainerEnv spec = MergeEnv (kukeonDefaultEnv spec ++ gitEnv (c_Git spec)) (c_Env spec).
Proof.
  unfold kukeonContainerEnv, MergeEnv. destruct (c_Env spec) as [|e l]; [done|]. cbn [length Nat.eqb].
  by destruct (kukeonDefaultEnv spec ++ gitEnv (c_Git spec)).
Qed.

Definition default_keys : list string :=
  ["KUKEON_CELL_NAME"; "KUKEON_CONTAINER_ID"; "KUKEON_REALM"; "KUKEON_SPACE"; "KUKEON_STACK"; "KUKEON_CGROUP_PATH"].
Lemma filtered_entry_keys (f : string * string → bool) (l : list (string * string)) :
  Forall (fun p => string_forallb key_tail p.1 = true) l →
  envKey <$> ((fun p : string * string => p.1 +:+ "=" +:+ p.2) <$> List.filter f l) `sublist_of` l.*1.
Proof.
  induction 1 as [|[k v] l Hk _ IH]; [constructor|]. cbn -[envKey]. destruct (f (k, v)); cbn -[envKey].
  - rewrite envKey_entry by done. by apply sublist_skip.
  - by apply sublist_cons.
Qed.
Lemma kukeonDefaultEnv_keys spec : envKey <$> kukeonDefaultEnv spec `sublist_of` default_keys.
Proof. apply filtered_entry_keys. by repeat constructor. Qed.

Definition config_keys (i : nat) : list string :=
  ["GIT_CONFIG_KEY_" +:+ Itoa (Z.of_nat i); "GIT_CONFIG_VALUE_" +:+ Itoa (Z.of_nat i)].
Definition git_keys (n : nat) : list string :=
  ["GIT_AUTHOR_NAME"; "GIT_AUTHOR_EMAIL"; "GIT_COMMITTER_NAME"; "GIT_COMMITTER_EMAIL"; "GIT_CONFIG_COUNT"]
  ++ (seq 0 n ≫= config_keys).

Lemma identityEnv_keys who i : string_forallb key_tail who = true →
  envKey <$> identityEnv who i `sublist_of` ["GIT_" +:+ who +:+ "_NAME"; "GIT_" +:+ who +:+ "_EMAIL"].
Proof.
  intros Hw. destruct i as [i|]; [|by apply sublist_nil_l]. cbn -[envKey].
  assert (E : ∀ suf v, string_forallb key_tail suf = true → envKey ("GIT_" +:+ who +:+ suf +:+ "=" +:+ v) = "GIT_" +:+ who +:+ suf).
  { intros suf v Hs. rewrite <-(string_app_assoc who suf), <-(string_app_assoc "GIT_"). apply envKey_entry.
    rewrite !string_forallb_app, Hw, Hs. done. }
  change ("_NAME=" +:+ gi_Name i) with ("_NAME" +:+ "=" +:+ gi_Name i).
  change ("_EMAIL=" +:+ gi_Email i) with ("_EMAIL" +:+ "=" +:+ gi_Email i). rewrite !E by done. done.
Qed.

Lemma configEnv_keys (pairs : list (string * string)) (f := fun (i : nat) (p : string * string) =>
    ["GIT_CONFIG_KEY_" +:+ Itoa (Z.of_nat i) +:+ "=" +:+ p.1; "GIT_CONFIG_VALUE_" +:+ Itoa (Z.of_nat i) +:+ "=" +:+ p.2]) :
  envKey <$> concat (imap f pairs) = seq 0 (length pairs) ≫= config_keys.
Proof.
  assert (E : ∀ k i v, string_forallb key_tail k = true → envKey (k +:+ Itoa (Z.of_nat i) +:+ "=" +:+ v) = k +:+ Itoa (Z.of_nat i)).
  { intros k i v Hk. rewrite <-(string_app_assoc k). apply envKey_entry. rewrite string_forallb_app, Hk. apply digits_key_tail. }
  enough (Q : ∀ n, envKey <$> concat (imap (fun i => f (n + i)) pairs) = seq n (length pairs) ≫= config_keys) by apply (Q 0).
  induction pairs as [|p l IH]; intros n; [done|]. rewrite imap_cons. cbn -[envKey config_keys Itoa Z.of_nat f].
  rewrite fmap_app. unfold f at 1. cbn -[envKey config_keys Itoa Z.of_nat f]. rewrite !E, Nat.add_0_r by done.
  unfold config_keys at 1. cbn -[envKey config_keys Itoa Z.of_nat f]. do 2 f_equal. rewrite <-(IH (S n)).
  do 2 f_equal. apply imap_ext. intros i x _. cbn. by rewrite Nat.add_succ_r.
Qed.

Lemma git_keys_NoDup n : NoDup (default_keys ++ git_keys n).
Proof.
  unfold git_keys. rewrite (app_assoc default_keys). apply NoDup_app. split_and!.
  - apply (bool_decide_unpack _). vm_compute. exact I.
  - intros x Hx (i & Hi & _)%list_elem_of_bind.
    assert (HF : Forall (fun x => HasPrefix x "GIT_CONFIG_KEY_" = false ∧ HasPrefix x "GIT_CONFIG_VALUE_" = false)
      (default_keys ++ ["GIT_AUTHOR_NAME"; "GIT_AUTHOR_EMAIL"; "GIT_COMMITTER_NAME"; "GIT_COMMITTER_EMAIL"; "GIT_CONFIG_COUNT"]))
      by by repeat constructor.
    rewrite Forall_forall in HF. destruct (HF _ Hx) as [H1 H2]. unfold config_keys in Hi.
    rewrite !elem_of_cons, elem_of_nil in Hi. destruct Hi as [->|[->|[]]]; [by rewrite HasPrefix_self in H1|by rewrite HasPrefix_self in H2].
  - enough (Q : ∀ m, NoDup (seq m n ≫= config_keys)) by apply Q. induction n as [|n IH]; intros m; [constructor|].
    cbn -[config_keys]. apply NoDup_app. split_and!; [|intros x Hx (i & Hi & Hr)%list_elem_of_bind|apply IH].
    + unfold config_keys. apply NoDup_cons. split; [|apply NoDup_singleton]. rewrite list_elem_of_singleton. discriminate.
    + apply elem_of_seq in Hr. unfold config_keys in Hx, Hi. rewrite !elem_of_cons, !elem_of_nil in Hx, Hi.
      destruct Hx as [->|[->|[]]], Hi as [E|[E|[]]]; try discriminate E; apply (inj (String.append _)), (inj pretty) in E; lia.
Qed.

Lemma gitEnv_keys git : ∃ n, envKey <$> gitEnv git `sublist_of` git_keys n.
Proof.
  destruct git as [git|]; [|exists 0; apply sublist_nil_l]. exists (length (gitConfigPairs git)). unfold gitEnv, git_keys.
  rewrite !fmap_app.
  change (["GIT_AUTHOR_NAME"; "GIT_AUTHOR_EMAIL"; "GIT_COMMITTER_NAME"; "GIT_COMMITTER_EMAIL"; "GIT_CONFIG_COUNT"]
          ++ (seq 0 (length (gitConfigPairs git)) ≫= config_keys))
    with (["GIT_AUTHOR_NAME"; "GIT_AUTHOR_EMAIL"] ++ ["GIT_COMMITTER_NAME"; "GIT_COMMITTER_EMAIL"]
          ++ ("GIT_CONFIG_COUNT" :: (seq 0 (length (gitConfigPairs git)) ≫= config_keys))).
  apply sublist_app; [by apply (identityEnv_keys "AUTHOR")|]. apply sublist_app; [by apply (identityEnv_keys "COMMITTER")|].
  destruct (0 <? length (gitConfigPairs git)); [|apply sublist_nil_l].
  change (envKey <$> ?a :: ?l) with (envKey a :: (envKey <$> l)). rewrite configEnv_keys.
  change ("GIT_CONFIG_COUNT=" +:+ ?x) with ("GIT_CONFIG_COUNT" +:+ "=" +:+ x). rewrite envKey_entry by done. done.
Qed.

Definition entries_of (k : string) (env : list string) : list string := List.filter (fun e => String.eqb (envKey e) k) env.

Lemma filter_false {A} (f : A → bool) l : (∀ x, x ∈ l → f x = false) → List.filter f l = [].
Proof.
  intros Hf. destruct (List.filter f l) as [|x l'] eqn:E; [done|].
  assert (Hx : x ∈ List.filter f l) by (rewrite E; left). apply filter_elem in Hx as [Hin Hx]. by rewrite (Hf _ Hin) in Hx.
Qed.
Lemma entries_of_none k env : k ∉ envKey <$> env → entries_of k env = [].
Proof.
  intros Hk. apply filter_false. intros e He. apply String.eqb_neq. intros <-. apply Hk. by apply list_elem_of_fmap_2.
Qed.

Lemma filter_filter {A} (f g : A → bool) l : (∀ x, f x = true → g x = true) → List.filter f (List.filter g l) = List.filter f l.
Proof.
  intros Hi. induction l as [|x l IH]; [done|]. cbn. destruct (g x) eqn:Eg; cbn; [by rewrite IH|].
  rewrite IH. destruct (f x) eqn:Ef; [|done]. apply Hi in Ef. congruence.
Qed.

Lemma List_filter_sublist {A} (f : A → bool) l : List.filter f l `sublist_of` l.
Proof. induction l as [|x l IH]; [constructor|]. cbn. destruct (f x); by constructor. Qed.

Lemma MergeEnv_entries_of spec env k :
  entries_of k (MergeEnv spec env) = if bool_decide (k ∈ envKey <$> env) then entries_of k env else entries_of k spec.
Proof.
  unfold MergeEnv. destruct env as [|e l]; [done|]. change (length (e :: l) =? 0) with false. cbv iota.
  set (env := e :: l). unfold entries_of at 1. rewrite List.filter_app. case_bool_decide as Hk.
  - rewrite filter_false; [done|]. intros x [_ Hx]%filter_elem. apply String.eqb_neq. intros <-.
    apply negb_true_iff, bool_decide_eq_false in Hx. apply Hx. by apply elem_of_list_to_set.
  - rewrite filter_filter; [fold (entries_of k env); rewrite entries_of_none by done; by rewrite app_nil_r|].
    intros x Hx%String.eqb_eq. apply negb_true_iff, bool_decide_eq_false. rewrite elem_of_list_to_set. by rewrite Hx.
Qed.

(** The environment of a container: for every variable that the operator sets, the
    container gets exactly the operator's entries; every other variable comes from the
    identity and git blocks, which never name a variable twice, so with distinct operator
    variables the whole environment is free of duplicates. *)
Theorem container_env_exact spec :
  let defaults := kukeonDefaultEnv spec ++ gitEnv (c_Git spec) in
  let env := kukeonContainerEnv spec in
  (∀ k, entries_of k env = if bool_decide (k ∈ envKey <$> c_Env spec) then entries_of k (c_Env spec) else entries_of k defaults) ∧
  NoDup (envKey <$> defaults) ∧
  (NoDup (envKey <$> c_Env spec) → NoDup (envKey <$> env)).
Proof.
  intros defaults env. unfold env. rewrite kukeonContainerEnv_merge. fold defaults.
  assert (Hd : NoDup (envKey <$> defaults)).
  { destruct (gitEnv_keys (c_Git spec)) as [n Hn]. eapply sublist_NoDup; [apply (git_keys_NoDup n)|].
    unfold defaults. rewrite fmap_app. apply sublist_app; [apply kukeonDefaultEnv_keys|done]. }
  split_and!; [intros k; apply MergeEnv_entries_of|done|].
  intros Hu. unfold MergeEnv. destruct (c_Env spec) as [|e l] eqn:Ee; [done|]. change (length (e :: l) =? 0) with false. cbv iota.
  rewrite fmap_app. apply NoDup_app. split_and!; [|intros k (x & -> & [_ Hx]%filter_elem)%list_elem_of_fmap|done].
  - eapply sublist_NoDup; [exact Hd|]. apply fmap_sublist. apply List_filter_sublist.
  - apply negb_true_iff, bool_decide_eq_false in Hx. intros Hin. apply Hx. by apply elem_of_list_to_set.
Qed.

(** ** Theorems: what a container is granted *)

Section GrantTheorems.
Context {W : Type}.
Implicit Types spec : ContainerSpec.

(** The options that open a container to its host. *)
Definition host_opt (o : SpecOpt W) : bool :=
  match o with
  | Lib WithPrivileged | Lib WithAllDevicesAllowed | Lib WithHostDevices | privilegedHostDevicesOpt
  | Lib (WithHostNamespace _) | hostLinuxDeviceOpt _ _ => true
  | _ => false
  end.
Definition host_opts (l : list (SpecOpt W)) : list (SpecOpt W) := List.filter host_opt l.
Definition memory_opt (o : SpecOpt W) : bool := match o with Lib (WithMemoryLimit _) => true | _ => false end.
Definition memory_opts (l : list (SpecOpt W)) : list (SpecOpt W) := List.filter memory_opt l.

Lemma select_security (f : SpecOpt W → bool) raw :
  f (seccompUnconfinedOpt) = false → (∀ b, f (noNewPrivilegesOpt b) = false) → (∀ a b, f (seccompProfileOpt a b) = false) →
  (∀ e, f (errorSpecOpt e) = false) → f (securityOptSpecOpt raw) = false.
Proof.
  intros H1 H2 H3 H4. unfold securityOptSpecOpt, seccompSpecOpt.
  destruct (splitSecurityOpt (TrimSpace raw)) as [[k v] has].
  repeat case_match; auto.
Qed.
Lemma filter_map_none {A} (f : SpecOpt W → bool) (g : A → SpecOpt W) l : (∀ x, f (g x) = false) → List.filter f (g <$> l) = [].
Proof. intros Hf. apply filter_false. intros x (y & -> & _)%list_elem_of_fmap. apply Hf. Qed.
Lemma filter_map_all {A} (f : SpecOpt W → bool) (g : A → SpecOpt W) l : (∀ x, f (g x) = true) → List.filter f (g <$> l) = g <$> l.
Proof. intros Hf. induction l as [|x l IH]; [done|]. cbn. rewrite Hf. by f_equal. Qed.

Lemma host_opts_security spec : host_opts (securitySpecOpts spec) = [].
Proof.
  unfold host_opts, securitySpecOpts, capabilityOpts, positive_limit, mounts_opt. rewrite !List.filter_app, filter_map_none.
  2:{ intros x. by apply select_security. }
  repeat (case_match; cbn [List.filter host_opt app]; try done).
Qed.
Lemma memory_opts_security spec : memory_opts (securitySpecOpts spec) =
  match c_Resources spec with Some r => positive_limit (res_MemoryLimitBytes r) WithMemoryLimit | None => [] end.
Proof.
  unfold memory_opts, securitySpecOpts, capabilityOpts, positive_limit, mounts_opt. rewrite !List.filter_app, filter_map_none.
  2:{ intros x. by apply select_security. }
  repeat (case_match; cbn [List.filter memory_opt app]); done.
Qed.
Lemma host_opts_limit opts spec : host_opts (limitOpts opts spec) = [].
Proof.
  unfold limitOpts, host_opts. rewrite !List.filter_app. fold (host_opts (securitySpecOpts spec)). rewrite host_opts_security.
  unfold flag. repeat (case_match; cbn [List.filter host_opt app]; try done).
Qed.

(** What a spec asks for. *)
Definition requested_host_opts spec : list (SpecOpt W) :=
  flag (c_Privileged spec) privilegedOpts
  ++ flag (c_HostNetwork spec) [Lib (WithHostNamespace NetworkNamespace)]
  ++ flag (c_HostPID spec) [Lib (WithHostNamespace PIDNamespace)].
Lemma host_opts_isolation spec : host_opts (isolationOpts spec) = requested_host_opts spec.
Proof.
  unfold isolationOpts, requested_host_opts, host_opts, list_opt, mounts_opt. rewrite !List.filter_app.
  unfold flag. repeat (case_match; cbn [List.filter host_opt app privilegedOpts]); done.
Qed.

(** A container is opened to the host exactly as far as its spec asks, in a fixed
    order: privileged mode with the host's devices, the host's network, the host's
    process table and the listed devices; a root container has no device list.  No other
    field of the spec, no label and no build option adds such a grant. *)
Theorem host_access_only_on_request spec labels options :
  host_opts (ks_SpecOpts (BuildContainerSpec spec options))
  = requested_host_opts spec ++ deviceSpecOpts (c_Devices spec) ∧
  host_opts (ks_SpecOpts (BuildRootContainerSpec spec labels options)) = requested_host_opts spec.
Proof.
  unfold BuildContainerSpec, BuildRootContainerSpec, host_opts. cbn [ks_SpecOpts]. rewrite !List.filter_app.
  fold (host_opts (isolationOpts spec)) (host_opts (limitOpts (collectBuildOptions options) spec)).
  rewrite host_opts_isolation, host_opts_limit. unfold deviceSpecOpts. rewrite filter_map_all by done.
  unfold mounts_opt, list_opt, flag, withAttachableMounts.
  split; repeat (case_match; cbn [List.filter host_opt app]); by rewrite ?app_nil_r.
Qed.

(** Exactly one memory limit reaches the runtime when the spec or the daemon gives
    one: the container's own positive limit wins, the daemon's default applies otherwise,
    for workload and root containers alike. *)
Theorem one_memory_limit spec labels options :
  let limit := bo_defaultMemoryLimitBytes (collectBuildOptions options) in
  let chosen := match c_Resources spec ≫= res_MemoryLimitBytes with
                | Some v => if (0 <? v)%Z then [Lib (WithMemoryLimit v)]
                            else flag (0 <? limit)%Z [Lib (WithMemoryLimit limit)]
                | None => flag (0 <? limit)%Z [Lib (WithMemoryLimit limit)]
                end in
  memory_opts (ks_SpecOpts (BuildContainerSpec spec options)) = chosen ∧
  memory_opts (ks_SpecOpts (BuildRootContainerSpec spec labels options)) = chosen.
Proof.
  intros limit chosen.
  assert (Hl : memory_opts (limitOpts (collectBuildOptions options) spec) = chosen).
  { unfold limitOpts, memory_opts. rewrite !List.filter_app. fold (memory_opts (securitySpecOpts spec)).
    rewrite memory_opts_security. unfold chosen, limit, flag, specHasMemoryLimit, positive_limit.
    destruct (negb (String.eqb (cellCgroupsPath _ _) "")), (0 <? bo_kukeonGroupGID _)%Z, (0 <? bo_defaultMemoryLimitBytes _)%Z;
      destruct (c_Resources spec) as [[[m|] ? ?]|]; cbn; try done; by destruct (0 <? m)%Z. }
  assert (Hi : memory_opts (isolationOpts spec) = []).
  { unfold isolationOpts, memory_opts, list_opt, mounts_opt. rewrite !List.filter_app.
    unfold flag. repeat (case_match; cbn [List.filter memory_opt app privilegedOpts]); done. }
  unfold BuildContainerSpec, BuildRootContainerSpec. unfold memory_opts in *. cbn [ks_SpecOpts]. rewrite !List.filter_app, Hi, Hl.
  unfold deviceSpecOpts. rewrite filter_map_none by done. unfold mounts_opt, list_opt, flag, withAttachableMounts.
  split; repeat (case_match; cbn [List.filter memory_opt app]); by rewrite ?app_nil_r.
Qed.

(** The two builders agree on everything but the hostname, the devices and the terminal
    wrapper. *)
Lemma builders_agree spec labels options :
  c_Devices spec = [] → c_Attachable spec = false →
  ks_SpecOpts (BuildRootContainerSpec (W := W) spec labels options)
  = match ks_SpecOpts (BuildContainerSpec spec options) with
    | o :: rest => o :: flag (negb (String.eqb (rootHostname spec) "")) [Lib (WithHostname (rootHostname spec))] ++ rest
    | [] => []
    end.
Proof.
  intros Hd Ha. unfold BuildRootContainerSpec, BuildContainerSpec. cbn [ks_SpecOpts]. rewrite Hd, Ha. cbn [flag].
  rewrite app_nil_r. done.
Qed.

End GrantTheorems.

(** ** Theorems: running the options *)

Section RunTheorems.
Context {W : Type} `{OciHost W}.

Lemma applyOpts_app (a b : list (SpecOpt W)) s w :
  applyOpts (a ++ b) s w = match applyOpts a s w with
                           | (w', Ok s') => applyOpts b s' w'
                           | (w', Err e) => (w', Err e)
                           end.
Proof.
  revert s w. induction a as [|o a IH]; intros s w; [done|]. cbn. unfold st_bind.
  destruct (applyOpt o s w) as [w1 [s1|e]]; [apply IH|done].
Qed.

(** Whatever the image, the spec and the library options ask for, an attachable
    container that is built runs the terminal wrapper and nothing else, and the metadata
    the wrapper reads was written with the command line resolved from the image and the
    spec by all the options before. *)
Theorem attachable_runs_the_wrapper spec options (pre : list (SpecOpt W)) s w w' s' :
  let inj := bo_attachable (collectBuildOptions options) in
  c_Attachable spec = true →
  applyOpts (pre ++ ks_SpecOpts (BuildContainerSpec spec options)) s w = (w', Ok s') →
  pr_Args <$> sp_Process s' = Some [AttachableBinaryPath] ∧
  ∃ init w1 s1, pre ++ ks_SpecOpts (BuildContainerSpec spec options) = init ++ [withAttachableArgsWrap inj] ∧
    applyOpts init s w = (w1, Ok s1) ∧
    match inj_RenderMetadata inj with
    | Some render => render (pr_Args (default zero_Process (sp_Process s1))) w1 = (w', None)
    | None => w' = w1
    end.
Proof.
  intros inj Ha Hr.
  assert (Hs : ∃ init, pre ++ ks_SpecOpts (BuildContainerSpec spec options) = init ++ [withAttachableArgsWrap inj]).
  { eexists. unfold BuildContainerSpec. cbn [ks_SpecOpts]. rewrite Ha. cbn [flag]. fold inj.
    rewrite !(app_assoc _ _ [withAttachableMounts inj; withAttachableArgsWrap inj]).
    change [withAttachableMounts inj; withAttachableArgsWrap inj] with ([withAttachableMounts inj] ++ [withAttachableArgsWrap inj]).
    rewrite (app_assoc _ [withAttachableMounts inj]), (app_assoc pre). reflexivity. }
  destruct Hs as [init Hs]. rewrite Hs, applyOpts_app in Hr.
  destruct (applyOpts init s w) as [w1 [s1|e]] eqn:E1; [|done].
  cbn [applyOpts applyOpt] in Hr. unfold st_bind, st_ret in Hr.
  assert (HR : ∃ w2, (match inj_RenderMetadata inj with
                  | Some render => render (pr_Args (default zero_Process (sp_Process s1)))
                  | None => fun w0 => (w0, None) end) w1 = (w2, None) ∧
               (w2, Ok (upd_process (set_Args [AttachableBinaryPath]) s1)) = (w', Ok s')).
  { destruct (inj_RenderMetadata inj) as [render|].
    - destruct (render _ w1) as [w2 [e|]]; [done|]. by exists w2.
    - by exists w1. }
  destruct HR as (w2 & H1 & [= <- <-]). split; [by destruct s1 as [[]]|]. exists init, w1, s1. split_and!; [done|done|].
  destruct (inj_RenderMetadata inj); [done|]. by injection H1.
Qed.

(** A well-formed security option. *)
Definition security_opt_ok (raw : string) : Prop :=
  let '(key, value, has) := splitSecurityOpt (TrimSpace raw) in
  (ToLower key = "no-new-privileges" ∧ (has = true → is_Ok (ParseBool value) = true)) ∨
  (ToLower key = "seccomp" ∧ has = true ∧ value ≠ "").

Lemma securityOpt_error raw : ¬ security_opt_ok raw → ∃ e, securityOptSpecOpt (W := W) raw = errorSpecOpt e.
Proof.
  unfold security_opt_ok, securityOptSpecOpt, seccompSpecOpt. destruct (splitSecurityOpt (TrimSpace raw)) as [[key value] has].
  destruct (String.eqb_spec (ToLower key) "no-new-privileges") as [Ek|]; cbn.
  - destruct has; [|intros []; left; done]. destruct (ParseBool value); [intros []; left; done|eauto].
  - destruct (String.eqb_spec (ToLower key) "seccomp"); [|eauto]. destruct has; cbn; [|eauto].
    destruct (String.eqb_spec value ""); cbn; [eauto|]. intros []. by right.
Qed.

Lemma applyOpts_error (l : list (SpecOpt W)) e s w : errorSpecOpt e ∈ l → is_Ok (applyOpts l s w).2 = false.
Proof.
  intros (a & b & ->)%list_elem_of_split. rewrite applyOpts_app. destruct (applyOpts a s w) as [w1 [s1|]]; done.
Qed.

(** A misspelt security option is never ignored: when one entry of the list is
    neither no-new-privileges with an optional boolean nor seccomp with a value, no
    container is built from the spec, as root or as workload. *)
Theorem bad_security_option_refused spec labels options (pre post : list (SpecOpt W)) s w raw :
  raw ∈ c_SecurityOpts spec → ¬ security_opt_ok raw →
  is_Ok (applyOpts (pre ++ ks_SpecOpts (BuildContainerSpec spec options) ++ post) s w).2 = false ∧
  is_Ok (applyOpts (pre ++ ks_SpecOpts (BuildRootContainerSpec spec labels options) ++ post) s w).2 = false.
Proof.
  intros Hin Hbad. destruct (securityOpt_error raw Hbad) as [e He].
  assert (Hs : errorSpecOpt e ∈ securitySpecOpts (W := W) spec).
  { unfold securitySpecOpts. rewrite !elem_of_app. do 3 right. left. rewrite <-He. by apply list_elem_of_fmap_2. }
  split; eapply (applyOpts_error _ e); unfold BuildContainerSpec, BuildRootContainerSpec, limitOpts; cbn [ks_SpecOpts];
    rewrite !elem_of_app; tauto.
Qed.

(** *** Namespaces joined at start *)

Definition namespaces (s : OciSpec) : list LinuxNamespace := default [] (lx_Namespaces <$> sp_Linux s).
(** The path the runtime would join for a namespace type: the first entry of the type. *)
Definition ns_path (ty : string) (s : OciSpec) : option string :=
  ns_Path <$> find_first (fun n => String.eqb (ns_Type n) ty) (namespaces s).

Lemma setNamespacePath_lookup ty path ty' l :
  ns_Path <$> find_first (fun n => String.eqb (ns_Type n) ty') (setNamespacePath ty path l)
  = if String.eqb ty' ty then Some path else ns_Path <$> find_first (fun n => String.eqb (ns_Type n) ty') l.
Proof.
  unfold find_first. induction l as [|n l IH]; cbn.
  - destruct (String.eqb_spec ty ty') as [->|]; [by rewrite String.eqb_refl|].
    destruct (String.eqb_spec ty' ty); [congruence|done].
  - destruct (String.eqb_spec (ns_Type n) ty) as [E|Hne]; cbn.
    + destruct (String.eqb_spec (ns_Type n) ty') as [E'|].
      * subst. by rewrite String.eqb_refl.
      * destruct (String.eqb_spec ty' ty) as [->|]; [congruence|done].
    + destruct (String.eqb_spec (ns_Type n) ty') as [E'|]; [|apply IH].
      destruct (String.eqb_spec ty' ty) as [->|]; [congruence|done].
Qed.
Lemma ns_path_opt ty path ty' s w s' :
  applyOpts (path_opt ty path) s w = (w, Ok s') →
  ns_path ty' s' = if String.eqb ty' ty && negb (String.eqb path "") then Some path else ns_path ty' s.
Proof.
  unfold path_opt. destruct (negb (String.eqb path "")) eqn:Ep.
  - intros [= <-]. unfold ns_path.
    assert (En : namespaces (upd_linux (fun l => set_Namespaces (setNamespacePath ty path (lx_Namespaces l)) l) s)
                 = setNamespacePath ty path (namespaces s)) by by destruct s as [p [l|]].
    by rewrite En, setNamespacePath_lookup, andb_true_r.
  - intros [= <-]. by rewrite andb_false_r.
Qed.
Lemma path_opt_runs ty path s w : ∃ s', applyOpts (W := W) (path_opt ty path) s w = (w, Ok s').
Proof. unfold path_opt. destruct (negb _); by eexists. Qed.

Lemma ns_path_cleared ty s :
  ns_path ty (clearStalePaths s) = if dynamic_ns ty then (fun _ => "") <$> ns_path ty s else ns_path ty s.
Proof.
  unfold ns_path. set (f := fun n => if dynamic_ns (ns_Type n) then {| ns_Type := ns_Type n; ns_Path := "" |} else n).
  assert (En : namespaces (clearStalePaths s) = f <$> namespaces s) by by destruct s as [p [l|]]. rewrite En. clear En.
  induction (namespaces s) as [|n l IH]; [by destruct (dynamic_ns ty)|].
  assert (E : ns_Type (f n) = ns_Type n) by (unfold f; by destruct (dynamic_ns (ns_Type n))).
  unfold find_first in *. cbn [fmap list_fmap List.find]. rewrite E.
  destruct (String.eqb_spec (ns_Type n) ty) as [<-|]; [|exact IH]. unfold f. by destruct (dynamic_ns (ns_Type n)).
Qed.

Definition joined (ns : NamespacePaths) (ty : string) : string :=
  if String.eqb ty NetworkNamespace then np_Net ns else if String.eqb ty IPCNamespace then np_IPC ns
  else if String.eqb ty UTSNamespace then np_UTS ns else if String.eqb ty PIDNamespace then np_PID ns else "".

(** Joining the namespaces of a cell's root replaces what an earlier start left: the
    container joins exactly the given network, IPC, UTS and process namespaces, an empty
    path of the first three detaches it from the old one, and every other namespace keeps
    its entry; what an earlier start had set for them does not matter. *)
Theorem start_joins_exactly_the_root (ns : NamespacePaths) s w :
  ∃ s', applyOpts (W := W) (namespaceSpecOpts ns) (clearStalePaths s) w = (w, Ok s') ∧
  (∀ ty, ns_path ty s' =
     if negb (String.eqb (joined ns ty) "") then Some (joined ns ty)
     else if dynamic_ns ty then (fun _ => "") <$> ns_path ty s else ns_path ty s) ∧
  sp_Process s' = sp_Process s.
Proof.
  unfold namespaceSpecOpts. set (s0 := clearStalePaths s).
  destruct (path_opt_runs NetworkNamespace (np_Net ns) s0 w) as [s1 E1].
  destruct (path_opt_runs IPCNamespace (np_IPC ns) s1 w) as [s2 E2].
  destruct (path_opt_runs UTSNamespace (np_UTS ns) s2 w) as [s3 E3].
  destruct (path_opt_runs PIDNamespace (np_PID ns) s3 w) as [s4 E4].
  exists s4. split_and!; [by rewrite applyOpts_app, E1, applyOpts_app, E2, applyOpts_app, E3|..].
  - intros ty. rewrite (ns_path_opt _ _ _ _ _ _ E4), (ns_path_opt _ _ _ _ _ _ E3), (ns_path_opt _ _ _ _ _ _ E2),
      (ns_path_opt _ _ _ _ _ _ E1). unfold s0. rewrite ns_path_cleared. unfold joined.
    destruct (String.eqb_spec ty NetworkNamespace) as [->|]; [by destruct (negb (String.eqb (np_Net ns) ""))|].
    destruct (String.eqb_spec ty IPCNamespace) as [->|]; [by destruct (negb (String.eqb (np_IPC ns) ""))|].
    destruct (String.eqb_spec ty UTSNamespace) as [->|]; [by destruct (negb (String.eqb (np_UTS ns) ""))|].
    by destruct (String.eqb_spec ty PIDNamespace) as [->|]; [destruct (negb (String.eqb (np_PID ns) ""))|].
  - assert (Hp : ∀ ty path a b, applyOpts (W := W) (path_opt ty path) a w = (w, Ok b) → sp_Process b = sp_Process a).
    { intros ty path a b. unfold path_opt. destruct (negb _); by intros [= <-]. }
    rewrite (Hp _ _ _ _ E4), (Hp _ _ _ _ E3), (Hp _ _ _ _ E2), (Hp _ _ _ _ E1). unfold s0, clearStalePaths. by destruct (sp_Linux s).
Qed.

End RunTheorems.

(** ** What the builders leave out *)

Definition set_c_Devices (devices : list string) (s : ContainerSpec) : ContainerSpec :=
  let 'Build_ContainerSpec a b c d e f g h i j k l m n o p q r s' t u v w x y _ a1 a2 a3 a4 a5 a6 a7 a8 a9 b1 b2 b3 b4 b5 := s in
  Build_ContainerSpec a b c d e f g h i j k l m n o p q r s' t u v w x y devices a1 a2 a3 a4 a5 a6 a7 a8 a9 b1 b2 b3 b4 b5.

(** The devices of a root container never reach the runtime: the root builder gives
    the same result whatever device list the spec carries. *)
Theorem root_devices_dropped {W} spec devices labels options :
  BuildRootContainerSpec (W := W) (set_c_Devices devices spec) labels options = BuildRootContainerSpec spec labels options.
Proof. by destruct spec. Qed.

(** Adding the capability ALL hands containerd the literal name, which no kernel
    capability bears; dropping ALL is special-cased. *)
Lemma add_all_is_literal {W} :
  capabilityOpts (W := W) {| cap_Drop := []; cap_Add := ["all"] |} = [Lib (WithAddedCapabilities ["ALL"])] ∧
  capabilityOpts (W := W) {| cap_Drop := ["all"]; cap_Add := [] |} = [Lib (WithCapabilities [])].
Proof. split; reflexivity. Qed.

(** ** A concrete host: only the process arguments are interpreted *)

Definition sample_OciHost : OciHost (list (list string)) := {|
  oh_lib := fun o s => st_ret (Ok (match o with WithProcessArgs a => upd_process (set_Args a) s | _ => s end));
  oh_ReadFile := fun _ => st_ret (Ok "{}"); oh_ParseSeccomp := Ok; oh_StatID := fun _ => st_ret (Ok 1%Z);
  oh_ReadDir := fun _ => st_ret (Ok []); oh_DeviceFromPath := fun _ => st_ret (Err (EOpaque "no such file"));
  oh_NotADevice := fun _ => false; oh_IsNotExist := fun _ => false |}.
Definition sample_injection : AttachableInjection (list (list string)) := {|
  inj_KukettyBinaryPath := "/opt/kukeon/bin/kuketty"; inj_HostTTYDir := "/opt/kukeon/data/r/s/t/web/app/tty";
  inj_HostMetadataPath := "/opt/kukeon/data/r/s/t/web/app/kuketty-metadata.json";
  inj_RenderMetadata := Some (fun argv w => (argv :: w, None)) |}.
(** An attachable container that runs a shell, with one option misspelt when asked. *)
Definition sample_attachable (securityOpts : list string) : ContainerSpec :=
  let 'Build_ContainerSpec a b c d e f g h _ _ k l m n o p q r s' t u v w x _ z a1 a2 a3 a4 a5 a6 a7 a8 a9 _ b2 b3 b4 b5 :=
    sample_container "app" false "" in
  Build_ContainerSpec a b c d e f g h "/bin/sh" ["-l"] k l m n o p q r s' t u v w x securityOpts z a1 a2 a3 a4 a5 a6 a7 a8 a9 true b2 b3 b4 b5.

Lemma attachable_runs_the_wrapper_witness :
  let H := sample_OciHost in
  let spec := sample_attachable [] in
  let s0 := {| sp_Process := None; sp_Linux := None |} in
  ∃ s', applyOpts (ks_SpecOpts (BuildContainerSpec spec [WithAttachableInjection sample_injection])) s0 [] = ([["/bin/sh"; "-l"]], Ok s') ∧
    pr_Args <$> sp_Process s' = Some [AttachableBinaryPath].
Proof.
  intros H spec s0.
  destruct (applyOpts (ks_SpecOpts (BuildContainerSpec spec [WithAttachableInjection sample_injection])) s0 []) as [w r] eqn:E.
  assert (E2 : (w, r) = applyOpts (ks_SpecOpts (BuildContainerSpec spec [WithAttachableInjection sample_injection])) s0 []) by done.
  vm_compute in E2. injection E2 as -> ->. eexists. split; [done|].
  apply (attachable_runs_the_wrapper spec [WithAttachableInjection sample_injection] [] s0 [] [["/bin/sh"; "-l"]] _ eq_refl E).
Defined.

Lemma bad_security_option_refused_witness :
  let H := sample_OciHost in
  let spec := sample_attachable ["seccomp:unconfined"; "apparmor=off"] in
  is_Ok (applyOpts ([] ++ ks_SpecOpts (BuildContainerSpec spec []) ++ []) {| sp_Process := None; sp_Linux := None |} []).2 = false.
Proof.
  intros H spec.
  destruct (bad_security_option_refused spec ∅ [] [] [] {| sp_Process := None; sp_Linux := None |} [] "apparmor=off") as [Hr _];
    [right; left| |exact Hr].
  vm_compute. intros [[Hn _]|[Hn _]]; discriminate.
Defined.

Lemma container_env_exact_witness :
  let spec := sample_attachable [] in
  NoDup (envKey <$> kukeonContainerEnv spec).
Proof. intros spec. apply (container_env_exact spec). constructor. Defined.
