(* ===== verification/Containerd.v ===== *)
(** * Containerd: kukeon's client of containerd
    (internal/ctr/container.go, cache.go, task.go, image.go; applySpecOpts and
    ContainerProcessUID of spec.go)

    The client wraps the calls of the containerd library and keeps a cache of the container
    and task handles it has seen.  The library and the server behind it are the class
    [Containerd]; handles are opaque.  The client's state is the server's state beside the
    two caches. *)

From Stdlib Require Import Ascii ZArith Lia.
From stdpp Require Import base gmap strings list.
From S2P Require Import Prelude Model Layout Observe OciSpec.

Local Open Scope nat_scope.

Inductive Signal := SIGTERM | SIGKILL | SIGINT | SIGSTOP.
Inductive IOCreator := LogFileIO (path : string) | TerminalIO | StreamsIO | NullIO.
(** What waiting for a task under a deadline ends with. *)
Inductive WaitResult := WaitExited (code : Z) | WaitDeadline | WaitCancelled (e : error).

Record RegistryCredentials := { rc_Username : string; rc_Password : string; rc_ServerAddress : string }.

Class Containerd (W : Type) := {
  CContainer : Type;
  CTask : Type;
  CImage : Type;
  cd_IsNotFound : error → bool;
  cd_LoadContainer : string → string → st W (result CContainer);
  cd_Containers : string → st W (result (list CContainer));
  (** namespace, ID, image, snapshot key, snapshotter, labels and spec options *)
  cd_NewContainer : string → string → CImage → string → string → gmap string string → list (SpecOpt W) → st W (result CContainer);
  con_ID : CContainer → string;
  con_Task : string → CContainer → st W (result CTask);
  con_NewTask : string → CContainer → IOCreator → st W (result CTask);
  con_Delete : string → CContainer → bool → st W (option error);
  con_Spec : string → CContainer → st W (result OciSpec);
  con_Update : string → CContainer → OciSpec → st W (option error);
  con_Labels : string → CContainer → st W (gmap string string * option error);
  con_SetLabels : string → CContainer → gmap string string → st W (option error);
  tsk_Status : string → CTask → st W (result TaskStatus);
  tsk_Kill : string → CTask → Signal → st W (option error);
  (** Wait and the select on its channel and the deadline; the error is Wait's own *)
  tsk_Wait : string → CTask → Z → st W (result WaitResult);
  tsk_Pid : CTask → Z;
  tsk_Start : string → CTask → st W (option error);
  (** with the option to kill the process first *)
  tsk_Delete : string → CTask → st W (option error);
  cd_GetImage : string → string → st W (result CImage);
  cd_CreateLease : string → st W (result string);
  cd_DeleteLease : string → st W (option error);
  cd_Pull : string → option string → string → list RegistryCredentials → st W (result CImage);
  img_Name : CImage → string;
  img_IsUnpacked : string → CImage → string → st W (result bool);
  img_Unpack : string → CImage → string → st W (option error);
  (** reference.ParseNormalizedNamed and TagNameOnly *)
  cd_ParseReference : string → result string;
  cd_MkdirAll : string → st W (option error);
  (** RelocateProcessesToLeaf of cgroups.go *)
  cd_RelocateToLeaf : string → string → st W (option error);
  cd_sleep : Z → st W unit
}.

Record Client (W : Type) `{Containerd W} := MkClient {
  cl_world : W; cl_containers : gmap string CContainer; cl_tasks : gmap string CTask
}.
Arguments MkClient {W _} _ _ _.
Arguments cl_world {W _} _.
Arguments cl_containers {W _} _.
Arguments cl_tasks {W _} _.

Section Client.
Context {W : Type} `{Containerd W} `{OciHost W}.
Notation C := (Client W).

Definition remote {A} (m : st W A) : st C A :=
  fun c => let '(w, a) := m (cl_world c) in (MkClient w (cl_containers c) (cl_tasks c), a).

(** ** The caches *)

Definition cacheKey (namespace id : string) : string := namespace +:+ "/" +:+ id.

Definition storeContainer (namespace id : string) (container : CContainer) : st C unit :=
  fun c => (MkClient (cl_world c) (<[cacheKey namespace id := container]> (cl_containers c)) (cl_tasks c), ()).
Definition dropContainer (namespace id : string) : st C unit :=
  fun c => (MkClient (cl_world c) (delete (cacheKey namespace id) (cl_containers c)) (cl_tasks c), ()).
Definition storeTask (namespace id : string) (task : CTask) : st C unit :=
  fun c => (MkClient (cl_world c) (cl_containers c) (<[cacheKey namespace id := task]> (cl_tasks c)), ()).
Definition dropTask (namespace id : string) : st C unit :=
  fun c => (MkClient (cl_world c) (cl_containers c) (delete (cacheKey namespace id) (cl_tasks c)), ()).

Definition loadContainer (namespace id : string) : st C (result CContainer) := fun c =>
  match cl_containers c !! cacheKey namespace id with
  | Some container => (c, Ok container)
  | None =>
      (let! r := remote (cd_LoadContainer namespace id) in
       match r with
       | Err e => st_ret (Err (if cd_IsNotFound e then EWrap "%w: %w" [ESentinel ErrContainerNotFound; e] else e))
       | Ok container => let! _ := storeContainer namespace id container in st_ret (Ok container)
       end) c
  end.
Definition loadTask (namespace id : string) : st C (result CTask) := fun c =>
  match cl_tasks c !! cacheKey namespace id with
  | Some task => (c, Ok task)
  | None =>
      (let! r := loadContainer namespace id in
       match r with
       | Err e => st_ret (Err e)
       | Ok container =>
           let! t := remote (con_Task namespace container) in
           match t with
           | Err e => st_ret (Err (EWrap "%w: %w" [ESentinel ErrTaskNotFound; e]))
           | Ok task => let! _ := storeTask namespace id task in st_ret (Ok task)
           end
       end) c
  end.

(** ** Containers *)

Definition GetContainer (namespace id : string) : st C (result CContainer) :=
  if String.eqb id "" then st_ret (Err (ESentinel ErrEmptyContainerID)) else loadContainer namespace id.

Fixpoint storeAll (namespace : string) (l : list CContainer) : st C unit :=
  match l with
  | [] => st_ret ()
  | x :: rest => let! _ := storeContainer namespace (con_ID x) x in storeAll namespace rest
  end.
Definition ListContainers (namespace : string) : st C (result (list CContainer)) :=
  let! r := remote (cd_Containers namespace) in
  match r with
  | Err e => st_ret (Err (EWrap "failed to list containers: %w" [e]))
  | Ok l => let! _ := storeAll namespace l in st_ret (Ok l)
  end.

Definition ExistsContainer (namespace id : string) : st C (result bool) :=
  if String.eqb id "" then st_ret (Err (ESentinel ErrEmptyContainerID))
  else
    let! r := remote (cd_LoadContainer namespace id) in
    st_ret (match r with
            | Err e => if cd_IsNotFound e then Ok false else Err e
            | Ok _ => Ok true
            end).

Definition DeleteContainer (namespace id : string) (snapshotCleanup : bool) : st C (option error) :=
  if String.eqb id "" then st_ret (Some (ESentinel ErrEmptyContainerID))
  else
    let! loaded := loadContainer namespace id in
    match loaded with
    | Err e => st_ret (if error_is ErrContainerNotFound e then None else Some e)
    | Ok container =>
        let! task := remote (con_Task namespace container) in
        let! _ := (match task with
                   | Ok t => let! _ := remote (tsk_Delete namespace t) in dropTask namespace id
                   | Err _ => st_ret ()
                   end) in
        let! err := remote (con_Delete namespace container snapshotCleanup) in
        match err with
        | Some e =>
            if cd_IsNotFound e then let! _ := dropContainer namespace id in st_ret None
            else st_ret (Some (EWrap "failed to delete container: %w" [e]))
        | None => let! _ := dropContainer namespace id in st_ret None
        end
    end.

(** ** Images *)

Definition InternalImageRegistry : string := "kukeon.internal".
Definition IsInternalImageRef (ref : string) : bool := HasPrefix (TrimSpace ref) (InternalImageRegistry +:+ "/").
Definition NormalizeImageReference (image : string) : string :=
  if String.eqb image "" || Contains image "://" then image
  else match cd_ParseReference image with Err _ => image | Ok ref => ref end.

Definition pullImage (namespace imageRef : string) (creds : list RegistryCredentials) : st C (result CImage) :=
  let imageRef := NormalizeImageReference imageRef in
  let! local := remote (cd_GetImage namespace imageRef) in
  match local with
  | Ok image => st_ret (Ok image)
  | Err _ =>
      if IsInternalImageRef imageRef then st_ret (Err (EWrap "%w: %s" [ESentinel ErrInternalImageNotBuilt]))
      else
        let! lease := remote (cd_CreateLease namespace) in
        let leaseID := match lease with Ok l => Some l | Err _ => None end in
        let! pulled := remote (cd_Pull namespace leaseID imageRef creds) in
        let! _ := (match leaseID with Some l => remote (cd_DeleteLease l) | None => st_ret None end) in
        st_ret (match pulled with Err e => Err (EWrap "failed to pull image %s: %w" [e]) | Ok i => Ok i end)
  end.

Definition ensureImageUnpacked (namespace : string) (image : CImage) (snapshotter : string) : st C (option error) :=
  let! unpacked := remote (img_IsUnpacked namespace image snapshotter) in
  match unpacked with
  | Ok true => st_ret None
  | _ =>
      let! e := remote (img_Unpack namespace image snapshotter) in
      st_ret (match e with Some e => Some (EWrap "failed to unpack image %s: %w" [e]) | None => None end)
  end.

(** ** Create *)

Definition validateContainerSpec (spec : CtrSpec W) : option error :=
  if String.eqb (ks_ID spec) "" then Some (ESentinel ErrEmptyContainerID)
  else if String.eqb (ks_Image spec) "" then Some (ESentinel ErrInvalidImage) else None.

Definition cniConfigAnnotation : string := "io.kukeon.cni.config".

Definition creationOpts (image : CImage) (spec : CtrSpec W) : list (SpecOpt W) :=
  Lib (WithImageConfig (img_Name image)) :: ks_SpecOpts spec
  ++ (if negb (String.eqb (ks_CNIConfigPath spec) "") then [Lib (WithAnnotations {[ cniConfigAnnotation := ks_CNIConfigPath spec ]})] else []).

Definition CreateContainer (namespace : string) (spec : CtrSpec W) (creds : list RegistryCredentials) : st C (result CContainer) :=
  match validateContainerSpec spec with
  | Some e => st_ret (Err e)
  | None =>
      let! existing := remote (cd_LoadContainer namespace (ks_ID spec)) in
      match existing with
      | Ok _ => st_ret (Err (ESentinel ErrContainerExists))
      | Err _ =>
          let! image := pullImage namespace (ks_Image spec) creds in
          match image with
          | Err e => st_ret (Err e)
          | Ok image =>
              let! unpacked := ensureImageUnpacked namespace image (ks_Snapshotter spec) in
              match unpacked with
              | Some e => st_ret (Err (EWrap "failed to ensure image is unpacked: %w" [e]))
              | None =>
                  let snapshotKey := if String.eqb (ks_SnapshotKey spec) "" then ks_ID spec else ks_SnapshotKey spec in
                  let! made := remote (cd_NewContainer namespace (ks_ID spec) image snapshotKey (ks_Snapshotter spec) (ks_Labels spec)
                                         (creationOpts image spec)) in
                  match made with
                  | Err e => st_ret (Err (EWrap "failed to create container: %w" [e]))
                  | Ok container => let! _ := storeContainer namespace (ks_ID spec) container in st_ret (Ok container)
                  end
              end
          end
      end
  end.

(** ** Tasks *)

Definition ctrTaskStatus (namespace id : string) : st C (result TaskStatus) :=
  if String.eqb id "" then st_ret (Err (ESentinel ErrEmptyContainerID))
  else
    let! task := loadTask namespace id in
    match task with
    | Err e => st_ret (Err e)
    | Ok t =>
        let! s := remote (tsk_Status namespace t) in
        st_ret (match s with Err e => Err (EWrap "failed to get task status: %w" [e]) | Ok s => Ok s end)
    end.

Definition is_running (s : TaskStatus) : bool := match tk_Status s with ProcRunning => true | _ => false end.

Definition applySpecOpts (namespace : string) (container : CContainer) (opts : list (SpecOpt W)) : st C (option error) :=
  match opts with
  | [] => st_ret None
  | _ =>
      let! spec := remote (con_Spec namespace container) in
      match spec with
      | Err e => st_ret (Some (EWrap "failed to load container spec: %w" [e]))
      | Ok ociSpec =>
          let! edited := remote (applyOpts opts (clearStalePaths ociSpec)) in
          match edited with
          | Err e => st_ret (Some (EWrap "failed to apply spec option: %w" [e]))
          | Ok s =>
              let! e := remote (con_Update namespace container s) in
              st_ret (match e with Some e => Some (EWrap "failed to persist updated spec: %w" [e]) | None => None end)
          end
      end
  end.

Definition ContainerProcessUID (namespace : string) (container : CContainer) : st C (result Z) :=
  let! spec := remote (con_Spec namespace container) in
  st_ret (match spec with
          | Err e => Err (EWrap "read container spec: %w" [e])
          | Ok s => match sp_Process s with
                    | None => Err (EOpaque "container spec has no Process")
                    | Some p => Ok (pr_UID p)
                    end
          end).

Record TaskIO := { io_Terminal : bool; io_LogFilePath : string }.
(** The IO of a task, or the error of creating the log directory. *)
Definition buildIO (io : option TaskIO) : st C (result IOCreator) :=
  match io with
  | None => st_ret (Ok NullIO)
  | Some io =>
      if negb (String.eqb (io_LogFilePath io) "") then
        let! e := remote (cd_MkdirAll (FDir (io_LogFilePath io))) in
        st_ret (match e with Some e => Err (EWrap "create container log dir: %w" [e]) | None => Ok (LogFileIO (io_LogFilePath io)) end)
      else st_ret (Ok (if io_Terminal io then TerminalIO else StreamsIO))
  end.

(** A running task to reuse; a dead one is removed first. *)
Definition reuseTask (namespace id : string) (container : CContainer) : st C (option CTask) :=
  let! existing := remote (con_Task namespace container) in
  match existing with
  | Err _ => st_ret None
  | Ok t =>
      let! status := remote (tsk_Status namespace t) in
      if match status with Ok s => is_running s | Err _ => false end then
        let! _ := storeTask namespace id t in st_ret (Some t)
      else
        let! _ := remote (tsk_Delete namespace t) in
        let! _ := dropTask namespace id in
        st_ret None
  end.

Definition relocateContainerTaskToLeaf (namespace : string) (container : CContainer) : st C (option error) :=
  let! spec := remote (con_Spec namespace container) in
  match spec with
  | Err e => st_ret (Some (EWrap "load container spec: %w" [e]))
  | Ok s =>
      match sp_Linux s with
      | Some l => if String.eqb (lx_CgroupsPath l) "" then st_ret None
                  else remote (cd_RelocateToLeaf (lx_CgroupsPath l) "_payload")
      | None => st_ret None
      end
  end.

Definition StartContainer (namespace id : string) (opts : list (SpecOpt W)) (io : option TaskIO) : st C (result CTask) :=
  if String.eqb id "" then st_ret (Err (ESentinel ErrEmptyContainerID))
  else
    let! loaded := loadContainer namespace id in
    match loaded with
    | Err e => st_ret (Err e)
    | Ok container =>
        let! edited := applySpecOpts namespace container opts in
        match edited with
        | Some e => st_ret (Err e)
        | None =>
            let! running := reuseTask namespace id container in
            match running with
            | Some t => st_ret (Ok t)
            | None =>
                let! creator := buildIO io in
                match creator with
                | Err e => st_ret (Err e)
                | Ok creator =>
                    let! made := remote (con_NewTask namespace container creator) in
                    match made with
                    | Err e => st_ret (Err (EWrap "failed to create task: %w" [e]))
                    | Ok task =>
                        let! started := remote (tsk_Start namespace task) in
                        match started with
                        | Some e =>
                            let! _ := remote (tsk_Delete namespace task) in
                            st_ret (Err (EWrap "failed to start task: %w" [e]))
                        | None =>
                            let! _ := relocateContainerTaskToLeaf namespace container in
                            let! _ := storeTask namespace id task in
                            st_ret (Ok task)
                        end
                    end
                end
            end
        end
    end.

Record StopContainerOptions := { so_Signal : string; so_Timeout : option Z; so_Force : bool }.
Definition stopSignal (s : string) : Signal :=
  if bool_decide (s ∈ ["SIGKILL"; "KILL"]) then SIGKILL
  else if bool_decide (s ∈ ["SIGINT"; "INT"]) then SIGINT
  else if bool_decide (s ∈ ["SIGSTOP"; "STOP"]) then SIGSTOP
  else SIGTERM.

(** After the deadline with force: kill, wait again, and settle for a task that is not
    seen running. *)
Definition forceKill (namespace : string) (task : CTask) : st C (result Z) :=
  let! k := remote (tsk_Kill namespace task SIGKILL) in
  match k with
  | Some e => st_ret (Err (EWrap "failed to force kill task: %w" [e]))
  | None =>
      let! waited := remote (tsk_Wait namespace task (5 * Second)) in
      match waited with
      | Err e => st_ret (Err (EWrap "failed to wait for task after force kill: %w" [e]))
      | Ok (WaitExited code) => st_ret (Ok code)
      | Ok _ =>
          let! status := remote (tsk_Status namespace task) in
          st_ret (match status with
                  | Ok s => if is_running s then Err (EOpaque "task %s is still running after force kill") else Ok 0%Z
                  | Err _ => Ok 0%Z
                  end)
      end
  end.

Definition awaitExit (namespace : string) (task : CTask) (opts : StopContainerOptions) : st C (result Z) :=
  let! waited := remote (tsk_Wait namespace task (default (10 * Second)%Z (so_Timeout opts))) in
  match waited with
  | Err e => st_ret (Err (EWrap "failed to wait for task: %w" [e]))
  | Ok (WaitExited code) => st_ret (Ok code)
  | Ok WaitDeadline => if so_Force opts then forceKill namespace task
                       else st_ret (Err (EOpaque "timeout waiting for task to stop: %w"))
  | Ok (WaitCancelled e) => st_ret (Err (EWrap "context cancelled: %w" [e]))
  end.

(** The last look: a task that is still seen running is killed once more. *)
Definition verifyStopped (namespace : string) (task : CTask) : st C (option error) :=
  let! status := remote (tsk_Status namespace task) in
  match status with
  | Err _ => st_ret None
  | Ok s =>
      if is_running s then
        let! _ := remote (tsk_Kill namespace task SIGKILL) in
        let! _ := remote (cd_sleep 100000000) in
        let! again := remote (tsk_Status namespace task) in
        st_ret (match again with
                | Ok s => if is_running s then Some (EOpaque "task %s is still running after stop attempt") else None
                | Err _ => None
                end)
      else st_ret None
  end.

Definition StopContainer (namespace id : string) (opts : StopContainerOptions) : st C (result Z) :=
  if String.eqb id "" then st_ret (Err (ESentinel ErrEmptyContainerID))
  else
    let! loaded := loadTask namespace id in
    match loaded with
    | Err e => st_ret (Err e)
    | Ok task =>
        let! status := remote (tsk_Status namespace task) in
        match status with
        | Err e => st_ret (Err (EWrap "failed to get task status: %w" [e]))
        | Ok s =>
            if negb (is_running s) then st_ret (Err (ESentinel ErrTaskNotRunning))
            else
              let! k := remote (tsk_Kill namespace task (stopSignal (so_Signal opts))) in
              match k with
              | Some e => st_ret (Err (EWrap "failed to kill task: %w" [e]))
              | None =>
                  let! exit := awaitExit namespace task opts in
                  match exit with
                  | Err e => st_ret (Err e)
                  | Ok code =>
                      let! still := verifyStopped namespace task in
                      match still with
                      | Some e => st_ret (Err e)
                      | None =>
                          let! _ := remote (tsk_Delete namespace task) in
                          let! _ := dropTask namespace id in
                          st_ret (Ok code)
                      end
                  end
              end
        end
    end.

End Client.

(** ** What containerd promises

    [srv] is the set of containers the server has, by namespace and ID.  Only creating and
    deleting a container changes it; lookups and lists are truthful; a failed deletion
    leaves the container, and a not-found answer means it is not there.  IDs and
    namespaces are containerd identifiers, which have no slash. *)

Definition plain_id (s : string) : Prop := avoids slash s = true.

Class ContainerdLaws (W : Type) `{Containerd W} `{OciHost W} := {
  srv : W → gset (string * string);
  law_load : ∀ ns id w, srv (cd_LoadContainer ns id w).1 = srv w ∧
    match (cd_LoadContainer ns id w).2 with
    | Ok c => con_ID c = id ∧ (ns, id) ∈ srv w
    | Err e => (cd_IsNotFound e = true → (ns, id) ∉ srv w) ∧ error_is ErrContainerNotFound e = false
    end;
  law_list : ∀ ns w, srv (cd_Containers ns w).1 = srv w ∧
    ∀ l, (cd_Containers ns w).2 = Ok l → ∀ id, (ns, id) ∈ srv w ↔ id ∈ con_ID <$> l;
  law_delete : ∀ ns c b w,
    match (con_Delete ns c b w).2 with
    | None => srv (con_Delete ns c b w).1 = srv w ∖ {[(ns, con_ID c)]}
    | Some e => srv (con_Delete ns c b w).1 = srv w ∧ (cd_IsNotFound e = true → (ns, con_ID c) ∉ srv w) ∧
                error_is ErrContainerNotFound e = false
    end;
  law_new : ∀ ns id img key sn labels opts w,
    match (cd_NewContainer ns id img key sn labels opts w).2 with
    | Ok c => con_ID c = id ∧ srv (cd_NewContainer ns id img key sn labels opts w).1 = {[(ns, id)]} ∪ srv w
    | Err _ => srv (cd_NewContainer ns id img key sn labels opts w).1 = srv w
    end;
  law_task : ∀ ns c w, srv (con_Task ns c w).1 = srv w;
  law_status : ∀ ns t w, srv (tsk_Status ns t w).1 = srv w;
  law_kill : ∀ ns t sig w, srv (tsk_Kill ns t sig w).1 = srv w;
  law_wait : ∀ ns t d w, srv (tsk_Wait ns t d w).1 = srv w;
  law_taskDelete : ∀ ns t w, srv (tsk_Delete ns t w).1 = srv w;
  law_sleep : ∀ d w, srv (cd_sleep d w).1 = srv w
}.

(** ** Theorems: the client keeps what containerd promises *)

Section ClientTheorems.
Context {W : Type} `{Containerd W} `{OciHost W} `{!ContainerdLaws W}.
Notation C := (Client W).

(** The containers on the server, and the coherence of the cache. *)
Definition live (c : C) : gset (string * string) := srv (cl_world c).
Definition cache_ok (c : C) : Prop :=
  ∀ ns id h, plain_id ns → plain_id id → cl_containers c !! cacheKey ns id = Some h → con_ID h = id.

Lemma cacheKey_inj ns id ns' id' : plain_id ns → plain_id ns' → cacheKey ns id = cacheKey ns' id' → ns = ns' ∧ id = id'.
Proof. intros H1 H2 E. unfold cacheKey in E. by apply (avoids_split slash) in E. Qed.

Definition same_live (c c' : C) : Prop := live c' = live c ∧ (cache_ok c → cache_ok c').
#[export] Instance same_live_preorder : PreOrder same_live.
Proof. split; [by intros c|]. intros a b c [E1 H1] [E2 H2]. split; [by rewrite E2|auto]. Qed.

Lemma remote_same {A} (m : st W A) : (∀ w, srv (m w).1 = srv w) → respects same_live (remote m).
Proof. intros Hm c. unfold remote. specialize (Hm (cl_world c)). destruct (m (cl_world c)) as [w a]. by split. Qed.
Lemma storeTask_same ns id t : respects same_live (storeTask ns id t).
Proof. by intros c. Qed.
Lemma dropTask_same ns id : respects same_live (dropTask ns id).
Proof. by intros c. Qed.
Lemma dropContainer_same ns id : respects same_live (dropContainer ns id).
Proof.
  intros c. split; [done|]. intros Hc ns' id' h H1 H2 Hl. cbn in Hl. apply lookup_delete_Some in Hl as [_ Hl]. eauto.
Qed.
Lemma storeContainer_ok ns id h c :
  plain_id ns → con_ID h = id → cache_ok c → cache_ok (storeContainer ns id h c).1.
Proof.
  intros Hns Hid Hc ns' id' h' H1 H2 Hl. cbn in Hl. apply lookup_insert_Some in Hl as [[Ek <-]|[_ Hl]]; [|eauto].
  apply cacheKey_inj in Ek as [-> ->]; done.
Qed.

Lemma loadContainer_spec ns id c : plain_id ns → plain_id id →
  let '(c', r) := loadContainer ns id c in
  same_live c c' ∧
  match r with
  | Ok h => cache_ok c → con_ID h = id
  | Err e => error_is ErrContainerNotFound e = true → (ns, id) ∉ live c
  end.
Proof.
  intros Hns Hid. unfold loadContainer. destruct (cl_containers c !! cacheKey ns id) as [h|] eqn:El.
  - split; [done|]. intros Hc. by apply (Hc ns id h).
  - unfold st_bind, remote. destruct (law_load ns id (cl_world c)) as [Hs Hr].
    destruct (cd_LoadContainer ns id (cl_world c)) as [w [h|e]]; cbn in Hs, Hr |- *.
    + destruct Hr as [Hi _]. split; [|done]. split; [done|]. intros Hc.
      apply (storeContainer_ok ns id h (MkClient w (cl_containers c) (cl_tasks c)) Hns Hi Hc).
    + destruct Hr as [Hn Hf]. split; [by split|]. destruct (cd_IsNotFound e) eqn:En; [by intros _; apply Hn|].
      by rewrite Hf.
Qed.
Lemma loadContainer_same ns id : plain_id ns → plain_id id → respects same_live (loadContainer ns id).
Proof. intros H1 H2 c. pose proof (loadContainer_spec ns id c H1 H2) as Hl. destruct (loadContainer ns id c). apply Hl. Qed.

#[local] Hint Resolve remote_same storeTask_same dropTask_same dropContainer_same loadContainer_same : frame.
#[local] Hint Resolve law_task law_status law_kill law_wait law_taskDelete law_sleep : frame.

Lemma loadTask_same ns id : plain_id ns → plain_id id → respects same_live (loadTask ns id).
Proof.
  intros H1 H2 c. unfold loadTask. destruct (cl_tasks c !! cacheKey ns id); [done|].
  revert c. match goal with |- ∀ c, same_live c (?m c).1 => change (respects same_live m) end. solve_frame.
Qed.
#[local] Hint Resolve loadTask_same : frame.

(** Stopping a container removes none. *)
Lemma StopContainer_same ns id opts : plain_id ns → plain_id id → respects same_live (StopContainer ns id opts).
Proof.
  intros H1 H2. unfold StopContainer, awaitExit, forceKill, verifyStopped.
  destruct (String.eqb id ""); [solve_frame|]. solve_frame.
Qed.

Lemma ListContainers_spec ns c : plain_id ns →
  let '(c', r) := ListContainers ns c in
  same_live c c' ∧ ∀ l, r = Ok l → ∀ id, (ns, id) ∈ live c ↔ id ∈ con_ID <$> l.
Proof.
  intros Hns. unfold ListContainers, st_bind, remote. destruct (law_list ns (cl_world c)) as [Hs Hl].
  destruct (cd_Containers ns (cl_world c)) as [w [l|e]]; cbn in Hs, Hl |- *; [|by split; [split|]].
  assert (Hst : ∀ c0, same_live c0 (storeAll ns l c0).1).
  { clear Hl Hs. induction l as [|h l IH]; intros c0; [done|]. cbn. etrans; [|apply IH].
    split; [done|]. intros Hc. exact (storeContainer_ok ns (con_ID h) h c0 Hns eq_refl Hc). }
  specialize (Hst (MkClient w (cl_containers c) (cl_tasks c))).
  destruct (storeAll ns l _) as [c' u]. cbn in *. split; [|intros l' [= <-]; by apply Hl].
  etrans; [|exact Hst]. by split.
Qed.

(** Deletion is exact, through any cached handle. *)
Lemma DeleteContainer_spec ns id cleanup c :
  plain_id ns → plain_id id → cache_ok c →
  let '(c', r) := DeleteContainer ns id cleanup c in
  cache_ok c' ∧ live c' = match r with None => live c ∖ {[(ns, id)]} | Some _ => live c end ∧
  ∀ e, r = Some e → error_is ErrContainerNotFound e = false.
Proof.
  intros Hns Hid Hc. unfold DeleteContainer. destruct (String.eqb id ""); [split_and!; [done..|by intros ? [= <-]]|]. unfold st_bind at 1.
  pose proof (loadContainer_spec ns id c Hns Hid) as Hl. destruct (loadContainer ns id c) as [c1 [h|e]]; cbn [fst snd] in *.
  2:{ destruct Hl as [[E1 H1] Hn]. cbn. destruct (error_is ErrContainerNotFound e) eqn:En; [|by split_and!; [apply H1| |intros ? [= <-]]].
      split_and!; [by apply H1| |done]. rewrite E1. specialize (Hn eq_refl). set_solver. }
  destruct Hl as [[E1 H1] Hh]. specialize (Hh Hc). specialize (H1 Hc).
  assert (Hpre : ∃ c2, same_live c1 c2 ∧ ∀ A (k : st C A),
    (let! task := remote (con_Task ns h) in
     let! _ := (match task with
                | Ok t => let! _ := remote (tsk_Delete ns t) in dropTask ns id
                | Err _ => st_ret ()
                end) in k) c1 = k c2).
  { unfold st_bind. pose proof (remote_same (con_Task ns h) (law_task ns h) c1) as Ht.
    destruct (remote (con_Task ns h) c1) as [ca [t|e]]; [|by exists ca].
    pose proof (remote_same (tsk_Delete ns t) (law_taskDelete ns t) ca) as Hd.
    destruct (remote (tsk_Delete ns t) ca) as [cb u]. cbn in *.
    exists (MkClient (cl_world cb) (cl_containers cb) (delete (cacheKey ns id) (cl_tasks cb))).
    split; [|done]. etrans; [exact Ht|]. etrans; [exact Hd|]. apply (dropTask_same ns id cb). }
  destruct Hpre as (c2 & [E2 H2] & Hk). rewrite Hk. clear Hk. specialize (H2 H1).
  unfold st_bind, remote. pose proof (law_delete ns h cleanup (cl_world c2)) as Hdel.
  destruct (con_Delete ns h cleanup (cl_world c2)) as [w [e|]]; cbn in Hdel.
  - destruct Hdel as (Es & Hn & Hs). destruct (cd_IsNotFound e); cbn.
    + split_and!; [by apply (dropContainer_same ns id (MkClient w (cl_containers c2) (cl_tasks c2)))| |done].
      specialize (Hn eq_refl). rewrite Hh in Hn. unfold live in *. cbn. rewrite Es, E2, E1. rewrite E2, E1 in Hn. set_solver.
    + split_and!; [done| |intros ? [= <-]; cbn; by rewrite Hs]. unfold live in *. cbn. by rewrite Es, E2.
  - cbn. split_and!; [by apply (dropContainer_same ns id (MkClient w (cl_containers c2) (cl_tasks c2)))| |done].
    unfold live in *. cbn. by rewrite Hdel, Hh, E2, E1.
Qed.

(** When the client reports a container deleted, containerd has it no more and every
    other container is still there; when it reports a failure, every container is still
    there, the one to delete included.  A handle cached from before does not matter, even
    when the container was removed behind the client's back. *)
Theorem delete_container_exact ns id cleanup c :
  plain_id ns → plain_id id → cache_ok c →
  let '(c', r) := DeleteContainer ns id cleanup c in
  cache_ok c' ∧ live c' = match r with None => live c ∖ {[(ns, id)]} | Some _ => live c end.
Proof.
  intros Hns Hid Hc. pose proof (DeleteContainer_spec ns id cleanup c Hns Hid Hc) as Hd.
  destruct (DeleteContainer ns id cleanup c) as [c' r]. tauto.
Qed.

(** Stopping succeeds only when the task was last seen not running: after the signal,
    the wait and, with force, the kill, the client looks once more, and the task it then
    deletes was not running; as long as the status of the task can be read. *)
Theorem stop_succeeds_on_stopped_task ns id opts c c' code :
  (∀ t w, is_Ok (tsk_Status ns t w).2 = true) →
  StopContainer ns id opts c = (c', Ok code) →
  ∃ t w s, (tsk_Status ns t w).2 = Ok s ∧ is_running s = false ∧
           cl_world c' = (tsk_Delete ns t (tsk_Status ns t w).1).1.
Proof.
  intros Hread Hstop. unfold StopContainer in Hstop. destruct (String.eqb id ""); [done|].
  unfold st_bind in Hstop at 1. destruct (loadTask ns id c) as [c1 [t|e]]; [|done].
  unfold st_bind in Hstop at 1. destruct (remote (tsk_Status ns t) c1) as [c2 [s|e]]; [|done].
  destruct (is_running s); [|done]. cbn [negb] in Hstop.
  unfold st_bind in Hstop at 1. destruct (remote (tsk_Kill ns t _) c2) as [c3 [e|]]; [done|].
  unfold st_bind in Hstop at 1. destruct (awaitExit ns t opts c3) as [c4 [code'|e]]; [|done].
  assert (Hv : ∀ c5 r, verifyStopped ns t c4 = (c5, r) → r = None →
    ∃ w s, (tsk_Status ns t w).2 = Ok s ∧ is_running s = false ∧ cl_world c5 = (tsk_Status ns t w).1).
  { intros c5 r Hv ->. unfold verifyStopped, st_bind, remote in Hv. pose proof (Hread t (cl_world c4)) as Hr.
    destruct (tsk_Status ns t (cl_world c4)) as [w1 [s1|e]] eqn:Es; [|done]. destruct (is_running s1) eqn:Er1.
    - destruct (tsk_Kill ns t SIGKILL _) as [w2 k]. destruct (cd_sleep _ _) as [w3 u]. cbn in Hv.
      pose proof (Hread t w3) as Hr3. destruct (tsk_Status ns t w3) as [w4 [s4|e]] eqn:E4; [|done].
      cbn in Hv. destruct (is_running s4) eqn:Er; [done|]. injection Hv as <-. exists w3, s4. by rewrite E4.
    - cbn in Hv. injection Hv as <-. exists (cl_world c4), s1. by rewrite Es. }
  unfold st_bind in Hstop at 1. destruct (verifyStopped ns t c4) as [c5 [e|]]; [done|].
  destruct (Hv c5 None eq_refl eq_refl) as (w & s' & H1 & H2 & H3).
  unfold st_bind, remote in Hstop. destruct (tsk_Delete ns t (cl_world c5)) as [w6 u] eqn:Ed. cbn in Hstop.
  injection Hstop as <- <-. exists t, w, s'. split_and!; [done|done|]. cbn. by rewrite <-H3, Ed.
Qed.

End ClientTheorems.

(** ** A concrete server: containers by namespace and ID, each with a task that runs or not *)

Notation Toy := (gmap (string * string) bool).
Definition toy_missing : error := EOpaque "not found".
Definition toy_get {A} (f : bool → A) (ns id : string) : st Toy (result A) :=
  fun w => (w, match w !! (ns, id) with Some r => Ok (f r) | None => Err toy_missing end).
Definition toy_update (f : bool → option bool) (ns id : string) : st Toy (option error) :=
  fun w => match w !! (ns, id) with
           | Some r => (match f r with Some r' => <[(ns, id) := r']> w | None => delete (ns, id) w end, None)
           | None => (w, Some toy_missing)
           end.
Definition toy_list (ns : string) (w : Toy) : list string := (fun p : string * string * bool => p.1.2) <$> filter (fun p => p.1.1 = ns) (map_to_list w).

#[export] Instance toy_Containerd : Containerd Toy := {|
  CContainer := string; CTask := string; CImage := string;
  cd_IsNotFound := fun e => match e with EOpaque "not found" => true | _ => false end;
  cd_LoadContainer := fun ns id => toy_get (fun _ => id) ns id;
  cd_Containers := fun ns w => (w, Ok (toy_list ns w));
  cd_NewContainer := fun ns id _ _ _ _ _ w => (<[(ns, id) := false]> w, Ok id);
  con_ID := fun c => c; con_Task := fun ns c => toy_get (fun _ => c) ns c; con_NewTask := fun ns c _ => toy_get (fun _ => c) ns c;
  con_Delete := fun ns c _ => toy_update (fun _ => None) ns c;
  con_Spec := fun _ _ => st_ret (Ok {| sp_Process := None; sp_Linux := None |}); con_Update := fun _ _ _ => st_ret None;
  con_Labels := fun _ _ => st_ret (∅, None); con_SetLabels := fun _ _ _ => st_ret None;
  tsk_Status := fun ns t w => (w, Ok {| tk_Status := if default false (w !! (ns, t)) then ProcRunning else ProcStopped;
                                        tk_ExitStatus := 0%Z; tk_ExitTime := 0%Z |});
  tsk_Kill := fun ns t _ => toy_update (fun _ => Some false) ns t;
  tsk_Wait := fun _ _ _ => st_ret (Ok (WaitExited 0)); tsk_Pid := fun _ => 42%Z;
  tsk_Start := fun ns t => toy_update (fun _ => Some true) ns t; tsk_Delete := fun _ _ => st_ret None;
  cd_GetImage := fun _ ref => st_ret (Ok ref); cd_CreateLease := fun _ => st_ret (Ok "lease"); cd_DeleteLease := fun _ => st_ret None;
  cd_Pull := fun _ _ ref _ => st_ret (Ok ref); img_Name := fun i => i; img_IsUnpacked := fun _ _ _ => st_ret (Ok true);
  img_Unpack := fun _ _ _ => st_ret None; cd_ParseReference := Ok; cd_MkdirAll := fun _ => st_ret None;
  cd_RelocateToLeaf := fun _ _ => st_ret None; cd_sleep := fun _ => st_ret () |}.
#[export] Instance toy_OciHost : OciHost Toy := {|
  oh_lib := fun _ s => st_ret (Ok s); oh_ReadFile := fun _ => st_ret (Ok "{}"); oh_ParseSeccomp := Ok;
  oh_StatID := fun _ => st_ret (Ok 1%Z); oh_ReadDir := fun _ => st_ret (Ok []);
  oh_DeviceFromPath := fun _ => st_ret (Err (EOpaque "no such file")); oh_NotADevice := fun _ => false;
  oh_IsNotExist := fun _ => false |}.

Lemma toy_list_elem (ns id : string) (w : gmap (string * string) bool) : (ns, id) ∈ dom w ↔ id ∈ toy_list ns w.
Proof.
  unfold toy_list. rewrite list_elem_of_fmap, elem_of_dom. split.
  - intros [r Hr]. exists (ns, id, r). split; [done|]. apply list_elem_of_filter. split; [done|]. by apply elem_of_map_to_list.
  - intros ([[ns' id'] r] & -> & [Hn Hr%elem_of_map_to_list]%list_elem_of_filter). cbn in *. subst. by exists r.
Qed.
#[export] Instance toy_Laws : ContainerdLaws Toy.
Proof.
  refine {| srv := fun w : gmap (string * string) bool => dom w |}; intros; cbn; try done.
  - unfold toy_get. split; [done|]. cbn. destruct (w !! (ns, id)) eqn:E; [split; [done|by apply elem_of_dom_2 in E]|].
    split; [|done]. intros _. by apply not_elem_of_dom.
  - split; [done|]. intros l [= <-] id. rewrite list_fmap_id. apply toy_list_elem.
  - unfold toy_update. cbn in c |- *. destruct (w !! (ns, c)) eqn:E; cbn; [exact (dom_delete_L w (ns, c))|].
    split_and!; [done| |done]. intros _. by apply not_elem_of_dom.
  - split; [done|]. exact (dom_insert_L w (ns, id) false).
  - unfold toy_update. cbn in t |- *. destruct (w !! (ns, t)) eqn:E; [|done]. cbn. apply elem_of_dom_2 in E.
    etrans; [exact (dom_insert_L w (ns, t) false)|]. set_solver.
Defined.

Definition toy_client (l : list (string * string * bool)) : Client Toy := MkClient (list_to_map l) ∅ ∅.
Lemma toy_cache_ok l : cache_ok (toy_client l).
Proof. intros ns id h _ _ Hl. cbn in Hl. discriminate. Qed.

Lemma delete_container_exact_witness :
  let c := toy_client [(("r.kukeon.io", "s_t_web_app"), true); (("r.kukeon.io", "s_t_web_root"), true)] in
  let '(c', r) := DeleteContainer "r.kukeon.io" "s_t_web_app" true c in
  r = None ∧ live c' = live c ∖ {[("r.kukeon.io", "s_t_web_app")]}.
Proof.
  intros c. pose proof (delete_container_exact "r.kukeon.io" "s_t_web_app" true c eq_refl eq_refl (toy_cache_ok _)) as Hd.
  destruct (DeleteContainer "r.kukeon.io" "s_t_web_app" true c) as [c' r] eqn:E.
  assert (Er : r = (DeleteContainer "r.kukeon.io" "s_t_web_app" true c).2) by by rewrite E.
  vm_compute in Er. subst r. split; [done|]. apply Hd.
Defined.

Lemma stop_succeeds_on_stopped_task_witness :
  let c := toy_client [(("r.kukeon.io", "s_t_web_app"), true)] in
  let opts := {| so_Signal := ""; so_Timeout := Some 5000000000%Z; so_Force := true |} in
  (StopContainer "r.kukeon.io" "s_t_web_app" opts c).2 = Ok 0%Z ∧
  ∃ (t : CTask) (w : Toy) s, (tsk_Status "r.kukeon.io" t w).2 = Ok s ∧ is_running s = false.
Proof.
  intros c opts. split; [vm_compute; reflexivity|].
  destruct (StopContainer "r.kukeon.io" "s_t_web_app" opts c) as [c' r] eqn:E.
  assert (Er : r = (StopContainer "r.kukeon.io" "s_t_web_app" opts c).2) by by rewrite E. vm_compute in Er. subst r.
  destruct (stop_succeeds_on_stopped_task "r.kukeon.io" "s_t_web_app" opts c c' 0 (fun _ _ => eq_refl) E) as (t & w & s & H1 & H2 & _).
  by exists t, w, s.
Defined.
