(* ===== verification/Namespaces.v ===== *)
(** * Namespaces: containerd namespaces and the drain that empties one
    (internal/ctr/namespaces.go)

    containerd deletes a namespace only when nothing is left in it.  The drain releases
    the leases, deletes the images, walks every known snapshotter until nothing can be
    removed, deletes the blobs and forces a garbage collection.  The services of containerd
    are the class [NamespaceServices]. *)

From Stdlib Require Import ZArith Lia.
From stdpp Require Import base gmap strings list.
From S2P Require Import Prelude Model.

Local Open Scope nat_scope.

(** An image of the store: its name, and its target's digest. *)
Record StoredImage := { si_Name : string; si_Digest : string }.

Class NamespaceServices (W : Type) := {
  (** connect when there is no connection yet *)
  nss_Connect : st W (option error);
  nss_List : st W (result (list string));
  nss_Create : string → st W (option error);
  nss_Delete : string → st W (option error);
  lease_List : string → st W (result (list string));
  (** with synchronous garbage collection *)
  lease_Delete : string → string → st W (option error);
  lease_Create : string → st W (result string);
  image_List : string → st W (result (list StoredImage));
  image_Delete : string → string → st W (option error);
  snap_Walk : string → string → st W (result (list string));
  snap_Remove : string → string → string → st W (option error);
  blob_Walk : string → st W (result (list string));
  blob_Delete : string → string → st W (option error)
}.

Definition KukeonKnownSnapshotters : list string := ["overlayfs"; "native"; "btrfs"; "zfs"; "devmapper"; "blockfile"].
Definition maxSnapshotPasses : nat := 32.

Section Namespaces.
Context {W : Type} `{NamespaceServices W}.

(** ** Namespaces *)

Definition CreateNamespace (namespace : string) : st W (option error) := nss_Create namespace.
Definition ListNamespaces : st W (result (list string)) := nss_List.
Definition GetNamespace (namespace : string) : st W (result string) :=
  let! l := nss_List in
  st_ret (match l with Err e => Err e | Ok l => Ok (if bool_decide (namespace ∈ l) then namespace else "") end).
Definition ExistsNamespace (namespace : string) : st W (result bool) :=
  let! ns := GetNamespace namespace in
  st_ret (match ns with Err e => Err e | Ok ns => Ok (String.eqb ns namespace) end).
Definition DeleteNamespace (namespace : string) : st W (option error) :=
  if String.eqb namespace "" then st_ret (Some (EOpaque "namespace name is required"))
  else
    let! c := nss_Connect in
    match c with
    | Some e => st_ret (Some (EWrap "failed to connect to containerd: %w" [e]))
    | None =>
        let! l := nss_List in
        match l with
        | Err e => st_ret (Some (EWrap "failed to list namespaces: %w" [e]))
        | Ok l =>
            if negb (bool_decide (namespace ∈ l)) then st_ret None
            else
              let! e := nss_Delete namespace in
              st_ret (match e with Some e => Some (EWrap "failed to delete namespace: %w" [e]) | None => None end)
        end
    end.

(** ** The drain *)

(** Deletes one by one; a failure is logged and the loop goes on. *)
Fixpoint deleteEach (del : string → st W (option error)) (l : list string) : st W unit :=
  match l with
  | [] => st_ret ()
  | x :: rest => let! _ := del x in deleteEach del rest
  end.
Definition drainListed (list : st W (result (list string))) (del : string → st W (option error)) : st W unit :=
  let! l := list in
  match l with Err _ => st_ret () | Ok l => deleteEach del l end.

Definition drainLeases (ns : string) : st W unit := drainListed (lease_List ns) (lease_Delete ns).
(** The key an image is deleted by; none when it has neither name nor digest. *)
Definition imageKey (i : StoredImage) : list string :=
  if negb (String.eqb (si_Name i) "") then [si_Name i]
  else if negb (String.eqb (si_Digest i) "") then [si_Digest i] else [].
Definition drainImages (ns : string) : st W unit :=
  drainListed (let! l := image_List ns in st_ret (match l with Ok l => Ok (l ≫= imageKey) | Err e => Err e end)) (image_Delete ns).
Definition drainBlobs (ns : string) : st W unit := drainListed (blob_Walk ns) (blob_Delete ns).

Fixpoint removeSnapshots (ns snapshotter : string) (keys : list string) (removed : nat) : st W nat :=
  match keys with
  | [] => st_ret removed
  | k :: rest =>
      let! e := snap_Remove ns snapshotter k in
      removeSnapshots ns snapshotter rest (match e with Some _ => removed | None => S removed end)
  end.
(** One pass in reverse walk order; the flag stops the loop. *)
Definition cleanupSnapshotPass (ns snapshotter : string) : st W (nat * bool) :=
  let! walked := snap_Walk ns snapshotter in
  match walked with
  | Err _ => st_ret (0, true)
  | Ok [] => st_ret (0, true)
  | Ok keys =>
      let! removed := removeSnapshots ns snapshotter (rev keys) 0 in
      st_ret (if removed =? 0 then (0, true) else (removed, false))
  end.
Fixpoint snapshotPasses (fuel : nat) (ns snapshotter : string) (total : nat) : st W nat :=
  match fuel with
  | O => st_ret total
  | S fuel =>
      let! (removed, done) := cleanupSnapshotPass ns snapshotter in
      if done then st_ret (total + removed) else snapshotPasses fuel ns snapshotter (total + removed)
  end.
Definition cleanupSnapshotsFor (ns snapshotter : string) : st W nat :=
  if String.eqb snapshotter "" then st_ret 0 else snapshotPasses maxSnapshotPasses ns snapshotter 0.

Fixpoint cleanupSnapshotters (ns : string) (l : list string) : st W unit :=
  match l with
  | [] => st_ret ()
  | s :: rest => let! _ := cleanupSnapshotsFor ns s in cleanupSnapshotters ns rest
  end.

Definition forceGCSweep (ns : string) : st W unit :=
  let! lease := lease_Create ns in
  match lease with
  | Err _ => st_ret ()
  | Ok l => let! _ := lease_Delete ns l in st_ret ()
  end.

Definition drainNamespaceResources (ns snapshotter : string) : st W unit :=
  let! _ := drainLeases ns in
  let! _ := drainImages ns in
  let! _ := cleanupSnapshotters ns (if String.eqb snapshotter "" then KukeonKnownSnapshotters else [snapshotter]) in
  let! _ := drainBlobs ns in
  forceGCSweep ns.
Definition CleanupNamespaceResources (ns snapshotter : string) : st W (option error) :=
  let! c := nss_Connect in
  match c with
  | Some e => st_ret (Some (EWrap "failed to connect to containerd: %w" [e]))
  | None => let! _ := drainNamespaceResources ns snapshotter in st_ret None
  end.

End Namespaces.

(** ** Theorems: the snapshot loop *)

Section SnapshotTheorems.
Context {W : Type} `{NamespaceServices W} (ns snapshotter : string).

(** The snapshots of one snapshotter, each with its parent; the walk is complete in some
    order, and a snapshot is removed exactly when no other one is built on it. *)
Class SnapshotLaws := {
  snaps : W → gmap string string;
  law_walk : ∀ w, snaps (snap_Walk ns snapshotter w).1 = snaps w ∧
    ∃ keys, (snap_Walk ns snapshotter w).2 = Ok keys ∧ NoDup keys ∧ ∀ k, k ∈ keys ↔ k ∈ dom (snaps w);
  law_remove : ∀ k w,
    if bool_decide (k ∈ dom (snaps w) ∧ map_Forall (fun _ p => p ≠ k) (snaps w))
    then (snap_Remove ns snapshotter k w).2 = None ∧ snaps (snap_Remove ns snapshotter k w).1 = delete k (snaps w)
    else is_Some (snap_Remove ns snapshotter k w).2 ∧ snaps (snap_Remove ns snapshotter k w).1 = snaps w
}.
Context `{!SnapshotLaws}.

(** No chain of snapshots built on each other is longer than [n]. *)
Definition stacked (n : nat) (m : gmap string string) : Prop :=
  ∃ rank : string → nat, ∀ k p, m !! k = Some p → rank k < n ∧ (p ∈ dom m → rank k < rank p).

Lemma stacked_zero m : stacked 0 m → m = ∅.
Proof. intros [rank Hr]. apply map_empty. intros k. destruct (m !! k) eqn:E; [|done]. destruct (Hr _ _ E). lia. Qed.

(** Removing in any order: only snapshots go, and every one without children goes. *)
Lemma removeSnapshots_spec keys n w :
  let '(w', r) := removeSnapshots ns snapshotter keys n w in
  snaps w' ⊆ snaps w ∧ n ≤ r ∧ (r = n → snaps w' = snaps w) ∧
  ∀ k, k ∈ keys → map_Forall (fun _ p => p ≠ k) (snaps w) → snaps w' !! k = None.
Proof.
  revert n w. induction keys as [|k keys IH]; intros n w; cbn.
  { split_and!; [done|done|done|]. intros k Hk. by apply elem_of_nil in Hk. }
  unfold st_bind. pose proof (law_remove k w) as Hl. destruct (snap_Remove ns snapshotter k w) as [w1 e]. cbn in Hl.
  specialize (IH (match e with Some _ => n | None => S n end) w1).
  destruct (removeSnapshots ns snapshotter keys _ w1) as [w2 r]. destruct IH as (Hsub & Hle & Heq & Hgone).
  assert (H1 : snaps w1 ⊆ snaps w ∧ (e ≠ None → snaps w1 = snaps w) ∧
               (map_Forall (fun _ p => p ≠ k) (snaps w) → snaps w1 !! k = None)).
  { case_bool_decide as Hc.
    - destruct Hl as [-> ->]. split_and!; [apply delete_subseteq|done|]. intros _. apply lookup_delete_eq.
    - destruct Hl as [[e' ->] ->]. split_and!; [done|done|]. intros Hch. apply not_elem_of_dom. intros Hk. by apply Hc. }
  destruct H1 as (H1 & H2 & H3). split_and!.
  - by etrans.
  - destruct e; lia.
  - intros ->. destruct e; [rewrite Heq by done; by apply H2|]. lia.
  - intros k' [->|Hk']%elem_of_cons Hch.
    + specialize (H3 Hch). by eapply lookup_weaken_None.
    + apply Hgone; [done|]. intros i q Hq. apply (Hch i). by eapply lookup_weaken.
Qed.

Lemma pass_spec n w :
  stacked (S n) (snaps w) →
  let '(w', (_, done)) := cleanupSnapshotPass ns snapshotter w in
  stacked n (snaps w') ∧ (done = true → snaps w' = ∅).
Proof.
  intros [rank Hr]. unfold cleanupSnapshotPass, st_bind. destruct (law_walk w) as [Hw (keys & Hk & _ & Hin)].
  destruct (snap_Walk ns snapshotter w) as [w1 r]. cbn in Hw, Hk. subst r.
  assert (Hempty : keys = [] → snaps w1 = ∅).
  { intros ->. rewrite Hw. apply dom_empty_inv_L. apply set_eq. intros k. rewrite <-Hin. by rewrite elem_of_nil, elem_of_empty. }
  destruct keys as [|k0 keys0].
  { cbn. rewrite Hempty by done. split; [|done]. exists (fun _ => 0). intros k p Hl. by rewrite lookup_empty in Hl. }
  set (keys := k0 :: keys0) in *. pose proof (removeSnapshots_spec (rev keys) 0 w1) as Hs.
  destruct (removeSnapshots ns snapshotter (rev keys) 0 w1) as [w2 r]. destruct Hs as (Hsub & _ & Heq & Hgone). rewrite Hw in *.
  assert (Hall : ∀ k, k ∈ dom (snaps w) → k ∈ rev keys)
    by (intros k Hk; apply list_elem_of_In; rewrite <-in_rev; by apply list_elem_of_In, Hin).
  assert (Hleaf : ∀ k, rank k = 0 → snaps w2 !! k = None).
  { intros k Hk0. destruct (decide (k ∈ dom (snaps w))) as [Hd|Hd].
    - apply Hgone; [by apply Hall|].
      intros k' p Hl ->. destruct (Hr _ _ Hl) as [_ Hp]. specialize (Hp Hd). lia.
    - apply not_elem_of_dom in Hd. by eapply lookup_weaken_None. }
  assert (Hst : stacked n (snaps w2)).
  { exists (fun k => pred (rank k)). intros k p Hl. pose proof (lookup_weaken _ _ _ _ Hl Hsub) as Hl'.
    destruct (Hr _ _ Hl') as [H1 H2].
    assert (rank k ≠ 0) by (intros E; by rewrite (Hleaf k E) in Hl).
    split; [lia|]. intros Hp. assert (p ∈ dom (snaps w)) by (by eapply subseteq_dom). specialize (H2 ltac:(done)). lia. }
  destruct (Nat.eqb_spec r 0) as [Hr0|Hr0]; cbn; (split; [done|]); [|done].
  intros _. rewrite Heq in Hgone |- * by done. apply map_empty. intros k. destruct (snaps w !! k) as [p|] eqn:El; [|done].
  (* a snapshot of least rank has no children, so it would have gone *)
  exfalso.
  clear -Hr Hgone Hall El. remember (rank k) as r0 eqn:Ek. revert k p El Ek.
  induction r0 as [r0 IH] using lt_wf_ind. intros k p El ->.
  destruct (decide (map_Forall (fun _ q => q ≠ k) (snaps w))) as [Hc|Hc].
  - rewrite (Hgone k) in El; [done| |done]. apply Hall. by apply elem_of_dom_2 in El.
  - apply map_not_Forall in Hc as (k' & q & Hl & Hq); [|solve_decision]. apply dec_stable in Hq. subst q.
    destruct (Hr _ _ Hl) as [_ Hlt]. specialize (Hlt (elem_of_dom_2 _ _ _ El)). eauto.
Qed.

(** C21: The snapshot loop empties a snapshotter: as long as no image stacks more than 32
    snapshots, the loop ends within its 32 passes with nothing left, in whatever order the
    walks list the snapshots. *)
Theorem snapshot_drain_empties w :
  snapshotter ≠ "" → stacked maxSnapshotPasses (snaps w) →
  snaps (cleanupSnapshotsFor ns snapshotter w).1 = ∅.
Proof.
  intros Hs. unfold cleanupSnapshotsFor. destruct (String.eqb_spec snapshotter ""); [done|].
  generalize maxSnapshotPasses as fuel, 0 as total. intros fuel. revert w.
  induction fuel as [|fuel IH]; intros w total Hst; cbn.
  - by apply stacked_zero.
  - unfold st_bind. pose proof (pass_spec fuel w Hst) as Hp.
    destruct (cleanupSnapshotPass ns snapshotter w) as [w1 [removed done]]. destruct Hp as [Hst' Hd].
    destruct done; [by apply Hd|]. by apply IH.
Qed.

End SnapshotTheorems.

(** ** A concrete snapshotter *)

Notation Stack := (gmap string string).
Definition stack_keys (w : Stack) : list string := (map_to_list w).*1.
#[export] Instance stack_services : NamespaceServices Stack := {|
  nss_Connect := st_ret None; nss_List := st_ret (Ok []); nss_Create := fun _ => st_ret None; nss_Delete := fun _ => st_ret None;
  lease_List := fun _ => st_ret (Ok []); lease_Delete := fun _ _ => st_ret None; lease_Create := fun _ => st_ret (Ok "gc");
  image_List := fun _ => st_ret (Ok []); image_Delete := fun _ _ => st_ret None;
  snap_Walk := fun _ _ w => (w, Ok (stack_keys w));
  snap_Remove := fun _ _ k w =>
    if bool_decide (k ∈ dom w ∧ map_Forall (fun _ p => p ≠ k) w) then (delete k w, None) else (w, Some (EOpaque "snapshot has children"));
  blob_Walk := fun _ => st_ret (Ok []); blob_Delete := fun _ _ => st_ret None |}.
#[export] Instance stack_laws ns sn : SnapshotLaws (W := Stack) ns sn.
Proof.
  refine {| snaps := fun w : Stack => w |}.
  - intros w. split; [done|]. exists (stack_keys w). split_and!; [done|apply NoDup_fst_map_to_list|].
    intros k. unfold stack_keys. rewrite list_elem_of_fmap, elem_of_dom. split.
    + intros ([k' p] & -> & Hl%elem_of_map_to_list). by exists p.
    + intros [p Hl]. exists (k, p). split; [done|]. by apply elem_of_map_to_list.
  - intros k w. cbn. by destruct (bool_decide _).
Defined.

(** An image of three layers with two containers on it. *)
Definition sample_stack : Stack := {[ "base" := ""; "layer" := "base"; "top" := "layer"; "web" := "top"; "db" := "top" ]}.
Lemma snapshot_drain_empties_witness :
  (cleanupSnapshotsFor (W := Stack) "r.kukeon.io" "overlayfs" sample_stack).1 = ∅ ∧
  (cleanupSnapshotsFor (W := Stack) "r.kukeon.io" "overlayfs" sample_stack).2 = 5.
Proof.
  split; [|vm_compute; reflexivity].
  assert (Hst : stacked maxSnapshotPasses (snaps "r.kukeon.io" "overlayfs" sample_stack)); [|exact
    (snapshot_drain_empties "r.kukeon.io" "overlayfs" sample_stack ltac:(done) Hst)].
  exists (fun k => if String.eqb k "" then 4 else if String.eqb k "base" then 3 else if String.eqb k "layer" then 2 else if String.eqb k "top" then 1 else 0).
  intros k p Hl. unfold sample_stack in Hl. cbn [snaps stack_laws] in Hl.
  repeat (apply lookup_insert_Some in Hl as [[<- <-]|[_ Hl]]; [split; [unfold maxSnapshotPasses; cbn; lia|intros _; cbn; lia]|]).
  apply lookup_singleton_Some in Hl as [<- <-]. split; [unfold maxSnapshotPasses; cbn; lia|intros _; cbn; lia].
Defined.
