(* ===== verification/Subnet.v ===== *)
(** * Subnet: the per-space subnet allocator (internal/cni/subnet.go)

    IPv4 addresses are 32-bit words; the metadata tree the allocator scans is a map
    from the paths of its state files to their contents.  The path of a space's file is
    joined from its names as filepath.Join does it, so the names "." and ".." have the
    effect they have on disk. *)

From Stdlib Require Import ZArith String.
From stdpp Require Import base gmap strings list pretty.
From S2P Require Import Prelude Model Sha256 Layout.

Local Open Scope Z_scope.

(** ** IPv4 addresses *)

Definition ipv4Bits : Z := 32.
Definition ipv4OctetBits : Z := 8.

(** A 4-byte net.IP. *)
Record IPv4 := { ip0 : Z; ip1 : Z; ip2 : Z; ip3 : Z }.

Definition ipToUint32 (ip : IPv4) : Z :=
  Z.lor (Z.shiftl (ip0 ip) 24)
    (Z.lor (Z.shiftl (ip1 ip) 16) (Z.lor (Z.shiftl (ip2 ip) 8) (ip3 ip))).

(** byte(v >> n) *)
Definition byteAt (v n : Z) : Z := Z.land (Z.shiftr v n) 255.

Definition uint32ToIP (v : Z) : IPv4 :=
  {| ip0 := byteAt v 24; ip1 := byteAt v 16; ip2 := byteAt v 8; ip3 := byteAt v 0 |}.

(** (net.IP).String on a 4-byte address *)
Definition ip_String (ip : IPv4) : string :=
  Itoa (ip0 ip) +:+ "." +:+ Itoa (ip1 ip) +:+ "." +:+ Itoa (ip2 ip) +:+ "." +:+ Itoa (ip3 ip).

(** ** net.ParseCIDR on IPv4 text *)

Definition digit (c : Ascii.ascii) : option Z :=
  let n := Z.of_nat (Ascii.nat_of_ascii c) in
  if (48 <=? n) && (n <=? 57) then Some (n - 48) else None.

Fixpoint decimal (acc : Z) (s : string) : option Z :=
  match s with
  | EmptyString => Some acc
  | String c s' => match digit c with Some d => decimal (10 * acc + d) s' | None => None end
  end.

Definition parseNat (s : string) : option Z :=
  if String.eqb s "" then None else decimal 0 s.

(** A decimal octet: no leading zero, at most 255. *)
Definition parseOctet (s : string) : option Z :=
  match s with
  | String c (String _ _) => if Ascii.eqb c (Ascii.ascii_of_nat 48) then None
      else match parseNat s with Some n => if n <=? 255 then Some n else None | None => None end
  | _ => match parseNat s with Some n => if n <=? 255 then Some n else None | None => None end
  end.

Fixpoint splitOn (c : Ascii.ascii) (s : string) : list string :=
  match s with
  | EmptyString => [""]
  | String d s' =>
      if Ascii.eqb d c then "" :: splitOn c s'
      else match splitOn c s' with
           | x :: xs => String d x :: xs
           | [] => [String d ""]
           end
  end.

Definition parseIPv4 (s : string) : option IPv4 :=
  match splitOn (Ascii.ascii_of_nat 46) s with
  | [a; b; c; d] =>
      match parseOctet a, parseOctet b, parseOctet c, parseOctet d with
      | Some a, Some b, Some c, Some d => Some {| ip0 := a; ip1 := b; ip2 := c; ip3 := d |}
      | _, _, _, _ => None
      end
  | _ => None
  end.

(** The network address (as a word, host bits cleared) and the mask size.  IPv6
    text is not parsed: the allocator rejects it with the same sentinel. *)
Definition ParseCIDR (s : string) : option (Z * Z) :=
  match splitOn (Ascii.ascii_of_nat 47) s with
  | [addr; mask] =>
      match parseIPv4 addr, parseNat mask with
      | Some ip, Some n =>
          if n <=? 32
          then Some (Z.shiftl (Z.shiftr (ipToUint32 ip) (32 - n)) (32 - n), n) else None
      | _, _ => None
      end
  | _ => None
  end.

(** ** The allocator *)

Record SubnetAllocator := {
  sa_dataRoot : string;
  sa_parentCIDR : string;
  sa_prefixLen : Z;
  sa_base : Z;            (* parsedNet.IP *)
  sa_parentSize : Z;
  sa_parentBits : Z;
  sa_subnetSpan : Z
}.

(** uint32(1) << n *)
Definition shl32 (n : Z) : Z := w32 (Z.shiftl 1 n).

Definition NewSubnetAllocator (runPath parentCIDR : string) (prefixLen : Z) : result SubnetAllocator :=
  match ParseCIDR parentCIDR with
  | None => Err (EWrap "%w: parent %q: %w" [ESentinel ErrInvalidSubnetCIDR])
  | Some (base, parentBits) =>
      if (prefixLen <=? parentBits) || (ipv4Bits <? prefixLen) then
        Err (EWrap "%w: prefix /%d must be longer than parent /%d and at most /%d"
               [ESentinel ErrInvalidSubnetCIDR])
      else Ok {| sa_dataRoot := FJoin [runPath; KukeonMetadataSubdir];
                 sa_parentCIDR := parentCIDR; sa_prefixLen := prefixLen; sa_base := base;
                 sa_parentSize := shl32 (prefixLen - parentBits); sa_parentBits := parentBits;
                 sa_subnetSpan := shl32 (ipv4Bits - prefixLen) |}
  end.

Definition DefaultSubnetParentCIDR : string := "10.88.0.0/16".
Definition DefaultSubnetPrefixLen : Z := 24.

(** The process-global parent is the state this function threads. *)
Definition ConfigureSubnetParentCIDR (cidr : string) : st string (option error) :=
  fun configured =>
    let cidr := TrimSpace cidr in
    if String.eqb cidr "" then (configured, None)
    else match NewSubnetAllocator "" cidr DefaultSubnetPrefixLen with
         | Err e => (configured, Some e)
         | Ok _ => (cidr, None)
         end.

(** The panic of the source is [Err (EPanic _)]. *)
Definition NewDefaultSubnetAllocator (configured runPath : string) : result SubnetAllocator :=
  match NewSubnetAllocator runPath configured DefaultSubnetPrefixLen with
  | Ok a => Ok a
  | Err _ => Err (EPanic "kukeon: default subnet allocator misconfigured")
  end.

(** *** The metadata tree *)

Definition SubnetStateFileName : string := "network.json".

Definition statePath (a : SubnetAllocator) (realm space : string) : string :=
  FJoin [sa_dataRoot a; realm; space; SubnetStateFileName].

Inductive stateFile :=
| FileState (subnetCIDR : string)   (* well-formed JSON *)
| FileNotJSON
| FileUnreadable (e : error).

Record Disk := {
  d_files : gmap string stateFile;     (* by cleaned path *)
  d_rootErr : option error;            (* ReadDir of the root, other than not-exist *)
  d_realmErr : gmap string error;      (* ReadDir of a realm directory, likewise *)
  d_writeErr : option error;           (* mkdir or write of a state file *)
  d_removeErr : option error
}.

Definition with_files (d : Disk) (f : gmap string stateFile) : Disk :=
  {| d_files := f; d_rootErr := d_rootErr d; d_realmErr := d_realmErr d;
     d_writeErr := d_writeErr d; d_removeErr := d_removeErr d |}.

(** A path cannot be opened or removed when a state file is on the way to it, or
    when it is a directory on the way to one. *)
Definition obstructed (d : Disk) (path : string) : bool :=
  existsb (fun q => HasPrefix path (q +:+ "/") || HasPrefix q (path +:+ "/"))
    (fst <$> map_to_list (d_files d)).

Definition stateContent (f : stateFile) : result string :=
  match f with
  | FileUnreadable e => Err (EWrap "read subnet state %s: %w" [e])
  | FileNotJSON => Err (EWrap "%w: %s: %w" [ESentinel ErrSubnetStateCorrupt])
  | FileState cidr =>
      if String.eqb (TrimSpace cidr) ""
      then Err (EWrap "%w: %s: subnetCIDR is empty" [ESentinel ErrSubnetStateCorrupt])
      else Ok cidr
  end.

Definition readState (d : Disk) (path : string) : result string :=
  match d_files d !! path with
  | Some f => stateContent f
  | None => if obstructed d path
            then Err (EWrap "read subnet state %s: %w" [EOpaque "not a directory"]) else Ok ""
  end.

Definition LoadAssigned (a : SubnetAllocator) (d : Disk) (realm space : string) : result string :=
  readState d (statePath a realm space).

(** What a directory listing can name. *)
Definition entry_name (s : string) : bool :=
  negb (String.eqb s "" || String.eqb s "." || String.eqb s "..").

(** The realm and space directories under which the scan opens this path. *)
Definition scanEntry (a : SubnetAllocator) (path : string) : option (string * string) :=
  match reverse (split_on slash path) with
  | _ :: space :: realm :: _ =>
      if entry_name realm && entry_name space
         && String.eqb path (FJoin [FJoin [sa_dataRoot a; realm]; space; SubnetStateFileName])
      then Some (realm, space) else None
  | _ => None
  end.

(** The set of subnets in use: the state files two directories below the root; a
    corrupt file is skipped. *)
Definition usedSubnets (a : SubnetAllocator) (d : Disk) : gset string :=
  list_to_set (omap (fun kf => match scanEntry a kf.1, readState d kf.1 with
                               | Some _, Ok s => if String.eqb s "" then None else Some s
                               | _, _ => None
                               end) (map_to_list (d_files d))).

Definition usedSubnetsLocked (a : SubnetAllocator) (d : Disk) : result (gset string) :=
  match d_rootErr d with
  | Some e => Err (EWrap "read metadata root %s: %w" [e])
  | None =>
      match map_to_list (d_realmErr d) with
      | (_, e) :: _ => Err (EWrap "read realm dir %s: %w" [e])
      | [] => Ok (usedSubnets a d)
      end
  end.

(** The CIDR text of the i-th chunk. *)
Definition chunkAddr (a : SubnetAllocator) (i : Z) : Z :=
  w32 (sa_base a + w32 (w32 i * sa_subnetSpan a)).
Definition chunkCIDR (a : SubnetAllocator) (i : Z) : string :=
  ip_String (uint32ToIP (chunkAddr a i)) +:+ "/" +:+ Itoa (sa_prefixLen a).

Fixpoint firstFreeFrom (a : SubnetAllocator) (used : gset string) (n : nat) (i : Z)
    : result string :=
  match n with
  | O => Err (EWrap "%w: parent %s exhausted at /%d" [ESentinel ErrSubnetExhausted])
  | S n' => if bool_decide (chunkCIDR a i ∈ used) then firstFreeFrom a used n' (i + 1)
            else Ok (chunkCIDR a i)
  end.

Definition firstFreeLocked (a : SubnetAllocator) (used : gset string) : result string :=
  firstFreeFrom a used (Z.to_nat (sa_parentSize a)) 0.

Definition writeSubnetState (d : Disk) (path subnet : string) : Disk * option error :=
  match d_writeErr d with
  | Some e => (d, Some (EWrap "write subnet state %s: %w" [e]))
  | None => (with_files d (<[path := FileState subnet]> (d_files d)), None)
  end.

(** Runs under the allocator's mutex. *)
Definition Allocate (a : SubnetAllocator) (realm space : string) : st Disk (result string) :=
  fun d =>
    if String.eqb (TrimSpace realm) "" then
      (d, Err (EWrap "%w: realm name is required" [ESentinel ErrConfig]))
    else if String.eqb (TrimSpace space) "" then
      (d, Err (EWrap "%w: space name is required" [ESentinel ErrConfig]))
    else
      let target := statePath a realm space in
      match readState d target with
      | Err e => (d, Err e)
      | Ok existing =>
          if negb (String.eqb existing "") then (d, Ok existing)
          else match usedSubnetsLocked a d with
          | Err e => (d, Err e)
          | Ok used =>
              match firstFreeLocked a used with
              | Err e => (d, Err e)
              | Ok free =>
                  match writeSubnetState d target free with
                  | (d', Some e) => (d', Err e)
                  | (d', None) => (d', Ok free)
                  end
              end
          end
      end.

Definition Release (a : SubnetAllocator) (realm space : string) : st Disk (option error) :=
  fun d =>
    if String.eqb (TrimSpace realm) "" || String.eqb (TrimSpace space) "" then (d, None)
    else
      let target := statePath a realm space in
      match d_files d !! target, d_removeErr d with
      | Some _, Some e => (d, Some (EWrap "remove subnet state %s: %w" [e]))
      | Some _, None => (with_files d (delete target (d_files d)), None)
      | None, _ => if obstructed d target
                   then (d, Some (EWrap "remove subnet state %s: %w" [EOpaque "not a directory"]))
                   else (d, None)
      end.

Example default_first :
  (∀ a, NewDefaultSubnetAllocator DefaultSubnetParentCIDR "/opt/kukeon" = Ok a →
   firstFreeLocked a {["10.88.0.0/24"]} = Ok "10.88.1.0/24").
Proof. intros a [= <-]. vm_compute. reflexivity. Qed.

(** ** Theorems: addresses *)

Lemma lor_bound n x y : 0 ≤ n → 0 ≤ x < 2 ^ n → 0 ≤ y < 2 ^ n → 0 ≤ Z.lor x y < 2 ^ n.
Proof.
  intros Hn [Hx1 Hx2] [Hy1 Hy2]. split; [by apply Z.lor_nonneg|].
  destruct (Z.eq_dec (Z.lor x y) 0) as [->|Hne]; [lia|].
  apply Z.log2_lt_pow2; [pose proof (proj2 (Z.lor_nonneg x y) (conj Hx1 Hy1)); lia|].
  rewrite Z.log2_lor by done.
  assert (Hl : ∀ z, 0 ≤ z < 2 ^ n → Z.log2 z < n ∨ z = 0).
  { intros z Hz. destruct (Z.eq_dec z 0); [by right|left]. apply Z.log2_lt_pow2; lia. }
  destruct (Hl x) as [?| ->]; [lia| |]; destruct (Hl y) as [?| ->]; try lia;
    rewrite ?Z.lor_0_l, ?Z.lor_0_r in Hne; simpl; try lia.
  - destruct (Z.eq_dec n 0) as [->|]; [|lia]. simpl in *. lia.
  - destruct (Z.eq_dec n 0) as [->|]; [|lia]. simpl in *. lia.
Qed.

Lemma byteAt_bound v n : 0 ≤ byteAt v n < 256.
Proof. unfold byteAt. change 255 with (Z.ones 8). rewrite Z.land_ones by lia. apply Z.mod_pos_bound. lia. Qed.

Lemma byteAt_bit v n i : 0 ≤ n → 0 ≤ i → Z.testbit (byteAt v n) i = (i <? 8) && Z.testbit v (i + n).
Proof.
  intros Hn Hi. unfold byteAt. change 255 with (Z.ones 8).
  rewrite Z.land_spec, Z.shiftr_spec, Z.testbit_ones by lia.
  destruct (Z.leb_spec 0 i); [|lia]. simpl. apply andb_comm.
Qed.

Lemma shiftl_byte_bit v n m i :
  0 ≤ n → 0 ≤ m → 0 ≤ i →
  Z.testbit (Z.shiftl (byteAt v n) m) i = (m <=? i) && (i <? m + 8) && Z.testbit v (i - m + n).
Proof.
  intros Hn Hm Hi. rewrite Z.shiftl_spec by lia.
  destruct (Z.leb_spec m i); [|by rewrite Z.testbit_neg_r by lia].
  rewrite byteAt_bit by lia. simpl. f_equal. lia.
Qed.

Lemma octets_pack v : 0 ≤ v < 2 ^ 32 → ipToUint32 (uint32ToIP v) = v.
Proof.
  intros Hv. unfold ipToUint32, uint32ToIP. cbn [ip0 ip1 ip2 ip3]. apply Z.bits_inj'. intros i Hi.
  rewrite !Z.lor_spec, !shiftl_byte_bit, byteAt_bit by lia.
  replace (i - 24 + 24) with i by lia. replace (i - 16 + 16) with i by lia.
  replace (i - 8 + 8) with i by lia. rewrite Z.add_0_r.
  destruct (Z.testbit v i) eqn:E; [|by rewrite !andb_false_r].
  rewrite !andb_true_r.
  assert (Hlt : i < 32).
  { destruct (Z.lt_ge_cases i 32) as [|Hge]; [done|]. rewrite Z.bits_above_log2 in E; try done; [lia|].
    destruct (Z.eq_dec v 0) as [->|]; [simpl; lia|].
    assert (Z.log2 v < 32) by (apply Z.log2_lt_pow2; lia). lia. }
  repeat match goal with |- context [Z.leb ?a ?b] => destruct (Z.leb_spec a b)
                       | |- context [Z.ltb ?a ?b] => destruct (Z.ltb_spec a b) end; simpl; lia || done.
Qed.

(** *** The text of an address determines it *)

Lemma octet_text b :
  0 ≤ b < 256 →
  avoids (Ascii.ascii_of_nat 46) (Itoa b) = true ∧ avoids (Ascii.ascii_of_nat 47) (Itoa b) = true.
Proof.
  intros Hb.
  assert (HF : forallb (fun b => avoids (Ascii.ascii_of_nat 46) (Itoa b)
    && avoids (Ascii.ascii_of_nat 47) (Itoa b)) (seqZ 0 256) = true) by (vm_compute; reflexivity).
  rewrite forallb_elem in HF. apply andb_true_iff, HF, elem_of_seqZ. lia.
Qed.

Lemma Itoa_inj x y : Itoa x = Itoa y → x = y.
Proof. apply (inj pretty). Qed.

Lemma ip_String_avoids_slash v : avoids (Ascii.ascii_of_nat 47) (ip_String (uint32ToIP v)) = true.
Proof.
  unfold ip_String. rewrite !avoids_app. cbn [ip0 ip1 ip2 ip3 uint32ToIP].
  rewrite !(proj2 (octet_text _ (byteAt_bound v _))). done.
Qed.

Lemma ip_String_inj u v :
  0 ≤ u < 2 ^ 32 → 0 ≤ v < 2 ^ 32 →
  ip_String (uint32ToIP u) = ip_String (uint32ToIP v) → u = v.
Proof.
  intros Hu Hv E. rewrite <-(octets_pack u Hu), <-(octets_pack v Hv). unfold ip_String in E.
  pose proof (fun w n => proj1 (octet_text (byteAt w n) (byteAt_bound w n))) as HA.
  apply avoids_split in E as [E0%Itoa_inj E]; [|apply HA..].
  apply avoids_split in E as [E1%Itoa_inj E]; [|apply HA..].
  apply avoids_split in E as [E2%Itoa_inj E3%Itoa_inj]; [|apply HA..].
  unfold ipToUint32. by rewrite E0, E1, E2, E3.
Qed.

(** *** The allocator's chunks *)

(** What NewSubnetAllocator establishes. *)
Record AllocWF (a : SubnetAllocator) : Prop := {
  aw_bits : 0 ≤ sa_parentBits a;
  aw_prefix : sa_parentBits a < sa_prefixLen a ≤ 32;
  aw_base : 0 ≤ sa_base a;
  aw_room : sa_base a + 2 ^ (32 - sa_parentBits a) ≤ 2 ^ 32;
  aw_size : 0 ≤ sa_parentSize a ≤ 2 ^ (sa_prefixLen a - sa_parentBits a);
  aw_span : sa_subnetSpan a = 2 ^ (32 - sa_prefixLen a)
}.

Lemma w32_small x : 0 ≤ x < 2 ^ 32 → w32 x = x.
Proof.
  intros Hx. unfold w32. change 4294967295 with (Z.ones 32). rewrite Z.land_ones by lia.
  by apply Z.mod_small.
Qed.

Lemma w32_bound x : 0 ≤ w32 x < 2 ^ 32.
Proof. unfold w32. change 4294967295 with (Z.ones 32). rewrite Z.land_ones by lia. apply Z.mod_pos_bound. lia. Qed.

Lemma shl32_le n : 0 ≤ n → 0 ≤ shl32 n ≤ 2 ^ n.
Proof.
  intros Hn. unfold shl32. pose proof (w32_bound (Z.shiftl 1 n)) as HB. split; [lia|].
  rewrite Z.shiftl_1_l in *. unfold w32 in *. change 4294967295 with (Z.ones 32) in *.
  rewrite Z.land_ones in * by lia. apply Z.mod_le; lia.
Qed.

Lemma decimal_nonneg s acc n : 0 ≤ acc → decimal acc s = Some n → 0 ≤ n.
Proof.
  revert acc. induction s as [|c s IH]; simpl; intros acc Ha; [by intros [= <-]|].
  unfold digit. destruct (_ && _) eqn:E; [|done]. apply IH.
  apply andb_true_iff in E as [E _]. apply Z.leb_le in E. lia.
Qed.

Lemma parseNat_nonneg s n : parseNat s = Some n → 0 ≤ n.
Proof. unfold parseNat. destruct (String.eqb s ""); [done|]. by apply decimal_nonneg. Qed.

Lemma parseOctet_bound s n : parseOctet s = Some n → 0 ≤ n < 2 ^ 8.
Proof.
  assert (HB : match parseNat s with Some n => if n <=? 255 then Some n else None | None => None end
               = Some n → 0 ≤ n < 2 ^ 8).
  { destruct (parseNat s) as [m|] eqn:E; [|done]. destruct (Z.leb_spec m 255); [|done].
    intros [= <-]. apply parseNat_nonneg in E. lia. }
  unfold parseOctet. destruct s as [|c [|c' s]]; try exact HB. destruct (Ascii.eqb c _); [done|exact HB].
Qed.

Lemma ipToUint32_bound s ip : parseIPv4 s = Some ip → 0 ≤ ipToUint32 ip < 2 ^ 32.
Proof.
  unfold parseIPv4. destruct (splitOn _ s) as [|a [|b [|c [|d [|]]]]]; try done.
  destruct (parseOctet a) as [a'|] eqn:Ea, (parseOctet b) as [b'|] eqn:Eb,
    (parseOctet c) as [c'|] eqn:Ec, (parseOctet d) as [d'|] eqn:Ed; try done.
  intros [= <-]. apply parseOctet_bound in Ea, Eb, Ec, Ed. unfold ipToUint32. simpl ip0. simpl ip1.
  simpl ip2. simpl ip3. rewrite !Z.shiftl_mul_pow2 by lia.
  repeat (apply lor_bound; [lia|lia|]). lia.
Qed.

Lemma NewSubnetAllocator_wf run cidr p a : NewSubnetAllocator run cidr p = Ok a → AllocWF a.
Proof.
  unfold NewSubnetAllocator. destruct (ParseCIDR cidr) as [[base bits]|] eqn:E; [|done].
  destruct (Z.leb_spec p bits), (Z.ltb_spec ipv4Bits p); simpl; try done.
  intros [= <-]. unfold ipv4Bits in *. revert E. unfold ParseCIDR.
  destruct (splitOn _ cidr) as [|addr [|mask [|]]]; try done.
  destruct (parseIPv4 addr) as [ip|] eqn:EI; [|done].
  destruct (parseNat mask) as [n|] eqn:EN; [|done].
  destruct (Z.leb_spec n 32); [|done]. intros [= <- <-].
  apply ipToUint32_bound in EI. apply parseNat_nonneg in EN.
  rewrite Z.shiftl_mul_pow2, Z.shiftr_div_pow2 by lia.
  set (u := ipToUint32 ip) in *. set (k := 2 ^ (32 - n)).
  assert (Hk : 0 < k) by (apply Z.pow_pos_nonneg; lia).
  assert (H32 : 2 ^ 32 = 2 ^ n * k) by (unfold k; rewrite <-Z.pow_add_r by lia; f_equal; lia).
  assert (Hq : 0 ≤ u / k) by (apply Z.div_pos; lia).
  split; simpl; try lia.
  - fold k. assert (u / k < 2 ^ n) by (apply Z.div_lt_upper_bound; lia). rewrite H32. nia.
  - apply shl32_le. lia.
  - unfold shl32. rewrite Z.shiftl_1_l. apply w32_small. split; [apply Z.pow_nonneg; lia|].
    apply Z.pow_lt_mono_r; lia.
Qed.

Section Chunks.
Context (a : SubnetAllocator) (WF : AllocWF a).

Lemma span_pos : 0 < sa_subnetSpan a.
Proof. destruct WF. rewrite aw_span0. apply Z.pow_pos_nonneg; lia. Qed.

(** The chunk arithmetic does not wrap. *)
Lemma chunkAddr_exact i :
  0 ≤ i < sa_parentSize a →
  chunkAddr a i = sa_base a + i * sa_subnetSpan a ∧
  chunkAddr a i + sa_subnetSpan a ≤ sa_base a + 2 ^ (32 - sa_parentBits a).
Proof.
  intros Hi. destruct WF as [Hb Hp Hbase Hroom Hsize Hspan]. pose proof span_pos as Hsp.
  assert (Hmul : 2 ^ (32 - sa_parentBits a)
                 = 2 ^ (sa_prefixLen a - sa_parentBits a) * sa_subnetSpan a)
    by (rewrite Hspan, <-Z.pow_add_r by lia; f_equal; lia).
  assert (Hle : (i + 1) * sa_subnetSpan a ≤ 2 ^ (32 - sa_parentBits a)) by (rewrite Hmul; nia).
  assert (Hi32 : 0 ≤ i < 2 ^ 32) by nia.
  assert (Hio : 0 ≤ i * sa_subnetSpan a < 2 ^ 32) by nia.
  unfold chunkAddr. rewrite (w32_small i), (w32_small (i * _)), w32_small by nia. split; nia.
Qed.

Lemma chunkCIDR_inj i j :
  0 ≤ i < sa_parentSize a → 0 ≤ j < sa_parentSize a → chunkCIDR a i = chunkCIDR a j → i = j.
Proof.
  intros Hi Hj E. unfold chunkCIDR in E.
  apply avoids_split in E as [E _]; [|apply ip_String_avoids_slash..].
  destruct (chunkAddr_exact i Hi) as [Ai _], (chunkAddr_exact j Hj) as [Aj _].
  apply ip_String_inj in E; [|apply w32_bound..]. pose proof span_pos. nia.
Qed.

Lemma octet_head b : 0 ≤ b < 256 → ∃ c s, Itoa b = String c s ∧ is_space c = false.
Proof.
  intros Hb.
  assert (HF : forallb (fun b => match Itoa b with
    String c _ => negb (is_space c) | EmptyString => false end) (seqZ 0 256) = true)
    by (vm_compute; reflexivity).
  rewrite forallb_elem in HF. assert (Hin : b ∈ seqZ 0 256) by (apply elem_of_seqZ; lia).
  specialize (HF b Hin).
  destruct (Itoa b) as [|c s]; [done|]. apply negb_true_iff in HF. eauto.
Qed.

Lemma chunkCIDR_nonempty i : TrimSpace (chunkCIDR a i) ≠ "" ∧ chunkCIDR a i ≠ "".
Proof.
  unfold chunkCIDR, ip_String. cbn [ip0 uint32ToIP].
  destruct (octet_head (byteAt (chunkAddr a i) 24) (byteAt_bound _ _)) as (c & s & -> & Hc).
  split; [by apply TrimSpace_head|done].
Qed.

(** *** The lowest free chunk *)

Lemma firstFreeFrom_Ok used n i c :
  firstFreeFrom a used n i = Ok c →
  ∃ j, i ≤ j < i + Z.of_nat n ∧ c = chunkCIDR a j ∧ c ∉ used ∧
       ∀ k, i ≤ k < j → chunkCIDR a k ∈ used.
Proof.
  revert i. induction n as [|n IH]; intros i; cbn [firstFreeFrom]; [done|].
  case_bool_decide as Hin.
  - intros HE. destruct (IH _ HE) as (j & Hj & -> & Hn & Hk). exists j. split; [lia|].
    split; [done|]. split; [done|]. intros k Hki.
    destruct (Z.eq_dec k i) as [->|]; [done|]. apply Hk. lia.
  - intros [= <-]. exists i. split; [lia|]. split; [done|]. split; [done|]. lia.
Qed.

Lemma firstFreeFrom_Err used n i e :
  firstFreeFrom a used n i = Err e →
  error_is ErrSubnetExhausted e = true ∧ ∀ k, i ≤ k < i + Z.of_nat n → chunkCIDR a k ∈ used.
Proof.
  revert i. induction n as [|n IH]; intros i; cbn [firstFreeFrom].
  { intros [= <-]. split; [done|lia]. }
  case_bool_decide as Hin; [|done]. intros HE. destruct (IH _ HE) as [He Hk].
  split; [done|]. intros k Hki. destruct (Z.eq_dec k i) as [->|]; [done|]. apply Hk. lia.
Qed.
End Chunks.

(** ** Theorems: assignments *)

(** The subnet recorded in a state file that can be read ... *)
Definition recorded (d : Disk) (path c : string) : Prop := readState d path = Ok c ∧ c ≠ "".
(** ... and the one recorded for a space. *)
Definition assigned (a : SubnetAllocator) (d : Disk) (key : string * string) (c : string) : Prop :=
  recorded d (statePath a key.1 key.2) c.
(** The scan opens this path. *)
Definition scanned (a : SubnetAllocator) (path : string) : Prop := is_Some (scanEntry a path).

Lemma recorded_file d path c : recorded d path c → ∃ f, d_files d !! path = Some f ∧ stateContent f = Ok c.
Proof.
  unfold recorded, readState. destruct (d_files d !! path) as [f|]; [naive_solver|].
  destruct (obstructed d path); naive_solver.
Qed.

Lemma usedSubnets_spec a d c : c ∈ usedSubnets a d ↔ ∃ path, scanned a path ∧ recorded d path c.
Proof.
  unfold usedSubnets. rewrite elem_of_list_to_set, list_elem_of_omap. split.
  - intros ([path f] & Hin%elem_of_map_to_list & Hc). cbn [fst snd] in *. exists path.
    unfold scanned, recorded. destruct (scanEntry a path); [|done].
    destruct (readState d path) as [x|]; [|done].
    destruct (String.eqb_spec x ""); [done|]. injection Hc as ->. eauto.
  - intros (path & [e He] & Hrec). pose proof (recorded_file _ _ _ Hrec) as (f & Hf & _).
    exists (path, f). split; [by apply elem_of_map_to_list|]. cbn [fst snd]. destruct Hrec as [-> Hne].
    rewrite He. by apply String.eqb_neq in Hne as ->.
Qed.

(** What Allocate did, on success. *)
Lemma Allocate_Ok a realm space d d' c :
  Allocate a realm space d = (d', Ok c) →
  (assigned a d (realm, space) c ∧ d' = d) ∨
  (readState d (statePath a realm space) = Ok "" ∧
   (∃ i, 0 ≤ i < sa_parentSize a ∧ c = chunkCIDR a i ∧
         (∀ k, 0 ≤ k < i → ∃ path, scanned a path ∧ recorded d path (chunkCIDR a k))) ∧
   (∀ path, scanned a path → ¬ recorded d path c) ∧
   d' = with_files d (<[statePath a realm space := FileState c]> (d_files d))).
Proof.
  unfold Allocate. destruct (String.eqb (TrimSpace realm) ""); [done|].
  destruct (String.eqb (TrimSpace space) ""); [done|]. cbv zeta.
  destruct (readState d _) as [existing|e] eqn:ER; [|done].
  destruct (String.eqb_spec existing "") as [->|Hne]; simpl.
  2:{ intros [= <- <-]. left. done. }
  unfold usedSubnetsLocked. destruct (d_rootErr d); [done|].
  destruct (map_to_list (d_realmErr d)) as [|[? ?] ?]; [|done].
  destruct (firstFreeLocked a (usedSubnets a d)) as [free|e] eqn:EF; [|done].
  unfold writeSubnetState. destruct (d_writeErr d); [done|]. intros [= <- <-].
  apply firstFreeFrom_Ok in EF as (j & Hj & -> & Hn & Hk). right. split; [done|].
  rewrite usedSubnets_spec in Hn. split; [|split; [naive_solver|done]].
  exists j. split; [lia|]. split; [done|]. intros k Hkj. apply usedSubnets_spec. by apply Hk.
Qed.

Lemma chunk_content a i : stateContent (FileState (chunkCIDR a i)) = Ok (chunkCIDR a i).
Proof. unfold stateContent. by rewrite (proj2 (String.eqb_neq _ _) (proj1 (chunkCIDR_nonempty a i))). Qed.

(** Allocation is idempotent and exact: a successful Allocate leaves the
    returned subnet recorded for the space, a second call returns the same subnet
    and changes nothing, and no other state file is touched. *)
Theorem allocate_idempotent a realm space d d' c :
  Allocate a realm space d = (d', Ok c) →
  assigned a d' (realm, space) c ∧ Allocate a realm space d' = (d', Ok c) ∧
  ∀ path, path ≠ statePath a realm space → d_files d' !! path = d_files d !! path.
Proof.
  intros HE.
  assert (HA : assigned a d' (realm, space) c ∧
    ∀ path, path ≠ statePath a realm space → d_files d' !! path = d_files d !! path).
  { destruct (Allocate_Ok _ _ _ _ _ _ HE) as [[HA ->]|(_ & (i & _ & -> & _) & _ & ->)].
    { split; [exact HA|]. intros key _. reflexivity. }
    split; [|intros key Hk; simpl; by rewrite lookup_insert_ne].
    unfold assigned, recorded, readState. cbn [with_files d_files fst snd].
    rewrite lookup_insert_eq, chunk_content. split; [done|apply chunkCIDR_nonempty]. }
  destruct HA as [HA Hother]. split; [done|]. split; [|done].
  destruct HA as [HR HN]. unfold Allocate in *.
  destruct (String.eqb (TrimSpace realm) ""); [done|].
  destruct (String.eqb (TrimSpace space) ""); [done|]. simpl in HR |- *. rewrite HR.
  by apply String.eqb_neq in HN as ->.
Qed.

(** *** Which paths are scanned *)

(** The run path as the daemon has it: absolute and clean. *)
Definition runs_at (a : SubnetAllocator) (bl : list string) : Prop :=
  Forall seg_ok bl ∧ sa_dataRoot a = render_path bl.

Lemma NewSubnetAllocator_root bl cidr p a :
  Forall seg_ok bl → NewSubnetAllocator (render_path bl) cidr p = Ok a → runs_at a (bl ++ [KukeonMetadataSubdir]).
Proof.
  intros Hbl. unfold NewSubnetAllocator. destruct (ParseCIDR cidr) as [[base bits]|]; [|done].
  destruct (_ || _); [done|]. intros [= <-].
  assert (Hd : seg_ok KukeonMetadataSubdir) by (by split).
  split; [apply Forall_app; split; [done|by apply Forall_singleton]|]. by apply FJoin_seg.
Qed.

Lemma statePath_render a bl r s : runs_at a bl → seg_ok r → seg_ok s →
  statePath a r s = render_path (bl ++ [r; s; SubnetStateFileName]) ∧
  FJoin [FJoin [sa_dataRoot a; r]; s; SubnetStateFileName] = statePath a r s.
Proof.
  intros [Hbl Ha] Hr Hs. assert (Hn : seg_ok SubnetStateFileName) by (by split). unfold statePath.
  rewrite Ha, FJoin_seg by done. rewrite !FJoin_segs by (rewrite ?Forall_app, ?Forall_cons; auto).
  by rewrite <-app_assoc.
Qed.

Lemma seg_ok_entry s : seg_ok s → entry_name s = true.
Proof. intros [H1%String.eqb_neq _ H2%String.eqb_neq H3%String.eqb_neq]. unfold entry_name. by rewrite H1, H2, H3. Qed.

(** The file of a space with plain names is one the scan opens, under its names. *)
Lemma statePath_scanned a bl r s : runs_at a bl → seg_ok r → seg_ok s →
  scanEntry a (statePath a r s) = Some (r, s).
Proof.
  intros HA Hr Hs. destruct (statePath_render _ _ _ _ HA Hr Hs) as [E1 E2]. unfold scanEntry.
  assert (HF : Forall seg_ok (bl ++ [r; s; SubnetStateFileName])).
  { destruct HA as [Hbl _]. rewrite Forall_app, !Forall_cons. by split_and!. }
  rewrite E1 at 1. rewrite split_render by done.
  replace (match bl ++ _ with [] => [""] | _ => _ end) with (bl ++ [r; s; SubnetStateFileName]) by (by destruct bl).
  rewrite reverse_cons, reverse_app.
  change (reverse [r; s; SubnetStateFileName]) with [SubnetStateFileName; s; r]. cbn [app].
  by rewrite !seg_ok_entry, E2, String.eqb_refl by done.
Qed.

(** *** Reachable disks *)

(** What happens to the metadata tree: an allocation or a release, with any
    names, or damage to a state file from outside. *)
Inductive DiskStep (a : SubnetAllocator) : Disk → Disk → Prop :=
| StepAllocate realm space d : DiskStep a d (Allocate a realm space d).1
| StepRelease realm space d : DiskStep a d (Release a realm space d).1
| StepDamage path f d :
    (∀ c, f ≠ FileState c) →
    DiskStep a d (with_files d (<[path := f]> (d_files d))).

Definition emptyDisk : Disk :=
  {| d_files := ∅; d_rootErr := None; d_realmErr := ∅; d_writeErr := None; d_removeErr := None |}.

(** Every subnet recorded where the scan looks is a chunk of the parent and has
    one owner. *)
Definition DiskInv (a : SubnetAllocator) (d : Disk) : Prop :=
  (∀ path c, scanned a path → recorded d path c → ∃ i, 0 ≤ i < sa_parentSize a ∧ c = chunkCIDR a i) ∧
  (∀ p1 p2 c, scanned a p1 → scanned a p2 → recorded d p1 c → recorded d p2 c → p1 = p2).

Lemma DiskInv_shrink a d d' :
  (∀ path c, recorded d' path c → recorded d path c) → DiskInv a d → DiskInv a d'.
Proof. intros Hsub [H1 H2]. split; eauto. Qed.

Lemma recorded_of_file d path f c : d_files d !! path = Some f → stateContent f = Ok c → c ≠ "" → recorded d path c.
Proof. intros Hf Hc Hne. unfold recorded, readState. by rewrite Hf. Qed.

Lemma recorded_insert d path f p c :
  recorded (with_files d (<[path := f]> (d_files d))) p c →
  (p = path ∧ stateContent f = Ok c) ∨ (p ≠ path ∧ recorded d p c).
Proof.
  intros Hr. pose proof (proj2 Hr) as Hne. apply recorded_file in Hr as (g & Hg & Hc). simpl in Hg.
  apply lookup_insert_Some in Hg as [[-> ->]|[Hp Hg]]; [by left|right].
  split; [done|]. by eapply recorded_of_file.
Qed.

Lemma recorded_delete d path p c :
  recorded (with_files d (delete path (d_files d))) p c → recorded d p c.
Proof.
  intros Hr. pose proof (proj2 Hr) as Hne. apply recorded_file in Hr as (g & Hg & Hc). simpl in Hg.
  apply lookup_delete_Some in Hg as [_ Hg]. by eapply recorded_of_file.
Qed.

Lemma DiskStep_inv a d d' : DiskStep a d d' → DiskInv a d → DiskInv a d'.
Proof.
  intros [realm space d0|realm space d0|path f d0 Hf] HI.
  - destruct (Allocate a realm space d0) as [d1 [c|e]] eqn:HE; simpl.
    2:{ assert (d1 = d0) as ->; [|done]. revert HE. unfold Allocate, writeSubnetState.
        repeat case_match; naive_solver. }
    destruct (Allocate_Ok _ _ _ _ _ _ HE) as [[_ ->]|(_ & (i & Hi & -> & _) & Hfree & ->)]; [done|].
    destruct HI as [H1 H2].
    assert (HC : ∀ x, stateContent (FileState (chunkCIDR a i)) = Ok x → x = chunkCIDR a i).
    { intros x. rewrite chunk_content. by intros [= <-]. }
    split.
    + intros p c Hs [[_ ->%HC]|[_ HA]]%recorded_insert; eauto.
    + intros p1 p2 c Hs1 Hs2 [[-> ->%HC]|[_ HA1]]%recorded_insert
        [[-> E2]|[_ HA2]]%recorded_insert; [done| | |eauto].
      * by destruct (Hfree p2).
      * apply HC in E2 as ->. by destruct (Hfree p1).
  - eapply DiskInv_shrink; [|exact HI]. intros p c. unfold Release.
    destruct (_ || _); [done|]. repeat case_match; simpl; try done; apply recorded_delete.
  - eapply DiskInv_shrink; [|exact HI]. intros p c [[-> E]|[_ HA]]%recorded_insert; [|done].
    destruct f as [c'| |e]; simpl in E; [by destruct (Hf c')|done..].
Qed.

Lemma reachable_inv a d : rtc (DiskStep a) emptyDisk d → DiskInv a d.
Proof.
  assert (H0 : DiskInv a emptyDisk).
  { split; [intros p c _ (f & Hf & _)%recorded_file|intros p1 p2 c _ _ (f & Hf & _)%recorded_file];
      simpl in Hf; by rewrite lookup_empty in Hf. }
  intros HS. revert H0. induction HS as [|d1 d2 d3 Hstep _ IH]; [done|].
  intros HI. apply IH. by eapply DiskStep_inv.
Qed.

(** C2: Spaces never share an address.  With an absolute run path, starting from an
    empty metadata tree, after any sequence of allocations and releases (with names of
    any kind) and damaged state files, the subnets recorded for two different spaces
    whose realm and space names are plain path elements (not empty, "." or "..", no
    slash) are chunks of the parent block whose address ranges lie inside it, within 32
    bits, and do not overlap. *)
Theorem assigned_subnets_disjoint bl cidr prefix a d k1 k2 c1 c2 :
  Forall seg_ok bl → NewSubnetAllocator (render_path bl) cidr prefix = Ok a →
  rtc (DiskStep a) emptyDisk d →
  seg_ok k1.1 → seg_ok k1.2 → seg_ok k2.1 → seg_ok k2.2 →
  assigned a d k1 c1 → assigned a d k2 c2 → k1 ≠ k2 →
  ∃ i j, c1 = chunkCIDR a i ∧ c2 = chunkCIDR a j ∧
    (∀ k, k = i ∨ k = j →
       sa_base a ≤ chunkAddr a k ∧
       chunkAddr a k + sa_subnetSpan a ≤ sa_base a + 2 ^ (32 - sa_parentBits a) ≤ 2 ^ 32) ∧
    (chunkAddr a i + sa_subnetSpan a ≤ chunkAddr a j ∨
     chunkAddr a j + sa_subnetSpan a ≤ chunkAddr a i).
Proof.
  intros Hbl HN [H1 H2]%reachable_inv R1 S1 R2 S2 HA1 HA2 Hne.
  pose proof (NewSubnetAllocator_wf _ _ _ _ HN) as WF.
  pose proof (NewSubnetAllocator_root _ _ _ _ Hbl HN) as HR.
  pose proof (statePath_scanned _ _ _ _ HR R1 S1) as E1.
  pose proof (statePath_scanned _ _ _ _ HR R2 S2) as E2.
  destruct (H1 _ _ (mk_is_Some _ _ E1) HA1) as (i & Hi & ->).
  destruct (H1 _ _ (mk_is_Some _ _ E2) HA2) as (j & Hj & ->).
  assert (Hij : i ≠ j).
  { intros ->. destruct Hne.
    pose proof (H2 _ _ _ (mk_is_Some _ _ E1) (mk_is_Some _ _ E2) HA1 HA2) as E.
    rewrite E, E2 in E1. destruct k1, k2. simpl in *. congruence. }
  exists i, j. split; [done|]. split; [done|].
  destruct (chunkAddr_exact a WF i Hi) as [Ei Ri], (chunkAddr_exact a WF j Hj) as [Ej Rj].
  pose proof (span_pos a WF) as Hs. destruct WF as [? ? ? ? ? ?]. split.
  - intros k [->| ->]; (split; [nia|split; [assumption|assumption]]).
  - rewrite Ei, Ej. destruct (Z.lt_total i j) as [|[|]]; [left|done|right]; nia.
Qed.

(** The allocator hands out the lowest free chunk and gives up only when the
    parent is full: a fresh allocation takes the least chunk index not recorded
    where the scan looks, and an exhaustion error means that every chunk is recorded. *)
Theorem allocate_lowest_free a realm space d d' r :
  readState d (statePath a realm space) = Ok "" → Allocate a realm space d = (d', r) →
  match r with
  | Ok c => ∃ i, 0 ≤ i < sa_parentSize a ∧ c = chunkCIDR a i ∧
              (∀ path, scanned a path → ¬ recorded d path c) ∧
              ∀ k, 0 ≤ k < i → ∃ path, scanned a path ∧ recorded d path (chunkCIDR a k)
  | Err e => d' = d ∧
      (firstFreeLocked a (usedSubnets a d) = Err e →
       ∀ k, 0 ≤ k < sa_parentSize a → ∃ path, scanned a path ∧ recorded d path (chunkCIDR a k))
  end.
Proof.
  intros HR HE. destruct r as [c|e].
  - destruct (Allocate_Ok _ _ _ _ _ _ HE) as [[[HA HN] _]|(_ & (i & Hi & -> & Hk) & Hf & _)].
    + simpl in HA. rewrite HR in HA. by injection HA as <-.
    + eauto 10.
  - split.
    + revert HE. unfold Allocate, writeSubnetState. repeat case_match; naive_solver.
    + intros [_ HF]%firstFreeFrom_Err k Hk. apply usedSubnets_spec, HF. lia.
Qed.

(** Splitting a 32-bit address into octets and packing them again is the
    identity, every octet is a byte, and the dotted text determines the address. *)
Theorem address_roundtrip v :
  0 ≤ v < 2 ^ 32 →
  ipToUint32 (uint32ToIP v) = v ∧
  (∀ o, o ∈ [ip0 (uint32ToIP v); ip1 (uint32ToIP v); ip2 (uint32ToIP v); ip3 (uint32ToIP v)] →
    0 ≤ o < 256) ∧
  ∀ u, 0 ≤ u < 2 ^ 32 → ip_String (uint32ToIP u) = ip_String (uint32ToIP v) → u = v.
Proof.
  intros Hv. split; [by apply octets_pack|]. split; [|intros u Hu; by apply ip_String_inj].
  intros o Ho. rewrite !elem_of_cons in Ho.
  destruct Ho as [->|[->|[->|[->|Ho]]]]; try apply byteAt_bound. by apply elem_of_nil in Ho.
Qed.

Lemma address_roundtrip_witness : ipToUint32 (uint32ToIP 173539328) = 173539328.
Proof. exact (proj1 (address_roundtrip 173539328 ltac:(lia))). Defined.

(** The default allocator: /24 chunks of 10.88.0.0/16. *)
Definition default_allocator : SubnetAllocator :=
  {| sa_dataRoot := "/opt/kukeon/data";
     sa_parentCIDR := "10.88.0.0/16"; sa_prefixLen := 24; sa_base := 173539328;
     sa_parentSize := 256; sa_parentBits := 16; sa_subnetSpan := 256 |}.

Example default_allocator_ok :
  NewDefaultSubnetAllocator DefaultSubnetParentCIDR "/opt/kukeon" = Ok default_allocator.
Proof. vm_compute. reflexivity. Qed.

Lemma allocate_idempotent_witness :
  let d' := (Allocate default_allocator "r" "s" emptyDisk).1 in
  Allocate default_allocator "r" "s" d' = (d', Ok "10.88.0.0/24").
Proof.
  intros d'. apply (allocate_idempotent default_allocator "r" "s" emptyDisk d' "10.88.0.0/24").
  vm_compute. reflexivity.
Defined.

Lemma allocate_lowest_free_witness :
  let d := (Allocate default_allocator "r" "s" emptyDisk).1 in
  ∃ i, 0 ≤ i < 256 ∧ "10.88.1.0/24" = chunkCIDR default_allocator i.
Proof.
  intros d.
  destruct (Allocate default_allocator "r" "t" d) as [d' r] eqn:E.
  assert (Hr : r = Ok "10.88.1.0/24") by (vm_compute in E; injection E as _ <-; reflexivity).
  pose proof (allocate_lowest_free default_allocator "r" "t" d d' r ltac:(vm_compute; reflexivity) E)
    as HT. rewrite Hr in HT. destruct HT as (i & Hi & Hc & _). exists i. split; [exact Hi|exact Hc].
Defined.

Lemma assigned_subnets_disjoint_witness :
  let d1 := (Allocate default_allocator "r" "s" emptyDisk).1 in
  let d2 := (Allocate default_allocator "r" "t" d1).1 in
  ∃ i j, "10.88.0.0/24" = chunkCIDR default_allocator i ∧
         "10.88.1.0/24" = chunkCIDR default_allocator j ∧
         (chunkAddr default_allocator i + 256 ≤ chunkAddr default_allocator j ∨
          chunkAddr default_allocator j + 256 ≤ chunkAddr default_allocator i).
Proof.
  intros d1 d2.
  destruct (assigned_subnets_disjoint ["opt"; "kukeon"] "10.88.0.0/16" 24 default_allocator d2
    ("r", "s") ("r", "t") "10.88.0.0/24" "10.88.1.0/24") as (i & j & Hi & Hj & _ & Hd);
    try (split; vm_compute; try reflexivity; discriminate).
  - repeat constructor; vm_compute; try reflexivity; discriminate.
  - eapply rtc_l; [apply (StepAllocate default_allocator "r" "s")|].
    eapply rtc_l; [apply (StepAllocate default_allocator "r" "t")|]. apply rtc_refl.
  - discriminate.
  - exists i, j. split; [exact Hi|]. split; [exact Hj|exact Hd].
Defined.

(** The scan does not see the file of a space named ".", which lies in the
    realm's own directory: the next space of the realm is given the same subnet. *)
Example dot_space_shares_subnet :
  let d := (Allocate default_allocator "r" "." emptyDisk).1 in
  (Allocate default_allocator "r" "." emptyDisk).2 = Ok "10.88.0.0/24" ∧
  (Allocate default_allocator "r" "s" d).2 = Ok "10.88.0.0/24".
Proof. vm_compute. split; reflexivity. Qed.

(** The widest accepted configuration overflows: for the parent 0.0.0.0/0 and
    /32 chunks the 32-bit shift that counts the chunks wraps to zero, so a freshly
    built allocator that passed validation is exhausted from the start. *)
Theorem widest_parent_overflows :
  ∃ a, NewSubnetAllocator "/opt/kukeon" "0.0.0.0/0" 32 = Ok a ∧ sa_parentSize a = 0 ∧
    error_is ErrSubnetExhausted
      (match (Allocate a "r" "s" emptyDisk).2 with Err e => e | Ok _ => EOpaque "" end) = true.
Proof. eexists. split; [vm_compute; reflexivity|]. split; vm_compute; reflexivity. Qed.
