(* ===== verification/NetPolicy.v ===== *)
(** * NetPolicy: space egress policies and the host firewall
    (internal/netpolicy/{policy,rules,resolver,enforcer}.go,
     internal/firewall/forward.go, internal/controller/runner/egress.go)

    The rule generators and enforcers build iptables argument vectors and run
    them one by one.  iptables itself is outside the source: its documented
    behaviour on the commands that are issued is the partial function [effect],
    and on packets the function [evalRules]; the enforcers are proved against any
    command runner that follows them. *)

From Stdlib Require Import ZArith String Lia.
From stdpp Require Import base gmap strings list sorting.
From S2P Require Import Prelude Model Sha256 Naming Subnet.

Local Open Scope Z_scope.

(** ** iptables, as documented *)

Record Packet := {
  pk_in : string; pk_out : string;      (* interfaces *)
  pk_established : bool;                (* conntrack: RELATED or ESTABLISHED *)
  pk_dst : Z;                           (* destination address *)
  pk_proto : string; pk_dport : Z
}.

Inductive Verdict := Accept | Drop.
#[global] Instance Verdict_eq_dec : EqDecision Verdict.
Proof. solve_decision. Defined.

(** The chains of the filter table: each rule is its argument vector without the
    command and the chain. *)
Notation Table := (gmap string (list (list string))).

(** -i and -o: a trailing + matches any suffix. *)
Fixpoint ifaceMatch (pat name : string) : bool :=
  match pat with
  | EmptyString => String.eqb name ""
  | String c pat' =>
      (Ascii.eqb c (Ascii.ascii_of_nat 43) && String.eqb pat' "")
      || match name with
         | String d name' => Ascii.eqb c d && ifaceMatch pat' name'
         | EmptyString => false
         end
  end.

(** -d with an IPv4 block *)
Definition dstMatch (cidr : string) (dst : Z) : bool :=
  match ParseCIDR cidr with
  | Some (base, n) => Z.shiftr dst (32 - n) =? Z.shiftr base (32 - n)
  | None => false
  end.

(** Whether a rule matches, and its target. *)
Fixpoint evalArgs (args : list string) (pk : Packet) : bool * string :=
  match args with
  | flag :: value :: rest =>
      if String.eqb flag "-j" then (true, value)
      else if String.eqb flag "!" then
        match rest with
        | pat :: rest' =>
            let '(m, t) := evalArgs rest' pk in
            (String.eqb value "-i" && negb (ifaceMatch pat (pk_in pk)) && m, t)
        | [] => (false, "")
        end
      else
        let '(m, t) := evalArgs rest pk in
        let here :=
          if String.eqb flag "-m" then true
          else if String.eqb flag "--comment" then true
          else if String.eqb flag "--ctstate" then
            String.eqb value "RELATED,ESTABLISHED" && pk_established pk
          else if String.eqb flag "-d" then dstMatch value (pk_dst pk)
          else if String.eqb flag "-p" then String.eqb value (pk_proto pk)
          else if String.eqb flag "--dport" then String.eqb value (Itoa (pk_dport pk))
          else if String.eqb flag "-i" then ifaceMatch value (pk_in pk)
          else if String.eqb flag "-o" then ifaceMatch value (pk_out pk)
          else false in
        (here && m, t)
  | _ => (false, "")
  end.

Definition terminal (target : string) : option Verdict :=
  if String.eqb target "ACCEPT" then Some Accept
  else if String.eqb target "DROP" then Some Drop else None.

(** Traversal of a chain: the first matching terminal target decides, a jump
    whose chain does not decide falls through to the next rule.  [depth] bounds
    the nesting of jumps. *)
Fixpoint evalRules (depth : nat) (tbl : Table) (pk : Packet) (rules : list (list string))
    : option Verdict :=
  let fix go rules :=
    match rules with
    | [] => None
    | r :: rest =>
        let '(m, target) := evalArgs r pk in
        if m then
          match terminal target with
          | Some v => Some v
          | None =>
              match depth with
              | O => go rest
              | S d => match evalRules d tbl pk (default [] (tbl !! target)) with
                       | Some v => Some v
                       | None => go rest
                       end
              end
          end
        else go rest
    end in
  go rules.

(** -D removes the first rule that is equal to the given one. *)
Fixpoint removeFirst (spec : list string) (rules : list (list string)) : list (list string) :=
  match rules with
  | [] => []
  | r :: rest => if bool_decide (r = spec) then rest else r :: removeFirst spec rest
  end.

(** The effect of a command that succeeds; None when it cannot. *)
Definition effect (args : list string) (tbl : Table) : option Table :=
  match args with
  | cmd :: chain :: rest =>
      match tbl !! chain with
      | None => if String.eqb cmd "-N" then Some (<[chain := []]> tbl) else None
      | Some rules =>
          if String.eqb cmd "-F" then Some (<[chain := []]> tbl)
          else if String.eqb cmd "-A" then Some (<[chain := rules ++ [rest]]> tbl)
          else if String.eqb cmd "-I" then
            match rest with
            | pos :: spec => if String.eqb pos "1" then Some (<[chain := spec :: rules]> tbl) else None
            | [] => None
            end
          else if String.eqb cmd "-C" then
            if bool_decide (rest ∈ rules) then Some tbl else None
          else if String.eqb cmd "-D" then
            if bool_decide (rest ∈ rules)
            then Some (<[chain := removeFirst rest rules]> tbl) else None
          else if String.eqb cmd "-X" then
            if bool_decide (rules = []) then Some (delete chain tbl) else None
          else if String.eqb cmd "-L" || String.eqb cmd "-S" then Some tbl
          else None
      end
  | _ => None
  end.

(** netpolicy.CommandRunner and firewall.CommandRunner *)
Class CommandRunner (W : Type) := { Run : list string → st W (result string) }.

(** A runner that drives a table: a command that reports success had its effect,
    one that reports failure had none, and a rule check that reports failure found
    the rule absent.  Other commands may fail at any time. *)
Class DrivesTable (W : Type) `{CommandRunner W} (table : W → Table) : Prop := {
  run_ok : ∀ args w w' out, Run args w = (w', Ok out) → effect args (table w) = Some (table w');
  run_err : ∀ args w w' e, Run args w = (w', Err e) → table w' = table w;
  run_check : ∀ args w w' e, Run ("-C" :: args) w = (w', Err e) →
    effect ("-C" :: args) (table w) = None
}.

(** ** Policies (policy.go) *)

(** net.IP as a resolver returns it. *)
Inductive netIP := IP4 (ip : IPv4) | IP6 (text : string).

Record ResolvedRule := {
  rr_OriginalHost : string; rr_CIDR : string; rr_IPs : list IPv4; rr_Ports : list Z
}.

Record Policy := {
  pol_Bridge : string; pol_RealmName : string; pol_SpaceName : string;
  pol_Default : string; pol_Allow : list ResolvedRule
}.

Definition normalizeDefault (d : string) : result string :=
  let s := ToLower (TrimSpace d) in
  if String.eqb s "" || String.eqb s EgressDefaultAllow then Ok EgressDefaultAllow
  else if String.eqb s EgressDefaultDeny then Ok EgressDefaultDeny
  else Err (ESentinel ErrEgressInvalidDefault).

(** strings.ContainsAny(s, " \t/") *)
Fixpoint containsBlankOrSlash (s : string) : bool :=
  match s with
  | EmptyString => false
  | String c s' => match Ascii.nat_of_ascii c with 32 | 9 | 47 => true | _ => containsBlankOrSlash s' end%nat
  end.

Definition isLikelyDNSName (s : string) : bool :=
  if String.eqb s "" || containsBlankOrSlash s then false
  else if HasPrefix s "." || HasSuffix s "." then false
  else forallb (fun label => negb (String.eqb label "")) (splitOn (Ascii.ascii_of_nat 46) s).

(** The loop over the ports: range check, then drop of duplicates. *)
Fixpoint portsLoop (seen ports : list Z) : result (list Z) :=
  match ports with
  | [] => Ok []
  | p :: rest =>
      if (p <? 1) || (65535 <? p) then Err (EWrap "%w: %d" [ESentinel ErrEgressInvalidPort])
      else if existsb (Z.eqb p) seen then portsLoop seen rest
      else match portsLoop (p :: seen) rest with Ok l => Ok (p :: l) | Err e => Err e end
  end.

Section Policies.
(** net.ParseCIDR on IPv4 or IPv6 text: its error, if any. *)
Context (parseCIDRError : string → option error).

Definition validateAllowRule (r : EgressAllowRule) : result ResolvedRule :=
  let host := TrimSpace (ear_Host r) in
  let cidr := TrimSpace (ear_CIDR r) in
  if String.eqb host "" && String.eqb cidr "" then Err (ESentinel ErrEgressRuleTargetRequired)
  else if negb (String.eqb host "") && negb (String.eqb cidr "")
  then Err (ESentinel ErrEgressRuleTargetConflict)
  else
    match (if String.eqb cidr "" then None else parseCIDRError cidr) with
    | Some e => Err (EWrap "%w: %q: %w" [ESentinel ErrEgressInvalidCIDR; e])
    | None =>
        if negb (String.eqb host "") && negb (isLikelyDNSName host)
        then Err (EWrap "%w: %q" [ESentinel ErrEgressInvalidHost])
        else match portsLoop [] (ear_Ports r) with
             | Err e => Err e
             | Ok ports => Ok {| rr_OriginalHost := host; rr_CIDR := cidr; rr_IPs := [];
                                 rr_Ports := merge_sort Z.le ports |}
             end
    end.

Fixpoint validateAll (rs : list EgressAllowRule) : result (list ResolvedRule) :=
  match rs with
  | [] => Ok []
  | r :: rest =>
      match validateAllowRule r with
      | Err e => Err (EWrap "egress allow rule %d: %w" [e])
      | Ok rule => match validateAll rest with Ok rules => Ok (rule :: rules) | Err e => Err e end
      end
  end.

Definition FromInternal (realmName spaceName bridge : string) (egress : option EgressPolicy)
    : result (option Policy) :=
  match egress with
  | None => Ok None
  | Some pol =>
      match normalizeDefault (ep_Default pol) with
      | Err e => Err e
      | Ok def =>
          if String.eqb def EgressDefaultAllow && Nat.eqb (length (ep_Allow pol)) 0 then Ok None
          else match validateAll (ep_Allow pol) with
               | Err e => Err e
               | Ok rules => Ok (Some {| pol_Bridge := bridge; pol_RealmName := realmName;
                                         pol_SpaceName := spaceName; pol_Default := def;
                                         pol_Allow := rules |})
               end
      end
  end.
End Policies.

Definition NewAdmitAllPolicy (realmName spaceName bridge : string) : Policy := {|
  pol_Bridge := bridge; pol_RealmName := realmName; pol_SpaceName := spaceName;
  pol_Default := EgressDefaultAllow; pol_Allow := [] |}.

Definition chainName (realmName spaceName : string) : string :=
  "KUKE-EGR-" +:+ hex_encode (be_bytes 4 (fnv1a32 (bytes_of_string (realmName +:+ "/" +:+ spaceName)))).
Definition ChainName (p : Policy) : string := chainName (pol_RealmName p) (pol_SpaceName p).
Definition CommentTag (p : Policy) : string :=
  "kukeon:" +:+ pol_RealmName p +:+ ":" +:+ pol_SpaceName p.

(** ** Host resolution (resolver.go) *)

Fixpoint keepNewIPv4 (seen : list string) (ips : list netIP) : list IPv4 :=
  match ips with
  | [] => []
  | IP6 _ :: rest => keepNewIPv4 seen rest
  | IP4 ip :: rest =>
      let key := ip_String ip in
      if existsb (String.eqb key) seen then keepNewIPv4 seen rest
      else ip :: keepNewIPv4 (key :: seen) rest
  end.

Definition ipLe (a b : IPv4) : Prop := String.leb (ip_String a) (ip_String b) = true.
#[global] Instance ipLe_dec : RelDecision ipLe.
Proof. intros a b. unfold ipLe. apply _. Defined.

Definition dedupAndSortIPs (ips : list netIP) : list IPv4 := merge_sort ipLe (keepNewIPv4 [] ips).

Section Resolve.
Context {W : Type} (LookupIP : string → st W (result (list netIP))).

Fixpoint resolveRules (rules : list ResolvedRule) : st W (result (list ResolvedRule)) :=
  match rules with
  | [] => st_ret (Ok [])
  | rule :: rest =>
      let next rule' :=
        (let! r := resolveRules rest in
         st_ret (match r with Ok rs => Ok (rule' :: rs) | Err e => Err e end)) in
      if String.eqb (rr_OriginalHost rule) "" then next rule
      else
        let! found := LookupIP (rr_OriginalHost rule) in
        match found with
        | Err e => st_ret (Err (EWrap "%w: %q: %w" [ESentinel ErrEgressHostResolution; e]))
        | Ok ips =>
            match dedupAndSortIPs ips with
            | [] => st_ret (Err (EWrap "%w: %q resolved to no IPv4 addresses"
                                   [ESentinel ErrEgressHostResolution]))
            | v4s => next {| rr_OriginalHost := rr_OriginalHost rule; rr_CIDR := rr_CIDR rule;
                             rr_IPs := v4s; rr_Ports := rr_Ports rule |}
            end
        end
  end.

Definition Resolve (p : Policy) : st W (result Policy) :=
  let! r := resolveRules (pol_Allow p) in
  st_ret (match r with
          | Ok rules => Ok {| pol_Bridge := pol_Bridge p; pol_RealmName := pol_RealmName p;
                              pol_SpaceName := pol_SpaceName p; pol_Default := pol_Default p;
                              pol_Allow := rules |}
          | Err e => Err e
          end).
End Resolve.

(** ** Rule generation (rules.go) *)

Definition MasterChainName : string := "KUKEON-EGRESS".

Record Rule := { rl_Op : string; rl_Chain : string; rl_Args : list string }.

Definition allowComment (idx : nat) (r : ResolvedRule) : string :=
  if negb (String.eqb (rr_OriginalHost r) "")
  then "allow[" +:+ Itoa (Z.of_nat idx) +:+ "]:host=" +:+ rr_OriginalHost r
  else "allow[" +:+ Itoa (Z.of_nat idx) +:+ "]:cidr=" +:+ rr_CIDR r.

Definition allowTargets (r : ResolvedRule) : list string :=
  if negb (String.eqb (rr_CIDR r) "") then [rr_CIDR r]
  else (fun ip => ip_String ip +:+ "/32") <$> rr_IPs r.

Definition buildAllowRules (chain tag : string) (idx : nat) (r : ResolvedRule) : list Rule :=
  let comment := tag +:+ ":" +:+ allowComment idx r in
  concat ((fun dst =>
    match rr_Ports r with
    | [] => [{| rl_Op := "-A"; rl_Chain := chain;
                rl_Args := ["-d"; dst; "-m"; "comment"; "--comment"; comment; "-j"; "ACCEPT"] |}]
    | ports => (fun port =>
        {| rl_Op := "-A"; rl_Chain := chain;
           rl_Args := ["-d"; dst; "-p"; "tcp"; "--dport"; Itoa port;
                       "-m"; "comment"; "--comment"; comment; "-j"; "ACCEPT"] |}) <$> ports
    end) <$> allowTargets r).

Definition establishedRule (chain tag : string) : Rule := {|
  rl_Op := "-A"; rl_Chain := chain;
  rl_Args := ["-m"; "conntrack"; "--ctstate"; "RELATED,ESTABLISHED";
              "-m"; "comment"; "--comment"; tag +:+ ":established"; "-j"; "ACCEPT"] |}.

Definition terminalRule (p : Policy) : Rule := {|
  rl_Op := "-A"; rl_Chain := ChainName p;
  rl_Args := ["-m"; "comment"; "--comment"; CommentTag p +:+ ":default"]
             ++ (if String.eqb (pol_Default p) EgressDefaultDeny then ["-j"; "DROP"]
                 else ["-j"; "ACCEPT"]) |}.

Definition BuildRules (p : Policy) : list Rule :=
  let chain := ChainName p in
  let tag := CommentTag p in
  [establishedRule chain tag]
  ++ concat (imap (fun i r => buildAllowRules chain tag i r) (pol_Allow p))
  ++ [terminalRule p].

Definition DispatchRule (p : Policy) : Rule := {|
  rl_Op := "-A"; rl_Chain := MasterChainName;
  rl_Args := ["-i"; pol_Bridge p; "-m"; "comment"; "--comment"; CommentTag p +:+ ":dispatch";
              "-j"; ChainName p] |}.

(** strings.Fields(r.Op) is [r.Op] for the one-word operations that are built. *)
Definition ruleArgs (r : Rule) : list string := rl_Op r :: rl_Chain r :: rl_Args r.

(** ** The enforcer (enforcer.go) *)

(** parseRuleLine: split on blanks outside double quotes, quotes dropped. *)
Definition flushArg (cur : string) (out : list string) : list string :=
  if String.eqb cur "" then out else out ++ [cur].

Fixpoint parseRuleLoop (line : string) (inQuote : bool) (cur : string) (out : list string)
    : result (list string) :=
  match line with
  | EmptyString =>
      if inQuote then Err (EOpaque "unterminated quote in iptables -S line")
      else Ok (flushArg cur out)
  | String c rest =>
      if Ascii.eqb c (Ascii.ascii_of_nat 34) then parseRuleLoop rest (negb inQuote) cur out
      else if Ascii.eqb c (Ascii.ascii_of_nat 32) && negb inQuote
      then parseRuleLoop rest inQuote "" (flushArg cur out)
      else parseRuleLoop rest inQuote (cur +:+ String c "") out
  end.

Definition parseRuleLine (line : string) : result (list string) := parseRuleLoop line false "" [].

Section Enforcer.
Context {W : Type} `{CommandRunner W}.

Definition ensureChain (chain : string) : st W (option error) :=
  let! listed := Run ["-L"; chain; "-n"] in
  match listed with
  | Ok _ => st_ret None
  | Err _ =>
      let! made := Run ["-N"; chain] in
      st_ret (match made with Ok _ => None | Err e => Some e end)
  end.

(** A jump from FORWARD, inserted at the head when it is not there. *)
Definition ensureJump (chain : string) : st W (option error) :=
  let! present := Run ["-C"; "FORWARD"; "-j"; chain] in
  match present with
  | Ok _ => st_ret None
  | Err _ =>
      let! made := Run ["-I"; "FORWARD"; "1"; "-j"; chain] in
      st_ret (match made with Ok _ => None | Err e => Some e end)
  end.

Definition ensureMasterChain : st W (option error) :=
  let! err := ensureChain MasterChainName in
  match err with Some e => st_ret (Some e) | None => ensureJump MasterChainName end.

Definition ensureRuleArgs (chain : string) (args : list string) : st W (option error) :=
  let! present := Run ("-C" :: chain :: args) in
  match present with
  | Ok _ => st_ret None
  | Err _ =>
      let! made := Run ("-A" :: chain :: args) in
      st_ret (match made with Ok _ => None | Err e => Some e end)
  end.

Definition ensureRule (r : Rule) : st W (option error) := ensureRuleArgs (rl_Chain r) (rl_Args r).

Fixpoint runRules (rules : list Rule) : st W (option error) :=
  match rules with
  | [] => st_ret None
  | r :: rest =>
      let! ran := Run (ruleArgs r) in
      match ran with
      | Err e => st_ret (Some (EWrap "%w: %w" [ESentinel ErrEgressApply; e]))
      | Ok _ => runRules rest
      end
  end.

Definition applyErr (fmt : string) (e : error) : option error :=
  Some (EWrap fmt [ESentinel ErrEgressApply; e]).

(** IptablesEnforcer.Apply *)
Definition ApplyPolicy (pol : option Policy) : st W (option error) :=
  match pol with
  | None => st_ret None
  | Some p =>
      let! err := ensureMasterChain in
      match err with Some e => st_ret (applyErr "%w: %w" e) | None =>
      let! err := ensureChain (ChainName p) in
      match err with Some e => st_ret (applyErr "%w: %w" e) | None =>
      let! flushed := Run ["-F"; ChainName p] in
      match flushed with Err e => st_ret (applyErr "%w: flush %s: %w" e) | Ok _ =>
      let! err := runRules (BuildRules p) in
      match err with Some e => st_ret (Some e) | None =>
      let! err := ensureRule (DispatchRule p) in
      st_ret (match err with Some e => applyErr "%w: dispatch: %w" e | None => None end)
      end end end end
  end.

(** The deletions of deleteJumpsToChain, one per matching line. *)
Fixpoint deleteLines (chain : string) (lines : list string) : st W (option error) :=
  match lines with
  | [] => st_ret None
  | line :: rest =>
      let line := TrimSpace line in
      if String.eqb line "" || negb (HasPrefix line ("-A " +:+ MasterChainName +:+ " "))
      then deleteLines chain rest
      else if negb (Contains line (" -j " +:+ chain)) then deleteLines chain rest
      else match parseRuleLine line with
           | Err e => st_ret (Some e)
           | Ok args =>
               match args with
               | cmd :: spec =>
                   if negb (String.eqb cmd "-A") then deleteLines chain rest
                   else
                     let! ran := Run ("-D" :: spec) in
                     match ran with
                     | Err e => st_ret (Some e)
                     | Ok _ => deleteLines chain rest
                     end
               | [] => deleteLines chain rest
               end
           end
  end.

Definition deleteJumpsToChain (chain : string) : st W (option error) :=
  let! listed := Run ["-S"; MasterChainName] in
  match listed with
  | Err _ => st_ret None
  | Ok out => deleteLines chain (splitOn (Ascii.ascii_of_nat 10) out)
  end.

(** IptablesEnforcer.Remove; the drop counters are read for the log only. *)
Definition RemovePolicy (realmName spaceName : string) : st W (option error) :=
  let chain := chainName realmName spaceName in
  let! _ := Run ["-L"; chain; "-n"; "-v"; "-x"] in
  let! err := deleteJumpsToChain chain in
  match err with
  | Some e => st_ret (Some (EWrap "%w: %w" [ESentinel ErrEgressRemove; e]))
  | None =>
      let! _ := Run ["-F"; chain] in
      let! _ := Run ["-X"; chain] in
      st_ret None
  end.

(** ** Applying a space's policy (runner/egress.go) *)

Definition applySpaceEgressPolicy (parseCIDRError : string → option error)
    (LookupIP : string → st W (result (list netIP))) (space : Space) : st W (option error) :=
  let realm := spsp_RealmName (space_Spec space) in
  let name := sm_Name (space_Metadata space) in
  match BuildSpaceNetworkName realm name with
  | Err e => st_ret (applyErr "%w: %w" e)
  | Ok networkName =>
      let bridge := SafeBridgeName networkName in
      let egress := match spsp_Network (space_Spec space) with
                    | Some n => sn_Egress n
                    | None => None
                    end in
      match FromInternal parseCIDRError realm name bridge egress with
      | Err e => st_ret (applyErr "%w: %w" e)
      | Ok pol =>
          let policy := match pol with Some p => p | None => NewAdmitAllPolicy realm name bridge end in
          let! resolved := Resolve LookupIP policy in
          match resolved with
          | Err e => st_ret (applyErr "%w: %w" e)
          | Ok p => ApplyPolicy (Some p)
          end
      end
  end.

Definition removeSpaceEgressPolicy (space : Space) : st W (option error) :=
  RemovePolicy (spsp_RealmName (space_Spec space)) (sm_Name (space_Metadata space)).

(** ** The host's forward admission chain (firewall/forward.go) *)

Definition ForwardChainName : string := "KUKEON-FORWARD".
Definition BridgeIfaceMatch : string := "k-+".
Definition commentTagPrefix : string := "kukeon-forward".

Definition AdmissionRules : list (list string) :=
  [["-A"; ForwardChainName; "-m"; "conntrack"; "--ctstate"; "RELATED,ESTABLISHED";
    "-m"; "comment"; "--comment"; commentTagPrefix +:+ ":established"; "-j"; "ACCEPT"];
   ["-A"; ForwardChainName; "!"; "-i"; BridgeIfaceMatch; "-o"; BridgeIfaceMatch;
    "-m"; "comment"; "--comment"; commentTagPrefix +:+ ":ingress"; "-j"; "ACCEPT"]].

Definition ensureAdmissionRule (args : list string) : st W (option error) :=
  match args with
  | cmd :: chain :: rest =>
      if String.eqb cmd "-A" then ensureRuleArgs chain rest
      else st_ret (Some (EOpaque "admission rule must start with -A <chain>"))
  | _ => st_ret (Some (EOpaque "admission rule must start with -A <chain>"))
  end.

(** Whether a line of -S is a rule of the chain without the tag. *)
Definition untagged (line : string) : bool :=
  let line := TrimSpace line in
  HasPrefix line ("-A " +:+ ForwardChainName) && negb (Contains line (commentTagPrefix +:+ ":")).

Definition migrateUntaggedRules : st W (option error) :=
  let! listed := Run ["-S"; ForwardChainName] in
  match listed with
  | Err _ => st_ret None
  | Ok out =>
      if existsb untagged (splitOn (Ascii.ascii_of_nat 10) out) then
        let! flushed := Run ["-F"; ForwardChainName] in
        st_ret (match flushed with Ok _ => None | Err e => Some e end)
      else st_ret None
  end.

(** One -D per matching line, until one fails. *)
Fixpoint pruneLines (stale : string → bool) (del : list string) (lines : list string) : st W unit :=
  match lines with
  | [] => st_ret tt
  | line :: rest =>
      let line := TrimSpace line in
      if HasPrefix line ("-A " +:+ ForwardChainName) && stale line then
        let! ran := Run del in
        match ran with Err _ => st_ret tt | Ok _ => pruneLines stale del rest end
      else pruneLines stale del rest
  end.

Definition prune (stale : string → bool) (del : list string) : st W unit :=
  let! listed := Run ["-S"; ForwardChainName] in
  match listed with
  | Err _ => st_ret tt
  | Ok out => pruneLines stale del (splitOn (Ascii.ascii_of_nat 10) out)
  end.

Definition obsoleteEgress (line : string) : bool :=
  Contains line ("-i " +:+ BridgeIfaceMatch) && Contains line (commentTagPrefix +:+ ":egress").
Definition pruneObsoleteEgressAdmission : st W unit :=
  prune obsoleteEgress
    ["-D"; ForwardChainName; "-i"; BridgeIfaceMatch; "-m"; "comment"; "--comment";
     commentTagPrefix +:+ ":egress"; "-j"; "ACCEPT"].

Definition unscopedIngress (line : string) : bool :=
  Contains line ("-o " +:+ BridgeIfaceMatch) && Contains line (commentTagPrefix +:+ ":ingress")
  && negb (Contains line ("! -i " +:+ BridgeIfaceMatch)).
Definition pruneUnscopedIngressAdmission : st W unit :=
  prune unscopedIngress
    ["-D"; ForwardChainName; "-o"; BridgeIfaceMatch; "-m"; "comment"; "--comment";
     commentTagPrefix +:+ ":ingress"; "-j"; "ACCEPT"].

Fixpoint ensureAdmissionRules (rules : list (list string)) : st W (option error) :=
  match rules with
  | [] => st_ret None
  | args :: rest =>
      let! err := ensureAdmissionRule args in
      match err with Some e => st_ret (Some e) | None => ensureAdmissionRules rest end
  end.

Definition admissionErr (e : error) : option error :=
  Some (EWrap "%w: %w" [ESentinel ErrForwardAdmissionApply; e]).

(** Installer.Install *)
Definition Install : st W (option error) :=
  let! err := ensureChain ForwardChainName in
  match err with Some e => st_ret (admissionErr e) | None =>
  let! err := migrateUntaggedRules in
  match err with Some e => st_ret (admissionErr e) | None =>
  let! err := ensureAdmissionRules AdmissionRules in
  match err with Some e => st_ret (admissionErr e) | None =>
  let! _ := pruneObsoleteEgressAdmission in
  let! _ := pruneUnscopedIngressAdmission in
  let! err := ensureJump ForwardChainName in
  st_ret (match err with Some e => admissionErr e | None => None end)
  end end end.

(** Installer.Remove *)
Definition RemoveAdmission : st W (option error) :=
  let! present := Run ["-C"; "FORWARD"; "-j"; ForwardChainName] in
  let! err := match present with
    | Ok _ => let! ran := Run ["-D"; "FORWARD"; "-j"; ForwardChainName] in
              st_ret (match ran with Ok _ => None | Err e => Some e end)
    | Err _ => st_ret None
    end in
  match err with
  | Some e => st_ret (Some (EWrap "%w: %w" [ESentinel ErrForwardAdmissionRemove; e]))
  | None =>
      let! _ := Run ["-F"; ForwardChainName] in
      let! _ := Run ["-X"; ForwardChainName] in
      st_ret None
  end.
End Enforcer.

(** ** Lemmas: addresses and their text *)

Definition IPv4WF (ip : IPv4) : Prop :=
  0 ≤ ip0 ip < 256 ∧ 0 ≤ ip1 ip < 256 ∧ 0 ≤ ip2 ip < 256 ∧ 0 ≤ ip3 ip < 256.

Lemma splitOn_avoids c a b :
  avoids c a = true → splitOn c (a +:+ String c b) = a :: splitOn c b.
Proof.
  induction a as [|d a IH]; intros Ha.
  - change (splitOn c (String c b) = "" :: splitOn c b). cbn [splitOn]. by rewrite Ascii.eqb_refl.
  - cbn [avoids] in Ha. apply andb_true_iff in Ha as [Hd Ha].
    change (String d a +:+ String c b) with (String d (a +:+ String c b)). cbn [splitOn].
    apply negb_true_iff in Hd. rewrite Hd, (IH Ha). done.
Qed.

Lemma splitOn_last c a : avoids c a = true → splitOn c a = [a].
Proof.
  induction a as [|d a IH]; intros Ha; [done|]. cbn [avoids] in Ha.
  apply andb_true_iff in Ha as [Hd Ha]. cbn [splitOn]. apply negb_true_iff in Hd.
  by rewrite Hd, (IH Ha).
Qed.

Lemma parseOctet_Itoa b : 0 ≤ b < 256 → parseOctet (Itoa b) = Some b.
Proof.
  intros Hb. assert (HF : forallb (fun b => bool_decide (parseOctet (Itoa b) = Some b)) (seqZ 0 256) = true)
    by (vm_compute; reflexivity).
  rewrite forallb_elem in HF. specialize (HF b). rewrite bool_decide_eq_true in HF.
  apply HF, elem_of_seqZ. lia.
Qed.

Lemma parseIPv4_String ip : IPv4WF ip → parseIPv4 (ip_String ip) = Some ip.
Proof.
  intros (H0 & H1 & H2 & H3). unfold parseIPv4, ip_String.
  assert (Hdot : ∀ s, "." +:+ s = String (Ascii.ascii_of_nat 46) s) by done. rewrite !Hdot.
  do 3 rewrite splitOn_avoids by (apply octet_text; done).
  rewrite splitOn_last by (apply octet_text; done).
  rewrite !parseOctet_Itoa by done. by destruct ip.
Qed.

Lemma ip_text_avoids_slash ip : IPv4WF ip → avoids (Ascii.ascii_of_nat 47) (ip_String ip) = true.
Proof.
  intros (H0 & H1 & H2 & H3). unfold ip_String. rewrite !avoids_app.
  by rewrite (proj2 (octet_text _ H0)), (proj2 (octet_text _ H1)), (proj2 (octet_text _ H2)),
    (proj2 (octet_text _ H3)).
Qed.

(** A /32 block matches its address and nothing else. *)
Lemma dstMatch_host ip dst :
  IPv4WF ip → dstMatch (ip_String ip +:+ "/32") dst = (dst =? ipToUint32 ip).
Proof.
  intros Hw. unfold dstMatch, ParseCIDR.
  change ("/32") with (String (Ascii.ascii_of_nat 47) "32").
  rewrite splitOn_avoids by (by apply ip_text_avoids_slash).
  change (splitOn (Ascii.ascii_of_nat 47) "32") with ["32"].
  rewrite parseIPv4_String by done. change (parseNat "32") with (Some 32).
  change (32 <=? 32) with true. cbv iota beta. change (32 - 32) with 0.
  by rewrite Z.shiftl_0_r, !Z.shiftr_0_r.
Qed.

(** ** Lemmas: traversal of a chain *)

Lemma evalRules_cons d tbl pk r rest :
  evalRules d tbl pk (r :: rest) =
  (if (evalArgs r pk).1 then
     match terminal (evalArgs r pk).2 with
     | Some v => Some v
     | None =>
         match d with
         | O => evalRules d tbl pk rest
         | S d' => match evalRules d' tbl pk (default [] (tbl !! (evalArgs r pk).2)) with
                   | Some v => Some v
                   | None => evalRules d tbl pk rest
                   end
         end
     end
   else evalRules d tbl pk rest).
Proof. destruct d; cbn; destruct (evalArgs r pk) as [[] t]; done. Qed.

Lemma evalRules_nil d tbl pk : evalRules d tbl pk [] = None.
Proof. by destruct d. Qed.

(** A run of ACCEPT rules accepts when one of them matches and falls through
    otherwise. *)
Lemma evalRules_accepts d tbl pk l rest :
  Forall (fun r => (evalArgs r pk).2 = "ACCEPT") l →
  evalRules d tbl pk (l ++ rest) =
  if existsb (fun r => (evalArgs r pk).1) l then Some Accept else evalRules d tbl pk rest.
Proof.
  induction 1 as [|r l Hr _ IH]; [done|]. cbn [app existsb].
  rewrite evalRules_cons, Hr. destruct (evalArgs r pk).1; [done|exact IH].
Qed.

(** A rule that does not decide can be inserted or dropped anywhere. *)
Lemma evalRules_skip d tbl pk l1 r l2 :
  evalRules d tbl pk [r] = None →
  evalRules d tbl pk (l1 ++ r :: l2) = evalRules d tbl pk (l1 ++ l2).
Proof.
  rewrite evalRules_cons, evalRules_nil. intros Hr. induction l1 as [|r' l1 IH]; cbn [app].
  - rewrite evalRules_cons. destruct (evalArgs r pk).1; [|done].
    destruct (terminal _); [done|]. destruct d; [done|]. by destruct (evalRules d _ _ _).
  - rewrite !evalRules_cons, IH. done.
Qed.

Lemma existsb_concat {A} (f : A → bool) ls : existsb f (concat ls) = existsb (existsb f) ls.
Proof. induction ls as [|l ls IH]; [done|]. cbn. by rewrite existsb_app, IH. Qed.

Lemma existsb_fmap {A B} (f : B → bool) (g : A → B) l : existsb f (g <$> l) = existsb (fun x => f (g x)) l.
Proof. induction l as [|x l IH]; [done|]. cbn. by rewrite IH. Qed.

Lemma existsb_imap {A B} (f : B → bool) (g : nat → A → B) (h : A → bool) l :
  (∀ i x, x ∈ l → f (g i x) = h x) → existsb f (imap g l) = existsb h l.
Proof.
  revert g. induction l as [|x l IH]; intros g Hg; [done|]. cbn. rewrite Hg by set_solver.
  f_equal. apply IH. intros i y Hy. apply Hg. set_solver.
Qed.

(** ** What a policy means *)

(** The abstract specification: a packet that belongs to an admitted flow or hits
    an allowlist entry is accepted, any other gets the default. *)
Definition ruleAllows (pk : Packet) (r : ResolvedRule) : bool :=
  (if negb (String.eqb (rr_CIDR r) "") then dstMatch (rr_CIDR r) (pk_dst pk)
   else existsb (fun ip => pk_dst pk =? ipToUint32 ip) (rr_IPs r))
  && (match rr_Ports r with
      | [] => true
      | ports => String.eqb "tcp" (pk_proto pk) && existsb (Z.eqb (pk_dport pk)) ports
      end).

Definition decision (p : Policy) (pk : Packet) : Verdict :=
  if pk_established pk || existsb (ruleAllows pk) (pol_Allow p) then Accept
  else if String.eqb (pol_Default p) EgressDefaultDeny then Drop else Accept.

Definition PolicyWF (p : Policy) : Prop := Forall (fun r => Forall IPv4WF (rr_IPs r)) (pol_Allow p).

Lemma evalArgs_allow dst comment pk :
  evalArgs ["-d"; dst; "-m"; "comment"; "--comment"; comment; "-j"; "ACCEPT"] pk
  = (dstMatch dst (pk_dst pk), "ACCEPT").
Proof. cbn [evalArgs String.eqb Ascii.eqb Bool.eqb]. by rewrite andb_true_r. Qed.

Lemma evalArgs_port dst port comment pk :
  evalArgs ["-d"; dst; "-p"; "tcp"; "--dport"; Itoa port; "-m"; "comment"; "--comment"; comment;
            "-j"; "ACCEPT"] pk
  = (dstMatch dst (pk_dst pk) && (String.eqb "tcp" (pk_proto pk) && (pk_dport pk =? port)), "ACCEPT").
Proof.
  cbn -[dstMatch Itoa]. do 3 f_equal. rewrite andb_true_r.
  destruct (Z.eqb_spec (pk_dport pk) port) as [->|Hn]; [apply String.eqb_refl|].
  apply String.eqb_neq. intros E%Itoa_inj. congruence.
Qed.

Lemma evalArgs_established chain tag pk :
  evalArgs (rl_Args (establishedRule chain tag)) pk = (pk_established pk, "ACCEPT").
Proof. cbn. by rewrite andb_true_r. Qed.

Lemma evalArgs_terminal p pk :
  evalArgs (rl_Args (terminalRule p)) pk
  = (true, if String.eqb (pol_Default p) EgressDefaultDeny then "DROP" else "ACCEPT").
Proof. unfold terminalRule. by destruct (String.eqb _ _). Qed.

Lemma allow_rules_target chain tag i r pk :
  Forall (fun x => (evalArgs (rl_Args x) pk).2 = "ACCEPT") (buildAllowRules chain tag i r).
Proof.
  unfold buildAllowRules. apply Forall_concat, Forall_fmap, Forall_forall. intros dst _.
  cbn [compose]. destruct (rr_Ports r) as [|port ports].
  - constructor; [cbn [rl_Args]; by rewrite evalArgs_allow|constructor].
  - apply Forall_fmap, Forall_forall. intros q _. cbn [compose rl_Args]. by rewrite evalArgs_port.
Qed.

Lemma allow_targets_match r pk :
  Forall IPv4WF (rr_IPs r) →
  existsb (fun dst => dstMatch dst (pk_dst pk)) (allowTargets r)
  = if negb (String.eqb (rr_CIDR r) "") then dstMatch (rr_CIDR r) (pk_dst pk)
    else existsb (fun ip => pk_dst pk =? ipToUint32 ip) (rr_IPs r).
Proof.
  intros Hw. unfold allowTargets. destruct (negb _); [cbn; apply orb_false_r|].
  rewrite existsb_fmap. apply existsb_ext_elem. intros ip Hin.
  apply dstMatch_host. rewrite Forall_forall in Hw. by apply Hw.
Qed.

Lemma existsb_andb_const {A} (f : A → bool) (b : bool) l :
  existsb (fun x => f x && b) l = existsb f l && b.
Proof. induction l as [|x l IH]; [done|]. cbn. rewrite IH. by destruct (f x), b, (existsb f l). Qed.

Lemma allow_rules_match chain tag i r pk :
  Forall IPv4WF (rr_IPs r) →
  existsb (fun x => (evalArgs (rl_Args x) pk).1) (buildAllowRules chain tag i r) = ruleAllows pk r.
Proof.
  intros Hw. unfold buildAllowRules, ruleAllows. rewrite existsb_concat, existsb_fmap.
  rewrite <-(allow_targets_match r pk Hw). destruct (rr_Ports r) as [|port ports].
  - rewrite andb_true_r. apply existsb_ext_elem. intros dst _. cbn [existsb rl_Args].
    by rewrite evalArgs_allow, orb_false_r.
  - rewrite <-existsb_andb_const. apply existsb_ext_elem. intros dst _. rewrite existsb_fmap.
    set (ps := port :: ports). clearbody ps.
    trans (existsb (fun q => dstMatch dst (pk_dst pk) &&
             (String.eqb "tcp" (pk_proto pk) && (pk_dport pk =? q))) ps).
    { apply existsb_ext_elem. intros q _. cbn [rl_Args]. by rewrite evalArgs_port. }
    induction ps as [|q ps IH]; [by rewrite !andb_false_r|]. cbn [existsb]. rewrite IH.
    by destruct (dstMatch _ _), (String.eqb _ _), (_ =? q), (existsb _ ps).
Qed.

(** The accepting part of the chain: everything before the final rule. *)
Definition acceptPart (p : Policy) : list Rule :=
  [establishedRule (ChainName p) (CommentTag p)]
  ++ concat (imap (fun i r => buildAllowRules (ChainName p) (CommentTag p) i r) (pol_Allow p)).

Lemma BuildRules_split p : BuildRules p = acceptPart p ++ [terminalRule p].
Proof. unfold BuildRules, acceptPart. by rewrite <-app_assoc. Qed.

Lemma Forall_imap_const {A B} (P : B → Prop) (g : nat → A → B) l :
  (∀ i x, P (g i x)) → Forall P (imap g l).
Proof.
  intros Hg. revert g Hg. induction l as [|x l IH]; intros g Hg; [constructor|].
  cbn. constructor; [apply Hg|]. apply IH. intros i y. apply Hg.
Qed.

Lemma acceptPart_target p pk :
  Forall (fun x => (evalArgs (rl_Args x) pk).2 = "ACCEPT") (acceptPart p).
Proof.
  unfold acceptPart. constructor; [by rewrite evalArgs_established|].
  apply Forall_concat, Forall_imap_const. intros i r. apply allow_rules_target.
Qed.

Lemma acceptPart_match p pk :
  PolicyWF p → existsb (fun x => (evalArgs (rl_Args x) pk).1) (acceptPart p)
  = pk_established pk || existsb (ruleAllows pk) (pol_Allow p).
Proof.
  intros Hw. unfold acceptPart. cbn [app existsb]. rewrite evalArgs_established. cbn [fst]. f_equal.
  rewrite existsb_concat. apply existsb_imap. intros i r Hr. apply allow_rules_match.
  unfold PolicyWF in Hw. rewrite Forall_forall in Hw. by apply Hw.
Qed.

Lemma chain_decides d tbl p pk :
  PolicyWF p → evalRules d tbl pk (rl_Args <$> BuildRules p) = Some (decision p pk).
Proof.
  intros Hw. rewrite BuildRules_split, fmap_app, evalRules_accepts
    by (apply Forall_fmap, acceptPart_target).
  rewrite existsb_fmap, acceptPart_match by done. unfold decision.
  destruct (_ || _); [done|]. cbn [fmap list_fmap]. rewrite evalRules_cons, evalArgs_terminal.
  by destruct (String.eqb _ _).
Qed.

(** Between flush and the final rule the chain holds a prefix of the rules. *)
Lemma prefix_never_widens d tbl p pk rules :
  PolicyWF p → rules `prefix_of` BuildRules p →
  evalRules d tbl pk (rl_Args <$> rules) = Some Accept → decision p pk = Accept.
Proof.
  intros Hw (rest & Hr) Ha. rewrite BuildRules_split in Hr.
  destruct rest as [|x rest _] using rev_ind.
  - rewrite app_nil_r in Hr. rewrite <-Hr, <-BuildRules_split, chain_decides in Ha by done.
    by injection Ha.
  - rewrite app_assoc in Hr. apply app_inj_tail in Hr as [Hr _].
    pose proof (acceptPart_target p pk) as Ht. pose proof (acceptPart_match p pk Hw) as Hm.
    rewrite Hr in Ht, Hm. apply Forall_app in Ht as [Ht _].
    rewrite <-(app_nil_r (rl_Args <$> rules)), evalRules_accepts, existsb_fmap, evalRules_nil in Ha
      by (by apply Forall_fmap).
    rewrite existsb_app in Hm. unfold decision. rewrite <-Hm.
    by destruct (existsb _ rules).
Qed.

(** ** The enforcer on the table *)

Definition ensureChainT (c : string) (t : Table) : Table :=
  match t !! c with Some _ => t | None => <[c := []]> t end.
Definition ensureRuleT (c : string) (args : list string) (t : Table) : Table :=
  match t !! c with
  | Some rules => if bool_decide (args ∈ rules) then t else <[c := rules ++ [args]]> t
  | None => t
  end.
Definition ensureJumpT (c : string) (t : Table) : Table :=
  match t !! "FORWARD" with
  | Some rules => if bool_decide (["-j"; c] ∈ rules) then t
                  else <["FORWARD" := ["-j"; c] :: rules]> t
  | None => t
  end.

(** The table a policy's application leaves. *)
Definition installed (p : Policy) (t : Table) : Table :=
  ensureRuleT MasterChainName (rl_Args (DispatchRule p))
    (<[ChainName p := rl_Args <$> BuildRules p]>
       (ensureJumpT MasterChainName (ensureChainT MasterChainName t))).

Section OnTable.
Context {W : Type} (table : W → Table) `{DrivesTable W table}.

Lemma run_effect args w w' r :
  Run args w = (w', r) →
  match r with
  | Ok _ => effect args (table w) = Some (table w')
  | Err _ => table w' = table w
  end.
Proof. destruct r; intros E; [by eapply run_ok|by eapply run_err]. Qed.

Lemma ensureChain_table c w w' : ensureChain c w = (w', None) → table w' = ensureChainT c (table w).
Proof.
  unfold ensureChain, st_bind, st_ret, ensureChainT.
  destruct (Run ["-L"; c; "-n"] w) as [w1 [out|e]] eqn:E1; pose proof (run_effect _ _ _ _ E1) as H1; cbn in H1.
  - intros [= <-]. destruct (table w !! c); [by injection H1|done].
  - destruct (Run ["-N"; c] w1) as [w2 [out|e']] eqn:E2; [|done]. intros [= <-].
    pose proof (run_effect _ _ _ _ E2) as H2. cbn in H2. rewrite H1 in H2.
    destruct (table w !! c); [done|by injection H2].
Qed.

Lemma ensureJump_table c w w' :
  ensureJump c w = (w', None) → table w' = ensureJumpT c (table w) ∧ is_Some (table w !! "FORWARD").
Proof.
  unfold ensureJump, st_bind, st_ret, ensureJumpT.
  destruct (Run ["-C"; "FORWARD"; "-j"; c] w) as [w1 [out|e]] eqn:E1;
    pose proof (run_effect _ _ _ _ E1) as H1; cbn in H1.
  - intros [= <-]. destruct (table w !! "FORWARD"); [|done].
    destruct (bool_decide _); [|done]. injection H1 as ->. eauto.
  - destruct (Run ["-I"; "FORWARD"; "1"; "-j"; c] w1) as [w2 [out|e']] eqn:E2; [|done].
    intros [= <-]. pose proof (run_effect _ _ _ _ E2) as H2. cbn in H2. rewrite H1 in H2.
    pose proof (run_check _ _ _ _ E1) as H3. cbn in H3.
    destruct (table w !! "FORWARD"); [|done]. injection H2 as <-.
    destruct (bool_decide _); [done|]. eauto.
Qed.

Lemma ensureRuleArgs_table c args w w' :
  ensureRuleArgs c args w = (w', None) →
  table w' = ensureRuleT c args (table w) ∧ is_Some (table w !! c).
Proof.
  unfold ensureRuleArgs, st_bind, st_ret, ensureRuleT.
  destruct (Run ("-C" :: c :: args) w) as [w1 [out|e]] eqn:E1;
    pose proof (run_effect _ _ _ _ E1) as H1; cbn in H1.
  - intros [= <-]. destruct (table w !! c); [|done].
    destruct (bool_decide _); [|done]. injection H1 as ->. eauto.
  - destruct (Run ("-A" :: c :: args) w1) as [w2 [out|e']] eqn:E2; [|done].
    intros [= <-]. pose proof (run_effect _ _ _ _ E2) as H2. cbn in H2. rewrite H1 in H2.
    pose proof (run_check _ _ _ _ E1) as H3. cbn in H3.
    destruct (table w !! c); [|done]. injection H2 as <-.
    destruct (bool_decide _); [done|]. eauto.
Qed.

(** Rules are appended in order; a failing command leaves a prefix behind. *)
Lemma runRules_table c rules w w' err before :
  Forall (fun r => rl_Op r = "-A" ∧ rl_Chain r = c) rules → table w !! c = Some before →
  runRules rules w = (w', err) →
  ∃ ran, ran `prefix_of` rules ∧ (err = None → ran = rules) ∧
    table w' = <[c := before ++ (rl_Args <$> ran)]> (table w).
Proof.
  intros HF. revert w before. induction HF as [|r rules [Hop Hc] _ IH]; intros w before Hb.
  - intros [= <- <-]. exists []. split; [done|]. split; [done|].
    by rewrite fmap_nil, app_nil_r, insert_id.
  - cbn [runRules]. unfold st_bind at 1.
    destruct (Run (ruleArgs r) w) as [w1 [out|e]] eqn:E1; pose proof (run_effect _ _ _ _ E1) as H1.
    + unfold ruleArgs in H1. rewrite Hop, Hc in H1. cbn in H1. rewrite Hb in H1. injection H1 as H1.
      intros E. assert (Hb1 : table w1 !! c = Some (before ++ [rl_Args r]))
        by (rewrite <-H1; apply lookup_insert_eq).
      destruct (IH w1 _ Hb1 E) as (ran & Hp & Hr & Ht).
      exists (r :: ran). split; [by apply prefix_cons|]. split; [by intros <-%Hr|].
      rewrite Ht, <-H1, insert_insert_eq, fmap_cons. by rewrite <-app_assoc.
    + intros [= <- <-]. exists []. split; [apply prefix_nil|]. split; [done|].
      by rewrite H1, fmap_nil, app_nil_r, insert_id.
Qed.

Lemma BuildRules_ops p : Forall (fun r => rl_Op r = "-A" ∧ rl_Chain r = ChainName p) (BuildRules p).
Proof.
  unfold BuildRules. constructor; [done|]. apply Forall_app. split; [|by constructor].
  apply Forall_concat, Forall_imap_const. intros i r. unfold buildAllowRules.
  apply Forall_concat, Forall_fmap, Forall_forall. intros dst _. cbn [compose].
  destruct (rr_Ports r); [by constructor|]. apply Forall_fmap, Forall_forall. done.
Qed.

Lemma flush_table c w w' out :
  Run ["-F"; c] w = (w', Ok out) → table w' = <[c := []]> (table w) ∧ is_Some (table w !! c).
Proof.
  intros E. pose proof (run_effect _ _ _ _ E) as H1. cbn in H1.
  destruct (table w !! c); [|done]. injection H1 as <-. eauto.
Qed.

Lemma insert_ensureChainT c v (t : Table) : <[c := v]> (ensureChainT c t) = <[c := v]> t.
Proof. unfold ensureChainT. destruct (t !! c); [done|]. apply insert_insert_eq. Qed.

Lemma ApplyPolicy_table p w w' :
  ApplyPolicy (Some p) w = (w', None) → table w' = installed p (table w).
Proof.
  unfold ApplyPolicy, ensureMasterChain, ensureRule, st_bind, st_ret, applyErr.
  destruct (ensureChain MasterChainName w) as [w1 [e|]] eqn:E1; [done|].
  destruct (ensureJump MasterChainName w1) as [w2 [e|]] eqn:E2; [done|].
  destruct (ensureChain (ChainName p) w2) as [w3 [e|]] eqn:E3; [done|].
  destruct (Run ["-F"; ChainName p] w3) as [w4 [out|e]] eqn:E4; [|done].
  destruct (runRules (BuildRules p) w4) as [w5 [e|]] eqn:E5; [done|].
  destruct (ensureRuleArgs _ _ w5) as [w6 [e|]] eqn:E6; [done|]. intros [= <-].
  apply ensureChain_table in E1, E3. apply ensureJump_table in E2 as [E2 _].
  apply flush_table in E4 as [E4 _]. apply ensureRuleArgs_table in E6 as [E6 _].
  assert (H4 : table w4 !! ChainName p = Some []) by (rewrite E4; apply lookup_insert_eq).
  destruct (runRules_table _ _ _ _ _ _ (BuildRules_ops p) H4 E5) as (ran & _ & Hran & E5').
  rewrite (Hran eq_refl) in E5'. rewrite E6, E5', E4, insert_insert_eq. unfold installed. cbn [app].
  by rewrite E3, insert_ensureChainT, E2, E1.
Qed.
End OnTable.

(** *** The chains are different ones *)

Lemma ChainName_master p : ChainName p ≠ MasterChainName.
Proof. unfold ChainName, chainName. intros E. discriminate E. Qed.
Lemma ChainName_forward p : ChainName p ≠ "FORWARD".
Proof. unfold ChainName, chainName. intros E. discriminate E. Qed.
Lemma ChainName_jump p : terminal (ChainName p) = None.
Proof. reflexivity. Qed.

Lemma ensureChainT_some c t : is_Some (ensureChainT c t !! c).
Proof. unfold ensureChainT. destruct (t !! c) eqn:E; [by rewrite E|]. rewrite lookup_insert_eq. eauto. Qed.

Lemma ensureJumpT_ne c t k : k ≠ "FORWARD" → ensureJumpT c t !! k = t !! k.
Proof.
  intros Hk. unfold ensureJumpT. destruct (t !! "FORWARD"); [|done].
  destruct (bool_decide _); [done|]. by apply lookup_insert_ne.
Qed.

Lemma ensureChainT_ne c t k : k ≠ c → ensureChainT c t !! k = t !! k.
Proof. intros Hk. unfold ensureChainT. destruct (t !! c); [done|]. by apply lookup_insert_ne. Qed.

Lemma ensureRuleT_ne c args t k : k ≠ c → ensureRuleT c args t !! k = t !! k.
Proof.
  intros Hk. unfold ensureRuleT. destruct (t !! c); [|done].
  destruct (bool_decide _); [done|]. by apply lookup_insert_ne.
Qed.

Lemma ensureRuleT_lookup c args t rules :
  t !! c = Some rules →
  ensureRuleT c args t !! c = Some (if bool_decide (args ∈ rules) then rules else rules ++ [args]).
Proof.
  intros Ht. unfold ensureRuleT. rewrite Ht. destruct (bool_decide _); [done|]. apply lookup_insert_eq.
Qed.

Lemma installed_chain p t : installed p t !! ChainName p = Some (rl_Args <$> BuildRules p).
Proof.
  unfold installed. rewrite ensureRuleT_ne by apply ChainName_master. apply lookup_insert_eq.
Qed.

Lemma installed_master p t :
  installed p t !! MasterChainName =
  Some (let m := default [] (t !! MasterChainName) in
        let d := rl_Args (DispatchRule p) in if bool_decide (d ∈ m) then m else m ++ [d]).
Proof.
  unfold installed. apply ensureRuleT_lookup.
  rewrite lookup_insert_ne by apply ChainName_master. rewrite ensureJumpT_ne by done.
  unfold ensureChainT. destruct (t !! MasterChainName) eqn:E; [by rewrite E|]. apply lookup_insert_eq.
Qed.

Lemma installed_forward p t :
  installed p t !! "FORWARD" =
  (fun fw => if bool_decide (["-j"; MasterChainName] ∈ fw) then fw else ["-j"; MasterChainName] :: fw)
    <$> t !! "FORWARD".
Proof.
  unfold installed. rewrite ensureRuleT_ne by done.
  rewrite lookup_insert_ne by apply ChainName_forward. unfold ensureJumpT.
  rewrite ensureChainT_ne by done. destruct (t !! "FORWARD") as [fw|] eqn:E; cbn [fmap option_fmap option_map].
  - destruct (bool_decide _); [by rewrite ensureChainT_ne|]. apply lookup_insert_eq.
  - by rewrite ensureChainT_ne.
Qed.

Lemma installed_other p t k :
  k ≠ ChainName p → k ≠ MasterChainName → k ≠ "FORWARD" → installed p t !! k = t !! k.
Proof.
  intros. unfold installed. rewrite ensureRuleT_ne, lookup_insert_ne by done.
  by rewrite ensureJumpT_ne, ensureChainT_ne.
Qed.

(** The dispatch rule is reached when no other rule of the chain matches. *)
Lemma evalRules_dispatch d tbl pk l dr c v :
  dr ∈ l → (∀ r, r ∈ l → r = dr ∨ (evalArgs r pk).1 = false) →
  evalArgs dr pk = (true, c) → terminal c = None →
  evalRules d tbl pk (default [] (tbl !! c)) = Some v →
  evalRules (S d) tbl pk l = Some v.
Proof.
  intros Hin Hall Hd Hc Hv. induction l as [|r l IH]; [by apply elem_of_nil in Hin|].
  rewrite evalRules_cons. destruct (Hall r) as [->|Hf]; [left| |].
  - rewrite Hd. cbn [fst snd]. by rewrite Hc, Hv.
  - rewrite Hf. apply IH; [|intros; apply Hall; by right].
    apply elem_of_cons in Hin as [->|]; [|done]. by rewrite Hd in Hf.
Qed.

Lemma ifaceMatch_refl s : ifaceMatch s s = true.
Proof. induction s as [|c s IH]; [done|]. cbn. rewrite Ascii.eqb_refl, IH. apply orb_true_r. Qed.

Lemma evalArgs_dispatch p pk :
  pk_in pk = pol_Bridge p → evalArgs (rl_Args (DispatchRule p)) pk = (true, ChainName p).
Proof.
  intros Hin. cbn [rl_Args DispatchRule].
  change (evalArgs ["-i"; pol_Bridge p; "-m"; "comment"; "--comment"; CommentTag p +:+ ":dispatch";
                    "-j"; ChainName p] pk)
    with (ifaceMatch (pol_Bridge p) (pk_in pk) && true, ChainName p).
  by rewrite Hin, ifaceMatch_refl.
Qed.

(** ** Theorems *)

Section Claims.
Context {W : Type} (table : W → Table) `{DrivesTable W table}.

(** C4: An applied policy decides exactly.  After a successful Apply, whatever the
    firewall held before, a packet from the space's bridge that no other rule of
    KUKEON-EGRESS matches gets the policy's decision when it traverses that chain:
    accepted when it belongs to an admitted flow or hits an allowlist entry (by
    block or resolved address, and by TCP port when ports are listed), and the
    default otherwise.  No packet falls through the space's chain. *)
Theorem applied_policy_decides p w w' pk :
  PolicyWF p → ApplyPolicy (Some p) w = (w', None) → pk_in pk = pol_Bridge p →
  (∀ r, r ∈ default [] (table w !! MasterChainName) →
     r = rl_Args (DispatchRule p) ∨ (evalArgs r pk).1 = false) →
  evalRules 1 (table w') pk (default [] (table w' !! MasterChainName)) = Some (decision p pk).
Proof.
  intros Hw HA Hin Hother. apply (ApplyPolicy_table table) in HA. rewrite HA, installed_master.
  cbn [default]. apply (evalRules_dispatch 0 _ _ _ (rl_Args (DispatchRule p)) (ChainName p)).
  - case_bool_decide; set_solver.
  - case_bool_decide; [exact Hother|]. intros r [Hr|Hr]%elem_of_app; [by apply Hother|].
    left. by apply list_elem_of_singleton in Hr.
  - by apply evalArgs_dispatch.
  - apply ChainName_jump.
  - rewrite installed_chain. by apply chain_decides.
Qed.

(** C5: Applying a policy never opens the space meanwhile.  Apply flushes the
    space's chain and loads the rules one command at a time; at every point of
    the load, also when a command fails and Apply gives up, the chain accepts no
    packet that the complete policy drops. *)
Theorem apply_never_widens p w w1 w2 out rules err pk d :
  PolicyWF p → Run ["-F"; ChainName p] w = (w1, Ok out) → rules `prefix_of` BuildRules p →
  runRules rules w1 = (w2, err) → decision p pk = Drop →
  evalRules d (table w2) pk (default [] (table w2 !! ChainName p)) ≠ Some Accept.
Proof.
  intros Hw HF Hp HR Hd Ha. apply (flush_table table) in HF as [HF _].
  assert (H1 : table w1 !! ChainName p = Some []) by (rewrite HF; apply lookup_insert_eq).
  assert (Hops : Forall (fun r => rl_Op r = "-A" ∧ rl_Chain r = ChainName p) rules).
  { destruct Hp as (rest & Hp). pose proof (BuildRules_ops p) as Ho. rewrite Hp in Ho.
    by apply Forall_app in Ho as [Ho _]. }
  destruct (runRules_table table _ _ _ _ _ _ Hops H1 HR) as (ran & Hran & _ & Ht).
  rewrite Ht, lookup_insert_eq in Ha. cbn [default app] in Ha.
  assert (Hpre : ran `prefix_of` BuildRules p) by (by etrans).
  pose proof (prefix_never_widens d _ p pk ran Hw Hpre Ha). congruence.
Qed.

(** Applying is idempotent and local: a second Apply changes nothing, the
    chains of other spaces and of the host are untouched, and FORWARD only gains
    the jump to KUKEON-EGRESS at its head when it did not have it. *)
Theorem apply_policy_idempotent p w w' :
  ApplyPolicy (Some p) w = (w', None) →
  (∀ w'', ApplyPolicy (Some p) w' = (w'', None) → table w'' = table w') ∧
  (∀ k, k ≠ ChainName p → k ≠ MasterChainName → k ≠ "FORWARD" → table w' !! k = table w !! k) ∧
  table w' !! "FORWARD" =
    (fun fw => if bool_decide (["-j"; MasterChainName] ∈ fw) then fw
               else ["-j"; MasterChainName] :: fw) <$> table w !! "FORWARD".
Proof.
  intros HA. apply (ApplyPolicy_table table) in HA. rewrite HA. split; [|split].
  - intros w'' HB. apply (ApplyPolicy_table table) in HB. rewrite HB, HA. apply map_eq. intros k.
    destruct (decide (k = ChainName p)) as [->|H1]; [by rewrite !installed_chain|].
    destruct (decide (k = MasterChainName)) as [->|H2].
    { rewrite !installed_master. cbn [default]. f_equal. repeat case_bool_decide; set_solver. }
    destruct (decide (k = "FORWARD")) as [->|H3]; [|by rewrite !installed_other].
    rewrite !installed_forward, <-option_fmap_compose. destruct (table w !! "FORWARD") as [fw|]; [|done].
    cbn. f_equal. repeat case_bool_decide; set_solver.
  - intros k H1 H2 H3. by apply installed_other.
  - apply installed_forward.
Qed.
End Claims.

(** ** The admission chain *)

(** What Install puts into KUKEON-FORWARD. *)
Definition admissionChain : list (list string) := drop 2 <$> AdmissionRules.

Lemma admission_passes d tbl pk :
  pk_established pk = false → ifaceMatch BridgeIfaceMatch (pk_in pk) = true →
  evalRules d tbl pk admissionChain = None.
Proof.
  intros He Hi. unfold admissionChain, AdmissionRules. cbn [fmap list_fmap drop].
  rewrite !evalRules_cons, evalRules_nil.
  cbn [evalArgs String.eqb Ascii.eqb Bool.eqb]. rewrite He, Hi. cbn. done.
Qed.

Lemma bridge_is_kukeon network : network ≠ "" → ifaceMatch BridgeIfaceMatch (SafeBridgeName network) = true.
Proof. intros Hn. unfold SafeBridgeName. destruct (String.eqb_spec network ""); [done|reflexivity]. Qed.

Lemma jump_passes d tbl pk c :
  terminal c = None → evalRules d tbl pk (default [] (tbl !! c)) = None →
  evalRules (S d) tbl pk [["-j"; c]] = None.
Proof.
  intros Hc Hn. rewrite evalRules_cons, evalRules_nil. cbn [evalArgs String.eqb Ascii.eqb Bool.eqb fst snd].
  by rewrite Hc, Hn.
Qed.

Lemma unmatched_passes d tbl pk l :
  (∀ r, r ∈ l → (evalArgs r pk).1 = false) → evalRules d tbl pk l = None.
Proof.
  induction l as [|r l IH]; intros Hl; [apply evalRules_nil|]. rewrite evalRules_cons.
  rewrite (Hl r) by set_solver. apply IH. set_solver.
Qed.

(** C8: Host-level admission never decides a space's egress.  For a new packet
    that enters from any space's bridge, the jump to KUKEON-FORWARD can stand
    anywhere in FORWARD or be missing: the verdict is the same.  And it fails
    closed: with only kukeon's two jumps in FORWARD, in either order, and no rule
    of KUKEON-EGRESS for that bridge, no rule accepts the packet and FORWARD's
    own policy decides. *)
Theorem forward_admission_never_shadows_egress d tbl pk network :
  tbl !! ForwardChainName = Some admissionChain → pk_established pk = false →
  network ≠ "" → pk_in pk = SafeBridgeName network →
  (∀ l1 l2, evalRules (S d) tbl pk (l1 ++ ["-j"; ForwardChainName] :: l2)
            = evalRules (S d) tbl pk (l1 ++ l2)) ∧
  ((∀ r, r ∈ default [] (tbl !! MasterChainName) → (evalArgs r pk).1 = false) →
   ∀ fw, fw ≡ₚ [["-j"; ForwardChainName]; ["-j"; MasterChainName]] →
   evalRules (S d) tbl pk fw = None).
Proof.
  intros Ht He Hn Hi.
  assert (HF : evalRules (S d) tbl pk [["-j"; ForwardChainName]] = None).
  { apply jump_passes; [done|]. rewrite Ht. apply admission_passes; [done|].
    rewrite Hi. by apply bridge_is_kukeon. }
  assert (Hskip : ∀ l1 l2, evalRules (S d) tbl pk (l1 ++ ["-j"; ForwardChainName] :: l2)
                           = evalRules (S d) tbl pk (l1 ++ l2)).
  { intros l1 l2. by apply evalRules_skip. }
  split; [exact Hskip|]. intros Hm fw Hp.
  assert (HM : evalRules (S d) tbl pk [["-j"; MasterChainName]] = None).
  { apply jump_passes; [done|]. by apply unmatched_passes. }
  symmetry in Hp. apply Permutation_length_2_inv in Hp as [->| ->].
  - exact (eq_trans (Hskip [] [["-j"; MasterChainName]]) HM).
  - exact (eq_trans (Hskip [["-j"; MasterChainName]] []) HM).
Qed.

Section Admission.
Context {W : Type} (table : W → Table) `{DrivesTable W table}.

Lemma migrate_table w w' :
  migrateUntaggedRules w = (w', None) →
  table w' = table w ∨ table w' = <[ForwardChainName := []]> (table w).
Proof.
  unfold migrateUntaggedRules, st_bind, st_ret.
  destruct (Run ["-S"; ForwardChainName] w) as [w1 [out|e]] eqn:E1;
    pose proof (run_effect table _ _ _ _ E1) as H1; cbn in H1.
  - destruct (table w !! _) eqn:Ht; [|done]. injection H1 as H1.
    destruct (existsb _ _); [|intros [= <-]; by left].
    destruct (Run ["-F"; ForwardChainName] w1) as [w2 [o|e]] eqn:E2; [|done]. intros [= <-].
    apply (flush_table table) in E2 as [-> _]. rewrite H1. by right.
  - intros [= <-]. by left.
Qed.

Lemma ensureAdmission_table w w' :
  ensureAdmissionRules AdmissionRules w = (w', None) →
  table w' = foldl (fun t args => ensureRuleT ForwardChainName (drop 2 args) t) (table w) AdmissionRules.
Proof.
  unfold AdmissionRules. cbn [ensureAdmissionRules ensureAdmissionRule String.eqb Ascii.eqb Bool.eqb].
  unfold st_bind, st_ret.
  destruct (ensureRuleArgs _ _ w) as [w1 [e|]] eqn:E1; [done|].
  destruct (ensureRuleArgs _ _ w1) as [w2 [e|]] eqn:E2; [done|]. intros [= <-].
  apply (ensureRuleArgs_table table) in E1 as [E1 _], E2 as [E2 _].
  rewrite E2, E1. reflexivity.
Qed.

(** Pruning removes copies of one rule from KUKEON-FORWARD and nothing else. *)
Definition Pruned (spec : list string) (t t' : Table) : Prop :=
  (∀ k, k ≠ ForwardChainName → t' !! k = t !! k) ∧
  ∀ rules, t !! ForwardChainName = Some rules →
    ∃ rules', t' !! ForwardChainName = Some rules' ∧
      (∀ r, r ≠ spec → r ∈ rules → r ∈ rules') ∧ (spec ∉ rules → rules' = rules).

Lemma Pruned_refl spec t : Pruned spec t t.
Proof. split; [done|]. intros rules Hr. exists rules. eauto. Qed.

Lemma Pruned_trans spec t1 t2 t3 : Pruned spec t1 t2 → Pruned spec t2 t3 → Pruned spec t1 t3.
Proof.
  intros [Ho1 Hf1] [Ho2 Hf2]. split; [intros k Hk; by rewrite Ho2, Ho1|]. intros rules Hr.
  destruct (Hf1 _ Hr) as (r1 & H1 & Hk1 & He1). destruct (Hf2 _ H1) as (r2 & H2 & Hk2 & He2).
  exists r2. split; [done|]. split; [eauto|]. intros Hn. rewrite He2; [eauto|]. by rewrite He1.
Qed.

Lemma removeFirst_keeps spec rules r : r ≠ spec → r ∈ rules → r ∈ removeFirst spec rules.
Proof.
  intros Hne. induction rules as [|x rules IH]; [done|]. cbn. case_bool_decide; set_solver.
Qed.

Lemma delete_pruned spec w w' r :
  Run ("-D" :: ForwardChainName :: spec) w = (w', r) → Pruned spec (table w) (table w').
Proof.
  intros E. pose proof (run_effect table _ _ _ _ E) as H1. destruct r as [out|e]; [|rewrite H1; apply Pruned_refl].
  cbn in H1. destruct (table w !! ForwardChainName) as [rules|] eqn:Ht; [|done].
  case_bool_decide as Hin; [|done]. injection H1 as <-.
  split; [intros k Hk; by apply lookup_insert_ne|]. rewrite Ht. intros rules0 [= <-].
  eexists. split; [apply lookup_insert_eq|]. split; [apply removeFirst_keeps|done].
Qed.

Lemma pruneLines_pruned stale spec lines w w' u :
  pruneLines stale ("-D" :: ForwardChainName :: spec) lines w = (w', u) →
  Pruned spec (table w) (table w').
Proof.
  revert w. induction lines as [|line lines IH]; intros w; [intros [= <- _]; apply Pruned_refl|].
  cbn [pruneLines]. destruct (_ && _); [|apply IH]. unfold st_bind.
  destruct (Run _ w) as [w1 [o|e]] eqn:E; pose proof (delete_pruned _ _ _ _ E) as Hp.
  - intros H1. eapply Pruned_trans; [exact Hp|by eapply IH].
  - intros [= <- _]. exact Hp.
Qed.

Lemma prune_pruned stale spec w w' u :
  prune stale ("-D" :: ForwardChainName :: spec) w = (w', u) → Pruned spec (table w) (table w').
Proof.
  unfold prune, st_bind. destruct (Run ["-S"; ForwardChainName] w) as [w1 [out|e]] eqn:E;
    pose proof (run_effect table _ _ _ _ E) as H1; cbn in H1.
  - destruct (table w !! _) eqn:Ht; [|done]. injection H1 as ->. apply pruneLines_pruned.
  - intros [= <- _]. rewrite H1. apply Pruned_refl.
Qed.

Lemma admission_fold t rules :
  t !! ForwardChainName = Some rules →
  ∃ rules', foldl (fun t args => ensureRuleT ForwardChainName (drop 2 args) t) t AdmissionRules
              !! ForwardChainName = Some rules' ∧
    (∀ r, r ∈ admissionChain → r ∈ rules') ∧
    (rules = [] ∨ rules = admissionChain → rules' = admissionChain).
Proof.
  intros Ht. unfold admissionChain, AdmissionRules. cbn [foldl fmap list_fmap drop].
  set (r1 := ["-m"; "conntrack"; _; _; _; _; _; _; _; _]).
  set (r2 := ["!"; _; _; _; _; _; _; _; _; _; _]).
  pose proof (ensureRuleT_lookup _ r1 _ _ Ht) as H1.
  pose proof (ensureRuleT_lookup _ r2 _ _ H1) as H2.
  eexists. split; [exact H2|]. split.
  - intros r Hr. repeat case_bool_decide; set_solver.
  - intros [-> | ->]; [reflexivity|]. rewrite bool_decide_true by set_solver.
    by rewrite bool_decide_true by set_solver.
Qed.

(** Installing the admission chain converges: after a successful Install both
    admission rules are in KUKEON-FORWARD and FORWARD jumps to it, whatever the
    chain carried before; and on a host where the chain was absent or already
    healthy it holds exactly the admission rules, in their order, so that
    re-running Install adds nothing. *)
Theorem install_admission_converges w w' :
  Install w = (w', None) →
  (∃ rules, table w' !! ForwardChainName = Some rules ∧ ∀ r, r ∈ admissionChain → r ∈ rules) ∧
  (∃ fw, table w' !! "FORWARD" = Some fw ∧ ["-j"; ForwardChainName] ∈ fw) ∧
  (table w !! ForwardChainName = None ∨ table w !! ForwardChainName = Some admissionChain →
   table w' !! ForwardChainName = Some admissionChain).
Proof.
  unfold Install, st_bind at 1 2 3 4 5 6, st_ret, admissionErr.
  destruct (ensureChain ForwardChainName w) as [w1 [e|]] eqn:E1; [done|].
  destruct (migrateUntaggedRules w1) as [w2 [e|]] eqn:E2; [done|].
  destruct (ensureAdmissionRules AdmissionRules w2) as [w3 [e|]] eqn:E3; [done|].
  destruct (pruneObsoleteEgressAdmission w3) as [w4 u4] eqn:E4.
  destruct (pruneUnscopedIngressAdmission w4) as [w5 u5] eqn:E5.
  destruct (ensureJump ForwardChainName w5) as [w6 [e|]] eqn:E6; [done|]. intros [= <-].
  apply (ensureChain_table table) in E1. apply migrate_table in E2.
  apply ensureAdmission_table in E3. apply prune_pruned in E4 as [_ P4], E5 as [_ P5].
  apply (ensureJump_table table) in E6 as [E6 (fw & Hfw)].
  assert (H2 : ∃ rules, table w2 !! ForwardChainName = Some rules ∧
    (table w !! ForwardChainName = None ∨ table w !! ForwardChainName = Some admissionChain →
     rules = [] ∨ rules = admissionChain)).
  { assert (H1 : table w1 !! ForwardChainName = Some (default [] (table w !! ForwardChainName))).
    { rewrite E1. unfold ensureChainT. destruct (table w !! _) eqn:Hw; [done|]. apply lookup_insert_eq. }
    destruct E2 as [-> | ->]; [rewrite H1|rewrite lookup_insert_eq]; eexists; (split; [done|]);
      [intros [-> | ->]; auto|auto]. }
  destruct H2 as (rules2 & H2 & Hc2). destruct (admission_fold _ _ H2) as (rules3 & H3 & Ha3 & Hc3).
  rewrite <-E3 in H3. destruct (P4 _ H3) as (rules4 & H4 & Hk4 & He4).
  destruct (P5 _ H4) as (rules5 & H5 & Hk5 & He5). rewrite E6.
  assert (H6 : ensureJumpT ForwardChainName (table w5) !! ForwardChainName = Some rules5)
    by (by rewrite ensureJumpT_ne).
  split; [|split].
  - exists rules5. split; [exact H6|]. intros r Hr.
    unfold admissionChain, AdmissionRules in Hr. cbn [fmap list_fmap drop] in Hr.
    apply Hk5; [|apply Hk4; [|by apply Ha3]]; set_solver.
  - unfold ensureJumpT. rewrite Hfw. case_bool_decide; [eauto|]. rewrite lookup_insert_eq.
    eexists. split; [done|]. left.
  - intros Hw. rewrite H6. f_equal. specialize (Hc3 (Hc2 Hw)). rewrite He5, He4; [done|..];
      rewrite ?He4, Hc3; unfold admissionChain, AdmissionRules; cbn [fmap list_fmap drop]; set_solver.
Qed.
End Admission.

(** ** Reading rules back *)

(** iptables -S prints an argument with blanks in double quotes. *)
Definition renderArg (a : string) : string :=
  if avoids (Ascii.ascii_of_nat 32) a then a else Quote a.

Lemma string_app_nil_r (a : string) : a +:+ "" = a.
Proof. induction a as [|c a IH]; [done|]. exact (f_equal (String c) IH). Qed.

Lemma parse_plain a rest q cur out :
  avoids (Ascii.ascii_of_nat 34) a = true → q = true ∨ avoids (Ascii.ascii_of_nat 32) a = true →
  parseRuleLoop (a +:+ rest) q cur out = parseRuleLoop rest q (cur +:+ a) out.
Proof.
  revert cur. induction a as [|c a IH]; intros cur Hq Hb; [by rewrite string_app_nil_r|].
  change (String c a +:+ rest) with (String c (a +:+ rest)).
  cbn [avoids] in Hq, Hb. apply andb_true_iff in Hq as [Hc Hq]. apply negb_true_iff in Hc.
  assert (Hs : Ascii.eqb c (Ascii.ascii_of_nat 32) && negb q = false).
  { destruct Hb as [->|[Hs _]%andb_true_iff]; [apply andb_false_r|]. apply negb_true_iff in Hs. by rewrite Hs. }
  cbn [parseRuleLoop]. rewrite Hc, Hs, IH; [|done|].
  - by rewrite string_app_assoc.
  - destruct Hb as [->|[_ Hb]%andb_true_iff]; auto.
Qed.

Lemma parse_arg a rest cur out :
  avoids (Ascii.ascii_of_nat 34) a = true →
  parseRuleLoop (renderArg a +:+ rest) false cur out = parseRuleLoop rest false (cur +:+ a) out.
Proof.
  intros Hq. unfold renderArg. destruct (avoids (Ascii.ascii_of_nat 32) a) eqn:Hb.
  - by apply parse_plain; [|right].
  - unfold Quote. rewrite !string_app_assoc.
    change (quote_char +:+ ?s) with (String (Ascii.ascii_of_nat 34) s). cbn [parseRuleLoop].
    change (Ascii.eqb (Ascii.ascii_of_nat 34) (Ascii.ascii_of_nat 34)) with true. cbv iota.
    rewrite parse_plain by auto.
    change (quote_char +:+ rest) with (String (Ascii.ascii_of_nat 34) rest). reflexivity.
Qed.

Lemma parse_args args out :
  Forall (fun a => a ≠ "" ∧ avoids (Ascii.ascii_of_nat 34) a = true) args →
  parseRuleLoop (Join " " (renderArg <$> args)) false "" out = Ok (out ++ args).
Proof.
  intros HF. revert out. induction HF as [|a args [Hn Hq] HF IH]; intros out.
  - cbn. by rewrite app_nil_r.
  - destruct args as [|b args].
    + change (Join " " (renderArg <$> [a])) with (renderArg a).
      rewrite <-(string_app_nil_r (renderArg a)), parse_arg by done.
      change ("" +:+ a) with a. cbn [parseRuleLoop]. unfold flushArg.
      by destruct (String.eqb_spec a "").
    + change (Join " " (renderArg <$> a :: b :: args))
        with (renderArg a +:+ " " +:+ Join " " (renderArg <$> b :: args)).
      rewrite parse_arg by done. change ("" +:+ a) with a.
      change (" " +:+ ?s) with (String (Ascii.ascii_of_nat 32) s).
      cbn [parseRuleLoop]. change (Ascii.eqb (Ascii.ascii_of_nat 32) (Ascii.ascii_of_nat 34)) with false.
      change (Ascii.eqb (Ascii.ascii_of_nat 32) (Ascii.ascii_of_nat 32) && negb false) with true.
      cbv iota. rewrite IH. unfold flushArg. destruct (String.eqb_spec a ""); [done|].
      by rewrite <-app_assoc.
Qed.

(** A rule listed by iptables is read back exactly: splitting the printed line
    (blanks between arguments, double quotes around those that contain blanks)
    yields the argument vector it was printed from, so that the deletion issued
    by Remove names the very rule that was listed. *)
Theorem parse_rule_line_roundtrip args :
  Forall (fun a => a ≠ "" ∧ avoids (Ascii.ascii_of_nat 34) a = true) args →
  parseRuleLine (Join " " (renderArg <$> args)) = Ok args.
Proof. intros HF. unfold parseRuleLine. by rewrite parse_args. Qed.

Lemma parse_rule_line_roundtrip_witness :
  parseRuleLine (Join " " (renderArg <$> ["-A"; MasterChainName; "--comment"; "two words"; "-j"; "X"]))
  = Ok ["-A"; MasterChainName; "--comment"; "two words"; "-j"; "X"].
Proof. apply parse_rule_line_roundtrip. repeat constructor; done. Defined.

(** ** A concrete firewall *)

#[local] Instance table_runner : CommandRunner Table := {|
  Run args t := match effect args t with
                | Some t' => (t', Ok "")
                | None => (t, Err (EOpaque "iptables"))
                end
|}.

#[local] Instance table_drives : DrivesTable Table id.
Proof.
  split; intros *; cbn [Run table_runner id].
  - destruct (effect args w); [by intros [= <- _]|done].
  - destruct (effect args w); [done|by intros [= <- _]].
  - by destruct (effect ("-C" :: args) w).
Qed.

Definition emptyHost : Table := {["FORWARD" := []]}.
Definition samplePolicy : Policy := {|
  pol_Bridge := "k-1"; pol_RealmName := "r"; pol_SpaceName := "s"; pol_Default := EgressDefaultDeny;
  pol_Allow := [{| rr_OriginalHost := ""; rr_CIDR := "10.0.0.0/8"; rr_IPs := []; rr_Ports := [443] |}] |}.
Definition samplePacket (dst port : Z) : Packet := {|
  pk_in := "k-1"; pk_out := "eth0"; pk_established := false; pk_dst := dst; pk_proto := "tcp";
  pk_dport := port |}.
Definition appliedHost : Table := (ApplyPolicy (Some samplePolicy) emptyHost).1.

Lemma samplePolicy_wf : PolicyWF samplePolicy.
Proof. repeat constructor. Qed.

Lemma sample_apply : ApplyPolicy (Some samplePolicy) emptyHost = (appliedHost, None).
Proof. vm_compute. reflexivity. Qed.

Lemma empty_master r (P : Prop) : r ∈ default [] (emptyHost !! MasterChainName) → P.
Proof. intros Hr. exfalso. exact (not_elem_of_nil r Hr). Qed.

Lemma applied_policy_decides_witness :
  evalRules 1 appliedHost (samplePacket 167772161 443)
    (default [] (appliedHost !! MasterChainName)) = Some Accept ∧
  decision samplePolicy (samplePacket 3232235777 443) = Drop.
Proof.
  split; [|reflexivity].
  apply (applied_policy_decides id samplePolicy emptyHost appliedHost (samplePacket 167772161 443)
           samplePolicy_wf sample_apply eq_refl).
  intros r. apply empty_master.
Defined.

Lemma apply_never_widens_witness :
  let w1 := (Run ["-F"; ChainName samplePolicy] appliedHost).1 in
  let w2 := (runRules (take 2 (BuildRules samplePolicy)) w1).1 in
  evalRules 1 w2 (samplePacket 3232235777 443) (default [] (w2 !! ChainName samplePolicy)) ≠ Some Accept.
Proof.
  intros w1 w2.
  apply (apply_never_widens id samplePolicy appliedHost w1 w2 "" (take 2 (BuildRules samplePolicy)) None).
  - exact samplePolicy_wf.
  - vm_compute. reflexivity.
  - exists (drop 2 (BuildRules samplePolicy)). reflexivity.
  - vm_compute. reflexivity.
  - reflexivity.
Defined.

Lemma apply_policy_idempotent_witness :
  (ApplyPolicy (Some samplePolicy) appliedHost).1 = appliedHost.
Proof.
  apply (proj1 (apply_policy_idempotent id samplePolicy emptyHost appliedHost sample_apply)).
  vm_compute. reflexivity.
Defined.

Definition admittedHost : Table := (Install emptyHost).1.

Lemma sample_install : Install emptyHost = (admittedHost, None).
Proof. vm_compute. reflexivity. Qed.

Lemma install_admission_converges_witness :
  admittedHost !! ForwardChainName = Some admissionChain.
Proof.
  apply (proj2 (proj2 (install_admission_converges id emptyHost admittedHost sample_install))).
  left. reflexivity.
Defined.

Lemma admitted_chain : admittedHost !! ForwardChainName = Some admissionChain.
Proof. vm_compute. reflexivity. Qed.

Definition bridgePacket : Packet := {|
  pk_in := SafeBridgeName "r-s"; pk_out := "eth0"; pk_established := false; pk_dst := 1;
  pk_proto := "tcp"; pk_dport := 80 |}.

Lemma forward_admission_never_shadows_egress_witness :
  evalRules 1 admittedHost bridgePacket [["-j"; MasterChainName]; ["-j"; ForwardChainName]] = None.
Proof.
  apply (proj2 (forward_admission_never_shadows_egress 0 admittedHost bridgePacket "r-s"
                  admitted_chain eq_refl ltac:(discriminate) eq_refl)).
  - intros r Hr. exfalso. vm_compute in Hr. inversion Hr.
  - apply Permutation_swap.
Defined.
