(* ===== verification/Lock.v ===== *)
(** * Lock: the per-cell lifecycle lock (internal/controller/runner/cell_lock.go)

    A map from lock keys to reference-counted mutexes, used by any number of
    goroutines.  A call to lock and to the release func it returns are two
    critical sections under the manager's own mutex each, with the acquisition
    or release of the per-key mutex in between or before; these are the atomic
    steps of a transition system over the shared state. *)

From Stdlib Require Import ZArith String.
From stdpp Require Import base gmap strings list relations.
From S2P Require Import Prelude Model.

Definition EntryId := positive.
Definition ThreadId := positive.

(** cellLockEntry: the mutex (with the thread that holds it) and its count. *)
Record cellLockEntry := { le_owner : option ThreadId; le_waiters : Z }.

(** Where a goroutine stands in its use of the lock. *)
Inductive Pc :=
| Waiting (key : string) (e : EntryId)     (* registered, blocked on e.mu *)
| Holding (key : string) (e : EntryId)     (* lock returned *)
| Releasing (key : string) (e : EntryId).  (* release func: e.mu unlocked *)

Definition pc_key (p : Pc) : string :=
  match p with Waiting k _ | Holding k _ | Releasing k _ => k end.
Definition pc_entry (p : Pc) : EntryId :=
  match p with Waiting _ e | Holding _ e | Releasing _ e => e end.

Record LockState := {
  lk_locks : gmap string EntryId;             (* m.locks *)
  lk_entries : gmap EntryId cellLockEntry;    (* the allocated entries *)
  lk_threads : gmap ThreadId Pc               (* goroutines inside the protocol *)
}.

(** The first critical section of lock: find or create the entry, count in. *)
Definition lockEnter (t : ThreadId) (key : string) (s : LockState) : LockState :=
  match lk_locks s !! key with
  | Some e =>
      let en := default {| le_owner := None; le_waiters := 0 |} (lk_entries s !! e) in
      {| lk_locks := lk_locks s;
         lk_entries := <[e := {| le_owner := le_owner en; le_waiters := (le_waiters en + 1)%Z |}]>
                         (lk_entries s);
         lk_threads := <[t := Waiting key e]> (lk_threads s) |}
  | None =>
      let e := fresh (dom (lk_entries s)) in
      {| lk_locks := <[key := e]> (lk_locks s);
         lk_entries := <[e := {| le_owner := None; le_waiters := 1 |}]> (lk_entries s);
         lk_threads := <[t := Waiting key e]> (lk_threads s) |}
  end.

(** e.mu.Lock() returns: the mutex is free and this goroutine gets it. *)
Definition lockGrant (t : ThreadId) (s : LockState) : option LockState :=
  match lk_threads s !! t with
  | Some (Waiting key e) =>
      match lk_entries s !! e with
      | Some en =>
          match le_owner en with
          | None => Some {|
              lk_locks := lk_locks s;
              lk_entries := <[e := {| le_owner := Some t; le_waiters := le_waiters en |}]> (lk_entries s);
              lk_threads := <[t := Holding key e]> (lk_threads s) |}
          | Some _ => None
          end
      | None => None
      end
  | _ => None
  end.

(** The release func: e.mu.Unlock(). *)
Definition unlockMutex (t : ThreadId) (s : LockState) : option LockState :=
  match lk_threads s !! t with
  | Some (Holding key e) =>
      match lk_entries s !! e with
      | Some en => Some {|
          lk_locks := lk_locks s;
          lk_entries := <[e := {| le_owner := None; le_waiters := le_waiters en |}]> (lk_entries s);
          lk_threads := <[t := Releasing key e]> (lk_threads s) |}
      | None => None
      end
  | _ => None
  end.

(** The release func's critical section: count out, drop the entry at zero. *)
Definition unlockLeave (t : ThreadId) (s : LockState) : option LockState :=
  match lk_threads s !! t with
  | Some (Releasing key e) =>
      match lk_entries s !! e with
      | Some en =>
          let n := (le_waiters en - 1)%Z in
          Some {|
            lk_locks := if Z.eqb n 0 then delete key (lk_locks s) else lk_locks s;
            lk_entries := <[e := {| le_owner := le_owner en; le_waiters := n |}]> (lk_entries s);
            lk_threads := delete t (lk_threads s) |}
      | None => None
      end
  | _ => None
  end.

Inductive LockStep : LockState → LockState → Prop :=
| StepEnter t key s : lk_threads s !! t = None → LockStep s (lockEnter t key s)
| StepGrant t s s' : lockGrant t s = Some s' → LockStep s s'
| StepUnlock t s s' : unlockMutex t s = Some s' → LockStep s s'
| StepLeave t s s' : unlockLeave t s = Some s' → LockStep s s'.

Definition initLock : LockState := {| lk_locks := ∅; lk_entries := ∅; lk_threads := ∅ |}.

(** ** Invariant *)

Definition refs (e : EntryId) (ts : gmap ThreadId Pc) : gmap ThreadId Pc :=
  filter (fun p => pc_entry p.2 = e) ts.
Definition refCount (e : EntryId) (ts : gmap ThreadId Pc) : Z := Z.of_nat (size (refs e ts)).

Record LockInv (s : LockState) : Prop := {
  (** a goroutine's entry is the one registered under its key *)
  li_registered : ∀ t p, lk_threads s !! t = Some p → lk_locks s !! pc_key p = Some (pc_entry p);
  (** a registered entry exists, counts its users, and has one *)
  li_counted : ∀ k e, lk_locks s !! k = Some e →
    ∃ en, lk_entries s !! e = Some en ∧ le_waiters en = refCount e (lk_threads s) ∧
          (0 < le_waiters en)%Z;
  (** entries are not shared between keys *)
  li_distinct : ∀ k1 k2 e, lk_locks s !! k1 = Some e → lk_locks s !! k2 = Some e → k1 = k2;
  (** the owner of a mutex is the goroutine that holds it *)
  li_owner : ∀ e en t, lk_entries s !! e = Some en →
    (le_owner en = Some t ↔ ∃ k, lk_threads s !! t = Some (Holding k e))
}.

Lemma refs_insert_new e t p ts :
  ts !! t = None →
  refCount e (<[t := p]> ts) = (refCount e ts + if decide (pc_entry p = e) then 1 else 0)%Z.
Proof.
  intros Ht. unfold refCount, refs. case_decide as He.
  - rewrite map_filter_insert_True by done. rewrite map_size_insert_None; [lia|].
    apply map_lookup_filter_None. by left.
  - rewrite map_filter_insert_False, delete_id by done. lia.
Qed.

Lemma refs_delete e t p ts :
  ts !! t = Some p →
  refCount e (delete t ts) = (refCount e ts - if decide (pc_entry p = e) then 1 else 0)%Z.
Proof.
  intros Ht. rewrite <-(insert_delete_id ts t p Ht) at 2.
  rewrite refs_insert_new by apply lookup_delete_eq. lia.
Qed.

Lemma refs_update e t p p' ts :
  ts !! t = Some p → pc_entry p' = pc_entry p → refCount e (<[t := p']> ts) = refCount e ts.
Proof.
  intros Ht Hp. rewrite <-insert_delete_eq. rewrite refs_insert_new by apply lookup_delete_eq.
  rewrite (refs_delete e t p) by done. rewrite Hp. lia.
Qed.

(** Some goroutine refers to an entry of positive count. *)
Lemma refs_pos e ts : (0 < refCount e ts)%Z → ∃ t p, ts !! t = Some p ∧ pc_entry p = e.
Proof.
  unfold refCount, refs. intros Hp.
  destruct (map_choose (filter (fun p => pc_entry p.2 = e) ts)) as (t & p & Ht).
  - intros E. rewrite E, map_size_empty in Hp. lia.
  - apply map_lookup_filter_Some in Ht. eauto.
Qed.

Lemma refs_member e t p ts : ts !! t = Some p → pc_entry p = e → (0 < refCount e ts)%Z.
Proof.
  intros Ht Hp. rewrite <-(insert_delete_id ts t p Ht).
  rewrite refs_insert_new by apply lookup_delete_eq. rewrite decide_True by done.
  unfold refCount. lia.
Qed.

Section Preservation.
Context (s : LockState) (Inv : LockInv s).

(** Every goroutine's entry is allocated, and no goroutine uses a fresh one. *)
Lemma thread_entry t p : lk_threads s !! t = Some p → is_Some (lk_entries s !! pc_entry p).
Proof.
  intros Ht. destruct (li_counted s Inv _ _ (li_registered s Inv t p Ht)) as (en & He & _). eauto.
Qed.

Lemma fresh_unused : refCount (fresh (dom (lk_entries s))) (lk_threads s) = 0%Z.
Proof.
  destruct (decide (0 < refCount (fresh (dom (lk_entries s))) (lk_threads s))%Z) as [Hp|Hn].
  - destruct (refs_pos _ _ Hp) as (t & p & Ht & He). exfalso.
    apply thread_entry in Ht. rewrite He in Ht.
    apply elem_of_dom in Ht. exact (is_fresh _ Ht).
  - unfold refCount in *. lia.
Qed.

Lemma fresh_unregistered k : lk_locks s !! k ≠ Some (fresh (dom (lk_entries s))).
Proof.
  intros Hk. destruct (li_counted s Inv _ _ Hk) as (en & He & _).
  apply (is_fresh (dom (lk_entries s))). apply elem_of_dom. eauto.
Qed.

Lemma enter_new t key :
  lk_threads s !! t = None → lk_locks s !! key = None → LockInv (lockEnter t key s).
Proof.
  intros Ht Hk. unfold lockEnter. rewrite Hk. pose proof fresh_unused as Hf.
  pose proof fresh_unregistered as Hu. set (e := fresh (dom (lk_entries s))) in *.
  split; cbn [lk_locks lk_entries lk_threads].
  - intros t' p Hp. apply lookup_insert_Some in Hp as [[<- <-]|[Hne Hp]].
    + apply lookup_insert_eq.
    + apply (li_registered s Inv) in Hp. rewrite lookup_insert_ne; [done|congruence].
  - intros k e' He'. rewrite refs_insert_new by done. cbn [pc_entry].
    apply lookup_insert_Some in He' as [[<- <-]|[Hne He']].
    + eexists. split; [apply lookup_insert_eq|]. rewrite Hf, decide_True by done. cbn. lia.
    + destruct (li_counted s Inv _ _ He') as (en & Hen & Hw & Hp).
      assert (e ≠ e') by (intros ->; exact (Hu _ He')).
      exists en. rewrite lookup_insert_ne, decide_False, Z.add_0_r by done. eauto.
  - intros k1 k2 e' H1 H2.
    apply lookup_insert_Some in H1 as [[<- <-]|[? H1]];
    apply lookup_insert_Some in H2 as [[<- He]|[? H2]].
    + done.
    + destruct (Hu _ H2).
    + rewrite <-He in H1. destruct (Hu _ H1).
    + exact (li_distinct s Inv _ _ _ H1 H2).
  - intros e' en t' He'. apply lookup_insert_Some in He' as [[<- <-]|[Hne He']]; cbn.
    + split; [done|]. intros (k & Hh). apply lookup_insert_Some in Hh as [[_ ?]|[_ Hh]]; [done|].
      pose proof (refs_member e _ _ _ Hh eq_refl). lia.
    + rewrite (li_owner s Inv _ _ _ He'). split; intros (k & Hh); exists k.
      * rewrite lookup_insert_ne; congruence.
      * apply lookup_insert_Some in Hh as [[_ ?]|[_ Hh]]; done.
Qed.

Lemma enter_existing t key e :
  lk_threads s !! t = None → lk_locks s !! key = Some e → LockInv (lockEnter t key s).
Proof.
  intros Ht Hk. unfold lockEnter. rewrite Hk.
  destruct (li_counted s Inv _ _ Hk) as (en & Hen & Hw & Hpos). rewrite Hen. cbn [default].
  split; cbn [lk_locks lk_entries lk_threads].
  - intros t' p Hp. apply lookup_insert_Some in Hp as [[<- <-]|[Hne Hp]]; [done|].
    exact (li_registered s Inv _ _ Hp).
  - intros k e' He'. rewrite refs_insert_new by done. cbn [pc_entry].
    destruct (decide (e = e')) as [<-|Hne].
    + eexists. split; [apply lookup_insert_eq|]. cbn. lia.
    + rewrite lookup_insert_ne, Z.add_0_r by done. exact (li_counted s Inv _ _ He').
  - exact (li_distinct s Inv).
  - intros e' en' t' He'.
    assert (le_owner en' = Some t' ↔ ∃ k, lk_threads s !! t' = Some (Holding k e')) as ->.
    { apply lookup_insert_Some in He' as [[<- <-]|[Hne He']]; cbn [le_owner];
        eauto using li_owner. }
    split; intros (k & Hh); exists k.
    + rewrite lookup_insert_ne; congruence.
    + apply lookup_insert_Some in Hh as [[_ ?]|[_ Hh]]; done.
Qed.

(** A goroutine that stays on its entry and changes only the mutex's owner. *)
Lemma retag_inv t p p' en o :
  lk_threads s !! t = Some p → pc_key p' = pc_key p → pc_entry p' = pc_entry p →
  lk_entries s !! pc_entry p = Some en →
  (o = Some t ↔ ∃ k, p' = Holding k (pc_entry p)) →
  (∀ t', t' ≠ t → (o = Some t' ↔ le_owner en = Some t')) →
  LockInv {| lk_locks := lk_locks s;
             lk_entries := <[pc_entry p := {| le_owner := o; le_waiters := le_waiters en |}]>
                             (lk_entries s);
             lk_threads := <[t := p']> (lk_threads s) |}.
Proof.
  intros Ht Hkey He Hen Hme Hother. split; cbn [lk_locks lk_entries lk_threads].
  - intros t' q Hq. apply lookup_insert_Some in Hq as [[<- <-]|[_ Hq]];
      [rewrite Hkey, He; exact (li_registered s Inv _ _ Ht)|exact (li_registered s Inv _ _ Hq)].
  - intros k e' He'. rewrite (refs_update _ _ p) by done.
    destruct (li_counted s Inv _ _ He') as (en' & Hen' & Hc).
    destruct (decide (pc_entry p = e')) as [<-|Hne].
    + rewrite lookup_insert_eq. eexists. split; [done|]. by simplify_eq.
    + rewrite lookup_insert_ne by done. eauto.
  - exact (li_distinct s Inv).
  - intros e' en' t' He'.
    apply lookup_insert_Some in He' as [[<- <-]|[Hne He']]; cbn [le_owner];
      (destruct (decide (t' = t)) as [->|Hnt];
        [rewrite lookup_insert_eq|rewrite lookup_insert_ne by done]).
    + rewrite Hme. split; intros (k & Hk); exists k; congruence.
    + rewrite Hother by done. exact (li_owner s Inv _ _ _ Hen).
    + rewrite (li_owner s Inv _ _ _ He'), Ht. split; intros (k & [= Hk]).
      * rewrite Hk in Hne. by destruct Hne.
      * rewrite Hk in He. cbn in He. by destruct Hne.
    + exact (li_owner s Inv _ _ _ He').
Qed.

Lemma grant_inv t s' : lockGrant t s = Some s' → LockInv s'.
Proof.
  unfold lockGrant. destruct (lk_threads s !! t) as [[key e|key e|key e]|] eqn:Ht; try done.
  destruct (lk_entries s !! e) as [en|] eqn:Hen; [|done].
  destruct (le_owner en) eqn:Ho; [done|]. intros [= <-].
  apply (retag_inv t (Waiting key e)); eauto.
  - split; eauto.
  - intros t' Hne. rewrite Ho. split; congruence.
Qed.

Lemma unlock_inv t s' : unlockMutex t s = Some s' → LockInv s'.
Proof.
  unfold unlockMutex. destruct (lk_threads s !! t) as [[key e|key e|key e]|] eqn:Ht; try done.
  destruct (lk_entries s !! e) as [en|] eqn:Hen; [|done]. intros [= <-].
  assert (le_owner en = Some t) as Ho by (apply (li_owner s Inv _ _ _ Hen); eauto).
  apply (retag_inv t (Holding key e)); eauto.
  - split; [done|]. intros (k & ?). done.
  - intros t' Hne. rewrite Ho. split; congruence.
Qed.

Lemma leave_inv t s' : unlockLeave t s = Some s' → LockInv s'.
Proof.
  unfold unlockLeave. destruct (lk_threads s !! t) as [[key e|key e|key e]|] eqn:Ht; try done.
  destruct (lk_entries s !! e) as [en|] eqn:Hen; [|done]. intros [= <-].
  pose proof (li_registered s Inv _ _ Ht) as Hreg. cbn in Hreg.
  destruct (li_counted s Inv _ _ Hreg) as (en1 & Hen1 & Hw & Hpos).
  rewrite Hen in Hen1. injection Hen1 as <-.
  assert (Hcnt := refs_delete e t _ _ Ht). cbn in Hcnt. rewrite decide_True in Hcnt by done.
  assert (Hkeep : ∀ t' p, delete t (lk_threads s) !! t' = Some p → pc_key p = key →
                          (le_waiters en - 1 ≠ 0)%Z).
  { intros t' p Hp Hk. pose proof (lookup_delete_Some (lk_threads s) t t' p) as [Hd _].
    destruct (Hd Hp) as [_ Hp']. apply (li_registered s Inv) in Hp'. rewrite Hk, Hreg in Hp'.
    injection Hp' as Hp'. pose proof (refs_member e _ _ _ Hp (eq_sym Hp')). lia. }
  split; cbn [lk_locks lk_entries lk_threads].
  - intros t' p Hp. pose proof (Hkeep _ _ Hp) as Hk.
    apply lookup_delete_Some in Hp as [Hne Hp]. apply (li_registered s Inv) in Hp.
    destruct (Z.eqb_spec (le_waiters en - 1) 0); [|done].
    apply lookup_delete_Some. split; [|done]. intros Heq. by destruct Hk.
  - intros k e' He'. destruct (decide (e = e')) as [<-|Hne].
    + assert (k = key) as ->.
      { destruct (Z.eqb _ _); [apply lookup_delete_Some in He' as [_ He']|];
          exact (li_distinct s Inv _ _ _ He' Hreg). }
      destruct (Z.eqb_spec (le_waiters en - 1) 0); [by rewrite lookup_delete_eq in He'|].
      rewrite lookup_insert_eq. eexists. split; [done|]. cbn. lia.
    + assert (lk_locks s !! k = Some e') as Hold.
      { destruct (Z.eqb _ _); [apply lookup_delete_Some in He' as [_ He']|]; done. }
      rewrite lookup_insert_ne by done. rewrite (refs_delete e' t _ _ Ht). cbn [pc_entry].
      rewrite decide_False, Z.sub_0_r by done. exact (li_counted s Inv _ _ Hold).
  - intros k1 k2 e' H1 H2. apply (li_distinct s Inv k1 k2 e');
      destruct (Z.eqb _ _); by try apply lookup_delete_Some in H1 as [_ H1];
      try apply lookup_delete_Some in H2 as [_ H2].
  - intros e' en' t' He'.
    assert (le_owner en' = Some t' ↔ ∃ k, lk_threads s !! t' = Some (Holding k e')) as ->.
    { apply lookup_insert_Some in He' as [[<- <-]|[Hne He']]; cbn [le_owner];
        eauto using li_owner. }
    split; intros (k & Hh); exists k.
    + apply lookup_delete_Some. split; [congruence|done].
    + by apply lookup_delete_Some in Hh as [_ Hh].
Qed.
End Preservation.

Lemma initLock_inv : LockInv initLock.
Proof. split; cbn; intros *; rewrite ?lookup_empty; done. Qed.

Lemma lock_step_inv s s' : LockStep s s' → LockInv s → LockInv s'.
Proof.
  intros [t key s0 Ht|t s0 s1 H|t s0 s1 H|t s0 s1 H] Inv.
  - destruct (lk_locks s0 !! key) eqn:Hk; eauto using enter_new, enter_existing.
  - eauto using grant_inv.
  - eauto using unlock_inv.
  - eauto using leave_inv.
Qed.

Lemma lock_reachable_inv s : rtc LockStep initLock s → LockInv s.
Proof.
  intros H. cut (∀ s0, LockInv s0 → rtc LockStep s0 s → LockInv s).
  { intros Hc. exact (Hc _ initLock_inv H). }
  intros s0 Inv Hr. induction Hr; eauto using lock_step_inv.
Qed.

(** ** Progress: the steps of goroutines already inside the protocol *)

Definition workStep (s s' : LockState) : Prop :=
  ∃ t, lockGrant t s = Some s' ∨ unlockMutex t s = Some s' ∨ unlockLeave t s = Some s'.

Lemma workStep_step s s' : workStep s s' → LockStep s s'.
Proof. intros (t & [H|[H|H]]); eauto using LockStep. Qed.

(** Steps a goroutine still has to make before it is out. *)
Definition stepsLeft (p : Pc) : nat :=
  match p with Waiting _ _ => 3 | Holding _ _ => 2 | Releasing _ _ => 1 end.
Definition workLeft (ts : gmap ThreadId Pc) : nat :=
  map_fold (fun _ p n => stepsLeft p + n) 0 ts.

Lemma workLeft_insert t p ts :
  ts !! t = None → workLeft (<[t := p]> ts) = stepsLeft p + workLeft ts.
Proof. intros Ht. unfold workLeft. rewrite map_fold_insert_L; [done|intros; lia|done]. Qed.

Lemma workLeft_delete t p ts :
  ts !! t = Some p → workLeft ts = stepsLeft p + workLeft (delete t ts).
Proof.
  intros Ht. rewrite <-(insert_delete_id ts t p Ht) at 1.
  apply workLeft_insert, lookup_delete_eq.
Qed.

Lemma workLeft_update t p p' ts :
  ts !! t = Some p → workLeft (<[t := p']> ts) + stepsLeft p = stepsLeft p' + workLeft ts.
Proof.
  intros Ht. rewrite <-insert_delete_eq, workLeft_insert by apply lookup_delete_eq.
  rewrite (workLeft_delete t p ts) by done. lia.
Qed.

Lemma workStep_decreases s s' :
  workStep s s' → workLeft (lk_threads s') < workLeft (lk_threads s).
Proof.
  unfold workStep, lockGrant, unlockMutex, unlockLeave.
  intros (t & H). destruct (lk_threads s !! t) as [[key e|key e|key e]|] eqn:Ht;
    [| | |naive_solver].
  all: destruct (lk_entries s !! e) as [en|]; [|naive_solver].
  - destruct H as [H|[?|?]]; [|done..]. destruct (le_owner en); [done|]. injection H as <-.
    cbn [lk_threads]. pose proof (workLeft_update t _ (Holding key e) _ Ht) as Hw. cbn in Hw. lia.
  - destruct H as [?|[H|?]]; [done| |done]. injection H as <-.
    cbn [lk_threads]. pose proof (workLeft_update t _ (Releasing key e) _ Ht) as Hw. cbn in Hw. lia.
  - destruct H as [?|[?|H]]; [done..|]. injection H as <-.
    cbn [lk_threads]. pose proof (workLeft_delete t _ _ Ht) as Hw. cbn in Hw. lia.
Qed.

(** A goroutine waits only for another one that holds the same key. *)
Lemma waiting_blocked s t k e :
  LockInv s → lk_threads s !! t = Some (Waiting k e) →
  (∃ s', lockGrant t s = Some s') ∨ ∃ t', t' ≠ t ∧ lk_threads s !! t' = Some (Holding k e).
Proof.
  intros Inv Ht. pose proof (li_registered s Inv _ _ Ht) as Hreg. cbn in Hreg.
  destruct (li_counted s Inv _ _ Hreg) as (en & Hen & _).
  unfold lockGrant. rewrite Ht, Hen. destruct (le_owner en) as [t'|] eqn:Ho; [right|eauto].
  destruct (proj1 (li_owner s Inv _ _ _ Hen) Ho) as (k' & Hh).
  exists t'. split; [congruence|].
  pose proof (li_registered s Inv _ _ Hh) as Hreg'. cbn in Hreg'.
  by rewrite (li_distinct s Inv _ _ _ Hreg Hreg').
Qed.

Lemma holding_unlocks s t k e :
  LockInv s → lk_threads s !! t = Some (Holding k e) → ∃ s', unlockMutex t s = Some s'.
Proof.
  intros Inv Ht. destruct (thread_entry s Inv _ _ Ht) as (en & He). cbn in He.
  unfold unlockMutex. rewrite Ht, He. eauto.
Qed.

Lemma releasing_leaves s t k e :
  LockInv s → lk_threads s !! t = Some (Releasing k e) → ∃ s', unlockLeave t s = Some s'.
Proof.
  intros Inv Ht. destruct (thread_entry s Inv _ _ Ht) as (en & He). cbn in He.
  unfold unlockLeave. rewrite Ht, He. eauto.
Qed.

Lemma work_available s t p : LockInv s → lk_threads s !! t = Some p → ∃ s', workStep s s'.
Proof.
  intros Inv Ht. destruct p as [k e|k e|k e].
  - destruct (waiting_blocked s t k e Inv Ht) as [(s' & H)|(t' & _ & Ht')].
    + exists s', t. eauto.
    + destruct (holding_unlocks s t' k e Inv Ht') as (s' & H). exists s', t'. eauto.
  - destruct (holding_unlocks s t k e Inv Ht) as (s' & H). exists s', t. eauto.
  - destruct (releasing_leaves s t k e Inv Ht) as (s' & H). exists s', t. eauto.
Qed.

Lemma work_while_inside s : LockInv s → lk_threads s ≠ ∅ → ∃ s', workStep s s'.
Proof. intros Inv (t & p & Ht)%map_choose. by apply (work_available s t p). Qed.

(** A key is registered exactly while some goroutine uses it. *)
Lemma registered_iff_used s k :
  LockInv s → is_Some (lk_locks s !! k) ↔ ∃ t p, lk_threads s !! t = Some p ∧ pc_key p = k.
Proof.
  intros Inv. split.
  - intros (e & Hk). destruct (li_counted s Inv _ _ Hk) as (en & _ & Hw & Hpos).
    rewrite Hw in Hpos. destruct (refs_pos _ _ Hpos) as (t & p & Ht & He).
    exists t, p. split; [done|]. pose proof (li_registered s Inv _ _ Ht) as Hreg.
    rewrite He in Hreg. exact (li_distinct s Inv _ _ _ Hreg Hk).
  - intros (t & p & Ht & <-). rewrite (li_registered s Inv _ _ Ht). eauto.
Qed.

Lemma drain s :
  LockInv s → ∃ s', rtc workStep s s' ∧ lk_threads s' = ∅ ∧ lk_locks s' = ∅.
Proof.
  remember (workLeft (lk_threads s)) as n eqn:Hn. revert s Hn.
  induction (lt_wf n) as [n _ IH]. intros s -> Inv.
  destruct (decide (lk_threads s = ∅)) as [Hz|Hne].
  - exists s. split; [done|]. split; [done|]. apply map_empty. intros k.
    destruct (lk_locks s !! k) eqn:Hk; [|done].
    destruct (proj1 (registered_iff_used s k Inv)) as (t & p & Ht & _); [eauto|].
    by rewrite Hz in Ht.
  - destruct (work_while_inside s Inv Hne) as (s1 & H1).
    destruct (IH _ (workStep_decreases _ _ H1) s1 eq_refl) as (s' & Hr & Hd).
    + exact (lock_step_inv _ _ (workStep_step _ _ H1) Inv).
    + exists s'. split; [|done]. by apply rtc_l with s1.
Qed.

(** ** Schedules: a sequence of steps, each naming its goroutine *)

Inductive LockOp :=
| OpEnter (t : ThreadId) (key : string) | OpGrant (t : ThreadId)
| OpUnlock (t : ThreadId) | OpLeave (t : ThreadId).

Definition stepOp (o : LockOp) (s : LockState) : option LockState :=
  match o with
  | OpEnter t key =>
      match lk_threads s !! t with None => Some (lockEnter t key s) | Some _ => None end
  | OpGrant t => lockGrant t s
  | OpUnlock t => unlockMutex t s
  | OpLeave t => unlockLeave t s
  end.

Fixpoint runOps (os : list LockOp) (s : LockState) : option LockState :=
  match os with
  | [] => Some s
  | o :: rest => match stepOp o s with Some s' => runOps rest s' | None => None end
  end.

Lemma runOps_reachable os s s' : runOps os s = Some s' → rtc LockStep s s'.
Proof.
  revert s. induction os as [|o os IH]; cbn [runOps]; intros s H; [injection H as <-; done|].
  destruct (stepOp o s) as [s1|] eqn:Ho; [|done]. apply rtc_l with s1; [|by apply IH].
  destruct o; cbn in Ho; eauto using LockStep.
  destruct (lk_threads s !! t) eqn:Ht; [done|]. injection Ho as <-. by constructor.
Qed.

(** Two goroutines on cell "a" (the first holds it) and one on cell "b". *)
Definition contention : list LockOp := [OpEnter 1 "a"; OpEnter 2 "a"; OpGrant 1; OpEnter 3 "b"]%positive.
Definition contended : LockState := default initLock (runOps contention initLock).

Lemma contended_reachable : rtc LockStep initLock contended.
Proof. apply (runOps_reachable contention). vm_compute. reflexivity. Qed.

(** ** Theorems *)

(** C3: The per-cell lifecycle lock excludes: in every state the goroutines
    using the lock manager can reach, by any interleaving of their critical
    sections, at most one goroutine holds the lock of a given key. *)
Theorem cell_lock_mutual_exclusion (s : LockState) (t1 t2 : ThreadId) (k : string) (e1 e2 : EntryId) :
  rtc LockStep initLock s →
  lk_threads s !! t1 = Some (Holding k e1) → lk_threads s !! t2 = Some (Holding k e2) →
  t1 = t2.
Proof.
  intros Hr H1 H2. pose proof (lock_reachable_inv s Hr) as Inv.
  pose proof (li_registered s Inv _ _ H1) as R1. pose proof (li_registered s Inv _ _ H2) as R2.
  cbn in R1, R2. rewrite R1 in R2. injection R2 as <-.
  destruct (li_counted s Inv _ _ R1) as (en & Hen & _).
  assert (∀ t, lk_threads s !! t = Some (Holding k e1) → le_owner en = Some t) as Ho.
  { intros t Ht. apply (li_owner s Inv _ _ _ Hen). eauto. }
  apply Ho in H1, H2. congruence.
Qed.

Local Open Scope positive_scope.

Lemma cell_lock_mutual_exclusion_witness :
  lk_threads contended !! 1%positive = Some (Holding "a" 1) ∧
  lk_threads contended !! 2%positive = Some (Waiting "a" 1) ∧ 1%positive = 1%positive.
Proof.
  split; [reflexivity|]. split; [reflexivity|].
  apply (cell_lock_mutual_exclusion contended 1 1 "a" 1 1);
    [exact contended_reachable|reflexivity|reflexivity].
Defined.

(** A goroutine that waits for a cell's lock either can be granted it at
    once or another goroutine holds the lock of that same cell: operations on
    unrelated cells never serialize against one another, and the map entry a
    waiter blocks on is always the one the holder releases. *)
Theorem cell_lock_waits_only_for_same_cell (s : LockState) (t : ThreadId) (k : string) (e : EntryId) :
  rtc LockStep initLock s → lk_threads s !! t = Some (Waiting k e) →
  (∃ s', lockGrant t s = Some s') ∨ ∃ t', t' ≠ t ∧ lk_threads s !! t' = Some (Holding k e).
Proof. intros Hr. apply waiting_blocked, lock_reachable_inv, Hr. Qed.

Lemma cell_lock_waits_only_for_same_cell_witness :
  lockGrant 2 contended = None ∧
  ((∃ s', lockGrant 3 contended = Some s') ∨
   ∃ t', t' ≠ 3%positive ∧ lk_threads contended !! t' = Some (Holding "b" 2)).
Proof.
  split; [reflexivity|].
  apply (cell_lock_waits_only_for_same_cell contended 3 "b" 2);
    [exact contended_reachable|reflexivity].
Defined.

(** The lock map does not leak and the protocol does not deadlock: a key is
    in the map exactly while some goroutine waits for, holds or is releasing
    it; every step of a goroutine inside the protocol lowers the remaining
    work; a step is available while any goroutine is inside; so the goroutines
    drain, and the drained manager's map is empty. *)
Theorem cell_lock_map_drains (s : LockState) :
  rtc LockStep initLock s →
  (∀ k, is_Some (lk_locks s !! k) ↔ ∃ t p, lk_threads s !! t = Some p ∧ pc_key p = k) ∧
  (lk_threads s ≠ ∅ → ∃ s', workStep s s') ∧
  (∀ s', workStep s s' → workLeft (lk_threads s') < workLeft (lk_threads s))%nat ∧
  ∃ s', rtc workStep s s' ∧ lk_threads s' = ∅ ∧ lk_locks s' = ∅.
Proof.
  intros Hr. apply lock_reachable_inv in Hr. split; [intros k; by apply registered_iff_used|].
  split; [by apply work_while_inside|]. split; [apply workStep_decreases|].
  apply drain, Hr.
Qed.

Lemma cell_lock_map_drains_witness :
  lk_threads contended ≠ ∅ ∧
  ∃ s', rtc workStep contended s' ∧ lk_threads s' = ∅ ∧ lk_locks s' = ∅.
Proof.
  split; [intros H; discriminate H|].
  exact (proj2 (proj2 (proj2 (cell_lock_map_drains contended contended_reachable)))).
Defined.
