(* ===== verification/Store.v ===== *)
(** * Store: metadata documents on disk
    (internal/metadata/metadata.go, internal/metadata/lock.go,
     internal/controller/runner/metadata.go)

    The first part is one call on one metadata file with nobody else at work:
    reads, atomic writes, compare-and-swap, deletion and the generation protocol
    of the Update*Metadata writers.  The second part is the sidecar flock as a
    transition system over any number of processes, which says when the
    compare-and-swap of the first part really is one step. *)

From Stdlib Require Import ZArith String Lia.
From stdpp Require Import base gmap strings list relations.
From S2P Require Import Prelude Model.

Local Open Scope Z_scope.

(** ** One metadata file *)

(** The system calls of atomicWriteFile, in order. *)
Inductive AtomicStep := CreateTemp | FChmod | FWrite | FSync | FClose | Rename.

(** The file's bytes and which system calls fail at the moment of the call. *)
Record Slot := {
  sl_file : option string;
  sl_statErr : option error;                    (* other than not-exist *)
  sl_readErr : option error;
  sl_mkdirErr : option error;
  sl_chmodErr : option error;
  sl_removeErr : option error;                  (* other than not-exist *)
  sl_atomicErr : AtomicStep → option error;
  sl_flockErr : bool → option error             (* acquireFlock, by exclusive *)
}.

Definition with_file (s : Slot) (f : option string) : Slot := {|
  sl_file := f; sl_statErr := sl_statErr s; sl_readErr := sl_readErr s;
  sl_mkdirErr := sl_mkdirErr s; sl_chmodErr := sl_chmodErr s; sl_removeErr := sl_removeErr s;
  sl_atomicErr := sl_atomicErr s; sl_flockErr := sl_flockErr s |}.

Definition existsFilePath (s : Slot) : bool :=
  match sl_statErr s with
  | Some _ => true
  | None => match sl_file s with Some _ => true | None => false end
  end.

(** os.ReadFile *)
Definition osReadFile (s : Slot) : result string :=
  match sl_readErr s with
  | Some e => Err e
  | None => match sl_file s with
            | Some b => Ok b
            | None => Err (EOpaque "no such file or directory")
            end
  end.

Definition WithLock (exclusive : bool) {A} (fn : st Slot (result A)) : st Slot (result A) :=
  fun s => match sl_flockErr s exclusive with
           | Some e => (s, Err (EWrap (if exclusive then "acquire exclusive lock: %w"
                                       else "acquire shared lock: %w") [e]))
           | None => fn s
           end.

Definition missingFile : error :=
  EWrap "metadata file does not exist: %w" [ESentinel ErrMissingMetadataFile].

Definition ReadRawNoLock : st Slot (result string) := fun s =>
  (s, if existsFilePath s then
        match osReadFile s with Ok b => Ok b | Err e => Err (EWrap "read %s: %w" [e]) end
      else Err missingFile).

Definition ReadRaw : st Slot (result string) := fun s =>
  if existsFilePath s then WithLock false ReadRawNoLock s else (s, Err missingFile).

(** The text an error of the step is wrapped in; CreateTemp's is returned as it is. *)
Definition atomicFmt (a : AtomicStep) : option string :=
  match a with
  | CreateTemp => None | FChmod => Some "chmod: %w" | FWrite => Some "write: %w"
  | FSync => Some "fsync: %w" | FClose => Some "close: %w" | Rename => Some "rename: %w"
  end.

Fixpoint atomicSteps (steps : list AtomicStep) (s : Slot) : option error :=
  match steps with
  | [] => None
  | a :: rest =>
      match sl_atomicErr s a with
      | Some e => Some (match atomicFmt a with Some f => EWrap f [e] | None => e end)
      | None => atomicSteps rest s
      end
  end.

(** Temp file, fsync, rename: the data file changes only when every step succeeded. *)
Definition atomicWriteFile (data : string) : st Slot (result unit) := fun s =>
  match atomicSteps [CreateTemp; FChmod; FWrite; FSync; FClose; Rename] s with
  | Some e => (s, Err e)
  | None => (with_file s (Some data), Ok tt)
  end.

Definition newline : string := String (Ascii.ascii_of_nat 10) EmptyString.

(** encoding/json on the documents of one kind, and the accessors the writers
    pass to writeDocWithGeneration. *)
Class JsonDoc (D : Type) := {
  MarshalIndent : D → result string;
  Unmarshal : string → result D;
  getGeneration : D → Z;
  setGeneration : Z → D → D;
  specJSON : D → result string         (* json.Marshal of specOf(doc) *)
}.

Section Documents.
Context {D : Type} `{JsonDoc D}.

Definition writeMetadataFile (doc : D) : st Slot (result unit) :=
  match MarshalIndent doc with
  | Err e => st_ret (Err (EWrap "marshal %s: %w" [e]))
  | Ok marshaled =>
      let! r := atomicWriteFile (marshaled +:+ newline) in
      st_ret (match r with Err e => Err (EWrap "write %s: %w" [e]) | Ok u => Ok u end)
  end.

Definition wrapWrite (r : result unit) : result unit :=
  match r with Err e => Err (EWrap "failed to write metadata file: %w" [e]) | Ok u => Ok u end.

Definition writeMetadataUnlocked (doc : D) : st Slot (result unit) := fun s =>
  if existsFilePath s then (let! r := writeMetadataFile doc in st_ret (wrapWrite r)) s
  else
    match sl_mkdirErr s with
    | Some e => (s, Err (EWrap "mkdir terminal dir: %w" [e]))
    | None =>
        match sl_chmodErr s with
        | Some e => (s, Err (EWrap "chmod metadata dir: %w" [e]))
        | None => (let! r := writeMetadataFile doc in st_ret (wrapWrite r)) s
        end
    end.

Definition WriteMetadata (doc : D) : st Slot (result unit) :=
  WithLock true (writeMetadataUnlocked doc).

(** bytes.Equal does not tell a nil slice from an empty one. *)
Definition bytesEqual (a b : option string) : bool := String.eqb (default "" a) (default "" b).

(** The read and the comparison of WriteMetadataCAS. *)
Definition casCheck (prior : option string) (s : Slot) : option error :=
  let compare current :=
    if bytesEqual prior current then None
    else Some (EWrap "cas check failed for %s: %w" [ESentinel ErrStaleResource]) in
  if existsFilePath s then
    match osReadFile s with
    | Err e => Some (EWrap "read %s for cas: %w" [e])
    | Ok data => compare (Some data)
    end
  else compare None.

Definition WriteMetadataCAS (prior : option string) (doc : D) : st Slot (result unit) :=
  WithLock true (fun s =>
    match casCheck prior s with
    | Some e => (s, Err e)
    | None => writeMetadataUnlocked doc s
    end).

Definition DeleteMetadata : st Slot (result unit) := fun s =>
  if existsFilePath s then
    WithLock true (fun s =>
      match sl_removeErr s with
      | Some e => (s, Err (EWrap "failed to delete metadata file %s: %w" [e]))
      | None => (with_file s None, Ok tt)
      end) s
  else (s, Ok tt).

(** *** The generation protocol *)

Definition firstGeneration : Z := 1.

Definition jsonEqual (a b : D) : result bool :=
  match specJSON a with
  | Err e => Err e
  | Ok ab => match specJSON b with Err e => Err e | Ok bb => Ok (String.eqb ab bb) end
  end.

(** What writeDocWithGeneration makes of the bytes it read: the prior bytes it
    will insist on and the document with its new generation. *)
Definition prepareWrite (doc : D) (read : result string) : result (option string * D) :=
  match read with
  | Err e =>
      if error_is ErrMissingMetadataFile e then Ok (None, setGeneration firstGeneration doc)
      else Err e
  | Ok prior =>
      match Unmarshal prior with
      | Err e => Err (EWrap "decode prior metadata %s: %w" [e])
      | Ok priorDoc =>
          let onDisk := getGeneration priorDoc in
          let incoming := getGeneration doc in
          if (0 <? incoming) && (incoming <? onDisk) then
            Err (EWrap "write %s: caller observed generation %d, on-disk is %d: %w"
                   [ESentinel ErrStaleResource])
          else
            match jsonEqual priorDoc doc with
            | Err e => Err (EWrap "compare spec for %s: %w" [e])
            | Ok specUnchanged =>
                Ok (Some prior,
                    setGeneration (if specUnchanged then onDisk else wrap64 (onDisk + 1)) doc)
            end
      end
  end.

Definition finishWrite (plan : result (option string * D)) : st Slot (result unit) :=
  match plan with
  | Err e => st_ret (Err e)
  | Ok (prior, doc') => WriteMetadataCAS prior doc'
  end.

Definition writeDocWithGeneration (doc : D) : st Slot (result unit) :=
  let! read := ReadRaw in finishWrite (prepareWrite doc read).

End Documents.

(** ** The writers (runner/metadata.go) *)

Definition stampCreated (createdAt now : Time) : Time := if time_IsZero createdAt then now else createdAt.
Definition stampReady (readyAt : Time) (ready : bool) (now : Time) : Time :=
  if time_IsZero readyAt && ready then now else readyAt.

Definition stampRealmLifecycle (now : Time) (realm : Realm) : Realm :=
  let s := realm_Status realm in
  {| realm_Metadata := realm_Metadata realm; realm_Spec := realm_Spec realm;
     realm_Status := {|
       rst_State := rst_State s; rst_CgroupPath := rst_CgroupPath s;
       rst_SubtreeControllers := rst_SubtreeControllers s;
       rst_CreatedAt := stampCreated (rst_CreatedAt s) now; rst_UpdatedAt := now;
       rst_ReadyAt := stampReady (rst_ReadyAt s) (bool_decide (rst_State s = RealmStateReady)) now;
       rst_Reason := rst_Reason s; rst_Message := rst_Message s;
       rst_CgroupReady := rst_CgroupReady s;
       rst_ContainerdNamespaceReady := rst_ContainerdNamespaceReady s;
       rst_ObservedGeneration := rst_ObservedGeneration s |} |}.

Definition stampScope {S} (ready : S → bool) (now : Time) (s : ScopeStatus S) : ScopeStatus S :=
  Build_ScopeStatus (sst_State s) (sst_CgroupPath s) (sst_SubtreeControllers s)
    (stampCreated (sst_CreatedAt s) now) now
    (stampReady (sst_ReadyAt s) (ready (sst_State s)) now)
    (sst_Reason s) (sst_Message s) (sst_CgroupReady s) (sst_ObservedGeneration s).

Definition stampSpaceLifecycle (now : Time) (space : Space) : Space := {|
  space_Metadata := space_Metadata space; space_Spec := space_Spec space;
  space_Status := stampScope (fun s => bool_decide (s = SpaceStateReady)) now (space_Status space) |}.

Definition stampStackLifecycle (now : Time) (stack : Stack) : Stack := {|
  stack_Metadata := stack_Metadata stack; stack_Spec := stack_Spec stack;
  stack_Status := stampScope (fun s => bool_decide (s = StackStateReady)) now (stack_Status stack) |}.

Definition stampCellLifecycle (now : Time) (cell : Cell) : Cell :=
  upd_status (fun s => set_Lifecycle (stampCreated (cst_CreatedAt s) now) now
    (stampReady (cst_ReadyAt s) (bool_decide (cst_State s = CellStateReady)) now) s) cell.

(** The shape the four writers share: stamp, convert, write, on the file at the
    resource's metadata path. *)
Definition updateMetadata {R D} `{JsonDoc D} (toExternal : R → result D) (stamp : Time → R → R)
    (now : Time) (x : R) : st Slot (option error) :=
  match toExternal (stamp now x) with
  | Err e => st_ret (Some (EWrap "%w: %w" [ESentinel ErrConversionFailed; e]))
  | Ok doc =>
      let! r := writeDocWithGeneration doc in
      st_ret (match r with
              | Err e => Some (EWrap "%w: %w" [ESentinel ErrWriteMetadata; e])
              | Ok _ => None
              end)
  end.

(** refreshCellGeneration: the token of the document on disk, when it can be read
    back ([onDisk] is the result of readCellInternal on the cell's path). *)
Definition refreshCellGeneration (onDisk : result Cell) (cell : Cell) : Cell :=
  match onDisk with
  | Err _ => cell
  | Ok d =>
      let m := cell_Metadata cell in
      {| cell_Metadata := {| cm_Name := cm_Name m; cm_Labels := cm_Labels m; cm_Annotations := cm_Annotations m;
                             cm_Generation := cm_Generation (cell_Metadata d) |};
         cell_Spec := cell_Spec cell; cell_Status := cell_Status cell |}
  end.

(** The conversions of internal/apischeme to the documents of the four kinds. *)
Class ExternalDocs := {
  RealmDoc : Type; SpaceDoc : Type; StackDoc : Type; CellDoc : Type;
  RealmDoc_json :: JsonDoc RealmDoc; SpaceDoc_json :: JsonDoc SpaceDoc;
  StackDoc_json :: JsonDoc StackDoc; CellDoc_json :: JsonDoc CellDoc;
  BuildRealmExternalFromInternal : Realm → result RealmDoc;
  BuildSpaceExternalFromInternal : Space → result SpaceDoc;
  BuildStackExternalFromInternal : Stack → result StackDoc;
  BuildCellExternalFromInternal : Cell → result CellDoc
}.

Section Writers.
Context `{ExternalDocs}.
Definition UpdateRealmMetadata := updateMetadata BuildRealmExternalFromInternal stampRealmLifecycle.
Definition UpdateSpaceMetadata := updateMetadata BuildSpaceExternalFromInternal stampSpaceLifecycle.
Definition UpdateStackMetadata := updateMetadata BuildStackExternalFromInternal stampStackLifecycle.
Definition UpdateCellMetadata := updateMetadata BuildCellExternalFromInternal stampCellLifecycle.
End Writers.

(** ** Generations along the life of a file *)

(** What encoding/json and the accessors are relied on for: a written document
    reads back with its generation and the same spec bytes, the generation field
    is outside the spec, and no document is the empty byte string. *)
Class JsonLaws (D : Type) `{JsonDoc D} : Prop := {
  json_roundtrip : ∀ (d : D) b, MarshalIndent d = Ok b →
    ∃ d', Unmarshal (b +:+ newline) = Ok d' ∧
          getGeneration d' = getGeneration d ∧ specJSON d' = specJSON d;
  json_get_set : ∀ g (d : D), getGeneration (setGeneration g d) = g;
  json_spec_set : ∀ g (d : D), specJSON (setGeneration g d) = specJSON d;
  json_empty : is_Ok (Unmarshal (D := D) "") = false
}.

Section Generations.
Context {D : Type} `{JsonLaws D}.

(** The file holds a document. *)
Definition Holds (f : option string) (d : D) : Prop := ∃ b, f = Some b ∧ Unmarshal b = Ok d.

Lemma writeMetadataFile_effect (doc : D) s s' r :
  writeMetadataFile doc s = (s', r) →
  (s' = s ∧ is_Ok r = false) ∨
  ∃ b, MarshalIndent doc = Ok b ∧ s' = with_file s (Some (b +:+ newline)) ∧ r = Ok tt.
Proof.
  unfold writeMetadataFile. destruct (MarshalIndent doc) as [b|e]; [|intros [= <- <-]; by left].
  unfold st_bind, atomicWriteFile. destruct (atomicSteps _ s); intros [= <- <-]; eauto.
Qed.

Lemma writeMetadataUnlocked_effect (doc : D) s s' r :
  writeMetadataUnlocked doc s = (s', r) →
  (s' = s ∧ is_Ok r = false) ∨
  ∃ b, MarshalIndent doc = Ok b ∧ s' = with_file s (Some (b +:+ newline)) ∧ r = Ok tt.
Proof.
  assert (Hw : (let! r := writeMetadataFile doc in st_ret (wrapWrite r)) s = (s', r) →
    (s' = s ∧ is_Ok r = false) ∨
    ∃ b, MarshalIndent doc = Ok b ∧ s' = with_file s (Some (b +:+ newline)) ∧ r = Ok tt).
  { unfold st_bind. destruct (writeMetadataFile doc s) as [s1 r1] eqn:E. intros [= <- <-].
    destruct (writeMetadataFile_effect _ _ _ _ E) as [[-> Hr]|(b & ? & -> & ->)]; [|eauto].
    left. by destruct r1. }
  unfold writeMetadataUnlocked. destruct (existsFilePath s); [exact Hw|].
  destruct (sl_mkdirErr s); [intros [= <- <-]; by left|].
  destruct (sl_chmodErr s); [intros [= <- <-]; by left|]. exact Hw.
Qed.

(** A compare-and-swap either fails and leaves the file alone, or found the bytes
    it insists on and replaced them. *)
Lemma cas_effect prior (doc : D) s s' r :
  WriteMetadataCAS prior doc s = (s', r) →
  (s' = s ∧ is_Ok r = false) ∨
  ∃ b, casCheck prior s = None ∧ MarshalIndent doc = Ok b ∧
       s' = with_file s (Some (b +:+ newline)) ∧ r = Ok tt.
Proof.
  unfold WriteMetadataCAS, WithLock. destruct (sl_flockErr s true); [intros [= <- <-]; by left|].
  destruct (casCheck prior s) eqn:Hc; [intros [= <- <-]; by left|].
  intros [?|(b & ? & ? & ?)]%writeMetadataUnlocked_effect; eauto 10.
Qed.

Lemma casCheck_file prior s b :
  casCheck prior s = None → sl_file s = Some b → default "" prior = b.
Proof.
  unfold casCheck, existsFilePath, osReadFile, bytesEqual. intros Hc Hf. rewrite Hf in Hc.
  destruct (sl_statErr s), (sl_readErr s); try done;
    cbn in Hc; by destruct (String.eqb_spec (default "" prior) b).
Qed.

(** A file step: somebody's write, whose read may have happened in any state. *)
Definition FileStep (f f' : option string) : Prop :=
  ∃ (doc : D) s0 s s' r, sl_file s = f ∧ sl_file s' = f' ∧
    finishWrite (prepareWrite doc (ReadRaw s0).2) s = (s', r).

(** A write that lands on a file holding d had read that same document, passed
    the token check against it, and stores the new spec. *)
Lemma landed_write (doc : D) read s s' d :
  finishWrite (prepareWrite doc read) s = (s', Ok tt) → Holds (sl_file s) d →
  getGeneration d + 1 < 2 ^ 63 → - 2 ^ 63 ≤ getGeneration d + 1 →
  (getGeneration doc ≤ 0 ∨ getGeneration d ≤ getGeneration doc) ∧
  ∃ d', Holds (sl_file s') d' ∧ specJSON d' = specJSON doc ∧
    (getGeneration d' = getGeneration d ∧ specJSON d' = specJSON d ∨
     getGeneration d' = getGeneration d + 1).
Proof.
  intros HW (b & Hf & Hu) Hhi Hlo. unfold finishWrite in HW.
  destruct (prepareWrite doc read) as [[prior doc']|e] eqn:HP; [|done].
  destruct (cas_effect _ _ _ _ _ HW) as [[_ ?]|(m & Hc & Hm & -> & _)]; [done|].
  pose proof (casCheck_file _ _ _ Hc Hf) as Hb. destruct (json_roundtrip _ _ Hm) as (d' & Hd' & Hg & Hs).
  assert (HH : Holds (sl_file (with_file s (Some (m +:+ newline)))) d') by (exists (m +:+ newline); done).
  unfold prepareWrite in HP. destruct read as [raw|e].
  - destruct (Unmarshal raw) as [pd|e] eqn:Hpd; [|done].
    destruct ((0 <? getGeneration doc) && (getGeneration doc <? getGeneration pd)) eqn:Htok; [done|].
    destruct (jsonEqual pd doc) as [same|e] eqn:Heq; [|done]. injection HP as <- <-.
    cbn in Hb. subst raw. rewrite Hu in Hpd. injection Hpd as <-.
    rewrite json_get_set in Hg. rewrite json_spec_set in Hs. split.
    + apply andb_false_iff in Htok as [?%Z.ltb_ge|?%Z.ltb_ge]; lia.
    + exists d'. split; [done|]. split; [done|]. destruct same.
      * left. split; [done|]. rewrite Hs. unfold jsonEqual in Heq.
        destruct (specJSON d), (specJSON doc); try done. injection Heq as Heq.
        by destruct (String.eqb_spec a a0) as [->|].
      * right. rewrite Hg. unfold wrap64. rewrite Z.mod_small; lia.
  - destruct (error_is _ e); [|done]. injection HP as <- <-. cbn in Hb. subst b.
    pose proof json_empty as He. by rewrite Hu in He.
Qed.

Lemma file_step_generation f f' d :
  FileStep f f' → Holds f d → getGeneration d + 1 < 2 ^ 63 → - 2 ^ 63 ≤ getGeneration d + 1 →
  ∃ d', Holds f' d' ∧ (getGeneration d' = getGeneration d ∧ specJSON d' = specJSON d ∨
                       getGeneration d' = getGeneration d + 1).
Proof.
  intros (doc & s0 & s & s' & r & <- & <- & HW) Hd Hhi Hlo.
  assert (s' = s ∨ r = Ok tt) as [->| ->].
  { revert HW. unfold finishWrite. destruct (prepareWrite _ _) as [[p d']|e]; [|intros [= <- <-]; by left].
    intros [[-> _]|(b & _ & _ & _ & ->)]%cas_effect; eauto. }
  - exists d. eauto.
  - destruct (landed_write _ _ _ _ _ HW Hd Hhi Hlo) as (_ & d' & ? & _ & ?). eauto.
Qed.

(** Along any history of writes the generation never falls, and stands still only
    while the spec does. *)
Lemma history_generation n f f' d :
  nsteps FileStep n f f' → Holds f d → 0 ≤ getGeneration d → getGeneration d + Z.of_nat n < 2 ^ 63 →
  ∃ d', Holds f' d' ∧ getGeneration d ≤ getGeneration d' ≤ getGeneration d + Z.of_nat n ∧
    (getGeneration d' = getGeneration d → specJSON d' = specJSON d).
Proof.
  intros Hn. revert d. induction Hn as [f|n f f1 f' Hs Hn IH]; intros d Hd Hnn Hb.
  - exists d. split; [done|]. split; [lia|done].
  - destruct (file_step_generation _ _ _ Hs Hd) as (d1 & Hd1 & Hg); [lia..|].
    destruct (IH d1 Hd1) as (d' & Hd' & Hr & Hsame); [lia..|]. exists d'. split; [done|].
    split; [lia|]. intros E. destruct Hg as [[Hg1 Hg2]|Hg1]; [|lia].
    rewrite Hsame by lia. done.
Qed.

(** C6: No spec update is lost.  A caller read a document of generation G > 0 and
    writes a changed copy back carrying G as its token; in between, any number of
    other writers wrote the file, their reads and writes interleaved in any order.
    If the caller's write succeeds, the document it replaced still had the very
    spec the caller had read, and the new document has the caller's spec and
    generation G, or G + 1 when the spec changed. *)
Theorem no_lost_spec_update n f d0 (doc : D) read s s' :
  Holds f d0 → 0 < getGeneration d0 → getGeneration d0 + Z.of_nat n + 1 < 2 ^ 63 →
  nsteps FileStep n f (sl_file s) → getGeneration doc = getGeneration d0 →
  finishWrite (prepareWrite doc read) s = (s', Ok tt) →
  ∃ d d', Holds (sl_file s) d ∧ getGeneration d = getGeneration d0 ∧ specJSON d = specJSON d0 ∧
    Holds (sl_file s') d' ∧ specJSON d' = specJSON doc ∧
    (getGeneration d' = getGeneration d0 ∧ specJSON doc = specJSON d0 ∨
     getGeneration d' = getGeneration d0 + 1).
Proof.
  intros Hd0 Hpos Hb Hn Htok HW.
  destruct (history_generation _ _ _ _ Hn Hd0) as (d & Hd & Hr & Hsame); [lia..|].
  destruct (landed_write _ _ _ _ _ HW Hd) as (Htk & d' & Hd' & Hs' & Hg'); [lia..|].
  assert (getGeneration d = getGeneration d0) as Hg by lia.
  exists d, d'. rewrite (Hsame Hg) in *. split; [done|]. split; [done|]. split; [done|].
  split; [done|]. split; [done|]. destruct Hg' as [[? ?]|?]; [left; split; congruence|right; lia].
Qed.
End Generations.

(** *** A concrete document kind: a generation byte followed by the spec *)

Fixpoint chop (s : string) : string :=
  match s with
  | EmptyString | String _ EmptyString => EmptyString
  | String c s' => String c (chop s')
  end.

Lemma chop_newline s : chop (s +:+ newline) = s.
Proof.
  induction s as [|c s IH]; [done|].
  change (String c s +:+ newline) with (String c (s +:+ newline)). cbn [chop].
  destruct (s +:+ newline) eqn:E; [by destruct s|]. by rewrite IH.
Qed.

Record SampleDoc := { sd_gen : Z; sd_spec : string }.

#[global] Instance sample_json : JsonDoc SampleDoc := {|
  MarshalIndent d := if (0 <=? sd_gen d) && (sd_gen d <? 256)
                     then Ok (String (Ascii.ascii_of_nat (Z.to_nat (sd_gen d))) (sd_spec d))
                     else Err (EOpaque "generation out of range");
  Unmarshal b := match b with
                 | EmptyString => Err (EOpaque "unexpected end of JSON input")
                 | String c s => Ok {| sd_gen := Z.of_nat (Ascii.nat_of_ascii c); sd_spec := chop s |}
                 end;
  getGeneration := sd_gen;
  setGeneration g d := {| sd_gen := g; sd_spec := sd_spec d |};
  specJSON d := Ok (sd_spec d)
|}.

#[global] Instance sample_json_laws : JsonLaws SampleDoc.
Proof.
  split; [|done..]. intros [g s] b. cbn.
  destruct ((0 <=? g) && (g <? 256)) eqn:E; [|done]. intros [= <-].
  apply andb_true_iff in E as [?%Z.leb_le ?%Z.ltb_lt].
  eexists. split; [reflexivity|]. cbn [getGeneration specJSON sample_json sd_gen sd_spec].
  split; [|by rewrite chop_newline].
  rewrite Ascii.nat_ascii_embedding by lia. lia.
Qed.

(** A file with the given bytes and no failing system call. *)
Definition quietSlot (f : option string) : Slot := {|
  sl_file := f; sl_statErr := None; sl_readErr := None; sl_mkdirErr := None; sl_chmodErr := None;
  sl_removeErr := None; sl_atomicErr := fun _ => None; sl_flockErr := fun _ => None |}.

Definition sampleFile (g : Z) (spec : string) : option string :=
  Some (String (Ascii.ascii_of_nat (Z.to_nat g)) (spec +:+ newline)).

Definition docA : SampleDoc := {| sd_gen := 3; sd_spec := "a" |}.
Definition docB : SampleDoc := {| sd_gen := 3; sd_spec := "b" |}.

(** Generation 3 with spec "a"; somebody rewrites the same spec, then the caller
    writes spec "b" with token 3. *)
Lemma no_lost_spec_update_witness :
  let s := quietSlot (sampleFile 3 "a") in
  let s' := quietSlot (sampleFile 4 "b") in
  ∃ d d' : SampleDoc, Holds (sl_file s) d ∧ getGeneration d = getGeneration docA ∧
    specJSON d = specJSON docA ∧ Holds (sl_file s') d' ∧ specJSON d' = specJSON docB ∧
    (getGeneration d' = getGeneration docA ∧ specJSON docB = specJSON docA ∨
     getGeneration d' = getGeneration docA + 1).
Proof.
  intros s s'. apply (no_lost_spec_update 1 (sampleFile 3 "a") docA docB (ReadRaw s).2 s s').
  - eexists. split; reflexivity.
  - reflexivity.
  - reflexivity.
  - apply (nsteps_l _ _ _ (sampleFile 3 "a")); [|apply nsteps_O].
    exists {| sd_gen := 0; sd_spec := "a" |}, s, s, s, (Ok tt).
    split; [reflexivity|]. split; reflexivity.
  - reflexivity.
  - reflexivity.
Defined.

(** The nil prior that asserts "no file yet" also accepts an existing empty file. *)
Lemma cas_nil_accepts_empty_file (doc : SampleDoc) :
  0 ≤ sd_gen doc < 256 →
  (WriteMetadataCAS None doc (quietSlot (Some ""))).2 = Ok tt ∧
  (WriteMetadataCAS None doc (quietSlot (Some "{}"))).2
    = Err (EWrap "cas check failed for %s: %w" [ESentinel ErrStaleResource]).
Proof.
  intros [Hlo Hhi]. split; [|reflexivity].
  unfold WriteMetadataCAS, WithLock. cbn. unfold writeMetadataUnlocked. cbn.
  unfold st_bind, writeMetadataFile. cbn.
  destruct (Z.leb_spec 0 (sd_gen doc)), (Z.ltb_spec (sd_gen doc) 256); [reflexivity|lia..].
Qed.

(** ** The sidecar flock

    Processes and goroutines take a lock on the file next to the data file.  A
    lock belongs to the inode that was open when it was taken; the sidecar's name
    can be unlinked by DeleteMetadata while others have the old inode open. *)

Definition Inode := positive.
Definition Pid := positive.

Inductive Body (D : Type) :=
| BodyRead                                    (* ReadRaw *)
| BodyWrite (doc : D)                         (* WriteMetadata *)
| BodyCAS (prior : option string) (doc : D)   (* WriteMetadataCAS *)
| BodyDelete.                                 (* DeleteMetadata *)
Arguments BodyRead {D}.
Arguments BodyWrite {D} doc.
Arguments BodyCAS {D} prior doc.
Arguments BodyDelete {D}.

Definition exclusive {D} (b : Body D) : bool := match b with BodyRead => false | _ => true end.

(** Where a process stands between its call and its return. *)
Inductive FlPc (D : Type) :=
| FlOpen (b : Body D)                                 (* before os.OpenFile of the sidecar *)
| FlCreate (b : Body D)                               (* shared open failed, data file present *)
| FlWait (b : Body D) (i : Inode)                     (* sidecar open, before flock *)
| FlIn (b : Body D) (i : Inode)                       (* lock held, body about to run *)
| FlWrite (prior : option (option string)) (doc : D) (i : Inode)  (* checked, write pending *)
| FlUnlink (i : Inode)                                (* data file removed, sidecar still there *)
| FlExit (ex : bool) (i : Inode).                     (* body done, lock still held *)
Arguments FlOpen {D} b.
Arguments FlCreate {D} b.
Arguments FlWait {D} b i.
Arguments FlIn {D} b i.
Arguments FlWrite {D} prior doc i.
Arguments FlUnlink {D} i.
Arguments FlExit {D} ex i.

(** The inode whose lock a process holds, and whether exclusively. *)
Definition held {D} (pc : FlPc D) : option (Inode * bool) :=
  match pc with
  | FlOpen _ | FlCreate _ | FlWait _ _ => None
  | FlIn b i => Some (i, exclusive b)
  | FlWrite _ _ i | FlUnlink i => Some (i, true)
  | FlExit ex i => Some (i, ex)
  end.

Definition fdInode {D} (pc : FlPc D) : option Inode :=
  match pc with FlWait _ i => Some i | _ => fst <$> held pc end.

Record FlState (D : Type) := {
  fl_slot : Slot;
  fl_sidecar : option Inode;            (* the inode the sidecar's name points to *)
  fl_next : Inode;                      (* inodes from here on are unused *)
  fl_procs : gmap Pid (FlPc D)
}.
Arguments fl_slot {D} f.
Arguments fl_sidecar {D} f.
Arguments fl_next {D} f.
Arguments fl_procs {D} f.

(** flock admits a new holder of the inode. *)
Definition flockFree {D} (ex : bool) (i : Inode) (procs : gmap Pid (FlPc D)) : bool :=
  forallb (fun kp => match held kp.2 with
                     | Some (j, ex') => negb (Pos.eqb i j) || (negb ex && negb ex')
                     | None => true
                     end) (map_to_list procs).

Section Flock.
Context {D : Type} `{JsonDoc D}.

Definition goto (p : Pid) (pc : FlPc D) (s : FlState D) : FlState D := {|
  fl_slot := fl_slot s; fl_sidecar := fl_sidecar s; fl_next := fl_next s;
  fl_procs := <[p := pc]> (fl_procs s) |}.

(** os.OpenFile with O_CREATE. *)
Definition openSidecar (p : Pid) (b : Body D) (s : FlState D) : FlState D :=
  match fl_sidecar s with
  | Some i => goto p (FlWait b i) s
  | None => {| fl_slot := fl_slot s; fl_sidecar := Some (fl_next s);
               fl_next := Pos.succ (fl_next s);
               fl_procs := <[p := FlWait b (fl_next s)]> (fl_procs s) |}
  end.

Definition setSlot (slot : Slot) (p : Pid) (pc : FlPc D) (s : FlState D) : FlState D := {|
  fl_slot := slot; fl_sidecar := fl_sidecar s; fl_next := fl_next s;
  fl_procs := <[p := pc]> (fl_procs s) |}.

Definition leave (p : Pid) (s : FlState D) : FlState D := {|
  fl_slot := fl_slot s; fl_sidecar := fl_sidecar s; fl_next := fl_next s;
  fl_procs := delete p (fl_procs s) |}.

(** The body under the lock, up to the write of the file. *)
Definition bodyStep (p : Pid) (b : Body D) (i : Inode) (s : FlState D) : FlState D :=
  match b with
  | BodyRead => goto p (FlExit false i) s
  | BodyWrite doc => goto p (FlWrite None doc i) s
  | BodyCAS prior doc =>
      match casCheck prior (fl_slot s) with
      | Some _ => goto p (FlExit true i) s
      | None => goto p (FlWrite (Some prior) doc i) s
      end
  | BodyDelete =>
      match sl_removeErr (fl_slot s) with
      | Some _ => goto p (FlExit true i) s
      | None => setSlot (with_file (fl_slot s) None) p (FlUnlink i) s
      end
  end.

(** The next step of process p; None when it is blocked in flock. *)
Definition flStep (p : Pid) (s : FlState D) : option (FlState D) :=
  match fl_procs s !! p with
  | None => None
  | Some (FlOpen b) =>
      if exclusive b then Some (openSidecar p b s)
      else match fl_sidecar s with
           | Some i => Some (goto p (FlWait b i) s)
           | None => Some (if existsFilePath (fl_slot s) then goto p (FlCreate b) s else leave p s)
           end
  | Some (FlCreate b) => Some (openSidecar p b s)
  | Some (FlWait b i) =>
      if flockFree (exclusive b) i (fl_procs s) then Some (goto p (FlIn b i) s) else None
  | Some (FlIn b i) => Some (bodyStep p b i s)
  | Some (FlWrite _ doc i) =>
      Some (setSlot (writeMetadataUnlocked doc (fl_slot s)).1 p (FlExit true i) s)
  | Some (FlUnlink i) =>
      Some {| fl_slot := fl_slot s; fl_sidecar := None; fl_next := fl_next s;
              fl_procs := <[p := FlExit true i]> (fl_procs s) |}
  | Some (FlExit _ _) => Some (leave p s)
  end.

(** A call: readers and deleters return at once when there is no data file. *)
Definition flCall (p : Pid) (b : Body D) (s : FlState D) : FlState D :=
  match b with
  | BodyRead | BodyDelete => if existsFilePath (fl_slot s) then goto p (FlOpen b) s else s
  | _ => goto p (FlOpen b) s
  end.

(** Steps of the system in which the calls satisfy [ok]. *)
Inductive FlStep (ok : Body D → Prop) : FlState D → FlState D → Prop :=
| FlCalls p b s : fl_procs s !! p = None → ok b → FlStep ok s (flCall p b s)
| FlMoves p s s' : flStep p s = Some s' → FlStep ok s s'.

Definition flInit (slot : Slot) (sidecar : option Inode) (next : Inode) : FlState D :=
  {| fl_slot := slot; fl_sidecar := sidecar; fl_next := next; fl_procs := ∅ |}.

Definition NoDelete (b : Body D) : Prop := b ≠ BodyDelete.

(** *** Without deletions the locks are on one inode *)

Definition pcBody (pc : FlPc D) : Prop :=
  match pc with
  | FlOpen b | FlCreate b | FlWait b _ | FlIn b _ => NoDelete b
  | FlUnlink _ => False
  | _ => True
  end.

Record FlInv (s : FlState D) : Prop := {
  fi_body : ∀ p pc, fl_procs s !! p = Some pc → pcBody pc;
  fi_inode : ∀ p pc i, fl_procs s !! p = Some pc → fdInode pc = Some i → fl_sidecar s = Some i;
  fi_excl : ∀ p q pc qc i j e e', fl_procs s !! p = Some pc → fl_procs s !! q = Some qc →
    held pc = Some (i, e) → held qc = Some (j, e') → p ≠ q → e = false ∧ e' = false;
  fi_checked : ∀ p prior doc i, fl_procs s !! p = Some (FlWrite (Some prior) doc i) →
    casCheck prior (fl_slot s) = None
}.

Lemma flInit_inv slot sidecar next : FlInv (flInit slot sidecar next).
Proof. split; cbn; intros *; rewrite ?lookup_empty; done. Qed.

Lemma held_fd (pc : FlPc D) i e : held pc = Some (i, e) → fdInode pc = Some i.
Proof. destruct pc; cbn; try done; by intros [= <- <-]. Qed.

(** Process p moves to pc, with the file possibly rewritten. *)
Lemma move_inv slot p (pc : FlPc D) s :
  FlInv s → pcBody pc → (∀ i, fdInode pc = Some i → fl_sidecar s = Some i) →
  (∀ i e q qc j e', held pc = Some (i, e) → q ≠ p → fl_procs s !! q = Some qc →
     held qc = Some (j, e') → e = false ∧ e' = false) →
  (∀ q prior doc i, <[p := pc]> (fl_procs s) !! q = Some (FlWrite (Some prior) doc i) →
     casCheck prior slot = None) →
  FlInv (setSlot slot p pc s).
Proof.
  intros Inv Hb Hi He Hc. split; cbn [setSlot fl_slot fl_sidecar fl_procs].
  - intros q qc [[<- <-]|[_ Hq]]%lookup_insert_Some; [done|exact (fi_body s Inv _ _ Hq)].
  - intros q qc i [[<- <-]|[_ Hq]]%lookup_insert_Some; [apply Hi|exact (fi_inode s Inv _ _ _ Hq)].
  - intros q q' qc qc' i j e e' [[<- <-]|[Hn Hq]]%lookup_insert_Some
      [[<- <-]|[Hn' Hq']]%lookup_insert_Some H1 H2 Hne; [done|eauto| |].
    + destruct (He j e' q qc i e) as [-> ->]; eauto.
    + exact (fi_excl s Inv _ _ _ _ _ _ _ _ Hq Hq' H1 H2 Hne).
  - exact Hc.
Qed.

(** The lock p holds already excludes the others; so does the one it keeps. *)
Lemma keep_excl s p (pc pc' : FlPc D) i e :
  FlInv s → fl_procs s !! p = Some pc → held pc = Some (i, e) → held pc' = Some (i, e) →
  ∀ i' e0 q qc j e', held pc' = Some (i', e0) → q ≠ p → fl_procs s !! q = Some qc →
     held qc = Some (j, e') → e0 = false ∧ e' = false.
Proof.
  intros Inv Hp Hh Hh' i' e0 q qc j e' H1 Hne Hq H2. rewrite Hh' in H1. injection H1 as <- <-.
  exact (fi_excl s Inv _ _ _ _ _ _ _ _ Hp Hq Hh H2 (not_eq_sym Hne)).
Qed.

(** A move that neither writes nor reaches a checked write. *)
Lemma plain_move_inv p (pc : FlPc D) s :
  FlInv s → pcBody pc → (∀ i, fdInode pc = Some i → fl_sidecar s = Some i) →
  (∀ i e q qc j e', held pc = Some (i, e) → q ≠ p → fl_procs s !! q = Some qc →
     held qc = Some (j, e') → e = false ∧ e' = false) →
  (∀ prior doc i, pc = FlWrite (Some prior) doc i → casCheck prior (fl_slot s) = None) →
  FlInv (goto p pc s).
Proof.
  intros Inv Hb Hi He Hc. apply (move_inv (fl_slot s)); try done.
  intros q prior doc i [[<- ->]|[_ Hq]]%lookup_insert_Some; [eauto|exact (fi_checked s Inv _ _ _ _ Hq)].
Qed.

Lemma flLeave_inv p s : FlInv s → FlInv (leave p s).
Proof.
  intros Inv. split; cbn [leave fl_slot fl_sidecar fl_procs].
  - intros q qc [_ Hq]%lookup_delete_Some. exact (fi_body s Inv _ _ Hq).
  - intros q qc i [_ Hq]%lookup_delete_Some. exact (fi_inode s Inv _ _ _ Hq).
  - intros q q' qc qc' i j e e' [_ Hq]%lookup_delete_Some [_ Hq']%lookup_delete_Some.
    exact (fi_excl s Inv _ _ _ _ _ _ _ _ Hq Hq').
  - intros q prior doc i [_ Hq]%lookup_delete_Some. exact (fi_checked s Inv _ _ _ _ Hq).
Qed.

Lemma openSidecar_inv p b s : FlInv s → NoDelete b → FlInv (openSidecar p b s).
Proof.
  intros Inv Hb. unfold openSidecar. destruct (fl_sidecar s) as [i|] eqn:Hs.
  - apply plain_move_inv; try done. intros j [= <-]. done.
  - assert (Hnone : ∀ q qc, fl_procs s !! q = Some qc → fdInode qc = None).
    { intros q qc Hq. destruct (fdInode qc) eqn:Hi; [|done].
      by rewrite (fi_inode s Inv _ _ _ Hq Hi) in Hs. }
    split; cbn [fl_slot fl_sidecar fl_procs].
    + intros q qc [[<- <-]|[_ Hq]]%lookup_insert_Some; [done|exact (fi_body s Inv _ _ Hq)].
    + intros q qc i [[<- <-]|[_ Hq]]%lookup_insert_Some; [by intros [= <-]|].
      by rewrite (Hnone _ _ Hq).
    + intros q q' qc qc' i j e e' [[<- <-]|[_ Hq]]%lookup_insert_Some; [done|].
      intros _ H1%held_fd. by rewrite (Hnone _ _ Hq) in H1.
    + intros q prior doc i [[<- ?]|[_ Hq]]%lookup_insert_Some; [done|].
      exact (fi_checked s Inv _ _ _ _ Hq).
Qed.

Lemma flockFree_spec ex i procs q (qc : FlPc D) e :
  flockFree ex i procs = true → procs !! q = Some qc → held qc = Some (i, e) → ex = false ∧ e = false.
Proof.
  unfold flockFree. intros Hf Hq Hh. rewrite forallb_elem in Hf.
  specialize (Hf (q, qc)). cbn in Hf. rewrite Hh in Hf.
  assert (negb (Pos.eqb i i) || (negb ex && negb e) = true) as Hx.
  { apply Hf. by apply elem_of_map_to_list. }
  rewrite Pos.eqb_refl in Hx. by destruct ex, e.
Qed.

Lemma bodyStep_inv p b i s :
  FlInv s → fl_procs s !! p = Some (FlIn b i) → FlInv (bodyStep p b i s).
Proof.
  intros Inv Hp. pose proof (fi_body s Inv _ _ Hp) as Hb. cbn in Hb.
  pose proof (fi_inode s Inv _ _ i Hp eq_refl) as Hi.
  assert (Hgo : ∀ pc, pcBody pc → held pc = Some (i, exclusive b) →
    (∀ prior doc i, pc = FlWrite (Some prior) doc i → casCheck prior (fl_slot s) = None) →
    FlInv (goto p pc s)).
  { intros pc Hpc Hh Hc. apply plain_move_inv; try done.
    - intros j Hj. apply held_fd in Hh. congruence.
    - exact (keep_excl s p _ pc i _ Inv Hp eq_refl Hh). }
  destruct b as [|doc|prior doc|]; cbn [bodyStep].
  - by apply Hgo.
  - by apply Hgo.
  - destruct (casCheck prior (fl_slot s)) eqn:Hc; apply Hgo; try done. by intros ? ? ? [= <- _ _].
  - by destruct Hb.
Qed.

Lemma writeStep_inv p prior doc i s :
  FlInv s → fl_procs s !! p = Some (FlWrite prior doc i) →
  FlInv (setSlot (writeMetadataUnlocked doc (fl_slot s)).1 p (FlExit true i) s).
Proof.
  intros Inv Hp. apply move_inv; try done.
  - intros j [= <-]. exact (fi_inode s Inv _ _ i Hp eq_refl).
  - exact (keep_excl s p _ (FlExit true i) i true Inv Hp eq_refl eq_refl).
  - intros q pr dc j [[_ ?]|[Hne Hq]]%lookup_insert_Some; [done|].
    destruct (fi_excl s Inv _ _ _ _ _ _ _ _ Hp Hq eq_refl eq_refl Hne) as [? _]. done.
Qed.

Lemma flStep_inv p s s' : FlInv s → flStep p s = Some s' → FlInv s'.
Proof.
  intros Inv. unfold flStep. destruct (fl_procs s !! p) as [pc|] eqn:Hp; [|done].
  pose proof (fi_body s Inv _ _ Hp) as Hb.
  destruct pc as [b|b|b i|b i|prior doc i|i|e i]; cbn in Hb.
  - destruct (exclusive b); [intros [= <-]; by apply openSidecar_inv|].
    destruct (fl_sidecar s) as [i|] eqn:Hi; intros [= <-].
    + apply plain_move_inv; try done. intros j [= <-]. done.
    + destruct (existsFilePath _); [by apply plain_move_inv|by apply flLeave_inv].
  - intros [= <-]. by apply openSidecar_inv.
  - destruct (flockFree _ _ _) eqn:Hf; [|done]. intros [= <-]. apply plain_move_inv; try done.
    + intros j [= <-]. exact (fi_inode s Inv _ _ i Hp eq_refl).
    + intros j e q qc k e' [= <- <-] Hne Hq Hh.
      assert (k = i) as ->.
      { pose proof (fi_inode s Inv _ _ _ Hq (held_fd _ _ _ Hh)).
        pose proof (fi_inode s Inv _ _ i Hp eq_refl). congruence. }
      exact (flockFree_spec _ _ _ _ _ _ Hf Hq Hh).
  - intros [= <-]. by apply bodyStep_inv.
  - intros [= <-]. by eapply writeStep_inv.
  - done.
  - intros [= <-]. by apply flLeave_inv.
Qed.

Lemma flCall_inv p b s : FlInv s → NoDelete b → FlInv (flCall p b s).
Proof.
  intros Inv Hb. assert (FlInv (goto p (FlOpen b) s)) by (by apply plain_move_inv).
  unfold flCall. destruct b; try done; by destruct (existsFilePath _).
Qed.

Lemma flock_reachable_inv s0 s : FlInv s0 → rtc (FlStep NoDelete) s0 s → FlInv s.
Proof.
  intros Inv Hr. induction Hr as [|s1 s2 s3 Hs _ IH]; [done|]. apply IH.
  destruct Hs; eauto using flCall_inv, flStep_inv.
Qed.

(** C7: As long as no metadata file is deleted, the sidecar flock makes the
    compare-and-swap one step.  For any number of concurrent readers and writers,
    a process inside an exclusive section is alone (no other process is inside
    any section), and when a compare-and-swap that passed its check comes to its
    write, the check still holds of the file as it is then, so the step does to
    the file what the whole WriteMetadataCAS would do at that moment. *)
Theorem cas_is_atomic_without_delete slot sidecar next s :
  rtc (FlStep NoDelete) (flInit slot sidecar next) s →
  (∀ p q pc qc i j e, fl_procs s !! p = Some pc → fl_procs s !! q = Some qc →
     held pc = Some (i, true) → held qc = Some (j, e) → p = q) ∧
  (∀ p prior doc i, fl_procs s !! p = Some (FlWrite (Some prior) doc i) →
     sl_flockErr (fl_slot s) true = None →
     fl_slot <$> flStep p s = Some (WriteMetadataCAS prior doc (fl_slot s)).1).
Proof.
  intros Hr. apply flock_reachable_inv in Hr; [|apply flInit_inv]. split.
  - intros p q pc qc i j e Hp Hq H1 H2. destruct (decide (p = q)) as [|Hne]; [done|].
    by destruct (fi_excl s Hr _ _ _ _ _ _ _ _ Hp Hq H1 H2 Hne) as [? _].
  - intros p prior doc i Hp Hl. unfold flStep, WriteMetadataCAS, WithLock.
    by rewrite Hp, Hl, (fi_checked s Hr _ _ _ _ Hp).
Qed.
End Flock.

(** *** Schedules *)

Inductive FlOp (D : Type) := OpCall (p : Pid) (b : Body D) | OpMove (p : Pid).
Arguments OpCall {D} p b.
Arguments OpMove {D} p.

Fixpoint runFl {D} `{JsonDoc D} (ops : list (FlOp D)) (s : FlState D) : option (FlState D) :=
  match ops with
  | [] => Some s
  | OpCall p b :: rest =>
      match fl_procs s !! p with None => runFl rest (flCall p b s) | Some _ => None end
  | OpMove p :: rest => match flStep p s with Some s' => runFl rest s' | None => None end
  end.

Lemma runFl_reachable {D} `{JsonDoc D} (ok : Body D → Prop) ops s s' :
  Forall (fun o => match o with OpCall _ b => ok b | OpMove _ => True end) ops →
  runFl ops s = Some s' → rtc (FlStep ok) s s'.
Proof.
  intros Hok. revert s. induction Hok as [|o ops Ho _ IH]; cbn [runFl]; intros s Hr.
  - injection Hr as <-. done.
  - destruct o as [p b|p].
    + destruct (fl_procs s !! p) eqn:Hp; [done|]. apply rtc_l with (flCall p b s); [|by apply IH].
      by constructor.
    + destruct (flStep p s) as [s1|] eqn:Hs; [|done]. apply rtc_l with s1; [|by apply IH].
      by apply (FlMoves ok p).
Qed.

Local Open Scope positive_scope.

(** Two writers and a reader at once: the first writer passed its check. *)
Definition busyOps : list (FlOp SampleDoc) :=
  [OpCall 1 (BodyCAS (sampleFile 3 "a") docB); OpCall 2 (BodyCAS None docA); OpMove 1; OpMove 2;
   OpMove 1; OpCall 3 BodyRead; OpMove 3; OpMove 1].
Definition busy : FlState SampleDoc :=
  default (flInit (quietSlot None) None 1)
    (runFl busyOps (flInit (quietSlot (sampleFile 3 "a")) (Some 1) 2)).

Lemma busy_reachable :
  rtc (FlStep NoDelete) (flInit (quietSlot (sampleFile 3 "a")) (Some 1) 2) busy.
Proof.
  apply (runFl_reachable NoDelete busyOps); [|reflexivity]. repeat constructor; discriminate.
Qed.

Lemma cas_is_atomic_without_delete_witness :
  flStep 2 busy = None ∧ flStep 3 busy = None ∧
  fl_slot <$> flStep 1 busy
    = Some (WriteMetadataCAS (sampleFile 3 "a") docB (quietSlot (sampleFile 3 "a"))).1.
Proof.
  split; [reflexivity|]. split; [reflexivity|].
  apply (proj2 (cas_is_atomic_without_delete (quietSlot (sampleFile 3 "a")) (Some 1) 2 busy
                  busy_reachable) 1 (sampleFile 3 "a") docB 1); reflexivity.
Defined.

(** Deleting a metadata file breaks the flock: DeleteMetadata unlinks the
    sidecar while another process has it open.  In a reachable state two creators
    of the same file (both insisting that there is none) are inside the exclusive
    section at once, one holding the unlinked inode and one the new sidecar; both
    pass the check, both writes land, and the document of the first one is gone
    although neither was told that it was stale. *)
Theorem delete_lets_two_writers_in :
  ∃ s s', rtc (FlStep (fun _ => True)) (flInit (quietSlot (sampleFile 3 "a")) (Some 1) 2) s ∧
    fl_procs s !! 2 = Some (FlWrite (Some None) docA 1) ∧
    fl_procs s !! 3 = Some (FlWrite (Some None) docB 2) ∧
    runFl [OpMove 2; OpMove 3] s = Some s' ∧
    (fl_slot <$> flStep 2 s) = Some (quietSlot (sampleFile 3 "a")) ∧
    fl_slot s' = quietSlot (sampleFile 3 "b").
Proof.
  pose (ops := [OpCall 1 BodyDelete; OpMove 1; OpMove 1; OpCall 2 (BodyCAS None docA); OpMove 2;
                OpMove 1; OpMove 1; OpMove 1; OpMove 2; OpCall 3 (BodyCAS None docB); OpMove 3;
                OpMove 3; OpMove 2; OpMove 3] : list (FlOp SampleDoc)).
  eexists. eexists. split; [|split; [|split; [|split; [|split]]]].
  - apply (runFl_reachable _ ops); [repeat constructor|vm_compute; reflexivity].
  - reflexivity.
  - reflexivity.
  - vm_compute. reflexivity.
  - vm_compute. reflexivity.
  - reflexivity.
Qed.
