(* ===== verification/Sha512.v ===== *)
(** * Sha512: crypto/sha512, executable

    The 64-bit sibling of [Sha256]: the same rounds with other constants, on 128-byte
    blocks.  A 64-bit word is a [Z] in [0, 2^64). *)

From Stdlib Require Import ZArith String.
From stdpp Require Import base strings list.
From S2P Require Import Prelude Sha256.

Local Open Scope Z_scope.

Module Sha512.

Definition mask64 : Z := 18446744073709551615.
Definition w64 (x : Z) : Z := Z.land x mask64.
Definition rotr64 (n x : Z) : Z := Z.lor (Z.shiftr x n) (w64 (Z.shiftl x (64 - n))).
Definition not64 (x : Z) : Z := Z.lxor x mask64.

Definition round_constants : list Z :=
  Eval vm_compute in (fun p => w64 (cube_root 68 0 (Z.shiftl p 192))) <$> primes_to 409.
Definition initial_hash : list Z :=
  Eval vm_compute in (fun p => w64 (Z.sqrt (Z.shiftl p 128))) <$> primes_to 19.

Definition pad (msg : list Z) : list Z :=
  let n := Z.of_nat (length msg) in
  msg ++ [128] ++ replicate (Z.to_nat ((111 - n) mod 128)) 0 ++ be_bytes 16 (8 * n).

(** The message schedule, most recent word first. *)
Fixpoint schedule (n : nat) (ws : list Z) : list Z :=
  match n with
  | O => ws
  | S n' =>
      let w i := default 0 (ws !! i) in
      let w15 := w 14%nat in
      let w2 := w 1%nat in
      let s0 := Z.lxor (rotr64 1 w15) (Z.lxor (rotr64 8 w15) (Z.shiftr w15 7)) in
      let s1 := Z.lxor (rotr64 19 w2) (Z.lxor (rotr64 61 w2) (Z.shiftr w2 6)) in
      schedule n' (w64 (w 15%nat + s0 + w 6%nat + s1) :: ws)
  end.

Definition round (hs : list Z) (kw : Z * Z) : list Z :=
  match hs with
  | [a; b; c; d; e; f; g; h] =>
      let s1 := Z.lxor (rotr64 14 e) (Z.lxor (rotr64 18 e) (rotr64 41 e)) in
      let ch := Z.lxor (Z.land e f) (Z.land (not64 e) g) in
      let t1 := w64 (h + s1 + ch + kw.1 + kw.2) in
      let s0 := Z.lxor (rotr64 28 a) (Z.lxor (rotr64 34 a) (rotr64 39 a)) in
      let maj := Z.lxor (Z.land a b) (Z.lxor (Z.land a c) (Z.land b c)) in
      [w64 (t1 + w64 (s0 + maj)); a; b; c; w64 (d + t1); e; f; g]
  | _ => hs
  end.

Definition compress (hs : list Z) (block : list Z) : list Z :=
  let ws := rev (schedule 64 (rev (be_word <$> chunks 16 8 block))) in
  zip_with (fun x y => w64 (x + y)) hs (foldl round hs (zip round_constants ws)).

(** sha512.Sum512 *)
Definition sha512 (msg : list Z) : list Z :=
  let m := pad msg in
  foldl compress initial_hash (chunks (length m) 128 m) ≫= be_bytes 8.

Example sha512_abc :
  hex_encode (sha512 (bytes_of_string "abc"))
  = "ddaf35a193617abacc417349ae20413112e6fa4e89a97ea20a9eeee64b55d39a2192992a274fc1a836ba3c23a3feebbd454d4423643ce80e2a9ac94fa54ca49f".
Proof. vm_compute. reflexivity. Qed.

(** Two blocks: the padding spills into a second block. *)
Example sha512_two_blocks :
  take 8 (sha512 (bytes_of_string "abcdefghbcdefghicdefghijdefghijkefghijklfghijklmghijklmnhijklmnoijklmnopjklmnopqklmnopqrlmnopqrsmnopqrstnopqrstu"))
  = [0x8e; 0x95; 0x9b; 0x75; 0xda; 0xe3; 0x13; 0xda].
Proof. vm_compute. reflexivity. Qed.

End Sha512.
