(* ===== verification/Cni.v ===== *)
(** * Cni: networks of spaces and their clean-up
    (internal/cni manager.go, network.go, container.go, bridge.go, errors.go, config.go,
    bootstrap.go; internal/util/fs/space.go; the CNI helpers of runner/helpers.go)

    A network is a conflist file; attaching and detaching go through libcni.  The clean-up
    of a container detaches it, sweeps its masquerade chain out of the nat table and
    removes its address lease and cached results.  libcni, the files, iptables and ip are
    operations of the class [CniHost]; encoding/json decodes into [Json]. *)

From Stdlib Require Import Ascii ZArith Lia.
From stdpp Require Import base gmap strings list pretty.
From S2P Require Import Prelude Model Sha256 Sha512 Naming Layout Observe Subnet NetPolicy.

Local Open Scope nat_scope.

(** ** encoding/json into interface{} values *)

Inductive Json := JNull | JBoolean (b : bool) | JNumber (z : Z) | JString (s : string)
                | JArray (l : list Json) | JObject (l : list (string * Json)).

(** m[key] of a map[string]interface{}: the last member of that name, nil when there is none *)
Fixpoint member (key : string) (l : list (string * Json)) : Json :=
  match l with
  | [] => JNull
  | (k, v) :: rest =>
      if existsb (fun p => String.eqb p.1 key) rest then member key rest
      else if String.eqb k key then v else JNull
  end.
Definition as_object (j : Json) : option (list (string * Json)) := match j with JObject l => Some l | _ => None end.
Definition as_array (j : Json) : option (list Json) := match j with JArray l => Some l | _ => None end.
Definition as_string (j : Json) : option string := match j with JString s => Some s | _ => None end.

(** ** Strings *)

(** strings.Fields *)
Fixpoint fields_from (word s : string) : list string :=
  match s with
  | EmptyString => if String.eqb word "" then [] else [word]
  | String c s' =>
      if is_space c then (if String.eqb word "" then fields_from "" s' else word :: fields_from "" s')
      else fields_from (word +:+ String c EmptyString) s'
  end.
Definition Fields (s : string) : list string := fields_from "" s.

Definition digit_of (c : ascii) : option Z :=
  let n := Z.of_nat (nat_of_ascii c) in if ((48 <=? n) && (n <=? 57))%Z then Some (n - 48)%Z else None.
Fixpoint digits_val (acc : Z) (s : string) : option Z :=
  match s with
  | EmptyString => Some acc
  | String c s' => match digit_of c with Some d => digits_val (10 * acc + d)%Z s' | None => None end
  end.
Definition magnitude (s : string) : option Z := if String.eqb s "" then None else digits_val 0 s.
(** strconv.Atoi; [None] is its error *)
Definition Atoi (s : string) : option Z :=
  let in_range z := if ((-9223372036854775808 <=? z) && (z <=? 9223372036854775807))%Z then Some z else None in
  match s with
  | String c s' =>
      if Ascii.eqb c "-" then magnitude s' ≫= fun z => in_range (- z)%Z
      else if Ascii.eqb c "+" then magnitude s' ≫= in_range
      else magnitude s ≫= in_range
  | EmptyString => None
  end.

(** \w of a regular expression *)
Definition is_word (c : ascii) : bool :=
  let n := nat_of_ascii c in
  ((48 <=? n) && (n <=? 57)) || ((65 <=? n) && (n <=? 90)) || (n =? 95) || ((97 <=? n) && (n <=? 122)).

Definition starts_nonword (s : string) : bool := match s with EmptyString => true | String c _ => negb (is_word c) end.
Fixpoint after_prefix (p s : string) : option string :=
  match p, s with
  | EmptyString, _ => Some s
  | String a p', String b s' => if Ascii.eqb a b then after_prefix p' s' else None
  | String _ _, EmptyString => None
  end.
(** A match of ID between non-word characters or the ends; [edge] tells that the text
    before [s] ends with one. *)
Fixpoint token_match (id : string) (edge : bool) (s : string) : bool :=
  (edge && match after_prefix id s with Some rest => starts_nonword rest | None => false end)
  || match s with EmptyString => false | String c s' => token_match id (negb (is_word c)) s' end.

Definition containsExactContainerID (content containerID : string) : bool :=
  if String.eqb containerID "" then false
  else String.eqb (TrimSpace content) containerID || token_match containerID true content.

(** ** Configuration *)

Definition defaultCniConfDir : string := "/opt/cni/net.d".
Definition defaultCniBinDir : string := "/opt/cni/bin".
Definition defaultCniCacheDir : string := "/opt/cni/cache".
Definition defaultCNIVersion : string := "0.4.0".
Definition defaultBridgeName : string := "cni0".
Definition defaultSubnetCIDR : string := "10.88.0.0/16".
Definition CNINetworksDir : string := "/var/lib/cni/networks".
Definition maxBridgeNameLen : nat := 15.
Definition bridgePluginType : string := "bridge".

Record Conf := { cf_CniConfigDir : string; cf_CniBinDir : string; cf_CniCacheDir : string }.
Record NetworkConfig := { nc_Name : string; nc_BridgeName : string; nc_SubnetCIDR : string }.
Record RuntimeConf := { rt_ContainerID : string; rt_NetNS : string; rt_IfName : string }.

Definition NewCNINetworkConfigWithSubnet (name subnetCIDR : string) : NetworkConfig :=
  {| nc_Name := name; nc_BridgeName := SafeBridgeName name;
     nc_SubnetCIDR := if String.eqb subnetCIDR "" then defaultSubnetCIDR else subnetCIDR |}.
Definition NewCNINetworkConfig (name : string) : NetworkConfig := NewCNINetworkConfigWithSubnet name defaultSubnetCIDR.

(** The model json.MarshalIndent is given. *)
Definition conflist (name bridge subnet : string) : Json :=
  JObject [("cniVersion", JString defaultCNIVersion); ("name", JString name);
           ("plugins", JArray
              [JObject [("type", JString "bridge"); ("bridge", JString bridge); ("isGateway", JBoolean true); ("ipMasq", JBoolean true);
                        ("ipam", JObject [("type", JString "host-local");
                                          ("ranges", JArray [JArray [JObject [("subnet", JString subnet)]]]);
                                          ("routes", JArray [JObject [("dst", JString "0.0.0.0/0")]])])];
               JObject [("type", JString "loopback")]])].

Class CniHost (W : Type) := {
  NetConf : Type;
  CniResult : Type;
  os_Stat : string → st W (option error);
  os_ReadFile : string → st W (result string);
  os_WriteFile : string → string → Z → st W (option error);
  os_Remove : string → st W (option error);
  os_RemoveAll : string → st W (option error);
  os_MkdirAll : string → Z → st W (option error);
  os_ReadDir : string → st W (result (list (string * bool)));
  os_Glob : string → st W (result (list string));
  os_NotExist : error → bool;
  (** syscall.Stat, the device and inode *)
  sys_Stat : string → st W (result (Z * Z));
  json_Decode : string → result Json;
  json_Encode : Json → result string;
  (** json.Unmarshal into a struct of a type and a bridge *)
  json_DecodeBridge : string → result (string * string);
  err_Text : error → string;
  (** iptables and ip: combined output, and the error of a failed command *)
  iptables_run : list string → st W (string * option error);
  ip_run : list string → st W (string * option error);
  cni_ConfListFromFile : string → st W (result NetConf);
  net_Name : NetConf → string;
  (** the raw bytes of each plugin, empty for a nil one *)
  net_Plugins : NetConf → list string;
  cni_AddNetworkList : NetConf → RuntimeConf → st W (result CniResult);
  cni_DelNetworkList : NetConf → RuntimeConf → st W (option error);
  cni_CachedResult : NetConf → RuntimeConf → st W (result (option CniResult));
  (** NewResultFromResult and the IPs of it, [None] for a nil entry *)
  result_IPs : CniResult → result (list (option netIP))
}.

Section Cni.
Context {W : Type} `{CniHost W}.

(** ** The manager (manager.go, network.go) *)

Record Manager := { mg_netConf : option NetConf; mg_conf : Conf }.

Definition or_default (s d : string) : string := if String.eqb s "" then d else s.
Definition NewManager (cniBinDir cniConfigDir cniCacheDir : string) : Manager :=
  {| mg_netConf := None;
     mg_conf := {| cf_CniConfigDir := or_default cniConfigDir defaultCniConfDir; cf_CniBinDir := or_default cniBinDir defaultCniBinDir;
                   cf_CniCacheDir := or_default cniCacheDir defaultCniCacheDir |} |}.
Definition managerOf (c : Conf) : Manager := NewManager (cf_CniBinDir c) (cf_CniConfigDir c) (cf_CniCacheDir c).

Definition LoadNetworkConfigList (m : Manager) (configPath : string) : st W (result Manager) :=
  if String.eqb configPath "" then st_ret (Err (EOpaque "network config path is required"))
  else
    let! conf := cni_ConfListFromFile configPath in
    st_ret (match conf with
            | Err e => Err (EWrap "failed to load CNI config list %s: %w" [e])
            | Ok c => Ok {| mg_netConf := Some c; mg_conf := mg_conf m |}
            end).

(** json.Unmarshal into a map[string]interface{} *)
Definition decode_map (data : string) : result (list (string * Json)) :=
  match json_Decode data with
  | Ok (JObject l) => Ok l
  | Ok JNull => Ok []
  | Ok _ => Err (EOpaque "json: cannot unmarshal into Go value of type map[string]interface {}")
  | Err e => Err e
  end.

Definition conflistPath (m : Manager) (networkName : string) : string :=
  FJoin [cf_CniConfigDir (mg_conf m); networkName +:+ ".conflist"].

(** The second result is the path; a missing or foreign file is ErrNetworkNotFound. *)
Definition ExistsNetworkConfig (m : Manager) (networkName configPath : string) : st W (bool * string * option error) :=
  let configPath := if String.eqb configPath "" then conflistPath m networkName else configPath in
  let! data := os_ReadFile configPath in
  st_ret (match data with
          | Err e => (false, "", Some (if os_NotExist e then ESentinel ErrNetworkNotFound else e))
          | Ok data =>
              match decode_map data with
              | Err e => (false, "", Some e)
              | Ok raw =>
                  match as_string (member "name" raw) with
                  | Some name => if String.eqb name networkName then (true, configPath, None)
                                 else (false, "", Some (ESentinel ErrNetworkNotFound))
                  | None => (false, "", Some (ESentinel ErrNetworkNotFound))
                  end
              end
          end).

(** The first plugin of type bridge, as a map. *)
Fixpoint bridgePlugin (plugins : list Json) : option (list (string * Json)) :=
  match plugins with
  | [] => None
  | p :: rest =>
      match as_object p with
      | Some plugin => if bool_decide (as_string (member "type" plugin) = Some bridgePluginType) then Some plugin else bridgePlugin rest
      | None => bridgePlugin rest
      end
  end.

(** Reading a conflist and finding its bridge plugin, as both readers do. *)
Definition readBridgePlugin {A} (configPath : string) (k : list (string * Json) → A) : st W (result A) :=
  if String.eqb configPath "" then st_ret (Err (EOpaque "network config path is required"))
  else
    let! data := os_ReadFile configPath in
    st_ret (match data with
            | Err e => Err (if os_NotExist e then ESentinel ErrNetworkNotFound else e)
            | Ok data =>
                match decode_map data with
                | Err e => Err (EWrap "parse conflist: %w" [e])
                | Ok raw =>
                    match as_array (member "plugins" raw) with
                    | None => Err (ESentinel ErrBridgePluginMissing)
                    | Some plugins =>
                        match bridgePlugin plugins with
                        | Some plugin => Ok (k plugin)
                        | None => Err (ESentinel ErrBridgePluginMissing)
                        end
                    end
                end
            end).

Definition subnetOf (plugin : list (string * Json)) : string :=
  match as_object (member "ipam" plugin) ≫= (fun ipam => as_array (member "ranges" ipam)) with
  | Some (first :: _) =>
      match as_array first with
      | Some (entry :: _) =>
          match as_object entry with
          | Some entry => default "" (as_string (member "subnet" entry))
          | None => ""
          end
      | _ => ""
      end
  | _ => ""
  end.
Definition ReadSubnetCIDR (configPath : string) : st W (result string) := readBridgePlugin configPath subnetOf.

Definition bridgeOf (plugin : list (string * Json)) : string := default "" (as_string (member "bridge" plugin)).
Definition ReadBridgeName (configPath : string) : st W (result string) := readBridgePlugin configPath bridgeOf.

Definition BuildDefaultConflist (name bridge subnet : string) : result string := json_Encode (conflist name bridge subnet).

Definition CreateNetworkWithConfig (m : Manager) (cfg : NetworkConfig) : st W (result string) :=
  let bridge := or_default (nc_BridgeName cfg) defaultBridgeName in
  if maxBridgeNameLen <? String.length bridge then
    st_ret (Err (EWrap "%w: bridge %q is %d chars, max %d (IFNAMSIZ-1); call SafeBridgeName first" [ESentinel ErrBridgeNameTooLong]))
  else
    match BuildDefaultConflist (nc_Name cfg) bridge (or_default (nc_SubnetCIDR cfg) defaultSubnetCIDR) with
    | Err e => st_ret (Err e)
    | Ok out =>
        let target := conflistPath m (nc_Name cfg) in
        let! e := os_WriteFile target out 384 in
        st_ret (match e with Some e => Err e | None => Ok target end)
    end.
Definition CreateNetwork (m : Manager) (networkName bridgeName subnetCIDR : string) : st W (result string) :=
  CreateNetworkWithConfig m {| nc_Name := networkName; nc_BridgeName := bridgeName; nc_SubnetCIDR := subnetCIDR |}.

Definition DeleteNetwork (m : Manager) (networkName configPath : string) : st W (option error) :=
  if String.eqb networkName "" then st_ret (Some (EOpaque "network name is required"))
  else
    let configPath := if String.eqb configPath "" then conflistPath m networkName else configPath in
    let! stat := os_Stat configPath in
    match stat with
    | Some e => st_ret (if os_NotExist e then None else Some (EWrap "failed to check network config file: %w" [e]))
    | None =>
        let! (exists_, actualPath, err) := ExistsNetworkConfig m networkName configPath in
        match err with
        | Some e =>
            st_ret (if error_is ErrNetworkNotFound e then None else Some (EWrap "failed to verify network config: %w" [e]))
        | None =>
            if negb exists_ then st_ret None
            else
              let! e := os_Remove actualPath in
              st_ret (match e with Some e => Some (EWrap "failed to delete network config file %s: %w" [e]) | None => None end)
        end
    end.

(** ** The bridge (bridge.go) *)

Definition DeleteBridge (name : string) : st W (option error) :=
  if String.eqb name "" then st_ret None
  else
    let! (out, err) := ip_run ["link"; "delete"; name; "type"; "bridge"] in
    st_ret (match err with
            | None => None
            | Some e => if Contains (ToLower (TrimSpace out)) "cannot find device" then None
                        else Some (EWrap "ip link delete %s: %w: %s" [e])
            end).

Definition TeardownNetwork (m : Manager) (networkName configPath : string) : st W (option error) :=
  if String.eqb networkName "" then st_ret (Some (EOpaque "network name is required"))
  else
    let configPath := if String.eqb configPath "" then conflistPath m networkName else configPath in
    let! read := ReadBridgeName configPath in
    let tolerated := match read with
                     | Ok _ => true
                     | Err e => error_is ErrNetworkNotFound e || error_is ErrBridgePluginMissing e
                     end in
    match read, tolerated with
    | Err e, false => st_ret (Some (EWrap "read bridge name: %w" [e]))
    | _, _ =>
        let bridge := match read with Ok b => b | Err _ => "" end in
        let! e := DeleteNetwork m networkName configPath in
        match e with
        | Some e => st_ret (Some e)
        | None => if String.eqb bridge "" then st_ret None else DeleteBridge bridge
        end
    end.

(** ** Attach and detach (container.go, errors.go) *)

Definition translateCNIError (err : error) (networkName bridge : string) : error :=
  let msg := err_Text err in
  if Contains msg "numerical result out of range" && (maxBridgeNameLen <? String.length bridge) then
    EWrap "%w: bridge %q is %d chars, max %d (IFNAMSIZ-1); SafeBridgeName was expected to hash — file a bug: %w" [ESentinel ErrBridgeNameTooLong; err]
  else if Contains msg "failed to find plugin" || Contains msg "executable file not found" then
    EWrap "%w: required CNI plugin missing on host — install the standard CNI plugins (e.g. apt install containernetworking-plugins) so %q resolves: %w"
      [ESentinel ErrCNIPluginNotFound; err]
  else if Contains msg "container veth name" && Contains msg "already exists" then
    EWrap "%w: %w" [ESentinel ErrCNIVethExists; err]
  else err.

Fixpoint bridgeNameFromPlugins (plugins : list string) : string :=
  match plugins with
  | [] => ""
  | bytes :: rest =>
      if String.eqb bytes "" then bridgeNameFromPlugins rest
      else match json_DecodeBridge bytes with
           | Ok (ty, bridge) => if String.eqb ty "bridge" && negb (String.eqb bridge "") then bridge else bridgeNameFromPlugins rest
           | Err _ => bridgeNameFromPlugins rest
           end
  end.
Definition bridgeNameFromNetConf (c : NetConf) : string := bridgeNameFromPlugins (net_Plugins c).

Definition buildRuntimeConf (containerID netnsPath : string) : RuntimeConf :=
  {| rt_ContainerID := containerID; rt_NetNS := netnsPath; rt_IfName := "eth0" |}.

Fixpoint firstIPv4 (ips : list (option netIP)) : option IPv4 :=
  match ips with
  | [] => None
  | Some (IP4 ip) :: _ => Some ip
  | _ :: rest => firstIPv4 rest
  end.
Definition firstIPv4FromResult (r : CniResult) : option IPv4 :=
  match result_IPs r with Ok ips => firstIPv4 ips | Err _ => None end.

Definition AddContainerToNetwork (m : Manager) (containerID netnsPath : string) : st W (result (option IPv4)) :=
  match mg_netConf m with
  | None => st_ret (Err (ESentinel ErrNetworkConfigNotLoaded))
  | Some conf =>
      let! r := cni_AddNetworkList conf (buildRuntimeConf containerID netnsPath) in
      st_ret (match r with
              | Err e => Err (translateCNIError e (net_Name conf) (bridgeNameFromNetConf conf))
              | Ok r => Ok (firstIPv4FromResult r)
              end)
  end.

Definition CachedIPv4ForContainer (m : Manager) (containerID netnsPath : string) : st W (option IPv4) :=
  match mg_netConf m with
  | None => st_ret None
  | Some conf =>
      let! r := cni_CachedResult conf (buildRuntimeConf containerID netnsPath) in
      st_ret (match r with Ok (Some r) => firstIPv4FromResult r | _ => None end)
  end.

Definition DelContainerFromNetwork (m : Manager) (containerID netnsPath : string) : st W (option error) :=
  match mg_netConf m with
  | None => st_ret (Some (ESentinel ErrNetworkConfigNotLoaded))
  | Some conf =>
      let! e := cni_DelNetworkList conf (buildRuntimeConf containerID netnsPath) in
      st_ret (match e with
              | Some e => Some (translateCNIError e (net_Name conf) (bridgeNameFromNetConf conf))
              | None => None
              end)
  end.

(** ** Bootstrap (bootstrap.go) *)

(** The three directories with what was found, made and found again. *)
Record BootstrapReport := {
  br_Dirs : list string; br_ExistsPre : list bool; br_Created : list bool; br_ExistsPost : list bool
}.
Fixpoint probeDirs (dirs : list string) : st W (list bool) :=
  match dirs with
  | [] => st_ret []
  | d :: rest => let! e := os_Stat d in let! l := probeDirs rest in st_ret ((match e with None => true | Some _ => false end) :: l)
  end.
(** Directories that were missing, in order, up to the first that cannot be made. *)
Fixpoint makeMissing (dirs : list (string * bool)) : st W (list bool * option error) :=
  match dirs with
  | [] => st_ret ([], None)
  | (d, pre) :: rest =>
      if pre then let! (l, e) := makeMissing rest in st_ret (false :: l, e)
      else
        let! e := os_MkdirAll d 488 in
        match e with
        | Some e => st_ret (false :: map (fun _ => false) rest, Some e)
        | None => let! (l, e) := makeMissing rest in st_ret (true :: l, e)
        end
  end.
Definition BootstrapCNI (cfgDir cacheDir binDir : string) : st W (BootstrapReport * option error) :=
  let dirs := [or_default cfgDir defaultCniConfDir; or_default cacheDir defaultCniCacheDir; or_default binDir defaultCniBinDir] in
  let! pre := probeDirs dirs in
  let! (created, e) := makeMissing (zip dirs pre) in
  match e with
  | Some _ => st_ret ({| br_Dirs := dirs; br_ExistsPre := pre; br_Created := created; br_ExistsPost := map (fun _ => false) dirs |}, e)
  | None =>
      let! post := probeDirs dirs in
      st_ret ({| br_Dirs := dirs; br_ExistsPre := pre; br_Created := created; br_ExistsPost := post |}, None)
  end.

(** ** The conflist of a space (internal/util/fs/space.go) *)

Definition SpaceNetworkConfigPath (baseRunPath realmName spaceName : string) : result string :=
  if String.eqb (TrimSpace spaceName) "" then Err (EWrap "%w: space name is required" [ESentinel ErrConfig])
  else if String.eqb (TrimSpace realmName) "" then Err (EWrap "%w: realm name is required" [ESentinel ErrConfig])
  else Ok (FJoin [RealmMetadataDir baseRunPath realmName; spaceName; "network.conflist"]).

Definition WriteSpaceNetworkConfig (confPath networkName subnetCIDR : string) : st W (option error) :=
  let cfg := NewCNINetworkConfigWithSubnet networkName subnetCIDR in
  match BuildDefaultConflist (nc_Name cfg) (nc_BridgeName cfg) (nc_SubnetCIDR cfg) with
  | Err e => st_ret (Some e)
  | Ok data =>
      let! e := os_MkdirAll (FDir confPath) 488 in
      match e with
      | Some e => st_ret (Some e)
      | None => os_WriteFile confPath data 384
      end
  end.

(** ** Clean-up of a container (runner/helpers.go) *)

Definition selfNetns : string := "/proc/self/ns/net".
Definition delNetnsIsRunnerOwn (netnsPath : string) : st W bool :=
  if String.eqb netnsPath "" then st_ret false
  else
    let! target := sys_Stat netnsPath in
    match target with
    | Err _ => st_ret false
    | Ok t =>
        let! self := sys_Stat selfNetns in
        st_ret (match self with Ok s => bool_decide (t = s) | Err _ => false end)
    end.
Definition sanitizeDELNetns (netnsPath : string) : st W string :=
  let! own := delNetnsIsRunnerOwn netnsPath in
  st_ret (if own then "" else netnsPath).

Context `{HostConfig} (cniConf : Conf).

(** The space directories of one realm, then the realms. *)
Fixpoint conflistInRealm (networkName realmName : string) (entries : list (string * bool)) : st W (option string) :=
  match entries with
  | [] => st_ret None
  | (spaceName, isDir) :: rest =>
      if negb isDir then conflistInRealm networkName realmName rest
      else
        match BuildSpaceNetworkName realmName spaceName with
        | Err _ => conflistInRealm networkName realmName rest
        | Ok candidate =>
            if negb (String.eqb candidate networkName) then conflistInRealm networkName realmName rest
            else
              match SpaceNetworkConfigPath RunPath realmName spaceName with
              | Err _ => conflistInRealm networkName realmName rest
              | Ok confPath =>
                  let! stat := os_Stat confPath in
                  match stat with
                  | None => st_ret (Some confPath)
                  | Some _ => conflistInRealm networkName realmName rest
                  end
              end
        end
  end.
Fixpoint conflistInRealms (networkName : string) (entries : list (string * bool)) : st W (option string) :=
  match entries with
  | [] => st_ret None
  | (realmName, isDir) :: rest =>
      if negb isDir then conflistInRealms networkName rest
      else
        let! spaces := os_ReadDir (RealmMetadataDir RunPath realmName) in
        match spaces with
        | Err _ => conflistInRealms networkName rest
        | Ok spaces =>
            let! found := conflistInRealm networkName realmName spaces in
            match found with
            | Some p => st_ret (Some p)
            | None => conflistInRealms networkName rest
            end
        end
  end.
Definition findSpaceConflistByNetworkName (networkName : string) : st W (result string) :=
  let! realms := os_ReadDir (MetadataRoot RunPath) in
  match realms with
  | Err e => st_ret (Err e)
  | Ok realms =>
      let! found := conflistInRealms networkName realms in
      st_ret (match found with Some p => Ok p | None => Err (EOpaque "CNI config not found in run path for network %q") end)
  end.

Definition findCNIConfigPath (networkName : string) : st W (result string) :=
  let configPath := FJoin [cf_CniConfigDir cniConf; networkName +:+ ".conflist"] in
  let! stat := os_Stat configPath in
  match stat with
  | None => st_ret (Ok configPath)
  | Some _ =>
      let! r := findSpaceConflistByNetworkName networkName in
      st_ret (match r with Ok p => Ok p | Err _ => Err (EOpaque "CNI config not found for network %q") end)
  end.

(** The result is the marker of the outcome. *)
Definition runCNIDel (containerID netnsPath networkName : string) : st W string :=
  let! path := findCNIConfigPath networkName in
  match path with
  | Err _ => st_ret "cni-del-skipped:config-not-found"
  | Ok cniConfigPath =>
      let! loaded := LoadNetworkConfigList (managerOf cniConf) cniConfigPath in
      match loaded with
      | Err _ => st_ret "cni-del-skipped:load-error"
      | Ok m =>
          let! e := DelContainerFromNetwork m containerID netnsPath in
          st_ret (match e with Some _ => "cni-del-failed" | None => "cni-del" end)
      end
  end.

(** *** The masquerade chain *)

Definition maxChainLength : nat := 28.
Definition cniMasqChainName (networkName containerID : string) : string :=
  String.substring 0 maxChainLength ("CNI-" +:+ hex_encode (Sha512.sha512 (bytes_of_string (networkName +:+ containerID)))).

Definition nl : ascii := ascii_of_nat 10.
(** The line number of a listed rule that jumps to the chain. *)
Definition jumpLine (chain raw : string) : list Z :=
  match Fields raw with
  | num :: target :: _ => if String.eqb target chain then match Atoi num with Some n => [n] | None => [] end else []
  | _ => []
  end.
Definition postroutingJumpLines (chain : string) : st W (list Z) :=
  let! (out, err) := iptables_run ["-t"; "nat"; "-L"; "POSTROUTING"; "--line-numbers"; "-n"] in
  st_ret (match err with Some _ => [] | None => split_on nl out ≫= jumpLine chain end).

(** Deletions by line number, in the order given; the flag tells that one succeeded. *)
Fixpoint deleteJumps (lines : list Z) (swept : bool) : st W bool :=
  match lines with
  | [] => st_ret swept
  | n :: rest =>
      let! (_, err) := iptables_run ["-t"; "nat"; "-D"; "POSTROUTING"; Itoa n] in
      deleteJumps rest (match err with None => true | Some _ => swept end)
  end.

Definition sweepCNIMasqChain (networkName containerID : string) : st W string :=
  let chain := cniMasqChainName networkName containerID in
  let! lines := postroutingJumpLines chain in
  let! swept := deleteJumps (reverse lines) false in
  let! _ := iptables_run ["-t"; "nat"; "-F"; chain] in
  let! (_, err) := iptables_run ["-t"; "nat"; "-X"; chain] in
  let swept := match err with None => true | Some _ => swept end in
  st_ret (if swept then "cni-masq-swept:" +:+ chain else "").

(** *** Leases and cached results *)

Fixpoint removeLeases (ipamDir containerID : string) (entries : list (string * bool)) : st W unit :=
  match entries with
  | [] => st_ret ()
  | (fileName, isDir) :: rest =>
      if isDir then removeLeases ipamDir containerID rest
      else
        let filePath := FJoin [ipamDir; fileName] in
        let! content := os_ReadFile filePath in
        match content with
        | Ok content =>
            if containsExactContainerID content containerID then let! _ := os_Remove filePath in removeLeases ipamDir containerID rest
            else removeLeases ipamDir containerID rest
        | Err _ => removeLeases ipamDir containerID rest
        end
  end.
Definition purgeLeases (containerID networkName : string) : st W unit :=
  let ipamDir := FJoin [CNINetworksDir; networkName] in
  let! _ := os_Remove (FJoin [ipamDir; containerID]) in
  let! entries := os_ReadDir ipamDir in
  match entries with Ok entries => removeLeases ipamDir containerID entries | Err _ => st_ret () end.

Definition cacheDirs : list string :=
  [FJoin [cf_CniCacheDir cniConf; "results"]; "/var/lib/cni/results"; "/opt/cni/cache/results"].
Fixpoint removeAll (paths : list string) : st W unit :=
  match paths with
  | [] => st_ret ()
  | p :: rest => let! _ := os_Remove p in removeAll rest
  end.
Fixpoint purgeCachePatterns (patterns : list string) : st W unit :=
  match patterns with
  | [] => st_ret ()
  | p :: rest =>
      let! matches := os_Glob p in
      let! _ := match matches with Ok l => removeAll l | Err _ => st_ret () end in
      purgeCachePatterns rest
  end.
Definition cachePatterns (containerID : string) : list string :=
  cacheDirs ≫= fun d => [FJoin [d; containerID]; FJoin [d; containerID +:+ "-*"]].

(** The markers of what was purged feed a log line only; the result is always nil. *)
Definition purgeCNIForContainer (containerID netnsPath networkName : string) : st W (option error) :=
  let! netnsPath := sanitizeDELNetns netnsPath in
  let! _ := (if negb (String.eqb networkName "") then
               let! _ := runCNIDel containerID netnsPath networkName in
               let! _ := sweepCNIMasqChain networkName containerID in
               purgeLeases containerID networkName
             else st_ret ()) in
  let! _ := purgeCachePatterns (cachePatterns containerID) in
  st_ret None.

(** *** Networks *)

Definition teardownSpaceCNI (networkName configPath : string) : st W unit :=
  if String.eqb networkName "" then st_ret ()
  else let! _ := TeardownNetwork (managerOf cniConf) networkName configPath in st_ret ().

Fixpoint teardownSpaces (realmName : string) (entries : list (string * bool)) : st W unit :=
  match entries with
  | [] => st_ret ()
  | (spaceName, isDir) :: rest =>
      if negb isDir then teardownSpaces realmName rest
      else
        match SpaceNetworkConfigPath RunPath realmName spaceName with
        | Err _ => teardownSpaces realmName rest
        | Ok confPath =>
            let! stat := os_Stat confPath in
            match stat with
            | Some _ => teardownSpaces realmName rest
            | None =>
                match BuildSpaceNetworkName realmName spaceName with
                | Err _ => teardownSpaces realmName rest
                | Ok networkName =>
                    let! _ := teardownSpaceCNI networkName confPath in
                    teardownSpaces realmName rest
                end
            end
        end
  end.
Definition teardownRealmCNI (realmName : string) : st W unit :=
  if String.eqb realmName "" then st_ret ()
  else
    let! entries := os_ReadDir (RealmMetadataDir RunPath realmName) in
    match entries with Err _ => st_ret () | Ok entries => teardownSpaces realmName entries end.

Fixpoint removeNamed (networkName cacheDir : string) (entries : list (string * bool)) : st W unit :=
  match entries with
  | [] => st_ret ()
  | (name, isDir) :: rest =>
      if isDir || negb (Contains name networkName) then removeNamed networkName cacheDir rest
      else let! _ := os_Remove (FJoin [cacheDir; name]) in removeNamed networkName cacheDir rest
  end.
Fixpoint purgeCacheDirs (networkName : string) (dirs : list string) : st W unit :=
  match dirs with
  | [] => st_ret ()
  | d :: rest =>
      let! entries := os_ReadDir d in
      let! _ := match entries with Ok entries => removeNamed networkName d entries | Err _ => st_ret () end in
      purgeCacheDirs networkName rest
  end.
Definition purgeCNIForNetwork (networkName : string) : st W (option error) :=
  if String.eqb networkName "" then st_ret None
  else
    let! _ := os_RemoveAll (FJoin [CNINetworksDir; networkName]) in
    let! _ := purgeCacheDirs networkName cacheDirs in
    st_ret None.

Definition realmLabelKey : string := "realm.kukeon.io".
Definition getSpaceNetworkName (space : Space) : result string :=
  let realmName := TrimSpace (spsp_RealmName (space_Spec space)) in
  let realmName := if String.eqb realmName "" then TrimSpace (map_index (sm_Labels (space_Metadata space)) realmLabelKey) else realmName in
  BuildSpaceNetworkName realmName (sm_Name (space_Metadata space)).

Definition buildRootCNINetworkName (realmName spaceName : string) : string :=
  match BuildSpaceNetworkName realmName spaceName with Ok n => n | Err _ => "" end.

End Cni.

(** ** Theorems: the conflist of a network *)

Section ConflistTheorems.
Context {W : Type} `{CniHost W}.

(** What was written is read back, and the JSON of the conflist decodes to itself. *)
Class ConflistLaws := {
  law_read_back : ∀ p d mode w w', os_WriteFile p d mode w = (w', None) → os_ReadFile p w' = (w', Ok d);
  law_json : ∀ name bridge subnet out, json_Encode (conflist name bridge subnet) = Ok out →
    json_Decode out = Ok (conflist name bridge subnet)
}.
Context `{!ConflistLaws}.

Lemma conflist_read_back m confPath networkName subnetCIDR w w' :
  confPath ≠ "" → networkName ≠ "" → WriteSpaceNetworkConfig confPath networkName subnetCIDR w = (w', None) →
  ReadBridgeName confPath w' = (w', Ok (SafeBridgeName networkName)) ∧
  String.length (SafeBridgeName networkName) ≤ maxBridgeNameLen ∧
  ReadSubnetCIDR confPath w' = (w', Ok (or_default subnetCIDR defaultSubnetCIDR)) ∧
  ∀ name, (ExistsNetworkConfig m name confPath w').2.1.1 = bool_decide (name = networkName).
Proof.
  intros Hp Hn Hw. unfold WriteSpaceNetworkConfig in Hw. unfold BuildDefaultConflist in Hw. cbn [nc_Name nc_BridgeName nc_SubnetCIDR NewCNINetworkConfigWithSubnet] in Hw.
  fold (or_default subnetCIDR defaultSubnetCIDR) in Hw.
  destruct (json_Encode _) as [out|e] eqn:Ej; [|done]. apply law_json in Ej. unfold st_bind in Hw.
  destruct (os_MkdirAll _ _ w) as [w1 [e|]]; [done|]. pose proof (law_read_back _ _ _ _ _ Hw) as Hr.
  apply String.eqb_neq in Hp. unfold ReadBridgeName, ReadSubnetCIDR, readBridgePlugin, ExistsNetworkConfig, decode_map, st_bind.
  rewrite Hp, Hr, Ej. split_and!; [done| |done|].
  - rewrite bridge_name_length. unfold maxBridgeNameLen. case_match; lia.
  - intros name. cbn. destruct (String.eqb_spec networkName name) as [->|E]; [by rewrite bool_decide_true|].
    by rewrite bool_decide_false.
Qed.

(** The conflist written for a space is understood by every reader of it: the network
    is found under its name and under no other, the bridge read back is the hashed name,
    which fits into an interface name, and the subnet is the one allocated. *)
Theorem space_conflist_roundtrip m confPath networkName subnetCIDR w w' :
  confPath ≠ "" → networkName ≠ "" → WriteSpaceNetworkConfig confPath networkName subnetCIDR w = (w', None) →
  ReadBridgeName confPath w' = (w', Ok (SafeBridgeName networkName)) ∧
  String.length (SafeBridgeName networkName) ≤ maxBridgeNameLen ∧
  ReadSubnetCIDR confPath w' = (w', Ok (or_default subnetCIDR defaultSubnetCIDR)) ∧
  ∀ name, (ExistsNetworkConfig m name confPath w').2.1.1 = bool_decide (name = networkName).
Proof. apply conflist_read_back. Qed.

End ConflistTheorems.

(** ** Theorems: the masquerade sweep *)

(** A rule of the nat table's POSTROUTING chain as iptables lists it: the target column,
    empty when the rule has none, and the columns after it, the protocol first. *)
Record NatRule := { nr_target : string; nr_rest : list string }.
Definition nr_words (r : NatRule) : list string := (if String.eqb (nr_target r) "" then [] else [nr_target r]) ++ nr_rest r.
Definition nr_wf (r : NatRule) : Prop := ∀ p rest, nr_rest r = p :: rest → HasPrefix p "CNI-" = false.
Definition jumps (chain : string) (r : NatRule) : bool := String.eqb (nr_target r) chain.

Definition listCmd : list string := ["-t"; "nat"; "-L"; "POSTROUTING"; "--line-numbers"; "-n"].
Definition deleteCmd (n : Z) : list string := ["-t"; "nat"; "-D"; "POSTROUTING"; Itoa n].

(** What iptables documents of these commands: the listing has two heading lines and then
    one line per rule, its number first; deleting by number removes that rule; a command
    that fails changes nothing, and flushing or removing a chain leaves POSTROUTING. *)
Class NatLaws (W : Type) `{CniHost W} := {
  nat_rules : W → list NatRule;
  nat_rules_wf : ∀ w, Forall nr_wf (nat_rules w);
  nat_list : ∀ w, let '(w', (out, e)) := iptables_run listCmd w in
    nat_rules w' = nat_rules w ∧
    (e = None → ∃ h1 h2 rows, split_on nl out = h1 :: h2 :: rows ++ [""] ∧
       take 2 (Fields h1) = ["Chain"; "POSTROUTING"] ∧ take 2 (Fields h2) = ["num"; "target"] ∧
       Fields <$> rows = imap (fun i r => Itoa (Z.of_nat i + 1) :: nr_words r) (nat_rules w));
  nat_delete : ∀ n w, let '(w', (out, e)) := iptables_run (deleteCmd n) w in
    match e with
    | Some _ => nat_rules w' = nat_rules w
    | None => ∃ i, n = (Z.of_nat i + 1)%Z ∧ i < length (nat_rules w) ∧ nat_rules w' = delete i (nat_rules w)
    end;
  nat_flush : ∀ chain w, nat_rules (iptables_run ["-t"; "nat"; "-F"; chain] w).1 = nat_rules w;
  nat_remove : ∀ chain w, nat_rules (iptables_run ["-t"; "nat"; "-X"; chain] w).1 = nat_rules w
}.
(** The lines of the table can be numbered. *)
Definition nat_small {W} `{NatLaws W} (w : W) : Prop := (Z.of_nat (length (nat_rules w)) < 9223372036854775807)%Z.

(** *** Numbers are read back *)

Lemma digits_val_pretty_go x s : digits_val 0 (pretty_N_go x s) = digits_val (Z.of_N x) s.
Proof.
  revert s. induction (N.lt_wf_0 x) as [x _ IH]; intros s.
  assert (x = 0 ∨ 0 < x)%N as [->|Hx] by lia; [by rewrite pretty_N_go_0|].
  rewrite pretty_N_go_step by done. rewrite IH by (by apply N.div_lt). cbn [digits_val].
  assert (Hd : digit_of (pretty_N_char (x `mod` 10)) = Some (Z.of_N (x `mod` 10))).
  { assert (Hm : (x `mod` 10 < 10)%N) by (apply N.mod_lt; lia). revert Hm. generalize (x `mod` 10)%N. intros d Hm.
    assert (d = 0 ∨ d = 1 ∨ d = 2 ∨ d = 3 ∨ d = 4 ∨ d = 5 ∨ d = 6 ∨ d = 7 ∨ d = 8 ∨ d = 9)%N as Hd by lia.
    by repeat (destruct Hd as [->|Hd]; [reflexivity|]); subst. }
  rewrite Hd. f_equal. rewrite N2Z.inj_div, N2Z.inj_mod. pose proof (Z.div_mod (Z.of_N x) 10). lia.
Qed.

Lemma digits_val_Itoa z : (0 ≤ z)%Z → digits_val 0 (Itoa z) = Some z ∧ Itoa z ≠ "".
Proof.
  intros Hz. unfold Itoa. destruct z as [|p|p]; [done| |lia]. change (pretty (Z.pos p)) with (pretty_N_go (N.pos p) "").
  assert (E : digits_val 0 (pretty_N_go (N.pos p) "") = Some (Z.pos p)) by by rewrite digits_val_pretty_go.
  split; [done|]. intros E0. rewrite E0 in E. done.
Qed.

Lemma Atoi_Itoa z : (0 ≤ z ≤ 9223372036854775807)%Z → Atoi (Itoa z) = Some z.
Proof.
  intros Hz. destruct (digits_val_Itoa z) as [Hd Hne]; [lia|]. unfold Atoi, magnitude. destruct (Itoa z) as [|c s]; [done|].
  destruct (Ascii.eqb_spec c "-"%char) as [->|]; [done|]. destruct (Ascii.eqb_spec c "+"%char) as [->|]; [done|].
  rewrite Hd. cbn [String.eqb mbind option_bind]. destruct ((-9223372036854775808 <=? z) && (z <=? 9223372036854775807))%Z eqn:E; [done|].
  apply andb_false_iff in E as [E|E]; apply Z.leb_gt in E; lia.
Qed.

(** *** The sweep *)

Section SweepTheorems.
Context {W : Type} `{CniHost W} `{!NatLaws W} `{HostConfig} (cniConf : Conf).
Implicit Types w : W.

(** The numbers of the rules that jump to the chain, the first rule having number [i + 1]. *)
Fixpoint jump_numbers (chain : string) (i : nat) (l : list NatRule) : list Z :=
  match l with
  | [] => []
  | r :: rest => (if jumps chain r then [Z.of_nat i + 1]%Z else []) ++ jump_numbers chain (S i) rest
  end.
Lemma jump_numbers_app chain i l1 l2 :
  jump_numbers chain i (l1 ++ l2) = jump_numbers chain i l1 ++ jump_numbers chain (i + length l1) l2.
Proof.
  revert i. induction l1 as [|r l1 IH]; intros i; cbn; [by rewrite Nat.add_0_r|].
  by rewrite IH, <-app_assoc, Nat.add_succ_r.
Qed.

Lemma chain_name_prefix networkName containerID : HasPrefix (cniMasqChainName networkName containerID) "CNI-" = true.
Proof. exact (HasPrefix_self "CNI-" (String.substring 0 24 _)). Qed.

Lemma jumpLine_words chain num r line :
  Fields line = num :: nr_words r → HasPrefix chain "CNI-" = true → nr_wf r →
  jumpLine chain line = if jumps chain r then match Atoi num with Some n => [n] | None => [] end else [].
Proof.
  intros Hf Hc Hwf. unfold jumpLine. rewrite Hf. unfold nr_words, jumps.
  destruct (String.eqb_spec (nr_target r) "") as [E|]; [|done]. rewrite E. cbn [app].
  assert (Hne : String.eqb "" chain = false) by (destruct chain; done). rewrite Hne.
  destruct (nr_rest r) as [|p rest] eqn:Er; [done|]. specialize (Hwf p rest Er).
  destruct (String.eqb_spec p chain) as [->|]; [congruence|done].
Qed.

Lemma listed_rows chain rows i rules :
  HasPrefix chain "CNI-" = true → Forall nr_wf rules → (Z.of_nat (i + length rules) < 9223372036854775807)%Z →
  Fields <$> rows = imap (fun j r => Itoa (Z.of_nat (i + j) + 1) :: nr_words r) rules →
  rows ≫= jumpLine chain = jump_numbers chain i rules.
Proof.
  intros Hc. revert i rows. induction rules as [|r rules IH]; intros i rows Hwf Hlt Hrows; destruct rows as [|line rows]; try done.
  cbn in Hrows. injection Hrows as Hline Hrows. apply Forall_cons_1 in Hwf as [Hr Hwf]. cbn in Hlt.
  rewrite bind_cons. rewrite (jumpLine_words chain _ r line Hline Hc Hr), Nat.add_0_r, Atoi_Itoa by lia.
  cbn [jump_numbers]. f_equal. apply IH; [done|lia|].
  rewrite Hrows. apply imap_ext. intros j x _. cbn. by rewrite Nat.add_succ_r.
Qed.

(** The numbers found are those of the rules that jump to the chain. *)
Lemma postroutingJumpLines_spec chain w : HasPrefix chain "CNI-" = true → nat_small w →
  let '(w', lines) := postroutingJumpLines chain w in
  nat_rules w' = nat_rules w ∧
  lines = if (iptables_run listCmd w).2.2 then [] else jump_numbers chain 0 (nat_rules w).
Proof.
  intros Hc Hsm. unfold postroutingJumpLines, st_bind. fold listCmd. pose proof (nat_list w) as Hl.
  destruct (iptables_run listCmd w) as [w' [out e]]. destruct Hl as [Hr Ho]. split; [done|]. cbn [snd]. destruct e; [done|].
  destruct (Ho eq_refl) as (h1 & h2 & rows & -> & F1 & F2 & Frows). rewrite !bind_cons, bind_app.
  assert (Hh : ∀ h a b, take 2 (Fields h) = [a; b] → b ≠ chain → jumpLine chain h = []).
  { intros h a b Fh Hb. unfold jumpLine. destruct (Fields h) as [|? [|? ?]]; try done. injection Fh as -> ->.
    by rewrite (proj2 (String.eqb_neq b chain)). }
  rewrite (Hh h1 _ _ F1), (Hh h2 _ _ F2) by (intros <-; done). cbn [app mbind list_bind]. rewrite app_nil_r.
  apply listed_rows; [done|apply nat_rules_wf|exact Hsm|exact Frows].
Qed.

Notation kept chain := (List.filter (fun r => negb (jumps chain r))).

(** Deleting by number from the highest down: [tail] is what lies behind the rules still
    to be looked at.  A deletion that fails leaves its rule and nothing else. *)
Lemma deleteJumps_spec chain l tail w swept :
  nat_rules w = l ++ tail →
  let w' := (deleteJumps (reverse (jump_numbers chain 0 l)) swept w).1 in
  ∃ l', nat_rules w' = l' ++ tail ∧ kept chain l' = kept chain l ∧
    ((∀ n w0, (1 ≤ n ≤ Z.of_nat (length (nat_rules w0)))%Z → (iptables_run (deleteCmd n) w0).2.2 = None) → l' = kept chain l).
Proof.
  revert tail w swept. induction l as [|r l IH] using rev_ind; intros tail w swept Hw; [by exists []|].
  rewrite jump_numbers_app. cbn [jump_numbers]. rewrite app_nil_r, reverse_app. rewrite !List.filter_app. cbn [List.filter].
  unfold jumps at 1. fold (jumps chain r). destruct (jumps chain r) eqn:Ej; cbn [negb app].
  - rewrite reverse_singleton. cbn [app deleteJumps]. unfold st_bind. fold (deleteCmd (Z.of_nat (0 + length l) + 1)).
    pose proof (nat_delete (Z.of_nat (0 + length l) + 1) w) as Hd.
    assert (Hok : (∀ n w0, (1 ≤ n ≤ Z.of_nat (length (nat_rules w0)))%Z → (iptables_run (deleteCmd n) w0).2.2 = None) →
      (iptables_run (deleteCmd (Z.of_nat (0 + length l) + 1)) w).2.2 = None).
    { intros Hall. apply Hall. rewrite Hw, !length_app. cbn. lia. }
    destruct (iptables_run (deleteCmd _) w) as [w1 [out [e|]]].
    + rewrite <-app_assoc in Hw. destruct (IH ([r] ++ tail) w1 swept) as (l' & E1 & E2 & E3); [congruence|].
      exists (l' ++ [r]). split_and!; [by rewrite <-app_assoc| |intros Hall; by specialize (Hok Hall)].
      rewrite List.filter_app, E2. cbn. by rewrite Ej.
    + destruct Hd as (i & Hn & Hi & Hr). assert (i = length l) as -> by lia.
      destruct (IH tail w1 true) as (l' & E1 & E2 & E3).
      { rewrite Hr, Hw, <-app_assoc. exact (delete_middle l tail r). }
      exists l'. split_and!; [done|by rewrite app_nil_r|intros Hall; rewrite app_nil_r; auto].
  - cbn [reverse app]. rewrite <-app_assoc in Hw. destruct (IH ([r] ++ tail) w swept Hw) as (l' & E1 & E2 & E3).
    exists (l' ++ [r]). split_and!; [by rewrite <-app_assoc| |].
    + rewrite List.filter_app, E2. cbn. by rewrite Ej.
    + intros Hall. by rewrite (E3 Hall).
Qed.

(** Sweeping the masquerade chain of a container takes out of POSTROUTING only rules
    that jump to that chain, whichever commands fail, although rules are addressed by
    numbers that shift with every deletion; when iptables answers, exactly those rules are
    gone and every other rule is in its place. *)
Theorem masq_sweep_exact networkName containerID w :
  let chain := cniMasqChainName networkName containerID in
  let w' := (sweepCNIMasqChain networkName containerID w).1 in
  nat_small w →
  kept chain (nat_rules w') = kept chain (nat_rules w) ∧
  ((iptables_run listCmd w).2.2 = None →
   (∀ n w0, (1 ≤ n ≤ Z.of_nat (length (nat_rules w0)))%Z → (iptables_run (deleteCmd n) w0).2.2 = None) →
   nat_rules w' = kept chain (nat_rules w)).
Proof.
  intros chain w' Hsm. unfold w', sweepCNIMasqChain. fold chain. unfold st_bind.
  pose proof (postroutingJumpLines_spec chain w (chain_name_prefix _ _) Hsm) as Hl.
  destruct (postroutingJumpLines chain w) as [w1 lines]. destruct Hl as [Hr Hl].
  assert (Hs : ∃ rest, kept chain rest = kept chain (nat_rules w) ∧ nat_rules (deleteJumps (reverse lines) false w1).1 = rest ∧
    ((iptables_run listCmd w).2.2 = None → (∀ n w0, (1 ≤ n ≤ Z.of_nat (length (nat_rules w0)))%Z → (iptables_run (deleteCmd n) w0).2.2 = None) →
     rest = kept chain (nat_rules w))).
  { destruct (deleteJumps_spec chain (nat_rules w) [] w1 false) as (l' & E1 & E2 & E3); [by rewrite app_nil_r|].
    rewrite app_nil_r in E1. destruct (iptables_run listCmd w).2.2; subst lines; [by exists (nat_rules w1); rewrite Hr|].
    exists l'. auto. }
  destruct Hs as (rest & Hk & Er & Hex). destruct (deleteJumps (reverse lines) false w1) as [w2 swept]. cbn [fst] in Er.
  pose proof (nat_flush chain w2) as Hf. destruct (iptables_run ["-t"; "nat"; "-F"; chain] w2) as [w3 f]. cbn [fst] in Hf.
  pose proof (nat_remove chain w3) as Hx. destruct (iptables_run ["-t"; "nat"; "-X"; chain] w3) as [w4 [out e]]. cbn in Hx |- *.
  rewrite Hx, Hf, Er. auto.
Qed.
End SweepTheorems.

(** ** What a clean-up may touch

    A clean-up calls the host's file, iptables and libcni operations and nothing else: a
    preorder that these respect is respected by the clean-up, when the detaches it runs are
    limited to the namespaces [P] allows. *)

Class CniRespects {W : Type} `{CniHost W} (R : W → W → Prop) (P : string → Prop) := {
  cr_preorder :: PreOrder R;
  cr_conf : ∀ p, respects R (cni_ConfListFromFile p);
  cr_detach : ∀ c rt, P (rt_NetNS rt) → respects R (cni_DelNetworkList c rt);
  cr_stat : ∀ p, respects R (os_Stat p);
  cr_readFile : ∀ p, respects R (os_ReadFile p);
  cr_remove : ∀ p, respects R (os_Remove p);
  cr_readDir : ∀ p, respects R (os_ReadDir p);
  cr_glob : ∀ p, respects R (os_Glob p);
  cr_iptables : ∀ a, respects R (iptables_run a);
  cr_sanitize : ∀ p w, R w (sanitizeDELNetns p w).1 ∧ P (sanitizeDELNetns p w).2
}.

Section CniFrame.
Context {W : Type} `{CniHost W} (R : W → W → Prop) (P : string → Prop) `{!CniRespects R P} `{HostConfig} (cniConf : Conf).

#[local] Hint Resolve cr_conf cr_stat cr_readFile cr_remove cr_readDir cr_glob cr_iptables : frame.

Lemma LoadNetworkConfigList_frame m p : respects R (LoadNetworkConfigList m p).
Proof. unfold LoadNetworkConfigList. solve_frame. Qed.
Lemma DelContainerFromNetwork_frame m containerID netnsPath :
  P netnsPath → respects R (DelContainerFromNetwork m containerID netnsPath).
Proof.
  intros Hn. unfold DelContainerFromNetwork. destruct (mg_netConf m) as [c|]; [|solve_frame].
  apply respects_bind; [apply _|by apply cr_detach|solve_frame].
Qed.
#[local] Hint Resolve LoadNetworkConfigList_frame DelContainerFromNetwork_frame : frame.

Lemma conflistInRealm_frame n r entries : respects R (conflistInRealm n r entries).
Proof. induction entries as [|[s d] l IH]; cbn; solve_frame. Qed.
#[local] Hint Resolve conflistInRealm_frame : frame.
Lemma conflistInRealms_frame n entries : respects R (conflistInRealms n entries).
Proof. induction entries as [|[s d] l IH]; cbn; solve_frame. Qed.
#[local] Hint Resolve conflistInRealms_frame : frame.
Lemma runCNIDel_frame containerID netnsPath networkName :
  P netnsPath → respects R (runCNIDel cniConf containerID netnsPath networkName).
Proof. intros Hn. unfold runCNIDel, findCNIConfigPath, findSpaceConflistByNetworkName. solve_frame. Qed.
Lemma deleteJumps_frame lines swept : respects R (deleteJumps lines swept).
Proof. revert swept. induction lines as [|n l IH]; intros swept; cbn; solve_frame. Qed.
#[local] Hint Resolve runCNIDel_frame deleteJumps_frame : frame.
Lemma sweep_frame n c : respects R (sweepCNIMasqChain n c).
Proof. unfold sweepCNIMasqChain, postroutingJumpLines. solve_frame. Qed.
Lemma removeLeases_frame d c entries : respects R (removeLeases d c entries).
Proof. induction entries as [|[s b] l IH]; cbn; solve_frame. Qed.
Lemma removeAll_frame l : respects R (removeAll l).
Proof. induction l as [|p l IH]; cbn; solve_frame. Qed.
#[local] Hint Resolve sweep_frame removeLeases_frame removeAll_frame : frame.
Lemma purgeCachePatterns_frame l : respects R (purgeCachePatterns l).
Proof. induction l as [|p l IH]; cbn; solve_frame. Qed.
#[local] Hint Resolve purgeCachePatterns_frame : frame.

(** A step that first resolves the namespace to detach from. *)
Lemma sanitize_frame {A} netnsPath (k : string → st W A) :
  (∀ p, P p → respects R (k p)) → respects R (let! p := sanitizeDELNetns netnsPath in k p).
Proof.
  intros Hk w. unfold st_bind. destruct (cr_sanitize netnsPath w) as [HR HP]. destruct (sanitizeDELNetns netnsPath w) as [w1 p].
  etrans; [exact HR|by apply Hk].
Qed.
Lemma purgeCNIForContainer_frame containerID netnsPath networkName :
  respects R (purgeCNIForContainer cniConf containerID netnsPath networkName).
Proof. unfold purgeCNIForContainer, purgeLeases. apply sanitize_frame. intros p Hp. solve_frame. Qed.
End CniFrame.

(** ** No detach in the daemon's own network namespace *)

(** [detached] records the detach calls in order; only a detach adds to it.  The namespace
    behind a path does not change while one clean-up runs. *)
Class DetachLaws (W : Type) `{CniHost W} := {
  detached : W → list RuntimeConf;
  netns_of : string → result (Z * Z);
  law_netns : ∀ p w, sys_Stat p w = (w, netns_of p);
  law_detach : ∀ c rt w, detached (cni_DelNetworkList c rt w).1 = detached w ++ [rt];
  quiet_conf : ∀ p w, detached (cni_ConfListFromFile p w).1 = detached w;
  quiet_stat : ∀ p w, detached (os_Stat p w).1 = detached w;
  quiet_readFile : ∀ p w, detached (os_ReadFile p w).1 = detached w;
  quiet_remove : ∀ p w, detached (os_Remove p w).1 = detached w;
  quiet_readDir : ∀ p w, detached (os_ReadDir p w).1 = detached w;
  quiet_glob : ∀ p w, detached (os_Glob p w).1 = detached w;
  quiet_iptables : ∀ a w, detached (iptables_run a w).1 = detached w
}.

Section DetachTheorems.
Context {W : Type} `{CniHost W} `{!DetachLaws W}.
Implicit Types w : W.

Definition own_netns (p : string) : Prop := p ≠ "" ∧ ∃ i, netns_of p = Ok i ∧ netns_of selfNetns = Ok i.
Definition foreign_netns (p : string) : Prop := ¬ own_netns p.
(** Every detach in between was aimed elsewhere. *)
Definition spares_own (w w' : W) : Prop :=
  ∃ l, detached w' = detached w ++ l ∧ Forall (fun rt => foreign_netns (rt_NetNS rt)) l.

Lemma quiet_spares {A} (m : st W A) : (∀ w, detached (m w).1 = detached w) → respects spares_own m.
Proof. intros Hm w. exists []. by rewrite app_nil_r, Hm. Qed.

Lemma sanitized netnsPath w : ∃ p, sanitizeDELNetns netnsPath w = (w, p) ∧ foreign_netns p.
Proof.
  unfold sanitizeDELNetns, delNetnsIsRunnerOwn, st_bind, foreign_netns, own_netns.
  destruct (String.eqb_spec netnsPath "") as [->|Hne]; [exists ""; split; [done|tauto]|]. rewrite law_netns.
  destruct (netns_of netnsPath) as [t|e] eqn:Et; [rewrite law_netns|].
  - destruct (netns_of selfNetns) as [s|e] eqn:Es; cbn; [case_bool_decide as Ec; subst|].
    + exists "". split; [done|tauto].
    + exists netnsPath. split; [done|]. intros (_ & i & Hi & Hs). congruence.
    + exists netnsPath. split; [done|]. intros (_ & i & _ & Hs). congruence.
  - exists netnsPath. split; [done|]. intros (_ & i & Hi & _). congruence.
Qed.

#[export] Instance spares_own_respects : CniRespects spares_own foreign_netns.
Proof.
  split; try by (intros; apply quiet_spares; auto using quiet_conf, quiet_stat, quiet_readFile, quiet_remove, quiet_readDir, quiet_glob, quiet_iptables).
  - split; [by intros w; exists []; rewrite app_nil_r|]. intros w1 w2 w3 (l1 & E1 & F1) (l2 & E2 & F2).
    exists (l1 ++ l2). rewrite E2, E1, app_assoc. split; [done|by apply Forall_app].
  - intros c rt Hp w. exists [rt]. rewrite law_detach. split; [done|]. by repeat constructor.
  - intros p w. destruct (sanitized p w) as (p' & -> & Hp). split; [|done]. exists []. by rewrite app_nil_r.
Qed.
End DetachTheorems.

(** ** Theorems: leases *)

(** host-local keeps a lease as a file with the container ID and the interface. *)
Definition lease (id : string) : string := id +:+ String (ascii_of_nat 13) (String nl "eth0").

Lemma after_prefix_spec p s r : after_prefix p s = Some r → s = p +:+ r.
Proof.
  revert s. induction p as [|a p IH]; intros s E; cbn in E; [by injection E as ->|].
  destruct s as [|b s]; [done|]. destruct (Ascii.eqb_spec a b) as [->|]; [|done]. by rewrite (IH s E).
Qed.
Lemma token_match_split id edge s :
  token_match id edge s = true → ∃ a b, s = a +:+ id +:+ b ∧ starts_nonword b = true.
Proof.
  revert edge. induction s as [|c s IH]; intros edge; cbn [token_match]; intros Hm; apply orb_true_iff in Hm as [Hm|Hm]; try done.
  1,2: apply andb_true_iff in Hm as [_ Hm]; destruct (after_prefix id _) as [rest|] eqn:E; [|done];
    apply after_prefix_spec in E; exists "", rest; by split.
  destruct (IH _ Hm) as (a & b & -> & Hb). by exists (String c a), b.
Qed.

(** The parts of a containerd ID, none of which has an underscore, are found again. *)
Lemma underscore_parts a1 b1 c1 d1 a2 b2 c2 d2 :
  avoids underscore a1 = true → avoids underscore b1 = true → avoids underscore c1 = true →
  avoids underscore a2 = true → avoids underscore b2 = true → avoids underscore c2 = true →
  a1 +:+ "_" +:+ b1 +:+ "_" +:+ c1 +:+ "_" +:+ d1 = a2 +:+ "_" +:+ b2 +:+ "_" +:+ c2 +:+ "_" +:+ d2 →
  a1 = a2 ∧ b1 = b2 ∧ c1 = c2 ∧ d1 = d2.
Proof.
  intros A1 B1 C1 A2 B2 C2 E. apply (avoids_split underscore) in E as [-> E]; [|done..].
  apply (avoids_split underscore) in E as [-> E]; [|done..]. by apply (avoids_split underscore) in E as [-> ->].
Qed.

Fixpoint count_char (c : ascii) (s : string) : nat :=
  match s with EmptyString => 0 | String d s' => (if Ascii.eqb d c then 1 else 0) + count_char c s' end.
Lemma count_char_app c a b : count_char c (a +:+ b) = count_char c a + count_char c b.
Proof. induction a as [|d a IH]; [done|]. change (String d a +:+ b) with (String d (a +:+ b)). cbn. rewrite IH. lia. Qed.
Lemma count_avoids c s : count_char c s = 0 ↔ avoids c s = true.
Proof. induction s as [|d s IH]; [done|]. cbn. rewrite andb_true_iff, <-IH. destruct (Ascii.eqb d c); cbn; split; lia || naive_solver lia. Qed.

Lemma trim_split s : ∃ a b, s = a +:+ TrimSpace s +:+ b.
Proof.
  assert (Hl : ∃ a, s = a +:+ ltrim s).
  { induction s as [|c s [a E]]; [by exists ""|]. cbn. destruct (is_space c); [|by exists ""]. exists (String c a).
    change (String c a +:+ ltrim s) with (String c (a +:+ ltrim s)). by rewrite <-E. }
  assert (Hr : ∀ t, ∃ b, t = rtrim t +:+ b).
  { induction t as [|c t [b E]]; [by exists ""|]. cbn. destruct (rtrim t) as [|d u] eqn:Et.
    - destruct (is_space c); [by exists (String c t)|]. by exists t.
    - exists b. change (String c (String d u) +:+ b) with (String c (String d u +:+ b)). by rewrite <-E. }
  destruct Hl as [a Ha]. destruct (Hr (ltrim s)) as [b Hb]. exists a, b. unfold TrimSpace. by rewrite <-Hb.
Qed.

Lemma after_prefix_self p r : after_prefix p (p +:+ r) = Some r.
Proof. induction p as [|a p IH]; [done|]. change (String a p +:+ r) with (String a (p +:+ r)). cbn. by rewrite Ascii.eqb_refl. Qed.

(** Releasing the lease of a cell's root container touches no lease of another cell of
    the same space: the search for the container's ID in a lease file matches exactly the
    lease of that container, although IDs are matched as words inside the text and names
    may contain dashes, dots and blanks. *)
Theorem lease_match_exact space stack cell stack' cell' :
  let id := space +:+ "_" +:+ stack +:+ "_" +:+ cell +:+ "_root" in
  let id' := space +:+ "_" +:+ stack' +:+ "_" +:+ cell' +:+ "_root" in
  Forall (fun n => avoids underscore n = true) [space; stack; cell; stack'; cell'] →
  containsExactContainerID (lease id') id = bool_decide (id = id').
Proof.
  intros id id' Hn. rewrite !Forall_cons in Hn. destruct Hn as (N1 & N2 & N3 & N4 & N5 & _).
  assert (Hne : String.eqb id "" = false) by (unfold id; destruct space; done).
  destruct (containsExactContainerID (lease id') id) eqn:E; symmetry.
  - apply bool_decide_eq_true. unfold containsExactContainerID in E. rewrite Hne in E.
    assert (Hs : ∃ a b, lease id' = a +:+ id +:+ b).
    { apply orb_true_iff in E as [<-%String.eqb_eq|E]; [apply trim_split|].
      destruct (token_match_split _ _ _ E) as (a & b & Hs & _). eauto. }
    destruct Hs as (a & b & Hs). pose proof (f_equal (count_char underscore) Hs) as Hc.
    unfold lease, id, id' in Hs, Hc. rewrite !count_char_app in Hc.
    change (count_char underscore "_") with 1 in Hc. change (count_char underscore "_root") with 1 in Hc.
    change (count_char underscore (String _ _)) with 0 in Hc.
    assert (Z5 : ∀ n, avoids underscore n = true → count_char underscore n = 0) by (intros; by apply count_avoids).
    rewrite !(Z5 _ N1), (Z5 _ N2), (Z5 _ N3), (Z5 _ N4), (Z5 _ N5) in Hc.
    assert (Ha : avoids underscore a = true) by (apply count_avoids; lia).
    rewrite !string_app_assoc in Hs.
    change ("_root" +:+ ?x) with ("_" +:+ ("root" +:+ x)) in Hs.
    rewrite <-(string_app_assoc a space) in Hs. symmetry in Hs.
    apply underscore_parts in Hs as (Ea & -> & -> & _); [done|rewrite avoids_app; by rewrite Ha| done..].
  - apply bool_decide_eq_false. intros Heq. rewrite <-Heq in E. unfold containsExactContainerID in E. rewrite Hne in E.
    apply orb_false_iff in E as [_ E]. unfold lease in E. revert E. pose proof (after_prefix_self id (String (ascii_of_nat 13) (String nl "eth0"))) as Hp.
    destruct (id +:+ _) as [|c t]; cbn [token_match]; by rewrite Hp.
Qed.

(** ** A concrete host *)

(** A word of a listing: not empty and without blanks. *)
Fixpoint no_blanks (s : string) : bool := match s with EmptyString => true | String c s' => negb (is_space c) && no_blanks s' end.
Lemma fields_from_word word w rest : no_blanks w = true → word +:+ w ≠ "" →
  fields_from word (w +:+ String " " rest) = (word +:+ w) :: Fields rest.
Proof.
  revert word. induction w as [|c w IH]; intros word Hb Hne.
  - rewrite string_app_nil_r in Hne |- *. change ("" +:+ String " " rest) with (String " " rest). cbn.
    by rewrite (proj2 (String.eqb_neq word "")).
  - change (String c w +:+ String " " rest) with (String c (w +:+ String " " rest)). cbn in Hb |- *.
    apply andb_true_iff in Hb as [Hc Hb]. rewrite (proj1 (negb_true_iff _) Hc).
    assert (Ew : (word +:+ String c "") +:+ w = word +:+ String c w) by by rewrite string_app_assoc.
    rewrite IH; [by rewrite Ew|done|by rewrite Ew].
Qed.
Lemma Fields_cons w rest : no_blanks w = true → w ≠ "" → Fields (w +:+ " " +:+ rest) = w :: Fields rest.
Proof. intros Hb Hne. by apply (fields_from_word "" w rest). Qed.
Lemma digits_no_blanks s acc z : digits_val acc s = Some z → no_blanks s = true ∧ avoids nl s = true.
Proof.
  revert acc. induction s as [|c s IH]; intros acc; cbn; [done|]. destruct (digit_of c) as [d|] eqn:Ed; [|done].
  intros [H1 H2]%IH. rewrite H1, H2. unfold digit_of in Ed. unfold is_space, nl.
  destruct ((48 <=? Z.of_nat (nat_of_ascii c)) && (Z.of_nat (nat_of_ascii c) <=? 57))%Z eqn:Er; [|done].
  apply andb_true_iff in Er as [L%Z.leb_le _]. assert (Hc : c ≠ ascii_of_nat 10) by (intros ->; change (48 ≤ 10)%Z in L; lia).
  apply Ascii.eqb_neq in Hc. rewrite Hc. split; [|done].
  assert (Hge : 48 ≤ nat_of_ascii c) by lia. revert Hge. generalize (nat_of_ascii c). intros n Hn.
  by do 33 (destruct n as [|n]; [lia|]).
Qed.

(** The nat table holds, per rule, whether it jumps to the chain of one container. *)
Record Tnet := { tn_files : gmap string string; tn_jumps : list bool }.
Definition tn_chain : string := Eval vm_compute in cniMasqChainName "r-s" "s_t_web_root".
Definition tn_target (b : bool) : string := if b then tn_chain else "MASQUERADE".
Definition tn_rule (b : bool) : NatRule := {| nr_target := tn_target b; nr_rest := ["all"; "--"] |}.
Definition tn_row (i : nat) (b : bool) : string := Itoa (Z.of_nat i + 1) +:+ " " +:+ tn_target b +:+ " " +:+ "all --".
Definition nl_string : string := String nl "".
Lemma nl_string_app s : nl_string +:+ s = String nl s.
Proof. reflexivity. Qed.
Definition tn_listing (l : list bool) : string :=
  "Chain POSTROUTING (policy ACCEPT)" +:+ nl_string +:+ "num target prot opt" +:+ nl_string
  +:+ foldr (fun row acc => row +:+ nl_string +:+ acc) "" (imap tn_row l).
Definition tn_find (text : string) (l : list bool) : option nat :=
  find_first (fun i => String.eqb text (Itoa (Z.of_nat i + 1))) (seq 0 (length l)).
Definition tn_iptables (a : list string) : st Tnet (string * option error) := fun w =>
  if bool_decide (a = listCmd) then (w, (tn_listing (tn_jumps w), None))
  else match a with
       | ["-t"; "nat"; "-D"; "POSTROUTING"; text] =>
           match tn_find text (tn_jumps w) with
           | Some i => ({| tn_files := tn_files w; tn_jumps := delete i (tn_jumps w) |}, ("", None))
           | None => (w, ("", Some (EOpaque "iptables: Index of deletion too big.")))
           end
       | _ => (w, ("", None))
       end.
#[export] Instance tn_Cni : CniHost Tnet := {|
  NetConf := unit; CniResult := unit; os_Stat := fun _ => st_ret None;
  os_ReadFile := fun p w => (w, match tn_files w !! p with Some d => Ok d | None => Err (EOpaque "no such file") end);
  os_WriteFile := fun p d _ w => ({| tn_files := <[p := d]> (tn_files w); tn_jumps := tn_jumps w |}, None);
  os_Remove := fun _ => st_ret None; os_RemoveAll := fun _ => st_ret None; os_MkdirAll := fun _ _ => st_ret None;
  os_ReadDir := fun _ => st_ret (Ok []); os_Glob := fun _ => st_ret (Ok []); os_NotExist := fun _ => true;
  sys_Stat := fun _ => st_ret (Ok (4, 1)%Z);
  json_Decode := fun s => match split_on nl s with [a; b; c] => Ok (conflist a b c) | _ => Err (EOpaque "bad") end;
  json_Encode := fun j => match j with
    | JObject [_; (_, JString name); (_, JArray [JObject [_; (_, JString bridge); _; _; (_, JObject [_; (_, JArray [JArray [JObject [(_, JString subnet)]]]); _])]; _])] =>
        if avoids nl name && avoids nl bridge && avoids nl subnet then Ok (name +:+ nl_string +:+ bridge +:+ nl_string +:+ subnet)
        else Err (EOpaque "unsupported")
    | _ => Err (EOpaque "unsupported") end;
  json_DecodeBridge := fun _ => Err (EOpaque "unsupported"); err_Text := fun _ => "";
  iptables_run := tn_iptables; ip_run := fun _ => st_ret ("", None);
  cni_ConfListFromFile := fun _ => st_ret (Ok ()); net_Name := fun _ => ""; net_Plugins := fun _ => [];
  cni_AddNetworkList := fun _ _ => st_ret (Ok ()); cni_DelNetworkList := fun _ _ => st_ret None;
  cni_CachedResult := fun _ _ => st_ret (Ok None); result_IPs := fun _ => Ok [] |}.

#[export] Instance tn_ConflistLaws : ConflistLaws (W := Tnet).
Proof.
  split.
  - intros p d mode w w' [= <-]. cbn. by rewrite lookup_insert_eq.
  - intros name bridge subnet out. cbn. destruct (avoids nl name && avoids nl bridge && avoids nl subnet) eqn:E; [|done].
    intros [= <-]. apply andb_true_iff in E as [[H1 H2]%andb_true_iff H3].
    rewrite !nl_string_app, split_on_app, split_on_app, !split_on_avoids by done. done.
Qed.

Lemma tn_row_fields i b : Fields (tn_row i b) = Itoa (Z.of_nat i + 1) :: nr_words (tn_rule b).
Proof.
  unfold tn_row. destruct (digits_val_Itoa (Z.of_nat i + 1)) as [Hd Hne]; [lia|]. apply digits_no_blanks in Hd as [Hb _].
  rewrite Fields_cons by done. destruct b; by vm_compute.
Qed.
Lemma tn_rows_lines i l : split_on nl (foldr (fun row acc => row +:+ nl_string +:+ acc) "" (imap (fun j => tn_row (i + j)) l)) = imap (fun j => tn_row (i + j)) l ++ [""].
Proof.
  revert i. induction l as [|b l IH]; intros i; [done|]. rewrite imap_cons, Nat.add_0_r. cbn [foldr].
  rewrite !nl_string_app, split_on_app.
  assert (Ha : avoids nl (tn_row i b) = true).
  { unfold tn_row. destruct (digits_val_Itoa (Z.of_nat i + 1)) as [Hd _]; [lia|]. apply digits_no_blanks in Hd as [_ Hd].
    rewrite avoids_app, Hd. by destruct b. }
  rewrite (split_on_avoids nl _ Ha). cbn [app]. f_equal.
  assert (Ei : imap ((λ j, tn_row (i + j)) ∘ S) l = imap (fun j => tn_row (S i + j)) l).
  { apply imap_ext. intros j x _. cbn. by rewrite Nat.add_succ_r. }
  rewrite Ei. apply IH.
Qed.
Lemma tn_find_spec n l : match tn_find (Itoa n) l with
  | Some i => n = (Z.of_nat i + 1)%Z ∧ i < length l
  | None => ¬ (1 ≤ n ≤ Z.of_nat (length l))%Z end.
Proof.
  unfold tn_find, find_first. destruct (List.find _ _) as [i|] eqn:E.
  - apply List.find_some in E as [Hi%List.in_seq E%String.eqb_eq]. unfold Itoa in E. apply (inj pretty) in E. split; [done|lia].
  - intros Hn.
    assert (Hin : List.In (Z.to_nat (n - 1)) (seq 0 (length l))) by (apply List.in_seq; lia).
    apply (List.find_none _ _ E) in Hin. replace (Z.of_nat (Z.to_nat (n - 1)) + 1)%Z with n in Hin by lia.
    by rewrite String.eqb_refl in Hin.
Qed.
#[export] Instance tn_NatLaws : NatLaws Tnet.
Proof.
  refine {| nat_rules := fun w => tn_rule <$> tn_jumps w |}.
  - intros w. apply Forall_fmap, Forall_true. intros b p rest [= <- <-]. done.
  - intros w. cbn. unfold tn_iptables. rewrite bool_decide_true by done. split; [done|]. intros _.
    exists "Chain POSTROUTING (policy ACCEPT)", "num target prot opt", (imap tn_row (tn_jumps w)). split_and!; [|done|done|].
    + unfold tn_listing. rewrite !nl_string_app, !split_on_app. cbn [app].
      f_equal. f_equal. exact (tn_rows_lines 0 (tn_jumps w)).
    + rewrite fmap_imap, imap_fmap. apply imap_ext. intros i b _. cbn. apply tn_row_fields.
  - intros n w. cbn. unfold tn_iptables. rewrite bool_decide_false by done. cbn. pose proof (tn_find_spec n (tn_jumps w)) as Hf.
    destruct (tn_find (Itoa n) (tn_jumps w)) as [i|]; [|done]. destruct Hf as [-> Hi]. exists i. rewrite length_fmap. cbn.
    split_and!; [done|done|]. apply list_fmap_delete.
  - intros chain w. cbn. unfold tn_iptables. by rewrite bool_decide_false.
  - intros chain w. cbn. unfold tn_iptables. by rewrite bool_decide_false.
Defined.

Lemma tn_chain_name : cniMasqChainName "r-s" "s_t_web_root" = tn_chain.
Proof. vm_compute. reflexivity. Qed.
Definition tn_sample : Tnet := {| tn_files := ∅; tn_jumps := [false; true; true; false; true] |}.
Lemma masq_sweep_exact_witness :
  nat_rules (sweepCNIMasqChain "r-s" "s_t_web_root" tn_sample).1 = tn_rule <$> [false; false].
Proof.
  assert (Hsm : nat_small tn_sample) by reflexivity.
  pose proof (proj2 (masq_sweep_exact "r-s" "s_t_web_root" tn_sample Hsm)) as Hs. rewrite Hs; clear Hs.
  - rewrite tn_chain_name. reflexivity.
  - reflexivity.
  - intros n w0 Hn. cbn in Hn |- *. unfold tn_iptables. rewrite bool_decide_false by done. cbn. rewrite length_fmap in Hn.
    pose proof (tn_find_spec n (tn_jumps w0)) as Hf. by destruct (tn_find (Itoa n) (tn_jumps w0)).
Defined.

Lemma space_conflist_roundtrip_witness :
  let w := {| tn_files := ∅; tn_jumps := [] |} in
  let w' := (WriteSpaceNetworkConfig "/run/kukeon/data/r/s/network.conflist" "r-s" "10.88.1.0/24" w).1 in
  ReadSubnetCIDR "/run/kukeon/data/r/s/network.conflist" w' = (w', Ok "10.88.1.0/24").
Proof.
  intros w w'. destruct (space_conflist_roundtrip (NewManager "" "" "") "/run/kukeon/data/r/s/network.conflist" "r-s" "10.88.1.0/24" w w')
    as (_ & _ & Hr & _); [done|done|vm_compute; reflexivity|exact Hr].
Defined.

Lemma lease_match_exact_witness :
  containsExactContainerID (lease "dev_apps_web-1_root") "dev_apps_web_root" = false ∧
  containsExactContainerID (lease "dev_apps_web_root") "dev_apps_web_root" = true.
Proof.
  split.
  - apply (lease_match_exact "dev" "apps" "web" "apps" "web-1"). by repeat constructor.
  - apply (lease_match_exact "dev" "apps" "web" "apps" "web"). by repeat constructor.
Defined.
