(* ===== verification/Teardown.v ===== *)
(** * Teardown: stopping, killing, deleting and purging cells and containers
    (runner/stop.go, kill.go, delete_cell.go, delete_container.go, purge_cell.go,
    purge_container.go, lifecycle.go; the orphan helpers of helpers.go and the socket
    clean-up of attachable.go)

    The state is the containerd client with its caches ([Containerd]) over a world that
    also holds the networks ([Cni]) and the runner's metadata ([RunnerStore]).  Stop and
    kill end the tasks and keep the containers; delete removes the containers first and
    the cell's metadata only when none is left. *)

From Stdlib Require Import Ascii ZArith Lia.
From stdpp Require Import base gmap strings list.
From S2P Require Import Prelude Model External Scheme Naming Layout Observe OciSpec Containerd Cni.

Local Open Scope nat_scope.

(** The runner's metadata reads and writes, the connection and the cgroups. *)
Class RunnerStore (W : Type) := {
  sto_nowUTC : st W Time;
  sto_ensureClientConnected : st W (option error);
  sto_GetRealm : Realm → st W (result Realm);
  sto_GetSpace : Space → st W (result Space);
  sto_GetCell : Cell → st W (result Cell);
  sto_UpdateCellMetadata : Cell → st W (option error);
  sto_DeleteMetadata : string → st W (option error);
  sto_pullSetupStatus : string → st W (result (list RepoStatus * list StageStatus));
  sto_cgroupMountpoint : string;
  sto_DeleteCgroup : string → string → st W (option error)
}.

Section Teardown.
Context {W : Type} `{Containerd W} `{OciHost W} `{CniHost W} `{RunnerStore W} `{HostConfig} (cniConf : Conf).
Notation C := (Client W).

(** What [Observe] needs of the host, by this client. *)
#[export] Instance client_ContainerHost : ContainerHost C := {|
  nowUTC := remote sto_nowUTC;
  ensureClientConnected := remote sto_ensureClientConnected;
  GetRealm := fun r => remote (sto_GetRealm r);
  Observe.ExistsContainer := Containerd.ExistsContainer;
  ctr_TaskStatus := ctrTaskStatus;
  pullSetupStatus := fun p => remote (sto_pullSetupStatus p)
|}.

Definition PopulateAndPersistCellContainerStatuses (cell : Cell) : st C (Cell * option error) :=
  let! cell := populateCellContainerStatuses cell in
  let! e := remote (sto_UpdateCellMetadata cell) in
  st_ret (cell, e).

(** ** The network of a cell (lifecycle.go, helpers.go) *)

Definition ResolveSpaceCNIConfigPath (realmID spaceID : string) : st C (result string) :=
  let! space := remote (sto_GetSpace (space_named realmID spaceID)) in
  st_ret (match space with
          | Err e => Err (EWrap "%w: %w" [ESentinel ErrGetSpace; e])
          | Ok internalSpace =>
              match BuildSpaceExternalFromInternal internalSpace VersionV1Beta1 with
              | Err e => Err (EWrap "%w: %w" [ESentinel ErrConversionFailed; e])
              | Ok doc =>
                  let confPath := TrimSpace (ext.spsp_CNIConfigPath (ext.space_Spec doc)) in
                  if negb (String.eqb confPath "") then Ok confPath
                  else match SpaceNetworkConfigPath RunPath realmID (ext.sm_Name (ext.space_Metadata doc)) with
                       | Err e => Err (EWrap "failed to build default space CNI config path: %w" [e])
                       | Ok p => Ok p
                       end
              end
          end).

Definition netnsOfPid (pid : Z) : string := "/proc/" +:+ Itoa pid +:+ "/ns/net".

(** The task is looked up in a context without a namespace. *)
Definition getContainerNetnsPath (namespace containerID : string) : st C (result string) :=
  let! e := remote sto_ensureClientConnected in
  match e with
  | Some e => st_ret (Err (EWrap "%w: %w" [ESentinel ErrConnectContainerd; e]))
  | None =>
      let! container := GetContainer namespace containerID in
      match container with
      | Err e => st_ret (Err e)
      | Ok container =>
          let! task := remote (con_Task "" container) in
          st_ret (match task with
                  | Err e => Err e
                  | Ok t => if (0 <? tsk_Pid t)%Z then Ok (netnsOfPid (tsk_Pid t)) else Err (EOpaque "container task has no PID")
                  end)
      end
  end.
(** netnsPath, _ := ... *)
Definition netnsOrEmpty (namespace containerID : string) : st C string :=
  let! r := getContainerNetnsPath namespace containerID in
  st_ret (match r with Ok p => p | Err _ => "" end).

Definition rootContainerNetnsPath (namespace rootContainerID : string) : st C string :=
  let! container := GetContainer namespace rootContainerID in
  match container with
  | Err _ => st_ret ""
  | Ok container =>
      let! task := remote (con_Task namespace container) in
      st_ret (match task with
              | Err _ => ""
              | Ok t => if (0 <? tsk_Pid t)%Z then netnsOfPid (tsk_Pid t) else ""
              end)
  end.

Definition purgeCNI (containerID netnsPath networkName : string) : st C (option error) :=
  remote (purgeCNIForContainer cniConf containerID netnsPath networkName).

Definition detachRootContainerFromNetwork (rootContainerID cniConfigPath namespace : string) : st C unit :=
  let! resolved := rootContainerNetnsPath namespace rootContainerID in
  remote (let! netnsPath := sanitizeDELNetns resolved in
          let! loaded := LoadNetworkConfigList (managerOf cniConf) cniConfigPath in
          match loaded with
          | Err _ => st_ret ()
          | Ok m => let! _ := DelContainerFromNetwork m rootContainerID netnsPath in st_ret ()
          end).

Definition rootContainerHostNetwork (cell : Cell) : bool :=
  match find_first (fun c => String.eqb (c_ID c) (csp_RootContainerID (cell_Spec cell))) (csp_Containers (cell_Spec cell)) with
  | Some c => c_HostNetwork c
  | None => false
  end.

Definition getRootContainerContainerdID (cell : Cell) : result string :=
  let rootID := csp_RootContainerID (cell_Spec cell) in
  if String.eqb rootID "" then Err (EOpaque "cell %q has no RootContainerID set")
  else match find_first (fun c => String.eqb (c_ID c) rootID) (csp_Containers (cell_Spec cell)) with
       | None => Err (EOpaque "root container %q not found in cell %q containers")
       | Some c => if String.eqb (c_ContainerdID c) "" then Err (EOpaque "root container %q has empty ContainerdID")
                   else Ok (c_ContainerdID c)
       end.

(** ** Sockets of attachable containers (attachable.go) *)

Definition removeAttachableSocketSymlink (spec : ContainerSpec) : st W (option error) :=
  if negb (c_Attachable spec) then st_ret None
  else
    let path := ContainerSocketSymlinkPath RunPath (c_RealmName spec) (c_SpaceName spec) (c_StackName spec) (c_CellName spec) (c_ID spec) in
    let! e := os_Remove path in
    st_ret (match e with
            | Some e => if os_NotExist e then None else Some (EWrap "remove socket symlink %q: %w" [e])
            | None => None
            end).

Definition removeAttachableSocketRuntimeArtifacts (spec : ContainerSpec) : st W (option error) :=
  if negb (c_Attachable spec) then st_ret None
  else
    let! e1 := removeAttachableSocketSymlink spec in
    let socketPath := ContainerSocketPath RunPath (c_RealmName spec) (c_SpaceName spec) (c_StackName spec) (c_CellName spec) (c_ID spec) in
    let! e2 := os_Remove socketPath in
    let errs := option_list e1 ++ match e2 with
                                  | Some e => if os_NotExist e then [] else [EWrap "remove socket inode %q: %w" [e]]
                                  | None => []
                                  end in
    st_ret (match errs with [] => None | _ => Some (EWrap "join" errs) end).

Fixpoint removeSockets (specs : list ContainerSpec) : st W unit :=
  match specs with
  | [] => st_ret ()
  | s :: rest => let! _ := removeAttachableSocketRuntimeArtifacts s in removeSockets rest
  end.

(** ** Stop and kill *)

Record CellNames := { nm_cell : string; nm_realm : string; nm_space : string; nm_stack : string }.
(** The four names an operation requires of the cell it is given. *)
Definition requireNames (cell : Cell) : result CellNames :=
  let n := {| nm_cell := TrimSpace (cm_Name (cell_Metadata cell)); nm_realm := TrimSpace (csp_RealmName (cell_Spec cell));
              nm_space := TrimSpace (csp_SpaceName (cell_Spec cell)); nm_stack := TrimSpace (csp_StackName (cell_Spec cell)) |} in
  if String.eqb (nm_cell n) "" then Err (ESentinel ErrCellNameRequired)
  else if String.eqb (nm_realm n) "" then Err (ESentinel ErrRealmNameRequired)
  else if String.eqb (nm_space n) "" then Err (ESentinel ErrSpaceNameRequired)
  else if String.eqb (nm_stack n) "" then Err (ESentinel ErrStackNameRequired)
  else Ok n.

Definition stop5s : StopContainerOptions := {| so_Signal := ""; so_Timeout := Some 5000000000%Z; so_Force := true |}.

Fixpoint stopWorkloads (namespace : string) (specs : list ContainerSpec) : st C unit :=
  match specs with
  | [] => st_ret ()
  | s :: rest =>
      if c_Root s || String.eqb (c_ContainerdID s) "" then stopWorkloads namespace rest
      else let! _ := StopContainer namespace (c_ContainerdID s) stop5s in stopWorkloads namespace rest
  end.

(** The part stop and kill share once the workloads are down: detach, end the root by
    [endRoot], release the lease, settle the record. *)
Definition settleStopped (internalCell : Cell) (namespace realmName spaceName cniConfigPath : string)
    (endRoot : string → st C unit) : st C (result Cell) :=
  match getRootContainerContainerdID internalCell with
  | Err e => st_ret (Err e)
  | Ok rootContainerID =>
      let networkName := buildRootCNINetworkName realmName spaceName in
      let! _ := (if rootContainerHostNetwork internalCell then st_ret ()
                 else detachRootContainerFromNetwork rootContainerID cniConfigPath namespace) in
      let! _ := endRoot rootContainerID in
      let! _ := (if negb (String.eqb networkName "") then purgeCNI rootContainerID "" networkName else st_ret None) in
      let stopped := upd_status (set_State CellStateStopped) internalCell in
      let! _ := remote (removeSockets (csp_Containers (cell_Spec stopped))) in
      let! (cell, _) := PopulateAndPersistCellContainerStatuses stopped in
      st_ret (Ok cell)
  end.

Definition stopCellLocked (cell : Cell) : st C (result Cell) :=
  match requireNames cell with
  | Err e => st_ret (Err e)
  | Ok n =>
      let! found := remote (sto_GetCell (cell_named (nm_realm n) (nm_space n) (nm_stack n) (nm_cell n))) in
      match found with
      | Err e => st_ret (Err (EWrap "%w: %w" [ESentinel ErrGetCell; e]))
      | Ok internalCell =>
          let s := cell_Spec internalCell in
          let cellID := or_default (TrimSpace (csp_ID s)) (TrimSpace (cm_Name (cell_Metadata internalCell))) in
          if String.eqb cellID "" then st_ret (Err (ESentinel ErrCellIDRequired))
          else
            let realmName := or_default (TrimSpace (csp_RealmName s)) (nm_realm n) in
            let spaceName := or_default (TrimSpace (csp_SpaceName s)) (nm_space n) in
            let! conf := ResolveSpaceCNIConfigPath realmName spaceName in
            match conf with
            | Err e => st_ret (Err (EWrap "failed to resolve space CNI config: %w" [e]))
            | Ok cniConfigPath =>
                let! e := remote sto_ensureClientConnected in
                match e with
                | Some e => st_ret (Err (EWrap "%w: %w" [ESentinel ErrConnectContainerd; e]))
                | None =>
                    let! realm := remote (sto_GetRealm (realm_named realmName)) in
                    match realm with
                    | Err e => st_ret (Err (EWrap "failed to get realm: %w" [e]))
                    | Ok realm =>
                        let namespace := rsp_Namespace (realm_Spec realm) in
                        if String.eqb namespace "" then st_ret (Err (EOpaque "realm %q has no namespace"))
                        else
                          let! _ := stopWorkloads namespace (csp_Containers s) in
                          settleStopped internalCell namespace realmName spaceName cniConfigPath
                            (fun root => let! _ := StopContainer namespace root stop5s in st_ret ())
                    end
                end
            end
      end
  end.

Definition killContainerTask (realmNamespace containerID : string) : st C (option error) :=
  let! container := GetContainer realmNamespace containerID in
  match container with
  | Err e => st_ret (Some (EWrap "failed to get container %s: %w" [e]))
  | Ok container =>
      let! task := remote (con_Task realmNamespace container) in
      match task with
      | Err _ => st_ret None
      | Ok t => let! _ := remote (tsk_Kill realmNamespace t SIGKILL) in st_ret None
      end
  end.

Fixpoint killWorkloads (namespace : string) (specs : list ContainerSpec) : st C unit :=
  match specs with
  | [] => st_ret ()
  | s :: rest =>
      if c_Root s || String.eqb (c_ContainerdID s) "" then killWorkloads namespace rest
      else let! _ := killContainerTask namespace (c_ContainerdID s) in killWorkloads namespace rest
  end.

Definition killCellLocked (cell : Cell) : st C (result Cell) :=
  match requireNames cell with
  | Err e => st_ret (Err e)
  | Ok n =>
      let! found := remote (sto_GetCell (cell_named (nm_realm n) (nm_space n) (nm_stack n) (nm_cell n))) in
      match found with
      | Err e => st_ret (Err (EWrap "%w: %w" [ESentinel ErrGetCell; e]))
      | Ok internalCell =>
          let s := cell_Spec internalCell in
          let realmID := TrimSpace (csp_RealmName s) in
          let spaceID := TrimSpace (csp_SpaceName s) in
          if String.eqb (TrimSpace (csp_ID s)) "" then st_ret (Err (ESentinel ErrCellIDRequired))
          else if String.eqb realmID "" then st_ret (Err (ESentinel ErrRealmNameRequired))
          else if String.eqb spaceID "" then st_ret (Err (ESentinel ErrSpaceNameRequired))
          else if String.eqb (TrimSpace (csp_StackName s)) "" then st_ret (Err (ESentinel ErrStackNameRequired))
          else
            let! conf := ResolveSpaceCNIConfigPath realmID spaceID in
            match conf with
            | Err e => st_ret (Err (EWrap "failed to resolve space CNI config: %w" [e]))
            | Ok cniConfigPath =>
                let! e := remote sto_ensureClientConnected in
                match e with
                | Some e => st_ret (Err (EWrap "%w: %w" [ESentinel ErrConnectContainerd; e]))
                | None =>
                    let! realm := remote (sto_GetRealm (realm_named realmID)) in
                    match realm with
                    | Err e => st_ret (Err (EWrap "failed to get realm: %w" [e]))
                    | Ok realm =>
                        let namespace := rsp_Namespace (realm_Spec realm) in
                        let! _ := killWorkloads namespace (csp_Containers s) in
                        settleStopped internalCell namespace realmID spaceID cniConfigPath
                          (fun root => let! _ := killContainerTask namespace root in st_ret ())
                    end
                end
            end
      end
  end.

(** ** One container (stop.go, kill.go, delete_container.go) *)

(** The checks StopContainer, KillContainer and DeleteContainer start with: the realm's
    namespace and the container of that name. *)
Definition containerOperation (cell : Cell) (containerID : string) (needStack trimCellID needNamespace : bool) (rootError : error)
    : st C (result (Realm * ContainerSpec)) :=
  let cellID := if trimCellID then TrimSpace (csp_ID (cell_Spec cell)) else csp_ID (cell_Spec cell) in
  let realmName := TrimSpace (csp_RealmName (cell_Spec cell)) in
  if String.eqb containerID "" then st_ret (Err (EOpaque "container ID is required"))
  else if String.eqb (TrimSpace (cm_Name (cell_Metadata cell))) "" then st_ret (Err (ESentinel ErrCellNameRequired))
  else if String.eqb cellID "" then st_ret (Err (ESentinel ErrCellIDRequired))
  else if String.eqb realmName "" then st_ret (Err (ESentinel ErrRealmNameRequired))
  else if String.eqb (TrimSpace (csp_SpaceName (cell_Spec cell))) "" then st_ret (Err (ESentinel ErrSpaceNameRequired))
  else if needStack && String.eqb (TrimSpace (csp_StackName (cell_Spec cell))) "" then st_ret (Err (ESentinel ErrStackNameRequired))
  else
    let! e := remote sto_ensureClientConnected in
    match e with
    | Some e => st_ret (Err (EWrap "%w: %w" [ESentinel ErrConnectContainerd; e]))
    | None =>
        let! realm := remote (sto_GetRealm (realm_named realmName)) in
        st_ret (match realm with
                | Err e => Err (EWrap "failed to get realm: %w" [e])
                | Ok realm =>
                    if needNamespace && String.eqb (rsp_Namespace (realm_Spec realm)) "" then Err (EOpaque "realm %q has no namespace")
                    else
                    match find_first (fun c => String.eqb (c_ID c) containerID) (csp_Containers (cell_Spec cell)) with
                    | None => Err (EOpaque "container %q not found in cell %q")
                    | Some spec => if c_Root spec then Err rootError else Ok (realm, spec)
                    end
                end)
    end.

Definition runnerStopContainer (cell : Cell) (containerID : string) : st C (option error) :=
  let! r := containerOperation cell (TrimSpace containerID) false false true
              (EOpaque "root container cannot be stopped directly, stop the cell instead using 'kuke stop %s'") in
  match r with
  | Err e => st_ret (Some e)
  | Ok (realm, spec) =>
      if String.eqb (c_ContainerdID spec) "" then st_ret None
      else
        let! stopped := StopContainer (rsp_Namespace (realm_Spec realm)) (c_ContainerdID spec) stop5s in
        st_ret (match stopped with Err e => Some (EWrap "failed to stop container %s: %w" [e]) | Ok _ => None end)
  end.

Definition KillContainer (cell : Cell) (containerID : string) : st C (option error) :=
  let! r := containerOperation cell (TrimSpace containerID) false false false
              (EOpaque "root container cannot be killed directly, kill the cell instead using 'kuke kill %s'") in
  match r with
  | Err e => st_ret (Some e)
  | Ok (realm, spec) =>
      if String.eqb (c_ContainerdID spec) "" then st_ret None
      else
        let! e := killContainerTask (rsp_Namespace (realm_Spec realm)) (c_ContainerdID spec) in
        st_ret (match e with Some e => Some (EWrap "failed to kill container %s: %w" [e]) | None => None end)
  end.

Definition default_stop (force : bool) : StopContainerOptions := {| so_Signal := ""; so_Timeout := None; so_Force := force |}.

Definition runnerDeleteContainer (cell : Cell) (containerID : string) : st C (option error) :=
  let! r := containerOperation cell (TrimSpace containerID) true true false
              (EOpaque "root container cannot be deleted directly, delete the cell instead using 'kuke delete cell %s'") in
  match r with
  | Err e => st_ret (Some e)
  | Ok (realm, spec) =>
      let namespace := rsp_Namespace (realm_Spec realm) in
      let containerdID := c_ContainerdID spec in
      if String.eqb containerdID "" then st_ret (Some (EOpaque "container %q has empty ContainerdID"))
      else
        let! space := remote (sto_GetSpace (space_named (TrimSpace (csp_RealmName (cell_Spec cell))) (TrimSpace (csp_SpaceName (cell_Spec cell))))) in
        let networkName := match space with
                           | Ok space => match getSpaceNetworkName space with Ok n => n | Err _ => "" end
                           | Err _ => ""
                           end in
        let! netnsPath := netnsOrEmpty namespace containerdID in
        let! _ := purgeCNI containerdID netnsPath networkName in
        let! _ := StopContainer namespace containerdID (default_stop false) in
        let! e := DeleteContainer namespace containerdID true in
        let again := if negb (String.eqb networkName "") then purgeCNI containerdID "" networkName else st_ret None in
        match e with
        | Some e =>
            if error_is ErrContainerNotFound e then let! _ := again in st_ret None
            else st_ret (Some (EWrap "failed to delete container %s: %w" [e]))
        | None =>
            let! _ := again in
            let! _ := remote (removeAttachableSocketSymlink spec) in
            st_ret None
        end
  end.

(** ** Deleting a cell (delete_cell.go) *)

Definition stopAndDeleteContainer (namespace containerID networkName : string) (force : bool) : st C (option error) :=
  let! netnsPath := netnsOrEmpty namespace containerID in
  let! _ := purgeCNI containerID netnsPath networkName in
  let! _ := StopContainer namespace containerID (default_stop force) in
  let! e := DeleteContainer namespace containerID true in
  st_ret (match e with
          | None => None
          | Some e => if error_is ErrContainerNotFound e then None else Some e
          end).

Definition findOrphanContainerIDs (namespace namePrefix : string) : st C (result (list string)) :=
  let! l := ListContainers namespace in
  st_ret (match l with
          | Err e => Err e
          | Ok l => Ok (List.filter (fun id => HasPrefix id namePrefix) (con_ID <$> l))
          end).

Fixpoint deleteOrphans (namespace networkName : string) (ids : list string) : st C (list error) :=
  match ids with
  | [] => st_ret []
  | id :: rest =>
      let! e := stopAndDeleteContainer namespace id networkName true in
      let! errs := deleteOrphans namespace networkName rest in
      st_ret (match e with Some e => EWrap "delete orphan container %q: %w" [e] :: errs | None => errs end)
  end.

Definition cellPrefix (spaceName stackName cellID : string) : string :=
  spaceName +:+ "_" +:+ stackName +:+ "_" +:+ cellID +:+ "_".

(** The root container, then whatever else bears the prefix of the cell. *)
Definition reapRoot (namespace networkName : string) (rootID : result string) : st C (list error) :=
  match rootID with
  | Err e => st_ret [EWrap "build root container containerd ID: %w" [e]]
  | Ok root =>
      let! e := stopAndDeleteContainer namespace root networkName true in
      st_ret (match e with Some e => [EWrap "delete root container %q: %w" [e]] | None => [] end)
  end.
Definition reapOrphans (namespace networkName namePrefix : string) : st C (list error) :=
  let! orphans := findOrphanContainerIDs namespace namePrefix in
  match orphans with
  | Err e => st_ret [EWrap "scan orphan containers with prefix %q: %w" [e]]
  | Ok ids => deleteOrphans namespace networkName ids
  end.

Definition sweepCellContainerResources (namespace spaceName stackName cellID networkName : string) : st C (list error) :=
  let rootID := BuildRootContainerdID spaceName stackName cellID in
  let! rootErr := reapRoot namespace networkName rootID in
  let! orphanErrs := reapOrphans namespace networkName (cellPrefix spaceName stackName cellID) in
  let! _ := (match rootID with
             | Ok root => if negb (String.eqb networkName "") && negb (String.eqb root "") then purgeCNI root "" networkName else st_ret None
             | Err _ => st_ret None
             end) in
  st_ret (rootErr ++ orphanErrs).

Definition joined_or_nil (errs : list error) : option error :=
  match errs with [] => None | _ => Some (EWrap "%w: %w" [ESentinel ErrDeleteCell; EWrap "join" errs]) end.

Definition sweepOrphansForMissingCell (cell : Cell) : st C (option error) :=
  let! e := remote sto_ensureClientConnected in
  match e with
  | Some e => st_ret (Some (EWrap "%w: %w" [ESentinel ErrConnectContainerd; e]))
  | None =>
      let realmName := TrimSpace (csp_RealmName (cell_Spec cell)) in
      let spaceName := TrimSpace (csp_SpaceName (cell_Spec cell)) in
      let stackName := TrimSpace (csp_StackName (cell_Spec cell)) in
      let cellID := or_default (TrimSpace (csp_ID (cell_Spec cell))) (TrimSpace (cm_Name (cell_Metadata cell))) in
      let! realm := remote (sto_GetRealm (realm_named realmName)) in
      match realm with
      | Err e => st_ret (if error_is ErrRealmNotFound e then None else Some (EWrap "failed to get realm: %w" [e]))
      | Ok realm =>
          let! errs := sweepCellContainerResources (rsp_Namespace (realm_Spec realm)) spaceName stackName cellID
                         (buildRootCNINetworkName realmName spaceName) in
          st_ret (joined_or_nil errs)
      end
  end.

(** The containers on the cell's spec; an empty ID is left to the scan. *)
Fixpoint deleteListed (namespace networkName : string) (specs : list ContainerSpec) : st C (list error) :=
  match specs with
  | [] => st_ret []
  | s :: rest =>
      let! _ := remote (removeAttachableSocketSymlink s) in
      if String.eqb (c_ContainerdID s) "" then deleteListed namespace networkName rest
      else
        let! e := stopAndDeleteContainer namespace (c_ContainerdID s) networkName false in
        let! errs := deleteListed namespace networkName rest in
        st_ret (match e with Some e => EWrap "delete container %q: %w" [e] :: errs | None => errs end)
  end.

Definition DefaultCellGroup (cell : Cell) : string :=
  "/" +:+ csp_RealmName (cell_Spec cell) +:+ "/" +:+ csp_SpaceName (cell_Spec cell) +:+ "/" +:+ csp_StackName (cell_Spec cell)
  +:+ "/" +:+ cm_Name (cell_Metadata cell).

Definition cellIDOf (cell : Cell) : string :=
  if String.eqb (TrimSpace (csp_ID (cell_Spec cell))) "" then cm_Name (cell_Metadata cell) else csp_ID (cell_Spec cell).

(** What follows once no container is left: cgroup, metadata file, directory. *)
Definition removeCellRecord (internalCell : Cell) : st C (option error) :=
  let s := cell_Spec internalCell in
  let name := cm_Name (cell_Metadata internalCell) in
  let cgroupGroup := if String.eqb (cst_CgroupPath (cell_Status internalCell)) "" then DefaultCellGroup internalCell
                     else cst_CgroupPath (cell_Status internalCell) in
  let! _ := remote (sto_DeleteCgroup cgroupGroup sto_cgroupMountpoint) in
  let! e := remote (sto_DeleteMetadata (CellMetadataPath RunPath (csp_RealmName s) (csp_SpaceName s) (csp_StackName s) name)) in
  match e with
  | Some e => st_ret (Some (EWrap "%w: failed to delete cell metadata: %w" [ESentinel ErrDeleteCell; e]))
  | None =>
      let! e := remote (os_RemoveAll (CellMetadataDir RunPath (csp_RealmName s) (csp_SpaceName s) (csp_StackName s) name)) in
      st_ret (match e with Some e => Some (EWrap "%w: failed to remove cell directory %s: %w" [ESentinel ErrDeleteCell; e]) | None => None end)
  end.

Definition deleteCellLocked (cell : Cell) : st C (option error) :=
  match requireNames cell with
  | Err e => st_ret (Some e)
  | Ok _ =>
      let! found := remote (sto_GetCell cell) in
      match found with
      | Err e =>
          if error_is ErrCellNotFound e then sweepOrphansForMissingCell cell
          else st_ret (Some (EWrap "%w: %w" [ESentinel ErrGetCell; e]))
      | Ok internalCell =>
          let s := cell_Spec internalCell in
          let! e := remote sto_ensureClientConnected in
          match e with
          | Some e => st_ret (Some (EWrap "%w: %w" [ESentinel ErrConnectContainerd; e]))
          | None =>
              let! realm := remote (sto_GetRealm (realm_named (csp_RealmName s))) in
              match realm with
              | Err e => st_ret (Some (EWrap "failed to get realm: %w" [e]))
              | Ok realm =>
                  let namespace := rsp_Namespace (realm_Spec realm) in
                  let networkName := buildRootCNINetworkName (csp_RealmName s) (csp_SpaceName s) in
                  let! errs1 := deleteListed namespace networkName (csp_Containers s) in
                  let! errs2 := sweepCellContainerResources namespace (csp_SpaceName s) (csp_StackName s) (cellIDOf internalCell) networkName in
                  match joined_or_nil (errs1 ++ errs2) with
                  | Some e => st_ret (Some e)
                  | None => removeCellRecord internalCell
                  end
              end
          end
      end
  end.

(** ** Purging (purge_cell.go, purge_container.go) *)

Definition purgeIDs (cell : Cell) : list string :=
  let s := cell_Spec cell in
  let cellID := if String.eqb (csp_ID s) "" then cm_Name (cell_Metadata cell) else csp_ID s in
  match BuildRootContainerdID (csp_SpaceName s) (csp_StackName s) cellID with Ok root => [root] | Err _ => [] end
  ++ (c_ContainerdID <$> List.filter (fun c => negb (String.eqb (c_ID c) "") && negb (String.eqb (c_ContainerdID c) "")) (csp_Containers s)).
Fixpoint purgeEach (namespace networkName : string) (ids : list string) : st C unit :=
  match ids with
  | [] => st_ret ()
  | id :: rest =>
      let! netnsPath := netnsOrEmpty namespace id in
      let! _ := purgeCNI id netnsPath networkName in
      purgeEach namespace networkName rest
  end.

Definition purgeCellLocked (cell : Cell) : st C (option error) :=
  match requireNames cell with
  | Err e => st_ret (Some e)
  | Ok _ =>
      let! _ := deleteCellLocked cell in
      let! found := remote (sto_GetCell cell) in
      let cellForOps := match found with
                        | Ok c => Ok c
                        | Err e => if error_is ErrCellNotFound e then Ok cell else Err (EWrap "%w: %w" [ESentinel ErrGetCell; e])
                        end in
      match cellForOps with
      | Err e => st_ret (Some e)
      | Ok cell =>
          let s := cell_Spec cell in
          let! e := remote sto_ensureClientConnected in
          match e with
          | Some e => st_ret (Some (EWrap "%w: %w" [ESentinel ErrConnectContainerd; e]))
          | None =>
              let! realm := remote (sto_GetRealm (realm_named (csp_RealmName s))) in
              match realm with
              | Err _ => st_ret None
              | Ok realm =>
                  let! space := remote (sto_GetSpace (space_named (csp_RealmName s) (csp_SpaceName s))) in
                  let! _ := (match space with
                             | Err _ => st_ret ()
                             | Ok space =>
                                 match getSpaceNetworkName space with
                                 | Err _ => st_ret ()
                                 | Ok networkName => purgeEach (rsp_Namespace (realm_Spec realm)) networkName (purgeIDs cell)
                                 end
                             end) in
                  let! _ := remote (sto_DeleteCgroup (DefaultCellGroup cell) sto_cgroupMountpoint) in
                  let! _ := remote (os_RemoveAll (CellMetadataDir RunPath (csp_RealmName s) (csp_SpaceName s) (csp_StackName s)
                                                    (cm_Name (cell_Metadata cell)))) in
                  st_ret None
              end
          end
      end
  end.

Definition ContainerIDMinimumParts : nat := 2.
Definition dash : ascii := "-".
(** The network name read off a container ID: its first two parts between dashes. *)
Definition networkNameFromID (containerID : string) : option string :=
  match split_on dash containerID with a :: b :: _ => Some (a +:+ "-" +:+ b) | _ => None end.

Definition PurgeContainer (realm : Realm) (containerID : string) : st C (option error) :=
  let containerID := TrimSpace containerID in
  if String.eqb containerID "" then st_ret (Some (ESentinel ErrContainerNameRequired))
  else if String.eqb (TrimSpace (sm_Name (realm_Metadata realm))) "" then st_ret (Some (ESentinel ErrRealmNameRequired))
  else
    let! found := remote (sto_GetRealm realm) in
    match found with
    | Err e => st_ret (Some (EWrap "failed to get realm: %w" [e]))
    | Ok internalRealm =>
        let namespace := rsp_Namespace (realm_Spec internalRealm) in
        if String.eqb namespace "" then st_ret (Some (EOpaque "realm %q has no namespace"))
        else
          let! e := remote sto_ensureClientConnected in
          match e with
          | Some e => st_ret (Some (EWrap "%w: %w" [ESentinel ErrConnectContainerd; e]))
          | None =>
              let! _ := StopContainer namespace containerID (default_stop false) in
              let! _ := DeleteContainer namespace containerID true in
              let! netnsPath := netnsOrEmpty namespace containerID in
              let! _ := purgeCNI containerID netnsPath (default "" (networkNameFromID containerID)) in
              st_ret None
          end
    end.

(** ** Orphans of a scope (helpers.go) *)

Definition findOrphanedContainers (namespace pattern : string) : st C (result (list string)) :=
  let! e := remote sto_ensureClientConnected in
  match e with
  | Some e => st_ret (Err (EWrap "%w: %w" [ESentinel ErrConnectContainerd; e]))
  | None =>
      let! l := ListContainers namespace in
      st_ret (match l with
              | Err e => Err (EWrap "failed to list containers: %w" [e])
              | Ok l => Ok (List.filter (fun id => String.eqb pattern "" || Contains id pattern) (con_ID <$> l))
              end)
  end.
Definition findContainersByPattern (namespace pattern : string) : st C (result (list string)) :=
  let! l := findOrphanedContainers namespace pattern in
  st_ret (match l with
          | Err e => Err e
          | Ok l => Ok (List.filter (fun id => negb (length (split_on dash id) <? length (split_on dash pattern)) && HasPrefix id pattern) l)
          end).

Fixpoint processOrphanedContainers (namespace : string) (containers : list string) : st C unit :=
  match containers with
  | [] => st_ret ()
  | id :: rest =>
      let! _ := StopContainer namespace id (default_stop true) in
      let! _ := DeleteContainer namespace id true in
      let! netnsPath := netnsOrEmpty namespace id in
      let! _ := (match networkNameFromID id with Some n => purgeCNI id netnsPath n | None => st_ret None end) in
      processOrphanedContainers namespace rest
  end.

Definition isValidationError (e : error) : bool :=
  existsb (fun d => error_is d e)
    [ErrCellNameRequired; ErrCellIDRequired; ErrRealmNameRequired; ErrSpaceNameRequired; ErrStackNameRequired; ErrContainerNameRequired].

Definition buildRootContainerLabels (cell : Cell) : gmap string string :=
  let s := cell_Spec cell in
  <["kukeon.io/stack" := csp_StackName s]> (<["kukeon.io/realm" := csp_RealmName s]> (<["kukeon.io/space" := csp_SpaceName s]>
    ((if String.eqb (cm_Name (cell_Metadata cell)) "" then id else insert "kukeon.io/cell-name" (cm_Name (cell_Metadata cell)))
       (<["kukeon.io/cell" := csp_ID s]> (cm_Labels (cell_Metadata cell)))))).

End Teardown.

(** ** What teardown may touch

    Every operation of stop and kill is a call to the host below; a preorder those calls
    respect is respected by the whole operation. *)

Class StopRespects {W : Type} `{Containerd W} `{OciHost W} `{CniHost W} `{RunnerStore W} (R : W → W → Prop) (P : string → Prop) := {
  sr_cni :: CniRespects R P;
  sr_load : ∀ ns id, respects R (cd_LoadContainer ns id);
  sr_list : ∀ ns, respects R (cd_Containers ns);
  sr_task : ∀ ns h, respects R (con_Task ns h);
  sr_status : ∀ ns t, respects R (tsk_Status ns t);
  sr_kill : ∀ ns t sig, respects R (tsk_Kill ns t sig);
  sr_wait : ∀ ns t d, respects R (tsk_Wait ns t d);
  sr_taskDelete : ∀ ns t, respects R (tsk_Delete ns t);
  sr_sleep : ∀ d, respects R (cd_sleep d);
  sr_now : respects R sto_nowUTC;
  sr_connected : respects R sto_ensureClientConnected;
  sr_realm : ∀ r, respects R (sto_GetRealm r);
  sr_space : ∀ s, respects R (sto_GetSpace s);
  sr_cell : ∀ c, respects R (sto_GetCell c);
  sr_pull : ∀ p, respects R (sto_pullSetupStatus p)
}.
Class DeleteRespects {W : Type} `{Containerd W} `{OciHost W} `{CniHost W} `{RunnerStore W} (R : W → W → Prop) (P : string → Prop) := {
  dr_stop :: StopRespects R P;
  dr_delete : ∀ ns h b, respects R (con_Delete ns h b)
}.
Class RecordRespects {W : Type} `{CniHost W} `{RunnerStore W} (R : W → W → Prop) := {
  rr_update : ∀ c, respects R (sto_UpdateCellMetadata c);
  rr_deleteMetadata : ∀ p, respects R (sto_DeleteMetadata p);
  rr_removeAll : ∀ p, respects R (os_RemoveAll p);
  rr_deleteCgroup : ∀ g m, respects R (sto_DeleteCgroup g m)
}.

Section TeardownFrame.
Context {W : Type} `{Containerd W} `{OciHost W} `{CniHost W} `{RunnerStore W} `{HostConfig} (cniConf : Conf).
Context (R : W → W → Prop) (P : string → Prop) `{!StopRespects R P}.
Notation C := (Client W).

Definition on_world (c c' : C) : Prop := R (cl_world c) (cl_world c').
#[export] Instance on_world_preorder : PreOrder on_world.
Proof. split; [intros c; unfold on_world; reflexivity|]. intros a b c. unfold on_world. apply transitivity. Qed.

Lemma remote_frame {A} (m : st W A) : respects R m → respects on_world (remote m).
Proof. intros Hm c. unfold on_world, remote. specialize (Hm (cl_world c)). by destruct (m (cl_world c)) as [w a]. Qed.
Lemma cache_frame {A} (f : C → C * A) : (∀ c, cl_world (f c).1 = cl_world c) → respects on_world f.
Proof. intros Hf c. unfold on_world. rewrite Hf. reflexivity. Qed.
Lemma storeContainer_frame ns id h : respects on_world (storeContainer ns id h).
Proof. by apply cache_frame. Qed.
Lemma dropContainer_frame ns id : respects on_world (dropContainer ns id).
Proof. by apply cache_frame. Qed.
Lemma storeTask_frame ns id t : respects on_world (storeTask ns id t).
Proof. by apply cache_frame. Qed.
Lemma dropTask_frame ns id : respects on_world (dropTask ns id).
Proof. by apply cache_frame. Qed.

#[local] Hint Resolve remote_frame storeContainer_frame dropContainer_frame storeTask_frame dropTask_frame : frame.
#[local] Hint Resolve sr_load sr_list sr_task sr_status sr_kill sr_wait sr_taskDelete sr_sleep sr_now sr_connected sr_realm sr_space sr_cell sr_pull : frame.
#[local] Hint Extern 1 (respects R (purgeCNIForContainer _ _ _ _)) => apply (purgeCNIForContainer_frame R P) : frame.
#[local] Hint Extern 1 (respects R (LoadNetworkConfigList _ _)) => apply (LoadNetworkConfigList_frame R P) : frame.
#[local] Hint Extern 1 (respects R (DelContainerFromNetwork _ _ _)) => apply (DelContainerFromNetwork_frame R P); assumption : frame.
#[local] Hint Extern 1 (respects R (os_Remove _)) => apply (cr_remove (R := R) (P := P)) : frame.

(** Code that first looks into a cache. *)
Ltac cached := match goal with |- on_world ?c (?m ?c).1 => revert c; change (respects on_world m) end.
Lemma loadContainer_frame ns id : respects on_world (loadContainer ns id).
Proof. intros c. unfold loadContainer. destruct (cl_containers c !! _); [reflexivity|]. cached. solve_frame. Qed.
#[local] Hint Resolve loadContainer_frame : frame.
Lemma loadTask_frame ns id : respects on_world (loadTask ns id).
Proof. intros c. unfold loadTask. destruct (cl_tasks c !! _); [reflexivity|]. cached. solve_frame. Qed.
#[local] Hint Resolve loadTask_frame : frame.
Lemma GetContainer_frame ns id : respects on_world (GetContainer ns id).
Proof. unfold GetContainer. solve_frame. Qed.
Lemma StopContainer_frame ns id opts : respects on_world (StopContainer ns id opts).
Proof. unfold StopContainer, awaitExit, forceKill, verifyStopped. solve_frame. Qed.
Lemma storeAll_frame ns l : respects on_world (storeAll ns l).
Proof. induction l as [|h l IH]; cbn; solve_frame. Qed.
#[local] Hint Resolve GetContainer_frame StopContainer_frame storeAll_frame : frame.
Lemma ListContainers_frame ns : respects on_world (ListContainers ns).
Proof. unfold ListContainers. solve_frame. Qed.
Lemma ctrTaskStatus_frame ns id : respects on_world (ctrTaskStatus ns id).
Proof. unfold ctrTaskStatus. solve_frame. Qed.
Lemma ExistsContainer_frame ns id : respects on_world (Containerd.ExistsContainer ns id).
Proof. unfold Containerd.ExistsContainer. solve_frame. Qed.
Lemma netnsOrEmpty_frame ns id : respects on_world (netnsOrEmpty ns id).
Proof. unfold netnsOrEmpty, getContainerNetnsPath. solve_frame. Qed.
Lemma purgeCNI_frame id p n : respects on_world (purgeCNI cniConf id p n).
Proof. unfold purgeCNI. eauto with frame. Qed.
#[local] Hint Resolve ListContainers_frame ctrTaskStatus_frame ExistsContainer_frame netnsOrEmpty_frame purgeCNI_frame : frame.

Lemma detachRoot_frame root path ns : respects on_world (detachRootContainerFromNetwork cniConf root path ns).
Proof.
  unfold detachRootContainerFromNetwork, rootContainerNetnsPath. apply respects_bind; [apply _|solve_frame|]. intros resolved.
  apply remote_frame. apply (sanitize_frame R P). intros p Hp. solve_frame.
Qed.
Lemma stopWorkloads_frame ns specs : respects on_world (stopWorkloads ns specs).
Proof. induction specs as [|s l IH]; cbn; solve_frame. Qed.
Lemma killContainerTask_frame ns id : respects on_world (killContainerTask ns id).
Proof. unfold killContainerTask. solve_frame. Qed.
#[local] Hint Resolve detachRoot_frame stopWorkloads_frame killContainerTask_frame : frame.
Lemma killWorkloads_frame ns specs : respects on_world (killWorkloads ns specs).
Proof. induction specs as [|s l IH]; cbn; solve_frame. Qed.
Lemma removeSymlink_frame spec : respects R (removeAttachableSocketSymlink spec).
Proof. unfold removeAttachableSocketSymlink. solve_frame. Qed.
#[local] Hint Resolve killWorkloads_frame removeSymlink_frame : frame.
Lemma removeSockets_frame specs : respects R (removeSockets specs).
Proof. induction specs as [|s l IH]; cbn; unfold removeAttachableSocketRuntimeArtifacts; solve_frame. Qed.
#[local] Hint Resolve removeSockets_frame : frame.

Lemma observe_frame cell id : respects on_world (GetContainerObservation cell id).
Proof.
  unfold GetContainerObservation, unknown_with. cbn [nowUTC ensureClientConnected GetRealm client_ContainerHost].
  repeat (frame_step || (progress eauto with frame)). unfold observeTask. cbn. solve_frame.
Qed.
#[local] Hint Resolve observe_frame : frame.
Lemma populateLoop_on_world cell prior now specs : respects on_world (populateLoop cell prior now specs).
Proof.
  induction specs as [|s l IH]; cbn; [solve_frame|].
  apply respects_bind; [apply _|solve_frame|]. intros [obs e]. apply respects_bind; [apply _| |solve_frame].
  unfold setupStatuses. cbn [pullSetupStatus client_ContainerHost]. solve_frame.
Qed.
#[local] Hint Resolve populateLoop_on_world : frame.
Lemma populate_on_world cell : respects on_world (populateCellContainerStatuses cell).
Proof. unfold populateCellContainerStatuses. cbn [nowUTC client_ContainerHost]. solve_frame. Qed.
Lemma ResolveSpaceCNIConfigPath_frame r s : respects on_world (ResolveSpaceCNIConfigPath r s).
Proof. unfold ResolveSpaceCNIConfigPath. solve_frame. Qed.
#[local] Hint Resolve populate_on_world ResolveSpaceCNIConfigPath_frame : frame.

(** Stop and kill, given that recording the result respects the relation too. *)
Section Stop.
Context (update_frame : ∀ c, respects R (sto_UpdateCellMetadata c)).
#[local] Hint Resolve update_frame : frame.

Lemma settleStopped_frame cell ns r s p (endRoot : string → st C unit) :
  (∀ root, respects on_world (endRoot root)) → respects on_world (settleStopped cniConf cell ns r s p endRoot).
Proof. intros He. unfold settleStopped, PopulateAndPersistCellContainerStatuses. solve_frame. Qed.
Lemma stopCellLocked_frame cell : respects on_world (stopCellLocked cniConf cell).
Proof.
  unfold stopCellLocked. repeat (frame_step || (progress eauto with frame)).
  apply settleStopped_frame. intros root. solve_frame.
Qed.
Lemma killCellLocked_frame cell : respects on_world (killCellLocked cniConf cell).
Proof.
  unfold killCellLocked. repeat (frame_step || (progress eauto with frame)).
  apply settleStopped_frame. intros root. solve_frame.
Qed.
End Stop.

Lemma containerOperation_frame cell id a b d e : respects on_world (containerOperation cell id a b d e).
Proof. unfold containerOperation. solve_frame. Qed.
#[local] Hint Resolve containerOperation_frame : frame.
Lemma runnerStopContainer_frame cell id : respects on_world (runnerStopContainer cell id).
Proof. unfold runnerStopContainer. solve_frame. Qed.
Lemma KillContainer_frame cell id : respects on_world (KillContainer cell id).
Proof. unfold KillContainer. solve_frame. Qed.

(** The container phase of a deletion. *)
Section Delete.
Context (delete_frame : ∀ ns h b, respects R (con_Delete ns h b)).
#[local] Hint Resolve delete_frame : frame.

Lemma DeleteContainer_frame ns id b : respects on_world (DeleteContainer ns id b).
Proof. unfold DeleteContainer. solve_frame. Qed.
#[local] Hint Resolve DeleteContainer_frame : frame.
Lemma stopAndDelete_frame ns id n f : respects on_world (stopAndDeleteContainer cniConf ns id n f).
Proof. unfold stopAndDeleteContainer. solve_frame. Qed.
#[local] Hint Resolve stopAndDelete_frame : frame.
Lemma deleteListed_frame ns n specs : respects on_world (deleteListed cniConf ns n specs).
Proof. induction specs as [|s l IH]; cbn; solve_frame. Qed.
Lemma deleteOrphans_frame ns n ids : respects on_world (deleteOrphans cniConf ns n ids).
Proof. induction ids as [|s l IH]; cbn; solve_frame. Qed.
#[local] Hint Resolve deleteListed_frame deleteOrphans_frame : frame.
Lemma sweep_containers_frame ns s t c n : respects on_world (sweepCellContainerResources cniConf ns s t c n).
Proof. unfold sweepCellContainerResources, reapRoot, reapOrphans, findOrphanContainerIDs. solve_frame. Qed.
#[local] Hint Resolve sweep_containers_frame : frame.
Lemma sweepOrphans_frame cell : respects on_world (sweepOrphansForMissingCell cniConf cell).
Proof. unfold sweepOrphansForMissingCell. solve_frame. Qed.
Lemma runnerDeleteContainer_frame cell id : respects on_world (runnerDeleteContainer cniConf cell id).
Proof. unfold runnerDeleteContainer. solve_frame. Qed.
Lemma PurgeContainer_frame realm id : respects on_world (PurgeContainer cniConf realm id).
Proof. unfold PurgeContainer. solve_frame. Qed.
Lemma processOrphanedContainers_frame ns ids : respects on_world (processOrphanedContainers cniConf ns ids).
Proof. induction ids as [|s l IH]; cbn; solve_frame. Qed.
#[local] Hint Resolve sweepOrphans_frame : frame.

(** The whole deletion and the purge, given that removing the record does too. *)
Section Record.
Context `{!RecordRespects R}.
#[local] Hint Resolve rr_update rr_deleteMetadata rr_removeAll rr_deleteCgroup : frame.
Lemma removeCellRecord_frame cell : respects on_world (removeCellRecord cell).
Proof. unfold removeCellRecord. solve_frame. Qed.
#[local] Hint Resolve removeCellRecord_frame : frame.
Lemma deleteCellLocked_frame cell : respects on_world (deleteCellLocked cniConf cell).
Proof. unfold deleteCellLocked. solve_frame. Qed.
#[local] Hint Resolve deleteCellLocked_frame : frame.
Lemma purgeEach_frame ns n ids : respects on_world (purgeEach cniConf ns n ids).
Proof. induction ids as [|s l IH]; cbn; solve_frame. Qed.
#[local] Hint Resolve purgeEach_frame : frame.
Lemma purgeCellLocked_frame cell : respects on_world (purgeCellLocked cniConf cell).
Proof. unfold purgeCellLocked. solve_frame. Qed.
End Record.
End Delete.
End TeardownFrame.

(** ** Theorems *)

Lemma remote_ok {W : Type} `{Containerd W} {A} (m : st W A) (c c' : Client W) a : remote m c = (c', a) → m (cl_world c) = (cl_world c', a).
Proof. unfold remote. destruct (m (cl_world c)) as [w b]. by intros [= <- <-]. Qed.

Section TeardownTheorems.
Context {W : Type} `{Containerd W} `{OciHost W} `{CniHost W} `{RunnerStore W} `{HostConfig} (cniConf : Conf).
Notation C := (Client W).

(** *** Networks *)

(** However a cell is taken down (stopped, killed, deleted or purged, whatever fails on
    the way), no network plugin is run against the daemon's own network namespace, which a
    host-network cell shares: every detach names another namespace or none. *)
Theorem teardown_spares_own_netns `{!DetachLaws W} `{!DeleteRespects spares_own foreign_netns} `{!RecordRespects spares_own} cell (c : C) :
  spares_own (cl_world c) (cl_world (stopCellLocked cniConf cell c).1) ∧
  spares_own (cl_world c) (cl_world (killCellLocked cniConf cell c).1) ∧
  spares_own (cl_world c) (cl_world (deleteCellLocked cniConf cell c).1) ∧
  spares_own (cl_world c) (cl_world (purgeCellLocked cniConf cell c).1).
Proof.
  split_and!.
  - exact (stopCellLocked_frame cniConf spares_own foreign_netns rr_update cell c).
  - exact (killCellLocked_frame cniConf spares_own foreign_netns rr_update cell c).
  - exact (deleteCellLocked_frame cniConf spares_own foreign_netns dr_delete cell c).
  - exact (purgeCellLocked_frame cniConf spares_own foreign_netns dr_delete cell c).
Qed.

(** *** Stop and kill *)

Definition any_netns (p : string) : Prop := True.
(** The containers on the server are untouched. *)
Definition same_srv `{!ContainerdLaws W} (w w' : W) : Prop := srv w' = srv w.
#[export] Instance same_srv_preorder `{!ContainerdLaws W} : PreOrder same_srv.
Proof. split; [done|]. unfold same_srv. congruence. Qed.

Lemma returns_populate cell (c : C) : cst_State (cell_Status (populateCellContainerStatuses cell c).2) = cst_State (cell_Status cell).
Proof.
  assert (Hs : ∀ l, cst_State (cell_Status (upd_status (set_Containers l) cell)) = cst_State (cell_Status cell))
    by (intros l; by destruct cell as [m s []]).
  unfold populateCellContainerStatuses. destruct (csp_Containers (cell_Spec cell)) as [|s l]; [apply Hs|].
  unfold st_bind. destruct (nowUTC c) as [c1 now]. destruct (populateLoop _ _ _ _ c1) as [c2 ss]. apply Hs.
Qed.

Lemma returns_after {S A B} (Q : B → Prop) (m : st S A) (k : A → st S B) s : (∀ a s', Q (k a s').2) → Q (st_bind m k s).2.
Proof. intros Hk. unfold st_bind. destruct (m s) as [s' a]. apply Hk. Qed.
(** What settles a stopped cell reports it stopped. *)
Lemma settleStopped_stopped cell ns r s p endRoot (c : C) cell' :
  (settleStopped cniConf cell ns r s p endRoot c).2 = Ok cell' → cst_State (cell_Status cell') = CellStateStopped.
Proof.
  unfold settleStopped. destruct (getRootContainerContainerdID cell) as [root|e]; [|done].
  apply (returns_after (fun r => r = Ok cell' → _)); intros _ c1. apply (returns_after (fun r => r = Ok cell' → _)); intros _ c2.
  apply (returns_after (fun r => r = Ok cell' → _)); intros _ c3. apply (returns_after (fun r => r = Ok cell' → _)); intros _ c4.
  unfold PopulateAndPersistCellContainerStatuses, st_bind.
  pose proof (returns_populate (upd_status (set_State CellStateStopped) cell) c4) as Hp.
  destruct (populateCellContainerStatuses _ c4) as [c5 cell5]. destruct (remote _ c5) as [c6 e]. cbn in Hp |- *. intros [= <-].
  rewrite Hp. by destruct cell as [m s0 []].
Qed.

(** Stopping or killing a cell keeps every container with its file system, whatever
    fails on the way, and a cell that was stopped or killed is reported as stopped. *)
Theorem stop_keeps_containers `{!ContainerdLaws W} `{!StopRespects same_srv any_netns} cell (c : C) :
  (∀ u, respects same_srv (sto_UpdateCellMetadata u)) →
  live (stopCellLocked cniConf cell c).1 = live c ∧ live (killCellLocked cniConf cell c).1 = live c ∧
  (∀ id, live (runnerStopContainer cell id c).1 = live c ∧ live (KillContainer cell id c).1 = live c) ∧
  (∀ cell', (stopCellLocked cniConf cell c).2 = Ok cell' ∨ (killCellLocked cniConf cell c).2 = Ok cell' →
            cst_State (cell_Status cell') = CellStateStopped).
Proof.
  intros Hu. split_and!.
  - exact (stopCellLocked_frame cniConf same_srv any_netns Hu cell c).
  - exact (killCellLocked_frame cniConf same_srv any_netns Hu cell c).
  - intros id. split; [exact (runnerStopContainer_frame same_srv any_netns cell id c)|exact (KillContainer_frame same_srv any_netns cell id c)].
  - intros cell' Hs. destruct Hs as [Hs|Hs]; revert Hs; unfold stopCellLocked, killCellLocked, st_bind;
      repeat (case_match; try done); apply settleStopped_stopped.
Qed.

(** *** Deletion *)

Section DeleteTheorems.
Context `{!ContainerdLaws W} `{!StopRespects same_srv any_netns}.

(** Cached handles are coherent and every container bears a containerd identifier. *)
Definition client_ok (c : C) : Prop := cache_ok c ∧ ∀ p, p ∈ live c → plain_id p.2.
(** Containers may go, but only those of [X]; none appears. *)
Definition removes (X : string * string → Prop) (c c' : C) : Prop :=
  client_ok c → client_ok c' ∧ live c' ⊆ live c ∧ ∀ p, p ∈ live c → p ∉ live c' → X p.
#[export] Instance removes_preorder X : PreOrder (removes X).
Proof.
  split; [intros c Hc; split_and!; [done|done|tauto]|]. intros a b c K1 K2 Ha. destruct (K1 Ha) as (Hb & S1 & X1).
  destruct (K2 Hb) as (Hc & S2 & X2). split_and!; [done|by etrans|]. intros p Hp Hn. destruct (decide (p ∈ live b)); auto.
Qed.
Lemma same_live_removes X c c' : same_live c c' → removes X c c'.
Proof. intros [E Hc] [K1 K2]. unfold client_ok. rewrite E. split_and!; [auto|done|done|tauto]. Qed.

Lemma remote_removes {A} X (m : st W A) : respects same_srv m → respects (removes X) (remote m).
Proof. intros Hm c. apply same_live_removes. apply remote_same. exact Hm. Qed.
Lemma netnsOrEmpty_removes X ns id : plain_id ns → plain_id id → respects (removes X) (netnsOrEmpty ns id).
Proof.
  intros Hns Hid. unfold netnsOrEmpty, getContainerNetnsPath, GetContainer.
  repeat (frame_step || apply remote_removes); try apply sr_connected; try apply sr_task.
  intros c. apply same_live_removes. by apply loadContainer_same.
Qed.
Lemma purgeCNI_removes X id p n : respects (removes X) (purgeCNI cniConf id p n).
Proof. apply remote_removes. apply (purgeCNIForContainer_frame same_srv any_netns). Qed.

Lemma deleted_removes X ns id b : plain_id ns → plain_id id → X (ns, id) → respects (removes X) (DeleteContainer ns id b).
Proof.
  intros Hns Hid HX c [Hc Hp]. pose proof (DeleteContainer_spec ns id b c Hns Hid Hc) as Hd. destruct (DeleteContainer ns id b c) as [c' r]. cbn [fst].
  destruct Hd as (Hc' & El & _). assert (Hsub : live c' ⊆ live c).
  { rewrite El. destruct r; [done|]. apply subseteq_difference_l. done. }
  split_and!; [split; [done|intros q Hq; by apply Hp, Hsub]|done|].
  intros q Hq Hn. rewrite El in Hn. destruct r as [e|]; [done|]. rewrite elem_of_difference, elem_of_singleton in Hn.
  destruct (decide (q = (ns, id))) as [->|]; [done|tauto].
Qed.

Lemma stopAndDelete_spec X ns id n force c : plain_id ns → plain_id id → X (ns, id) →
  let '(c', r) := stopAndDeleteContainer cniConf ns id n force c in
  removes X c c' ∧ (client_ok c → r = None → (ns, id) ∉ live c').
Proof.
  intros Hns Hid HX. unfold stopAndDeleteContainer, st_bind.
  pose proof (netnsOrEmpty_removes X ns id Hns Hid c) as R1. destruct (netnsOrEmpty ns id c) as [c1 p]. cbn [fst] in R1.
  pose proof (purgeCNI_removes X id p n c1) as R2. destruct (purgeCNI cniConf id p n c1) as [c2 u]. cbn [fst] in R2.
  pose proof (same_live_removes X _ _ (StopContainer_same ns id (default_stop force) Hns Hid c2)) as R3.
  destruct (StopContainer ns id (default_stop force) c2) as [c3 r3]. cbn [fst] in R3.
  assert (R : removes X c c3) by (etrans; [exact R1|]; etrans; [exact R2|exact R3]). clear R1 R2 R3.
  pose proof (DeleteContainer_spec ns id true c3 Hns Hid) as Hd. destruct (DeleteContainer ns id true c3) as [c4 r4] eqn:Ed. cbn [st_ret].
  assert (R4 : removes X c3 c4) by (pose proof (deleted_removes X ns id true Hns Hid HX c3) as R4; by rewrite Ed in R4).
  split; [by etrans|]. intros Hok Hr. destruct (R Hok) as ([Hc3 _] & _). destruct (Hd Hc3) as (_ & El & He).
  destruct r4 as [e|]; [|rewrite El, elem_of_difference, elem_of_singleton; tauto]. by rewrite (He e eq_refl) in Hr.
Qed.

Lemma deleteOrphans_spec X ns n ids c : plain_id ns → Forall plain_id ids → (∀ id, id ∈ ids → X (ns, id)) →
  let '(c', errs) := deleteOrphans cniConf ns n ids c in
  removes X c c' ∧ (client_ok c → errs = [] → ∀ id, id ∈ ids → (ns, id) ∉ live c').
Proof.
  intros Hns Hids HX. revert c. induction ids as [|id ids IH]; intros c; cbn.
  { split; [reflexivity|]. intros _ _ id Hid. by apply elem_of_nil in Hid. }
  apply Forall_cons_1 in Hids as [Hid Hids]. unfold st_bind.
  pose proof (stopAndDelete_spec X ns id n true c Hns Hid (HX id ltac:(left))) as Hs.
  destruct (stopAndDeleteContainer cniConf ns id n true c) as [c1 r]. destruct Hs as [R1 G1].
  assert (HX' : ∀ id, id ∈ ids → X (ns, id)) by (intros; apply HX; by right).
  specialize (IH Hids HX' c1). destruct (deleteOrphans cniConf ns n ids c1) as [c2 errs]. destruct IH as [R2 G2]. cbn.
  split; [by etrans|]. intros Hok He. destruct (R1 Hok) as (Hok1 & _ & _). destruct (R2 Hok1) as (_ & Hsub & _).
  destruct r as [e|]; [done|]. intros i [->|Hi]%elem_of_cons; [|by apply G2].
  intros Hl. by apply (G1 Hok eq_refl), Hsub.
Qed.

Lemma deleteListed_spec X ns n specs c : plain_id ns → Forall (fun s => plain_id (c_ContainerdID s)) specs →
  (∀ s, s ∈ specs → c_ContainerdID s ≠ "" → X (ns, c_ContainerdID s)) →
  let '(c', errs) := deleteListed cniConf ns n specs c in
  removes X c c' ∧ (client_ok c → errs = [] → ∀ s, s ∈ specs → c_ContainerdID s ≠ "" → (ns, c_ContainerdID s) ∉ live c').
Proof.
  intros Hns Hids HX. revert c. induction specs as [|s specs IH]; intros c; cbn.
  { split; [reflexivity|]. intros _ _ s Hs. by apply elem_of_nil in Hs. }
  apply Forall_cons_1 in Hids as [Hid Hids]. unfold st_bind.
  assert (HX' : ∀ s, s ∈ specs → c_ContainerdID s ≠ "" → X (ns, c_ContainerdID s)) by (intros; apply HX; [by right|done]).
  assert (R0 : removes X c (remote (removeAttachableSocketSymlink s) c).1)
    by (apply remote_removes, (removeSymlink_frame same_srv any_netns)).
  destruct (remote (removeAttachableSocketSymlink s) c) as [c0 u]. cbn [fst] in R0.
  destruct (String.eqb_spec (c_ContainerdID s) "") as [E|Hne].
  - specialize (IH Hids HX' c0). destruct (deleteListed cniConf ns n specs c0) as [c2 errs]. destruct IH as [R2 G2].
    split; [by etrans|]. intros Hok He t [->|Ht]%elem_of_cons Hne; [done|]. apply G2; [apply (R0 Hok)|done..].
  - pose proof (stopAndDelete_spec X ns (c_ContainerdID s) n false c0 Hns Hid (HX s ltac:(left) Hne)) as Hs.
    destruct (stopAndDeleteContainer cniConf ns (c_ContainerdID s) n false c0) as [c1 r]. destruct Hs as [R1 G1].
    specialize (IH Hids HX' c1). destruct (deleteListed cniConf ns n specs c1) as [c2 errs]. destruct IH as [R2 G2]. cbn.
    split; [etrans; [exact R0|by etrans]|]. intros Hok He. destruct (R0 Hok) as (Hok0 & _ & _). destruct (R1 Hok0) as (Hok1 & _ & _).
    destruct (R2 Hok1) as (_ & Hsub & _). destruct r as [e|]; [done|]. intros t [->|Ht]%elem_of_cons Hne'; [|by apply G2].
    intros Hl. by apply (G1 Hok0 eq_refl), Hsub.
Qed.

Lemma plain_TrimSpace s : plain_id s → plain_id (TrimSpace s).
Proof.
  unfold plain_id. intros Hs. destruct (trim_split s) as (a & b & E). rewrite E, !avoids_app in Hs.
  apply andb_true_iff in Hs as [_ Hs]. by apply andb_true_iff in Hs as [Hs _].
Qed.
Lemma plain_root space stack cell root :
  plain_id space → plain_id stack → plain_id cell → BuildRootContainerdID space stack cell = Ok root → plain_id root.
Proof.
  intros K1 K2 K3. unfold BuildRootContainerdID. apply plain_TrimSpace in K1, K2, K3. unfold plain_id in *.
  do 3 (case_match; [done|]). intros [= <-]. rewrite !avoids_app, K1, K2, K3. done.
Qed.

Lemma reapRoot_spec X ns n rootID c : plain_id ns → (∀ root, rootID = Ok root → plain_id root ∧ X (ns, root)) →
  let '(c', errs) := reapRoot cniConf ns n rootID c in
  removes X c c' ∧ (client_ok c → errs = [] → ∃ root, rootID = Ok root ∧ (ns, root) ∉ live c').
Proof.
  intros Hns HX. unfold reapRoot. destruct rootID as [root|e]; [|by split]. destruct (HX root eq_refl) as [Hp Hx]. unfold st_bind.
  pose proof (stopAndDelete_spec X ns root n true c Hns Hp Hx) as Hs.
  destruct (stopAndDeleteContainer cniConf ns root n true c) as [c1 [e|]]; destruct Hs as [R1 G1]; cbn; split; try done.
  intros Hok _. exists root. auto.
Qed.

Lemma reapOrphans_spec X ns n prefix c : plain_id ns → (∀ id, HasPrefix id prefix = true → X (ns, id)) → client_ok c →
  let '(c', errs) := reapOrphans cniConf ns n prefix c in
  removes X c c' ∧ (errs = [] → ∀ id, HasPrefix id prefix = true → (ns, id) ∉ live c').
Proof.
  intros Hns HX Hok. unfold reapOrphans, findOrphanContainerIDs, st_bind. pose proof (ListContainers_spec ns c Hns) as Hl.
  destruct (ListContainers ns c) as [c2 [l|e]]; destruct Hl as [S2 L2]; cbn [st_ret]; [|by split; [apply same_live_removes|]].
  specialize (L2 l eq_refl). set (ids := List.filter _ _).
  assert (Hids : ∀ id, id ∈ ids ↔ (ns, id) ∈ live c ∧ HasPrefix id prefix = true)
    by (intros id; unfold ids; rewrite filter_elem, L2; tauto).
  assert (Hp : Forall plain_id ids).
  { apply Forall_forall. intros id Hid. exact (proj2 Hok (ns, id) (proj1 (proj1 (Hids id) Hid))). }
  pose proof (deleteOrphans_spec X ns n ids c2 Hns Hp (fun id Hid => HX id (proj2 (proj1 (Hids id) Hid)))) as Hd.
  destruct (deleteOrphans cniConf ns n ids c2) as [c3 errs]. destruct Hd as [R3 G3].
  pose proof (same_live_removes X _ _ S2) as R2. split; [by etrans|]. intros He id Hpre Hin.
  destruct (R2 Hok) as (Hok2 & Hsub & _). destruct (R3 Hok2) as (_ & Hsub3 & _).
  refine (G3 Hok2 He id _ Hin). apply Hids. split; [|done]. by apply Hsub, Hsub3.
Qed.

Lemma sweep_spec X ns space stack cellID n c :
  plain_id ns → plain_id space → plain_id stack → plain_id cellID →
  (∀ id, HasPrefix id (cellPrefix space stack cellID) = true → X (ns, id)) →
  (∀ root, BuildRootContainerdID space stack cellID = Ok root → X (ns, root)) → client_ok c →
  let '(c', errs) := sweepCellContainerResources cniConf ns space stack cellID n c in
  removes X c c' ∧ (errs = [] →
    (∀ id, HasPrefix id (cellPrefix space stack cellID) = true → (ns, id) ∉ live c') ∧
    (∀ root, BuildRootContainerdID space stack cellID = Ok root → (ns, root) ∉ live c')).
Proof.
  intros Hns K1 K2 K3 HX HR Hok. unfold sweepCellContainerResources, st_bind.
  pose proof (reapRoot_spec X ns n (BuildRootContainerdID space stack cellID) c Hns
    (fun root E => conj (plain_root _ _ _ root K1 K2 K3 E) (HR root E))) as Hr.
  destruct (reapRoot cniConf ns n _ c) as [c1 e1]. destruct Hr as [R1 G1]. destruct (R1 Hok) as (Hok1 & _ & _).
  pose proof (reapOrphans_spec X ns n (cellPrefix space stack cellID) c1 Hns HX Hok1) as Ho.
  destruct (reapOrphans cniConf ns n _ c1) as [c3 e3]. destruct Ho as [R3 G3]. destruct (R3 Hok1) as (Hok3 & Sub3 & _).
  match goal with |- context [let '(_, _) := ?m c3 in _] => assert (R4 : removes X c3 (m c3).1);
    [|destruct (m c3) as [c4 u]; cbn [fst st_ret] in R4 |- *] end.
  { destruct (BuildRootContainerdID space stack cellID) as [root|e]; [|reflexivity].
    destruct (negb _ && negb _); [apply purgeCNI_removes|reflexivity]. }
  destruct (R4 Hok3) as (_ & Sub4 & _).
  split; [etrans; [exact R1|]; etrans; [exact R3|exact R4]|]. intros [E1 E3]%app_eq_nil. destruct (G1 Hok E1) as (root & Er & Hr).
  split; [intros id Hpre Hin; exact (G3 E3 id Hpre (Sub4 _ Hin))|].
  intros root' Er' Hin. assert (root' = root) as -> by congruence. by apply Hr, Sub3, Sub4.
Qed.

(** The containers of a cell: those listed on its spec, its root, and any that bears its
    prefix. *)
Definition owned (ns : string) (cell : Cell) (p : string * string) : Prop :=
  let s := cell_Spec cell in
  p.1 = ns ∧
  (HasPrefix p.2 (cellPrefix (csp_SpaceName s) (csp_StackName s) (cellIDOf cell)) = true ∨
   BuildRootContainerdID (csp_SpaceName s) (csp_StackName s) (cellIDOf cell) = Ok p.2 ∨
   p.2 ≠ "" ∧ p.2 ∈ c_ContainerdID <$> csp_Containers s).

(** The names and IDs of a cell are containerd identifiers. *)
Definition plain_cell (cell : Cell) : Prop :=
  plain_id (csp_SpaceName (cell_Spec cell)) ∧ plain_id (csp_StackName (cell_Spec cell)) ∧ plain_id (cellIDOf cell) ∧
  Forall (fun s => plain_id (c_ContainerdID s)) (csp_Containers (cell_Spec cell)).

(** The container phase: nothing else goes, and without an error everything owned is gone. *)
Lemma container_phase_spec ns n cell c : plain_id ns → plain_cell cell → client_ok c →
  let '(c1, errs1) := deleteListed cniConf ns n (csp_Containers (cell_Spec cell)) c in
  let '(c2, errs2) := sweepCellContainerResources cniConf ns (csp_SpaceName (cell_Spec cell)) (csp_StackName (cell_Spec cell))
                        (cellIDOf cell) n c1 in
  removes (owned ns cell) c c2 ∧ (errs1 ++ errs2 = [] → ∀ p, owned ns cell p → p ∉ live c2).
Proof.
  intros Hns (K1 & K2 & K3 & K4) Hok.
  assert (HXl : ∀ s, s ∈ csp_Containers (cell_Spec cell) → c_ContainerdID s ≠ "" → owned ns cell (ns, c_ContainerdID s)).
  { intros s Hs Hne. split; [done|]. do 2 right. split; [done|]. apply list_elem_of_fmap. eauto. }
  pose proof (deleteListed_spec (owned ns cell) ns n (csp_Containers (cell_Spec cell)) c Hns K4 HXl) as Hl.
  destruct (deleteListed cniConf ns n _ c) as [c1 errs1]. destruct Hl as [R1 G1]. destruct (R1 Hok) as (Hok1 & _ & _).
  pose proof (sweep_spec (owned ns cell) ns _ _ (cellIDOf cell) n c1 Hns K1 K2 K3 (fun id E => conj eq_refl (or_introl E))
    (fun root E => conj eq_refl (or_intror (or_introl E))) Hok1) as Hs.
  destruct (sweepCellContainerResources cniConf ns _ _ _ n c1) as [c2 errs2]. destruct Hs as [R2 G2]. destruct (R2 Hok1) as (_ & Sub2 & _).
  split; [by etrans|]. intros [E1 E2]%app_eq_nil [ns' id] [Hn Ho]. cbn in Hn, Ho. subst ns'. destruct (G2 E2) as [Gp Gr].
  destruct Ho as [Ho|[Ho|[Hne (s & -> & Hs)%list_elem_of_fmap]]]; [by apply Gp|by apply Gr|].
  intros Hin. by apply (G1 Hok E1 s Hs Hne), Sub2.
Qed.

(** A read at the start of an operation: containers, caches and record stay. *)
Definition settled {A} (record : W → A) (c c' : C) : Prop := same_live c c' ∧ record (cl_world c') = record (cl_world c).
Lemma remote_settled {A B} (record : W → A) (m : st W B) w' b (c : C) :
  respects same_srv m → respects (fun w w' => record w' = record w) m → m (cl_world c) = (w', b) →
  remote m c = (MkClient w' (cl_containers c) (cl_tasks c), b) ∧ settled record c (MkClient w' (cl_containers c) (cl_tasks c)).
Proof.
  intros Hs Hr Hm. specialize (Hr (cl_world c)). pose proof (remote_same m Hs c) as Hl. unfold remote in *. rewrite Hm in *. done.
Qed.

Section DeleteCell.
Context {A : Type} (record : W → A).
Context (HD : DeleteRespects (fun w w' => record w' = record w) any_netns) (HS : RecordRespects same_srv).

(** The claim about one deletion, from any later point of it on. *)
Definition deleted_exactly (ns : string) (ic : Cell) (c c' : C) (r : option error) : Prop :=
  live c' ⊆ live c ∧ (∀ p, p ∈ live c → p ∉ live c' → owned ns ic p) ∧
  (r = None → ∀ p, owned ns ic p → p ∉ live c') ∧
  ((∃ p, owned ns ic p ∧ p ∈ live c') → record (cl_world c') = record (cl_world c)).

Lemma settled_failed ns ic c c' e : settled record c c' → deleted_exactly ns ic c c' (Some e).
Proof. intros [[El _] Hr]. unfold deleted_exactly. rewrite El. split_and!; [done|tauto|done|done]. Qed.

(** The deletion once the cell and its realm are known. *)
Lemma delete_known ns net ic c : client_ok c → plain_id ns → plain_cell ic →
  let '(c', r) := (let! errs1 := deleteListed cniConf ns net (csp_Containers (cell_Spec ic)) in
                   let! errs2 := sweepCellContainerResources cniConf ns (csp_SpaceName (cell_Spec ic)) (csp_StackName (cell_Spec ic))
                                   (cellIDOf ic) net in
                   match joined_or_nil (errs1 ++ errs2) with Some e => st_ret (Some e) | None => removeCellRecord ic end) c in
  deleted_exactly ns ic c c' r.
Proof.
  intros Hok Hns Hp. set (R := fun w w' : W => record w' = record w) in *. unfold st_bind.
  pose proof (container_phase_spec ns net ic c Hns Hp Hok) as Hc.
  pose proof (deleteListed_frame cniConf R any_netns dr_delete ns net (csp_Containers (cell_Spec ic)) c) as F1.
  destruct (deleteListed cniConf ns net _ c) as [c4 errs1]. cbn [fst] in F1.
  pose proof (sweep_containers_frame cniConf R any_netns dr_delete ns (csp_SpaceName (cell_Spec ic)) (csp_StackName (cell_Spec ic)) (cellIDOf ic) net c4) as F2.
  destruct (sweepCellContainerResources cniConf ns _ _ _ net c4) as [c5 errs2]. cbn [fst] in F2.
  destruct Hc as [Q G]. destruct (Q Hok) as (_ & Sub & Own). unfold R, on_world in F1, F2.
  destruct (errs1 ++ errs2) as [|e0 errs] eqn:Ee; cbn [joined_or_nil st_ret]; [|split_and!; [done|done|done|congruence]].
  assert (S6 : live (removeCellRecord ic c5).1 = live c5) by exact (removeCellRecord_frame same_srv any_netns ic c5).
  destruct (removeCellRecord ic c5) as [c6 r6]. cbn [fst] in S6. unfold deleted_exactly. rewrite S6.
  split_and!; [done|done|by intros _; apply G|]. intros (p & Ho & Hin). by destruct (G eq_refl p Ho).
Qed.

(** C22: Deleting a cell takes away containers of that cell only, whatever fails.  When it
    succeeds, none of them is left, the ones a failed earlier run had left behind included.
    As long as one is left, the record of the cell is kept as it was, so that the deletion
    can be tried again; [record] is any part of the world that reading metadata and removing
    containers do not change, such as the stored documents. *)
Theorem delete_cell_exact cell ic realm w1 (c : C) :
  let ns := rsp_Namespace (realm_Spec realm) in
  sto_GetCell cell (cl_world c) = (w1, Ok ic) →
  (sto_GetRealm (realm_named (csp_RealmName (cell_Spec ic))) (sto_ensureClientConnected w1).1).2 = Ok realm →
  client_ok c → plain_id ns → plain_cell ic →
  let '(c', r) := deleteCellLocked cniConf cell c in
  live c' ⊆ live c ∧ (∀ p, p ∈ live c → p ∉ live c' → owned ns ic p) ∧
  (r = None → ∀ p, owned ns ic p → p ∉ live c') ∧
  ((∃ p, owned ns ic p ∧ p ∈ live c') → record (cl_world c') = record (cl_world c)).
Proof.
  intros ns Hget Hrealm Hok Hns Hp. fold (deleted_exactly ns ic c).
  unfold deleteCellLocked. destruct (requireNames cell); [|by apply settled_failed].
  destruct (remote_settled record _ _ _ c (sr_cell cell) (sr_cell cell) Hget) as [E1 [S1 K1]]. unfold st_bind at 1. rewrite E1.
  destruct (sto_ensureClientConnected w1) as [w2 e] eqn:Hcon.
  destruct (remote_settled record sto_ensureClientConnected w2 e (MkClient w1 (cl_containers c) (cl_tasks c)) sr_connected sr_connected Hcon) as [E2 [S2 K2]].
  unfold st_bind at 1. rewrite E2. assert (T2 : settled record c (MkClient w2 (cl_containers c) (cl_tasks c))) by (split; [by etrans|cbn in *; congruence]).
  destruct e as [e|]; [by apply settled_failed|]. cbn [fst] in Hrealm.
  destruct (sto_GetRealm (realm_named (csp_RealmName (cell_Spec ic))) w2) as [w3 rr] eqn:Hre. cbn [snd] in Hrealm. subst rr.
  destruct (remote_settled record (sto_GetRealm (realm_named (csp_RealmName (cell_Spec ic)))) w3 (Ok realm) (MkClient w2 (cl_containers c) (cl_tasks c))
    (sr_realm _) (sr_realm _) Hre) as [E3 [S3 K3]].
  unfold st_bind at 1. cbn [cl_containers cl_tasks] in E3 |- *. rewrite E3. fold ns. set (c3 := MkClient w3 _ _) in *.
  destruct T2 as [T2 U2]. assert (El : live c3 = live c) by (rewrite (proj1 S3); apply T2).
  assert (Hok3 : client_ok c3). { destruct Hok as [Hc Hpl]. split; [apply S3, T2, Hc|by rewrite El]. }
  pose proof (delete_known ns (buildRootCNINetworkName (csp_RealmName (cell_Spec ic)) (csp_SpaceName (cell_Spec ic))) ic c3 Hok3 Hns Hp) as Hd.
  match type of Hd with context [?m c3] => destruct (m c3) as [c' r] end. unfold deleted_exactly in *. rewrite El in Hd.
  destruct Hd as (D1 & D2 & D3 & D4). split_and!; [done|done|done|]. intros Hs. rewrite (D4 Hs). cbn in *. congruence.
Qed.
End DeleteCell.
End DeleteTheorems.

End TeardownTheorems.

(** ** A concrete host: the containers of [Toy], the cell records and the detaches *)

Record Host := { ho_containers : Toy; ho_records : list string; ho_detached : list RuntimeConf }.
Definition on_containers {A} (m : st Toy A) : st Host A := fun w =>
  let '(t, a) := m (ho_containers w) in ({| ho_containers := t; ho_records := ho_records w; ho_detached := ho_detached w |}, a).
Definition forget_record (name : string) : st Host (option error) := fun w =>
  ({| ho_containers := ho_containers w; ho_records := List.filter (fun r => negb (HasPrefix r name)) (ho_records w);
      ho_detached := ho_detached w |}, None).

#[export] Instance host_Containerd : Containerd Host := {|
  CContainer := string; CTask := string; CImage := string; cd_IsNotFound := cd_IsNotFound (W := Toy);
  cd_LoadContainer := fun ns id => on_containers (cd_LoadContainer (W := Toy) ns id);
  cd_Containers := fun ns => on_containers (cd_Containers (W := Toy) ns);
  cd_NewContainer := fun ns id img k sn l _ => on_containers (cd_NewContainer (W := Toy) ns id img k sn l []);
  con_ID := fun c => c; con_Task := fun ns c => on_containers (con_Task (W := Toy) ns c);
  con_NewTask := fun ns c io => on_containers (con_NewTask (W := Toy) ns c io);
  con_Delete := fun ns c b => on_containers (con_Delete (W := Toy) ns c b);
  con_Spec := fun ns c => on_containers (con_Spec (W := Toy) ns c); con_Update := fun _ _ _ => st_ret None;
  con_Labels := fun _ _ => st_ret (∅, None); con_SetLabels := fun _ _ _ => st_ret None;
  tsk_Status := fun ns t => on_containers (tsk_Status (W := Toy) ns t);
  tsk_Kill := fun ns t sig => on_containers (tsk_Kill (W := Toy) ns t sig);
  tsk_Wait := fun _ _ _ => st_ret (Ok (WaitExited 0)); tsk_Pid := fun _ => 42%Z;
  tsk_Start := fun ns t => on_containers (tsk_Start (W := Toy) ns t); tsk_Delete := fun _ _ => st_ret None;
  cd_GetImage := fun _ ref => st_ret (Ok ref); cd_CreateLease := fun _ => st_ret (Ok "lease"); cd_DeleteLease := fun _ => st_ret None;
  cd_Pull := fun _ _ ref _ => st_ret (Ok ref); img_Name := fun i => i; img_IsUnpacked := fun _ _ _ => st_ret (Ok true);
  img_Unpack := fun _ _ _ => st_ret None; cd_ParseReference := Ok; cd_MkdirAll := fun _ => st_ret None;
  cd_RelocateToLeaf := fun _ _ => st_ret None; cd_sleep := fun _ => st_ret () |}.
#[export] Instance host_OciHost : OciHost Host := {|
  oh_lib := fun _ s => st_ret (Ok s); oh_ReadFile := fun _ => st_ret (Ok "{}"); oh_ParseSeccomp := Ok;
  oh_StatID := fun _ => st_ret (Ok 1%Z); oh_ReadDir := fun _ => st_ret (Ok []);
  oh_DeviceFromPath := fun _ => st_ret (Err (EOpaque "no such file")); oh_NotADevice := fun _ => false;
  oh_IsNotExist := fun _ => false |}.
#[export] Instance host_Laws : ContainerdLaws Host.
Proof.
  refine {| srv := fun w => dom (ho_containers w) |}; intros; cbn -[toy_get toy_update].
  - exact (law_load (W := Toy) ns id (ho_containers w)).
  - exact (law_list (W := Toy) ns (ho_containers w)).
  - pose proof (law_delete (W := Toy) ns c b (ho_containers w)) as L. cbn -[toy_update] in L. unfold on_containers.
    by destruct (toy_update _ ns c (ho_containers w)) as [t [e|]].
  - exact (law_new (W := Toy) ns id img key sn labels [] (ho_containers w)).
  - exact (law_task (W := Toy) ns c (ho_containers w)).
  - exact (law_status (W := Toy) ns t (ho_containers w)).
  - pose proof (law_kill (W := Toy) ns t sig (ho_containers w)) as L. cbn -[toy_update] in L. unfold on_containers.
    by destruct (toy_update _ ns t (ho_containers w)).
  - done.
  - done.
  - done.
Defined.

(** Process 42 lives in a network namespace of its own, with inode 7. *)
#[export] Instance host_CniHost : CniHost Host := {|
  NetConf := (); CniResult := (); os_Stat := fun _ => st_ret None; os_ReadFile := fun _ => st_ret (Ok "");
  os_WriteFile := fun _ _ _ => st_ret None; os_Remove := fun _ => st_ret None; os_RemoveAll := forget_record;
  os_MkdirAll := fun _ _ => st_ret None; os_ReadDir := fun _ => st_ret (Ok []); os_Glob := fun _ => st_ret (Ok []);
  os_NotExist := fun _ => false; sys_Stat := fun p => st_ret (Ok (0%Z, if String.eqb p selfNetns then 1%Z else 7%Z));
  json_Decode := fun _ => Err (EOpaque "unsupported"); json_Encode := fun _ => Err (EOpaque "unsupported");
  json_DecodeBridge := fun _ => Err (EOpaque "unsupported"); err_Text := fun _ => "";
  iptables_run := fun _ => st_ret ("", None); ip_run := fun _ => st_ret ("", None);
  cni_ConfListFromFile := fun _ => st_ret (Ok ()); net_Name := fun _ => ""; net_Plugins := fun _ => [];
  cni_AddNetworkList := fun _ _ => st_ret (Ok ());
  cni_DelNetworkList := fun _ rt w =>
    ({| ho_containers := ho_containers w; ho_records := ho_records w; ho_detached := ho_detached w ++ [rt] |}, None);
  cni_CachedResult := fun _ _ => st_ret (Ok None); result_IPs := fun _ => Ok [] |}.
#[export] Instance host_DetachLaws : DetachLaws Host.
Proof. by refine {| detached := ho_detached; netns_of := fun p => Ok (0%Z, if String.eqb p selfNetns then 1%Z else 7%Z) |}. Defined.

(** The cell web of one workload and its root. *)
Definition host_root : ContainerSpec := {|
  c_ID := "root"; c_ContainerdID := "s_t_web_root"; c_RealmName := "r"; c_SpaceName := "s"; c_StackName := "t"; c_CellName := "web";
  c_Root := true; c_Image := "img"; c_Command := ""; c_Args := []; c_WorkingDir := ""; c_Env := []; c_Ports := []; c_Volumes := [];
  c_Networks := []; c_NetworksAliases := []; c_Privileged := false; c_HostNetwork := false; c_HostPID := false; c_HostCgroup := false;
  c_NestedCgroupRuntime := false; c_User := ""; c_ReadOnlyRootFilesystem := false; c_Capabilities := None; c_SecurityOpts := [];
  c_Devices := []; c_Tmpfs := []; c_Resources := None; c_Secrets := []; c_Repos := []; c_Git := None; c_CNIConfigPath := "";
  c_RestartPolicy := "no"; c_RestartBackoffSeconds := None; c_RestartMaxRetries := None; c_Attachable := false; c_Tty := None;
  c_CellCgroupPath := ""; c_EtcHostsPath := ""; c_EtcHostnamePath := "" |}.
Definition host_cell : Cell := {|
  cell_Metadata := cell_Metadata (cell_named "r" "s" "t" "web");
  cell_Spec := {| csp_ID := "web"; csp_RealmName := "r"; csp_SpaceName := "s"; csp_StackName := "t"; csp_RootContainerID := "root";
                  csp_Tty := None; csp_Containers := [host_root; sample_container "app" false "no"]; csp_AutoDelete := false;
                  csp_NestedCgroupRuntime := false; csp_RuntimeEnv := []; csp_Provenance := None; csp_IgnoreDiskPressure := false |};
  cell_Status := zero_CellStatus |}.
Definition host_realm : Realm := {|
  realm_Metadata := realm_Metadata (realm_named "r");
  realm_Spec := {| rsp_Namespace := "r.kukeon.io"; rsp_RegistryCredentials := [] |};
  realm_Status := realm_Status (realm_named "r") |}.
#[export] Instance host_RunnerStore : RunnerStore Host := {|
  sto_nowUTC := st_ret 9%Z; sto_ensureClientConnected := st_ret None;
  sto_GetRealm := fun _ => st_ret (Ok host_realm); sto_GetSpace := fun s => st_ret (Ok s);
  sto_GetCell := fun _ => st_ret (Ok host_cell); sto_UpdateCellMetadata := fun _ => st_ret None;
  sto_DeleteMetadata := forget_record; sto_pullSetupStatus := fun _ => st_ret (Err (EOpaque "no socket"));
  sto_cgroupMountpoint := "/sys/fs/cgroup"; sto_DeleteCgroup := fun _ _ => st_ret None |}.
#[local] Instance host_HostConfig : HostConfig := {|
  SignalName := fun _ => ""; RealmNamespaceSuffix := ".kukeon.io"; RunPath := "/run/kukeon" |}.
Definition host_conf : Conf := {| cf_CniConfigDir := "/etc/cni"; cf_CniBinDir := "/opt/cni/bin"; cf_CniCacheDir := "/var/lib/cni" |}.

Lemma host_sanitize p w : ∃ q, sanitizeDELNetns p w = (w, q).
Proof. destruct (sanitized p w) as (q & E & _). by exists q. Qed.
(** A part of the world the containers are apart from is kept by the operations on them. *)
Lemma host_keeps {A B} (f : Host → A) (m : st Toy B) w :
  (∀ w t, f {| ho_containers := t; ho_records := ho_records w; ho_detached := ho_detached w |} = f w) → f (on_containers m w).1 = f w.
Proof. intros Hf. unfold on_containers. destruct (m (ho_containers w)). apply Hf. Qed.

#[export] Instance host_cni {A} (f : Host → A) :
  (∀ w rt, f {| ho_containers := ho_containers w; ho_records := ho_records w; ho_detached := ho_detached w ++ [rt] |} = f w) →
  CniRespects (fun w w' => f w' = f w) any_netns.
Proof.
  intros Hf. constructor; try done.
  - split; [done|]. intros x y z K1 K2. congruence.
  - intros c rt _ w. apply Hf.
  - intros p w. by destruct (host_sanitize p w) as [q ->].
Qed.
#[export] Instance host_stop : StopRespects (same_srv (W := Host)) any_netns.
Proof.
  constructor; intros; try done; try (intros w).
  - by apply (host_cni srv).
  - apply law_kill.
Qed.
#[export] Instance host_record : RecordRespects (same_srv (W := Host)).
Proof. done. Qed.
#[export] Instance host_delete : DeleteRespects (fun w w' => ho_records w' = ho_records w) any_netns.
Proof. constructor; [constructor|]; intros; try done; try (by apply (host_cni ho_records)); intros w; by apply host_keeps. Qed.
#[export] Instance host_spares : DeleteRespects (spares_own (W := Host)) foreign_netns.
Proof. constructor; [constructor; try typeclasses eauto|]; intros; apply quiet_spares; intros w; try done; by apply host_keeps. Qed.
#[export] Instance host_spares_record : RecordRespects (spares_own (W := Host)).
Proof. constructor; intros; by apply quiet_spares. Qed.

(** Another cell's container beside those of web, and an orphan of web. *)
Definition host_client : Client Host := MkClient
  {| ho_containers := list_to_map [(("r.kukeon.io", "s_t_web_app"), true); (("r.kukeon.io", "s_t_web_root"), true);
                                   (("r.kukeon.io", "s_t_web_old"), false); (("r.kukeon.io", "s_t_webb_app"), true)];
     ho_records := ["/run/kukeon/data/r/s/t/web"]; ho_detached := [] |} ∅ ∅.

Lemma host_ok : client_ok host_client ∧ plain_cell host_cell.
Proof.
  split; [split; [by intros ns id h _ _ Hl|]|by repeat constructor].
  intros p Hp. unfold live in Hp. cbn -[list_to_map] in Hp. rewrite dom_list_to_map_L in Hp. cbn in Hp.
  repeat (apply elem_of_union in Hp as [->%elem_of_singleton|Hp]; [done|]). by apply elem_of_empty in Hp.
Qed.
Lemma delete_cell_exact_witness :
  let '(c', r) := deleteCellLocked host_conf host_cell host_client in
  r = None ∧ ("r.kukeon.io", "s_t_web_old") ∉ live c' ∧ ("r.kukeon.io", "s_t_webb_app") ∈ live c'.
Proof.
  destruct host_ok as [Hok Hp].
  pose proof (delete_cell_exact host_conf ho_records host_delete host_record host_cell host_cell
    host_realm (cl_world host_client) host_client eq_refl eq_refl Hok eq_refl Hp) as Hd.
  destruct (deleteCellLocked host_conf host_cell host_client) as [c' r] eqn:E.
  assert (Er : r = (deleteCellLocked host_conf host_cell host_client).2) by by rewrite E.
  vm_compute in Er. subst r. destruct Hd as (_ & Hown & Hgone & _). split_and!; [done| |].
  - apply Hgone; [done|]. split; [done|]. left. by vm_compute.
  - destruct (decide (("r.kukeon.io", "s_t_webb_app") ∈ live c')) as [|Hn]; [done|].
    assert (Hin : ("r.kukeon.io", "s_t_webb_app") ∈ live host_client) by (by apply (bool_decide_unpack _); vm_compute).
    destruct (Hown _ Hin Hn) as (_ & [Hx|[Hx|[_ Hx]]]); [by vm_compute in Hx|by vm_compute in Hx|].
    change ("s_t_webb_app" ∈ ["s_t_web_root"; ""]) in Hx. by apply list_elem_of_In in Hx as [Hx|[Hx|[]]].
Defined.

Lemma stop_keeps_containers_witness :
  live (stopCellLocked host_conf host_cell host_client).1 = live host_client ∧
  match (stopCellLocked host_conf host_cell host_client).2 with
  | Ok cell' => cst_State (cell_Status cell') = CellStateStopped
  | Err _ => False
  end.
Proof.
  destruct (stop_keeps_containers host_conf host_cell host_client rr_update) as (Hl & _ & _ & Hs). split; [done|].
  destruct ((stopCellLocked host_conf host_cell host_client).2) as [cell'|e] eqn:E; [by apply Hs; left|]. by vm_compute in E.
Defined.

Lemma teardown_spares_own_netns_witness :
  let c' := (deleteCellLocked host_conf host_cell host_client).1 in
  spares_own (cl_world host_client) (cl_world c') ∧ ho_detached (cl_world c') ≠ [].
Proof.
  destruct (teardown_spares_own_netns host_conf host_cell host_client) as (_ & _ & Hd & _). split; [exact Hd|].
  intros E. by vm_compute in E.
Defined.
