(* ===== verification/Attachable.v ===== *)
(** * Attachable: the host side of a container that is about to run
    (runner/attachable.go, kukepause.go, cell_etc_files.go, cell_cgroup_path.go, the
    ownership of volumes in runner/volume.go; ctr/secrets.go and CreateContainerFromSpec
    of ctr/container.go)

    The files a container needs on the host before its task starts: the socket symlink, the
    terminal directory and the document of an attachable container, the staged binaries,
    the cell's /etc files and the staged secrets.  File operations are the classes
    [CniHost] and [NodeHost]. *)

From Stdlib Require Import Ascii ZArith Lia.
From stdpp Require Import base gmap strings list.
From S2P Require Import Prelude Model External Validate Scheme Sha256 Naming Layout Objects Observe Subnet NetPolicy OciSpec Containerd Cni.

Local Open Scope nat_scope.

(** runner.Options beyond the paths of [HostConfig] *)
Class RunnerOpts := {
  opt_ForceRegenerateCNI : bool;
  opt_KukeonGroupGID : Z;
  opt_DefaultMemoryLimitBytes : Z;
  opt_KukettyLogLevel : string;
  opt_DiskPressureBlockPercent : Z
}.

Class NodeHost (W : Type) := {
  (** os.Stat: the size and the permission bits *)
  os_Info : string → st W (result (Z * Z));
  os_Chmod : string → Z → st W (option error);
  os_Chown : string → Z → Z → st W (option error);
  os_Lchown : string → Z → Z → st W (option error);
  (** target, then link *)
  os_Symlink : string → string → st W (option error);
  os_Rename : string → string → st W (option error);
  os_Open : string → st W (option error);
  (** create or truncate for writing *)
  os_OpenTrunc : string → Z → st W (option error);
  os_CreateTemp : string → string → st W (result string);
  io_Copy : string → string → st W (option error);
  io_ReadAll : string → st W (result string);
  io_WriteString : string → string → st W (option error);
  os_Close : string → st W (option error);
  (** filepath.Walk: the visits of the callback in order *)
  os_Walk : string → st W (list (string * option error));
  os_Executable : st W (result string);
  exec_LookPath : string → st W (result string);
  os_LookupEnv : string → st W (option string);
  json_ContainerDoc : ext.ContainerDoc → result string;
  (** resolveVolumeMounts and ResolveVolumeMount of ctr/volume_ref.go, see [Objects] *)
  vol_ResolveAll : string → VolumeScope → list VolumeMount → st W (result (list VolumeMount));
  vol_Resolve : string → VolumeScope → VolumeMount → st W (result ResolvedVolume)
}.

Section Attachable.
Context {W : Type} `{Containerd W} `{OciHost W} `{CniHost W} `{NodeHost W} `{HostConfig} `{RunnerOpts}.
Notation C := (Client W).

(** A missing file is no failure. *)
Definition unless_missing (wrap : error → error) (m : st W (option error)) : st W (result unit) :=
  let! e := m in
  st_ret (match e with Some e => if os_NotExist e then Ok () else Err (wrap e) | None => Ok () end).

(** ** Socket symlinks *)

Definition KukeonMaxSocketPath : nat := 107.
(** 0755 *)
Definition attachableSocketSymlinkDirMode : Z := 493.

Definition ensureAttachableSocketSymlink (spec : ContainerSpec) : st W (result unit) :=
  let symlinkPath := ContainerSocketSymlinkPath RunPath (c_RealmName spec) (c_SpaceName spec) (c_StackName spec) (c_CellName spec) (c_ID spec) in
  if (KukeonMaxSocketPath <? String.length symlinkPath) then
    st_ret (Err (EWrap "%w: %q is %d bytes (limit %d)" [ESentinel ErrSocketPathTooLong]))
  else
    let!? _ := st_check (wrapf "mkdir %q: %w") (os_MkdirAll (RunPath +:+ "/" +:+ KukeonSocketSymlinkSubdir) attachableSocketSymlinkDirMode) in
    let!? _ := unless_missing (wrapf "remove stale symlink %q: %w") (os_Remove symlinkPath) in
    st_check (wrapf "symlink %q -> %q: %w")
      (os_Symlink (ContainerSocketPath RunPath (c_RealmName spec) (c_SpaceName spec) (c_StackName spec) (c_CellName spec) (c_ID spec)) symlinkPath).

(** 0660 *)
Definition attachableSocketReapplyMode : Z := 432.
Definition reapplyAttachableSocketPerm (spec : ContainerSpec) : st W unit :=
  let socketPath := ContainerSocketPath RunPath (c_RealmName spec) (c_SpaceName spec) (c_StackName spec) (c_CellName spec) (c_ID spec) in
  let! e := os_Chmod socketPath attachableSocketReapplyMode in
  match e with
  | Some _ => st_ret ()
  | None => if (0 <? opt_KukeonGroupGID)%Z then let! _ := os_Chown socketPath (-1) opt_KukeonGroupGID in st_ret () else st_ret ()
  end.
Definition ReapplyAttachableSocketPerms (spec : ContainerSpec) : st W unit :=
  if c_Attachable spec then reapplyAttachableSocketPerm spec else st_ret ().
Fixpoint reapplyEach (specs : list ContainerSpec) : st W unit :=
  match specs with
  | [] => st_ret ()
  | s :: rest => let! _ := ReapplyAttachableSocketPerms s in reapplyEach rest
  end.
Definition reapplyAttachableSocketPerms (cell : Cell) : st W unit := reapplyEach (csp_Containers (cell_Spec cell)).

(** ** Staged binaries *)

Definition kukettyBinaryStagedSubdir : string := "bin".
(** 0111 *)
Definition execBits : Z := 73.

Definition stagedBinaryUsable (path : string) : st W (result bool) :=
  let! info := os_Info path in
  st_ret (match info with
          | Err e => if os_NotExist e then Ok false else Err (EWrap "stat %q: %w" [e])
          | Ok (size, mode) => Ok (negb (size =? 0)%Z && negb (Z.land mode execBits =? 0)%Z)
          end).

Definition usable (path : string) : st W bool :=
  let! ok := stagedBinaryUsable path in st_ret (match ok with Ok b => b | Err _ => false end).

(** The same search for kuketty and kukepause: the image, beside the executable, the path. *)
Definition resolveBinary (name : string) : st W (result string) :=
  let insideDaemon := "/bin/" +:+ name in
  let! ok := usable insideDaemon in
  if ok then st_ret (Ok insideDaemon)
  else
    let onPath :=
      (let! p := exec_LookPath name in
       st_ret (match p with Ok p => Ok p | Err _ => Err (EOpaque "binary not found in: %v") end)) in
    let! self := os_Executable in
    match self with
    | Err _ => onPath
    | Ok self =>
        let sibling := FJoin [FDir self; name] in
        let! ok := usable sibling in
        if ok then st_ret (Ok sibling) else onPath
    end.
Definition resolveKukettyBinary : st W (result string) := resolveBinary "kuketty".
Definition resolveKukepauseBinary : st W (result string) := resolveBinary "kukepause".

Definition copyBinaryAtomic (src dst : string) : st W (result unit) :=
  let tmp := dst +:+ ".tmp" in
  let drop_tmp (m : st W (option error)) (text : string) : st W (result unit) :=
    let! e := m in
    match e with
    | None => st_ret (Ok ())
    | Some e => let! _ := os_Remove tmp in st_ret (Err (wrapf text e))
    end in
  let!? _ := st_check (wrapf "open %s source %q: %w") (os_Open src) in
  let!? _ := st_check (wrapf "create %s staged tmp %q: %w") (os_OpenTrunc tmp 493) in
  let!? _ := drop_tmp (io_Copy src tmp) "copy %s %q -> %q: %w" in
  let!? _ := drop_tmp (os_Close tmp) "close %s staged tmp %q: %w" in
  drop_tmp (os_Rename tmp dst) "rename %s staged %q -> %q: %w".

Definition sha256File (path : string) : st W (result (list Z)) :=
  let!? _ := st_check (wrapf "open %q: %w") (os_Open path) in
  let!? data := st_wrap (wrapf "hash %q: %w") (io_ReadAll path) in
  st_ret (Ok (sha256 (bytes_of_string data))).

Definition sameFileContent (a b : string) : st W (result bool) :=
  let!? ai := st_wrap (wrapf "stat %q: %w") (os_Info a) in
  let!? bi := st_wrap (wrapf "stat %q: %w") (os_Info b) in
  if negb (ai.1 =? bi.1)%Z then st_ret (Ok false)
  else
    let!? ah := sha256File a in
    let!? bh := sha256File b in
    st_ret (Ok (bool_decide (ah = bh))).

Definition ensureStagedBinary (src dst : string) : st W (result bool) :=
  let!? ok := stagedBinaryUsable dst in
  let stage :=
    (let!? _ := st_check (wrapf "mkdir %q: %w") (os_MkdirAll (FDir dst) 493) in
     let!? _ := copyBinaryAtomic src dst in
     st_ret (Ok true)) in
  if ok then
    let!? same := sameFileContent src dst in
    if same then st_ret (Ok false) else stage
  else stage.

Definition stageKukettyBinary : st W (result string) :=
  let dst := FJoin [FJoin [RunPath; kukettyBinaryStagedSubdir]; "kuketty"] in
  let! src := resolveKukettyBinary in
  match src with
  | Err e => let! ok := usable dst in st_ret (if ok then Ok dst else Err e)
  | Ok src => let!? _ := ensureStagedBinary src dst in st_ret (Ok dst)
  end.

Definition stageKukepauseBinary : st W (result string) :=
  let dstDir := FJoin [RunPath; kukettyBinaryStagedSubdir] in
  let dst := FJoin [dstDir; "kukepause"] in
  let!? ok := stagedBinaryUsable dst in
  if ok then st_ret (Ok dst)
  else
    let!? src := resolveKukepauseBinary in
    let!? _ := st_check (wrapf "mkdir %q: %w") (os_MkdirAll dstDir 493) in
    let!? _ := copyBinaryAtomic src dst in
    st_ret (Ok dst).

(** ** The document of an attachable container *)

Definition resolveTtyLogLevel (t : option ContainerTty) (serverConfigLevel : string) : string :=
  let own := match t with Some t => ct_LogLevel t | None => "" end in
  or_default own (or_default serverConfigLevel "info").

(** Empty fields are left out. *)
Definition label_unless_empty (p : string * string) (m : gmap string string) : gmap string string :=
  if String.eqb p.2 "" then m else <[p.1 := p.2]> m.
Definition kukettyMetadataLabels (spec : ContainerSpec) : gmap string string :=
  foldr label_unless_empty ∅
    [("kukeon.io/realm", c_RealmName spec); ("kukeon.io/space", c_SpaceName spec); ("kukeon.io/stack", c_StackName spec);
     ("kukeon.io/cell", c_CellName spec); ("kukeon.io/container-id", c_ID spec)].

(** The gate of [Observe] on the stages of a document, which have the same two fields. *)
Definition gateStages (onInit : list ext.TtyStage) (prior : list StageStatus) : list ext.TtyStage :=
  (fun s => ext.Build_TtyStage (ts_Script s) (ts_RunOn s)) <$>
    applyStageRenderGate ((fun s => Build_TtyStage (ext.ts_Script s) (ext.ts_RunOn s)) <$> onInit) prior.

Definition renderedTty (tty : option ext.ContainerTty) (level : string) (prior : list StageStatus) : ext.ContainerTty :=
  let t := default {| ext.ct_Prompt := ""; ext.ct_OnInit := []; ext.ct_LogFile := ""; ext.ct_LogLevel := "" |} tty in
  {| ext.ct_Prompt := ext.ct_Prompt t; ext.ct_OnInit := gateStages (ext.ct_OnInit t) prior; ext.ct_LogFile := ext.ct_LogFile t;
     ext.ct_LogLevel := level |}.

(** The command is the resolved one; the group and the terminal block are the daemon's. *)
Definition renderedSpec (spec : ContainerSpec) (workloadArgv : list string) (priorStages : list StageStatus) : ext.ContainerSpec :=
  let 'ext.Build_ContainerSpec id cid r s t ce root im _ _ wd env po vo ne na pr hn hp hc us ro ca so
    de tm re se rp gi cp pol bo mr at_ ty _ := BuildContainerSpecExternalFromInternal spec in
  let '(command, args) := match workloadArgv with [] => ("", []) | c :: a => (c, a) end in
  ext.Build_ContainerSpec id cid r s t ce root im command args wd env po vo ne na pr hn hp hc us ro ca so
    de tm re se rp gi cp pol bo mr at_ (Some (renderedTty ty (resolveTtyLogLevel (c_Tty spec) opt_KukettyLogLevel) priorStages))
    opt_KukeonGroupGID.

Definition kukettyDoc (spec : ContainerSpec) (workloadArgv : list string) (priorStages : list StageStatus) : ext.ContainerDoc := {|
  ext.cont_APIVersion := ext.APIVersionV1Beta1; ext.cont_Kind := ext.KindContainer;
  ext.cont_Metadata := {| ext.ctm_Name := c_ID spec; ext.ctm_Labels := kukettyMetadataLabels spec |};
  ext.cont_Spec := renderedSpec spec workloadArgv priorStages;
  ext.cont_Status := containerStatusToExternal zero_ContainerStatus |}.

Definition writeKukettyDoc (path : string) (spec : ContainerSpec) (workloadArgv : list string) (priorStages : list StageStatus)
    : st W (option error) :=
  match json_ContainerDoc (kukettyDoc spec workloadArgv priorStages) with
  | Err e => st_ret (Some (EWrap "marshal kuketty doc: %w" [e]))
  | Ok data =>
      let tmp := path +:+ ".tmp" in
      let! e := os_WriteFile tmp data 384 in
      match e with
      | Some e => st_ret (Some (EWrap "write kuketty doc %q: %w" [e]))
      | None =>
          let! e := os_Rename tmp path in
          match e with
          | Some e => let! _ := os_Remove tmp in st_ret (Some (EWrap "rename kuketty doc %q -> %q: %w" [e]))
          | None => st_ret None
          end
      end
  end.

(** setgid and 0750, or 0700 without a group *)
Definition attachableTTYDirRootMode : Z := 1512.
Definition attachableTTYDirNoGroupMode : Z := 448.
Definition attachableTTYDirInitialPerms (kukeonGroupGID : Z) : Z * Z :=
  if (0 <? kukeonGroupGID)%Z then (attachableTTYDirRootMode, kukeonGroupGID) else (attachableTTYDirNoGroupMode, 0%Z).

Definition AttachableMetadataFile : string := "kuketty-metadata.json".
Definition ttyDirOf (spec : ContainerSpec) : string :=
  ContainerTTYDir RunPath (c_RealmName spec) (c_SpaceName spec) (c_StackName spec) (c_CellName spec) (c_ID spec).

(** The document is not written here: the options carry the function that writes it once
    containerd has resolved the command. *)
Definition attachableBuildOpts (spec : ContainerSpec) (priorStages : list StageStatus) : st W (result (list (BuildOption W))) :=
  if negb (c_Attachable spec) then st_ret (Ok [])
  else
    let!? _ := ensureAttachableSocketSymlink spec in
    let ttyDir := ttyDirOf spec in
    let '(mode, gid) := attachableTTYDirInitialPerms opt_KukeonGroupGID in
    let!? _ := st_check id (os_MkdirAll ttyDir mode) in
    let containerDir := FDir ttyDir in
    let!? _ := st_check (wrapf "chmod %q to %v: %w") (os_Chmod containerDir mode) in
    let!? _ := st_check (wrapf "chmod %q to %v: %w") (os_Chmod ttyDir mode) in
    let!? _ := (if (0 <? gid)%Z then
                  let!? _ := st_check (wrapf "chown %q to root:%d: %w") (os_Chown containerDir 0 gid) in
                  st_check (wrapf "chown %q to root:%d: %w") (os_Chown ttyDir 0 gid)
                else st_ret (Ok ())) in
    let!? binaryPath := stageKukettyBinary in
    let metadataPath := FJoin [containerDir; AttachableMetadataFile] in
    st_ret (Ok [WithAttachableInjection {|
      inj_KukettyBinaryPath := binaryPath; inj_HostTTYDir := ttyDir; inj_HostMetadataPath := metadataPath;
      inj_RenderMetadata := Some (fun workloadArgv => writeKukettyDoc metadataPath spec workloadArgv priorStages) |}]).

(** The visits of the walk in order; the first failure ends it. *)
Fixpoint chownVisits (root : string) (uid gid : Z) (visits : list (string * option error)) : st W (result unit) :=
  match visits with
  | [] => st_ret (Ok ())
  | (path, Some e) :: rest => if os_NotExist e then chownVisits root uid gid rest else st_ret (Err e)
  | (path, None) :: rest =>
      if String.eqb path root then chownVisits root uid gid rest
      else
        let!? _ := unless_missing (wrapf "chown %q to (uid=%d, gid=%d): %w") (os_Lchown path uid gid) in
        chownVisits root uid gid rest
  end.
Definition chownAttachableStaleChildren (root : string) (uid gid : Z) : st W (result unit) :=
  let! visits := os_Walk root in chownVisits root uid gid visits.

(** The user the container runs as, read off its spec in containerd. *)
Definition processUID (namespace : string) (spec : ContainerSpec) : st C (result Z) :=
  let containerdID := or_default (c_ContainerdID spec) (c_ID spec) in
  let!? container := st_wrap (wrapf "get container %q: %w") (GetContainer namespace containerdID) in
  st_wrap (wrapf "resolve process uid for %q: %w") (ContainerProcessUID namespace container).

Definition attachablePostCreateChown (namespace : string) (spec : ContainerSpec) : st C (result unit) :=
  if negb (c_Attachable spec) then st_ret (Ok ())
  else
    let!? uid := processUID namespace spec in
    let ttyDir := ttyDirOf spec in
    let gid := opt_KukeonGroupGID in
    let!? _ := remote (st_check (wrapf "chown %q to (uid=%d, gid=%d): %w") (os_Chown ttyDir uid gid)) in
    let!? _ := remote (unless_missing (wrapf "chown %q to (uid=%d, gid=%d): %w")
                         (os_Chown (FJoin [FDir ttyDir; AttachableMetadataFile]) uid gid)) in
    remote (st_wrap (wrapf "chown stale children under %q: %w") (chownAttachableStaleChildren ttyDir uid gid)).

(** ** The owner of mounted volumes (volume.go) *)

Definition chownVolumeDirToUID (path : string) (uid : Z) : st W (result unit) :=
  let!? _ := st_check (fun e => EWrap "%w: chown volume dir %q to uid %d: %w" [ESentinel ErrWriteVolume; e]) (os_Chown path uid (-1)) in
  st_check (fun e => EWrap "%w: chmod volume dir %q: %w" [ESentinel ErrWriteVolume; e])
    (os_Chmod path (volumeDirInitialPerms opt_KukeonGroupGID).1).
Fixpoint chownVolumes (paths : list string) (uid : Z) : st W (result unit) :=
  match paths with
  | [] => st_ret (Ok ())
  | p :: rest => let!? _ := chownVolumeDirToUID p uid in chownVolumes rest uid
  end.
Fixpoint volumeTargets (scope : VolumeScope) (mounts : list VolumeMount) : st W (result (list string)) :=
  match mounts with
  | [] => st_ret (Ok [])
  | m :: rest =>
      if negb (String.eqb (vm_Kind m) ext.VolumeKindVolume) || vm_ReadOnly m then volumeTargets scope rest
      else
        let!? resolved := st_wrap (wrapf "resolve volume mount for target %q: %w") (vol_Resolve RunPath scope m) in
        let!? others := volumeTargets scope rest in
        st_ret (Ok (rv_HostPath resolved :: others))
  end.
Definition volumePostCreateChown (namespace : string) (spec : ContainerSpec) : st C (result unit) :=
  let scope := {| vs_Realm := c_RealmName spec; vs_Space := c_SpaceName spec; vs_Stack := c_StackName spec |} in
  let!? targets := remote (volumeTargets scope (c_Volumes spec)) in
  match targets with
  | [] => st_ret (Ok ())
  | _ =>
      let!? uid := processUID namespace spec in
      if (uid =? 0)%Z then st_ret (Ok ()) else remote (chownVolumes targets uid)
  end.

(** ** The cell's /etc files (cell_etc_files.go) *)

Definition tab : string := String (ascii_of_nat 9) "".
Definition line (l : string) : string := l +:+ String (ascii_of_nat 10) "".
Definition etcHostsLocalhostBlock : string :=
  line ("127.0.0.1" +:+ tab +:+ "localhost") +:+ line ("::1" +:+ tab +:+ "localhost ip6-localhost ip6-loopback") +:+
  line ("fe00::" +:+ tab +:+ "ip6-localnet") +:+ line ("ff00::" +:+ tab +:+ "ip6-mcastprefix") +:+
  line ("ff02::1" +:+ tab +:+ "ip6-allnodes") +:+ line ("ff02::2" +:+ tab +:+ "ip6-allrouters").

Definition writeEtcFile (path cellName content : string) : st W (result unit) :=
  if String.eqb (TrimSpace cellName) "" then st_ret (Err (EOpaque "cell name is empty"))
  else
    let!? _ := st_check (wrapf "create cell metadata dir: %w") (os_MkdirAll (FDir path) 493) in
    st_check (wrapf "write %s: %w") (os_WriteFile path content 420).
Definition renderCellEtcHostname (path cellName : string) : st W (result unit) :=
  writeEtcFile path cellName (line (TrimSpace cellName)).
Definition renderCellEtcHosts (path cellName : string) (cellIP : option IPv4) : st W (result unit) :=
  writeEtcFile path cellName
    (etcHostsLocalhostBlock +:+ match cellIP with Some ip => line (ip_String ip +:+ tab +:+ TrimSpace cellName) | None => "" end).

Fixpoint rootHostNetworkOf (rootID : string) (cs : list ContainerSpec) : bool :=
  match cs with
  | [] => false
  | c :: rest =>
      if negb (String.eqb rootID "") && String.eqb (c_ID c) rootID then c_HostNetwork c
      else if String.eqb rootID "" && c_Root c then c_HostNetwork c
      else rootHostNetworkOf rootID rest
  end.
Definition cellRootHostNetwork (cell : Cell) : bool :=
  rootHostNetworkOf (TrimSpace (csp_RootContainerID (cell_Spec cell))) (csp_Containers (cell_Spec cell)).

(** The two paths and whether the hosts file is left to the host; [None] when the cell is
    not fully named. *)
Definition cellEtcFilePaths (cell : Cell) : option (string * string * bool) :=
  let cellName := TrimSpace (cm_Name (cell_Metadata cell)) in
  let realmName := TrimSpace (csp_RealmName (cell_Spec cell)) in
  let spaceName := TrimSpace (csp_SpaceName (cell_Spec cell)) in
  let stackName := TrimSpace (csp_StackName (cell_Spec cell)) in
  if String.eqb cellName "" || String.eqb realmName "" || String.eqb spaceName "" || String.eqb stackName "" then None
  else Some (CellEtcHostnamePath RunPath realmName spaceName stackName cellName,
             CellEtcHostsPath RunPath realmName spaceName stackName cellName, cellRootHostNetwork cell).

Definition set_EtcPaths (hosts hostname : string) (c : ContainerSpec) : ContainerSpec :=
  let 'Build_ContainerSpec id cid r s t ce root im cm ar wd env po vo ne na pr hn hp hc nc us ro ca so
    de tm re se rp gi cp pol bo mr at_ ty cg _ _ := c in
  Build_ContainerSpec id cid r s t ce root im cm ar wd env po vo ne na pr hn hp hc nc us ro ca so
    de tm re se rp gi cp pol bo mr at_ ty cg hosts hostname.
Definition stampEtcFilePathsOnContainerSpec (paths : option (string * string * bool)) (spec : ContainerSpec) : ContainerSpec :=
  match paths with
  | None => spec
  | Some (hostnamePath, hostsPath, suppressHosts) => set_EtcPaths (if suppressHosts then "" else hostsPath) hostnamePath spec
  end.
Definition stampContainerRecreateRuntimeFields (spec : ContainerSpec) (cell : Cell) : ContainerSpec :=
  stampEtcFilePathsOnContainerSpec (cellEtcFilePaths cell) spec.
Definition with_Containers (l : list ContainerSpec) (cell : Cell) : Cell :=
  let '{| csp_ID := i; csp_RealmName := r; csp_SpaceName := s; csp_StackName := t; csp_RootContainerID := ro; csp_Tty := ty;
          csp_AutoDelete := ad; csp_NestedCgroupRuntime := nc; csp_RuntimeEnv := env; csp_Provenance := p; csp_IgnoreDiskPressure := d |} :=
    cell_Spec cell in
  {| cell_Metadata := cell_Metadata cell; cell_Spec := Build_CellSpec i r s t ro ty l ad nc env p d; cell_Status := cell_Status cell |}.
Definition stampCellEtcFilePathsOnContainers (cell : Cell) : Cell :=
  with_Containers (stampEtcFilePathsOnContainerSpec (cellEtcFilePaths cell) <$> csp_Containers (cell_Spec cell)) cell.

Definition renderCellEtcFilesPreCNI (cell : Cell) : st W (result unit) :=
  match cellEtcFilePaths cell with
  | None => st_ret (Ok ())
  | Some (hostnamePath, hostsPath, suppressHosts) =>
      let!? _ := renderCellEtcHostname hostnamePath (cm_Name (cell_Metadata cell)) in
      if suppressHosts then st_ret (Ok ()) else renderCellEtcHosts hostsPath (cm_Name (cell_Metadata cell)) None
  end.

Definition ensureFile (path : string) (render : st W (result unit)) : st W (result unit) :=
  let! e := os_Stat path in
  match e with
  | None => st_ret (Ok ())
  | Some e => if os_NotExist e then render else st_ret (Err (EWrap "stat %s: %w" [e]))
  end.
Definition ensureCellEtcFilesExistPreCNI (cell : Cell) : st W (result unit) :=
  match cellEtcFilePaths cell with
  | None => st_ret (Ok ())
  | Some (hostnamePath, hostsPath, suppressHosts) =>
      let!? _ := ensureFile hostnamePath (renderCellEtcHostname hostnamePath (cm_Name (cell_Metadata cell))) in
      if suppressHosts then st_ret (Ok ())
      else ensureFile hostsPath (renderCellEtcHosts hostsPath (cm_Name (cell_Metadata cell)) None)
  end.

Definition renderCellEtcHostsWithIP (cell : Cell) (cellIP : IPv4) : st W (result unit) :=
  match cellEtcFilePaths cell with
  | None => st_ret (Ok ())
  | Some (_, hostsPath, suppressHosts) =>
      if suppressHosts then st_ret (Ok ()) else renderCellEtcHosts hostsPath (cm_Name (cell_Metadata cell)) (Some cellIP)
  end.

(** ** The cgroup of the cell (cell_cgroup_path.go) *)

Definition set_CellCgroupPath (path : string) (c : ContainerSpec) : ContainerSpec :=
  let 'Build_ContainerSpec id cid r s t ce root im cm ar wd env po vo ne na pr hn hp hc nc us ro ca so
    de tm re se rp gi cp pol bo mr at_ ty _ eh en := c in
  Build_ContainerSpec id cid r s t ce root im cm ar wd env po vo ne na pr hn hp hc nc us ro ca so
    de tm re se rp gi cp pol bo mr at_ ty path eh en.
Definition setCellCgroupPath (spec : ContainerSpec) (cell : Cell) : ContainerSpec :=
  if negb (String.eqb (c_CellCgroupPath spec) "") then spec else set_CellCgroupPath (cst_CgroupPath (cell_Status cell)) spec.

(** ** Secrets of a container (ctr/secrets.go) *)

Definition DefaultSecretsStagingDir : string := "/run/kukeon/secrets".
(** 0400 *)
Definition secretFileMode : Z := 256.

Definition readSecretRefValue (ref : ContainerSecretRef) (runPath : string) : st W (result string) :=
  let! data := os_ReadFile (SecretPath runPath (csr_Realm ref) (csr_Space ref) (csr_Stack ref) (csr_Cell ref) (csr_Name ref)) in
  st_ret (match data with
          | Ok d => Ok d
          | Err e => if os_NotExist e then Err (EWrap "%w (secret %q ref %q at %q)" [ESentinel ErrSecretRefNotFound])
                     else Err (EWrap "failed to read referenced secret %q from %q: %w" [e])
          end).

Definition readSecretValue (s : ContainerSecret) (runPath : string) : st W (result string) :=
  match sec_SecretRef s with
  | Some ref => readSecretRefValue ref runPath
  | None =>
      if negb (String.eqb (TrimSpace (sec_FromFile s)) "") then
        let! data := os_ReadFile (TrimSpace (sec_FromFile s)) in
        st_ret (match data with
                | Ok d => Ok d
                | Err e => if os_NotExist e then Err (EWrap "%w (secret %q path %q)" [ESentinel ErrSecretFromFileNotFound])
                           else Err (EWrap "failed to read secret %q from %q: %w" [e])
                end)
      else
        let! value := os_LookupEnv (TrimSpace (sec_FromEnv s)) in
        st_ret (match value with Some v => Ok v | None => Err (EWrap "%w (secret %q env %q)" [ESentinel ErrSecretFromEnvNotSet]) end)
  end.

(** The temporary file is removed whatever happens; after the rename it is gone anyway. *)
Definition writeSecretFile (path value : string) : st W (result unit) :=
  let!? tmpPath := os_CreateTemp (FDir path) ".secret-*" in
  let! r := (let! e := io_WriteString tmpPath value in
             match e with
             | Some e => let! _ := os_Close tmpPath in st_ret (Err e)
             | None =>
                 let! e := os_Chmod tmpPath secretFileMode in
                 match e with
                 | Some e => let! _ := os_Close tmpPath in st_ret (Err e)
                 | None =>
                     let!? _ := st_check id (os_Close tmpPath) in
                     st_check id (os_Rename tmpPath path)
                 end
             end) in
  let! _ := os_Remove tmpPath in
  st_ret r.

Definition secretSources (s : ContainerSecret) : nat :=
  (if String.eqb (TrimSpace (sec_FromFile s)) "" then 0 else 1) + (if String.eqb (TrimSpace (sec_FromEnv s)) "" then 0 else 1)
  + match sec_SecretRef s with Some _ => 1 | None => 0 end.
Definition checkSecret (s : ContainerSecret) : result unit :=
  if String.eqb (TrimSpace (sec_Name s)) "" then Err (EWrap "%w (secrets[%d])" [ESentinel ErrSecretNameRequired])
  else if secretSources s =? 0 then Err (EWrap "%w (secrets[%d] %q)" [ESentinel ErrSecretSourceRequired])
  else if 1 <? secretSources s then Err (EWrap "%w (secrets[%d] %q)" [ESentinel ErrSecretMultipleSources])
  else if negb (String.eqb (TrimSpace (sec_MountPath s)) "") && negb (IsAbs (TrimSpace (sec_MountPath s))) then
    Err (EWrap "%w (secrets[%d] %q mountPath %q)" [ESentinel ErrSecretMountPathNotAbsolute])
  else Ok ().

Record resolvedSecrets := { rs_EnvAdds : list string; rs_MountAdds : list VolumeMount }.
Definition stagedSecretPath (stagingDir containerdID name : string) : string := FJoin [FJoin [stagingDir; containerdID]; name].
Definition secretMount (source target : string) : VolumeMount := {|
  vm_Kind := ""; vm_Source := source; vm_Target := target; vm_VolumeRef := None; vm_ReadOnly := true; vm_SizeBytes := 0%Z;
  vm_Mode := 0%Z; vm_Ensure := false |}.

(** [made]: the directory of the container exists by now *)
Fixpoint resolveSecretsFrom (containerdID stagingDir runPath : string) (made : bool) (secrets : list ContainerSecret) (out : resolvedSecrets)
    : st W (result resolvedSecrets) :=
  match secrets with
  | [] => st_ret (Ok out)
  | s :: rest =>
      let name := TrimSpace (sec_Name s) in
      let mountPath := TrimSpace (sec_MountPath s) in
      let staging (e : error) := EWrap "%w (secrets[%d] %q): %w" [ESentinel ErrSecretStagingFailed; e] in
      let!? _ := st_ret (checkSecret s) in
      let!? value := readSecretValue s runPath in
      if String.eqb mountPath "" then
        resolveSecretsFrom containerdID stagingDir runPath made rest
          {| rs_EnvAdds := rs_EnvAdds out ++ [name +:+ "=" +:+ value]; rs_MountAdds := rs_MountAdds out |}
      else
        let!? _ := (if made then st_ret (Ok ()) else st_check staging (os_MkdirAll (FJoin [stagingDir; containerdID]) 448)) in
        let stagedPath := stagedSecretPath stagingDir containerdID name in
        let!? _ := st_wrap staging (writeSecretFile stagedPath value) in
        resolveSecretsFrom containerdID stagingDir runPath true rest
          {| rs_EnvAdds := rs_EnvAdds out; rs_MountAdds := rs_MountAdds out ++ [secretMount stagedPath mountPath] |}
  end.
Definition resolveSecrets (containerdID : string) (secrets : list ContainerSecret) (stagingDir runPath : string) : st W (result resolvedSecrets) :=
  resolveSecretsFrom containerdID (or_default (TrimSpace stagingDir) DefaultSecretsStagingDir) runPath false secrets
    {| rs_EnvAdds := []; rs_MountAdds := [] |}.

Definition with_secrets (env : list string) (volumes : list VolumeMount) (c : ContainerSpec) : ContainerSpec :=
  let 'Build_ContainerSpec id cid r s t ce root im cm ar wd _ po _ ne na pr hn hp hc nc us ro ca so
    de tm re se rp gi cp pol bo mr at_ ty cg eh en := c in
  Build_ContainerSpec id cid r s t ce root im cm ar wd env po volumes ne na pr hn hp hc nc us ro ca so
    de tm re se rp gi cp pol bo mr at_ ty cg eh en.

Definition CreateContainerFromSpec (namespace : string) (spec : ContainerSpec) (creds : list RegistryCredentials)
    (opts : list (BuildOption W)) : st C (result CContainer) :=
  let required (s : string) (d : errdef) : option error := if String.eqb s "" then Some (ESentinel d) else None in
  match first_error [required (c_ID spec) ErrEmptyContainerID; required (c_Image spec) ErrInvalidImage;
                     required (c_CellName spec) ErrEmptyCellID; required (c_SpaceName spec) ErrEmptySpaceID;
                     required (c_RealmName spec) ErrEmptyRealmID; required (c_StackName spec) ErrEmptyStackID] with
  | Some e => st_ret (Err e)
  | None =>
      let runPath := bo_runPath (collectBuildOptions opts) in
      let!? resolved := remote (st_wrap (wrapf "failed to resolve secrets: %w")
                          (resolveSecrets (or_default (c_ContainerdID spec) (c_ID spec)) (c_Secrets spec) DefaultSecretsStagingDir runPath)) in
      let volScope := {| vs_Realm := c_RealmName spec; vs_Space := c_SpaceName spec; vs_Stack := c_StackName spec |} in
      let!? volumes := remote (st_wrap (wrapf "failed to resolve volume references: %w")
                         (vol_ResolveAll runPath volScope (c_Volumes spec ++ rs_MountAdds resolved))) in
      st_wrap (wrapf "failed to create container from spec: %w")
        (CreateContainer namespace (BuildContainerSpec (with_secrets (c_Env spec ++ rs_EnvAdds resolved) volumes spec) opts) creds)
  end.
End Attachable.

(** ** What preparing a container may touch *)

Class NodeRespects {W : Type} `{CniHost W} `{NodeHost W} (R : W → W → Prop) := {
  nr_preorder :: PreOrder R;
  nr_info : ∀ p, respects R (os_Info p);
  nr_stat : ∀ p, respects R (os_Stat p);
  nr_chmod : ∀ p m, respects R (os_Chmod p m);
  nr_chown : ∀ p u g, respects R (os_Chown p u g);
  nr_lchown : ∀ p u g, respects R (os_Lchown p u g);
  nr_symlink : ∀ t l, respects R (os_Symlink t l);
  nr_rename : ∀ a b, respects R (os_Rename a b);
  nr_open : ∀ p, respects R (os_Open p);
  nr_openTrunc : ∀ p m, respects R (os_OpenTrunc p m);
  nr_createTemp : ∀ d p, respects R (os_CreateTemp d p);
  nr_copy : ∀ a b, respects R (io_Copy a b);
  nr_readAll : ∀ p, respects R (io_ReadAll p);
  nr_writeString : ∀ p s, respects R (io_WriteString p s);
  nr_close : ∀ p, respects R (os_Close p);
  nr_walk : ∀ p, respects R (os_Walk p);
  nr_executable : respects R os_Executable;
  nr_lookPath : ∀ n, respects R (exec_LookPath n);
  nr_lookupEnv : ∀ n, respects R (os_LookupEnv n);
  nr_resolveAll : ∀ p s l, respects R (vol_ResolveAll p s l);
  nr_resolve : ∀ p s m, respects R (vol_Resolve p s m);
  nr_readFile : ∀ p, respects R (os_ReadFile p);
  nr_writeFile : ∀ p d m, respects R (os_WriteFile p d m);
  nr_remove : ∀ p, respects R (os_Remove p);
  nr_mkdirAll : ∀ p m, respects R (os_MkdirAll p m)
}.

Section NodeFrame.
Context {W : Type} `{CniHost W} `{NodeHost W} `{HostConfig} `{RunnerOpts} (R : W → W → Prop) `{!NodeRespects R}.

#[local] Hint Resolve nr_info nr_stat nr_chmod nr_chown nr_lchown nr_symlink nr_rename nr_open nr_openTrunc nr_createTemp nr_copy : frame.
#[local] Hint Resolve nr_readAll nr_writeString nr_close nr_walk nr_executable nr_lookPath nr_lookupEnv nr_resolveAll nr_resolve : frame.
#[local] Hint Resolve nr_readFile nr_writeFile nr_remove nr_mkdirAll : frame.

Lemma unless_missing_frame wrap m : respects R m → respects R (unless_missing wrap m).
Proof. intros Hm. unfold unless_missing. solve_frame. Qed.
#[local] Hint Resolve unless_missing_frame : frame.
Lemma reapplyEach_frame specs : respects R (reapplyEach specs).
Proof. induction specs; cbn [reapplyEach]; unfold ReapplyAttachableSocketPerms, reapplyAttachableSocketPerm; solve_frame. Qed.
Lemma stagedBinaryUsable_frame p : respects R (stagedBinaryUsable p).
Proof. unfold stagedBinaryUsable. solve_frame. Qed.
#[local] Hint Resolve stagedBinaryUsable_frame : frame.
Lemma resolveBinary_frame n : respects R (resolveBinary n).
Proof. unfold resolveBinary, usable. solve_frame. Qed.
#[local] Hint Resolve resolveBinary_frame : frame.
Lemma copyBinaryAtomic_frame a b : respects R (copyBinaryAtomic a b).
Proof. unfold copyBinaryAtomic. cbv zeta. solve_frame. Qed.
#[local] Hint Resolve copyBinaryAtomic_frame : frame.
Lemma ensureStagedBinary_frame a b : respects R (ensureStagedBinary a b).
Proof. unfold ensureStagedBinary, sameFileContent, sha256File. cbv zeta. solve_frame. Qed.
#[local] Hint Resolve ensureStagedBinary_frame : frame.
Lemma stageKukepauseBinary_frame : respects R stageKukepauseBinary.
Proof. unfold stageKukepauseBinary, resolveKukepauseBinary. cbv zeta. solve_frame. Qed.
Lemma attachableBuildOpts_frame spec prior : respects R (attachableBuildOpts spec prior).
Proof.
  unfold attachableBuildOpts, ensureAttachableSocketSymlink, stageKukettyBinary, resolveKukettyBinary, usable, attachableTTYDirInitialPerms.
  cbv zeta. solve_frame.
Qed.
Lemma chownVisits_frame root u g l : respects R (chownVisits root u g l).
Proof. induction l as [|[p [e|]] l IH]; cbn [chownVisits]; solve_frame. Qed.
Lemma chownVolumes_frame l u : respects R (chownVolumes l u).
Proof. induction l; cbn [chownVolumes]; unfold chownVolumeDirToUID; solve_frame. Qed.
Lemma volumeTargets_frame scope l : respects R (volumeTargets scope l).
Proof. induction l; cbn [volumeTargets]; solve_frame. Qed.
Lemma renderCellEtcFiles_frame cell : respects R (renderCellEtcFilesPreCNI cell).
Proof. unfold renderCellEtcFilesPreCNI, renderCellEtcHostname, renderCellEtcHosts, writeEtcFile. solve_frame. Qed.
Lemma ensureCellEtcFiles_frame cell : respects R (ensureCellEtcFilesExistPreCNI cell).
Proof. unfold ensureCellEtcFilesExistPreCNI, ensureFile, renderCellEtcHostname, renderCellEtcHosts, writeEtcFile. solve_frame. Qed.
Lemma renderCellEtcHostsWithIP_frame cell ip : respects R (renderCellEtcHostsWithIP cell ip).
Proof. unfold renderCellEtcHostsWithIP, renderCellEtcHosts, writeEtcFile. solve_frame. Qed.
Lemma writeSecretFile_frame p v : respects R (writeSecretFile p v).
Proof. unfold writeSecretFile. solve_frame. Qed.
#[local] Hint Resolve writeSecretFile_frame : frame.
Lemma resolveSecrets_frame id l d p : respects R (resolveSecrets id l d p).
Proof.
  unfold resolveSecrets. generalize false, {| rs_EnvAdds := []; rs_MountAdds := [] |}.
  induction l; intros made out; cbn [resolveSecretsFrom]; unfold readSecretValue, readSecretRefValue; solve_frame.
Qed.
End NodeFrame.

(** ** Theorems *)

Section SecretTheorems.
Context {W : Type} `{CniHost W} `{NodeHost W}.

Definition mounted (s : ContainerSecret) : bool := negb (String.eqb (TrimSpace (sec_MountPath s)) "").
(** An entry of the environment carries the value that was read for its secret. *)
Definition carries (runPath : string) (s : ContainerSecret) (entry : string) : Prop :=
  ∃ w w' value, readSecretValue s runPath w = (w', Ok value) ∧ entry = TrimSpace (sec_Name s) +:+ "=" +:+ value.

Lemma resolveSecretsFrom_spec containerdID dir runPath made secrets out w w' out' :
  resolveSecretsFrom containerdID dir runPath made secrets out w = (w', Ok out') →
  Forall (fun s => checkSecret s = Ok ()) secrets ∧
  (∃ env, rs_EnvAdds out' = rs_EnvAdds out ++ env ∧ Forall2 (carries runPath) (List.filter (fun s => negb (mounted s)) secrets) env) ∧
  rs_MountAdds out' = rs_MountAdds out ++
    ((fun s => secretMount (stagedSecretPath dir containerdID (TrimSpace (sec_Name s))) (TrimSpace (sec_MountPath s))) <$> List.filter mounted secrets).
Proof.
  revert made out w. induction secrets as [|s secrets IH]; intros made out w; cbn [resolveSecretsFrom].
  { intros [= <- <-]. rewrite app_nil_r. split_and!; [constructor| |done]. exists []. by rewrite app_nil_r. }
  cbv zeta. intros (w1 & u & E1 & E)%st_try_ok. injection E1 as <- E1. destruct u. apply st_try_ok in E as (w2 & value & E2 & E).
  assert (Hc : carries runPath s (TrimSpace (sec_Name s) +:+ "=" +:+ value)) by by exists w, w2, value.
  assert (Em : mounted s = negb (String.eqb (TrimSpace (sec_MountPath s)) "")) by done. cbn [List.filter].
  destruct (String.eqb (TrimSpace (sec_MountPath s)) ""); cbn [negb] in Em; rewrite Em; cbn [negb].
  - apply IH in E as (Hall & (env & He & Hf) & Hm). cbn in He, Hm. split_and!; [by constructor| |done].
    eexists. rewrite He, <-app_assoc. split; [done|]. by constructor.
  - apply st_try_ok in E as (w3 & u3 & _ & E). apply st_try_ok in E as (w4 & u4 & _ & E).
    apply IH in E as (Hall & (env & He & Hf) & Hm). cbn in He, Hm. split_and!; [by constructor|by exists env|].
    by rewrite Hm, <-app_assoc.
Qed.

(** Resolving the secrets of a container succeeds only when every one of them is well formed
    and could be read; each without a mount path becomes one variable with its value and
    nothing else, each other one becomes a read-only mount of its staged file, in order. *)
Theorem resolved_secrets_exact containerdID secrets runPath w w' out :
  resolveSecrets containerdID secrets DefaultSecretsStagingDir runPath w = (w', Ok out) →
  Forall (fun s => checkSecret s = Ok ()) secrets ∧
  Forall2 (carries runPath) (List.filter (fun s => negb (mounted s)) secrets) (rs_EnvAdds out) ∧
  rs_MountAdds out = ((fun s => secretMount (stagedSecretPath DefaultSecretsStagingDir containerdID (TrimSpace (sec_Name s)))
                                  (TrimSpace (sec_MountPath s))) <$> List.filter mounted secrets) ∧
  Forall (fun m => vm_ReadOnly m = true) (rs_MountAdds out).
Proof.
  unfold resolveSecrets. change (or_default (TrimSpace DefaultSecretsStagingDir) DefaultSecretsStagingDir) with DefaultSecretsStagingDir.
  intros (Hall & (env & He & Hf) & Hm)%resolveSecretsFrom_spec. cbn in He, Hm. rewrite He, Hm. split_and!; try done.
  apply Forall_fmap, Forall_forall. by intros s _.
Qed.
End SecretTheorems.

(** The name of a secret is not confined: a name with parent steps stages the value
    outside the directory of the container. *)
Lemma secret_name_escapes :
  stagedSecretPath DefaultSecretsStagingDir "s_t_web_app" "../../../../etc/cron.d/job" = "/etc/cron.d/job".
Proof. reflexivity. Qed.
(** The secrets of a root container are not among what its spec is built from. *)
Lemma root_secrets_ignored {W} `{OciHost W} labels (opts : list (BuildOption W)) (spec spec' : ContainerSpec) secrets :
  (let 'Build_ContainerSpec a b c d e f g h i j k l m n o p q r s t u v w x y z a1 a2 a3 a4 a5 a6 a7 a8 a9 b1 b2 b3 b4 b5 := spec in
   spec' = Build_ContainerSpec a b c d e f g h i j k l m n o p q r s t u v w x y z a1 a2 secrets a4 a5 a6 a7 a8 a9 b1 b2 b3 b4 b5) →
  BuildRootContainerSpec spec' labels opts = BuildRootContainerSpec spec labels opts.
Proof. destruct spec. by intros ->. Qed.
