(* ===== verification/BringUp.v ===== *)
(** * BringUp: creating the containers of a cell and starting it
    (runner/provision.go from createCellContainers on, runner/start.go)

    The state is the containerd client over a world that also holds networks, files and
    metadata, as in [Teardown].  Creating makes container records only; starting reuses a
    record whose spec hash matches, refuses one that drifted, and reports the cell as ready
    only after every task was seen running through a grace window. *)

From Stdlib Require Import Ascii ZArith Lia.
From stdpp Require Import base gmap strings list.
From S2P Require Import Prelude Model External Scheme Defaults CellState Naming Config Layout Observe Subnet NetPolicy SpecHash CellOps OciSpec Containerd Cni Teardown Attachable.

Local Open Scope nat_scope.

(** ** strings.ToValidUTF8 with an empty replacement *)

Definition between (lo hi : nat) (c : ascii) : bool := (lo <=? nat_of_ascii c) && (nat_of_ascii c <=? hi).
Definition continuation (c : ascii) : bool := between 128 191 c.
(** The width of the rune a string starts with; [None] for an invalid byte. *)
Definition runeWidth (s : string) : option nat :=
  match s with
  | String a s1 =>
      if between 0 127 a then Some 1
      else match s1 with
           | String b s2 =>
               if between 194 223 a && continuation b then Some 2
               else match s2 with
                    | String c s3 =>
                        if (between 224 224 a && between 160 191 b || between 225 236 a && continuation b
                            || between 237 237 a && between 128 159 b || between 238 239 a && continuation b) && continuation c
                        then Some 3
                        else match s3 with
                             | String d _ =>
                                 if (between 240 240 a && between 144 191 b || between 241 243 a && continuation b
                                     || between 244 244 a && between 128 143 b) && continuation c && continuation d
                                 then Some 4 else None
                             | "" => None
                             end
                    | "" => None
                    end
           | "" => None
           end
  | "" => None
  end.
Fixpoint validRunes (fuel : nat) (s : string) : string :=
  match fuel, s with
  | S fuel, String c rest =>
      match runeWidth s with
      | Some n => String.substring 0 n s +:+ validRunes fuel (String.substring n (String.length s - n) s)
      | None => validRunes fuel rest
      end
  | _, _ => ""
  end.
Definition ToValidUTF8 (s : string) : string := validRunes (String.length s) s.

Section BringUp.
Context {W : Type} `{Containerd W} `{OciHost W} `{CniHost W} `{RunnerStore W} `{NodeHost W} `{HostConfig} `{RunnerOpts}.
Context (cniConf : Conf) (marshalPayload : containerSpecHashPayload → string).
Notation C := (Client W).

(** The handles of [SpecHash] are the client's; a handle remembers its namespace. *)
#[export] Instance client_RecordHost : RecordHost C := {|
  Handle := string * CContainer; Task := string * CTask;
  ctr_GetContainer := fun ns id => let!? h := GetContainer ns id in st_ret (Ok (ns, h));
  handle_Labels := fun h => remote (con_Labels h.1 h.2);
  handle_SetLabels := fun h l => remote (con_SetLabels h.1 h.2 l);
  handle_Task := fun h => let!? t := remote (con_Task h.1 h.2) in st_ret (Ok (h.1, t));
  task_Delete := fun t => remote (tsk_Delete t.1 t.2)
|}.

Definition ConvertRealmCredentials (creds : list Model.RegistryCredentials) : list RegistryCredentials :=
  (fun c => {| rc_Username := Model.rc_Username c; rc_Password := Model.rc_Password c; rc_ServerAddress := Model.rc_ServerAddress c |}) <$> creds.

Definition daemonDefaultBuildOpts : list (BuildOption W) :=
  (if (0 <? opt_DefaultMemoryLimitBytes)%Z then [WithDefaultMemoryLimit opt_DefaultMemoryLimitBytes] else [])
  ++ (if String.eqb RunPath "" then [] else [WithSecretRunPath RunPath])
  ++ (if (0 <? opt_KukeonGroupGID)%Z then [WithKukeonGroupGID (Sha256.w32 opt_KukeonGroupGID)] else []).

(** ** The spec of the root container *)

Definition rootContainerWantsCNI (spec : ContainerSpec) : bool := negb (c_HostNetwork spec).
Definition cellWantsHostNetworkRoot (cell : Cell) : bool := existsb c_HostNetwork (csp_Containers (cell_Spec cell)).
Definition validateExplicitRootHostNetwork (cell : Cell) (rootSpec : ContainerSpec) : option error :=
  if cellWantsHostNetworkRoot cell && negb (c_HostNetwork rootSpec)
  then Some (EWrap "%w: rootContainerId %q" [ESentinel ErrExplicitRootHostNetworkMismatch]) else None.

Definition set_identity (id cid r s t ce : string) (root : bool) (cni : string) (c : ContainerSpec) : ContainerSpec :=
  let 'Build_ContainerSpec _ _ _ _ _ _ _ im cm ar wd env po vo ne na pr hn hp hc nc us ro ca so
    de tm re se rp gi _ pol bo mr at_ ty cg eh en := c in
  Build_ContainerSpec id cid r s t ce root im cm ar wd env po vo ne na pr hn hp hc nc us ro ca so
    de tm re se rp gi cni pol bo mr at_ ty cg eh en.
Definition set_host_nested (hostNetwork nested : bool) (c : ContainerSpec) : ContainerSpec :=
  let 'Build_ContainerSpec id cid r s t ce root im cm ar wd env po vo ne na pr _ hp hc _ us ro ca so
    de tm re se rp gi cp pol bo mr at_ ty cg eh en := c in
  Build_ContainerSpec id cid r s t ce root im cm ar wd env po vo ne na pr hostNetwork hp hc nested us ro ca so
    de tm re se rp gi cp pol bo mr at_ ty cg eh en.
Definition set_nested (nested : bool) (c : ContainerSpec) : ContainerSpec := set_host_nested (c_HostNetwork c) nested c.
Definition set_cid (cid : string) (c : ContainerSpec) : ContainerSpec :=
  set_identity (c_ID c) cid (c_RealmName c) (c_SpaceName c) (c_StackName c) (c_CellName c) (c_Root c) (c_CNIConfigPath c) c.

(** The names every container of a cell carries: its own where set, the cell's otherwise. *)
Definition fill_names (id cid realm space stack cell : string) (root : bool) (cni : string) (c : ContainerSpec) : ContainerSpec :=
  set_identity (or_default (c_ID c) id) (or_default (c_ContainerdID c) cid) (or_default (c_RealmName c) realm)
    (or_default (c_SpaceName c) space) (or_default (c_StackName c) stack) (or_default (c_CellName c) cell) root
    (or_default (c_CNIConfigPath c) cni) c.

Definition required (s : string) (d : errdef) : st C (result unit) := st_guard (negb (String.eqb s "")) (ESentinel d).

Definition ensureCellRootContainerSpec (cell : Cell) : st C (result ContainerSpec) :=
  let sp := cell_Spec cell in
  let cellID := TrimSpace (csp_ID sp) in
  let realmName := TrimSpace (csp_RealmName sp) in
  let spaceName := TrimSpace (csp_SpaceName sp) in
  let stackName := TrimSpace (csp_StackName sp) in
  let!? _ := required cellID ErrCellIDRequired in
  let!? _ := required realmName ErrRealmNameRequired in
  let!? _ := required spaceName ErrSpaceNameRequired in
  let!? _ := required stackName ErrStackNameRequired in
  let!? cniConfigPath := st_wrap (wrapf "failed to resolve space CNI config: %w") (ResolveSpaceCNIConfigPath realmName spaceName) in
  let!? containerdID := st_wrap (wrapf "failed to build root container containerd ID: %w")
                          (st_ret (BuildRootContainerdID spaceName stackName cellID)) in
  let!? rootSpec :=
    (if negb (String.eqb (csp_RootContainerID sp) "") then
       match find_first (fun c => String.eqb (c_ID c) (csp_RootContainerID sp)) (csp_Containers sp) with
       | None => st_ret (Err (EOpaque "rootContainerId %q not found in containers array"))
       | Some rootSpec => st_ret (match validateExplicitRootHostNetwork cell rootSpec with Some e => Err e | None => Ok rootSpec end)
       end
     else
       let!? kukepauseHostPath := remote (st_wrap (wrapf "stage kukepause: %w") stageKukepauseBinary) in
       st_ret (Ok (set_host_nested (cellWantsHostNetworkRoot cell) false
                     (DefaultRootContainerSpec containerdID cellID realmName spaceName stackName cniConfigPath kukepauseHostPath)))) in
  st_ret (Ok (fill_names "root" containerdID realmName spaceName stackName cellID true cniConfigPath
                (set_nested (csp_NestedCgroupRuntime sp) rootSpec))).

(** The space's defaults on every container, and the cell's nested-cgroup flag. *)
Definition applyCellContainerDefaults (cell : Cell) : st C (result Cell) :=
  let sp := cell_Spec cell in
  let!? parentSpace := st_wrap (wrapd ErrGetSpace) (remote (sto_GetSpace (space_named (csp_RealmName sp) (csp_SpaceName sp)))) in
  st_ret (Ok (with_Containers
    ((fun c => set_nested (csp_NestedCgroupRuntime sp) (ApplySpaceDefaultsToContainer parentSpace c)) <$> csp_Containers sp) cell)).

Definition with_RootContainerID (id : string) (cell : Cell) : Cell :=
  let '{| csp_ID := i; csp_RealmName := r; csp_SpaceName := s; csp_StackName := t; csp_Tty := ty; csp_Containers := l;
          csp_AutoDelete := ad; csp_NestedCgroupRuntime := nc; csp_RuntimeEnv := env; csp_Provenance := p; csp_IgnoreDiskPressure := d |} :=
    cell_Spec cell in
  {| cell_Metadata := cell_Metadata cell; cell_Spec := Build_CellSpec i r s t id ty l ad nc env p d; cell_Status := cell_Status cell |}.

Definition with_RuntimeEnv (env : list string) (cell : Cell) : Cell :=
  let '{| csp_ID := i; csp_RealmName := r; csp_SpaceName := s; csp_StackName := t; csp_RootContainerID := ro; csp_Tty := ty;
          csp_Containers := l; csp_AutoDelete := ad; csp_NestedCgroupRuntime := nc; csp_Provenance := p; csp_IgnoreDiskPressure := d |} :=
    cell_Spec cell in
  {| cell_Metadata := cell_Metadata cell; cell_Spec := Build_CellSpec i r s t ro ty l ad nc env p d; cell_Status := cell_Status cell |}.

(** The first entry with the ID is replaced, or the spec is appended. *)
Fixpoint put_container (spec : ContainerSpec) (l : list ContainerSpec) : list ContainerSpec :=
  match l with
  | [] => [spec]
  | c :: rest => if String.eqb (c_ID c) (c_ID spec) then spec :: rest else c :: put_container spec rest
  end.
Definition put_root (rootSpec : ContainerSpec) (cell : Cell) : Cell :=
  let cell := with_Containers (put_container rootSpec (csp_Containers (cell_Spec cell))) cell in
  if String.eqb (csp_RootContainerID (cell_Spec cell)) "" then with_RootContainerID (c_ID rootSpec) cell else cell.

(** Code that updates the cell in place returns it beside the result, also on an error. *)
Definition keeping {A B} (cell : Cell) (m : st C (result A)) (k : A → st C (Cell * result B)) : st C (Cell * result B) :=
  let! r := m in match r with Ok a => k a | Err e => st_ret (cell, Err e) end.

(** ** Creating the containers of a cell *)

Record Target := { tg_namespace : string; tg_creds : list RegistryCredentials; tg_cni : string }.

(** Where the containers of a cell go: the network configuration, the namespace and the
    credentials of the realm. *)
Definition resolveTarget (realmName spaceName : string) : st C (result Target) :=
  let!? cniConfigPath := st_wrap (wrapf "failed to resolve space CNI config: %w") (ResolveSpaceCNIConfigPath realmName spaceName) in
  let!? _ := st_check (wrapd ErrConnectContainerd) (remote sto_ensureClientConnected) in
  let!? realm := st_wrap (wrapf "failed to get realm: %w") (remote (sto_GetRealm (realm_named realmName))) in
  st_ret (Ok {| tg_namespace := rsp_Namespace (realm_Spec realm); tg_creds := ConvertRealmCredentials (rsp_RegistryCredentials (realm_Spec realm));
                tg_cni := cniConfigPath |}).
Definition namespaceRequired (t : Target) : st C (result unit) :=
  st_guard (negb (String.eqb (tg_namespace t) "")) (EOpaque "realm %q has no namespace").

Definition createRoot (t : Target) (cell : Cell) (rootSpec : ContainerSpec) : st C (result CContainer) :=
  let rootLabels := stampSpecHashOnLabels marshalPayload (buildRootContainerLabels cell) rootSpec in
  CreateContainer (tg_namespace t) (BuildRootContainerSpec rootSpec rootLabels daemonDefaultBuildOpts) (tg_creds t).

(** The options of a child and the record made with them; [ociSpec] is the spec with the
    environment of this run. *)
Definition childOpts (cell : Cell) (spec : ContainerSpec) : st C (result (list (BuildOption W))) :=
  st_wrap (wrapf "failed to prepare attachable container %s: %w")
    (remote (attachableBuildOpts spec (priorStagesForContainer cell (c_ID spec)))).
Definition createChild (t : Target) (spec ociSpec : ContainerSpec) (attachOpts : list (BuildOption W)) : st C (result CContainer) :=
  CreateContainerFromSpec (tg_namespace t) ociSpec (tg_creds t)
    (daemonDefaultBuildOpts ++ attachOpts ++ [WithExtraLabels (specHashLabels marshalPayload spec)]).
Definition chownChild (t : Target) (spec : ContainerSpec) : st C (result unit) :=
  let!? _ := st_wrap (wrapf "failed to chown attachable tty dir for %s: %w") (attachablePostCreateChown (tg_namespace t) spec) in
  st_wrap (wrapf "failed to chown volume dir for %s: %w") (volumePostCreateChown (tg_namespace t) spec).

(** A container of the cell about to be built: names, network, cgroup. *)
Definition place (cell : Cell) (realm space stack cellID cni : string) (c : ContainerSpec) : ContainerSpec :=
  setCellCgroupPath (fill_names (c_ID c) (c_ContainerdID c) realm space stack cellID (c_Root c) cni c) cell.
Definition childContainerdID (spec : ContainerSpec) : result string :=
  if String.eqb (c_ContainerdID spec) "" then
    match BuildContainerdID (c_SpaceName spec) (c_StackName spec) (c_CellName spec) (c_ID spec) with
    | Err e => Err (EWrap "failed to build container containerd ID: %w" [e])
    | Ok id => Ok id
    end
  else Ok (c_ContainerdID spec).

(** The loop over the containers; [done] have been created, and the root among them is
    remembered. *)
Fixpoint createEach (t : Target) (realm space stack cellID attachableID : string) (done todo : list ContainerSpec)
    (root : option CContainer) (cell : Cell) : st C (Cell * result (option CContainer)) :=
  match todo with
  | [] => st_ret (with_Containers done cell, Ok root)
  | c :: rest =>
      let isRoot := negb (String.eqb (csp_RootContainerID (cell_Spec cell)) "") && String.eqb (c_ID c) (csp_RootContainerID (cell_Spec cell)) in
      let spec := place cell realm space stack cellID (tg_cni t) c in
      let at_ spec := with_Containers (done ++ spec :: rest) cell in
      if isRoot then
        keeping (at_ spec)
          (if String.eqb (c_ContainerdID spec) "" then st_wrap (wrapf "failed to build root container containerd ID: %w")
                                                        (st_ret (BuildRootContainerdID space stack cellID))
           else st_ret (Ok (c_ContainerdID spec)))
          (fun containerdID =>
             let spec := set_cid containerdID spec in
             keeping (at_ spec) (st_wrap (wrapd ErrCreateRootContainer) (createRoot t (at_ spec) spec))
               (fun h => createEach t realm space stack cellID attachableID (done ++ [spec]) rest (Some h) cell))
      else
        keeping (at_ spec) (st_ret (childContainerdID spec))
          (fun containerdID =>
             let spec := set_cid containerdID spec in
             keeping (at_ spec)
               (let!? attachOpts := childOpts cell spec in
                let!? _ := st_wrap (wrapf "failed to create container %s: %w")
                             (createChild t spec (mergeRuntimeEnvForContainer spec attachableID (csp_RuntimeEnv (cell_Spec cell))) attachOpts) in
                chownChild t spec)
               (fun _ => createEach t realm space stack cellID attachableID (done ++ [spec]) rest root cell))
  end.

Definition createCellContainers (cell : Cell) : st C (Cell * result (option CContainer)) :=
  let sp := cell_Spec cell in
  let cellID := csp_ID sp in
  let realmName := TrimSpace (csp_RealmName sp) in
  let spaceName := TrimSpace (csp_SpaceName sp) in
  let stackName := TrimSpace (csp_StackName sp) in
  keeping cell
    (let!? _ := required (TrimSpace (cm_Name (cell_Metadata cell))) ErrCellNameRequired in
     let!? _ := required cellID ErrCellIDRequired in
     let!? _ := required realmName ErrRealmNameRequired in
     let!? _ := required spaceName ErrSpaceNameRequired in
     let!? _ := required stackName ErrStackNameRequired in
     applyCellContainerDefaults cell) (fun cell =>
  keeping cell
    (let!? t := resolveTarget realmName spaceName in
     let!? _ := namespaceRequired t in
     let!? rootContainerdID := st_wrap (wrapf "failed to build root container containerd ID: %w")
                                 (st_ret (BuildRootContainerdID spaceName stackName cellID)) in
     let!? rootSpec := ensureCellRootContainerSpec cell in
     st_ret (Ok (t, set_cid rootContainerdID rootSpec))) (fun '(t, rootSpec) =>
  let cell := put_root rootSpec cell in
  keeping cell (remote (st_wrap (wrapf "render cell etc files: %w") (renderCellEtcFilesPreCNI cell))) (fun _ =>
  let cell := stampCellEtcFilePathsOnContainers cell in
  createEach t realmName spaceName stackName cellID (resolveAttachableContainerID cell) [] (csp_Containers (cell_Spec cell)) None cell))).

(** ** Ensuring the containers of a cell *)

(** ExistsContainer of runner/exists.go *)
Definition runnerExistsContainer (namespace containerdID : string) : st C (result bool) :=
  let!? _ := st_check (wrapd ErrConnectContainerd) (remote sto_ensureClientConnected) in
  Containerd.ExistsContainer namespace containerdID.

(** Go's "container already exists" in the text of the error *)
Definition alreadyExists (e : error) : bool := Contains (err_Text e) "container already exists".

Definition ensureChild (t : Target) (cell : Cell) (spec : ContainerSpec) : st C (result unit) :=
  let!? exists_ := st_wrap (wrapf "failed to check if hierarchical container exists: %w")
                     (runnerExistsContainer (tg_namespace t) (c_ContainerdID spec)) in
  if exists_ then st_ret (Ok ())
  else
    let!? attachOpts := childOpts cell spec in
    let! made := createChild t spec spec attachOpts in
    match made with
    | Err e => if alreadyExists e then st_ret (Ok ()) else st_ret (Err (EWrap "failed to create container %s: %w" [e]))
    | Ok _ => chownChild t spec
    end.
Fixpoint ensureEach (t : Target) (realm space stack cellID : string) (done todo : list ContainerSpec) (cell : Cell)
    : st C (Cell * result unit) :=
  match todo with
  | [] => st_ret (with_Containers done cell, Ok ())
  | c :: rest =>
      let spec := place cell realm space stack cellID (tg_cni t) c in
      let at_ spec := with_Containers (done ++ spec :: rest) cell in
      keeping (at_ spec) (st_ret (childContainerdID spec))
        (fun containerdID =>
           let spec := set_cid containerdID spec in
           keeping (at_ spec) (ensureChild t cell spec)
             (fun _ => ensureEach t realm space stack cellID (done ++ [spec]) rest cell))
  end.

(** A missing root is created and entered among the containers; an existing one is left. *)
Definition ensureRoot (t : Target) (containerID : string) (cell : Cell) : st C (Cell * result unit) :=
  keeping cell (st_wrap (wrapf "failed to check if root container exists: %w") (runnerExistsContainer (tg_namespace t) containerID))
    (fun exists_ : bool =>
       if exists_ then
         keeping cell (st_wrap (wrapf "failed to load existing root container: %w") (GetContainer (tg_namespace t) containerID))
           (fun _ => st_ret (cell, Ok ()))
       else
         keeping cell (ensureCellRootContainerSpec cell) (fun rootSpec =>
         let rootSpec := setCellCgroupPath rootSpec cell in
         let cell := put_root rootSpec cell in
         keeping cell (remote (st_wrap (wrapf "render cell etc files: %w") (renderCellEtcFilesPreCNI cell))) (fun _ =>
         keeping cell (st_wrap (wrapd ErrCreateRootContainer) (createRoot t cell (stampContainerRecreateRuntimeFields rootSpec cell)))
           (fun _ => st_ret (cell, Ok ()))))).

Definition ensureCellContainers (cell : Cell) : st C (Cell * result unit) :=
  let sp := cell_Spec cell in
  let cellID := csp_ID sp in
  let realmName := csp_RealmName sp in
  let spaceName := csp_SpaceName sp in
  let stackName := csp_StackName sp in
  keeping cell
    (let!? _ := required (TrimSpace (cm_Name (cell_Metadata cell))) ErrCellNotFound in
     let!? _ := required cellID ErrCellIDRequired in
     let!? _ := required realmName ErrRealmNameRequired in
     let!? _ := required spaceName ErrSpaceNameRequired in
     let!? _ := required stackName ErrStackNameRequired in
     applyCellContainerDefaults cell) (fun cell =>
  keeping cell
    (let!? t := resolveTarget realmName spaceName in
     let!? containerID := st_wrap (wrapf "failed to build root container containerd ID: %w")
                            (st_ret (BuildRootContainerdID spaceName stackName cellID)) in
     st_ret (Ok (t, containerID))) (fun '(t, containerID) =>
  let! rooted := ensureRoot t containerID cell in
  let cell := rooted.1 in
  keeping cell (st_ret rooted.2) (fun _ =>
  keeping cell (remote (st_wrap (wrapf "ensure cell etc files: %w") (ensureCellEtcFilesExistPreCNI cell))) (fun _ =>
  let cell := stampCellEtcFilePathsOnContainers cell in
  ensureEach t realmName spaceName stackName cellID [] (csp_Containers (cell_Spec cell)) cell)))).

(** ** Liveness after a start (start.go) *)

(** The first task that is not running: its containerd ID, its name in the cell (empty for
    the root) and what was seen. *)
Record liveCheckResult := { lc_ContainerdID : string; lc_ContainerID : string; lc_Seen : result TaskStatus }.
Definition statusOf (namespace id : string) : st C (result TaskStatus) := ctrTaskStatus namespace id.
Definition seen_running (r : result TaskStatus) : bool := match r with Ok s => is_running s | Err _ => false end.

Fixpoint firstNonLiveChild (namespace : string) (specs : list ContainerSpec) : st C (option liveCheckResult) :=
  match specs with
  | [] => st_ret None
  | c :: rest =>
      if c_Root c then firstNonLiveChild namespace rest
      else
        let cid := TrimSpace (c_ContainerdID c) in
        if String.eqb cid "" then
          st_ret (Some {| lc_ContainerdID := ""; lc_ContainerID := c_ID c; lc_Seen := Err (EOpaque "") |})
        else
          let! s := statusOf namespace cid in
          if seen_running s then firstNonLiveChild namespace rest
          else st_ret (Some {| lc_ContainerdID := cid; lc_ContainerID := c_ID c; lc_Seen := s |})
  end.
Definition firstNonLiveContainer (namespace rootContainerdID : string) (nonRootSpecs : list ContainerSpec) : st C (option liveCheckResult) :=
  let! rs := statusOf namespace rootContainerdID in
  if seen_running rs then firstNonLiveChild namespace nonRootSpecs
  else st_ret (Some {| lc_ContainerdID := rootContainerdID; lc_ContainerID := ""; lc_Seen := rs |}).
(** A result with neither name reads as all running. *)
Definition reported (r : option liveCheckResult) : option liveCheckResult :=
  match r with
  | Some l => if String.eqb (lc_ContainerdID l) "" && String.eqb (lc_ContainerID l) "" then None else Some l
  | None => None
  end.

Definition formatLivenessFailure (l : liveCheckResult) : error :=
  EWrap "%w: cell %q: %s exited within startup grace window (%s)%s" [ESentinel ErrCellWindDownImmediate].

Definition nonRootContainerSpecsFromCell (cell : Cell) : list ContainerSpec :=
  List.filter (fun c => negb (c_Root c)) (csp_Containers (cell_Spec cell)).

(** 300 ms and 50 ms *)
Definition cellStartLivenessGraceWindow : Z := 300000000.
Definition cellStartLivenessPollInterval : Z := 50000000.

(** [None] when [fuel] polls were not enough *)
Fixpoint pollLive (fuel : nat) (namespace rootContainerdID : string) (specs : list ContainerSpec) (deadline interval : Z)
    : st C (option (option error)) :=
  match fuel with
  | 0 => st_ret None
  | S fuel =>
      let! dead := firstNonLiveContainer namespace rootContainerdID specs in
      match reported dead with
      | Some l => st_ret (Some (Some (formatLivenessFailure l)))
      | None =>
          let! now := remote sto_nowUTC in
          if negb (now <? deadline)%Z then st_ret (Some None)
          else let! _ := remote (cd_sleep interval) in pollLive fuel namespace rootContainerdID specs deadline interval
      end
  end.
(** Seven polls are enough for the window, see [liveness_probe_ends]. *)
Definition pollFuel : nat := 7.
Definition verifyCellTasksLiveAfterStart (namespace rootContainerdID : string) (specs : list ContainerSpec) (graceWindow pollInterval : Z)
    : st C (option (option error)) :=
  if (graceWindow <=? 0)%Z then st_ret (Some None)
  else
    let! now := remote sto_nowUTC in
    pollLive pollFuel namespace rootContainerdID specs (now + graceWindow)%Z pollInterval.
(** The probe as the start runs it; a probe that does not end stops the start for good. *)
Definition probeLive (namespace rootContainerdID : string) (specs : list ContainerSpec) : st C (result unit) :=
  let! r := verifyCellTasksLiveAfterStart namespace rootContainerdID specs cellStartLivenessGraceWindow cellStartLivenessPollInterval in
  st_ret (match r with None => Err (EPanic "liveness probe does not end") | Some (Some e) => Err e | Some None => Ok () end).

(** ** Starting a cell *)

(** The idempotency guard makes the same scan and keeps the verdict only. *)
Definition cellTasksAllRunning (cell : Cell) (namespace rootContainerdID : string) : st C bool :=
  let! dead := firstNonLiveContainer namespace rootContainerdID (csp_Containers (cell_Spec cell)) in
  st_ret (match dead with None => true | Some _ => false end).

Definition containerLogTaskSpec (spec : ContainerSpec) : option TaskIO :=
  if c_Attachable spec || c_Root spec then None
  else Some {| io_Terminal := false;
               io_LogFilePath := ContainerLogPath RunPath (c_RealmName spec) (c_SpaceName spec) (c_StackName spec) (c_CellName spec) (c_ID spec) |}.

Definition namespacesOf (pid : Z) : NamespacePaths := {|
  np_Net := "/proc/" +:+ Itoa pid +:+ "/ns/net"; np_IPC := "/proc/" +:+ Itoa pid +:+ "/ns/ipc";
  np_UTS := "/proc/" +:+ Itoa pid +:+ "/ns/uts"; np_PID := "" |}.

Definition maxFailureMessageLen : nat := 256.
(** The text on one line and cut to length; a rune the cut falls into is dropped. *)
Definition truncateFailureMessage (cause : error) : string :=
  let msg := Join " " (Fields (err_Text cause)) in
  if maxFailureMessageLen <? String.length msg then ToValidUTF8 (String.substring 0 (maxFailureMessageLen - 3) msg) +:+ "..." else msg.

Definition stamp_failed (reason message : string) (cell : Cell) : Cell :=
  upd_status (fun s => set_ReasonMessage reason message (set_State CellStateFailed s)) cell.
Definition reload (cell : Cell) : st C Cell :=
  let! r := remote (sto_GetCell cell) in st_ret (match r with Ok c => c | Err _ => cell end).
Definition markCellFailed (cell : Cell) (reason : string) (cause : error) : st C unit :=
  let message := truncateFailureMessage cause in
  let! cell := reload cell in
  let cell := stamp_failed reason message cell in
  let! _ := remote (sto_UpdateCellMetadata cell) in
  let! _ := killCellLocked cniConf cell in
  let! cell := reload cell in
  let! _ := remote (sto_UpdateCellMetadata (stamp_failed reason message cell)) in
  st_ret ().

(** The deferred clean-up: an error of the provisioning part marks the cell. *)
Definition or_mark_failed {A} (cell : Cell) (reason : string) (m : st C (result A)) : st C (result A) :=
  let! r := m in
  match r with
  | Ok a => st_ret (Ok a)
  | Err e => let! _ := markCellFailed cell reason e in st_ret (Err e)
  end.

(** What a start knows before it touches anything. *)
Record Starting := { sg_cell : Cell; sg_target : Target; sg_rootID : string }.
Definition resolveStart (cell : Cell) : st C (result Starting) :=
  match requireNames cell with
  | Err e => st_ret (Err e)
  | Ok n =>
      let!? stored := st_wrap (wrapd ErrGetCell) (remote (sto_GetCell (cell_named (nm_realm n) (nm_space n) (nm_stack n) (nm_cell n)))) in
      let internalCell := with_RuntimeEnv (csp_RuntimeEnv (cell_Spec cell)) stored in
      let sp := cell_Spec internalCell in
      let!? _ := required (csp_ID sp) ErrCellIDRequired in
      let!? t := resolveTarget (csp_RealmName sp) (csp_SpaceName sp) in
      let!? _ := namespaceRequired t in
      let!? rootID := st_wrap (wrapf "failed to build root container containerd ID: %w")
                        (st_ret (BuildRootContainerdID (csp_SpaceName sp) (csp_StackName sp) (csp_ID sp))) in
      st_ret (Ok {| sg_cell := internalCell; sg_target := t; sg_rootID := rootID |})
  end.

(** An existing root record is reused when its hash permits it and refused when it
    drifted; without one, a stale address reservation is removed.  The result tells
    whether the record is reused. *)
Definition purgeRootCNI (cell : Cell) (rootID : string) : st C unit :=
  let networkName := buildRootCNINetworkName (csp_RealmName (cell_Spec cell)) (csp_SpaceName (cell_Spec cell)) in
  if String.eqb networkName "" then st_ret () else let! _ := purgeCNI cniConf rootID "" networkName in st_ret ().
Definition reuseOrRefuseRoot (g : Starting) (rootSpec : ContainerSpec) : st C (result bool) :=
  let! got := ctr_GetContainer (tg_namespace (sg_target g)) (sg_rootID g) in
  match got with
  | Err e =>
      let! _ := (if error_is ErrContainerNotFound e then purgeRootCNI (sg_cell g) (sg_rootID g) else st_ret ()) in
      st_ret (Ok false)
  | Ok h =>
      let! labels := handle_Labels h in
      let reuse := (let! _ := dropStaleTask h in
                    let! _ := purgeRootCNI (sg_cell g) (sg_rootID g) in
                    st_ret (Ok true)) in
      match classifySpecHashReuse labels.1 (ComputeContainerSpecHash marshalPayload rootSpec) with
      | specHashRefuse =>
          st_ret (Err (EWrap "%w: cell %q: containerd record carries spec-hash %q but cell spec hashes to %q" [ESentinel ErrCellSpecHashDrift]))
      | specHashRestamp => let! _ := restampSpecHashLabels marshalPayload h rootSpec in reuse
      | specHashReuseAsIs => reuse
      end
  end.

(** The root's network: none on the host network; an attach that finds the interface in
    place recovers the address from the cache. *)
Definition attachRoot (t : Target) (rootID : string) (rootSpec : ContainerSpec) (netns : string) : st W (result (option IPv4)) :=
  if negb (rootContainerWantsCNI rootSpec) then st_ret (Ok None)
  else
    let!? m := st_wrap (wrapf "failed to load CNI config %s: %w") (LoadNetworkConfigList (managerOf cniConf) (tg_cni t)) in
    let! added := AddContainerToNetwork m rootID netns in
    match added with
    | Ok ip => st_ret (Ok ip)
    | Err e =>
        if error_is ErrCNIVethExists e then let! ip := CachedIPv4ForContainer m rootID netns in st_ret (Ok ip)
        else st_ret (Err (EWrap "failed to attach root container %s to network: %w" [e]))
    end.

(** The root created or reused, started and attached; the namespaces the others join. *)
Definition startRoot (g : Starting) (rootSpec : ContainerSpec) : st C (result NamespacePaths) :=
  let t := sg_target g in
  let!? reuse := reuseOrRefuseRoot g rootSpec in
  let cell := sg_cell g in
  let rootSpec := setCellCgroupPath rootSpec cell in
  let!? _ := remote (st_wrap (wrapf "render cell etc files: %w") (renderCellEtcFilesPreCNI cell)) in
  let rootSpec := stampContainerRecreateRuntimeFields rootSpec cell in
  let!? _ := (if (reuse : bool) then st_ret (Ok ())
              else let!? _ := st_wrap (wrapf "failed to create root container %s: %w") (createRoot t cell rootSpec) in st_ret (Ok ())) in
  let!? rootTask := st_wrap (wrapf "failed to start root container %s: %w") (StartContainer (tg_namespace t) (sg_rootID g) [] None) in
  let rootPID := tsk_Pid rootTask in
  let!? _ := st_guard (negb (rootPID =? 0)%Z) (EOpaque "root container %s has invalid pid (0)") in
  let ns := namespacesOf rootPID in
  let!? cellIP := remote (attachRoot t (sg_rootID g) rootSpec (np_Net ns)) in
  let! _ := (match cellIP with Some ip => let! _ := remote (renderCellEtcHostsWithIP cell ip) in st_ret () | None => st_ret () end) in
  st_ret (Ok ns).

(** One container of the cell: its record reused, refused or made, then its task. *)
Definition startChild (t : Target) (cell : Cell) (ns : NamespacePaths) (attachableID : string) (c : ContainerSpec) : st C (result unit) :=
  let id := c_ContainerdID c in
  if String.eqb id "" then st_ret (Err (EOpaque "container %q has empty ContainerdID"))
  else
    let!? reuse := reuseOrRefuseExistingChildContainer marshalPayload (tg_namespace t) id c in
    let spec := set_nested (csp_NestedCgroupRuntime (cell_Spec cell)) (setCellCgroupPath c cell) in
    let!? attachOpts := childOpts cell spec in
    let!? _ := (if (reuse : bool) then st_ret (Ok ())
                else let!? _ := st_wrap (wrapf "failed to create container %s: %w")
                                  (createChild t spec (mergeRuntimeEnvForContainer spec attachableID (csp_RuntimeEnv (cell_Spec cell))) attachOpts) in
                     st_ret (Ok ())) in
    let!? _ := chownChild t spec in
    let!? _ := st_wrap (wrapf "failed to start container %s: %w")
                 (StartContainer (tg_namespace t) id (namespaceSpecOpts ns) (containerLogTaskSpec spec)) in
    st_ret (Ok ()).
Fixpoint startChildren (t : Target) (cell : Cell) (ns : NamespacePaths) (attachableID : string) (cs : list ContainerSpec) : st C (result unit) :=
  match cs with
  | [] => st_ret (Ok ())
  | c :: rest =>
      if c_Root c then startChildren t cell ns attachableID rest
      else let!? _ := startChild t cell ns attachableID c in startChildren t cell ns attachableID rest
  end.

Definition settleReady (cell : Cell) : st C (result Cell) :=
  let! r := PopulateAndPersistCellContainerStatuses (markCellReady cell) in
  st_ret (Ok r.1).

(** Past the idempotent skip, an error marks the cell as failed. *)
Definition bringUp (g : Starting) (rootSpec : ContainerSpec) : st C (result Cell) :=
  let t := sg_target g in
  let!? ns := startRoot g rootSpec in
  let cell := stampCellEtcFilePathsOnContainers (sg_cell g) in
  let!? _ := startChildren t cell ns (resolveAttachableContainerID cell) (csp_Containers (cell_Spec cell)) in
  let!? _ := probeLive (tg_namespace t) (sg_rootID g) (nonRootContainerSpecsFromCell cell) in
  settleReady cell.

Definition startCellLocked (cell : Cell) : st C (result Cell) :=
  let!? g := resolveStart cell in
  let! up := cellTasksAllRunning (sg_cell g) (tg_namespace (sg_target g)) (sg_rootID g) in
  if (up : bool) then
    let! r := settleReady (sg_cell g) in
    let! _ := remote (reapplyAttachableSocketPerms (sg_cell g)) in
    st_ret r
  else
    let!? rootSpec := st_wrap (wrapf "failed to get root container spec: %w") (ensureCellRootContainerSpec (sg_cell g)) in
    or_mark_failed (sg_cell g) "StartCellFailed" (bringUp g rootSpec).

(** ** Starting one container (StartContainer of start.go) *)

Record StartingOne := { so_target : Target; so_spec : ContainerSpec; so_root : string; so_ns : NamespacePaths; so_reuse : bool }.
Definition rootNamespaces (namespace rootContainerID : string) : st C (result NamespacePaths) :=
  let! got := GetContainer namespace rootContainerID in
  match got with
  | Err e => st_ret (Err (EWrap (if error_is ErrContainerNotFound e then "root container %q does not exist, start the cell first using 'kuke start %s': %w"
                                 else "failed to get root container: %w") [e]))
  | Ok h =>
      let! task := remote (con_Task namespace h) in
      match task with
      | Err e => st_ret (Err (EWrap (if cd_IsNotFound e then "root container %q exists but has no task, start the cell first using 'kuke start %s': %w"
                                     else "root container task not found, ensure root container is started: %w") [e]))
      | Ok t =>
          let!? _ := st_guard (negb (tsk_Pid t =? 0)%Z) (EOpaque "root container has invalid pid (0)") in
          st_ret (Ok (namespacesOf (tsk_Pid t)))
      end
  end.
Definition resolveStartOne (cell : Cell) (containerID : string) : st C (result StartingOne) :=
  let sp := cell_Spec cell in
  let!? _ := st_guard (negb (String.eqb containerID "")) (EOpaque "container ID is required") in
  let!? _ := required (TrimSpace (cm_Name (cell_Metadata cell))) ErrCellNameRequired in
  let!? _ := required (csp_ID sp) ErrCellIDRequired in
  let!? _ := required (TrimSpace (csp_RealmName sp)) ErrRealmNameRequired in
  let!? _ := required (TrimSpace (csp_SpaceName sp)) ErrSpaceNameRequired in
  let!? _ := st_check (wrapd ErrConnectContainerd) (remote sto_ensureClientConnected) in
  let!? realm := st_wrap (wrapf "failed to get realm: %w") (remote (sto_GetRealm (realm_named (TrimSpace (csp_RealmName sp))))) in
  let t := {| tg_namespace := rsp_Namespace (realm_Spec realm); tg_creds := ConvertRealmCredentials (rsp_RegistryCredentials (realm_Spec realm));
              tg_cni := "" |} in
  let!? _ := namespaceRequired t in
  match find_first (fun c => String.eqb (c_ID c) containerID) (csp_Containers sp) with
  | None => st_ret (Err (EOpaque "container %q not found in cell %q"))
  | Some found =>
      let!? _ := st_guard (negb (c_Root found)) (EOpaque "root container cannot be started directly, start the cell instead using 'kuke start %s'") in
      let!? _ := st_guard (negb (String.eqb (c_ContainerdID found) "")) (EOpaque "container %q has empty ContainerdID") in
      let!? rootContainerID := st_ret (getRootContainerContainerdID cell) in
      let!? ns := rootNamespaces (tg_namespace t) rootContainerID in
      let!? reuse := reuseOrRefuseExistingChildContainer marshalPayload (tg_namespace t) (c_ContainerdID found) found in
      st_ret (Ok {| so_target := t; so_ns := ns; so_root := rootContainerID; so_reuse := reuse;
                    so_spec := stampContainerRecreateRuntimeFields
                                 (set_nested (csp_NestedCgroupRuntime sp) (setCellCgroupPath found cell)) cell |})
  end.

(** The spec in the list is updated in place before the clean-up can see the cell. *)
Definition with_started (g : StartingOne) (cell : Cell) : Cell :=
  with_Containers (put_container (so_spec g) (csp_Containers (cell_Spec cell))) cell.

Definition bringUpOne (g : StartingOne) (cell : Cell) (containerID : string) : st C (result Cell) :=
  let t := so_target g in
  let spec := so_spec g in
  let!? attachOpts := childOpts cell spec in
  let!? _ := (if so_reuse g then st_ret (Ok ())
              else let!? _ := st_wrap (wrapf "failed to create container %s: %w") (createChild t spec spec attachOpts) in st_ret (Ok ())) in
  let!? _ := chownChild t spec in
  let!? _ := st_wrap (wrapf "failed to start container %s: %w")
               (StartContainer (tg_namespace t) (c_ContainerdID spec) (namespaceSpecOpts (so_ns g)) (containerLogTaskSpec spec)) in
  let sp := cell_Spec cell in
  let!? updatedCell := st_wrap (wrapf "failed to retrieve cell after starting container: %w")
                         (remote (sto_GetCell (cell_named (TrimSpace (csp_RealmName sp)) (TrimSpace (csp_SpaceName sp)) (csp_StackName sp)
                                                 (TrimSpace (cm_Name (cell_Metadata cell)))))) in
  let probe := set_identity containerID (c_ContainerdID spec) "" "" "" "" false "" zero_ContainerSpec in
  let!? _ := probeLive (tg_namespace t) (so_root g) [probe] in
  settleReady updatedCell.

Definition runnerStartContainer (cell : Cell) (containerID : string) : st C (result Cell) :=
  let containerID := TrimSpace containerID in
  let!? g := resolveStartOne cell containerID in
  let cell := with_started g cell in
  or_mark_failed cell "StartContainerFailed" (bringUpOne g cell containerID).
End BringUp.

(** ** What creating and starting may touch

    As for teardown: a preorder every host call respects is respected by the whole
    operation.  [X] are the containers that may be made. *)

Class BringRespects {W : Type} `{Containerd W} `{OciHost W} `{CniHost W} `{RunnerStore W} `{NodeHost W}
    (R : W → W → Prop) (P : string → Prop) (X : string * string → Prop) := {
  br_stop :: StopRespects R P;
  br_node :: NodeRespects R;
  br_new : ∀ ns id img key sn labels opts, X (ns, id) → respects R (cd_NewContainer ns id img key sn labels opts);
  br_update : ∀ c, respects R (sto_UpdateCellMetadata c);
  br_newTask : ∀ ns h io, respects R (con_NewTask ns h io);
  br_start : ∀ ns t, respects R (tsk_Start ns t);
  br_spec : ∀ ns h, respects R (con_Spec ns h);
  br_conUpdate : ∀ ns h s, respects R (con_Update ns h s);
  br_labels : ∀ ns h, respects R (con_Labels ns h);
  br_setLabels : ∀ ns h l, respects R (con_SetLabels ns h l);
  br_getImage : ∀ ns i, respects R (cd_GetImage ns i);
  br_lease : ∀ ns, respects R (cd_CreateLease ns);
  br_unlease : ∀ l, respects R (cd_DeleteLease l);
  br_pull : ∀ ns l i cr, respects R (cd_Pull ns l i cr);
  br_isUnpacked : ∀ ns i s, respects R (img_IsUnpacked ns i s);
  br_unpack : ∀ ns i s, respects R (img_Unpack ns i s);
  br_mkdir : ∀ p, respects R (cd_MkdirAll p);
  br_relocate : ∀ p l, respects R (cd_RelocateToLeaf p l);
  br_cached : ∀ n rt, respects R (cni_CachedResult n rt)
}.

Section BringFrame.
Context {W : Type} `{Containerd W} `{OciHost W} `{CniHost W} `{RunnerStore W} `{NodeHost W} `{HostConfig} `{RunnerOpts}.
Context (cniConf : Conf) (marshalPayload : containerSpecHashPayload → string).
Context (R : W → W → Prop) (P : string → Prop) (X : string * string → Prop) `{!BringRespects R P X}.
Notation C := (Client W).
Notation on_world := (on_world R).

#[local] Instance bring_node : NodeRespects R := br_node (P := P) (X := X).
#[local] Hint Resolve bring_node : frame.
#[local] Hint Resolve br_update br_newTask br_start br_spec br_conUpdate br_labels br_setLabels br_getImage br_lease br_unlease br_pull : frame.
#[local] Hint Resolve br_isUnpacked br_unpack br_mkdir br_relocate br_cached br_new : frame.
#[local] Hint Extern 1 (respects R _) =>
  first [eapply (sr_load (P := P))|eapply (sr_list (P := P))|eapply (sr_task (P := P))|eapply (sr_status (P := P))
        |eapply (sr_taskDelete (P := P))|eapply (sr_sleep (P := P))|eapply (sr_now (P := P))|eapply (sr_connected (P := P))
        |eapply (sr_realm (P := P))|eapply (sr_space (P := P))|eapply (sr_cell (P := P))] : frame.
#[local] Hint Resolve nr_chown nr_resolveAll nr_walk : frame.
#[local] Hint Resolve reapplyEach_frame stageKukepauseBinary_frame attachableBuildOpts_frame chownVisits_frame chownVolumes_frame : frame.
#[local] Hint Resolve volumeTargets_frame renderCellEtcFiles_frame ensureCellEtcFiles_frame renderCellEtcHostsWithIP_frame resolveSecrets_frame unless_missing_frame : frame.
Ltac bring_frame := repeat (frame_step || apply (remote_frame R) || (progress eauto with frame)); eauto with frame.
#[local] Hint Extern 1 (respects on_world (storeContainer _ _ _)) => apply (storeContainer_frame R P) : frame.
#[local] Hint Extern 1 (respects on_world (storeTask _ _ _)) => apply (storeTask_frame R P) : frame.
#[local] Hint Extern 1 (respects on_world (dropTask _ _)) => apply (dropTask_frame R P) : frame.
#[local] Hint Extern 1 (respects on_world (loadContainer _ _)) => apply (loadContainer_frame R P) : frame.
#[local] Hint Extern 1 (respects on_world (loadTask _ _)) => apply (loadTask_frame R P) : frame.
#[local] Hint Extern 1 (respects on_world (GetContainer _ _)) => apply (GetContainer_frame R P) : frame.
#[local] Hint Extern 1 (respects on_world (ctrTaskStatus _ _)) => apply (ctrTaskStatus_frame R P) : frame.
#[local] Hint Extern 1 (respects on_world (Containerd.ExistsContainer _ _)) => apply (ExistsContainer_frame R P) : frame.
#[local] Hint Extern 1 (respects R (purgeCNIForContainer _ _ _ _)) => apply (purgeCNIForContainer_frame R P) : frame.
#[local] Hint Extern 1 (respects on_world (purgeCNI _ _ _ _)) => apply (purgeCNI_frame cniConf R P) : frame.
#[local] Hint Extern 1 (respects on_world (ResolveSpaceCNIConfigPath _ _)) => apply (ResolveSpaceCNIConfigPath_frame R P) : frame.
#[local] Hint Extern 1 (respects on_world (populateCellContainerStatuses _)) => apply (populate_on_world R P) : frame.
#[local] Hint Extern 1 (respects on_world (killCellLocked _ _)) => apply (killCellLocked_frame cniConf R P); intros; apply br_update : frame.

(** *** The client *)

Lemma CreateContainer_frame ns spec creds : X (ns, ks_ID spec) → respects on_world (CreateContainer ns spec creds).
Proof. intros HX. unfold CreateContainer, pullImage, ensureImageUnpacked. bring_frame. Qed.
Lemma applyOpts_paths_frame np s : respects R (applyOpts (namespaceSpecOpts np) s).
Proof.
  intros w. unfold namespaceSpecOpts. destruct (path_opt_runs NetworkNamespace (np_Net np) s w) as [s1 E1].
  destruct (path_opt_runs IPCNamespace (np_IPC np) s1 w) as [s2 E2]. destruct (path_opt_runs UTSNamespace (np_UTS np) s2 w) as [s3 E3].
  destruct (path_opt_runs PIDNamespace (np_PID np) s3 w) as [s4 E4]. rewrite applyOpts_app, E1, applyOpts_app, E2, applyOpts_app, E3, E4.
  reflexivity.
Qed.
#[local] Hint Resolve applyOpts_paths_frame : frame.
(** A task is started with no change to the spec or joining namespaces. *)
Lemma startJoined_frame ns id np io : respects on_world (StartContainer ns id (namespaceSpecOpts np) io).
Proof.
  unfold StartContainer, reuseTask, relocateContainerTaskToLeaf, buildIO.
  assert (He : ∀ h, respects on_world (applySpecOpts ns h (namespaceSpecOpts np))).
  { intros h. pose proof (applyOpts_paths_frame np) as Ho. unfold applySpecOpts. destruct (namespaceSpecOpts np); bring_frame. }
  bring_frame.
Qed.
Lemma startPlain_frame ns id io : respects on_world (StartContainer ns id [] io).
Proof. unfold StartContainer, reuseTask, relocateContainerTaskToLeaf, buildIO, applySpecOpts. bring_frame. Qed.
Lemma processUID_frame ns spec : respects on_world (processUID ns spec).
Proof. unfold processUID, ContainerProcessUID. bring_frame. Qed.
#[local] Hint Resolve CreateContainer_frame startJoined_frame startPlain_frame processUID_frame : frame.

(** *** One container *)

Lemma chownChild_frame t spec : respects on_world (chownChild t spec).
Proof. unfold chownChild, attachablePostCreateChown, volumePostCreateChown, chownAttachableStaleChildren. cbv zeta. bring_frame. Qed.
Lemma childOpts_frame cell spec : respects on_world (childOpts cell spec).
Proof. unfold childOpts. bring_frame. Qed.
Lemma createRoot_frame t cell spec : X (tg_namespace t, containerdIDOf spec) → respects on_world (createRoot marshalPayload t cell spec).
Proof. intros HX. unfold createRoot. apply CreateContainer_frame. exact HX. Qed.
Lemma merged_env_id spec a env : containerdIDOf (mergeRuntimeEnvForContainer spec a env) = containerdIDOf spec.
Proof. unfold mergeRuntimeEnvForContainer. destruct spec. by repeat case_match. Qed.
Lemma createChild_frame t spec ociSpec opts :
  X (tg_namespace t, containerdIDOf ociSpec) → respects on_world (createChild marshalPayload t spec ociSpec opts).
Proof.
  intros HX. unfold createChild, CreateContainerFromSpec. cbv zeta. destruct (first_error _); [bring_frame|].
  apply respects_try; [apply _..|bring_frame|]. intros resolved. apply respects_try; [apply _..|bring_frame|]. intros volumes.
  apply respects_wrap; [apply _..|]. apply CreateContainer_frame. by destruct ociSpec.
Qed.
#[local] Hint Resolve chownChild_frame childOpts_frame : frame.
Lemma reuseChild_frame ns id spec : respects on_world (reuseOrRefuseExistingChildContainer marshalPayload ns id spec).
Proof.
  unfold reuseOrRefuseExistingChildContainer, restampSpecHashLabels, dropStaleTask.
  cbn [ctr_GetContainer handle_Labels handle_SetLabels handle_Task task_Delete client_RecordHost]. cbv zeta. bring_frame.
Qed.
#[local] Hint Resolve reuseChild_frame : frame.

(** *** Before anything is made *)

Lemma required_frame s d : respects on_world (required s d).
Proof. unfold required. bring_frame. Qed.
#[local] Hint Resolve required_frame : frame.
Lemma resolveTarget_frame r s : respects on_world (resolveTarget r s).
Proof. unfold resolveTarget. bring_frame. Qed.
Lemma namespaceRequired_frame t : respects on_world (namespaceRequired t).
Proof. unfold namespaceRequired. bring_frame. Qed.
Lemma ensureRootSpec_frame cell : respects on_world (ensureCellRootContainerSpec cell).
Proof. unfold ensureCellRootContainerSpec. cbv zeta. bring_frame. Qed.
Lemma applyDefaults_frame cell : respects on_world (applyCellContainerDefaults cell).
Proof. unfold applyCellContainerDefaults. cbv zeta. bring_frame. Qed.
#[local] Hint Resolve resolveTarget_frame namespaceRequired_frame ensureRootSpec_frame applyDefaults_frame : frame.
Lemma resolveStart_frame cell : respects on_world (resolveStart cell).
Proof. unfold resolveStart. cbv zeta. bring_frame. Qed.
Lemma firstNonLiveChild_frame ns specs : respects on_world (firstNonLiveChild ns specs).
Proof. induction specs; cbn [firstNonLiveChild]; cbv zeta; unfold statusOf; bring_frame. Qed.
#[local] Hint Resolve firstNonLiveChild_frame : frame.
Lemma firstNonLive_frame ns root specs : respects on_world (firstNonLiveContainer ns root specs).
Proof. unfold firstNonLiveContainer, statusOf. bring_frame. Qed.
#[local] Hint Resolve firstNonLive_frame : frame.
Lemma pollLive_frame n ns root specs d i : respects on_world (pollLive n ns root specs d i).
Proof. induction n; cbn [pollLive]; bring_frame. Qed.
#[local] Hint Resolve pollLive_frame : frame.
Lemma probeLive_frame ns root specs : respects on_world (probeLive ns root specs).
Proof. unfold probeLive, verifyCellTasksLiveAfterStart. bring_frame. Qed.

(** *** Starting *)

Lemma settleReady_frame cell : respects on_world (settleReady cell).
Proof. unfold settleReady, PopulateAndPersistCellContainerStatuses. bring_frame. Qed.
Lemma markCellFailed_frame cell reason e : respects on_world (markCellFailed cniConf cell reason e).
Proof. unfold markCellFailed, reload. cbv zeta. bring_frame. Qed.
#[local] Hint Resolve probeLive_frame settleReady_frame markCellFailed_frame : frame.
Lemma or_mark_failed_frame {A} cell reason (m : st C (result A)) :
  respects on_world m → respects on_world (or_mark_failed cniConf cell reason m).
Proof. intros Hm. unfold or_mark_failed. bring_frame. Qed.
Lemma startChild_frame t cell ns a c : X (tg_namespace t, c_ContainerdID c) → respects on_world (startChild marshalPayload t cell ns a c).
Proof.
  intros HX. unfold startChild. destruct (String.eqb_spec (c_ContainerdID c) "") as [|Hne]; [bring_frame|]. cbv zeta.
  set (spec := set_nested _ _). assert (Hid : containerdIDOf spec = c_ContainerdID c).
  { unfold spec, setCellCgroupPath, containerdIDOf. destruct c; cbn in *. repeat case_match; cbn in *; try done. all: by destruct (String.eqb_spec c_ContainerdID ""). }
  assert (Hc : ∀ opts, respects on_world (createChild marshalPayload t spec (mergeRuntimeEnvForContainer spec a (csp_RuntimeEnv (cell_Spec cell))) opts))
    by (intros opts; apply createChild_frame; by rewrite merged_env_id, Hid).
  bring_frame.
Qed.
Lemma startChildren_frame t cell ns a cs : Forall (fun c => c_Root c = false → X (tg_namespace t, c_ContainerdID c)) cs →
  respects on_world (startChildren marshalPayload t cell ns a cs).
Proof.
  induction 1 as [|c cs Hc _ IH]; cbn [startChildren]; [bring_frame|]. destruct (c_Root c); [done|].
  pose proof (startChild_frame t cell ns a c (Hc eq_refl)). bring_frame.
Qed.
#[local] Hint Resolve startChildren_frame createRoot_frame : frame.
Lemma reuseRoot_frame g spec : respects on_world (reuseOrRefuseRoot cniConf marshalPayload g spec).
Proof.
  unfold reuseOrRefuseRoot, purgeRootCNI, restampSpecHashLabels, dropStaleTask.
  cbn [ctr_GetContainer handle_Labels handle_SetLabels handle_Task task_Delete client_RecordHost]. cbv zeta. bring_frame.
Qed.
#[local] Hint Resolve reuseRoot_frame : frame.

(** A root on the host network is attached to none; for any other the relation has to
    admit an attach. *)
Definition attach_ok (spec : ContainerSpec) : Prop := c_HostNetwork spec = true ∨ ∀ n rt, respects R (cni_AddNetworkList n rt).
Lemma attachRoot_frame t id spec netns : attach_ok spec → respects R (attachRoot cniConf t id spec netns).
Proof.
  unfold attach_ok, attachRoot, rootContainerWantsCNI. intros [->|Ha]; cbn [negb]; [bring_frame|]. destruct (c_HostNetwork spec); cbn [negb]; [bring_frame|].
  apply respects_try; [apply _..|apply respects_wrap; [apply _..|apply (LoadNetworkConfigList_frame R P)]|]. intros m.
  unfold AddContainerToNetwork, CachedIPv4ForContainer. bring_frame.
Qed.
Lemma cgroup_path_fields spec cell :
  containerdIDOf (setCellCgroupPath spec cell) = containerdIDOf spec ∧ c_HostNetwork (setCellCgroupPath spec cell) = c_HostNetwork spec.
Proof. unfold setCellCgroupPath. destruct (negb _); [done|]. by destruct spec. Qed.
Lemma etc_path_fields spec paths :
  let spec' := stampEtcFilePathsOnContainerSpec paths spec in
  containerdIDOf spec' = containerdIDOf spec ∧ c_HostNetwork spec' = c_HostNetwork spec ∧ c_Root spec' = c_Root spec ∧
  c_ContainerdID spec' = c_ContainerdID spec ∧ c_ID spec' = c_ID spec.
Proof. destruct paths as [[[hostname hosts] suppress]|]; [|done]. by destruct spec. Qed.
Lemma startRoot_frame g spec : X (tg_namespace (sg_target g), containerdIDOf spec) → attach_ok spec →
  respects on_world (startRoot cniConf marshalPayload g spec).
Proof.
  intros HX Ha. unfold startRoot. cbv zeta. set (spec' := stampContainerRecreateRuntimeFields _ _).
  assert (Hc : respects on_world (createRoot marshalPayload (sg_target g) (sg_cell g) spec'))
    by (apply createRoot_frame; unfold spec', stampContainerRecreateRuntimeFields; by rewrite (proj1 (etc_path_fields _ _)), (proj1 (cgroup_path_fields _ _))).
  assert (Hn : ∀ id netns, respects R (attachRoot cniConf (sg_target g) id spec' netns))
    by (intros; apply attachRoot_frame; unfold attach_ok, spec', stampContainerRecreateRuntimeFields in *; by rewrite (proj1 (proj2 (etc_path_fields _ _))), (proj2 (cgroup_path_fields _ _))).
  bring_frame.
Qed.
Lemma stamped_containers cell : csp_Containers (cell_Spec (stampCellEtcFilePathsOnContainers cell)) =
  stampEtcFilePathsOnContainerSpec (cellEtcFilePaths cell) <$> csp_Containers (cell_Spec cell).
Proof. by destruct cell as [m [] s]. Qed.
Lemma bringUp_frame g spec : X (tg_namespace (sg_target g), containerdIDOf spec) → attach_ok spec →
  Forall (fun c => c_Root c = false → X (tg_namespace (sg_target g), c_ContainerdID c)) (csp_Containers (cell_Spec (sg_cell g))) →
  respects on_world (bringUp cniConf marshalPayload g spec).
Proof.
  intros HX Ha Hs. unfold bringUp. cbv zeta. pose proof (startRoot_frame g spec HX Ha) as Hr.
  assert (Hc : ∀ ns a, respects on_world (startChildren marshalPayload (sg_target g) (stampCellEtcFilePathsOnContainers (sg_cell g)) ns a
                         (csp_Containers (cell_Spec (stampCellEtcFilePathsOnContainers (sg_cell g)))))).
  { intros ns a. apply startChildren_frame. rewrite stamped_containers. apply Forall_fmap. eapply Forall_impl; [exact Hs|].
    intros c Hc. cbn. destruct (etc_path_fields c (cellEtcFilePaths (sg_cell g))) as (_ & _ & -> & -> & _). done. }
  bring_frame.
Qed.

(** *** Creating and ensuring, when every container may be made *)

Section Made.
Context (X_all : ∀ p, X p).

Lemma keeping_frame {A B} cell (m : st C (result A)) (k : A → st C (Cell * result B)) :
  respects on_world m → (∀ a, respects on_world (k a)) → respects on_world (keeping cell m k).
Proof. intros Hm Hk. unfold keeping. apply respects_bind; [apply _|done|]. intros [a|e]; [done|bring_frame]. Qed.
Ltac made_frame := repeat first [ apply keeping_frame; [|intros ?] | frame_step | apply (remote_frame R) | progress eauto with frame ]; eauto with frame.
Lemma createChild_any t spec ociSpec opts : respects on_world (createChild marshalPayload t spec ociSpec opts).
Proof. by apply createChild_frame. Qed.
Lemma createRoot_any t cell spec : respects on_world (createRoot marshalPayload t cell spec).
Proof. by apply createRoot_frame. Qed.
Lemma runnerExists_frame ns id : respects on_world (runnerExistsContainer ns id).
Proof. unfold runnerExistsContainer. bring_frame. Qed.
#[local] Hint Resolve createChild_any createRoot_any runnerExists_frame : frame.
Lemma createEach_frame t r s st_ ce a before todo root cell : respects on_world (createEach marshalPayload t r s st_ ce a before todo root cell).
Proof.
  revert before root cell. induction todo as [|x todo IH]; intros before root cell; cbn [createEach]; [bring_frame|]. cbv zeta. made_frame.
Qed.
#[local] Hint Resolve createEach_frame : frame.
Lemma createCellContainers_frame cell : respects on_world (createCellContainers marshalPayload cell).
Proof. unfold createCellContainers. cbv zeta. made_frame. Qed.
Lemma ensureEach_frame t r s st_ ce before todo cell : respects on_world (ensureEach marshalPayload t r s st_ ce before todo cell).
Proof.
  revert before cell. induction todo as [|x todo IH]; intros before cell; cbn [ensureEach]; [bring_frame|]. cbv zeta. unfold ensureChild. made_frame.
Qed.
#[local] Hint Resolve ensureEach_frame : frame.
Lemma ensureCellContainers_frame cell : respects on_world (ensureCellContainers marshalPayload cell).
Proof. unfold ensureCellContainers, ensureRoot. cbv zeta. made_frame. Qed.
Lemma runnerStartContainer_frame cell id : respects on_world (runnerStartContainer cniConf marshalPayload cell id).
Proof.
  unfold runnerStartContainer, resolveStartOne. cbv zeta. apply respects_try; [apply _..|unfold rootNamespaces; made_frame|]. intros g.
  apply or_mark_failed_frame. unfold bringUpOne. cbv zeta. made_frame.
Qed.
End Made.
End BringFrame.
