(* ===== verification/BringUpTheorems.v ===== *)
(** * BringUpTheorems: what creating and starting a cell guarantees

    A start ends, reports a cell as ready only after its tasks were seen running, makes no
    containers but the cell's, never attaches a host-network cell and leaves a record of a
    failure; creating a cell's containers makes all of them. *)

From Stdlib Require Import Ascii ZArith Lia.
From stdpp Require Import base gmap strings list.
From S2P Require Import Prelude Model External Scheme Defaults CellState Naming Template Config Layout Observe Subnet NetPolicy SpecHash CellOps OciSpec Containerd Cni Teardown Attachable BringUp.

Local Open Scope nat_scope.

Lemma st_try_at {S A B} (m : st S (result A)) (k : A → st S (result B)) s s' r : m s = (s', r) →
  st_try m k s = match r with Ok a => k a s' | Err e => (s', Err e) end.
Proof. unfold st_try, st_bind. intros ->. by destruct r. Qed.

(** ** The liveness probe *)

(** The clock: reading it is truthful, sleeping advances it, nothing turns it back. *)
Class ClockLaws (W : Type) `{Containerd W} `{OciHost W} `{CniHost W} `{RunnerStore W} := {
  clock : W → Z;
  later (w w' : W) : Prop := (clock w ≤ clock w')%Z;
  law_clock_now : ∀ w, (sto_nowUTC w).2 = clock w;
  law_clock_sleep : ∀ d w, (0 ≤ d)%Z → (clock w + d ≤ clock (cd_sleep d w).1)%Z;
  law_clock_later :: StopRespects later any_netns
}.

Section Probe.
Context {W : Type} `{Containerd W} `{OciHost W} `{CniHost W} `{RunnerStore W} `{NodeHost W} `{HostConfig} `{!ClockLaws W}.
Notation C := (Client W).
Definition time (c : C) : Z := clock (cl_world c).

Lemma time_firstNonLive ns root specs (c : C) : (time c ≤ time (firstNonLiveContainer ns root specs c).1)%Z.
Proof.
  revert c. change (respects (on_world later) (firstNonLiveContainer ns root specs)).
  unfold firstNonLiveContainer, statusOf. apply respects_bind; [apply _|apply (ctrTaskStatus_frame later any_netns)|].
  intros r. destruct (seen_running r); [|solve_frame]. induction specs as [|s l IH]; cbn [firstNonLiveChild]; [solve_frame|].
  destruct (c_Root s); [done|]. cbv zeta. destruct (String.eqb _ _); [solve_frame|]. unfold statusOf.
  apply respects_bind; [apply _|apply (ctrTaskStatus_frame later any_netns)|]. intros s'. destruct (seen_running s'); [done|solve_frame].
Qed.

(** [n] intervals cover what is left of the window. *)
Lemma pollLive_spec n ns root specs deadline interval (c : C) : (0 < interval)%Z →
  (deadline ≤ time c + Z.of_nat n * interval)%Z →
  let '(c', r) := pollLive (S n) ns root specs deadline interval c in
  match r with
  | None => False
  | Some None => (deadline ≤ time c')%Z
  | Some (Some e) => error_is ErrCellWindDownImmediate e = true
  end.
Proof.
  intros Hi. revert c. induction n as [|n IH]; intros c Hd; cbn [pollLive];
    pose proof (time_firstNonLive ns root specs c) as Ht; unfold st_bind at 1; destruct (firstNonLiveContainer _ _ _ c) as [c1 dead];
    cbn [fst] in Ht; (destruct (reported dead); [done|]); unfold st_bind at 1, remote at 1;
    pose proof (law_clock_now (cl_world c1)) as Hnow; pose proof (sr_now (R := later) (P := any_netns) (cl_world c1)) as Hlater;
    destruct (sto_nowUTC (cl_world c1)) as [w2 now]; cbn [fst snd] in Hnow, Hlater; subst now; unfold later in Hlater;
    unfold time in *; destruct (Z.ltb_spec (clock (cl_world c1)) deadline) as [Hlt|Hge]; cbn [negb]; try (cbn; lia).
  unfold st_bind, remote. cbn [cl_world]. pose proof (law_clock_sleep interval w2 ltac:(lia)) as Hs.
  destruct (cd_sleep interval w2) as [w3 u]. cbn [fst] in Hs. apply IH. cbn. lia.
Qed.

(** The check that a started cell stays up ends: within its seven polls it either finds
    a task that is not running, and says so, or sees every poll pass until the whole 300 ms
    have gone by. *)
Theorem liveness_probe_ends ns root specs (c : C) :
  let '(c', r) := verifyCellTasksLiveAfterStart ns root specs cellStartLivenessGraceWindow cellStartLivenessPollInterval c in
  (r = Some None ∧ (time c + cellStartLivenessGraceWindow ≤ time c')%Z) ∨
  ∃ e, r = Some (Some e) ∧ error_is ErrCellWindDownImmediate e = true.
Proof.
  unfold verifyCellTasksLiveAfterStart. change (cellStartLivenessGraceWindow <=? 0)%Z with false. cbv iota.
  unfold st_bind, remote. pose proof (law_clock_now (cl_world c)) as Hnow.
  pose proof (sr_now (R := later) (P := any_netns) (cl_world c)) as Hlater. destruct (sto_nowUTC (cl_world c)) as [w1 now].
  cbn [fst snd] in Hnow, Hlater. unfold later in Hlater. set (c1 := MkClient w1 _ _).
  pose proof (pollLive_spec 6 ns root specs (now + cellStartLivenessGraceWindow) cellStartLivenessPollInterval c1 eq_refl) as Hp.
  change (S 6) with pollFuel in Hp. destruct (pollLive pollFuel _ _ _ _ _ c1) as [c' [[e|]|]].
  - right. exists e. split; [done|]. apply Hp. unfold time, c1, cellStartLivenessGraceWindow, cellStartLivenessPollInterval. cbn. lia.
  - left. split; [done|]. unfold time. rewrite <-Hnow. apply Hp. unfold time, c1, cellStartLivenessGraceWindow, cellStartLivenessPollInterval. cbn. lia.
  - destruct Hp. unfold time, c1, cellStartLivenessGraceWindow, cellStartLivenessPollInterval. cbn. lia.
Qed.
End Probe.

(** ** Starting a cell *)

Section StartTheorems.
Context {W : Type} `{Containerd W} `{OciHost W} `{CniHost W} `{RunnerStore W} `{NodeHost W} `{HostConfig} `{RunnerOpts}.
Context (cniConf : Conf) (marshalPayload : containerSpecHashPayload → string).
Notation C := (Client W).

(** The world went from one state to the other by host calls alone: whatever preorder they
    all respect relates the two. *)
Definition leads (c c' : C) : Prop :=
  ∀ R : W → W → Prop, BringRespects R any_netns (fun _ => True) → (∀ n rt, respects R (cni_AddNetworkList n rt)) →
  R (cl_world c) (cl_world c').
#[export] Instance leads_preorder : PreOrder leads.
Proof.
  split.
  - intros c R HR _. destruct (nr_preorder (R := R)). reflexivity.
  - intros a b c K1 K2 R HR Ha. destruct (nr_preorder (R := R)). exact (transitivity (K1 R HR Ha) (K2 R HR Ha)).
Qed.
Lemma framed_leads {A} (m : st C A) : 
  (∀ R : W → W → Prop, BringRespects R any_netns (fun _ => True) → (∀ n rt, respects R (cni_AddNetworkList n rt)) → respects (on_world R) m) →
  respects leads m.
Proof. intros Hm c R HR Ha. by apply Hm. Qed.

(** On the way from [c] to [c'] the task was seen running. *)
Definition saw_running (ns id : string) (c c' : C) : Prop :=
  ∃ s s' status, leads c s ∧ ctrTaskStatus ns id s = (s', Ok status) ∧ is_running status = true ∧ leads s' c'.
Lemma saw_within ns id c0 c c' c1 : leads c0 c → leads c' c1 → saw_running ns id c c' → saw_running ns id c0 c1.
Proof. intros K0 K1 (s & s' & st & L & E & Hr & L'). exists s, s', st. split_and!; [by etrans|done|done|by etrans]. Qed.

Lemma leads_status ns id : respects leads (ctrTaskStatus ns id).
Proof. apply framed_leads. intros R HR _. apply (ctrTaskStatus_frame R any_netns). Qed.
Lemma leads_nonLiveChild ns specs : respects leads (firstNonLiveChild ns specs).
Proof. apply framed_leads. intros R HR _. exact (firstNonLiveChild_frame R any_netns (fun _ => True) ns specs). Qed.
Lemma leads_nonLive ns root specs : respects leads (firstNonLiveContainer ns root specs).
Proof. apply framed_leads. intros R HR _. exact (firstNonLive_frame R any_netns (fun _ => True) ns root specs). Qed.
Lemma leads_remote {A} (m : st W A) :
  (∀ R : W → W → Prop, BringRespects R any_netns (fun _ => True) → respects R m) → respects leads (remote m).
Proof. intros Hm. apply framed_leads. intros R HR _. apply (remote_frame R). by apply Hm. Qed.
Lemma leads_now : respects leads (remote sto_nowUTC).
Proof. apply leads_remote. intros R HR. apply (sr_now (P := any_netns)). Qed.
Lemma leads_sleep d : respects leads (remote (cd_sleep d)).
Proof. apply leads_remote. intros R HR. apply (sr_sleep (P := any_netns)). Qed.

Lemma status_seen ns id (c : C) : seen_running (ctrTaskStatus ns id c).2 = true → saw_running ns id c (ctrTaskStatus ns id c).1.
Proof.
  destruct (ctrTaskStatus ns id c) as [c' [status|e]] eqn:E; cbn; [|done]. intros Hr. exists c, c', status. by split_and!.
Qed.

(** A poll that reports nothing saw every task. *)
Lemma nonLiveChild_saw ns specs (c : C) : Forall (fun s => c_Root s = false → c_ID s ≠ "") specs →
  reported (firstNonLiveChild ns specs c).2 = None →
  ∀ s, s ∈ specs → c_Root s = false → saw_running ns (TrimSpace (c_ContainerdID s)) c (firstNonLiveChild ns specs c).1.
Proof.
  intros Hid. revert c. induction Hid as [|s specs Hs _ IH]; intros c Hrep s' Hin Hroot; [by apply elem_of_nil in Hin|].
  cbn [firstNonLiveChild] in *. destruct (c_Root s) eqn:Er.
  { apply elem_of_cons in Hin as [->|Hin]; [congruence|]. by apply IH. }
  cbv zeta in *. destruct (String.eqb_spec (TrimSpace (c_ContainerdID s)) "") as [E0|Hne].
  { cbn in Hrep. destruct (String.eqb_spec (c_ID s) ""); [by destruct (Hs eq_refl)|done]. }
  unfold statusOf, st_bind in *. pose proof (leads_status ns (TrimSpace (c_ContainerdID s)) c) as L.
  pose proof (status_seen ns (TrimSpace (c_ContainerdID s)) c) as Hseen.
  destruct (ctrTaskStatus ns (TrimSpace (c_ContainerdID s)) c) as [c1 r]. cbn [fst snd] in L, Hseen.
  destruct (seen_running r).
  - apply elem_of_cons in Hin as [->|Hin].
    + apply (saw_within _ _ c c c1); [done|apply leads_nonLiveChild|by apply Hseen].
    + apply (saw_within _ _ c c1 (firstNonLiveChild ns specs c1).1); [done|done|by apply IH].
  - cbn in Hrep. apply String.eqb_neq in Hne. by rewrite Hne in Hrep.
Qed.
Lemma nonLive_saw ns root specs (c : C) : root ≠ "" → Forall (fun s => c_Root s = false → c_ID s ≠ "") specs →
  reported (firstNonLiveContainer ns root specs c).2 = None →
  let c' := (firstNonLiveContainer ns root specs c).1 in
  saw_running ns root c c' ∧ ∀ s, s ∈ specs → c_Root s = false → saw_running ns (TrimSpace (c_ContainerdID s)) c c'.
Proof.
  intros Hne Hid. unfold firstNonLiveContainer, statusOf, st_bind. pose proof (leads_status ns root c) as L.
  pose proof (status_seen ns root c) as Hseen. destruct (ctrTaskStatus ns root c) as [c1 r]. cbn [fst snd] in L, Hseen.
  destruct (seen_running r); intros Hrep.
  - split; [apply (saw_within _ _ c c c1); [done|apply leads_nonLiveChild|by apply Hseen]|]. intros s Hin Hroot.
    apply (saw_within _ _ c c1 (firstNonLiveChild ns specs c1).1); [done|done|by apply nonLiveChild_saw].
  - cbn in Hrep. apply String.eqb_neq in Hne. by rewrite Hne in Hrep.
Qed.

Lemma pollLive_saw n ns root specs deadline interval (c c' : C) : root ≠ "" → Forall (fun s => c_Root s = false → c_ID s ≠ "") specs →
  pollLive n ns root specs deadline interval c = (c', Some None) →
  saw_running ns root c c' ∧ ∀ s, s ∈ specs → c_Root s = false → saw_running ns (TrimSpace (c_ContainerdID s)) c c'.
Proof.
  intros Hne Hid. revert c. induction n as [|n IH]; intros c; cbn [pollLive]; [done|]. unfold st_bind at 1.
  pose proof (nonLive_saw ns root specs c Hne Hid) as Hsaw. pose proof (leads_nonLive ns root specs c) as L.
  destruct (firstNonLiveContainer ns root specs c) as [c1 dead]. cbn [fst snd] in Hsaw, L.
  destruct (reported dead); [done|]. specialize (Hsaw eq_refl) as [S1 S2]. unfold st_bind at 1. pose proof (leads_now c1) as Ln.
  destruct (remote sto_nowUTC c1) as [c2 now]. cbn [fst] in Ln. destruct (negb _).
  - intros [= <-]. split; [by apply (saw_within _ _ c c c1)|]. intros s Hin Hr. by apply (saw_within _ _ c c c1); [| |apply S2].
  - unfold st_bind. pose proof (leads_sleep interval c2) as Ls. destruct (remote (cd_sleep interval) c2) as [c3 u]. cbn [fst] in Ls.
    intros [P1 P2]%IH. assert (L3 : leads c c3) by (by do 2 (etrans; [|done])).
    split; [by apply (saw_within _ _ c c3 c')|]. intros s Hin Hr. by apply (saw_within _ _ c c3 c'); [| |apply P2].
Qed.
Lemma probeLive_saw ns root specs (c c' : C) u : root ≠ "" → Forall (fun s => c_Root s = false → c_ID s ≠ "") specs →
  probeLive ns root specs c = (c', Ok u) →
  saw_running ns root c c' ∧ ∀ s, s ∈ specs → c_Root s = false → saw_running ns (TrimSpace (c_ContainerdID s)) c c'.
Proof.
  intros Hne Hid. unfold probeLive, verifyCellTasksLiveAfterStart. change (cellStartLivenessGraceWindow <=? 0)%Z with false. cbv iota.
  unfold st_bind. pose proof (leads_now c) as Ln. destruct (remote sto_nowUTC c) as [c1 now]. cbn [fst] in Ln.
  destruct (pollLive pollFuel ns root specs _ _ c1) as [c2 [[e|]|]] eqn:E; [done| |done]. intros [= <-].
  destruct (pollLive_saw _ _ _ _ _ _ _ _ Hne Hid E) as [P1 P2].
  split; [by apply (saw_within _ _ c c1 c2)|]. intros s Hin Hr. by apply (saw_within _ _ c c1 c2); [| |apply P2].
Qed.

Lemma settleReady_ready cell (c c' : C) cell' : settleReady cell c = (c', Ok cell') → cst_State (cell_Status cell') = CellStateReady.
Proof.
  unfold settleReady, PopulateAndPersistCellContainerStatuses, st_bind. pose proof (returns_populate (markCellReady cell) c) as Hp.
  destruct (populateCellContainerStatuses _ c) as [c1 cell1]. destruct (remote _ c1) as [c2 e]. cbn in Hp |- *. intros [= <- <-].
  rewrite Hp. by destruct cell as [m s []].
Qed.

Lemma root_id_nonempty a b d id : BuildRootContainerdID a b d = Ok id → id ≠ "".
Proof. unfold BuildRootContainerdID. destruct (TrimSpace a); [done|]. repeat case_match; try done. by intros [= <-]. Qed.
Lemma resolveStart_root cell c c1 g : resolveStart cell c = (c1, Ok g) →
  BuildRootContainerdID (csp_SpaceName (cell_Spec (sg_cell g))) (csp_StackName (cell_Spec (sg_cell g))) (csp_ID (cell_Spec (sg_cell g))) = Ok (sg_rootID g).
Proof.
  unfold resolveStart. destruct (requireNames cell) as [n|e]; [|done]. intros (c2 & stored & _ & E)%st_try_ok. cbv zeta in E.
  apply st_try_ok in E as (c3 & u & _ & E). apply st_try_ok in E as (c4 & t & _ & E). apply st_try_ok in E as (c5 & u' & _ & E).
  apply st_try_ok in E as (c6 & id & Eid%st_wrap_ok & E). injection E as _ <-. by injection Eid as _ Eid.
Qed.

(** Every step of a start by its frame. *)
Lemma leads_step {A} (m : st C A) c c' a : respects leads m → m c = (c', a) → leads c c'.
Proof. intros Hm E. specialize (Hm c). by rewrite E in Hm. Qed.
Lemma leads_rootSpec cell : respects leads (ensureCellRootContainerSpec cell).
Proof. apply framed_leads. intros R HR _. exact (ensureRootSpec_frame R any_netns (fun _ => True) cell). Qed.
Lemma leads_startRoot g spec : respects leads (startRoot cniConf marshalPayload g spec).
Proof. apply framed_leads. intros R HR Ha. exact (startRoot_frame cniConf marshalPayload R any_netns (fun _ => True) g spec I (or_intror Ha)). Qed.
Lemma leads_startChildren t cell ns a cs : respects leads (startChildren marshalPayload t cell ns a cs).
Proof.
  apply framed_leads. intros R HR _. apply (startChildren_frame marshalPayload R any_netns (fun _ => True)). by apply Forall_forall.
Qed.
Lemma leads_settleReady cell : respects leads (settleReady cell).
Proof. apply framed_leads. intros R HR _. exact (settleReady_frame R any_netns (fun _ => True) cell). Qed.

Definition saw_cell (g : Starting) (c c' : C) : Prop :=
  saw_running (tg_namespace (sg_target g)) (sg_rootID g) c c' ∧
  ∀ s, s ∈ csp_Containers (cell_Spec (sg_cell g)) → c_Root s = false →
       saw_running (tg_namespace (sg_target g)) (TrimSpace (c_ContainerdID s)) c c'.
Lemma saw_cell_within g c0 c c' c1 : leads c0 c → leads c' c1 → saw_cell g c c' → saw_cell g c0 c1.
Proof. intros K0 K1 [S1 S2]. split; [by apply (saw_within _ _ c0 c c')|]. intros s Hin Hr. apply (saw_within _ _ c0 c c'); auto. Qed.

Definition named_containers (cell : Cell) : Prop := Forall (fun s => c_Root s = false → c_ID s ≠ "") (csp_Containers (cell_Spec cell)).
(** The root and then every other container of the cell were started. *)
Definition started_all (g : Starting) (rootSpec : ContainerSpec) (c c' : C) : Prop :=
  let cell := stampCellEtcFilePathsOnContainers (sg_cell g) in
  ∃ c1 ns, startRoot cniConf marshalPayload g rootSpec c = (c1, Ok ns) ∧
    startChildren marshalPayload (sg_target g) cell ns (resolveAttachableContainerID cell) (csp_Containers (cell_Spec cell)) c1 = (c', Ok ()).
Lemma bringUp_saw g spec (c c' : C) cell' : sg_rootID g ≠ "" → named_containers (sg_cell g) →
  bringUp cniConf marshalPayload g spec c = (c', Ok cell') →
  cst_State (cell_Status cell') = CellStateReady ∧ ∃ c2, started_all g spec c c2 ∧ saw_cell g c2 c'.
Proof.
  intros Hne Hid. unfold bringUp. cbv zeta. intros (c1 & ns & E1 & E)%st_try_ok. apply st_try_ok in E as (c2 & [] & E2 & E).
  apply st_try_ok in E as (c3 & u' & E3 & E). split; [by apply settleReady_ready in E|]. exists c2. split; [by exists c1, ns|].
  apply (saw_cell_within g c2 c2 c3); [done|by apply (leads_step _ _ _ _ (leads_settleReady _) E)|].
  unfold nonRootContainerSpecsFromCell in E3. rewrite stamped_containers in E3. apply probeLive_saw in E3 as [S1 S2]; [|done|].
  - split; [done|]. intros s Hin Hr. set (s' := stampEtcFilePathsOnContainerSpec (cellEtcFilePaths (sg_cell g)) s).
    destruct (etc_path_fields s (cellEtcFilePaths (sg_cell g))) as (_ & _ & Hr' & Hcid & _). fold s' in Hr', Hcid. rewrite <-Hcid.
    apply S2; [|by rewrite Hr']. apply list_elem_of_In, List.filter_In. split; [|by rewrite Hr', Hr].
    apply list_elem_of_In, list_elem_of_fmap. by exists s.
  - apply Forall_forall. intros s Hin%list_elem_of_In. apply List.filter_In in Hin as [Hin _].
    apply list_elem_of_In, list_elem_of_fmap in Hin as (s0 & -> & Hin).
    destruct (etc_path_fields s0 (cellEtcFilePaths (sg_cell g))) as (_ & _ & -> & _ & ->). by apply (proj1 (Forall_forall _ _) Hid).
Qed.


(** *** The spec of the root container *)

Lemma fill_names_fields id cid r s t ce root cni c :
  c_ContainerdID (fill_names id cid r s t ce root cni c) = or_default (c_ContainerdID c) cid ∧
  c_HostNetwork (fill_names id cid r s t ce root cni c) = c_HostNetwork c ∧
  c_ID (fill_names id cid r s t ce root cni c) = or_default (c_ID c) id ∧ c_Root (fill_names id cid r s t ce root cni c) = root.
Proof. by destruct c. Qed.
Lemma set_nested_fields b c :
  c_ContainerdID (set_nested b c) = c_ContainerdID c ∧ c_HostNetwork (set_nested b c) = c_HostNetwork c ∧ c_ID (set_nested b c) = c_ID c.
Proof. by destruct c. Qed.
Lemma BuildRoot_trimmed a b d : BuildRootContainerdID (TrimSpace a) (TrimSpace b) (TrimSpace d) = BuildRootContainerdID a b d.
Proof. unfold BuildRootContainerdID. by rewrite !TrimSpace_idem. Qed.

(** The ID the root is created with and the one it carries in the cell. *)
Definition rootSpec_ok (cell : Cell) (spec : ContainerSpec) : Prop :=
  ∃ id, BuildRootContainerdID (csp_SpaceName (cell_Spec cell)) (csp_StackName (cell_Spec cell)) (csp_ID (cell_Spec cell)) = Ok id ∧
  containerdIDOf spec = c_ContainerdID spec ∧ c_ContainerdID spec ≠ "" ∧ c_ID spec ≠ "" ∧ c_Root spec = true ∧
  (c_ContainerdID spec = id ∨ ∃ c, c ∈ csp_Containers (cell_Spec cell) ∧ c_ContainerdID spec = c_ContainerdID c) ∧
  (csp_RootContainerID (cell_Spec cell) ≠ "" → c_ID spec = csp_RootContainerID (cell_Spec cell)) ∧
  (cellWantsHostNetworkRoot cell = true → c_HostNetwork spec = true).
Lemma ensureRootSpec_spec cell (c c' : C) spec : ensureCellRootContainerSpec cell c = (c', Ok spec) → rootSpec_ok cell spec.
Proof.
  unfold ensureCellRootContainerSpec. cbv zeta. intros (c1 & u1 & _ & E)%st_try_ok. apply st_try_ok in E as (c2 & u2 & _ & E).
  apply st_try_ok in E as (c3 & u3 & _ & E). apply st_try_ok in E as (c4 & u4 & _ & E). apply st_try_ok in E as (c5 & cni & _ & E).
  apply st_try_ok in E as (c6 & id & Eid%st_wrap_ok & E). injection Eid as <- Eid. rewrite BuildRoot_trimmed in Eid.
  apply st_try_ok in E as (c7 & base & Eb & E). injection E as <- <-. exists id. split; [done|].
  pose proof (root_id_nonempty _ _ _ _ Eid) as Hne.
  destruct (fill_names_fields "root" id (TrimSpace (csp_RealmName (cell_Spec cell))) (TrimSpace (csp_SpaceName (cell_Spec cell)))
    (TrimSpace (csp_StackName (cell_Spec cell))) (TrimSpace (csp_ID (cell_Spec cell))) true cni
    (set_nested (csp_NestedCgroupRuntime (cell_Spec cell)) base)) as (Fc & Fh & Fi & Fr).
  destruct (set_nested_fields (csp_NestedCgroupRuntime (cell_Spec cell)) base) as (Nc & Nh & Ni). rewrite Nc in Fc. rewrite Nh in Fh. rewrite Ni in Fi.
  set (spec := fill_names _ _ _ _ _ _ _ _ _) in *. assert (Hcid : c_ContainerdID spec ≠ "").
  { rewrite Fc. unfold or_default. destruct (String.eqb_spec (c_ContainerdID base) ""); done. }
  unfold containerdIDOf. rewrite (proj2 (String.eqb_neq _ _) Hcid). split; [done|]. split; [done|].
  split; [rewrite Fi; unfold or_default; by destruct (String.eqb_spec (c_ID base) "")|]. split; [done|].
  unfold or_default in Fc, Fi. destruct (String.eqb_spec (csp_RootContainerID (cell_Spec cell)) "") as [E0|Hroot]; cbn [negb] in Eb.
  - apply st_try_ok in Eb as (c8 & path & _ & Eb). injection Eb as _ <-. split_and!; [|by intros []|intros Hw; etrans; [exact Fh|exact Hw]].
    left. etrans; [exact Fc|]. cbn. by destruct (String.eqb_spec id "").
  - unfold find_first in Eb. destruct (List.find _ _) as [rootSpec|] eqn:Ef; [|done]. apply List.find_some in Ef as [Hin Hid%String.eqb_eq].
    unfold validateExplicitRootHostNetwork in Eb. destruct (cellWantsHostNetworkRoot cell && negb (c_HostNetwork rootSpec)) eqn:Ev; [done|].
    injection Eb as _ <-. split_and!.
    + rewrite Fc. destruct (String.eqb_spec (c_ContainerdID rootSpec) ""); [by left|]. right. exists rootSpec. split; [by apply list_elem_of_In|done].
    + intros _. rewrite Fi. by destruct (String.eqb_spec (c_ID rootSpec) ""); [congruence|].
    + intros Hw. rewrite Hw in Ev. rewrite Fh. by destruct (c_HostNetwork rootSpec).
Qed.

(** *** Which containers a start makes *)

(** The containers of the cell: the root's and those its spec names. *)
Definition own (g : Starting) (p : string * string) : Prop :=
  p.1 = tg_namespace (sg_target g) ∧
  (p.2 = sg_rootID g ∨ ∃ s, s ∈ csp_Containers (cell_Spec (sg_cell g)) ∧ p.2 = c_ContainerdID s).

(** What a start that got past its look-ups respects. *)
Lemma start_tail_frame R P X `{!BringRespects R P X} g (c : C) :
  (∀ p, own g p → X p) → (cellWantsHostNetworkRoot (sg_cell g) = true ∨ ∀ n rt, respects R (cni_AddNetworkList n rt)) →
  BuildRootContainerdID (csp_SpaceName (cell_Spec (sg_cell g))) (csp_StackName (cell_Spec (sg_cell g))) (csp_ID (cell_Spec (sg_cell g))) = Ok (sg_rootID g) →
  on_world R c ((let! up := cellTasksAllRunning (sg_cell g) (tg_namespace (sg_target g)) (sg_rootID g) in
    if (up : bool) then
      let! r := settleReady (sg_cell g) in
      let! _ := remote (reapplyAttachableSocketPerms (sg_cell g)) in
      st_ret r
    else
      let!? rootSpec := st_wrap (wrapf "failed to get root container spec: %w") (ensureCellRootContainerSpec (sg_cell g)) in
      or_mark_failed cniConf (sg_cell g) "StartCellFailed" (bringUp cniConf marshalPayload g rootSpec)) c).1.
Proof.
  intros HX Ha Hroot. pose proof (nr_preorder (R := R)) as HR.
  assert (Hup : respects (on_world R) (cellTasksAllRunning (sg_cell g) (tg_namespace (sg_target g)) (sg_rootID g))).
  { unfold cellTasksAllRunning. apply respects_bind; [apply _|exact (firstNonLive_frame R P X _ _ _)|solve_frame]. }
  unfold st_bind at 1. specialize (Hup c). destruct (cellTasksAllRunning _ _ _ c) as [c1 up]. etrans; [exact Hup|]. destruct up.
  - refine (respects_bind (on_world R) _ _ (settleReady_frame R P X (sg_cell g)) _ c1). intros r.
    apply respects_bind; [apply _|apply remote_frame, reapplyEach_frame; apply _|solve_frame].
  - unfold st_try, st_bind. destruct (st_wrap _ (ensureCellRootContainerSpec (sg_cell g)) c1) as [c2 [spec|e]] eqn:Es.
    all: assert (Hs : on_world R c1 c2) by
      (pose proof (respects_wrap (on_world R) (wrapf "failed to get root container spec: %w") _ (ensureRootSpec_frame R P X (sg_cell g)) c1) as K;
       by rewrite Es in K). 2: exact Hs.
    etrans; [exact Hs|]. apply st_wrap_ok in Es. apply ensureRootSpec_spec in Es as (id & Hid & Hof & _ & _ & _ & Hcid & _ & Hnet).
    apply (or_mark_failed_frame cniConf R P X). apply (bringUp_frame cniConf marshalPayload R P X).
    + apply HX. split; [done|]. cbn. rewrite Hof. rewrite Hroot in Hid. injection Hid as ->. done.
    + destruct Ha as [Hw|Ha]; [left; by apply Hnet|by right].
    + apply Forall_forall. intros s Hin _. apply HX. split; [done|]. right. by exists s.
Qed.

(** Respecting a finer relation is respecting a coarser one. *)
Section Coarser.
Context (R R' : W → W → Prop) (HR : ∀ w w', R w w' → R' w w') `{!PreOrder R'}.
Lemma respects_coarser {A} (m : st W A) : respects R m → respects R' m.
Proof. intros Hm w. apply HR, Hm. Qed.
#[local] Hint Resolve respects_coarser : coarser.
Lemma CniRespects_coarser P : CniRespects R P → CniRespects R' P.
Proof. intros []. constructor; eauto with coarser. intros p w. destruct (cr_sanitize p w). split; auto. Qed.
Lemma StopRespects_coarser P : StopRespects R P → StopRespects R' P.
Proof. intros []. constructor; eauto using CniRespects_coarser with coarser. Qed.
Lemma NodeRespects_coarser : NodeRespects R → NodeRespects R'.
Proof. intros []. constructor; eauto with coarser. Qed.
Lemma BringRespects_coarser P X X' : (∀ ns id img key sn labels opts, X' (ns, id) → respects R' (cd_NewContainer ns id img key sn labels opts)) →
  BringRespects R P X → BringRespects R' P X'.
Proof. intros Hnew []. constructor; eauto using StopRespects_coarser, NodeRespects_coarser with coarser. Qed.
End Coarser.

Section Server.
Context `{!ContainerdLaws W} `{!BringRespects same_srv any_netns (fun _ => False)} (attach_same : ∀ n rt, respects same_srv (cni_AddNetworkList n rt)).

(** Containers appear, but only those of [X]; none goes. *)
Definition adds (X : string * string → Prop) (w w' : W) : Prop := srv w ⊆ srv w' ∧ ∀ p, p ∈ srv w' → p ∉ srv w → X p.
#[export] Instance adds_preorder X : PreOrder (adds X).
Proof.
  split; [intros w; split; [done|tauto]|]. intros w1 w2 w3 [S1 X1] [S2 X2]. split; [by etrans|]. intros p K3 Hn.
  destruct (decide (p ∈ srv w2)); auto.
Qed.
Lemma same_srv_adds X w w' : same_srv w w' → adds X w w'.
Proof. unfold same_srv, adds. intros ->. split; [done|tauto]. Qed.
#[export] Instance adds_respects X : BringRespects (adds X) any_netns X.
Proof.
  refine (BringRespects_coarser same_srv (adds X) (same_srv_adds X) any_netns (fun _ => False) X _ _).
  intros ns id img key sn labels opts HX w. pose proof (law_new ns id img key sn labels opts w) as Hn.
  destruct (cd_NewContainer ns id img key sn labels opts w) as [w' [h|e]]; cbn in Hn |- *; [destruct Hn as [_ Hn]|]; unfold adds; rewrite Hn.
  - split; [apply union_subseteq_r|]. intros p [->%elem_of_singleton|Hp]%elem_of_union Hnp; [done|done].
  - split; [done|tauto].
Qed.

(** C24: Starting a cell removes no container, and the only ones it makes are the root of the
    cell and those its spec names, in the realm's namespace, whatever fails on the way. *)
Theorem start_only_adds_own cell (c : C) :
  let c' := (startCellLocked cniConf marshalPayload cell c).1 in
  match (resolveStart cell c).2 with
  | Err _ => live c' = live c
  | Ok g => live c ⊆ live c' ∧ ∀ p, p ∈ live c' → p ∉ live c → own g p
  end.
Proof.
  cbv zeta. unfold startCellLocked. pose proof (resolveStart_frame same_srv any_netns (fun _ => False) cell c) as K1.
  destruct (resolveStart cell c) as [c1 r] eqn:Eg. rewrite (st_try_at _ _ _ _ _ Eg). destruct r as [g|e]; cbn [snd]; [|exact K1].
  pose proof (same_srv_adds (own g) _ _ K1) as A1.
  pose proof (start_tail_frame (adds (own g)) any_netns (own g) g c1 (fun p Hp => Hp)
    (or_intror (fun n rt => respects_coarser _ _ (same_srv_adds (own g)) _ (attach_same n rt))) (resolveStart_root _ _ _ _ Eg)) as A2.
  exact (transitivity (R := adds (own g)) A1 A2).
Qed.

(** *** A start that fails *)

Lemma runeWidth_fits s n : runeWidth s = Some n → n ≤ String.length s.
Proof.
  unfold runeWidth. destruct s as [|a [|b [|c [|d s]]]]; cbn [String.length]; repeat case_match; try done; intros [= <-]; lia.
Qed.
Lemma substring_rest n s : n ≤ String.length s → String.length (String.substring n (String.length s - n) s) = String.length s - n.
Proof.
  revert n. induction s as [|a s IH]; intros [|n] Hn; cbn [String.length] in *; try lia; [done| |].
  - cbn. f_equal. specialize (IH 0 ltac:(lia)). by rewrite Nat.sub_0_r in IH.
  - cbn [String.substring Nat.sub]. apply IH. lia.
Qed.
Lemma substring_first n s : String.length (String.substring 0 n s) ≤ n.
Proof. revert n. induction s as [|a s IH]; intros [|n]; cbn; try lia. specialize (IH n). lia. Qed.
Lemma ToValidUTF8_length s : String.length (ToValidUTF8 s) ≤ String.length s.
Proof.
  unfold ToValidUTF8. generalize (String.length s) at 1. intros fuel. revert s. induction fuel as [|fuel IH]; intros s; [cbn; lia|].
  destruct s as [|a s]; [cbn; lia|]. cbn [validRunes]. destruct (runeWidth (String a s)) as [n|] eqn:En.
  - apply runeWidth_fits in En. rewrite string_length_app. pose proof (substring_first n (String a s)).
    pose proof (IH (String.substring n (String.length (String a s) - n) (String a s))) as Hi. rewrite substring_rest in Hi by done. lia.
  - specialize (IH s). cbn [String.length]. lia.
Qed.
Lemma failure_message_fits e : String.length (truncateFailureMessage e) ≤ maxFailureMessageLen.
Proof.
  unfold truncateFailureMessage. cbv zeta. destruct (maxFailureMessageLen <? _) eqn:E; [|apply Nat.ltb_ge in E; lia].
  rewrite string_length_app. set (msg := Join _ _). pose proof (ToValidUTF8_length (String.substring 0 (maxFailureMessageLen - 3) msg)).
  pose proof (substring_first (maxFailureMessageLen - 3) msg). unfold maxFailureMessageLen in *. cbn [String.length]. lia.
Qed.

(** The record of a cell with the failure written into it, all else kept. *)
Definition failed_as (reason : string) (e : error) (stored written : Cell) : Prop :=
  cst_State (cell_Status written) = CellStateFailed ∧ cst_Reason (cell_Status written) = reason ∧
  cst_Message (cell_Status written) = truncateFailureMessage e ∧ String.length (cst_Message (cell_Status written)) ≤ 256 ∧
  cell_Metadata written = cell_Metadata stored ∧ cell_Spec written = cell_Spec stored.
(** What the store has for the cell, and the cell itself when it cannot be read. *)
Definition read_back (cell : Cell) (c c' : C) (stored : Cell) : Prop :=
  ∃ r, remote (sto_GetCell cell) c = (c', r) ∧ stored = match r with Ok x => x | Err _ => cell end.
(** From [c] on, the failure of this cell was recorded and its tasks were killed, and the
    last thing done was to record it again. *)
Definition recorded_failed (cell : Cell) (reason : string) (e : error) (c c' : C) : Prop :=
  ∃ c1 c2 stored written stored' written',
    read_back cell c c1 stored ∧ failed_as reason e stored written ∧
    read_back written (killCellLocked cniConf written (remote (sto_UpdateCellMetadata written) c1).1).1 c2 stored' ∧
    failed_as reason e stored' written' ∧ c' = (remote (sto_UpdateCellMetadata written') c2).1.
Lemma stamped_failed_as reason e cell : failed_as reason e cell (stamp_failed reason (truncateFailureMessage e) cell).
Proof.
  unfold failed_as. pose proof (failure_message_fits e) as Hl. unfold maxFailureMessageLen in Hl.
  destruct cell as [m sp []]; cbn. by split_and!.
Qed.
Lemma reload_read_back cell (c c' : C) stored : reload cell c = (c', stored) → read_back cell c c' stored.
Proof. unfold reload, st_bind, read_back. destruct (remote _ c) as [c1 r]. intros [= <- <-]. by exists r. Qed.
Lemma markCellFailed_last cell reason e (c : C) : recorded_failed cell reason e c (markCellFailed cniConf cell reason e c).1.
Proof.
  unfold markCellFailed, st_bind. cbv zeta. destruct (reload cell c) as [c1 stored] eqn:E1.
  set (written := stamp_failed _ _ stored). destruct (remote (sto_UpdateCellMetadata written) c1) as [c2 e2] eqn:E2.
  destruct (killCellLocked cniConf written c2) as [c3 e3] eqn:E3. destruct (reload written c3) as [c4 stored'] eqn:E4.
  exists c1, c4, stored, written, stored', (stamp_failed reason (truncateFailureMessage e) stored'). rewrite E2. cbn [fst]. rewrite E3.
  split_and!; [by apply reload_read_back|apply stamped_failed_as|by apply reload_read_back|apply stamped_failed_as|].
  by destruct (remote _ c4).
Qed.
Lemma or_mark_failed_err {A} cell reason (m : st C (result A)) c c' e :
  or_mark_failed cniConf cell reason m c = (c', Err e) → ∃ c1, m c = (c1, Err e) ∧ recorded_failed cell reason e c1 c'.
Proof.
  unfold or_mark_failed, st_bind. destruct (m c) as [c1 [a|e1]]; [done|]. pose proof (markCellFailed_last cell reason e1 c1) as Hm.
  destruct (markCellFailed _ _ _ _ c1). intros [= <- <-]. by exists c1.
Qed.

(** A start that failed with the error: it could not resolve the cell or the spec of its
    root, and no container came or went; or bringing the cell up failed, which was recorded. *)
Definition start_refused (cell : Cell) (e : error) (c c' : C) : Prop :=
  live c' = live c ∧
  (resolveStart cell c = (c', Err e) ∨
   ∃ c1 g c2, resolveStart cell c = (c1, Ok g) ∧ cellTasksAllRunning (sg_cell g) (tg_namespace (sg_target g)) (sg_rootID g) c1 = (c2, false) ∧
     st_wrap (wrapf "failed to get root container spec: %w") (ensureCellRootContainerSpec (sg_cell g)) c2 = (c', Err e)).
Definition start_broke (cell : Cell) (e : error) (c c' : C) : Prop :=
  ∃ c1 g c2 rootSpec c3 c4, resolveStart cell c = (c1, Ok g) ∧
    cellTasksAllRunning (sg_cell g) (tg_namespace (sg_target g)) (sg_rootID g) c1 = (c2, false) ∧
    ensureCellRootContainerSpec (sg_cell g) c2 = (c3, Ok rootSpec) ∧ bringUp cniConf marshalPayload g rootSpec c3 = (c4, Err e) ∧
    recorded_failed (sg_cell g) "StartCellFailed" e c4 c'.
Lemma start_failure cell (c c' : C) e : startCellLocked cniConf marshalPayload cell c = (c', Err e) →
  start_refused cell e c c' ∨ start_broke cell e c c'.
Proof.
  unfold startCellLocked. pose proof (resolveStart_frame same_srv any_netns (fun _ => False) cell c) as K1.
  destruct (resolveStart cell c) as [c1 r] eqn:Eg. rewrite (st_try_at _ _ _ _ _ Eg). destruct r as [g|e1]; cbn [fst] in K1.
  2: { intros [= <- <-]. left. split; [done|by left]. }
  unfold st_bind at 1. destruct (cellTasksAllRunning _ _ _ c1) as [c2 up] eqn:E2.
  assert (K2 : live c2 = live c1).
  { unfold cellTasksAllRunning, st_bind in E2.
    pose proof (firstNonLive_frame same_srv any_netns (fun _ => False) (tg_namespace (sg_target g)) (sg_rootID g) (csp_Containers (cell_Spec (sg_cell g))) c1) as K2.
    destruct (firstNonLiveContainer _ _ _ c1) as [c2' l]. injection E2 as <- _. exact K2. }
  destruct up.
  { unfold settleReady, PopulateAndPersistCellContainerStatuses, st_bind. destruct (populateCellContainerStatuses _ c2) as [c3 cell3].
    destruct (remote _ c3) as [c4 e4]. cbn. by destruct (remote _ c4). }
  pose proof (respects_wrap (on_world same_srv) (wrapf "failed to get root container spec: %w") _
    (ensureRootSpec_frame same_srv any_netns (fun _ => False) (sg_cell g)) c2) as K3.
  destruct (st_wrap _ _ c2) as [c3 r] eqn:E3. rewrite (st_try_at _ _ _ _ _ E3). destruct r as [spec|e3]; cbn [fst] in K3.
  - intros (c4 & Eb & Hm)%or_mark_failed_err. right. apply st_wrap_ok in E3. by exists c1, g, c2, spec, c3, c4.
  - intros [= <- <-]. left. split; [unfold live; unfold live, same_srv, on_world in *; congruence|]. right. by exists c1, g, c2.
Qed.

(** C25: A start that fails either could not resolve the cell or the spec of its root, and
    then no container came or went; or it failed in bringing the cell up, and then the cell
    as the store has it was recorded as failed before its tasks were killed, and, read back
    after that, recorded as failed again as the last thing done, both times with the reason
    and a message of at most 256 bytes, its metadata and spec kept. *)
Theorem failed_start_recorded cell (c c' : C) e :
  startCellLocked cniConf marshalPayload cell c = (c', Err e) →
  start_refused cell e c c' ∨ start_broke cell e c c'.
Proof. apply start_failure. Qed.
End Server.

(** *** Host networks *)

(** The attaches a network plugin was run for; no other call runs one. *)
Class AttachLaws := {
  attached : W → list RuntimeConf;
  attach_log :: BringRespects (fun w w' => attached w' = attached w) any_netns (fun _ => True)
}.

(** Starting a cell with a container on the host network attaches nothing: its root is on
    the host network too, so no plugin gets to change the host's own interfaces. *)
Theorem host_network_start_attaches_nothing `{!AttachLaws} cell (c c1 : C) g :
  resolveStart cell c = (c1, Ok g) → cellWantsHostNetworkRoot (sg_cell g) = true →
  attached (cl_world (startCellLocked cniConf marshalPayload cell c).1) = attached (cl_world c).
Proof.
  intros Eg Hw. unfold startCellLocked. rewrite (st_try_at _ _ _ _ _ Eg).
  pose proof (resolveStart_frame (fun w w' => attached w' = attached w) any_netns (fun _ => True) cell c) as K1. rewrite Eg in *. cbn [fst] in K1.
  etrans; [|exact K1].
  exact (start_tail_frame (fun w w' => attached w' = attached w) any_netns (fun _ => True) g c1 (fun _ _ => I) (or_introl Hw) (resolveStart_root _ _ _ _ Eg)).
Qed.
End StartTheorems.

(** ** Creating the containers of a cell *)

Section CreateTheorems.
Context {W : Type} `{Containerd W} `{OciHost W} `{CniHost W} `{RunnerStore W} `{NodeHost W} `{HostConfig} `{RunnerOpts}.
Context (marshalPayload : containerSpecHashPayload → string).
Context `{!ContainerdLaws W} `{!BringRespects same_srv any_netns (fun _ => False)}.
Notation C := (Client W).

Lemma keeping_ok {A B} cell (m : st C (result A)) (k : A → st C (Cell * result B)) c c' cell' b :
  keeping cell m k c = (c', (cell', Ok b)) → ∃ c1 a, m c = (c1, Ok a) ∧ k a c1 = (c', (cell', Ok b)).
Proof. unfold keeping, st_bind. destruct (m c) as [c1 [a|e]]; [eauto|done]. Qed.
Lemma same_live_step {A} (m : st C A) c c' a : respects (on_world same_srv) m → m c = (c', a) → live c' = live c.
Proof. intros Hm E. specialize (Hm c). by rewrite E in Hm. Qed.

Lemma CreateContainer_made ns spec creds (c c' : C) h :
  CreateContainer ns spec creds c = (c', Ok h) → live c' = {[(ns, ks_ID spec)]} ∪ live c.
Proof.
  unfold CreateContainer. destruct (validateContainerSpec spec); [done|]. unfold st_bind at 1.
  pose proof (remote_frame same_srv _ (sr_load (P := any_netns) ns (ks_ID spec)) c) as K1.
  destruct (remote (cd_LoadContainer ns (ks_ID spec)) c) as [c1 [x|e1]]; [done|]. unfold st_bind at 1.
  assert (K2 : respects (on_world same_srv) (pullImage ns (ks_Image spec) creds)).
  { unfold pullImage. repeat (frame_step || apply remote_frame); first [apply br_getImage|apply br_lease|apply br_pull|apply br_unlease]. }
  specialize (K2 c1). destruct (pullImage _ _ _ c1) as [c2 [image|e2]]; [|done]. unfold st_bind at 1.
  assert (K3 : respects (on_world same_srv) (ensureImageUnpacked ns image (ks_Snapshotter spec))).
  { unfold ensureImageUnpacked. repeat (frame_step || apply remote_frame); first [apply br_isUnpacked|apply br_unpack]. }
  specialize (K3 c2). destruct (ensureImageUnpacked _ _ _ c2) as [c3 [e3|]]; [done|]. unfold st_bind at 1, remote. cbv zeta.
  match goal with |- context [cd_NewContainer ns ?id ?i ?k ?sn ?l ?o ?w] => pose proof (law_new ns id i k sn l o w) as Hn;
    destruct (cd_NewContainer ns id i k sn l o w) as [w4 [h'|e4]] end; [|done].
  cbn in Hn. destruct Hn as [_ Hn]. unfold st_bind, storeContainer, st_ret. cbn. intros [= <- _].
  unfold live. cbn. rewrite Hn. f_equal. unfold on_world, same_srv in *. cbn in *. congruence.
Qed.

Lemma createRoot_made t cell spec (c c' : C) h :
  createRoot marshalPayload t cell spec c = (c', Ok h) → live c' = {[(tg_namespace t, containerdIDOf spec)]} ∪ live c.
Proof. unfold createRoot. apply CreateContainer_made. Qed.
Lemma createChild_made t spec ociSpec opts (c c' : C) h :
  createChild marshalPayload t spec ociSpec opts c = (c', Ok h) → live c' = {[(tg_namespace t, containerdIDOf ociSpec)]} ∪ live c.
Proof.
  unfold createChild, CreateContainerFromSpec. cbv zeta. destruct (first_error _); [done|]. intros (c1 & rs & E1 & E)%st_try_ok.
  apply st_try_ok in E as (c2 & vols & E2 & E). apply st_wrap_ok in E. apply CreateContainer_made in E. rewrite E. f_equal.
  - f_equal. f_equal. by destruct ociSpec.
  - rewrite (same_live_step _ _ _ _ (remote_frame _ _ (respects_wrap _ _ _ (nr_resolveAll _ _ _))) E2).
    apply (same_live_step _ _ _ _ (remote_frame _ _ (respects_wrap _ _ _ (resolveSecrets_frame same_srv _ _ _ _))) E1).
Qed.

(** A container as it is recorded: named, and under the ID it has on the server. *)
Definition placed (c c' : ContainerSpec) : Prop :=
  c_ID c' = c_ID c ∧ c_ContainerdID c' ≠ "" ∧ (c_ContainerdID c ≠ "" → c_ContainerdID c' = c_ContainerdID c).
Definition ids (t : Target) (l : list ContainerSpec) : gset (string * string) := list_to_set ((fun s => (tg_namespace t, c_ContainerdID s)) <$> l).

Lemma place_fields cell r s t ce cni c :
  c_ID (place cell r s t ce cni c) = c_ID c ∧ c_ContainerdID (place cell r s t ce cni c) = c_ContainerdID c.
Proof.
  unfold place, setCellCgroupPath, fill_names, or_default. destruct c; cbn. repeat case_match; cbn; try done.
  all: split; try done; repeat match goal with K : String.eqb _ _ = _ |- _ => first [apply String.eqb_eq in K|clear K] end; congruence.
Qed.
Lemma set_cid_fields cid c : c_ID (set_cid cid c) = c_ID c ∧ c_ContainerdID (set_cid cid c) = cid.
Proof. by destruct c. Qed.
Lemma containerdIDOf_nonempty c : c_ContainerdID c ≠ "" → containerdIDOf c = c_ContainerdID c.
Proof. intros Hne. unfold containerdIDOf. by rewrite (proj2 (String.eqb_neq _ _) Hne). Qed.
Lemma child_id_ok spec id : childContainerdID spec = Ok id → id ≠ "" ∧ (c_ContainerdID spec ≠ "" → id = c_ContainerdID spec).
Proof.
  unfold childContainerdID. destruct (String.eqb_spec (c_ContainerdID spec) "") as [E|Hne]; [|by intros [= <-]].
  destruct (BuildContainerdID _ _ _ _) as [id'|e] eqn:Eb; [|done]. intros [= <-]. split; [|done].
  unfold BuildContainerdID in Eb. destruct (TrimSpace (c_SpaceName spec)); [done|]. repeat case_match; try done. by injection Eb as <-.
Qed.

Definition is_root (cell : Cell) (s : ContainerSpec) : bool :=
  negb (String.eqb (csp_RootContainerID (cell_Spec cell)) "") && String.eqb (c_ID s) (csp_RootContainerID (cell_Spec cell)).
Lemma ids_cons t s l : ids t (s :: l) = {[(tg_namespace t, c_ContainerdID s)]} ∪ ids t l.
Proof. done. Qed.

Lemma createEach_spec t realm space stack cellID a before todo root cell (c c' : C) cell' r :
  createEach marshalPayload t realm space stack cellID a before todo root cell c = (c', (cell', Ok r)) →
  ∃ made, cell' = with_Containers (before ++ made) cell ∧ Forall2 placed todo made ∧ live c' = ids t made ∪ live c ∧
    (r = None → root = None ∧ Forall (fun s => is_root cell s = false) todo).
Proof.
  revert before root c. induction todo as [|s todo IH]; intros before root c; cbn [createEach].
  { intros [= <- <- <-]. exists []. rewrite app_nil_r. split_and!; [done|constructor| |done]. cbn. by rewrite (left_id_L ∅ _). }
  cbv zeta. fold (is_root cell s). destruct (place_fields cell realm space stack cellID (tg_cni t) s) as [Pi Pc].
  set (p := place _ _ _ _ _ _ s) in *.
  assert (Hnext : ∀ id root' c1, id ≠ "" → (c_ContainerdID p ≠ "" → id = c_ContainerdID p) →
    live c1 = {[(tg_namespace t, id)]} ∪ live c → (root' = None → root = None ∧ is_root cell s = false) →
    createEach marshalPayload t realm space stack cellID a (before ++ [set_cid id p]) todo root' cell c1 = (c', (cell', Ok r)) →
    ∃ made, cell' = with_Containers (before ++ made) cell ∧ Forall2 placed (s :: todo) made ∧ live c' = ids t made ∪ live c ∧
    (r = None → root = None ∧ Forall (fun s => is_root cell s = false) (s :: todo))).
  { intros id root' c1 Hne Hid Hl Hr (made & -> & Hp & El & Hnone)%IH. destruct (set_cid_fields id p) as [Si Sc].
    exists (set_cid id p :: made). split_and!.
    - by rewrite <-app_assoc.
    - constructor; [|done]. unfold placed. rewrite Si, Sc, Pi. rewrite Pc in Hid. done.
    - rewrite ids_cons, El, Hl, Sc. set_solver +.
    - intros [E0 Hf]%Hnone. destruct (Hr E0). split; [done|by constructor]. }
  destruct (is_root cell s) eqn:Er.
  - intros (c1 & id & E1 & E)%keeping_ok. apply keeping_ok in E as (c2 & h & E2%st_wrap_ok & E). apply createRoot_made in E2.
    assert (Hid : c1 = c ∧ id ≠ "" ∧ (c_ContainerdID p ≠ "" → id = c_ContainerdID p)).
    { destruct (String.eqb_spec (c_ContainerdID p) "") as [E0|Hne]; [|by injection E1 as <- <-].
      apply st_wrap_ok in E1. injection E1 as <- E1. apply root_id_nonempty in E1. done. }
    destruct Hid as (-> & Hne & Hid). destruct (set_cid_fields id p) as [_ Sc].
    rewrite containerdIDOf_nonempty, Sc in E2 by by rewrite Sc. by apply (Hnext id (Some h) c2).
  - intros (c1 & id & E1 & E)%keeping_ok. injection E1 as <- E1. apply child_id_ok in E1 as [Hne Hid].
    apply keeping_ok in E as (c2 & u & E2 & E). destruct (set_cid_fields id p) as [_ Sc].
    assert (El : live c2 = {[(tg_namespace t, id)]} ∪ live c).
    { apply st_try_ok in E2 as (c3 & opts & E3 & E2). apply st_try_ok in E2 as (c4 & h & E4%st_wrap_ok & E2). apply createChild_made in E4.
      rewrite merged_env_id, containerdIDOf_nonempty, Sc in E4 by by rewrite Sc.
      rewrite (same_live_step _ _ _ _ (chownChild_frame same_srv any_netns (fun _ => False) t _) E2), E4.
      by rewrite (same_live_step _ _ _ _ (childOpts_frame same_srv any_netns (fun _ => False) cell _) E3). }
    by apply (Hnext id root c2).
Qed.

(** *** The cell that is recorded *)

Lemma with_Containers_fields l cell :
  csp_Containers (cell_Spec (with_Containers l cell)) = l ∧
  csp_RootContainerID (cell_Spec (with_Containers l cell)) = csp_RootContainerID (cell_Spec cell) ∧
  csp_SpaceName (cell_Spec (with_Containers l cell)) = csp_SpaceName (cell_Spec cell) ∧
  csp_StackName (cell_Spec (with_Containers l cell)) = csp_StackName (cell_Spec cell) ∧
  csp_ID (cell_Spec (with_Containers l cell)) = csp_ID (cell_Spec cell).
Proof. by destruct cell as [m [] s]. Qed.
Lemma defaulted_ids cell (c c' : C) cell' : applyCellContainerDefaults cell c = (c', Ok cell') →
  (c_ID <$> csp_Containers (cell_Spec cell')) = (c_ID <$> csp_Containers (cell_Spec cell)) ∧
  csp_RootContainerID (cell_Spec cell') = csp_RootContainerID (cell_Spec cell) ∧ csp_SpaceName (cell_Spec cell') = csp_SpaceName (cell_Spec cell) ∧
  csp_StackName (cell_Spec cell') = csp_StackName (cell_Spec cell) ∧ csp_ID (cell_Spec cell') = csp_ID (cell_Spec cell).
Proof.
  unfold applyCellContainerDefaults. cbv zeta. intros (c1 & space & _ & E)%st_try_ok. injection E as _ <-.
  destruct (with_Containers_fields ((fun s => set_nested (csp_NestedCgroupRuntime (cell_Spec cell)) (ApplySpaceDefaultsToContainer space s)) <$>
    csp_Containers (cell_Spec cell)) cell) as (-> & -> & -> & -> & ->). split_and!; [|done..].
  rewrite <-list_fmap_compose. apply list_fmap_ext. intros _ s _. unfold compose. rewrite (proj2 (proj2 (set_nested_fields _ _))).
  unfold ApplySpaceDefaultsToContainer. destruct (spsp_Defaults _) as [ds|]; [|done]. destruct (sd_Container ds) as [d|]; [|done].
  rewrite mergeIsolation_spec. by destruct s.
Qed.

Lemma put_container_first spec l : find_first (fun s => String.eqb (c_ID s) (c_ID spec)) (put_container spec l) = Some spec.
Proof.
  unfold find_first. induction l as [|s l IH]; cbn; [by rewrite String.eqb_refl|].
  destruct (String.eqb (c_ID s) (c_ID spec)) eqn:E; cbn; [by rewrite String.eqb_refl|by rewrite E].
Qed.
Lemma put_container_keeps spec l s : s ∈ l → ∃ s', s' ∈ put_container spec l ∧ c_ID s' = c_ID s.
Proof.
  induction l as [|x l IH]; [by intros ?%elem_of_nil|]. cbn. intros [->|Hin]%elem_of_cons; destruct (String.eqb_spec (c_ID x) (c_ID spec)) as [E|].
  - exists spec. split; [apply elem_of_cons; by left|done].
  - exists x. split; [apply elem_of_cons; by left|done].
  - exists s. split; [apply elem_of_cons; by right|done].
  - destruct (IH Hin) as (s' & ? & ?). exists s'. split; [apply elem_of_cons; by right|done].
Qed.
(** The first container of a name is where it was, with its server ID kept. *)
Lemma placed_first id l made spec : Forall2 placed l made → find_first (fun s => String.eqb (c_ID s) id) l = Some spec →
  ∃ spec', find_first (fun s => String.eqb (c_ID s) id) made = Some spec' ∧ placed spec spec'.
Proof.
  unfold find_first. induction 1 as [|x y l made (Ei & Hne & Hk) _ IH]; [done|]. cbn. rewrite Ei.
  destruct (String.eqb (c_ID x) id); [|done]. intros [= <-]. by exists y.
Qed.
Lemma put_root_fields spec cell : (csp_RootContainerID (cell_Spec cell) ≠ "" → c_ID spec = csp_RootContainerID (cell_Spec cell)) →
  csp_Containers (cell_Spec (put_root spec cell)) = put_container spec (csp_Containers (cell_Spec cell)) ∧
  csp_RootContainerID (cell_Spec (put_root spec cell)) = c_ID spec.
Proof.
  intros Hr. unfold put_root. destruct (with_Containers_fields (put_container spec (csp_Containers (cell_Spec cell))) cell) as (Ec & Er & _).
  rewrite Er. destruct (String.eqb_spec (csp_RootContainerID (cell_Spec cell)) "") as [E|Hne]; [|by rewrite Er, Hr].
  destruct cell as [m [] st0]; cbn in *. done.
Qed.

(** A non-blank check changes nothing. *)
Lemma required_ok s d (c c' : C) u : required s d c = (c', Ok u) → c' = c ∧ s ≠ "".
Proof. unfold required. intros [-> Hb]%st_guard_ok. split; [done|]. by destruct (String.eqb_spec s ""). Qed.
Lemma createTarget_spec realm space stack cellID cell (c c' : C) t spec :
  csp_SpaceName (cell_Spec cell) = space → csp_StackName (cell_Spec cell) = stack → csp_ID (cell_Spec cell) = cellID →
  (let!? t := resolveTarget realm (TrimSpace space) in
   let!? _ := namespaceRequired t in
   let!? rootContainerdID := st_wrap (wrapf "failed to build root container containerd ID: %w")
                               (st_ret (BuildRootContainerdID (TrimSpace space) (TrimSpace stack) cellID)) in
   let!? rootSpec := ensureCellRootContainerSpec cell in
   st_ret (Ok (t, set_cid rootContainerdID rootSpec))) c = (c', Ok (t, spec)) →
  live c' = live c ∧ BuildRootContainerdID space stack cellID = Ok (c_ContainerdID spec) ∧ c_ContainerdID spec ≠ "" ∧ c_ID spec ≠ "" ∧
  (csp_RootContainerID (cell_Spec cell) ≠ "" → c_ID spec = csp_RootContainerID (cell_Spec cell)).
Proof.
  intros <- <- <- (c1 & t1 & E1 & E)%st_try_ok. apply st_try_ok in E as (c2 & u & E2 & E). apply st_try_ok in E as (c3 & id & E3%st_wrap_ok & E).
  injection E3 as <- E3. apply st_try_ok in E as (c4 & base & E4 & E). injection E as <- <- <-. destruct (set_cid_fields id base) as [Si Sc].
  rewrite Si, Sc. pose proof (ensureRootSpec_spec _ _ _ _ E4) as (id' & _ & _ & _ & Hid & _ & _ & Hroot & _).
  assert (E5 : BuildRootContainerdID (csp_SpaceName (cell_Spec cell)) (csp_StackName (cell_Spec cell)) (csp_ID (cell_Spec cell)) = Ok id)
    by (rewrite <-E3; unfold BuildRootContainerdID; by rewrite !TrimSpace_idem).
  split_and!; [|done|by apply root_id_nonempty in E5|done|done].
  rewrite (same_live_step _ _ _ _ (ensureRootSpec_frame same_srv any_netns (fun _ => False) cell) E4).
  rewrite (same_live_step _ _ _ _ (namespaceRequired_frame same_srv any_netns (fun _ => False) t1) E2).
  apply (same_live_step _ _ _ _ (resolveTarget_frame same_srv any_netns (fun _ => False) _ _) E1).
Qed.
Lemma live_with_etc cell (c c' : C) u :
  remote (st_wrap (wrapf "render cell etc files: %w") (renderCellEtcFilesPreCNI cell)) c = (c', Ok u) → live c' = live c.
Proof. apply same_live_step, remote_frame, respects_wrap; [apply _..|]. apply renderCellEtcFiles_frame, _. Qed.

(** The list the loop runs over, and what comes out of it. *)
Lemma placed_root spec cell made cell' : (csp_RootContainerID (cell_Spec cell) ≠ "" → c_ID spec = csp_RootContainerID (cell_Spec cell)) →
  c_ID spec ≠ "" → c_ContainerdID spec ≠ "" →
  let stamped := stampCellEtcFilePathsOnContainers (put_root spec cell) in
  Forall2 placed (csp_Containers (cell_Spec stamped)) made → cell' = with_Containers made stamped →
  getRootContainerContainerdID cell' = Ok (c_ContainerdID spec) ∧ csp_Containers (cell_Spec cell') = made ∧
  ¬ Forall (fun s => is_root stamped s = false) (csp_Containers (cell_Spec stamped)) ∧
  ∀ s, s ∈ csp_Containers (cell_Spec cell) → ∃ s', s' ∈ made ∧ c_ID s' = c_ID s.
Proof.
  intros Hroot Hid Hcid stamped Hp ->. destruct (with_Containers_fields made stamped) as (Ec & Er & _).
  destruct (put_root_fields spec cell Hroot) as [Pc Pr]. set (stamp := stampEtcFilePathsOnContainerSpec (cellEtcFilePaths (put_root spec cell))).
  assert (Sc : csp_Containers (cell_Spec stamped) = stamp <$> put_container spec (csp_Containers (cell_Spec cell)))
    by (unfold stamped; rewrite stamped_containers, Pc; done).
  assert (Sr : csp_RootContainerID (cell_Spec stamped) = c_ID spec).
  { unfold stamped, stampCellEtcFilePathsOnContainers. rewrite <-Pr. apply with_Containers_fields. }
  assert (Hst : ∀ s, c_ID (stamp s) = c_ID s ∧ c_ContainerdID (stamp s) = c_ContainerdID s)
    by (intros s; destruct (etc_path_fields s (cellEtcFilePaths (put_root spec cell))) as (_ & _ & _ & ? & ?); done).
  assert (Hf : find_first (fun s => String.eqb (c_ID s) (c_ID spec)) (csp_Containers (cell_Spec stamped)) = Some (stamp spec)).
  { rewrite Sc. pose proof (put_container_first spec (csp_Containers (cell_Spec cell))) as Hf. revert Hf. unfold find_first.
    generalize (put_container spec (csp_Containers (cell_Spec cell))). clear -Hst. intros l.
    induction l as [|x l IH]; [done|]. cbn. rewrite (proj1 (Hst x)).
    destruct (String.eqb (c_ID x) (c_ID spec)); [by intros [= ->]|done]. }
  split_and!.
  - unfold getRootContainerContainerdID. rewrite Er, Sr, Ec. rewrite (proj2 (String.eqb_neq _ _) Hid).
    destruct (placed_first _ _ _ _ Hp Hf) as (spec' & -> & _ & Hne & Hk). rewrite (proj2 (String.eqb_neq _ _) Hne).
    rewrite Hk; [by rewrite (proj2 (Hst spec))|by rewrite (proj2 (Hst spec))].
  - done.
  - intros Hall. apply List.find_some in Hf as [Hin%list_elem_of_In Hn]. rewrite Forall_forall in Hall. specialize (Hall _ Hin).
    unfold is_root in Hall. rewrite Sr, (proj2 (String.eqb_neq _ _) Hid), Hn in Hall. done.
  - intros s Hin. destruct (put_container_keeps spec _ s Hin) as (s1 & Hin1 & E1).
    assert (Hin2 : stamp s1 ∈ csp_Containers (cell_Spec stamped)) by (rewrite Sc; apply list_elem_of_fmap; by exists s1).
    apply list_elem_of_lookup in Hin2 as [k Hk]. destruct (Forall2_lookup_l _ _ _ _ _ Hp Hk) as (s' & Hk' & Ei & _).
    exists s'. split; [by apply list_elem_of_lookup_2 in Hk'|]. by rewrite Ei, (proj1 (Hst s1)).
Qed.

(** When the containers of a cell were created, each of them is on the server under the
    ID its record now carries, no other container came or went, every container the cell
    had is still listed, and the root is found by the name recorded for it, under the
    root's own ID. *)
Theorem provisioned_cell_complete cell (c c' : C) cell' r :
  createCellContainers marshalPayload cell c = (c', (cell', Ok r)) →
  r ≠ None ∧
  (∃ ns, live c' = list_to_set ((fun s => (ns, c_ContainerdID s)) <$> csp_Containers (cell_Spec cell')) ∪ live c) ∧
  Forall (fun s => c_ContainerdID s ≠ "") (csp_Containers (cell_Spec cell')) ∧
  (∀ s, s ∈ csp_Containers (cell_Spec cell) → ∃ s', s' ∈ csp_Containers (cell_Spec cell') ∧ c_ID s' = c_ID s) ∧
  ∃ id, BuildRootContainerdID (csp_SpaceName (cell_Spec cell)) (csp_StackName (cell_Spec cell)) (csp_ID (cell_Spec cell)) = Ok id ∧
        getRootContainerContainerdID cell' = Ok id.
Proof.
  unfold createCellContainers. cbv zeta. intros (c1 & cell1 & E1 & E)%keeping_ok.
  apply keeping_ok in E as (c2 & [t spec] & E2 & E). apply keeping_ok in E as (c3 & u & E3 & E).
  apply st_try_ok in E1 as (d1 & u1 & [-> _]%required_ok & E1). apply st_try_ok in E1 as (d2 & u2 & [-> _]%required_ok & E1).
  apply st_try_ok in E1 as (d3 & u3 & [-> _]%required_ok & E1). apply st_try_ok in E1 as (d4 & u4 & [-> _]%required_ok & E1).
  apply st_try_ok in E1 as (d5 & u5 & [-> _]%required_ok & E1).
  pose proof (same_live_step _ _ _ _ (applyDefaults_frame same_srv any_netns (fun _ => False) cell) E1) as L1.
  apply defaulted_ids in E1 as (Hids & _ & Hs & Ht & Hi). destruct (createTarget_spec _ _ _ _ _ _ _ _ _ Hs Ht Hi E2) as (L2 & Hb & Hcid & Hid & Hroot).
  pose proof (live_with_etc _ _ _ _ E3) as L3. apply createEach_spec in E as (made & Ecell & Hp & L4 & Hnone).
  destruct (placed_root spec cell1 made cell' Hroot Hid Hcid Hp Ecell) as (Hget & Em & Hsome & Hkept). rewrite Em. split_and!.
  - intros Hn. by destruct (Hnone Hn) as [_ Hall].
  - exists (tg_namespace t). rewrite L4, L3, L2, L1. done.
  - clear -Hp. induction Hp as [|x y l made (_ & Hne & _) _ IH]; by constructor.
  - intros s Hin. assert (Hin' : c_ID s ∈ c_ID <$> csp_Containers (cell_Spec cell1)) by (rewrite Hids; apply list_elem_of_fmap; by exists s).
    apply list_elem_of_fmap in Hin' as (s1 & -> & Hin1). by apply Hkept.
  - by exists (c_ContainerdID spec).
Qed.
End CreateTheorems.

(** ** A concrete node: [Host] with a clock, the attaches and the record of the cell *)

Record Node := { nd_host : Host; nd_clock : Z; nd_attached : list RuntimeConf; nd_cell : Cell }.
Definition on_host {A} (m : st Host A) : st Node A := fun w =>
  let '(h, a) := m (nd_host w) in ({| nd_host := h; nd_clock := nd_clock w; nd_attached := nd_attached w; nd_cell := nd_cell w |}, a).

#[export] Instance node_Containerd : Containerd Node := {|
  CContainer := string; CTask := string; CImage := string; cd_IsNotFound := cd_IsNotFound (W := Host);
  cd_LoadContainer := fun ns id => on_host (cd_LoadContainer ns id); cd_Containers := fun ns => on_host (cd_Containers ns);
  cd_NewContainer := fun ns id img k sn l _ => on_host (cd_NewContainer ns id img k sn l []);
  con_ID := fun c => c; con_Task := fun ns c => on_host (con_Task ns c); con_NewTask := fun ns c io => on_host (con_NewTask ns c io);
  con_Delete := fun ns c b => on_host (con_Delete ns c b); con_Spec := fun ns c => on_host (con_Spec ns c);
  con_Update := fun _ _ _ => st_ret None; con_Labels := fun _ _ => st_ret (∅, None); con_SetLabels := fun _ _ _ => st_ret None;
  tsk_Status := fun ns t => on_host (tsk_Status ns t); tsk_Kill := fun ns t sig => on_host (tsk_Kill ns t sig);
  tsk_Wait := fun _ _ _ => st_ret (Ok (WaitExited 0)); tsk_Pid := fun _ => 42%Z; tsk_Start := fun ns t => on_host (tsk_Start ns t);
  tsk_Delete := fun _ _ => st_ret None; cd_GetImage := fun _ ref => st_ret (Ok ref); cd_CreateLease := fun _ => st_ret (Ok "lease");
  cd_DeleteLease := fun _ => st_ret None; cd_Pull := fun _ _ ref _ => st_ret (Ok ref); img_Name := fun i => i;
  img_IsUnpacked := fun _ _ _ => st_ret (Ok true); img_Unpack := fun _ _ _ => st_ret None; cd_ParseReference := Ok;
  cd_MkdirAll := fun _ => st_ret None; cd_RelocateToLeaf := fun _ _ => st_ret None;
  cd_sleep := fun d w => ({| nd_host := nd_host w; nd_clock := nd_clock w + Z.max 0 d; nd_attached := nd_attached w; nd_cell := nd_cell w |}, ()) |}.
#[export] Instance node_OciHost : OciHost Node := {|
  oh_lib := fun _ s => st_ret (Ok s); oh_ReadFile := fun _ => st_ret (Ok "{}"); oh_ParseSeccomp := Ok;
  oh_StatID := fun _ => st_ret (Ok 1%Z); oh_ReadDir := fun _ => st_ret (Ok []);
  oh_DeviceFromPath := fun _ => st_ret (Err (EOpaque "no such file")); oh_NotADevice := fun _ => false; oh_IsNotExist := fun _ => false |}.
#[export] Instance node_Laws : ContainerdLaws Node.
Proof.
  refine {| srv := fun w => srv (nd_host w) |}; intros; cbn -[srv cd_LoadContainer cd_Containers con_Delete cd_NewContainer con_Task tsk_Status tsk_Kill].
  - pose proof (law_load (W := Host) ns id (nd_host w)) as L. unfold cd_LoadContainer at 1 2, node_Containerd, on_host. by destruct (cd_LoadContainer ns id (nd_host w)).
  - pose proof (law_list (W := Host) ns (nd_host w)) as L. unfold cd_Containers at 1 2, node_Containerd, on_host. by destruct (cd_Containers ns (nd_host w)).
  - pose proof (law_delete (W := Host) ns c b (nd_host w)) as L. unfold con_Delete, node_Containerd, on_host.
    by destruct (@con_Delete Host host_Containerd ns c b (nd_host w)) as [h [e|]].
  - pose proof (law_new (W := Host) ns id img key sn labels [] (nd_host w)) as L. unfold cd_NewContainer, node_Containerd, on_host.
    by destruct (@cd_NewContainer Host host_Containerd ns id img key sn labels [] (nd_host w)) as [h [e|]].
  - exact (law_task (W := Host) ns c (nd_host w)).
  - exact (law_status (W := Host) ns t (nd_host w)).
  - pose proof (law_kill (W := Host) ns t sig (nd_host w)) as L. unfold tsk_Kill, node_Containerd, on_host.
    by destruct (@tsk_Kill Host host_Containerd ns t sig (nd_host w)).
  - done.
  - done.
  - done.
Defined.

#[export] Instance node_CniHost : CniHost Node := {|
  NetConf := (); CniResult := (); os_Stat := fun _ => st_ret None; os_ReadFile := fun _ => st_ret (Ok "");
  os_WriteFile := fun _ _ _ => st_ret None; os_Remove := fun _ => st_ret None; os_RemoveAll := fun _ => st_ret None;
  os_MkdirAll := fun _ _ => st_ret None; os_ReadDir := fun _ => st_ret (Ok []); os_Glob := fun _ => st_ret (Ok []);
  os_NotExist := fun _ => false; sys_Stat := fun p => st_ret (Ok (0%Z, if String.eqb p selfNetns then 1%Z else 7%Z));
  json_Decode := fun _ => Err (EOpaque "unsupported"); json_Encode := fun _ => Err (EOpaque "unsupported");
  json_DecodeBridge := fun _ => Err (EOpaque "unsupported"); err_Text := fun _ => "container has no ID";
  iptables_run := fun _ => st_ret ("", None); ip_run := fun _ => st_ret ("", None);
  cni_ConfListFromFile := fun _ => st_ret (Ok ()); net_Name := fun _ => ""; net_Plugins := fun _ => [];
  cni_AddNetworkList := fun _ rt w =>
    ({| nd_host := nd_host w; nd_clock := nd_clock w; nd_attached := nd_attached w ++ [rt]; nd_cell := nd_cell w |}, Ok ());
  cni_DelNetworkList := fun _ _ => st_ret None; cni_CachedResult := fun _ _ => st_ret (Ok None); result_IPs := fun _ => Ok [] |}.
#[export] Instance node_RunnerStore : RunnerStore Node := {|
  sto_nowUTC := fun w => (w, nd_clock w); sto_ensureClientConnected := st_ret None; sto_GetRealm := fun _ => st_ret (Ok host_realm);
  sto_GetSpace := fun s => st_ret (Ok s); sto_GetCell := fun _ w => (w, Ok (nd_cell w));
  sto_UpdateCellMetadata := fun cell w =>
    ({| nd_host := nd_host w; nd_clock := nd_clock w; nd_attached := nd_attached w; nd_cell := cell |}, None);
  sto_DeleteMetadata := fun _ => st_ret None; sto_pullSetupStatus := fun _ => st_ret (Err (EOpaque "no socket"));
  sto_cgroupMountpoint := "/sys/fs/cgroup"; sto_DeleteCgroup := fun _ _ => st_ret None |}.
#[export] Instance node_NodeHost : NodeHost Node := {|
  os_Info := fun _ => st_ret (Ok (1%Z, 493%Z)); os_Chmod := fun _ _ => st_ret None; os_Chown := fun _ _ _ => st_ret None;
  os_Lchown := fun _ _ _ => st_ret None; os_Symlink := fun _ _ => st_ret None; os_Rename := fun _ _ => st_ret None;
  os_Open := fun _ => st_ret None; os_OpenTrunc := fun _ _ => st_ret None; os_CreateTemp := fun d _ => st_ret (Ok (d +:+ "/tmp"));
  io_Copy := fun _ _ => st_ret None; io_ReadAll := fun _ => st_ret (Ok ""); io_WriteString := fun _ _ => st_ret None;
  os_Close := fun _ => st_ret None; os_Walk := fun _ => st_ret []; os_Executable := st_ret (Ok "/usr/bin/kukeond");
  exec_LookPath := fun n => st_ret (Ok ("/usr/bin/" +:+ n)); os_LookupEnv := fun _ => st_ret None;
  json_ContainerDoc := fun _ => Ok "{}"; vol_ResolveAll := fun _ _ l => st_ret (Ok l);
  vol_Resolve := fun _ _ _ => st_ret (Err (EOpaque "no volume")) |}.
#[local] Instance node_HostConfig : HostConfig := {| SignalName := fun _ => ""; RealmNamespaceSuffix := ".kukeon.io"; RunPath := "/run/kukeon" |}.
#[local] Instance node_RunnerOpts : RunnerOpts := {|
  opt_ForceRegenerateCNI := false; opt_KukeonGroupGID := 0; opt_DefaultMemoryLimitBytes := 0; opt_KukettyLogLevel := "";
  opt_DiskPressureBlockPercent := 0 |}.

Lemma node_sanitize p (w : Node) : ∃ q, sanitizeDELNetns p w = (w, q).
Proof.
  unfold sanitizeDELNetns, delNetnsIsRunnerOwn. destruct (String.eqb p ""); by eexists.
Qed.
(** A part of the node that the containers, the record and the attaches are apart from. *)
Lemma node_keeps {A B} (f : Node → A) (m : st Host B) w :
  (∀ w h, f {| nd_host := h; nd_clock := nd_clock w; nd_attached := nd_attached w; nd_cell := nd_cell w |} = f w) → f (on_host m w).1 = f w.
Proof. intros Hf. unfold on_host. destruct (m (nd_host w)). apply Hf. Qed.
Lemma node_preorder {A} (f : Node → A) : PreOrder (fun w w' => f w' = f w).
Proof. split; [done|]. intros x y z K1 K2. congruence. Qed.
Lemma node_cni R : PreOrder R → CniRespects (W := Node) R any_netns.
Proof. intros HR. constructor; intros; try (intros w); try reflexivity; try done. by destruct (node_sanitize p w) as [q ->]. Qed.
Lemma node_node R : PreOrder R → NodeRespects (W := Node) R.
Proof. intros HR. constructor; intros; try (intros w); try reflexivity; done. Qed.

#[export] Instance node_same_srv : BringRespects (same_srv (W := Node)) any_netns (fun _ => False).
Proof.
  constructor; [constructor| | ..]; intros; try done; try (by apply node_cni, _); try (by apply node_node, _); intros w.
  - apply law_kill.
  - unfold same_srv. cbn. unfold on_host, on_containers, toy_update. cbn in t.
    destruct (ho_containers (nd_host w) !! (ns, t)) eqn:E; [|done]. cbn. apply elem_of_dom_2 in E.
    etrans; [exact (dom_insert_L _ (ns, t) true)|]. set_solver.
Qed.

#[export] Instance node_Clock : ClockLaws Node.
Proof.
  refine {| clock := nd_clock |}; [done|cbn; lia|].
  assert (HR : PreOrder (fun w w' => nd_clock w ≤ nd_clock w')%Z) by (split; [intros w; done|intros x y z; cbn; lia]).
  constructor; intros; try (by apply node_cni, _); intros w; cbn; try reflexivity; try lia; rewrite (node_keeps nd_clock) by done; reflexivity.
Defined.
#[export] Instance node_Attach : AttachLaws (W := Node).
Proof.
  refine {| attached := nd_attached |}. pose proof (node_preorder nd_attached) as HR.
  constructor; [constructor| | ..]; intros; try done; try (by apply node_cni, _); try (by apply node_node, _); intros w; by apply node_keeps.
Defined.

Definition node_conf : Conf := {| cf_CniConfigDir := "/etc/cni"; cf_CniBinDir := "/opt/cni/bin"; cf_CniCacheDir := "/var/lib/cni" |}.
Definition node_app : ContainerSpec := set_cid "s_t_web_app" (sample_container "app" false "no").
Definition node_cell (l : list ContainerSpec) : Cell := with_Containers l host_cell.
(** A node with a container of another cell and the given record. *)
Definition node_client (cell : Cell) : Client Node := MkClient
  {| nd_host := {| ho_containers := list_to_map [(("r.kukeon.io", "s_t_webb_app"), true)]; ho_records := []; ho_detached := [] |};
     nd_clock := 0; nd_attached := []; nd_cell := cell |} ∅ ∅.

Lemma liveness_probe_ends_witness :
  let c := node_client (node_cell [host_root; node_app]) in
  let '(c', r) := verifyCellTasksLiveAfterStart "r.kukeon.io" "s_t_webb_app" [] cellStartLivenessGraceWindow cellStartLivenessPollInterval c in
  r = Some None ∧ (time c + cellStartLivenessGraceWindow ≤ time c')%Z.
Proof.
  intros c. pose proof (liveness_probe_ends "r.kukeon.io" "s_t_webb_app" [] c) as Hp.
  destruct (verifyCellTasksLiveAfterStart _ _ _ _ _ c) as [c' r] eqn:E.
  assert (Er : r = (verifyCellTasksLiveAfterStart "r.kukeon.io" "s_t_webb_app" [] cellStartLivenessGraceWindow cellStartLivenessPollInterval c).2)
    by by rewrite E. vm_compute in Er. clear E. subst r.
  destruct Hp as [Hp|(e & He & _)]; [exact Hp|discriminate He].
Defined.

Definition node_hash (_ : containerSpecHashPayload) : string := "".
Definition node_start (cell : Cell) : Client Node * result Cell := startCellLocked node_conf node_hash host_cell (node_client cell).
Definition node_starting (cell : Cell) : Starting := {|
  sg_cell := with_RuntimeEnv [] cell; sg_target := {| tg_namespace := "r.kukeon.io"; tg_creds := []; tg_cni := "/run/kukeon/data/r/s/network.conflist" |};
  sg_rootID := "s_t_web_root" |}.
Lemma node_resolves : let cell := node_cell [host_root; node_app] in
  resolveStart host_cell (node_client cell) = (node_client cell, Ok (node_starting cell)).
Proof. cbv zeta. reflexivity. Qed.
Lemma node_host_resolves : let cell := node_cell [set_host_nested true false host_root; node_app] in
  resolveStart host_cell (node_client cell) = (node_client cell, Ok (node_starting cell)).
Proof. cbv zeta. reflexivity. Qed.
Lemma node_attach_same n rt : respects (same_srv (W := Node)) (cni_AddNetworkList n rt).
Proof. done. Qed.


Lemma start_only_adds_own_witness :
  let c := node_client (node_cell [host_root; node_app]) in
  let c' := (startCellLocked node_conf node_hash host_cell c).1 in
  ("r.kukeon.io", "s_t_web_app") ∈ live c' ∧ ("r.kukeon.io", "s_t_webb_app") ∈ live c' ∧
  ∀ p, p ∈ live c' → p ∉ live c → own (node_starting (node_cell [host_root; node_app])) p.
Proof.
  intros c c'. pose proof (start_only_adds_own node_conf node_hash node_attach_same host_cell c) as Hs.
  rewrite (node_resolves : resolveStart host_cell c = _) in Hs. cbn [snd] in Hs. destruct Hs as [Hsub Hown]. split_and!; [| |exact Hown].
  - apply (bool_decide_unpack _). by vm_compute.
  - apply Hsub. apply (bool_decide_unpack _). by vm_compute.
Defined.

Lemma failed_start_recorded_witness :
  let c := node_client (node_cell [host_root; sample_container "app" false "no"]) in
  let '(c', r) := startCellLocked node_conf node_hash host_cell c in
  match r with
  | Ok _ => False
  | Err e => ∃ g c3, recorded_failed node_conf (sg_cell g) "StartCellFailed" e c3 c'
  end.
Proof.
  intros c. destruct (startCellLocked node_conf node_hash host_cell c) as [c' [cell'|e]] eqn:E.
  - apply (f_equal snd) in E. vm_compute in E. discriminate E.
  - destruct (failed_start_recorded node_conf node_hash host_cell c c' e E) as [[Hl _]|(c1 & g & c2 & spec & c3 & c4 & _ & _ & _ & _ & Hr)]; [exfalso|by exists g, c4].
    assert (Hin : ("r.kukeon.io", "s_t_web_root") ∈ live (startCellLocked node_conf node_hash host_cell c).1)
      by (apply (bool_decide_unpack _); by vm_compute).
    rewrite E in Hin. cbn [fst] in Hin. rewrite Hl in Hin. apply (bool_decide_pack _) in Hin. by vm_compute in Hin.
Defined.

Lemma host_network_start_attaches_nothing_witness :
  let c := node_client (node_cell [set_host_nested true false host_root; node_app]) in
  attached (cl_world (startCellLocked node_conf node_hash host_cell c).1) = [] ∧
  nd_attached (cl_world (startCellLocked node_conf node_hash host_cell (node_client (node_cell [host_root; node_app]))).1) ≠ [].
Proof.
  intros c. split; [|intros E; vm_compute in E; discriminate E].
  exact (host_network_start_attaches_nothing node_conf node_hash host_cell c c _ node_host_resolves eq_refl).
Defined.

Lemma provisioned_cell_complete_witness :
  let c := node_client (node_cell []) in
  let '(c', (cell', r)) := createCellContainers node_hash (with_RootContainerID "" (node_cell [sample_container "app" false "no"])) c in
  match r with Ok _ => getRootContainerContainerdID cell' = Ok "s_t_web_root" | Err _ => False end.
Proof.
  intros c. destruct (createCellContainers node_hash _ c) as [c' [cell' [h|e]]] eqn:E.
  - destruct (provisioned_cell_complete node_hash _ c c' cell' h E) as (_ & _ & _ & _ & id & Hb & Hg). rewrite Hg. rewrite <-Hb. by vm_compute.
  - apply (f_equal (snd ∘ snd)) in E. vm_compute in E. discriminate E.
Defined.
