(* ===== verification/Cgroups.v ===== *)
(** * Cgroups: the cgroup side of the containerd client and the controller pre-flight
    (internal/ctr/cgroups.go, cgroup_mount.go, cgroup_resources.go, cgroups_utils.go,
    internal/cgroupcheck)

    The client keeps a cache of loaded managers by group and the mount point it discovered
    once.  The cgroup file system and the cgroup2 library are the class [CgroupHost]. *)

From Stdlib Require Import Ascii ZArith Lia.
From stdpp Require Import base gmap strings list sorting.
From S2P Require Import Prelude Model Layout NetPolicy OutOfSync OciSpec Cni.

Local Open Scope nat_scope.

(** ** Resources (types.go, cgroup_resources.go) *)

Record CPUResources := { cpu_Weight : option Z; cpu_Quota : option Z; cpu_Period : option Z; cpu_Cpus : string; cpu_Mems : string }.
Record MemoryResources := {
  mem_Min : option Z; mem_Max : option Z; mem_Low : option Z; mem_High : option Z; mem_Swap : option Z
}.
Record IOThrottleEntry := { thr_Type : string; thr_Major : Z; thr_Minor : Z; thr_Rate : Z }.
Record IOResources := { io_Weight : Z; io_Throttle : list IOThrottleEntry }.
Record CgroupResources := { res_CPU : option CPUResources; res_Memory : option MemoryResources; res_IO : option IOResources }.
Record CgroupSpec := { cs_Group : string; cs_Mountpoint : string; cs_Resources : CgroupResources }.

(** What the library takes *)
Record cgroup2_CPU := { c2_Weight : option Z; c2_Max : option string; c2_Cpus : string; c2_Mems : string }.
Record cgroup2_IO := { c2_BFQ : Z; c2_Entries : list IOThrottleEntry }.
Record cgroup2_Resources := { c2_CPU : option cgroup2_CPU; c2_Memory : option MemoryResources; c2_IO : option cgroup2_IO }.

Class CgroupHost (W : Type) := {
  Manager : Type;
  Metrics : Type;
  cg_VerifyGroupPath : string → option error;
  cg_NewCPUMax : option Z → option Z → string;
  cg_NewManager : string → string → cgroup2_Resources → st W (result Manager);
  cg_LoadManager : string → string → st W (result Manager);
  mgr_Update : Manager → cgroup2_Resources → st W (option error);
  mgr_AddProc : Manager → Z → st W (option error);
  (** ToggleControllers with Enable: every ancestor, not the group itself *)
  mgr_Enable : Manager → list string → st W (option error);
  mgr_Delete : Manager → st W (option error);
  mgr_Stat : Manager → st W (result Metrics);
  cg_Stat : string → st W (option error);
  cg_Mkdir : string → Z → st W (option error);
  cg_ReadFile : string → st W (result string);
  cg_Open : string → st W (option error);
  (** the lines a bufio.Scanner yields on the opened file, and its error *)
  cg_Lines : string → st W (list string * option error);
  cg_OpenWrite : string → st W (option error);
  (** one write to the opened file *)
  cg_Write : string → string → st W (option error);
  cg_IsNotExist : error → bool;
  cg_IsExist : error → bool;
  (** errors.Is with EOPNOTSUPP or ENOTSUP, EBUSY, and EACCES or EPERM *)
  sys_NotSupported : error → bool;
  sys_Busy : error → bool;
  sys_Denied : error → bool;
  (** consts.KukeonCgroupRoot *)
  KukeonCgroupRoot : string
}.

Definition CgroupFilesystemPath : string := "/sys/fs/cgroup".

Definition cpu_isZero (c : CPUResources) : bool :=
  bool_decide (cpu_Weight c = None) && bool_decide (cpu_Quota c = None) && bool_decide (cpu_Period c = None)
  && String.eqb (cpu_Cpus c) "" && String.eqb (cpu_Mems c) "".
Definition mem_isZero (m : MemoryResources) : bool :=
  bool_decide (mem_Min m = None) && bool_decide (mem_Max m = None) && bool_decide (mem_Low m = None)
  && bool_decide (mem_High m = None) && bool_decide (mem_Swap m = None).
Definition io_isZero (io : IOResources) : bool := (io_Weight io =? 0)%Z && match io_Throttle io with [] => true | _ => false end.

Definition io_toResource (io : IOResources) : result cgroup2_IO :=
  if negb (io_Weight io =? 0)%Z && ((io_Weight io <? 1) || (1000 <? io_Weight io))%Z then Err (ESentinel ErrInvalidIOWeight)
  else if existsb (fun e => String.eqb (thr_Type e) "" || (thr_Rate e =? 0)%Z || (thr_Major e <? 0)%Z || (thr_Minor e <? 0)%Z) (io_Throttle io)
  then Err (ESentinel ErrInvalidThrottle)
  else Ok {| c2_BFQ := io_Weight io; c2_Entries := io_Throttle io |}.

(** ** Default specs (cgroups_utils.go) *)

Definition no_resources : CgroupResources := {| res_CPU := None; res_Memory := None; res_IO := None |}.
Definition plain_spec (group : string) : CgroupSpec := {| cs_Group := group; cs_Mountpoint := ""; cs_Resources := no_resources |}.
Definition DefaultRealmSpec (realm : Realm) : CgroupSpec := plain_spec ("/" +:+ sm_Name (realm_Metadata realm)).
Definition DefaultSpaceSpec (space : Space) : CgroupSpec :=
  plain_spec ("/" +:+ spsp_RealmName (space_Spec space) +:+ "/" +:+ sm_Name (space_Metadata space)).
Definition DefaultStackSpec (stack : Stack) : CgroupSpec :=
  plain_spec ("/" +:+ stsp_RealmName (stack_Spec stack) +:+ "/" +:+ stsp_SpaceName (stack_Spec stack) +:+ "/" +:+ sm_Name (stack_Metadata stack)).
Definition DefaultCellSpec (cell : Cell) : CgroupSpec :=
  plain_spec ("/" +:+ csp_RealmName (cell_Spec cell) +:+ "/" +:+ csp_SpaceName (cell_Spec cell) +:+ "/" +:+ csp_StackName (cell_Spec cell)
              +:+ "/" +:+ cm_Name (cell_Metadata cell)).

(** ** Strings *)

Definition newline : string := String (ascii_of_nat 10) EmptyString.

(** strings.TrimRight with a newline, then Split on it *)
Fixpoint trim_newlines (s : string) : string :=
  match s with
  | EmptyString => EmptyString
  | String c s' =>
      match trim_newlines s' with
      | EmptyString => if Ascii.eqb c (ascii_of_nat 10) then EmptyString else String c EmptyString
      | t => String c t
      end
  end.
Definition has_line (wanted data : string) : bool :=
  existsb (fun l => String.eqb (TrimSpace l) wanted) (split_on (ascii_of_nat 10) (trim_newlines data)).

(** The leading digits of a text, and fmt.Sscanf with the verb d: an optional sign and at
    least one digit, what follows is ignored. *)
Fixpoint digits_prefix (s : string) : string :=
  match s with
  | String c s' => if digit_of c then String c (digits_prefix s') else EmptyString
  | EmptyString => EmptyString
  end.
Definition scan_d (line : string) : option Z :=
  match line with
  | String c s =>
      if Ascii.eqb c "-" then Atoi ("-" +:+ digits_prefix s)
      else if Ascii.eqb c "+" then Atoi (digits_prefix s)
      else Atoi (digits_prefix line)
  | EmptyString => None
  end.

(** ** The client (cgroups.go)

    [cgc_mountpoint] is [None] until the mount point is asked for the first time. *)

Definition bootstrapLeafName : string := "__bootstrap".
Definition CellResourceControllers : list string := ["cpu"; "memory"; "io"; "pids"].

Section Client.
Context {W : Type} `{CgroupHost W}.

Record CgClient := { cgc_world : W; cgc_managers : gmap string Manager; cgc_mountpoint : option string }.

Definition host {A} (m : st W A) : st CgClient A := fun c =>
  let '(w, a) := m (cgc_world c) in
  ({| cgc_world := w; cgc_managers := cgc_managers c; cgc_mountpoint := cgc_mountpoint c |}, a).

Definition cpu_toResource (c : CPUResources) : result cgroup2_CPU :=
  if match cpu_Weight c with Some w => (w <? 1)%Z || (10000 <? w)%Z | None => false end then Err (ESentinel ErrInvalidCPUWeight)
  else Ok {| c2_Weight := cpu_Weight c;
             c2_Max := match cpu_Quota c, cpu_Period c with None, None => None | q, p => Some (cg_NewCPUMax q p) end;
             c2_Cpus := cpu_Cpus c; c2_Mems := cpu_Mems c |}.

Definition toResources (r : CgroupResources) : result cgroup2_Resources :=
  let? cpu := match res_CPU r with
              | Some c => if cpu_isZero c then Ok None else let? x := cpu_toResource c in Ok (Some x)
              | None => Ok None
              end in
  let mem := match res_Memory r with Some m => if mem_isZero m then None else Some m | None => None end in
  let? io := match res_IO r with
             | Some i => if io_isZero i then Ok None else let? x := io_toResource i in Ok (Some x)
             | None => Ok None
             end in
  Ok {| c2_CPU := cpu; c2_Memory := mem; c2_IO := io |}.

Definition validateGroupPath (group : string) : option error :=
  if String.eqb group "" then Some (ESentinel ErrEmptyGroupPath) else cg_VerifyGroupPath group.

(** *** The mount point (cgroup_mount.go) *)

(** The mount point of one line of mountinfo, when its file system is cgroup2 *)
Definition mountinfo_line (line : string) : option string :=
  let fields := Fields line in
  if (length fields <? 10)%nat then None
  else match list_find (fun f => f = "-") fields with
       | Some (i, _) =>
           match fields !! S i with
           | Some fstype => if String.eqb fstype "cgroup2" then fields !! 4 else None
           | None => None
           end
       | None => None
       end.
Fixpoint first_some {A B} (f : A → option B) (l : list A) : option B :=
  match l with [] => None | x :: l' => match f x with Some y => Some y | None => first_some f l' end end.

Definition parseMountinfo : st W (result string) :=
  let! opened := cg_Open "/proc/self/mountinfo" in
  match opened with
  | Some e => st_ret (Err e)
  | None =>
      let! scanned := cg_Lines "/proc/self/mountinfo" in
      let '(lines, scanErr) := scanned in
      st_ret (match first_some mountinfo_line lines with
              | Some mp => Ok mp
              | None => match scanErr with
                        | Some e => Err e
                        | None => Err (EOpaque "cgroup2 mount not found in mountinfo")
                        end
              end)
  end.

(** The path of the unified hierarchy's entry *)
Definition cgroup_entry (line : string) : option string :=
  match split_on ":" line with
  | [a; b; p] => if String.eqb a "0" && String.eqb b "" then Some p else None
  | _ => None
  end.

(** The loop stops at the entry it looks for: the scanner's error counts only when the
    input was read to its end. *)
Definition discoverCgroupMountpoint : st W string :=
  let! opened := cg_Open "/proc/self/cgroup" in
  match opened with
  | Some _ => st_ret CgroupFilesystemPath
  | None =>
      let! scanned := cg_Lines "/proc/self/cgroup" in
      let '(lines, scanErr) := scanned in
      match first_some cgroup_entry lines, scanErr with
      | None, Some _ => st_ret CgroupFilesystemPath
      | found, _ =>
          if String.eqb (default "" found) "" then st_ret CgroupFilesystemPath
          else
            let! mountpoint := parseMountinfo in
            st_ret (match mountpoint with Ok mp => mp | Err _ => CgroupFilesystemPath end)
      end
  end.

Definition effectiveMountpoint (mountpoint : string) : st CgClient string :=
  if negb (String.eqb mountpoint "") then st_ret mountpoint
  else fun c =>
    match cgc_mountpoint c with
    | Some mp => (c, mp)
    | None =>
        let '(c', found) := host discoverCgroupMountpoint c in
        let mp := if String.eqb found "" then CgroupFilesystemPath else found in
        ({| cgc_world := cgc_world c'; cgc_managers := cgc_managers c'; cgc_mountpoint := Some mp |}, mp)
    end.

(** *** The manager cache *)

Definition storeManager (group : string) (m : Manager) : st CgClient unit := fun c =>
  ({| cgc_world := cgc_world c; cgc_managers := <[group := m]> (cgc_managers c); cgc_mountpoint := cgc_mountpoint c |}, ()).
Definition dropManager (group : string) : st CgClient unit := fun c =>
  ({| cgc_world := cgc_world c; cgc_managers := delete group (cgc_managers c); cgc_mountpoint := cgc_mountpoint c |}, ()).

Definition st_fail {S} (e : option error) : st S (result unit) := st_ret (match e with Some x => Err x | None => Ok () end).

Definition managerFor (group mountpoint : string) : st CgClient (result Manager) :=
  let!? _ := st_fail (validateGroupPath group) in
  fun c =>
    match cgc_managers c !! group with
    | Some m => (c, Ok m)
    | None =>
        (let! mp := effectiveMountpoint mountpoint in
         let!? m := host (cg_LoadManager mp group) in
         let! _ := storeManager group m in
         st_ret (Ok m)) c
    end.

Definition NewCgroup (spec : CgroupSpec) : st CgClient (result Manager) :=
  let!? _ := st_fail (validateGroupPath (cs_Group spec)) in
  let!? resources := st_ret (toResources (cs_Resources spec)) in
  let! mp := effectiveMountpoint (cs_Mountpoint spec) in
  let!? m := host (cg_NewManager mp (cs_Group spec) resources) in
  let! _ := storeManager (cs_Group spec) m in
  st_ret (Ok m).

Definition group_path (mp group : string) : string := FJoin [mp; trim_slash group].

(** A missing file has its own text. *)
Definition statOr (path missing : string) : st CgClient (result unit) :=
  let! e := host (cg_Stat path) in
  st_ret (match e with
          | Some x => Err (if cg_IsNotExist x then EOpaque missing else x)
          | None => Ok ()
          end).

Definition LoadCgroup (group mountpoint : string) : st CgClient (result Manager) :=
  let!? _ := st_fail (validateGroupPath group) in
  let! mp := effectiveMountpoint mountpoint in
  let cgroupPath := group_path mp group in
  let!? _ := statOr cgroupPath "cgroup path does not exist" in
  let!? _ := statOr (FJoin [cgroupPath; "cgroup.controllers"]) "cgroup.controllers file not found, path is not a valid cgroup" in
  let!? m := host (cg_LoadManager mp group) in
  let! _ := storeManager group m in
  st_ret (Ok m).

Definition GetCgroupMountpoint : st CgClient string := effectiveMountpoint "".
Definition GetCurrentCgroupPath : st CgClient (result string) := st_ret (Ok KukeonCgroupRoot).
Definition CgroupPath (group mountpoint : string) : st CgClient (result string) :=
  let!? _ := st_fail (validateGroupPath group) in
  let! mp := effectiveMountpoint mountpoint in
  st_ret (Ok (group_path mp group)).

Definition UpdateCgroup (group mountpoint : string) (resources : CgroupResources) : st CgClient (result unit) :=
  let!? res := st_ret (toResources resources) in
  let!? m := managerFor group mountpoint in
  st_check id (host (mgr_Update m res)).

Definition AddProcessToCgroup (group mountpoint : string) (pid : Z) : st CgClient (result unit) :=
  let!? _ := st_guard (negb (pid <=? 0)%Z) (ESentinel ErrInvalidPID) in
  let!? m := managerFor group mountpoint in
  st_check id (host (mgr_AddProc m pid)).

Definition CgroupMetrics (group mountpoint : string) : st CgClient (result Metrics) :=
  let!? m := managerFor group mountpoint in
  host (mgr_Stat m).

(** *** Relocation *)

Fixpoint parse_pids (lines : list string) : result (list Z) :=
  match lines with
  | [] => Ok []
  | l :: rest =>
      let line := TrimSpace l in
      if String.eqb line "" then parse_pids rest
      else match scan_d line with
           | None => Err (EWrap "parse pid %q in %s: %w" [EOpaque line])
           | Some pid => let? pids := parse_pids rest in Ok (pid :: pids)
           end
  end.

Definition readCgroupProcs (path : string) : st W (result (list Z)) :=
  let!? _ := st_check id (cg_Open path) in
  let! scanned := cg_Lines path in
  let '(lines, scanErr) := scanned in
  st_ret (let? pids := parse_pids lines in
          match scanErr with Some e => Err e | None => Ok pids end).

Fixpoint writeEach (path : string) (pids : list Z) : st W (result unit) :=
  match pids with
  | [] => st_ret (Ok ())
  | pid :: rest =>
      let!? _ := st_check (wrapf "write pid %d: %w") (cg_Write path (Itoa pid +:+ newline)) in
      writeEach path rest
  end.
Definition writeCgroupProcs (path : string) (pids : list Z) : st W (result unit) :=
  let!? _ := st_check id (cg_OpenWrite path) in
  writeEach path pids.

Definition valid_leaf (leaf : string) : bool :=
  negb (String.eqb leaf "" || negb (avoids slash leaf) || String.eqb leaf "." || String.eqb leaf "..").

Definition RelocateProcessesToLeaf (group mountpoint leaf : string) : st CgClient (result unit) :=
  let!? _ := st_fail (validateGroupPath group) in
  let!? _ := st_guard (valid_leaf leaf) (ESentinel ErrInvalidLeafName) in
  let! mp := effectiveMountpoint mountpoint in
  let groupPath := group_path mp group in
  let leafPath := FJoin [groupPath; leaf] in
  let! made := host (cg_Mkdir leafPath 488) in
  let!? _ := st_ret (match made with
                     | Some e => if cg_IsExist e then Ok () else Err (EWrap "create leaf cgroup %s: %w" [e])
                     | None => Ok ()
                     end) in
  let!? pids := st_wrap (wrapf "read cgroup.procs in %s: %w") (host (readCgroupProcs (FJoin [groupPath; "cgroup.procs"]))) in
  match pids with
  | [] => st_ret (Ok ())
  | _ => st_wrap (wrapf "write cgroup.procs in %s: %w") (host (writeCgroupProcs (FJoin [leafPath; "cgroup.procs"]) pids))
  end.

Definition procSelfCgroupAtRoot : st W (result bool) :=
  let!? data := st_wrap (wrapf "read /proc/self/cgroup: %w") (cg_ReadFile "/proc/self/cgroup") in
  st_ret (Ok (has_line "0::/" data)).

Definition cgroupPopulated (cgroupPath : string) : st W (result bool) :=
  let! data := cg_ReadFile (FJoin [cgroupPath; "cgroup.events"]) in
  st_ret (match data with
          | Err e => if cg_IsNotExist e then Ok false else Err e
          | Ok d => Ok (has_line "populated 1" d)
          end).

Definition maybeDrainCgroupNsRoot (mountpoint : string) : st CgClient (result unit) :=
  let!? atRoot := host procSelfCgroupAtRoot in
  if negb atRoot then st_ret (Ok ())
  else
    let! mp := effectiveMountpoint mountpoint in
    let!? populated := host (cgroupPopulated mp) in
    if negb populated then st_ret (Ok ())
    else RelocateProcessesToLeaf "/" mp bootstrapLeafName.

(** *** Controllers *)

Definition readRootControllers (mountpoint : string) : st W (result (list string)) :=
  let!? data := cg_ReadFile (FJoin [mountpoint; "cgroup.controllers"]) in
  st_ret (Ok (Fields data)).

Definition intersectControllers (want have : list string) : list string :=
  let haveSet : gset string := list_to_set have in
  filter (fun w => w ∈ haveSet) want.

Definition writeSubtreeEnable (path : string) (controllers : list string) : st W (result unit) :=
  let parts := (fun c => "+" +:+ c) <$> controllers in
  let!? _ := st_check id (cg_OpenWrite path) in
  st_check id (cg_Write path (Join " " parts)).

Definition applySubtreeControllers (group mountpoint : string) (enable : list string) : st CgClient (result unit) :=
  match enable with
  | [] => st_ret (Ok ())
  | _ =>
      let!? _ := st_wrap (wrapf "drain cgroup-ns root before subtree_control widening: %w") (maybeDrainCgroupNsRoot mountpoint) in
      let!? m := managerFor group mountpoint in
      let!? _ := st_check (wrapf "enable controllers in cgroup ancestors: %w") (host (mgr_Enable m enable)) in
      st_wrap (wrapf "enable controllers in cgroup subtree_control: %w")
        (host (writeSubtreeEnable (FJoin [group_path mountpoint group; "cgroup.subtree_control"]) enable))
  end.

Definition EnsureSubtreeControllers (group mountpoint : string) (controllers : list string) : st CgClient (result (list string)) :=
  let!? _ := st_fail (validateGroupPath group) in
  match controllers with
  | [] => st_ret (Ok [])
  | _ =>
      let! mp := effectiveMountpoint mountpoint in
      let!? available := st_wrap (wrapf "read root cgroup.controllers: %w") (host (readRootControllers mp)) in
      let enable := intersectControllers controllers available in
      let!? _ := applySubtreeControllers group mp enable in
      st_ret (Ok enable)
  end.
Definition EnableCellSubtreeControllers := EnsureSubtreeControllers.

Definition EnableCellAllSubtreeControllers (group mountpoint : string) : st CgClient (result (list string)) :=
  let!? _ := st_fail (validateGroupPath group) in
  let! mp := effectiveMountpoint mountpoint in
  let!? available := st_wrap (wrapf "read root cgroup.controllers: %w") (host (readRootControllers mp)) in
  let!? _ := applySubtreeControllers group mp available in
  st_ret (Ok available).

(** A group that is already gone counts as deleted. *)
Definition DeleteCgroup (group mountpoint : string) : st CgClient (result unit) :=
  let!? _ := st_fail (validateGroupPath group) in
  let! mp := effectiveMountpoint mountpoint in
  let! seen := host (cg_Stat (group_path mp group)) in
  match seen with
  | Some e => st_ret (if cg_IsNotExist e then Ok () else Err e)
  | None =>
      let!? m := managerFor group mountpoint in
      let!? _ := st_check id (host (mgr_Delete m)) in
      let! _ := dropManager group in
      st_ret (Ok ())
  end.

(** ** The pre-flight (internal/cgroupcheck) *)

Inductive Status :=
| StatusEnabled | StatusKernelMissing | StatusNotDelegated | StatusThreadedSubtree
| StatusInternalProcess | StatusNeedsDelegation | StatusEnabledByProbe | StatusPermissionDenied.

#[local] Instance Status_eq_dec : EqDecision Status.
Proof. solve_decision. Defined.

Definition Status_String (s : Status) : string :=
  match s with
  | StatusEnabled => "enabled" | StatusKernelMissing => "kernel-missing" | StatusNotDelegated => "not-delegated"
  | StatusThreadedSubtree => "threaded-subtree" | StatusInternalProcess => "internal-process"
  | StatusNeedsDelegation => "needs-delegation" | StatusEnabledByProbe => "enabled-by-probe"
  | StatusPermissionDenied => "permission-denied"
  end.

(** The zero Status is StatusEnabled: what a missing key of the map reads as. *)
Record CheckResult := {
  chk_HostRoot : string; chk_Required : list string; chk_Status : gmap string Status; chk_ProbeErr : gmap string (option error)
}.
Definition status_of (r : CheckResult) (c : string) : Status := default StatusEnabled (chk_Status r !! c).

Definition resolved (s : Status) : bool := match s with StatusEnabled | StatusEnabledByProbe => true | _ => false end.
Definition Unresolved (r : CheckResult) : list string := filter (fun c => resolved (status_of r c) = false) (chk_Required r).
Definition chk_OK (r : CheckResult) : bool := match Unresolved r with [] => true | _ => false end.
Definition OnlyInternalProcess (r : CheckResult) : bool :=
  match Unresolved r with
  | [] => false
  | l => forallb (fun c => bool_decide (status_of r c = StatusInternalProcess)) l
  end.
Definition ByStatus (r : CheckResult) (s : Status) : list string := filter (fun c => status_of r c = s) (chk_Required r).

Definition RequiredForKukeond (nested : bool) (hostAdvertised : list string) : list string :=
  if nested then hostAdvertised else CellResourceControllers.

Definition Prober : Type := string → string → st W (option error).
Definition DefaultProber : Prober := fun hostRoot controller =>
  let path := FJoin [hostRoot; "cgroup.subtree_control"] in
  let! e := cg_OpenWrite path in
  match e with Some _ => st_ret e | None => cg_Write path ("+" +:+ controller) end.

Definition readControllers (path : string) : st W (result (list string)) :=
  let!? data := cg_ReadFile path in
  st_ret (Ok (merge_sort str_le (Fields data))).

Definition isDomainOnlyController (c : string) : bool := negb (bool_decide (c ∈ ["cpu"; "cpuset"; "perf_event"; "pids"])).
Definition isThreadedSubtreeRoot (hostRoot : string) : st W bool :=
  let! data := cg_ReadFile (FJoin [hostRoot; "cgroup.type"]) in
  st_ret (match data with
          | Err _ => false
          | Ok d => String.eqb (TrimSpace d) "domain threaded" || String.eqb (TrimSpace d) "threaded"
          end).

Definition classifyProbeErr (hostRoot controller : string) (err : option error) : st W Status :=
  match err with
  | None => st_ret StatusEnabledByProbe
  | Some e =>
      if sys_NotSupported e then
        let! threaded := isThreadedSubtreeRoot hostRoot in
        st_ret (if threaded && isDomainOnlyController controller then StatusThreadedSubtree else StatusNotDelegated)
      else if sys_Busy e then st_ret StatusInternalProcess
      else if sys_Denied e then st_ret StatusPermissionDenied
      else st_ret StatusNotDelegated
  end.

Fixpoint check_each (hostRoot : string) (probe : option Prober) (advertised enabled : gset string) (required : list string) (r : CheckResult)
    : st W CheckResult :=
  match required with
  | [] => st_ret r
  | c :: rest =>
      let put s perr := {| chk_HostRoot := chk_HostRoot r; chk_Required := chk_Required r;
                           chk_Status := <[c := s]> (chk_Status r);
                           chk_ProbeErr := match perr with Some p => <[c := p]> (chk_ProbeErr r) | None => chk_ProbeErr r end |} in
      if bool_decide (c ∈ enabled) then check_each hostRoot probe advertised enabled rest (put StatusEnabled None)
      else if bool_decide (c ∉ advertised) then check_each hostRoot probe advertised enabled rest (put StatusKernelMissing None)
      else match probe with
           | None => check_each hostRoot probe advertised enabled rest (put StatusNeedsDelegation None)
           | Some p =>
               let! perr := p hostRoot c in
               let! s := classifyProbeErr hostRoot c perr in
               check_each hostRoot probe advertised enabled rest (put s (Some perr))
           end
  end.

Definition Check_cgroups (hostRoot : string) (required : list string) (probe : option Prober) : st W (result CheckResult) :=
  let!? advertised := st_wrap (wrapf "read %s: %w") (readControllers (FJoin [hostRoot; "cgroup.controllers"])) in
  let!? enabled := st_wrap (wrapf "read %s: %w") (readControllers (FJoin [hostRoot; "cgroup.subtree_control"])) in
  let! r := check_each hostRoot probe (list_to_set advertised) (list_to_set enabled) required
              {| chk_HostRoot := hostRoot; chk_Required := required; chk_Status := ∅; chk_ProbeErr := ∅ |} in
  st_ret (Ok r).

(** FormatRemediation *)
Definition dq : string := String (ascii_of_nat 34) EmptyString.
Definition text_lines (l : list string) : string := Join "" ((fun x => x +:+ newline) <$> l).
Definition stanza (r : CheckResult) (s : Status) (title : string) (body : list string) : string :=
  match ByStatus r s with
  | [] => ""
  | g => newline +:+ "  " +:+ title +:+ ": " +:+ Join ", " g +:+ newline +:+ text_lines body
  end.
(** What an operator's write can still enable *)
Definition writable (s : Status) : bool :=
  match s with StatusKernelMissing | StatusThreadedSubtree | StatusInternalProcess => false | _ => true end.
Definition fix_parts (r : CheckResult) : list string :=
  (fun c => "+" +:+ c) <$> filter (fun c => writable (status_of r c) = true) (Unresolved r).
Definition FormatRemediation (r : CheckResult) : string :=
  if chk_OK r then ""
  else
    "host root cgroup is missing controllers required by kukeond: " +:+ Join ", " (Unresolved r) +:+ newline
    +:+ stanza r StatusNotDelegated "parent did not delegate (cgroup-namespace trap)"
          ["    the namespace this shell runs in advertises these controllers";
           "    in cgroup.controllers but the actual parent never delegated";
           "    them. escalate to the host / container runtime above this";
           "    shell to delegate the missing controllers."]
    +:+ stanza r StatusThreadedSubtree "threaded-subtree forbids domain-only controllers"
          ["    cgroup.type at this scope is " +:+ dq +:+ "domain threaded" +:+ dq +:+ " or " +:+ dq +:+ "threaded" +:+ dq +:+ ",";
           "    so the kernel only permits thread-aware controllers (cpu,";
           "    cpuset, perf_event, pids) in this subtree_control. escalating";
           "    to the parent runtime will not help — fix the threaded";
           "    descendant that promoted this cgroup, or change this scope's";
           "    cgroup.type back to " +:+ dq +:+ "domain" +:+ dq +:+ " before retrying."]
    +:+ stanza r StatusInternalProcess "no-internal-process rule (cgroup contains processes)"
          ["    cgroup-v2 forbids enabling non-thread-aware controllers in";
           "    cgroup.subtree_control on a non-leaf cgroup that hosts";
           "    processes in its own cgroup.procs. the parent did delegate;";
           "    escalating to the parent runtime will not help. move the";
           "    processes to a child cgroup, or accept that only thread-aware";
           "    controllers (cpu, pids) can be enabled at this scope."]
    +:+ stanza r StatusKernelMissing "kernel does not support"
          ["    the running kernel was built without these controllers, or";
           "    this scope's parent has not delegated them and the";
           "    advertised set is already trimmed. rebuild with the matching";
           "    CONFIG_* options or run on a host that exposes them."]
    +:+ stanza r StatusNeedsDelegation "not enabled in cgroup.subtree_control"
          ["    these controllers are advertised but not yet delegated to";
           "    children. enable them with the fix below."]
    +:+ stanza r StatusPermissionDenied "permission denied during probe"
          ["    re-run the pre-flight with sudo so the probe write to";
           "    cgroup.subtree_control can succeed."]
    +:+ match fix_parts r with
        | [] => ""
        | parts =>
            newline +:+ "  fix: echo " +:+ dq +:+ Join " " parts +:+ dq +:+ " | sudo tee "
            +:+ FJoin [chk_HostRoot r; "cgroup.subtree_control"] +:+ newline
            +:+ text_lines ["";
                       "  if that returns " +:+ dq +:+ "Operation not supported" +:+ dq +:+ ", the parent of";
                       "  this cgroup namespace did not delegate those controllers —";
                       "  escalate to the host / container runtime above this shell."]
        end.

Definition IsCgroupNsRoot : st W bool :=
  let! data := cg_ReadFile "/proc/self/cgroup" in
  st_ret (match data with Err _ => false | Ok d => has_line "0::/" d end).
Definition IsHostRootPopulated (hostRoot : string) : st W bool :=
  let! data := cg_ReadFile (FJoin [hostRoot; "cgroup.events"]) in
  st_ret (match data with Err _ => false | Ok d => has_line "populated 1" d end).
Definition HostAdvertised (hostRoot : string) : st W (result (list string)) :=
  st_wrap (wrapf "read %s: %w") (readControllers (FJoin [hostRoot; "cgroup.controllers"])).
Definition DefaultHostRoot : string := CgroupFilesystemPath.

End Client.

Arguments CgClient W {_}.

(** ** The kernel's side

    A group's processes and delegated controllers as its control files show them, by the
    path of the file; reading, looking up and opening change nothing. *)

(** A controller's name: one word *)
Definition word (s : string) : Prop := no_blanks s = true ∧ s ≠ "".
Definition pid_ok (p : Z) : Prop := (0 < p ≤ 2147483647)%Z.

Class CgroupLaws (W : Type) `{CgroupHost W} := {
  law_VerifyGroupPath g : cg_VerifyGroupPath g = None → HasPrefix g "/" = true ∧ Clean g = g;
  kernel_procs : W → string → gset Z;
  kernel_subtree : W → string → gset string;
  law_Open p w : (cg_Open p w).1 = w;
  law_Lines p w : (cg_Lines p w).1 = w;
  law_ReadFile p w : (cg_ReadFile p w).1 = w;
  law_Stat p w : (cg_Stat p w).1 = w;
  law_OpenWrite p w : (cg_OpenWrite p w).1 = w;
  law_Mkdir p m w f : kernel_procs (cg_Mkdir p m w).1 f = kernel_procs w f;
  law_procs f w : HasSuffix f "/cgroup.procs" = true → (cg_Open f w).2 = None →
    ∃ pids, Forall pid_ok pids ∧ (cg_Lines f w).2 = (Itoa <$> pids, None) ∧ list_to_set pids = kernel_procs w f;
  law_attach f p w f' : HasSuffix f "/cgroup.procs" = true → pid_ok p → (cg_Write f (Itoa p +:+ newline) w).2 = None →
    kernel_procs (cg_Write f (Itoa p +:+ newline) w).1 f' = if decide (f' = f) then {[p]} ∪ kernel_procs w f' else kernel_procs w f' ∖ {[p]};
  law_subtree f w data : HasSuffix f "/cgroup.subtree_control" = true → (cg_ReadFile f w).2 = Ok data →
    list_to_set (Fields data) = kernel_subtree w f;
  law_enable f l w : HasSuffix f "/cgroup.subtree_control" = true → Forall word l → (cg_Write f (Join " " ((fun c => "+" +:+ c) <$> l)) w).2 = None →
    kernel_subtree (cg_Write f (Join " " ((fun c => "+" +:+ c) <$> l)) w).1 f = list_to_set l ∪ kernel_subtree w f;
  law_enable_fails f s w : (cg_Write f s w).2 ≠ None → kernel_subtree (cg_Write f s w).1 f = kernel_subtree w f
}.

(** ** Words *)

Lemma Fields_words data x : x ∈ Fields data → word x.
Proof.
  assert (Hi : ∀ s acc, no_blanks acc = true → x ∈ fields_from acc s → word x).
  { induction s as [|ch s IH]; intros acc Hw Hx; cbn [fields_from] in Hx.
    - destruct (String.eqb_spec acc ""); [by apply elem_of_nil in Hx|by apply list_elem_of_singleton in Hx as ->].
    - destruct (is_space ch) eqn:Ec; [destruct (String.eqb_spec acc "")|]; [by apply (IH "")| |].
      + apply elem_of_cons in Hx as [->|Hx]; [done|by apply (IH "")].
      + apply (IH (acc +:+ String ch EmptyString)); [|done]. clear -Hw Ec. revert Hw. induction acc as [|d acc IHw]; intros Hw.
        * change (negb (is_space ch) && true = true). by rewrite Ec.
        * cbn [no_blanks] in Hw. apply andb_true_iff in Hw as [Hd Hw]. change (String d acc +:+ ?x) with (String d (acc +:+ x)).
          cbn [no_blanks]. by rewrite Hd, IHw. }
  by apply (Hi data "").
Qed.

Section Theorems.
Context {W : Type} `{CgroupHost W} `{!CgroupLaws W}.
Implicit Types (w : W) (c : CgClient W).

(** *** Paths and numbers *)

Lemma trim_slash_render l : trim_slash (render_path l) = Join "/" l.
Proof. done. Qed.

Lemma group_path_render ml gl : Forall seg_ok ml → Forall seg_ok gl → group_path (render_path ml) (render_path gl) = render_path (ml ++ gl).
Proof.
  intros Hm Hg. unfold group_path. rewrite trim_slash_render, FJoin_rel by done. f_equal. destruct gl as [|x gl].
  - change (split_on slash (Join "/" [])) with [""]. cbn [foldl]. change (clean_step true (reverse ml) "") with (reverse ml).
    by rewrite reverse_involutive, app_nil_r.
  - rewrite split_on_Join by (eapply Forall_impl; [exact Hg|]; by intros ? []). rewrite clean_keeps by done.
    by rewrite reverse_app, !reverse_involutive.
Qed.

Lemma digits_no_space acc s z : digits_val acc s = Some z → TrimSpace s = s ∧ digits_prefix s = s.
Proof.
  assert (Hd : ∀ ch, digit_of ch ≠ None → is_space ch = false).
  { intros ch. unfold digit_of, is_space. destruct (_ && _) eqn:E; [|done]. intros _.
    apply andb_true_iff in E as [E1%Z.leb_le E2%Z.leb_le].
    destruct (nat_of_ascii ch) as [|n]; [lia|]. do 33 (destruct n as [|n]; [try lia; done|]). done. }
  assert (Hp : ∀ s acc, digits_val acc s = Some z → rtrim s = s ∧ digits_prefix s = s).
  { clear s acc. induction s as [|ch s IH]; intros acc E; [done|]. cbn [digits_val] in E.
    destruct (digit_of ch) eqn:Ed; [|done]. destruct (IH _ E) as [E1 E2]. cbn [rtrim digits_prefix].
    rewrite Ed, E2, E1. rewrite (Hd ch) by congruence. by destruct s. }
  intros E. destruct (Hp s acc E) as [E1 E2]. split; [|done]. unfold TrimSpace. destruct s as [|ch s]; [done|].
  cbn [digits_val] in E. destruct (digit_of ch) eqn:Ed; [|done]. cbn [ltrim]. rewrite (Hd ch) by congruence. done.
Qed.

Lemma scan_Itoa p : pid_ok p → scan_d (TrimSpace (Itoa p)) = Some p ∧ TrimSpace (Itoa p) ≠ "".
Proof.
  intros [Hp1 Hp2]. destruct (digits_val_Itoa p) as [Hd Hne]; [lia|]. destruct (digits_no_space _ _ _ Hd) as [E1 E2]. rewrite E1.
  split; [|done]. pose proof (Atoi_Itoa p ltac:(lia)) as Ha. unfold scan_d. destruct (Itoa p) as [|ch s] eqn:Ei; [done|].
  destruct (Ascii.eqb_spec ch "-"%char) as [->|]; [done|]. destruct (Ascii.eqb_spec ch "+"%char) as [->|]; [done|]. by rewrite E2.
Qed.

Lemma parse_pids_Itoa pids : Forall pid_ok pids → parse_pids (Itoa <$> pids) = Ok pids.
Proof.
  induction 1 as [|p pids Hp _ IH]; [done|]. cbn [fmap list_fmap parse_pids]. destruct (scan_Itoa p Hp) as [E1 E2].
  rewrite (proj2 (String.eqb_neq _ _) E2), E1. change (list_fmap Z string Itoa pids) with (Itoa <$> pids). by rewrite IH.
Qed.

(** *** Relocation *)

Lemma effective_given mp c : mp ≠ "" → effectiveMountpoint mp c = (c, mp).
Proof. intros Hne%String.eqb_neq. unfold effectiveMountpoint. by rewrite Hne. Qed.
Lemma host_ro {A} (m : st W A) c : (m (cgc_world c)).1 = cgc_world c → host m c = (c, (m (cgc_world c)).2).
Proof. intros E. unfold host. destruct (m (cgc_world c)) as [w a]. cbn in E. subst. by destruct c. Qed.

Lemma st_fail_ok {S} e (s s' : S) u : st_fail e s = (s', Ok u) → s' = s ∧ e = None.
Proof. unfold st_fail, st_ret. by destruct e; intros [= <-]. Qed.

Lemma readCgroupProcs_ok f w w' pids : HasSuffix f "/cgroup.procs" = true →
  readCgroupProcs f w = (w', Ok pids) → w' = w ∧ Forall pid_ok pids ∧ list_to_set pids = kernel_procs w f.
Proof.
  intros Hf E. unfold readCgroupProcs in E. apply st_try_ok in E as (w1 & u & E1 & E2). apply st_check_ok in E1.
  pose proof (law_Open f w) as Ho. rewrite E1 in Ho. cbn in Ho. subst w1.
  destruct (law_procs f w Hf) as (l & Hl & El & Es); [by rewrite E1|].
  unfold st_bind in E2. pose proof (law_Lines f w) as Hr. destruct (cg_Lines f w) as [w2 r]. cbn in Hr, El. subst.
  unfold st_ret in E2. rewrite parse_pids_Itoa in E2 by done. cbn [res_bind] in E2. injection E2 as <- <-. by rewrite Es.
Qed.

Lemma writeEach_ok f pids w w' : HasSuffix f "/cgroup.procs" = true → Forall pid_ok pids → writeEach f pids w = (w', Ok ()) →
  ∀ f', kernel_procs w' f' = if decide (f' = f) then list_to_set pids ∪ kernel_procs w f' else kernel_procs w f' ∖ list_to_set pids.
Proof.
  intros Hf Hok. revert w. induction Hok as [|p pids Hp _ IH]; intros w E f'.
  - cbn [writeEach] in E. unfold st_ret in E. injection E as <-. case_decide; set_solver.
  - cbn [writeEach] in E. apply st_try_ok in E as (w1 & u & E1 & E2). apply st_check_ok in E1.
    rewrite (IH w1 E2 f'). pose proof (law_attach f p w f' Hf Hp) as Ha. rewrite E1 in Ha. cbn in Ha. rewrite (Ha eq_refl). cbn [list_to_set].
    case_decide; set_solver.
Qed.

Lemma HasSuffix_render l s : HasSuffix (render_path (l ++ [s])) (String slash s) = true.
Proof.
  assert (Hs : ∀ a b : string, HasSuffix (a +:+ b) b = true).
  { intros a b. induction a as [|ch a IH].
    - change ("" +:+ b) with b. destruct b as [|d b]; [done|]. cbn [HasSuffix]. by rewrite String.eqb_refl.
    - change (String ch a +:+ b) with (String ch (a +:+ b)). cbn [HasSuffix]. by rewrite IH, orb_true_r. }
  induction l as [|x l IH]; [change (render_path ([] ++ [s])) with ("" +:+ String slash s); apply Hs|].
  destruct (l ++ [s]) as [|y r] eqn:E; [by destruct l|].
  change ((x :: l) ++ [s]) with (x :: (l ++ [s])). rewrite E.
  change (render_path (x :: y :: r)) with ("/" +:+ (x +:+ render_path (y :: r))).
  assert (Ht : ∀ a b suf : string, HasSuffix b suf = true → HasSuffix (a +:+ b) suf = true).
  { intros a b suf Hb. induction a as [|ch a IHa]; [done|]. change (String ch a +:+ b) with (String ch (a +:+ b)). cbn [HasSuffix]. by rewrite IHa, orb_true_r. }
  by apply (Ht "/"), (Ht x).
Qed.

Lemma valid_leaf_seg leaf : valid_leaf leaf = true → seg_ok leaf.
Proof.
  unfold valid_leaf. rewrite negb_true_iff, !orb_false_iff, negb_false_iff. intros [[[E1 E2] E3] E4].
  by split; [apply String.eqb_neq| |apply String.eqb_neq|apply String.eqb_neq].
Qed.

Definition moved (from to : string) w w' : Prop :=
  ∀ f, kernel_procs w' f = if decide (f = to) then kernel_procs w from ∪ kernel_procs w f else kernel_procs w f ∖ kernel_procs w from.

Lemma in_host_ok {A} (m : st W A) c c' a : host m c = (c', a) → m (cgc_world c) = (cgc_world c', a).
Proof. unfold host. destruct (m (cgc_world c)) as [w b]. by intros [= <- <-]. Qed.

Lemma procs_file l : Forall seg_ok l → FJoin [render_path l; "cgroup.procs"] = render_path (l ++ ["cgroup.procs"]).
Proof. intros Hl. apply FJoin_seg; [done|]. by split. Qed.

(** moving the processes of a group to a leaf below it, when it reports success, leaves
    no process in the group, puts every process the group had into the leaf beside those the
    leaf already had, and takes none from any other group: the no-internal-process rule
    holds of the group afterwards and no process is lost. *)
Theorem relocate_moves_all ml gl leaf c c' :
  Forall seg_ok ml → Forall seg_ok gl →
  RelocateProcessesToLeaf (render_path gl) (render_path ml) leaf c = (c', Ok ()) →
  let from := render_path (ml ++ gl ++ ["cgroup.procs"]) in
  let to := render_path (ml ++ gl ++ [leaf; "cgroup.procs"]) in
  kernel_procs (cgc_world c') from = ∅ ∧ moved from to (cgc_world c) (cgc_world c').
Proof.
  intros Hm Hg E. cbn zeta. unfold RelocateProcessesToLeaf in E.
  apply st_try_ok in E as (c1 & u1 & E1 & E). apply st_fail_ok in E1 as [-> _].
  apply st_try_ok in E as (c1 & u2 & E1 & E). apply st_guard_ok in E1 as [-> Hleaf%valid_leaf_seg].
  unfold st_bind at 1 in E. rewrite effective_given in E by done. cbn zeta in E.
  assert (Hmg : Forall seg_ok (ml ++ gl)) by (by apply Forall_app).
  rewrite group_path_render, (FJoin_seg (ml ++ gl) leaf) in E by done.
  assert (Hl : Forall seg_ok ((ml ++ gl) ++ [leaf])) by (apply Forall_app; split; [done|by apply Forall_singleton]).
  rewrite !procs_file in E by done. rewrite <-!app_assoc in E. cbn [app] in E.
  unfold st_bind at 1 in E. destruct (host (cg_Mkdir _ _) c) as [c2 made] eqn:Em. apply in_host_ok in Em.
  apply st_try_ok in E as (c3 & u3 & E1 & E). apply (f_equal fst) in E1. cbn in E1. subst c3.
  apply st_try_ok in E as (c4 & pids & E1 & E). apply st_wrap_ok in E1. apply in_host_ok in E1.
  set (from := render_path (ml ++ gl ++ ["cgroup.procs"])) in *. set (to := render_path (ml ++ gl ++ [leaf; "cgroup.procs"])) in *.
  assert (Hf : HasSuffix from "/cgroup.procs" = true) by (unfold from; rewrite app_assoc; apply HasSuffix_render).
  assert (Ht : HasSuffix to "/cgroup.procs" = true).
  { unfold to. change [leaf; "cgroup.procs"] with ([leaf] ++ ["cgroup.procs"]). rewrite !app_assoc. apply HasSuffix_render. }
  apply readCgroupProcs_ok in E1 as (Ew & Hok & Hp); [|done].
  assert (Hmk : ∀ f, kernel_procs (cgc_world c2) f = kernel_procs (cgc_world c) f).
  { intros f. pose proof (law_Mkdir (render_path (ml ++ gl ++ [leaf])) 488 (cgc_world c) f) as Hk. by rewrite Em in Hk. }
  assert (Hmv : moved from to (cgc_world c) (cgc_world c')).
  { intros f. rewrite <-(Hmk from), <-(Hmk f), <-Hp, <-Ew. destruct pids as [|p pids].
    - unfold st_ret in E. injection E as <-. case_decide; set_solver.
    - apply st_wrap_ok, in_host_ok in E. unfold writeCgroupProcs in E. apply st_try_ok in E as (w1 & u4 & E1 & E). apply st_check_ok in E1.
      pose proof (law_OpenWrite to (cgc_world c4)) as Ho. rewrite E1 in Ho. cbn in Ho. subst w1.
      by rewrite (writeEach_ok _ _ _ _ Ht Hok E f). }
  split; [|done]. rewrite (Hmv from), decide_False; [set_solver|]. unfold from, to. intros Er.
  apply render_path_inj in Er; [by simplify_list_eq| |]; rewrite ?app_assoc; repeat first [apply Forall_app; split|apply Forall_cons; split|apply Forall_nil]; try done; by split.
Qed.

(** *** The drain *)

(** the defensive drain moves processes exactly when the process sits at the root of its
    cgroup namespace and the root group is populated: in every other case it returns without
    touching the host, so that on a host that is not nested the init system's processes are
    never moved. *)
Theorem drain_gated mp c : mp ≠ "" →
  let atRoot := (procSelfCgroupAtRoot (cgc_world c)).2 in
  let populated := (cgroupPopulated mp (cgc_world c)).2 in
  maybeDrainCgroupNsRoot mp c =
    match atRoot, populated with
    | Err e, _ => (c, Err e)
    | Ok true, Ok true => RelocateProcessesToLeaf "/" mp bootstrapLeafName c
    | Ok true, Err e => (c, Err e)
    | _, _ => (c, Ok ())
    end.
Proof.
  intros Hmp. cbn zeta. unfold maybeDrainCgroupNsRoot, st_try at 1, st_bind at 1.
  rewrite (host_ro procSelfCgroupAtRoot).
  2: { unfold procSelfCgroupAtRoot, st_try, st_wrap, st_bind. pose proof (law_ReadFile "/proc/self/cgroup" (cgc_world c)) as Hr.
       destruct (cg_ReadFile _ _) as [w [d|e]]; cbn in *; by subst. }
  destruct (procSelfCgroupAtRoot (cgc_world c)).2 as [[|]|e]; [|by cbn; destruct (cgroupPopulated mp (cgc_world c)).2 as [[|]|]|done].
  cbn [negb]. unfold st_bind at 1. rewrite effective_given by done. unfold st_try at 1, st_bind at 1.
  rewrite (host_ro (cgroupPopulated mp)); [by destruct (cgroupPopulated mp (cgc_world c)).2 as [[|]|e]|].
  unfold cgroupPopulated, st_bind. pose proof (law_ReadFile (FJoin [mp; "cgroup.events"]) (cgc_world c)) as Hr.
  by destruct (cg_ReadFile _ _) as [w d].
Qed.

(** *** Controllers *)

Lemma subtree_file l : Forall seg_ok l → FJoin [render_path l; "cgroup.subtree_control"] = render_path (l ++ ["cgroup.subtree_control"]).
Proof. intros Hl. apply FJoin_seg; [done|]. by split. Qed.

Lemma applySubtree_ok ml gl enable c c' :
  Forall seg_ok ml → Forall seg_ok gl → Forall word enable →
  applySubtreeControllers (render_path gl) (render_path ml) enable c = (c', Ok ()) →
  (list_to_set enable : gset string) ⊆ kernel_subtree (cgc_world c') (render_path (ml ++ gl ++ ["cgroup.subtree_control"])) ∨ enable = [].
Proof.
  intros Hm Hg Hb E. destruct enable as [|x enable]; [by right|left]. unfold applySubtreeControllers in E.
  apply st_try_ok in E as (c1 & u1 & _ & E). apply st_try_ok in E as (c2 & m & _ & E). apply st_try_ok in E as (c3 & u3 & _ & E).
  apply st_wrap_ok, in_host_ok in E. rewrite group_path_render, subtree_file, <-app_assoc in E by (done || by apply Forall_app).
  set (f := render_path (ml ++ gl ++ ["cgroup.subtree_control"])) in *. unfold writeSubtreeEnable in E.
  apply st_try_ok in E as (w1 & u4 & E1 & E). apply st_check_ok in E1, E.
  pose proof (law_OpenWrite f (cgc_world c3)) as Ho. rewrite E1 in Ho. cbn in Ho. subst w1.
  assert (Hf : HasSuffix f "/cgroup.subtree_control" = true) by (unfold f; rewrite app_assoc; apply HasSuffix_render).
  pose proof (law_enable f (x :: enable) (cgc_world c3) Hf Hb) as Hk. rewrite E in Hk. cbn [fst snd] in Hk. rewrite (Hk eq_refl). set_solver.
Qed.

Lemma readRoot_ok mp w w' l : readRootControllers mp w = (w', Ok l) →
  w' = w ∧ ∃ data, (cg_ReadFile (FJoin [mp; "cgroup.controllers"]) w).2 = Ok data ∧ l = Fields data.
Proof.
  intros E. unfold readRootControllers in E. apply st_try_ok in E as (w1 & data & E1 & E).
  pose proof (law_ReadFile (FJoin [mp; "cgroup.controllers"]) w) as Hr. rewrite E1 in Hr. cbn in Hr. subst. unfold st_ret in E. injection E as <- <-.
  rewrite E1. eauto.
Qed.

Lemma elem_of_intersect x want have : x ∈ intersectControllers want have ↔ x ∈ want ∧ x ∈ have.
Proof. unfold intersectControllers. rewrite list_elem_of_filter, elem_of_list_to_set. tauto. Qed.

(** when delegating controllers on a group succeeds, the set reported is the requested
    one less what the root of the hierarchy does not advertise, in the requested order, and
    every controller reported is enabled in the group's own subtree control file, so that the
    groups below inherit it. *)
Theorem delegates_requested ml gl wanted c c' enabled :
  Forall seg_ok ml → Forall seg_ok gl →
  EnsureSubtreeControllers (render_path gl) (render_path ml) wanted c = (c', Ok enabled) →
  enabled `sublist_of` wanted ∧
  (wanted ≠ [] → ∃ data, (cg_ReadFile (FJoin [render_path ml; "cgroup.controllers"]) (cgc_world c)).2 = Ok data ∧
    ∀ x, x ∈ enabled ↔ x ∈ wanted ∧ x ∈ Fields data) ∧
  ∀ x, x ∈ enabled → x ∈ kernel_subtree (cgc_world c') (render_path (ml ++ gl ++ ["cgroup.subtree_control"])).
Proof.
  intros Hm Hg E. unfold EnsureSubtreeControllers in E. apply st_try_ok in E as (c1 & u & E1 & E). apply st_fail_ok in E1 as [-> _].
  destruct wanted as [|y wanted]; [unfold st_ret in E; injection E as <- <-; repeat split; [done|done|set_solver]|].
  unfold st_bind at 1 in E. rewrite effective_given in E by done. apply st_try_ok in E as (c2 & available & E1 & E).
  apply st_wrap_ok, in_host_ok, readRoot_ok in E1 as [_ (data & Ed & ->)]. cbn zeta in E.
  apply st_try_ok in E as (c3 & [] & E1 & E). unfold st_ret in E. injection E as <- <-.
  split; [apply sublist_filter|]. split; [intros _; exists data; split; [done|]; intros x; apply elem_of_intersect|].
  assert (Hb : Forall word (intersectControllers (y :: wanted) (Fields data))).
  { apply Forall_forall. intros x [_ Hx]%elem_of_intersect. by apply (Fields_words data). }
  destruct (applySubtree_ok ml gl _ _ _ Hm Hg Hb E1) as [Hs|Hn]; intros x Hx; [apply Hs, elem_of_list_to_set, Hx|rewrite Hn in Hx; set_solver].
Qed.

(** *** Containment *)

(** a group the client accepts names a path below the mount point: no path element of it
    climbs out of the hierarchy, whatever the text of the group. *)
Theorem accepted_group_contained ml group c c' path :
  Forall seg_ok ml → CgroupPath group (render_path ml) c = (c', Ok path) →
  c' = c ∧ ∃ gl, Forall seg_ok gl ∧ group = render_path gl ∧ path = render_path (ml ++ gl).
Proof.
  intros Hm E. unfold CgroupPath in E. apply st_try_ok in E as (c1 & u & E1 & E). apply st_fail_ok in E1 as [-> Hv].
  unfold st_bind in E. rewrite effective_given in E by done. unfold st_ret in E. injection E as <- <-. split; [done|].
  unfold validateGroupPath in Hv. destruct (String.eqb group ""); [done|]. apply law_VerifyGroupPath in Hv as [Hp Hc].
  destruct (Clean_rooted group Hp) as (gl & Hg & Eg). rewrite Hc in Eg. exists gl. subst group. by rewrite group_path_render.
Qed.

(** *** The pre-flight *)

(** Required controllers keep their place and each gets one status. *)
Definition classified (advertised enabled : gset string) (x : string) : Status :=
  if bool_decide (x ∈ enabled) then StatusEnabled
  else if bool_decide (x ∉ advertised) then StatusKernelMissing
  else StatusNeedsDelegation.

Lemma check_each_readonly root adv en l r w :
  let r' := (check_each root None adv en l r w).2 in
  (check_each root None adv en l r w).1 = w ∧ chk_Required r' = chk_Required r ∧
  ∀ x, status_of r' x = if bool_decide (x ∈ l) then classified adv en x else status_of r x.
Proof.
  cbn zeta. revert r. induction l as [|y l IH]; intros r; [done|]. cbn [check_each]. unfold classified.
  destruct (bool_decide (y ∈ en)) eqn:E1; [|destruct (bool_decide (y ∉ adv)) eqn:E2]; cbn zeta;
    (match goal with |- context [check_each root None adv en l ?q w] => destruct (IH q) as (Ew & Er & Es) end;
     split; [done|]; split; [done|]; intros x; rewrite Es; unfold classified, status_of; cbn [chk_Status];
     destruct (decide (x = y)) as [->|Hxy];
     [rewrite lookup_insert_eq, ?E1, ?E2, (bool_decide_eq_true_2 (y ∈ y :: l)) by set_solver; by destruct (bool_decide (y ∈ l))
     |rewrite lookup_insert_ne by done; rewrite (bool_decide_ext (x ∈ y :: l) (x ∈ l)) by set_solver; done]).
Qed.

Lemma readControllers_ok f w w' l : readControllers f w = (w', Ok l) →
  w' = w ∧ ∃ data, (cg_ReadFile f w).2 = Ok data ∧ (list_to_set l : gset string) = list_to_set (Fields data).
Proof.
  intros E. unfold readControllers in E. apply st_try_ok in E as (w1 & data & E1 & E). pose proof (law_ReadFile f w) as Hr. rewrite E1 in Hr.
  cbn in Hr. subst. unfold st_ret in E. injection E as <- <-. rewrite E1. split; [done|]. exists data. split; [done|].
  apply set_eq. intros x. rewrite !elem_of_list_to_set. by rewrite merge_sort_Permutation.
Qed.

Lemma chk_OK_spec r : chk_OK r = true ↔ ∀ x, x ∈ chk_Required r → resolved (status_of r x) = true.
Proof.
  unfold chk_OK, Unresolved. split.
  - intros E x Hx. destruct (resolved (status_of r x)) eqn:Ex; [done|]. assert (Hf : x ∈ filter (fun y => resolved (status_of r y) = false) (chk_Required r))
      by by apply list_elem_of_filter. destruct (filter _ _); [by apply elem_of_nil in Hf|done].
  - intros Hall. destruct (filter _ _) as [|y l] eqn:Ef; [done|]. assert (Hf : y ∈ filter (fun y => resolved (status_of r y) = false) (chk_Required r))
      by (rewrite Ef; set_solver). apply list_elem_of_filter in Hf as [Hy Hr]. rewrite (Hall y Hr) in Hy. done.
Qed.

(** without a probe the check only reads: the host is left as it was, every required
    controller is classified by the two files exactly, and the check passes exactly when every
    required controller is already enabled. *)
Theorem check_readonly_exact ml required w w' r :
  Forall seg_ok ml → Check_cgroups (render_path ml) required None w = (w', Ok r) →
  w' = w ∧ chk_Required r = required ∧
  (∃ data, (cg_ReadFile (FJoin [render_path ml; "cgroup.controllers"]) w).2 = Ok data ∧
    ∀ x, x ∈ required → status_of r x = classified (list_to_set (Fields data)) (kernel_subtree w (render_path (ml ++ ["cgroup.subtree_control"]))) x) ∧
  (chk_OK r = true ↔ ∀ x, x ∈ required → x ∈ kernel_subtree w (render_path (ml ++ ["cgroup.subtree_control"]))).
Proof.
  intros Hm E. unfold Check_cgroups in E. apply st_try_ok in E as (w1 & adv & E1 & E). apply st_wrap_ok, readControllers_ok in E1 as [-> (d1 & Ed1 & Hadv)].
  apply st_try_ok in E as (w1 & en & E1 & E). apply st_wrap_ok, readControllers_ok in E1 as [-> (d2 & Ed2 & Hen)].
  rewrite subtree_file in Ed2 by done. apply law_subtree in Ed2; [|apply HasSuffix_render]. rewrite Ed2 in Hen. rewrite Hadv, Hen in E.
  set (r0 := {| chk_HostRoot := _ |}) in E. unfold st_bind in E.
  match type of E with context [check_each ?a ?b ?c ?d ?e ?f] => destruct (check_each_readonly a c d e f w) as (Hw & Hr & Hs) end.
  destruct (check_each _ _ _ _ _ _ _) as [w2 r2]. cbn [fst snd] in *. unfold st_ret in E. injection E as <- <-.
  assert (Hst : ∀ x, x ∈ required → status_of r2 x = classified (list_to_set (Fields d1)) (kernel_subtree w (render_path (ml ++ ["cgroup.subtree_control"]))) x).
  { intros x Hx. by rewrite Hs, bool_decide_eq_true_2. }
  split; [done|]. split; [done|]. split; [eauto|]. rewrite chk_OK_spec, Hr. cbn [chk_Required r0]. apply forall_proper. intros x.
  split; intros Hx Hin; specialize (Hx Hin).
  - rewrite (Hst x Hin) in Hx. unfold classified in Hx. destruct (bool_decide _) eqn:Eb in Hx; [by apply bool_decide_eq_true in Eb|].
    by destruct (bool_decide _) in Hx.
  - rewrite (Hst x Hin). unfold classified. by rewrite bool_decide_eq_true_2.
Qed.

(** With the default probe: enabled controllers stay enabled, and a status that counts as
    resolved is one the kernel's file agrees with. *)
Lemma DefaultProber_grows f root x w : FJoin [root; "cgroup.subtree_control"] = f → HasSuffix f "/cgroup.subtree_control" = true → word x →
  let '(w', e) := DefaultProber root x w in
  kernel_subtree w f ⊆ kernel_subtree w' f ∧ (e = None → x ∈ kernel_subtree w' f).
Proof.
  intros Ef Hf Hx. unfold DefaultProber. rewrite Ef. unfold st_bind. pose proof (law_OpenWrite f w) as Ho. destruct (cg_OpenWrite f w) as [w1 [e|]]; cbn in Ho; subst w1.
  - by cbn.
  - pose proof (law_enable f [x] w Hf) as Hk. pose proof (law_enable_fails f ("+" +:+ x) w) as Hk'. cbn [fmap list_fmap Join] in Hk.
    destruct (cg_Write f ("+" +:+ x) w) as [w2 [e|]]; cbn [fst snd] in *; split.
    + by rewrite Hk'.
    + done.
    + rewrite Hk; [set_solver|by constructor|done].
    + intros _. rewrite Hk; [set_solver|by constructor|done].
Qed.

Lemma classify_ro root x e w : (classifyProbeErr root x e w).1 = w ∧ ((classifyProbeErr root x e w).2 = StatusEnabledByProbe → e = None) ∧
  ((classifyProbeErr root x e w).2 = StatusEnabled → False).
Proof.
  unfold classifyProbeErr. destruct e as [e|]; [|done]. destruct (sys_NotSupported e).
  - unfold isThreadedSubtreeRoot, st_bind. pose proof (law_ReadFile (FJoin [root; "cgroup.type"]) w) as Hr. destruct (cg_ReadFile _ w) as [w1 d]. cbn in *. subst.
    repeat split; by case_match.
  - destruct (sys_Busy e); [done|]. by destruct (sys_Denied e).
Qed.

Lemma check_each_probe f root adv en l r w :
  FJoin [root; "cgroup.subtree_control"] = f → HasSuffix f "/cgroup.subtree_control" = true →
  Forall word l → en ⊆ kernel_subtree w f →
  let '(w', r') := check_each root (Some DefaultProber) adv en l r w in
  kernel_subtree w f ⊆ kernel_subtree w' f ∧ chk_Required r' = chk_Required r ∧
  (∀ x, x ∈ l → resolved (status_of r' x) = true → x ∈ kernel_subtree w' f) ∧
  (∀ x, x ∉ l → status_of r' x = status_of r x).
Proof.
  intros Ef Hf Hb. revert r w. induction Hb as [|y l Hy _ IH]; intros r w Hen.
  { cbn. repeat split; [done|]. intros x Hx. by apply elem_of_nil in Hx. }
  (** One entry decided: what the rest of the loop adds *)
  assert (Hstep : ∀ w1 s pe, kernel_subtree w f ⊆ kernel_subtree w1 f → (resolved s = true → y ∈ kernel_subtree w1 f) →
    let '(w', r') := check_each root (Some DefaultProber) adv en l
          {| chk_HostRoot := chk_HostRoot r; chk_Required := chk_Required r; chk_Status := <[y := s]> (chk_Status r); chk_ProbeErr := pe |} w1 in
    kernel_subtree w f ⊆ kernel_subtree w' f ∧ chk_Required r' = chk_Required r ∧
    (∀ x, x ∈ y :: l → resolved (status_of r' x) = true → x ∈ kernel_subtree w' f) ∧
    (∀ x, x ∉ y :: l → status_of r' x = status_of r x)).
  { intros w1 s pe Hw Hs. match goal with |- context [check_each _ _ _ _ _ ?q _] => specialize (IH q w1 ltac:(set_solver)) end.
    destruct (check_each _ _ _ _ _ _ _) as [w' r']. destruct IH as (G1 & G2 & G3 & G4). split; [set_solver|]. split; [done|]. split.
    - intros x Hx Hr. destruct (decide (x ∈ l)) as [Hl|Hl]; [by apply G3|]. assert (x = y) as -> by set_solver.
      rewrite G4 in Hr by done. unfold status_of in Hr. cbn [chk_Status] in Hr. rewrite lookup_insert_eq in Hr. apply G1, Hs, Hr.
    - intros x Hx. rewrite G4 by set_solver. unfold status_of. cbn [chk_Status]. by rewrite lookup_insert_ne by set_solver. }
  cbn [check_each]. destruct (bool_decide (y ∈ en)) eqn:E1; cbn zeta.
  { apply bool_decide_eq_true in E1. apply Hstep; [done|]. intros _. by apply Hen. }
  destruct (bool_decide (y ∉ adv)); [by apply Hstep|]. unfold st_bind.
  pose proof (DefaultProber_grows f root y w Ef Hf Hy) as Hp. destruct (DefaultProber root y w) as [w1 e]. destruct Hp as [Hp1 Hp2].
  pose proof (classify_ro root y e w1) as (Hc1 & Hc2 & Hc3). destruct (classifyProbeErr root y e w1) as [w2 s]. cbn [fst snd] in *. subst w2.
  apply Hstep; [done|]. intros Hs. apply Hp2, Hc2. by destruct s.
Qed.

(** when the check passes with the default probe, every required controller is enabled in
    the root's subtree control file, whichever of them the probe had to enable; and the probe
    never disables a controller. *)
Theorem check_probe_sound ml required w w' r :
  Forall seg_ok ml → Forall word required →
  Check_cgroups (render_path ml) required (Some DefaultProber) w = (w', Ok r) →
  let f := render_path (ml ++ ["cgroup.subtree_control"]) in
  kernel_subtree w f ⊆ kernel_subtree w' f ∧
  (chk_OK r = true → ∀ x, x ∈ required → x ∈ kernel_subtree w' f).
Proof.
  intros Hm Hb E. cbn zeta. unfold Check_cgroups in E. apply st_try_ok in E as (w1 & adv & E1 & E). apply st_wrap_ok, readControllers_ok in E1 as [-> _].
  apply st_try_ok in E as (w1 & en & E1 & E). apply st_wrap_ok, readControllers_ok in E1 as [-> (d2 & Ed2 & Hen)].
  rewrite subtree_file in Ed2 by done. apply law_subtree in Ed2; [|apply HasSuffix_render]. rewrite Ed2 in Hen. rewrite Hen in E. unfold st_bind in E.
  match type of E with context [check_each ?a ?b ?c ?d ?e ?g] =>
    pose proof (check_each_probe (render_path (ml ++ ["cgroup.subtree_control"])) a c d e g w (subtree_file ml Hm) (HasSuffix_render ml "cgroup.subtree_control") Hb) as Hc end.
  destruct (check_each _ _ _ _ _ _ _) as [w2 r2]. destruct Hc as (G1 & G2 & G3 & _); [done|]. unfold st_ret in E. injection E as <- <-.
  split; [done|]. intros Hok x Hx. apply G3; [done|]. apply (proj1 (chk_OK_spec r2) Hok). by rewrite G2.
Qed.

End Theorems.

(** ** A concrete host *)

Record CToy := { ct_procs : string → gset Z; ct_sub : string → gset string; ct_files : gmap string string }.
Definition ct_set_procs (p : string → gset Z) (w : CToy) : CToy := {| ct_procs := p; ct_sub := ct_sub w; ct_files := ct_files w |}.
Definition ct_set_sub (p : string → gset string) (w : CToy) : CToy := {| ct_procs := ct_procs w; ct_sub := p; ct_files := ct_files w |}.

#[local] Instance pid_ok_dec p : Decision (pid_ok p).
Proof. unfold pid_ok. apply _. Defined.
#[local] Instance word_dec x : Decision (word x).
Proof. unfold word. apply _. Defined.
Definition ct_pids (w : CToy) (f : string) : gset Z := filter pid_ok (ct_procs w f).
Definition ct_controllers (w : CToy) (f : string) : gset string := filter word (ct_sub w f).
Definition drop_first (s : string) : string := match s with String _ r => r | EmptyString => EmptyString end.
Definition upd {A} (f : string) (x : A) (g : string → A) : string → A := fun f' => if decide (f' = f) then x else g f'.

Definition is_procs (f : string) : bool := HasSuffix f "/cgroup.procs".
Definition is_subtree (f : string) : bool := HasSuffix f "/cgroup.subtree_control".

Definition ct_write (f s : string) : st CToy (option error) := fun w =>
  if is_procs f then
    match scan_d s with
    | Some p => (ct_set_procs (fun f' => if decide (f' = f) then {[p]} ∪ ct_procs w f' else ct_procs w f' ∖ {[p]}) w, None)
    | None => (w, Some (EOpaque "invalid argument"))
    end
  else if is_subtree f then (ct_set_sub (upd f (list_to_set (drop_first <$> Fields s) ∪ ct_sub w f) (ct_sub w)) w, None)
  else (w, Some (EOpaque "permission denied")).

#[local] Instance ct_host : CgroupHost CToy := {|
  Manager := string * string; Metrics := unit;
  cg_VerifyGroupPath := fun g => if HasPrefix g "/" && String.eqb (Clean g) g then None else Some (EOpaque "invalid group path");
  cg_NewCPUMax := fun _ _ => "max 100000";
  cg_NewManager := fun mp g _ => st_ret (Ok (mp, g));
  cg_LoadManager := fun mp g => st_ret (Ok (mp, g));
  mgr_Update := fun _ _ => st_ret None;
  mgr_AddProc := fun _ _ => st_ret None;
  mgr_Enable := fun _ _ => st_ret None;
  mgr_Delete := fun _ => st_ret None;
  mgr_Stat := fun _ => st_ret (Ok ());
  cg_Stat := fun _ => st_ret None;
  cg_Mkdir := fun _ _ => st_ret None;
  cg_ReadFile := fun f w => (w, if is_subtree f then Ok (Join " " (elements (ct_controllers w f)))
                                else match ct_files w !! f with Some d => Ok d | None => Err (EOpaque "no such file") end);
  cg_Open := fun _ => st_ret None;
  cg_Lines := fun f w => (w, (if is_procs f then Itoa <$> elements (ct_pids w f) else split_on (ascii_of_nat 10) (default "" (ct_files w !! f)), None));
  cg_OpenWrite := fun _ => st_ret None;
  cg_Write := ct_write;
  cg_IsNotExist := fun _ => true; cg_IsExist := fun _ => false;
  sys_NotSupported := fun _ => false; sys_Busy := fun _ => false; sys_Denied := fun _ => true;
  KukeonCgroupRoot := "/kukeon"
|}.

Lemma Fields_Join l : Forall word l → Fields (Join " " l) = l.
Proof.
  induction 1 as [|x l [Hb Hne] _ IH]; [done|]. destruct l as [|y l].
  - cbn [Join]. rewrite <-(app_nil_r [x]) at 1. clear IH. change (Fields x = [x]). unfold Fields.
    assert (Hi : ∀ s acc, no_blanks s = true → acc +:+ s ≠ "" → fields_from acc s = [acc +:+ s]).
    { clear. induction s as [|ch s IH]; intros acc Hb Hne.
      - rewrite string_app_nil_r in *. cbn. by rewrite (proj2 (String.eqb_neq acc "")).
      - cbn [no_blanks] in Hb. apply andb_true_iff in Hb as [Hc Hb]. cbn [fields_from]. rewrite (proj1 (negb_true_iff _) Hc).
        assert (Ew : (acc +:+ String ch "") +:+ s = acc +:+ String ch s) by by rewrite string_app_assoc.
        rewrite IH; [by rewrite Ew|done|by rewrite Ew]. }
    by apply (Hi x "").
  - change (Join " " (x :: y :: l)) with (x +:+ " " +:+ Join " " (y :: l)). rewrite Fields_cons by done. by rewrite IH.
Qed.

Lemma scan_line p : pid_ok p → scan_d (Itoa p +:+ newline) = Some p.
Proof.
  intros Hp. destruct (scan_Itoa p Hp) as [Hs _]. destruct (digits_val_Itoa p) as [Hd Hne]; [unfold pid_ok in Hp; lia|].
  destruct (digits_no_space _ _ _ Hd) as [E1 E2]. rewrite E1 in Hs. revert Hs.
  assert (Hi : ∀ s acc z, digits_val acc s = Some z → digits_prefix (s +:+ newline) = s).
  { induction s as [|ch s IH]; intros acc z E; [done|]. cbn [digits_val] in E. change (String ch s +:+ newline) with (String ch (s +:+ newline)).
    cbn [digits_prefix]. destruct (digit_of ch); [|done]. by rewrite (IH _ _ E). }
  destruct (Itoa p) as [|ch s] eqn:Ei; [done|]. change (String ch s +:+ newline) with (String ch (s +:+ newline)). unfold scan_d.
  destruct (Ascii.eqb_spec ch "-"%char) as [->|]; [done|]. destruct (Ascii.eqb_spec ch "+"%char) as [->|]; [done|].
  change (String ch (s +:+ newline)) with (String ch s +:+ newline). by rewrite (Hi _ _ _ Hd), E2.
Qed.

Lemma suffix_disjoint f : is_procs f = true → is_subtree f = false.
Proof.
  unfold is_procs, is_subtree. induction f as [|ch f IH]; [done|]. cbn [HasSuffix]. intros [E|E]%orb_true_iff.
  - apply String.eqb_eq in E. injection E as -> ->. by vm_compute.
  - rewrite (IH E), orb_false_r. apply String.eqb_neq. intros [= -> ->]. by vm_compute in E.
Qed.

#[local] Instance ct_laws : CgroupLaws CToy.
Proof.
  refine {| kernel_procs := ct_pids; kernel_subtree := ct_controllers |}; try done.
  - intros g. cbn. destruct (HasPrefix g "/" && String.eqb (Clean g) g) eqn:E; [|done]. intros _.
    apply andb_true_iff in E as [E1 E2%String.eqb_eq]. done.
  - intros f w Hf _. exists (elements (ct_pids w f)). cbn. unfold is_procs. rewrite Hf. split; [|split; [done|apply list_to_set_elements_L]].
    apply Forall_forall. intros p. rewrite elem_of_elements. unfold ct_pids. set_solver.
  - intros f p w f' Hf Hp _. cbn [cg_Write ct_host]. unfold ct_write, is_procs. rewrite Hf, scan_line by done. cbn. unfold ct_pids. cbn.
    apply set_eq. intros q. case_decide; set_solver.
  - intros f w data Hf. cbn. unfold is_subtree. rewrite Hf. intros [= <-]. rewrite Fields_Join; [apply list_to_set_elements_L|].
    apply Forall_forall. intros x. rewrite elem_of_elements. unfold ct_controllers. set_solver.
  - intros f l w Hf Hl _. cbn [cg_Write ct_host]. unfold ct_write. destruct (is_procs f) eqn:Ep; [by pose proof (suffix_disjoint f Ep); unfold is_subtree in *; congruence|].
    unfold is_subtree. rewrite Hf. cbn [fst]. rewrite Fields_Join.
    + rewrite <-list_fmap_compose. unfold ct_controllers, ct_set_sub, upd. cbn. rewrite decide_True by done. apply set_eq. intros x.
      rewrite Forall_forall in Hl. rewrite elem_of_filter, !elem_of_union, elem_of_filter, !elem_of_list_to_set, list_elem_of_fmap. split.
      * intros [Hw [(y & -> & Hy)|Hx]]; [by left|by right].
      * intros [Hx|[Hw Hx]]; [|by split; [|right]]. split; [by apply Hl|]. left. by exists x.
    + apply Forall_fmap. eapply Forall_impl; [exact Hl|]. intros x [Hb _]. split; [|done]. change (negb (is_space "+") && no_blanks x = true). by rewrite Hb.
  - intros f s w. cbn [cg_Write ct_host]. unfold ct_write. destruct (is_procs f); [by destruct (scan_d s)|]. by destruct (is_subtree f).
Defined.

Definition ct_world : CToy := {|
  ct_procs := upd "/sys/fs/cgroup/cgroup.procs" {[7; 12]}%Z (fun _ => ∅);
  ct_sub := upd "/sys/fs/cgroup/cgroup.subtree_control" {["cpu"]} (fun _ => ∅);
  ct_files := <["/proc/self/cgroup" := "0::/" +:+ newline]>
    (<["/sys/fs/cgroup/cgroup.events" := "populated 1" +:+ newline]>
    (<["/sys/fs/cgroup/cgroup.controllers" := "cpu memory pids" +:+ newline]> ∅)) |}.
Definition ct_client : CgClient CToy := {| cgc_world := ct_world; cgc_managers := ∅; cgc_mountpoint := None |}.
Definition ct_root : list string := ["sys"; "fs"; "cgroup"].
Lemma ct_root_ok : Forall seg_ok ct_root.
Proof. repeat (apply Forall_cons; split; [by split|]). apply Forall_nil. done. Qed.

Lemma relocate_moves_all_witness :
  let c' := (RelocateProcessesToLeaf "/" "/sys/fs/cgroup" "__bootstrap" ct_client).1 in
  kernel_procs (cgc_world c') "/sys/fs/cgroup/cgroup.procs" = ∅ ∧
  12%Z ∈ kernel_procs (cgc_world c') "/sys/fs/cgroup/__bootstrap/cgroup.procs".
Proof.
  cbn zeta. destruct (RelocateProcessesToLeaf "/" "/sys/fs/cgroup" "__bootstrap" ct_client) as [c' r] eqn:E.
  assert (r = Ok ()) as -> by (apply (f_equal snd) in E; vm_compute in E; exact (eq_sym E)).
  destruct (relocate_moves_all ct_root [] "__bootstrap" ct_client c' ct_root_ok (Forall_nil_2 _) E) as [Hf Hm].
  split; [exact Hf|]. cbn [fst]. specialize (Hm "/sys/fs/cgroup/__bootstrap/cgroup.procs").
  rewrite Hm. clear. vm_compute. reflexivity.
Defined.

Lemma drain_gated_witness :
  maybeDrainCgroupNsRoot "/sys/fs/cgroup" ct_client = RelocateProcessesToLeaf "/" "/sys/fs/cgroup" bootstrapLeafName ct_client.
Proof. rewrite (drain_gated "/sys/fs/cgroup" ct_client) by done. reflexivity. Defined.

Lemma delegates_requested_witness :
  let r := EnsureSubtreeControllers "/kukeon" "/sys/fs/cgroup" CellResourceControllers ct_client in
  r.2 = Ok ["cpu"; "memory"; "pids"] ∧
  "pids" ∈ kernel_subtree (cgc_world r.1) "/sys/fs/cgroup/kukeon/cgroup.subtree_control".
Proof.
  cbn zeta. destruct (EnsureSubtreeControllers _ _ _ _) as [c' r] eqn:E. cbn [fst snd].
  assert (r = Ok ["cpu"; "memory"; "pids"]) as -> by (apply (f_equal snd) in E; vm_compute in E; exact (eq_sym E)).
  split; [reflexivity|].
  assert (Hk : Forall seg_ok ["kukeon"]) by (apply Forall_singleton; by split).
  destruct (delegates_requested ct_root ["kukeon"] CellResourceControllers ct_client c' _ ct_root_ok Hk E) as (_ & _ & Hs).
  apply Hs. right. right. left.
Defined.

Lemma accepted_group_contained_witness : ∃ gl, Forall seg_ok gl ∧ "/kukeon/r" = render_path gl ∧ "/sys/fs/cgroup/kukeon/r" = render_path (ct_root ++ gl).
Proof.
  assert (E : CgroupPath "/kukeon/r" "/sys/fs/cgroup" ct_client = (ct_client, Ok "/sys/fs/cgroup/kukeon/r")) by reflexivity.
  exact (proj2 (accepted_group_contained ct_root "/kukeon/r" ct_client ct_client _ ct_root_ok E)).
Defined.

Lemma check_readonly_exact_witness :
  match Check_cgroups "/sys/fs/cgroup" ["cpu"; "io"; "pids"] None ct_world with
  | (_, Ok r) => status_of r "pids" = StatusNeedsDelegation ∧ chk_OK r = false
  | _ => False
  end.
Proof.
  destruct (Check_cgroups _ _ _ _) as [w' [r|e]] eqn:E; [|apply (f_equal snd) in E; vm_compute in E; discriminate E].
  destruct (check_readonly_exact ct_root ["cpu"; "io"; "pids"] ct_world w' r ct_root_ok E) as (_ & _ & (data & Ed & Hs) & Hok). split.
  - rewrite Hs by (right; right; left). vm_compute in Ed. injection Ed as <-. vm_compute. reflexivity.
  - apply not_true_is_false. intros Hk. apply (proj1 Hok) with (x := "io") in Hk; [|right; left]. vm_compute in Hk. discriminate Hk.
Defined.

Lemma check_probe_sound_witness :
  match Check_cgroups "/sys/fs/cgroup" ["cpu"; "pids"] (Some DefaultProber) ct_world with
  | (w', Ok r) => chk_OK r = true ∧ "pids" ∈ kernel_subtree w' "/sys/fs/cgroup/cgroup.subtree_control"
  | _ => False
  end.
Proof.
  destruct (Check_cgroups _ _ _ _) as [w' [r|e]] eqn:E; [|apply (f_equal snd) in E; vm_compute in E; discriminate E].
  assert (Hw : Forall word ["cpu"; "pids"]) by (repeat (apply Forall_cons; split; [by split|]); apply Forall_nil; done).
  destruct (check_probe_sound ct_root ["cpu"; "pids"] ct_world w' r ct_root_ok Hw E) as [_ Hs].
  assert (Ho : chk_OK r = true).
  { apply (f_equal snd) in E. vm_compute in E. injection E as <-. vm_compute. reflexivity. }
  split; [exact Ho|]. apply (Hs Ho). right. left.
Defined.
