(* ===== verification/Scopes.v ===== *)
(** * Scopes: provisioning realms, spaces, stacks and the cgroups of cells
    (runner/provision.go up to the containers of a cell, create_realm.go, create_space.go,
    create_stack.go, update_realm.go, update_space.go, update_stack.go, labels.go; the
    existence checks of exists.go)

    A scope is a metadata file, a cgroup and, for a realm, a containerd namespace, for a
    space, a network.  Creating one provisions them in that order; creating one that exists
    ensures them.  The cgroups are the interface [CgroupClient], which [Cgroups] implements;
    the metadata writers ([Store]), the subnet allocator ([Subnet]) and the egress policy
    ([NetPolicy]) are the interface [ScopeStore]. *)

From Stdlib Require Import Ascii ZArith Lia.
From stdpp Require Import base gmap strings list.
From S2P Require Import Namespaces Prelude Model External Scheme Naming CellState Layout Observe NetPolicy OutOfSync OciSpec Cgroups Cni Teardown Attachable.

Local Open Scope nat_scope.

(** The cgroup operations of the containerd client; a new cgroup comes with a manager that
    is not nil. *)
Class CgroupClient (W : Type) := {
  cgp_NewCgroup : CgroupSpec → st W (result bool);
  cgp_LoadCgroup : string → string → st W (result unit);
  cgp_GetCgroupMountpoint : st W string;
  cgp_GetCurrentCgroupPath : st W (result string);
  cgp_CgroupPath : string → string → st W (result string);
  cgp_EnsureSubtreeControllers : string → string → list string → st W (result (list string));
  cgp_EnableCellSubtreeControllers : string → string → list string → st W (result (list string));
  cgp_EnableCellAllSubtreeControllers : string → string → st W (result (list string));
  cgp_DeleteCgroup : string → string → st W (option error)
}.

Definition st_error {S A} (m : st S (result A)) : st S (option error) :=
  let! r := m in st_ret (match r with Ok _ => None | Err e => Some e end).

(** The client of [Cgroups] has them. *)
#[export] Instance client_CgroupClient {W} `{CgroupHost W} : CgroupClient (CgClient W) := {|
  cgp_NewCgroup := fun spec => let!? _ := NewCgroup spec in st_ret (Ok true);
  cgp_LoadCgroup := fun g m => let!? _ := LoadCgroup g m in st_ret (Ok ());
  cgp_GetCgroupMountpoint := GetCgroupMountpoint;
  cgp_GetCurrentCgroupPath := GetCurrentCgroupPath;
  cgp_CgroupPath := CgroupPath;
  cgp_EnsureSubtreeControllers := EnsureSubtreeControllers;
  cgp_EnableCellSubtreeControllers := EnableCellSubtreeControllers;
  cgp_EnableCellAllSubtreeControllers := EnableCellAllSubtreeControllers;
  cgp_DeleteCgroup := fun g m => st_error (DeleteCgroup g m)
|}.

Class ScopeStore (W : Type) := {
  scp_GetStack : Stack → st W (result Stack);
  scp_UpdateRealmMetadata : Realm → st W (option error);
  scp_UpdateSpaceMetadata : Space → st W (option error);
  scp_UpdateStackMetadata : Stack → st W (option error);
  (** metadata.WriteMetadata: no generation check *)
  scp_WriteSpaceDoc : ext.SpaceDoc → string → st W (option error);
  scp_stampSpaceLifecycle : Time → Space → Space;
  scp_LoadAssigned : string → string → st W (result string);
  scp_Allocate : string → string → st W (result string);
  scp_Release : string → string → st W (option error);
  scp_applySpaceEgressPolicy : Space → st W (option error);
  scp_removeSpaceEgressPolicy : Space → st W (option error);
  scp_reclaimScopeMetadata : string → st W (option error);
  (** opts.ContainerdSocket *)
  scp_ContainerdSocket : string
}.

(** ** Field assignments *)

Definition realm_set_Namespace (ns : string) (r : Realm) : Realm :=
  {| realm_Metadata := realm_Metadata r;
     realm_Spec := {| rsp_Namespace := ns; rsp_RegistryCredentials := rsp_RegistryCredentials (realm_Spec r) |};
     realm_Status := realm_Status r |}.
Definition rst_with (state : RealmState) (path : string) (ctl : list string) (s : RealmStatus) : RealmStatus :=
  let 'Build_RealmStatus _ _ _ a b c d e f g h := s in Build_RealmStatus state path ctl a b c d e f g h.
Definition realm_upd_status (f : RealmStatus → RealmStatus) (r : Realm) : Realm :=
  {| realm_Metadata := realm_Metadata r; realm_Spec := realm_Spec r; realm_Status := f (realm_Status r) |}.
Definition realm_set_State (v : RealmState) : Realm → Realm :=
  realm_upd_status (fun s => rst_with v (rst_CgroupPath s) (rst_SubtreeControllers s) s).
Definition realm_set_CgroupPath (p : string) : Realm → Realm :=
  realm_upd_status (fun s => rst_with (rst_State s) p (rst_SubtreeControllers s) s).
Definition realm_set_Controllers (l : list string) : Realm → Realm :=
  realm_upd_status (fun s => rst_with (rst_State s) (rst_CgroupPath s) l s).

Definition sst_with {S} (state : S) (path : string) (ctl : list string) (s : ScopeStatus S) : ScopeStatus S :=
  let 'Build_ScopeStatus _ _ _ a b c d e f g := s in Build_ScopeStatus state path ctl a b c d e f g.
Definition sst_set_State {S} (v : S) (s : ScopeStatus S) := sst_with v (sst_CgroupPath s) (sst_SubtreeControllers s) s.
Definition sst_set_CgroupPath {S} (p : string) (s : ScopeStatus S) := sst_with (sst_State s) p (sst_SubtreeControllers s) s.
Definition sst_set_Controllers {S} (l : list string) (s : ScopeStatus S) := sst_with (sst_State s) (sst_CgroupPath s) l s.

Definition space_upd_status (f : ScopeStatus SpaceState → ScopeStatus SpaceState) (x : Space) : Space :=
  {| space_Metadata := space_Metadata x; space_Spec := space_Spec x; space_Status := f (space_Status x) |}.
Definition space_upd_spec (f : SpaceSpec → SpaceSpec) (x : Space) : Space :=
  {| space_Metadata := space_Metadata x; space_Spec := f (space_Spec x); space_Status := space_Status x |}.
Definition space_set_CNIConfigPath (p : string) : Space → Space :=
  space_upd_spec (fun s => {| spsp_RealmName := spsp_RealmName s; spsp_CNIConfigPath := p; spsp_Network := spsp_Network s; spsp_Defaults := spsp_Defaults s |}).
Definition stack_upd_status (f : ScopeStatus StackState → ScopeStatus StackState) (x : Stack) : Stack :=
  {| stack_Metadata := stack_Metadata x; stack_Spec := stack_Spec x; stack_Status := f (stack_Status x) |}.
Definition scope_rename (name : string) (m : ScopeMetadata) : ScopeMetadata :=
  {| sm_Name := name; sm_Labels := sm_Labels m; sm_Generation := sm_Generation m |}.
Definition scope_relabel (labels : gmap string string) (m : ScopeMetadata) : ScopeMetadata :=
  {| sm_Name := sm_Name m; sm_Labels := labels; sm_Generation := sm_Generation m |}.

Definition set_CellCgroup (p : string) (s : CellStatus) : CellStatus :=
  let 'Build_CellStatus z _ b c d e f g h i j k l m n o := s in Build_CellStatus z p b c d e f g h i j k l m n o.
Definition set_CellControllers (l : list string) (s : CellStatus) : CellStatus :=
  let 'Build_CellStatus z a _ c d e f g h i j k m n o p := s in Build_CellStatus z a l c d e f g h i j k m n o p.
Definition set_CellBridge (b : string) (s : CellStatus) : CellStatus :=
  let 'Build_CellStatus z a c _ d e f g h i j k l m n o := s in Build_CellStatus z a c b d e f g h i j k l m n o.

(** ** Labels (labels.go) *)

Definition managedLabelSuffix : string := ".kukeon.io".
Definition mergeManagedLabels (existing desired : gmap string string) : gmap string string :=
  desired ∪ filter (fun kv => HasSuffix kv.1 managedLabelSuffix = true) existing.

Fixpoint equalStringSlices (a b : list string) : bool :=
  match a, b with
  | [], [] => true
  | x :: a', y :: b' => String.eqb x y && equalStringSlices a' b'
  | _, _ => false
  end.

Definition cellSpaceBridgeName (cell : Cell) : result string :=
  let? networkName := BuildSpaceNetworkName (csp_RealmName (cell_Spec cell)) (csp_SpaceName (cell_Spec cell)) in
  Ok (SafeBridgeName networkName).

Section Scopes.
Context {W : Type} `{CgroupClient W} `{ScopeStore W} `{RunnerStore W} `{CniHost W} `{NamespaceServices W} `{HostConfig} `{RunnerOpts} (cniConf : Conf).

Definition connected : st W (result unit) := st_check (wrapd ErrConnectContainerd) sto_ensureClientConnected.

(** ** Cgroups *)

Definition EnsureKukeonRootCgroup (root : string) : st W (result (bool * bool)) :=
  let!? _ := connected in
  let! mountpoint := cgp_GetCgroupMountpoint in
  let! loaded := cgp_LoadCgroup root mountpoint in
  match loaded with
  | Ok _ => st_ret (Ok (true, false))
  | Err _ =>
      let!? _ := st_wrap (wrapd ErrCreateRealmCgroup)
                   (cgp_NewCgroup {| cs_Group := root; cs_Mountpoint := mountpoint; cs_Resources := no_resources |}) in
      st_ret (Ok (false, true))
  end.

(** The group below the current one, and its path on the file system. *)
Definition combine (current group : string) : string :=
  let combined := FJoin [current; trim_slash group] in
  if HasPrefix combined "/" then combined else "/" +:+ combined.
Definition buildCgroupPath (spec : CgroupSpec) : st W (result (CgroupSpec * string)) :=
  let! mountpoint := cgp_GetCgroupMountpoint in
  let!? current := st_wrap (wrapf "failed to get current cgroup path: %w") cgp_GetCurrentCgroupPath in
  let combinedPath := combine current (cs_Group spec) in
  st_ret (Ok ({| cs_Group := combinedPath; cs_Mountpoint := mountpoint; cs_Resources := cs_Resources spec |},
              FJoin [mountpoint; trim_slash combinedPath])).

Definition createCgroupInternal (spec : CgroupSpec) : st W (result string) :=
  let!? _ := connected in
  let!? _ := cgp_NewCgroup spec in
  st_ret (Ok (cs_Group spec)).

(** [cgroupPath] is the path the document has; the result is the one it ends with. *)
Definition ensureCgroupInternal (spec0 : CgroupSpec) (cgroupPath : string) (createErr updateErr : errdef)
    (updateMetadata : string → st W (option error)) : st W (result string) :=
  let!? built := buildCgroupPath spec0 in
  let '(spec, fullCgroupPath) := built in
  let! loaded := cgp_LoadCgroup (cs_Group spec) (cs_Mountpoint spec) in
  match loaded with
  | Err _ =>
      let!? manager := st_wrap (wrapd createErr) (cgp_NewCgroup spec) in
      let!? _ := st_guard manager (EWrap "%w: NewCgroup returned nil manager" [ESentinel createErr]) in
      let! path := cgp_CgroupPath (cs_Group spec) (cs_Mountpoint spec) in
      let! _ := (match path with Err _ => st_ret None | Ok p => os_Stat p end) in
      let!? _ := st_check (wrapd updateErr) (updateMetadata (cs_Group spec)) in
      st_ret (Ok (cs_Group spec))
  | Ok _ =>
      if String.eqb cgroupPath "" then
        let!? _ := st_check (wrapd updateErr) (updateMetadata (cs_Group spec)) in
        st_ret (Ok (cs_Group spec))
      else st_ret (Ok cgroupPath)
  end.

Definition enableAncestorSubtreeControllers (group mountpoint : string) : st W (result (list string)) :=
  cgp_EnsureSubtreeControllers group mountpoint CellResourceControllers.
Definition enableCellControllers (cell : Cell) (group mountpoint : string) : st W (result (list string)) :=
  if csp_NestedCgroupRuntime (cell_Spec cell) then cgp_EnableCellAllSubtreeControllers group mountpoint
  else cgp_EnableCellSubtreeControllers group mountpoint CellResourceControllers.

(** What creating the cgroup of a level shares: the group, then its controllers. *)
Definition createLevelCgroup (spec0 : CgroupSpec) (createErr : errdef) (enable : string → string → st W (result (list string)))
    : st W (result (string * list string)) :=
  let!? _ := connected in
  let!? built := buildCgroupPath spec0 in
  let spec := built.1 in
  let!? cgroupPath := st_wrap (wrapd createErr) (createCgroupInternal spec) in
  let!? subtreeControllers := st_wrap (wrapd createErr) (enable (cs_Group spec) (cs_Mountpoint spec)) in
  st_ret (Ok (cgroupPath, subtreeControllers)).

(** What ensuring the cgroup of a level shares, once the document's path is known. *)
Definition ensureLevelCgroup {X} (spec : CgroupSpec) (docPath : string) (createErr updateErr persistErr : errdef)
    (setPath : string → X → X) (controllers : X → list string) (setControllers : list string → X → X)
    (update : X → st W (option error)) (enable : string → string → st W (result (list string))) (x : X) : st W (result X) :=
  let!? path := ensureCgroupInternal spec docPath createErr updateErr (fun p => update (setPath p x)) in
  let x := setPath path x in
  if String.eqb path "" then st_ret (Ok x)
  else
    let!? _ := st_check (wrapd persistErr) (update x) in
    let! mountpoint := cgp_GetCgroupMountpoint in
    let! enabled := enable path mountpoint in
    match enabled with
    | Err _ => st_ret (Ok x)
    | Ok l =>
        if equalStringSlices (controllers x) l then st_ret (Ok x)
        else
          let x := setControllers l x in
          let!? _ := st_check (wrapd persistErr) (update x) in
          st_ret (Ok x)
    end.

(** ** Realms *)

Definition createRealmContainerdNamespace (realm : Realm) : st W (option error) :=
  st_error (let!? _ := connected in
            let!? exists_ := st_wrap (wrapd ErrCheckNamespaceExists) (ExistsNamespace (rsp_Namespace (realm_Spec realm))) in
            if exists_ then st_ret (Err (ESentinel ErrNamespaceAlreadyExists))
            else st_check (wrapd ErrCreateNamespace) (CreateNamespace (rsp_Namespace (realm_Spec realm)))).

Definition ensureRealmContainerdNamespace (realm : Realm) : st W (result Realm) :=
  let!? _ := connected in
  let!? exists_ := st_wrap (wrapd ErrCheckNamespaceExists) (ExistsNamespace (rsp_Namespace (realm_Spec realm))) in
  let!? _ := (if exists_ then st_ret (Ok ()) else st_check (wrapd ErrCreateNamespace) (CreateNamespace (rsp_Namespace (realm_Spec realm)))) in
  st_ret (Ok realm).

Definition createRealmCgroup (realm : Realm) : st W (result (string * list string)) :=
  createLevelCgroup (DefaultRealmSpec realm) ErrCreateRealmCgroup enableAncestorSubtreeControllers.

Definition ensureRealmCgroup (realm : Realm) : st W (result Realm) :=
  let!? _ := connected in
  let!? doc := st_wrap (wrapd ErrConversionFailed) (st_ret (BuildRealmExternalFromInternal realm VersionV1Beta1)) in
  ensureLevelCgroup (DefaultRealmSpec realm) (ext.rst_CgroupPath (ext.realm_Status doc)) ErrCreateRealmCgroup ErrUpdateRealmMetadata
    ErrUpdateRealmMetadata realm_set_CgroupPath (fun r => rst_SubtreeControllers (realm_Status r)) realm_set_Controllers
    scp_UpdateRealmMetadata enableAncestorSubtreeControllers realm.

(** Past the first write a failure leaves the realm marked Failed, as far as it can be saved. *)
Definition failRealm {A} (realm : Realm) (e : error) : st W (result A) :=
  let! _ := scp_UpdateRealmMetadata (realm_set_State RealmStateFailed realm) in
  st_ret (Err e).

Definition defaultNamespace (realm : Realm) : Realm :=
  if String.eqb (TrimSpace (rsp_Namespace (realm_Spec realm))) ""
  then realm_set_Namespace (RealmNamespace (TrimSpace (sm_Name (realm_Metadata realm)))) realm else realm.
(** A namespace that is already there is no failure. *)
Definition fatal_namespace (e : option error) : option error :=
  match e with Some x => if error_is ErrNamespaceAlreadyExists x then None else Some x | None => None end.
Definition ready_realm (cg : string * list string) (realm : Realm) : Realm :=
  realm_upd_status (rst_with RealmStateReady cg.1 cg.2) realm.

Definition provisionNewRealm (realm : Realm) : st W (result Realm) :=
  let realm := defaultNamespace realm in
  let!? _ := st_check (wrapd ErrUpdateRealmMetadata) (scp_UpdateRealmMetadata realm) in
  let! nsErr := createRealmContainerdNamespace realm in
  match fatal_namespace nsErr with
  | Some e => failRealm realm (wrapd ErrCreateRealmNamespace e)
  | None =>
      let! cg := createRealmCgroup realm in
      match cg with
      | Err e => failRealm realm e
      | Ok cg =>
          let realm := ready_realm cg realm in
          let!? _ := st_check (wrapd ErrUpdateRealmMetadata) (scp_UpdateRealmMetadata realm) in
          st_ret (Ok realm)
      end
  end.

Definition ExistsRealmContainerdNamespace (namespace : string) : st W (result bool) :=
  let! e := os_Stat scp_ContainerdSocket in
  if match e with Some x => os_NotExist x | None => false end then st_ret (Ok false)
  else
    let!? _ := connected in
    ExistsNamespace namespace.

Definition ListContainerdNamespaces : st W (result (list string)) :=
  let! e := os_Stat scp_ContainerdSocket in
  if match e with Some x => os_NotExist x | None => false end then st_ret (Ok [])
  else
    let!? _ := connected in
    ListNamespaces.

(** The scopes ExistsCgroup takes *)
Inductive ScopeDoc := DocRealm (r : Realm) | DocSpace (s : Space) | DocStack (t : Stack) | DocCell (c : Cell).

Definition scopeSpec (d : ScopeDoc) : result CgroupSpec :=
  match d with
  | DocRealm r => if String.eqb (sm_Name (realm_Metadata r)) "" then Err (ESentinel ErrRealmNotFound) else Ok (DefaultRealmSpec r)
  | DocSpace s =>
      if String.eqb (sm_Name (space_Metadata s)) "" then Err (ESentinel ErrSpaceNotFound)
      else if String.eqb (spsp_RealmName (space_Spec s)) "" then Err (ESentinel ErrRealmNameRequired) else Ok (DefaultSpaceSpec s)
  | DocStack t => if String.eqb (sm_Name (stack_Metadata t)) "" then Err (ESentinel ErrStackNotFound) else Ok (DefaultStackSpec t)
  | DocCell c => if String.eqb (cm_Name (cell_Metadata c)) "" then Err (ESentinel ErrCellNotFound) else Ok (DefaultCellSpec c)
  end.
Definition ExistsCgroup (d : ScopeDoc) : st W (result bool) :=
  let!? _ := connected in
  let!? spec := st_ret (scopeSpec d) in
  let!? built := st_wrap (wrapf "failed to build cgroup path: %w") (buildCgroupPath spec) in
  let! loaded := cgp_LoadCgroup (cs_Group built.1) (cs_Mountpoint built.1) in
  st_ret (match loaded with
          | Ok _ => Ok true
          | Err e => if String.eqb (err_Text e) "cgroup path does not exist" then Ok false
                     else Err (EWrap "failed to check if cgroup exists: %w" [e])
          end).

(** A realm left in Creating is Ready once both of its parts are there. *)
Definition EnsureRealm (realm : Realm) : st W (result Realm) :=
  let!? realm := ensureRealmContainerdNamespace realm in
  let!? realm := ensureRealmCgroup realm in
  match rst_State (realm_Status realm) with
  | RealmStateCreating =>
      let!? namespaceExists := st_wrap (wrapf "failed to check namespace existence: %w") (ExistsRealmContainerdNamespace (rsp_Namespace (realm_Spec realm))) in
      let!? cgroupExists := st_wrap (wrapf "failed to check cgroup existence: %w") (ExistsCgroup (DocRealm realm)) in
      if namespaceExists && cgroupExists then
        let realm := realm_set_State RealmStateReady realm in
        let!? _ := st_check (wrapd ErrUpdateRealmMetadata) (scp_UpdateRealmMetadata realm) in
        st_ret (Ok realm)
      else st_ret (Ok realm)
  | _ => st_ret (Ok realm)
  end.

Definition CreateRealm (realm : Realm) : st W (result Realm) :=
  let!? _ := st_ret (match ValidateRealmName (sm_Name (realm_Metadata realm)) with Some e => Err e | None => Ok () end) in
  let! existing := sto_GetRealm realm in
  match existing with
  | Ok x => EnsureRealm x
  | Err e => if error_is ErrRealmNotFound e then provisionNewRealm (realm_set_State RealmStateCreating realm)
             else st_ret (Err (wrapd ErrGetRealm e))
  end.

Definition UpdateRealm (desired : Realm) : st W (result Realm) :=
  let!? existing := st_wrap (wrapd ErrGetRealm) (sto_GetRealm desired) in
  let existing := {| realm_Metadata := scope_relabel (mergeManagedLabels (sm_Labels (realm_Metadata existing)) (sm_Labels (realm_Metadata desired))) (realm_Metadata existing);
                     realm_Spec := {| rsp_Namespace := rsp_Namespace (realm_Spec existing); rsp_RegistryCredentials := rsp_RegistryCredentials (realm_Spec desired) |};
                     realm_Status := realm_Status existing |} in
  let!? _ := st_check (wrapd ErrUpdateRealmMetadata) (scp_UpdateRealmMetadata existing) in
  st_ret (Ok existing).

(** ** Spaces *)

Definition createSpaceCgroup (space : Space) : st W (result (string * list string)) :=
  let!? _ := st_guard (negb (String.eqb (spsp_RealmName (space_Spec space)) "")) (ESentinel ErrRealmNameRequired) in
  let!? _ := sto_GetRealm (realm_named (spsp_RealmName (space_Spec space))) in
  createLevelCgroup (DefaultSpaceSpec space) ErrCreateSpaceCgroup enableAncestorSubtreeControllers.

Definition ensureSpaceCgroup (space : Space) : st W (result Space) :=
  let!? _ := st_guard (negb (String.eqb (spsp_RealmName (space_Spec space)) "")) (ESentinel ErrRealmNameRequired) in
  let!? _ := connected in
  let!? doc := st_wrap (wrapd ErrConversionFailed) (st_ret (BuildSpaceExternalFromInternal space VersionV1Beta1)) in
  ensureLevelCgroup (DefaultSpaceSpec space) (ext.sst_CgroupPath (ext.space_Status doc)) ErrCreateSpaceCgroup ErrUpdateSpaceMetadata
    ErrUpdateSpaceMetadata (fun p => space_upd_status (sst_set_CgroupPath p)) (fun s => sst_SubtreeControllers (space_Status s))
    (fun l => space_upd_status (sst_set_Controllers l)) scp_UpdateSpaceMetadata enableAncestorSubtreeControllers space.

(** The network's name, the path of its conflist and whether it is there. *)
Definition networkOf (space : Space) : result (string * string) :=
  let named {A} (r : result A) := match r with Ok a => Ok a | Err e => Err (wrapd ErrCheckNetworkExists e) end in
  let? networkName := named (BuildSpaceNetworkName (spsp_RealmName (space_Spec space)) (sm_Name (space_Metadata space))) in
  let? confPath := named (SpaceNetworkConfigPath RunPath (spsp_RealmName (space_Spec space)) (sm_Name (space_Metadata space))) in
  Ok (networkName, confPath).
Definition networkExists (networkName confPath : string) : st W (result bool) :=
  let! found := ExistsNetworkConfig (managerOf cniConf) networkName confPath in
  let '(exists_, _, err) := found in
  st_ret (match err with
          | Some e => if error_is ErrNetworkNotFound e then Ok exists_ else Err (wrapd ErrCheckNetworkExists e)
          | None => Ok exists_
          end).

Definition createSpaceCNIConfig (space : Space) : st W (result string) :=
  let!? net := st_ret (networkOf space) in
  let '(networkName, confPath) := net in
  let!? exists_ := networkExists networkName confPath in
  let!? _ := st_guard (negb exists_) (ESentinel ErrNetworkAlreadyExists) in
  let!? subnet := st_wrap (wrapd ErrCreateNetwork) (scp_Allocate (spsp_RealmName (space_Spec space)) (sm_Name (space_Metadata space))) in
  let!? _ := st_check (wrapd ErrCreateNetwork) (WriteSpaceNetworkConfig confPath networkName subnet) in
  st_ret (Ok confPath).

Definition subnetForRegenerate (space : Space) (confPath : string) (conflistExists : bool) : st W (result string) :=
  let realm := spsp_RealmName (space_Spec space) in
  let name := sm_Name (space_Metadata space) in
  let!? persisted := scp_LoadAssigned realm name in
  if negb (String.eqb persisted "") then st_ret (Ok persisted)
  else if conflistExists then
    let! legacy := ReadSubnetCIDR confPath in
    match legacy with
    | Ok l => if negb (String.eqb l "") then st_ret (Ok l) else scp_Allocate realm name
    | Err _ => scp_Allocate realm name
    end
  else scp_Allocate realm name.

Definition shouldRegenerateSpaceCNI (networkName confPath : string) (exists_ : bool) : st W (result bool) :=
  if negb exists_ then st_ret (Ok true)
  else if opt_ForceRegenerateCNI then st_ret (Ok true)
  else
    let! read := ReadBridgeName confPath in
    st_ret (match read with
            | Ok onDiskBridge => Ok (negb (String.eqb onDiskBridge (SafeBridgeName networkName)))
            | Err e => if error_is ErrBridgePluginMissing e then Ok true
                       else if error_is ErrNetworkNotFound e then Ok true
                       else Err (wrapd ErrCheckNetworkExists e)
            end).

(** The document's path of the conflist, written past the generation check. *)
Definition persistCNIConfigPath (space : Space) (confPath : string) : st W (result unit) :=
  let!? doc := st_wrap (wrapd ErrConversionFailed) (st_ret (BuildSpaceExternalFromInternal space VersionV1Beta1)) in
  if String.eqb (ext.spsp_CNIConfigPath (ext.space_Spec doc)) confPath then st_ret (Ok ())
  else
    let!? updated := st_wrap (wrapd ErrConversionFailed) (st_ret (ConvertSpaceDocToInternal doc)) in
    let updated := space_upd_status (sst_set_CgroupPath (sst_CgroupPath (space_Status space))) (space_set_CNIConfigPath confPath updated) in
    let! now := sto_nowUTC in
    let updated := scp_stampSpaceLifecycle now updated in
    let!? forSave := st_wrap (wrapd ErrConversionFailed) (st_ret (BuildSpaceExternalFromInternal updated VersionV1Beta1)) in
    st_check (wrapd ErrUpdateSpaceMetadata)
      (scp_WriteSpaceDoc forSave (SpaceMetadataPath RunPath (ext.spsp_RealmID (ext.space_Spec forSave)) (ext.sm_Name (ext.space_Metadata forSave)))).

Definition ensureSpaceCNIConfig (space : Space) : st W (result Space) :=
  let!? _ := st_wrap (wrapd ErrConversionFailed) (st_ret (BuildSpaceExternalFromInternal space VersionV1Beta1)) in
  let!? net := st_ret (networkOf space) in
  let '(networkName, confPath) := net in
  let!? exists_ := networkExists networkName confPath in
  let!? regenerate := shouldRegenerateSpaceCNI networkName confPath exists_ in
  let!? _ := (if regenerate then
                let!? subnet := st_wrap (wrapd ErrCreateNetwork) (subnetForRegenerate space confPath exists_) in
                st_check (wrapd ErrCreateNetwork) (WriteSpaceNetworkConfig confPath networkName subnet)
              else st_ret (Ok ())) in
  let!? _ := persistCNIConfigPath space confPath in
  let!? _ := st_check id (scp_applySpaceEgressPolicy space) in
  st_ret (Ok space).

Definition provisionNewSpace (space : Space) : st W (result Space) :=
  let!? _ := st_check (wrapd ErrUpdateSpaceMetadata) (scp_UpdateSpaceMetadata space) in
  let!? cniConfigPath := createSpaceCNIConfig space in
  let space := space_set_CNIConfigPath cniConfigPath space in
  let!? cg := createSpaceCgroup space in
  let space := space_upd_status (fun s => sst_with SpaceStateReady cg.1 cg.2 s) space in
  let!? _ := st_check id (scp_applySpaceEgressPolicy space) in
  let!? _ := st_check (wrapd ErrUpdateSpaceMetadata) (scp_UpdateSpaceMetadata space) in
  st_ret (Ok space).

Definition EnsureSpace (space : Space) : st W (result Space) :=
  let!? space := ensureSpaceCNIConfig space in
  ensureSpaceCgroup space.

Definition CreateSpace (space : Space) : st W (result Space) :=
  let!? _ := connected in
  let name := TrimSpace (sm_Name (space_Metadata space)) in
  let!? _ := st_ret (match ValidateHierarchyName "space" name with Some e => Err e | None => Ok () end) in
  let space := {| space_Metadata := scope_rename name (space_Metadata space); space_Spec := space_Spec space; space_Status := space_Status space |} in
  let! existing := sto_GetSpace space in
  match existing with
  | Err e =>
      if negb (error_is ErrSpaceNotFound e) then st_ret (Err (wrapd ErrGetSpace e))
      else
        let!? _ := st_guard (negb (String.eqb (spsp_RealmName (space_Spec space)) "")) (ESentinel ErrRealmNameRequired) in
        provisionNewSpace (space_upd_status (sst_set_State SpaceStateCreating) space)
  | Ok x =>
      let realmName := if String.eqb (spsp_RealmName (space_Spec x)) "" then spsp_RealmName (space_Spec space) else spsp_RealmName (space_Spec x) in
      let!? _ := st_guard (negb (String.eqb realmName "")) (ESentinel ErrRealmNameRequired) in
      EnsureSpace x
  end.

Definition UpdateSpace (desired : Space) : st W (result Space) :=
  let!? existing := st_wrap (wrapd ErrGetSpace) (sto_GetSpace desired) in
  let s := space_Spec existing in
  let existing := {| space_Metadata := scope_relabel (mergeManagedLabels (sm_Labels (space_Metadata existing)) (sm_Labels (space_Metadata desired))) (space_Metadata existing);
                     space_Spec := {| spsp_RealmName := spsp_RealmName s; spsp_CNIConfigPath := spsp_CNIConfigPath s; spsp_Network := spsp_Network s;
                                      spsp_Defaults := spsp_Defaults (space_Spec desired) |};
                     space_Status := space_Status existing |} in
  let!? _ := st_check (wrapd ErrUpdateSpaceMetadata) (scp_UpdateSpaceMetadata existing) in
  st_ret (Ok existing).

Definition ExistsSpaceCNIConfig (space : Space) : st W (result bool) :=
  let spaceName := TrimSpace (sm_Name (space_Metadata space)) in
  let realmName := TrimSpace (spsp_RealmName (space_Spec space)) in
  let!? _ := st_guard (negb (String.eqb spaceName "")) (ESentinel ErrSpaceNameRequired) in
  let!? _ := st_guard (negb (String.eqb realmName "")) (ESentinel ErrRealmNameRequired) in
  let!? confPath := st_wrap (wrapd ErrCheckNetworkExists) (st_ret (SpaceNetworkConfigPath RunPath realmName spaceName)) in
  let!? networkName := st_wrap (wrapd ErrCheckNetworkExists) (st_ret (BuildSpaceNetworkName realmName spaceName)) in
  networkExists networkName confPath.

(** ** Stacks *)

Definition createStackCgroup (stack : Stack) : st W (result (string * list string)) :=
  let!? _ := st_guard (negb (String.eqb (stsp_RealmName (stack_Spec stack)) "")) (ESentinel ErrRealmNameRequired) in
  let!? _ := st_guard (negb (String.eqb (stsp_SpaceName (stack_Spec stack)) "")) (ESentinel ErrSpaceNameRequired) in
  createLevelCgroup (DefaultStackSpec stack) ErrCreateStackCgroup enableAncestorSubtreeControllers.

Definition ensureStackCgroup (stack : Stack) : st W (result Stack) :=
  let!? _ := st_guard (negb (String.eqb (TrimSpace (stsp_RealmName (stack_Spec stack))) "")) (ESentinel ErrRealmNameRequired) in
  let!? _ := st_guard (negb (String.eqb (TrimSpace (stsp_SpaceName (stack_Spec stack))) "")) (ESentinel ErrSpaceNameRequired) in
  let!? doc := st_wrap (wrapd ErrConversionFailed) (st_ret (BuildStackExternalFromInternal stack VersionV1Beta1)) in
  let!? _ := connected in
  ensureLevelCgroup (DefaultStackSpec stack) (ext.sst_CgroupPath (ext.stack_Status doc)) ErrCreateStackCgroup ErrUpdateStackMetadata
    ErrUpdateStackMetadata (fun p => stack_upd_status (sst_set_CgroupPath p)) (fun s => sst_SubtreeControllers (stack_Status s))
    (fun l => stack_upd_status (sst_set_Controllers l)) scp_UpdateStackMetadata enableAncestorSubtreeControllers stack.

Definition provisionNewStack (stack : Stack) : st W (result Stack) :=
  let!? _ := st_check (wrapd ErrUpdateStackMetadata) (scp_UpdateStackMetadata stack) in
  let!? cg := createStackCgroup stack in
  let stack := stack_upd_status (fun s => sst_with StackStateReady cg.1 cg.2 s) stack in
  let!? _ := st_check (wrapd ErrUpdateStackMetadata) (scp_UpdateStackMetadata stack) in
  st_ret (Ok stack).

Definition EnsureStack (stack : Stack) : st W (result Stack) := ensureStackCgroup stack.

Definition CreateStack (stack : Stack) : st W (result Stack) :=
  let!? _ := connected in
  let name := TrimSpace (sm_Name (stack_Metadata stack)) in
  let!? _ := st_ret (match ValidateHierarchyName "stack" name with Some e => Err e | None => Ok () end) in
  let stack := {| stack_Metadata := scope_rename name (stack_Metadata stack); stack_Spec := stack_Spec stack; stack_Status := stack_Status stack |} in
  let! existing := scp_GetStack stack in
  match existing with
  | Err e => if error_is ErrStackNotFound e then provisionNewStack stack else st_ret (Err (wrapd ErrGetStack e))
  | Ok x => EnsureStack x
  end.

Definition UpdateStack (desired : Stack) : st W (result Stack) :=
  let!? existing := st_wrap (wrapd ErrGetStack) (scp_GetStack desired) in
  let s := stack_Spec existing in
  let existing := {| stack_Metadata := scope_relabel (mergeManagedLabels (sm_Labels (stack_Metadata existing)) (sm_Labels (stack_Metadata desired))) (stack_Metadata existing);
                     stack_Spec := {| stsp_ID := if String.eqb (stsp_ID (stack_Spec desired)) "" then stsp_ID s else stsp_ID (stack_Spec desired);
                                      stsp_RealmName := stsp_RealmName s; stsp_SpaceName := stsp_SpaceName s |};
                     stack_Status := stack_Status existing |} in
  let!? _ := st_check (wrapd ErrUpdateStackMetadata) (scp_UpdateStackMetadata existing) in
  st_ret (Ok existing).

(** ** The cgroup of a cell *)

Definition createCellCgroup (cell : Cell) : st W (result (string * list string)) :=
  let!? _ := st_guard (negb (String.eqb (csp_RealmName (cell_Spec cell)) "")) (ESentinel ErrRealmNameRequired) in
  let!? _ := st_guard (negb (String.eqb (csp_SpaceName (cell_Spec cell)) "")) (ESentinel ErrSpaceNameRequired) in
  let!? _ := st_guard (negb (String.eqb (csp_StackName (cell_Spec cell)) "")) (ESentinel ErrStackNameRequired) in
  createLevelCgroup (DefaultCellSpec cell) ErrCreateCellCgroup (enableCellControllers cell).

(** The errors and the label are those of a stack. *)
Definition ensureCellCgroup (cell : Cell) : st W (result Cell) :=
  let!? _ := st_guard (negb (String.eqb (TrimSpace (csp_RealmName (cell_Spec cell))) "")) (ESentinel ErrRealmNameRequired) in
  let!? _ := st_guard (negb (String.eqb (TrimSpace (csp_SpaceName (cell_Spec cell))) "")) (ESentinel ErrSpaceNameRequired) in
  let!? _ := st_guard (negb (String.eqb (TrimSpace (csp_StackName (cell_Spec cell))) "")) (ESentinel ErrStackNameRequired) in
  let!? doc := st_wrap (wrapd ErrConversionFailed) (st_ret (BuildCellExternalFromInternal cell VersionV1Beta1)) in
  let!? _ := connected in
  ensureLevelCgroup (DefaultCellSpec cell) (ext.cst_CgroupPath (ext.cell_Status doc)) ErrCreateStackCgroup ErrUpdateStackMetadata
    ErrUpdateCellMetadata (fun p => upd_status (set_CellCgroup p)) (fun c => cst_SubtreeControllers (cell_Status c))
    (fun l => upd_status (set_CellControllers l)) sto_UpdateCellMetadata (enableCellControllers cell) cell.

End Scopes.

(** ** Theorems: the groups *)

Definition scope_doc (sc : Scope) : ScopeDoc :=
  match sc with
  | ScRealm r => DocRealm (realm_named r)
  | ScSpace r s => DocSpace (space_named r s)
  | ScStack r s t => DocStack (stack_named r s t)
  | ScCell r s t c => DocCell (cell_named r s t c)
  end.

Lemma combine_render rl l : Forall seg_ok rl → Forall seg_ok l → combine (render_path rl) (render_path l) = render_path (rl ++ l).
Proof.
  intros Hr Hl. unfold combine. change (FJoin [render_path rl; trim_slash (render_path l)]) with (group_path (render_path rl) (render_path l)).
  rewrite group_path_render by done. change (render_path (rl ++ l)) with (String slash (Join "/" (rl ++ l))). by rewrite HasPrefix_slash.
Qed.

Lemma scopeSpec_group sc : Forall seg_ok (scope_names sc) →
  ∃ spec, scopeSpec (scope_doc sc) = Ok spec ∧ cs_Group spec = render_path (scope_names sc).
Proof.
  destruct sc; cbn [scope_names scope_doc scopeSpec]; rewrite ?Forall_cons; intros Hf; destruct_and?; cbn [realm_Metadata space_Metadata stack_Metadata cell_Metadata realm_named space_named stack_named cell_named sm_Name cm_Name spsp_RealmName space_Spec].
  all: repeat match goal with |- context [String.eqb ?x ""] => destruct (String.eqb_spec x ""); [match goal with K : seg_ok _ |- _ => by destruct K end|] end.
  all: eexists; split; [reflexivity|]; cbn; unfold render_path; cbn; by rewrite ?string_app_nil_r.
Qed.

(** The group [buildCgroupPath] makes of a scope's default spec below the current one. *)
Definition scope_group (root : string) (sc : Scope) : string :=
  match scopeSpec (scope_doc sc) with Ok spec => combine root (cs_Group spec) | Err _ => "" end.

(** C26: scopes with plain names have cgroups of their own: the group of a scope is the root
    followed by the names of the scope, so that it lies below its parents' groups, and two
    scopes with the same group are the same scope. *)
Theorem scope_groups_distinct rl sc1 sc2 :
  Forall seg_ok rl → Forall seg_ok (scope_names sc1) → Forall seg_ok (scope_names sc2) →
  scope_group (render_path rl) sc1 = render_path (rl ++ scope_names sc1) ∧
  (scope_group (render_path rl) sc1 = scope_group (render_path rl) sc2 ↔ sc1 = sc2).
Proof.
  intros Hr H1 H2. assert (Hg : ∀ sc, Forall seg_ok (scope_names sc) → scope_group (render_path rl) sc = render_path (rl ++ scope_names sc)).
  { intros sc Hs. unfold scope_group. destruct (scopeSpec_group sc Hs) as (spec & -> & ->). by apply combine_render. }
  split; [by apply Hg|]. split; [|by intros ->]. rewrite !Hg by done. intros E. apply render_path_inj in E; [|by apply Forall_app..].
  apply app_inv_head in E. by apply scope_names_inj.
Qed.

(** A realm may be called [..]: its group is the parent of kukeon's own. *)
Lemma dotdot_realm_group : ValidateRealmName ".." = None ∧ scope_group "/kukeon" (ScRealm "..") = "/".
Proof. by vm_compute. Qed.

(** ** Theorems: what is recorded *)

Lemma respects_at {S A} (R : S → S → Prop) (m : st S A) s s' a : respects R m → m s = (s', a) → R s s'.
Proof. intros Hm E. specialize (Hm s). by rewrite E in Hm. Qed.
Section Recorded.
Context {W : Type} `{CgroupClient W} `{ScopeStore W} `{RunnerStore W} `{CniHost W} `{NamespaceServices W} `{HostConfig} `{RunnerOpts} (cniConf : Conf).
Context (R : W → W → Prop) `{!Reflexive R} `{!Transitive R}.

(** [R] is kept by every operation a provisioning step calls but the metadata writers. *)
Class ScopeFrame : Prop := {
  sf_new : ∀ s, respects R (cgp_NewCgroup s);
  sf_load : ∀ g m, respects R (cgp_LoadCgroup g m);
  sf_mount : respects R cgp_GetCgroupMountpoint;
  sf_current : respects R cgp_GetCurrentCgroupPath;
  sf_path : ∀ g m, respects R (cgp_CgroupPath g m);
  sf_ensure : ∀ g m l, respects R (cgp_EnsureSubtreeControllers g m l);
  sf_enable : ∀ g m l, respects R (cgp_EnableCellSubtreeControllers g m l);
  sf_all : ∀ g m, respects R (cgp_EnableCellAllSubtreeControllers g m);
  sf_connect : respects R sto_ensureClientConnected;
  sf_getRealm : ∀ r, respects R (sto_GetRealm r);
  sf_stat : ∀ p, respects R (os_Stat p);
  sf_nsList : respects R nss_List;
  sf_nsCreate : ∀ n, respects R (nss_Create n);
  sf_egress : ∀ s, respects R (scp_applySpaceEgressPolicy s)
}.
Context `{!ScopeFrame}.
#[local] Hint Resolve sf_new sf_load sf_mount sf_current sf_path sf_ensure sf_enable sf_all sf_connect sf_getRealm sf_stat sf_nsList sf_nsCreate sf_egress : frame.

Lemma connected_frame : respects R connected.
Proof. unfold connected. solve_frame. Qed.
#[local] Hint Resolve connected_frame : frame.
Lemma enableAncestor_frame g m : respects R (enableAncestorSubtreeControllers g m).
Proof. apply sf_ensure. Qed.
Lemma enableCell_frame c g m : respects R (enableCellControllers c g m).
Proof. unfold enableCellControllers. solve_frame. Qed.
#[local] Hint Resolve enableAncestor_frame enableCell_frame : frame.
Lemma existsNamespace_frame n : respects R (ExistsNamespace n).
Proof. unfold ExistsNamespace, GetNamespace. solve_frame. Qed.
#[local] Hint Resolve existsNamespace_frame : frame.

(** The cgroup of a level: the path is never empty, and what is returned is what was
    written last. *)
Section Level.
Context {X : Type} (recorded : X → W → Prop) (setPath : string → X → X) (controllers : X → list string) (setControllers : list string → X → X)
  (update : X → st W (option error)).
Context (law_recorded : ∀ x w w', update x w = (w', None) → recorded x w') (law_kept : ∀ x w w', R w w' → recorded x w → recorded x w').

Lemma combine_nonempty a b : combine a b ≠ "".
Proof. unfold combine. destruct (HasPrefix (FJoin _) "/") eqn:E; [|done]. intros E0. by rewrite E0 in E. Qed.

Lemma buildCgroupPath_group spec w w' spec' full : buildCgroupPath spec w = (w', Ok (spec', full)) → cs_Group spec' ≠ "".
Proof.
  unfold buildCgroupPath, st_bind. destruct (cgp_GetCgroupMountpoint w) as [w1 mp]. intros E. apply st_try_ok in E as (w2 & cur & _ & E).
  unfold st_ret in E. injection E as _ <- _. apply combine_nonempty.
Qed.

Lemma ensureCgroupInternal_path spec p d1 d2 f w w' path : ensureCgroupInternal spec p d1 d2 f w = (w', Ok path) → path ≠ "".
Proof.
  unfold ensureCgroupInternal. intros E. apply st_try_ok in E as (w1 & [spec' full] & E1 & E). apply buildCgroupPath_group in E1.
  unfold st_bind at 1 in E. destruct (cgp_LoadCgroup _ _ w1) as [w2 [u|e]].
  - destruct (String.eqb_spec p ""); [apply st_try_ok in E as (w3 & u' & _ & E)|]; unfold st_ret in E; by injection E as _ <-.
  - apply st_try_ok in E as (w3 & b & _ & E). apply st_try_ok in E as (w4 & u & _ & E). apply st_bind_inv in E as (w5 & r5 & _ & E).
    apply st_bind_inv in E as (w6 & r6 & _ & E).
    apply st_try_ok in E as (w7 & u' & _ & E). unfold st_ret in E. by injection E as _ <-.
Qed.

Lemma ensureLevel_recorded spec p d1 d2 d3 enable x w w' x' : (∀ g m, respects R (enable g m)) →
  ensureLevelCgroup spec p d1 d2 d3 setPath controllers setControllers update enable x w = (w', Ok x') →
  recorded x' w' ∧ ∃ path, path ≠ "" ∧ (x' = setPath path x ∨ ∃ l, x' = setControllers l (setPath path x)).
Proof.
  intros He E. unfold ensureLevelCgroup in E. apply st_try_ok in E as (w1 & path & E1 & E). apply ensureCgroupInternal_path in E1.
  rewrite (proj2 (String.eqb_neq _ _) E1) in E. apply st_try_ok in E as (w2 & u & E2 & E). apply st_check_ok in E2.
  apply law_recorded in E2. unfold st_bind at 1 in E. pose proof (sf_mount w2) as Hm. destruct (cgp_GetCgroupMountpoint w2) as [w3 mp]. cbn in Hm.
  unfold st_bind at 1 in E. pose proof (He path mp w3) as Hn. destruct (enable path mp w3) as [w4 [l|e]]; cbn in Hn.
  - destruct (equalStringSlices _ l); [unfold st_ret in E; injection E as <- <-; split; [eapply law_kept; [|exact E2]; by etrans|eauto]|].
    apply st_try_ok in E as (w5 & u5 & E3 & E). apply st_check_ok, law_recorded in E3. unfold st_ret in E. injection E as <- <-.
    split; [done|]. exists path. split; [done|right; eauto].
  - unfold st_ret in E. injection E as <- <-. split; [eapply law_kept; [|exact E2]; by etrans|eauto].
Qed.
End Level.

(** What a metadata file is read for: state, cgroup and, by kind, namespace or network. *)
Definition realm_view (r : Realm) := (rst_State (realm_Status r), rst_CgroupPath (realm_Status r), rst_SubtreeControllers (realm_Status r), rsp_Namespace (realm_Spec r)).
Definition scope_view {S} (s : ScopeStatus S) := (sst_State s, sst_CgroupPath s, sst_SubtreeControllers s).
Definition space_view (s : Space) := (scope_view (space_Status s), spsp_CNIConfigPath (space_Spec s)).

Class ScopeRecords := {
  rec_realm : W → string → option (RealmState * string * list string * string);
  rec_space : W → string * string → option (SpaceState * string * list string * string);
  rec_stack : W → string * string * string → option (StackState * string * list string);
  law_rec_realm r w w' : scp_UpdateRealmMetadata r w = (w', None) → rec_realm w' (sm_Name (realm_Metadata r)) = Some (realm_view r);
  law_rec_space s w w' : scp_UpdateSpaceMetadata s w = (w', None) →
    rec_space w' (spsp_RealmName (space_Spec s), sm_Name (space_Metadata s)) = Some (space_view s);
  law_rec_stack t w w' : scp_UpdateStackMetadata t w = (w', None) →
    rec_stack w' (stsp_RealmName (stack_Spec t), stsp_SpaceName (stack_Spec t), sm_Name (stack_Metadata t)) = Some (scope_view (stack_Status t));
  law_rec_kept w w' : R w w' → rec_realm w' = rec_realm w ∧ rec_space w' = rec_space w ∧ rec_stack w' = rec_stack w
}.
Context `{!ScopeRecords}.

Definition realm_recorded (r : Realm) (w : W) : Prop := rec_realm w (sm_Name (realm_Metadata r)) = Some (realm_view r).
Definition space_recorded (s : Space) (w : W) : Prop :=
  rec_space w (spsp_RealmName (space_Spec s), sm_Name (space_Metadata s)) = Some (space_view s).
Definition stack_recorded (t : Stack) (w : W) : Prop :=
  rec_stack w (stsp_RealmName (stack_Spec t), stsp_SpaceName (stack_Spec t), sm_Name (stack_Metadata t)) = Some (scope_view (stack_Status t)).

Lemma realm_kept r w w' : R w w' → realm_recorded r w → realm_recorded r w'.
Proof. unfold realm_recorded. by intros (-> & _ & _)%law_rec_kept. Qed.
Lemma space_kept s w w' : R w w' → space_recorded s w → space_recorded s w'.
Proof. unfold space_recorded. by intros (_ & -> & _)%law_rec_kept. Qed.
Lemma stack_kept t w w' : R w w' → stack_recorded t w → stack_recorded t w'.
Proof. unfold stack_recorded. by intros (_ & _ & ->)%law_rec_kept. Qed.

Lemma ns_create_frame realm : respects R (createRealmContainerdNamespace realm).
Proof. unfold createRealmContainerdNamespace, st_error, CreateNamespace. solve_frame. Qed.
Lemma failRealm_ok {A} realm e w w' (a : A) : failRealm realm e w = (w', Ok a) → False.
Proof. unfold failRealm, st_bind, st_ret. by destruct (scp_UpdateRealmMetadata _ w). Qed.
Lemma ns_ensure_ok realm w w' r : ensureRealmContainerdNamespace realm w = (w', Ok r) → r = realm.
Proof.
  unfold ensureRealmContainerdNamespace. intros E. apply st_try_ok in E as (w1 & u1 & _ & E). apply st_try_ok in E as (w2 & b & _ & E).
  apply st_try_ok in E as (w3 & u3 & _ & E). unfold st_ret in E. by injection E as _ <-.
Qed.
Lemma createLevel_ok spec d enable w w' cg : createLevelCgroup spec d enable w = (w', Ok cg) → cg.1 ≠ "".
Proof.
  unfold createLevelCgroup. intros E. apply st_try_ok in E as (w1 & u1 & _ & E). apply st_try_ok in E as (w2 & [spec' full] & E2 & E).
  apply buildCgroupPath_group in E2. apply st_try_ok in E as (w3 & p & E3 & E). apply st_wrap_ok in E3. apply st_try_ok in E as (w4 & l & _ & E).
  unfold st_ret in E. injection E as _ <-. unfold createCgroupInternal in E3. apply st_try_ok in E3 as (w5 & u5 & _ & E3).
  apply st_try_ok in E3 as (w6 & u6 & _ & E3). unfold st_ret in E3. by injection E3 as _ <-.
Qed.
Lemma existsNs_frame n : respects R (ExistsRealmContainerdNamespace n).
Proof. unfold ExistsRealmContainerdNamespace. solve_frame. Qed.
Lemma buildCgroupPath_frame spec : respects R (buildCgroupPath spec).
Proof. unfold buildCgroupPath. solve_frame. Qed.
#[local] Hint Resolve buildCgroupPath_frame : frame.
Lemma existsCgroup_frame d : respects R (ExistsCgroup d).
Proof. unfold ExistsCgroup. solve_frame. Qed.
Lemma createLevel_frame spec d enable : (∀ g m, respects R (enable g m)) → respects R (createLevelCgroup spec d enable).
Proof. intros He. unfold createLevelCgroup, createCgroupInternal. solve_frame. Qed.

Lemma ensureRealm_recorded realm w w' r : EnsureRealm realm w = (w', Ok r) →
  realm_recorded r w' ∧ rst_CgroupPath (realm_Status r) ≠ "" ∧ rsp_Namespace (realm_Spec r) = rsp_Namespace (realm_Spec realm).
Proof.
  unfold EnsureRealm. intros E. apply st_try_ok in E as (w1 & r1 & E1 & E). apply ns_ensure_ok in E1 as ->.
  apply st_try_ok in E as (w2 & r2 & E2 & E). unfold ensureRealmCgroup in E2. apply st_try_ok in E2 as (w3 & u3 & _ & E2).
  apply st_try_ok in E2 as (w4 & doc & _ & E2).
  apply (ensureLevel_recorded realm_recorded realm_set_CgroupPath _ realm_set_Controllers scp_UpdateRealmMetadata law_rec_realm realm_kept) in E2 as [Hr (path & Hp & Hx)]; [|solve_frame].
  assert (Hf : rst_CgroupPath (realm_Status r2) ≠ "" ∧ rsp_Namespace (realm_Spec r2) = rsp_Namespace (realm_Spec realm)).
  { destruct realm as [m sp []]. by destruct Hx as [->|[l ->]]. }
  destruct (rst_State (realm_Status r2)); try (unfold st_ret in E; injection E as <- <-; done).
  apply st_try_ok in E as (w5 & b1 & E3 & E). apply st_wrap_ok in E3. apply (respects_at R) in E3 as F1; [|apply existsNs_frame].
  apply st_try_ok in E as (w6 & b2 & E4 & E). apply st_wrap_ok in E4. apply (respects_at R) in E4 as F2; [|apply existsCgroup_frame].
  destruct (b1 && b2).
  - apply st_try_ok in E as (w7 & u & E5 & E). apply st_check_ok, law_rec_realm in E5. unfold st_ret in E. injection E as <- <-.
    split; [done|]. destruct r2 as [m2 sp2 []]. done.
  - unfold st_ret in E. injection E as <- <-. split; [|done]. eapply realm_kept; [|exact Hr]. by etrans.
Qed.

(** creating a realm, whether it is new or already there, returns the realm that was
    recorded last: its metadata file shows the state, cgroup, controllers and namespace that
    are returned, and the cgroup path is never empty.  A new realm is Ready and has a
    namespace even when the document named none. *)
Theorem create_realm_recorded realm w w' r : CreateRealm realm w = (w', Ok r) →
  realm_recorded r w' ∧ rst_CgroupPath (realm_Status r) ≠ "" ∧
  ((sto_GetRealm realm w).2 = Err (ESentinel ErrRealmNotFound) →
     rst_State (realm_Status r) = RealmStateReady ∧
     (RealmNamespaceSuffix ≠ "" → TrimSpace (rsp_Namespace (realm_Spec realm)) = "" → rsp_Namespace (realm_Spec r) ≠ "")).
Proof.
  unfold CreateRealm. intros E. apply st_try_ok in E as (w1 & u1 & E1 & E). unfold st_ret in E1. injection E1 as <- _. apply st_bind_inv in E as (w2 & got & Eg & E).
  rewrite Eg. cbn [snd]. destruct got as [x|e].
  - apply ensureRealm_recorded in E as (G1 & G2 & _). done.
  - destruct (error_is ErrRealmNotFound e); [|done]. unfold provisionNewRealm in E. cbn zeta in E. set (r0 := defaultNamespace _) in E.
    apply st_try_ok in E as (w3 & u3 & _ & E). apply st_bind_inv in E as (w4 & nsErr & _ & E). destruct (fatal_namespace nsErr); [by apply failRealm_ok in E|].
    apply st_bind_inv in E as (w5 & cg & Ec & E). destruct cg as [cg|]; [|by apply failRealm_ok in E]. apply createLevel_ok in Ec. apply st_try_ok in E as (w6 & u6 & E6 & E).
    apply st_check_ok, law_rec_realm in E6. unfold st_ret in E. injection E as <- <-. split; [done|].
    split; [by unfold ready_realm; destruct r0 as [? ? []]|]. intros _. split; [by unfold ready_realm; destruct r0 as [? ? []]|].
    intros Hsuf Hns. unfold ready_realm, r0, defaultNamespace. destruct realm as [m [ns cr] []]. cbn in *. rewrite Hns. cbn. unfold RealmNamespace.
    destruct (TrimSpace (sm_Name m)); [done|done].
Qed.

(** when provisioning a new realm fails after its first write, the last thing done is a
    write that marks the realm Failed, unless the write that would have made it Ready is
    itself what failed. *)
Theorem failed_realm_marked realm w w' e : provisionNewRealm realm w = (w', Err e) →
  let r0 := defaultNamespace realm in
  (∃ e', scp_UpdateRealmMetadata r0 w = (w', Some e')) ∨
  (∃ w1, w' = (scp_UpdateRealmMetadata (realm_set_State RealmStateFailed r0) w1).1) ∨
  (∃ w1 cg e', scp_UpdateRealmMetadata (ready_realm cg r0) w1 = (w', Some e')).
Proof.
  unfold provisionNewRealm. cbn zeta. set (r0 := defaultNamespace _). unfold st_try at 1, st_check at 1, st_bind. destruct (scp_UpdateRealmMetadata r0 w) as [w1 [e1|]].
  { cbn. intros [= <- <-]. eauto. }
  cbn [st_ret]. unfold st_ret. destruct (createRealmContainerdNamespace r0 w1) as [w2 nsErr]. destruct (fatal_namespace nsErr).
  { unfold failRealm, st_bind. intros E. right. left. exists w2. destruct (scp_UpdateRealmMetadata _ w2) as [w3 u]. by injection E as <- _. }
  destruct (createRealmCgroup r0 w2) as [w3 [cg|e3]].
  - unfold st_try, st_check, st_bind, st_ret. destruct (scp_UpdateRealmMetadata (ready_realm cg r0) w3) as [w4 [e4|]] eqn:E4; [|done].
    intros [= <- <-]. right. right. eauto.
  - unfold failRealm, st_bind. intros E. right. left. exists w3. destruct (scp_UpdateRealmMetadata _ w3) as [w4 u]. by injection E as <- _.
Qed.

Lemma ensureSpace_recorded space w w' s : ensureSpaceCgroup space w = (w', Ok s) →
  space_recorded s w' ∧ sst_CgroupPath (space_Status s) ≠ "" ∧ space_Spec s = space_Spec space ∧ space_Metadata s = space_Metadata space.
Proof.
  unfold ensureSpaceCgroup. intros E. apply st_try_ok in E as (w1 & u1 & _ & E). apply st_try_ok in E as (w2 & u2 & _ & E). apply st_try_ok in E as (w3 & doc & _ & E).
  apply (ensureLevel_recorded space_recorded (fun p => space_upd_status (sst_set_CgroupPath p)) _ (fun l => space_upd_status (sst_set_Controllers l))
           scp_UpdateSpaceMetadata law_rec_space space_kept) in E as [Hr (path & Hp & Hx)]; [|solve_frame].
  split; [done|]. destruct space as [m sp []]. by destruct Hx as [->|[l ->]].
Qed.

Lemma ensureCNI_ok space w w' s : ensureSpaceCNIConfig cniConf space w = (w', Ok s) → s = space.
Proof.
  unfold ensureSpaceCNIConfig. intros E. apply st_try_ok in E as (w1 & u1 & _ & E). apply st_try_ok in E as (w2 & [n c] & _ & E).
  repeat (apply st_try_ok in E as (? & ? & _ & E)). unfold st_ret in E. by injection E as _ <-.
Qed.

(** ensuring a space that exists ends with the metadata file holding the conflist path the
    space had before: the path of the conflist just ensured is written first, and then
    overwritten by the write that follows the cgroup, which still has the old one. *)
Theorem ensure_space_reverts_path space w w' s : EnsureSpace cniConf space w = (w', Ok s) →
  space_recorded s w' ∧ sst_CgroupPath (space_Status s) ≠ "" ∧
  ∃ v, rec_space w' (spsp_RealmName (space_Spec space), sm_Name (space_Metadata space)) = Some (v, spsp_CNIConfigPath (space_Spec space)).
Proof.
  unfold EnsureSpace. intros E. apply st_try_ok in E as (w1 & s1 & E1 & E). apply ensureCNI_ok in E1 as ->.
  apply ensureSpace_recorded in E as (Hr & Hp & Es & Em). split; [done|]. split; [done|]. exists (scope_view (space_Status s)).
  unfold space_recorded, space_view in Hr. by rewrite Es, Em in Hr.
Qed.

(** a space that is provisioned is recorded Ready, with the path of the conflist that was
    written for it and a cgroup; nothing is recorded Ready before its network, its cgroup and
    its egress policy are in place. *)
Theorem new_space_recorded space w w' s : provisionNewSpace cniConf space w = (w', Ok s) →
  space_recorded s w' ∧ sst_State (space_Status s) = SpaceStateReady ∧ sst_CgroupPath (space_Status s) ≠ "" ∧
  ∃ networkName subnet w1 w2 w3, networkOf space = Ok (networkName, spsp_CNIConfigPath (space_Spec s)) ∧
    WriteSpaceNetworkConfig (spsp_CNIConfigPath (space_Spec s)) networkName subnet w1 = (w2, None) ∧
    scp_applySpaceEgressPolicy s w3 = ((scp_applySpaceEgressPolicy s w3).1, None).
Proof.
  unfold provisionNewSpace. intros E. apply st_try_ok in E as (w1 & u1 & _ & E). apply st_try_ok in E as (w2 & conf & E2 & E).
  apply st_try_ok in E as (w3 & cg & E3 & E). unfold createSpaceCgroup in E3. apply st_try_ok in E3 as (w4 & u4 & _ & E3).
  apply st_try_ok in E3 as (w5 & r5 & _ & E3). apply createLevel_ok in E3. apply st_try_ok in E as (w6 & u6 & E6 & E). apply st_check_ok in E6.
  apply st_try_ok in E as (w7 & u7 & E7 & E). apply st_check_ok, law_rec_space in E7. unfold st_ret in E. injection E as <- <-.
  split; [done|]. split; [by destruct space as [? [] []]|]. split; [by destruct space as [? [] []]|].
  unfold createSpaceCNIConfig in E2. apply st_try_ok in E2 as (x1 & [n c] & En & E2). unfold st_ret in En. injection En as -> En.
  apply st_try_ok in E2 as (x2 & b & _ & E2). apply st_try_ok in E2 as (x3 & u & _ & E2). apply st_try_ok in E2 as (x4 & subnet & _ & E2).
  apply st_try_ok in E2 as (x5 & u' & Ew & E2). apply st_check_ok in Ew. unfold st_ret in E2. injection E2 as _ <-.
  exists n, subnet, x4, x5, w3. split; [by destruct space as [? [] []]|]. split; [done|]. by rewrite E6.
Qed.

(** a stack that is created or ensured is recorded as it is returned, with its cgroup. *)
Theorem create_stack_recorded stack w w' t : CreateStack stack w = (w', Ok t) →
  stack_recorded t w' ∧ sst_CgroupPath (stack_Status t) ≠ "".
Proof.
  unfold CreateStack. intros E. apply st_try_ok in E as (w1 & u1 & _ & E). apply st_try_ok in E as (w2 & u2 & _ & E). apply st_bind_inv in E as (w3 & got & _ & E).
  destruct got as [x|e].
  - unfold EnsureStack, ensureStackCgroup in E. do 4 (apply st_try_ok in E as (? & ? & _ & E)).
    apply (ensureLevel_recorded stack_recorded (fun p => stack_upd_status (sst_set_CgroupPath p)) _ (fun l => stack_upd_status (sst_set_Controllers l))
             scp_UpdateStackMetadata law_rec_stack stack_kept) in E as [Hr (path & Hp & Hx)]; [|solve_frame].
    split; [done|]. destruct x as [m sp []]. by destruct Hx as [->|[l ->]].
  - destruct (error_is ErrStackNotFound e); [|done]. unfold provisionNewStack in E. apply st_try_ok in E as (w4 & u4 & _ & E).
    apply st_try_ok in E as (w5 & cg & E5 & E). unfold createStackCgroup in E5. apply st_try_ok in E5 as (w6 & u6 & _ & E5).
    apply st_try_ok in E5 as (w7 & u7 & _ & E5). apply createLevel_ok in E5. apply st_try_ok in E as (w8 & u8 & E8 & E).
    apply st_check_ok, law_rec_stack in E8. unfold st_ret in E. injection E as <- <-. split; [done|]. by destruct stack as [? ? []].
Qed.

End Recorded.

(** ** Theorems: the network of a space *)

Lemma st_try_wrap_ret {S A B} f (a : A) (k : A → st S (result B)) : st_try (st_wrap f (st_ret (Ok a))) k = k a.
Proof. reflexivity. Qed.

Section Network.
Context {W : Type} `{CgroupClient W} `{ScopeStore W} `{RunnerStore W} `{CniHost W} `{NamespaceServices W} `{HostConfig} `{RunnerOpts} (cniConf : Conf).
Context `{!ConflistLaws (W := W)}.

(** Reading changes nothing, and the conflist is nobody's business but the network's. *)
Definition same_file (p : string) (w w' : W) : Prop := (os_ReadFile p w').2 = (os_ReadFile p w).2.
Class NetworkLaws : Prop := {
  nl_read : ∀ p w, (os_ReadFile p w).1 = w;
  nl_doc : ∀ p d f, f ≠ p → respects (same_file p) (scp_WriteSpaceDoc d f);
  nl_egress : ∀ p s, respects (same_file p) (scp_applySpaceEgressPolicy s);
  nl_now : ∀ p, respects (same_file p) sto_nowUTC
}.
Context `{!NetworkLaws}.

#[local] Instance same_file_refl p : Reflexive (same_file p).
Proof. by intros w. Qed.
#[local] Instance same_file_trans p : Transitive (same_file p).
Proof. unfold same_file. intros x y z K1 K2. congruence. Qed.
#[local] Hint Resolve nl_egress nl_now : frame.

Definition network_found (r : bool * string * option error) : result bool :=
  let '(exists_, _, err) := r in
  match err with
  | Some e => if error_is ErrNetworkNotFound e then Ok exists_ else Err (wrapd ErrCheckNetworkExists e)
  | None => Ok exists_
  end.
(** The readers are functions of the file. *)
Definition conflist_named (n p : string) (data : result string) : bool * string * option error :=
  match data with
  | Err e => (false, "", Some (if os_NotExist e then ESentinel ErrNetworkNotFound else e))
  | Ok data =>
      match decode_map data with
      | Err e => (false, "", Some e)
      | Ok raw => match as_string (member "name" raw) with
                  | Some name => if String.eqb name n then (true, p, None) else (false, "", Some (ESentinel ErrNetworkNotFound))
                  | None => (false, "", Some (ESentinel ErrNetworkNotFound))
                  end
      end
  end.
Lemma existsConfig_eq m n p w : p ≠ "" → ExistsNetworkConfig m n p w = (w, conflist_named n p (os_ReadFile p w).2).
Proof. intros Hp%String.eqb_neq. unfold ExistsNetworkConfig, st_bind. cbn zeta. rewrite Hp. pose proof (nl_read p w) as E. destruct (os_ReadFile p w). cbn in *. by subst. Qed.
Lemma networkExists_eq n p w : p ≠ "" → networkExists cniConf n p w = (w, network_found (conflist_named n p (os_ReadFile p w).2)).
Proof.
  intros Hp. unfold networkExists, st_bind. rewrite existsConfig_eq by done. unfold network_found. by destruct (conflist_named _ _ _) as [[? ?] ?].
Qed.
Lemma bridge_at p w : ReadBridgeName p w = (w, (ReadBridgeName p w).2).
Proof.
  unfold ReadBridgeName, readBridgePlugin, st_bind. destruct (String.eqb p ""); [done|]. pose proof (nl_read p w) as E. destruct (os_ReadFile p w). cbn in *. by subst.
Qed.
Lemma bridge_same p w w' : same_file p w w' → (ReadBridgeName p w').2 = (ReadBridgeName p w).2.
Proof.
  unfold same_file, ReadBridgeName, readBridgePlugin, st_bind. destruct (String.eqb p ""); [done|].
  destruct (os_ReadFile p w), (os_ReadFile p w'). cbn. by intros ->.
Qed.

(** The conflist is the one this network needs: what is checked before it is left alone. *)
Definition in_place (n p : string) (w : W) : Prop :=
  (networkExists cniConf n p w).2 = Ok true ∧ (ReadBridgeName p w).2 = Ok (SafeBridgeName n).

Lemma in_place_same n p w w' : p ≠ "" → same_file p w w' → in_place n p w → in_place n p w'.
Proof. intros Hp Hf [E1 E2]. split; [rewrite networkExists_eq in * by done; by rewrite Hf|by rewrite (bridge_same p w w')]. Qed.

Lemma written_in_place n p subnet w w' : p ≠ "" → n ≠ "" → WriteSpaceNetworkConfig p n subnet w = (w', None) → in_place n p w'.
Proof.
  intros Hp Hn E. destruct (conflist_read_back (managerOf cniConf) p n subnet w w' Hp Hn E) as (Eb & _ & _ & Ex). split; [|by rewrite Eb].
  specialize (Ex n). rewrite bool_decide_eq_true_2 in Ex by done. rewrite existsConfig_eq in Ex by done. rewrite networkExists_eq by done. cbn [fst snd] in *.
  unfold conflist_named in *. by repeat (case_match; simplify_eq/=).
Qed.

Lemma SpaceMetadataPath_not_conflist space n p x y : networkOf space = Ok (n, p) → Forall seg_ok [x; y] →
  (∃ bl, Forall seg_ok bl ∧ RunPath = render_path bl) → Forall seg_ok [spsp_RealmName (space_Spec space); sm_Name (space_Metadata space)] →
  SpaceMetadataPath RunPath x y ≠ p.
Proof.
  intros En Hxy (bl & Hb & Er) Hs. unfold networkOf, SpaceNetworkConfigPath in En.
  destruct (BuildSpaceNetworkName _ _); [|done]. cbn [res_bind] in En. destruct (String.eqb (TrimSpace _) ""); [done|]. destruct (String.eqb (TrimSpace _) ""); [done|].
  cbn [res_bind] in En.
  assert (p = FJoin [RealmMetadataDir RunPath (spsp_RealmName (space_Spec space)); sm_Name (space_Metadata space); "network.conflist"]) as -> by congruence. clear En.
  rewrite Er. apply Forall_cons in Hs as [Hr [Hn _]%Forall_cons]. apply Forall_cons in Hxy as [Hx [Hy _]%Forall_cons].
  unfold SpaceMetadataPath. rewrite SpaceMetadataDir_render, RealmMetadataDir_render by done.
  assert (Hsub : ∀ l s t, Forall seg_ok l → seg_ok s → seg_ok t → FJoin [render_path l; s; t] = render_path (l ++ [s; t])).
  { intros l s t Hl Hs' Ht. change (FJoin [render_path l; s; t]) with (FJoin [render_path l; s +:+ String slash t]). rewrite FJoin_rel by done.
    rewrite split_on_app, (split_on_avoids slash s (so_slash s Hs')), (split_on_avoids slash t (so_slash t Ht)). change ([s] ++ [t]) with [s; t]. rewrite (clean_keeps true [s; t]) by (apply Forall_cons; split; [done|by apply Forall_singleton]).
    f_equal. by rewrite reverse_app, !reverse_involutive. }
  rewrite FJoin_seg by seg_side. rewrite Hsub by seg_side. intros E. apply render_path_inj in E; [|seg_side|seg_side].
  rewrite <-!app_assoc in E. apply app_inv_head in E. cbn in E. by simplify_eq.
Qed.

Lemma networkOf_parts space n p : networkOf space = Ok (n, p) → n ≠ "" ∧
  p = FJoin [RealmMetadataDir RunPath (spsp_RealmName (space_Spec space)); sm_Name (space_Metadata space); "network.conflist"].
Proof.
  unfold networkOf, SpaceNetworkConfigPath. destruct (BuildSpaceNetworkName _ _) as [n'|] eqn:En; [|done]. cbn [res_bind].
  destruct (String.eqb (TrimSpace _) ""); [done|]. destruct (String.eqb (TrimSpace _) ""); [done|]. cbn [res_bind]. intros E.
  assert (n' = n) as -> by congruence. split; [|congruence]. unfold BuildSpaceNetworkName in En. repeat case_match; try done. injection En as <-.
  intros E0. apply (f_equal (count_char "-"%char)) in E0. rewrite !count_char_app in E0. cbn in E0. lia.
Qed.

(** The document is saved somewhere else than the conflist. *)
Lemma persist_keeps space n p : networkOf space = Ok (n, p) →
  (∃ bl, Forall seg_ok bl ∧ RunPath = render_path bl) → Forall seg_ok [spsp_RealmName (space_Spec space); sm_Name (space_Metadata space)] →
  (∀ now x, spsp_RealmName (space_Spec (scp_stampSpaceLifecycle now x)) = spsp_RealmName (space_Spec x) ∧
            space_Metadata (scp_stampSpaceLifecycle now x) = space_Metadata x) →
  respects (same_file p) (persistCNIConfigPath space p).
Proof.
  intros Hn Hb Hs Hst. unfold persistCNIConfigPath. assert (Hv : supportedVersion VersionV1Beta1 = true) by reflexivity.
  unfold BuildSpaceExternalFromInternal at 1. rewrite Hv, st_try_wrap_ret. cbv zeta. destruct (String.eqb _ p); [solve_frame|].
  unfold ConvertSpaceDocToInternal. cbn [ext.space_APIVersion]. rewrite Hv, st_try_wrap_ret.
  apply respects_bind; [apply _|apply nl_now|]. intros now. cbv zeta. unfold BuildSpaceExternalFromInternal. rewrite Hv, st_try_wrap_ret.
  apply respects_check; [apply _..|]. apply nl_doc. cbn [ext.space_Spec ext.spsp_RealmID ext.space_Metadata].
  set (x := space_upd_status _ _). destruct (Hst now x) as [-> ->]. apply (SpaceMetadataPath_not_conflist space n p); [done| |done|done]. exact Hs.
Qed.

Lemma regenerated n p (subnet_of : st W (result string)) ex w w' u : p ≠ "" → n ≠ "" → (networkExists cniConf n p w).2 = Ok ex →
  ∀ regenerate, (shouldRegenerateSpaceCNI n p ex w).2 = Ok regenerate →
  (if regenerate then let!? subnet := st_wrap (wrapd ErrCreateNetwork) subnet_of in st_check (wrapd ErrCreateNetwork) (WriteSpaceNetworkConfig p n subnet)
   else st_ret (Ok ())) w = (w', Ok u) → in_place n p w'.
Proof.
  intros Hp Hn Hex rg Hrg E. destruct rg.
  - apply st_try_ok in E as (w1 & subnet & _ & E). apply st_check_ok in E. by eapply written_in_place.
  - unfold st_ret in E. injection E as <- _. unfold shouldRegenerateSpaceCNI in Hrg. destruct ex; [|done]. cbn [negb] in Hrg.
    destruct opt_ForceRegenerateCNI; [done|]. unfold st_bind in Hrg. rewrite bridge_at in Hrg. cbn in Hrg. split; [done|].
    destruct (ReadBridgeName p w).2 as [b|e]; [|by repeat case_match]. destruct (String.eqb_spec b (SafeBridgeName n)); [by subst|done].
Qed.

(** once the network of a space has been ensured, its conflist is in place: it is found
    under the name of the network with the bridge that name hashes to, so that ensuring it
    again, unless it is forced, leaves the conflist and its subnet alone. *)
Theorem ensured_network_stable space n p w w' s :
  networkOf space = Ok (n, p) → (∃ bl, Forall seg_ok bl ∧ RunPath = render_path bl) →
  Forall seg_ok [spsp_RealmName (space_Spec space); sm_Name (space_Metadata space)] →
  (∀ now x, spsp_RealmName (space_Spec (scp_stampSpaceLifecycle now x)) = spsp_RealmName (space_Spec x) ∧
            space_Metadata (scp_stampSpaceLifecycle now x) = space_Metadata x) →
  ensureSpaceCNIConfig cniConf space w = (w', Ok s) →
  networkExists cniConf n p w' = (w', Ok true) ∧
  (opt_ForceRegenerateCNI = false → shouldRegenerateSpaceCNI n p true w' = (w', Ok false)).
Proof.
  intros Hn Hb Hs Hst E. destruct (networkOf_parts _ _ _ Hn) as [Hne Ep].
  assert (Hp : p ≠ "").
  { destruct Hb as (bl & Hbl & Er). rewrite Ep, Er, RealmMetadataDir_render by (done || by apply Forall_cons in Hs as [? _]).
    change (FJoin [?a; ?b; ?c]) with (FJoin [a; b +:+ String slash c]). by rewrite FJoin_rel by (apply Forall_cons in Hs as [? _]; seg_side). }
  assert (Hi : in_place n p w').
  { unfold ensureSpaceCNIConfig in E. apply st_try_ok in E as (w0 & doc & E0 & E). apply st_wrap_ok in E0. unfold st_ret in E0. injection E0 as <- _. rewrite Hn in E.
    apply st_try_ok in E as (w1 & [n1 p1] & E1 & E). unfold st_ret in E1. assert (w1 = w ∧ n1 = n ∧ p1 = p) as (-> & -> & ->) by (split_and!; congruence). clear E1.
    apply st_try_ok in E as (w2 & ex & E2 & E). pose proof (networkExists_eq n p w Hp) as Ex. rewrite E2 in Ex. apply (f_equal fst) in Ex as Ew. cbn in Ew. subst w2.
    apply st_try_ok in E as (w3 & rg & E3 & E). assert (w3 = w) as ->.
    { revert E3. unfold shouldRegenerateSpaceCNI. destruct (negb ex); [by intros [= ->]|]. destruct opt_ForceRegenerateCNI; [by intros [= ->]|].
      unfold st_bind. rewrite bridge_at. unfold st_ret. by intros [= -> _]. }
    apply st_try_ok in E as (w4 & u4 & E4 & E). assert (Hi : in_place n p w4).
    { eapply regenerated; [done|done|by rewrite E2|by rewrite E3|exact E4]. }
    apply st_try_ok in E as (w5 & u5 & E5 & E). apply (respects_at (same_file p)) in E5; [|by apply (persist_keeps space n p)].
    apply st_try_ok in E as (w6 & u6 & E6 & E). apply st_check_ok in E6. apply (respects_at (same_file p)) in E6; [|apply nl_egress].
    unfold st_ret in E. injection E as <- _. eapply in_place_same; [done|exact E6|]. by eapply in_place_same. }
  destruct Hi as [Ex Eb]. split.
  - rewrite networkExists_eq in Ex |- * by done. cbn [snd] in Ex. by rewrite Ex.
  - intros Hf. unfold shouldRegenerateSpaceCNI. cbn [negb]. rewrite Hf. unfold st_bind. rewrite bridge_at, Eb. unfold st_ret. by rewrite String.eqb_refl.
Qed.

End Network.

(** ** A concrete site: records by name, the groups and the files of the networks *)

Record Site := {
  si_net : Tnet; si_realms : gmap string Realm; si_spaces : gmap (string * string) Space; si_stacks : gmap (string * string * string) Stack;
  si_groups : list string; si_namespaces : list string
}.
Definition on_net {A} (m : st Tnet A) : st Site A := fun w =>
  let '(n, a) := m (si_net w) in
  ({| si_net := n; si_realms := si_realms w; si_spaces := si_spaces w; si_stacks := si_stacks w; si_groups := si_groups w; si_namespaces := si_namespaces w |}, a).
Definition put_realm (r : Realm) : st Site (option error) := fun w =>
  ({| si_net := si_net w; si_realms := <[sm_Name (realm_Metadata r) := r]> (si_realms w); si_spaces := si_spaces w; si_stacks := si_stacks w;
      si_groups := si_groups w; si_namespaces := si_namespaces w |}, None).
Definition put_space (s : Space) : st Site (option error) := fun w =>
  ({| si_net := si_net w; si_realms := si_realms w; si_spaces := <[(spsp_RealmName (space_Spec s), sm_Name (space_Metadata s)) := s]> (si_spaces w);
      si_stacks := si_stacks w; si_groups := si_groups w; si_namespaces := si_namespaces w |}, None).
Definition put_stack (t : Stack) : st Site (option error) := fun w =>
  ({| si_net := si_net w; si_realms := si_realms w; si_spaces := si_spaces w;
      si_stacks := <[(stsp_RealmName (stack_Spec t), stsp_SpaceName (stack_Spec t), sm_Name (stack_Metadata t)) := t]> (si_stacks w);
      si_groups := si_groups w; si_namespaces := si_namespaces w |}, None).
Definition put_group (g : string) : st Site (result bool) := fun w =>
  ({| si_net := si_net w; si_realms := si_realms w; si_spaces := si_spaces w; si_stacks := si_stacks w; si_groups := g :: si_groups w;
      si_namespaces := si_namespaces w |}, Ok true).
Definition put_namespace (n : string) : st Site (option error) := fun w =>
  ({| si_net := si_net w; si_realms := si_realms w; si_spaces := si_spaces w; si_stacks := si_stacks w; si_groups := si_groups w;
      si_namespaces := n :: si_namespaces w |}, None).
Definition found {A} (d : errdef) (o : option A) : result A := match o with Some a => Ok a | None => Err (ESentinel d) end.

#[local] Instance site_Cni : CniHost Site := {|
  NetConf := unit; CniResult := unit;
  os_Stat := fun p => on_net (os_Stat p); os_ReadFile := fun p => on_net (os_ReadFile p); os_WriteFile := fun p d m => on_net (os_WriteFile p d m);
  os_Remove := fun p => on_net (os_Remove p); os_RemoveAll := fun p => on_net (os_RemoveAll p); os_MkdirAll := fun p m => on_net (os_MkdirAll p m);
  os_ReadDir := fun p => on_net (os_ReadDir p); os_Glob := fun p => on_net (os_Glob p); os_NotExist := os_NotExist (W := Tnet);
  sys_Stat := fun p => on_net (sys_Stat p); json_Decode := json_Decode (W := Tnet); json_Encode := json_Encode (W := Tnet);
  json_DecodeBridge := json_DecodeBridge (W := Tnet); err_Text := fun e => match e with EOpaque s => s | _ => "" end;
  iptables_run := fun a => on_net (iptables_run a); ip_run := fun a => on_net (ip_run a);
  cni_ConfListFromFile := fun _ => st_ret (Ok ()); net_Name := fun _ => ""; net_Plugins := fun _ => [];
  cni_AddNetworkList := fun _ _ => st_ret (Ok ()); cni_DelNetworkList := fun _ _ => st_ret None;
  cni_CachedResult := fun _ _ => st_ret (Ok None); result_IPs := fun _ => Ok [] |}.
#[local] Instance site_Cgroups : CgroupClient Site := {|
  cgp_NewCgroup := fun s => put_group (cs_Group s);
  cgp_LoadCgroup := fun g _ w => (w, if bool_decide (g ∈ si_groups w) then Ok () else Err (EOpaque "cgroup path does not exist"));
  cgp_GetCgroupMountpoint := st_ret "/sys/fs/cgroup"; cgp_GetCurrentCgroupPath := st_ret (Ok "/kukeon");
  cgp_CgroupPath := fun g m => st_ret (Ok (group_path m g));
  cgp_EnsureSubtreeControllers := fun _ _ l => st_ret (Ok l); cgp_EnableCellSubtreeControllers := fun _ _ l => st_ret (Ok l);
  cgp_EnableCellAllSubtreeControllers := fun _ _ => st_ret (Ok CellResourceControllers); cgp_DeleteCgroup := fun _ _ => st_ret None |}.
#[local] Instance site_Store : ScopeStore Site := {|
  scp_GetStack := fun t w => (w, found ErrStackNotFound (si_stacks w !! (stsp_RealmName (stack_Spec t), stsp_SpaceName (stack_Spec t), sm_Name (stack_Metadata t))));
  scp_UpdateRealmMetadata := put_realm; scp_UpdateSpaceMetadata := put_space; scp_UpdateStackMetadata := put_stack;
  scp_WriteSpaceDoc := fun d _ w => match ConvertSpaceDocToInternal d with Ok s => put_space s w | Err e => (w, Some e) end;
  scp_stampSpaceLifecycle := fun _ s => s;
  scp_LoadAssigned := fun _ _ => st_ret (Ok ""); scp_Allocate := fun _ _ => st_ret (Ok "10.88.1.0/24"); scp_Release := fun _ _ => st_ret None;
  scp_applySpaceEgressPolicy := fun _ => st_ret None; scp_removeSpaceEgressPolicy := fun _ => st_ret None;
  scp_reclaimScopeMetadata := fun _ => st_ret None; scp_ContainerdSocket := "/run/containerd/containerd.sock" |}.
#[local] Instance site_Runner : RunnerStore Site := {|
  sto_nowUTC := st_ret 9%Z; sto_ensureClientConnected := st_ret None;
  sto_GetRealm := fun r w => (w, found ErrRealmNotFound (si_realms w !! sm_Name (realm_Metadata r)));
  sto_GetSpace := fun s w => (w, found ErrSpaceNotFound (si_spaces w !! (spsp_RealmName (space_Spec s), sm_Name (space_Metadata s))));
  sto_GetCell := fun c => st_ret (Err (ESentinel ErrCellNotFound)); sto_UpdateCellMetadata := fun _ => st_ret None;
  sto_DeleteMetadata := fun _ => st_ret None; sto_pullSetupStatus := fun _ => st_ret (Err (EOpaque "no socket"));
  sto_cgroupMountpoint := "/sys/fs/cgroup"; sto_DeleteCgroup := fun _ _ => st_ret None |}.
#[local] Instance site_Namespaces : NamespaceServices Site := {|
  nss_Connect := st_ret None; nss_List := fun w => (w, Ok (si_namespaces w)); nss_Create := put_namespace; nss_Delete := fun _ => st_ret None;
  lease_List := fun _ => st_ret (Ok []); lease_Delete := fun _ _ => st_ret None; lease_Create := fun _ => st_ret (Ok "");
  image_List := fun _ => st_ret (Ok []); image_Delete := fun _ _ => st_ret None; snap_Walk := fun _ _ => st_ret (Ok []);
  snap_Remove := fun _ _ _ => st_ret None; blob_Walk := fun _ => st_ret (Ok []); blob_Delete := fun _ _ => st_ret None |}.
#[local] Instance site_Config : HostConfig := {| SignalName := fun _ => ""; RealmNamespaceSuffix := ".kukeon.io"; RunPath := "/run/kukeon" |}.
#[local] Instance site_Opts : RunnerOpts := {|
  opt_ForceRegenerateCNI := false; opt_KukeonGroupGID := 0; opt_DefaultMemoryLimitBytes := 0; opt_KukettyLogLevel := ""; opt_DiskPressureBlockPercent := 0 |}.

Definition same_records (w w' : Site) : Prop := si_realms w' = si_realms w ∧ si_spaces w' = si_spaces w ∧ si_stacks w' = si_stacks w.
#[local] Instance same_records_refl : Reflexive same_records.
Proof. by intros w. Qed.
#[local] Instance same_records_trans : Transitive same_records.
Proof. intros x y z (E1 & E2 & E3) (F1 & F2 & F3). unfold same_records. by rewrite F1, F2, F3. Qed.
#[local] Instance site_frame : ScopeFrame same_records.
Proof. split; try done; intros; by intros w. Defined.
#[local] Instance site_records : ScopeRecords same_records.
Proof.
  refine {| rec_realm w n := realm_view <$> si_realms w !! n; rec_space w k := space_view <$> si_spaces w !! k;
            rec_stack w k := (fun t => scope_view (stack_Status t)) <$> si_stacks w !! k |}.
  - intros r w w' [= <-]. cbn. by rewrite lookup_insert_eq.
  - intros s w w' [= <-]. cbn. by rewrite lookup_insert_eq.
  - intros t w w' [= <-]. cbn. by rewrite lookup_insert_eq.
  - intros w w' (E1 & E2 & E3). by rewrite E1, E2, E3.
Defined.
#[local] Instance site_Conflist : ConflistLaws (W := Site).
Proof.
  split.
  - intros p d m w w' [= <-]. cbn. unfold on_net. cbn. by rewrite lookup_insert_eq.
  - exact (law_json (W := Tnet)).
Defined.
#[local] Instance site_Network : NetworkLaws (W := Site).
Proof.
  split.
  - intros p w. by destruct w.
  - intros p d f _ w. unfold same_file. cbn. destruct (ConvertSpaceDocToInternal d); by destruct w.
  - by intros.
  - by intros.
Defined.

Definition empty_site : Site := {|
  si_net := {| tn_files := ∅; tn_jumps := [] |}; si_realms := ∅; si_spaces := ∅; si_stacks := ∅; si_groups := ["/kukeon"]; si_namespaces := [] |}.
Definition site_realm (w : Site) : Site := (CreateRealm (realm_named "r") w).1.

Lemma scope_groups_distinct_witness :
  scope_group "/kukeon" (ScCell "r" "s" "t" "web") = "/kukeon/r/s/t/web" ∧
  (scope_group "/kukeon" (ScCell "r" "s" "t" "web") = scope_group "/kukeon" (ScStack "r" "s" "t") ↔ ScCell "r" "s" "t" "web" = ScStack "r" "s" "t").
Proof. apply (scope_groups_distinct ["kukeon"]); cbn [scope_names]; seg_side. Defined.

Lemma create_realm_recorded_witness :
  match CreateRealm (realm_named "r") empty_site with
  | (w', Ok r) => rec_realm same_records w' "r" = Some (RealmStateReady, "/kukeon/r", CellResourceControllers, "r.kukeon.io")
  | _ => False
  end.
Proof.
  destruct (CreateRealm (realm_named "r") empty_site) as [w' [r|e]] eqn:E; [|apply (f_equal snd) in E; vm_compute in E; discriminate E].
  pose proof (proj1 (create_realm_recorded same_records (realm_named "r") empty_site w' r E)) as Hr. unfold realm_recorded in Hr.
  assert (Er : r = ready_realm ("/kukeon/r", CellResourceControllers) (realm_set_Namespace "r.kukeon.io" (realm_set_State RealmStateCreating (realm_named "r")))).
  { apply (f_equal snd) in E. vm_compute in E. injection E as <-. reflexivity. }
  rewrite Er in Hr. exact Hr.
Defined.

(** A site whose containerd refuses the namespace *)
Lemma failed_realm_marked_witness :
  let no_namespaces := {| nss_Connect := st_ret None; nss_List := st_ret (Err (EOpaque "unavailable")); nss_Create := put_namespace; nss_Delete := fun _ => st_ret None;
    lease_List := fun _ => st_ret (Ok []); lease_Delete := fun _ _ => st_ret None; lease_Create := fun _ => st_ret (Ok "");
    image_List := fun _ => st_ret (Ok []); image_Delete := fun _ _ => st_ret None; snap_Walk := fun _ _ => st_ret (Ok []);
    snap_Remove := fun _ _ _ => st_ret None; blob_Walk := fun _ => st_ret (Ok []); blob_Delete := fun _ _ => st_ret None |} in
  let w' := (provisionNewRealm (H3 := no_namespaces) (realm_named "r") empty_site).1 in
  ∃ w1, w' = (put_realm (realm_set_State RealmStateFailed (defaultNamespace (realm_named "r"))) w1).1.
Proof.
  intros no_namespaces w'. destruct (provisionNewRealm (H3 := no_namespaces) (realm_named "r") empty_site) as [w1 [r|e]] eqn:E;
    [apply (f_equal snd) in E; vm_compute in E; discriminate E|].
  destruct (failed_realm_marked (H3 := no_namespaces) (realm_named "r") empty_site w1 e E) as [[e' F]|[[w2 F]|(w2 & cg & e' & F)]];
    [discriminate F| |discriminate F]. exists w2. exact F.
Defined.

Definition stale_space : Space := space_set_CNIConfigPath "/old/network.conflist" (space_named "r" "s").
Lemma ensure_space_reverts_path_witness :
  match EnsureSpace host_conf stale_space empty_site with
  | (w', Ok _) => (rec_space same_records w' ("r", "s") ≫= fun v => Some v.2) = Some "/old/network.conflist"
  | _ => False
  end.
Proof.
  destruct (EnsureSpace host_conf stale_space empty_site) as [w' [s|e]] eqn:E; [|apply (f_equal snd) in E; vm_compute in E; discriminate E].
  destruct (ensure_space_reverts_path host_conf same_records stale_space empty_site w' s E) as (_ & _ & v & Ev).
  change ("r", "s") with (spsp_RealmName (space_Spec stale_space), sm_Name (space_Metadata stale_space)). rewrite Ev. reflexivity.
Defined.

Lemma new_space_recorded_witness :
  match provisionNewSpace host_conf (space_named "r" "s") (site_realm empty_site) with
  | (w', Ok s) => space_recorded same_records s w' ∧ sst_State (space_Status s) = SpaceStateReady
  | _ => False
  end.
Proof.
  destruct (provisionNewSpace host_conf (space_named "r" "s") (site_realm empty_site)) as [w' [s|e]] eqn:E; [|apply (f_equal snd) in E; vm_compute in E; discriminate E].
  destruct (new_space_recorded host_conf same_records (space_named "r" "s") (site_realm empty_site) w' s E) as (G1 & G2 & _). split; [exact G1|exact G2].
Defined.

Lemma create_stack_recorded_witness :
  match CreateStack (stack_named "r" "s" "t") empty_site with
  | (w', Ok t) => stack_recorded same_records t w'
  | _ => False
  end.
Proof.
  destruct (CreateStack (stack_named "r" "s" "t") empty_site) as [w' [t|e]] eqn:E; [|apply (f_equal snd) in E; vm_compute in E; discriminate E].
  exact (proj1 (create_stack_recorded same_records (stack_named "r" "s" "t") empty_site w' t E)).
Defined.

Lemma ensured_network_stable_witness :
  let p := "/run/kukeon/data/r/s/network.conflist" in
  let w' := (ensureSpaceCNIConfig host_conf (space_named "r" "s") empty_site).1 in
  shouldRegenerateSpaceCNI "r-s" p true w' = (w', Ok false).
Proof.
  intros p w'. destruct (ensureSpaceCNIConfig host_conf (space_named "r" "s") empty_site) as [w1 [s|e]] eqn:E; [|apply (f_equal snd) in E; vm_compute in E; discriminate E].
  change (shouldRegenerateSpaceCNI "r-s" p true w1 = (w1, Ok false)).
  refine (proj2 (ensured_network_stable host_conf (space_named "r" "s") "r-s" p empty_site w1 s _ _ _ _ E) _); [reflexivity| | |split; reflexivity|reflexivity].
  - exists ["run"; "kukeon"]. split; [seg_side|reflexivity].
  - cbn. seg_side.
Defined.
