(* ===== verification/ScopeTeardown.v ===== *)
(** * ScopeTeardown: deleting and purging realms, spaces and stacks
    (runner/delete_realm.go, delete_space.go, delete_stack.go, purge_realm.go, purge_space.go,
    purge_stack.go)

    The state is the containerd client over a world that holds the namespaces, the networks,
    the cgroups and the metadata files, as in [Teardown] and [Scopes].  Deleting a scope that
    is not recorded is no failure; purging goes on past most failures. *)

From Stdlib Require Import Ascii ZArith Lia.
From stdpp Require Import base gmap strings list sorting.
From S2P Require Import Namespaces Prelude Model External Scheme Naming Layout Reclaim Observe NetPolicy OutOfSync OciSpec Containerd Cgroups Cni Teardown Attachable Scopes.

Local Open Scope nat_scope.

Definition BuildKitHistoryNamespaceSuffix : string := "_history".
Definition BuildKitHistoryNamespace (ns : string) : string := ns +:+ BuildKitHistoryNamespaceSuffix.

Section ScopeTeardown.
Context {W : Type} `{Containerd W} `{OciHost W} `{CniHost W} `{RunnerStore W} `{CgroupClient W} `{ScopeStore W} `{NamespaceServices W} `{HostConfig} (cniConf : Conf).
Notation C := (Client W).

Definition attached : st C (result unit) := st_check (wrapd ErrConnectContainerd) (remote sto_ensureClientConnected).

(** The recorded group, or the relative one of the default spec. *)
Definition groupOr (recorded : string) (spec : CgroupSpec) : string := if String.eqb recorded "" then cs_Group spec else recorded.
Definition deleteGroup (group : string) : st C (option error) :=
  let! mountpoint := remote cgp_GetCgroupMountpoint in
  remote (cgp_DeleteCgroup group mountpoint).

Definition drainOrphans (namespace : string) : st C unit :=
  let! containers := findOrphanedContainers namespace "" in
  match containers with
  | Err _ => st_ret ()
  | Ok ids => processOrphanedContainers cniConf namespace ids
  end.

(** The networks whose directory starts with the realm's name and a dash *)
Fixpoint purgeNetworks (names : list string) : st C unit :=
  match names with
  | [] => st_ret ()
  | n :: rest => let! _ := remote (purgeCNIForNetwork cniConf n) in purgeNetworks rest
  end.
Definition purgeRealmNetworks (realmName : string) : st C unit :=
  let! entries := remote (os_ReadDir CNINetworksDir) in
  match entries with
  | Err _ => st_ret ()
  | Ok l => purgeNetworks (fst <$> List.filter (fun e => e.2 && HasPrefix e.1 (realmName +:+ "-")) l)
  end.

Definition purgeBuildKitHistoryNamespace (ns : string) : st C (result unit) :=
  if String.eqb ns "" then st_ret (Ok ())
  else
    let historyNS := BuildKitHistoryNamespace ns in
    let! _ := remote (CleanupNamespaceResources historyNS "") in
    st_check (wrapf "failed to delete buildkit history namespace %q: %w") (remote (DeleteNamespace historyNS)).

(** ** Realms *)

Definition deleteRecordedRealm (realm : Realm) : st C (result unit) :=
  let ns := rsp_Namespace (realm_Spec realm) in
  let name := sm_Name (realm_Metadata realm) in
  let!? _ := attached in
  let! _ := drainOrphans ns in
  let! _ := remote (CleanupNamespaceResources ns "") in
  let!? _ := st_check (fun e => EWrap "%w: failed to delete realm cgroup: %w" [ESentinel ErrDeleteRealm; e])
               (deleteGroup (groupOr (rst_CgroupPath (realm_Status realm)) (DefaultRealmSpec realm))) in
  let! _ := remote (teardownRealmCNI cniConf name) in
  let! _ := purgeRealmNetworks name in
  let!? _ := st_check (fun e => EWrap "%w: failed to delete containerd namespace: %w" [ESentinel ErrDeleteRealm; e]) (remote (DeleteNamespace ns)) in
  let!? _ := st_wrap (wrapd ErrDeleteRealm) (purgeBuildKitHistoryNamespace ns) in
  st_check (fun e => EWrap "%w: failed to delete realm metadata: %w" [ESentinel ErrDeleteRealm; e])
    (remote (sto_DeleteMetadata (RealmMetadataPath RunPath name))).

Definition runnerDeleteRealm (realm : Realm) : st C (result unit) :=
  let!? _ := st_guard (negb (String.eqb (TrimSpace (sm_Name (realm_Metadata realm))) "")) (ESentinel ErrRealmNameRequired) in
  let! found := remote (sto_GetRealm realm) in
  match found with
  | Err e => st_ret (if error_is ErrRealmNotFound e then Ok () else Err (wrapd ErrGetRealm e))
  | Ok internalRealm => deleteRecordedRealm internalRealm
  end.

(** The survivors are named in the error. *)
Definition survivorsError (ns : string) (err : error) : st C error :=
  let! residual := findOrphanedContainers ns "" in
  st_ret (match residual with
          | Err listErr => EWrap "failed to delete containerd namespace %q (re-list of survivors failed: %w): %w" [listErr; err]
          | Ok (_ :: _) => EWrap "failed to delete containerd namespace %q (residual containers: %s): %w" [err]
          | Ok [] => EWrap "failed to delete containerd namespace %q: %w" [err]
          end).

(** Whether both namespaces are gone, and the first failure of the two. *)
Definition purgeNamespaces (ns : string) : st C (bool * option error) :=
  let! e := remote (DeleteNamespace ns) in
  let! nsErr := (match e with Some err => let! x := survivorsError ns err in st_ret (Some x) | None => st_ret None end) in
  let! h := purgeBuildKitHistoryNamespace ns in
  st_ret (match h with
          | Ok _ => (match nsErr with None => true | Some _ => false end, nsErr)
          | Err histErr => (false, Some (default histErr nsErr))
          end).

Definition purgeRealmOf (realmForOps : Realm) : st C (bool * option error) :=
  let ns := rsp_Namespace (realm_Spec realmForOps) in
  let name := sm_Name (realm_Metadata realmForOps) in
  let! connected := attached in
  match connected with
  | Err e => st_ret (false, Some e)
  | Ok _ =>
      let! _ := drainOrphans ns in
      let! _ := remote (teardownRealmCNI cniConf name) in
      let! _ := purgeRealmNetworks name in
      let! _ := remote (CleanupNamespaceResources ns "") in
      let! result := purgeNamespaces ns in
      let! _ := remote (scp_reclaimScopeMetadata (RealmMetadataDir RunPath name)) in
      let! _ := deleteGroup (groupOr (rst_CgroupPath (realm_Status realmForOps)) (DefaultRealmSpec realmForOps)) in
      st_ret result
  end.

Definition runnerPurgeRealm (realm : Realm) : st C (bool * option error) :=
  if String.eqb (TrimSpace (sm_Name (realm_Metadata realm))) "" then st_ret (false, Some (ESentinel ErrRealmNameRequired))
  else
    let! found := remote (sto_GetRealm realm) in
    match found with
    | Err e => if error_is ErrRealmNotFound e then purgeRealmOf realm else st_ret (false, Some (wrapd ErrGetRealm e))
    | Ok internalRealm => purgeRealmOf internalRealm
    end.

(** ** Spaces *)

Fixpoint purgeContainers (ns networkName : string) (ids : list string) : st C unit :=
  match ids with
  | [] => st_ret ()
  | id :: rest =>
      let! netnsPath := netnsOrEmpty ns id in
      let! _ := purgeCNI cniConf id netnsPath networkName in
      purgeContainers ns networkName rest
  end.
Definition purgeMatching (ns pattern networkName : string) : st C unit :=
  let! containers := findContainersByPattern ns pattern in
  match containers with Err _ => st_ret () | Ok ids => purgeContainers ns networkName ids end.

Definition nameOr (r : result string) : string := match r with Ok n => n | Err _ => "" end.

(** The space's realm, by its spec or by its label *)
Definition realmOfSpace (space : Space) : string :=
  let realmName := spsp_RealmName (space_Spec space) in
  if String.eqb realmName "" then TrimSpace (default "" (sm_Labels (space_Metadata space) !! realmLabelKey)) else realmName.

Definition deleteRecordedSpace (space : Space) : st C (result unit) :=
  let!? _ := attached in
  let realmName := realmOfSpace space in
  let name := sm_Name (space_Metadata space) in
  let! realm := remote (sto_GetRealm (realm_named realmName)) in
  let! _ := (match realm with
             | Err _ => st_ret ()
             | Ok r => purgeMatching (rsp_Namespace (realm_Spec r)) (realmName +:+ "-" +:+ name) (nameOr (getSpaceNetworkName space))
             end) in
  let! _ := remote (scp_removeSpaceEgressPolicy space) in
  let! _ := (match BuildSpaceNetworkName realmName name with
             | Err _ => st_ret ()
             | Ok networkName =>
                 let! confPath := ResolveSpaceCNIConfigPath realmName name in
                 let! _ := remote (teardownSpaceCNI cniConf networkName (nameOr confPath)) in
                 let! _ := remote (purgeCNIForNetwork cniConf networkName) in st_ret ()
             end) in
  let! _ := remote (scp_Release realmName name) in
  let! _ := deleteGroup (groupOr (sst_CgroupPath (space_Status space)) (DefaultSpaceSpec space)) in
  let!? _ := st_check (fun e => EWrap "%w: failed to delete space metadata: %w" [ESentinel ErrDeleteSpace; e])
               (remote (sto_DeleteMetadata (SpaceMetadataPath RunPath (spsp_RealmName (space_Spec space)) name))) in
  let! _ := remote (os_RemoveAll (SpaceMetadataDir RunPath (spsp_RealmName (space_Spec space)) name)) in
  st_ret (Ok ()).

Definition spaceNamed (space : Space) : result unit :=
  if String.eqb (TrimSpace (sm_Name (space_Metadata space))) "" then Err (ESentinel ErrSpaceNameRequired)
  else if String.eqb (TrimSpace (spsp_RealmName (space_Spec space))) "" then Err (ESentinel ErrRealmNameRequired) else Ok ().

Definition runnerDeleteSpace (space : Space) : st C (result unit) :=
  let!? _ := st_ret (spaceNamed space) in
  let! found := remote (sto_GetSpace space) in
  match found with
  | Err e => st_ret (if error_is ErrSpaceNotFound e then Ok () else Err (wrapd ErrGetSpace e))
  | Ok internalSpace => deleteRecordedSpace internalSpace
  end.

Definition purgeSpaceOf (space : Space) (internalSpace : option Space) : st C (result unit) :=
  let! realm := remote (sto_GetRealm (realm_named (spsp_RealmName (space_Spec space)))) in
  match realm with
  | Err _ => st_ret (Ok ())
  | Ok internalRealm =>
      let networkName := match internalSpace with Some s => nameOr (getSpaceNetworkName s) | None => "" end in
      let! _ := (match internalSpace with
                 | Some s =>
                     match getSpaceNetworkName s with
                     | Err _ => st_ret ()
                     | Ok n => let! _ := remote (teardownSpaceCNI cniConf n "") in let! _ := remote (purgeCNIForNetwork cniConf n) in st_ret ()
                     end
                 | None => st_ret ()
                 end) in
      let! connected := attached in
      let! _ := (match connected with
                 | Err _ => st_ret ()
                 | Ok _ => purgeMatching (rsp_Namespace (realm_Spec internalRealm))
                             (spsp_RealmName (space_Spec space) +:+ "-" +:+ sm_Name (space_Metadata space)) networkName
                 end) in
      let! _ := deleteGroup (cs_Group (DefaultSpaceSpec space)) in
      let! _ := remote (scp_reclaimScopeMetadata (SpaceMetadataDir RunPath (spsp_RealmName (space_Spec space)) (sm_Name (space_Metadata space)))) in
      st_ret (Ok ())
  end.
Definition runnerPurgeSpace (space : Space) : st C (result unit) :=
  let!? _ := st_ret (spaceNamed space) in
  let! _ := runnerDeleteSpace space in
  let! found := remote (sto_GetSpace space) in
  match found with
  | Err e => if error_is ErrSpaceNotFound e then purgeSpaceOf space None else st_ret (Err (wrapd ErrGetSpace e))
  | Ok s => purgeSpaceOf s (Some s)
  end.

(** ** Stacks *)

Definition stackNamed (stack : Stack) : result unit :=
  if String.eqb (TrimSpace (sm_Name (stack_Metadata stack))) "" then Err (ESentinel ErrStackNameRequired)
  else if String.eqb (TrimSpace (stsp_RealmName (stack_Spec stack))) "" then Err (ESentinel ErrRealmNameRequired)
  else if String.eqb (TrimSpace (stsp_SpaceName (stack_Spec stack))) "" then Err (ESentinel ErrSpaceNameRequired) else Ok ().
Definition stackPattern (stack : Stack) : string :=
  stsp_RealmName (stack_Spec stack) +:+ "-" +:+ stsp_SpaceName (stack_Spec stack) +:+ "-" +:+ sm_Name (stack_Metadata stack).

(** What survives in the directory of a stack: [Reclaim.scanStackDirCellResidue] on its
    entries, sorted; a missing directory has none. *)
Definition residueOf (dir : string) : st C (result (list string)) :=
  let! entries := remote (os_ReadDir dir) in
  st_ret (match entries with
          | Err e => if os_NotExist e then Ok [] else Err e
          | Ok l => Ok (merge_sort str_le (scanStackDirCellResidue (Some ((fun e => (e.1, File "")) <$> l))))
          end).

Definition deleteRecordedStack (stack : Stack) : st C (result unit) :=
  let sp := stack_Spec stack in
  let!? _ := attached in
  let! realm := remote (sto_GetRealm (realm_named (stsp_RealmName sp))) in
  let! _ := (match realm with
             | Err _ => st_ret ()
             | Ok r =>
                 let! space := remote (sto_GetSpace (space_named (stsp_RealmName sp) (stsp_SpaceName sp))) in
                 match space with
                 | Err _ => st_ret ()
                 | Ok s => purgeMatching (rsp_Namespace (realm_Spec r)) (stackPattern stack) (nameOr (getSpaceNetworkName s))
                 end
             end) in
  let! _ := deleteGroup (groupOr (sst_CgroupPath (stack_Status stack)) (DefaultStackSpec stack)) in
  let dir := StackMetadataDir RunPath (stsp_RealmName sp) (stsp_SpaceName sp) (sm_Name (stack_Metadata stack)) in
  let!? residue := st_wrap (fun e => EWrap "%w: scan stack dir %q: %w" [ESentinel ErrDeleteStack; e]) (residueOf dir) in
  let!? _ := st_guard (match residue with [] => true | _ => false end)
               (EWrap "%w: cell subdirectory residue under %s — cascade did not remove %s; inspect and remove by hand before re-running" [ESentinel ErrDeleteStack]) in
  let!? _ := st_check (fun e => EWrap "%w: failed to delete stack metadata: %w" [ESentinel ErrDeleteStack; e])
               (remote (sto_DeleteMetadata (StackMetadataPath RunPath (stsp_RealmName sp) (stsp_SpaceName sp) (sm_Name (stack_Metadata stack))))) in
  st_check (fun e => EWrap "%w: failed to remove stack directory %s: %w" [ESentinel ErrDeleteStack; e]) (remote (os_RemoveAll dir)).

Definition runnerDeleteStack (stack : Stack) : st C (result unit) :=
  let!? _ := st_ret (stackNamed stack) in
  let! found := remote (scp_GetStack stack) in
  match found with
  | Err e => st_ret (if error_is ErrStackNotFound e then Ok () else Err (wrapd ErrGetStack e))
  | Ok internalStack => deleteRecordedStack internalStack
  end.

Definition purgeStackOf (stack : Stack) : st C (result unit) :=
  let sp := stack_Spec stack in
  let! realm := remote (sto_GetRealm (realm_named (stsp_RealmName sp))) in
  match realm with
  | Err _ => st_ret (Ok ())
  | Ok r =>
      let! space := remote (sto_GetSpace (space_named (stsp_RealmName sp) (stsp_SpaceName sp))) in
      match space with
      | Err _ => st_ret (Ok ())
      | Ok s =>
          let! connected := attached in
          let! _ := (match connected with
                     | Err _ => st_ret ()
                     | Ok _ => purgeMatching (rsp_Namespace (realm_Spec r)) (stackPattern stack) (nameOr (getSpaceNetworkName s))
                     end) in
          let! _ := deleteGroup (cs_Group (DefaultStackSpec stack)) in
          let! _ := remote (scp_reclaimScopeMetadata (StackMetadataDir RunPath (stsp_RealmName sp) (stsp_SpaceName sp) (sm_Name (stack_Metadata stack)))) in
          st_ret (Ok ())
      end
  end.
Definition runnerPurgeStack (stack : Stack) : st C (result unit) :=
  let!? _ := st_ret (stackNamed stack) in
  let! _ := runnerDeleteStack stack in
  let! found := remote (scp_GetStack stack) in
  match found with
  | Ok s => purgeStackOf s
  | Err e => if error_is ErrStackNotFound e then purgeStackOf stack else st_ret (Err (wrapd ErrGetStack e))
  end.

End ScopeTeardown.

(** ** Theorems: the order of a deletion *)

(** [R] is kept by everything a scope's deletion calls but the removal of the metadata file
    and of its directory. *)
Class ScopeRespects {W : Type} `{Containerd W} `{OciHost W} `{CniHost W} `{RunnerStore W} `{CgroupClient W} `{ScopeStore W} `{NamespaceServices W}
    (R : W → W → Prop) (P : string → Prop) := {
  scr_delete :: DeleteRespects R P;
  scr_removeAll : ∀ n, respects R (os_RemoveAll (FJoin [CNINetworksDir; n]));
  scr_ip : ∀ a, respects R (ip_run a);
  scr_connect : respects R nss_Connect;
  scr_list : respects R nss_List;
  scr_nsDelete : ∀ n, respects R (nss_Delete n);
  scr_leases : ∀ n, respects R (lease_List n);
  scr_leaseDelete : ∀ n l, respects R (lease_Delete n l);
  scr_leaseCreate : ∀ n, respects R (lease_Create n);
  scr_images : ∀ n, respects R (image_List n);
  scr_imageDelete : ∀ n i, respects R (image_Delete n i);
  scr_snaps : ∀ n s, respects R (snap_Walk n s);
  scr_snapRemove : ∀ n s k, respects R (snap_Remove n s k);
  scr_blobs : ∀ n, respects R (blob_Walk n);
  scr_blobDelete : ∀ n b, respects R (blob_Delete n b);
  scr_mount : respects R cgp_GetCgroupMountpoint;
  scr_cgroup : ∀ g m, respects R (cgp_DeleteCgroup g m);
  scr_getStack : ∀ t, respects R (scp_GetStack t)
}.

Section Order.
Context {W : Type} `{Containerd W} `{OciHost W} `{CniHost W} `{RunnerStore W} `{CgroupClient W} `{ScopeStore W} `{NamespaceServices W} `{HostConfig} (cniConf : Conf).
Context (R : W → W → Prop) (P : string → Prop) `{!ScopeRespects R P}.
Notation C := (Client W).
Notation on := (on_world R).

#[local] Hint Resolve remote_frame : frame.
#[local] Hint Resolve sr_load sr_list sr_task sr_status sr_kill sr_wait sr_taskDelete sr_sleep sr_now sr_connected sr_realm sr_space sr_cell sr_pull : frame.
#[local] Hint Resolve scr_removeAll scr_ip scr_connect scr_list scr_nsDelete scr_leases scr_leaseDelete scr_leaseCreate scr_images scr_imageDelete scr_snaps scr_snapRemove
  scr_blobs scr_blobDelete scr_mount scr_cgroup scr_getStack : frame.
#[local] Hint Extern 1 (respects R (cni_ConfListFromFile _)) => apply (cr_conf (R := R) (P := P)) : frame.
#[local] Hint Extern 1 (respects R (os_Stat _)) => apply (cr_stat (R := R) (P := P)) : frame.
#[local] Hint Extern 1 (respects R (os_ReadFile _)) => apply (cr_readFile (R := R) (P := P)) : frame.
#[local] Hint Extern 1 (respects R (os_Remove _)) => apply (cr_remove (R := R) (P := P)) : frame.
#[local] Hint Extern 1 (respects R (os_ReadDir _)) => apply (cr_readDir (R := R) (P := P)) : frame.
#[local] Hint Extern 1 (respects R (os_Glob _)) => apply (cr_glob (R := R) (P := P)) : frame.
#[local] Hint Extern 1 (respects R (iptables_run _)) => apply (cr_iptables (R := R) (P := P)) : frame.
#[local] Hint Extern 1 (respects R (sto_ensureClientConnected)) => apply (sr_connected (R := R) (P := P)) : frame.
#[local] Hint Extern 1 (respects R (sto_GetRealm _)) => apply (sr_realm (R := R) (P := P)) : frame.
#[local] Hint Extern 1 (respects R (sto_GetSpace _)) => apply (sr_space (R := R) (P := P)) : frame.
#[local] Hint Extern 1 (respects R (ip_run _)) => apply (scr_ip (R := R) (P := P)) : frame.
#[local] Hint Extern 1 (respects R (os_RemoveAll _)) => apply (scr_removeAll (R := R) (P := P)) : frame.
#[local] Hint Extern 1 (respects R (nss_Connect)) => apply (scr_connect (R := R) (P := P)) : frame.
#[local] Hint Extern 1 (respects R (nss_List)) => apply (scr_list (R := R) (P := P)) : frame.
#[local] Hint Extern 1 (respects R (nss_Delete _)) => apply (scr_nsDelete (R := R) (P := P)) : frame.
#[local] Hint Extern 1 (respects R (cgp_GetCgroupMountpoint)) => apply (scr_mount (R := R) (P := P)) : frame.
#[local] Hint Extern 1 (respects R (cgp_DeleteCgroup _ _)) => apply (scr_cgroup (R := R) (P := P)) : frame.
#[local] Hint Extern 1 (respects R (scp_GetStack _)) => apply (scr_getStack (R := R) (P := P)) : frame.

Lemma DeleteNamespace_frame n : respects R (DeleteNamespace n).
Proof. unfold DeleteNamespace. solve_frame. Qed.
Lemma deleteEach_frame del l : (∀ x, respects R (del x)) → respects R (deleteEach del l).
Proof. intros Hd. induction l as [|x l IH]; cbn; solve_frame. Qed.
Lemma drainListed_frame lst del : respects R lst → (∀ x, respects R (del x)) → respects R (drainListed lst del).
Proof. intros Hl Hd. unfold drainListed. apply respects_bind; [apply _|done|]. intros [l|e]; [by apply deleteEach_frame|solve_frame]. Qed.
Lemma removeSnapshots_frame n s keys k : respects R (removeSnapshots n s keys k).
Proof. revert k. induction keys as [|x l IH]; intros k; cbn; solve_frame. Qed.
#[local] Hint Resolve removeSnapshots_frame : frame.
Lemma snapshotPasses_frame fuel n s k : respects R (snapshotPasses fuel n s k).
Proof. revert k. induction fuel as [|f IH]; intros k; cbn; unfold cleanupSnapshotPass; solve_frame. Qed.
#[local] Hint Resolve snapshotPasses_frame : frame.
Lemma cleanupSnapshotters_frame n l : respects R (cleanupSnapshotters n l).
Proof. induction l as [|x l IH]; cbn; unfold cleanupSnapshotsFor; solve_frame. Qed.
#[local] Hint Resolve cleanupSnapshotters_frame : frame.
Lemma Cleanup_frame n s : respects R (CleanupNamespaceResources n s).
Proof.
  unfold CleanupNamespaceResources, drainNamespaceResources, forceGCSweep, drainLeases, drainImages, drainBlobs.
  repeat first [ frame_step | apply drainListed_frame; [|intros ?] | progress eauto with frame | progress unfold cleanupSnapshotsFor ].
Qed.
#[local] Hint Resolve DeleteNamespace_frame Cleanup_frame : frame.

Lemma TeardownNetwork_frame m n p : respects R (TeardownNetwork m n p).
Proof. unfold TeardownNetwork, ReadBridgeName, readBridgePlugin, DeleteNetwork, ExistsNetworkConfig, DeleteBridge. solve_frame. Qed.
#[local] Hint Resolve TeardownNetwork_frame : frame.
Lemma teardownSpace_frame n p : respects R (teardownSpaceCNI cniConf n p).
Proof. unfold teardownSpaceCNI. solve_frame. Qed.
#[local] Hint Resolve teardownSpace_frame : frame.
Lemma teardownSpaces_frame r l : respects R (teardownSpaces cniConf r l).
Proof. induction l as [|[x b] l IH]; cbn; solve_frame. Qed.
#[local] Hint Resolve teardownSpaces_frame : frame.
Lemma teardownRealm_frame r : respects R (teardownRealmCNI cniConf r).
Proof. unfold teardownRealmCNI. solve_frame. Qed.
Lemma removeNamed_frame n d l : respects R (removeNamed n d l).
Proof. induction l as [|[x b] l IH]; cbn; solve_frame. Qed.
#[local] Hint Resolve removeNamed_frame : frame.
Lemma purgeCacheDirs_frame n l : respects R (purgeCacheDirs n l).
Proof. induction l as [|x l IH]; cbn; solve_frame. Qed.
#[local] Hint Resolve purgeCacheDirs_frame : frame.
Lemma purgeNetwork_frame n : respects R (purgeCNIForNetwork cniConf n).
Proof. unfold purgeCNIForNetwork. solve_frame. Qed.
#[local] Hint Resolve teardownRealm_frame purgeNetwork_frame : frame.

Lemma attached_frame : respects on attached.
Proof. unfold attached. solve_frame. Qed.
Lemma drainOrphans_frame ns : respects on (drainOrphans cniConf ns).
Proof.
  unfold drainOrphans, findOrphanedContainers. repeat first [ frame_step | apply (processOrphanedContainers_frame cniConf R P), dr_delete | apply (ListContainers_frame R P) | progress eauto with frame ].
Qed.
Lemma purgeNetworks_frame l : respects on (purgeNetworks cniConf l).
Proof. induction l as [|x l IH]; cbn; solve_frame. Qed.
#[local] Hint Resolve attached_frame drainOrphans_frame purgeNetworks_frame : frame.
Lemma purgeRealmNetworks_frame r : respects on (purgeRealmNetworks cniConf r).
Proof. unfold purgeRealmNetworks. solve_frame. Qed.
Lemma deleteGroup_frame g : respects on (deleteGroup g).
Proof. unfold deleteGroup. solve_frame. Qed.
Lemma purgeHistory_frame ns : respects on (purgeBuildKitHistoryNamespace ns).
Proof. unfold purgeBuildKitHistoryNamespace. solve_frame. Qed.
Lemma purgeMatching_frame ns p n : respects on (purgeMatching cniConf ns p n).
Proof.
  unfold purgeMatching, findContainersByPattern, findOrphanedContainers.
  assert (Hl : ∀ ids, respects on (purgeContainers cniConf ns n ids)).
  { induction ids as [|x l IH]; cbn; [solve_frame|]. apply respects_bind; [apply _|apply (netnsOrEmpty_frame R P)|intros ?].
    apply respects_bind; [apply _|apply (purgeCNI_frame cniConf R P)|done]. }
  repeat first [ frame_step | apply (ListContainers_frame R P) | progress eauto with frame ].
Qed.
Lemma residue_frame d : respects on (residueOf d).
Proof. unfold residueOf. solve_frame. Qed.
#[local] Hint Resolve purgeRealmNetworks_frame deleteGroup_frame purgeHistory_frame purgeMatching_frame residue_frame : frame.

(** A step before the last: either it fails and the rest is not run, or it is passed. *)
Lemma st_try_split {S A B} (m : st S (result A)) (k : A → st S (result B)) s s' r :
  st_try m k s = (s', r) → (∃ e, m s = (s', Err e) ∧ r = Err e) ∨ (∃ s1 a, m s = (s1, Ok a) ∧ k a s1 = (s', r)).
Proof. unfold st_try, st_bind, st_ret. destruct (m s) as [s1 [a|e]]; [eauto|]. intros [= <- <-]. eauto. Qed.

Lemma st_check_frame wrap (m : st C (option error)) : respects on m → respects on (st_check wrap m).
Proof. intros Hm. solve_frame. Qed.

(** The states before and after differ by [R], or the metadata file was removed last. *)
Definition removes_last {A} (path : string) (c c' : C) (r : result A) : Prop :=
  on c c' ∧ (∃ e, r = Err e) ∨
  ∃ c1 e, on c c1 ∧ remote (sto_DeleteMetadata path) c1 = (c', e) ∧ (is_Ok r = true ↔ e = None).

Lemma removes_last_after {A} path c c1 c' (r : result A) : on c c1 → removes_last path c1 c' r → removes_last path c c' r.
Proof.
  intros K [[K1 K2]|(c2 & e & K1 & K2 & K3)]; [left; split; [by etrans|done]|right]. exists c2, e. split; [by etrans|done].
Qed.
Lemma removes_last_try {A B} path (m : st C (result A)) (k : A → st C (result B)) c c' r : respects on m →
  (∀ a c1, k a c1 = (c', r) → removes_last path c1 c' r) → st_try m k c = (c', r) → removes_last path c c' r.
Proof.
  intros Hm Hk [(e & E & ->)|(c1 & a & E & E2)]%st_try_split; apply (respects_at on) in E; try done; [left; eauto|].
  eapply removes_last_after; [exact E|by eapply Hk].
Qed.
Lemma removes_last_bind {A B} path (m : st C A) (k : A → st C (result B)) c c' r : respects on m →
  (∀ a c1, k a c1 = (c', r) → removes_last path c1 c' r) → st_bind m k c = (c', r) → removes_last path c c' r.
Proof. intros Hm Hk (c1 & a & E & E2)%st_bind_inv. apply (respects_at on) in E; [|done]. eapply removes_last_after; [exact E|by eapply Hk]. Qed.
Lemma removes_last_check path wrap c c' r : st_check wrap (remote (sto_DeleteMetadata path)) c = (c', r) → removes_last path c c' r.
Proof.
  unfold st_check, st_bind. destruct (remote _ c) as [c1 e] eqn:E. unfold st_ret. intros [= <- <-]. right. exists c, e. split; [reflexivity|]. by destruct e.
Qed.

(** deleting a realm removes its metadata file last, and only once its containers were
    drained, its cgroup was removed and its namespace and the build history's were deleted:
    when any of those fails the realm is still recorded, and can be deleted again. *)
Theorem realm_metadata_last realm c c' r :
  deleteRecordedRealm cniConf realm c = (c', r) →
  removes_last (RealmMetadataPath RunPath (sm_Name (realm_Metadata realm))) c c' r.
Proof.
  unfold deleteRecordedRealm. cbv zeta. apply removes_last_try; [solve_frame|]. intros _ c1. apply removes_last_bind; [solve_frame|]. intros _ c2.
  apply removes_last_bind; [solve_frame|]. intros _ c3. apply removes_last_try; [solve_frame|]. intros _ c4.
  apply removes_last_bind; [solve_frame|]. intros _ c5. apply removes_last_bind; [solve_frame|]. intros _ c6.
  apply removes_last_try; [solve_frame|]. intros _ c7. apply removes_last_try; [solve_frame|]. intros _ c8. apply removes_last_check.
Qed.

(** a stack is deleted only when nothing but its own files is left in its directory: when
    deleting it succeeds the directory was scanned just before and no cell was found, and
    otherwise its metadata file is still there unless its own removal failed. *)
Theorem stack_deleted_without_residue stack c c' r :
  deleteRecordedStack cniConf stack c = (c', r) →
  let sp := stack_Spec stack in
  let dir := StackMetadataDir RunPath (stsp_RealmName sp) (stsp_SpaceName sp) (sm_Name (stack_Metadata stack)) in
  let file := StackMetadataPath RunPath (stsp_RealmName sp) (stsp_SpaceName sp) (sm_Name (stack_Metadata stack)) in
  (on c c' ∧ ∃ e, r = Err e) ∨
  ∃ c1 c2 c3 e, on c c1 ∧ residueOf dir c1 = (c2, Ok []) ∧ remote (sto_DeleteMetadata file) c2 = (c3, e) ∧
    match e with Some _ => c' = c3 ∧ ∃ e', r = Err e' | None => c' = (remote (os_RemoveAll dir) c3).1 end.
Proof.
  unfold deleteRecordedStack. cbv zeta. intros [(e & E & ->)|(c1 & u & E & E2)]%st_try_split.
  { apply (respects_at on) in E; [eauto|solve_frame]. }
  apply (respects_at on) in E as G1; [|solve_frame]. apply st_bind_inv in E2 as (c2 & realm & E3 & E2). apply (respects_at on) in E3; [|solve_frame].
  apply st_bind_inv in E2 as (c3 & u3 & E4 & E2). apply (respects_at on) in E4; [|solve_frame].
  apply st_bind_inv in E2 as (c4 & u4 & E5 & E2). apply (respects_at on) in E5; [|solve_frame].
  assert (G4 : on c c4) by (do 3 (etrans; [eassumption|]); assumption).
  apply st_try_split in E2 as [(e & E6 & ->)|(c5 & residue & E6 & E2)]; apply (respects_at on) in E6 as G5; try solve_frame.
  { left. split; [by etrans|eauto]. }
  apply st_wrap_ok in E6. apply st_try_split in E2 as [(e & E7 & ->)|(c6 & u6 & E7 & E2)].
  { apply (respects_at on) in E7; [|solve_frame]. left. split; [do 2 (etrans; [eassumption|]); assumption|eauto]. }
  apply st_guard_ok in E7 as [-> Hres]. destruct residue; [|done].
  right. apply st_try_split in E2 as [(e & E8 & ->)|(c7 & u7 & E8 & E2)].
  - unfold st_check, st_bind in E8. destruct (remote (sto_DeleteMetadata _) c5) as [c8 oe] eqn:E9. unfold st_ret in E8. exists c4, c5, c8, oe. split; [done|]. split; [done|]. split; [done|].
    destruct oe; [|done]. injection E8 as <- <-. eauto.
  - apply st_check_ok in E8. exists c4, c5, c7, None. split; [done|]. split; [done|]. split; [done|].
    unfold st_check, st_bind in E2. destruct (remote (os_RemoveAll _) c7). by injection E2 as <- _.
Qed.

End Order.

(** ** Theorems: the namespaces of a realm *)

(** containerd's list of namespaces is exact, and a namespace it says it deleted is gone. *)
Class NamespaceLaws (W : Type) `{NamespaceServices W} := {
  ns_of : W → gset string;
  law_nsList : ∀ w w' l, nss_List w = (w', Ok l) → ns_of w' = list_to_set l;
  law_nsDelete : ∀ n w w', nss_Delete n w = (w', None) → n ∉ ns_of w'
}.

Section Gone.
Context {W : Type} `{Containerd W} `{OciHost W} `{CniHost W} `{RunnerStore W} `{CgroupClient W} `{ScopeStore W} `{NamespaceServices W} `{HostConfig} (cniConf : Conf).
Context `{!NamespaceLaws W} (P : string → Prop).
Definition no_new_namespaces (w w' : W) : Prop := ns_of w' ⊆ ns_of w.
Context `{!ScopeRespects no_new_namespaces P}.
Context (metadata_frame : ∀ p, respects no_new_namespaces (sto_DeleteMetadata p)) (reclaim_frame : ∀ p, respects no_new_namespaces (scp_reclaimScopeMetadata p)).
Notation C := (Client W).
Notation on := (on_world no_new_namespaces).

Lemma deleted_namespace n (c c' : C) : remote (DeleteNamespace n) c = (c', None) → n ≠ "" ∧ n ∉ ns_of (cl_world c').
Proof.
  intros E%remote_ok. unfold DeleteNamespace in E. destruct (String.eqb_spec n ""); [done|]. split; [done|].
  apply st_bind_inv in E as (w1 & r1 & _ & E). destruct r1; [done|]. apply st_bind_inv in E as (w2 & r2 & E2 & E). destruct r2 as [l|]; [|done].
  case_bool_decide as Hin; cbn [negb] in E.
  - apply st_bind_inv in E as (w3 & r3 & E3 & E). destruct r3; [done|]. unfold st_ret in E. injection E as <-. by apply law_nsDelete in E3.
  - unfold st_ret in E. injection E as <-. apply law_nsList in E2. rewrite E2. by rewrite elem_of_list_to_set.
Qed.

Lemma gone_later n (c c' : C) : on c c' → n ∉ ns_of (cl_world c) → n ∉ ns_of (cl_world c').
Proof. unfold on_world, no_new_namespaces. set_solver. Qed.

Lemma history_gone ns (c c' : C) : ns ≠ "" → purgeBuildKitHistoryNamespace ns c = (c', Ok ()) →
  on c c' ∧ BuildKitHistoryNamespace ns ∉ ns_of (cl_world c').
Proof.
  intros Hn E. apply (respects_at on) in E as G; [|apply (purgeHistory_frame no_new_namespaces P)]. split; [done|].
  unfold purgeBuildKitHistoryNamespace in E. rewrite (proj2 (String.eqb_neq _ _) Hn) in E. cbv zeta in E. apply st_bind_inv in E as (c1 & u & _ & E).
  apply st_check_ok in E. by apply deleted_namespace in E as [_ E].
Qed.

(** a realm that was deleted leaves no containerd namespace behind, neither its own nor
    the one of its build history. *)
Theorem deleted_realm_namespaces realm c c' :
  deleteRecordedRealm cniConf realm c = (c', Ok ()) →
  rsp_Namespace (realm_Spec realm) ∉ ns_of (cl_world c') ∧ BuildKitHistoryNamespace (rsp_Namespace (realm_Spec realm)) ∉ ns_of (cl_world c').
Proof.
  unfold deleteRecordedRealm. cbv zeta. intros E. apply st_try_ok in E as (c1 & u1 & _ & E). do 2 (apply st_bind_inv in E as (? & ? & _ & E)).
  apply st_try_ok in E as (c4 & u4 & _ & E). do 2 (apply st_bind_inv in E as (? & ? & _ & E)).
  apply st_try_ok in E as (c7 & u7 & E7 & E). apply st_check_ok, deleted_namespace in E7 as [Hn Hg].
  apply st_try_ok in E as (c8 & [] & E8 & E). apply st_wrap_ok, history_gone in E8 as [K8 Hh]; [|done].
  apply st_check_ok in E. apply (respects_at on) in E; [|by apply remote_frame]. split; [|by eapply gone_later]. by eapply gone_later; [exact E|eapply gone_later].
Qed.

(** C27: A purge reports that a realm's namespaces were removed exactly when it reports no
    error, and then the namespace of the realm as it is recorded, or as it was asked for when
    there is no record, and that of its build history are both gone, although the purge goes
    on after most failures. *)
Theorem purge_report_honest realm c c' removed err :
  runnerPurgeRealm cniConf realm c = (c', (removed, err)) →
  (removed = true ↔ err = None) ∧
  let ns := rsp_Namespace (realm_Spec (match (remote (sto_GetRealm realm) c).2 with Ok recorded => recorded | Err _ => realm end)) in
  (removed = true → ns ∉ ns_of (cl_world c') ∧ BuildKitHistoryNamespace ns ∉ ns_of (cl_world c')).
Proof.
  assert (Hof : ∀ r c0, purgeRealmOf cniConf r c0 = (c', (removed, err)) → (removed = true ↔ err = None) ∧
    (removed = true → rsp_Namespace (realm_Spec r) ∉ ns_of (cl_world c') ∧ BuildKitHistoryNamespace (rsp_Namespace (realm_Spec r)) ∉ ns_of (cl_world c'))).
  { intros r c0 E. unfold purgeRealmOf in E. cbv zeta in E. apply st_bind_inv in E as (c1 & r1 & _ & E). destruct r1; [|unfold st_ret in E; injection E as <- <- <-; split; [split|]; done].
    do 4 (apply st_bind_inv in E as (? & ? & _ & E)). apply st_bind_inv in E as (c2 & res & E2 & E).
    apply st_bind_inv in E as (c3 & u3 & E3 & E). apply (respects_at on) in E3; [|by apply remote_frame].
    apply st_bind_inv in E as (c4 & u4 & E4 & E). apply (respects_at on) in E4; [|apply (deleteGroup_frame no_new_namespaces P)].
    unfold st_ret in E. assert (res = (removed, err)) as -> by congruence. assert (c4 = c') as -> by congruence. clear E.
    unfold purgeNamespaces in E2. apply st_bind_inv in E2 as (d1 & e1 & F1 & E2). apply st_bind_inv in E2 as (d2 & nsErr & F2 & E2).
    apply st_bind_inv in E2 as (d3 & h & F3 & E2). destruct h as [[]|he]; unfold st_ret in E2; [|injection E2 as _ <- <-; split; [split|]; done].
    assert (d3 = c2) as -> by congruence. assert (E5 : (match nsErr with None => true | Some _ => false end, nsErr) = (removed, err)) by congruence.
    injection E5 as <- ->. split; [by destruct err|]. destruct err; [done|]. intros _. destruct e1 as [ee|].
    { apply st_bind_inv in F2 as (? & ? & _ & F2). by unfold st_ret in F2. }
    unfold st_ret in F2. injection F2 as ->. apply deleted_namespace in F1 as [Hn Hg]. apply history_gone in F3 as [K3 Hh]; [|done].
    assert (K4 : on c2 c') by by etrans. split; eapply gone_later; try exact K4; try done. by eapply gone_later. }
  unfold runnerPurgeRealm. destruct (String.eqb _ ""); [unfold st_ret; intros [= <- <- <-]; split; [split|]; done|]. unfold st_bind.
  destruct (remote (sto_GetRealm realm) c) as [c1 [r|e]]; cbn [snd].
  - by apply Hof.
  - destruct (error_is ErrRealmNotFound e); [|unfold st_ret; intros [= <- <- <-]; split; [split|]; done]. by apply Hof.
Qed.

End Gone.

(** The groups a purge of a space or a stack asks to delete are not the scopes' own: the base
    they were created below is missing. *)
Lemma purged_group_misses : cs_Group (DefaultSpaceSpec (space_named "r" "s")) ≠ scope_group "/kukeon" (ScSpace "r" "s").
Proof. vm_compute. discriminate. Qed.

(** Deleting a recorded space, when it reports success, ends by removing the whole directory of
    the space: a purge deletes first and spares the retained volumes afterwards, when they are
    gone. *)
Lemma deleted_space_wipes_directory {W : Type} `{Containerd W} `{OciHost W} `{CniHost W} `{RunnerStore W} `{CgroupClient W} `{ScopeStore W}
    `{NamespaceServices W} `{HostConfig} cniConf space (c c' : Client W) :
  deleteRecordedSpace cniConf space c = (c', Ok ()) →
  ∃ c0, c' = (remote (os_RemoveAll (SpaceMetadataDir RunPath (spsp_RealmName (space_Spec space)) (sm_Name (space_Metadata space)))) c0).1.
Proof.
  unfold deleteRecordedSpace. intros E. apply st_try_ok in E as (c1 & [] & _ & E). do 6 apply st_bind_inv in E as (? & ? & _ & E).
  apply st_try_ok in E as (c2 & u & _ & E). apply st_bind_inv in E as (c3 & e & E3 & E). unfold st_ret in E. injection E as <-.
  exists c2. by rewrite E3.
Qed.

(** ** A concrete host: [Host] with the namespaces and the realm's file among its records *)

#[local] Instance quiet_Cni : CniHost Host := {|
  NetConf := (); CniResult := (); os_Stat := fun _ => st_ret None; os_ReadFile := fun _ => st_ret (Ok "");
  os_WriteFile := fun _ _ _ => st_ret None; os_Remove := fun _ => st_ret None; os_RemoveAll := fun _ => st_ret None;
  os_MkdirAll := fun _ _ => st_ret None; os_ReadDir := fun _ => st_ret (Ok [("metadata.json", false); ("r-s", true)]); os_Glob := fun _ => st_ret (Ok []);
  os_NotExist := fun _ => false; sys_Stat := fun p => st_ret (Ok (0%Z, if String.eqb p selfNetns then 1%Z else 7%Z));
  json_Decode := fun _ => Err (EOpaque "unsupported"); json_Encode := fun _ => Err (EOpaque "unsupported");
  json_DecodeBridge := fun _ => Err (EOpaque "unsupported"); err_Text := fun _ => "";
  iptables_run := fun _ => st_ret ("", None); ip_run := fun _ => st_ret ("", None);
  cni_ConfListFromFile := fun _ => st_ret (Ok ()); net_Name := fun _ => ""; net_Plugins := fun _ => [];
  cni_AddNetworkList := fun _ _ => st_ret (Ok ()); cni_DelNetworkList := fun _ _ => st_ret None;
  cni_CachedResult := fun _ _ => st_ret (Ok None); result_IPs := fun _ => Ok [] |}.
Definition drop_record (r : string) : st Host (option error) := fun w =>
  ({| ho_containers := ho_containers w; ho_records := List.filter (fun x => negb (String.eqb x r)) (ho_records w); ho_detached := ho_detached w |}, None).
Definition ns_record (n : string) : string := "ns:" +:+ n.
Definition ns_listed (w : Host) : list string :=
  omap (fun r => after_prefix "ns:" r) (ho_records w).
#[local] Instance quiet_Runner : RunnerStore Host := {|
  sto_nowUTC := st_ret 9%Z; sto_ensureClientConnected := st_ret None;
  sto_GetRealm := fun _ => st_ret (Ok host_realm); sto_GetSpace := fun s => st_ret (Ok s);
  sto_GetCell := fun _ => st_ret (Ok host_cell); sto_UpdateCellMetadata := fun _ => st_ret None;
  sto_DeleteMetadata := drop_record; sto_pullSetupStatus := fun _ => st_ret (Err (EOpaque "no socket"));
  sto_cgroupMountpoint := "/sys/fs/cgroup"; sto_DeleteCgroup := fun _ _ => st_ret None |}.
#[local] Instance quiet_Namespaces : NamespaceServices Host := {|
  nss_Connect := st_ret None; nss_List := fun w => (w, Ok (ns_listed w)); nss_Create := fun _ => st_ret None; nss_Delete := fun n => drop_record (ns_record n);
  lease_List := fun _ => st_ret (Ok []); lease_Delete := fun _ _ => st_ret None; lease_Create := fun _ => st_ret (Ok "");
  image_List := fun _ => st_ret (Ok []); image_Delete := fun _ _ => st_ret None; snap_Walk := fun _ _ => st_ret (Ok []);
  snap_Remove := fun _ _ _ => st_ret None; blob_Walk := fun _ => st_ret (Ok []); blob_Delete := fun _ _ => st_ret None |}.
#[local] Instance quiet_Cgroups : CgroupClient Host := {|
  cgp_NewCgroup := fun _ => st_ret (Ok true); cgp_LoadCgroup := fun _ _ => st_ret (Ok ());
  cgp_GetCgroupMountpoint := st_ret "/sys/fs/cgroup"; cgp_GetCurrentCgroupPath := st_ret (Ok "/kukeon");
  cgp_CgroupPath := fun g m => st_ret (Ok (group_path m g));
  cgp_EnsureSubtreeControllers := fun _ _ l => st_ret (Ok l); cgp_EnableCellSubtreeControllers := fun _ _ l => st_ret (Ok l);
  cgp_EnableCellAllSubtreeControllers := fun _ _ => st_ret (Ok []); cgp_DeleteCgroup := fun _ _ => st_ret None |}.
#[local] Instance quiet_Store : ScopeStore Host := {|
  scp_GetStack := fun t => st_ret (Ok t);
  scp_UpdateRealmMetadata := fun _ => st_ret None; scp_UpdateSpaceMetadata := fun _ => st_ret None; scp_UpdateStackMetadata := fun _ => st_ret None;
  scp_WriteSpaceDoc := fun _ _ => st_ret None; scp_stampSpaceLifecycle := fun _ s => s;
  scp_LoadAssigned := fun _ _ => st_ret (Ok ""); scp_Allocate := fun _ _ => st_ret (Ok "10.88.1.0/24"); scp_Release := fun _ _ => st_ret None;
  scp_applySpaceEgressPolicy := fun _ => st_ret None; scp_removeSpaceEgressPolicy := fun _ => st_ret None;
  scp_reclaimScopeMetadata := fun _ => st_ret None; scp_ContainerdSocket := "/run/containerd/containerd.sock" |}.
#[local] Instance quiet_Config : HostConfig := {| SignalName := fun _ => ""; RealmNamespaceSuffix := ".kukeon.io"; RunPath := "/run/kukeon" |}.

Lemma after_prefix_ns r n : after_prefix "ns:" r = Some n ↔ r = ns_record n.
Proof. split; [apply after_prefix_spec|]. intros ->. apply (after_prefix_self "ns:"). Qed.
Lemma listed_iff n w : n ∈ ns_listed w ↔ ns_record n ∈ ho_records w.
Proof.
  unfold ns_listed. rewrite list_elem_of_omap. split; [intros (r & Hr & E%after_prefix_ns); by subst|]. intros Hr. exists (ns_record n). split; [done|by apply after_prefix_ns].
Qed.
Lemma drop_record_iff r x w : x ∈ ho_records (drop_record r w).1 ↔ x ∈ ho_records w ∧ x ≠ r.
Proof.
  cbn. rewrite !list_elem_of_In, List.filter_In, negb_true_iff, String.eqb_neq. done.
Qed.
#[local] Instance quiet_NsLaws : NamespaceLaws Host.
Proof.
  refine {| ns_of := fun w => list_to_set (ns_listed w) |}.
  - intros w w' l [= <- <-]. done.
  - intros n w w' E. assert (w' = (drop_record (ns_record n) w).1) as -> by (by apply (f_equal fst) in E). rewrite elem_of_list_to_set, listed_iff, drop_record_iff. tauto.
Defined.

Lemma quiet_sanitize p (w : Host) : ∃ q, sanitizeDELNetns p w = (w, q).
Proof. unfold sanitizeDELNetns, delNetnsIsRunnerOwn. destruct (String.eqb p ""); by eexists. Qed.

(** Relations on the records that dropping the namespaces' ones keeps *)
Lemma quiet_respects (R : Host → Host → Prop) : PreOrder R → (∀ w w', ho_records w' = ho_records w → R w w') →
  (∀ n, respects R (drop_record (ns_record n))) → ScopeRespects R any_netns.
Proof.
  intros HR Hq Hd. assert (Hr : ∀ A (m : st Host A), (∀ w, ho_records (m w).1 = ho_records w) → respects R m) by (intros A m Hm w; apply Hq, Hm).
  assert (Hc : CniRespects R any_netns).
  { constructor; try done; intros; try (apply Hr; by intros w). destruct (quiet_sanitize p w) as [q ->]. split; [apply Hq; done|done]. }
  assert (Hs : StopRespects R any_netns) by (constructor; intros; try done; apply Hr; intros w; try done; by apply (host_keeps ho_records)).
  assert (Hdel : DeleteRespects R any_netns) by (constructor; [done|]; intros; apply Hr; intros w; by apply (host_keeps ho_records)).
  constructor; intros; try done; try (apply Hr; by intros w). apply Hd.
Qed.

Definition realm_file : string := "/run/kukeon/data/r/metadata.json".
Definition keeps_file (w w' : Host) : Prop := realm_file ∈ ho_records w → realm_file ∈ ho_records w'.
#[local] Instance quiet_keeps : ScopeRespects keeps_file any_netns.
Proof.
  apply quiet_respects; unfold keeps_file.
  - split; [by intros w|]. intros x y z K1 K2 Hx. auto.
  - intros w w' ->. done.
  - intros n w Hw. apply drop_record_iff. split; [done|]. intros E. discriminate E.
Qed.
#[local] Instance quiet_no_new : ScopeRespects no_new_namespaces any_netns.
Proof.
  apply quiet_respects; unfold no_new_namespaces.
  - split; [by intros w|]. intros x y z K1 K2. cbn in *. set_solver.
  - intros w w' E. cbn. unfold ns_listed. by rewrite E.
  - intros n w x. cbn [ns_of quiet_NsLaws]. rewrite !elem_of_list_to_set, !listed_iff, drop_record_iff. tauto.
Qed.

Definition full_client : Client Host := MkClient
  {| ho_containers := list_to_map [(("r.kukeon.io", "s_t_web_app"), true)];
     ho_records := [realm_file; "ns:r.kukeon.io"; "ns:r.kukeon.io_history"; "ns:k8s.io"]; ho_detached := [] |} ∅ ∅.

Lemma realm_metadata_last_witness :
  let r := deleteRecordedRealm host_conf host_realm full_client in
  removes_last keeps_file realm_file full_client r.1 r.2.
Proof.
  cbv zeta. destruct (deleteRecordedRealm host_conf host_realm full_client) as [c' r] eqn:E.
  exact (realm_metadata_last host_conf keeps_file any_netns host_realm full_client c' r E).
Defined.

Lemma stack_deleted_without_residue_witness :
  let r := deleteRecordedStack host_conf (stack_named "r" "s" "t") full_client in
  ∃ e, r.2 = Err e.
Proof.
  cbv zeta. destruct (deleteRecordedStack host_conf (stack_named "r" "s" "t") full_client) as [c' r] eqn:E.
  destruct (stack_deleted_without_residue host_conf keeps_file any_netns (stack_named "r" "s" "t") full_client c' r E) as [[_ K]|(c1 & c2 & c3 & e & _ & K & _)]; [exact K|].
  apply (f_equal snd) in K. discriminate K.
Defined.

Lemma deleted_realm_namespaces_witness :
  let c' := (deleteRecordedRealm host_conf host_realm full_client).1 in
  "r.kukeon.io" ∉ ns_of (cl_world c') ∧ "r.kukeon.io_history" ∉ ns_of (cl_world c').
Proof.
  cbv zeta. destruct (deleteRecordedRealm host_conf host_realm full_client) as [c' r] eqn:E.
  assert (r = Ok ()) as -> by (apply (f_equal snd) in E; vm_compute in E; exact (eq_sym E)).
  refine (deleted_realm_namespaces host_conf any_netns _ _ host_realm full_client c' E); [|by intros p w x].
  intros p w x. cbn [ns_of quiet_NsLaws]. rewrite !elem_of_list_to_set, !listed_iff, drop_record_iff. tauto.
Defined.

Lemma purge_report_honest_witness :
  let r := runnerPurgeRealm host_conf host_realm full_client in
  r.2 = (true, None) ∧ rsp_Namespace (realm_Spec host_realm) ∈ ns_of (cl_world full_client) ∧
  rsp_Namespace (realm_Spec host_realm) ∉ ns_of (cl_world r.1).
Proof.
  intros r. assert (Er : r.2 = (true, None)) by by vm_compute.
  split_and!; [exact Er|apply (bool_decide_unpack _); by vm_compute|].
  refine (proj1 (proj2 (purge_report_honest host_conf any_netns _ _ host_realm full_client r.1 true None _) eq_refl)).
  - intros p w x. cbn [ns_of quiet_NsLaws]. rewrite !elem_of_list_to_set, !listed_iff, drop_record_iff. tauto.
  - by intros p w x.
  - by rewrite <-Er, <-!surjective_pairing.
Defined.
