(* ===== verification/DiskPressure.v ===== *)
(** * DiskPressure: the usage of a data volume and what it stops
    (internal/util/diskpressure, guardDiskPressure of runner/create_cell.go,
    checkDiskPressure of controller/reconcile.go)

    A volume's usage is computed from one statfs call in 64-bit arithmetic and divided as
    float64 numbers, which are the binary64 numbers of the Standard Library's [SpecFloat].  A
    new cell is refused on a volume at or over the block threshold; a volume over the warn
    threshold is reported at most once per window and realm. *)

From Stdlib Require Import ZArith Lia SpecFloat Sorted.
From stdpp Require Import base gmap strings list.
From S2P Require Import Prelude Model Layout Observe Attachable.

Local Open Scope Z_scope.

(** ** Machine numbers *)

Definition uint64 (z : Z) : Z := z mod 18446744073709551616.
(** Conversion of an integer, division and multiplication of float64, rounded to nearest. *)
Definition float64 (n : Z) : spec_float := binary_normalize 53 1024 n 0 false.
Definition fdiv : spec_float → spec_float → spec_float := SFdiv 53 1024.
Definition fmul : spec_float → spec_float → spec_float := SFmul 53 1024.
Definition fge (x y : spec_float) : bool := SFleb y x.
Definition flt (x y : spec_float) : bool := SFltb x y.

(** ** Sampling a volume *)

(** The fields of unix.Statfs_t that are read: an int64 and three uint64. *)
Record Statfs_t := { sf_Bsize : Z; sf_Blocks : Z; sf_Bfree : Z; sf_Bavail : Z }.
Class DiskHost (W : Type) := { unix_Statfs : string → st W (result Statfs_t) }.

Record Usage := { us_TotalBytes : Z; us_AvailBytes : Z; us_UsedBytes : Z; us_UsedPercent : spec_float }.
Definition percentScale : Z := 100.

Definition usageOf (s : Statfs_t) : Usage :=
  let bsize := uint64 (sf_Bsize s) in
  let total := uint64 (sf_Blocks s * bsize) in
  let avail := uint64 (sf_Bavail s * bsize) in
  let used := uint64 (uint64 (sf_Blocks s - sf_Bfree s) * bsize) in
  let denom := uint64 (used + avail) in
  {| us_TotalBytes := total; us_AvailBytes := avail; us_UsedBytes := used;
     us_UsedPercent := if 0 <? denom then fmul (fdiv (float64 used) (float64 denom)) (float64 percentScale) else float64 0 |}.

Section DiskPressure.
Context {W : Type} `{DiskHost W} `{HostConfig} `{RunnerOpts}.

Definition Sample (path : string) : st W (result Usage) :=
  let!? s := st_wrap (wrapf "statfs %s: %w") (unix_Statfs path) in
  st_ret (Ok (usageOf s)).

(** ** The guard on new cells *)

Definition guardDiskPressure (cell : Cell) : st W (option error) :=
  if opt_DiskPressureBlockPercent <=? 0 then st_ret None
  else if csp_IgnoreDiskPressure (cell_Spec cell) then st_ret None
  else
    let! usage := Sample (RealmMetadataDir RunPath (csp_RealmName (cell_Spec cell))) in
    st_ret (match usage with
            | Err _ => None
            | Ok u => if fge (us_UsedPercent u) (float64 opt_DiskPressureBlockPercent)
                      then Some (EWrap "%w: data volume %s is at %.1f%% (block threshold %d%%); free space or pass --ignore-disk-pressure" [ESentinel ErrDiskPressure])
                      else None
            end).
End DiskPressure.

(** ** Rate-limited warnings *)

Record Warner := { wn_last : gmap string Time; wn_window : Z }.
Definition NewWarner (window : Z) : Warner := {| wn_last := ∅; wn_window := window |}.
(** time.Time.Sub saturates at the bounds of a Duration. *)
Definition time_Sub (a b : Time) : Z := saturate64 (a - b).

Definition ShouldWarn (now : Time) (key : string) : st Warner bool := fun w =>
  if wn_window w <=? 0 then (w, true)
  else
    let fresh := match wn_last w !! key with Some last => time_Sub now last <? wn_window w | None => false end in
    if fresh then (w, false) else ({| wn_last := <[key := now]> (wn_last w); wn_window := wn_window w |}, true).

Section Warnings.
Context {W : Type} `{DiskHost W} `{HostConfig} (time_Now : st W Time).

(** The names of the realms a warning is written for.  The clock is read only when the
    window is positive. *)
Fixpoint checkEach (warnPercent : Z) (realms : list Realm) (warner : Warner) : st W (Warner * list string) :=
  match realms with
  | [] => st_ret (warner, [])
  | realm :: rest =>
      let realmName := sm_Name (realm_Metadata realm) in
      let! usage := Sample (RealmMetadataDir RunPath realmName) in
      match usage with
      | Err _ => checkEach warnPercent rest warner
      | Ok u =>
          if flt (us_UsedPercent u) (float64 warnPercent) then checkEach warnPercent rest warner
          else
            let! now := (if wn_window warner <=? 0 then st_ret 0 else time_Now) in
            let asked := ShouldWarn now realmName warner in
            let! out := checkEach warnPercent rest asked.1 in
            st_ret (out.1, if asked.2 then realmName :: out.2 else out.2)
      end
  end.
Definition checkDiskPressure (warnPercent : Z) (realms : list Realm) (warner : Warner) : st W (Warner * list string) :=
  if warnPercent <=? 0 then st_ret (warner, []) else checkEach warnPercent realms warner.
End Warnings.

(** ** Theorems: a volume that is full *)

(** Shifting a mantissa right halves it, whatever the rounding bits. *)
Lemma shr_1_m r : 0 ≤ shr_m r → shr_m (shr_1 r) = shr_m r / 2.
Proof. destruct r as [[|[p|p|]|p] b s]; cbn; intros ?; try lia; by rewrite <-Z.div2_div. Qed.
Lemma iter_shr_1_m p r : 0 ≤ shr_m r → shr_m (SpecFloat.iter_pos shr_1 p r) = shr_m r / 2 ^ Z.pos p.
Proof.
  revert r. induction p as [p IH|p IH|]; intros r Hr; cbn [SpecFloat.iter_pos].
  - pose proof (shr_1_m r Hr) as E1. assert (0 ≤ shr_m (shr_1 r)) by (rewrite E1; apply Z.div_pos; lia).
    rewrite IH by (rewrite IH by done; apply Z.div_pos; lia). rewrite IH, E1 by done. rewrite !Z.div_div by lia. f_equal.
    replace (Z.pos p~1) with (1 + Z.pos p + Z.pos p) by lia. rewrite !Z.pow_add_r by lia. lia.
  - rewrite IH by (rewrite IH by done; apply Z.div_pos; lia). rewrite IH by done. rewrite Z.div_div by lia. f_equal.
    replace (Z.pos p~0) with (Z.pos p + Z.pos p) by lia. by rewrite Z.pow_add_r by lia.
  - rewrite shr_1_m by done. done.
Qed.
Lemma digits2_bounds p : 2 ^ (Z.pos (digits2_pos p) - 1) ≤ Z.pos p < 2 ^ Z.pos (digits2_pos p).
Proof.
  induction p as [p IH|p IH|]; cbn [digits2_pos]; [| |done].
  all: rewrite Pos2Z.inj_succ, <-Z.add_1_r; replace (Z.pos (digits2_pos p) + 1 - 1) with (Z.pos (digits2_pos p) - 1 + 1) by lia;
    rewrite !Z.pow_add_r, Z.pow_1_r by lia; lia.
Qed.

(** Rounding a mantissa that needs no more than 53 digits leaves it alone. *)
Lemma round_exact m e : Z.pos (digits2_pos m) = 53 → -1074 ≤ e ≤ 971 → binary_round_aux 53 1024 false (Z.pos m) e loc_Exact = S754_finite false m e.
Proof.
  intros Hd He. assert (Hs : ∀ l, shr_fexp 53 1024 (Z.pos m) e l = (shr_record_of_loc (Z.pos m) l, e)).
  { intros l. unfold shr_fexp, fexp, emin, Zdigits2. rewrite Hd. replace (Z.max (53 + e - 53) (3 - 1024 - 53) - e) with 0 by lia. done. }
  unfold binary_round_aux. rewrite Hs. cbn [shr_record_of_loc shr_m loc_of_shr_record shr_r shr_s round_nearest_even]. rewrite Hs.
  cbn [shr_record_of_loc shr_m]. by rewrite (proj2 (Z.leb_le e (1024 - 53)) ltac:(lia)).
Qed.
Lemma shift_digits m s : digits2_pos (Pos.iter xO m s) = (digits2_pos m + s)%positive.
Proof.
  induction s as [|s IH] using Pos.peano_ind; [cbn; lia|]. rewrite Pos.iter_succ. cbn [digits2_pos]. rewrite IH. lia.
Qed.

(** A count of bytes becomes a positive finite number. *)
Lemma float64_finite n : 0 < n < 2 ^ 64 → ∃ m e, float64 n = S754_finite false m e.
Proof.
  intros Hn. destruct n as [|p|p]; [lia| |lia]. unfold float64, binary_normalize, binary_round, shl_align.
  pose proof (digits2_bounds p) as Hb. set (d := Z.pos (digits2_pos p)) in *.
  assert (Hd : 1 ≤ d ≤ 64). { split; [unfold d; lia|]. assert (2 ^ (d - 1) < 2 ^ 64) as Hlt by lia. apply Z.pow_lt_mono_r_iff in Hlt; lia. }
  replace (fexp 53 1024 (d + 0)) with (d - 53) by (unfold fexp, emin; lia). rewrite Z.sub_0_r.
  destruct (d - 53) as [|k|k] eqn:Ek.
  - eexists _, _. apply round_exact; [unfold d in Ek; lia|lia].
  - unfold binary_round_aux. set (f := shr_fexp 53 1024 (Z.pos p) 0 loc_Exact).
    assert (Hf : 2 ^ 52 ≤ shr_m f.1 < 2 ^ 53 ∧ f.2 = Z.pos k).
    { unfold f, shr_fexp, Zdigits2. fold d. replace (fexp 53 1024 (d + 0) - 0) with (Z.pos k) by (unfold fexp, emin; lia). cbn [shr fst snd].
      split; [|done]. rewrite iter_shr_1_m by done. cbn [shr_record_of_loc shr_m]. split.
      - apply Z.div_le_lower_bound; [lia|]. rewrite <-Z.pow_add_r by lia. replace (Z.pos k + 52) with (d - 1) by lia. lia.
      - apply Z.div_lt_upper_bound; [lia|]. rewrite <-Z.pow_add_r by lia. replace (Z.pos k + 53) with d by lia. lia. }
    destruct f as [mrs e]. cbn [fst snd] in Hf. destruct Hf as [Hm ->]. set (r := round_nearest_even _ _).
    assert (Hr : 2 ^ 52 ≤ r ≤ shr_m mrs + 1). { unfold r, round_nearest_even. repeat case_match; lia. }
    destruct r as [|q|q]; [lia| |lia]. pose proof (digits2_bounds q) as Hq. set (dq := Z.pos (digits2_pos q)) in *.
    assert (Hdq : 53 ≤ dq ≤ 54).
    { assert (2 ^ 52 < 2 ^ dq) as H1 by lia. assert (2 ^ (dq - 1) < 2 ^ 54) as H2 by lia. apply Z.pow_lt_mono_r_iff in H1, H2; lia. }
    set (g := shr_fexp 53 1024 (Z.pos q) (Z.pos k) loc_Exact). assert (Hg : 0 < shr_m g.1 ∧ g.2 ≤ 12).
    { unfold g, shr_fexp, Zdigits2. fold dq. replace (fexp 53 1024 (dq + Z.pos k) - Z.pos k) with (dq - 53) by (unfold fexp, emin; lia).
      assert (dq - 53 = 0 ∨ dq - 53 = 1) as [-> | ->] by lia; [cbn [shr fst snd shr_record_of_loc shr_m]; lia|].
      cbn [shr fst snd SpecFloat.iter_pos]. rewrite shr_1_m by done. cbn [shr_record_of_loc shr_m]. split; [|lia].
      enough (1 ≤ Z.pos q / 2) by lia. apply Z.div_le_lower_bound; lia. }
    destruct g as [mrs' e']. cbn [fst snd] in Hg. destruct Hg as [Hg1 Hg2]. destruct (shr_m mrs') as [|m|m]; [lia| |lia].
    rewrite (proj2 (Z.leb_le e' (1024 - 53)) ltac:(lia)). eauto.
  - eexists _, _. apply round_exact; [|lia]. rewrite shift_digits. unfold d in Ek. lia.
Qed.

Lemma fdiv_self m e : fdiv (S754_finite false m e) (S754_finite false m e) = float64 1.
Proof.
  assert (Ed : Z.div_eucl (Z.shiftl (Z.pos m) 53) (Z.pos m) = (2 ^ 53, 0)).
  { rewrite Z.shiftl_mul_pow2, Z.mul_comm by done. pose proof (Z_div_mult (2 ^ 53) (Z.pos m) eq_refl) as H1. pose proof (Z_mod_mult (2 ^ 53) (Z.pos m)) as H2.
    unfold Z.div in H1. unfold Z.modulo in H2. destruct (Z.div_eucl _ _). by subst. }
  unfold fdiv, SFdiv, SFdiv_core_binary. rewrite !Z.sub_diag. replace (Z.min (fexp 53 1024 0) 0) with (-53) by done. replace (0 - -53) with 53 by done.
  cbv beta iota zeta. rewrite Ed. replace (new_location (Z.pos m) 0) with loc_Exact; [vm_compute; reflexivity|].
  unfold new_location, new_location_even, new_location_odd. by destruct (Z.even _).
Qed.
Lemma full_percent used : 0 < used < 2 ^ 64 → fmul (fdiv (float64 used) (float64 used)) (float64 percentScale) = float64 100.
Proof. intros (m & e & ->)%float64_finite. rewrite fdiv_self. done. Qed.

Section Guard.
Context {W : Type} `{DiskHost W} `{HostConfig} `{RunnerOpts}.

(** The guard blocks exactly when it is enabled, the cell does not override it, the volume
    could be sampled and its usage is at or over the threshold; a volume that cannot be
    sampled blocks nothing, and the refusal is always ErrDiskPressure. *)
Theorem guard_exact cell w :
  let u := (Sample (RealmMetadataDir RunPath (csp_RealmName (cell_Spec cell))) w).2 in
  let r := (guardDiskPressure cell w).2 in
  (r ≠ None ↔ 0 < opt_DiskPressureBlockPercent ∧ csp_IgnoreDiskPressure (cell_Spec cell) = false ∧
     ∃ usage, u = Ok usage ∧ fge (us_UsedPercent usage) (float64 opt_DiskPressureBlockPercent) = true) ∧
  (∀ e, r = Some e → error_is ErrDiskPressure e = true).
Proof.
  cbv zeta. unfold guardDiskPressure. destruct (Z.leb_spec opt_DiskPressureBlockPercent 0); [cbn; split; [split; [done|lia]|done]|].
  destruct (csp_IgnoreDiskPressure _); [cbn; split; [split; naive_solver|done]|]. unfold st_bind. destruct (Sample _ w) as [w1 [u|e]]; cbn; [|split; [split; naive_solver|done]].
  destruct (fge _ _) eqn:E; cbn; split.
  - split; [eauto 6|done].
  - by intros e [= <-].
  - split; [done|]. intros (_ & _ & u' & [= <-] & E'). congruence.
  - done.
Qed.

Lemma thresholds_below_full b : 1 ≤ b ≤ 100 → fge (float64 100) (float64 b) = true.
Proof.
  intros Hb. assert (Hall : forallb (fun n => fge (float64 100) (float64 (Z.of_nat n))) (seq 1 100) = true) by by vm_compute.
  rewrite List.forallb_forall in Hall. specialize (Hall (Z.to_nat b)). rewrite Z2Nat.id in Hall by lia. apply Hall, in_seq. lia.
Qed.

(** A volume, of less than 2^64 bytes and not all of it free, on which an unprivileged
    process can write nothing more. *)
Definition is_full (s : Statfs_t) : Prop :=
  sf_Bavail s = 0 ∧ 0 ≤ sf_Bfree s < sf_Blocks s ∧ 0 < sf_Bsize s ∧ sf_Blocks s * sf_Bsize s < 2 ^ 64.
(** It reads as exactly 100 percent in float64 arithmetic, and the guard blocks at every
    threshold from 1 to 100. *)
Lemma full_volume_blocks cell w w' s :
  1 ≤ opt_DiskPressureBlockPercent ≤ 100 → csp_IgnoreDiskPressure (cell_Spec cell) = false →
  unix_Statfs (RealmMetadataDir RunPath (csp_RealmName (cell_Spec cell))) w = (w', Ok s) → is_full s →
  us_UsedPercent (usageOf s) = float64 100 ∧
  ∃ e, guardDiskPressure cell w = (w', Some e) ∧ error_is ErrDiskPressure e = true.
Proof.
  intros Hb Hi Es (Ha & Hf & Hs & Hm). assert (Hlt : ∀ z, 0 ≤ z < 2 ^ 64 → uint64 z = z) by (intros; apply Z.mod_small; lia).
  assert (Hu : us_UsedPercent (usageOf s) = float64 100).
  { assert (1 * sf_Bsize s ≤ sf_Blocks s * sf_Bsize s) by (apply Z.mul_le_mono_nonneg_r; lia).
    assert (sf_Blocks s * 1 ≤ sf_Blocks s * sf_Bsize s) by (apply Z.mul_le_mono_nonneg_l; lia).
    assert (1 * sf_Bsize s ≤ (sf_Blocks s - sf_Bfree s) * sf_Bsize s ≤ sf_Blocks s * sf_Bsize s) by (split; apply Z.mul_le_mono_nonneg_r; lia).
    unfold usageOf. cbn [us_UsedPercent]. rewrite Ha, (Hlt (sf_Bsize s)), (Hlt (sf_Blocks s - sf_Bfree s)) by lia.
    rewrite Z.mul_0_l, (Hlt 0), (Hlt ((sf_Blocks s - sf_Bfree s) * sf_Bsize s)), Z.add_0_r, (Hlt ((sf_Blocks s - sf_Bfree s) * sf_Bsize s)) by lia.
    rewrite (proj2 (Z.ltb_lt 0 ((sf_Blocks s - sf_Bfree s) * sf_Bsize s)) ltac:(lia)). apply full_percent. lia. }
  split; [done|]. unfold guardDiskPressure. destruct (Z.leb_spec opt_DiskPressureBlockPercent 0); [lia|]. rewrite Hi.
  unfold Sample, st_try, st_wrap, st_bind. rewrite Es. unfold st_ret. rewrite Hu, thresholds_below_full by done. eauto.
Qed.
End Guard.

(** ** Theorems: warnings are rate-limited *)

(** The answers to a sequence of calls, each at its time. *)
Fixpoint asked (calls : list (Time * string)) (w : Warner) : list bool :=
  match calls with [] => [] | (now, key) :: rest => (ShouldWarn now key w).2 :: asked rest (ShouldWarn now key w).1 end.

Lemma fresh_iff now last window : 0 < window ≤ 9223372036854775807 →
  (time_Sub now last <? window = false ↔ window ≤ now - last).
Proof. intros Hw. unfold time_Sub, saturate64. rewrite Z.ltb_ge. lia. Qed.

Definition in_order (calls : list (Time * string)) : Prop := StronglySorted (fun a b : Time * string => a.1 ≤ b.1) calls.

Lemma asked_later calls w (t0 : Time) key j (t : Time) : 0 < wn_window w ≤ 9223372036854775807 → in_order calls →
  wn_last w !! key = Some t0 → calls !! j = Some (t, key) → asked calls w !! j = Some true → wn_window w ≤ t - t0 ∨ t < t0.
Proof.
  revert w t0 j. induction calls as [|[now k] calls IH]; intros w t0 j Hw Ho Hl Hj Ha; [by destruct j|].
  apply StronglySorted_inv in Ho as [Ho Hlate]. cbn [asked] in Ha. unfold ShouldWarn in Ha. rewrite (proj2 (Z.leb_gt _ _) (proj1 Hw)) in Ha. cbv zeta in Ha.
  destruct j as [|j]; [injection Hj as -> ->; injection Ha as Ha|change (calls !! j = Some (t, key)) in Hj; match type of Ha with (_ :: ?l) !! _ = _ => change (l !! j = Some true) in Ha end].
  - rewrite Hl in Ha. destruct (time_Sub t t0 <? wn_window w) eqn:E; [done|]. apply fresh_iff in E; lia.
  - destruct (match wn_last w !! k with Some last => _ | None => false end) eqn:E; cbn [fst] in Ha; [by eapply (IH w)|].
    set (w1 := {| wn_last := _; wn_window := _ |}) in Ha. destruct (decide (k = key)) as [->|Hne].
    + rewrite Hl in E. apply fresh_iff in E; [|lia]. pose proof (IH w1 now j Hw Ho (lookup_insert_eq _ _ _) Hj Ha) as G. cbn in G.
      apply (Forall_lookup_1 _ _ _ _ Hlate) in Hj. cbn in Hj. lia.
    + eapply (IH w1); [done|done| |done|done]. cbn. by rewrite lookup_insert_ne.
Qed.

Lemma asked_length calls w : length (asked calls w) = length calls.
Proof. revert w. induction calls as [|[now k] calls IH]; intros w; cbn; [done|]. by rewrite IH. Qed.

(** Two calls with the same key that are both let through lie at least the window apart. *)
Lemma warned_apart window calls i j ti tj key :
  0 < window ≤ 9223372036854775807 → in_order calls → (i < j)%nat →
  calls !! i = Some (ti, key) → calls !! j = Some (tj, key) →
  asked calls (NewWarner window) !! i = Some true → asked calls (NewWarner window) !! j = Some true →
  window ≤ tj - ti.
Proof.
  change window with (wn_window (NewWarner window)) at 1 2 5. generalize (NewWarner window). intros w Hw. revert w i j Hw.
  induction calls as [|[now k] calls IH]; intros w i j Hw Ho Hij Hi Hj Ai Aj; [by destruct i|].
  apply StronglySorted_inv in Ho as [Ho Hlate]. cbn [asked] in Ai, Aj. destruct j as [|j]; [lia|]. change (calls !! j = Some (tj, key)) in Hj. match type of Aj with (_ :: ?l) !! _ = _ => change (l !! j = Some true) in Aj end.
  destruct i as [|i]; [|change (calls !! i = Some (ti, key)) in Hi; match type of Ai with (_ :: ?l) !! _ = _ => change (l !! i = Some true) in Ai end].
  - injection Hi as -> ->. injection Ai as Ai. unfold ShouldWarn in Ai, Aj. rewrite (proj2 (Z.leb_gt _ _) (proj1 Hw)) in Ai, Aj. cbv zeta in Ai, Aj.
    destruct (match wn_last w !! key with Some last => _ | None => false end); [done|]. cbn [fst] in Aj.
    destruct (asked_later calls _ ti key j tj (Hw : 0 < wn_window {| wn_last := <[key := ti]> (wn_last w); wn_window := wn_window w |} ≤ _) Ho (lookup_insert_eq _ _ _) Hj Aj) as [G|G]; [exact G|].
    apply (Forall_lookup_1 _ _ _ _ Hlate) in Hj. cbn in Hj. lia.
  - assert (Ew : wn_window (ShouldWarn now k w).1 = wn_window w) by (unfold ShouldWarn; repeat case_match; done).
    rewrite <-Ew in Hw |- *. eapply IH; [done|done| |done..]. lia.
Qed.
(** A call that is held back follows one with its key that was let through, or a time the
    warner began with, within the window. *)
Lemma held_back calls w j tj key : 0 < wn_window w → calls !! j = Some (tj, key) → asked calls w !! j = Some false →
  (∃ i ti, (i < j)%nat ∧ calls !! i = Some (ti, key) ∧ asked calls w !! i = Some true ∧ time_Sub tj ti < wn_window w) ∨
  (∃ t, wn_last w !! key = Some t ∧ time_Sub tj t < wn_window w).
Proof.
  intros Hw. revert w j Hw. induction calls as [|[now k] calls IH]; intros w j Hw Hj Aj; [done|]. cbn [asked] in Aj |- *.
  assert (Hs : ShouldWarn now k w = if match wn_last w !! k with Some last => time_Sub now last <? wn_window w | None => false end
    then (w, false) else ({| wn_last := <[k := now]> (wn_last w); wn_window := wn_window w |}, true)).
  { unfold ShouldWarn. by rewrite (proj2 (Z.leb_gt _ _) Hw). }
  destruct j as [|j].
  - cbn in Hj, Aj. injection Hj as -> ->. injection Aj as Aj. rewrite Hs in Aj. right.
    destruct (wn_last w !! key) as [t|]; [|done]. destruct (Z.ltb_spec (time_Sub tj t) (wn_window w)); [eauto|done].
  - change (calls !! j = Some (tj, key)) in Hj. match type of Aj with (_ :: ?l) !! _ = _ => change (l !! j = Some false) in Aj end.
    assert (Hw1 : wn_window (ShouldWarn now k w).1 = wn_window w) by (rewrite Hs; by destruct (match _ with Some _ => _ | None => _ end)).
    destruct (IH _ j ltac:(by rewrite Hw1) Hj Aj) as [(i & ti & Hi & Ei & Ai & Ht)|(t & Et & Ht)]; rewrite Hw1 in Ht.
    + left. exists (S i), ti. split_and!; [lia|done|done|done].
    + rewrite Hs in Et. destruct (match wn_last w !! k with Some last => _ | None => _ end) eqn:Ef; [right; eauto|]. cbn in Et.
      destruct (decide (k = key)) as [->|Hne]; [|rewrite lookup_insert_ne in Et by done; right; eauto].
      rewrite lookup_insert_eq in Et. injection Et as ->. left. exists 0%nat, t. split_and!; [lia|done| |done]. by rewrite Hs.
Qed.

(** C32: Warnings are rate-limited per realm and none is lost to it: with a positive window and
    a clock that does not go back, a call is let through exactly when every earlier call for
    the same realm that was let through lies at least the window before it, whatever is asked
    for other realms. *)
Theorem warnings_rate_limited window calls j tj key :
  0 < window ≤ 9223372036854775807 → in_order calls → calls !! j = Some (tj, key) →
  (asked calls (NewWarner window) !! j = Some true ↔
   ∀ i ti, (i < j)%nat → calls !! i = Some (ti, key) → asked calls (NewWarner window) !! i = Some true → window ≤ tj - ti).
Proof.
  intros Hw Ho Hj. split.
  - intros Aj i ti Hij Hi Ai. exact (warned_apart window calls i j ti tj key Hw Ho Hij Hi Hj Ai Aj).
  - intros Hall. destruct (asked calls (NewWarner window) !! j) as [[]|] eqn:Aj; [done| |].
    + exfalso. destruct (held_back calls (NewWarner window) j tj key (proj1 Hw) Hj Aj) as [(i & ti & Hij & Hi & Ai & Ht)|(t & Et & _)]; [|done].
      specialize (Hall i ti Hij Hi Ai). cbn [NewWarner wn_window] in Ht. apply Z.ltb_lt in Ht. by rewrite (proj2 (fresh_iff tj ti window Hw) Hall) in Ht.
    + exfalso. apply lookup_lt_Some in Hj. apply lookup_ge_None_1 in Aj. rewrite asked_length in Aj. pose proof (Nat.lt_le_trans _ _ _ Hj Aj) as G. by apply Nat.lt_irrefl in G.
Qed.

(** The first call for a key is let through. *)
Lemma first_warning key now w : wn_last w !! key = None → (ShouldWarn now key w).2 = true.
Proof. intros E. unfold ShouldWarn. rewrite E. by case_match. Qed.

(** ** Witnesses *)

Lemma warnings_rate_limited_witness :
  let calls := [(5, "r"); (7, "q"); (8, "r"); (15, "r")] in
  asked calls (NewWarner 10) !! 3%nat = Some true ∧ asked calls (NewWarner 10) !! 2%nat = Some false.
Proof.
  intros calls. split; [|reflexivity].
  apply (warnings_rate_limited 10 calls 3 15 "r"); [lia|repeat constructor; cbn; lia|reflexivity|].
  intros i ti Hi Ei Ai. destruct i as [|[|[|i]]]; [| | |lia]; cbn in Ei, Ai; try discriminate; injection Ei as <-; lia.
Defined.
