(* ===== verification/CellChange.v ===== *)
(** * CellChange: creating, recreating and updating cells
    (runner/create_cell.go, recreate_cell.go, update_cell.go, create_container.go,
    update_container.go and provisionNewCell of provision.go)

    The operations that combine provisioning, bring-up and teardown.  The state is the
    containerd client of [BringUp]; cgroups are made by [Scopes], the disk guard is that of
    [DiskPressure].  The per-cell lock CreateCell and RecreateCell take is the [Lock]
    component; log lines are left out. *)

From Stdlib Require Import Ascii ZArith Lia.
From stdpp Require Import base gmap strings list sorting.
From S2P Require Import Namespaces.
From S2P Require Import Prelude Model External Scheme Defaults CellState Naming Config Layout Observe Subnet NetPolicy Diff SpecHash CellOps OciSpec Containerd Store Cni Teardown Attachable BringUp BringUpTheorems Cgroups Scopes DiskPressure.

Local Open Scope nat_scope.

(** ** When a container has to be recreated (update_cell.go) *)

Definition stringSlicesEqual (a b : list string) : bool := list_eqb String.eqb a b.
Definition secretRefsEqual (a b : option ContainerSecretRef) : bool :=
  match a, b with
  | None, None => true
  | Some x, Some y => bool_decide (x = y)
  | _, _ => false
  end.
Definition containerSecretsEqual (a b : list ContainerSecret) : bool :=
  list_eqb (fun x y =>
    String.eqb (sec_Name x) (sec_Name y) && String.eqb (sec_FromFile x) (sec_FromFile y)
    && String.eqb (sec_FromEnv x) (sec_FromEnv y) && String.eqb (sec_MountPath x) (sec_MountPath y)
    && secretRefsEqual (sec_SecretRef x) (sec_SecretRef y)) a b.
(** [volumeMountsEqual] compares the structs of the slices, so the pointers in them. *)
Definition containerSpecChanged (desired actual : ContainerSpec) : bool :=
  negb (String.eqb (c_Image desired) (c_Image actual))
  || negb (String.eqb (c_Command desired) (c_Command actual))
  || negb (stringSlicesEqual (c_Args desired) (c_Args actual))
  || negb (String.eqb (c_WorkingDir desired) (c_WorkingDir actual))
  || negb (stringSlicesEqual (c_SecurityOpts desired) (c_SecurityOpts actual))
  || negb (stringSlicesEqual (c_Devices desired) (c_Devices actual))
  || negb (volumeMountsEqual (c_Volumes desired) (c_Volumes actual))
  || negb (containerSecretsEqual (c_Secrets desired) (c_Secrets actual)).

(** The parents of a container, where it names none. *)
Definition adopt (cell : Cell) (c : ContainerSpec) : ContainerSpec :=
  let sp := cell_Spec cell in
  set_identity (c_ID c) (c_ContainerdID c) (or_default (c_RealmName c) (csp_RealmName sp)) (or_default (c_SpaceName c) (csp_SpaceName sp))
    (or_default (c_StackName c) (csp_StackName sp)) (or_default (c_CellName c) (or_default (csp_ID sp) (cm_Name (cell_Metadata cell))))
    (c_Root c) (c_CNIConfigPath c) c.

Definition with_Labels (labels : gmap string string) (cell : Cell) : Cell :=
  let m := cell_Metadata cell in
  {| cell_Metadata := {| cm_Name := cm_Name m; cm_Labels := labels; cm_Annotations := cm_Annotations m; cm_Generation := cm_Generation m |};
     cell_Spec := cell_Spec cell; cell_Status := cell_Status cell |}.
Definition with_Name (name : string) (cell : Cell) : Cell :=
  let m := cell_Metadata cell in
  {| cell_Metadata := {| cm_Name := name; cm_Labels := cm_Labels m; cm_Annotations := cm_Annotations m; cm_Generation := cm_Generation m |};
     cell_Spec := cell_Spec cell; cell_Status := cell_Status cell |}.
Definition set_ID (id : string) (c : ContainerSpec) : ContainerSpec :=
  set_identity id (c_ContainerdID c) (c_RealmName c) (c_SpaceName c) (c_StackName c) (c_CellName c) (c_Root c) (c_CNIConfigPath c) c.

(** Containers by their ID; of two with one ID the later is kept, one without is left out. *)
Definition containersByID (l : list ContainerSpec) : gmap string ContainerSpec :=
  index_by c_ID (fun c => c) (List.filter (fun c => negb (String.eqb (c_ID c) "")) l).

(** The containers CreateCell and EnsureContainer add to a cell: those whose ID it lacks. *)
Definition mergeContainers (existing new : list ContainerSpec) : list ContainerSpec :=
  existing ++ List.filter (fun c => negb (existsb (fun e => String.eqb (c_ID e) (c_ID c)) existing)) new.

(** Trimmed and validated container IDs (create_cell.go) *)
Fixpoint trimIDs (l : list ContainerSpec) : result (list ContainerSpec) :=
  match l with
  | [] => Ok []
  | c :: rest =>
      let id := TrimSpace (c_ID c) in
      match ValidateHierarchyName "container" id with
      | Some e => Err e
      | None => let? rest := trimIDs rest in Ok (set_ID id c :: rest)
      end
  end.

(** readCellInternal of runner/metadata.go *)
Class CellRecords (W : Type) := { sto_readCellInternal : string → st W (result Cell) }.

Section CellChange.
Context {W : Type} `{Containerd W} `{OciHost W} `{CniHost W} `{RunnerStore W} `{NodeHost W} `{CgroupClient W} `{ScopeStore W} `{NamespaceServices W}
  `{DiskHost W} `{CellRecords W} `{HostConfig} `{RunnerOpts}.
Context (cniConf : Conf) (marshalPayload : containerSpecHashPayload → string).
Notation C := (Client W).

Definition ensureConnected : st C (result unit) := st_check (wrapd ErrConnectContainerd) (remote sto_ensureClientConnected).
Definition persistCell (cell : Cell) : st C (result unit) := st_check (wrapd ErrUpdateCellMetadata) (remote (sto_UpdateCellMetadata cell)).

(** ** Creating a cell *)

Definition recordBridge (cell : Cell) : Cell :=
  match cellSpaceBridgeName cell with Ok b => upd_status (set_CellBridge b) cell | Err _ => cell end.

(** What follows the first write; the cell is returned as far as it got, also on an error. *)
Definition provisionPastStub (cell : Cell) : st C (Cell * result Cell) :=
  keeping cell (remote (createCellCgroup cell)) (fun cg =>
  let cell := recordBridge (upd_status (set_CellControllers cg.2) (upd_status (set_CellCgroup cg.1) cell)) in
  let! made := createCellContainers marshalPayload cell in
  let cell := made.1 in
  keeping cell (st_ret made.2) (fun _ =>
  let cell := markCellReady cell in
  keeping cell (persistCell cell) (fun _ => st_ret (cell, Ok cell)))).

Definition provisionNewCell (cell : Cell) : st C (result Cell) :=
  let!? _ := persistCell cell in
  let! out := provisionPastStub cell in
  match out.2 with
  | Ok cell => st_ret (Ok cell)
  | Err e => let! _ := markCellFailed cniConf out.1 "CreateCellFailed" e in st_ret (Err e)
  end.

(** A failed status refresh is fatal only when the document could not be written. *)
Definition populated (cell : Cell) : st C (result Cell) :=
  let! (cell, e) := PopulateAndPersistCellContainerStatuses cell in
  st_ret (match e with
          | Some e => if error_is ErrWriteMetadata e || error_is ErrConversionFailed e then Err (wrapd ErrUpdateCellMetadata e) else Ok cell
          | None => Ok cell
          end).

Definition cellPath (cell : Cell) : string :=
  CellMetadataPath RunPath (csp_RealmName (cell_Spec cell)) (csp_SpaceName (cell_Spec cell)) (csp_StackName (cell_Spec cell)) (cm_Name (cell_Metadata cell)).

Definition EnsureCell (cell : Cell) : st C (result Cell) :=
  let!? cell := remote (ensureCellCgroup cell) in
  let! ensured := ensureCellContainers marshalPayload cell in
  let!? _ := st_ret ensured.2 in
  let cell := ensured.1 in
  let cell := if String.eqb (cst_BridgeName (cell_Status cell)) "" then recordBridge cell else cell in
  let!? _ := persistCell cell in
  let! onDisk := remote (sto_readCellInternal (cellPath cell)) in
  st_ret (Ok (refreshCellGeneration onDisk cell)).

Definition runnerCreateCell (cell : Cell) : st C (result Cell) :=
  let!? _ := ensureConnected in
  let name := TrimSpace (cm_Name (cell_Metadata cell)) in
  let!? _ := st_ret (match ValidateHierarchyName "cell" name with Some e => Err e | None => Ok () end) in
  let!? containers := st_ret (trimIDs (csp_Containers (cell_Spec cell))) in
  let cell := with_Containers containers (with_Name name cell) in
  let! found := remote (sto_GetCell cell) in
  match found with
  | Ok existing =>
      let!? cell := EnsureCell (with_Containers (mergeContainers (csp_Containers (cell_Spec existing)) (csp_Containers (cell_Spec cell))) existing) in
      populated cell
  | Err e =>
      if error_is ErrCellNotFound e then
        let!? _ := st_check id (remote (guardDiskPressure cell)) in
        let!? cell := provisionNewCell cell in
        populated cell
      else st_ret (Err (wrapd ErrGetCell e))
  end.

(** ** Adding a container to a cell *)

Definition EnsureContainer (cell : Cell) (container : ContainerSpec) : st C (result Cell) :=
  let! ensured := ensureCellContainers marshalPayload (with_Containers (mergeContainers (csp_Containers (cell_Spec cell)) [container]) cell) in
  let!? _ := st_ret ensured.2 in
  let!? _ := persistCell ensured.1 in
  st_ret (Ok ensured.1).

Definition runnerCreateContainer (cell : Cell) (container : ContainerSpec) : st C (result Cell) :=
  let id := TrimSpace (c_ID container) in
  let!? _ := st_ret (match ValidateHierarchyName "container" id with Some e => Err e | None => Ok () end) in
  let! found := remote (sto_GetCell cell) in
  match found with
  | Err e => st_ret (Err (if error_is ErrCellNotFound e then EWrap "cell %q not found: %w" [ESentinel ErrCellNotFound] else wrapd ErrGetCell e))
  | Ok existing =>
      let!? cell := EnsureContainer existing (set_ID id container) in
      let! (cell, _) := PopulateAndPersistCellContainerStatuses cell in
      st_ret (Ok cell)
  end.

(** ** Recreating a cell *)

(** Stop and delete of every recorded container; failures are passed over. *)
Fixpoint clearRecorded (namespace : string) (specs : list ContainerSpec) : st C unit :=
  match specs with
  | [] => st_ret ()
  | s :: rest =>
      if String.eqb (c_ContainerdID s) "" then clearRecorded namespace rest
      else
        let! _ := StopContainer namespace (c_ContainerdID s) (default_stop false) in
        let! _ := DeleteContainer namespace (c_ContainerdID s) true in
        clearRecorded namespace rest
  end.

(** detach, stop and delete, purge: teardownRootContainerCNI with its three closures *)
Definition clearRoot (namespace rootID cniConfigPath networkName : string) : st C unit :=
  let! _ := detachRootContainerFromNetwork cniConf rootID cniConfigPath namespace in
  let! _ := StopContainer namespace rootID (default_stop true) in
  let! _ := DeleteContainer namespace rootID true in
  let! _ := (if negb (String.eqb networkName "") then purgeCNI cniConf rootID "" networkName else st_ret None) in
  st_ret ().

(** What RecreateCell removes; the next step creates. *)
Definition clearCell (existing : Cell) : st C (result unit) :=
  let sp := cell_Spec existing in
  let cellID := or_default (csp_ID sp) (cm_Name (cell_Metadata existing)) in
  let realmName := TrimSpace (csp_RealmName sp) in
  let spaceName := TrimSpace (csp_SpaceName sp) in
  let stackName := TrimSpace (csp_StackName sp) in
  let! _ := stopCellLocked cniConf existing in
  let!? _ := ensureConnected in
  let!? realm := st_wrap (wrapf "failed to get realm: %w") (remote (sto_GetRealm (realm_named realmName))) in
  let namespace := rsp_Namespace (realm_Spec realm) in
  let! _ := clearRecorded namespace (csp_Containers sp) in
  let!? rootID := st_wrap (wrapf "failed to build root container containerd ID: %w") (st_ret (BuildRootContainerdID spaceName stackName cellID)) in
  let! conf := ResolveSpaceCNIConfigPath realmName spaceName in
  let! _ := clearRoot namespace rootID (match conf with Ok p => p | Err _ => "" end) (buildRootCNINetworkName realmName spaceName) in
  st_ret (Ok ()).

(** The desired cell with nothing of containerd left in it but the cgroup. *)
Definition renewed (existing desired : Cell) : Cell :=
  upd_status (set_CellCgroup (cst_CgroupPath (cell_Status existing)))
    (with_Containers (set_cid "" <$> csp_Containers (cell_Spec desired)) desired).

Definition createRenewed (cell : Cell) : st C (result Cell) :=
  let! made := createCellContainers marshalPayload cell in
  let!? _ := st_wrap (wrapf "failed to recreate cell containers: %w") (st_ret made.2) in
  let!? _ := persistCell made.1 in
  st_ret (Ok made.1).

Definition runnerRecreateCell (desired : Cell) : st C (result Cell) :=
  let!? existing := st_wrap (wrapd ErrGetCell) (remote (sto_GetCell desired)) in
  let!? _ := clearCell existing in
  let!? cell := or_mark_failed cniConf existing "RecreateCellFailed" (createRenewed (renewed existing desired)) in
  st_wrap (wrapf "failed to start recreated cell: %w") (startCellLocked cniConf marshalPayload cell).

(** ** Updating a cell in place *)

(** Stop and delete before a removal or a recreation; only a malformed cell is an error. *)
Definition takeDown (why : string) (cell : Cell) (id : string) : st C (result unit) :=
  let! e := runnerStopContainer cell id in
  let!? _ := st_ret (match e with
                     | Some e => if isValidationError e then Err (wrapf ("validation error stopping container %q" +:+ why +:+ ": %w") e) else Ok ()
                     | None => Ok ()
                     end) in
  let! e := runnerDeleteContainer cniConf cell id in
  st_ret (match e with
          | Some e => if isValidationError e then Err (wrapf ("validation error deleting container %q" +:+ why +:+ ": %w") e) else Ok ()
          | None => Ok ()
          end).

(** The loop over the recorded containers, in the order the map is ranged over. *)
Fixpoint removeOrphans (existing : Cell) (desired actual : gmap string ContainerSpec) (keepRoot : bool) (order : list string) : st C (result unit) :=
  match order with
  | [] => st_ret (Ok ())
  | id :: rest =>
      match desired !! id, actual !! id with
      | None, Some a =>
          if c_Root a && keepRoot then removeOrphans existing desired actual keepRoot rest
          else if c_Root a then
            st_ret (Err (EOpaque "root container %q cannot be removed from cell %q, delete the cell instead using 'kuke delete cell %s'"))
          else let!? _ := takeDown " for removal" existing id in removeOrphans existing desired actual keepRoot rest
      | _, _ => removeOrphans existing desired actual keepRoot rest
      end
  end.

(** The loop over the desired containers: the new list, and what was taken down to be
    recreated. *)
Fixpoint replaceChanged (existing : Cell) (actual : gmap string ContainerSpec) (l : list ContainerSpec) : st C (result (list ContainerSpec * list string)) :=
  match l with
  | [] => st_ret (Ok ([], []))
  | d :: rest =>
      let!? (d, recreated) :=
        (match actual !! c_ID d with
         | Some a =>
             let d := set_cid (c_ContainerdID a) d in
             if containerSpecChanged d a then
               if c_Root a then st_ret (Err (EOpaque "root container %q cannot be deleted for update in cell %q, recreate the cell instead"))
               else let!? _ := takeDown " for update" existing (c_ID d) in st_ret (Ok (set_cid "" d, [c_ID d]))
             else st_ret (Ok (d, []))
         | None => st_ret (Ok (d, []))
         end) in
      let!? (new, ids) := replaceChanged existing actual rest in
      st_ret (Ok (adopt existing d :: new, recreated ++ ids))
  end.

(** The root kept when the desired cell has none of its own. *)
Definition preservedRoot (existing desired : Cell) : option ContainerSpec :=
  if existsb c_Root (csp_Containers (cell_Spec desired)) then None
  else find_first c_Root (csp_Containers (cell_Spec existing)).

Fixpoint startRecreated (cell : Cell) (ids : list string) : st C (result Cell) :=
  match ids with
  | [] => st_ret (Ok cell)
  | id :: rest =>
      let!? started := st_wrap (wrapf "failed to start recreated container %q: %w") (runnerStartContainer cniConf marshalPayload cell id) in
      startRecreated started rest
  end.

Definition updatedCell (existing desired : Cell) (new : list ContainerSpec) : Cell :=
  let kept := preservedRoot existing desired in
  let cell := with_Containers (match kept with Some r => r :: new | None => new end) existing in
  match kept with
  | Some _ => if String.eqb (csp_RootContainerID (cell_Spec desired)) "" then cell else with_RootContainerID (csp_RootContainerID (cell_Spec desired)) cell
  | None => with_RootContainerID (csp_RootContainerID (cell_Spec desired)) cell
  end.

(** [range] is the order in which the runtime ranges over the recorded containers. *)
Definition runnerUpdateCell (range : gmap string ContainerSpec → list string) (desired : Cell) : st C (result Cell) :=
  let!? stored := st_wrap (wrapd ErrGetCell) (remote (sto_GetCell desired)) in
  let existing := with_Labels (mergeManagedLabels (cm_Labels (cell_Metadata stored)) (cm_Labels (cell_Metadata desired))) stored in
  let desiredContainers := containersByID (csp_Containers (cell_Spec desired)) in
  let actualContainers := containersByID (csp_Containers (cell_Spec existing)) in
  let keepRoot := match preservedRoot existing desired with Some _ => true | None => false end in
  let!? _ := removeOrphans existing desiredContainers actualContainers keepRoot (range actualContainers) in
  let!? (new, recreated) := replaceChanged existing actualContainers (csp_Containers (cell_Spec desired)) in
  let!? _ := ensureConnected in
  let! ensured := ensureCellContainers marshalPayload (updatedCell existing desired new) in
  let!? _ := st_wrap (wrapf "failed to ensure cell containers: %w") (st_ret ensured.2) in
  let!? _ := persistCell ensured.1 in
  startRecreated ensured.1 recreated.

(** ** Updating one container *)

Fixpoint replace_first (c : ContainerSpec) (l : list ContainerSpec) : list ContainerSpec :=
  match l with
  | [] => []
  | x :: rest => if String.eqb (c_ID x) (c_ID c) then c :: rest else x :: replace_first c rest
  end.

Definition runnerUpdateContainer (cell : Cell) (desired : ContainerSpec) : st C (result Cell) :=
  let!? existing := st_wrap (wrapd ErrGetCell) (remote (sto_GetCell cell)) in
  match find_first (fun c => String.eqb (c_ID c) (c_ID desired)) (csp_Containers (cell_Spec existing)) with
  | None => runnerCreateContainer cell desired
  | Some actual =>
      let!? desired := (if containerSpecChanged desired actual then
                          let!? _ := takeDown "" existing (c_ID desired) in st_ret (Ok (set_cid "" desired))
                        else st_ret (Ok desired)) in
      let desired := adopt existing desired in
      let desired := set_cid (or_default (c_ContainerdID desired) (c_ContainerdID actual)) desired in
      let!? _ := ensureConnected in
      let! ensured := ensureCellContainers marshalPayload (with_Containers (replace_first desired (csp_Containers (cell_Spec existing))) existing) in
      let!? _ := st_wrap (wrapf "failed to ensure container: %w") (st_ret ensured.2) in
      let!? _ := persistCell ensured.1 in
      st_ret (Ok ensured.1)
  end.

End CellChange.

(** ** Theorems: a failure is recorded *)

Section Failures.
Context {W : Type} `{Containerd W} `{OciHost W} `{CniHost W} `{RunnerStore W} `{NodeHost W} `{CgroupClient W} `{ScopeStore W} `{NamespaceServices W}
  `{DiskHost W} `{CellRecords W} `{HostConfig} `{RunnerOpts}.
Context (cniConf : Conf) (marshalPayload : containerSpecHashPayload → string).
Context `{!ContainerdLaws W} `{!BringRespects same_srv any_netns (fun _ => False)}.
Notation C := (Client W).

(** When creating a new cell fails after its document was first written, the cell, as far
    as it got, was recorded as failed before and after its tasks were killed. *)
Theorem failed_creation_recorded cell (c c' : C) e : provisionNewCell cniConf marshalPayload cell c = (c', Err e) →
  (∃ e', remote (sto_UpdateCellMetadata cell) c = (c', Some e')) ∨
  ∃ c1 c2 cell2, remote (sto_UpdateCellMetadata cell) c = (c1, None) ∧ provisionPastStub marshalPayload cell c1 = (c2, (cell2, Err e)) ∧
    recorded_failed cniConf cell2 "CreateCellFailed" e c2 c'.
Proof.
  unfold provisionNewCell, persistCell, st_try at 1, st_check, st_bind. destruct (remote (sto_UpdateCellMetadata cell) c) as [c1 [e1|]] eqn:E1; cbn [st_ret].
  { intros [= <- _]. left. eauto. }
  destruct (provisionPastStub marshalPayload cell c1) as [c2 [cell2 [x|e2]]] eqn:E2; [done|]. cbn [fst snd].
  pose proof (markCellFailed_last cniConf cell2 "CreateCellFailed" e2 c2) as Hm. destruct (markCellFailed _ _ _ _ c2) as [c3 u].
  intros [= <- <-]. right. by exists c1, c2, cell2.
Qed.

Lemma or_mark_failed_ok {A} cell reason (m : st C (result A)) c c' a :
  or_mark_failed cniConf cell reason m c = (c', Ok a) → m c = (c', Ok a).
Proof. unfold or_mark_failed, st_bind. destruct (m c) as [c1 [x|e1]]; [done|]. by destruct (markCellFailed _ _ _ _ c1). Qed.

End Failures.

(** ** Theorems: what a changed spec means *)

Lemma stringSlices_spec a b : stringSlicesEqual a b = true ↔ a = b.
Proof. apply list_eqb_spec, String.eqb_eq. Qed.
Lemma containerSecrets_spec a b : containerSecretsEqual a b = true ↔ a = b.
Proof.
  apply list_eqb_spec. intros [n f e r m] [n' f' e' r' m']. simpl. rewrite !andb_true_iff, !String.eqb_eq.
  destruct r, r'; simpl; rewrite ?bool_decide_eq_true; naive_solver.
Qed.
Lemma unchanged_spec d a : containerSpecChanged d a = false ↔
  c_Image d = c_Image a ∧ c_Command d = c_Command a ∧ c_Args d = c_Args a ∧ c_WorkingDir d = c_WorkingDir a ∧
  c_SecurityOpts d = c_SecurityOpts a ∧ c_Devices d = c_Devices a ∧ volNorm <$> c_Volumes d = volNorm <$> c_Volumes a ∧ c_Secrets d = c_Secrets a.
Proof.
  unfold containerSpecChanged. rewrite !orb_false_iff, !negb_false_iff, !String.eqb_eq, !stringSlices_spec, volumeMountsEqual_spec, containerSecrets_spec. tauto.
Qed.

(** The settings the guard watches and an update does not look at. *)
Definition ungated (c : ContainerSpec) :=
  (c_Privileged c, c_User c, c_ReadOnlyRootFilesystem c, capNorm (c_Capabilities c), c_Tmpfs c,
   match c_Resources c with
   | None => (0%Z, 0%Z, 0%Z)
   | Some r => (default 0%Z (res_MemoryLimitBytes r), default 0%Z (res_CPUShares r), default 0%Z (res_PidsLimit r))
   end).

(** C30: a container that an update leaves in place is refused at the next start exactly when
    the update changed its privileged flag, user, read-only root, capabilities, tmpfs mounts or
    resource limits: for specs the update does not tell apart, and encoding and digest do not
    confuse, the guard's verdict on a record stamped with the old one depends on these alone. *)
Theorem unchanged_hash_gap marshalPayload labels d a :
  containerSpecChanged d a = false → no_collision marshalPayload a d →
  let verdict := classifySpecHashReuse (stampSpecHashOnLabels marshalPayload labels a) (ComputeContainerSpecHash marshalPayload d) in
  (verdict = specHashRefuse ↔ ungated d ≠ ungated a) ∧ (verdict = specHashReuseAsIs ↔ ungated d = ungated a).
Proof.
  intros (E1 & E2 & E3 & E4 & E5 & E6 & E7 & E8)%unchanged_spec Hcol. cbv zeta.
  assert (Ev : (fun v => (vm_Kind v, vm_Source v, vm_Target v, vm_ReadOnly v, vm_SizeBytes v, vm_Mode v)) <$> c_Volumes d
             = (fun v => (vm_Kind v, vm_Source v, vm_Target v, vm_ReadOnly v, vm_SizeBytes v, vm_Mode v)) <$> c_Volumes a).
  { revert E7. generalize (c_Volumes a). induction (c_Volumes d) as [|v l IH]; intros [|v' l']; try done.
    rewrite !fmap_cons. intros [= K1 K2 K3 _ K4 K5 K6 _ Kl]. rewrite (IH _ Kl). congruence. }
  assert (HU : watched a = watched d ↔ ungated d = ungated a).
  { unfold watched, ungated. rewrite E1, E2, E3, E4, E5, E6, E8, Ev, !pair_equal_spec. intuition congruence. }
  destruct (stamped_verdict marshalPayload labels a d Hcol) as [H1 H2]. by rewrite H1, H2, HU.
Qed.

(** ** Theorems: what an update removes *)

Section Removal.
Context {W : Type} `{Containerd W} `{OciHost W} `{CniHost W} `{RunnerStore W} `{NodeHost W} `{CgroupClient W} `{ScopeStore W} `{NamespaceServices W}
  `{DiskHost W} `{CellRecords W} `{HostConfig} `{RunnerOpts}.
Context (cniConf : Conf) (marshalPayload : containerSpecHashPayload → string).
Context `{!ContainerdLaws W} `{!BringRespects same_srv any_netns (fun _ => False)}.
Notation C := (Client W).

#[local] Instance stop_same : StopRespects same_srv any_netns := br_stop (X := fun _ => False).

(** The namespace of the cell's own realm does not change on the way, and the recorded
    containers have plain IDs. *)
Definition realm_in (ns : string) (cell : Cell) : Prop := ∀ w realm,
  (sto_GetRealm (realm_named (TrimSpace (csp_RealmName (cell_Spec cell)))) w).2 = Ok realm → rsp_Namespace (realm_Spec realm) = ns.
Context (ns : string) (ns_plain : plain_id ns) (existing : Cell) (realm_ns : realm_in ns existing).
Context (ids_trimmed : Forall (fun s => TrimSpace (c_ID s) = c_ID s) (csp_Containers (cell_Spec existing))).
Context (ids_plain : Forall (fun s => plain_id (c_ContainerdID s)) (csp_Containers (cell_Spec existing))).

(** A container of the cell that answers to [id] and is not its root. *)
Definition answers (id : string) (p : string * string) : Prop :=
  p.1 = ns ∧ ∃ a, a ∈ csp_Containers (cell_Spec existing) ∧ c_ID a = TrimSpace id ∧ c_Root a = false ∧ p.2 = c_ContainerdID a.

Lemma containerOperation_found X cell id b1 b2 b3 e (c c' : C) r :
  cell_Spec cell = cell_Spec existing → containerOperation cell (TrimSpace id) b1 b2 b3 e c = (c', r) →
  removes X c c' ∧ ∀ realm spec, r = Ok (realm, spec) →
    rsp_Namespace (realm_Spec realm) = ns ∧ plain_id (c_ContainerdID spec) ∧ answers id (ns, c_ContainerdID spec).
Proof.
  intros Es E. split.
  { apply (respects_at (removes X)) in E; [done|]. unfold containerOperation. cbv zeta. repeat (frame_step || apply remote_removes); [apply sr_connected|apply sr_realm]. }
  intros realm spec ->. unfold containerOperation in E. cbv zeta in E. do 6 (case_match; [done|]). unfold st_bind in E.
  destruct (remote sto_ensureClientConnected c) as [c1 [e1|]]; [done|]. unfold remote in E.
  rewrite Es in E. pose proof (realm_ns (cl_world c1)) as Hr. destruct (sto_GetRealm (realm_named _) (cl_world c1)) as [w2 [rl|]]; [|done].
  cbn in E, Hr. case_match; [done|]. destruct (find_first _ _) as [s|] eqn:Ef; [|done]. destruct (c_Root s) eqn:Er; [done|].
  injection E as <- -> ->. specialize (Hr _ eq_refl). apply List.find_some in Ef as [Hin%list_elem_of_In Hid%String.eqb_eq].
  split; [done|]. split; [exact (proj1 (Forall_forall _ _) ids_plain spec Hin)|]. split; [done|]. by exists spec.
Qed.

Lemma stopOne_removes X cell id : cell_Spec cell = cell_Spec existing → respects (removes X) (runnerStopContainer cell id).
Proof.
  intros Es c. unfold runnerStopContainer, st_bind at 1. destruct (containerOperation _ _ _ _ _ _ c) as [c1 r] eqn:E.
  destruct (containerOperation_found X _ _ _ _ _ _ _ _ _ Es E) as [R1 Hf]. destruct r as [[realm spec]|e]; [|exact R1].
  destruct (Hf _ _ eq_refl) as (En & Hp & _). etrans; [exact R1|]. destruct (String.eqb _ _); [reflexivity|]. rewrite En.
  revert c1 E R1. intros c1 _ _. revert c1. change (respects (removes X) (let! stopped := StopContainer ns (c_ContainerdID spec) stop5s in
    st_ret (match stopped with Err e => Some (EWrap "failed to stop container %s: %w" [e]) | Ok _ => None end))).
  apply respects_bind; [apply _|intros c1; apply same_live_removes; by apply StopContainer_same|]. intros a c1. reflexivity.
Qed.

Lemma deleteOne_removes cell id : cell_Spec cell = cell_Spec existing → respects (removes (answers id)) (runnerDeleteContainer cniConf cell id).
Proof.
  intros Es c. unfold runnerDeleteContainer, st_bind at 1. destruct (containerOperation _ _ _ _ _ _ c) as [c1 r] eqn:E.
  destruct (containerOperation_found (answers id) _ _ _ _ _ _ _ _ _ Es E) as [R1 Hf]. destruct r as [[realm spec]|e]; [|exact R1].
  destruct (Hf _ _ eq_refl) as (En & Hp & Ha). etrans; [exact R1|]. clear E R1 Hf. cbv zeta. rewrite En. destruct (String.eqb _ _); [reflexivity|]. revert c1.
  match goal with |- ∀ c1, removes _ c1 (?m c1).1 => change (respects (removes (answers id)) m) end.
  apply respects_bind; [apply _|apply remote_removes, sr_space|]. intros space.
  apply respects_bind; [apply _|by apply netnsOrEmpty_removes|]. intros netns. apply respects_bind; [apply _|apply purgeCNI_removes; apply _|]. intros _.
  apply respects_bind; [apply _|intros c1; apply same_live_removes; by apply StopContainer_same|]. intros _.
  apply respects_bind; [apply _|by apply deleted_removes|].
  intros [e|]; [destruct (error_is _ e)|]; repeat (frame_step || (apply purgeCNI_removes; apply _) || apply remote_removes || apply (removeSymlink_frame same_srv any_netns)).
Qed.

Lemma takeDown_removes why cell id : cell_Spec cell = cell_Spec existing → respects (removes (answers id)) (takeDown cniConf why cell id).
Proof.
  intros Es. unfold takeDown. apply respects_bind; [apply _|by apply stopOne_removes|]. intros e. apply respects_try; [apply _..|repeat frame_step|]. intros _.
  apply respects_bind; [apply _|by apply deleteOne_removes|]. intros e'. repeat frame_step.
Qed.

(** What an update takes down: a recorded container that is not a root and whose ID no
    container of the desired cell has, or for whose ID the desired and the recorded cell
    differ in a setting that counts. *)
Definition differs (d a : ContainerSpec) : Prop :=
  ¬ (c_Image d = c_Image a ∧ c_Command d = c_Command a ∧ c_Args d = c_Args a ∧ c_WorkingDir d = c_WorkingDir a ∧
     c_SecurityOpts d = c_SecurityOpts a ∧ c_Devices d = c_Devices a ∧ volNorm <$> c_Volumes d = volNorm <$> c_Volumes a ∧ c_Secrets d = c_Secrets a).
Definition taken_down (desired : Cell) (p : string * string) : Prop :=
  ∃ s, s ∈ csp_Containers (cell_Spec existing) ∧ c_Root s = false ∧ p = (ns, c_ContainerdID s) ∧
    ((∀ d, d ∈ csp_Containers (cell_Spec desired) → c_ID d ≠ c_ID s) ∨
     ∃ d a, d ∈ csp_Containers (cell_Spec desired) ∧ a ∈ csp_Containers (cell_Spec existing) ∧ c_ID d = c_ID s ∧ c_ID a = c_ID s ∧
       c_Root a = false ∧ differs d a).

Lemma byID_None l id : id ≠ "" → containersByID l !! id = None → ∀ d, d ∈ l → c_ID d ≠ id.
Proof.
  unfold containersByID. rewrite index_by_lookup_None. intros Hne Hn d Hd E. apply (Hn d); [|done].
  apply list_elem_of_In, List.filter_In. split; [by apply list_elem_of_In|]. rewrite E. by destruct (String.eqb_spec id "").
Qed.
Lemma byID_Some l id a : containersByID l !! id = Some a → a ∈ l ∧ c_ID a = id ∧ id ≠ "".
Proof.
  unfold containersByID. intros (x & Hx & Ei & <-)%index_by_lookup_Some. apply list_elem_of_In, List.filter_In in Hx as [Hx%list_elem_of_In Hne].
  split_and!; [done|done|]. by destruct (String.eqb_spec (c_ID x) ""); subst.
Qed.
(** What answers to the ID of a recorded container is taken down when that container is. *)
Lemma answers_recorded id a p : a ∈ csp_Containers (cell_Spec existing) → c_ID a = id → answers id p →
  ∃ s, s ∈ csp_Containers (cell_Spec existing) ∧ c_ID s = id ∧ c_Root s = false ∧ p = (ns, c_ContainerdID s).
Proof.
  intros Ha <- [E1 (s & Hs & Ei & Hr & E2)]. rewrite (proj1 (Forall_forall _ _) ids_trimmed a Ha) in Ei.
  exists s. split_and!; [done|done|done|]. destruct p; cbn in *. by subst.
Qed.

Lemma removes_weaken (X Y : string * string → Prop) (c c' : C) : (∀ p, X p → Y p) → removes X c c' → removes Y c c'.
Proof. intros Hxy Hr Hc. destruct (Hr Hc) as (K1 & K2 & K3). eauto. Qed.

Lemma removeOrphans_removes desired cell keep order : cell_Spec cell = cell_Spec existing →
  respects (removes (taken_down desired))
    (removeOrphans cniConf cell (containersByID (csp_Containers (cell_Spec desired))) (containersByID (csp_Containers (cell_Spec existing))) keep order).
Proof.
  intros Es. induction order as [|id order IH]; cbn [removeOrphans]; [repeat frame_step|].
  destruct (containersByID (csp_Containers (cell_Spec desired)) !! id) eqn:Ed; [done|].
  destruct (containersByID (csp_Containers (cell_Spec existing)) !! id) as [a|] eqn:Ea; [|done].
  destruct (c_Root a && keep); [done|]. destruct (c_Root a); [repeat frame_step|].
  apply respects_try; [apply _..| |done]. intros c. apply (removes_weaken (answers id)); [|by apply takeDown_removes].
  intros p Hp. apply byID_Some in Ea as (Ha & Ei & Hne). destruct (answers_recorded _ _ _ Ha Ei Hp) as (s & Hs & <- & Hr & ->).
  exists s. split_and!; [done|done|done|]. left. by apply byID_None.
Qed.

Lemma replaceChanged_removes desired cell l : cell_Spec cell = cell_Spec existing → l ⊆ csp_Containers (cell_Spec desired) →
  respects (removes (taken_down desired)) (replaceChanged cniConf cell (containersByID (csp_Containers (cell_Spec existing))) l).
Proof.
  intros Es. induction l as [|d l IH]; intros Hl; cbn [replaceChanged]; [repeat frame_step|]. apply respects_try; [apply _..| |].
  - destruct (containersByID (csp_Containers (cell_Spec existing)) !! c_ID d) as [a|] eqn:Ea; [|repeat frame_step]. cbv zeta.
    destruct (containerSpecChanged (set_cid (c_ContainerdID a) d) a) eqn:Ec; [|repeat frame_step]. destruct (c_Root a) eqn:Er; [repeat frame_step|].
    apply respects_try; [apply _..| |intros ?; repeat frame_step]. replace (c_ID (set_cid (c_ContainerdID a) d)) with (c_ID d) by by destruct d.
    intros c. apply (removes_weaken (answers (c_ID d))); [|by apply takeDown_removes]. intros p Hp.
    apply byID_Some in Ea as (Ha & Ei & Hne). destruct (answers_recorded _ _ _ Ha Ei Hp) as (s & Hs & Es' & Hr & ->).
    exists s. split_and!; [done|done|done|]. right. exists d, a. split_and!; [apply Hl; left|done|done|congruence|done|].
    intros Hsame. apply not_false_iff_true in Ec. apply Ec, unchanged_spec. by destruct d.
  - intros [d' ids]. apply respects_try; [apply _..|apply IH; set_solver|]. intros [new ids']. repeat frame_step.
Qed.

Notation adds_any := (on_world (adds (fun _ => True))).
Lemma added_live (c c' : C) : adds_any c c' → live c ⊆ live c'.
Proof. by intros [Hs _]. Qed.
#[local] Instance any_added : BringRespects (adds (fun _ => True)) any_netns (fun _ => True) := adds_respects _.

Lemma startRecreated_frame cell ids : respects adds_any (startRecreated cniConf marshalPayload cell ids).
Proof.
  revert cell. induction ids as [|id ids IH]; intros cell; cbn [startRecreated]; [repeat frame_step|]. apply respects_try; [apply _..| |done].
  apply respects_wrap; [apply _..|]. by apply (runnerStartContainer_frame cniConf marshalPayload (adds (fun _ => True)) any_netns (fun _ => True)).
Qed.

(** The part of an update that only adds. *)
Lemma ensurePart_frame cell ids :
  respects adds_any (let!? _ := ensureConnected in
    let! ensured := ensureCellContainers marshalPayload cell in
    let!? _ := st_wrap (wrapf "failed to ensure cell containers: %w") (st_ret ensured.2) in
    let!? _ := persistCell ensured.1 in
    startRecreated cniConf marshalPayload ensured.1 ids).
Proof.
  apply respects_try; [apply _..|unfold ensureConnected; apply respects_check; [apply _..|]; apply remote_frame, (sr_connected (P := any_netns))|]. intros _.
  apply respects_bind; [apply _|by apply (ensureCellContainers_frame marshalPayload (adds (fun _ => True)) any_netns (fun _ => True))|]. intros ensured.
  apply respects_try; [apply _..|repeat frame_step|]. intros _.
  apply respects_try; [apply _..|unfold persistCell; apply respects_check; [apply _..|]; apply remote_frame, (br_update (P := any_netns) (X := fun _ => True))|].
  intros _. apply startRecreated_frame.
Qed.
End Removal.

(** *** What creating and ensuring leave of the cell *)

Section Kept.
Context {W : Type} `{Containerd W} `{OciHost W} `{CniHost W} `{RunnerStore W} `{NodeHost W} `{HostConfig} `{RunnerOpts}.
Context (marshalPayload : containerSpecHashPayload → string).
Context {A : Type} (f : Cell → A) (f_containers : ∀ l cell, f (with_Containers l cell) = f cell) (f_root : ∀ id cell, f (with_RootContainerID id cell) = f cell).
Notation C := (Client W).
Notation keeps m cell := (∀ c : C, f (m c).2.1 = f cell).

Lemma keeping_keeps {X B} cell cell0 (m : st C (result X)) (k : X → st C (Cell * result B)) :
  f cell = f cell0 → (∀ a, keeps (k a) cell0) → keeps (keeping cell m k) cell0.
Proof. intros Hc Hk c. unfold keeping, st_bind. destruct (m c) as [c1 [a|e]]; [apply Hk|exact Hc]. Qed.
Lemma put_root_keeps spec cell : f (put_root spec cell) = f cell.
Proof. unfold put_root. cbv zeta. case_match; by rewrite ?f_root, f_containers. Qed.
Lemma stamped_keeps cell : f (stampCellEtcFilePathsOnContainers cell) = f cell.
Proof. unfold stampCellEtcFilePathsOnContainers. apply f_containers. Qed.
Lemma defaults_keep cell (c c' : C) cell' : applyCellContainerDefaults cell c = (c', Ok cell') → f cell' = f cell.
Proof. unfold applyCellContainerDefaults. intros (c1 & s & _ & E)%st_try_ok. unfold st_ret in E. injection E as _ <-. apply f_containers. Qed.

Lemma createEach_keeps t r s st_ ce a before todo root cell : keeps (createEach marshalPayload t r s st_ ce a before todo root cell) cell.
Proof.
  revert before root. induction todo as [|x todo IH]; intros before root; cbn [createEach]; [intros c; cbn; apply f_containers|]. cbv zeta.
  case_match; repeat (apply keeping_keeps; [by rewrite ?f_containers|intros ?]); apply IH.
Qed.
Lemma ensureEach_keeps t r s st_ ce before todo cell : keeps (ensureEach marshalPayload t r s st_ ce before todo cell) cell.
Proof.
  revert before. induction todo as [|x todo IH]; intros before; cbn [ensureEach]; [intros c; cbn; apply f_containers|]. cbv zeta.
  repeat (apply keeping_keeps; [by rewrite ?f_containers|intros ?]). apply IH.
Qed.
Lemma createCellContainers_keeps cell : keeps (createCellContainers marshalPayload cell) cell.
Proof.
  unfold createCellContainers. cbv zeta. intros c. unfold keeping at 1. unfold st_bind at 1.
  match goal with |- context [match ?m c with _ => _ end] => destruct (m c) as [c1 [x|e]] eqn:E; [|done] end.
  do 5 (apply st_try_ok in E as (? & ? & _ & E)). apply defaults_keep in E. revert c1. apply keeping_keeps; [done|]. intros [t spec].
  apply keeping_keeps; [by rewrite put_root_keeps|]. intros _ c1. by rewrite createEach_keeps, stamped_keeps, put_root_keeps.
Qed.
Lemma ensureRoot_keeps t id cell : keeps (ensureRoot marshalPayload t id cell) cell.
Proof.
  unfold ensureRoot. apply keeping_keeps; [done|]. intros []; [apply keeping_keeps; [done|]; by intros ?|].
  apply keeping_keeps; [done|]. intros spec. repeat (apply keeping_keeps; [apply put_root_keeps|]; intros ?). intros c. apply put_root_keeps.
Qed.
Lemma ensureCellContainers_keeps cell : keeps (ensureCellContainers marshalPayload cell) cell.
Proof.
  unfold ensureCellContainers. cbv zeta. intros c. unfold keeping at 1. unfold st_bind at 1.
  match goal with |- context [match ?m c with _ => _ end] => destruct (m c) as [c1 [x|e]] eqn:E; [|done] end.
  do 5 (apply st_try_ok in E as (? & ? & _ & E)). apply defaults_keep in E. revert c1. apply keeping_keeps; [done|]. intros [t id] c1.
  unfold st_bind at 1. pose proof (ensureRoot_keeps t id x c1) as Hr. destruct (ensureRoot _ t id x c1) as [c2 rooted]. cbn [fst snd] in Hr |- *.
  revert c2. apply keeping_keeps; [congruence|]. intros _. apply keeping_keeps; [congruence|]. intros _ c2. rewrite ensureEach_keeps, stamped_keeps. congruence.
Qed.
End Kept.

Section Outcome.
Context {W : Type} `{Containerd W} `{OciHost W} `{CniHost W} `{RunnerStore W} `{NodeHost W} `{CgroupClient W} `{ScopeStore W} `{NamespaceServices W}
  `{DiskHost W} `{CellRecords W} `{HostConfig} `{RunnerOpts}.
Context (cniConf : Conf) (marshalPayload : containerSpecHashPayload → string).
Context `{!ContainerdLaws W} `{!BringRespects same_srv any_netns (fun _ => False)}.
Notation C := (Client W).

(** C28: Updating a cell in place removes no container from the server but those recorded
    for the cell that are not a root and whose ID no container of the desired cell has, or
    for whose ID the desired and the recorded cell differ in image, command, arguments,
    working directory, security options, devices, volumes or secrets; whatever order the
    recorded containers are visited in and whatever fails on the way.  This is for recorded
    IDs without white space around them and plain server IDs, in the realm's namespace. *)
Theorem update_removes_only ns range desired stored (c c1 c' : C) r :
  plain_id ns → realm_in ns stored →
  Forall (fun s => TrimSpace (c_ID s) = c_ID s) (csp_Containers (cell_Spec stored)) →
  Forall (fun s => plain_id (c_ContainerdID s)) (csp_Containers (cell_Spec stored)) → client_ok c →
  remote (sto_GetCell desired) c = (c1, Ok stored) →
  runnerUpdateCell cniConf marshalPayload range desired c = (c', r) →
  ∀ p, p ∈ live c → p ∉ live c' → taken_down ns stored desired p.
Proof.
  intros Hns Hrl Htrim Hids Hok E1 E. assert (R1 : live c1 = live c ∧ client_ok c1).
  { pose proof (remote_same (sto_GetCell desired) (sr_cell (P := any_netns) desired) c) as Hs. rewrite E1 in Hs. destruct Hs as [El Hc]. cbn [fst] in El, Hc.
    split; [exact El|]. destruct Hok as [K1 K2]. split; [auto|]. intros p Hp. apply K2. by rewrite El in Hp. }
  destruct R1 as [El Hok1]. unfold runnerUpdateCell in E. unfold st_try at 1, st_wrap at 1, st_bind at 1 2 in E. rewrite E1 in E. cbn [st_ret] in E. cbv zeta in E.
  set (existing := with_Labels _ stored) in E. assert (Es : cell_Spec existing = cell_Spec stored) by done. rewrite <-El. clear E1 El Hok c.
  assert (Hstep : ∀ c2 (m : st C (result Cell)), removes (taken_down ns stored desired) c1 c2 → m c2 = (c', r) → respects (on_world (adds (fun _ => True))) m →
    ∀ p, p ∈ live c1 → p ∉ live c' → taken_down ns stored desired p).
  { intros c2 m Hr Em Hm p Hp Hn. destruct (Hr Hok1) as (_ & _ & Hx). apply Hx; [done|]. intros Hin. apply Hn.
    apply (respects_at (on_world (adds (fun _ => True)))) in Em; [|done]. by apply (added_live _ _ Em). }
  unfold st_try at 1, st_bind at 1 in E. destruct (removeOrphans _ _ _ _ _ _ c1) as [c2 [[]|e2]] eqn:E2.
  all: apply (respects_at (removes (taken_down ns stored desired))) in E2; [|rewrite Es; by apply (removeOrphans_removes cniConf ns Hns stored Hrl Htrim Hids)].
  2: { apply (Hstep c2 (st_ret (Err e2)) E2 E). apply respects_ret, _. }
  unfold st_try at 1, st_bind at 1 in E. destruct (replaceChanged _ _ _ _ c2) as [c3 [[new ids]|e3]] eqn:E3.
  all: apply (respects_at (removes (taken_down ns stored desired))) in E3; [|rewrite Es; by apply (replaceChanged_removes cniConf ns Hns stored Hrl Htrim Hids)].
  2: { apply (Hstep c3 (st_ret (Err e3)) (transitivity E2 E3) E). apply respects_ret, _. }
  eapply (Hstep c3 _ (transitivity E2 E3) E). apply ensurePart_frame. apply _.
Qed.

(** C31: Creating a cell that is not there yet is refused with the disk-pressure error when
    the volume of its realm has no block left for an unprivileged process, at every block
    threshold from 1 to 100 and unless the cell overrides the check; the statfs call that
    found this is the last thing done, so nothing of the cell is written or made.  The
    volume is any of less than 2^64 bytes that is not all free. *)
Theorem full_volume_refuses_cell cell containers (c c1 c2 : C) e w s :
  (1 ≤ opt_DiskPressureBlockPercent ≤ 100)%Z → csp_IgnoreDiskPressure (cell_Spec cell) = false →
  remote sto_ensureClientConnected c = (c1, None) →
  let name := TrimSpace (cm_Name (cell_Metadata cell)) in
  ValidateHierarchyName "cell" name = None → trimIDs (csp_Containers (cell_Spec cell)) = Ok containers →
  remote (sto_GetCell (with_Containers containers (with_Name name cell))) c1 = (c2, Err e) → error_is ErrCellNotFound e = true →
  unix_Statfs (RealmMetadataDir RunPath (csp_RealmName (cell_Spec cell))) (cl_world c2) = (w, Ok s) → is_full s →
  ∃ e', runnerCreateCell cniConf marshalPayload cell c = ((remote (unix_Statfs (RealmMetadataDir RunPath (csp_RealmName (cell_Spec cell)))) c2).1, Err e') ∧
        error_is ErrDiskPressure e' = true.
Proof.
  intros Hb Hi E1 name Hn Ht E2 He Es Hf. set (cell' := with_Containers containers (with_Name name cell)) in *.
  assert (Hc : csp_IgnoreDiskPressure (cell_Spec cell') = false ∧ csp_RealmName (cell_Spec cell') = csp_RealmName (cell_Spec cell))
    by (unfold cell'; by destruct cell as [? [] ?]).
  destruct Hc as [Hi' Hr]. rewrite <-Hr in Es. destruct (full_volume_blocks cell' _ _ _ Hb Hi' Es Hf) as [_ (e' & Eg & Hp)].
  exists e'. split; [|done]. unfold runnerCreateCell, ensureConnected, st_try at 1, st_check at 1, st_bind at 1 2. rewrite E1. cbn [st_ret].
  cbv zeta. fold name. unfold st_try at 1, st_bind at 1. rewrite Hn. cbn [st_ret]. unfold st_try at 1, st_bind at 1. rewrite Ht. cbn [st_ret].
  fold cell'. unfold st_bind at 1. rewrite E2, He. unfold st_try at 1, st_check at 1, st_bind at 1 2, remote at 1. rewrite Eg.
  cbn [st_ret]. unfold remote. by rewrite <-Hr, Es.
Qed.

(** a new cell whose creation succeeds is recorded Ready as the last act, with a cgroup
    of its own, and every container of the recorded spec, the root among them, is on the
    server under the ID that was recorded for it. *)
Theorem created_cell_recorded cell (c c' : C) cell' : provisionNewCell cniConf marshalPayload cell c = (c', Ok cell') →
  cst_State (cell_Status cell') = CellStateReady ∧ cst_CgroupPath (cell_Status cell') ≠ "" ∧
  (∃ c0, remote (sto_UpdateCellMetadata cell') c0 = (c', None)) ∧
  (∃ ns, ∀ s, s ∈ csp_Containers (cell_Spec cell') → c_ContainerdID s ≠ "" ∧ (ns, c_ContainerdID s) ∈ live c') ∧
  ∃ id, BuildRootContainerdID (csp_SpaceName (cell_Spec cell)) (csp_StackName (cell_Spec cell)) (csp_ID (cell_Spec cell)) = Ok id ∧
        getRootContainerContainerdID cell' = Ok id.
Proof.
  unfold provisionNewCell. intros E. apply st_try_ok in E as (c1 & u1 & _ & E). apply st_bind_inv in E as (c2 & [cell2 r2] & E2 & E). cbn [fst snd] in E.
  destruct r2 as [cell3|e]; [unfold st_ret in E; injection E as <- ->|by apply st_bind_inv in E as (? & ? & _ & E)].
  unfold provisionPastStub in E2. apply keeping_ok in E2 as (c3 & cg & E3 & E2). apply st_bind_inv in E2 as (c4 & [cell4 made] & E4 & E2). cbn [fst snd] in E2.
  apply keeping_ok in E2 as (c5 & h & E5 & E2). unfold st_ret in E5. injection E5 as <- ->. apply keeping_ok in E2 as (c6 & u6 & E6 & E2).
  unfold st_ret in E2. injection E2 as <- <- <-. apply st_check_ok in E6.
  assert (Hlive : live c6 = live c4).
  { apply (respects_at (on_world same_srv)) in E6; [exact E6|]. apply remote_frame, (br_update (P := any_netns) (X := fun _ => False)). }
  set (cell0 := recordBridge _) in E4. assert (Hst : cell_Status cell4 = cell_Status cell0).
  { change cell4 with ((c4, (cell4, Ok h)).2.1). rewrite <-E4. apply createCellContainers_keeps; by intros ? [? [] ?]. }
  destruct (provisioned_cell_complete marshalPayload cell0 c3 c4 cell4 h E4) as (_ & (ns & Hl) & Hne & _ & id & Hb & Hg).
  assert (Hsp : cell_Spec cell0 = cell_Spec cell ∧ cst_CgroupPath (cell_Status cell0) = cg.1).
  { unfold cell0, recordBridge. destruct cell as [m s []]. by destruct (cellSpaceBridgeName _). }
  destruct Hsp as [Hsp Hcg]. rewrite Hsp in Hb. split_and!.
  - by destruct cell4 as [? ? []].
  - replace (cst_CgroupPath (cell_Status (markCellReady cell4))) with cg.1; [|by rewrite <-Hcg, <-Hst; destruct cell4 as [? ? []]].
    unfold createCellCgroup in E3. apply remote_ok in E3. do 3 (apply st_try_ok in E3 as (? & ? & _ & E3)). by apply createLevel_ok in E3.
  - eauto.
  - exists ns. intros s Hs. replace (csp_Containers (cell_Spec (markCellReady cell4))) with (csp_Containers (cell_Spec cell4)) in Hs by by destruct cell4 as [? ? []].
    split; [by rewrite Forall_forall in Hne; apply Hne|]. rewrite Hlive, Hl. apply elem_of_union_l, elem_of_list_to_set, list_elem_of_fmap. by exists s.
  - exists id. split; [done|]. rewrite <-Hg. by destruct cell4 as [? ? []].
Qed.

(** The terminal and auto-delete settings of a cell. *)
Definition settings (cell : Cell) := (csp_Tty (cell_Spec cell), csp_AutoDelete (cell_Spec cell)).
Lemma updatedCell_settings existing desired new : settings (updatedCell existing desired new) = settings existing.
Proof. unfold updatedCell. cbv zeta. destruct existing as [m [] s]. repeat case_match; done. Qed.

(** An update that succeeds has written the settings the cell had before, whatever the
    desired cell says, although a difference of them is what [Diff.cellSteps] reports: the
    change is never made and is reported again by the next apply. *)
Theorem update_drops_settings range desired stored (c c1 c' : C) cell' :
  remote (sto_GetCell desired) c = (c1, Ok stored) → runnerUpdateCell cniConf marshalPayload range desired c = (c', Ok cell') →
  ∃ cell c2 c3, remote (sto_UpdateCellMetadata cell) c2 = (c3, None) ∧ settings cell = settings stored.
Proof.
  intros E1 E. unfold runnerUpdateCell in E. apply st_try_ok in E as (d1 & x & E & E'). apply st_wrap_ok in E. rewrite E1 in E. injection E as <- <-. cbv zeta in E'.
  apply st_try_ok in E' as (d2 & u2 & _ & E). apply st_try_ok in E as (d3 & [new ids] & _ & E). apply st_try_ok in E as (d4 & u4 & _ & E).
  apply st_bind_inv in E as (d5 & ensured & E5 & E). apply st_try_ok in E as (d6 & u6 & _ & E). apply st_try_ok in E as (d7 & u7 & E7 & E). apply st_check_ok in E7.
  exists ensured.1, d6, d7. split; [done|]. change ensured.1 with ((d5, ensured).2.1). rewrite <-E5.
  rewrite (ensureCellContainers_keeps marshalPayload settings) by (by intros ? [? [] ?]). by rewrite updatedCell_settings.
Qed.
End Outcome.

(** ** Witnesses: on the node of [BringUpTheorems] *)

#[local] Instance cn_CgroupClient : CgroupClient Node := {|
  cgp_NewCgroup := fun _ => st_ret (Ok true); cgp_LoadCgroup := fun _ _ => st_ret (Ok ()); cgp_GetCgroupMountpoint := st_ret "/sys/fs/cgroup";
  cgp_GetCurrentCgroupPath := st_ret (Ok "/kukeon"); cgp_CgroupPath := fun g _ => st_ret (Ok g);
  cgp_EnsureSubtreeControllers := fun _ _ l => st_ret (Ok l); cgp_EnableCellSubtreeControllers := fun _ _ l => st_ret (Ok l);
  cgp_EnableCellAllSubtreeControllers := fun _ _ => st_ret (Ok ["cpu"]); cgp_DeleteCgroup := fun _ _ => st_ret None |}.
#[local] Instance cn_ScopeStore : ScopeStore Node := {|
  scp_GetStack := fun t => st_ret (Ok t); scp_UpdateRealmMetadata := fun _ => st_ret None; scp_UpdateSpaceMetadata := fun _ => st_ret None;
  scp_UpdateStackMetadata := fun _ => st_ret None; scp_WriteSpaceDoc := fun _ _ => st_ret None; scp_stampSpaceLifecycle := fun _ s => s;
  scp_LoadAssigned := fun _ _ => st_ret (Ok "10.88.0.0/24"); scp_Allocate := fun _ _ => st_ret (Ok "10.88.0.0/24"); scp_Release := fun _ _ => st_ret None;
  scp_applySpaceEgressPolicy := fun _ => st_ret None; scp_removeSpaceEgressPolicy := fun _ => st_ret None;
  scp_reclaimScopeMetadata := fun _ => st_ret None; scp_ContainerdSocket := "/run/containerd/containerd.sock" |}.
#[local] Instance cn_Namespaces : NamespaceServices Node := {|
  nss_Connect := st_ret None; nss_List := st_ret (Ok []); nss_Create := fun _ => st_ret None; nss_Delete := fun _ => st_ret None;
  lease_List := fun _ => st_ret (Ok []); lease_Delete := fun _ _ => st_ret None; lease_Create := fun _ => st_ret (Ok "lease");
  image_List := fun _ => st_ret (Ok []); image_Delete := fun _ _ => st_ret None; snap_Walk := fun _ _ => st_ret (Ok []);
  snap_Remove := fun _ _ _ => st_ret None; blob_Walk := fun _ => st_ret (Ok []); blob_Delete := fun _ _ => st_ret None |}.
#[local] Instance cn_DiskHost : DiskHost Node := {| unix_Statfs := fun _ => st_ret (Err (EOpaque "statfs")) |}.
#[local] Instance cn_CellRecords : CellRecords Node := {| sto_readCellInternal := fun _ w => (w, Ok (nd_cell w)) |}.
#[local] Instance cn_HostConfig : HostConfig := {| SignalName := fun _ => ""; RealmNamespaceSuffix := ".kukeon.io"; RunPath := "/run/kukeon" |}.
#[local] Instance cn_RunnerOpts : RunnerOpts := {|
  opt_ForceRegenerateCNI := false; opt_KukeonGroupGID := 0; opt_DefaultMemoryLimitBytes := 0; opt_KukettyLogLevel := ""; opt_DiskPressureBlockPercent := 0 |}.

Definition rootless : Cell := with_RootContainerID "nope" (node_cell [node_app]).

Lemma failed_creation_recorded_witness :
  let c := node_client (node_cell []) in
  let '(c', r) := provisionNewCell node_conf node_hash rootless c in
  match r with Ok _ => False | Err e => ∃ cell2 c2, recorded_failed node_conf cell2 "CreateCellFailed" e c2 c' end.
Proof.
  intros c. destruct (provisionNewCell node_conf node_hash rootless c) as [c' [cell'|e]] eqn:E.
  - apply (f_equal snd) in E. vm_compute in E. discriminate E.
  - destruct (failed_creation_recorded node_conf node_hash rootless c c' e E) as [[e' He]|(c1 & c2 & cell2 & _ & _ & Hm)]; [discriminate He|exists cell2, c2; exact Hm].
Defined.

Lemma node_reads cell desired : remote (sto_GetCell desired) (node_client cell) = (node_client cell, Ok cell).
Proof. reflexivity. Qed.


(** The user of a container. *)
Definition as_user (u : string) (c : ContainerSpec) : ContainerSpec :=
  let 'Build_ContainerSpec id cid r s t ce root im cm ar wd env po vo ne na pr hn hp hc nc _ ro ca so de tm re se rp gi cni pol bo mr at_ ty cg eh en := c in
  Build_ContainerSpec id cid r s t ce root im cm ar wd env po vo ne na pr hn hp hc nc u ro ca so de tm re se rp gi cni pol bo mr at_ ty cg eh en.

Lemma unchanged_hash_gap_witness :
  containerSpecChanged (as_user "1000" node_app) node_app = false ∧
  classifySpecHashReuse (stampSpecHashOnLabels hp_User ∅ node_app) (ComputeContainerSpecHash hp_User (as_user "1000" node_app)) = specHashRefuse.
Proof.
  assert (E : containerSpecChanged (as_user "1000" node_app) node_app = false) by reflexivity. split; [exact E|].
  apply (unchanged_hash_gap hp_User ∅ _ _ E); [|discriminate].
  intros Hh. exfalso. revert Hh. vm_compute. discriminate.
Defined.

(** A cell with an old container that the desired one drops, and a changed one. *)
Definition node_old : ContainerSpec := set_cid "s_t_web_old" (set_ID "old" (sample_container "app" false "no")).
Definition node_web : Cell := node_cell [host_root; node_app; node_old].
Definition web_client : Client Node := MkClient
  {| nd_host := {| ho_containers := list_to_map [(("r.kukeon.io", "s_t_web_root"), true); (("r.kukeon.io", "s_t_web_app"), true);
                                                  (("r.kukeon.io", "s_t_web_old"), true)]; ho_records := []; ho_detached := [] |};
     nd_clock := 0; nd_attached := []; nd_cell := node_web |} ∅ ∅.
Definition sorted_range (m : gmap string ContainerSpec) : list string := (map_to_list m).*1.

Lemma update_removes_only_witness :
  let '(c', r) := runnerUpdateCell node_conf node_hash sorted_range (node_cell [node_app]) web_client in
  is_Ok r = true ∧ ("r.kukeon.io", "s_t_web_root") ∈ live c' ∧ taken_down "r.kukeon.io" node_web (node_cell [node_app]) ("r.kukeon.io", "s_t_web_old").
Proof.
  destruct (runnerUpdateCell node_conf node_hash sorted_range (node_cell [node_app]) web_client) as [c' r] eqn:E.
  assert (Ec : c' = (runnerUpdateCell node_conf node_hash sorted_range (node_cell [node_app]) web_client).1) by by rewrite E.
  assert (Er : r = (runnerUpdateCell node_conf node_hash sorted_range (node_cell [node_app]) web_client).2) by by rewrite E.
  split_and!.
  - rewrite Er. by vm_compute.
  - rewrite Ec. apply (bool_decide_unpack _). by vm_compute.
  - apply (update_removes_only node_conf node_hash "r.kukeon.io" sorted_range (node_cell [node_app]) node_web web_client web_client c' r); try reflexivity.
    + by intros w realm [= <-].
    + repeat constructor.
    + repeat constructor.
    + split; [intros ns id h _ _ Hl; cbn in Hl; discriminate Hl|]. intros p Hp. assert (Hd : bool_decide (Forall (fun q : string * string => plain_id q.2) (elements (live web_client))) = true) by by vm_compute.
      apply bool_decide_eq_true in Hd. rewrite Forall_forall in Hd. by apply Hd, elem_of_elements.
    + exact E.
    + rewrite Ec. intros Hin. apply (bool_decide_pack _) in Hin. by vm_compute in Hin.
Defined.

(** The node with a volume whose last blocks are reserved, and no record of the cell. *)
Section FullNode.
#[local] Instance full_DiskHost : DiskHost Node := {|
  unix_Statfs := fun _ => st_ret (Ok {| sf_Bsize := 4096; sf_Blocks := 1000003; sf_Bfree := 1777; sf_Bavail := 0 |}) |}.
#[local] Instance full_RunnerStore : RunnerStore Node := {|
  sto_nowUTC := fun w => (w, nd_clock w); sto_ensureClientConnected := st_ret None; sto_GetRealm := fun _ => st_ret (Ok host_realm);
  sto_GetSpace := fun s => st_ret (Ok s); sto_GetCell := fun _ => st_ret (Err (ESentinel ErrCellNotFound));
  sto_UpdateCellMetadata := fun _ => st_ret None; sto_DeleteMetadata := fun _ => st_ret None;
  sto_pullSetupStatus := fun _ => st_ret (Err (EOpaque "no socket"));
  sto_cgroupMountpoint := "/sys/fs/cgroup"; sto_DeleteCgroup := fun _ _ => st_ret None |}.
#[local] Instance full_RunnerOpts : RunnerOpts := {|
  opt_ForceRegenerateCNI := false; opt_KukeonGroupGID := 0; opt_DefaultMemoryLimitBytes := 0; opt_KukettyLogLevel := "";
  opt_DiskPressureBlockPercent := 95 |}.

Lemma full_volume_refuses_cell_witness :
  let c := node_client (node_cell []) in
  ∃ e, runnerCreateCell node_conf node_hash (node_cell [node_app]) c = (c, Err e) ∧ error_is ErrDiskPressure e = true.
Proof.
  intros c. destruct (full_volume_refuses_cell node_conf node_hash (node_cell [node_app]) [node_app] c c c (ESentinel ErrCellNotFound) (cl_world c)
    {| sf_Bsize := 4096; sf_Blocks := 1000003; sf_Bfree := 1777; sf_Bavail := 0 |}) as (e & He & Hp);
    [cbn; lia|reflexivity..|by repeat split|]. exists e. split; [exact He|exact Hp].
Defined.
End FullNode.

Lemma created_cell_recorded_witness :
  let c := node_client (node_cell []) in
  let '(c', r) := provisionNewCell node_conf node_hash (with_RootContainerID "" (node_cell [sample_container "app" false "no"])) c in
  match r with Ok cell' => cst_State (cell_Status cell') = CellStateReady ∧ cst_CgroupPath (cell_Status cell') ≠ "" | Err _ => False end.
Proof.
  intros c. destruct (provisionNewCell node_conf node_hash _ c) as [c' [cell'|e]] eqn:E.
  - destruct (created_cell_recorded node_conf node_hash _ c c' cell' E) as (Hs & Hp & _). split; [exact Hs|exact Hp].
  - apply (f_equal snd) in E. vm_compute in E. discriminate E.
Defined.

