(* ===== verification/ScopeOps.v ===== *)
(** * ScopeOps: the controller's operations on realms, spaces and stacks
    (internal/controller/create_realm.go, create_space.go, create_stack.go, get_realm.go,
    get_space.go, get_stack.go, delete_realm.go, delete_space.go, delete_stack.go,
    purge_realm.go, purge_space.go, purge_stack.go, refresh.go)

    Creating a scope that exists ensures its parts.  Deleting and purging either walk down
    the hierarchy first (cascade), refuse a scope that has children, or skip that check
    (force).  Go returns a result beside an error, so each operation gives both.  The runner
    is the interfaces [ApplyRunner], [CellRunner] and [ScopeRunner]; log lines are left out. *)

From Stdlib Require Import Ascii ZArith Lia.
From stdpp Require Import base gmap strings list.
From S2P Require Import Prelude Model External Naming CellState Observe Refresh Apply Documents OutOfSync CellOps.

Local Open Scope nat_scope.

(** The runner operations on scopes beside those of the reconcilers and of the cells. *)
Class ScopeRunner (W : Type) := {
  rn_EnsureRealm : Realm → st W (result Realm);
  rn_EnsureStack : Stack → st W (result Stack);
  rn_ExistsCgroupRealm : Realm → st W (result bool);
  rn_ExistsCgroupSpace : Space → st W (result bool);
  rn_ExistsCgroupStack : Stack → st W (result bool);
  rn_ExistsRealmContainerdNamespace : string → st W (result bool);
  rn_ExistsSpaceCNIConfig : Space → st W (result bool);
  rn_DeleteRealm : Realm → st W (option error);
  rn_DeleteSpace : Space → st W (option error);
  rn_DeleteStack : Stack → st W (option error);
  rn_PurgeRealm : Realm → st W (bool * option error);
  rn_PurgeSpace : Space → st W (option error);
  rn_PurgeStack : Stack → st W (option error);
  rn_RefreshRealm : Realm → st W (Realm * bool * option error);
  rn_RefreshSpace : Space → st W (Space * bool * option error);
  rn_RefreshStack : Stack → st W (Stack * bool * option error);
  rn_RefreshCell : Cell → st W (Cell * nat * option error)
}.

Definition set_meta_Name (n : string) (m : ScopeMetadata) : ScopeMetadata :=
  {| sm_Name := n; sm_Labels := sm_Labels m; sm_Generation := sm_Generation m |}.
Definition add_label (k v : string) (m : ScopeMetadata) : ScopeMetadata :=
  {| sm_Name := sm_Name m; sm_Labels := match sm_Labels m !! k with Some _ => sm_Labels m | None => <[k := v]> (sm_Labels m) end;
     sm_Generation := sm_Generation m |}.

Section ScopeOps.
Context {W : Type} `{ApplyRunner W} `{CellRunner W} `{ScopeRunner W} `{HostConfig}.

(** ** Create *)

Record CreateRealmResult := {
  crr_Realm : Realm; crr_MetadataExistsPre : bool; crr_MetadataExistsPost : bool; crr_CgroupExistsPre : bool;
  crr_CgroupExistsPost : bool; crr_CgroupCreated : bool; crr_NamespaceExistsPre : bool; crr_NamespaceExistsPost : bool;
  crr_NamespaceCreated : bool; crr_Created : bool
}.
(** What is known before the runner is called: the three checks made so far. *)
Definition realm_pre (meta cgroup ns : bool) : CreateRealmResult :=
  {| crr_Realm := realm_named ""; crr_MetadataExistsPre := meta; crr_MetadataExistsPost := false; crr_CgroupExistsPre := cgroup;
     crr_CgroupExistsPost := false; crr_CgroupCreated := false; crr_NamespaceExistsPre := ns; crr_NamespaceExistsPost := false;
     crr_NamespaceCreated := false; crr_Created := false |}.
Definition realm_post (realm : Realm) (created cgroup ns : bool) : CreateRealmResult :=
  {| crr_Realm := realm; crr_MetadataExistsPre := negb created; crr_MetadataExistsPost := true; crr_CgroupExistsPre := cgroup;
     crr_CgroupExistsPost := true; crr_CgroupCreated := if created then true else negb cgroup;
     crr_NamespaceExistsPre := ns; crr_NamespaceExistsPost := true;
     crr_NamespaceCreated := if created then true else negb ns; crr_Created := created |}.

(** A failed check stores Go's false beside the error. *)
Definition CreateRealm (realm : Realm) : st W (CreateRealmResult * option error) :=
  let name := TrimSpace (sm_Name (realm_Metadata realm)) in
  match ValidateRealmName name with
  | Some e => st_ret (realm_pre false false false, Some e)
  | None =>
      let given := TrimSpace (rsp_Namespace (realm_Spec realm)) in
      let namespace := if String.eqb given "" then RealmNamespace name else given in
      let realm :=
        {| realm_Metadata := add_label KukeonRealmLabelKey namespace (set_meta_Name name (realm_Metadata realm));
           realm_Spec := {| rsp_Namespace := if String.eqb given "" then namespace else rsp_Namespace (realm_Spec realm);
                            rsp_RegistryCredentials := rsp_RegistryCredentials (realm_Spec realm) |};
           realm_Status := realm_Status realm |} in
      let! got := ap_GetRealm realm in
      match got with
      | Err e =>
          if negb (error_is ErrRealmNotFound e) then st_ret (realm_pre false false false, Some (wrapd ErrGetRealm e))
          else
            let! made := ap_CreateRealm realm in
            match made with
            | Err e => if error_is ErrNamespaceAlreadyExists e then st_ret (realm_post (realm_named "") true false false, None)
                       else st_ret (realm_pre false false false, Some (wrapd ErrCreateRealm e))
            | Ok r => st_ret (realm_post r true false false, None)
            end
      | Ok internalRealmPre =>
          let! cg := rn_ExistsCgroupRealm internalRealmPre in
          match cg with
          | Err e => st_ret (realm_pre true false false, Some (EWrap "failed to check if realm cgroup exists: %w" [e]))
          | Ok cg =>
              let! ns := rn_ExistsRealmContainerdNamespace namespace in
              match ns with
              | Err e => st_ret (realm_pre true cg false, Some (wrapd ErrCheckNamespaceExists e))
              | Ok ns =>
                  let! ensured := rn_EnsureRealm internalRealmPre in
                  st_ret (match ensured with
                          | Err e => (realm_pre true cg ns, Some (wrapd ErrCreateRealm e))
                          | Ok r => (realm_post r false cg ns, None)
                          end)
              end
          end
      end
  end.

Record CreateSpaceResult := {
  csr_Space : Space; csr_MetadataExistsPre : bool; csr_MetadataExistsPost : bool; csr_CgroupExistsPre : bool;
  csr_CgroupExistsPost : bool; csr_CgroupCreated : bool; csr_CNINetworkExistsPre : bool; csr_CNINetworkExistsPost : bool;
  csr_CNINetworkCreated : bool; csr_Created : bool
}.
Definition space_pre (meta cgroup net : bool) : CreateSpaceResult :=
  {| csr_Space := space_named "" ""; csr_MetadataExistsPre := meta; csr_MetadataExistsPost := false; csr_CgroupExistsPre := cgroup;
     csr_CgroupExistsPost := false; csr_CgroupCreated := false; csr_CNINetworkExistsPre := net; csr_CNINetworkExistsPost := false;
     csr_CNINetworkCreated := false; csr_Created := false |}.
Definition space_post (space : Space) (created cgroup net : bool) : CreateSpaceResult :=
  {| csr_Space := space; csr_MetadataExistsPre := negb created; csr_MetadataExistsPost := true; csr_CgroupExistsPre := cgroup;
     csr_CgroupExistsPost := true; csr_CgroupCreated := if created then true else negb cgroup;
     csr_CNINetworkExistsPre := net; csr_CNINetworkExistsPost := true;
     csr_CNINetworkCreated := if created then true else negb net; csr_Created := created |}.

(** The trimmed name and realm; the realm of the document itself is left as given. *)
Definition CreateSpace (space : Space) : st W (CreateSpaceResult * option error) :=
  let fresh := space_pre false false false in
  let name := TrimSpace (sm_Name (space_Metadata space)) in
  if String.eqb name "" then st_ret (fresh, Some (ESentinel ErrSpaceNameRequired))
  else match ValidateHierarchyName "space" name with
  | Some e => st_ret (fresh, Some e)
  | None =>
      let realm := TrimSpace (spsp_RealmName (space_Spec space)) in
      if String.eqb realm "" then st_ret (fresh, Some (ESentinel ErrRealmNameRequired))
      else
        let space :=
          {| space_Metadata := add_label KukeonSpaceLabelKey name (add_label KukeonRealmLabelKey realm (set_meta_Name name (space_Metadata space)));
             space_Spec := space_Spec space; space_Status := space_Status space |} in
        let lookupSpace := space_named realm name in
        let! got := ap_GetSpace lookupSpace in
        match got with
        | Err e =>
            if negb (error_is ErrSpaceNotFound e) then st_ret (fresh, Some (wrapd ErrGetSpace e))
            else
              let! made := ap_CreateSpace space in
              st_ret (match made with
                      | Err e => (fresh, Some (wrapd ErrCreateSpace e))
                      | Ok s => (space_post s true false false, None)
                      end)
        | Ok internalSpacePre =>
            let! cg := rn_ExistsCgroupSpace internalSpacePre in
            match cg with
            | Err e => st_ret (space_pre true false false, Some (EWrap "failed to check if space cgroup exists: %w" [e]))
            | Ok cg =>
                let! net := rn_ExistsSpaceCNIConfig lookupSpace in
                match net with
                | Err e => st_ret (space_pre true cg false, Some (wrapd ErrCheckNetworkExists e))
                | Ok net =>
                    let! ensured := cr_EnsureSpace internalSpacePre in
                    st_ret (match ensured with
                            | Err e => (space_pre true cg net, Some (wrapd ErrCreateSpace e))
                            | Ok s => (space_post s false cg net, None)
                            end)
                end
            end
        end
  end.

Record CreateStackResult := {
  ctr_Stack : Stack; ctr_MetadataExistsPre : bool; ctr_MetadataExistsPost : bool; ctr_CgroupExistsPre : bool;
  ctr_CgroupExistsPost : bool; ctr_CgroupCreated : bool; ctr_Created : bool
}.
Definition stack_pre (meta cgroup : bool) : CreateStackResult :=
  {| ctr_Stack := stack_named "" "" ""; ctr_MetadataExistsPre := meta; ctr_MetadataExistsPost := false; ctr_CgroupExistsPre := cgroup;
     ctr_CgroupExistsPost := false; ctr_CgroupCreated := false; ctr_Created := false |}.
Definition stack_post (stack : Stack) (created cgroup : bool) : CreateStackResult :=
  {| ctr_Stack := stack; ctr_MetadataExistsPre := negb created; ctr_MetadataExistsPost := true; ctr_CgroupExistsPre := cgroup;
     ctr_CgroupExistsPost := true; ctr_CgroupCreated := if created then true else negb cgroup; ctr_Created := created |}.

Definition CreateStack (stack : Stack) : st W (CreateStackResult * option error) :=
  let fresh := stack_pre false false in
  let name := TrimSpace (sm_Name (stack_Metadata stack)) in
  if String.eqb name "" then st_ret (fresh, Some (ESentinel ErrStackNameRequired))
  else match ValidateHierarchyName "stack" name with
  | Some e => st_ret (fresh, Some e)
  | None =>
      let realm := TrimSpace (stsp_RealmName (stack_Spec stack)) in
      let space := TrimSpace (stsp_SpaceName (stack_Spec stack)) in
      if String.eqb realm "" then st_ret (fresh, Some (ESentinel ErrRealmNameRequired))
      else if String.eqb space "" then st_ret (fresh, Some (ESentinel ErrSpaceNameRequired))
      else
        let stack :=
          {| stack_Metadata := add_label KukeonStackLabelKey name (add_label KukeonSpaceLabelKey space
               (add_label KukeonRealmLabelKey realm (set_meta_Name name (stack_Metadata stack))));
             stack_Spec := {| stsp_ID := if String.eqb (stsp_ID (stack_Spec stack)) "" then name else stsp_ID (stack_Spec stack);
                              stsp_RealmName := stsp_RealmName (stack_Spec stack); stsp_SpaceName := stsp_SpaceName (stack_Spec stack) |};
             stack_Status := stack_Status stack |} in
        let! got := ap_GetStack (stack_named realm space name) in
        match got with
        | Err e =>
            if negb (error_is ErrStackNotFound e) then st_ret (fresh, Some (wrapd ErrGetStack e))
            else
              let! made := ap_CreateStack stack in
              st_ret (match made with
                      | Err e => (fresh, Some (wrapd ErrCreateStack e))
                      | Ok s => (stack_post s true false, None)
                      end)
        | Ok internalStackPre =>
            let! parent := ap_GetSpace (space_named realm space) in
            match parent with
            | Err e => st_ret (stack_pre true false, Some (EWrap "space %q not found at run-path %q: %w" [e]))
            | Ok _ =>
                let! cg := rn_ExistsCgroupStack internalStackPre in
                match cg with
                | Err e => st_ret (stack_pre true false, Some (EWrap "failed to check if stack cgroup exists: %w" [e]))
                | Ok cg =>
                    let! ensured := rn_EnsureStack internalStackPre in
                    st_ret (match ensured with
                            | Err e => (stack_pre true cg, Some (wrapd ErrCreateStack e))
                            | Ok s => (stack_post s false cg, None)
                            end)
                end
            end
        end
  end.

(** ** Get *)

Record GetRealmResult := { grr_Realm : Realm; grr_MetadataExists : bool; grr_CgroupExists : bool; grr_NamespaceExists : bool }.
Definition GetRealm (realm : Realm) : st W (GetRealmResult * option error) :=
  let name := TrimSpace (sm_Name (realm_Metadata realm)) in
  let given := TrimSpace (rsp_Namespace (realm_Spec realm)) in
  let none := {| grr_Realm := realm_named ""; grr_MetadataExists := false; grr_CgroupExists := false; grr_NamespaceExists := false |} in
  if String.eqb name "" then st_ret (none, Some (ESentinel ErrRealmNameRequired))
  else
    let namespace := if String.eqb given "" then RealmNamespace name else given in
    let last (res : GetRealmResult) : st W (GetRealmResult * option error) :=
      let! ns := rn_ExistsRealmContainerdNamespace namespace in
      st_ret (match ns with
              | Err e => (res, Some (wrapd ErrCheckNamespaceExists e))
              | Ok b => ({| grr_Realm := grr_Realm res; grr_MetadataExists := grr_MetadataExists res;
                            grr_CgroupExists := grr_CgroupExists res; grr_NamespaceExists := b |}, None)
              end) in
    let! got := ap_GetRealm (realm_named name) in
    match got with
    | Err e => if error_is ErrRealmNotFound e then last none else st_ret (none, Some (wrapd ErrGetRealm e))
    | Ok internalRealm =>
        let! cg := rn_ExistsCgroupRealm internalRealm in
        match cg with
        | Err e => st_ret ({| grr_Realm := realm_named ""; grr_MetadataExists := true; grr_CgroupExists := false; grr_NamespaceExists := false |},
                           Some (EWrap "failed to check if realm cgroup exists: %w" [e]))
        | Ok cg => last {| grr_Realm := internalRealm; grr_MetadataExists := true; grr_CgroupExists := cg; grr_NamespaceExists := false |}
        end
    end.

Record GetSpaceResult := { gsr_Space : Space; gsr_MetadataExists : bool; gsr_CgroupExists : bool; gsr_CNINetworkExists : bool }.
Definition GetSpace (space : Space) : st W (GetSpaceResult * option error) :=
  let name := TrimSpace (sm_Name (space_Metadata space)) in
  let realmName := TrimSpace (spsp_RealmName (space_Spec space)) in
  let none := {| gsr_Space := space_named "" ""; gsr_MetadataExists := false; gsr_CgroupExists := false; gsr_CNINetworkExists := false |} in
  if String.eqb name "" then st_ret (none, Some (ESentinel ErrSpaceNameRequired))
  else if String.eqb realmName "" then st_ret (none, Some (ESentinel ErrRealmNameRequired))
  else
    let lookupSpace := space_named realmName name in
    let last (res : GetSpaceResult) : st W (GetSpaceResult * option error) :=
      let! net := rn_ExistsSpaceCNIConfig lookupSpace in
      st_ret (match net with
              | Err e => (res, Some (wrapd ErrCheckNetworkExists e))
              | Ok b => ({| gsr_Space := gsr_Space res; gsr_MetadataExists := gsr_MetadataExists res;
                            gsr_CgroupExists := gsr_CgroupExists res; gsr_CNINetworkExists := b |}, None)
              end) in
    let! got := ap_GetSpace lookupSpace in
    match got with
    | Err e => if error_is ErrSpaceNotFound e then last none else st_ret (none, Some (wrapd ErrGetSpace e))
    | Ok internalSpace =>
        let! cg := rn_ExistsCgroupSpace internalSpace in
        match cg with
        | Err e => st_ret ({| gsr_Space := space_named "" ""; gsr_MetadataExists := true; gsr_CgroupExists := false; gsr_CNINetworkExists := false |},
                           Some (EWrap "failed to check if space cgroup exists: %w" [e]))
        | Ok cg => last {| gsr_Space := internalSpace; gsr_MetadataExists := true; gsr_CgroupExists := cg; gsr_CNINetworkExists := false |}
        end
    end.

Record GetStackResult := { gtr_Stack : Stack; gtr_MetadataExists : bool; gtr_CgroupExists : bool }.
Definition GetStack (stack : Stack) : st W (GetStackResult * option error) :=
  let name := TrimSpace (sm_Name (stack_Metadata stack)) in
  let realmName := TrimSpace (stsp_RealmName (stack_Spec stack)) in
  let spaceName := TrimSpace (stsp_SpaceName (stack_Spec stack)) in
  let none := {| gtr_Stack := stack_named "" "" ""; gtr_MetadataExists := false; gtr_CgroupExists := false |} in
  if String.eqb name "" then st_ret (none, Some (ESentinel ErrStackNameRequired))
  else if String.eqb realmName "" then st_ret (none, Some (ESentinel ErrRealmNameRequired))
  else if String.eqb spaceName "" then st_ret (none, Some (ESentinel ErrSpaceNameRequired))
  else
    let! got := ap_GetStack (stack_named realmName spaceName name) in
    match got with
    | Err e => st_ret (none, if error_is ErrStackNotFound e then None else Some (wrapd ErrGetStack e))
    | Ok internalStack =>
        let! cg := rn_ExistsCgroupStack internalStack in
        st_ret (match cg with
                | Err e => ({| gtr_Stack := stack_named "" "" ""; gtr_MetadataExists := true; gtr_CgroupExists := false |},
                            Some (EWrap "failed to check if stack cgroup exists: %w" [e]))
                | Ok cg => ({| gtr_Stack := internalStack; gtr_MetadataExists := true; gtr_CgroupExists := cg |}, None)
                end)
    end.

(** ** Walking down the hierarchy *)

(** One child after the other; the first failure ends the loop. *)
Fixpoint each_child {A} (text : string) (f : A → st W (option error)) (l : list A) : st W (result unit) :=
  match l with
  | [] => st_ret (Ok ())
  | x :: rest => let!? _ := st_check (wrapf text) (f x) in each_child text f rest
  end.
(** What comes before a scope itself: with [cascade] its children are worked off, without
    it a scope with children is refused unless [force] is given. *)
Definition children_first {A} (listText eachText hasText : string) (listing : st W (result (list A))) (f : A → st W (option error))
    (force cascade : bool) : st W (result unit) :=
  if cascade then let!? l := st_wrap (wrapf listText) listing in each_child eachText f l
  else if force then st_ret (Ok ())
  else
    let!? l := st_wrap (wrapf listText) listing in
    st_guard (length l =? 0) (EWrap hasText [ESentinel ErrResourceHasDependencies]).
Definition then_run (first : st W (result unit)) (m : st W (option error)) : st W (option error) :=
  let! r := first in
  match r with Err e => st_ret (Some e) | Ok _ => m end.

(** ** Delete *)

Definition deleteCellInternal (cell : Cell) : st W (option error) := cr_DeleteCell cell.

Definition deleteStackCascade (force cascade : bool) (stack : Stack) : st W (option error) :=
  let realmName := TrimSpace (stsp_RealmName (stack_Spec stack)) in
  let spaceName := TrimSpace (stsp_SpaceName (stack_Spec stack)) in
  let stackName := TrimSpace (sm_Name (stack_Metadata stack)) in
  then_run (children_first "failed to list cells: %w" "failed to delete cell %q: %w"
              "%w: stack %q has %d cell(s). Use --cascade to delete them or --force to skip validation"
              (cr_ListCells realmName spaceName stackName) deleteCellInternal force cascade)
    (rn_DeleteStack stack).

Definition deleteSpaceCascade (force cascade : bool) (space : Space) : st W (option error) :=
  let realmName := TrimSpace (spsp_RealmName (space_Spec space)) in
  let spaceName := TrimSpace (sm_Name (space_Metadata space)) in
  then_run (children_first "failed to list stacks: %w" "failed to delete stack %q: %w"
              "%w: space %q has %d stack(s). Use --cascade to delete them or --force to skip validation"
              (cr_ListStacks realmName spaceName) (deleteStackCascade force cascade) force cascade)
    (rn_DeleteSpace space).

Definition deleteRealmCascade (force cascade : bool) (realm : Realm) : st W (option error) :=
  let realmName := TrimSpace (sm_Name (realm_Metadata realm)) in
  then_run (children_first "failed to list spaces: %w" "failed to delete space %q: %w"
              "%w: realm %q has %d space(s). Use --cascade to delete them or --force to skip validation"
              (cr_ListSpaces realmName) (deleteSpaceCascade force cascade) force cascade)
    (rn_DeleteRealm realm).

(** The children named in the result, listed before anything is deleted. *)
Definition tracked {A} (text kind : string) (name : A → string) (listing : st W (result (list A))) (cascade : bool) : st W (result (list string)) :=
  if cascade then let!? l := st_wrap (wrapf text) listing in st_ret (Ok ((fun x => kind +:+ name x) <$> l))
  else st_ret (Ok []).
(** A scope that is not recorded is an error of its own, with no sentinel in it. *)
Definition missing (d : errdef) (text : string) (e : error) : error := if error_is d e then EOpaque text else e.

Record DeleteRealmResult := {
  drr_Realm : Realm; drr_Deleted : list string; drr_MetadataDeleted : bool; drr_CgroupDeleted : bool; drr_NamespaceDeleted : bool
}.
Definition drr (realm : Realm) (deleted : list string) (done : bool) : DeleteRealmResult :=
  {| drr_Realm := realm; drr_Deleted := deleted; drr_MetadataDeleted := done; drr_CgroupDeleted := done; drr_NamespaceDeleted := done |}.
Definition DeleteRealm (realm : Realm) (force cascade : bool) : st W (DeleteRealmResult * option error) :=
  let name := TrimSpace (sm_Name (realm_Metadata realm)) in
  if String.eqb name "" then st_ret (drr (realm_named "") [] false, Some (ESentinel ErrRealmNameRequired))
  else
    let! got := ap_GetRealm realm in
    match got with
    | Err e => st_ret (drr (realm_named "") [] false, Some (missing ErrRealmNotFound "realm %q not found" e))
    | Ok getResult =>
        let! spaces := tracked "failed to list spaces: %w" "space:" (fun s => sm_Name (space_Metadata s)) (cr_ListSpaces name) cascade in
        match spaces with
        | Err e => st_ret (drr getResult [] false, Some e)
        | Ok l =>
            let! e := deleteRealmCascade force cascade getResult in
            st_ret (match e with
                    | Some e => (drr getResult l false, Some (wrapd ErrDeleteRealm e))
                    | None => (drr getResult (l ++ ["metadata"; "cgroup"; "namespace"]) true, None)
                    end)
        end
    end.

Record DeleteSpaceResult := {
  dsr_SpaceName : string; dsr_RealmName : string; dsr_Space : Space; dsr_MetadataDeleted : bool; dsr_CgroupDeleted : bool;
  dsr_CNINetworkDeleted : bool; dsr_Deleted : list string
}.
Definition dsr (name realm : string) (space : Space) (deleted : list string) (done : bool) : DeleteSpaceResult :=
  {| dsr_SpaceName := name; dsr_RealmName := realm; dsr_Space := space; dsr_MetadataDeleted := done; dsr_CgroupDeleted := done;
     dsr_CNINetworkDeleted := done; dsr_Deleted := deleted |}.
Definition DeleteSpace (space : Space) (force cascade : bool) : st W (DeleteSpaceResult * option error) :=
  let none := dsr "" "" (space_named "" "") [] false in
  let name := TrimSpace (sm_Name (space_Metadata space)) in
  let realmName := TrimSpace (spsp_RealmName (space_Spec space)) in
  if String.eqb name "" then st_ret (none, Some (ESentinel ErrSpaceNameRequired))
  else if String.eqb realmName "" then st_ret (none, Some (ESentinel ErrRealmNameRequired))
  else
    let! got := ap_GetSpace space in
    match got with
    | Err e => st_ret (none, Some (missing ErrSpaceNotFound "space %q not found in realm %q" e))
    | Ok internalSpace =>
        let res := dsr name realmName internalSpace in
        let! stacks := tracked "failed to list stacks: %w" "stack:" (fun s => sm_Name (stack_Metadata s)) (cr_ListStacks realmName name) cascade in
        match stacks with
        | Err e => st_ret (res [] false, Some e)
        | Ok l =>
            let! e := deleteSpaceCascade force cascade internalSpace in
            st_ret (match e with
                    | Some e => (res l false, Some (wrapd ErrDeleteSpace e))
                    | None => (res (l ++ ["metadata"; "cgroup"; "network"]) true, None)
                    end)
        end
    end.

Record DeleteStackResult := {
  dtr_StackName : string; dtr_RealmName : string; dtr_SpaceName : string; dtr_Stack : Stack; dtr_MetadataDeleted : bool;
  dtr_CgroupDeleted : bool; dtr_Deleted : list string
}.
Definition dtr (name realm space : string) (stack : Stack) (deleted : list string) (done : bool) : DeleteStackResult :=
  {| dtr_StackName := name; dtr_RealmName := realm; dtr_SpaceName := space; dtr_Stack := stack; dtr_MetadataDeleted := done;
     dtr_CgroupDeleted := done; dtr_Deleted := deleted |}.
Definition DeleteStack (stack : Stack) (force cascade : bool) : st W (DeleteStackResult * option error) :=
  let none := dtr "" "" "" (stack_named "" "" "") [] false in
  let name := TrimSpace (sm_Name (stack_Metadata stack)) in
  let realmName := TrimSpace (stsp_RealmName (stack_Spec stack)) in
  let spaceName := TrimSpace (stsp_SpaceName (stack_Spec stack)) in
  if String.eqb name "" then st_ret (none, Some (ESentinel ErrStackNameRequired))
  else if String.eqb realmName "" then st_ret (none, Some (ESentinel ErrRealmNameRequired))
  else if String.eqb spaceName "" then st_ret (none, Some (ESentinel ErrSpaceNameRequired))
  else
    let! got := ap_GetStack stack in
    match got with
    | Err e => st_ret (none, Some (missing ErrStackNotFound "stack %q not found in realm %q, space %q" e))
    | Ok internalStack =>
        let res := dtr name realmName spaceName internalStack in
        let! cells := tracked "failed to list cells: %w" "cell:" (fun c => cm_Name (cell_Metadata c)) (cr_ListCells realmName spaceName name) cascade in
        match cells with
        | Err e => st_ret (res [] false, Some e)
        | Ok l =>
            let! e := deleteStackCascade force cascade internalStack in
            st_ret (match e with
                    | Some e => (res l false, Some (wrapd ErrDeleteStack e))
                    | None => (res (l ++ ["metadata"; "cgroup"]) true, None)
                    end)
        end
    end.

(** ** Purge *)

Definition purgeStackCascade (force cascade : bool) (stack : Stack) : st W (option error) :=
  let realmName := TrimSpace (stsp_RealmName (stack_Spec stack)) in
  let spaceName := TrimSpace (stsp_SpaceName (stack_Spec stack)) in
  let stackName := TrimSpace (sm_Name (stack_Metadata stack)) in
  then_run
    (let!? _ := children_first "failed to list cells: %w" "failed to purge cell %q: %w"
                  "%w: stack %q has %d cell(s). Use --cascade to purge them or --force to skip validation"
                  (cr_ListCells realmName spaceName stackName) purgeCellCascade force cascade in
     st_check (wrapf "failed to delete stack: %w") (deleteStackCascade force cascade stack))
    (rn_PurgeStack stack).

Definition purgeSpaceCascade (force cascade : bool) (space : Space) : st W (option error) :=
  let realmName := TrimSpace (spsp_RealmName (space_Spec space)) in
  let spaceName := TrimSpace (sm_Name (space_Metadata space)) in
  then_run
    (let!? _ := children_first "failed to list stacks: %w" "failed to purge stack %q: %w"
                  "%w: space %q has %d stack(s). Use --cascade to purge them or --force to skip validation"
                  (cr_ListStacks realmName spaceName) (purgeStackCascade force cascade) force cascade in
     st_check (wrapf "failed to delete space: %w") (deleteSpaceCascade force cascade space))
    (rn_PurgeSpace space).

(** A realm goes on to the runner's purge when its plain deletion failed, and forgets that
    failure when the purge succeeds. *)
Definition purgeRealmCascade (force cascade metadataExists : bool) (realm : Realm) : st W (bool * option error) :=
  let realmName := TrimSpace (sm_Name (realm_Metadata realm)) in
  let! first := (if metadataExists
                 then children_first "failed to list spaces: %w" "failed to purge space %q: %w"
                        "%w: realm %q has %d space(s). Use --cascade to purge them or --force to skip validation"
                        (cr_ListSpaces realmName) (purgeSpaceCascade force cascade) force cascade
                 else st_ret (Ok ())) in
  match first with
  | Err e => st_ret (false, Some e)
  | Ok _ =>
      let! deleteErr := (if metadataExists then deleteRealmCascade force cascade realm else st_ret None) in
      let! (namespaceRemoved, purgeErr) := rn_PurgeRealm realm in
      st_ret (namespaceRemoved,
              match purgeErr with
              | None => None
              | Some p =>
                  Some (match deleteErr with
                        | Some d => EWrap "%w; runner purge also failed: %w" [EWrap "failed to delete realm: %w" [d]; p]
                        | None => p
                        end)
              end)
  end.

(** A failure appears in the Purged list as its text. *)
Record PurgeRealmResult := {
  prr_Realm : Realm; prr_RealmDeleted : bool; prr_PurgeSucceeded : bool; prr_NamespaceRemoved : bool; prr_Force : bool;
  prr_Cascade : bool; prr_Deleted : list string; prr_Purged : list (string + error)
}.
Definition PurgeRealm (realm : Realm) (force cascade : bool) : st W (PurgeRealmResult * option error) :=
  let res r del ok ns deleted purged :=
    {| prr_Realm := r; prr_RealmDeleted := del; prr_PurgeSucceeded := ok; prr_NamespaceRemoved := ns; prr_Force := force;
       prr_Cascade := cascade; prr_Deleted := deleted; prr_Purged := purged |} in
  let none := {| prr_Realm := realm_named ""; prr_RealmDeleted := false; prr_PurgeSucceeded := false; prr_NamespaceRemoved := false;
                 prr_Force := false; prr_Cascade := false; prr_Deleted := []; prr_Purged := [] |} in
  let name := TrimSpace (sm_Name (realm_Metadata realm)) in
  if String.eqb name "" then st_ret (none, Some (ESentinel ErrRealmNameRequired))
  else
    let given := TrimSpace (rsp_Namespace (realm_Spec realm)) in
    let namespace := if String.eqb given "" then RealmNamespace name else given in
    let named ns (r : Realm) :=
      {| realm_Metadata := realm_Metadata r;
         realm_Spec := {| rsp_Namespace := ns; rsp_RegistryCredentials := rsp_RegistryCredentials (realm_Spec r) |};
         realm_Status := realm_Status r |} in
    let realm := if String.eqb given "" then named namespace realm else realm in
    let! got := ap_GetRealm realm in
    let found := match got with
                 | Ok r => Ok (if String.eqb (rsp_Namespace (realm_Spec r)) "" then named namespace r else r, true)
                 | Err e =>
                     if error_is ErrRealmNotFound e
                     then Ok ({| realm_Metadata := {| sm_Name := name; sm_Labels := sm_Labels (realm_Metadata realm); sm_Generation := 0%Z |};
                                 realm_Spec := {| rsp_Namespace := namespace; rsp_RegistryCredentials := [] |};
                                 realm_Status := {| rst_State := RealmStateUnknown; rst_CgroupPath := ""; rst_SubtreeControllers := [];
                                                    rst_CreatedAt := 0%Z; rst_UpdatedAt := 0%Z; rst_ReadyAt := 0%Z; rst_Reason := ""; rst_Message := "";
                                                    rst_CgroupReady := false; rst_ContainerdNamespaceReady := false; rst_ObservedGeneration := 0%Z |} |}, false)
                     else Err e
                 end in
    match found with
    | Err e => st_ret (none, Some e)
    | Ok (internalRealm, metadataExists) =>
        let! spaces := tracked "failed to list spaces: %w" "space:" (fun s => sm_Name (space_Metadata s)) (cr_ListSpaces name)
                         (cascade && metadataExists) in
        match spaces with
        | Err e => st_ret (res internalRealm false false false [] [], Some e)
        | Ok l =>
            let! (namespaceRemoved, err) := purgeRealmCascade force cascade metadataExists internalRealm in
            st_ret (match err with
                    | Some e => (res internalRealm false false namespaceRemoved l [inr e], Some e)
                    | None => (res internalRealm metadataExists true namespaceRemoved
                                 (l ++ if metadataExists then ["metadata"; "cgroup"; "namespace"] else [])
                                 (inl <$> ["orphaned-containers"; "cni-resources"; "all-metadata"]), None)
                    end)
        end
    end.

Record PurgeSpaceResult := {
  psr_Space : Space; psr_MetadataDeleted : bool; psr_CgroupDeleted : bool; psr_CNINetworkDeleted : bool; psr_PurgeSucceeded : bool;
  psr_Force : bool; psr_Cascade : bool; psr_Deleted : list string; psr_Purged : list (string + error)
}.
Definition psr (space : Space) (done force cascade : bool) (deleted : list string) (purged : list (string + error)) : PurgeSpaceResult :=
  {| psr_Space := space; psr_MetadataDeleted := done; psr_CgroupDeleted := done; psr_CNINetworkDeleted := done; psr_PurgeSucceeded := done;
     psr_Force := force; psr_Cascade := cascade; psr_Deleted := deleted; psr_Purged := purged |}.
Definition PurgeSpace (space : Space) (force cascade : bool) : st W (PurgeSpaceResult * option error) :=
  let none := psr (space_named "" "") false false false [] [] in
  let name := TrimSpace (sm_Name (space_Metadata space)) in
  let realmName := TrimSpace (spsp_RealmName (space_Spec space)) in
  if String.eqb name "" then st_ret (none, Some (ESentinel ErrSpaceNameRequired))
  else if String.eqb realmName "" then st_ret (none, Some (ESentinel ErrRealmNameRequired))
  else
    let! got := ap_GetSpace space in
    match got with
    | Err e => st_ret (none, Some (missing ErrSpaceNotFound "space %q not found in realm %q" e))
    | Ok internalSpace =>
        let! stacks := tracked "failed to list stacks: %w" "stack:" (fun s => sm_Name (stack_Metadata s)) (cr_ListStacks realmName name) cascade in
        match stacks with
        | Err e => st_ret (psr internalSpace false force cascade [] [], Some e)
        | Ok l =>
            let! e := purgeSpaceCascade force cascade internalSpace in
            st_ret (match e with
                    | Some e => psr internalSpace false force cascade l [inr e]
                    | None => psr internalSpace true force cascade (l ++ ["metadata"; "cgroup"; "network"])
                                (inl <$> ["cni-network"; "cni-cache"; "orphaned-containers"; "all-metadata"])
                    end, None)
        end
    end.

Record PurgeStackResult := { ptr_Stack : Stack; ptr_Deleted : list string; ptr_Purged : list (string + error) }.
Definition PurgeStack (stack : Stack) (force cascade : bool) : st W (PurgeStackResult * option error) :=
  let none := {| ptr_Stack := stack_named "" "" ""; ptr_Deleted := []; ptr_Purged := [] |} in
  let name := TrimSpace (sm_Name (stack_Metadata stack)) in
  let realmName := TrimSpace (stsp_RealmName (stack_Spec stack)) in
  let spaceName := TrimSpace (stsp_SpaceName (stack_Spec stack)) in
  if String.eqb name "" then st_ret (none, Some (ESentinel ErrStackNameRequired))
  else if String.eqb realmName "" then st_ret (none, Some (ESentinel ErrRealmNameRequired))
  else if String.eqb spaceName "" then st_ret (none, Some (ESentinel ErrSpaceNameRequired))
  else
    let! got := ap_GetStack stack in
    match got with
    | Err e => st_ret (none, Some (missing ErrStackNotFound "stack %q not found in realm %q, space %q" e))
    | Ok internalStack =>
        let! cells := tracked "failed to list cells: %w" "cell:" (fun c => cm_Name (cell_Metadata c)) (cr_ListCells realmName spaceName name) cascade in
        match cells with
        | Err e => st_ret ({| ptr_Stack := internalStack; ptr_Deleted := []; ptr_Purged := [] |}, Some e)
        | Ok l =>
            let! e := purgeStackCascade force cascade internalStack in
            st_ret (match e with
                    | Some e => {| ptr_Stack := internalStack; ptr_Deleted := l; ptr_Purged := [inr e] |}
                    | None => {| ptr_Stack := internalStack; ptr_Deleted := l ++ ["metadata"; "cgroup"];
                                 ptr_Purged := inl <$> ["cni-resources"; "orphaned-containers"; "all-metadata"] |}
                    end, None)
        end
    end.

(** ** Refresh of everything *)

Record RefreshResult := {
  rf_RealmsFound : list string; rf_SpacesFound : list string; rf_StacksFound : list string; rf_CellsFound : list string;
  rf_ContainersFound : list string; rf_RealmsUpdated : list string; rf_SpacesUpdated : list string; rf_StacksUpdated : list string;
  rf_CellsUpdated : list string; rf_ContainersUpdated : list string; rf_Errors : list error
}.
Definition rf_empty : RefreshResult := Build_RefreshResult [] [] [] [] [] [] [] [] [] [] [].
(** What a step adds at the end of each list. *)
Definition rf_app (a b : RefreshResult) : RefreshResult :=
  let 'Build_RefreshResult a1 a2 a3 a4 a5 a6 a7 a8 a9 a10 a11 := a in
  let 'Build_RefreshResult b1 b2 b3 b4 b5 b6 b7 b8 b9 b10 b11 := b in
  Build_RefreshResult (a1 ++ b1) (a2 ++ b2) (a3 ++ b3) (a4 ++ b4) (a5 ++ b5) (a6 ++ b6) (a7 ++ b7) (a8 ++ b8) (a9 ++ b9) (a10 ++ b10) (a11 ++ b11).
Definition rf_error (text : string) (e : error) : RefreshResult := Build_RefreshResult [] [] [] [] [] [] [] [] [] [] [EWrap text [e]].

Fixpoint refresh_each {A} (f : A → RefreshResult → st W RefreshResult) (l : list A) (r : RefreshResult) : st W RefreshResult :=
  match l with
  | [] => st_ret r
  | x :: l' => let! r' := f x r in refresh_each f l' r'
  end.
(** List the children and refresh each, or record the failure. *)
Definition refresh_listed {A} (text : string) (listing : st W (result (list A))) (f : A → RefreshResult → st W RefreshResult)
    (r : RefreshResult) : st W RefreshResult :=
  let! got := listing in
  match got with
  | Err e => st_ret (rf_app r (rf_error text e))
  | Ok l => refresh_each f l r
  end.

Definition CellState_eqb (a b : CellState) : bool := bool_decide (a = b).

Definition qualified (realmName spaceName stackName cellName : string) (c : ContainerSpec) : string :=
  realmName +:+ "/" +:+ spaceName +:+ "/" +:+ stackName +:+ "/" +:+ cellName +:+ "/" +:+ c_ID c.

Definition refreshCellAndContainers (realmName spaceName stackName : string) (cell : Cell) (result : RefreshResult) : st W RefreshResult :=
  let cellName := cm_Name (cell_Metadata cell) in
  let names (c : Cell) := qualified realmName spaceName stackName cellName <$> csp_Containers (cell_Spec c) in
  let result := rf_app result (Build_RefreshResult [] [] [] [cellName] (names cell) [] [] [] [] [] []) in
  let! (updatedCell, containersUpdated, cellErr) := rn_RefreshCell cell in
  match cellErr with
  | Some e => st_ret (rf_app result (rf_error "failed to refresh cell '%s' in realm '%s', space '%s', stack '%s': %v" e))
  | None =>
      let some := 0 <? containersUpdated in
      let changed := negb (CellState_eqb (cst_State (cell_Status cell)) (cst_State (cell_Status updatedCell)))
                     || negb (String.eqb (cst_CgroupPath (cell_Status cell)) (cst_CgroupPath (cell_Status updatedCell))) || some in
      st_ret (rf_app result (Build_RefreshResult [] [] [] [] [] [] [] [] (if changed then [cellName] else [])
                               (if some then names updatedCell else []) []))
  end.

Definition refreshStackAndChildren (realmName spaceName : string) (stack : Stack) (result : RefreshResult) : st W RefreshResult :=
  let stackName := sm_Name (stack_Metadata stack) in
  let result := rf_app result (Build_RefreshResult [] [] [stackName] [] [] [] [] [] [] [] []) in
  let! (_, stackUpdated, stackErr) := rn_RefreshStack stack in
  let result := match stackErr with
                | Some e => rf_app result (rf_error "failed to refresh stack '%s' in realm '%s', space '%s': %v" e)
                | None => rf_app result (Build_RefreshResult [] [] [] [] [] [] [] (if stackUpdated then [stackName] else []) [] [] [])
                end in
  refresh_listed "failed to list cells in realm '%s', space '%s', stack '%s': %v" (cr_ListCells realmName spaceName stackName)
    (refreshCellAndContainers realmName spaceName stackName) result.

Definition refreshSpaceAndChildren (realmName : string) (space : Space) (result : RefreshResult) : st W RefreshResult :=
  let spaceName := sm_Name (space_Metadata space) in
  let result := rf_app result (Build_RefreshResult [] [spaceName] [] [] [] [] [] [] [] [] []) in
  let! (_, spaceUpdated, spaceErr) := rn_RefreshSpace space in
  let result := match spaceErr with
                | Some e => rf_app result (rf_error "failed to refresh space '%s' in realm '%s': %v" e)
                | None => rf_app result (Build_RefreshResult [] [] [] [] [] [] (if spaceUpdated then [spaceName] else []) [] [] [] [])
                end in
  refresh_listed "failed to list stacks in realm '%s', space '%s': %v" (cr_ListStacks realmName spaceName)
    (refreshStackAndChildren realmName spaceName) result.

Definition refreshRealmAndChildren (realm : Realm) (result : RefreshResult) : st W RefreshResult :=
  let realmName := sm_Name (realm_Metadata realm) in
  let result := rf_app result (Build_RefreshResult [realmName] [] [] [] [] [] [] [] [] [] []) in
  let! (_, realmUpdated, realmErr) := rn_RefreshRealm realm in
  let result := match realmErr with
                | Some e => rf_app result (rf_error "failed to refresh realm '%s': %v" e)
                | None => rf_app result (Build_RefreshResult [] [] [] [] [] (if realmUpdated then [realmName] else []) [] [] [] [] [])
                end in
  refresh_listed "failed to list spaces in realm '%s': %v" (cr_ListSpaces realmName) (refreshSpaceAndChildren realmName) result.

(** RefreshAll's error is always nil. *)
Definition RefreshAll : st W RefreshResult :=
  refresh_listed "failed to list realms: %v" cr_ListRealms refreshRealmAndChildren rf_empty.

End ScopeOps.

(** ** Theorems: the order of a deletion *)

(** What a deletion does that can be seen from outside: the listings, with what they
    returned, and the runner's deletions, with what came of them. *)
Inductive ScopeEvent :=
| SawSpaces (realm : string) (r : result (list Space))
| SawStacks (realm space : string) (r : result (list Stack))
| SawCells (realm space stack : string) (r : result (list Cell))
| CellDeleted (cell : Cell) (r : option error)
| StackDeleted (stack : Stack) (r : option error)
| SpaceDeleted (space : Space) (r : option error)
| RealmDeleted (realm : Realm) (r : option error).

(** *** The order, as a sequence of events *)

(** The events of deleting one scope, and its outcome.  With [cascade] the children are
    listed and each is deleted, in order; one that fails ends it, and the scope itself is
    not touched.  Without it a scope with children is refused, unless [force] is given. *)
Inductive Deletes {A} (force cascade : bool) (saw : result (list A) → ScopeEvent) (child : A → list ScopeEvent → option error → Prop)
    (own : option error → ScopeEvent) : list ScopeEvent → option error → Prop :=
| deletes_unlisted e text : cascade = true ∨ force = false → Deletes force cascade saw child own [saw (Err e)] (Some (wrapf text e))
| deletes_refused l e : cascade = false → force = false → l ≠ [] → error_is ErrResourceHasDependencies e = true →
    Deletes force cascade saw child own [saw (Ok l)] (Some e)
| deletes_stopped done x rest logs log e text : cascade = true → Forall2 (fun y g => child y g None) done logs → child x log (Some e) →
    Deletes force cascade saw child own (saw (Ok (done ++ x :: rest)) :: concat logs ++ log) (Some (wrapf text e))
| deletes_walked l logs r : cascade = true → Forall2 (fun y g => child y g None) l logs →
    Deletes force cascade saw child own (saw (Ok l) :: concat logs ++ [own r]) r
| deletes_checked r : cascade = false → force = false → Deletes force cascade saw child own [saw (Ok []); own r] r
| deletes_forced r : cascade = false → force = true → Deletes force cascade saw child own [own r] r.

Definition DeletesCell (cell : Cell) (log : list ScopeEvent) (r : option error) : Prop := log = [CellDeleted cell r].
Definition DeletesStack (force cascade : bool) (t : Stack) : list ScopeEvent → option error → Prop :=
  Deletes force cascade (SawCells (TrimSpace (stsp_RealmName (stack_Spec t))) (TrimSpace (stsp_SpaceName (stack_Spec t))) (TrimSpace (sm_Name (stack_Metadata t))))
    DeletesCell (StackDeleted t).
Definition DeletesSpace (force cascade : bool) (s : Space) : list ScopeEvent → option error → Prop :=
  Deletes force cascade (SawStacks (TrimSpace (spsp_RealmName (space_Spec s))) (TrimSpace (sm_Name (space_Metadata s))))
    (DeletesStack force cascade) (SpaceDeleted s).
Definition DeletesRealm (force cascade : bool) (r : Realm) : list ScopeEvent → option error → Prop :=
  Deletes force cascade (SawSpaces (TrimSpace (sm_Name (realm_Metadata r)))) (DeletesSpace force cascade) (RealmDeleted r).

(** The events of a request: none when a name is missing or the scope cannot be read; with
    [cascade] the children are listed once more for the report; then the scope as it was
    read is deleted, and the request fails and reports exactly as that did. *)
Definition Requested {A B} (cascade blank : bool) (got : result A) (saw : result (list B) → ScopeEvent)
    (deletes : A → list ScopeEvent → option error → Prop) (log : list ScopeEvent) (deleted : bool) (err : option error) : Prop :=
  match blank, got with
  | false, Ok x =>
      (∃ e, cascade = true ∧ log = [saw (Err e)] ∧ deleted = false ∧ err ≠ None) ∨
      ∃ seen log' r, log = seen ++ log' ∧ (if cascade then ∃ l, seen = [saw (Ok l)] else seen = []) ∧
        deletes x log' r ∧ deleted = bool_decide (r = None) ∧ (err = None ↔ r = None)
  | _, _ => log = [] ∧ deleted = false ∧ err ≠ None
  end.

Section Order.
Context {W : Type} `{ApplyRunner W} `{CellRunner W} `{ScopeRunner W}.
Notation L := (W * list ScopeEvent)%type.

(** The same host, keeping a log of the events. *)
#[local] Instance observed_ApplyRunner : ApplyRunner L := beside_ApplyRunner.
#[local] Instance observed_CellRunner : CellRunner L := {|
  cr_GetConfig := fun x => beside (cr_GetConfig x); cr_ResolveSpaceCNIConfigPath := fun x y => beside (cr_ResolveSpaceCNIConfigPath x y);
  cr_ExistsCgroup := fun x => beside (cr_ExistsCgroup x); cr_ExistsCellRootContainer := fun x => beside (cr_ExistsCellRootContainer x);
  cr_GetContainerState := fun x y => beside (cr_GetContainerState x y); cr_EnsureCell := fun x => beside (cr_EnsureCell x);
  cr_StopCell := fun x => beside (cr_StopCell x); cr_KillCell := fun x => beside (cr_KillCell x);
  cr_DeleteCell := fun c => logging (CellDeleted c) (cr_DeleteCell c);
  cr_PurgeCell := fun x => beside (cr_PurgeCell x); cr_ListRealms := beside cr_ListRealms;
  cr_ListSpaces := fun r => logging (SawSpaces r) (cr_ListSpaces r);
  cr_ListStacks := fun r s => logging (SawStacks r s) (cr_ListStacks r s);
  cr_ListCells := fun r s t => logging (SawCells r s t) (cr_ListCells r s t);
  cr_ReconcileCell := fun x => beside (cr_ReconcileCell x); cr_EnsureSpace := fun x => beside (cr_EnsureSpace x) |}.
#[local] Instance observed_ScopeRunner : ScopeRunner L := {|
  rn_EnsureRealm := fun x => beside (rn_EnsureRealm x); rn_EnsureStack := fun x => beside (rn_EnsureStack x);
  rn_ExistsCgroupRealm := fun x => beside (rn_ExistsCgroupRealm x); rn_ExistsCgroupSpace := fun x => beside (rn_ExistsCgroupSpace x);
  rn_ExistsCgroupStack := fun x => beside (rn_ExistsCgroupStack x);
  rn_ExistsRealmContainerdNamespace := fun x => beside (rn_ExistsRealmContainerdNamespace x);
  rn_ExistsSpaceCNIConfig := fun x => beside (rn_ExistsSpaceCNIConfig x);
  rn_DeleteRealm := fun r => logging (RealmDeleted r) (rn_DeleteRealm r); rn_DeleteSpace := fun s => logging (SpaceDeleted s) (rn_DeleteSpace s);
  rn_DeleteStack := fun t => logging (StackDeleted t) (rn_DeleteStack t); rn_PurgeRealm := fun x => beside (rn_PurgeRealm x);
  rn_PurgeSpace := fun x => beside (rn_PurgeSpace x); rn_PurgeStack := fun x => beside (rn_PurgeStack x);
  rn_RefreshRealm := fun x => beside (rn_RefreshRealm x); rn_RefreshSpace := fun x => beside (rn_RefreshSpace x);
  rn_RefreshStack := fun x => beside (rn_RefreshStack x); rn_RefreshCell := fun x => beside (rn_RefreshCell x) |}.

(** [m] adds events to the log that, with its result, satisfy [P]. *)
Definition leaves {A} (P : list ScopeEvent → A → Prop) (m : st L A) : Prop := ∀ s, ∃ l, (m s).1.2 = s.2 ++ l ∧ P l (m s).2.

Lemma leaves_logging {A} (event : A → ScopeEvent) (m : st W A) : leaves (fun l a => l = [event a]) (logging event m).
Proof. intros [w l]. unfold logging. cbn. destruct (m w) as [w' a]. cbn. by eexists. Qed.

(** Every child in turn, up to the first that fails. *)
Lemma each_child_leaves {A} text (child : A → list ScopeEvent → option error → Prop) f l : (∀ x, leaves (child x) (f x)) →
  leaves (fun log r => match r with
    | Ok _ => ∃ logs, Forall2 (fun y g => child y g None) l logs ∧ log = concat logs
    | Err e' => ∃ done x rest logs log0 e, l = done ++ x :: rest ∧ Forall2 (fun y g => child y g None) done logs ∧
        child x log0 (Some e) ∧ log = concat logs ++ log0 ∧ e' = wrapf text e
    end) (each_child text f l).
Proof.
  intros Hf. induction l as [|x l IH]; cbn [each_child]; [intros [w l0]; exists []; rewrite app_nil_r; split; [done|by exists []]|].
  intros s. unfold st_try, st_check, st_bind. destruct (Hf x s) as (l1 & E1 & Hx). destruct (f x s) as [[w1 s1] [e|]]; cbn in E1, Hx |- *; subst s1.
  - exists l1. split; [done|]. exists [], x, l, [], l1, e. split_and!; [done|constructor|done|done|done].
  - destruct (IH (w1, s.2 ++ l1)) as (l2 & E2 & HP). destruct (each_child text f l _) as [[w2 s2] r]. cbn in E2, HP |- *. subst s2.
    exists (l1 ++ l2). split; [by rewrite app_assoc|]. destruct r as [u|e'].
    + destruct HP as (logs & HF & ->). exists (l1 :: logs). by split; [constructor|].
    + destruct HP as (d & y & rest & logs & log0 & e & -> & HF & Hy & -> & ->). exists (x :: d), y, rest, (l1 :: logs), log0, e.
      split_and!; [done|by constructor|done|cbn; by rewrite app_assoc|done].
Qed.

Lemma level_leaves {A} lt et ht (event : result (list A) → ScopeEvent) (m : st W (result (list A))) child f own (del : st W (option error)) force cascade :
  (∀ x, leaves (child x) (f x)) →
  leaves (Deletes force cascade event child own)
    (then_run (children_first lt et ht (logging event m) f force cascade) (logging own del)).
Proof.
  intros Hf [w l0]. unfold then_run, children_first, st_try, st_wrap, st_guard, logging. destruct cascade; [|destruct force].
  - unfold st_bind. cbn. destruct (m w) as [w1 [l|e]]; cbn; [|exists [event (Err e)]; split; [done|constructor; by left]].
    destruct (each_child_leaves et child f l Hf (w1, l0 ++ [event (Ok l)])) as (log & E & HP).
    destruct (each_child et f l _) as [[w2 l2] [u|e]]; cbn in E, HP |- *; subst l2.
    + destruct HP as (logs & HF & ->). destruct (del w2) as [w3 r]. cbn.
      exists (event (Ok l) :: concat logs ++ [own r]). split; [by rewrite <-!app_assoc|by apply deletes_walked].
    + destruct HP as (d & x & rest & logs & log0 & e0 & -> & HF & Hx & -> & ->).
      exists (event (Ok (d ++ x :: rest)) :: concat logs ++ log0). split; [by rewrite <-!app_assoc|by apply deletes_stopped].
  - unfold st_bind. cbn. destruct (del w) as [w1 r]. exists [own r]. split; [done|by apply deletes_forced].
  - unfold st_bind. cbn. destruct (m w) as [w1 [[|x l]|e]]; cbn.
    + destruct (del w1) as [w2 r]. exists [event (Ok []); own r]. split; [by rewrite <-app_assoc|by apply deletes_checked].
    + exists [event (Ok (x :: l))]. split; [done|by apply deletes_refused].
    + exists [event (Err e)]. split; [done|constructor; by right].
Qed.
Lemma deleteCell_leaves c : leaves (DeletesCell c) (deleteCellInternal (W := L) c).
Proof. apply leaves_logging. Qed.
Lemma deleteStack_leaves f c t : leaves (DeletesStack f c t) (deleteStackCascade (W := L) f c t).
Proof. apply level_leaves, deleteCell_leaves. Qed.
Lemma deleteSpace_leaves f c s : leaves (DeletesSpace f c s) (deleteSpaceCascade (W := L) f c s).
Proof. apply level_leaves. intros. apply deleteStack_leaves. Qed.
Lemma deleteRealm_leaves f c r : leaves (DeletesRealm f c r) (deleteRealmCascade (W := L) f c r).
Proof. apply level_leaves. intros. apply deleteSpace_leaves. Qed.

(** A request past its name checks. *)
Lemma request_leaves {A B Res} (get : st W (result A)) (missed : error → Res * option error) text kind (name : B → string)
    (event : result (list B) → ScopeEvent) (m : st W (result (list B))) (untracked : A → error → Res * option error)
    deletes (run : A → st L (option error)) (finish : A → list string → option error → Res * option error) (deleted : Res → bool) cascade w :
  (∀ a, leaves (deletes a) (run a)) →
  (∀ e, deleted (missed e).1 = false ∧ (missed e).2 ≠ None) → (∀ a e, deleted (untracked a e).1 = false ∧ (untracked a e).2 ≠ None) →
  (∀ a l r, deleted (finish a l r).1 = bool_decide (r = None) ∧ ((finish a l r).2 = None ↔ r = None)) →
  let '((_, log), (res, err)) := st_bind (beside get) (fun got =>
    match got with
    | Err e => st_ret (missed e)
    | Ok a => st_bind (tracked text kind name (logging event m) cascade) (fun l =>
        match l with
        | Err e => st_ret (untracked a e)
        | Ok l => st_bind (run a) (fun r => st_ret (finish a l r))
        end)
    end) (w, []) in
  Requested cascade false (get w).2 event deletes log (deleted res) err.
Proof.
  intros Hrun Hm Hu Hf. unfold st_bind, beside, tracked, st_try, st_wrap, logging, Requested. cbn. destruct (get w) as [w1 [a|e]]; cbn.
  2: { destruct (Hm e). by destruct (missed e). }
  assert (Hrest : ∀ w2 seen l, (if cascade then ∃ l, seen = [event (Ok l)] else seen = []) →
    let '((_, log), (res, err)) := st_bind (run a) (fun r => st_ret (finish a l r)) (w2, seen) in
    (∃ e, cascade = true ∧ log = [event (Err e)] ∧ deleted res = false ∧ err ≠ None) ∨
    ∃ seen log' r, log = seen ++ log' ∧ (if cascade then ∃ l, seen = [event (Ok l)] else seen = []) ∧
      deletes a log' r ∧ deleted res = bool_decide (r = None) ∧ (err = None ↔ r = None)).
  { intros w2 seen l Hs. unfold st_bind. destruct (Hrun a (w2, seen)) as (log & E & HP). destruct (run a (w2, seen)) as [[w3 l3] r]. cbn in *.
    destruct (Hf a l r) as [H1' H2']. destruct (finish a l r) as [res err]. cbn in *. right. by exists seen, log, r. }
  destruct cascade; cbn; [|by apply (Hrest w1 [] [])]. unfold st_bind. cbn. destruct (m w1) as [w2 [l|e]]; cbn.
  - apply (Hrest w2 [event (Ok l)]). eauto.
  - destruct (Hu a (wrapf text e)). destruct (untracked _ _) as [res err]. left. exists e. done.
Qed.


(** A purge that is refused because the scope has children returns no error. *)
Lemma refused_purge_returns_no_error space g s l (w w1 w2 : W) :
  TrimSpace (sm_Name (space_Metadata space)) ≠ "" → TrimSpace (spsp_RealmName (space_Spec space)) ≠ "" →
  ap_GetSpace space w = (w1, Ok g) →
  cr_ListStacks (TrimSpace (spsp_RealmName (space_Spec g))) (TrimSpace (sm_Name (space_Metadata g))) w1 = (w2, Ok (s :: l)) →
  ∃ res, PurgeSpace space false false w = (w2, (res, None)) ∧ psr_PurgeSucceeded res = false.
Proof.
  intros Hn Hr Eg El. unfold PurgeSpace. cbv zeta. rewrite (proj2 (String.eqb_neq _ _) Hn), (proj2 (String.eqb_neq _ _) Hr).
  unfold st_bind at 1. rewrite Eg. unfold tracked, purgeSpaceCascade, then_run, children_first, st_try, st_wrap, st_bind, st_ret. cbn. rewrite El. cbn. by eexists.
Qed.
End Order.

(** ** Theorems: a refresh of everything *)

(** The names a part of the walk finds. *)
Record Seen := { se_realms : list string; se_spaces : list string; se_stacks : list string; se_cells : list string }.
Definition seen_app (a b : Seen) : Seen :=
  {| se_realms := se_realms a ++ se_realms b; se_spaces := se_spaces a ++ se_spaces b;
     se_stacks := se_stacks a ++ se_stacks b; se_cells := se_cells a ++ se_cells b |}.
Definition seen_none : Seen := {| se_realms := []; se_spaces := []; se_stacks := []; se_cells := [] |}.
Fixpoint seen_all {A} (f : A → Seen) (l : list A) : Seen :=
  match l with [] => seen_none | x :: l' => seen_app (f x) (seen_all f l') end.

(** What two lists gain: exactly [n] the found, some of [n] the updated. *)
Definition grown (n found found' updated updated' : list string) : Prop :=
  found' = found ++ n ∧ ∃ u, updated' = updated ++ u ∧ u `sublist_of` n.
Definition refresh_adds (n : Seen) (a b : RefreshResult) : Prop :=
  grown (se_realms n) (rf_RealmsFound a) (rf_RealmsFound b) (rf_RealmsUpdated a) (rf_RealmsUpdated b) ∧
  grown (se_spaces n) (rf_SpacesFound a) (rf_SpacesFound b) (rf_SpacesUpdated a) (rf_SpacesUpdated b) ∧
  grown (se_stacks n) (rf_StacksFound a) (rf_StacksFound b) (rf_StacksUpdated a) (rf_StacksUpdated b) ∧
  grown (se_cells n) (rf_CellsFound a) (rf_CellsFound b) (rf_CellsUpdated a) (rf_CellsUpdated b).

Lemma grown_none f u : grown [] f f u u.
Proof. split; [by rewrite app_nil_r|]. exists []. by rewrite app_nil_r. Qed.
Lemma grown_trans n m f1 f2 f3 u1 u2 u3 : grown n f1 f2 u1 u2 → grown m f2 f3 u2 u3 → grown (n ++ m) f1 f3 u1 u3.
Proof.
  intros [-> (u & -> & Hu)] [-> (v & -> & Hv)]. split; [by rewrite app_assoc|].
  exists (u ++ v). split; [by rewrite app_assoc|]. by apply sublist_app.
Qed.
(** One name found, updated or not. *)
Lemma grown_one x f u (b : bool) : grown [x] f (f ++ [x]) u (u ++ if b then [x] else []).
Proof. split; [done|]. eexists. split; [done|]. destruct b; [done|apply sublist_nil_l]. Qed.
Lemma refresh_adds_none a : refresh_adds seen_none a a.
Proof. split_and!; apply grown_none. Qed.
Lemma refresh_adds_trans n m a b c : refresh_adds n a b → refresh_adds m b c → refresh_adds (seen_app n m) a c.
Proof. intros (H1 & H2 & H3 & H4) (H5 & H6 & H7 & H8). split_and!; by eapply grown_trans. Qed.
#[export] Hint Resolve grown_none grown_one : frame.

Section RefreshTheorems.
Context {W : Type} `{CellRunner W} `{ScopeRunner W}.

Lemma refresh_each_adds {A} (f : A → RefreshResult → st W RefreshResult) (n : A → Seen) l r :
  (∀ x r, returns (refresh_adds (n x) r) (f x r)) → returns (refresh_adds (seen_all n l) r) (refresh_each f l r).
Proof.
  intros Hf. revert r. induction l as [|x l IH]; intros r; [apply returns_ret, refresh_adds_none|].
  eapply returns_bind_2; [apply Hf|]. intros r1 Hr1 s. eapply refresh_adds_trans; [exact Hr1|apply IH].
Qed.
Lemma refresh_listed_adds {A} text listing l (f : A → RefreshResult → st W RefreshResult) (n : A → Seen) r :
  returns (eq l) listing → (∀ x r, returns (refresh_adds (n x) r) (f x r)) →
  returns (refresh_adds (seen_all n (listed l)) r) (refresh_listed text listing f r).
Proof.
  intros Hl Hf. apply (returns_bind_2 (eq l)); [exact Hl|]. intros got <-.
  destruct l as [l|e]; [by apply refresh_each_adds|]. apply returns_ret. cbn [listed seen_all].
  destruct r. split_and!; cbn; rewrite ?app_nil_r; apply grown_none.
Qed.

(** Listings that answer the same throughout the walk. *)
Context (realms : result (list Realm)) (spaces : string → result (list Space))
  (stacks : string → string → result (list Stack)) (cells : string → string → string → result (list Cell)).
Context (Hrealms : returns (eq realms) (cr_ListRealms (W := W))).
Context (Hspaces : ∀ r, returns (eq (spaces r)) (cr_ListSpaces (W := W) r)).
Context (Hstacks : ∀ r s, returns (eq (stacks r s)) (cr_ListStacks (W := W) r s)).
Context (Hcells : ∀ r s t, returns (eq (cells r s t)) (cr_ListCells (W := W) r s t)).

Definition stack_cells (r s : string) (st : Stack) : list Cell := listed (cells r s (sm_Name (stack_Metadata st))).
Definition space_cells (r : string) (sp : Space) : list Cell :=
  let s := sm_Name (space_Metadata sp) in listed (stacks r s) ≫= stack_cells r s.
Definition realm_cells (re : Realm) : list Cell :=
  let r := sm_Name (realm_Metadata re) in listed (spaces r) ≫= space_cells r.
Definition all_cells : list Cell := listed realms ≫= realm_cells.

Definition cell_name (c : Cell) : string := cm_Name (cell_Metadata c).
Definition seen_cell (c : Cell) : Seen := {| se_realms := []; se_spaces := []; se_stacks := []; se_cells := [cell_name c] |}.
Definition seen_stack (r s : string) (t : Stack) : Seen :=
  let n := sm_Name (stack_Metadata t) in
  seen_app {| se_realms := []; se_spaces := []; se_stacks := [n]; se_cells := [] |} (seen_all seen_cell (listed (cells r s n))).
Definition seen_space (r : string) (s : Space) : Seen :=
  let n := sm_Name (space_Metadata s) in
  seen_app {| se_realms := []; se_spaces := [n]; se_stacks := []; se_cells := [] |} (seen_all (seen_stack r n) (listed (stacks r n))).
Definition seen_realm (r : Realm) : Seen :=
  let n := sm_Name (realm_Metadata r) in
  seen_app {| se_realms := [n]; se_spaces := []; se_stacks := []; se_cells := [] |} (seen_all (seen_space n) (listed (spaces n))).

(** The fields of a result extended twice. *)
Ltac refresh_fields r := destruct r; split_and!; cbn; rewrite ?app_nil_r; auto with frame;
  (split; [done|]; eexists []; split; [by rewrite app_nil_r|apply sublist_nil_l]).

Lemma refreshCell_adds rn sn tn c r : returns (refresh_adds (seen_cell c) r) (refreshCellAndContainers (W := W) rn sn tn c r).
Proof.
  unfold refreshCellAndContainers. apply returns_bind. intros [[c' k] [e|]]; apply returns_ret; refresh_fields r.
Qed.
Lemma refreshStack_adds rn sn t r : returns (refresh_adds (seen_stack rn sn t) r) (refreshStackAndChildren (W := W) rn sn t r).
Proof.
  unfold refreshStackAndChildren, seen_stack. cbv zeta. apply returns_bind. intros [[t' upd] err] s.
  eapply refresh_adds_trans; [|apply refresh_listed_adds; [apply Hcells|intros; apply refreshCell_adds]].
  destruct err as [e|]; refresh_fields r.
Qed.
Lemma refreshSpace_adds rn sp r : returns (refresh_adds (seen_space rn sp) r) (refreshSpaceAndChildren (W := W) rn sp r).
Proof.
  unfold refreshSpaceAndChildren, seen_space. cbv zeta. apply returns_bind. intros [[t' upd] err] s.
  eapply refresh_adds_trans; [|apply refresh_listed_adds; [apply Hstacks|intros; apply refreshStack_adds]].
  destruct err as [e|]; refresh_fields r.
Qed.
Lemma refreshRealm_adds re r : returns (refresh_adds (seen_realm re) r) (refreshRealmAndChildren (W := W) re r).
Proof.
  unfold refreshRealmAndChildren, seen_realm. cbv zeta. apply returns_bind. intros [[t' upd] err] s.
  eapply refresh_adds_trans; [|apply refresh_listed_adds; [apply Hspaces|intros; apply refreshSpace_adds]].
  destruct err as [e|]; refresh_fields r.
Qed.

Lemma seen_all_cells {A} (f : A → Seen) l : se_cells (seen_all f l) = l ≫= (fun x => se_cells (f x)).
Proof. induction l as [|x l IH]; [done|]. cbn. by rewrite IH. Qed.
Lemma seen_all_realms {A} (f : A → Seen) l : se_realms (seen_all f l) = l ≫= (fun x => se_realms (f x)).
Proof. induction l as [|x l IH]; [done|]. cbn. by rewrite IH. Qed.
Lemma bind_fmap_names {A B} (g : A → list B) (name : B → string) l : name <$> (l ≫= g) = l ≫= (fun x => name <$> g x).
Proof. induction l as [|x l IH]; [done|]. cbn. by rewrite fmap_app, IH. Qed.
Lemma bind_one {A B} (g : A → B) l : l ≫= (fun x => [g x]) = g <$> l.
Proof. induction l as [|x l IH]; [done|]. cbn in *. by rewrite IH. Qed.
Lemma seen_no_realms {A} (f : A → Seen) l : (∀ x, se_realms (f x) = []) → se_realms (seen_all f l) = [].
Proof. intros E. induction l as [|x l IH]; [done|]. cbn. by rewrite E, IH. Qed.
Lemma list_bind_cong {A B} (f g : A → list B) l : (∀ x, f x = g x) → l ≫= f = l ≫= g.
Proof. intros E. induction l as [|x l IH]; [done|]. cbn. by rewrite E, IH. Qed.

(** A refresh of everything reaches every realm and every cell the listings name, in
    order, whatever single refreshes and listings fail, and reports as updated only what it
    found, in that order. *)
Theorem refresh_reaches_everything s :
  let r := (RefreshAll (W := W) s).2 in
  rf_RealmsFound r = (fun x => sm_Name (realm_Metadata x)) <$> listed realms ∧
  rf_CellsFound r = cell_name <$> all_cells ∧
  rf_RealmsUpdated r `sublist_of` rf_RealmsFound r ∧ rf_SpacesUpdated r `sublist_of` rf_SpacesFound r ∧
  rf_StacksUpdated r `sublist_of` rf_StacksFound r ∧ rf_CellsUpdated r `sublist_of` rf_CellsFound r.
Proof.
  assert (HR : returns (refresh_adds (seen_all seen_realm (listed realms)) rf_empty) (RefreshAll (W := W))).
  { apply refresh_listed_adds; [exact Hrealms|intros; apply refreshRealm_adds]. }
  destruct (HR s) as ([Hr (ur & Hur & Sr)] & [Hs (us & Hus & Ss)] & [Ht (ut & Hut & St)] & [Hc (uc & Huc & Sc)]).
  intros r. fold r in Hr, Hur, Hs, Hus, Ht, Hut, Hc, Huc. cbn in Hr, Hur, Hs, Hus, Ht, Hut, Hc, Huc.
  rewrite Hur, Hus, Hut, Huc, Hr, Hs, Ht, Hc. split_and!; try done.
  - rewrite seen_all_realms, <-bind_one. apply list_bind_cong. intros re. cbn. f_equal.
    do 3 (apply seen_no_realms; intros ?; cbn).
    done.
  - rewrite seen_all_cells. unfold all_cells. rewrite bind_fmap_names. apply list_bind_cong. intros re. cbn.
    rewrite seen_all_cells. unfold realm_cells. rewrite bind_fmap_names. apply list_bind_cong. intros sp. cbn.
    rewrite seen_all_cells. unfold space_cells. rewrite bind_fmap_names. apply list_bind_cong. intros t. cbn.
    rewrite seen_all_cells. apply bind_one.
Qed.
End RefreshTheorems.

(** ** Witnesses *)

(** A runner whose refresh of spaces fails. *)
Definition quiet_scopes : ScopeRunner nat := {|
  rn_EnsureRealm := fun r => st_ret (Ok r); rn_EnsureStack := fun t => st_ret (Ok t); rn_ExistsCgroupRealm := fun _ => st_ret (Ok true);
  rn_ExistsCgroupSpace := fun _ => st_ret (Ok true); rn_ExistsCgroupStack := fun _ => st_ret (Ok true);
  rn_ExistsRealmContainerdNamespace := fun _ => st_ret (Ok true); rn_ExistsSpaceCNIConfig := fun _ => st_ret (Ok true);
  rn_DeleteRealm := fun _ => st_ret None; rn_DeleteSpace := fun _ => st_ret None; rn_DeleteStack := fun _ => st_ret None;
  rn_PurgeRealm := fun _ => st_ret (true, None); rn_PurgeSpace := fun _ => st_ret None; rn_PurgeStack := fun _ => st_ret None;
  rn_RefreshRealm := fun r => st_ret (r, true, None); rn_RefreshSpace := fun s => st_ret (s, false, Some (EOpaque "no conflist"));
  rn_RefreshStack := fun t => st_ret (t, false, None); rn_RefreshCell := fun c => st_ret (c, 1, None) |}.

(** The refresh of the one space fails; its stack and cells are refreshed all the same. *)
Lemma refresh_reaches_everything_witness :
  let r := (@RefreshAll nat (sample_CellRunner (Err (ESentinel ErrConfigNotFound)) (Ok [cell_named "r" "s" "t" "a"])) (quiet_scopes) 0).2 in
  rf_RealmsFound r = ["r"; "q"] ∧ rf_CellsFound r = ["a"] ∧ length (rf_Errors r) = 2.
Proof.
  intros r.
  destruct (@refresh_reaches_everything nat (sample_CellRunner (Err (ESentinel ErrConfigNotFound)) (Ok [cell_named "r" "s" "t" "a"])) quiet_scopes
    (Ok [realm_named "r"; realm_named "q"])
    (fun r => if String.eqb r "r" then Ok [space_named "r" "s"] else Err (EOpaque "unreadable"))
    (fun r s => Ok [stack_named r s "t"]) (fun _ _ _ => Ok [cell_named "r" "s" "t" "a"])
    ltac:(by intros ?) ltac:(by intros ? ?) ltac:(by intros ? ? ?) ltac:(by intros ? ? ? ?) 0) as (H1 & H2 & _).
  split_and!; [exact H1|exact H2|]. vm_compute. reflexivity.
Defined.

(** A realm with one space, one stack and two cells goes cell by cell, then the stack, the
    space and the realm, after the listing made for the report. *)
Example cascade_order :
  let cells := [cell_named "r" "s" "t" "a"; cell_named "r" "s" "t" "b"] in
  let A := sample_ApplyRunner (Err (ESentinel ErrCellNotFound)) in
  let C := sample_CellRunner (Err (ESentinel ErrConfigNotFound)) (Ok cells) in
  let r := @DeleteRealm (nat * list ScopeEvent) (@observed_ApplyRunner nat A) (@observed_CellRunner nat C) (@observed_ScopeRunner nat quiet_scopes)
             (realm_named "r") false true (0, []) in
  r.2.2 = None ∧
  r.1.2 = [SawSpaces "r" (Ok [space_named "r" "s"]); SawSpaces "r" (Ok [space_named "r" "s"]); SawStacks "r" "s" (Ok [stack_named "r" "s" "t"]);
           SawCells "r" "s" "t" (Ok cells); CellDeleted (cell_named "r" "s" "t" "a") None; CellDeleted (cell_named "r" "s" "t" "b") None;
           StackDeleted (stack_named "r" "s" "t") None; SpaceDeleted (space_named "r" "s") None; RealmDeleted (realm_named "r") None].
Proof. vm_compute. done. Qed.
