(* ===== verification/Lookup.v ===== *)
(** * Lookup: reading and listing the recorded hierarchy (runner/get.go)

    Realms, spaces, stacks and cells are directories with a metadata file each.  A get reads
    one file and maps its failures; a listing walks the directories, skips what cannot be
    read and filters by the names in the documents.  Metadata readers, stat and
    readdir are the interface [ScopeReader]; log lines are left out. *)

From Stdlib Require Import Ascii ZArith Lia.
From stdpp Require Import base gmap strings list.
From S2P Require Import Prelude Model External Naming CellState Layout Observe.

Local Open Scope nat_scope.

(** os.Stat with what IsDir says, os.ReadDir, and the metadata readers of runner/metadata.go. *)
Class ScopeReader (W : Type) := {
  rd_Stat : string → st W (result bool);
  (** the entries, each with what IsDir says *)
  rd_ReadDir : string → st W (result (list (string * bool)));
  rd_IsNotExist : error → bool;
  rd_readRealmInternal : string → st W (result Realm);
  rd_readSpaceInternal : string → st W (result Space);
  rd_readStackInternal : string → st W (result Stack);
  rd_readCellInternal : string → st W (result Cell)
}.

(** filepath.Base: the last element that is not empty. *)
Definition FBase (p : string) : string :=
  if String.eqb p "" then "."
  else match filter (fun s => s ≠ "") (reverse (split_on slash p)) with x :: _ => x | [] => "/" end.

Section Lookup.
Context {W : Type} `{ContainerHost W} `{ScopeReader W} `{HostConfig}.

(** ** Get *)

Definition readError (notFound get : errdef) (e : error) : error :=
  if error_is ErrMissingMetadataFile e then ESentinel notFound
  else if error_is ErrConversionFailed e then e else wrapd get e.
Definition required (name : string) (d : errdef) : st W (result unit) := st_guard (negb (String.eqb name "")) (ESentinel d).

(** The realm's name is used as given, those of the other scopes are trimmed. *)
Definition GetRealm (realm : Realm) : st W (result Realm) :=
  st_wrap (readError ErrRealmNotFound ErrGetRealm) (rd_readRealmInternal (RealmMetadataPath RunPath (sm_Name (realm_Metadata realm)))).

Definition GetSpace (space : Space) : st W (result Space) :=
  let realmName := TrimSpace (spsp_RealmName (space_Spec space)) in
  let spaceName := TrimSpace (sm_Name (space_Metadata space)) in
  let!? _ := required realmName ErrRealmNameRequired in
  let!? _ := required spaceName ErrSpaceNameRequired in
  st_wrap (readError ErrSpaceNotFound ErrGetSpace) (rd_readSpaceInternal (SpaceMetadataPath RunPath realmName spaceName)).

Definition GetStack (stack : Stack) : st W (result Stack) :=
  let realmName := TrimSpace (stsp_RealmName (stack_Spec stack)) in
  let spaceName := TrimSpace (stsp_SpaceName (stack_Spec stack)) in
  let stackName := TrimSpace (sm_Name (stack_Metadata stack)) in
  let!? _ := required realmName ErrRealmNameRequired in
  let!? _ := required spaceName ErrSpaceNameRequired in
  let!? _ := required stackName ErrStackNameRequired in
  st_wrap (readError ErrStackNotFound ErrGetStack) (rd_readStackInternal (StackMetadataPath RunPath realmName spaceName stackName)).

(** A cell comes with its containers' statuses as far as they can be had. *)
Definition GetCell (cell : Cell) : st W (result Cell) :=
  let realmName := TrimSpace (csp_RealmName (cell_Spec cell)) in
  let spaceName := TrimSpace (csp_SpaceName (cell_Spec cell)) in
  let stackName := TrimSpace (csp_StackName (cell_Spec cell)) in
  let cellName := TrimSpace (cm_Name (cell_Metadata cell)) in
  let!? _ := required realmName ErrRealmNameRequired in
  let!? _ := required spaceName ErrSpaceNameRequired in
  let!? _ := required stackName ErrStackNameRequired in
  let!? _ := required cellName ErrCellNameRequired in
  let!? internalCell := st_wrap (readError ErrCellNotFound ErrGetCell)
                          (rd_readCellInternal (CellMetadataPath RunPath realmName spaceName stackName cellName)) in
  let! populated := populateCellContainerStatuses internalCell in
  st_ret (Ok populated).

(** ** List *)

(** One list after the other; the first failure ends the walk. *)
Fixpoint gather {A B} (f : A → st W (result (list B))) (l : list A) : st W (result (list B)) :=
  match l with
  | [] => st_ret (Ok [])
  | x :: rest =>
      let!? a := f x in
      let!? b := gather f rest in
      st_ret (Ok (a ++ b))
  end.
(** The directories among a directory's entries; one that is not there has none. *)
Definition subdirNames (text dir : string) : st W (result (list string)) :=
  let! entries := rd_ReadDir dir in
  st_ret (match entries with
          | Err e => if rd_IsNotExist e then Ok [] else Err (EWrap text [e])
          | Ok l => Ok (omap (fun e : string * bool => if e.2 then Some e.1 else None) l)
          end).
(** A directory by its path, when there is one. *)
Definition namedDir (text dir : string) : st W (result (list string)) :=
  let! info := rd_Stat dir in
  st_ret (match info with
          | Err e => if rd_IsNotExist e then Ok [] else Err (EWrap text [e])
          | Ok isDir => Ok (if isDir then [dir] else [])
          end).
(** The directories one level down: the named one, or all of them. *)
Definition levelDirs (statText readText name dir : string) : st W (result (list string)) :=
  if negb (String.eqb (TrimSpace name) "") then namedDir statText (FJoin [dir; name])
  else
    let!? names := subdirNames readText dir in
    st_ret (Ok ((fun n => FJoin [dir; n]) <$> names)).

Definition resolveRealmDirs (realmName : string) : st W (result (list string)) :=
  if negb (String.eqb (TrimSpace realmName) "") then namedDir "failed to stat realm dir %q: %w" (RealmMetadataDir RunPath realmName)
  else
    let base := MetadataRoot RunPath in
    let! info := rd_Stat base in
    if match info with Err e => rd_IsNotExist e | Ok _ => false end then st_ret (Ok [])
    else
      let!? entries := st_wrap (wrapf "failed to read realm directory %q: %w") (rd_ReadDir base) in
      st_ret (Ok (omap (fun e : string * bool => if e.2 then Some (FJoin [base; e.1]) else None) entries)).

(** Documents that cannot be read are skipped, and so are those the filter excludes. *)
Fixpoint readEach {A} (read : string → st W (result A)) (keep : A → bool) (names : list string) : st W (result (list A)) :=
  match names with
  | [] => st_ret (Ok [])
  | n :: rest =>
      let! a := read n in
      let!? l := readEach read keep rest in
      st_ret (Ok (match a with Ok a => if keep a then a :: l else l | Err _ => l end))
  end.
(** An empty filter lets everything through. *)
Definition matches (want name : string) : bool := String.eqb want "" || String.eqb name want.

Definition ListRealms : st W (result (list Realm)) :=
  let realmsDir := MetadataRoot RunPath in
  let! info := rd_Stat realmsDir in
  if match info with Err e => rd_IsNotExist e | Ok _ => false end then st_ret (Ok [])
  else
    let!? entries := st_wrap (wrapf "failed to read directory %q: %w") (rd_ReadDir realmsDir) in
    readEach (fun n => rd_readRealmInternal (RealmMetadataPath RunPath n)) (fun _ => true)
      (omap (fun e : string * bool => if e.2 then Some e.1 else None) entries).

Definition keepSpace (realmName : string) (s : Space) : bool := matches realmName (spsp_RealmName (space_Spec s)).
Definition ListSpaces (realmName : string) : st W (result (list Space)) :=
  let!? realmDirs := resolveRealmDirs realmName in
  gather (fun realmDir =>
    let!? names := subdirNames "failed to read realm dir %q: %w" realmDir in
    readEach (fun n => rd_readSpaceInternal (SpaceMetadataPath RunPath (FBase realmDir) n)) (keepSpace realmName) names) realmDirs.

Definition keepStack (realmName spaceName : string) (t : Stack) : bool :=
  matches realmName (stsp_RealmName (stack_Spec t)) && matches spaceName (stsp_SpaceName (stack_Spec t)).
Definition ListStacks (realmName spaceName : string) : st W (result (list Stack)) :=
  let!? realmDirs := resolveRealmDirs realmName in
  let!? spaceDirs := gather (levelDirs "failed to stat space dir %q: %w" "failed to read realm dir %q: %w" spaceName) realmDirs in
  gather (fun spaceDir =>
    let!? names := subdirNames "failed to read space dir %q: %w" spaceDir in
    readEach (fun n => rd_readStackInternal (StackMetadataPath RunPath (FBase (FDir spaceDir)) (FBase spaceDir) n))
      (keepStack realmName spaceName) names) spaceDirs.

Definition keepCell (realmName spaceName stackName : string) (c : Cell) : bool :=
  matches realmName (csp_RealmName (cell_Spec c)) && matches spaceName (csp_SpaceName (cell_Spec c))
  && matches stackName (csp_StackName (cell_Spec c)).
Definition ListCells (realmName spaceName stackName : string) : st W (result (list Cell)) :=
  let!? realmDirs := resolveRealmDirs realmName in
  let!? spaceDirs := gather (levelDirs "failed to stat space dir %q: %w" "failed to read realm dir %q: %w" spaceName) realmDirs in
  let!? stackDirs := gather (levelDirs "failed to stat stack dir %q: %w" "failed to read space dir %q: %w" stackName) spaceDirs in
  gather (fun stackDir =>
    let!? names := subdirNames "failed to read stack dir %q: %w" stackDir in
    readEach (fun n => rd_readCellInternal (CellMetadataPath RunPath (FBase (FDir (FDir stackDir))) (FBase (FDir stackDir)) (FBase stackDir) n))
      (keepCell realmName spaceName stackName) names) stackDirs.

Definition set_Root (b : bool) (s : ContainerSpec) : ContainerSpec :=
  let 'Build_ContainerSpec a b' c d e f _ h i j k l m n o p q r s' t u v w x y z a1 a2 a3 a4 a5 a6 a7 a8 a9 b1 b2 b3 b4 b5 := s in
  Build_ContainerSpec a b' c d e f b h i j k l m n o p q r s' t u v w x y z a1 a2 a3 a4 a5 a6 a7 a8 a9 b1 b2 b3 b4 b5.
(** The root container is marked as such. *)
Definition mark_root (root : string) (c : ContainerSpec) : ContainerSpec :=
  if negb (String.eqb root "") && String.eqb (c_ID c) root then set_Root true c else c.
Definition ExtractContainersFromCells (cells : list Cell) : list ContainerSpec :=
  cells ≫= (fun cell => mark_root (csp_RootContainerID (cell_Spec cell)) <$> csp_Containers (cell_Spec cell)).

Definition ListContainers (realmName spaceName stackName cellName : string) : st W (result (list ContainerSpec)) :=
  let! cells :=
    (if negb (String.eqb cellName "") then
       let! read := rd_readCellInternal (FJoin [CellMetadataDir RunPath realmName spaceName stackName cellName; KukeonMetadataFile]) in
       match read with
       | Ok cell => st_ret (Ok [cell])
       | Err e =>
           if error_is ErrMissingMetadataFile e || rd_IsNotExist e then st_ret (Ok [])
           else
             let! got := GetCell (cell_named realmName spaceName stackName cellName) in
             st_ret (match got with
                     | Ok c => Ok [c]
                     | Err g => if error_is ErrCellNotFound g then Ok [] else Err g
                     end)
       end
     else ListCells realmName spaceName stackName) in
  st_ret (match cells with Err e => Err e | Ok l => Ok (ExtractContainersFromCells l) end).

End Lookup.

(** ** Theorems: paths *)

Lemma FBase_render l s : Forall seg_ok l → seg_ok s → FBase (render_path (l ++ [s])) = s.
Proof.
  intros Hl Hs. unfold FBase. rewrite split_render by (by apply Forall_app; split; [|apply Forall_singleton]).
  change (String.eqb (render_path (l ++ [s])) "") with false. cbn iota.
  replace (match l ++ [s] with [] => [""] | _ => l ++ [s] end) with (l ++ [s]) by by destruct l.
  rewrite reverse_cons, reverse_app. cbn. rewrite decide_True; [done|]. apply Hs.
Qed.

(** ** Theorems: what a listing shows *)

Section Listings.
Context {W : Type} `{ScopeReader W} `{HostConfig}.

Lemma readEach_keeps {A} (read : string → st W (result A)) keep names w w' l :
  readEach read keep names w = (w', Ok l) → Forall (fun a => keep a = true) l.
Proof.
  revert w w' l. induction names as [|n names IH]; intros w w' l Hrun; [by injection Hrun as _ <-; constructor|].
  cbn [readEach] in Hrun. apply st_bind_inv in Hrun as (w1 & a & _ & Hrun). apply st_try_ok in Hrun as (w2 & l' & Hl & Hrun).
  apply IH in Hl. injection Hrun as _ <-. destruct a as [a|e]; [|done]. destruct (keep a) eqn:E; [by constructor|done].
Qed.
Lemma gather_Forall {A B} (P : B → Prop) (f : A → st W (result (list B))) l w w' r :
  (∀ x w w' r, f x w = (w', Ok r) → Forall P r) → gather f l w = (w', Ok r) → Forall P r.
Proof.
  intros Hf. revert w w' r. induction l as [|x l IH]; intros w w' r Hrun; [by injection Hrun as _ <-; constructor|].
  cbn [gather] in Hrun. apply st_try_ok in Hrun as (w1 & a & Ha & Hrun). apply st_try_ok in Hrun as (w2 & b & Hb & Hrun).
  injection Hrun as _ <-. apply Forall_app. split; [by eapply Hf|by eapply IH].
Qed.
(** Read below each directory, with a filter. *)
Lemma gather_keeps {A} (names : string → st W (result (list string))) (read : string → string → st W (result A)) keep dirs w w' l :
  gather (fun d => let!? n := names d in readEach (read d) keep n) dirs w = (w', Ok l) → Forall (fun a => keep a = true) l.
Proof.
  apply gather_Forall. intros d v v' r Hrun. apply st_try_ok in Hrun as (v1 & n & _ & Hrun). by eapply readEach_keeps.
Qed.
Lemma matches_name want name : want ≠ "" → matches want name = true → name = want.
Proof. intros Hw. unfold matches. rewrite (proj2 (String.eqb_neq _ _) Hw). by intros ?%String.eqb_eq. Qed.

(** Whatever the directories hold, a listing for a named realm, space or stack shows
    only documents that say they belong there. *)
Theorem listings_belong :
  (∀ r w w' l, r ≠ "" → ListSpaces r w = (w', Ok l) → Forall (fun s => spsp_RealmName (space_Spec s) = r) l) ∧
  (∀ r s w w' l, r ≠ "" → s ≠ "" → ListStacks r s w = (w', Ok l) →
     Forall (fun t => stsp_RealmName (stack_Spec t) = r ∧ stsp_SpaceName (stack_Spec t) = s) l) ∧
  (∀ r s t w w' l, r ≠ "" → s ≠ "" → t ≠ "" → ListCells r s t w = (w', Ok l) →
     Forall (fun c => csp_RealmName (cell_Spec c) = r ∧ csp_SpaceName (cell_Spec c) = s ∧ csp_StackName (cell_Spec c) = t) l).
Proof.
  split_and!.
  - intros r w w' l Hr Hrun. apply st_try_ok in Hrun as (w1 & d & _ & Hrun). apply gather_keeps in Hrun.
    eapply Forall_impl; [exact Hrun|]. intros x. by apply matches_name.
  - intros r s w w' l Hr Hs Hrun. do 2 (apply st_try_ok in Hrun as (? & ? & _ & Hrun)). apply gather_keeps in Hrun.
    eapply Forall_impl; [exact Hrun|]. intros y [H1 H2]%andb_true_iff. split; by apply matches_name.
  - intros r s t w w' l Hr Hs Ht Hrun. do 3 (apply st_try_ok in Hrun as (? & ? & _ & Hrun)). apply gather_keeps in Hrun.
    eapply Forall_impl; [exact Hrun|]. intros y [[H1 H2]%andb_true_iff H3]%andb_true_iff. split_and!; by apply matches_name.
Qed.

(** A tree that does not change while it is read. *)
Context (stat : string → result bool) (entries : string → result (list (string * bool))) (cell : string → result Cell).
Context (Hstat : ∀ p w, rd_Stat (W := W) p w = (w, stat p)) (Hdir : ∀ p w, rd_ReadDir (W := W) p w = (w, entries p))
  (Hcell : ∀ p w, rd_readCellInternal (W := W) p w = (w, cell p)).

Lemma namedDir_there text dir (w : W) : stat dir = Ok true → namedDir text dir w = (w, Ok [dir]).
Proof. intros E. unfold namedDir, st_bind. rewrite Hstat, E. done. Qed.
Lemma gather_one {A B} (f : A → st W (result (list B))) x w l : f x w = (w, Ok l) → gather f [x] w = (w, Ok l).
Proof. intros E. cbn. unfold st_try, st_bind. rewrite E. cbn. by rewrite app_nil_r. Qed.
Lemma levelDirs_named a b name dir (w : W) : TrimSpace name ≠ "" → stat (FJoin [dir; name]) = Ok true →
  levelDirs a b name dir w = (w, Ok [FJoin [dir; name]]).
Proof.
  intros Hn Hs. unfold levelDirs. rewrite (proj2 (String.eqb_neq _ _) Hn). by apply namedDir_there.
Qed.
(** The readable documents among the entries. *)
Definition readable (path : string → string) (keep : Cell → bool) (e : string * bool) : option Cell :=
  if e.2 then match cell (path e.1) with Ok c => if keep c then Some c else None | Err _ => None end else None.
Lemma readEach_pure path keep (es : list (string * bool)) (w : W) :
  readEach (fun n => rd_readCellInternal (path n)) keep (omap (fun e : string * bool => if e.2 then Some e.1 else None) es) w
  = (w, Ok (omap (readable path keep) es)).
Proof.
  induction es as [|[n d] es IH]; [done|]. unfold readable at 1. cbn [omap list_omap fst snd]. destruct d; [|exact IH].
  cbn [readEach]. unfold st_bind, st_try. rewrite Hcell. cbn. unfold st_bind. rewrite IH. unfold st_ret.
  destruct (cell (path n)) as [c|e]; [|done]. by destruct (keep c).
Qed.

Lemma stack_dir_bases bl r s t : Forall seg_ok bl → seg_ok r → seg_ok s → seg_ok t →
  let d := StackMetadataDir (render_path bl) r s t in FBase d = t ∧ FBase (FDir d) = s ∧ FBase (FDir (FDir d)) = r.
Proof.
  intros Hb Hr Hs Ht d. subst d. rewrite StackMetadataDir_render by done.
  assert (Hd : seg_ok "data") by by split.
  change (bl ++ ["data"; r; s; t]) with (bl ++ (["data"; r; s] ++ [t])). rewrite app_assoc.
  assert (H3 : Forall seg_ok (bl ++ ["data"; r; s])) by (apply Forall_app; split; [done|]; by rewrite ?Forall_cons, Forall_nil).
  assert (H2 : Forall seg_ok (bl ++ ["data"; r])) by (apply Forall_app; split; [done|]; by rewrite ?Forall_cons, Forall_nil).
  assert (H1 : Forall seg_ok (bl ++ ["data"])) by (apply Forall_app; split; [done|]; by rewrite ?Forall_cons, Forall_nil).
  split; [by apply FBase_render|]. rewrite FDir_render by done.
  change (["data"; r; s]) with (["data"; r] ++ [s]). rewrite app_assoc. split; [by apply FBase_render|]. rewrite FDir_render by done.
  change (["data"; r]) with (["data"] ++ [r]). rewrite app_assoc. by apply FBase_render.
Qed.

(** On a tree that is not being changed, listing the cells of a stack gives exactly
    those of its sub-directories whose document can be read and names the stack, in the
    order of the entries; a cell whose document is unreadable is passed over silently. *)
Theorem list_cells_exact bl r s t es w :
  RunPath = render_path bl → Forall seg_ok (bl ++ [r; s; t]) → TrimSpace r ≠ "" → TrimSpace s ≠ "" → TrimSpace t ≠ "" →
  stat (RealmMetadataDir RunPath r) = Ok true → stat (SpaceMetadataDir RunPath r s) = Ok true →
  stat (StackMetadataDir RunPath r s t) = Ok true → entries (StackMetadataDir RunPath r s t) = Ok es →
  ListCells r s t w = (w, Ok (omap (readable (CellMetadataPath RunPath r s t) (keepCell r s t)) es)).
Proof.
  intros Hrun Hok Hr Hs Ht S1 S2 S3 Hes. apply Forall_app in Hok as [Hb Hok]. rewrite !Forall_cons in Hok.
  destruct Hok as (Or & Os & Ot & _). destruct (stack_dir_bases bl r s t Hb Or Os Ot) as (Bt & Bs & Br). rewrite <-Hrun in Bt, Bs, Br.
  unfold ListCells, resolveRealmDirs. rewrite (proj2 (String.eqb_neq _ _) Hr). cbn [negb].
  unfold st_try at 1, st_bind at 1. rewrite namedDir_there by done.
  unfold st_try at 1, st_bind at 1. rewrite (gather_one _ _ _ [SpaceMetadataDir RunPath r s]) by (by apply levelDirs_named).
  unfold st_try at 1, st_bind at 1. rewrite (gather_one _ _ _ [StackMetadataDir RunPath r s t]) by (by apply levelDirs_named).
  apply gather_one. unfold st_try, subdirNames, st_bind. rewrite Hdir, Hes. cbn [st_ret].
  rewrite Bt, Bs, Br. apply (readEach_pure (CellMetadataPath RunPath r s t)).
Qed.
End Listings.

(** ** A small tree *)

Module shelf.
Definition file (p : string) : result Cell :=
  if String.eqb p "/run/kukeon/data/r/s/t/a/metadata.json" then Ok (cell_named "r" "s" "t" "a")
  else if String.eqb p "/run/kukeon/data/r/s/t/c/metadata.json" then Ok (cell_named "r" "s" "u" "c")
  else Err (EOpaque "unexpected end of JSON input").
Definition dirs (p : string) : result (list (string * bool)) :=
  if String.eqb p "/run/kukeon/data/r/s/t" then Ok [("a", true); ("b", true); ("c", true); ("metadata.json", false)] else Ok [].
#[export] Instance reader : ScopeReader unit := {|
  rd_Stat := fun _ => st_ret (Ok true); rd_ReadDir := fun p => st_ret (dirs p); rd_IsNotExist := fun _ => false;
  rd_readRealmInternal := fun _ => st_ret (Err (EOpaque "")); rd_readSpaceInternal := fun _ => st_ret (Err (EOpaque ""));
  rd_readStackInternal := fun _ => st_ret (Err (EOpaque "")); rd_readCellInternal := fun p => st_ret (file p) |}.
#[export] Instance config : HostConfig := {| SignalName := fun _ => ""; RealmNamespaceSuffix := ".kukeon.io"; RunPath := "/run/kukeon" |}.
End shelf.
Import shelf.

(** Cell b has an unreadable document and c belongs elsewhere. *)
Lemma list_cells_exact_witness : ListCells "r" "s" "t" () = ((), Ok [cell_named "r" "s" "t" "a"]).
Proof.
  rewrite (@list_cells_exact unit shelf.reader shelf.config (fun _ => Ok true) dirs file (fun _ _ => eq_refl) (fun _ _ => eq_refl) (fun _ _ => eq_refl)
             ["run"; "kukeon"] "r" "s" "t" [("a", true); ("b", true); ("c", true); ("metadata.json", false)] ());
    try (vm_compute; reflexivity); try done.
  cbn [app]. rewrite !Forall_cons, Forall_nil. split_and!; by split.
Defined.

Lemma listings_belong_witness : Forall (fun c => csp_StackName (cell_Spec c) = "t") [cell_named "r" "s" "t" "a"].
Proof.
  destruct (listings_belong (W := unit)) as (_ & _ & H3).
  eapply Forall_impl; [apply (H3 "r" "s" "t" () () [cell_named "r" "s" "t" "a"]); [done..|vm_compute; reflexivity]|].
  by intros c (_ & _ & ?).
Defined.
