(* ===== verification/Teams.v ===== *)
(** * Teams: the team documents, their validation and the agents source
    (pkg/api/model/kuketeams, internal/kuketeams/parser.go, internal/teamsource, the layout
    of internal/teamhost/teamhost.go)

    A project names roles and harnesses and the repository they come from.  The parser
    validates what later becomes a path: names, repositories and refs.  The source is cloned
    into a cache directory below the operator's own, from which the role and harness
    documents are loaded.  YAML decoding, git and the file system are interfaces. *)

From Stdlib Require Import Ascii ZArith Lia.
From stdpp Require Import base gmap strings list.
From S2P Require Import Prelude Model External Validate Template Layout Parser OutOfSync.

Local Open Scope nat_scope.

(** ** The documents (pkg/api/model/kuketeams) *)

Definition APIVersionV1 : string := "kuketeams.io/v1".
Definition KindProjectTeam : string := "ProjectTeam".
Definition KindTeamsConfig : string := "TeamsConfig".
Definition KindTeamEntry : string := "TeamEntry".
Definition KindRole : string := "Role".
Definition KindHarness : string := "Harness".
Definition KindImageCatalog : string := "ImageCatalog".
Definition SecretFromEnv : string := "env".
Definition SecretFromFile : string := "file".
Definition DefaultSourceHost : string := "github.com".

Definition KnownHarnesses : list string := ["claude"; "codex"; "opencode"].
Definition IsKnownHarness (name : string) : bool := existsb (String.eqb name) KnownHarnesses.

Record HarnessSeed := { hs_Path : string; hs_Mode : Z; hs_Content : string }.
Record HarnessSpec := { hsp_BaseImage : string; hsp_SkillPath : string; hsp_MakeTarget : string; hsp_Template : string; hsp_Seeds : list HarnessSeed }.
Record Harness := { hn_APIVersion : string; hn_Kind : string; hn_Name : string; hn_Spec : HarnessSpec }.

Record ImageCatalogBuild := { icb_Context : string; icb_Dockerfile : string }.
Record ImageCatalogEntry := { ice_Ref : string; ice_Harness : string; ice_Image : string; ice_Build : ImageCatalogBuild; ice_Capabilities : list string }.
Record ImageCatalog := { ic_APIVersion : string; ic_Kind : string; ic_Images : list ImageCatalogEntry }.

Record RoleHarness := { rh_Settings : string; rh_Sandbox : string; rh_Approval : string; rh_Permissions : string; rh_Secrets : list string }.
Record RoleNeeds := { rn_Image : list string; rn_Repos : list string; rn_Mounts : list string; rn_Params : list string; rn_Secrets : list string }.
Record RoleSpec := { rlsp_Skills : list string; rlsp_Harnesses : gmap string RoleHarness; rlsp_Needs : RoleNeeds }.
Record Role := { rl_APIVersion : string; rl_Kind : string; rl_Name : string; rl_Spec : RoleSpec }.

Record TeamSource := { tsr_Repo : string; tsr_Tag : string; tsr_Branch : string; tsr_Commit : string }.
Record ProjectTeamRole := { ptr_Ref : string; ptr_Needs : option (list string) }.
Record ProjectTeamSpec := {
  ptsp_Source : TeamSource; ptsp_ProjectDir : string; ptsp_Realm : string; ptsp_Space : string; ptsp_Stack : string;
  ptsp_Harnesses : list string; ptsp_Roles : list ProjectTeamRole
}.
Record ProjectTeam := { pt_APIVersion : string; pt_Kind : string; pt_Name : string; pt_Spec : ProjectTeamSpec }.

Record TeamEntry := {
  te_APIVersion : string; te_Kind : string; te_Name : string; te_Path : string; te_TeamDir : string; te_Source : option TeamSource
}.

(** The git block is that of a container with the operator's key. *)
Record TeamsConfigGit := { tcg_Git : ext.ContainerGit; tcg_SSHKey : string }.
Record TeamsConfigSecret := { tcs_From : string; tcs_Key : string }.
Record TeamsConfigSpec := {
  tcsp_Git : option TeamsConfigGit; tcsp_Registry : string; tcsp_HomeDir : string; tcsp_RepoOwner : string;
  tcsp_Sources : gmap string string; tcsp_Secrets : gmap string TeamsConfigSecret
}.
Record TeamsConfig := { tc_APIVersion : string; tc_Kind : string; tc_Spec : TeamsConfigSpec }.

(** *** A source's ref and repository (source.go) *)

(** The one ref that is set, with its kind; two empty strings for none or several. *)
Definition Ref (s : TeamSource) : string * string :=
  let tag := TrimSpace (tsr_Tag s) in
  let branch := TrimSpace (tsr_Branch s) in
  let commit := TrimSpace (tsr_Commit s) in
  match negb (String.eqb tag ""), negb (String.eqb branch ""), negb (String.eqb commit "") with
  | true, false, false => (tag, "tag")
  | false, true, false => (branch, "branch")
  | false, false, true => (commit, "commit")
  | _, _, _ => ("", "")
  end.
Definition TeamSource_Floating (s : TeamSource) : bool := String.eqb (Ref s).2 "branch".
Definition KindLabel (s : TeamSource) : string := if TeamSource_Floating s then "floating" else "pinned".

(** A first path element that looks like a host *)
Definition host_like (first : string) : bool :=
  negb (String.eqb first ".") && negb (String.eqb first "..") && (contains_byte "."%char first || contains_byte ":"%char first).
(** The host and the path on it *)
Definition Normalized (s : TeamSource) : string * string :=
  let repo := TrimSpace (tsr_Repo s) in
  match cut_at slash repo with
  | None => (DefaultSourceHost, repo)
  | Some (first, rest) => if host_like first then (first, rest) else (DefaultSourceHost, repo)
  end.

(** ** Validation (internal/kuketeams/parser.go) *)

Definition is_alnum (c : Ascii.ascii) : bool :=
  let n := Ascii.nat_of_ascii c in
  ((48 <=? n) && (n <=? 57)) || ((65 <=? n) && (n <=? 90)) || ((97 <=? n) && (n <=? 122)).
Definition one_of (chars : string) (c : Ascii.ascii) : bool := contains_byte c chars.
Fixpoint all_bytes (p : Ascii.ascii → bool) (s : string) : bool :=
  match s with EmptyString => true | String c s' => p c && all_bytes p s' end.
Definition nameSegPattern (s : string) : bool := negb (String.eqb s "") && all_bytes (fun c => is_alnum c || one_of "._-" c) s.
Definition hostSegPattern (s : string) : bool := negb (String.eqb s "") && all_bytes (fun c => is_alnum c || one_of ".:_-" c) s.
Definition ownerRepoSegments : nat := 2.

Definition bad (d : errdef) (text : string) : option error := Some (EWrap text [ESentinel d]).
(** The first complaint about the elements of a list *)
Fixpoint first_error {A} (check : A → option error) (l : list A) : option error :=
  match l with [] => None | x :: rest => match check x with Some e => Some e | None => first_error check rest end end.
Definition or_else (a b : option error) : option error := match a with Some e => Some e | None => b end.

Definition dot_segment (s : string) : bool := String.eqb s "." || String.eqb s "..".

Definition validateRepo (repo : string) : option error :=
  let segs := split_on slash repo in
  let first := hd "" segs in
  let hosted := host_like first in
  let ownerSegs := if hosted then tl segs else segs in
  if hosted && negb (hostSegPattern first) then bad ErrTeamSourceInvalid "%w (repo host %q is malformed)"
  else if length ownerSegs <? ownerRepoSegments then bad ErrTeamSourceInvalid "%w (repo %q must include <owner>/<repo>)"
  else first_error (fun seg => if dot_segment seg || negb (nameSegPattern seg)
                               then bad ErrTeamSourceInvalid "%w (repo %q has an invalid path segment %q)" else None) ownerSegs.

Definition validateRef (value : string) : option error :=
  if HasPrefix value "/" then bad ErrTeamSourceInvalid "%w (%s %q has an invalid path segment)"
  else first_error (fun seg => if dot_segment seg then bad ErrTeamSourceInvalid "%w (%s %q has an invalid path segment %q)" else None)
         (split_on slash value).

Definition ValidateSource (s : TeamSource) : option error :=
  let repo := TrimSpace (tsr_Repo s) in
  if String.eqb repo "" then bad ErrTeamSourceInvalid "%w (repo is required)"
  else or_else (validateRepo repo)
         (let '(value, kind) := Ref s in
          if String.eqb kind "" then bad ErrTeamSourceInvalid "%w (got tag=%q branch=%q commit=%q)"
          else validateRef value).

(** What must not be in a name that becomes a file name *)
Definition unsafe_name (trimmed : string) : bool :=
  contains_byte slash trimmed || contains_byte "\"%char trimmed || contains_byte nul trimmed || Contains trimmed ".." || HasPrefix trimmed ".".
Definition validateMetadataNameSafe (name : string) : option error :=
  if unsafe_name (TrimSpace name) then bad ErrTeamMetadataNameUnsafe "%w (got %q)" else None.

Definition validateProjectDir (dir : string) : option error :=
  let trimmed := TrimSpace dir in
  if String.eqb trimmed "" then None
  else if unsafe_name trimmed || String.eqb trimmed "agents" then bad ErrTeamProjectDirInvalid "%w (got %q)" else None.

Definition validateCapabilityNames (caps : list string) : option error :=
  first_error (fun c => if String.eqb (TrimSpace c) "" || contains_byte slash c || contains_byte ":"%char c || contains_byte "@"%char c
                        then bad ErrTeamImageCapabilityInvalid "%w: %q (%s)" else None) caps.

Definition validateIdentity (text : string) (i : option ext.GitIdentity) : option error :=
  match i with
  | Some i => if String.eqb (TrimSpace (ext.gi_Name i)) "" || String.eqb (TrimSpace (ext.gi_Email i)) ""
              then bad ErrTeamGitIdentityIncomplete text else None
  | None => None
  end.
Definition validateGit (git : TeamsConfigGit) : option error :=
  let g := tcg_Git git in
  or_else (validateIdentity "%w (git.author)" (ext.git_Author g))
    (or_else (validateIdentity "%w (git.committer)" (ext.git_Committer g))
       (match ext.git_Sign g with
        | [] => None
        | sign =>
            if String.eqb (TrimSpace (ext.git_SigningKey g)) "" then Some (ESentinel ErrTeamGitSignNeedsKey)
            else first_error (fun s => if String.eqb s ext.GitSignCommits || String.eqb s ext.GitSignTags then None
                                       else bad ErrTeamGitSignInvalid "%w (got %q)") sign
        end)).

Definition known (text : string) (h : string) : option error := if IsKnownHarness h then None else bad ErrTeamHarnessUnknown text.

Definition validateProjectTeam (pt : ProjectTeam) : option error :=
  let sp := pt_Spec pt in
  if String.eqb (TrimSpace (pt_Name pt)) "" then Some (ESentinel ErrTeamMetadataNameRequired)
  else or_else (validateMetadataNameSafe (pt_Name pt))
    (or_else (ValidateSource (ptsp_Source sp))
      (or_else (validateProjectDir (ptsp_ProjectDir sp))
        (or_else (first_error (known "%w: %q (defaults.harnesses)") (ptsp_Harnesses sp))
          (first_error (fun role =>
             if String.eqb (TrimSpace (ptr_Ref role)) "" then bad ErrTeamRoleRefRequired "%w (roles[%d])"
             else match ptr_Needs role with Some needs => validateCapabilityNames needs | None => None end) (ptsp_Roles sp))))).

(** The maps are ranged over in any order; the error is the same but for the key in it. *)
Definition validateTeamsConfig (tc : TeamsConfig) : option error :=
  let sp := tc_Spec tc in
  or_else (match tcsp_Git sp with Some g => validateGit g | None => None end)
    (or_else (first_error (fun '(_, secret) =>
                if negb (String.eqb (tcs_From secret) SecretFromEnv || String.eqb (tcs_From secret) SecretFromFile)
                   || String.eqb (TrimSpace (tcs_Key secret)) ""
                then bad ErrTeamSecretSourceInvalid "%w (secrets[%q])" else None) (map_to_list (tcsp_Secrets sp)))
       (first_error (fun '(key, _) => match validateRepo (TrimSpace key) with
                                      | Some _ => bad ErrTeamSourceKeyInvalid "%w (got %q)"
                                      | None => None
                                      end) (map_to_list (tcsp_Sources sp)))).

Definition validateTeamEntry (te : TeamEntry) : option error :=
  if String.eqb (TrimSpace (te_Name te)) "" then Some (ESentinel ErrTeamEntryNameRequired)
  else or_else (validateMetadataNameSafe (te_Name te)) (match te_Source te with Some s => ValidateSource s | None => None end).

Definition validateRole (r : Role) : option error :=
  if String.eqb (TrimSpace (rl_Name r)) "" then Some (ESentinel ErrTeamMetadataNameRequired)
  else or_else (first_error (fun '(h, _) => known "%w: %q (spec.harnesses)" h) (map_to_list (rlsp_Harnesses (rl_Spec r))))
         (validateCapabilityNames (rn_Image (rlsp_Needs (rl_Spec r)))).

Definition validateHarness (h : Harness) : option error :=
  let sp := hn_Spec h in
  or_else (known "%w: %q (metadata.name)" (hn_Name h))
    (if String.eqb (TrimSpace (hsp_SkillPath sp)) "" || String.eqb (TrimSpace (hsp_MakeTarget sp)) "" || String.eqb (TrimSpace (hsp_Template sp)) ""
     then Some (ESentinel ErrTeamHarnessFieldRequired)
     else first_error (fun s =>
            if String.eqb (TrimSpace (hs_Path s)) "" then bad ErrTeamHarnessSeedPathRequired "%w (seeds[%d])"
            else if (hs_Mode s <? 0)%Z || (511 <? hs_Mode s)%Z then bad ErrTeamHarnessSeedModeInvalid "%w (seeds[%d] mode=%#o)" else None)
          (hsp_Seeds sp)).

(** A slash, and something like a host before it *)
Definition isRegistryQualified (ref : string) : bool :=
  match cut_at slash (TrimSpace ref) with
  | Some (host, _) => negb (String.eqb host "") && (contains_byte "."%char host || contains_byte ":"%char host)
  | None => false
  end.

Definition validateImage (entry : ImageCatalogEntry) : option error :=
  if String.eqb (TrimSpace (ice_Ref entry)) "" then bad ErrTeamImageRefRequired "%w (images[%d])"
  else or_else (known "%w: %q (images[%d] %q)" (ice_Harness entry))
    (if negb (isRegistryQualified (ice_Image entry)) then bad ErrTeamImageImageRequired "%w (images[%d] %q image %q)"
     else if String.eqb (TrimSpace (icb_Context (ice_Build entry))) "" || String.eqb (TrimSpace (icb_Dockerfile (ice_Build entry))) ""
     then bad ErrTeamImageBuildRequired "%w (images[%d] %q)"
     else match ice_Capabilities entry with
          | [] => bad ErrTeamImageCapabilitiesRequired "%w (images[%d] %q)"
          | caps => validateCapabilityNames caps
          end).
Definition validateImageCatalog (ic : ImageCatalog) : option error := first_error validateImage (ic_Images ic).

(** ** Parsing *)

(** yaml.Unmarshal into the header, the typed documents, and the probe of spec.source: the
    value of a scalar. *)
Class TeamYaml := {
  ty_header : string → result (string * string);
  ty_sourceScalar : string → option string;
  ty_ProjectTeam : string → result ProjectTeam;
  ty_TeamsConfig : string → result TeamsConfig;
  ty_TeamEntry : string → result TeamEntry;
  ty_Role : string → result Role;
  ty_Harness : string → result Harness;
  ty_ImageCatalog : string → result ImageCatalog
}.

Inductive TeamDoc :=
| DocProjectTeam (d : ProjectTeam) | DocTeamsConfig (d : TeamsConfig) | DocTeamEntry (d : TeamEntry)
| DocRole (d : Role) | DocHarness (d : Harness) | DocImageCatalog (d : ImageCatalog).
Record TeamDocument := { td_APIVersion : string; td_Kind : string; td_Doc : TeamDoc }.

Section Parse.
Context `{TeamYaml}.

Definition rejectStringFormSource (raw : string) : option error :=
  match ty_sourceScalar raw with
  | Some v => if String.eqb (TrimSpace v) "" then None else bad ErrTeamSourceStringForm "%w (got %q)"
  | None => None
  end.

Definition decoded {A} (text : string) (r : result A) (validate : A → option error) (make : A → TeamDoc) : result TeamDoc :=
  match r with
  | Err e => Err (EWrap text [e])
  | Ok v => match validate v with Some e => Err e | None => Ok (make v) end
  end.

Definition Parse (raw : string) : result TeamDocument :=
  match ty_header raw with
  | Err e => Err (EWrap "parse header: %w" [e])
  | Ok (apiVersion, kind) =>
      if negb (String.eqb apiVersion APIVersionV1) then Err (EWrap "%w: %q (expected %s)" [ESentinel ErrUnsupportedAPIVersion])
      else
        let sourced (r : result TeamDoc) := match rejectStringFormSource raw with Some e => Err e | None => r end in
        let? d :=
          (if String.eqb kind KindProjectTeam then sourced (decoded "parse ProjectTeam: %w" (ty_ProjectTeam raw) validateProjectTeam DocProjectTeam)
           else if String.eqb kind KindTeamsConfig then decoded "parse TeamsConfig: %w" (ty_TeamsConfig raw) validateTeamsConfig DocTeamsConfig
           else if String.eqb kind KindTeamEntry then sourced (decoded "parse TeamEntry: %w" (ty_TeamEntry raw) validateTeamEntry DocTeamEntry)
           else if String.eqb kind KindRole then decoded "parse Role: %w" (ty_Role raw) validateRole DocRole
           else if String.eqb kind KindHarness then decoded "parse Harness: %w" (ty_Harness raw) validateHarness DocHarness
           else if String.eqb kind KindImageCatalog then decoded "parse ImageCatalog: %w" (ty_ImageCatalog raw) validateImageCatalog DocImageCatalog
           else Err (EWrap "%w: %q" [ESentinel ErrUnknownKind])) in
        Ok {| td_APIVersion := apiVersion; td_Kind := kind; td_Doc := d |}
  end.

Fixpoint parseAll (parts : list string) : result (list TeamDocument) :=
  match parts with
  | [] => Ok []
  | part :: rest =>
      if String.eqb (TrimSpace part) "" then parseAll rest
      else match Parse part with
           | Err e => Err (EWrap "document %d: %w" [e])
           | Ok d => let? ds := parseAll rest in Ok (d :: ds)
           end
  end.
(** [input] is what reading the stream gave. *)
Definition TeamParseDocuments (input : result string) : result (list TeamDocument) :=
  match input with
  | Err e => Err (EWrap "read input: %w" [e])
  | Ok data => let? ds := parseAll (separatorSplit data) in
               match ds with [] => Err (EOpaque "no documents found in input") | _ => Ok ds end
  end.
End Parse.

(** ** The agents source (internal/teamsource) *)

(** git, the environment and the file system; [url_Parse] gives the scheme, whether there is
    user information, and the URL without it. *)
Class TeamHost (W : Type) := {
  tho_Stat : string → st W (option error);
  tho_IsNotExist : error → bool;
  tho_MkdirAll : string → Z → st W (option error);
  tho_MkdirTemp : string → string → st W (result string);
  tho_Remove : string → st W (option error);
  tho_RemoveAll : string → st W (option error);
  tho_Rename : string → string → st W (option error);
  tho_ReadFile : string → st W (result string);
  tho_WriteFile : string → string → Z → st W (option error);
  tho_Chmod : string → Z → st W (option error);
  tho_CreateTemp : string → string → st W (result string);
  (** writing to and closing an open file *)
  tho_Write : string → string → st W (option error);
  tho_Close : string → st W (option error);
  tho_Glob : string → st W (result (list string));
  (** git with a working directory, an environment and arguments: its output and failure *)
  tho_git : string → list string → list string → st W (string * option error);
  tho_Environ : list string;
  tho_LookupEnv : string → option string;
  url_Parse : string → result (string * bool * string)
}.

Definition cacheDirPerm : Z := 448.
Definition RefTag : string := "tag".
Definition RefBranch : string := "branch".
Definition RefCommit : string := "commit".

Record Source := { src_Repo : string; src_Host : string; src_OwnerRepo : string; src_Ref : string; src_Kind : string }.
Definition Floating (s : Source) : bool := String.eqb (src_Kind s) RefBranch.

Definition FromModel (m : TeamSource) : result Source :=
  match ValidateSource m with
  | Some e => Err e
  | None =>
      let '(host, ownerRepo) := Normalized m in
      let '(value, kind) := Ref m in
      Ok {| src_Repo := host +:+ "/" +:+ ownerRepo; src_Host := host; src_OwnerRepo := ownerRepo; src_Ref := value; src_Kind := kind |}
  end.

Definition source_override (tc : TeamsConfig) (key : string) : option string :=
  match tcsp_Sources (tc_Spec tc) !! key with
  | Some u => if String.eqb (TrimSpace u) "" then None else Some (TrimSpace u)
  | None => None
  end.
Definition CloneURL (tc : option TeamsConfig) (src : Source) : string :=
  let default_ := "git@" +:+ src_Host src +:+ ":" +:+ src_OwnerRepo src +:+ ".git" in
  match tc with
  | None => default_
  | Some tc =>
      match source_override tc (src_Repo src) with
      | Some u => u
      | None => default default_ (source_override tc (src_OwnerRepo src))
      end
  end.

(** The directory of a source below the cache's base *)
Definition Cache_Path (base : string) (src : Source) : string := FJoin [base; src_Repo src +:+ "@" +:+ src_Ref src].

Definition sshKeyOf (tc : option TeamsConfig) : string :=
  match tc with
  | Some tc => match tcsp_Git (tc_Spec tc) with Some g => TrimSpace (tcg_SSHKey g) | None => "" end
  | None => ""
  end.

Definition RolePath (cacheDir ref : string) : string := FJoin [cacheDir; ref; "role.yaml"].
Definition HarnessDir (cacheDir name : string) : string := FJoin [cacheDir; "harnesses"; name].
Definition HarnessPath (cacheDir name : string) : string := FJoin [HarnessDir cacheDir name; "harness.yaml"].
Definition ImageCatalogPath (cacheDir : string) : string := FJoin [cacheDir; "harnesses"; "images.yaml"].

Record Bundle := {
  bu_Source : Source; bu_CacheDir : string; bu_Roles : gmap string Role; bu_Harnesses : gmap string Harness; bu_ImageCatalog : ImageCatalog
}.

Section Source.
Context {W : Type} `{TeamHost W} `{TeamYaml}.

Definition scrubURLCredentials (arg : string) : string :=
  match url_Parse arg with
  | Err _ => arg
  | Ok (scheme, user, rest) => if String.eqb scheme "" || negb user then arg else rest
  end.
Definition scrubArgs (args : list string) : list string := scrubURLCredentials <$> args.

(** The key is quoted as fmt's %q does; it holds no quote itself. *)
Definition quoted (s : string) : string := String (Ascii.ascii_of_nat 34) s +:+ String (Ascii.ascii_of_nat 34) "".
Definition gitEnv (sshKey : string) : list string :=
  tho_Environ
  ++ match tho_LookupEnv "GIT_TERMINAL_PROMPT" with Some _ => [] | None => ["GIT_TERMINAL_PROMPT=0"] end
  ++ match tho_LookupEnv "GIT_SSH_COMMAND" with
     | Some _ => []
     | None => ["GIT_SSH_COMMAND=ssh -o StrictHostKeyChecking=accept-new -o BatchMode=yes"
                +:+ if String.eqb sshKey "" then "" else " -i " +:+ quoted sshKey +:+ " -o IdentitiesOnly=yes"]
     end.

Definition runGit (dir sshKey : string) (args : list string) : st W (option error) :=
  let! (out, err) := tho_git dir (gitEnv sshKey) args in
  st_ret (match err with
          | None => None
          | Some e =>
              let command := "git " +:+ Join " " (scrubArgs args) in
              Some (if String.eqb (TrimSpace out) "" then EWrap (command +:+ ": %w") [e]
                    else EWrap (command +:+ ": %w: " +:+ TrimSpace out) [e])
          end).
(** One command after the other, up to the first failure. *)
Fixpoint runGits (sshKey : string) (cmds : list (string * list string)) : st W (option error) :=
  match cmds with
  | [] => st_ret None
  | (dir, args) :: rest =>
      let! e := runGit dir sshKey args in
      match e with Some e => st_ret (Some e) | None => runGits sshKey rest end
  end.

Definition cloneCommands (dst cloneURL : string) (src : Source) : list (string * list string) :=
  if String.eqb (src_Kind src) RefCommit then
    [("", ["init"; "-q"; dst]); (dst, ["remote"; "add"; "origin"; cloneURL]);
     (dst, ["fetch"; "--depth=1"; "origin"; src_Ref src]); (dst, ["checkout"; "-q"; "--detach"; "FETCH_HEAD"])]
  else [("", ["clone"; "--depth=1"; "--no-tags"; "--branch"; src_Ref src; cloneURL; dst])].
Definition cloneInto (dst cloneURL sshKey : string) (src : Source) : st W (option error) :=
  runGits sshKey (cloneCommands dst cloneURL src).

Definition refreshFloating (dir : string) (src : Source) (sshKey : string) : st W (result unit) :=
  let!? _ := st_check (wrapf "refetch floating %s@%s: %w") (runGit dir sshKey ["fetch"; "--depth=1"; "origin"; src_Ref src]) in
  st_check (wrapf "reset floating %s@%s: %w") (runGit dir sshKey ["reset"; "--hard"; "FETCH_HEAD"]).

(** A failure past the temporary directory removes it. *)
Definition or_discard (tmp text : string) (m : st W (option error)) : st W (result unit) :=
  let! e := m in
  match e with
  | None => st_ret (Ok ())
  | Some e => let! _ := tho_RemoveAll tmp in st_ret (Err (EWrap text [e]))
  end.

Definition Materialize (base : string) (src : Source) (cloneURL sshKey : string) : st W (result string) :=
  let dst := Cache_Path base src in
  let! statErr := tho_Stat dst in
  match statErr with
  | None =>
      let!? _ := (if Floating src then refreshFloating dst src sshKey else st_ret (Ok ())) in
      st_ret (Ok dst)
  | Some e =>
      if negb (tho_IsNotExist e) then st_ret (Err (EWrap "stat cache dir %q: %w" [e]))
      else
        let parent := FDir dst in
        let!? _ := st_check (wrapf "create cache parent %q: %w") (tho_MkdirAll parent cacheDirPerm) in
        let!? tmp := st_wrap (wrapf "create temp clone dir in %q: %w") (tho_MkdirTemp parent ".clone-*.tmp") in
        let!? _ := st_check (wrapf "clear temp clone dir %q: %w") (tho_Remove tmp) in
        let!? _ := or_discard tmp "clone %s@%s: %w" (cloneInto tmp cloneURL sshKey src) in
        let!? _ := or_discard tmp "rename temp clone %q to %q: %w" (tho_Rename tmp dst) in
        st_ret (Ok dst)
  end.

Definition parseFile (path : string) : st W (result TeamDocument) :=
  let!? raw := st_wrap (wrapf "read %q: %w") (tho_ReadFile path) in
  st_wrap (wrapf "parse %q: %w") (st_ret (Parse raw)).
Definition loadKind {A} (path : string) (pick : TeamDoc → option A) (d : errdef) : st W (result A) :=
  let!? doc := parseFile path in
  st_ret (match pick (td_Doc doc) with Some a => Ok a | None => Err (EWrap "%w (got kind %q in %q)" [ESentinel d]) end).
Definition LoadRole (cacheDir ref : string) : st W (result Role) :=
  loadKind (RolePath cacheDir ref) (fun d => match d with DocRole r => Some r | _ => None end) ErrTeamRoleFileKind.
Definition LoadHarness (cacheDir name : string) : st W (result Harness) :=
  loadKind (HarnessPath cacheDir name) (fun d => match d with DocHarness h => Some h | _ => None end) ErrTeamHarnessFileKind.
Definition LoadImageCatalog (cacheDir : string) : st W (result ImageCatalog) :=
  loadKind (ImageCatalogPath cacheDir) (fun d => match d with DocImageCatalog c => Some c | _ => None end) ErrTeamImageCatalogFileKind.

Fixpoint loadAll {A} (load : string → st W (result A)) (names : list string) (m : gmap string A) : st W (result (gmap string A)) :=
  match names with
  | [] => st_ret (Ok m)
  | n :: rest => let!? a := load n in loadAll load rest (<[n := a]> m)
  end.

Definition Resolve (base : string) (tc : option TeamsConfig) (pt : ProjectTeam) : st W (result Bundle) :=
  let!? src := st_ret (FromModel (ptsp_Source (pt_Spec pt))) in
  let!? dir := Materialize base src (CloneURL tc src) (sshKeyOf tc) in
  let!? roles := loadAll (LoadRole dir) (ptr_Ref <$> ptsp_Roles (pt_Spec pt)) ∅ in
  let!? harnesses := loadAll (LoadHarness dir) (ptsp_Harnesses (pt_Spec pt)) ∅ in
  let!? ic := LoadImageCatalog dir in
  st_ret (Ok {| bu_Source := src; bu_CacheDir := dir; bu_Roles := roles; bu_Harnesses := harnesses; bu_ImageCatalog := ic |}).
End Source.

(** ** The operator's files (internal/teamhost/teamhost.go) *)

Definition dropInDirPerm : Z := 448.
Definition configFilePerm : Z := 384.
Definition TeamsRootPerm : Z := 448.

Section Host.
Context (base : string).
Definition GlobalConfigPath : string := FJoin [base; "kuketeams.yaml"].
Definition DropInDir : string := FJoin [base; "kuketeam.d"].
Definition EntryPath (project : string) : string := FJoin [DropInDir; project +:+ ".yaml"].
Definition CacheDir : string := FJoin [base; "cache"].
Definition TeamsRoot : string := FJoin [base; "teams"].
Definition TeamDir (team : string) : string := FJoin [TeamsRoot; team].
Definition RoleHarnessStateDir (team role harness : string) : string := FJoin [TeamDir team; role +:+ "-" +:+ harness].
Definition HarnessSeedPath (team harness variant : string) : string :=
  let v := TrimSpace variant in
  FJoin [TeamDir team; harness +:+ ".json" +:+ if String.eqb v "" then "" else "-" +:+ v].
Definition SharedSecretsEnvPath : string := FJoin [TeamsRoot; "secrets.env"].
Definition TeamSecretsEnvPath (team : string) : string := FJoin [TeamDir team; "secrets.env"].

Context {W : Type} `{TeamHost W} (yaml_Config : TeamsConfig → result string) (yaml_Entry : TeamEntry → result string).

(** The deferred removal of the temporary file runs on every way out past its creation. *)
Definition writeYAML (path : string) (marshalled : result string) : st W (result unit) :=
  let!? raw := st_wrap (wrapf "marshal %q: %w") (st_ret marshalled) in
  let!? tmpName := st_wrap (wrapf "create temp file in %q: %w") (tho_CreateTemp (FDir path) ".kuketeam-*.tmp") in
  let! r :=
    (let! werr := tho_Write tmpName raw in
     match werr with
     | Some e => let! _ := tho_Close tmpName in st_ret (Err (EWrap "write temp file %q: %w" [e]))
     | None =>
         let!? _ := st_check (wrapf "close temp file %q: %w") (tho_Close tmpName) in
         let!? _ := st_check (wrapf "chmod temp file %q: %w") (tho_Chmod tmpName configFilePerm) in
         st_check (wrapf "rename %q to %q: %w") (tho_Rename tmpName path)
     end) in
  let! _ := tho_Remove tmpName in
  st_ret r.

Definition EnsureGlobalConfig (cfg : TeamsConfig) : st W (result bool) :=
  let! e := tho_Stat GlobalConfigPath in
  match e with
  | None => st_ret (Ok false)
  | Some e =>
      if negb (tho_IsNotExist e) then st_ret (Err (EWrap "stat global config %q: %w" [e]))
      else
        let!? _ := st_check (wrapf "create config dir %q: %w") (tho_MkdirAll base dropInDirPerm) in
        let!? _ := writeYAML GlobalConfigPath (yaml_Config cfg) in
        st_ret (Ok true)
  end.

Definition WriteEntry (entry : TeamEntry) : st W (result unit) :=
  let project := TrimSpace (te_Name entry) in
  if String.eqb project "" then st_ret (Err (ESentinel ErrTeamEntryNameRequired))
  else if unsafe_name project then st_ret (Err (EWrap "%w (got %q)" [ESentinel ErrTeamMetadataNameUnsafe]))
  else
    let!? _ := st_check (wrapf "create drop-in dir %q: %w") (tho_MkdirAll DropInDir dropInDirPerm) in
    writeYAML (EntryPath project) (yaml_Entry entry).
End Host.

(** ** Theorems: accepted documents stay in place *)

Lemma or_else_none a b : or_else a b = None → a = None ∧ b = None.
Proof. by destruct a. Qed.
Lemma first_error_none {A} (check : A → option error) l : first_error check l = None → Forall (fun x => check x = None) l.
Proof. induction l as [|x l IH]; [done|]. cbn. destruct (check x) eqn:E; [done|]. intros Hl. constructor; [done|by apply IH]. Qed.

(** Appending joins the last part with the first. *)
Lemma split_on_glue sep a b : ∃ l x y r,
  split_on sep a = l ++ [x] ∧ split_on sep b = y :: r ∧ split_on sep (a +:+ b) = l ++ (x +:+ y) :: r.
Proof.
  induction a as [|c a (l & x & y & r & Ha & Hb & Hab)].
  - destruct (split_on sep b) as [|y r] eqn:E; [by destruct (split_on_nonempty sep b)|]. exists [], "", y, r.
    split_and!; [done|done|]. change ("" +:+ b) with b. by rewrite E.
  - change (String c a +:+ b) with (String c (a +:+ b)). cbn [split_on]. rewrite Ha, Hab. destruct (Ascii.eqb c sep).
    + exists ("" :: l), x, y, r. done.
    + destruct l as [|z l]; cbn; [exists [], (String c x), y, r|exists (String c z :: l), x, y, r]; done.
Qed.
Lemma cut_split sep s a b : cut_at sep s = Some (a, b) → split_on sep s = a :: split_on sep b.
Proof.
  revert a. induction s as [|c s IH]; intros a; [done|]. cbn. destruct (Ascii.eqb c sep); [by intros [= <- <-]|].
  destruct (cut_at sep s) as [[a' b']|]; [|done]. intros [= <- <-]. by rewrite (IH a').
Qed.
Lemma cut_none sep s : cut_at sep s = None → split_on sep s = [s].
Proof.
  induction s as [|c s IH]; [done|]. cbn. destruct (Ascii.eqb c sep); [done|].
  destruct (cut_at sep s) as [[a' b']|]; [done|]. intros _. by rewrite IH.
Qed.

(** Elements that Clean keeps or drops, but does not climb with. *)
Definition no_dots (s : string) : Prop := s ≠ "." ∧ s ≠ "..".
Lemma clean_no_dots l stack : Forall no_dots l →
  foldl (clean_step true) stack l = reverse (filter (fun s => s ≠ "") l) ++ stack.
Proof.
  intros Hl. revert stack. induction Hl as [|s l [Hd Hdd] _ IH]; intros stack; [done|]. cbn [foldl].
  unfold clean_step at 2. rewrite (proj2 (String.eqb_neq s ".") Hd), (proj2 (String.eqb_neq s "..") Hdd).
  destruct (String.eqb s "") eqn:E.
  - apply String.eqb_eq in E as ->. cbn [orb]. rewrite IH. rewrite filter_cons_False by naive_solver. done.
  - apply String.eqb_neq in E. cbn [orb]. rewrite IH, filter_cons_True by done. by rewrite reverse_cons, <-app_assoc.
Qed.
(** A relative path without dot elements stays below. *)
Lemma FJoin_below bl p : Forall seg_ok bl → Forall no_dots (split_on slash p) →
  FJoin [render_path bl; p] = render_path (bl ++ filter (fun s => s ≠ "") (split_on slash p)) ∧
  Forall seg_ok (filter (fun s => s ≠ "") (split_on slash p)).
Proof.
  intros Hb Hp. split.
  - rewrite FJoin_rel, clean_no_dots by done. by rewrite reverse_app, !reverse_involutive.
  - apply Forall_forall. intros s [Hne Hs]%list_elem_of_filter. pose proof (split_on_parts slash p) as Ha.
    rewrite Forall_forall in Ha, Hp. destruct (Hp s Hs). split; auto.
Qed.

Lemma dot_segment_false s : dot_segment s = false → no_dots s.
Proof. intros [H1 H2]%orb_false_iff. by split; apply String.eqb_neq. Qed.

Lemma validateRef_ok v : validateRef v = None → Forall no_dots (split_on slash v).
Proof.
  unfold validateRef. destruct (HasPrefix v "/"); [done|]. intros Hf%first_error_none.
  eapply Forall_impl; [exact Hf|]. cbn. intros s. destruct (dot_segment s) eqn:E; [done|]. intros _. by apply dot_segment_false.
Qed.
(** The host and the path of an accepted repository *)
Lemma validateRepo_ok m : validateRepo (TrimSpace (tsr_Repo m)) = None →
  no_dots (Normalized m).1 ∧ avoids slash (Normalized m).1 = true ∧ Forall no_dots (split_on slash (Normalized m).2).
Proof.
  unfold validateRepo, Normalized. set (repo := TrimSpace (tsr_Repo m)).
  assert (Hseg : ∀ l, first_error (fun seg => if dot_segment seg || negb (nameSegPattern seg)
             then bad ErrTeamSourceInvalid "%w (repo %q has an invalid path segment %q)" else None) l = None → Forall no_dots l).
  { intros l Hf%first_error_none. eapply Forall_impl; [exact Hf|]. cbn. intros s.
    destruct (dot_segment s) eqn:E; [done|]. intros _. by apply dot_segment_false. }
  destruct (cut_at slash repo) as [[first rest]|] eqn:Ecut.
  - pose proof (split_on_parts slash repo) as Hp. rewrite (cut_split _ _ _ _ Ecut) in Hp |- *. cbn [hd tl].
    apply Forall_cons in Hp as [Hfirst _]. destruct (host_like first) eqn:Eh; cbn [andb].
    + destruct (negb (hostSegPattern first)); [done|]. destruct (_ <? _); [done|]. intros Hf. cbn.
      split_and!; [|done|by apply Hseg]. unfold host_like in Eh. apply andb_true_iff in Eh as [[H1 H2]%andb_true_iff _].
      split; by apply String.eqb_neq, negb_true_iff.
    + destruct (_ <? _); [done|]. intros Hf. cbn. split_and!; [done|done|]. rewrite (cut_split _ _ _ _ Ecut). by apply Hseg.
  - rewrite (cut_none _ _ Ecut). cbn [hd tl]. destruct (host_like repo); cbn [andb].
    + by destruct (negb (hostSegPattern repo)).
    + done.
Qed.

Lemma no_dots_at x y : no_dots (x +:+ "@" +:+ y).
Proof.
  assert (Ha : avoids "@"%char (x +:+ "@" +:+ y) = false) by by rewrite !avoids_app, andb_false_r.
  split; intros E; by rewrite E in Ha.
Qed.

Lemma Cache_Path_below bl m src : Forall seg_ok bl → FromModel m = Ok src →
  ∃ l, l ≠ [] ∧ Forall seg_ok l ∧ Cache_Path (render_path bl) src = render_path (bl ++ l).
Proof.
  intros Hb. unfold FromModel. destruct (ValidateSource m) eqn:Hv; [done|].
  unfold ValidateSource in Hv. destruct (String.eqb (TrimSpace (tsr_Repo m)) ""); [done|].
  apply or_else_none in Hv as [Hrepo Href]. apply validateRepo_ok in Hrepo as (Hh & Ha & Ho).
  destruct (Normalized m) as [host owner]. destruct (Ref m) as [value kind]. destruct (String.eqb kind ""); [done|].
  apply validateRef_ok in Href. intros [= <-]. unfold Cache_Path. cbn [src_Repo src_Ref]. cbn in Hh, Ha, Ho.
  destruct (split_on_glue slash owner ("@" +:+ value)) as (l & x & y & r & El & Er & E).
  destruct (split_on_glue slash "@" value) as (l2 & x2 & y2 & r2 & El2 & Er2 & E2).
  destruct l2 as [|? [|]]; [|done..]. injection El2 as <-. rewrite Er2 in Href. rewrite E2 in Er. injection Er as <- <-.
  set (p := (host +:+ "/" +:+ owner) +:+ "@" +:+ value).
  assert (Hp : split_on slash p = host :: l ++ (x +:+ "@" +:+ y2) :: r2).
  { subst p. rewrite string_app_assoc. change (host +:+ ("/" +:+ owner) +:+ "@" +:+ value) with (host +:+ String slash (owner +:+ "@" +:+ value)).
    rewrite split_on_app, (split_on_avoids _ host), E by done. done. }
  assert (Hd : Forall no_dots (split_on slash p)).
  { rewrite Hp. constructor; [done|]. rewrite El in Ho. apply Forall_app in Ho as [Ho _]. apply Forall_cons in Href as [_ Hr].
    apply Forall_app. split; [done|]. constructor; [apply no_dots_at|done]. }
  destruct (FJoin_below bl p Hb Hd) as [E1 E3]. eexists. split; [|split; [exact E3|exact E1]].
  intros E0. rewrite Hp in E0. apply (filter_nil_not_elem_of _ _ (x +:+ "@" +:+ y2)) in E0; [|by destruct x].
  apply E0. right. apply elem_of_app. right. left.
Qed.

(** C34: Whatever a project or a drop-in entry says, an accepted source is cloned to a
    directory strictly below the cache, and an accepted name gives one file of the drop-in
    directory. *)
Theorem accepted_paths_contained bl :
  Forall seg_ok bl →
  (∀ m src, FromModel m = Ok src → ∃ l, l ≠ [] ∧ Forall seg_ok l ∧ Cache_Path (render_path bl) src = render_path (bl ++ l)) ∧
  (∀ te, validateTeamEntry te = None →
     EntryPath (render_path bl) (TrimSpace (te_Name te)) = render_path (bl ++ ["kuketeam.d"; TrimSpace (te_Name te) +:+ ".yaml"])).
Proof.
  intros Hb. split.
  - intros m src. by apply Cache_Path_below.
  - intros te. unfold validateTeamEntry. destruct (String.eqb _ _); [done|]. intros [Hn _]%or_else_none.
    unfold validateMetadataNameSafe in Hn. destruct (unsafe_name _) eqn:Hu; [done|].
    unfold EntryPath, DropInDir. set (n := TrimSpace (te_Name te)) in *. unfold unsafe_name in Hu.
    rewrite !orb_false_iff in Hu. destruct Hu as [[[[Hs _] _] _] _]. apply negb_false_iff in Hs.
    rewrite !FJoin_seg; [by rewrite <-app_assoc|apply Forall_app; split; [done|by apply Forall_singleton]| |done|by split].
    assert (Hy : avoids "y"%char (n +:+ ".yaml") = false) by by rewrite avoids_app, andb_false_r.
    split.
    + by destruct n.
    + by rewrite avoids_app, Hs.
    + intros E. by rewrite E in Hy.
    + intros E. by rewrite E in Hy.
Qed.

(** ** Theorems: a clone is there or not *)

(** *** Paths below others *)

Definition depth (p : string) : nat := length (split_on slash p).
Definition below (p q : string) : Prop := q = p ∨ ∃ s, q = p +:+ "/" +:+ s.
Lemma below_level p q : below p q → depth q ≤ depth p → q = p.
Proof.
  intros [->|[s ->]]; [done|]. unfold depth. change (p +:+ "/" +:+ s) with (p +:+ String slash s). rewrite split_on_app, length_app.
  pose proof (split_on_nonempty slash s). destruct (split_on slash s); [done|]. cbn. lia.
Qed.

(** *** A host's directories *)

(** The directory a git command works on: the one it is told to make, or the one it runs in. *)
Definition git_target (dir : string) (args : list string) : string :=
  match args with
  | cmd :: _ => if String.eqb cmd "clone" || String.eqb cmd "init" then List.last args "" else dir
  | [] => dir
  end.
(** The names the pattern .clone-*.tmp stands for. *)
Definition temp_name (n : string) : Prop := ∃ x, avoids slash x = true ∧ n = ".clone-" +:+ x +:+ ".tmp".

(** What the file system and git do to the directories, [there p w] telling whether one
    exists: a call adds at most the directories it is asked for, those above or below them;
    a removal adds none; a rename that fails changes nothing and one that succeeds makes its
    target. *)
Class DirLaws {W} `{TeamHost W} (there : string → W → Prop) := {
  dl_Stat p w : (tho_Stat p w).1 = w ∧ ((tho_Stat p w).2 = None ↔ there p w);
  dl_MkdirAll p m w q : there q (tho_MkdirAll p m w).1 → there q w ∨ below q p;
  dl_MkdirTemp l w q (d := render_path l) : l ≠ [] → Forall seg_ok l → there q (tho_MkdirTemp d ".clone-*.tmp" w).1 →
    there q w ∨ ∃ n, (tho_MkdirTemp d ".clone-*.tmp" w).2 = Ok (d +:+ "/" +:+ n) ∧ q = d +:+ "/" +:+ n;
  dl_tempName l w t (d := render_path l) : l ≠ [] → Forall seg_ok l → (tho_MkdirTemp d ".clone-*.tmp" w).2 = Ok t → ∃ n, temp_name n ∧ t = d +:+ "/" +:+ n;
  dl_Remove p w q : there q (tho_Remove p w).1 → there q w;
  dl_RemoveAll p w q : there q (tho_RemoveAll p w).1 → there q w;
  dl_Rename p p' w : match (tho_Rename p p' w).2 with None => there p' (tho_Rename p p' w).1 | Some _ => ∀ q, there q (tho_Rename p p' w).1 → there q w end;
  dl_git d e args w q : there q (tho_git d e args w).1 → there q w ∨ below q (git_target d args) ∨ below (git_target d args) q
}.

Section Clone.
Context {W : Type} `{TeamHost W} (there : string → W → Prop) `{!DirLaws there}.

(** Nothing makes [dst] appear. *)
Definition absent (dst : string) (w w' : W) : Prop := ¬ there dst w → ¬ there dst w'.
#[local] Instance absent_preorder dst : PreOrder (absent dst).
Proof. split; unfold absent; [by intros w|]. intros w1 w2 w3. tauto. Qed.

Lemma git_absent dst d e args : git_target d args ≠ dst → depth (git_target d args) = depth dst → respects (absent dst) (tho_git d e args).
Proof.
  intros Hne Hd w Hn Ht. destruct (dl_git d e args w dst Ht) as [?|[Hb|Hb]]; [done| |].
  - apply below_level in Hb; [done|lia].
  - apply below_level in Hb; [by symmetry in Hb|lia].
Qed.
Lemma runGits_absent dst k l : Forall (fun c : string * list string => git_target c.1 c.2 ≠ dst ∧ depth (git_target c.1 c.2) = depth dst) l →
  respects (absent dst) (runGits k l).
Proof.
  induction 1 as [|[d a] l [Hne Hd] _ IH]; [apply respects_ret; apply _|]. apply respects_bind; [apply _| |].
  - unfold runGit. apply respects_bind; [apply _|by apply git_absent|]. intros [out e]. apply respects_ret. apply _.
  - intros [e|]; [apply respects_ret; apply _|done].
Qed.
Lemma cloneInto_absent dst tmp url key src : tmp ≠ dst → depth tmp = depth dst → respects (absent dst) (cloneInto tmp url key src).
Proof.
  intros Hne Hd. unfold cloneInto, cloneCommands. apply runGits_absent. destruct (String.eqb _ _); repeat constructor; done.
Qed.
Lemma or_discard_absent dst tmp text m w w' e : (∀ v v' x, m v = (v', Some x) → absent dst v v') →
  or_discard tmp text m w = (w', Err e) → absent dst w w'.
Proof.
  intros Hm (w1 & x & Hx & Hrun)%st_bind_inv. destruct x as [x|]; [|done].
  apply st_bind_inv in Hrun as (w2 & y & Hy & Hrun). injection Hrun as <- _. etrans; [by eapply Hm|].
  intros Hn Ht. apply Hn. apply (dl_RemoveAll tmp). by rewrite Hy.
Qed.
Lemma or_discard_ok tmp text (m : st W (option error)) w w' : or_discard tmp text m w = (w', Ok ()) → m w = (w', None).
Proof.
  intros (w1 & x & Hx & Hrun)%st_bind_inv. destruct x as [x|]; [by apply st_bind_inv in Hrun as (? & ? & _ & ?)|]. by injection Hrun as <-.
Qed.

(** The directory the clone is made in is beside the destination and not the destination. *)
Lemma beside_dst l leaf n : l ≠ [] → Forall seg_ok (l ++ [leaf]) → temp_name n → leaf ≠ n →
  render_path l +:+ "/" +:+ n ≠ render_path (l ++ [leaf]) ∧ depth (render_path l +:+ "/" +:+ n) = depth (render_path (l ++ [leaf])).
Proof.
  intros Hl Hs (x & Hx & ->) Hne. rewrite render_snoc by done. set (n := ".clone-" +:+ x +:+ ".tmp") in *.
  change (render_path l +:+ "/" +:+ n) with (render_path l +:+ String slash n).
  assert (Hn : avoids slash n = true) by (unfold n; rewrite !avoids_app, Hx; done).
  apply Forall_app in Hs as [_ Hs]. rewrite Forall_singleton in Hs. split.
  - intros E. apply (f_equal (split_on slash)) in E. rewrite !split_on_app in E. apply app_inv_head in E.
    rewrite (split_on_avoids _ n), (split_on_avoids _ leaf) in E by (done || apply Hs). by injection E.
  - unfold depth. rewrite !split_on_app, !length_app, (split_on_avoids _ n), (split_on_avoids _ leaf) by (done || apply Hs). done.
Qed.

Lemma last_path (l : list string) x : List.last ("" :: match l ++ [x] with [] => [""] | _ => l ++ [x] end) "" = x.
Proof. destruct l as [|y l]; [done|]. cbn [app]. rewrite app_comm_cons, app_comm_cons. apply List.last_last. Qed.

(** The steps of a fresh clone: up to the one that fails, or to the rename. *)
Lemma fresh_clone l leaf url key src w w' r (dst := render_path (l ++ [leaf])) :
  l ≠ [] → Forall seg_ok (l ++ [leaf]) → ¬ temp_name leaf → ¬ there dst w →
  (let!? _ := st_check (wrapf "create cache parent %q: %w") (tho_MkdirAll (FDir dst) cacheDirPerm) in
   let!? tmp := st_wrap (wrapf "create temp clone dir in %q: %w") (tho_MkdirTemp (FDir dst) ".clone-*.tmp") in
   let!? _ := st_check (wrapf "clear temp clone dir %q: %w") (tho_Remove tmp) in
   let!? _ := or_discard tmp "clone %s@%s: %w" (cloneInto tmp url key src) in
   let!? _ := or_discard tmp "rename temp clone %q to %q: %w" (tho_Rename tmp dst) in
   st_ret (Ok dst)) w = (w', r) → match r with Ok p => p = dst ∧ there dst w' | Err _ => ¬ there dst w' end.
Proof.
  intros Hl Hs Hleaf Hn. assert (Hs' := Hs). apply Forall_app in Hs' as [Hsl Hs1]. rewrite Forall_singleton in Hs1.
  unfold dst at 1 2. rewrite FDir_render by (done || apply Hs1). fold dst.
  intros (w1 & u1 & E1 & E)%st_bind_inv. apply st_bind_inv in E1 as (v1 & e1 & E1 & Eu). injection Eu as <- <-.
  assert (N1 : ¬ there dst v1).
  { intros Ht. destruct (dl_MkdirAll (render_path l) cacheDirPerm w dst) as [?|Hb]; [by rewrite E1|done|].
    apply below_level in Hb; unfold dst in *; rewrite render_snoc in * by done.
    - apply (f_equal (split_on slash)) in Hb. rewrite split_on_app in Hb. apply (f_equal length) in Hb. rewrite length_app in Hb.
      pose proof (split_on_nonempty slash leaf). destruct (split_on slash leaf); [done|]. cbn in Hb. lia.
    - unfold depth. rewrite split_on_app, length_app. lia. }
  clear E1 Hn. destruct e1; [by injection E as <- <-|].
  apply st_bind_inv in E as (w2 & t & E2 & E). apply st_bind_inv in E2 as (v2 & t2 & E2 & Eu). injection Eu as <- <-.
  assert (N2 : ¬ there dst v2 ∧ ∀ t, t2 = Ok t → t ≠ dst ∧ depth t = depth dst).
  { assert (Hb : ∀ t, t2 = Ok t → t ≠ dst ∧ depth t = depth dst).
    { intros t ->. destruct (dl_tempName l v1 t) as (n & Hn & ->); [done|done|by rewrite E2|].
      apply beside_dst; [done|done|done|]. by intros ->. }
    split; [|done]. intros Ht. destruct (dl_MkdirTemp l v1 dst) as [?|(n & En & Ed)]; [done|done|by rewrite E2|done|].
    rewrite E2 in En. cbn in En. destruct (Hb _ En). by rewrite <-Ed in *. }
  clear N1 E2. destruct N2 as [N2 Hb]. destruct t2 as [tmp|e2]; [|by injection E as <- <-]. destruct (Hb tmp eq_refl) as [Hne Hd]. clear Hb.
  apply st_bind_inv in E as (w3 & u3 & E3 & E). apply st_bind_inv in E3 as (v3 & e3 & E3 & Eu). injection Eu as <- <-.
  assert (N3 : ¬ there dst v3) by (intros Ht; apply N2, (dl_Remove tmp); by rewrite E3).
  clear N2 E3. destruct e3; [by injection E as <- <-|].
  pose proof (cloneInto_absent dst tmp url key src Hne Hd v3) as Hc.
  apply st_bind_inv in E as (w4 & u4 & E4 & E). destruct u4 as [[]|e4].
  2: { injection E as <- <-. eapply or_discard_absent in E4; [by apply E4|]. intros v v' y Hy.
       pose proof (cloneInto_absent dst tmp url key src Hne Hd v) as Hv. by rewrite Hy in Hv. }
  apply or_discard_ok in E4. rewrite E4 in Hc. assert (N4 : ¬ there dst w4) by by apply Hc. clear N3 Hc E4.
  apply st_bind_inv in E as (w5 & u5 & E5 & E). destruct u5 as [[]|e5]; injection E as <- <-.
  - apply or_discard_ok in E5. split; [done|]. pose proof (dl_Rename tmp dst w4) as Hr. by rewrite E5 in Hr.
  - eapply or_discard_absent in E5; [by apply E5|]. intros v v' y Hy Hv Ht. apply Hv.
    pose proof (dl_Rename tmp dst v) as Hr. rewrite Hy in Hr. by apply Hr.
Qed.

(** C35: A source that was not in the cache is there after it was materialized exactly when
    that succeeded: a failure at any step, of git among them, leaves no cache directory
    behind.  A pinned source that is in the cache is used as it is, without running git or
    changing anything.  This is for an accepted source, a cache at an absolute path below
    the root directory, and a reference whose last part is not of the form .clone-*.tmp; git
    may make any directory below or above the one it is told to work on. *)
Theorem clone_all_or_nothing bl m src url key w w' r (dst := Cache_Path (render_path bl) src) :
  bl ≠ [] → Forall seg_ok bl → FromModel m = Ok src → ¬ temp_name (List.last (split_on slash dst) "") →
  Materialize (render_path bl) src url key w = (w', r) →
  (¬ there dst w → match r with Ok p => p = dst ∧ there dst w' | Err _ => ¬ there dst w' end) ∧
  (there dst w → Floating src = false → w' = w ∧ r = Ok dst).
Proof.
  intros Hbl Hb Hm Htmp. destruct (Cache_Path_below bl m src Hb Hm) as (l & Hl & Hs & Ed). fold dst in Ed.
  unfold Materialize. fold dst. intros (w1 & e & Hst & Hrun)%st_bind_inv. destruct (dl_Stat dst w) as [E1 E2]. rewrite Hst in E1, E2. cbn [fst snd] in E1, E2.
  subst w1. destruct e as [e|].
  - assert (Hn : ¬ there dst w) by (by rewrite <-E2). split; [|done]. intros _.
    destruct (negb (tho_IsNotExist e)); [by injection Hrun as <- <-|].
    destruct (exists_last Hl) as (l' & leaf & ->). rewrite app_assoc in Ed. rewrite Ed in *.
    rewrite split_render, last_path in Htmp by (rewrite <-app_assoc; by apply Forall_app).
    refine (fresh_clone _ _ _ _ _ _ _ _ _ _ Htmp Hn Hrun); [by destruct bl|].
    rewrite <-app_assoc. by apply Forall_app.
  - assert (Ht : there dst w) by (by apply E2). split; [done|]. intros _ Hf. rewrite Hf in Hrun. by injection Hrun as <- <-.
Qed.
End Clone.

(** ** A small host *)

Definition sample_source : TeamSource := {| tsr_Repo := "eminwux/agents"; tsr_Tag := "v1.4.0"; tsr_Branch := ""; tsr_Commit := "" |}.
Definition sample_resolved : Source :=
  {| src_Repo := "github.com/eminwux/agents"; src_Host := "github.com"; src_OwnerRepo := "eminwux/agents"; src_Ref := "v1.4.0"; src_Kind := "tag" |}.
Lemma seg_ok_check s : negb (String.eqb s "") && avoids slash s && negb (dot_segment s) = true → seg_ok s.
Proof.
  intros [[H1 H2]%andb_true_iff H3]%andb_true_iff. apply negb_true_iff, String.eqb_neq in H1.
  apply negb_true_iff, dot_segment_false in H3 as [H3 H4]. by split.
Qed.

Lemma accepted_paths_contained_witness :
  (∃ l, l ≠ [] ∧ Forall seg_ok l ∧ Cache_Path "/home/op/.kuke/cache" sample_resolved = render_path (["home"; "op"; ".kuke"; "cache"] ++ l)) ∧
  Cache_Path "/home/op/.kuke/cache" sample_resolved = "/home/op/.kuke/cache/github.com/eminwux/agents@v1.4.0".
Proof.
  split; [|vm_compute; reflexivity].
  destruct (accepted_paths_contained ["home"; "op"; ".kuke"; "cache"]) as [H _].
  { rewrite !Forall_cons, Forall_nil. split_and!; try done; apply seg_ok_check; reflexivity. }
  apply (H sample_source). vm_compute. reflexivity.
Defined.

(** The directories that exist; git makes the directory it is told to and fails then. *)
#[local] Instance broken_git : TeamHost (gset string) := {|
  tho_Stat := fun p w => (w, if decide (p ∈ w) then None else Some (EOpaque "not found"));
  tho_IsNotExist := fun _ => true; tho_MkdirAll := fun p _ w => ({[p]} ∪ w, None);
  tho_MkdirTemp := fun d _ w => ({[d +:+ "/.clone-1.tmp"]} ∪ w, Ok (d +:+ "/.clone-1.tmp"));
  tho_Remove := fun p w => (w ∖ {[p]}, None); tho_RemoveAll := fun p w => (w ∖ {[p]}, None);
  tho_Rename := fun a b w => ({[b]} ∪ w ∖ {[a]}, None); tho_ReadFile := fun _ => st_ret (Err (EOpaque ""));
  tho_WriteFile := fun _ _ _ => st_ret None; tho_Chmod := fun _ _ => st_ret None; tho_CreateTemp := fun _ _ => st_ret (Err (EOpaque ""));
  tho_Write := fun _ _ => st_ret None; tho_Close := fun _ => st_ret None; tho_Glob := fun _ => st_ret (Ok []);
  tho_git := fun d _ args w => ({[git_target d args]} ∪ w, ("fatal: unable to access", Some (EOpaque "exit status 128"))); tho_Environ := [];
  tho_LookupEnv := fun _ => None; url_Parse := fun _ => Err (EOpaque "") |}.
#[local] Instance broken_git_laws : DirLaws (fun q (w : gset string) => q ∈ w).
Proof.
  constructor; cbn.
  - intros p w. split; [done|]. by destruct (decide (p ∈ w)).
  - intros p _ w q [->%elem_of_singleton|?]%elem_of_union; [right; by left|by left].
  - intros l w q _ _ [->%elem_of_singleton|?]%elem_of_union; [right; by exists ".clone-1.tmp"|by left].
  - intros l w t _ _ [= <-]. exists ".clone-1.tmp". split; [by exists "1"|done].
  - intros p w q ?%elem_of_difference. tauto.
  - intros p w q ?%elem_of_difference. tauto.
  - intros p p' w. apply elem_of_union_l, elem_of_singleton. done.
  - intros d _ args w q [->%elem_of_singleton|?]%elem_of_union; [right; left; by left|by left].
Qed.

Lemma clone_all_or_nothing_witness :
  let p := Cache_Path (render_path ["c"]) sample_resolved in
  let run := Materialize (render_path ["c"]) sample_resolved "git@github.com:eminwux/agents.git" "" in
  is_Ok (run ∅).2 = false ∧ p ∉ (run ∅).1 ∧ run {[p]} = ({[p]}, Ok p).
Proof.
  intros p run. assert (Hc : seg_ok "c") by (apply seg_ok_check; reflexivity).
  assert (Hall : ∀ w, (p ∉ w → match (run w).2 with Ok q => q = p ∧ p ∈ (run w).1 | Err _ => p ∉ (run w).1 end) ∧
                      (p ∈ w → Floating sample_resolved = false → (run w).1 = w ∧ (run w).2 = Ok p)).
  { intros w. apply (clone_all_or_nothing (fun q (w : gset string) => q ∈ w) ["c"] sample_source sample_resolved
      "git@github.com:eminwux/agents.git" "" w (run w).1 (run w).2); [done|by repeat constructor| | |apply surjective_pairing].
    - vm_compute. reflexivity.
    - intros (x & _ & E). vm_compute in E. discriminate E. }
  assert (He : is_Ok (run ∅).2 = false) by (vm_compute; reflexivity).
  split_and!; [exact He| |].
  - specialize (proj1 (Hall ∅)) as H1. destruct (run ∅).2; [discriminate He|]. apply H1. apply not_elem_of_empty.
  - destruct (proj2 (Hall {[p]})) as [E1 E2]; [by apply elem_of_singleton|done|].
    rewrite (surjective_pairing (run {[p]})). by rewrite E1, E2.
Defined.
