(* ===== verification/TeamRender.v ===== *)
(** * TeamRender: rendering a team's blueprints, configs and secrets
    (internal/teamrender/teamrender.go, internal/teamsecrets/teamsecrets.go)

    For every role and harness of a project the needed image is selected, the harness's
    template is executed and decoded into a blueprint, and a configuration is bound to it.
    The secrets the roles need are read from two env files.  The template engine, YAML and
    the file system are interfaces; strings.ToLower and ToUpper are those of ASCII text. *)

From Stdlib Require Import Ascii ZArith Lia.
From stdpp Require Import base gmap strings list sorting.
From S2P Require Import Containerd.
From S2P Require Import Prelude Model External Validate Template Blueprint Config Layout Parser OutOfSync Lookup Teams.

Local Open Scope nat_scope.

(** ** Strings *)

Fixpoint map_bytes (f : Ascii.ascii → Ascii.ascii) (s : string) : string :=
  match s with EmptyString => EmptyString | String c s' => String (f c) (map_bytes f s') end.
Definition lower (c : Ascii.ascii) : Ascii.ascii :=
  let n := Ascii.nat_of_ascii c in if (65 <=? n) && (n <=? 90) then Ascii.ascii_of_nat (n + 32) else c.
Definition upper (c : Ascii.ascii) : Ascii.ascii :=
  let n := Ascii.nat_of_ascii c in if (97 <=? n) && (n <=? 122) then Ascii.ascii_of_nat (n - 32) else c.
Definition ToLower : string → string := map_bytes lower.
Definition ToUpper : string → string := map_bytes upper.

(** The trimmed entries that are not empty, as a sorted set *)
Definition uniqueSortedNonEmpty (keys : list string) : list string :=
  merge_sort str_le (remove_dups (filter (fun s => s ≠ "") (TrimSpace <$> keys))).

(** ** Needs and images *)

Definition MergeNeeds (a b : list string) : list string := uniqueSortedNonEmpty (a ++ b).
Definition hasAll (haystack needles : list string) : bool := forallb (fun n => existsb (String.eqb n) haystack) needles.

Definition firstUnmet (images : list ImageCatalogEntry) (harness : string) (needs : list string) : string :=
  default "" (List.find (fun n => negb (existsb (fun e => String.eqb (ice_Harness e) harness && existsb (String.eqb n) (ice_Capabilities e)) images)) needs).

Definition SelectImage (ic : option ImageCatalog) (harness : string) (needs : list string) : result ImageCatalogEntry :=
  match ic with
  | None | Some {| ic_Images := [] |} =>
      Err (EWrap "%w: empty ImageCatalog for harness=%q (build or label an image in harnesses/images.yaml that provides %v)" [ESentinel ErrTeamImageNoMatch])
  | Some ic =>
      match List.find (fun e => String.eqb (ice_Harness e) harness && hasAll (ice_Capabilities e) needs) (ic_Images ic) with
      | Some e => Ok e
      | None =>
          if String.eqb (firstUnmet (ic_Images ic) harness needs) ""
          then Err (EWrap "%w: harness=%q needs=%v (no single image in images.yaml carries all capabilities; build or label one that does)" [ESentinel ErrTeamImageNoMatch])
          else Err (EWrap "%w: harness=%q capability=%q (build or label an image in harnesses/images.yaml that provides %q)" [ESentinel ErrTeamImageNoMatch])
      end
  end.

(** ** Inputs and facts *)

Definition DefaultRealm : string := "default".
Definition DefaultSpace : string := "default".
Definition DefaultStack : string := "default".
Definition ProjectRepoSlotName : string := "project".
Definition AgentsRepoSlotName : string := "agents".
Definition partialGlob : string := "*.tmpl.yaml".

Record Inputs := {
  in_Project : string; in_ProjectRepoURL : string; in_ProjectDir : string; in_ProjectCloneDir : string; in_TeamDir : string;
  in_Realm : string; in_Space : string; in_Stack : string; in_Build : bool; in_SourceRef : string
}.

Definition InternalImageRef (name version : string) : string := InternalImageRegistry +:+ "/" +:+ name +:+ ":" +:+ version.

(** The dot-context of the template *)
Record RenderContext := {
  rc_role_name : string; rc_role_ref : string; rc_harness : string;
  rc_needs_image : list string; rc_needs_repos : list string; rc_needs_mounts : list string; rc_needs_params : list string;
  rc_needs_secrets : list string; rc_harnesses : gmap string RoleHarness; rc_operator : gmap string string;
  rc_project : gmap string string; rc_image : string; rc_image_ref : string; rc_realm : string; rc_space : string; rc_stack : string
}.

(** A fact that is not blank, trimmed *)
Definition fact (key value : string) : gmap string string :=
  if String.eqb (TrimSpace value) "" then ∅ else {[ key := TrimSpace value ]}.
(** A value that is not empty, as given *)
Definition value_ (key value : string) : gmap string string := if String.eqb value "" then ∅ else {[ key := value ]}.

Definition resolveRepoOwner (tc : option TeamsConfig) (src : Source) : string :=
  let configured := match tc with Some tc => TrimSpace (tcsp_RepoOwner (tc_Spec tc)) | None => "" end in
  if String.eqb configured "" then match cut_at slash (TrimSpace (src_OwnerRepo src)) with Some (owner, _) => owner | None => "" end
  else configured.

Definition operatorValues (tc : option TeamsConfig) (roleRef harness project : string) : gmap string string :=
  {[ "ROLE" := roleRef; "HARNESS" := harness; "PROJECT" := project ]}
  ∪ match tc with
    | None => ∅
    | Some tc =>
        match tcsp_Git (tc_Spec tc) with
        | None => ∅
        | Some g =>
            let c := tcg_Git g in
            match ext.git_Author c with
            | Some a => value_ "GIT_AUTHOR_NAME" (ext.gi_Name a) ∪ value_ "GIT_AUTHOR_EMAIL" (ext.gi_Email a)
            | None => ∅
            end
            ∪ match ext.git_Committer c with
              | Some a => value_ "GIT_COMMITTER_NAME" (ext.gi_Name a) ∪ value_ "GIT_COMMITTER_EMAIL" (ext.gi_Email a)
              | None => ∅
              end
            ∪ value_ "GIT_SIGNING_KEY" (ext.git_SigningKey c) ∪ value_ "GIT_ALLOWED_SIGNERS" (ext.git_AllowedSigners c)
            ∪ value_ "GIT_SSH_KEY" (tcg_SSHKey g)
        end ∪ value_ "REGISTRY" (tcsp_Registry (tc_Spec tc))
    end.

Definition agentsCloneURL (tc : option TeamsConfig) (src : Source) : string :=
  if String.eqb (src_OwnerRepo src) "" || String.eqb (src_Host src) "" then "" else CloneURL tc src.

(** ** Blueprints *)

Definition defaultObjectName (roleRef harness : string) : string := roleRef +:+ "-" +:+ harness.
Definition scopeToProject (name project : string) : string :=
  let project := TrimSpace project in
  if String.eqb project "" then name
  else if String.eqb name project || HasPrefix name (project +:+ "-") then name
  else project +:+ "-" +:+ name.

(** Own-scope volume mounts are made on demand. *)
Definition ensureMount (v : ext.VolumeMount) : ext.VolumeMount :=
  if negb (String.eqb (ext.vm_Kind v) ext.VolumeKindVolume) || match ext.vm_VolumeRef v with Some _ => true | None => false end then v
  else let 'ext.Build_VolumeMount k s t r ro sz m _ := v in ext.Build_VolumeMount k s t r ro sz m true.
Definition ensureContainer (c : ext.BlueprintContainer) : ext.BlueprintContainer :=
  let 'ext.Build_BlueprintContainer a1 a2 a3 a4 a5 a6 a7 a8 vols b1 b2 b3 b4 b5 b6 b7 b8 b9 c1 c2 c3 c4 c5 c6 c7 c8 c9 d1 := c in
  ext.Build_BlueprintContainer a1 a2 a3 a4 a5 a6 a7 a8 (ensureMount <$> vols) b1 b2 b3 b4 b5 b6 b7 b8 b9 c1 c2 c3 c4 c5 c6 c7 c8 c9 d1.
Definition ensureTeamVolumeMounts (s : ext.BlueprintCellSpec) : ext.BlueprintCellSpec :=
  {| ext.bcs_Tty := ext.bcs_Tty s; ext.bcs_Containers := ensureContainer <$> ext.bcs_Containers s;
     ext.bcs_AutoDelete := ext.bcs_AutoDelete s; ext.bcs_NestedCgroupRuntime := ext.bcs_NestedCgroupRuntime s |}.

(** What the renderer forces on the decoded document *)
Definition stampBlueprint (bp : ext.CellBlueprintDoc) (roleRef harness project realm space stack : string) : ext.CellBlueprintDoc :=
  let m := ext.bp_Metadata bp in
  let named := if String.eqb (TrimSpace (ext.bpm_Name m)) "" then defaultObjectName roleRef harness else ext.bpm_Name m in
  let prefix := ext.bps_Prefix (ext.bp_Spec bp) in
  {| ext.bp_APIVersion := ext.APIVersionV1Beta1; ext.bp_Kind := ext.KindCellBlueprint;
     ext.bp_Metadata := {| ext.bpm_Name := scopeToProject named project; ext.bpm_Realm := realm; ext.bpm_Space := space;
                           ext.bpm_Stack := stack; ext.bpm_Labels := <[ext.LabelTeam := project]> (ext.bpm_Labels m) |};
     ext.bp_Spec := {| ext.bps_Prefix := if String.eqb (TrimSpace prefix) "" then prefix else scopeToProject (TrimSpace prefix) project;
                       ext.bps_Parameters := ext.bps_Parameters (ext.bp_Spec bp);
                       ext.bps_Cell := ensureTeamVolumeMounts (ext.bps_Cell (ext.bp_Spec bp)) |} |}.

(** text/template: a set of named templates with two functions; a body is parsed under a
    name, a template executed on the context. *)
Class TemplateEngine := {
  TemplateSet : Type;
  tpl_New : string → (string → string) → (string → string → string → string) → TemplateSet;
  tpl_Parse : TemplateSet → string → string → result TemplateSet;
  tpl_Execute : TemplateSet → string → RenderContext → result string
}.

Section Render.
Context {W : Type} `{TeamHost W} `{TemplateEngine} `{YamlCodec ext.CellBlueprintDoc}.

Definition resolveHomeDir (tc : option TeamsConfig) : string :=
  let configured := match tc with Some tc => TrimSpace (tcsp_HomeDir (tc_Spec tc)) | None => "" end in
  if String.eqb configured "" then TrimSpace (default "" (tho_LookupEnv (W := W) "HOME")) else configured.

Definition operatorView (tc : option TeamsConfig) (src : Source) (inp : Inputs) : gmap string string :=
  match tc with
  | None => ∅
  | Some tc =>
      fact "REGISTRY" (tcsp_Registry (tc_Spec tc))
      ∪ match tcsp_Git (tc_Spec tc) with
        | Some g => match ext.git_Author (tcg_Git g) with
                    | Some a => fact "GIT_USER_NAME" (ext.gi_Name a) ∪ fact "GIT_USER_EMAIL" (ext.gi_Email a)
                    | None => ∅
                    end
        | None => ∅
        end
  end
  ∪ fact "TEAM_ROOT" (in_TeamDir inp) ∪ value_ "HOME_DIR" (resolveHomeDir tc) ∪ value_ "REPO_OWNER" (resolveRepoOwner tc src).

Definition renderContextValues (roleRef harness : string) (image : ImageCatalogEntry) (needs : list string) (r : Role)
    (tc : option TeamsConfig) (src : Source) (inp : Inputs) (project realm space stack : string) : RenderContext :=
  let n := rlsp_Needs (rl_Spec r) in
  {| rc_role_name := roleRef; rc_role_ref := roleRef; rc_harness := harness;
     rc_needs_image := needs; rc_needs_repos := rn_Repos n; rc_needs_mounts := rn_Mounts n; rc_needs_params := rn_Params n;
     rc_needs_secrets := rn_Secrets n; rc_harnesses := rlsp_Harnesses (rl_Spec r);
     rc_operator := operatorView tc src inp;
     rc_project := {[ "NAME" := if String.eqb (TrimSpace (in_ProjectCloneDir inp)) "" then project else TrimSpace (in_ProjectCloneDir inp) ]}
                   ∪ fact "PROJECT_DIR" (in_ProjectDir inp) ∪ fact "AGENTS_REPO" (src_OwnerRepo src);
     rc_image := if in_Build inp && negb (String.eqb (TrimSpace (in_SourceRef inp)) "")
                 then InternalImageRef (ice_Ref image) (in_SourceRef inp) else ice_Image image;
     rc_image_ref := ice_Ref image; rc_realm := realm; rc_space := space; rc_stack := stack |}.

Fixpoint parsePartials (tplPath : string) (transform : string → string) (siblings : list string) (tpl : TemplateSet) : st W (result TemplateSet) :=
  match siblings with
  | [] => st_ret (Ok tpl)
  | sib :: rest =>
      if String.eqb sib tplPath then parsePartials tplPath transform rest tpl
      else
        let!? raw := st_wrap (wrapf "read partial %q: %w") (tho_ReadFile sib) in
        let!? tpl := st_wrap (wrapf "parse partial %q: %w") (st_ret (tpl_Parse tpl (FBase sib) (transform raw))) in
        parsePartials tplPath transform rest tpl
  end.
Definition parseBlueprintTemplateBody (tplPath raw : string) (transform : string → string) : st W (result TemplateSet) :=
  let mainName := FBase tplPath in
  let tpl := tpl_New mainName ToUpper (fun from to_ s => ReplaceAll s from to_) in
  let!? tpl := st_wrap (wrapf "parse blueprint template %q: %w") (st_ret (tpl_Parse tpl mainName (transform raw))) in
  let!? siblings := st_wrap (wrapf "scan partials next to %q: %w") (tho_Glob (FJoin [FDir tplPath; partialGlob])) in
  parsePartials tplPath transform (merge_sort str_le siblings) tpl.
Definition parseBlueprintTemplate (tplPath raw : string) : st W (result TemplateSet) := parseBlueprintTemplateBody tplPath raw (fun s => s).

Definition RenderBlueprint (cacheDir : string) (h : Harness) (r : Role) (harness roleRef : string) (needs : list string)
    (image : ImageCatalogEntry) (tc : option TeamsConfig) (src : Source) (inp : Inputs) (project realm space stack : string)
    : st W (result ext.CellBlueprintDoc) :=
  let!? _ := st_guard (negb (String.eqb (TrimSpace (hsp_Template (hn_Spec h))) ""))
               (EWrap "%w: harness=%q (spec.template is empty)" [ESentinel ErrTeamBlueprintTemplateMissing]) in
  let tplPath := FJoin [HarnessDir cacheDir harness; hsp_Template (hn_Spec h)] in
  let!? raw := st_wrap (fun e => EWrap "%w: %q: %w" [ESentinel ErrTeamBlueprintTemplateMissing; e]) (tho_ReadFile tplPath) in
  let!? tpl := parseBlueprintTemplate tplPath raw in
  let ctx := renderContextValues roleRef harness image needs r tc src inp project realm space stack in
  let!? text := st_wrap (wrapf "execute blueprint template %q: %w") (st_ret (tpl_Execute tpl (FBase tplPath) ctx)) in
  let!? bp := st_wrap (wrapf "parse rendered blueprint %q: %w") (st_ret (yaml_Unmarshal text)) in
  st_ret (Ok (stampBlueprint bp roleRef harness project realm space stack)).

(** ** Configs *)

Definition collectRepoSlots (bp : ext.CellBlueprintDoc) : gset string :=
  list_to_set (ext.bcs_Containers (ext.bps_Cell (ext.bp_Spec bp))
    ≫= (fun c => ext.repo_Name <$> filter (fun r => TrimSpace (ext.repo_URL r) = "") (ext.bc_Repos c))).
Definition collectSecretSlots (bp : ext.CellBlueprintDoc) : gset string :=
  list_to_set (ext.bcs_Containers (ext.bps_Cell (ext.bp_Spec bp)) ≫= (fun c => ext.bss_Name <$> ext.bc_Secrets c)).

(** The names in their order, trimmed, without blanks and repetitions *)
Fixpoint addNames (names out : list string) : list string :=
  match names with
  | [] => out
  | n :: rest =>
      let n := TrimSpace n in
      if String.eqb n "" || existsb (String.eqb n) out then addNames rest out else addNames rest (out ++ [n])
  end.
Definition effectiveSecretNames (r : Role) (harness : string) : list string :=
  let own := match rlsp_Harnesses (rl_Spec r) !! harness with Some rh => addNames (rh_Secrets rh) [] | None => [] end in
  addNames (rn_Secrets (rlsp_Needs (rl_Spec r))) own.

Definition repoFill (url : string) : ext.CellConfigRepoFill := {| ext.rf_URL := url; ext.rf_Branch := ""; ext.rf_Ref := "" |}.
Definition secretFill (realm name : string) : ext.CellConfigSecretFill :=
  {| ext.sf_SecretRef := Some {| ext.csr_Name := name; ext.csr_Realm := realm; ext.csr_Space := ""; ext.csr_Stack := ""; ext.csr_Cell := "" |} |}.

Definition BindConfig (bp : ext.CellBlueprintDoc) (r : Role) (roleRef harness : string) (tc : option TeamsConfig) (src : Source)
    (inp : Inputs) (project realm space stack : string) : ext.CellConfigDoc :=
  let name := ext.bpm_Name (ext.bp_Metadata bp) in
  let slot url slotName : gmap string ext.CellConfigRepoFill :=
    if negb (String.eqb url "") && bool_decide (slotName ∈ collectRepoSlots bp) then {[ slotName := repoFill url ]} else ∅ in
  {| ext.cfg_APIVersion := ext.APIVersionV1Beta1; ext.cfg_Kind := ext.KindCellConfig;
     ext.cfg_Metadata := {| ext.cfm_Name := name; ext.cfm_Realm := realm; ext.cfm_Space := space; ext.cfm_Stack := stack;
                            ext.cfm_Labels := {[ ext.LabelTeam := project ]}; ext.cfm_Annotations := ∅ |};
     ext.cfg_Spec := {|
       ext.cfs_Prefix := "";
       ext.cfs_Blueprint := {| ext.bref_Name := name; ext.bref_Realm := realm; ext.bref_Space := space; ext.bref_Stack := stack |};
       ext.cfs_Values := operatorValues tc roleRef harness project;
       ext.cfs_Repos := slot (in_ProjectRepoURL inp) ProjectRepoSlotName ∪ slot (agentsCloneURL tc src) AgentsRepoSlotName;
       ext.cfs_Secrets := list_to_map ((fun n => (n, secretFill realm n)) <$>
                            filter (fun n => n ∈ collectSecretSlots bp) (effectiveSecretNames r harness)) |} |}.

(** ** The roster *)

Record Rendered := {
  re_Secrets : list ext.SecretDoc; re_Blueprints : list ext.CellBlueprintDoc; re_Configs : list ext.CellConfigDoc;
  re_Selections : list ImageCatalogEntry
}.
Definition re_empty : Rendered := {| re_Secrets := []; re_Blueprints := []; re_Configs := []; re_Selections := [] |}.
(** The images are kept once per ref. *)
Definition re_add (res : Rendered) (bp : ext.CellBlueprintDoc) (cfg : ext.CellConfigDoc) (entry : ImageCatalogEntry) : Rendered :=
  {| re_Secrets := re_Secrets res; re_Blueprints := re_Blueprints res ++ [bp]; re_Configs := re_Configs res ++ [cfg];
     re_Selections := if existsb (fun e => String.eqb (ice_Ref e) (ice_Ref entry)) (re_Selections res) then re_Selections res
                      else re_Selections res ++ [entry] |}.

Definition or_default (s d : string) : string := if String.eqb (TrimSpace s) "" then d else TrimSpace s.

Definition renderPair (bundle : Bundle) (tc : option TeamsConfig) (inp : Inputs) (project realm space stack : string)
    (ptRole : ProjectTeamRole) (role : Role) (hname : string) (res : Rendered) : st W (result Rendered) :=
  match bu_Harnesses bundle !! hname with
  | None => st_ret (Err (EWrap "%w: %q" [ESentinel ErrTeamHarnessNotLoaded]))
  | Some harness =>
      let merged := MergeNeeds (rn_Image (rlsp_Needs (rl_Spec role))) (default [] (ptr_Needs ptRole)) in
      let!? entry := st_wrap (wrapf "render %s/%s: %w") (st_ret (SelectImage (Some (bu_ImageCatalog bundle)) hname merged)) in
      let!? bp := st_wrap (wrapf "render %s/%s: %w")
                    (RenderBlueprint (bu_CacheDir bundle) harness role hname (ptr_Ref ptRole) merged entry tc (bu_Source bundle) inp
                       project realm space stack) in
      st_ret (Ok (re_add res bp (BindConfig bp role (ptr_Ref ptRole) hname tc (bu_Source bundle) inp project realm space stack) entry))
  end.
Fixpoint renderHarnesses (f : string → Rendered → st W (result Rendered)) (names : list string) (res : Rendered) : st W (result Rendered) :=
  match names with
  | [] => st_ret (Ok res)
  | h :: rest => let!? res := f h res in renderHarnesses f rest res
  end.
Fixpoint renderRoles (bundle : Bundle) (harnesses : list string) (f : ProjectTeamRole → Role → string → Rendered → st W (result Rendered))
    (roles : list ProjectTeamRole) (res : Rendered) : st W (result Rendered) :=
  match roles with
  | [] => st_ret (Ok res)
  | ptRole :: rest =>
      match bu_Roles bundle !! ptr_Ref ptRole with
      | None => st_ret (Err (EWrap "%w: %q" [ESentinel ErrTeamRoleNotLoaded]))
      | Some role =>
          let!? res := renderHarnesses (f ptRole role) harnesses res in
          renderRoles bundle harnesses f rest res
      end
  end.

Definition Render (bundle : option Bundle) (pt : option ProjectTeam) (tc : option TeamsConfig) (inp : Inputs) : st W (result Rendered) :=
  match bundle, pt with
  | None, _ => st_ret (Err (EOpaque "teamrender.Render: nil bundle"))
  | _, None => st_ret (Err (EOpaque "teamrender.Render: nil ProjectTeam"))
  | Some bundle, Some pt =>
      let project := TrimSpace (in_Project inp) in
      if String.eqb project "" then st_ret (Err (EOpaque "teamrender.Render: project name required"))
      else
        renderRoles bundle (ptsp_Harnesses (pt_Spec pt))
          (renderPair bundle tc inp project (or_default (in_Realm inp) DefaultRealm) (or_default (in_Space inp) DefaultSpace)
             (or_default (in_Stack inp) DefaultStack))
          (ptsp_Roles (pt_Spec pt)) re_empty
  end.

Context `{YamlCodec ext.SecretDoc} `{YamlCodec ext.CellConfigDoc}.
Fixpoint marshalDocs {D} `{YamlCodec D} (text : string) (docs : list D) : result (list string) :=
  match docs with
  | [] => Ok []
  | d :: rest =>
      match yaml_Marshal d with
      | Err e => Err (EWrap text [e])
      | Ok raw => let? l := marshalDocs text rest in Ok (raw :: l)
      end
  end.
(** Secrets, blueprints, configs, with a line of three dashes before each but the first. *)
Definition MarshalYAML (res : option Rendered) : result string :=
  match res with
  | None => Ok ""
  | Some res =>
      let? s := marshalDocs "marshal secret %d: %w" (re_Secrets res) in
      let? b := marshalDocs "marshal blueprint %d: %w" (re_Blueprints res) in
      let? c := marshalDocs "marshal config %d: %w" (re_Configs res) in
      Ok (Join ("---" +:+ Template.newline) (s ++ b ++ c))
  end.
End Render.

(** ** Secrets (internal/teamsecrets) *)

Definition FileName : string := "secrets.env".
Definition FilePerm : Z := 384.
Definition DirPerm : Z := 448.

Definition KebabCase (s : string) : string := ReplaceAll (ToLower s) "_" "-".

(** strings.TrimLeft with a blank and a tab *)
Fixpoint TrimLeftBlank (s : string) : string :=
  match s with
  | String c s' => if one_of (" " +:+ String (Ascii.ascii_of_nat 9) "") c then TrimLeftBlank s' else s
  | EmptyString => EmptyString
  end.
Definition carriage : Ascii.ascii := Ascii.ascii_of_nat 13.
Fixpoint drop_carriage (s : string) : string :=
  match s with
  | EmptyString => EmptyString
  | String c EmptyString => if Ascii.eqb c carriage then EmptyString else s
  | String c s' => String c (drop_carriage s')
  end.
(** bufio.MaxScanTokenSize: a line that fills the scanner's buffer ends the scan. *)
Definition MaxScanTokenSize : N := 65536.
Fixpoint bytes_N (s : string) : N := match s with EmptyString => 0 | String _ s' => N.succ (bytes_N s') end.

(** The entry of a line: nothing for a blank line, a comment, a line without an equals sign
    or with an empty key. *)
Definition env_entry (line : string) : option (string * string) :=
  let trimmed := TrimLeftBlank line in
  if String.eqb trimmed "" || HasPrefix trimmed "#" then None
  else match cut_at "="%char trimmed with
       | None => None
       | Some (k, v) => if String.eqb (TrimSpace k) "" then None else Some (TrimSpace k, v)
       end.
(** A later line for a key replaces the earlier.  A last empty line gives no entry, whether
    it is scanned or not. *)
Definition parseEnv (text : string) : result (gmap string string) :=
  let lines := split_on (Ascii.ascii_of_nat 10) text in
  if existsb (fun l => (MaxScanTokenSize <=? bytes_N l)%N) lines then Err (EWrap "scan env: %w" [EOpaque "bufio.Scanner: token too long"])
  else Ok (foldl (fun out l => match env_entry (drop_carriage l) with Some (k, v) => <[k := v]> out | None => out end) ∅ lines).

(** Per-team values win unless they are empty and the key is shared. *)
Definition Merge (shared perTeam : gmap string string) : gmap string string :=
  filter (fun '(k, v) => v ≠ "" ∨ shared !! k = None) perTeam ∪ shared.

Definition secretDoc (realm name data : string) : ext.SecretDoc :=
  {| ext.secret_APIVersion := ext.APIVersionV1Beta1; ext.secret_Kind := ext.KindSecret;
     ext.secret_Metadata := {| ext.secm_Name := name; ext.secm_Realm := realm; ext.secm_Space := ""; ext.secm_Stack := ""; ext.secm_Cell := "" |};
     ext.secret_Data := data |}.
Definition secret_name (d : ext.SecretDoc) : string := ext.secm_Name (ext.secret_Metadata d).
Definition secret_le (a b : ext.SecretDoc) : Prop := str_le (secret_name a) (secret_name b).
#[global] Instance secret_le_dec a b : Decision (secret_le a b) := decide (str_le _ _).

Definition has_value (merged : gmap string string) (k : string) : bool := negb (String.eqb (default "" (merged !! k)) "").
(** The secrets and the keys without a value.  sort.Slice leaves the order of equal names
    open; here it is that of the merge. *)
Definition RenderSecrets (merged : gmap string string) (needs : list string) (realm : string) : list ext.SecretDoc * list string :=
  if String.eqb (TrimSpace realm) "" then ([], [])
  else
    let keys := uniqueSortedNonEmpty needs in
    (merge_sort secret_le
       ((fun k => secretDoc realm (KebabCase k) (default "" (merged !! k)))
          <$> List.filter (fun k => has_value merged k && negb (String.eqb (KebabCase k) "")) keys),
     List.filter (fun k => negb (has_value merged k)) keys).

(** The names the roster's roles declare, for the selected harnesses and for all *)
Definition UnionSecretNames (roles : gmap string Role) (roster : list ProjectTeamRole) (harnesses : list string) : list string :=
  uniqueSortedNonEmpty
    (roster ≫= (fun ptRole =>
       match roles !! ptr_Ref ptRole with
       | None => []
       | Some role =>
           (harnesses ≫= (fun h => match rlsp_Harnesses (rl_Spec role) !! h with Some rh => rh_Secrets rh | None => [] end))
           ++ rn_Secrets (rlsp_Needs (rl_Spec role))
       end)).

Record ComposeInputs := { ci_SharedPath : string; ci_TeamPath : string; ci_Needs : list string; ci_Realm : string; ci_DryRun : bool }.
Record ComposeResult := { cr_Secrets : list ext.SecretDoc; cr_EmptyKeys : list string; cr_SharedScaffolded : bool; cr_TeamScaffolded : bool }.

Section Secrets.
Context {W : Type} `{TeamHost W}.

Definition ScaffoldEnvFile (path : string) (keys : list string) : st W (result bool) :=
  match keys with
  | [] => st_ret (Ok false)
  | _ =>
      let! e := tho_Stat path in
      match e with
      | None => st_ret (Ok false)
      | Some e =>
          if negb (tho_IsNotExist e) then st_ret (Err (EWrap "stat %q: %w" [e]))
          else
            let!? _ := st_check (wrapf "create dir %q: %w") (tho_MkdirAll (FDir path) DirPerm) in
            let text := String.concat "" ((fun k => k +:+ "=" +:+ Template.newline) <$> uniqueSortedNonEmpty keys) in
            let!? _ := st_check (wrapf "write %q: %w") (tho_WriteFile path text FilePerm) in
            let!? _ := st_check (wrapf "chmod %q: %w") (tho_Chmod path FilePerm) in
            st_ret (Ok true)
      end
  end.

(** Opening and reading are one step: a failure to read is reported as one to open. *)
Definition LoadEnvFile (path : string) : st W (result (gmap string string)) :=
  let! r := tho_ReadFile path in
  st_ret (match r with
          | Err e => if tho_IsNotExist e then Ok ∅ else Err (EWrap "open %q: %w" [e])
          | Ok text => parseEnv text
          end).

Definition Compose (i : ComposeInputs) : st W (result ComposeResult) :=
  match ci_Needs i with
  | [] => st_ret (Ok {| cr_Secrets := []; cr_EmptyKeys := []; cr_SharedScaffolded := false; cr_TeamScaffolded := false |})
  | needs =>
      let!? (sharedCreated, teamCreated) :=
        (if ci_DryRun i then st_ret (Ok (false, false))
         else
           let!? a := st_wrap (wrapf "scaffold shared secrets.env: %w") (ScaffoldEnvFile (ci_SharedPath i) needs) in
           let!? b := st_wrap (wrapf "scaffold team secrets.env: %w") (ScaffoldEnvFile (ci_TeamPath i) needs) in
           st_ret (Ok (a, b))) in
      let!? shared := LoadEnvFile (ci_SharedPath i) in
      let!? perTeam := LoadEnvFile (ci_TeamPath i) in
      let '(secrets, emptyKeys) := RenderSecrets (Merge shared perTeam) needs (ci_Realm i) in
      st_ret (Ok {| cr_Secrets := secrets; cr_EmptyKeys := emptyKeys; cr_SharedScaffolded := sharedCreated; cr_TeamScaffolded := teamCreated |})
  end.
End Secrets.

(** ** Lemmas on names *)

Lemma elem_of_unique_sorted x l : x ∈ uniqueSortedNonEmpty l ↔ x ≠ "" ∧ ∃ y, y ∈ l ∧ x = TrimSpace y.
Proof.
  unfold uniqueSortedNonEmpty. rewrite merge_sort_Permutation, elem_of_remove_dups, list_elem_of_filter, list_elem_of_fmap.
  naive_solver.
Qed.
Lemma elem_of_addNames x names out : x ∈ addNames names out ↔ x ∈ out ∨ x ≠ "" ∧ ∃ y, y ∈ names ∧ x = TrimSpace y.
Proof.
  revert out. induction names as [|n names IH]; intros out; cbn [addNames]; [set_solver|].
  destruct (String.eqb_spec (TrimSpace n) "") as [E|E]; cbn [orb]; [rewrite IH; set_solver|].
  destruct (existsb _ out) eqn:Ex; rewrite IH; [|set_solver].
  apply existsb_exists in Ex as (y & Hy & <-%String.eqb_eq). apply list_elem_of_In in Hy. set_solver.
Qed.
(** What a configuration may bind is what the team's secrets are composed for. *)
Lemma effective_in_union roles roster harnesses p role h n :
  p ∈ roster → roles !! ptr_Ref p = Some role → h ∈ harnesses → n ∈ effectiveSecretNames role h → n ∈ UnionSecretNames roles roster harnesses.
Proof.
  intros Hp Hr Hh. unfold effectiveSecretNames, UnionSecretNames. rewrite elem_of_addNames, elem_of_unique_sorted. intros Hn.
  assert (Hin : ∀ y, y ∈ rn_Secrets (rlsp_Needs (rl_Spec role)) ∨ (∃ rh, rlsp_Harnesses (rl_Spec role) !! h = Some rh ∧ y ∈ rh_Secrets rh) →
            y ∈ roster ≫= (fun ptRole => match roles !! ptr_Ref ptRole with None => [] | Some role =>
              (harnesses ≫= (fun h => match rlsp_Harnesses (rl_Spec role) !! h with Some rh => rh_Secrets rh | None => [] end))
              ++ rn_Secrets (rlsp_Needs (rl_Spec role)) end)).
  { intros y Hy. apply list_elem_of_bind. exists p. rewrite Hr, elem_of_app, list_elem_of_bind. split; [|done].
    destruct Hy as [Hy|(rh & Erh & Hy)]; [by right|left]. exists h. by rewrite Erh. }
  destruct Hn as [Hn|(Hn & y & Hy & ->)].
  - destruct (rlsp_Harnesses (rl_Spec role) !! h) as [rh|] eqn:E; [|by apply elem_of_nil in Hn].
    apply elem_of_addNames in Hn as [Hn%elem_of_nil|(Hn & y & Hy & ->)]; [done|]. split; [done|]. exists y. naive_solver.
  - split; [done|]. exists y. naive_solver.
Qed.

(** *** Kebab case *)

Definition kebab (c : Ascii.ascii) : Ascii.ascii := if Ascii.eqb (lower c) "_"%char then "-"%char else lower c.
Lemma KebabCase_map s : KebabCase s = map_bytes kebab s.
Proof.
  unfold KebabCase, ToLower, ReplaceAll. induction s as [|c s IH]; [done|]. cbn [map_bytes replace_from]. unfold kebab at 1.
  rewrite HasPrefix_cons, Ascii.eqb_sym.
  replace (HasPrefix (map_bytes lower s) "") with true by by destruct (map_bytes lower s). rewrite andb_true_r.
  change (String.length "_" - 1) with 0. rewrite IH. by destruct (Ascii.eqb _ _).
Qed.
Lemma kebab_idem c : kebab (kebab c) = kebab c.
Proof. destruct c as [[] [] [] [] [] [] [] []]; reflexivity. Qed.
Lemma KebabCase_idem s : KebabCase (KebabCase s) = KebabCase s.
Proof. rewrite !KebabCase_map. induction s as [|c s IH]; [done|]. cbn. by rewrite kebab_idem, IH. Qed.
Lemma KebabCase_nonempty s : s ≠ "" → KebabCase s ≠ "".
Proof. rewrite KebabCase_map. by destruct s. Qed.

Lemma has_value_some merged k : has_value merged k = true → ∃ v, merged !! k = Some v ∧ v ≠ "".
Proof. unfold has_value. intros H%negb_true_iff%String.eqb_neq. destruct (merged !! k) as [v|]; [eauto|done]. Qed.

(** The rendered secrets: one for every needed key with a value, under its kebab name. *)
Lemma elem_of_RenderSecrets merged needs realm d : TrimSpace realm ≠ "" →
  d ∈ (RenderSecrets merged needs realm).1 ↔
  ∃ k, k ∈ uniqueSortedNonEmpty needs ∧ has_value merged k = true ∧ d = secretDoc realm (KebabCase k) (default "" (merged !! k)).
Proof.
  intros Hr. unfold RenderSecrets. rewrite (proj2 (String.eqb_neq _ _) Hr). cbn [fst].
  rewrite merge_sort_Permutation, list_elem_of_fmap. apply exist_proper. intros k.
  rewrite list_elem_of_In, filter_In, <-list_elem_of_In, andb_true_iff, negb_true_iff, String.eqb_neq.
  split; [naive_solver|]. intros (Hk & Hv & ->). split_and!; try done.
  apply KebabCase_nonempty. by apply elem_of_unique_sorted in Hk as [? _].
Qed.

(** Merging keeps a per-team value, and the shared one under an empty per-team value. *)
Lemma Merge_lookup shared perTeam k :
  Merge shared perTeam !! k = match perTeam !! k with
                              | Some v => if String.eqb v "" then match shared !! k with Some s => Some s | None => Some v end else Some v
                              | None => shared !! k
                              end.
Proof.
  unfold Merge. destruct (perTeam !! k) as [v|] eqn:Ep.
  - destruct (String.eqb_spec v "") as [->|Hv].
    + destruct (shared !! k) as [s|] eqn:Es.
      * rewrite lookup_union_r; [done|]. apply map_lookup_filter_None. right. intros x Hx. naive_solver.
      * apply lookup_union_Some_l. apply map_lookup_filter_Some. naive_solver.
    + apply lookup_union_Some_l. apply map_lookup_filter_Some. naive_solver.
  - rewrite lookup_union_r; [done|]. apply map_lookup_filter_None. by left.
Qed.

(** ** Theorems: secrets *)

Lemma union_idem roles roster harnesses n :
  n ∈ UnionSecretNames roles roster harnesses → n ∈ uniqueSortedNonEmpty (UnionSecretNames roles roster harnesses).
Proof.
  intros Hn. apply elem_of_unique_sorted. pose proof Hn as (Hne & y & _ & ->)%elem_of_unique_sorted.
  split; [done|]. eexists. split; [exact Hn|]. by rewrite TrimSpace_idem.
Qed.
(** The fills of a config: the effective names the blueprint has a slot for. *)
Lemma bound_secret bp r roleRef h tc src inp project realm space stack n fill :
  ext.cfs_Secrets (ext.cfg_Spec (BindConfig bp r roleRef h tc src inp project realm space stack)) !! n = Some fill →
  n ∈ effectiveSecretNames r h ∧ n ∈ collectSecretSlots bp ∧ fill = secretFill realm n.
Proof.
  intros (x & E & [Hs Hx]%list_elem_of_filter)%elem_of_list_to_map_2%list_elem_of_fmap. by injection E as -> ->.
Qed.

(** A key that is written as the name of its secret: no upper-case letter, no underscore. *)
Fixpoint kebab_key (s : string) : bool :=
  match s with
  | EmptyString => true
  | String c s' => negb (Ascii.eqb c "_"%char) && negb ((65 <=? Ascii.nat_of_ascii c) && (Ascii.nat_of_ascii c <=? 90)) && kebab_key s'
  end.
Lemma kebab_same c : negb (Ascii.eqb c "_"%char) && negb ((65 <=? Ascii.nat_of_ascii c) && (Ascii.nat_of_ascii c <=? 90)) = true → kebab c = c.
Proof. destruct c as [[] [] [] [] [] [] [] []]; vm_compute; congruence. Qed.
Lemma kebab_key_same s : kebab_key s = true → KebabCase s = s.
Proof.
  rewrite KebabCase_map. induction s as [|c s IH]; [done|]. cbn [kebab_key map_bytes]. intros [Hc Hs]%andb_true_iff.
  by rewrite (kebab_same c Hc), (IH Hs).
Qed.
(** The value of a key: the team's own, unless it is empty and there is a shared one. *)
Definition key_value (shared perTeam : gmap string string) (k : string) : string :=
  match perTeam !! k, shared !! k with
  | Some v, Some s => if String.eqb v "" then s else v
  | Some v, None => v
  | None, Some s => s
  | None, None => ""
  end.
Lemma merged_value shared perTeam k : default "" (Merge shared perTeam !! k) = key_value shared perTeam k.
Proof.
  rewrite Merge_lookup. unfold key_value. destruct (perTeam !! k) as [v|], (shared !! k) as [u|]; cbn; try done.
  - by destruct (String.eqb v "").
  - destruct (String.eqb_spec v ""); by subst.
Qed.

(** Of a name a config binds: what is rendered for it, and whether it is reported as empty. *)
Lemma bound_rendered bp roles roster harnesses p role h tc src inp project realm space stack shared perTeam n fill :
  p ∈ roster → roles !! ptr_Ref p = Some role → h ∈ harnesses → TrimSpace realm ≠ "" →
  ext.cfs_Secrets (ext.cfg_Spec (BindConfig bp role (ptr_Ref p) h tc src inp project realm space stack)) !! n = Some fill →
  let v := key_value shared perTeam n in
  let out := RenderSecrets (Merge shared perTeam) (UnionSecretNames roles roster harnesses) realm in
  fill = secretFill realm n ∧ (n ∈ out.2 ↔ v = "") ∧ (v ≠ "" → secretDoc realm (KebabCase n) v ∈ out.1).
Proof.
  intros Hp Hr Hh Hrealm (Hn & _ & ->)%bound_secret v out. split; [done|].
  pose proof (union_idem _ _ _ _ (effective_in_union _ _ _ _ _ _ _ Hp Hr Hh Hn)) as Hu.
  assert (Hv : has_value (Merge shared perTeam) n = negb (String.eqb v "")) by (unfold has_value; by rewrite merged_value).
  split.
  - subst out. unfold RenderSecrets. rewrite (proj2 (String.eqb_neq _ _) Hrealm). cbn [snd].
    rewrite list_elem_of_In, filter_In, <-list_elem_of_In, Hv, negb_involutive, String.eqb_eq. naive_solver.
  - intros Hne. apply elem_of_RenderSecrets; [done|]. exists n. rewrite Hv, merged_value. split_and!; [done| |done].
    by destruct (String.eqb_spec v "").
Qed.

(** C37: Take a secret that a config rendered for a role of the roster and a harness of the
    project binds, its key having no upper-case letter and no underscore.  If the key has a
    value, its own team's or else the shared one, then the binding refers to a secret of that
    name and realm which is rendered with this value, and the key is not reported as empty.
    If it has none, it is reported as empty. *)
Theorem bound_secrets_resolve bp roles roster harnesses p role h tc src inp project realm space stack shared perTeam n fill :
  p ∈ roster → roles !! ptr_Ref p = Some role → h ∈ harnesses → TrimSpace realm ≠ "" → kebab_key n = true →
  ext.cfs_Secrets (ext.cfg_Spec (BindConfig bp role (ptr_Ref p) h tc src inp project realm space stack)) !! n = Some fill →
  let v := key_value shared perTeam n in
  let out := RenderSecrets (Merge shared perTeam) (UnionSecretNames roles roster harnesses) realm in
  if String.eqb v "" then n ∈ out.2
  else n ∉ out.2 ∧ ∃ ref d, ext.sf_SecretRef fill = Some ref ∧ d ∈ out.1 ∧ ext.csr_Name ref = n ∧
    ext.secm_Name (ext.secret_Metadata d) = ext.csr_Name ref ∧ ext.secm_Realm (ext.secret_Metadata d) = ext.csr_Realm ref ∧ ext.secret_Data d = v.
Proof.
  intros Hp Hr Hh Hrealm Hk Hb v out.
  destruct (bound_rendered bp roles roster harnesses p role h tc src inp project realm space stack shared perTeam n fill Hp Hr Hh Hrealm Hb)
    as (-> & He & Hd). fold v out in He, Hd. rewrite kebab_key_same in Hd by done.
  destruct (String.eqb_spec v "") as [E|Hne]; [by apply He|]. split; [by rewrite He|].
  eexists _, _. split; [reflexivity|]. split; [by apply Hd|done].
Qed.

(** Of any other key the binding refers to the name as the role writes it, and the secret is
    rendered under the kebab name: it finds none. *)
Lemma other_keys_dangle merged needs realm n d ref : TrimSpace realm ≠ "" → KebabCase n ≠ n →
  d ∈ (RenderSecrets merged needs realm).1 → ext.sf_SecretRef (secretFill realm n) = Some ref → ext.csr_Name ref ≠ secret_name d.
Proof.
  intros Hr Hk (k & _ & _ & ->)%elem_of_RenderSecrets [= <-] Heq; [|done]. cbn in Heq. apply Hk. by rewrite Heq, KebabCase_idem.
Qed.

(** *** The files of secrets *)

(** What is assumed of the operator's file system: [text w p] is the text of a file. *)
Class FileLaws {W : Type} `{TeamHost W} (text : W → string → option string) := {
  stat_same : ∀ p w, (tho_Stat p w).1 = w;
  stat_found : ∀ p w t, text w p = Some t → (tho_Stat p w).2 = None;
  read_same : ∀ p w, (tho_ReadFile p w).1 = w;
  read_text : ∀ p w t, text w p = Some t → (tho_ReadFile p w).2 = Ok t;
  mkdir_texts : ∀ d m w p, text (tho_MkdirAll d m w).1 p = text w p;
  write_local : ∀ q x m w p, p ≠ q → text (tho_WriteFile q x m w).1 p = text w p;
  chmod_texts : ∀ q m w p, text (tho_Chmod q m w).1 p = text w p
}.

Section Files.
Context {W : Type} `{TeamHost W} (text : W → string → option string) `{!FileLaws text}.
Definition keeps (w w' : W) : Prop := ∀ p t, text w p = Some t → text w' p = Some t.
#[local] Instance keeps_preorder : PreOrder keeps.
Proof. split; unfold keeps; [by intros w|]. intros w1 w2 w3. naive_solver. Qed.

(** Every text but that of one file is the same. *)
Definition others (p : string) (w w' : W) : Prop := ∀ q, q ≠ p → text w' q = text w q.
#[local] Instance others_preorder p : PreOrder (others p).
Proof. split; unfold others; [by intros w|]. intros w1 w2 w3 H1 H2 q Hq. by rewrite H2, H1. Qed.

Lemma stat_eq p w : tho_Stat p w = (w, (tho_Stat p w).2).
Proof. rewrite <-(stat_same p w) at 2. apply surjective_pairing. Qed.
Lemma ScaffoldEnvFile_existing p keys w t : text w p = Some t → ScaffoldEnvFile p keys w = (w, Ok false).
Proof. intros Ht. unfold ScaffoldEnvFile. destruct keys; [done|]. unfold st_bind. by rewrite stat_eq, (stat_found _ _ _ Ht). Qed.
Lemma ScaffoldEnvFile_keeps p keys : respects keeps (ScaffoldEnvFile p keys).
Proof.
  intros w. destruct (text w p) as [t|] eqn:Ep; [by rewrite (ScaffoldEnvFile_existing _ _ _ _ Ep)|].
  unfold ScaffoldEnvFile. destruct keys as [|k keys]; [done|]. unfold st_bind at 1. rewrite stat_eq.
  destruct (tho_Stat p w).2 as [e|]; [|done]. destruct (negb _); [done|].
  match goal with |- keeps _ (?m w).1 => assert (Ho : respects (others p) m) end.
  { solve_frame; intros v q Hq; [apply mkdir_texts|by apply write_local|apply chmod_texts]. }
  intros q t Hq. rewrite (Ho w); [done|]. intros ->. by rewrite Hq in Ep.
Qed.
Lemma read_eq p w : tho_ReadFile p w = (w, (tho_ReadFile p w).2).
Proof. rewrite <-(read_same p w) at 2. apply surjective_pairing. Qed.
Lemma LoadEnvFile_eq p w : LoadEnvFile p w = (w, (LoadEnvFile p w).2).
Proof. unfold LoadEnvFile, st_bind. by rewrite read_eq. Qed.
Lemma LoadEnvFile_text p w t : text w p = Some t → LoadEnvFile p w = (w, parseEnv t).
Proof. intros Ht. unfold LoadEnvFile, st_bind. by rewrite read_eq, (read_text _ _ _ Ht). Qed.
Lemma LoadEnvFile_keeps p : respects keeps (LoadEnvFile p).
Proof. intros w. by rewrite LoadEnvFile_eq. Qed.

(** Composing the secrets of a team never changes a file that is there, whatever fails;
    a dry run changes nothing at all; and with both files in place the secrets are those of
    the merged entries. *)
Theorem secret_files_kept i w w' r :
  Compose i w = (w', r) →
  keeps w w' ∧ (ci_DryRun i = true → w' = w) ∧
  (∀ s t ms mt, ci_Needs i ≠ [] → text w (ci_SharedPath i) = Some s → text w (ci_TeamPath i) = Some t →
     parseEnv s = Ok ms → parseEnv t = Ok mt →
     w' = w ∧ r = Ok {| cr_Secrets := (RenderSecrets (Merge ms mt) (ci_Needs i) (ci_Realm i)).1;
                        cr_EmptyKeys := (RenderSecrets (Merge ms mt) (ci_Needs i) (ci_Realm i)).2;
                        cr_SharedScaffolded := false; cr_TeamScaffolded := false |}).
Proof.
  intros Hrun. split_and!.
  - assert (Hk : respects keeps (Compose i)); [|specialize (Hk w); by rewrite Hrun in Hk].
    unfold Compose. destruct (ci_Needs i) as [|n l]; [by intros v|]. solve_frame.
    all: try apply ScaffoldEnvFile_keeps. all: try apply LoadEnvFile_keeps.
  - intros Hd. revert Hrun. unfold Compose. rewrite Hd. destruct (ci_Needs i); [by intros [= <- <-]|].
    unfold st_try, st_bind, st_ret. rewrite LoadEnvFile_eq. destruct (LoadEnvFile (ci_SharedPath i) w).2; [|by intros [= <- <-]].
    rewrite LoadEnvFile_eq. destruct (LoadEnvFile (ci_TeamPath i) w).2; [|by intros [= <- <-]].
    destruct (RenderSecrets _ _ _). by intros [= <- <-].
  - intros s t ms mt Hn Hs Ht Es Et. revert Hrun. unfold Compose. destruct (ci_Needs i) as [|n l]; [done|].
    destruct (ci_DryRun i).
    all: unfold st_try, st_wrap, st_bind, st_ret.
    all: rewrite ?(ScaffoldEnvFile_existing _ _ _ _ Hs), ?(ScaffoldEnvFile_existing _ _ _ _ Ht).
    all: rewrite (LoadEnvFile_text _ _ _ Hs), Es, (LoadEnvFile_text _ _ _ Ht), Et.
    all: destruct (RenderSecrets _ _ _); by intros [= <- <-].
Qed.
End Files.

(** ** Theorems: the roster *)

Lemma scopeToProject_scoped name project : TrimSpace project = project → project ≠ "" →
  scopeToProject name project = project ∨ HasPrefix (scopeToProject name project) (project +:+ "-") = true.
Proof.
  intros Ht Hne. unfold scopeToProject. rewrite Ht, (proj2 (String.eqb_neq _ _) Hne).
  destruct (String.eqb_spec name project) as [->|Hn]; [by left|]. cbn [orb]. right.
  destruct (HasPrefix name (project +:+ "-")) eqn:E; [done|]. rewrite <-string_app_assoc. apply HasPrefix_self.
Qed.

Lemma hasAll_spec haystack needles : hasAll haystack needles = true ↔ ∀ n, n ∈ needles → n ∈ haystack.
Proof.
  unfold hasAll. rewrite forallb_forall. setoid_rewrite existsb_exists. setoid_rewrite <-list_elem_of_In.
  setoid_rewrite String.eqb_eq. naive_solver.
Qed.
(** The image of a harness: the first of the catalog with all capabilities. *)
Definition fits (harness : string) (needs : list string) (e : ImageCatalogEntry) : Prop :=
  ice_Harness e = harness ∧ ∀ n, n ∈ needs → n ∈ ice_Capabilities e.
Lemma SelectImage_fits ic harness needs e : SelectImage (Some ic) harness needs = Ok e → e ∈ ic_Images ic ∧ fits harness needs e.
Proof.
  destruct ic as [a k [|x l]]; [done|]. unfold SelectImage. cbn [ic_Images].
  destruct (List.find _ _) as [y|] eqn:E; [|by destruct (String.eqb _ _)]. intros [= <-].
  apply find_some in E as [Hin [Hh%String.eqb_eq Hc]%andb_true_iff]. rewrite list_elem_of_In.
  split; [done|]. split; [done|]. by apply hasAll_spec.
Qed.

Section Roster.
Context {W : Type} `{TeamHost W} `{TemplateEngine} `{YamlCodec ext.CellBlueprintDoc}.
Context (b : Bundle) (tc : option TeamsConfig) (inp : Inputs) (project realm space stack : string).

(** What a role and a harness are rendered to: a blueprint that is the decoded output of a
    template, executed for an image of the catalog with every capability needed, and a config
    that refers to it; [sel] are the refs of the selected images. *)
Definition pair_ok (sel : list string) (ph : ProjectTeamRole * string) (bp : ext.CellBlueprintDoc) (cfg : ext.CellConfigDoc) : Prop :=
  ∃ role entry tpl name text raw,
    let needs := MergeNeeds (rn_Image (rlsp_Needs (rl_Spec role))) (default [] (ptr_Needs ph.1)) in
    bu_Roles b !! ptr_Ref ph.1 = Some role ∧
    entry ∈ ic_Images (bu_ImageCatalog b) ∧ fits ph.2 needs entry ∧ ice_Ref entry ∈ sel ∧
    tpl_Execute tpl name (renderContextValues (W := W) (ptr_Ref ph.1) ph.2 entry needs role tc (bu_Source b) inp project realm space stack) = Ok text ∧
    yaml_Unmarshal text = Ok raw ∧ bp = stampBlueprint raw (ptr_Ref ph.1) ph.2 project realm space stack ∧
    cfg = BindConfig bp role (ptr_Ref ph.1) ph.2 tc (bu_Source b) inp project realm space stack.
Definition roster_ok (pairs : list (ProjectTeamRole * string)) (res : Rendered) : Prop :=
  Forall3 (pair_ok (ice_Ref <$> re_Selections res)) pairs (re_Blueprints res) (re_Configs res) ∧
  NoDup (ice_Ref <$> re_Selections res).

Lemma pair_ok_mono sel sel' ph bp cfg : sel ⊆ sel' → pair_ok sel ph bp cfg → pair_ok sel' ph bp cfg.
Proof. intros Hs (role & e & tpl & name & text & raw & Hall). exists role, e, tpl, name, text, raw. set_solver. Qed.

Lemma re_add_selected res bp cfg e :
  let sel := ice_Ref <$> re_Selections res in
  let sel' := ice_Ref <$> re_Selections (re_add res bp cfg e) in
  sel ⊆ sel' ∧ ice_Ref e ∈ sel' ∧ (NoDup sel → NoDup sel').
Proof.
  cbn. destruct (existsb _ _) eqn:E.
  - split_and!; [done| |done]. apply existsb_exists in E as (x & Hx & Ex%String.eqb_eq). rewrite <-Ex.
    apply list_elem_of_fmap_2. by apply list_elem_of_In.
  - rewrite fmap_app. cbn. split_and!; [set_solver|set_solver|]. intros Hn. apply NoDup_app. split_and!; [done| |apply NoDup_singleton].
    intros r (x & -> & Hx)%list_elem_of_fmap Hr%list_elem_of_singleton. rewrite <-not_true_iff_false in E. apply E.
    apply existsb_exists. exists x. split; [by apply list_elem_of_In|]. by apply String.eqb_eq.
Qed.

Lemma RenderBlueprint_ok hn role h roleRef needs e w w' bp :
  RenderBlueprint (bu_CacheDir b) hn role h roleRef needs e tc (bu_Source b) inp project realm space stack w = (w', Ok bp) →
  ∃ tpl name text raw, tpl_Execute tpl name (renderContextValues (W := W) roleRef h e needs role tc (bu_Source b) inp project realm space stack) = Ok text ∧
    yaml_Unmarshal text = Ok raw ∧ bp = stampBlueprint raw roleRef h project realm space stack.
Proof.
  unfold RenderBlueprint. intros (w1 & u & _ & Hrun)%st_try_ok. apply st_try_ok in Hrun as (w2 & raw & _ & Hrun).
  apply st_try_ok in Hrun as (w3 & tpl & _ & Hrun). apply st_try_ok in Hrun as (w4 & text & Ht & Hrun).
  apply st_try_ok in Hrun as (w5 & doc & Hd & Hrun). injection Hrun as _ <-.
  apply st_wrap_ok in Ht. apply st_wrap_ok in Hd. injection Ht as _ Ht. injection Hd as _ Hd. eauto 10.
Qed.

Lemma renderPair_ok pairs p role h res w w' res' :
  bu_Roles b !! ptr_Ref p = Some role → roster_ok pairs res →
  renderPair b tc inp project realm space stack p role h res w = (w', Ok res') → roster_ok (pairs ++ [(p, h)]) res'.
Proof.
  intros Hr [Hall Hnd]. unfold renderPair. destruct (bu_Harnesses b !! h) as [hn|]; [|done].
  intros (w1 & e & He & Hrun)%st_try_ok. apply st_try_ok in Hrun as (w2 & bp & Hb & Hrun). injection Hrun as _ <-.
  apply st_wrap_ok in He. injection He as _ He. apply SelectImage_fits in He as [Hin Hfit].
  apply st_wrap_ok, RenderBlueprint_ok in Hb as (tpl & name & text & raw & Hx & Hu & Hs).
  set (cfg := BindConfig _ _ _ _ _ _ _ _ _ _ _). destruct (re_add_selected res bp cfg e) as (Hsub & Hsel & Hn).
  split; [|by apply Hn]. cbn [re_Blueprints re_Configs re_add]. apply Forall3_app.
  - eapply Forall3_impl; [exact Hall|]. intros. by eapply pair_ok_mono.
  - repeat constructor. exists role, e, tpl, name, text, raw. by split_and!.
Qed.

Lemma renderHarnesses_ok p role hs pairs res w w' res' :
  bu_Roles b !! ptr_Ref p = Some role → roster_ok pairs res →
  renderHarnesses (renderPair b tc inp project realm space stack p role) hs res w = (w', Ok res') →
  roster_ok (pairs ++ ((p,.) <$> hs)) res'.
Proof.
  intros Hr. revert pairs res w. induction hs as [|h hs IH]; intros pairs res w Hok; cbn [renderHarnesses].
  - intros [= <- <-]. by rewrite app_nil_r.
  - intros (w1 & r1 & Hp & Hrun)%st_try_ok. eapply renderPair_ok in Hp; [|done..].
    eapply IH in Hrun; [|done]. by rewrite <-app_assoc in Hrun.
Qed.
Lemma renderRoles_ok hs ps pairs res w w' res' :
  roster_ok pairs res → renderRoles b hs (renderPair b tc inp project realm space stack) ps res w = (w', Ok res') →
  roster_ok (pairs ++ (ps ≫= fun p => (p,.) <$> hs)) res'.
Proof.
  revert pairs res w. induction ps as [|p ps IH]; intros pairs res w Hok; cbn [renderRoles].
  - intros [= <- <-]. by rewrite app_nil_r.
  - destruct (bu_Roles b !! ptr_Ref p) as [role|] eqn:Er; [|done]. intros (w1 & r1 & Hp & Hrun)%st_try_ok.
    eapply renderHarnesses_ok in Hp; [|done..]. eapply IH in Hrun; [|done]. by rewrite <-app_assoc in Hrun.
Qed.
End Roster.

(** A blueprint and a config that belong together and to the project *)
Definition belongs (project realm space stack : string) (bp : ext.CellBlueprintDoc) (cfg : ext.CellConfigDoc) : Prop :=
  let m := ext.bp_Metadata bp in
  ext.cfs_Blueprint (ext.cfg_Spec cfg) =
    {| ext.bref_Name := ext.bpm_Name m; ext.bref_Realm := ext.bpm_Realm m; ext.bref_Space := ext.bpm_Space m; ext.bref_Stack := ext.bpm_Stack m |} ∧
  (ext.bpm_Realm m, ext.bpm_Space m, ext.bpm_Stack m) = (realm, space, stack) ∧
  ext.bpm_Labels m !! ext.LabelTeam = Some project ∧ ext.cfm_Labels (ext.cfg_Metadata cfg) !! ext.LabelTeam = Some project ∧
  ext.cfm_Name (ext.cfg_Metadata cfg) = ext.bpm_Name m ∧
  (ext.cfm_Realm (ext.cfg_Metadata cfg), ext.cfm_Space (ext.cfg_Metadata cfg), ext.cfm_Stack (ext.cfg_Metadata cfg)) = (realm, space, stack) ∧
  (ext.bpm_Name m = project ∨ HasPrefix (ext.bpm_Name m) (project +:+ "-") = true).
Lemma pair_belongs {W} `{TeamHost W} `{TemplateEngine} `{YamlCodec ext.CellBlueprintDoc} b tc inp project realm space stack sel ph bp cfg :
  TrimSpace project = project → project ≠ "" →
  pair_ok (W := W) b tc inp project realm space stack sel ph bp cfg → belongs project realm space stack bp cfg.
Proof.
  intros Ht Hne (role & e & tpl & name & text & raw & _ & _ & _ & _ & _ & _ & -> & ->). unfold belongs. cbn.
  split_and!; [done|done|apply lookup_insert_eq|apply lookup_insert_eq|done|done|by apply scopeToProject_scoped].
Qed.

(** A capability the role or the project's entry for it asks for. *)
Definition asked_for (role : Role) (p : ProjectTeamRole) (n : string) : Prop :=
  n ≠ "" ∧ ∃ y, (y ∈ rn_Image (rlsp_Needs (rl_Spec role)) ∨ y ∈ default [] (ptr_Needs p)) ∧ n = TrimSpace y.
(** What a role and a harness are rendered from: an image of the catalog for the harness with
    every capability asked for, and a template executed with that image, the role and the
    harness, whose decoded output the blueprint's parameters are of. *)
Definition rendered_from {W} `{TeamHost W} `{TemplateEngine} `{YamlCodec ext.CellBlueprintDoc} (b : Bundle) (inp : Inputs) (sel : list string)
    (ph : ProjectTeamRole * string) (bp : ext.CellBlueprintDoc) : Prop :=
  ∃ role entry tpl name ctx text raw,
    bu_Roles b !! ptr_Ref ph.1 = Some role ∧ entry ∈ ic_Images (bu_ImageCatalog b) ∧ ice_Harness entry = ph.2 ∧
    (∀ n, asked_for role ph.1 n → n ∈ ice_Capabilities entry) ∧ ice_Ref entry ∈ sel ∧
    rc_role_ref ctx = ptr_Ref ph.1 ∧ rc_harness ctx = ph.2 ∧ rc_image_ref ctx = ice_Ref entry ∧
    (in_Build inp = false → rc_image ctx = ice_Image entry) ∧ (∀ n, n ∈ rc_needs_image ctx ↔ asked_for role ph.1 n) ∧
    tpl_Execute tpl name ctx = Ok text ∧ yaml_Unmarshal text = Ok raw ∧
    ext.bps_Parameters (ext.bp_Spec bp) = ext.bps_Parameters (ext.bp_Spec raw).
Lemma elem_of_needs role p n : n ∈ MergeNeeds (rn_Image (rlsp_Needs (rl_Spec role))) (default [] (ptr_Needs p)) ↔ asked_for role p n.
Proof. unfold MergeNeeds, asked_for. rewrite elem_of_unique_sorted. setoid_rewrite elem_of_app. done. Qed.
Lemma pair_rendered {W} `{TeamHost W} `{TemplateEngine} `{YamlCodec ext.CellBlueprintDoc} b tc inp project realm space stack sel ph bp cfg :
  pair_ok (W := W) b tc inp project realm space stack sel ph bp cfg → rendered_from (W := W) b inp sel ph bp.
Proof.
  intros (role & e & tpl & name & text & raw & Hr & He & [Hh Hc] & Hs & Hx & Hu & -> & _).
  eexists role, e, tpl, name, _, text, raw. split_and!; [done|done|done| |done| | | | | |exact Hx|exact Hu|done]; cbn; try done.
  - intros n Hn. by apply Hc, elem_of_needs.
  - by intros ->.
  - intros n. apply elem_of_needs.
Qed.


(** ** A small project *)

Definition sample_role (secrets : list string) : Role :=
  {| rl_APIVersion := APIVersionV1; rl_Kind := KindRole; rl_Name := "dev";
     rl_Spec := {| rlsp_Skills := [];
                   rlsp_Harnesses := {[ "claude" := {| rh_Settings := ""; rh_Sandbox := ""; rh_Approval := ""; rh_Permissions := ""; rh_Secrets := secrets |} ]};
                   rlsp_Needs := {| rn_Image := ["go"]; rn_Repos := []; rn_Mounts := []; rn_Params := []; rn_Secrets := [] |} |} |}.
Definition sample_entry : ProjectTeamRole := {| ptr_Ref := "dev"; ptr_Needs := Some ["git"; "go"] |}.
Definition sample_image (ref : string) (caps : list string) : ImageCatalogEntry :=
  {| ice_Ref := ref; ice_Harness := "claude"; ice_Image := "registry.io/" +:+ ref; ice_Build := {| icb_Context := "."; icb_Dockerfile := "Dockerfile" |};
     ice_Capabilities := caps |}.
Definition sample_bundle : Bundle :=
  {| bu_Source := sample_resolved; bu_CacheDir := "/c"; bu_Roles := {[ "dev" := sample_role ["ANTHROPIC_API_KEY"] ]};
     bu_Harnesses := {[ "claude" := {| hn_APIVersion := APIVersionV1; hn_Kind := KindHarness; hn_Name := "claude";
        hn_Spec := {| hsp_BaseImage := ""; hsp_SkillPath := ""; hsp_MakeTarget := ""; hsp_Template := "blueprint.tmpl.yaml"; hsp_Seeds := [] |} |} ]};
     bu_ImageCatalog := {| ic_APIVersion := APIVersionV1; ic_Kind := KindImageCatalog;
                           ic_Images := [sample_image "claude-go" ["go"]; sample_image "claude-dev" ["go"; "git"; "make"]] |} |}.
Definition sample_project : ProjectTeam :=
  {| pt_APIVersion := APIVersionV1; pt_Kind := KindProjectTeam; pt_Name := "kukeon";
     pt_Spec := {| ptsp_Source := sample_source; ptsp_ProjectDir := ""; ptsp_Realm := ""; ptsp_Space := ""; ptsp_Stack := "";
                   ptsp_Harnesses := ["claude"]; ptsp_Roles := [sample_entry] |} |}.
Definition sample_inputs : Inputs :=
  {| in_Project := " kukeon "; in_ProjectRepoURL := ""; in_ProjectDir := ""; in_ProjectCloneDir := ""; in_TeamDir := ""; in_Realm := "";
     in_Space := ""; in_Stack := ""; in_Build := false; in_SourceRef := "" |}.
Definition key_blueprint (key : string) : ext.CellBlueprintDoc :=
  let 'ext.Build_BlueprintContainer a1 a2 a3 a4 a5 a6 a7 a8 a9 b1 b2 b3 b4 b5 b6 b7 b8 b9 c1 c2 c3 c4 c5 c6 c7 c8 c9 _ := sample_slot_container in
  let slot := {| ext.bss_Name := key; ext.bss_Mode := "env"; ext.bss_EnvName := key; ext.bss_MountPath := ""; ext.bss_Required := false |} in
  let c := ext.Build_BlueprintContainer a1 a2 a3 a4 a5 a6 a7 a8 a9 b1 b2 b3 b4 b5 b6 b7 b8 b9 c1 c2 c3 c4 c5 c6 c7 c8 c9 [slot] in
  {| ext.bp_APIVersion := ""; ext.bp_Kind := "";
     ext.bp_Metadata := {| ext.bpm_Name := ""; ext.bpm_Realm := ""; ext.bpm_Space := ""; ext.bpm_Stack := ""; ext.bpm_Labels := ∅ |};
     ext.bp_Spec := {| ext.bps_Prefix := ""; ext.bps_Parameters := [];
                       ext.bps_Cell := {| ext.bcs_Tty := None; ext.bcs_Containers := [c]; ext.bcs_AutoDelete := false; ext.bcs_NestedCgroupRuntime := false |} |} |}.

(** Files with texts; directories are made as needed. *)
Definition file_host : TeamHost (gmap string string) := {|
  tho_Stat := fun p w => (w, if decide (is_Some (w !! p)) then None else Some (EOpaque "not found"));
  tho_IsNotExist := fun _ => true; tho_MkdirAll := fun _ _ => st_ret None;
  tho_MkdirTemp := fun _ _ => st_ret (Err (EOpaque "")); tho_Remove := fun p w => (delete p w, None); tho_RemoveAll := fun p w => (delete p w, None);
  tho_Rename := fun _ _ => st_ret (Some (EOpaque ""));
  tho_ReadFile := fun p w => (w, match w !! p with Some t => Ok t | None => Err (EOpaque "not found") end);
  tho_WriteFile := fun p t _ w => (<[p := t]> w, None); tho_Chmod := fun _ _ => st_ret None; tho_CreateTemp := fun _ _ => st_ret (Err (EOpaque ""));
  tho_Write := fun _ _ => st_ret None; tho_Close := fun _ => st_ret None; tho_Glob := fun _ => st_ret (Ok []);
  tho_git := fun _ _ _ => st_ret ("", None); tho_Environ := []; tho_LookupEnv := fun _ => None; url_Parse := fun _ => Err (EOpaque "") |}.
Definition file_text (w : gmap string string) (p : string) : option string := w !! p.
#[local] Instance file_host_laws : @FileLaws _ file_host file_text.
Proof.
  split; unfold file_text; cbn; try done.
  - intros p w t E. destruct (decide _) as [|Hn]; [done|]. destruct Hn. by rewrite E.
  - intros p w t E. by rewrite E.
  - intros q x _ w p Hp. by apply lookup_insert_ne.
Qed.
(** Templates are their text, documents the sample. *)
Definition plain_engine : TemplateEngine := {|
  TemplateSet := string; tpl_New := fun _ _ _ => ""; tpl_Parse := fun _ _ body => Ok body; tpl_Execute := fun body _ ctx => Ok (body +:+ rc_image ctx) |}.
Definition secret_codec : YamlCodec ext.CellBlueprintDoc := {|
  yaml_Marshal := fun _ => Ok "doc"; yaml_Unmarshal := fun _ => Ok (key_blueprint "ANTHROPIC_API_KEY");
  yaml_UnmarshalNode := fun _ => Err (EOpaque ""); yaml_Decode := fun _ => Ok (key_blueprint "ANTHROPIC_API_KEY") |}.


(** A lower-case key resolves; the shared value is used under an empty one of the team. *)
Lemma bound_secrets_resolve_witness :
  let roles : gmap string Role := {[ "dev" := sample_role ["api-key"] ]} in
  let out := RenderSecrets (Merge {[ "api-key" := "k" ]} {[ "api-key" := "" ]}) (UnionSecretNames roles [sample_entry] ["claude"]) "default" in
  "api-key" ∉ out.2 ∧ ∃ d, d ∈ out.1 ∧ ext.secm_Name (ext.secret_Metadata d) = "api-key" ∧ ext.secret_Data d = "k".
Proof.
  intros roles out.
  destruct (bound_secrets_resolve (key_blueprint "api-key") roles [sample_entry] ["claude"] sample_entry (sample_role ["api-key"])
    "claude" None sample_resolved sample_inputs "kukeon" "default" "default" "default" {[ "api-key" := "k" ]} {[ "api-key" := "" ]} "api-key"
    (secretFill "default" "api-key")) as [Hn (ref & d & Hf & Hd & Hr & Hm & _ & Hv)].
  - left.
  - vm_compute. reflexivity.
  - left.
  - by vm_compute.
  - reflexivity.
  - vm_compute. reflexivity.
  - split; [exact Hn|]. exists d. split; [exact Hd|]. split; [by rewrite Hm, Hr|exact Hv].
Defined.
(** An upper-case key is rendered under another name than the binding has. *)
Example upper_case_key_dangles :
  (secret_name <$> (RenderSecrets {[ "ANTHROPIC_API_KEY" := "k" ]} ["ANTHROPIC_API_KEY"] "default").1) = ["anthropic-api-key"] ∧
  (ext.csr_Name <$> ext.sf_SecretRef (secretFill "default" "ANTHROPIC_API_KEY")) = Some "ANTHROPIC_API_KEY".
Proof. split; vm_compute; reflexivity. Qed.

(** The per-team placeholder gives way to the shared value, and no file changes. *)
Lemma secret_files_kept_witness :
  let w : gmap string string := {[ "/h/teams/secrets.env" := "API_KEY=shared"; "/h/teams/x/secrets.env" := "API_KEY=" ]} in
  let i := {| ci_SharedPath := "/h/teams/secrets.env"; ci_TeamPath := "/h/teams/x/secrets.env"; ci_Needs := ["API_KEY"]; ci_Realm := "default"; ci_DryRun := false |} in
  (@Compose _ file_host i w).1 = w ∧
  match (@Compose _ file_host i w).2 with Ok r => (ext.secret_Data <$> cr_Secrets r) = ["shared"] | Err _ => False end.
Proof.
  intros w i. pose proof (@secret_files_kept _ file_host file_text file_host_laws i w _ _ (surjective_pairing _)) as (_ & _ & Hboth).
  destruct (Hboth "API_KEY=shared" "API_KEY=" {[ "API_KEY" := "shared" ]} {[ "API_KEY" := "" ]}) as [E1 E2].
  1: done. 1-4: vm_compute; reflexivity.
  split; [exact E1|]. rewrite E2. vm_compute. reflexivity.
Defined.

(** Names of two projects can meet after all, when one project's name extends the other's. *)
Lemma scoped_names_can_meet : scopeToProject "b-dev" "a" = scopeToProject "dev" "a-b".
Proof. reflexivity. Qed.
